(* ===== verification/_CoqProject ===== *)
-Q . S2P
Prelude.v
ExceptState.v
OrderedMaps.v
TPacketCrypt.v
TPacketCompress.v
TPacketSplit.v
TPacketSmartpak.v
TPacketFast.v
TestPackets.v
TPacketTest.v
TPacketRecords.v
DuplicateDetection.v
UnitDataRepo.v
DPlayPacket.v
GameAddressTranslater.v
TAPacketParser.v
Resumable.v
TADemoRecords.v
TADemoParser.v
TADemoEnds.v
TADemoRoundTrip.v
GpgNetParse.v
GpgNetStream.v
GpgNetMessages.v
GpgNetReports.v
QtText.v
TaDemoCompilerMessages.v
TaDemoCompilerClient.v
TaDemoCompiler.v
TaDemoCompilerFacts.v
TaDemoRecording.v
TaReplayServer.v
TaReplayFacts.v
TaReplayClient.v
LobbyClient.v
ReplayServerApp.v
DemoInfo.v
JDPlay.v
LaunchServer.v
LaunchClient.v
LaunchFacts.v
Talauncher.v
GpgNetGameLauncher.v
GpgNetGameLauncherFacts.v
EngineeringNotation.v
Replayer.v
ReplayerLobby.v
ReplayerPlay.v
ReplayerFacts.v
ReplayerPlayFacts.v
ReplayerSync.v
ReplayerApp.v
DataBuffer.v
TafnetNode.v
TafnetBounds.v
TafnetReliable.v
TafnetProtocol.v
TafnetLiveness.v
GameMonitor.v
GameMonitorTeams.v
GameMonitorSafety.v
GameMonitorResults.v
GameMonitorTest.v
GameEvents.v
GameEventsFacts.v
GameSender.v
TafnetGameNode.v
TafnetGameFacts.v
TafnetGamePorts.v
GameReceiverSlots.v
TaLobby.v
TaLobbyFacts.v
Gpgnet4ta.v
