(* ===== verification/Prelude.v ===== *)
(** * Verification library of gpgnet4ta

    gpgnet4ta lets players of Total Annihilation meet over the internet.  The game speaks
    DirectPlay to what it takes for its peers; here those are local sockets, whose traffic
    is carried to the other players over a peer to peer protocol of its own, is listened
    to for the state of the game, and can be compiled into demo files.

    ** The parts, from the wire up, and the files that model them

    - [TPacket] (src/libs/tapacket/TPacket.cpp): TPacketCrypt (checksum and cipher),
      TPacketCompress (LZ77 compression), TPacketSplit (codes, sizes and splitting of
      sub-packets), TPacketSmartpak (smartpak and its reference version, packets made by
      the program), TPacketRecords (the typed sub-packets).  TestPackets has the packets
      that the source has recorded from games (TestPackets.cpp), TPacketTest its test of
      the codec on them, run on TPacketFast, which decodes in linear time.
    - DuplicateDetection (src/libs/taflib/DuplicateDetection.cpp, nswfl_crc32.cpp): CRC-32
      by table and by bits, and the filter of recent packets.
    - UnitDataRepo (src/libs/tapacket/UnitDataRepo.cpp): the unit restrictions and their
      hash.
    - DPlayPacket (src/libs/tapacket/DPlayPacket.cpp): DirectPlay headers and addresses.
    - GameAddressTranslater (src/libs/tafnet/GameAddressTranslater.cpp): the addresses in
      DirectPlay messages are replaced in place.
    - TAPacketParser (src/libs/tapacket/TAPacketParser.cpp): game traffic to handler calls;
      uses all of the above.
    - TADemoRecords, TADemoParser (src/libs/tapacket/TADemoWriter.cpp, TADemoParser.cpp,
      TADemoRecords.h): demo files, written and read while they grow; Resumable is the
      theory of readers that stop when the data ends and are called again.
    - DataBuffer, TafnetNode (src/libs/tafnet/TafnetNode.cpp): the peer to peer node, its
      buffers, acknowledgements, resends, pings and packet size tests.
    - GameSender, TafnetGameNode (src/libs/tafnet/GameSender.cpp, GameReceiver.cpp,
      TafnetGameNode.cpp): the local sockets, and the object that ties the node, the
      translator and the parser together.  GameReceiverSlots has the slots of the sockets.
    - GameMonitor (src/apps/gpgnet4ta/GameMonitor2.cpp): the state machine of a game, fed
      by the parser; GameMonitorTest is its self test.
    - GpgNetParse, GpgNetStream, GpgNetMessages (src/libs/gpgnet): the protocol of the
      lobby server: commands on the wire, the loop that receives them, the messages and
      the client.
    - TaDemoCompilerMessages, TaDemoCompilerClient, TaDemoCompiler (src/libs/tareplay): the
      players' clients report a game to a server, which writes the demo.  A
      [UserContext] is an object of a store, shared by connections and games.
      TaDemoCompilerFacts and TaDemoRecording have its theorems.
    - TaReplayServer, TaReplayClient (src/libs/tareplay): demo files are sent to viewers
      while they are being written, with a delay; TaReplayFacts has the server's theorems.
    - JDPlay (src/libs/jdplay/JDPlay.cpp), LaunchServer, LaunchClient (src/libs/talaunch):
      the process that starts the game through DirectPlay, and the client that asks it to;
      LaunchFacts has their theorems.
    - Replayer, ReplayerLobby, ReplayerPlay (src/apps/replayer/TaReplayer.cpp): the
      program that plays a demo to viewers as if its players were there: hosting and
      reading the demo, the lobby with the synchronisation of the units, launching and
      loading, and playing.  It is made of the codec, the demo parser and JDPlay.
      ReplayerFacts, ReplayerPlayFacts and ReplayerSync have its theorems, TADemoEnds the
      fact that the demo parser ends on any input, EngineeringNotation
      (src/libs/taflib/EngineeringNotation.cpp) the text of its numbers, with doubles as
      the Standard Library specifies them.
    - QtText: numbers, addresses and the cutting and replacing of texts, as Qt does them;
      GpgNetReports: what the client sends, as commands.
    - GpgNetGameLauncher (src/apps/gpgnet4ta/GpgNetGameLauncher.cpp): starts the game when
      the lobby server and the console want it, checks its files, writes its settings and
      reports how far it has come; GpgNetGameLauncherFacts has its theorems.
    - GameEvents (src/apps/gpgnet4ta/GameEventHandlerQt.cpp, gpgnet4ta.cpp): the calls of
      the monitor as signals, and their two subscribers, [ForwardGameEventsToGpgNet] and
      [HandleGameStatus]; GameEventsFacts has their theorems.
    - TaLobby (src/apps/gpgnet4ta/TaLobby.cpp): holds the node, the game node, the monitor
      and the demo client, and is told by the lobby server whom to connect;
      TaLobbyFacts has its theorems.  [HandleGameStatus] talks into the game through the
      class [Lobby], of which TaLobby is an instance that works ([lobby_works]).
    - Gpgnet4ta (src/apps/gpgnet4ta/gpgnet4ta.cpp): what [doMain] connects.
    - LobbyClient, ReplayServerApp (src/apps/replayserver): the JSON client of the lobby,
      over an interface to Qt's JSON, and the program that runs the compiler and the
      replay server and tells the latter what the lobby says of the games.
    - DemoInfo, ReplayerApp (src/apps/replayer/replayer.cpp): what the replayer prints about
      a demo, and the program that plays one from a file or from a replay server.
    - Talauncher (src/apps/talauncher/talauncher.cpp): registers the game with DirectPlay,
      if need be in an elevated copy of itself, and runs the launch server.
    - Prelude, OrderedMaps and ExceptState: machine integers and byte buffers, [std::map]
      and its iteration order, and the state monad with exceptions that the handlers use.

    ** How code corresponds to definitions

    A definition has the name of the function that it models; the loops of a function are
    fixpoints next to it.  Bytes and machine integers are numbers [Z], with [u8], [u16],
    [u32] and [s32] where the code wraps.  Pointers are offsets into a buffer.  A result
    is [Ok], an exception [Throw], [Undef] (a read out of bounds, or other undefined
    behaviour) or [Hang] (the fuel of a loop ran out).  Calls of handlers, writes to
    sockets and files are logs or returned lists.  The clock, the ports that the system
    gives, whether a connection succeeds, and uninitialised memory are arguments.

    ** Fuel

    Loops over a buffer get one unit more than the buffer is long and each turn moves
    forward; the theorems on termination prove that this is enough, or say exactly when
    the code itself does not end ([translate_hang_iff]).  The compressor's loop is bounded
    by the length of its input, that of [packsize_loop] by 64 (sizes grow by 1.4 from 250
    up to 32 bits), the drain loop of the node by the size of its buffer.  The replayer plays
    at most the packets that wait and one for each byte that has arrived;
    [_engineeringNotation] calls itself at most six times deep, of 8, except for NaN, where the
    code does not end.  Reading a file in blocks and replacing in a text have the length of
    the file and of the text, and every turn takes at least one byte.

    ** What the theorems show

    - Wire formats: [decrypt_encrypt], [decompress_compress] and [records_roundtrip] are
      round trips, and so is [unsmartpak_smartPak] but for contents of four bytes, which
      the packer does not keep; [parseGameData_delivers] composes them into
      one statement on what the parser reports for what a player has sent;
      [unsmartpak_slowUnsmartpak] and [PartialCRC_bitwise] compare fast and plain versions;
      [decompress_total], [parseGameData_terminates], [expected_size_in_bounds_iff] are
      about arbitrary input.  [recorded_packets_decode] and [recorded_checksums] hold the
      definitions of the codec against packets from games.
    - [isLikelyDuplicate_window]: the buckets and the queue of the filter implement a
      window of the last packets, and [parseTaPacket_no_copy] what the parser makes of it.
    - Demo files: [parse_resumes], reading in parts is reading at once.
    - The peer to peer protocol: TafnetReliable has the invariants of one node,
      TafnetProtocol the two nodes with a network that loses, repeats and reorders;
      [reliable_delivery] is safety (whole messages, in order, once), and
      [delivery_always_possible] liveness (no losses make delivery impossible).
      TafnetBounds has the numeric limits.
    - The game node: [create_message_across] follows an address from game to game,
      [ports_lead_to_players] is the invariant of the port table over all operations, but for
      two coincidences of port numbers ([udp_number_taken], [leftover_port_taken]),
      [admitted_in_order] the order of admission, [broadcast_protected_once] a limit of
      the protection of broadcasts.
    - The monitor: GameMonitorTeams and GameMonitorSafety carry the invariant
      ([monitor_never_fails]; [unterminated_map_name] is the message that does make it fail);
      GameMonitorResults states that results are final, announced
      once, and fair ([winning_team_scores]); [runtests_passes] plays the games of the self test.
    - Lobby and recording: [commands_arrive] and [server_messages_arrive] say that the
      pieces in which a stream arrives do not matter, [bad_command_blocks] and
      [sendJoinGame_blocks] what does break it.  [game_recorded] goes from the connections
      of the players through the compiler and its file to the calls of the demo reader;
      [demo_roundtrip] is the file format on its own.
    - Replays: [viewer_sees_demo] is end to end, from the file on the server to the file of
      the viewer, whatever the pieces; [live_delay] is the promise that viewers see the
      game late, [early_subscriber_sees_live] and [reconnect_corrupts] where it and the
      copy fail.
    - Starting the game: [launch_server_never_fails] types every state of the server,
      [request_answered] what a client gets, [game_start_announced] that a started game is
      announced, [short_game_never_ends] the game whose end is never noticed.
    - The launcher: [game_reported_once] is the life of a game as the lobby server hears
      it, [listed_files_enforced] the check of the files of a rated game,
      [settings_filled] the settings file, [launch_order] that a launch may be asked for
      before or after the game is known; [application_lives] carries the first over to the
      whole application.
    - Events: [results_told_once] goes from the traffic of a game to what the lobby server
      hears of its end; [channel_left], [humans_counted] and [quit_only_harald] are about
      the messages to the players, the last with a flaw of the code.
    - The lobby: [server_connects_peers] goes from the bytes of the lobby server to the
      addresses at the node and the players at the game node, [application_signals] puts
      it into the application; [launch_orders_invites] is the console's order of joining.
    - Replaying: [packet_fed] is what a viewer's game decodes from a packet of the demo,
      [turn_plays_to_target] that a turn ends and plays as far as it should,
      [identities_keep_order] how the players get their identities,
      [replay_goes_forward] the order of the stages, [chat_filter] the filter of repeated
      messages.  [doSyncWatcher_refines] gives the synchronisation of one viewer as a small
      state machine; over it, [prompt_viewer_released] is its liveness, and
      [late_viewer_kept_waiting] where it fails.

    - The programs: [lobby_messages_arrive] and [lobby_news_reach_replays] go from the
      pieces of the lobby's stream to the replay server's table of games,
      [no_command_undefined] is the message that breaks the client; [info_of_demo] is
      what is printed of a demo that the writer has made; [replay_follows_source] goes
      from the data messages of the replay server through the client's file to what the
      replayer reads, and [viewer_joins_hosted_game] that
      the viewer's game is sent to the one that is hosted; [registration_completes] goes
      through the elevated copy of the launcher and back, [keepalive_not_forwarded] is an
      option that it loses; [data_goes_to_its_player] ties the sockets of a receiver to
      its player.

    ** Not modelled

    Logging, Watchdog, Qt's event loop and sockets themselves; the random test of the
    compressor; DirectPlay itself, whose answers are arguments of JDPlay; the parser of
    the command lines, whose values are arguments; the chat library and the subclass of it,
    an interface of GameEvents; the generator of hardware ids, which is not used.  The signals of a game reach their subscribers inside of the
    monitor's handlers; Gpgnet4ta, which would have to interleave them, leaves them out, so
    that GameEventsFacts speaks of them on their own.  Shared memory for the recorder is
    what was written to it last.  The clock stands still during one call, and a handler is
    called with the state that the source gives it. *)

From stdpp Require Export base list gmap sorting strings.
From Stdlib Require Export ZArith Lia.

#[export] Set Default Goal Selector "!".

(** ** Results of C++ code

    [Ok a]: the code returns [a].  [Throw e]: it leaves by the exception [e].
    [Undef]: it reads outside of the buffer it was given, or otherwise runs into
    undefined behaviour.  [Hang]: a loop of the code does not end within the
    fuel the model gives it. *)
Inductive exn : Set :=
  | RuntimeError    (* std::runtime_error *)
  | OutOfRange      (* std::out_of_range of basic_string::substr, map::at *)
  | LengthError     (* std::length_error of the constructors of basic_string *)
  | DataNotReady.   (* RecordReader::DataNotReadyException, GpgNetParse::DataNotReady *)

Inductive res (A : Type) : Type :=
  | Ok (a : A)
  | Throw (e : exn)
  | Undef
  | Hang.
Arguments Ok {A} a.
Arguments Throw {A} e.
Arguments Undef {A}.
Arguments Hang {A}.

#[export] Instance exn_eq_dec : EqDecision exn.
Proof. solve_decision. Defined.
#[export] Instance res_eq_dec {A} `{EqDecision A} : EqDecision (res A).
Proof. solve_decision. Defined.

#[export] Instance res_ret : MRet res := λ A a, Ok a.
#[export] Instance res_bind : MBind res := λ A B f m,
  match m with
  | Ok a => f a
  | Throw e => Throw e
  | Undef => Undef
  | Hang => Hang
  end.

Definition is_ok {A} (r : res A) : Prop := ∃ a, r = Ok a.
Definition is_okb {A} (r : res A) : bool :=
  match r with Ok _ => true | _ => false end.

Lemma res_bind_ok {A B} (f : A → res B) (a : A) : (Ok a ≫= f) = f a.
Proof. reflexivity. Qed.

Lemma res_bind_inv {A B} (f : A → res B) (m : res A) (b : B) :
  (m ≫= f) = Ok b → ∃ a, m = Ok a ∧ f a = Ok b.
Proof. destruct m; simpl; try discriminate. eauto. Qed.

Lemma Ok_inj {A} (a b : A) : Ok a = Ok b → a = b.
Proof. by intros [= ->]. Qed.

(** [res_inv] takes apart every hypothesis saying that a sequence of calls
    returned normally. *)
Ltac res_inv :=
  repeat match goal with
  | H : (_ ≫= _) = Ok _ |- _ =>
      let a := fresh "a" in let E := fresh "E" in
      apply res_bind_inv in H as (a & E & H)
  | H : Ok _ = Ok _ |- _ => injection H as H; try subst
  | H : Throw _ = Ok _ |- _ => discriminate H
  | H : Undef = Ok _ |- _ => discriminate H
  | H : Hang = Ok _ |- _ => discriminate H
  end.

(** ** Machine integers, as [Z] with the wrap-around written out *)
Open Scope Z_scope.

Abbreviation bytes := (list Z).

Definition u8 (x : Z) : Z := x mod 256.
Definition u16 (x : Z) : Z := x mod 65536.
Definition u32 (x : Z) : Z := x mod 4294967296.
(** [std::int32_t(x)] of an unsigned [x] *)
Definition s32 (x : Z) : Z :=
  let y := u32 x in if y <? 2147483648 then y else y - 4294967296.
(** [std::int8_t(x)] of an unsigned [x] *)
Definition s8 (x : Z) : Z :=
  let y := u8 x in if y <? 128 then y else y - 256.

Definition is_byte (b : Z) : Prop := 0 ≤ b < 256.
Definition is_u16 (x : Z) : Prop := 0 ≤ x < 65536.
Definition is_u32 (x : Z) : Prop := 0 ≤ x < 4294967296.
Abbreviation are_bytes := (Forall is_byte).

#[export] Instance is_byte_dec b : Decision (is_byte b).
Proof. unfold is_byte. apply _. Defined.
#[export] Instance is_u16_dec b : Decision (is_u16 b).
Proof. unfold is_u16. apply _. Defined.
#[export] Instance is_u32_dec b : Decision (is_u32 b).
Proof. unfold is_u32. apply _. Defined.

(** [bytes_tac] proves that a concrete list is a list of bytes *)
Ltac bytes_tac := repeat (apply Forall_cons; split; [unfold is_byte; lia|]); apply Forall_nil; done.

(** [bytes_compute] does so for a list that computes to one *)
Ltac bytes_compute :=
  match goal with |- are_bytes ?l => refine (bool_decide_unpack (are_bytes l) _); vm_compute; exact I end.

Create HintDb words.
Create Rewrite HintDb wordsrw.

Lemma u8_byte x : is_byte (u8 x).
Proof. unfold is_byte, u8. apply Z.mod_pos_bound. lia. Qed.
Lemma u16_bound x : is_u16 (u16 x).
Proof. unfold is_u16, u16. apply Z.mod_pos_bound. lia. Qed.
Lemma u32_bound x : is_u32 (u32 x).
Proof. unfold is_u32, u32. apply Z.mod_pos_bound. lia. Qed.
Lemma u8_id x : is_byte x → u8 x = x.
Proof. unfold is_byte, u8. intros. apply Z.mod_small. lia. Qed.
Lemma u16_id x : is_u16 x → u16 x = x.
Proof. unfold is_u16, u16. intros. apply Z.mod_small. lia. Qed.
Lemma u32_id x : is_u32 x → u32 x = x.
Proof. unfold is_u32, u32. intros. apply Z.mod_small. lia. Qed.
#[export] Hint Resolve u8_byte u16_bound u32_bound : words.
Lemma s32_id x : 0 ≤ x < 2147483648 → s32 x = x.
Proof. intros H. unfold s32. rewrite u32_id by (unfold is_u32; lia). by rewrite (proj2 (Z.ltb_lt _ _)) by lia. Qed.
#[export] Hint Rewrite u8_id u16_id u32_id using (unfold is_byte, is_u16, is_u32 in *; lia) : wordsrw.

Lemma u8_add_l x y : u8 (u8 x + y) = u8 (x + y).
Proof. apply Zplus_mod_idemp_l. Qed.
Lemma u8_add_r x y : u8 (x + u8 y) = u8 (x + y).
Proof. apply Zplus_mod_idemp_r. Qed.
Lemma u16_add_l x y : u16 (u16 x + y) = u16 (x + y).
Proof. apply Zplus_mod_idemp_l. Qed.
Lemma u16_add_r x y : u16 (x + u16 y) = u16 (x + y).
Proof. apply Zplus_mod_idemp_r. Qed.
Lemma u32_add_l x y : u32 (u32 x + y) = u32 (x + y).
Proof. apply Zplus_mod_idemp_l. Qed.
Lemma u32_add_r x y : u32 (x + u32 y) = u32 (x + y).
Proof. apply Zplus_mod_idemp_r. Qed.
Create Rewrite HintDb wrap.
#[export] Hint Rewrite u8_add_l u8_add_r u16_add_l u16_add_r u32_add_l u32_add_r : wrap.

Lemma bits_bound x n : 0 ≤ n → 0 ≤ x →
  (∀ i, n ≤ i → Z.testbit x i = false) → x < 2 ^ n.
Proof.
  intros Hn Hx H. rewrite <- (Z.mod_small x (2 ^ (Z.max n (Z.log2 x + 1)))).
  - assert (x mod 2 ^ n = x) as E.
    { apply Z.bits_inj'. intros i Hi. destruct (decide (i < n)).
      - rewrite Z.mod_pow2_bits_low by lia. reflexivity.
      - rewrite Z.mod_pow2_bits_high by lia. symmetry. apply H. lia. }
    rewrite Z.mod_small.
    + rewrite <- E. apply Z.mod_pos_bound. lia.
    + split; [lia|]. destruct (decide (x = 0)) as [->|]; [lia|].
      apply Z.log2_lt_pow2; lia.
  - split; [lia|]. destruct (decide (x = 0)) as [->|]; [lia|].
    apply Z.log2_lt_pow2; lia.
Qed.

Lemma testbit_high x n i : 0 ≤ x < 2 ^ n → 0 ≤ n ≤ i → Z.testbit x i = false.
Proof.
  intros Hx Hn. rewrite <- (Z.mod_small x (2 ^ n)) by lia.
  apply Z.mod_pow2_bits_high. lia.
Qed.

Lemma lxor_bound a b n : 0 ≤ n → 0 ≤ a < 2 ^ n → 0 ≤ b < 2 ^ n → 0 ≤ Z.lxor a b < 2 ^ n.
Proof.
  intros Hn Ha Hb. assert (0 ≤ Z.lxor a b) by (apply Z.lxor_nonneg; lia).
  split; [done|]. apply bits_bound; [done..|]. intros i Hi.
  rewrite Z.lxor_spec, !(testbit_high _ n) by lia. reflexivity.
Qed.

Lemma lor_bound a b n : 0 ≤ n → 0 ≤ a < 2 ^ n → 0 ≤ b < 2 ^ n → 0 ≤ Z.lor a b < 2 ^ n.
Proof.
  intros Hn Ha Hb. assert (0 ≤ Z.lor a b) by (apply Z.lor_nonneg; lia).
  split; [done|]. apply bits_bound; [done..|]. intros i Hi.
  rewrite Z.lor_spec, !(testbit_high _ n) by lia. reflexivity.
Qed.

Lemma lxor_byte a b : is_byte a → is_byte b → is_byte (Z.lxor a b).
Proof. apply (lxor_bound a b 8). lia. Qed.
Lemma lor_byte a b : is_byte a → is_byte b → is_byte (Z.lor a b).
Proof. apply (lor_bound a b 8). lia. Qed.
#[export] Hint Resolve lxor_byte lor_byte : words.

Lemma lor_add_shift a b n : 0 ≤ n → 0 ≤ a < 2 ^ n → 0 ≤ b →
  Z.lor a (Z.shiftl b n) = a + b * 2 ^ n.
Proof.
  intros Hn Ha Hb. rewrite Z.shiftl_mul_pow2 by lia. symmetry.
  rewrite <- Z.lxor_lor, Z.add_nocarry_lxor; [done|..].
  all: apply Z.bits_inj'; intros i Hi; rewrite Z.land_spec, Z.bits_0.
  all: destruct (decide (i < n)).
  1,3: rewrite (Z.mul_pow2_bits_low b n i) by lia; apply andb_false_r.
  all: rewrite (testbit_high a n i) by lia; reflexivity.
Qed.

(** ** Reading memory

    A [basic_string] and a [QByteArray] own a buffer that ends with a NUL, so a
    read through a pointer into one is defined up to and including the
    terminator. *)
Definition rd8 (s : bytes) (i : nat) : res Z :=
  match s !! i with
  | Some b => Ok b
  | None => if (i =? length s)%nat then Ok 0 else Undef
  end.
(** [*(std::uint16_t* )(p + i)] and [*(std::uint32_t* )(p + i)]: little-endian loads *)
Definition rd16 (s : bytes) (i : nat) : res Z :=
  b0 ← rd8 s i; b1 ← rd8 s (i + 1)%nat; Ok (b0 + 256 * b1).
Definition rd32 (s : bytes) (i : nat) : res Z :=
  w0 ← rd16 s i; w1 ← rd16 s (i + 2)%nat; Ok (w0 + 65536 * w1).

(** [append(p + i, n)]: copy [n] bytes *)
Definition rd_n (s : bytes) (i n : nat) : res bytes :=
  if (i + n <=? length s)%nat then Ok (take n (drop i s))
  else if (i + n =? length s + 1)%nat then Ok (take n (drop i s) ++ [0])
  else Undef.

(** Little-endian store of 2 and 4 bytes *)
Definition le2 (x : Z) : bytes := [u8 x; u8 (x / 256)].
Definition le4 (x : Z) : bytes :=
  [u8 x; u8 (x / 256); u8 (x / 65536); u8 (x / 16777216)].

(** overwrite the bytes of [s] from position [i] on *)
Definition wr (s : bytes) (i : nat) (new : bytes) : bytes :=
  take i s ++ new ++ drop (i + length new) s.

(** [basic_string::substr(pos)] and [substr(pos, n)]: throw when [pos > size()] *)
Definition substr (s : bytes) (pos : nat) : res bytes :=
  if (pos <=? length s)%nat then Ok (drop pos s) else Throw OutOfRange.
Definition substr_n (s : bytes) (pos n : nat) : res bytes :=
  if (pos <=? length s)%nat then Ok (take n (drop pos s)) else Throw OutOfRange.

Lemma rd8_lookup s i b : s !! i = Some b → rd8 s i = Ok b.
Proof. unfold rd8. by intros ->. Qed.

Lemma rd8_ok s i : (i ≤ length s)%nat → is_ok (rd8 s i).
Proof.
  intros H. unfold rd8. destruct (s !! i) eqn:E; [by eexists|].
  apply lookup_ge_None in E. replace (i =? length s)%nat with true; [by eexists|].
  symmetry. apply Nat.eqb_eq. lia.
Qed.

Lemma rd8_byte s i b : are_bytes s → rd8 s i = Ok b → is_byte b.
Proof.
  unfold rd8. intros Hs. destruct (s !! i) eqn:E.
  - intros [= ->]. eapply Forall_lookup_1; eauto.
  - case_match; [|discriminate]. intros [= <-]. unfold is_byte. lia.
Qed.

Lemma rd8_app_r s t i b : rd8 t i = Ok b → (i < length t)%nat → rd8 (s ++ t) (length s + i) = Ok b.
Proof.
  unfold rd8. intros H Hi. rewrite lookup_app_r by lia.
  replace (length s + i - length s)%nat with i by lia.
  destruct (t !! i) eqn:E; [done|]. apply lookup_ge_None in E. lia.
Qed.

Lemma rd8_app_l s t i : (i < length s)%nat → rd8 (s ++ t) i = rd8 s i.
Proof.
  intros Hi. unfold rd8. rewrite lookup_app_l by done.
  destruct (s !! i) eqn:E; [done|]. apply lookup_ge_None in E. lia.
Qed.

Lemma rd8_cons b s i : rd8 (b :: s) (S i) = rd8 s i.
Proof. reflexivity. Qed.
Lemma rd8_0 b s : rd8 (b :: s) 0 = Ok b.
Proof. reflexivity. Qed.

Lemma rd8_drop s p i : (p ≤ length s)%nat → rd8 (drop p s) i = rd8 s (p + i).
Proof.
  intros Hp. unfold rd8. rewrite lookup_drop, length_drop.
  destruct (s !! (p + i)%nat); [done|].
  destruct (Nat.eqb_spec i (length s - p)), (Nat.eqb_spec (p + i) (length s)); done || lia.
Qed.

Lemma rd16_drop s p i : (p ≤ length s)%nat → rd16 (drop p s) i = rd16 s (p + i).
Proof. intros Hp. unfold rd16. rewrite !rd8_drop by done. by rewrite Nat.add_assoc. Qed.
Lemma rd32_drop s p i : (p ≤ length s)%nat → rd32 (drop p s) i = rd32 s (p + i).
Proof. intros Hp. unfold rd32. rewrite !rd16_drop by done. by rewrite Nat.add_assoc. Qed.

Lemma rd16_app_l s t i : (i + 2 ≤ length s)%nat → rd16 (s ++ t) i = rd16 s i.
Proof. intros. unfold rd16. rewrite !rd8_app_l by lia. done. Qed.
Lemma rd32_app_l s t i : (i + 4 ≤ length s)%nat → rd32 (s ++ t) i = rd32 s i.
Proof. intros. unfold rd32. rewrite !rd16_app_l by lia. done. Qed.
Lemma rd8_app_r' s t i : rd8 (s ++ t) (length s + i) = rd8 t i.
Proof.
  unfold rd8. rewrite lookup_app_r by lia. replace (length s + i - length s)%nat with i by lia.
  rewrite length_app. destruct (t !! i); [done|].
  destruct (Nat.eqb_spec (length s + i) (length s + length t)), (Nat.eqb_spec i (length t)); done || lia.
Qed.
Lemma rd16_app_r s t i : rd16 (s ++ t) (length s + i) = rd16 t i.
Proof. unfold rd16. by rewrite <- Nat.add_assoc, !rd8_app_r'. Qed.
Lemma rd32_app_r s t i : rd32 (s ++ t) (length s + i) = rd32 t i.
Proof. unfold rd32. by rewrite <- Nat.add_assoc, !rd16_app_r. Qed.
Lemma rd_n_app pre x post : rd_n (pre ++ x ++ post) (length pre) (length x) = Ok x.
Proof.
  unfold rd_n. rewrite !length_app. rewrite (proj2 (Nat.leb_le _ _)) by lia.
  rewrite drop_app_length, take_app_length. done.
Qed.

(** reads never hang *)
Lemma rd8_no_hang s i : rd8 s i ≠ Hang.
Proof. unfold rd8. repeat case_match; done. Qed.
Lemma rd16_no_hang s i : rd16 s i ≠ Hang.
Proof. unfold rd16, rd8. repeat (case_match; simpl; try done). Qed.
Lemma rd16_in_bounds s i w : rd16 s i = Ok w → (i + 1 ≤ length s)%nat.
Proof.
  unfold rd16. intros H. apply res_bind_inv in H as (b0 & _ & H). apply res_bind_inv in H as (b1 & H & _).
  unfold rd8 in H. destruct (s !! (i + 1)%nat) eqn:E; [apply lookup_lt_Some in E; lia|].
  destruct (Nat.eqb_spec (i + 1) (length s)); [lia|done].
Qed.
Lemma rd32_ok s i : (i + 4 ≤ length s)%nat → ∃ w, rd32 s i = Ok w.
Proof.
  intros H. unfold rd32, rd16. destruct (rd8_ok s i) as [b0 ->]; [lia|]. destruct (rd8_ok s (i + 1)) as [b1 ->]; [lia|].
  destruct (rd8_ok s (i + 2)) as [b2 ->]; [lia|]. destruct (rd8_ok s (i + 2 + 1)) as [b3 ->]; [lia|]. by eexists.
Qed.
Lemma rd32_in_bounds s i w : rd32 s i = Ok w → (i + 3 ≤ length s)%nat.
Proof.
  unfold rd32. intros H. apply res_bind_inv in H as (b0 & _ & H). apply res_bind_inv in H as (b1 & H & _).
  apply rd16_in_bounds in H. lia.
Qed.
Lemma rd32_not_hang s i : rd32 s i ≠ Hang.
Proof.
  unfold rd32. pose proof (rd16_no_hang s i). destruct (rd16 s i); try done. rewrite res_bind_ok.
  pose proof (rd16_no_hang s (i + 2)). by destruct (rd16 s (i + 2)).
Qed.
Lemma rd_n_no_hang s i n : rd_n s i n ≠ Hang.
Proof. unfold rd_n. repeat case_match; done. Qed.
Lemma bind_no_hang {A B} (m : res A) (f : A → res B) : m ≠ Hang → (∀ a, m = Ok a → f a ≠ Hang) → (m ≫= f) ≠ Hang.
Proof. destruct m; simpl; naive_solver. Qed.

(** a computation that does not raise the "not ready" exception *)
Definition no_wait {A} (r : res A) : Prop := r ≠ Throw DataNotReady.
Lemma bind_no_wait {A B} (m : res A) (f : A → res B) : no_wait m → (∀ a, no_wait (f a)) → no_wait (m ≫= f).
Proof. unfold no_wait. destruct m; simpl; naive_solver. Qed.
Lemma Ok_no_wait {A} (a : A) : no_wait (Ok a).
Proof. done. Qed.
Lemma rd8_no_wait s i : no_wait (rd8 s i).
Proof. unfold no_wait, rd8. by repeat case_match. Qed.
Create HintDb no_wait.
#[export] Hint Resolve bind_no_wait Ok_no_wait rd8_no_wait : no_wait.
Lemma rd16_no_wait s i : no_wait (rd16 s i).
Proof. unfold rd16. auto with no_wait. Qed.
#[export] Hint Resolve rd16_no_wait : no_wait.
Lemma rd32_no_wait s i : no_wait (rd32 s i).
Proof. unfold rd32. auto with no_wait. Qed.
Lemma rd_n_no_wait s i n : no_wait (rd_n s i n).
Proof. unfold no_wait, rd_n. by repeat case_match. Qed.
Lemma substr_no_wait s i : no_wait (substr s i).
Proof. unfold no_wait, substr. by case_match. Qed.
Lemma if_no_wait {A} (b : bool) (x y : res A) : no_wait x → no_wait y → no_wait (if b then x else y).
Proof. by destruct b. Qed.
Lemma error_no_wait {A} : no_wait (Throw RuntimeError : res A).
Proof. done. Qed.
Lemma undef_no_wait {A} : no_wait (Undef : res A).
Proof. done. Qed.
Lemma hang_no_wait {A} : no_wait (Hang : res A).
Proof. done. Qed.
#[export] Hint Resolve rd32_no_wait rd_n_no_wait substr_no_wait if_no_wait error_no_wait undef_no_wait hang_no_wait : no_wait.

Lemma le2_bytes x : are_bytes (le2 x).
Proof. unfold le2. repeat constructor; auto with words; apply u8_byte. Qed.
Lemma le4_bytes x : are_bytes (le4 x).
Proof. unfold le4. repeat constructor; auto with words; apply u8_byte. Qed.
Lemma length_le2 x : length (le2 x) = 2%nat. Proof. done. Qed.
Lemma length_le4 x : length (le4 x) = 4%nat. Proof. done. Qed.

Lemma le2_value x : is_u16 x → u8 x + 256 * u8 (x / 256) = x.
Proof. unfold is_u16, u8. intros. Z.div_mod_to_equations. lia. Qed.

Lemma le4_value x : is_u32 x →
  (u8 x + 256 * u8 (x / 256)) + 65536 * (u8 (x / 65536) + 256 * u8 (x / 16777216)) = x.
Proof.
  unfold is_u32, u8. intros.
  replace (x / 65536) with (x / 256 / 256) by (rewrite Z.div_div; [f_equal; lia|lia..]).
  replace (x / 16777216) with (x / 256 / 256 / 256) by (rewrite !Z.div_div; [f_equal; lia|lia..]).
  Z.div_mod_to_equations. lia.
Qed.

Lemma rd16_le2 pre x post : is_u16 x → rd16 (pre ++ le2 x ++ post) (length pre) = Ok x.
Proof.
  intros Hx. unfold rd16. rewrite <- (Nat.add_0_r (length pre)) at 1.
  rewrite (rd8_app_r pre _ 0 (u8 x)) by (done || (simpl; lia)).
  rewrite (rd8_app_r pre _ 1 (u8 (x / 256))) by (done || (simpl; lia)).
  simpl. by rewrite le2_value.
Qed.

Lemma rd32_le4 pre x post : is_u32 x → rd32 (pre ++ le4 x ++ post) (length pre) = Ok x.
Proof.
  intros Hx. unfold rd32, rd16. rewrite <- (Nat.add_0_r (length pre)) at 1.
  rewrite (rd8_app_r pre _ 0 (u8 x)) by (done || (simpl; lia)).
  rewrite (rd8_app_r pre _ 1 (u8 (x / 256))) by (done || (simpl; lia)).
  rewrite (rd8_app_r pre _ 2 (u8 (x / 65536))) by (done || (simpl; lia)).
  rewrite <- Nat.add_assoc. simpl.
  rewrite (rd8_app_r pre _ 3 (u8 (x / 16777216))) by (done || (simpl; lia)).
  simpl. by rewrite le4_value.
Qed.

Lemma length_wr s i new : (i + length new ≤ length s)%nat → length (wr s i new) = length s.
Proof. intros. unfold wr. rewrite !length_app, length_take, length_drop. lia. Qed.

Lemma wr_lookup_out s i new j : (i + length new ≤ length s)%nat →
  (j < i)%nat ∨ (i + length new ≤ j)%nat → wr s i new !! j = s !! j.
Proof.
  intros Hl Hj. unfold wr. destruct Hj.
  - rewrite lookup_app_l by (rewrite length_take; lia). by rewrite lookup_take_lt.
  - rewrite lookup_app_r by (rewrite length_take; lia).
    rewrite length_take, lookup_app_r by lia. rewrite lookup_drop. f_equal. lia.
Qed.

(** the [n] bytes of [s] from position [i] on *)
Definition slice (s : bytes) (i n : nat) : bytes := take n (drop i s).

Lemma length_slice s i n : (i + n ≤ length s)%nat → length (slice s i n) = n.
Proof. intros. unfold slice. rewrite length_take, length_drop. lia. Qed.

Lemma slice_app s i n m : slice s i n ++ slice s (i + n) m = slice s i (n + m).
Proof.
  unfold slice. rewrite <- drop_drop. generalize (drop i s). clear s i. intros s.
  revert s. induction n as [|n IH]; intros s; simpl; [done|].
  destruct s as [|b s]; simpl; [by rewrite take_nil|]. by rewrite IH.
Qed.

Lemma slice_all s n : n = length s → slice s 0 n = s.
Proof. intros ->. unfold slice. rewrite drop_0. by rewrite take_ge. Qed.

Lemma slice_bytes s i n : are_bytes s → are_bytes (slice s i n).
Proof. intros. by apply Forall_take, Forall_drop. Qed.

Lemma rd_n_slice s i n : (i + n ≤ length s)%nat → rd_n s i n = Ok (slice s i n).
Proof. intros. unfold rd_n. by rewrite (proj2 (Nat.leb_le _ _)). Qed.

Lemma slice_1 s i b : s !! i = Some b → slice s i 1 = [b].
Proof. intros H. unfold slice. rewrite (drop_S _ _ _ H). done. Qed.

(** the two laws of little-endian loads and stores: what is loaded is stored back *)
Lemma le2_join b0 b1 : is_byte b0 → is_byte b1 → le2 (b0 + 256 * b1) = [b0; b1].
Proof. unfold is_byte, le2, u8. intros. f_equal; [|f_equal]; Z.div_mod_to_equations; lia. Qed.

Lemma le4_join b0 b1 b2 b3 : is_byte b0 → is_byte b1 → is_byte b2 → is_byte b3 →
  le4 (b0 + 256 * b1 + 65536 * (b2 + 256 * b3)) = [b0; b1; b2; b3].
Proof.
  unfold is_byte, le4, u8. intros.
  f_equal; [|f_equal; [|f_equal; [|f_equal]]]; Z.div_mod_to_equations; lia.
Qed.

Lemma rd8_slice s i : (i < length s)%nat → ∃ b, rd8 s i = Ok b ∧ slice s i 1 = [b].
Proof.
  intros Hi. apply lookup_lt_is_Some in Hi as [b Hb]. exists b. by rewrite (rd8_lookup _ _ b), (slice_1 _ _ b).
Qed.

Lemma rd16_slice s i : are_bytes s → (i + 2 ≤ length s)%nat →
  ∃ x, rd16 s i = Ok x ∧ is_u16 x ∧ le2 x = slice s i 2.
Proof.
  intros Hs Hi. destruct (rd8_slice s i ltac:(lia)) as (b0 & E0 & S0).
  destruct (rd8_slice s (i + 1) ltac:(lia)) as (b1 & E1 & S1).
  pose proof (rd8_byte _ _ _ Hs E0) as H0. pose proof (rd8_byte _ _ _ Hs E1) as H1.
  exists (b0 + 256 * b1). unfold rd16. rewrite E0, res_bind_ok, E1, res_bind_ok.
  split; [done|]. split; [unfold is_byte, is_u16 in *; lia|].
  rewrite le2_join by done. change 2%nat with (1 + 1)%nat. by rewrite <- slice_app, S0, S1.
Qed.

Lemma rd32_slice s i : are_bytes s → (i + 4 ≤ length s)%nat →
  ∃ x, rd32 s i = Ok x ∧ is_u32 x ∧ le4 x = slice s i 4.
Proof.
  intros Hs Hi. destruct (rd16_slice s i Hs ltac:(lia)) as (w0 & E0 & R0 & S0).
  destruct (rd16_slice s (i + 2) Hs ltac:(lia)) as (w1 & E1 & R1 & S1).
  exists (w0 + 65536 * w1). unfold rd32. rewrite E0, res_bind_ok, E1, res_bind_ok.
  split; [done|]. split; [unfold is_u16, is_u32 in *; lia|].
  change 4%nat with (2 + 2)%nat. rewrite <- slice_app, <- S0, <- S1.
  unfold is_u16, le2, le4, u8 in *. cbn [app].
  f_equal; [|f_equal; [|f_equal; [|f_equal]]]; Z.div_mod_to_equations; lia.
Qed.

(** ** Lists *)
Lemma lookup_snoc_old {A} (l : list A) x i : (i < length l)%nat → (l ++ [x]) !! i = l !! i.
Proof. apply lookup_app_l. Qed.

Lemma take_snoc {A} (l : list A) (n : nat) x :
  l !! n = Some x → take (S n) l = take n l ++ [x].
Proof. apply take_S_r. Qed.

Lemma insert_middle (pre : bytes) b post c : <[length pre := c]> (pre ++ b :: post) = pre ++ c :: post.
Proof. rewrite <- (Nat.add_0_r (length pre)), insert_app_r. done. Qed.

Lemma total_middle (pre : bytes) b post : (pre ++ b :: post) !!! length pre = b.
Proof. apply list_lookup_total_correct. by rewrite list_lookup_middle. Qed.

Lemma Forall_insert_byte (s : bytes) i b : are_bytes s → is_byte b → are_bytes (<[i:=b]> s).
Proof. intros. by apply Forall_insert. Qed.
