(* ===== verification/ExceptState.v ===== *)
(** * A state monad with exceptions

    Object methods that change their object and may throw: what was done before an
    exception stays done. *)
From S2P Require Import Prelude.

Definition stx (S A : Type) : Type := S → res A * S.
#[export] Instance stx_ret {S} : MRet (stx S) := λ A a s, (Ok a, s).
#[export] Instance stx_bind {S} : MBind (stx S) := λ A B f m s,
  match m s with
  | (Ok a, s) => f a s
  | (Throw e, s) => (Throw e, s)
  | (Undef, s) => (Undef, s)
  | (Hang, s) => (Hang, s)
  end.
Definition gets {S A} (f : S → A) : stx S A := λ s, (Ok (f s), s).
Definition modify {S} (f : S → S) : stx S unit := λ s, (Ok tt, f s).
Definition lift {S A} (r : res A) : stx S A := λ s, (r, s).
Definition when {S} (b : bool) (m : stx S unit) : stx S unit := if b then m else mret tt.
Fixpoint for_each {S A} (l : list A) (body : A → stx S unit) : stx S unit :=
  match l with [] => mret tt | a :: l => body a ≫= λ _, for_each l body end.
(** a handler of a signal catches what is thrown, and logs it *)
Definition caught {S} (m : stx S unit) : stx S unit := λ s, match m s with (Throw _, s) => (Ok tt, s) | r => r end.

Lemma stx_bind_ok {S A B} (m : stx S A) (f : A → stx S B) s a s' : m s = (Ok a, s') → (m ≫= f) s = f a s'.
Proof. intros E. unfold mbind, stx_bind. by rewrite E. Qed.
Lemma stx_modify {S A} (g : S → S) (f : unit → stx S A) s : (modify g ≫= f) s = f tt (g s).
Proof. done. Qed.
Lemma stx_gets {S A B} (g : S → A) (f : A → stx S B) s : (gets g ≫= f) s = f (g s) s.
Proof. done. Qed.
Lemma stx_lift_ok {S A B} (a : A) (f : A → stx S B) s : (lift (Ok a) ≫= f) s = f a s.
Proof. done. Qed.
Lemma stx_ret_bind {S A B} (a : A) (f : A → stx S B) s : (mret a ≫= f) s = f a s.
Proof. done. Qed.
Lemma stx_bind_assoc {S A B C} (m : stx S A) (f : A → stx S B) (g : B → stx S C) s : ((m ≫= f) ≫= g) s = (m ≫= λ a, f a ≫= g) s.
Proof. unfold mbind, stx_bind. by destruct (m s) as [[] ?]. Qed.

Lemma caught_then {S A} (m : stx S A) f s a s' : m s = (Ok a, s') → caught (m ≫= f) s = caught (f a) s'.
Proof. intros E. unfold caught. by rewrite (stx_bind_ok _ _ _ _ _ E). Qed.

(** ** Invariants *)

(** [P] is kept, however [m] ends *)
Definition keeps {S A} (P : S → Prop) (m : stx S A) : Prop := ∀ s, P s → P (m s).2.
Section Keeps.
Context {S : Type} (P : S → Prop).
Lemma keeps_bind {A B} (m : stx S A) (f : A → stx S B) : keeps P m → (∀ a, keeps P (f a)) → keeps P (m ≫= f).
Proof.
  intros Hm Hf s Hs. specialize (Hm s Hs). unfold mbind, stx_bind. destruct (m s) as [[a|e| |] s']; try done. by apply Hf.
Qed.
Lemma keeps_ret {A} (a : A) : keeps P (mret a). Proof. by intros s. Qed.
Lemma keeps_gets {A} (f : S → A) : keeps P (gets f). Proof. by intros s. Qed.
Lemma keeps_lift {A} (r : res A) : keeps P (lift r). Proof. by intros s. Qed.
Lemma keeps_modify f : (∀ s, P s → P (f s)) → keeps P (modify f). Proof. intros H s. apply H. Qed.
Lemma keeps_when b (m : stx S unit) : keeps P m → keeps P (when b m).
Proof. intros H. destruct b; [exact H|apply keeps_ret]. Qed.
Lemma keeps_for_each {A} (l : list A) body : (∀ a, keeps P (body a)) → keeps P (for_each l body).
Proof. intros H. induction l as [|a l IH]; [apply keeps_ret|]. cbn [for_each]. by apply keeps_bind. Qed.
Lemma keeps_state {A} (f : S → stx S A) : (∀ x, keeps P (f x)) → keeps P (λ s, f s s).
Proof. intros H s. apply H. Qed.
Lemma keeps_caught (m : stx S unit) : keeps P m → keeps P (caught m).
Proof. intros Hm s Hs. specialize (Hm s Hs). unfold caught. by destruct (m s) as [[] ?]. Qed.
End Keeps.
Create HintDb keeps discriminated.
#[export] Hint Resolve keeps_ret keeps_gets keeps_lift : keeps.
(** what is left are the assignments *)
Ltac keeps_step :=
  first [progress cbv beta zeta | solve [auto 2 with keeps nocore] | apply keeps_bind; [|intros ?] | apply keeps_when |
         apply keeps_for_each; intros ? | apply keeps_modify; solve [auto 2 with keeps nocore] | case_match].
Ltac keeps_tac := repeat keeps_step.

(** ** Loops that succeed *)
Lemma for_each_ok {S A} (l : list A) (body : A → stx S unit) (f : A → S → S) (P : S → Prop) s :
  P s → (∀ a s, a ∈ l → P s → body a s = (Ok tt, f a s) ∧ P (f a s)) →
  for_each l body s = (Ok tt, foldl (λ s a, f a s) s l) ∧ P (foldl (λ s a, f a s) s l).
Proof.
  intros Hs H. revert s Hs. induction l as [|a l IH]; intros s Hs; [done|]. cbn [for_each foldl].
  destruct (H a s ltac:(left) Hs) as [E Hp]. rewrite (stx_bind_ok _ _ _ _ _ E). apply IH; [|done].
  intros b s' Hb. apply H. by right.
Qed.
(** [m] goes from [P] to [Q], however it ends *)
Definition moves {S A} (P Q : S → Prop) (m : stx S A) : Prop := ∀ s, P s → Q (m s).2.
Lemma moves_bind {S A B} (P Q : S → Prop) (m : stx S A) (f : A → stx S B) :
  (∀ s, P s → Q s) → keeps P m → (∀ a, moves P Q (f a)) → moves P Q (m ≫= f).
Proof.
  intros Hpq Hm Hf s Hs. specialize (Hm s Hs). unfold mbind, stx_bind. destruct (m s) as [[a|e| |] s']; try by apply Hpq. by apply Hf.
Qed.
Lemma moves_keeps {S A} (P Q : S → Prop) (m : stx S A) : (∀ s, P s → Q s) → keeps P m → moves P Q m.
Proof. intros Hpq Hm s Hs. by apply Hpq, Hm. Qed.

(** ** Methods that do not hang *)
Definition quick {S A} (m : stx S A) : Prop := ∀ s, (m s).1 ≠ Hang.
Section Quick.
Context {S : Type}.
Lemma quick_bind {A B} (m : stx S A) (f : A → stx S B) : quick m → (∀ a, quick (f a)) → quick (m ≫= f).
Proof. intros Hm Hf s. specialize (Hm s). unfold mbind, stx_bind. destruct (m s) as [[a|e| |] s']; try done. apply Hf. Qed.
Lemma quick_ret {A} (a : A) : quick (mret a : stx S A). Proof. done. Qed.
Lemma quick_gets {A} (f : S → A) : quick (gets f). Proof. done. Qed.
Lemma quick_modify (f : S → S) : quick (modify f). Proof. done. Qed.
Lemma quick_lift {A} (r : res A) : r ≠ Hang → quick (lift r : stx S A). Proof. by intros H s. Qed.
Lemma quick_when b (m : stx S unit) : quick m → quick (when b m).
Proof. intros H. destruct b; [exact H|done]. Qed.
Lemma quick_for_each {A} (l : list A) (body : A → stx S unit) : (∀ a, quick (body a)) → quick (for_each l body).
Proof. intros H. induction l as [|a l IH]; [done|]. cbn [for_each]. by apply quick_bind. Qed.
End Quick.
Create HintDb quick discriminated.
#[export] Hint Resolve quick_ret quick_gets quick_modify : quick.
Ltac quick_step :=
  first [progress cbv beta zeta | solve [auto 2 with quick nocore] | apply quick_bind; [|intros ?] | apply quick_when |
         apply quick_for_each; intros ? | apply quick_lift | case_match].
Ltac quick_tac := repeat quick_step.
