(* ===== verification/OrderedMaps.v ===== *)
(** * std::map with integer keys

    A [std::map] is a [gmap]; what the code does with its order, [begin()] and iteration,
    goes through the sorted list of its keys.  [operator[]] makes a missing entry. *)
From S2P Require Import Prelude.

Section OrderedMaps.
Context {A : Type}.
Implicit Type m : gmap Z A.

(** the keys, in the order in which the map iterates over them *)
Definition sorted_keys (m : gmap Z A) : list Z := merge_sort Z.le (map_to_list m).*1.
(** [begin()->first] *)
Definition first_key (m : gmap Z A) : option Z := head (sorted_keys m).
(** [m[k]] as a value, and its side effect *)
Definition at_key (d : A) (m : gmap Z A) (k : Z) : A := default d (m !! k).
Definition touch (d : A) (k : Z) (m : gmap Z A) : gmap Z A := <[k := at_key d m k]> m.

Lemma elem_of_sorted_keys m k : k ∈ sorted_keys m ↔ is_Some (m !! k).
Proof.
  unfold sorted_keys. rewrite merge_sort_Permutation, list_elem_of_fmap. split.
  - intros ([k' x] & -> & H). apply elem_of_map_to_list in H. by exists x.
  - intros [x H]. exists (k, x). by rewrite elem_of_map_to_list.
Qed.

Lemma sorted_keys_sorted m : StronglySorted Z.le (sorted_keys m).
Proof. apply Sorted_StronglySorted; [intros x y z; lia|]. apply Sorted_merge_sort, _. Qed.

Lemma NoDup_sorted_keys m : NoDup (sorted_keys m).
Proof. unfold sorted_keys. rewrite merge_sort_Permutation. apply NoDup_fst_map_to_list. Qed.

Lemma first_key_spec m k : first_key m = Some k ↔ is_Some (m !! k) ∧ ∀ j, is_Some (m !! j) → k ≤ j.
Proof.
  unfold first_key. pose proof (sorted_keys_sorted m) as Hs. pose proof (elem_of_sorted_keys m) as He.
  destruct (sorted_keys m) as [|k0 ks]; simpl.
  - split; [done|]. intros [H _]. apply He in H. by apply elem_of_nil in H.
  - inversion Hs as [|? ? Hs1 Hall]; subst. split.
    + intros [= <-]. split; [apply He; by left|]. intros j Hj. apply He, elem_of_cons in Hj as [->|Hj]; [lia|].
      rewrite Forall_forall in Hall. by apply Hall.
    + intros [H1 H2]. f_equal. apply He in H1. assert (k ≤ k0) by (apply H2, He; by left).
      apply elem_of_cons in H1 as [->|H1]; [done|]. rewrite Forall_forall in Hall. specialize (Hall _ H1). lia.
Qed.

Lemma first_key_none m : first_key m = None ↔ m = ∅.
Proof.
  unfold first_key. split.
  - intros H. apply map_eq. intros k. rewrite lookup_empty. destruct (m !! k) as [x|] eqn:E; [|done].
    assert (k ∈ sorted_keys m) as Hk by (apply elem_of_sorted_keys; by exists x).
    destruct (sorted_keys m); [by apply elem_of_nil in Hk|done].
  - intros ->. vm_compute. reflexivity.
Qed.

Lemma at_key_touch d m k j : at_key d (touch d k m) j = at_key d m j.
Proof.
  unfold touch, at_key. destruct (decide (k = j)) as [->|Hn]; [by rewrite lookup_insert_eq|].
  by rewrite lookup_insert_ne.
Qed.
Lemma touch_lookup d m k : touch d k m !! k = Some (at_key d m k).
Proof. apply lookup_insert_eq. Qed.
Lemma touch_lookup_ne d m k j : k ≠ j → touch d k m !! j = m !! j.
Proof. apply lookup_insert_ne. Qed.
End OrderedMaps.
