(* ===== verification/TPacketCrypt.v ===== *)
(** * TPacket::encrypt and TPacket::decrypt (src/libs/tapacket/TPacket.cpp)

    The checksum and the running-key XOR of Total Annihilation packets: a packet
    is a type byte, a 16 bit checksum, and a payload of which all but the last
    three bytes are XORed with a key that starts at 3 and counts up. *)
From S2P Require Import Prelude.

(** ** The code *)

(** the [for] loop of [decrypt]: [n] iterations from position [i] on *)
Fixpoint decrypt_loop (n i : nat) (xorKey calc : Z) (data : bytes) : bytes * Z :=
  match n with
  | O => (data, calc)
  | S n =>
      decrypt_loop n (S i) (u8 (xorKey + 1)) (u16 (calc + data !!! i))
        (<[i := Z.lxor (data !!! i) xorKey]> data)
  end.

(** [decrypt(data, ofs, checkExtracted, checkCalculated)]: the three by-reference
    parameters are passed in and returned *)
Definition decrypt (data : bytes) (ofs : nat) (checkExtracted checkCalculated : Z)
    : bytes * Z * Z :=
  if (length data <? 4 + ofs)%nat then (data ++ [6], checkExtracted, checkCalculated)
  else
    let extracted := data !!! (ofs + 1)%nat + 256 * data !!! (ofs + 2)%nat in
    let '(data', calc) :=
      decrypt_loop (S (length data - 4) - (ofs + 3)) (ofs + 3) 3 0 data in
    (data', extracted, calc).

(** the [for] loop of [encrypt] *)
Fixpoint encrypt_loop (n i : nat) (check : Z) (data : bytes) : bytes * Z :=
  match n with
  | O => (data, check)
  | S n =>
      let b := Z.lxor (data !!! i) (u8 (Z.of_nat i)) in
      encrypt_loop n (S i) (u16 (check + b)) (<[i := b]> data)
  end.

Definition encrypt (data : bytes) : bytes :=
  if (length data <? 4)%nat then data ++ [6]
  else
    let '(data', check) := encrypt_loop (S (length data - 4) - 3) 3 0 data in
    <[2%nat := Z.shiftr check 8]> (<[1%nat := Z.land check 255]> data').

(** ** Reference definitions: the stream cipher and the sum on a slice *)

Fixpoint xor_stream (key : Z) (s : bytes) : bytes :=
  match s with
  | [] => []
  | b :: s => Z.lxor b key :: xor_stream (u8 (key + 1)) s
  end.

Definition sum16 (acc : Z) (s : bytes) : Z := foldl (λ a b, u16 (a + b)) acc s.

Lemma length_xor_stream key s : length (xor_stream key s) = length s.
Proof. revert key. induction s; intros; simpl; auto. Qed.

Lemma xor_stream_involutive key s : xor_stream key (xor_stream key s) = s.
Proof.
  revert key. induction s as [|b s IH]; intros key; simpl; [done|].
  rewrite IH, Z.lxor_assoc, Z.lxor_nilpotent, Z.lxor_0_r. done.
Qed.

Lemma xor_stream_bytes key s : is_byte key → are_bytes s → are_bytes (xor_stream key s).
Proof.
  intros Hk Hs. revert key Hk. induction Hs; intros; simpl; constructor; auto with words.
Qed.

Lemma sum16_cons acc b s : sum16 acc (b :: s) = sum16 (u16 (acc + b)) s.
Proof. done. Qed.

Lemma sum16_bound acc s : is_u16 acc → is_u16 (sum16 acc s).
Proof. revert acc. induction s; intros; simpl; auto with words. Qed.

Lemma sum16_plus acc s : is_u16 acc → sum16 acc s = u16 (acc + sum16 0 s).
Proof.
  revert acc. induction s as [|b s IH]; intros acc Hacc.
  - simpl. rewrite Z.add_0_r. by autorewrite with wordsrw.
  - rewrite !sum16_cons, (IH (u16 (acc + b))), (IH (u16 (0 + b))) by apply u16_bound.
    rewrite u16_add_l, u16_add_r, Z.add_0_l, (Z.add_comm (u16 b)), Z.add_assoc, u16_add_r.
    f_equal. lia.
Qed.

Lemma sum16_app acc s1 s2 : sum16 acc (s1 ++ s2) = sum16 (sum16 acc s1) s2.
Proof. apply foldl_app. Qed.

(** changing one byte changes the sum *)
Lemma sum16_change s1 a b s2 : is_byte a → is_byte b →
  sum16 0 (s1 ++ a :: s2) = sum16 0 (s1 ++ b :: s2) → a = b.
Proof.
  rewrite !sum16_app, !sum16_cons, !(sum16_plus (u16 _)) by apply u16_bound.
  rewrite !u16_add_l. unfold is_byte, u16. intros. Z.div_mod_to_equations. lia.
Qed.

(** ** The loops on a slice of the packet *)

Lemma decrypt_loop_slice mid key calc pre post :
  decrypt_loop (length mid) (length pre) key calc (pre ++ mid ++ post) =
  (pre ++ xor_stream key mid ++ post, sum16 calc mid).
Proof.
  revert key calc pre. induction mid as [|b mid IH]; intros; simpl; [done|].
  rewrite total_middle, insert_middle.
  replace (S (length pre)) with (length (pre ++ [Z.lxor b key])) by (rewrite length_app; simpl; lia).
  replace (pre ++ Z.lxor b key :: mid ++ post) with ((pre ++ [Z.lxor b key]) ++ mid ++ post)
    by (by rewrite <- app_assoc).
  rewrite IH, <- app_assoc. done.
Qed.

Lemma u8_succ i : u8 (u8 (Z.of_nat i) + 1) = u8 (Z.of_nat (S i)).
Proof. rewrite u8_add_l. f_equal. lia. Qed.

Lemma encrypt_loop_slice mid check pre post :
  encrypt_loop (length mid) (length pre) check (pre ++ mid ++ post) =
  let mid' := xor_stream (u8 (Z.of_nat (length pre))) mid in
  (pre ++ mid' ++ post, sum16 check mid').
Proof.
  revert check pre. induction mid as [|b mid IH]; intros; simpl; [done|].
  rewrite total_middle. set (c := Z.lxor b _). rewrite insert_middle.
  replace (S (length pre)) with (length (pre ++ [c])) by (rewrite length_app; simpl; lia).
  replace (pre ++ c :: mid ++ post) with ((pre ++ [c]) ++ mid ++ post) by (by rewrite <- app_assoc).
  rewrite IH. cbv zeta. rewrite <- app_assoc, u8_succ, length_app, Nat.add_1_r. done.
Qed.

(** a packet of at least four bytes is a type byte, two checksum bytes, the
    enciphered part and at most three clear bytes at the end *)
Lemma packet_split (d : bytes) : (4 ≤ length d)%nat →
  ∃ t c1 c2 mid post, d = t :: c1 :: c2 :: mid ++ post ∧
    length mid = (length d - 6)%nat ∧ length post = Nat.min 3 (length d - 3).
Proof.
  intros H. destruct d as [|t [|c1 [|c2 r]]]; simpl in H; try lia.
  exists t, c1, c2, (take (length r - 3) r), (drop (length r - 3) r).
  rewrite take_drop, length_take, length_drop. cbn [length] in *. split; [done|lia].
Qed.

Lemma encrypt_split t c1 c2 mid post :
  length post = Nat.min 3 (length mid + length post) → (1 ≤ length mid + length post)%nat →
  let mid' := xor_stream 3 mid in
  encrypt (t :: c1 :: c2 :: mid ++ post) =
  t :: Z.land (sum16 0 mid') 255 :: Z.shiftr (sum16 0 mid') 8 :: mid' ++ post.
Proof.
  intros Hp Hl. unfold encrypt. simpl length. rewrite length_app.
  destruct (Nat.ltb_spec (S (S (S (length mid + length post)))) 4); [lia|].
  replace (S (S (S (S (length mid + length post))) - 4) - 3)%nat with (length mid) by lia.
  change (t :: c1 :: c2 :: mid ++ post) with ([t; c1; c2] ++ mid ++ post).
  change 3%nat with (length [t; c1; c2]). rewrite encrypt_loop_slice. done.
Qed.

Lemma decrypt_split (pre : bytes) t c1 c2 mid post ce cc :
  length post = Nat.min 3 (length mid + length post) → (1 ≤ length mid + length post)%nat →
  decrypt (pre ++ t :: c1 :: c2 :: mid ++ post) (length pre) ce cc =
  (pre ++ t :: c1 :: c2 :: xor_stream 3 mid ++ post, c1 + 256 * c2, sum16 0 mid).
Proof.
  intros Hp Hl. unfold decrypt. rewrite length_app. simpl length. rewrite length_app.
  destruct (Nat.ltb_spec (length pre + S (S (S (length mid + length post)))) (4 + length pre)); [lia|].
  replace (S (length pre + S (S (S (length mid + length post))) - 4) - (length pre + 3))%nat
    with (length mid) by lia.
  replace (pre ++ t :: c1 :: c2 :: mid ++ post) with ((pre ++ [t; c1; c2]) ++ mid ++ post)
    by (by rewrite <- app_assoc).
  replace (length pre + 3)%nat with (length (pre ++ [t; c1; c2])) by (rewrite length_app; simpl; lia).
  rewrite decrypt_loop_slice, <- !app_assoc. simpl.
  f_equal; f_equal. f_equal; [|f_equal]; rewrite list_lookup_total_alt, lookup_app_r by lia.
  - by replace (length pre + 1 - length pre)%nat with 1%nat by lia.
  - by replace (length pre + 2 - length pre)%nat with 2%nat by lia.
Qed.

Lemma decrypt_split0 t c1 c2 mid post ce cc :
  length post = Nat.min 3 (length mid + length post) → (1 ≤ length mid + length post)%nat →
  decrypt (t :: c1 :: c2 :: mid ++ post) 0 ce cc =
  (t :: c1 :: c2 :: xor_stream 3 mid ++ post, c1 + 256 * c2, sum16 0 mid).
Proof. exact (decrypt_split [] t c1 c2 mid post ce cc). Qed.

Lemma check_bytes x : is_u16 x → Z.land x 255 + 256 * Z.shiftr x 8 = x.
Proof.
  intros. change 255 with (Z.ones 8). rewrite Z.land_ones, Z.shiftr_div_pow2 by lia.
  change (2 ^ 8) with 256. pose proof (Z.div_mod x 256). lia.
Qed.

(** ** Theorems *)

Lemma decrypt_loop_bytes n i key calc data : is_byte key → are_bytes data →
  are_bytes (decrypt_loop n i key calc data).1.
Proof.
  revert i key calc data. induction n as [|n IH]; intros i key calc data Hk Hd; [done|].
  cbn [decrypt_loop]. apply IH; [apply u8_byte|]. apply Forall_insert_byte; [done|].
  apply lxor_byte; [|done]. rewrite list_lookup_total_alt. destruct (data !! i) eqn:E; simpl.
  - by eapply Forall_lookup_1.
  - unfold is_byte. lia.
Qed.

Lemma decrypt_bytes data ofs ce cc : are_bytes data → are_bytes (decrypt data ofs ce cc).1.1.
Proof.
  intros Hd. unfold decrypt. case_match.
  - apply Forall_app. split; [done|]. apply Forall_singleton. unfold is_byte. lia.
  - pose proof (decrypt_loop_bytes (S (length data - 4) - (ofs + 3)) (ofs + 3) 3 0 data ltac:(unfold is_byte; lia) Hd).
    by destruct (decrypt_loop _ _ _ _ _).
Qed.

Lemma decrypt_encrypt_core (pre d : bytes) (ce cc : Z) :
  (4 ≤ length d)%nat →
  ∃ k1 k2 calc, decrypt (pre ++ encrypt d) (length pre) ce cc =
    (pre ++ <[2%nat := k2]> (<[1%nat := k1]> d), calc, calc).
Proof.
  intros H. destruct (packet_split d H) as (t & c1 & c2 & mid & post & Hd & Hm & Hp).
  assert (length d = S (S (S (length mid + length post)))) as Hl.
  { rewrite Hd. simpl. by rewrite length_app. }
  rewrite Hd, encrypt_split by lia. cbv zeta.
  rewrite decrypt_split by (rewrite length_xor_stream; lia).
  rewrite xor_stream_involutive, check_bytes by (apply sum16_bound; unfold is_u16; lia).
  by do 3 eexists.
Qed.

(** C16: for every packet of at least four bytes and every prefix of [length pre]
    bytes before it, [decrypt] at that offset undoes [encrypt]: all bytes but the
    two checksum bytes are restored, and the checksum read from the packet is the
    one computed, so the receiver accepts it. *)
Theorem decrypt_encrypt (pre d : bytes) (ce cc : Z) :
  (4 ≤ length d)%nat →
  ∃ k1 k2 calc, decrypt (pre ++ encrypt d) (length pre) ce cc =
    (pre ++ <[2%nat := k2]> (<[1%nat := k1]> d), calc, calc).
Proof. apply decrypt_encrypt_core. Qed.

Lemma decrypt_encrypt_witness :
  (4 ≤ length [3; 0; 0; 10; 20; 30; 40; 50])%nat ∧
  ∃ k1 k2 calc, decrypt ([7] ++ encrypt [3; 0; 0; 10; 20; 30; 40; 50]) (length [7]) 0 0 =
    ([7] ++ <[2%nat := k2]> (<[1%nat := k1]> [3; 0; 0; 10; 20; 30; 40; 50]), calc, calc).
Proof. split; [vm_compute; lia | apply decrypt_encrypt; vm_compute; lia]. Defined.

(** the checksum detects any change of a single enciphered byte: if [decrypt]
    accepts a packet, it computes a checksum other than the one in the packet
    once one byte between the checksum and the last three bytes is changed. *)
Theorem decrypt_detects_byte (e : bytes) (i : nat) (b ce cc : Z) :
  are_bytes e → is_byte b → (3 ≤ i ≤ length e - 4)%nat → (4 ≤ length e)%nat → b ≠ e !!! i →
  (decrypt e 0 ce cc).1.2 = (decrypt e 0 ce cc).2 →
  (decrypt (<[i := b]> e) 0 ce cc).1.2 ≠ (decrypt (<[i := b]> e) 0 ce cc).2.
Proof.
  intros Hbs Hb Hi Hl Hne.
  destruct (packet_split e Hl) as (t & c1 & c2 & mid & post & He & Hm & Hp).
  assert (length e = S (S (S (length mid + length post)))) as Hle.
  { rewrite He. simpl. by rewrite length_app. }
  destruct i as [|[|[|j]]]; [lia..|]. assert (j < length mid)%nat as Hj by lia.
  destruct (list_elem_of_split_length mid j (mid !!! j)) as (m1 & m2 & Hmid & Hm1).
  { by apply list_lookup_lookup_total_lt. }
  set (a := mid !!! j) in *. assert (e !!! (S (S (S j))) = a) as Ha.
  { rewrite He. simpl. apply list_lookup_total_correct. rewrite Hmid, <- app_assoc. simpl.
    rewrite lookup_app_r, Hm1, Nat.sub_diag by lia. done. }
  assert (is_byte a) as Hab.
  { rewrite <- Ha. eapply Forall_lookup_1; [exact Hbs|]. apply list_lookup_lookup_total_lt. lia. }
  assert (<[S (S (S j)) := b]> e = t :: c1 :: c2 :: (m1 ++ b :: m2) ++ post) as ->.
  { rewrite He, Hmid. simpl. do 3 f_equal. rewrite <- !app_assoc. simpl.
    rewrite Hm1. apply insert_middle. }
  clearbody a. rewrite He. clear He. rewrite Hmid in *. clear Hmid.
  rewrite length_app in Hm. cbn [length] in Hm. rewrite Hle in Hm, Hp. rewrite length_app in *. 
  cbn [length] in *.
  rewrite !decrypt_split0 by (rewrite !length_app; cbn [length]; lia).
  simpl. intros -> Heq%sum16_change; congruence.
Qed.

Lemma decrypt_detects_byte_witness :
  (decrypt (<[4%nat := 9]> (encrypt [3; 0; 0; 10; 20; 30; 40; 50])) 0 0 0).1.2 ≠
  (decrypt (<[4%nat := 9]> (encrypt [3; 0; 0; 10; 20; 30; 40; 50])) 0 0 0).2.
Proof.
  apply decrypt_detects_byte; try (vm_compute; lia); try by vm_compute.
  replace (encrypt [3; 0; 0; 10; 20; 30; 40; 50]) with [3; 25; 0; 9; 16; 30; 40; 50] by reflexivity.
  bytes_tac.
Defined.
