(* ===== verification/TPacketCompress.v ===== *)
(** * TPacket::compress and TPacket::decompress (src/libs/tapacket/TPacket.cpp)

    The LZ77 compression of packets: groups of a control byte and eight tokens, a
    token being a literal byte (control bit 0) or a 16 bit reference into the
    output so far (control bit 1), with a zero reference as the terminator. *)
From S2P Require Import Prelude.

(** ** TPacket::compress *)

(** [while (a + cmatchl < index && index + cmatchl < data.size() &&
    data[a + cmatchl - 1u] == data[index + cmatchl - 1u]) ++cmatchl;] *)
Fixpoint match_len (fuel : nat) (data : bytes) (a index cmatchl : nat) : nat :=
  match fuel with
  | O => cmatchl
  | S fuel =>
      if (a + cmatchl <? index)%nat && (index + cmatchl <? length data)%nat
         && (data !!! (a + cmatchl - 1)%nat =? data !!! (index + cmatchl - 1)%nat)
      then match_len fuel data a index (S cmatchl)
      else cmatchl
  end.

(** [for (a = 4u; a < index - 1u; ++a) ...]: the longest match and its start; the
    break leaves the loop on a match of more than 17 bytes *)
Fixpoint find_match (fuel : nat) (data : bytes) (a index : nat) (matchl mtch : nat) : nat * nat :=
  match fuel with
  | O => (matchl, mtch)
  | S fuel =>
      if (a <? index - 1)%nat then
        let cmatchl := match_len (length data) data a index 0 in
        if (matchl <? cmatchl)%nat then
          if (17 <? cmatchl)%nat then (cmatchl, a)
          else find_match fuel data (S a) index cmatchl a
        else find_match fuel data (S a) index matchl mtch
      else (matchl, mtch)
  end.

(** [while (index + cmatchl < data.size() && data[index + cmatchl - 1u] ==
    data[index - 2u]) ++cmatchl;] *)
Fixpoint run_len (fuel : nat) (data : bytes) (index cmatchl : nat) : nat :=
  match fuel with
  | O => cmatchl
  | S fuel =>
      if (index + cmatchl <? length data)%nat
         && (data !!! (index + cmatchl - 1)%nat =? data !!! (index - 2)%nat)
      then run_len fuel data index (S cmatchl)
      else cmatchl
  end.

(** the longest match found by both searches; [match] is uninitialised in the code
    until one is found, and used only then *)
Definition best_match (data : bytes) (index : nat) : nat * nat :=
  let '(matchl, mtch) := find_match (length data) data 4 index 2 0 in
  let cmatchl := run_len (length data) data index 0 in
  if (matchl <? cmatchl)%nat then (cmatchl, (index - 1)%nat) else (matchl, mtch).

(** [kommando = ((match - 3u) << 4) | matchl], as a 16 bit integer *)
Definition kommando (mtch matchl : nat) : Z :=
  u16 (Z.lor (Z.shiftl (u32 (Z.of_nat mtch - 3)) 4) (Z.of_nat matchl)).

Record cstate := CState {
  c_index : nat;      (* 1-based position of the next byte of [data] *)
  c_cbf : nat;        (* 1-based position of the current control byte in [result] *)
  c_count : nat;      (* number of the current token in its group, 0..7 *)
  c_result : bytes
}.

(** one iteration of [while (index < data.size() + 1u)] *)
Definition compress_step (data : bytes) (s : cstate) : cstate :=
  let '(count, result, cbf) :=
    if (c_count s =? 7)%nat
    then (0%nat, c_result s ++ [0], length (c_result s ++ [0]))
    else (S (c_count s), c_result s, c_cbf s) in
  let index := c_index s in
  let literal := CState (S index) cbf count (result ++ [data !!! (index - 1)%nat]) in
  if (index <? 6)%nat || (2000 <? index)%nat then literal
  else
    let '(matchl, mtch) := best_match data index in
    if (2 <? matchl)%nat then
      let result := <[(cbf - 1)%nat :=
        u8 (Z.lor (result !!! (cbf - 1)%nat) (Z.shiftl 1 (Z.of_nat count)))]> result in
      let matchl := Z.to_nat (Z.land (Z.of_nat (matchl - 2)) 15) in
      CState (index + (matchl + 2)) cbf count (result ++ le2 (kommando mtch matchl))
    else literal.

Fixpoint compress_loop (fuel : nat) (data : bytes) (s : cstate) : cstate :=
  match fuel with
  | O => s
  | S fuel =>
      if (c_index s <? length data + 1)%nat
      then compress_loop fuel data (compress_step data s)
      else s
  end.

(** the terminator: unused control bits set, and a zero reference *)
Definition compress_finish (s : cstate) : bytes :=
  (if (c_count s =? 7)%nat then c_result s ++ [255]
   else <[(c_cbf s - 1)%nat :=
     u8 (Z.lor (c_result s !!! (c_cbf s - 1)%nat)
               (Z.shiftl 255 (Z.of_nat (c_count s + 1))))]> (c_result s)) ++ [0; 0].

(** [compress]; [result[0] = 0x03] on the empty packet would write the terminator *)
Definition compress (data : bytes) : bytes :=
  let result :=
    compress_finish (compress_loop (length data + 1) data (CState 4 0 7 [])) in
  if (length result + 3 <? length data)%nat
  then 4 :: data !!! 1%nat :: data !!! 2%nat :: result
  else <[0%nat := 3]> data.

(** ** TPacket::decompress *)

(** [for (unsigned b = a; b < uop + a + 2; ++b) result += b <= result.size() ? result[b-1] : 0;] *)
Fixpoint copy_back (n b : nat) (result : bytes) : bytes :=
  match n with
  | O => result
  | S n =>
      copy_back n (S b)
        (result ++ [if (b <=? length result)%nat then result !!! (b - 1)%nat else 0])
  end.

(** outcome of the inner loop over the bits of a control byte *)
Inductive group_end : Type :=
  | GroupDone (index : nat) (result : bytes)   (* all eight bits consumed *)
  | Returned (result : bytes).                 (* [return] from the middle *)

(** [for (unsigned nump = 0; nump < 8; ++nump) ...], [n] being [8 - nump] *)
Fixpoint decompress_group (n : nat) (cbf nump : Z) (data : bytes) (headerSize index : nat)
    (result : bytes) : res group_end :=
  match n with
  | O => Ok (GroupDone index result)
  | S n =>
      if (length data <=? index)%nat then Ok (Returned (<[0%nat := 4]> result))
      else if Z.land (Z.shiftr cbf nump) 1 =? 0 then
        b ← rd8 data index;
        decompress_group n cbf (nump + 1) data headerSize (index + 1) (result ++ [b])
      else
        uop ← rd16 data index;
        let a := Z.shiftr uop 4 in
        if a =? 0 then Ok (Returned result)
        else
          let len := Z.land uop 15 in
          decompress_group n cbf (nump + 1) data headerSize (index + 2)
            (copy_back (Z.to_nat len + 2) (Z.to_nat a + headerSize) result)
  end.

(** [while (index < len) ...] *)
Fixpoint decompress_loop (fuel : nat) (data : bytes) (headerSize index : nat) (result : bytes)
    : res bytes :=
  match fuel with
  | O => Hang
  | S fuel =>
      if (index <? length data)%nat then
        cbf ← rd8 data index;
        g ← decompress_group 8 cbf 0 data headerSize (index + 1) result;
        match g with
        | GroupDone index result => decompress_loop fuel data headerSize index result
        | Returned result => Ok result
        end
      else Ok result
  end.

(** [decompress(data, len, headerSize)], on the buffer of a byte string *)
Definition decompress (data : bytes) (headerSize : nat) : res bytes :=
  b0 ← rd8 data 0;
  if negb (b0 =? 4) then Ok data
  else
    header ← rd_n data 0 headerSize;
    decompress_loop (S (length data)) data headerSize headerSize (<[0%nat := 3]> header).

Example compress_ex1 :
  decompress (compress [3;1;2; 7;7;7;7;7;7;7;7;7;7;7;7;7;8;9;10;7;7;7;7;8;9]) 3 =
  Ok [3;1;2; 7;7;7;7;7;7;7;7;7;7;7;7;7;8;9;10;7;7;7;7;8;9].
Proof. vm_compute. reflexivity. Qed.
Example compress_ex2 :
  (compress [3;1;2; 7;7;7;7;7;7;7;7;7;7;7;7;7;8;9;10;7;7;7;7;8;9]) !!! 0%nat = 4.
Proof. vm_compute. reflexivity. Qed.

(** ** Tokens: what the compressed stream means *)

Inductive token : Set :=
  | Lit (b : Z)
  | Ref (a len : nat).   (* copy [len + 2] bytes from 1-based position [a] *)

Definition tok_bytes (t : token) : bytes :=
  match t with Lit b => [b] | Ref a len => le2 (kommando a len) end.
Definition toks_bytes (ts : list token) : bytes := ts ≫= tok_bytes.
Definition tok_bit (t : token) : bool := match t with Lit _ => false | Ref _ _ => true end.
Definition tok_apply (out : bytes) (t : token) : bytes :=
  match t with Lit b => out ++ [b] | Ref a len => copy_back (len + 2) a out end.
Definition toks_apply (out : bytes) (ts : list token) : bytes := foldl tok_apply out ts.
Definition tok_valid (t : token) : Prop :=
  match t with Lit _ => True | Ref a len => (4 ≤ a < 4096)%nat ∧ (len < 16)%nat end.

Lemma toks_bytes_app ts ts' : toks_bytes (ts ++ ts') = toks_bytes ts ++ toks_bytes ts'.
Proof. apply bind_app. Qed.
Lemma toks_bytes_one t : toks_bytes [t] = tok_bytes t.
Proof. apply app_nil_r. Qed.

Lemma kommando_value a len : (4 ≤ a < 4096)%nat → (len < 16)%nat →
  kommando a len = (Z.of_nat a - 3) * 16 + Z.of_nat len.
Proof.
  intros Ha Hl. unfold kommando. rewrite u32_id by (unfold is_u32; lia).
  rewrite Z.lor_comm, lor_add_shift by lia. rewrite u16_id; unfold is_u16; lia.
Qed.

Lemma ref_decode a len : (4 ≤ a < 4096)%nat → (len < 16)%nat →
  Z.shiftr (kommando a len) 4 = Z.of_nat a - 3 ∧ Z.land (kommando a len) 15 = Z.of_nat len.
Proof.
  intros Ha Hl. rewrite kommando_value by done. rewrite Z.shiftr_div_pow2 by lia.
  change 15 with (Z.ones 4). rewrite Z.land_ones by lia. change (2 ^ 4) with 16.
  split; Z.div_mod_to_equations; lia.
Qed.

(** the control byte of a group has the bits of its tokens *)
Definition ctrl_ok (cb : Z) (ts : list token) : Prop :=
  is_byte cb ∧ ∀ i : nat, (i < 8)%nat → Z.testbit cb (Z.of_nat i) = default false (tok_bit <$> ts !! i).

Lemma bit_test cbf n : 0 ≤ n → (Z.land (Z.shiftr cbf n) 1 =? 0) = negb (Z.testbit cbf n).
Proof.
  intros Hn. change 1 with (Z.ones 1). rewrite Z.land_ones by lia. change (2 ^ 1) with 2.
  rewrite <- Z.bit0_mod, Z.shiftr_spec, Z.add_0_l by lia. by destruct (Z.testbit cbf n).
Qed.

Lemma ctrl_set cb n i : 0 ≤ n < 8 → 0 ≤ i < 8 →
  Z.testbit (u8 (Z.lor cb (Z.shiftl 1 n))) i = (Z.testbit cb i || (i =? n)).
Proof.
  intros Hn Hi. unfold u8. change 256 with (2 ^ 8).
  rewrite Z.mod_pow2_bits_low, Z.lor_spec, Z.shiftl_spec by lia. f_equal.
  change 1 with (Z.ones 1). destruct (Z.eqb_spec i n) as [->|].
  - by rewrite Z.sub_diag.
  - destruct (decide (i < n)); [by rewrite Z.testbit_neg_r by lia|].
    apply Z.ones_spec_high. lia.
Qed.

Lemma ctrl_fill cb n i : 0 ≤ n → 0 ≤ i < 8 →
  Z.testbit (u8 (Z.lor cb (Z.shiftl 255 n))) i = (Z.testbit cb i || (n <=? i)).
Proof.
  intros Hn Hi. unfold u8. change 256 with (2 ^ 8).
  rewrite Z.mod_pow2_bits_low, Z.lor_spec, Z.shiftl_spec by lia. f_equal.
  change 255 with (Z.ones 8). destruct (Z.leb_spec n i).
  - apply Z.ones_spec_low. lia.
  - by rewrite Z.testbit_neg_r by lia.
Qed.

(** ** The decoder on tokens *)

Lemma group_tokens ts : ∀ m cbf k data p q hs out,
  data = p ++ toks_bytes ts ++ q → hs = 3%nat → Forall tok_valid ts →
  (∀ i : nat, (i < length ts)%nat →
     Z.testbit cbf (Z.of_nat (k + i)) = default false (tok_bit <$> ts !! i)) →
  decompress_group (length ts + m) cbf (Z.of_nat k) data hs (length p) out =
  decompress_group m cbf (Z.of_nat (k + length ts)) data hs
    (length (p ++ toks_bytes ts)) (toks_apply out ts).
Proof.
  induction ts as [|t ts IH]; intros m cbf k data p q hs out Hd Hhs Hv Hb.
  { simpl. by rewrite app_nil_r, Nat.add_0_r. }
  change (t :: ts) with ([t] ++ ts) in *. rewrite toks_bytes_app, toks_bytes_one in *.
  inversion_clear Hv as [|? ? Ht Hts].
  pose proof (Hb 0%nat ltac:(simpl; lia)) as Hb0. rewrite Nat.add_0_r in Hb0. simpl in Hb0.
  assert (length p < length data)%nat as Hlt.
  { rewrite Hd, !length_app. destruct t; simpl; lia. }
  simpl length. cbn [Nat.add decompress_group].
  destruct (Nat.leb_spec (length data) (length p)); [lia|]. clear Hlt H.
  rewrite bit_test, Hb0 by lia. rewrite Z.add_1_r, <- Nat2Z.inj_succ.
  replace (k + S (length ts))%nat with (S k + length ts)%nat by lia.
  rewrite app_assoc. destruct t as [b|a len]; simpl tok_bit; cbn [negb].
  - rewrite (rd8_lookup _ _ b); cycle 1.
    { rewrite Hd, <- app_assoc. simpl. by apply list_lookup_middle. }
    rewrite res_bind_ok. replace (length p + 1)%nat with (length (p ++ [b]))
      by (rewrite length_app; simpl; lia).
    apply (IH _ _ _ _ _ q); [|done..|].
    + by rewrite Hd, <- !app_assoc.
    + intros i Hi. replace (S k + i)%nat with (k + S i)%nat by lia. apply (Hb (S i)). simpl. lia.
  - destruct Ht as [Ha Hl]. destruct (ref_decode a len Ha Hl) as [Hsr Hla].
    rewrite Hd, <- app_assoc. simpl tok_bytes. rewrite rd16_le2; cycle 1.
    { rewrite kommando_value by done. unfold is_u16. lia. }
    rewrite res_bind_ok. cbv zeta. rewrite Hsr, Hla.
    destruct (Z.eqb_spec (Z.of_nat a - 3) 0); [lia|].
    replace (length p + 2)%nat with (length (p ++ le2 (kommando a len)))
      by (rewrite length_app; simpl; lia).
    rewrite Nat2Z.id. replace (Z.to_nat (Z.of_nat a - 3) + hs)%nat with a by lia.
    rewrite (app_assoc p _ (toks_bytes ts ++ q)).
    apply (IH m cbf (S k) _ (p ++ le2 (kommando a len)) q hs (tok_apply out (Ref a len))); [done..|].
    intros i Hi. replace (S k + i)%nat with (k + S i)%nat by lia. apply (Hb (S i)). simpl. lia.
Qed.

(** ** The searches of the compressor *)

(** [len] bytes at 1-based position [index] repeat those at [a] *)
Definition repeats (data : bytes) (a index len : nat) : Prop :=
  ∀ j : nat, (j < len)%nat → (index + j < length data)%nat ∧
    data !!! (a + j - 1)%nat = data !!! (index + j - 1)%nat.

Lemma repeats_le data a index l l' : (l' ≤ l)%nat → repeats data a index l → repeats data a index l'.
Proof. intros Hl H j Hj. apply H. lia. Qed.

Lemma repeats_snoc data a index c :
  repeats data a index c → (index + c < length data)%nat →
  data !!! (a + c - 1)%nat = data !!! (index + c - 1)%nat → repeats data a index (S c).
Proof.
  intros H Hl Hd j Hj. destruct (decide (j = c)) as [->|]; [done|]. apply H. lia.
Qed.

Lemma match_len_repeats fuel data a index c :
  repeats data a index c → repeats data a index (match_len fuel data a index c).
Proof.
  revert c. induction fuel as [|fuel IH]; intros c Hc; simpl; [done|].
  destruct (Nat.ltb_spec (a + c) index), (Nat.ltb_spec (index + c) (length data)),
    (Z.eqb_spec (data !!! (a + c - 1)%nat) (data !!! (index + c - 1)%nat)); simpl; try done.
  apply IH. by apply repeats_snoc.
Qed.

Lemma run_len_repeats fuel data index c : (2 ≤ index)%nat →
  repeats data (index - 1) index c → repeats data (index - 1) index (run_len fuel data index c).
Proof.
  intros Hi. revert c. induction fuel as [|fuel IH]; intros c Hc; simpl; [done|].
  destruct (Nat.ltb_spec (index + c) (length data)),
    (Z.eqb_spec (data !!! (index + c - 1)%nat) (data !!! (index - 2)%nat)) as [Heq|]; simpl; try done.
  apply IH. apply repeats_snoc; [done..|]. rewrite Heq.
  clear Heq H. induction c as [|c IHc].
  - f_equal. lia.
  - rewrite <- IHc by (eapply repeats_le; [|done]; lia).
    destruct (Hc c ltac:(lia)) as [_ Hc']. rewrite Hc'. f_equal. lia.
Qed.

(** a search result of more than two bytes is a genuine earlier occurrence *)
Definition found (data : bytes) (index : nat) (r : nat * nat) : Prop :=
  (2 < r.1)%nat → (4 ≤ r.2 < index)%nat ∧ repeats data r.2 index r.1.

Lemma find_match_found fuel data a index matchl mtch :
  (4 ≤ a)%nat → found data index (matchl, mtch) →
  found data index (find_match fuel data a index matchl mtch).
Proof.
  revert a matchl mtch. induction fuel as [|fuel IH]; intros a matchl mtch Ha Hf; simpl; [done|].
  destruct (Nat.ltb_spec a (index - 1)); [|done].
  set (c := match_len _ _ _ _ _).
  assert (found data index (c, a)) as Hc.
  { intros _. simpl. split; [lia|]. apply match_len_repeats. intros j Hj. lia. }
  destruct (matchl <? c)%nat; [|apply IH; [lia|done]].
  destruct (17 <? c)%nat; [done|]. apply IH; [lia|done].
Qed.

Lemma best_match_found data index : (6 ≤ index)%nat → found data index (best_match data index).
Proof.
  intros Hi. unfold best_match.
  assert (found data index (find_match (length data) data 4 index 2 0)) as H.
  { apply find_match_found; [lia|]. unfold found. simpl. lia. }
  destruct (find_match _ _ _ _ _ _) as [matchl mtch].
  destruct (_ <? _)%nat; [|done]. intros _. cbn [fst snd]. split; [lia|].
  apply run_len_repeats; [lia|]. intros j Hj. lia.
Qed.

(** copying back from a repeat continues the data *)
Lemma copy_back_repeats (d : bytes) n : ∀ a index : nat,
  (1 ≤ a < index)%nat → repeats d a index n →
  copy_back n a (take (index - 1) d) = take (index - 1 + n) d.
Proof.
  induction n as [|n IH]; intros a index Ha Hr; simpl.
  { by rewrite Nat.add_0_r. }
  destruct (Hr 0%nat ltac:(lia)) as [Hlt Heq]. rewrite !Nat.add_0_r in Heq.
  replace (a <=? length (take (index - 1) d))%nat with true
    by (symmetry; apply Nat.leb_le; rewrite length_take; lia).
  assert (d !! (index - 1)%nat = Some (d !!! (index - 1)%nat)) as Hsome
    by (apply list_lookup_lookup_total_lt; lia).
  rewrite list_lookup_total_alt, lookup_take_lt by lia. rewrite <- list_lookup_total_alt, Heq.
  rewrite <- take_snoc by done.
  replace (S (index - 1)) with (S index - 1)%nat by lia. rewrite IH; [f_equal; lia|lia|].
  intros j Hj. destruct (Hr (S j) ltac:(lia)) as [H1 H2]. split; [lia|].
  replace (S a + j - 1)%nat with (a + S j - 1)%nat by lia. rewrite H2. f_equal. lia.
Qed.

(** ** The decoder follows the encoder *)

Section roundtrip.
Context (h1 h2 : Z).

(** after [n] groups, the decoder has read [pre] and produced [out] *)
Definition decodes (pre out : bytes) (n : nat) : Prop :=
  ∀ post fuel,
    decompress_loop (n + fuel) ([4; h1; h2] ++ pre ++ post) 3 3 [3; h1; h2] =
    decompress_loop fuel ([4; h1; h2] ++ pre ++ post) 3 (length ([4; h1; h2] ++ pre)) out.

Lemma decodes_group pre out n cb ts post fuel m :
  decodes pre out n → Forall tok_valid ts → (length ts + m = 8)%nat →
  (∀ i : nat, (i < length ts)%nat → Z.testbit cb (Z.of_nat i) = default false (tok_bit <$> ts !! i)) →
  decompress_loop (n + S fuel) ([4; h1; h2] ++ (pre ++ cb :: toks_bytes ts) ++ post) 3 3 [3; h1; h2] =
  (g ← decompress_group m cb (Z.of_nat (length ts)) ([4; h1; h2] ++ (pre ++ cb :: toks_bytes ts) ++ post) 3
         (length ([4; h1; h2] ++ pre ++ cb :: toks_bytes ts)) (toks_apply out ts);
   match g with
   | GroupDone index result =>
       decompress_loop fuel ([4; h1; h2] ++ (pre ++ cb :: toks_bytes ts) ++ post) 3 index result
   | Returned result => Ok result
   end).
Proof.
  intros Hdec Hv Hm Hb.
  set (data := [4; h1; h2] ++ (pre ++ cb :: toks_bytes ts) ++ post).
  assert (data = [4; h1; h2] ++ pre ++ cb :: toks_bytes ts ++ post) as Hdata
    by (unfold data; by rewrite <- !app_assoc).
  rewrite Hdata at 1. rewrite Hdec, <- Hdata. cbn [decompress_loop].
  set (p := [4; h1; h2] ++ pre).
  assert (data = p ++ cb :: toks_bytes ts ++ post) as Hdp by (unfold p; by rewrite Hdata, app_assoc).
  destruct (Nat.ltb_spec (length p) (length data)) as [_|Hge];
    [|rewrite Hdp, length_app in Hge; simpl in Hge; lia].
  rewrite (rd8_lookup _ _ cb) by (rewrite Hdp; by apply list_lookup_middle). rewrite res_bind_ok.
  replace (length p + 1)%nat with (length (p ++ [cb])) by (rewrite length_app; simpl; lia).
  pose proof (group_tokens ts m cb 0 data (p ++ [cb]) post 3 out) as G.
  rewrite Hm, Nat.add_0_l in G. change (Z.of_nat 0) with 0 in G. rewrite G; [|by rewrite Hdp, <- app_assoc|done..].
  replace ((p ++ [cb]) ++ toks_bytes ts) with ([4; h1; h2] ++ pre ++ cb :: toks_bytes ts); [done|].
  unfold p. by rewrite <- !app_assoc.
Qed.

Lemma decodes_snoc pre out n cb ts :
  decodes pre out n → Forall tok_valid ts → length ts = 8%nat → ctrl_ok cb ts →
  decodes (pre ++ cb :: toks_bytes ts) (toks_apply out ts) (S n).
Proof.
  intros Hdec Hv Hl [_ Hb] post fuel. rewrite Nat.add_succ_l, <- Nat.add_succ_r.
  rewrite (decodes_group pre out n cb ts post fuel 0); [done|done|done|lia|].
  intros i Hi. apply Hb. lia.
Qed.

Lemma decodes_finish pre out n cb ts fuel :
  decodes pre out n → Forall tok_valid ts → (length ts < 8)%nat →
  (∀ i : nat, (i ≤ length ts)%nat →
     Z.testbit cb (Z.of_nat i) = default true (tok_bit <$> ts !! i)) →
  decompress_loop (n + S fuel) ([4; h1; h2] ++ (pre ++ cb :: toks_bytes ts) ++ [0; 0]) 3 3 [3; h1; h2] =
  Ok (toks_apply out ts).
Proof.
  intros Hdec Hv Hl Hb.
  rewrite (decodes_group pre out n cb ts [0; 0] fuel (8 - length ts)); [|done|done|lia|]; cycle 1.
  { intros i Hi. rewrite Hb by lia. apply lookup_lt_is_Some in Hi as [t ->]. done. }
  destruct (8 - length ts)%nat eqn:E; [lia|]. cbn [decompress_group].
  set (data := [4; h1; h2] ++ (pre ++ cb :: toks_bytes ts) ++ [0; 0]).
  set (p := [4; h1; h2] ++ pre ++ cb :: toks_bytes ts).
  assert (data = p ++ le2 0 ++ []) as Hd by (unfold data, p; by rewrite <- !app_assoc).
  destruct (Nat.leb_spec (length data) (length p)) as [Hle|];
    [rewrite Hd, length_app in Hle; simpl in Hle; lia|].
  rewrite bit_test by lia. rewrite (Hb (length ts)) by lia.
  rewrite lookup_ge_None_2 by lia. simpl negb. cbv iota.
  rewrite Hd, rd16_le2 by (unfold is_u16; lia). done.
Qed.
End roundtrip.

Lemma ctrl_ok_nil : ctrl_ok 0 [].
Proof. split; [unfold is_byte; lia|]. intros i _. apply Z.testbit_0_l. Qed.

Lemma ctrl_ok_lit cb ts b : ctrl_ok cb ts → ctrl_ok cb (ts ++ [Lit b]).
Proof.
  intros [H1 H2]. split; [done|]. intros i Hi. rewrite H2 by done.
  destruct (decide (i < length ts)%nat); [by rewrite lookup_app_l by lia|].
  rewrite (lookup_ge_None_2 ts) by lia. rewrite lookup_app_r by lia. by destruct (i - length ts)%nat.
Qed.

Lemma ctrl_ok_ref cb ts a len : ctrl_ok cb ts → (length ts < 8)%nat →
  ctrl_ok (u8 (Z.lor cb (Z.shiftl 1 (Z.of_nat (length ts))))) (ts ++ [Ref a len]).
Proof.
  intros [H1 H2] Hl. split; [apply u8_byte|]. intros i Hi. rewrite ctrl_set, H2 by lia.
  destruct (decide (i < length ts)%nat).
  { rewrite lookup_app_l by lia. destruct (Z.eqb_spec (Z.of_nat i) (Z.of_nat (length ts))); [lia|].
    apply orb_false_r. }
  rewrite (lookup_ge_None_2 ts) by lia. rewrite lookup_app_r by lia. simpl.
  destruct (i - length ts)%nat eqn:E; simpl.
  - apply Z.eqb_eq. lia.
  - apply Z.eqb_neq. lia.
Qed.

(** ** The invariant of the compression loop *)

Section invariant.
Context (d : bytes) (h1 h2 : Z).
(** the packet as [decompress] returns it: with the type byte 0x03 *)
Let d3 : bytes := <[0%nat := 3]> d.
Hypothesis Hd : take 3 d3 = [3; h1; h2].

Lemma d3_total k : (1 ≤ k)%nat → d3 !!! k = d !!! k.
Proof. intros. unfold d3. apply list_lookup_total_insert_ne. lia. Qed.

Lemma d3_lookup k : (1 ≤ k < length d)%nat → d3 !! k = Some (d !!! k).
Proof.
  intros. rewrite <- d3_total by lia. apply list_lookup_lookup_total_lt.
  unfold d3. rewrite length_insert. lia.
Qed.

(** a group that is open: control byte [cb] and tokens [ts] after [pre], which
    together decode to the first [k] bytes *)
Inductive opened (pre : bytes) (cb : Z) (ts : list token) (k : nat) : Prop :=
  | Opened (out : bytes) (n : nat) :
      (n ≤ length pre)%nat → decodes h1 h2 pre out n → ctrl_ok cb ts →
      Forall tok_valid ts → toks_apply out ts = take k d3 → opened pre cb ts k.

Inductive cinv : cstate → Prop :=
  | cinv_closed index cbf pre :
      (3 < index)%nat → opened pre 0 [] (index - 1) → cinv (CState index cbf 7 pre)
  | cinv_open index count pre cb ts :
      (3 < index)%nat → (count < 7)%nat → length ts = S count →
      opened pre cb ts (index - 1) →
      cinv (CState index (S (length pre)) count (pre ++ cb :: toks_bytes ts)).

Lemma cinv_init : cinv (CState 4 0 7 []).
Proof.
  constructor; [lia|]. exists [3; h1; h2] 0%nat; [simpl; lia| |apply ctrl_ok_nil|constructor|done].
  intros post fuel. done.
Qed.

Lemma opened_close pre cb ts k : length ts = 8%nat → opened pre cb ts k →
  opened (pre ++ cb :: toks_bytes ts) 0 [] k.
Proof.
  intros Hl [out n Hs Hdec Hc Hv Ha].
  exists (toks_apply out ts) (S n); [|by apply decodes_snoc|apply ctrl_ok_nil|constructor|done].
  rewrite length_app. simpl. lia.
Qed.

(** adding a token to the open group and closing the group when it is full *)
Lemma cinv_token index count pre cb ts :
  (3 < index)%nat → (count ≤ 7)%nat → length ts = S count → opened pre cb ts (index - 1) →
  cinv (CState index (S (length pre)) count (pre ++ cb :: toks_bytes ts)).
Proof.
  intros Hi Hc Hl Ho. destruct (decide (count = 7%nat)) as [->|].
  - apply cinv_closed; [done|]. by apply opened_close.
  - apply cinv_open; [done|lia|done..].
Qed.

Lemma opened_lit pre cb ts k : (1 ≤ k < length d)%nat → opened pre cb ts k →
  opened pre cb (ts ++ [Lit (d !!! k)]) (S k).
Proof.
  intros Hk [out n Hs Hdec Hc Hv Ha].
  exists out n; [done..|by apply ctrl_ok_lit|apply Forall_app; by repeat constructor|].
  unfold toks_apply in *. rewrite foldl_app, Ha. simpl. symmetry. apply take_snoc.
  by apply d3_lookup.
Qed.

Lemma opened_ref pre cb ts index mtch len :
  (4 ≤ mtch < index)%nat → (index ≤ 2000)%nat → (len < 16)%nat → (length ts < 8)%nat →
  repeats d mtch index (len + 2) → opened pre cb ts (index - 1) →
  opened pre (u8 (Z.lor cb (Z.shiftl 1 (Z.of_nat (length ts))))) (ts ++ [Ref mtch len])
    (index - 1 + (len + 2)).
Proof.
  intros Hm Hi Hl Hts Hr [out n Hs Hdec Hc Hv Ha].
  exists out n; [done..|by apply ctrl_ok_ref| |].
  - apply Forall_app. split; [done|]. constructor; [simpl; lia|constructor].
  - unfold toks_apply in *. rewrite foldl_app, Ha. cbn [foldl tok_apply]. apply copy_back_repeats; [lia|].
    intros j Hj. destruct (Hr j Hj) as [H1 H2]. unfold d3 at 1. rewrite length_insert.
    split; [done|]. by rewrite !d3_total by lia.
Qed.

(** what the first lines of the loop body make of the state *)
Lemma cinv_prepare s : cinv s →
  ∃ pre cb ts count, (count ≤ 7)%nat ∧ length ts = count ∧ (3 < c_index s)%nat ∧
    opened pre cb ts (c_index s - 1) ∧
    (if (c_count s =? 7)%nat
     then (0%nat, c_result s ++ [0], length (c_result s ++ [0]))
     else (S (c_count s), c_result s, c_cbf s)) =
    (count, pre ++ cb :: toks_bytes ts, S (length pre)).
Proof.
  intros [index cbf pre Hi Ho|index count pre cb ts Hi Hc Hl Ho]; simpl.
  - exists pre, 0, [], 0%nat. rewrite length_app, Nat.add_1_r. auto with lia.
  - exists pre, cb, ts, (S count). destruct (Nat.eqb_spec count 7); [lia|]. auto with lia.
Qed.

Lemma kommando_len matchl : (2 < matchl)%nat →
  (Z.to_nat (Z.land (Z.of_nat (matchl - 2)) 15) < 16)%nat ∧
  (Z.to_nat (Z.land (Z.of_nat (matchl - 2)) 15) + 2 ≤ matchl)%nat.
Proof.
  intros H. change 15 with (Z.ones 4). rewrite Z.land_ones by lia. change (2 ^ 4) with 16.
  split; Z.div_mod_to_equations; lia.
Qed.

Lemma cinv_step s : cinv s → (c_index s ≤ length d)%nat → 
  cinv (compress_step d s) ∧ (c_index s < c_index (compress_step d s) ≤ length d + 1)%nat.
Proof.
  intros Hs Hle. destruct (cinv_prepare s Hs) as (pre & cb & ts & count & Hc & Hl & Hi & Ho & E).
  unfold compress_step. rewrite E. clear E Hs. set (index := c_index s) in *.
  assert (∀ b, (pre ++ cb :: toks_bytes ts) ++ [b] = pre ++ cb :: toks_bytes (ts ++ [Lit b])) as Elit.
  { intros. by rewrite toks_bytes_app, <- app_assoc. }
  rewrite Elit.
  assert (cinv (CState (S index) (S (length pre)) count
                  (pre ++ cb :: toks_bytes (ts ++ [Lit (d !!! (index - 1)%nat)])))) as Hlit.
  { apply cinv_token; [lia|done|rewrite length_app; simpl; lia|].
    replace (S index - 1)%nat with (S (index - 1)) by lia. apply opened_lit; [lia|done]. }
  destruct ((index <? 6)%nat || (2000 <? index)%nat) eqn:E; [split; [done|simpl; lia]|].
  apply orb_false_iff in E as [E1%Nat.ltb_ge E2%Nat.ltb_ge].
  pose proof (best_match_found d index E1) as Hf. destruct (best_match d index) as [matchl mtch].
  destruct (Nat.ltb_spec 2 matchl) as [Hm|]; [|split; [done|simpl; lia]].
  destruct (Hf Hm) as [Hr1 Hr2]. cbn [fst snd] in Hr1, Hr2.
  destruct (kommando_len matchl Hm) as [Hk1 Hk2]. set (len := Z.to_nat _) in *.
  rewrite Nat.sub_1_r. cbn [Nat.pred]. rewrite total_middle, insert_middle.
  rewrite <- app_assoc, <- app_comm_cons.
  change (le2 (kommando mtch len)) with (tok_bytes (Ref mtch len)).
  rewrite <- toks_bytes_one, <- toks_bytes_app. rewrite <- Hl.
  pose proof (opened_ref pre cb ts index mtch len Hr1 E2 Hk1 ltac:(lia) (repeats_le _ _ _ _ _ Hk2 Hr2) Ho) as Ho'.
  split; [|simpl; destruct (Hr2 (len + 1)%nat ltac:(lia)); lia].
  apply cinv_token; [lia|lia|rewrite length_app; simpl; lia|].
  by replace (index + (len + 2) - 1)%nat with (index - 1 + (len + 2))%nat by lia.
Qed.

Lemma cinv_loop fuel s : cinv s → (c_index s ≤ length d + 1)%nat →
  (length d + 1 < fuel + c_index s)%nat →
  cinv (compress_loop fuel d s) ∧ (c_index (compress_loop fuel d s) = length d + 1)%nat.
Proof.
  revert s. induction fuel as [|fuel IH]; intros s Hs Hle Hf; simpl; [lia|].
  destruct (Nat.ltb_spec (c_index s) (length d + 1)); [|split; [done|lia]].
  destruct (cinv_step s Hs ltac:(lia)) as [Hs' Hi']. apply IH; [done|lia..].
Qed.

Lemma finish_decodes s fuel : cinv s → c_index s = (length d + 1)%nat →
  (length (compress_finish s) < fuel)%nat →
  decompress_loop fuel ([4; h1; h2] ++ compress_finish s) 3 3 [3; h1; h2] = Ok d3.
Proof.
  intros Hs Hi.
  assert (∃ pre cb ts, (length ts < 8)%nat ∧ opened pre cb ts (length d) ∧
    compress_finish s =
    (pre ++ u8 (Z.lor cb (Z.shiftl 255 (Z.of_nat (length ts)))) :: toks_bytes ts) ++ [0; 0])
    as (pre & cb & ts & Hl & [out n Hsm Hdec [_ Hc] Hv Ha] & ->).
  { destruct Hs as [index cbf pre Hi' Ho|index count pre cb ts Hi' Hc Hl Ho]; simpl in Hi.
    - exists pre, 0, []. replace (length d) with (index - 1)%nat by lia. split; [simpl; lia|].
      split; [done|]. unfold compress_finish. simpl. by rewrite <- !app_assoc.
    - exists pre, cb, ts. replace (length d) with (index - 1)%nat by lia. split; [lia|].
      split; [done|]. unfold compress_finish. cbn [c_count c_cbf c_result].
      destruct (Nat.eqb_spec count 7); [lia|].
      rewrite Nat.sub_1_r. cbn [Nat.pred]. rewrite total_middle, insert_middle.
      by rewrite Hl, Nat.add_1_r. }
  intros Hf. rewrite !length_app in Hf. cbn [length] in Hf.
  replace fuel with (n + S (fuel - n - 1))%nat by lia.
  rewrite (decodes_finish _ _ pre out n); [|done..|].
  - rewrite Ha. unfold d3. f_equal. apply take_ge. by rewrite length_insert.
  - intros i Hi'. rewrite ctrl_fill, Hc by lia. destruct (decide (i < length ts)%nat) as [Hlt|].
    + destruct (Z.leb_spec (Z.of_nat (length ts)) (Z.of_nat i)); [lia|]. rewrite orb_false_r.
      apply lookup_lt_is_Some in Hlt as [t ->]. done.
    + rewrite lookup_ge_None_2 by lia. simpl. apply Z.leb_le. lia.
Qed.
End invariant.

Lemma decompress_compress_core (d : bytes) :
  d ≠ [] → decompress (compress d) 3 = Ok (<[0%nat := 3]> d).
Proof.
  intros Hne. unfold compress. set (s := compress_loop _ _ _).
  destruct (Nat.ltb_spec (length (compress_finish s) + 3) (length d)) as [Hlt|]; cycle 1.
  { destruct d as [|x d']; [done|]. unfold decompress. simpl. done. }
  destruct d as [|x [|h1 [|h2 d']]]; [simpl in Hlt; lia..|].
  set (d := x :: h1 :: h2 :: d') in *.
  assert (take 3 (<[0%nat := 3]> d) = [3; h1; h2]) as Hd by done.
  destruct (cinv_loop d h1 h2 (length d + 1) (CState 4 0 7 []) (cinv_init d h1 h2 Hd)) as [Hs Hi].
  { simpl. lia. }
  { simpl. lia. }
  change (compress_loop _ _ _) with s in Hs, Hi.
  unfold decompress. rewrite rd8_0, res_bind_ok. cbn [negb Z.eqb Pos.eqb].
  change (d !!! 1%nat) with h1. change (d !!! 2%nat) with h2.
  apply (finish_decodes d h1 h2 s); [done..|simpl; lia].
Qed.

(** C17: [decompress] undoes [compress]: whatever bytes a packet holds, however
    short or long it is, the decompressor terminates without reading out of
    bounds and returns the packet, with the type byte set to 0x03. *)
Theorem decompress_compress (d : bytes) :
  d ≠ [] → decompress (compress d) 3 = Ok (<[0%nat := 3]> d).
Proof. apply decompress_compress_core. Qed.

Lemma decompress_compress_witness :
  decompress (compress [5;1;2; 7;7;7;7;7;7;7;7;7;7;7;7;7;8;9;10;7;7;7;7;8;9]) 3 =
  Ok [3;1;2; 7;7;7;7;7;7;7;7;7;7;7;7;7;8;9;10;7;7;7;7;8;9].
Proof. apply (decompress_compress [5;1;2; 7;7;7;7;7;7;7;7;7;7;7;7;7;8;9;10;7;7;7;7;8;9]). discriminate. Defined.

(** ** Arbitrary input *)

Lemma length_copy_back n b result : length (copy_back n b result) = (length result + n)%nat.
Proof.
  revert b result. induction n as [|n IH]; intros; simpl; [lia|].
  rewrite IH, length_app. simpl. lia.
Qed.

Lemma rd16_ok s i : (i < length s)%nat → is_ok (rd16 s i).
Proof.
  intros. unfold rd16. destruct (rd8_ok s i) as [a ->]; [lia|].
  destruct (rd8_ok s (i + 1)) as [b ->]; [lia|]. by eexists.
Qed.

Lemma land15 x : (Z.to_nat (Z.land x 15) ≤ 15)%nat.
Proof.
  change 15 with (Z.ones 4). rewrite Z.land_ones by lia. change (2 ^ 4) with 16.
  pose proof (Z.mod_pos_bound x 16). lia.
Qed.

(** what a group may do: consume bytes, and produce at most 17 bytes for two *)
Definition group_bound (i0 l0 len : nat) (g : group_end) : Prop :=
  match g with
  | GroupDone i out => (i0 ≤ i ≤ len + 1)%nat ∧ (2 * length out + 17 * i0 ≤ 2 * l0 + 17 * i)%nat
  | Returned out => (2 * length out + 17 * i0 ≤ 2 * l0 + 17 * (len + 1))%nat
  end.

Lemma decompress_group_total n : ∀ cbf nump data hs index out,
  (index ≤ length data + 1)%nat →
  ∃ g, decompress_group n cbf nump data hs index out = Ok g ∧
    group_bound index (length out) (length data) g.
Proof.
  induction n as [|n IH]; intros cbf nump data hs index out Hi; cbn [decompress_group].
  { eexists. split; [done|]. simpl. lia. }
  destruct (Nat.leb_spec (length data) index).
  { eexists. split; [done|]. simpl. rewrite length_insert. lia. }
  destruct (_ =? 0).
  - destruct (rd8_ok data index ltac:(lia)) as [b ->]. rewrite res_bind_ok.
    destruct (IH cbf (nump + 1) data hs (index + 1)%nat (out ++ [b]) ltac:(lia)) as (g & -> & Hg).
    eexists. split; [done|]. destruct g; simpl in *; rewrite length_app in Hg; simpl in Hg; lia.
  - destruct (rd16_ok data index ltac:(lia)) as [u ->]. rewrite res_bind_ok. cbv zeta.
    destruct (_ =? 0); [eexists; split; [done|]; simpl; lia|].
    pose proof (land15 u) as Hl. set (l := Z.to_nat (Z.land u 15)) in *.
    set (out' := copy_back _ _ _). assert (length out' = length out + (l + 2))%nat as Ho
      by apply length_copy_back.
    destruct (IH cbf (nump + 1) data hs (index + 2)%nat out' ltac:(lia)) as (g & -> & Hg).
    eexists. split; [done|]. destruct g; simpl in *; lia.
Qed.

Lemma decompress_loop_total fuel : ∀ data hs index out,
  (index ≤ length data + 1)%nat → (length data < fuel + index)%nat → (0 < fuel)%nat →
  ∃ out', decompress_loop fuel data hs index out = Ok out' ∧
    (2 * length out' + 17 * index ≤ 2 * length out + 17 * (length data + 1))%nat.
Proof.
  induction fuel as [|fuel IH]; intros data hs index out Hi Hf Hf0; [lia|]. cbn [decompress_loop].
  destruct (Nat.ltb_spec index (length data)); cycle 1.
  { eexists. split; [done|]. lia. }
  destruct (rd8_ok data index ltac:(lia)) as [cbf ->]. rewrite res_bind_ok.
  destruct (decompress_group_total 8 cbf 0 data hs (index + 1) out ltac:(lia)) as (g & -> & Hg).
  rewrite res_bind_ok. destruct g as [i' o'|o']; simpl in Hg.
  - destruct (decide (fuel = 0%nat)) as [->|]; [lia|].
    destruct (IH data hs i' o' ltac:(lia) ltac:(lia) ltac:(lia)) as (out' & -> & Ho).
    eexists. split; [done|]. lia.
  - eexists. split; [done|]. lia.
Qed.

Lemma decompress_bounded (data : bytes) (headerSize : nat) :
  (headerSize ≤ length data + 1)%nat →
  ∃ out, decompress data headerSize = Ok out ∧
    (2 * length out ≤ 2 * headerSize + 17 * (length data + 1 - headerSize))%nat.
Proof.
  intros Hh. unfold decompress. destruct (rd8_ok data 0 ltac:(lia)) as [b0 ->]. rewrite res_bind_ok.
  destruct (negb (b0 =? 4)).
  { eexists. split; [done|]. lia. }
  assert (∃ h, rd_n data 0 headerSize = Ok h ∧ length h = headerSize) as (h & -> & Hl).
  { unfold rd_n. rewrite Nat.add_0_l, drop_0.
    destruct (Nat.leb_spec headerSize (length data)).
    - eexists. split; [done|]. rewrite length_take. lia.
    - destruct (Nat.eqb_spec headerSize (length data + 1)); [|lia].
      eexists. split; [done|]. rewrite length_app, length_take. simpl. lia. }
  rewrite res_bind_ok.
  destruct (decompress_loop_total (S (length data)) data headerSize headerSize (<[0%nat:=3]> h))
    as (out & -> & Ho); [lia..|].
  rewrite length_insert in Ho. eexists. split; [done|]. lia.
Qed.

Lemma decompress_no_hang data hs : decompress data hs ≠ Hang.
Proof.
  destruct (decide (hs ≤ length data + 1)%nat) as [H|].
  - destruct (decompress_bounded data hs H) as (out & -> & _). done.
  - unfold decompress. destruct (rd8_ok data 0 ltac:(lia)) as [b0 ->]. rewrite res_bind_ok.
    destruct (negb _); [done|]. unfold rd_n.
    destruct (Nat.leb_spec (0 + hs) (length data)); [lia|].
    destruct (Nat.eqb_spec (0 + hs) (length data + 1)); [lia|done].
Qed.

(** on arbitrary bytes, as from a hostile peer, [decompress] terminates; provided
    the header fits in the packet it reads only the buffer it is given, and the
    result is at most 8.5 times as long as the input. *)
Theorem decompress_total (data : bytes) (headerSize : nat) :
  decompress data headerSize ≠ Hang ∧
  ((headerSize ≤ length data + 1)%nat →
   ∃ out, decompress data headerSize = Ok out ∧
     (2 * length out ≤ 2 * headerSize + 17 * (length data + 1 - headerSize))%nat).
Proof. split; [apply decompress_no_hang|apply decompress_bounded]. Qed.

Lemma decompress_total_witness :
  ∃ out, decompress [4; 9; 9; 255; 255; 255; 31; 0; 17] 3 = Ok out ∧ (2 * length out ≤ 125)%nat.
Proof. apply (proj2 (decompress_total [4; 9; 9; 255; 255; 255; 31; 0; 17] 3)). vm_compute. lia. Defined.

(** the hypothesis is needed: with the header past the buffer the copy of the
    header reads out of bounds *)
Example decompress_short_header : decompress [4] 3 = Undef.
Proof. reflexivity. Qed.

(** [compress] never makes a packet longer. *)
Theorem compress_no_expansion (d : bytes) : (length (compress d) ≤ length d)%nat.
Proof.
  unfold compress. destruct (Nat.ltb_spec (length (compress_finish
    (compress_loop (length d + 1) d (CState 4 0 7 []))) + 3) (length d)).
  - simpl. lia.
  - by rewrite length_insert.
Qed.
(** ** Bytes in, bytes out *)

Lemma copy_back_bytes n b result : are_bytes result → are_bytes (copy_back n b result).
Proof.
  revert b result. induction n as [|n IH]; intros b result H; simpl; [done|].
  apply IH, Forall_app. split; [done|]. constructor; [|constructor].
  destruct (_ <=? _)%nat; [|unfold is_byte; lia]. rewrite list_lookup_total_alt.
  destruct (result !! (b - 1)%nat) eqn:E; simpl; [by eapply Forall_lookup_1|unfold is_byte; simpl; lia].
Qed.

Lemma decompress_group_bytes n : ∀ cbf nump data hs index out g,
  are_bytes data → are_bytes out →
  decompress_group n cbf nump data hs index out = Ok g →
  are_bytes (match g with GroupDone _ o => o | Returned o => o end).
Proof.
  induction n as [|n IH]; intros cbf nump data hs index out g Hd Ho H; cbn [decompress_group] in H.
  { injection H as <-. done. }
  destruct (_ <=? _)%nat.
  { injection H as <-. apply Forall_insert; [done|unfold is_byte; lia]. }
  destruct (_ =? 0).
  - apply res_bind_inv in H as (b & Hb & H). refine (IH _ _ _ _ _ _ _ Hd _ H).
    apply Forall_app. split; [done|]. constructor; [exact (rd8_byte _ _ _ Hd Hb)|constructor].
  - apply res_bind_inv in H as (u & Hu & H). cbv zeta in H. destruct (_ =? 0).
    + injection H as <-. done.
    + refine (IH _ _ _ _ _ _ _ Hd _ H). by apply copy_back_bytes.
Qed.

Lemma decompress_loop_bytes fuel : ∀ data hs index out out',
  are_bytes data → are_bytes out → decompress_loop fuel data hs index out = Ok out' → are_bytes out'.
Proof.
  induction fuel as [|fuel IH]; intros data hs index out out' Hd Ho H; cbn [decompress_loop] in H; [done|].
  destruct (_ <? _)%nat; [|by injection H as <-].
  apply res_bind_inv in H as (cbf & _ & H). apply res_bind_inv in H as (g & Hg & H).
  apply decompress_group_bytes in Hg; [|done..]. destruct g; [exact (IH _ _ _ _ _ Hd Hg H)|by injection H as <-].
Qed.

Lemma decompress_bytes data hs out : are_bytes data → decompress data hs = Ok out → are_bytes out.
Proof.
  intros Hd H. unfold decompress in H. apply res_bind_inv in H as (b0 & _ & H).
  destruct (negb _); [by injection H as <-|]. apply res_bind_inv in H as (h & Hh & H).
  refine (decompress_loop_bytes _ _ _ _ _ _ Hd _ H). apply Forall_insert; [|unfold is_byte; lia].
  unfold rd_n in Hh. repeat case_match; res_inv; [by apply Forall_take|].
  apply Forall_app. split; [by apply Forall_take|]. constructor; [unfold is_byte; lia|constructor].
Qed.


(** ** The compressed packet *)

Lemma lookup_total_byte (s : bytes) i : are_bytes s → is_byte (s !!! i).
Proof.
  intros Hs. rewrite list_lookup_total_alt. destruct (s !! i) eqn:E; simpl.
  - by eapply Forall_lookup_1.
  - unfold is_byte. lia.
Qed.

Lemma compress_step_bytes data s : are_bytes data → are_bytes (c_result s) → are_bytes (c_result (compress_step data s)).
Proof.
  intros Hd Hs. unfold compress_step.
  assert (are_bytes (c_result s ++ [0])) as H0.
  { apply Forall_app. split; [done|]. apply Forall_singleton. unfold is_byte. lia. }
  assert (∀ r, are_bytes r → are_bytes (r ++ [data !!! (c_index s - 1)%nat])) as Hlit.
  { intros r Hr. apply Forall_app. split; [done|]. apply Forall_singleton. by apply lookup_total_byte. }
  destruct (c_count s =? 7)%nat; destruct (_ || _); [by apply Hlit| |by apply Hlit|].
  all: destruct (best_match data (c_index s)) as [ml mt]; destruct (2 <? ml)%nat; [|by apply Hlit].
  all: cbn [c_result]; apply Forall_app; split; [|apply le2_bytes]; apply Forall_insert_byte; auto with words.
Qed.

Lemma compress_bytes data : are_bytes data → are_bytes (compress data).
Proof.
  intros Hd. unfold compress.
  assert (∀ fuel s, are_bytes (c_result s) → are_bytes (c_result (compress_loop fuel data s))) as Hloop.
  { induction fuel as [|fuel IH]; intros s Hs; [done|]. cbn [compress_loop].
    destruct (_ <? _)%nat; [|done]. by apply IH, compress_step_bytes. }
  specialize (Hloop (length data + 1)%nat (CState 4 0 7 []) (Forall_nil_2 _)).
  set (s := compress_loop _ _ _) in *.
  destruct (_ <? _)%nat.
  - do 3 (apply Forall_cons; split; [first [by apply lookup_total_byte|unfold is_byte; lia]|]).
    unfold compress_finish. apply Forall_app. split.
    + destruct (_ =? _)%nat; [apply Forall_app; split; [done|apply Forall_singleton; unfold is_byte; lia]|].
      apply Forall_insert_byte; auto with words.
    + repeat (apply Forall_cons; split; [unfold is_byte; lia|]). apply Forall_nil. done.
  - apply Forall_insert_byte; [done|]. unfold is_byte. lia.
Qed.

Lemma compress_head c1 c2 d :
  (∃ r, compress (3 :: c1 :: c2 :: d) = 4 :: c1 :: c2 :: r) ∨ compress (3 :: c1 :: c2 :: d) = 3 :: c1 :: c2 :: d.
Proof. unfold compress. destruct (_ <? _)%nat; [left; by eexists|by right]. Qed.
