(* ===== verification/TPacketSplit.v ===== *)
(** * Sub-packets: codes, sizes and splitting (src/libs/tapacket/TPacket.{h,cpp})

    [SubPacketCode], [TPacket::toString], [TPacket::getExpectedSubPacketSize],
    [TPacket::split2], [TPacket::bin2int]. *)
From S2P Require Import Prelude.

(** ** The enum *)

Inductive SubPacketCode : Set :=
  | ZERO_00
  | PING_02
  | UNK_03
  | CHAT_05
  | PAD_ENCRYPT_06
  | UNK_07
  | LOADING_STARTED_08
  | UNIT_BUILD_STARTED_09
  | UNK_0A
  | UNIT_TAKE_DAMAGE_0B
  | UNIT_KILLED_0C
  | WEAPON_FIRED_0D
  | AREA_OF_EFFECT_0E
  | FEATURE_ACTION_0F
  | UNIT_START_SCRIPT_10
  | UNIT_STATE_11
  | UNIT_BUILD_FINISHED_12
  | PLAY_SOUND_13
  | GIVE_UNIT_14
  | START_15
  | SHARE_RESOURCES_16
  | UNK_17
  | HOST_MIGRATION_18
  | SPEED_19
  | UNIT_DATA_1A
  | REJECT_1B
  | START_1E
  | UNK_1F
  | PLAYER_INFO_20
  | UNK_21
  | IDENT3_22
  | ALLY_23
  | TEAM_24
  | IDENT2_26
  | PLAYER_RESOURCE_INFO_28
  | UNK_29
  | LOADING_PROGRESS_2A
  | UNIT_STAT_AND_MOVE_2C
  | UNK_2E
  | THALDREN_EXTENDED_42
  | UNK_F6
  | ALLY_CHAT_F9
  | REPLAYER_SERVER_FA
  | RECORDER_DATA_CONNECT_FB
  | MAP_POSITION_FC
  | SMARTPAK_TICK_OTHER_FD
  | SMARTPAK_TICK_START_FE
  | SMARTPAK_TICK_FF.

#[export] Instance SubPacketCode_eq_dec : EqDecision SubPacketCode.
Proof. solve_decision. Defined.

(** the enumerators, in the order of the enum *)
Definition all_codes : list SubPacketCode :=
  [ZERO_00; PING_02; UNK_03; CHAT_05; PAD_ENCRYPT_06; UNK_07; LOADING_STARTED_08; UNIT_BUILD_STARTED_09; UNK_0A; UNIT_TAKE_DAMAGE_0B; UNIT_KILLED_0C; WEAPON_FIRED_0D; AREA_OF_EFFECT_0E; FEATURE_ACTION_0F; UNIT_START_SCRIPT_10; UNIT_STATE_11; UNIT_BUILD_FINISHED_12; PLAY_SOUND_13; GIVE_UNIT_14; START_15; SHARE_RESOURCES_16; UNK_17; HOST_MIGRATION_18; SPEED_19; UNIT_DATA_1A; REJECT_1B; START_1E; UNK_1F; PLAYER_INFO_20; UNK_21; IDENT3_22; ALLY_23; TEAM_24; IDENT2_26; PLAYER_RESOURCE_INFO_28; UNK_29; LOADING_PROGRESS_2A; UNIT_STAT_AND_MOVE_2C; UNK_2E; THALDREN_EXTENDED_42; UNK_F6; ALLY_CHAT_F9; REPLAYER_SERVER_FA; RECORDER_DATA_CONNECT_FB; MAP_POSITION_FC; SMARTPAK_TICK_OTHER_FD; SMARTPAK_TICK_START_FE; SMARTPAK_TICK_FF].

(** [std::uint8_t(code)] *)
Definition code_byte (c : SubPacketCode) : Z :=
  match c with
  | ZERO_00 => 0
  | PING_02 => 2
  | UNK_03 => 3
  | CHAT_05 => 5
  | PAD_ENCRYPT_06 => 6
  | UNK_07 => 7
  | LOADING_STARTED_08 => 8
  | UNIT_BUILD_STARTED_09 => 9
  | UNK_0A => 10
  | UNIT_TAKE_DAMAGE_0B => 11
  | UNIT_KILLED_0C => 12
  | WEAPON_FIRED_0D => 13
  | AREA_OF_EFFECT_0E => 14
  | FEATURE_ACTION_0F => 15
  | UNIT_START_SCRIPT_10 => 16
  | UNIT_STATE_11 => 17
  | UNIT_BUILD_FINISHED_12 => 18
  | PLAY_SOUND_13 => 19
  | GIVE_UNIT_14 => 20
  | START_15 => 21
  | SHARE_RESOURCES_16 => 22
  | UNK_17 => 23
  | HOST_MIGRATION_18 => 24
  | SPEED_19 => 25
  | UNIT_DATA_1A => 26
  | REJECT_1B => 27
  | START_1E => 30
  | UNK_1F => 31
  | PLAYER_INFO_20 => 32
  | UNK_21 => 33
  | IDENT3_22 => 34
  | ALLY_23 => 35
  | TEAM_24 => 36
  | IDENT2_26 => 38
  | PLAYER_RESOURCE_INFO_28 => 40
  | UNK_29 => 41
  | LOADING_PROGRESS_2A => 42
  | UNIT_STAT_AND_MOVE_2C => 44
  | UNK_2E => 46
  | THALDREN_EXTENDED_42 => 66
  | UNK_F6 => 246
  | ALLY_CHAT_F9 => 249
  | REPLAYER_SERVER_FA => 250
  | RECORDER_DATA_CONNECT_FB => 251
  | MAP_POSITION_FC => 252
  | SMARTPAK_TICK_OTHER_FD => 253
  | SMARTPAK_TICK_START_FE => 254
  | SMARTPAK_TICK_FF => 255
  end.

(** [SubPacketCode(b)]: the enumerator of a byte; a byte that has none is a value
    of the enum that no [case] matches *)
Definition SubPacketCode_of (b : Z) : option SubPacketCode :=
  head (filter (λ c, code_byte c = b) all_codes).

(** [std::hex << std::setw(2) << std::setfill('0')] of a byte *)
Definition hex_digit (n : Z) : string :=
  nth (Z.to_nat n)
    ["0"; "1"; "2"; "3"; "4"; "5"; "6"; "7"; "8"; "9"; "a"; "b"; "c"; "d"; "e"; "f"]%string ""%string.
Definition hex2 (b : Z) : string := String.append (hex_digit (b / 16)) (hex_digit (b mod 16)).

Local Open Scope string_scope.
Definition toString (code : Z) : string :=
  match SubPacketCode_of code with
  | Some ZERO_00 => "ZERO_00"
  | Some PING_02 => "PING_02"
  | Some UNK_03 => "UNK_03"
  | Some CHAT_05 => "CHAT_05"
  | Some PAD_ENCRYPT_06 => "PAD_ENCRYPT"
  | Some UNK_07 => "UNK_07"
  | Some LOADING_STARTED_08 => "LOADING_STARTED"
  | Some UNIT_BUILD_STARTED_09 => "UNIT_BUILD_STARTED_09"
  | Some UNK_0A => "UNK_0A"
  | Some UNIT_TAKE_DAMAGE_0B => "UNIT_TAKE_DAMAGE_0B"
  | Some UNIT_KILLED_0C => "UNIT_KILLED_0C"
  | Some WEAPON_FIRED_0D => "WEAPON_FIRED_0D"
  | Some AREA_OF_EFFECT_0E => "AREA_OF_EFFECT_0E"
  | Some FEATURE_ACTION_0F => "FEATURE_ACTION_0F"
  | Some UNIT_START_SCRIPT_10 => "UNIT_START_SCRIPT_10"
  | Some UNIT_STATE_11 => "UNIT_STATE_11"
  | Some UNIT_BUILD_FINISHED_12 => "UNIT_BUILD_FINISHED_12"
  | Some GIVE_UNIT_14 => "GIVE_UNIT_14"
  | Some START_15 => "START_15"
  | Some SHARE_RESOURCES_16 => "SHARE_RESOURCES_16"
  | Some UNK_17 => "UNK_17"
  | Some HOST_MIGRATION_18 => "HOST_MIGRATION_18"
  | Some SPEED_19 => "SPEED_19"
  | Some UNIT_DATA_1A => "UNIT_DATA_1A"
  | Some REJECT_1B => "REJECT_1B"
  | Some START_1E => "START_1E"
  | Some UNK_1F => "UNK_1F"
  | Some PLAYER_INFO_20 => "PLAYER_INFO_20"
  | Some UNK_21 => "UNK_21"
  | Some IDENT3_22 => "IDENT3_22"
  | Some ALLY_23 => "ALLY_23"
  | Some TEAM_24 => "TEAM_24"
  | Some IDENT2_26 => "IDENT2_26"
  | Some PLAYER_RESOURCE_INFO_28 => "PLAYER_RESOURCE_INFO_28"
  | Some UNK_29 => "UNK_29"
  | Some LOADING_PROGRESS_2A => "LOADING_PROGRESS_2A"
  | Some UNIT_STAT_AND_MOVE_2C => "UNIT_STAT_AND_MOVE_2C"
  | Some UNK_2E => "UNK_2E"
  | Some THALDREN_EXTENDED_42 => "THALDREN_EXTENDED_42"
  | Some UNK_F6 => "UNK_F6"
  | Some ALLY_CHAT_F9 => "ALLY_CHAT_F9"
  | Some REPLAYER_SERVER_FA => "REPLAYER_SERVER_FA"
  | Some RECORDER_DATA_CONNECT_FB => "RECORDER_DATA_CONNECT_FB"
  | Some MAP_POSITION_FC => "MAP_POSITION_FC"
  | Some SMARTPAK_TICK_OTHER_FD => "SMARTPAK_TICK_OTHER_FD"
  | Some SMARTPAK_TICK_START_FE => "SMARTPAK_TICK_START_FE"
  | Some SMARTPAK_TICK_FF => "SMARTPAK_TICK_FF"
  | _ => String.append "UNK_" (hex2 code)
  end.
Local Close Scope string_scope.

(** ** getExpectedSubPacketSize *)

(** [for (; len < sz && s[len] == 0u; ++len);] *)
Fixpoint count_zeros (s : bytes) : Z :=
  match s with
  | b :: s => if b =? 0 then 1 + count_zeros s else 0
  | [] => 0
  end.

(** [getExpectedSubPacketSize(s, sz)], [sz] being the bytes up to the end of the
    buffer [s] points into *)
Definition getExpectedSubPacketSize (s : bytes) : res Z :=
  match s with
  | [] => Ok 0
  | b :: _ =>
    let sz := length s in
    match SubPacketCode_of b with
    | Some ZERO_00 => Ok (count_zeros s)
    | Some CHAT_05 =>
        last ← rd8 s 64;
        if negb (last =? 0) then
          c ← rd8 s (sz - 5);
          Ok (if bool_decide (SubPacketCode_of c = Some MAP_POSITION_FC)
              then Z.of_nat sz - 5 else Z.of_nat sz)
        else Ok 65
    | Some UNIT_STAT_AND_MOVE_2C => if (3 <=? sz)%nat then rd16 s 1 else Ok 0
    | Some THALDREN_EXTENDED_42 =>
        if (3 <=? sz)%nat then (l ← rd16 s 1; Ok (l + 3)) else Ok 0
    | Some RECORDER_DATA_CONNECT_FB =>
        if (2 <=? sz)%nat then (l ← rd8 s 1; Ok (l + 3)) else Ok 0
    | Some SMARTPAK_TICK_OTHER_FD =>
        if (3 <=? sz)%nat then (l ← rd16 s 1; Ok (u32 (l - 4))) else Ok 0
    | Some PING_02 => Ok 13
    | Some UNK_03 => Ok 7
    | Some PAD_ENCRYPT_06 => Ok 1
    | Some UNK_07 => Ok 1
    | Some LOADING_STARTED_08 => Ok 1
    | Some UNIT_BUILD_STARTED_09 => Ok 23
    | Some UNK_0A => Ok 7
    | Some UNIT_TAKE_DAMAGE_0B => Ok 9
    | Some UNIT_KILLED_0C => Ok 11
    | Some WEAPON_FIRED_0D => Ok 36
    | Some AREA_OF_EFFECT_0E => Ok 14
    | Some FEATURE_ACTION_0F => Ok 6
    | Some UNIT_START_SCRIPT_10 => Ok 22
    | Some UNIT_STATE_11 => Ok 4
    | Some UNIT_BUILD_FINISHED_12 => Ok 5
    | Some GIVE_UNIT_14 => Ok 24
    | Some START_15 => Ok 1
    | Some SHARE_RESOURCES_16 => Ok 17
    | Some UNK_17 => Ok 2
    | Some HOST_MIGRATION_18 => Ok 2
    | Some SPEED_19 => Ok 3
    | Some UNIT_DATA_1A => Ok 14
    | Some REJECT_1B => Ok 6
    | Some START_1E => Ok 2
    | Some UNK_1F => Ok 5
    | Some PLAYER_INFO_20 => Ok 192
    | Some UNK_21 => Ok 10
    | Some IDENT3_22 => Ok 6
    | Some ALLY_23 => Ok 14
    | Some TEAM_24 => Ok 6
    | Some IDENT2_26 => Ok 41
    | Some PLAYER_RESOURCE_INFO_28 => Ok 58
    | Some UNK_29 => Ok 3
    | Some LOADING_PROGRESS_2A => Ok 2
    | Some UNK_2E => Ok 9
    | Some UNK_F6 => Ok 1
    | Some ALLY_CHAT_F9 => Ok 73
    | Some REPLAYER_SERVER_FA => Ok 1
    | Some MAP_POSITION_FC => Ok 5
    | Some SMARTPAK_TICK_START_FE => Ok 5
    | Some SMARTPAK_TICK_FF => Ok 1
    | _ => Ok 0
    end
  end.

(** ** split2 *)

(** [split2(s, smartpak, error)] returns the first sub-packet; [s] and [error] are
    updated in place *)
Definition split2 (s : bytes) (smartpak : bool) : res (bytes * bytes * bool) :=
  match s with
  | [] => Ok (s, s, false)
  | b :: _ =>
      len ← getExpectedSubPacketSize s;
      let error := ((b =? 255) || (b =? 254) || (b =? 253)) && negb smartpak in
      let '(len, error) := if Z.of_nat (length s) <? len then (0, true) else (len, error) in
      if len =? 0 then Ok (s, [], true)
      else Ok (take (Z.to_nat len) s, drop (Z.to_nat len) s, error)
  end.

(** ** bin2int *)

(** [while (start > 7) { ++i; start -= 8u; }] *)
Fixpoint skip_bytes (fuel i start : nat) : nat * nat :=
  match fuel with
  | O => (i, start)
  | S fuel => if (7 <? start)%nat then skip_bytes fuel (S i) (start - 8) else (i, start)
  end.

(** [for (unsigned j = 0u; j < num; ++j) ...], [n] being [num - j] *)
Fixpoint bin2int_loop (n j : nat) (s : bytes) (i start : nat) (mask byte result : Z) : res Z :=
  match n with
  | O => Ok result
  | S n =>
      let result := if Z.land byte mask =? 0 then result
                    else u32 (Z.lor result (Z.shiftl 1 (Z.of_nat j))) in
      let start := S start in
      let mask := u8 (Z.shiftl mask 1) in
      if (7 <? start)%nat then
        byte ← rd8 s (S i);
        bin2int_loop n (S j) s (S i) 0 1 byte result
      else bin2int_loop n (S j) s i start mask byte result
  end.

Definition bin2int (s : bytes) (start num : nat) : res Z :=
  let '(i, start) := skip_bytes start 0 start in
  byte ← rd8 s i;
  bin2int_loop num 0 s i start (u8 (Z.shiftl 1 (Z.of_nat start))) byte 0.

(** ** Codes *)

Lemma SubPacketCode_of_byte c : SubPacketCode_of (code_byte c) = Some c.
Proof. destruct c; reflexivity. Qed.

Lemma code_byte_of b c : SubPacketCode_of b = Some c → code_byte c = b.
Proof.
  unfold SubPacketCode_of. intros H%head_Some_elem_of%list_elem_of_filter. apply H.
Qed.

Lemma code_byte_byte c : is_byte (code_byte c).
Proof. destruct c; split; reflexivity || discriminate. Qed.

(** the codes whose sub-packets have one size, whatever follows them *)
Definition size_is_fixed (c : SubPacketCode) : bool :=
  match c with
  | ZERO_00 | CHAT_05 | PLAY_SOUND_13 | UNIT_STAT_AND_MOVE_2C | THALDREN_EXTENDED_42
  | RECORDER_DATA_CONNECT_FB | SMARTPAK_TICK_OTHER_FD => false
  | _ => true
  end.

Lemma fixed_size_app c b s rest :
  SubPacketCode_of b = Some c → size_is_fixed c = true →
  getExpectedSubPacketSize (b :: s ++ rest) = getExpectedSubPacketSize (b :: s).
Proof. intros E H. unfold getExpectedSubPacketSize. rewrite E. by destruct c. Qed.

(** a sub-packet that announces its own size whatever comes after it *)
Definition self_delimited (s : bytes) : Prop :=
  ∀ rest, getExpectedSubPacketSize (s ++ rest) = Ok (Z.of_nat (length s)).

Lemma self_delimited_fixed c b s :
  SubPacketCode_of b = Some c → size_is_fixed c = true →
  getExpectedSubPacketSize (b :: s) = Ok (Z.of_nat (S (length s))) → self_delimited (b :: s).
Proof. intros E H Hs rest. simpl app. by rewrite (fixed_size_app c). Qed.

Lemma rd8_short s i : (length s < i)%nat → rd8 s i = Undef.
Proof.
  intros. unfold rd8. rewrite lookup_ge_None_2 by lia.
  destruct (Nat.eqb_spec i (length s)); [lia|done].
Qed.

Lemma rd16_ok' s i : (i + 1 ≤ length s)%nat → is_ok (rd16 s i).
Proof.
  intros. unfold rd16. destruct (rd8_ok s i) as [a ->]; [lia|].
  destruct (rd8_ok s (i + 1)) as [b ->]; [lia|]. by eexists.
Qed.

Definition short_chat (s : bytes) : Prop := head s = Some (code_byte CHAT_05) ∧ (length s < 64)%nat.

Lemma expected_size_cases (s : bytes) :
  (¬ short_chat s ∧ is_ok (getExpectedSubPacketSize s)) ∨
  (short_chat s ∧ getExpectedSubPacketSize s = Undef).
Proof.
  destruct s as [|b s]; [left; split; [by intros []|by eexists]|].
  unfold short_chat, getExpectedSubPacketSize. change (head (b :: s)) with (Some b). set (p := b :: s).
  assert (length p = S (length s)) as Hp by done. clearbody p.
  destruct (SubPacketCode_of b) as [c|] eqn:E; cycle 1.
  { left. split; [|by eexists]. intros [[= ->] _]. by vm_compute in E. }
  apply code_byte_of in E as <-. destruct (decide (c = CHAT_05)) as [->|Hc].
  - destruct (decide (length p < 64)%nat).
    { right. by rewrite (rd8_short p 64) by lia. }
    left. split; [lia|]. destruct (rd8_ok p 64) as [l ->]; [lia|]. rewrite res_bind_ok.
    destruct (negb _); [|by eexists].
    destruct (rd8_ok p (length p - 5)) as [x ->]; [lia|]. by eexists.
  - left. split; [intros [[= H] _]; by destruct c|].
    destruct c; try done; try (by eexists); case_match eqn:El; try (by eexists); apply Nat.leb_le in El.
    all: first [destruct (rd16_ok' p 1) as [x ->] | destruct (rd8_ok p 1) as [x ->]]; [lia|by eexists].
Qed.

Lemma expected_size_no_hang s : getExpectedSubPacketSize s ≠ Hang.
Proof. destruct (expected_size_cases s) as [[_ [n ->]]|[_ ->]]; done. Qed.

(** [getExpectedSubPacketSize] reads inside of the packet on every input except
    a chat sub-packet with fewer than 64 bytes left, on which it always reads
    byte 64, past the end of the buffer. *)
Theorem expected_size_in_bounds_iff (s : bytes) :
  (is_ok (getExpectedSubPacketSize s) ↔ ¬ (head s = Some (code_byte CHAT_05) ∧ (length s < 64)%nat)) ∧
  (getExpectedSubPacketSize s = Undef ↔ head s = Some (code_byte CHAT_05) ∧ (length s < 64)%nat).
Proof.
  fold (short_chat s). destruct (expected_size_cases s) as [[H1 [n H2]]|[H1 H2]]; rewrite H2.
  - split; split; try done. intros _. by eexists.
  - split; split; try done. by intros [? ?].
Qed.

Lemma count_zeros_bound s : 0 ≤ count_zeros s ≤ Z.of_nat (length s).
Proof. induction s as [|b s IH]; simpl; [lia|]. destruct (b =? 0); lia. Qed.

Lemma rd8_range s i b : are_bytes s → rd8 s i = Ok b → 0 ≤ b < 256.
Proof. apply rd8_byte. Qed.
Lemma rd16_range s i x : are_bytes s → rd16 s i = Ok x → 0 ≤ x < 65536.
Proof.
  intros Hs H. unfold rd16 in H. res_inv.
  apply rd8_range in E, E0; [lia|done..].
Qed.

Lemma expected_size_nonneg s n : are_bytes s → getExpectedSubPacketSize s = Ok n → 0 ≤ n.
Proof.
  intros Hs H. destruct s as [|b s]; [injection H; lia|]. unfold getExpectedSubPacketSize in H.
  set (p := b :: s) in *. assert (0 ≤ count_zeros p) by apply count_zeros_bound.
  destruct (SubPacketCode_of b) as [c|]; [|injection H; lia].
  destruct c; try (injection H; lia); repeat case_match; res_inv; try lia.
  all: try (apply rd16_range in H; [lia|done]).
  all: try (eapply rd16_range in E; [|done]; lia).
  all: try (eapply rd8_range in E; [|done]; lia).
  - done.
  - assert (64 ≤ length p)%nat.
    { unfold rd8 in E. destruct (p !! 64%nat) eqn:E64; [apply lookup_lt_Some in E64; lia|].
      destruct (Nat.eqb_spec 64 (length p)); [lia|done]. }
    case_match; res_inv; [simpl in H1; case_bool_decide; lia|lia].
  - apply u32_bound.
Qed.

(** ** Splitting *)

(** [split2] partitions the packet: what it returns followed by what it leaves is
    what it was given, and it always takes at least one byte, so that a loop
    [while (!s.empty()) split2(s, ...)] ends; without an error, the size of what it
    returns is the expected one. *)
Theorem split2_partition (s : bytes) (smartpak : bool) (next rest : bytes) (error : bool) :
  are_bytes s → s ≠ [] → split2 s smartpak = Ok (next, rest, error) →
  next ++ rest = s ∧ (length rest < length s)%nat ∧
  (error = false → getExpectedSubPacketSize s = Ok (Z.of_nat (length next))).
Proof.
  intros Hs Hne H. destruct s as [|b s]; [done|]. unfold split2 in H.
  apply res_bind_inv in H as (len & Hlen & H). pose proof (expected_size_nonneg _ _ Hs Hlen) as Hpos.
  set (p := b :: s) in *. assert (0 < length p)%nat as Hp by (simpl; lia). clearbody p.
  destruct (Z.ltb_spec (Z.of_nat (length p)) len).
  { simpl in H. injection H as <- <- <-. rewrite app_nil_r. split; [done|]. split; [simpl; lia|done]. }
  destruct (Z.eqb_spec len 0) as [->|].
  { injection H as <- <- <-. rewrite app_nil_r. split; [done|]. split; [simpl; lia|done]. }
  injection H as <- <- <-. rewrite take_drop, length_drop, length_take, Nat.min_l, Z2Nat.id by lia.
  split; [done|]. split; [lia|done].
Qed.

Lemma split2_partition_witness :
  [23; 9] ++ [2; 3] = [23; 9; 2; 3] ∧ (2 < 4)%nat ∧
  (false = false → getExpectedSubPacketSize [23; 9; 2; 3] = Ok 2).
Proof.
  apply (split2_partition [23; 9; 2; 3] true [23; 9] [2; 3] false);
    [bytes_tac | discriminate | reflexivity].
Defined.

(** ** bin2int *)

(** bit [k] of a byte string, counted from the least significant bit of byte 0 *)
Definition bit_at (s : bytes) (k : nat) : bool :=
  Z.testbit (s !!! (k / 8)%nat) (Z.of_nat (k mod 8)).

Lemma skip_bytes_spec fuel : ∀ i start, (start ≤ fuel)%nat →
  skip_bytes fuel i start = (i + start / 8, start mod 8)%nat.
Proof.
  induction fuel as [|fuel IH]; intros i start H; cbn [skip_bytes].
  { replace start with 0%nat by lia. simpl. f_equal. lia. }
  destruct (Nat.ltb_spec 7 start).
  - rewrite IH by lia. assert (start = (start - 8) + 1 * 8)%nat as E by lia.
    remember (start - 8)%nat as t. rewrite E, Nat.div_add, Nat.Div0.mod_add by lia. f_equal. lia.
  - rewrite Nat.div_small, Nat.mod_small by lia. f_equal. lia.
Qed.

Lemma land_pow2 b n : 0 ≤ n → (Z.land b (2 ^ n) =? 0) = negb (Z.testbit b n).
Proof.
  intros Hn. destruct (Z.testbit b n) eqn:E; simpl.
  - apply Z.eqb_neq. intros H. apply (f_equal (λ x, Z.testbit x n)) in H.
    rewrite Z.land_spec, E, Z.pow2_bits_true, Z.bits_0 in H by lia. done.
  - apply Z.eqb_eq. apply Z.bits_inj'. intros i Hi.
    rewrite Z.land_spec, Z.pow2_bits_eqb, Z.bits_0 by lia.
    destruct (Z.eqb_spec n i) as [->|]; [by rewrite E|apply andb_false_r].
Qed.

Lemma rd8_total s i b : (i < length s)%nat → rd8 s i = Ok b → b = s !!! i.
Proof.
  intros Hi. unfold rd8. destruct (s !! i) eqn:E; [|by apply lookup_ge_None in E; lia].
  intros [= <-]. symmetry. by apply list_lookup_total_correct.
Qed.

Lemma set_bit_spec r j k : 0 ≤ j < 32 → 0 ≤ k → 0 ≤ r < 2 ^ j →
  Z.testbit (u32 (Z.lor r (Z.shiftl 1 j))) k = (Z.testbit r k || (k =? j)) ∧
  0 ≤ u32 (Z.lor r (Z.shiftl 1 j)) < 2 ^ (j + 1).
Proof.
  intros Hj Hk Hr. rewrite Z.shiftl_1_l.
  assert (0 ≤ Z.lor r (2 ^ j) < 2 ^ (j + 1)) as Hb.
  { apply lor_bound; [lia|..]; rewrite ?Z.pow_add_r by lia; lia. }
  assert (2 ^ (j + 1) ≤ 2 ^ 32) by (apply Z.pow_le_mono_r; lia).
  rewrite u32_id by (unfold is_u32; change 4294967296 with (2 ^ 32); lia). split; [|done].
  rewrite Z.lor_spec, Z.pow2_bits_eqb by lia. by rewrite Z.eqb_sym.
Qed.

Lemma bin2int_loop_spec n : ∀ j s i st byte result,
  (st < 8)%nat → (8 * i + st + n ≤ 8 * length s)%nat → (j + n ≤ 32)%nat →
  (rd8 s i = Ok byte) → 0 ≤ result < 2 ^ Z.of_nat j →
  ∃ r, bin2int_loop n j s i st (2 ^ Z.of_nat st) byte result = Ok r ∧
    0 ≤ r < 2 ^ Z.of_nat (j + n) ∧
    ∀ k : nat, Z.testbit r (Z.of_nat k) =
      if (k <? j)%nat then Z.testbit result (Z.of_nat k)
      else if (k <? j + n)%nat then bit_at s (8 * i + st + (k - j)) else false.
Proof.
  induction n as [|n IH]; intros j s i st byte result Hst Hlen Hj Hrd Hr.
  { exists result. split; [done|]. rewrite Nat.add_0_r. split; [done|]. intros k.
    destruct (Nat.ltb_spec k j); [done|]. apply (testbit_high result (Z.of_nat j)); lia. }
  cbn [bin2int_loop]. rewrite land_pow2 by lia.
  assert (byte = s !!! i) as Hbyte by (apply rd8_total; [lia|done]).
  assert (Z.testbit byte (Z.of_nat st) = bit_at s (8 * i + st)) as Hbit.
  { unfold bit_at. rewrite Hbyte. f_equal; f_equal.
    - symmetry. rewrite Nat.mul_comm, Nat.div_add_l, Nat.div_small by lia. lia.
    - symmetry. rewrite Nat.mul_comm, Nat.add_comm, Nat.Div0.mod_add. by apply Nat.mod_small. }
  rewrite Hbit.
  set (result' := if negb (bit_at s (8 * i + st)) then result else u32 (Z.lor result (Z.shiftl 1 (Z.of_nat j)))).
  assert (0 ≤ result' < 2 ^ Z.of_nat (S j) ∧
    ∀ k : nat, Z.testbit result' (Z.of_nat k) =
      if (k <? j)%nat then Z.testbit result (Z.of_nat k)
      else if (k =? j)%nat then bit_at s (8 * i + st) else false) as [Hr' Hk'].
  { unfold result'. replace (Z.of_nat (S j)) with (Z.of_nat j + 1) by lia.
    destruct (bit_at s (8 * i + st)) eqn:Eb; simpl negb; cbv iota.
    - split; [apply (set_bit_spec _ _ 0); lia|]. intros k.
      destruct (set_bit_spec result (Z.of_nat j) (Z.of_nat k)) as [-> _]; [lia..|].
      destruct (Nat.ltb_spec k j), (Nat.eqb_spec k j), (Z.eqb_spec (Z.of_nat k) (Z.of_nat j));
        try lia; rewrite ?orb_false_r, ?orb_true_r; try done.
      rewrite (testbit_high result (Z.of_nat j)); [done|done|lia].
    - split; [rewrite Z.pow_add_r by lia; lia|]. intros k.
      destruct (Nat.ltb_spec k j); [done|]. rewrite (testbit_high result (Z.of_nat j)); [|done|lia].
      by destruct (k =? j)%nat. }
  clearbody result'. clear Hbit Hr.
  assert (∀ i' st' (b : Z), (8 * i' + st' = 8 * i + st + 1)%nat → (st' < 8)%nat → rd8 s i' = Ok b →
    ∃ r, bin2int_loop n (S j) s i' st' (2 ^ Z.of_nat st') b result' = Ok r ∧
      0 ≤ r < 2 ^ Z.of_nat (j + S n) ∧
      ∀ k : nat, Z.testbit r (Z.of_nat k) =
        if (k <? j)%nat then Z.testbit result (Z.of_nat k)
        else if (k <? j + S n)%nat then bit_at s (8 * i + st + (k - j)) else false) as Hnext.
  { intros i' st' b Hpos Hst' Hb.
    destruct (IH (S j) s i' st' b result') as (r & Hrun & Hb' & Hbits); [lia..|done|done|].
    exists r. rewrite Nat.add_succ_r. split; [done|]. split; [done|]. intros k. rewrite Hbits, Hk', Hpos.
    repeat match goal with |- context [(?a <? ?b)%nat] => destruct (Nat.ltb_spec a b) end; try lia; try done.
    all: destruct (Nat.eqb_spec k j); try lia; try done; f_equal; lia. }
  destruct (Nat.ltb_spec 7 (S st)).
  - destruct (rd8_ok s (S i)) as [b Hb]; [lia|]. rewrite Hb, res_bind_ok.
    apply (Hnext (S i) 0%nat b); [lia|lia|done].
  - replace (u8 (Z.shiftl (2 ^ Z.of_nat st) 1)) with (2 ^ Z.of_nat (S st)).
    + apply (Hnext i (S st) byte); [lia|lia|done].
    + rewrite Z.shiftl_mul_pow2, <- Z.pow_add_r by lia. unfold u8. rewrite Z.mod_small.
      * f_equal. lia.
      * split; [lia|]. change 256 with (2 ^ 8). apply Z.pow_lt_mono_r; lia.
Qed.

(** [bin2int] extracts the bit field it documents: the result has exactly the
    bits [start .. start + num - 1] of the string, byte 0 first and least
    significant bit first, and never reads past the string. *)
Theorem bin2int_bits (s : bytes) (start num : nat) :
  (num ≤ 32)%nat → (start + num ≤ 8 * length s)%nat →
  ∃ r, bin2int s start num = Ok r ∧ 0 ≤ r < 2 ^ Z.of_nat num ∧
    ∀ k : nat, Z.testbit r (Z.of_nat k) = if (k <? num)%nat then bit_at s (start + k) else false.
Proof.
  intros Hn Hl. unfold bin2int. rewrite skip_bytes_spec by done. rewrite Nat.add_0_l.
  pose proof (Nat.div_mod_eq start 8) as Hdm.
  pose proof (Nat.mod_upper_bound start 8 ltac:(lia)) as Hub.
  set (q := (start / 8)%nat) in *. set (r0 := (start mod 8)%nat) in *.
  destruct (rd8_ok s q) as [b Hb]; [lia|]. rewrite Hb, res_bind_ok.
  replace (u8 (Z.shiftl 1 (Z.of_nat r0))) with (2 ^ Z.of_nat r0); cycle 1.
  { rewrite Z.shiftl_1_l. symmetry. unfold u8. apply Z.mod_small.
    split; [lia|]. change 256 with (2 ^ 8). apply Z.pow_lt_mono_r; lia. }
  destruct (bin2int_loop_spec num 0 s q r0 b 0) as (r & -> & Hr & Hk);
    [lia|lia|lia|done|simpl; lia|].
  exists r. split; [done|]. split; [done|]. intros k. rewrite Hk. simpl.
  destruct (k <? num)%nat; [|done]. f_equal. lia.
Qed.

Lemma bin2int_bits_witness :
  ∃ r, bin2int [44; 11; 7; 200] 5 14 = Ok r ∧ 0 ≤ r < 2 ^ 14 ∧
    ∀ k : nat, Z.testbit r (Z.of_nat k) = if (k <? 14)%nat then bit_at [44; 11; 7; 200] (5 + k) else false.
Proof. apply (bin2int_bits [44; 11; 7; 200] 5 14); simpl; lia. Defined.
