(* ===== verification/TPacketSmartpak.v ===== *)
(** * Smartpak (src/libs/tapacket/TPacket.cpp)

    [TPacket::unsmartpak], its reference version [TPacket::slowUnsmartpak], the
    [SmartPaker] that compresses the tick numbers of consecutive 0x2c
    sub-packets, and the packets the program makes itself. *)
From S2P Require Import Prelude TPacketCompress TPacketSplit.

(** ** unsmartpak *)

(** [bytestring tmp({ ',', 0x0b, 0, 'x', 'x', 'x', 'x', 0xff, 0xff, 1, 0 })] with
    [packnum] stored at [tmp[3]] *)
Definition idle_move (packnum : Z) : bytes := [44; 11; 0] ++ le4 packnum ++ [255; 255; 1; 0].

(** [while (ptr < end) ...]; [append(ptr + 3, subpakLen - 3)] wraps around and runs
    out of the buffer when [subpakLen < 3] *)
Fixpoint unsmartpak_loop (fuel : nat) (buf : bytes) (ptr : nat) (packnum : Z) (ut : list bytes)
    : res (list bytes) :=
  match fuel with
  | O => Hang
  | S fuel =>
      if (ptr <? length buf)%nat then
        len ← getExpectedSubPacketSize (drop ptr buf);
        let subpakLen :=
          if (len =? 0) || (Z.of_nat (length buf) <? Z.of_nat ptr + len)
          then (length buf - ptr)%nat else Z.to_nat len in
        code ← rd8 buf ptr;
        match SubPacketCode_of code with
        | Some SMARTPAK_TICK_START_FE =>
            packnum ← rd32 buf (ptr + 1);
            unsmartpak_loop fuel buf (ptr + subpakLen) packnum ut
        | Some SMARTPAK_TICK_FF =>
            unsmartpak_loop fuel buf (ptr + subpakLen) (u32 (packnum + 1)) (ut ++ [idle_move packnum])
        | Some SMARTPAK_TICK_OTHER_FD =>
            if (subpakLen <? 3)%nat then Undef
            else
              let tmp := take 3 (drop ptr buf) ++ le4 packnum
                         ++ take (subpakLen - 3) (drop (ptr + 3) buf) in
              unsmartpak_loop fuel buf (ptr + subpakLen) (u32 (packnum + 1))
                (ut ++ [<[0%nat := 44]> tmp])
        | _ =>
            unsmartpak_loop fuel buf (ptr + subpakLen) packnum
              (ut ++ [take subpakLen (drop ptr buf)])
        end
      else Ok ut
  end.

Definition unsmartpak (c : bytes) (hasTimestamp hasChecksum : bool) : res (list bytes) :=
  b0 ← rd8 c 0;
  buf ← (if b0 =? 4 then decompress c (if hasChecksum then 3 else 1)%nat else Ok c);
  let ptr := (1 + (if hasChecksum then 2 else 0) + (if hasTimestamp then 4 else 0))%nat in
  unsmartpak_loop (S (length buf)) buf ptr 0 [].

(** ** slowUnsmartpak *)

(** [while (!c.empty()) ...] *)
Fixpoint slow_loop (fuel : nat) (c : bytes) (packnum : Z) (ut : list bytes) : res (list bytes) :=
  match fuel with
  | O => Hang
  | S fuel =>
      match c with
      | [] => Ok ut
      | _ =>
          r ← split2 c true;
          let '(s, c, _) := r in
          code ← rd8 s 0;
          match SubPacketCode_of code with
          | Some SMARTPAK_TICK_START_FE => packnum ← rd32 s 1; slow_loop fuel c packnum ut
          | Some SMARTPAK_TICK_FF =>
              slow_loop fuel c (u32 (packnum + 1)) (ut ++ [idle_move packnum])
          | Some SMARTPAK_TICK_OTHER_FD =>
              hd ← substr_n s 0 3;
              tl ← substr s 3;
              slow_loop fuel c (u32 (packnum + 1)) (ut ++ [<[0%nat := 44]> (hd ++ le4 packnum ++ tl)])
          | _ => slow_loop fuel c packnum (ut ++ [s])
          end
      end
  end.

Definition slowUnsmartpak (_c : bytes) (hasTimestamp hasChecksum : bool) : res (list bytes) :=
  c ← (if hasChecksum then Ok _c
       else hd ← substr_n _c 0 1; tl ← substr _c 1; Ok (hd ++ [120; 120] ++ tl));
  b0 ← rd8 c 0;
  c ← (if b0 =? 4 then decompress c 3 else Ok c);
  c ← substr c (if hasTimestamp then 7 else 3)%nat;
  slow_loop (S (length c)) c 0 [].

(** ** SmartPaker *)

(** [operator()(subpak)] returns the packet and the new [m_first] *)
Definition smartPak (m_first : bool) (subpak : bytes) : bool * bytes :=
  if (length subpak <? 7)%nat
     || negb (bool_decide (SubPacketCode_of (subpak !!! 0%nat) = Some UNIT_STAT_AND_MOVE_2C))
  then (m_first, subpak)
  else
    let start := if m_first
                 then code_byte SMARTPAK_TICK_START_FE :: take 4 (drop 3 subpak) else [] in
    let body := if (subpak !!! 1%nat =? 11) && (subpak !!! 2%nat =? 0)
                then [code_byte SMARTPAK_TICK_FF]
                else code_byte SMARTPAK_TICK_OTHER_FD :: take 2 (drop 1 subpak) ++ drop 7 subpak in
    (false, start ++ body).

(** a sequence of calls of one [SmartPaker] *)
Fixpoint smartPak_all (m_first : bool) (subpaks : list bytes) : bytes :=
  match subpaks with
  | [] => []
  | p :: ps => let '(m_first, r) := smartPak m_first p in r ++ smartPak_all m_first ps
  end.

(** ** Packets made by the program *)

Definition trivialSmartpak (subpacket : bytes) (tcpseq : Z) : bytes :=
  [3; 0; 0] ++ le4 tcpseq ++ subpacket.

(** [c_str()]: up to the first NUL *)
Fixpoint c_str (s : bytes) : bytes :=
  match s with
  | [] => []
  | b :: s => if b =? 0 then [] else b :: c_str s
  end.

(** [strncpy(dst, src, n)]: [n] bytes, padded with NULs *)
Definition strncpy (src : bytes) (n : nat) : bytes :=
  take n (c_str src) ++ replicate (n - length (c_str src)) 0.

Definition createChatSubpacket (message : bytes) : bytes :=
  <[64%nat := 0]> (code_byte CHAT_05 :: strncpy message 64).

Definition createHostMigrationSubpacket (playerNumber : Z) : bytes :=
  [code_byte HOST_MIGRATION_18; u8 playerNumber].

Example unsmartpak_ex1 :
  unsmartpak (3 :: 0 :: 0 :: smartPak_all true
    [[44;11;0; 5;0;0;0; 255;255;1;0]; [44;9;0; 6;0;0;0; 1;2]; [23; 7]; [44;11;0; 7;0;0;0; 255;255;1;0]])
    false true =
  Ok [[44;11;0; 5;0;0;0; 255;255;1;0]; [44;9;0; 6;0;0;0; 1;2]; [23; 7]; [44;11;0; 7;0;0;0; 255;255;1;0]].
Proof. reflexivity. Qed.

(** ** The loop on the rest of the packet *)

(** the loop of [unsmartpak] as a function of the bytes that are left *)
Fixpoint un_loop (fuel : nat) (s : bytes) (packnum : Z) (ut : list bytes) : res (list bytes) :=
  match fuel with
  | O => Hang
  | S fuel =>
      match s with
      | [] => Ok ut
      | b :: _ =>
          len ← getExpectedSubPacketSize s;
          let n := if (len =? 0) || (Z.of_nat (length s) <? len) then length s else Z.to_nat len in
          match SubPacketCode_of b with
          | Some SMARTPAK_TICK_START_FE => packnum ← rd32 s 1; un_loop fuel (drop n s) packnum ut
          | Some SMARTPAK_TICK_FF => un_loop fuel (drop n s) (u32 (packnum + 1)) (ut ++ [idle_move packnum])
          | Some SMARTPAK_TICK_OTHER_FD =>
              if (n <? 3)%nat then Undef
              else un_loop fuel (drop n s) (u32 (packnum + 1))
                (ut ++ [<[0%nat := 44]> (take 3 s ++ le4 packnum ++ take (n - 3) (drop 3 s))])
          | _ => un_loop fuel (drop n s) packnum (ut ++ [take n s])
          end
      end
  end.

Lemma unsmartpak_loop_drop fuel : ∀ buf ptr packnum ut,
  unsmartpak_loop fuel buf ptr packnum ut = un_loop fuel (drop ptr buf) packnum ut.
Proof.
  induction fuel as [|fuel IH]; intros buf ptr packnum ut; [done|]. cbn [unsmartpak_loop un_loop].
  destruct (Nat.ltb_spec ptr (length buf)) as [Hlt|]; [|by rewrite drop_ge by lia].
  destruct (drop ptr buf) as [|b s] eqn:E.
  { apply (f_equal length) in E. rewrite length_drop in E. simpl in E. lia. }
  assert (length (b :: s) = length buf - ptr)%nat as Hl by (by rewrite <- E, length_drop).
  destruct (getExpectedSubPacketSize (b :: s)) as [len| | |] eqn:Elen; try done. rewrite !res_bind_ok.
  assert (rd8 buf ptr = Ok b) as ->.
  { rewrite <- (Nat.add_0_r ptr), <- rd8_drop, E by lia. done. }
  rewrite res_bind_ok, Hl.
  replace (Z.of_nat (length buf) <? Z.of_nat ptr + len) with (Z.of_nat (length buf - ptr) <? len)
    by (apply eq_true_iff_eq; rewrite !Z.ltb_lt; lia).
  assert (∀ n, drop (ptr + n) buf = drop n (b :: s)) as Hdrop by (intros; by rewrite <- E, drop_drop).
  destruct (SubPacketCode_of b) as [[]|]; rewrite ?IH, ?Hdrop; try done.
  rewrite <- rd32_drop, E by lia. destruct (rd32 (b :: s) 1); try done. rewrite !res_bind_ok.
  by rewrite IH, Hdrop.
Qed.

(** one turn of the loop, once the size of the next sub-packet is known *)
Lemma un_loop_step fuel b s packnum ut len n :
  getExpectedSubPacketSize (b :: s) = Ok len →
  n = (if (len =? 0) || (Z.of_nat (length (b :: s)) <? len) then length (b :: s) else Z.to_nat len) →
  un_loop (S fuel) (b :: s) packnum ut =
  match SubPacketCode_of b with
  | Some SMARTPAK_TICK_START_FE =>
      packnum ← rd32 (b :: s) 1; un_loop fuel (drop n (b :: s)) packnum ut
  | Some SMARTPAK_TICK_FF => un_loop fuel (drop n (b :: s)) (u32 (packnum + 1)) (ut ++ [idle_move packnum])
  | Some SMARTPAK_TICK_OTHER_FD =>
      if (n <? 3)%nat then Undef
      else un_loop fuel (drop n (b :: s)) (u32 (packnum + 1))
        (ut ++ [<[0%nat := 44]> (take 3 (b :: s) ++ le4 packnum ++ take (n - 3) (drop 3 (b :: s)))])
  | _ => un_loop fuel (drop n (b :: s)) packnum (ut ++ [take n (b :: s)])
  end.
Proof. intros E ->. cbn [un_loop]. by rewrite E. Qed.

(** ** Termination *)

Lemma un_loop_no_hang fuel : ∀ s packnum ut,
  are_bytes s → (length s < fuel)%nat → un_loop fuel s packnum ut ≠ Hang.
Proof.
  induction fuel as [|fuel IH]; intros s packnum ut Hs Hf; [lia|]. cbn [un_loop].
  destruct s as [|b s]; [done|].
  destruct (getExpectedSubPacketSize (b :: s)) as [len| | |] eqn:E; try done; cycle 1.
  { by apply expected_size_no_hang in E. }
  rewrite res_bind_ok. pose proof (expected_size_nonneg _ _ Hs E) as Hpos.
  set (n := if _ || _ then _ else _).
  assert (length (drop n (b :: s)) < fuel)%nat as Hn.
  { rewrite length_drop. simpl in Hf |- *. unfold n. destruct (Z.eqb_spec len 0); simpl; [lia|].
    case_match; lia. }
  assert (∀ p u, un_loop fuel (drop n (b :: s)) p u ≠ Hang) as Hrec
    by (intros; apply IH; [by apply Forall_drop|done]).
  destruct (SubPacketCode_of b) as [[]|]; try apply Hrec.
  - by case_match.
  - destruct (rd32 (b :: s) 1) eqn:Er; try done; [apply Hrec|by apply rd32_not_hang in Er].
Qed.

(** [unsmartpak] terminates on every packet: each turn of its loop consumes at
    least one byte, even when the expected size is unknown or larger than what is
    left. *)
Lemma unsmartpak_no_hang (c : bytes) (hasTimestamp hasChecksum : bool) :
  are_bytes c → unsmartpak c hasTimestamp hasChecksum ≠ Hang.
Proof.
  intros Hc. unfold unsmartpak. destruct (rd8_ok c 0 ltac:(lia)) as [b0 ->]. rewrite res_bind_ok.
  assert (∀ buf, are_bytes buf → ∀ ptr, unsmartpak_loop (S (length buf)) buf ptr 0 [] ≠ Hang) as Hloop.
  { intros buf Hb ptr. rewrite unsmartpak_loop_drop. apply un_loop_no_hang; [by apply Forall_drop|].
    rewrite length_drop. lia. }
  destruct (b0 =? 4); [|rewrite res_bind_ok; by apply Hloop].
  set (hs := if hasChecksum then 3%nat else 1%nat).
  destruct (decompress c hs) as [buf| | |] eqn:E; try done.
  - rewrite res_bind_ok. apply Hloop. by eapply decompress_bytes.
  - by apply decompress_no_hang in E.
Qed.

(** a tick sub-packet 0xfd whose length field says 5 or 6 makes [unsmartpak]
    copy a negative number of bytes: it runs out of the buffer, whatever follows. *)
Theorem unsmartpak_short_tick (len c1 c2 : Z) (rest : bytes) :
  len = 5 ∨ len = 6 →
  unsmartpak (3 :: c1 :: c2 :: 253 :: len :: 0 :: rest) false true = Undef.
Proof.
  intros Hlen. set (s := 253 :: len :: 0 :: rest).
  change (unsmartpak_loop (S (length (3 :: c1 :: c2 :: s))) (3 :: c1 :: c2 :: s) 3 0 [] = Undef).
  rewrite unsmartpak_loop_drop. change (drop 3 (3 :: c1 :: c2 :: s)) with s. unfold s at 2.
  generalize (length (3 :: c1 :: c2 :: s)). intros fuel.
  rewrite (un_loop_step fuel 253 (len :: 0 :: rest) 0 [] (len - 4) (if len =? 4 then length s else Z.to_nat (len - 4))).
  - change (SubPacketCode_of 253) with (Some SMARTPAK_TICK_OTHER_FD). cbv iota.
    by destruct Hlen as [->| ->].
  - by destruct Hlen as [->| ->].
  - destruct (_ || _) eqn:E; [|by destruct Hlen as [->| ->]].
    apply orb_true_iff in E as [E%Z.eqb_eq|E%Z.ltb_lt]; cbn [length] in E; lia.
Qed.

Lemma unsmartpak_short_tick_witness :
  unsmartpak [3; 0; 0; 253; 5; 0; 1; 2; 3; 4] false true = Undef.
Proof. apply (unsmartpak_short_tick 5 0 0 [1; 2; 3; 4]). by left. Defined.

(** ** SmartPaker and unsmartpak *)

(** a 0x2c sub-packet: length field, tick number, contents; the one with an empty
    update has fixed contents *)
Definition move (seq : Z) (body : bytes) : bytes :=
  44 :: le2 (Z.of_nat (7 + length body)) ++ le4 seq ++ body.

(** what a player sends: 0x2c sub-packets with consecutive tick numbers, and between
    them sub-packets of other kinds that announce their own size *)
Inductive stream_ok : option Z → list bytes → Prop :=
  | stream_nil next : stream_ok next []
  | stream_move next seq body ps :
      next = None ∨ next = Some seq → is_u32 seq → Z.of_nat (7 + length body) < 65536 →
      (length body = 4%nat → body = [255; 255; 1; 0]) →
      stream_ok (Some (u32 (seq + 1))) ps → stream_ok next (move seq body :: ps)
  | stream_other next b p ps :
      self_delimited (b :: p) →
      (∀ c, c ∈ [SMARTPAK_TICK_START_FE; SMARTPAK_TICK_FF; SMARTPAK_TICK_OTHER_FD; UNIT_STAT_AND_MOVE_2C] →
            SubPacketCode_of b ≠ Some c) →
      stream_ok next ps → stream_ok next ((b :: p) :: ps).

(** The same without the condition on the contents of four bytes.  SmartPaker does not look
    at them: it packs every 0x2c sub-packet of eleven bytes to one byte, from which the
    contents of an empty update are made again. *)
Inductive ticking : option Z → list bytes → Prop :=
  | ticking_nil next : ticking next []
  | ticking_move next seq body ps :
      next = None ∨ next = Some seq → is_u32 seq → Z.of_nat (7 + length body) < 65536 →
      ticking (Some (u32 (seq + 1))) ps → ticking next (move seq body :: ps)
  | ticking_other next b p ps :
      self_delimited (b :: p) →
      (∀ c, c ∈ [SMARTPAK_TICK_START_FE; SMARTPAK_TICK_FF; SMARTPAK_TICK_OTHER_FD; UNIT_STAT_AND_MOVE_2C] →
            SubPacketCode_of b ≠ Some c) →
      ticking next ps → ticking next ((b :: p) :: ps).
Definition restored (s : bytes) : bytes :=
  if (s !!! 0%nat =? 44) && (length s =? 11)%nat then take 7 s ++ [255; 255; 1; 0] else s.
Definition restored_body (body : bytes) : bytes := if (length body =? 4)%nat then [255; 255; 1; 0] else body.

Definition packed_move (body : bytes) : bytes :=
  if decide (length body = 4%nat) then [255] else 253 :: le2 (Z.of_nat (7 + length body)) ++ body.

Lemma smartPak_move first seq body :
  Z.of_nat (7 + length body) < 65536 →
  smartPak first (move seq body) =
  (false, (if first then 254 :: le4 seq else []) ++ packed_move body).
Proof.
  intros Hl. unfold smartPak, move, packed_move. set (len := Z.of_nat (7 + length body)).
  change (SubPacketCode_of (_ !!! 0%nat)) with (Some UNIT_STAT_AND_MOVE_2C).
  rewrite bool_decide_eq_true_2 by done.
  destruct (Nat.ltb_spec (length (44 :: le2 len ++ le4 seq ++ body)) 7) as [H|_]; [simpl in H; lia|].
  simpl. rewrite take_0, drop_0. f_equal. f_equal.
  assert (is_u16 len) as Hlen by (unfold is_u16, len; lia).
  pose proof (le2_value len Hlen) as Hv.
  destruct (decide (length body = 4%nat)) as [H4|H4].
  - assert (len = 11) as -> by (unfold len; lia). done.
  - destruct (Z.eqb_spec (u8 len) 11), (Z.eqb_spec (u8 (len / 256)) 0); simpl; try done.
    unfold len in *. lia.
Qed.

Lemma restored_move seq body : restored (move seq body) = move seq (restored_body body).
Proof.
  unfold restored, restored_body, move. change ((44 :: _) !!! 0%nat) with 44. cbn [andb Z.eqb].
  assert (length (44 :: le2 (Z.of_nat (7 + length body)) ++ le4 seq ++ body) = (7 + length body)%nat) as -> by (cbn [length]; rewrite !length_app; done).
  change (7 + length body =? 11)%nat with (length body =? 4)%nat. destruct (Nat.eqb_spec (length body) 4) as [E|E]; [by rewrite E|done].
Qed.
Lemma length_restored_body body : length (restored_body body) = length body.
Proof. unfold restored_body. by destruct (Nat.eqb_spec (length body) 4) as [->|]. Qed.
Lemma not_move_code b : (∀ c, c ∈ [SMARTPAK_TICK_START_FE; SMARTPAK_TICK_FF; SMARTPAK_TICK_OTHER_FD; UNIT_STAT_AND_MOVE_2C] →
  SubPacketCode_of b ≠ Some c) → b ≠ 44.
Proof. intros H ->. apply (H UNIT_STAT_AND_MOVE_2C); [set_solver|done]. Qed.
Lemma restored_other b p : b ≠ 44 → restored (b :: p) = b :: p.
Proof. intros H. unfold restored. change ((b :: p) !!! 0%nat) with b. by rewrite (proj2 (Z.eqb_neq _ _) H). Qed.
Lemma ticking_restored next ps : ticking next ps → stream_ok next (restored <$> ps).
Proof.
  induction 1 as [next|next seq body ps Hn Hu Hl _ IH|next b p ps Hd Hc _ IH]; [constructor|..]; rewrite fmap_cons.
  - rewrite restored_move. apply stream_move; rewrite ?length_restored_body; [done..| |done].
    unfold restored_body. intros E. by rewrite E.
  - rewrite restored_other by by apply not_move_code. by apply stream_other.
Qed.
Lemma stream_ticking next ps : stream_ok next ps → ticking next ps.
Proof. induction 1; by constructor. Qed.
(** nothing is lost of a stream in which all contents of four bytes are those of an empty update *)
Lemma ticking_lossless next ps : ticking next ps → restored <$> ps = ps ↔ stream_ok next ps.
Proof.
  intros H. split; [intros <-; by apply ticking_restored|]. clear H.
  induction 1 as [next|next seq body ps Hn Hu Hl H4 _ IH|next b p ps Hd Hc _ IH]; [done|..]; rewrite fmap_cons, IH; f_equal.
  - rewrite restored_move. unfold restored_body. destruct (Nat.eqb_spec (length body) 4) as [E|]; [by rewrite (H4 E)|done].
  - by apply restored_other, not_move_code.
Qed.

Lemma un_loop_tick_start fuel seq rest packnum ut : is_u32 seq →
  un_loop (S fuel) (254 :: le4 seq ++ rest) packnum ut = un_loop fuel rest seq ut.
Proof.
  intros Hseq. rewrite (un_loop_step fuel 254 _ packnum ut 5 5); [|done|].
  - change (SubPacketCode_of 254) with (Some SMARTPAK_TICK_START_FE). cbv iota.
    pose proof (rd32_le4 [254] seq rest Hseq) as E. cbn [app length] in E. by rewrite E.
  - destruct (Z.ltb_spec (Z.of_nat (length (254 :: le4 seq ++ rest))) 5) as [H|]; [|done].
    cbn [length] in H. rewrite length_app, length_le4 in H. lia.
Qed.

Lemma un_loop_tick_ff fuel rest packnum ut :
  un_loop (S fuel) (255 :: rest) packnum ut = un_loop fuel rest (u32 (packnum + 1)) (ut ++ [idle_move packnum]).
Proof.
  rewrite (un_loop_step fuel 255 _ packnum ut 1 1); [done|done|].
  destruct (Z.ltb_spec (Z.of_nat (length (255 :: rest))) 1) as [H|]; [|done]. cbn [length] in H. lia.
Qed.

Lemma un_loop_tick_fd fuel packnum ut body rest : Z.of_nat (7 + length body) < 65536 →
  un_loop (S fuel) (253 :: le2 (Z.of_nat (7 + length body)) ++ body ++ rest) packnum ut =
  un_loop fuel rest (u32 (packnum + 1)) (ut ++ [move packnum body]).
Proof.
  intros Hl. set (len := Z.of_nat (7 + length body)).
  assert (is_u16 len) as Hlen by (unfold is_u16, len; lia).
  rewrite (un_loop_step fuel 253 _ packnum ut (len - 4) (3 + length body)).
  - change (SubPacketCode_of 253) with (Some SMARTPAK_TICK_OTHER_FD). cbv iota.
    replace (3 + length body <? 3)%nat with false by (symmetry; apply Nat.ltb_ge; lia).
    replace (drop (3 + length body) (253 :: le2 len ++ body ++ rest)) with rest
      by (simpl; by rewrite drop_app_length).
    f_equal. f_equal. simpl. unfold move. rewrite drop_0, Nat.sub_0_r, take_app_length. done.
  - unfold getExpectedSubPacketSize. change (SubPacketCode_of 253) with (Some SMARTPAK_TICK_OTHER_FD).
    cbv iota. change (3 <=? length (253%Z :: le2 len ++ body ++ rest))%nat with true. cbv iota.
    pose proof (rd16_le2 [253] len (body ++ rest) Hlen) as H. cbn [app length] in H.
    rewrite H, res_bind_ok, u32_id; [done|].
    unfold is_u32, len. lia.
  - destruct (_ || _) eqn:E; [|unfold len; lia]. exfalso.
    apply orb_true_iff in E as [E%Z.eqb_eq|E%Z.ltb_lt]; [unfold len in E; lia|].
    cbn [length] in E. rewrite !length_app, length_le2 in E. unfold len in E. lia.
Qed.

Lemma un_loop_plain fuel b p rest packnum ut :
  self_delimited (b :: p) →
  (∀ c, c ∈ [SMARTPAK_TICK_START_FE; SMARTPAK_TICK_FF; SMARTPAK_TICK_OTHER_FD] → SubPacketCode_of b ≠ Some c) →
  un_loop (S fuel) ((b :: p) ++ rest) packnum ut = un_loop fuel rest packnum (ut ++ [b :: p]).
Proof.
  intros Hs Hc. pose proof (Hs rest) as Hsz. simpl app in Hsz |- *.
  rewrite (un_loop_step fuel b _ packnum ut _ (length (b :: p)) Hsz).
  - change (b :: p ++ rest) with ((b :: p) ++ rest). rewrite drop_app_length, take_app_length.
    destruct (SubPacketCode_of b) as [c|] eqn:E; [|done].
    destruct c; try done.
    all: match type of E with _ = Some ?c => exfalso; apply (Hc c); [set_solver|done] end.
  - destruct (_ || _) eqn:E; [|by rewrite Nat2Z.id]. exfalso.
    apply orb_true_iff in E as [E%Z.eqb_eq|E%Z.ltb_lt]; [done|].
    change (b :: p ++ rest) with ((b :: p) ++ rest) in E. rewrite length_app in E. lia.
Qed.

Lemma un_loop_other fuel b p rest packnum ut :
  self_delimited (b :: p) →
  (∀ c, c ∈ [SMARTPAK_TICK_START_FE; SMARTPAK_TICK_FF; SMARTPAK_TICK_OTHER_FD; UNIT_STAT_AND_MOVE_2C] →
        SubPacketCode_of b ≠ Some c) →
  un_loop (S fuel) ((b :: p) ++ rest) packnum ut = un_loop fuel rest packnum (ut ++ [b :: p]).
Proof. intros Hs Hc. apply un_loop_plain; [done|]. intros c Hin. apply Hc. set_solver. Qed.

Lemma un_loop_stream next ps : stream_ok next ps → ∀ first fuel packnum ut,
  (if next is Some n then first = false ∧ packnum = n else first = true) →
  (length (smartPak_all first ps) < fuel)%nat →
  un_loop fuel (smartPak_all first ps) packnum ut = Ok (ut ++ ps).
Proof.
  induction 1 as [next|next seq body ps Hnext Hseq Hlen H4 Hps IH|next b p ps Hsd Hc Hps IH];
    intros first fuel packnum ut Hst Hf.
  - destruct fuel; [simpl in Hf; lia|]. simpl. by rewrite app_nil_r.
  - cbn [smartPak_all] in *. rewrite smartPak_move in * by done.
    replace (ut ++ move seq body :: ps) with ((ut ++ [move seq body]) ++ ps) by (by rewrite <- app_assoc).
    assert (∀ fuel ut, (length (packed_move body ++ smartPak_all false ps) < fuel)%nat →
      un_loop fuel (packed_move body ++ smartPak_all false ps) seq ut =
      Ok ((ut ++ [move seq body]) ++ ps)) as Hbody.
    { unfold packed_move. intros f u Hf'. destruct f as [|f]; [simpl in Hf'; lia|].
      destruct (decide (length body = 4%nat)) as [Hb|Hb].
      - rewrite (H4 Hb). change ([255] ++ smartPak_all false ps) with (255 :: smartPak_all false ps).
        rewrite un_loop_tick_ff. apply IH; [done|]. simpl in Hf'. lia.
      - rewrite <- app_comm_cons, <- app_assoc, un_loop_tick_fd by done. apply IH; [done|].
        rewrite length_app in Hf'. simpl in Hf'. lia. }
    destruct first; cbv iota in Hf |- *.
    + destruct Hnext as [->| ->]; [|by destruct Hst].
      destruct fuel as [|fuel]; [simpl in Hf; lia|].
      rewrite <- app_assoc, <- app_comm_cons, un_loop_tick_start by done. apply Hbody.
      rewrite !length_app in Hf. rewrite length_app. simpl in Hf. lia.
    + destruct Hnext as [->| ->]; [done|]. destruct Hst as [_ ->]. by apply Hbody.
  - cbn [smartPak_all] in *.
    assert (smartPak first (b :: p) = (first, b :: p)) as E.
    { unfold smartPak. rewrite bool_decide_eq_false_2, orb_true_r; [done|].
      apply Hc. set_solver. }
    rewrite E in *. destruct fuel as [|fuel]; [simpl in Hf; lia|].
    rewrite un_loop_other by done. replace (ut ++ (b :: p) :: ps) with ((ut ++ [b :: p]) ++ ps) by (by rewrite <- app_assoc).
    apply IH; [done|].
    rewrite length_app in Hf. simpl in Hf. lia.
Qed.

Lemma unsmartpak_smartPak_core (ps : list bytes) (c1 c2 ts : Z) (hasTimestamp : bool) :
  stream_ok None ps →
  unsmartpak (3 :: c1 :: c2 :: (if hasTimestamp then le4 ts else []) ++ smartPak_all true ps)
    hasTimestamp true = Ok ps.
Proof.
  intros H. set (buf := 3 :: c1 :: c2 :: _).
  change (unsmartpak_loop (S (length buf)) buf (1 + 2 + (if hasTimestamp then 4 else 0)) 0 [] = Ok ps).
  rewrite unsmartpak_loop_drop.
  replace (drop (1 + 2 + (if hasTimestamp then 4 else 0)) buf) with (smartPak_all true ps)
    by (by destruct hasTimestamp).
  rewrite (un_loop_stream None ps); [done..|].
  unfold buf. cbn [length]. rewrite length_app. lia.
Qed.

(** with neither checksum nor time stamp, as in demo files *)
Lemma unsmartpak_moves (ps : list bytes) : stream_ok None ps → unsmartpak (3 :: smartPak_all true ps) false false = Ok ps.
Proof.
  intros H. set (buf := 3 :: smartPak_all true ps). change (unsmartpak_loop (S (length buf)) buf 1 0 [] = Ok ps).
  rewrite unsmartpak_loop_drop. change (drop 1 buf) with (drop 0 (smartPak_all true ps)). rewrite drop_0.
  rewrite (un_loop_stream None ps); [done..|]. unfold buf. cbn [length]. lia.
Qed.

(** a stream is packed like what is restored of it *)
Lemma smartPak_all_restored next ps : ticking next ps → ∀ first, smartPak_all first (restored <$> ps) = smartPak_all first ps.
Proof.
  induction 1 as [next|next seq body ps Hn Hu Hl _ IH|next b p ps Hd Hc _ IH]; intros first; [done|..]; rewrite fmap_cons; cbn [smartPak_all].
  - rewrite restored_move, !smartPak_move by (by rewrite ?length_restored_body). rewrite IH. do 2 f_equal.
    unfold packed_move. rewrite length_restored_body. unfold restored_body.
    destruct (decide (length body = 4%nat)); [done|]. by rewrite (proj2 (Nat.eqb_neq _ _)).
  - rewrite restored_other by by apply not_move_code. destruct (smartPak first (b :: p)). by rewrite IH.
Qed.

(** C18: what [unsmartpak] makes of a stream that a SmartPaker has packed: a stream of
    sub-packets whose 0x2c packets carry consecutive ticks and are shorter than 65536
    bytes, and whose other sub-packets are of kinds that announce their own size and are
    not those of the packing, put after a packet header with or without time stamp, is
    unpacked to the same stream, but with FF FF 01 00 for the contents of every 0x2c
    packet of eleven bytes ([restored]), which the packer does not keep.  So it comes back
    as it was exactly when all those had these contents before. *)
Theorem unsmartpak_smartPak (ps : list bytes) (c1 c2 ts : Z) (hasTimestamp : bool) :
  ticking None ps →
  let packed := 3 :: c1 :: c2 :: (if hasTimestamp then le4 ts else []) ++ smartPak_all true ps in
  unsmartpak packed hasTimestamp true = Ok (restored <$> ps) ∧
  (unsmartpak packed hasTimestamp true = Ok ps ↔ stream_ok None ps).
Proof.
  intros H. cbv zeta. rewrite <- (smartPak_all_restored None ps H true).
  rewrite unsmartpak_smartPak_core by (by apply ticking_restored). split; [done|].
  rewrite <- (ticking_lossless None ps H). split; [apply Ok_inj|by intros ->].
Qed.

Definition ex_ticking : list bytes := [move 5 [255;255;1;0]; [23; 7]; move 6 [1;2;3]; move 7 [1;2;3;4]].
Lemma ex_ticking_ok : ticking None ex_ticking.
Proof.
  apply ticking_move; [by left|unfold is_u32; lia|simpl; lia|].
  apply ticking_other.
  { by apply (self_delimited_fixed UNK_17). }
  { vm_compute. intros c Hc [= <-]. repeat (apply elem_of_cons in Hc as [?|Hc]; [done|]). by apply elem_of_nil in Hc. }
  apply ticking_move; [by right|unfold is_u32; lia|simpl; lia|]. apply ticking_move; [by right|unfold is_u32; lia|simpl; lia|]. constructor.
Qed.
Lemma unsmartpak_smartPak_witness :
  unsmartpak (3 :: 0 :: 0 :: le4 77 ++ smartPak_all true ex_ticking) true true =
  Ok [move 5 [255;255;1;0]; [23; 7]; move 6 [1;2;3]; move 7 [255;255;1;0]].
Proof. exact (proj1 (unsmartpak_smartPak ex_ticking 0 0 77 true ex_ticking_ok)). Defined.

(** ** slowUnsmartpak and unsmartpak *)

Lemma size_to_take s len : are_bytes s → s ≠ [] → getExpectedSubPacketSize s = Ok len →
  let n := if (len =? 0) || (Z.of_nat (length s) <? len) then length s else Z.to_nat len in
  (0 < n ≤ length s)%nat ∧ ∃ err, split2 s true = Ok (take n s, drop n s, err).
Proof.
  intros Hs Hne E n. pose proof (expected_size_nonneg _ _ Hs E) as Hpos.
  assert (0 < length s)%nat as Hl by (destruct s; [done|simpl; lia]). split.
  { unfold n. destruct (Z.eqb_spec len 0); simpl; [lia|].
    destruct (Z.ltb_spec (Z.of_nat (length s)) len); lia. }
  destruct s as [|b s]; [done|]. unfold split2. rewrite E, res_bind_ok, andb_false_r.
  unfold n. destruct (Z.ltb_spec (Z.of_nat (length (b :: s))) len) as [H|H].
  - rewrite orb_true_r. cbv iota. rewrite (take_ge _ (length (b :: s))), (drop_ge _ (length (b :: s))) by done.
    by exists true.
  - rewrite orb_false_r. destruct (Z.eqb_spec len 0) as [->|]; [|by eexists].
    cbv iota. rewrite (take_ge _ (length (b :: s))), (drop_ge _ (length (b :: s))) by done.
    by exists true.
Qed.

Lemma rd8_take s n i : (i < n)%nat → (n ≤ length s)%nat → rd8 (take n s) i = rd8 s i.
Proof.
  intros Hi Hn. unfold rd8. rewrite lookup_take_lt by done.
  destruct (s !! i) eqn:E; [done|]. apply lookup_ge_None in E. lia.
Qed.

Lemma rd32_take s n : (n = 5 ∨ n = length s)%nat → (n ≤ length s)%nat → rd32 (take n s) 1 = rd32 s 1.
Proof.
  intros [->| ->] Hn; [|by rewrite take_ge]. unfold rd32, rd16.
  by rewrite (rd8_take s 5 1), (rd8_take s 5 (1 + 1)), (rd8_take s 5 (1 + 2)), (rd8_take s 5 (1 + 2 + 1)) by lia.
Qed.

(** the two loops agree, except that where [unsmartpak] copies out of bounds
    [slowUnsmartpak] throws *)
Lemma slow_loop_un_loop fuel : ∀ c packnum ut, are_bytes c →
  slow_loop fuel c packnum ut = un_loop fuel c packnum ut ∨
  slow_loop fuel c packnum ut = Throw OutOfRange ∧ un_loop fuel c packnum ut = Undef.
Proof.
  induction fuel as [|fuel IH]; intros c packnum ut Hc; [by left|].
  destruct c as [|b s]; [by left|].
  destruct (getExpectedSubPacketSize (b :: s)) as [len| | |] eqn:E;
    try (left; cbn [slow_loop un_loop]; unfold split2; by rewrite E).
  destruct (size_to_take _ _ Hc ltac:(done) E) as [Hn (err & Hsp)].
  rewrite (un_loop_step fuel b s packnum ut len _ E eq_refl).
  cbn [slow_loop]. rewrite Hsp, res_bind_ok. clear Hsp.
  set (n := if _ || _ then _ else _) in *.
  assert (∀ p u, slow_loop fuel (drop n (b :: s)) p u = un_loop fuel (drop n (b :: s)) p u ∨
    slow_loop fuel (drop n (b :: s)) p u = Throw OutOfRange ∧ un_loop fuel (drop n (b :: s)) p u = Undef) as Hrec
    by (intros; by apply IH, Forall_drop).
  rewrite rd8_take, rd8_0, res_bind_ok by lia.
  destruct (SubPacketCode_of b) as [code|] eqn:Ec; [|apply Hrec].
  destruct code; try apply Hrec.
  - (* 0xfd *) unfold substr_n.
    replace (0 <=? length (take n (b :: s)))%nat with true by done. rewrite res_bind_ok.
    unfold substr. rewrite length_take, Nat.min_l by lia.
    destruct (Nat.ltb_spec n 3) as [H3|H3].
    + destruct (Nat.leb_spec 3 n); [lia|]. by right.
    + destruct (Nat.leb_spec 3 n); [|lia]. rewrite res_bind_ok.
      replace (take 3 (drop 0 (take n (b :: s)))) with (take 3 (b :: s))
        by (rewrite drop_0, take_take, Nat.min_l by lia; done).
      replace (drop 3 (take n (b :: s))) with (take (n - 3) (drop 3 (b :: s)))
        by (by rewrite skipn_firstn_comm). apply Hrec.
  - (* 0xfe *) rewrite rd32_take; [| |lia].
    + destruct (rd32 (b :: s) 1); try by left. rewrite !res_bind_ok. apply Hrec.
    + unfold n. unfold getExpectedSubPacketSize in E. rewrite Ec in E. injection E as <-.
      destruct (_ || _); [by right|by left].
Qed.

Lemma un_loop_fuel f1 : ∀ f2 c packnum ut, are_bytes c →
  (length c < f1)%nat → (length c < f2)%nat → un_loop f1 c packnum ut = un_loop f2 c packnum ut.
Proof.
  induction f1 as [|f1 IH]; intros f2 c packnum ut Hc H1 H2; [lia|]. destruct f2 as [|f2]; [lia|].
  destruct c as [|b s]; [done|].
  destruct (getExpectedSubPacketSize (b :: s)) as [len| | |] eqn:E;
    try (cbn [un_loop]; by rewrite E).
  destruct (size_to_take _ _ Hc ltac:(done) E) as [Hn _].
  rewrite !(un_loop_step _ b s packnum ut len _ E eq_refl).
  set (n := if _ || _ then _ else _) in *.
  assert (∀ p u, un_loop f1 (drop n (b :: s)) p u = un_loop f2 (drop n (b :: s)) p u) as Hrec.
  { intros. apply IH; [by apply Forall_drop|rewrite length_drop; lia..]. }
  destruct (SubPacketCode_of b) as [[]|]; rewrite ?Hrec; try done.
  destruct (rd32 (b :: s) 1); try done. by rewrite !res_bind_ok.
Qed.

(** *** Decompression with and without the two checksum bytes *)

Lemma copy_back_shift n : ∀ b h x y t, (2 ≤ b)%nat →
  ∃ t', copy_back n b (h :: t) = h :: t' ∧ copy_back n (b + 2) (h :: x :: y :: t) = h :: x :: y :: t'.
Proof.
  induction n as [|n IH]; intros b h x y t Hb; [by exists t|]. cbn [copy_back].
  set (v := if (b <=? length (h :: t))%nat then (h :: t) !!! (b - 1)%nat else 0).
  replace (if (b + 2 <=? length (h :: x :: y :: t))%nat then _ else 0) with v; cycle 1.
  { unfold v. destruct b as [|[|b]]; [lia..|]. cbn [length].
    replace (S (S b) + 2 - 1)%nat with (S (S (S b))) by lia. simpl.
    replace (b + 2)%nat with (S (S b)) by lia. done. }
  simpl app. destruct (IH (S b) h x y (t ++ [v]) ltac:(lia)) as (t' & H1 & H2).
  exists t'. by rewrite H1, <- H2.
Qed.

Definition group_shift (h x y : Z) (g1 g3 : group_end) : Prop :=
  match g1, g3 with
  | GroupDone i1 o1, GroupDone i3 o3 =>
      i3 = (i1 + 2)%nat ∧ ∃ t, o1 = h :: t ∧ o3 = h :: x :: y :: t
  | Returned o1, Returned o3 => ∃ h' t, o1 = h' :: t ∧ o3 = h' :: x :: y :: t
  | _, _ => False
  end.

Lemma rd8_shift h x y s i : (1 ≤ i)%nat → rd8 (h :: x :: y :: s) (i + 2) = rd8 (h :: s) i.
Proof.
  intros Hi. destruct i as [|i]; [lia|]. replace (S i + 2)%nat with (S (S (S i))) by lia.
  by rewrite !rd8_cons.
Qed.

Lemma rd16_shift h x y s i : (1 ≤ i)%nat → rd16 (h :: x :: y :: s) (i + 2) = rd16 (h :: s) i.
Proof.
  intros Hi. unfold rd16. rewrite rd8_shift by lia.
  replace (i + 2 + 1)%nat with (i + 1 + 2)%nat by lia. by rewrite rd8_shift by lia.
Qed.

Lemma decompress_group_shift n : ∀ cbf nump h x y s i o t, are_bytes (h :: s) → (1 ≤ i ≤ length s + 2)%nat →
  ∃ g1 g3, decompress_group n cbf nump (h :: s) 1 i (o :: t) = Ok g1 ∧
    decompress_group n cbf nump (h :: x :: y :: s) 3 (i + 2) (o :: x :: y :: t) = Ok g3 ∧
    group_shift o x y g1 g3.
Proof.
  induction n as [|n IH]; intros cbf nump h x y s i o t Hs Hi.
  { do 2 eexists. split; [done|]. split; [done|]. simpl. eauto. }
  cbn [decompress_group].
  replace (length (h :: x :: y :: s) <=? i + 2)%nat with (length (h :: s) <=? i)%nat
    by (apply eq_true_iff_eq; rewrite !Nat.leb_le; simpl; lia).
  destruct (Nat.leb_spec (length (h :: s)) i) as [|Hlt].
  { do 2 eexists. split; [done|]. split; [done|]. simpl. eauto. }
  destruct (_ =? 0).
  - rewrite rd8_shift by lia. destruct (rd8_ok (h :: s) i ltac:(lia)) as [b ->]. rewrite !res_bind_ok.
    replace (i + 2 + 1)%nat with (i + 1 + 2)%nat by lia. apply (IH _ _ h x y s _ o (t ++ [b])); [done|].
    simpl in Hlt. lia.
  - rewrite rd16_shift by lia. destruct (rd16_ok (h :: s) i ltac:(lia)) as [u Hu].
    pose proof (rd16_range _ _ _ Hs Hu). rewrite Hu, !res_bind_ok.
    cbv zeta. destruct (Z.eqb_spec (Z.shiftr u 4) 0).
    { do 2 eexists. split; [done|]. split; [done|]. simpl. eauto. }
    assert (0 ≤ Z.shiftr u 4) by (apply Z.shiftr_nonneg; lia).
    replace (Z.to_nat (Z.shiftr u 4) + 3)%nat with (Z.to_nat (Z.shiftr u 4) + 1 + 2)%nat by lia.
    destruct (copy_back_shift (Z.to_nat (Z.land u 15) + 2) (Z.to_nat (Z.shiftr u 4) + 1) o x y t)
      as (t' & -> & ->); [lia|].
    apply (IH _ _ h x y s (i + 2)%nat o t'); [done|]. simpl in Hlt. lia.
Qed.

Lemma decompress_loop_shift f1 : ∀ f3 h x y s i o t, are_bytes (h :: s) → (1 ≤ i)%nat →
  (length s + 1 < f1 + i)%nat → (0 < f1)%nat → (f1 ≤ f3)%nat →
  ∃ o' t', decompress_loop f1 (h :: s) 1 i (o :: t) = Ok (o' :: t') ∧
    decompress_loop f3 (h :: x :: y :: s) 3 (i + 2) (o :: x :: y :: t) = Ok (o' :: x :: y :: t').
Proof.
  induction f1 as [|f1 IH]; intros f3 h x y s i o t Hs Hi Hf Hf0 Hf3; [lia|].
  destruct f3 as [|f3]; [lia|]. cbn [decompress_loop].
  replace (i + 2 <? length (h :: x :: y :: s))%nat with (i <? length (h :: s))%nat
    by (apply eq_true_iff_eq; rewrite !Nat.ltb_lt; simpl; lia).
  destruct (Nat.ltb_spec i (length (h :: s))) as [Hlt|]; [|by do 2 eexists].
  rewrite rd8_shift by lia. destruct (rd8_ok (h :: s) i ltac:(lia)) as [cbf ->]. rewrite !res_bind_ok.
  simpl in Hlt. replace (i + 2 + 1)%nat with (i + 1 + 2)%nat by lia.
  destruct (decompress_group_shift 8 cbf 0 h x y s (i + 1) o t Hs ltac:(lia)) as (g1 & g3 & H1 & -> & Hg).
  pose proof (decompress_group_total 8 cbf 0 (h :: s) 1 (i + 1) (o :: t)) as (g & Hg1 & Hb); [simpl; lia|].
  rewrite H1 in *. injection Hg1 as <-. rewrite !res_bind_ok.
  destruct g1 as [i1 o1|o1], g3 as [i3 o3|o3]; try done; simpl in Hg.
  - destruct Hg as (-> & t' & -> & ->). simpl in Hb. apply IH; [done|lia..].
  - destruct Hg as (h' & t' & -> & ->). by do 2 eexists.
Qed.

Lemma decompress_shift h x y s : are_bytes (h :: s) →
  ∃ o t, decompress (h :: s) 1 = Ok (o :: t) ∧ decompress (h :: x :: y :: s) 3 = Ok (o :: x :: y :: t).
Proof.
  intros Hs. unfold decompress. rewrite !rd8_0, !res_bind_ok. destruct (negb (h =? 4)).
  { by do 2 eexists. }
  change (rd_n (h :: s) 0 1) with (Ok [h]). change (rd_n (h :: x :: y :: s) 0 3) with (Ok [h; x; y]).
  rewrite !res_bind_ok. apply (decompress_loop_shift _ _ h x y s 1 3 []); [done|simpl; lia..].
Qed.

(** the two checksum bytes play no part in the compression *)
Lemma decompress_checksum h x y x' y' s o t : are_bytes (h :: s) →
  decompress (h :: x :: y :: s) 3 = Ok (o :: x :: y :: t) →
  decompress (h :: x' :: y' :: s) 3 = Ok (o :: x' :: y' :: t).
Proof.
  intros Hs H. destruct (decompress_shift h x y s Hs) as (o1 & t1 & E1 & E2).
  destruct (decompress_shift h x' y' s Hs) as (o2 & t2 & F1 & F2). congruence.
Qed.

(** what remains of both functions after the header is dropped *)
Lemma slow_tail (buf1 buf3 : bytes) k1 k3 :
  are_bytes buf3 → drop k1 buf1 = drop k3 buf3 →
  let slow := (c ← substr buf3 k3; slow_loop (S (length c)) c 0 []) in
  let fast := unsmartpak_loop (S (length buf1)) buf1 k1 0 [] in
  slow = fast ∨ slow = Throw OutOfRange ∧ (fast = Undef ∨ fast = Ok []).
Proof.
  intros Hb Hd slow fast. subst slow fast. rewrite unsmartpak_loop_drop, Hd. unfold substr.
  destruct (Nat.leb_spec k3 (length buf3)).
  - rewrite res_bind_ok. assert (are_bytes (drop k3 buf3)) as Hb' by (by apply Forall_drop).
    rewrite (un_loop_fuel (S (length buf1)) (S (length (drop k3 buf3)))); [|done| |lia].
    + destruct (slow_loop_un_loop (S (length (drop k3 buf3))) (drop k3 buf3) 0 [] Hb') as [->|[-> ->]]; auto.
    + rewrite <- Hd, length_drop. lia.
  - right. rewrite drop_ge by lia. auto.
Qed.

Lemma unsmartpak_unfold c hs : are_bytes c → (hs = 1 ∨ hs = 3)%nat →
  (b0 ← rd8 c 0; (if b0 =? 4 then decompress c hs else Ok c)) = decompress c hs.
Proof.
  intros Hc Hhs. unfold decompress. destruct (rd8_ok c 0 ltac:(lia)) as [b0 ->]. rewrite !res_bind_ok.
  by destruct (b0 =? 4).
Qed.

Lemma res_bind_assoc {A B C} (m : res A) (f : A → res B) (g : B → res C) :
  ((m ≫= f) ≫= g) = (m ≫= λ x, f x ≫= g).
Proof. by destruct m. Qed.

(** C37: [unsmartpak] and the reference [slowUnsmartpak] agree on every packet, with
    or without checksum and time stamp, compressed or not: they return the same
    sub-packets, except that on a packet shorter than its header the reference
    throws where [unsmartpak] returns nothing; where [unsmartpak] would copy out of
    bounds the reference throws too. *)
Theorem unsmartpak_slowUnsmartpak (c : bytes) (hasTimestamp hasChecksum : bool) :
  are_bytes c →
  slowUnsmartpak c hasTimestamp hasChecksum = unsmartpak c hasTimestamp hasChecksum ∨
  slowUnsmartpak c hasTimestamp hasChecksum = Throw OutOfRange ∧
    (unsmartpak c hasTimestamp hasChecksum = Undef ∨ unsmartpak c hasTimestamp hasChecksum = Ok []).
Proof.
  intros Hc. unfold slowUnsmartpak, unsmartpak. rewrite <- !res_bind_assoc.
  destruct hasChecksum.
  - rewrite res_bind_ok, <- !res_bind_assoc, !(unsmartpak_unfold c 3) by auto.
    destruct (decompress c 3) as [buf| | |] eqn:E; try by left. rewrite !res_bind_ok.
    apply decompress_bytes in E; [|done].
    by destruct hasTimestamp; apply (slow_tail buf buf).
  - rewrite (unsmartpak_unfold c 1) by auto. destruct c as [|h s].
    { right. split; [done|]. right. by destruct hasTimestamp. }
    change (substr_n (h :: s) 0 1) with (Ok [h]). change (substr (h :: s) 1) with (Ok s).
    rewrite !res_bind_ok. change ([h] ++ [120; 120] ++ s) with (h :: 120 :: 120 :: s).
    assert (are_bytes (h :: 120 :: 120 :: s)) as Hc3.
    { inversion_clear Hc. do 3 (constructor; [done || (unfold is_byte; lia)|]). done. }
    rewrite <- !res_bind_assoc, (unsmartpak_unfold (h :: 120 :: 120 :: s) 3) by auto.
    destruct (decompress_shift h 120 120 s Hc) as (o & t & -> & E3). rewrite E3, !res_bind_ok.
    apply decompress_bytes in E3; [|done].
    by destruct hasTimestamp; apply (slow_tail (o :: t) (o :: 120 :: 120 :: t)).
Qed.

Lemma unsmartpak_slowUnsmartpak_witness :
  are_bytes (3 :: [254; 9; 0; 0; 0; 255; 23; 1; 255]) ∧
  (slowUnsmartpak (3 :: [254; 9; 0; 0; 0; 255; 23; 1; 255]) false false =
   unsmartpak (3 :: [254; 9; 0; 0; 0; 255; 23; 1; 255]) false false ∨
  slowUnsmartpak (3 :: [254; 9; 0; 0; 0; 255; 23; 1; 255]) false false = Throw OutOfRange ∧
    (unsmartpak (3 :: [254; 9; 0; 0; 0; 255; 23; 1; 255]) false false = Undef ∨
     unsmartpak (3 :: [254; 9; 0; 0; 0; 255; 23; 1; 255]) false false = Ok [])).
Proof.
  assert (are_bytes (3 :: [254; 9; 0; 0; 0; 255; 23; 1; 255])) as H
    by bytes_tac.
  split; [exact H|]. exact (unsmartpak_slowUnsmartpak _ false false H).
Defined.

(** ** Chat sub-packets *)

Lemma length_strncpy src n : length (strncpy src n) = n.
Proof. unfold strncpy. rewrite length_app, length_take, length_replicate. lia. Qed.

Lemma c_str_app_nul (s t : bytes) : Forall (λ b, b ≠ 0) s → c_str (s ++ 0 :: t) = s.
Proof.
  induction 1 as [|b s Hb Hs IH]; simpl; [done|]. destruct (Z.eqb_spec b 0); [done|]. by rewrite IH.
Qed.

Lemma c_str_nonzero (s : bytes) : Forall (λ b, b ≠ 0) (c_str s).
Proof. induction s as [|b s IH]; simpl; [done|]. destruct (Z.eqb_spec b 0); by constructor. Qed.

Lemma createChatSubpacket_shape message : createChatSubpacket message = (5 :: take 63 (strncpy message 64)) ++ [0] ∧
  length (5 :: take 63 (strncpy message 64)) = 64%nat.
Proof.
  split; [|cbn [length]; by rewrite length_take, length_strncpy].
  unfold createChatSubpacket. pose proof (length_strncpy message 64) as Hl.
  set (s := strncpy message 64) in *.
  rewrite <- (take_drop 63 s) at 1.
  assert (length (take 63 s) = 63%nat) as H63 by (rewrite length_take; lia).
  destruct (drop 63 s) as [|x [|? ?]] eqn:Ed; apply (f_equal length) in Ed;
    rewrite length_drop in Ed; simpl in Ed; [lia| |lia].
  change (code_byte CHAT_05 :: take 63 s ++ [x]) with ((5 :: take 63 s) ++ [x]).
  replace 64%nat with (length (5 :: take 63 s)) at 1 by (simpl; lia). apply insert_middle.
Qed.
Lemma createChatSubpacket_delimited message : self_delimited (createChatSubpacket message).
Proof.
  destruct (createChatSubpacket_shape message) as [-> Hl].
  intros rest. unfold getExpectedSubPacketSize. rewrite <- app_assoc. cbn [app].
  change (SubPacketCode_of 5) with (Some CHAT_05). cbv iota.
  rewrite (rd8_lookup _ 64 0); cycle 1.
  { change (5 :: take 63 (strncpy message 64) ++ 0 :: rest)
      with ((5 :: take 63 (strncpy message 64)) ++ 0 :: rest).
    apply list_lookup_middle. by rewrite Hl. }
  rewrite res_bind_ok. change (negb (0 =? 0)) with false. cbv iota. rewrite app_comm_cons, length_app, Hl. done.
Qed.

(** a chat sub-packet made from any message, of any length, has 65 bytes, is
    recognised by [getExpectedSubPacketSize] whatever follows it in the packet, and
    reads back, as the receiver does, [(const char* )(&s[1])], as the first 63
    characters of the message. *)
Theorem createChatSubpacket_reads_back (message : bytes) :
  self_delimited (createChatSubpacket message) ∧ length (createChatSubpacket message) = 65%nat ∧
  c_str (drop 1 (createChatSubpacket message)) = take 63 (c_str message).
Proof.
  split; [apply createChatSubpacket_delimited|]. destruct (createChatSubpacket_shape message) as [-> Hl]. split.
  - rewrite length_app, Hl. done.
  - cbn [app drop]. unfold strncpy. rewrite take_app, length_take, take_take.
    set (m := c_str message). rewrite take_replicate, <- app_assoc.
    pose proof (c_str_nonzero message) as Hnz. fold m in Hnz.
    replace (63 `min` 64)%nat with 63%nat by done.
    destruct ((63 - 64 `min` length m) `min` (64 - length m))%nat eqn:En; simpl;
      apply c_str_app_nul; by apply Forall_take.
Qed.
