(* ===== verification/TPacketFast.v ===== *)
(** * A decoder of packets in linear time

    The loops of [decrypt] and [decompress] store and load by index, which is slow to
    compute with on lists.  Here are definitions that walk along the packet and keep the
    output backwards, and the proofs that they compute the same. *)
From S2P Require Import Prelude TPacketCrypt TPacketCompress TPacketSplit TPacketSmartpak.

(** ** Decryption *)
Fixpoint fast_xor (n : nat) (key : Z) (s : bytes) : bytes :=
  match n, s with S n, b :: s => Z.lxor b key :: fast_xor n (u8 (key + 1)) s | _, _ => s end.
Lemma fast_xor_app key mid post : fast_xor (length mid) key (mid ++ post) = xor_stream key mid ++ post.
Proof. revert key. induction mid as [|b mid IH]; intros key; [by destruct post|]. cbn. by rewrite IH. Qed.
Definition fast_decrypt (data : bytes) : bytes * Z * Z :=
  match data with
  | t :: c1 :: c2 :: s =>
      let n := (length s - 3)%nat in (t :: c1 :: c2 :: fast_xor n 3 s, c1 + 256 * c2, sum16 0 (take n s))
  | _ => ([], 0, 0)
  end.
Lemma fast_decrypt_eq data ce cc : (4 ≤ length data)%nat → decrypt data 0 ce cc = fast_decrypt data.
Proof.
  intros H. destruct (packet_split data H) as (t & c1 & c2 & mid & post & -> & Hm & Hp).
  cbn [length] in *. rewrite length_app in *. rewrite decrypt_split0 by lia. cbn [fast_decrypt]. rewrite length_app.
  replace (length mid + length post - 3)%nat with (length mid) by lia. by rewrite fast_xor_app, take_app_length.
Qed.
Lemma length_decrypt data ce cc : (4 ≤ length data)%nat → length (decrypt data 0 ce cc).1.1 = length data.
Proof.
  intros H. destruct (packet_split data H) as (t & c1 & c2 & mid & post & -> & Hm & Hp).
  cbn [length] in *. rewrite length_app in *. rewrite decrypt_split0 by lia. cbn [fst length]. by rewrite !length_app, length_xor_stream.
Qed.

(** ** Decompression *)

(** the reference is as far back for each of the bytes that are copied; [None] is a
    reference past the end *)
Fixpoint copy_rev (n : nat) (dist : option nat) (r : bytes) : bytes :=
  match n with
  | O => r
  | S n => copy_rev n dist (match dist with Some k => r !!! k | None => 0 end :: r)
  end.
Definition distance (len b : nat) : option nat := if (b <=? len)%nat then Some (len - b)%nat else None.
Lemma lookup_total_reverse (r : bytes) b : (1 ≤ b ≤ length r)%nat → reverse r !!! (b - 1)%nat = r !!! (length r - b)%nat.
Proof.
  intros H. rewrite !list_lookup_total_alt, reverse_lookup by lia. by replace (length r - S (b - 1))%nat with (length r - b)%nat by lia.
Qed.
Lemma copy_back_rev n : ∀ b r, (1 ≤ b)%nat → copy_back n b (reverse r) = reverse (copy_rev n (distance (length r) b) r).
Proof.
  induction n as [|n IH]; intros b r Hb; [done|]. cbn [copy_back copy_rev]. rewrite length_reverse.
  set (x := match distance (length r) b with Some k => r !!! k | None => 0 end).
  replace (if (b <=? length r)%nat then reverse r !!! (b - 1)%nat else 0) with x.
  - rewrite <- reverse_cons, IH by lia. unfold distance. cbn [length].
    replace (S b <=? S (length r))%nat with (b <=? length r)%nat by (destruct (Nat.leb_spec b (length r)), (Nat.leb_spec (S b) (S (length r))); lia).
    done.
  - unfold x, distance. destruct (Nat.leb_spec b (length r)); [|done]. by rewrite lookup_total_reverse.
Qed.

Inductive fast_end : Type :=
  | FastDone (rest r : bytes) (len : Z)
  | FastReturned (result : bytes).
Fixpoint fast_group (n : nat) (cbf nump : Z) (s : bytes) (headerSize : Z) (r : bytes) (len : Z) : res fast_end :=
  match n with
  | O => Ok (FastDone s r len)
  | S n =>
      match s with
      | [] => Ok (FastReturned (<[0%nat := 4]> (reverse r)))
      | b :: s' =>
          if Z.land (Z.shiftr cbf nump) 1 =? 0 then fast_group n cbf (nump + 1) s' headerSize (b :: r) (len + 1)
          else
            uop ← rd16 s 0;
            let a := Z.shiftr uop 4 in
            if a =? 0 then Ok (FastReturned (reverse r))
            else
              let dist := len - (a + headerSize) in
              fast_group n cbf (nump + 1) (tail s') headerSize
                (copy_rev (Z.to_nat (Z.land uop 15) + 2) (if dist <? 0 then None else Some (Z.to_nat dist)) r)
                (len + Z.land uop 15 + 2)
      end
  end.
Fixpoint fast_loop (fuel : nat) (s : bytes) (headerSize : Z) (r : bytes) (len : Z) : res bytes :=
  match fuel with
  | O => Hang
  | S fuel =>
      match s with
      | [] => Ok (reverse r)
      | cbf :: s =>
          g ← fast_group 8 cbf 0 s headerSize r len;
          match g with
          | FastDone s r len => fast_loop fuel s headerSize r len
          | FastReturned result => Ok result
          end
      end
  end.
Definition fast_decompress (data : bytes) (headerSize : nat) : res bytes :=
  b0 ← rd8 data 0;
  if negb (b0 =? 4) then Ok data
  else
    header ← rd_n data 0 headerSize;
    fast_loop (S (length data)) (drop headerSize data) (Z.of_nat headerSize) (reverse (<[0%nat := 3]> header)) (Z.of_nat headerSize).

(** what the fast loop has when the loop of the code is at [index] *)
Definition fast_of (data : bytes) (g : group_end) : fast_end :=
  match g with
  | GroupDone index result => FastDone (drop index data) (reverse result) (Z.of_nat (length result))
  | Returned result => FastReturned result
  end.
Lemma rd16_index data index : (index < length data)%nat → rd16 data index = rd16 (drop index data) 0.
Proof. intros H. by rewrite rd16_drop, Nat.add_0_r by lia. Qed.
Lemma fast_group_eq n : ∀ cbf nump data hs index out, are_bytes data →
  fast_group n cbf nump (drop index data) (Z.of_nat hs) (reverse out) (Z.of_nat (length out)) =
  g ← decompress_group n cbf nump data hs index out; Ok (fast_of data g).
Proof.
  induction n as [|n IH]; intros cbf nump data hs index out Hd; [done|]. cbn [fast_group decompress_group].
  destruct (Nat.leb_spec (length data) index) as [Hi|Hi].
  { rewrite drop_ge by lia. cbn. by rewrite reverse_involutive. }
  destruct (lookup_lt_is_Some_2 data index Hi) as [b Hb]. rewrite (drop_S _ _ _ Hb).
  case_match.
  - rewrite (rd8_lookup _ _ _ Hb), res_bind_ok, <- IH by done. rewrite Nat.add_1_r, reverse_snoc, length_app. cbn [length].
    by replace (Z.of_nat (length out + 1)) with (Z.of_nat (length out) + 1) by lia.
  - rewrite (rd16_index _ _ Hi), <- (drop_S _ _ _ Hb).
    destruct (rd16 (drop index data) 0) as [uop| | |] eqn:Eu; [|done..]. cbn [mbind res_bind].
    pose proof (rd16_range _ _ _ (Forall_drop _ _ _ Hd) Eu) as Hr.
    case_match eqn:Ea; [by rewrite reverse_involutive|]. apply Z.eqb_neq in Ea.
    assert (0 <= Z.shiftr uop 4) by (apply Z.shiftr_nonneg; lia).
    assert (0 <= Z.land uop 15) by (apply Z.land_nonneg; lia).
    rewrite <- IH by done. f_equal.
    + change (tail (drop (S index) data)) with (drop 1 (drop (S index) data)). rewrite drop_drop. f_equal. lia.
    + pose proof (copy_back_rev (Z.to_nat (Z.land uop 15) + 2) (Z.to_nat (Z.shiftr uop 4) + hs) (reverse out) ltac:(lia)) as Hc.
      rewrite reverse_involutive, length_reverse in Hc. rewrite Hc, reverse_involutive. f_equal.
      unfold distance. destruct (Nat.leb_spec (Z.to_nat (Z.shiftr uop 4) + hs) (length out)), (Z.ltb_spec (Z.of_nat (length out) - (Z.shiftr uop 4 + Z.of_nat hs)) 0); try lia; [|done].
      f_equal. lia.
    + rewrite length_copy_back. lia.
Qed.
Lemma fast_loop_eq fuel : ∀ data hs index out, are_bytes data →
  fast_loop fuel (drop index data) (Z.of_nat hs) (reverse out) (Z.of_nat (length out)) = decompress_loop fuel data hs index out.
Proof.
  induction fuel as [|fuel IH]; intros data hs index out Hd; [done|]. cbn [fast_loop decompress_loop].
  destruct (Nat.ltb_spec index (length data)) as [Hi|Hi].
  - destruct (lookup_lt_is_Some_2 data index Hi) as [b Hb]. rewrite (drop_S _ _ _ Hb), (rd8_lookup _ _ _ Hb), res_bind_ok.
    rewrite Nat.add_1_r, fast_group_eq by done.
    destruct (decompress_group 8 b 0 data hs (S index) out) as [[index' out'|out']| | |]; cbn; [|done..]. by apply IH.
  - rewrite drop_ge by lia. by rewrite reverse_involutive.
Qed.
Lemma fast_decompress_eq data headerSize : are_bytes data → (headerSize <= length data)%nat →
  decompress data headerSize = fast_decompress data headerSize.
Proof.
  intros Hd Hl. unfold decompress, fast_decompress. destruct (rd8 data 0); [|done..]. cbn [mbind res_bind]. case_match; [done|].
  unfold rd_n. destruct (Nat.leb_spec (0 + headerSize) (length data)); [|lia]. cbn [mbind res_bind]. rewrite drop_0.
  rewrite <- fast_loop_eq by done. by rewrite length_insert, length_take, Nat.min_l.
Qed.
