(* ===== verification/TestPackets.v ===== *)
(** * Recorded packets (TestPackets.cpp)

    The packets that the source keeps for its test of the codec, mostly recorded from games
    in which it met a sub-packet that it did not know.  The bytes are those of the
    source, in decimal; an array that is given as a string literal ends in a null byte. *)
From S2P Require Import Prelude.

Definition string_array (s : bytes) : bytes := s ++ [0].
(** [bytestring(p, n)] *)
Definition bytestring_of (p : bytes) (n : nat) : bytes := take n p.

(** ** The arrays *)
Definition _td1 : bytes := string_array [
  39; 248; 144; 27; 0; 0; 0; 0; 4; 149; 211; 3; 75; 232; 251; 248; 24; 209; 14; 14;
  12; 13; 12; 79; 17; 17; 18; 200; 18; 54; 198; 23; 62; 24; 10; 68; 25; 156; 30; 223;
  163; 140; 178; 34; 103; 197; 39; 15; 41; 71; 248; 42; 203; 204; 44; 187; 18; 50; 43; 50;
  177; 7; 53; 252; 86; 9; 56; 31; 104; 52; 231; 60; 95; 71; 195; 67; 9; 80; 79; 215;
  75; 93; 66; 147; 79; 64; 122; 251; 68; 81; 93; 86; 131; 28; 86; 45; 158; 124; 90; 72;
  71; 159; 8; 81; 249; 216; 94; 99; 100; 55; 212; 115; 124; 93; 106; 217; 44; 8; 27; 102;
  249; 113; 88; 115; 117; 101; 36; 243; 138; 124; 64; 68; 236; 126; 62; 117; 129; 69; 43; 17;
  141; 52; 12; 87; 136; 89; 224; 137; 67; 127; 139; 219; 241; 35; 98; 151; 245; 31; 157; 119;
  106; 147; 36; 145; 20; 13; 152; 97; 42; 167; 102; 96; 16; 169; 166; 134; 116; 238; 170; 142;
  2; 89; 191; 175; 197; 115; 245; 191; 223; 203; 139; 183; 168; 244; 28; 20; 174; 125; 182; 2;
  171; 143; 226; 197; 70; 197; 233; 192; 8; 195; 87; 204; 101; 204; 197; 84; 66; 129; 212; 200;
  94; 222; 113; 133; 201; 211; 93; 58; 213; 53; 134; 209; 224; 205; 254; 226; 228; 4; 3; 227;
  232; 243; 234; 250; 12; 237; 237; 255; 241; 80; 242; 42; 120; 104; 246; 119; 104; 121; 79; 123;
  84; 125; 68; 254; 96; 20; 226; 19; 148; 232; 126; 10; 208; 153; 4; 163; 1; 165; 63; 25;
  56; 31; 162; 7; 21; 229; 2; 179; 152; 224; 154; 185; 156; 234; 31; 46; 55; 208; 242; 54;
  180; 232; 30; 42; 8; 81; 56; 99; 33; 69; 15; 55; 40; 35; 32; 72; 228; 35; 52; 47;
  216; 44; 82; 50; 148; 63; 46; 31; 89; 121; 83; 219; 77; 45; 87; 69; 251; 152; 92; 191;
  204; 106; 207; 173; 208; 25; 107; 210; 153; 37; 76; 134; 67; 137; 77; 3; 74; 82; 62; 73;
  112; 122; 58; 51; 125; 106; 14; 119; 42; 172; 155; 114; 129; 237; 122; 238; 96; 109; 107; 115;
  245; 133; 246; 107; 73; 100; 234; 118; 124; 37; 124; 166; 14; 7; 2; 136; 5; 7; 7; 214;
  149; 247; 10; 133; 29; 168; 142; 150; 176; 89; 158; 219; 154; 125; 215; 137; 96; 149; 146; 195;
  146; 199; 143; 130; 6; 33; 94; 35; 37; 149; 185; 164; 41; 14; 42; 175; 29; 172; 176; 191;
  184; 185; 26; 162; 148; 149; 78; 166; 224; 169; 178; 243; 174; 224; 191; 160; 87; 65; 58; 193;
  68; 229; 231; 61; 72; 83; 74; 54; 76; 15; 231; 31; 199; 105; 219; 107; 217; 197; 244; 119;
  206; 153; 146; 210; 68; 211; 172; 220; 240; 254; 226; 195; 101; 245; 103; 20; 104; 217; 201; 7;
  108; 173; 249; 30; 15; 206; 233; 3; 52; 245; 182; 167; 180; 59; 183; 227; 76; 241; 145; 223;
  14; 254; 18; 188; 31; 233; 5; 198; 8; 9; 108; 109; 13; 44; 43; 4; 111; 17; 223; 20;
  103; 21; 22; 62; 25; 18; 217; 27; 252; 24; 153; 175; 32; 151; 35; 51; 100; 44; 135; 46;
  195; 105; 62; 191; 44; 65; 4; 42; 215; 195; 20; 20; 219; 101; 61; 169; 252; 120; 29; 108;
  57; 61; 47; 94; 104; 121; 13; 83; 87; 7; 169; 46; 74; 101; 240; 75; 174; 124; 90; 89;
  69; 33; 70; 35; 148; 115; 87; 39; 124; 72; 74; 95; 249; 237; 117; 27; 16; 117; 162; 109;
  148; 68; 238; 230; 115; 225; 98; 122; 132; 140; 66; 39; 97; 5; 178; 107; 150; 101; 135; 111;
  32; 112; 114; 139; 96; 221; 92; 63; 162; 17; 138; 187; 138; 55; 118; 158; 72; 149; 26; 167;
  217; 45; 151; 7; 128; 135; 154; 163; 138; 173; 247; 184; 141; 24; 138; 134; 16; 1; 30; 135;
  33; 0; 131; 147; 173; 229; 177; 190; 73; 169; 180; 102; 228; 165; 118; 143; 189; 41; 181; 59;
  186; 244; 135; 167; 117; 120; 91; 148; 36; 61; 168; 62; 94; 97; 222; 130; 244; 205; 218; 134;
  229; 57; 235; 195; 199; 21; 196; 132; 32; 227; 162; 205; 60; 245; 229; 218; 103; 57; 248; 87;
  252; 54; 94; 55; 96; 7; 227; 215; 5; 101; 98; 10; 24; 60; 201; 233; 236; 141; 206; 107;
  212; 235; 109; 163; 193; 53; 68; 228; 156; 220; 130; 251; 226; 151; 249; 127; 6; 94; 50; 37;
  100; 180; 48; 151; 46; 210; 175; 203; 42; 55; 156; 11; 242; 80; 2; 57; 229; 5; 7; 22;
  112; 23; 130; 174; 69; 17; 168; 130; 102; 1; 34; 179; 123; 47; 52; 225; 39; 50; 89; 105;
  135; 92; 62; 221; 76; 193; 49; 211; 36; 110; 147; 102; 49; 42; 136; 18; 58; 229; 30; 9;
  36; 171; 106; 233; 80; 246; 84; 210; 248; 97; 227; 97; 70; 108; 60; 116; 68; 94; 200; 67;
  71; 178; 191; 127; 116; 212; 90; 113; 191; 108; 74; 29; 17; 74; 103; 114; 122; 110; 62; 32;
  105; 90; 26; 43; 124; 66; 246; 99; 250; 193; 92; 253; 52; 53; 246; 243; 248; 240; 250; 219;
  102; 241; 119; 223; 193; 193; 155; 82; 147; 137; 62; 128; 96; 195; 129; 235; 206; 149; 222; 190;
  156; 40; 18; 190; 182; 55; 182; 102; 182; 145; 178; 148; 236; 222; 230; 191; 187; 17; 170; 43;
  171; 186; 71; 136; 24; 232; 64; 10; 237; 133; 65; 47; 99; 113; 246; 67; 68; 170; 155; 74;
  187; 248; 254; 155; 166; 188; 63; 68; 64; 201; 67; 14; 148; 218; 206; 1; 235; 9; 238; 244;
  237; 168; 251; 207; 151; 214; 96; 211; 224; 227; 0; 0; 129].
Definition _td2 : bytes := string_array [
  39; 248; 144; 27; 37; 248; 144; 27; 3; 65; 23; 252; 251; 250; 249; 47; 8; 124; 50; 11;
  12; 142; 37; 15; 16; 17; 18; 19; 20; 21; 22; 23; 24; 234; 242; 99; 84; 221; 44; 134;
  105; 33; 36; 90; 108; 229; 20; 190; 97; 151; 113; 87; 96; 108; 203; 221; 123; 36; 115; 207;
  127; 23; 110; 102; 114; 102; 148; 46; 118; 9; 171; 48; 73].
Definition _td3 : bytes := string_array [
  37; 248; 144; 27; 0; 0; 0; 0; 4; 157; 165; 3; 107; 250; 248; 248; 24; 69; 10; 0;
  44; 13; 15; 83; 158; 17; 201; 19; 4; 88; 63; 101; 24; 156; 142; 198; 28; 83; 108; 31;
  73; 130; 7; 30; 38; 116; 244; 38; 24; 181; 183; 40; 78; 45; 14; 42; 48; 51; 249; 48;
  132; 48; 96; 63; 57; 17; 63; 54; 80; 30; 233; 53; 125; 220; 66; 11; 68; 214; 186; 240;
  90; 72; 74; 75; 172; 71; 215; 246; 108; 81; 145; 143; 84; 239; 71; 99; 166; 81; 165; 35;
  91; 117; 211; 88; 24; 240; 99; 236; 150; 96; 163; 136; 69; 57; 108; 87; 204; 100; 70; 110;
  231; 131; 119; 147; 77; 112; 38; 113; 16; 80; 112; 87; 22; 125; 68; 157; 128; 133; 130; 202;
  132; 148; 118; 131; 152; 139; 139; 11; 136; 84; 0; 246; 16; 193; 19; 155; 2; 21; 165; 22;
  149; 186; 187; 157; 12; 189; 115; 231; 170; 89; 177; 227; 170; 221; 181; 135; 96; 163; 130; 184;
  29; 141; 163; 35; 94; 185; 50; 39; 53; 245; 185; 128; 57; 80; 58; 179; 142; 220; 175; 159;
  206; 201; 207; 219; 210; 229; 238; 202; 48; 220; 178; 74; 220; 50; 49; 199; 243; 89; 197; 211;
  216; 209; 197; 218; 167; 216; 219; 211; 218; 157; 13; 215; 199; 98; 110; 225; 240; 67; 237; 236;
  186; 239; 206; 234; 157; 205; 238; 30; 241; 225; 162; 97; 240; 160; 94; 208; 5; 253; 186; 242;
  253; 246; 25; 223; 80; 10; 101; 4; 161; 60; 12; 214; 234; 29; 123; 160; 92; 4; 1; 78;
  22; 16; 165; 21; 220; 28; 133; 29; 4; 248; 93; 27; 28; 167; 187; 49; 51; 112; 211; 239;
  102; 44; 100; 47; 194; 145; 236; 57; 236; 37; 68; 239; 29; 120; 52; 245; 48; 227; 39; 59;
  56; 54; 48; 0; 77; 49; 88; 30; 77; 196; 194; 33; 197; 68; 54; 93; 3; 200; 196; 203;
  14; 60; 73; 110; 64; 65; 138; 89; 156; 71; 54; 76; 64; 74; 78; 195; 87; 157; 69; 206;
  113; 110; 175; 227; 90; 71; 231; 7; 116; 80; 235; 160; 252; 98; 79; 102; 49; 99; 98; 27;
  97; 205; 122; 111; 249; 100; 226; 127; 104; 176; 63; 101; 83; 1; 214; 2; 85; 149; 6; 209;
  9; 64; 42; 149; 45; 131; 30; 143; 93; 105; 154; 43; 134; 221; 159; 255; 137; 232; 133; 131;
  142; 108; 175; 131; 97; 33; 243; 239; 37; 96; 247; 135; 72; 181; 225; 234; 173; 189; 86; 255;
  187; 233; 167; 139; 21; 168; 238; 54; 153; 153; 184; 186; 156; 178; 201; 63; 166; 64; 190; 67;
  204; 164; 71; 65; 72; 235; 59; 52; 243; 79; 76; 183; 208; 217; 146; 145; 162; 254; 192; 135;
  211; 217; 180; 219; 16; 65; 149; 235; 192; 161; 225; 211; 199; 131; 244; 104; 237; 153; 234; 202;
  236; 199; 129; 191; 227; 156; 176; 229; 1; 245; 214; 247; 172; 251; 248; 18; 234; 43; 8; 56;
  14; 34; 204; 2; 164; 2; 213; 27; 176; 29; 109; 152; 76; 79; 0; 157; 8; 214; 63; 203;
  7; 5; 15; 117; 120; 12; 221; 28; 107; 26; 30; 58; 144; 7; 14; 3; 137; 65; 44; 45;
  29; 217; 61; 241; 169; 13; 110; 60; 80; 196; 253; 176; 44; 117; 205; 117; 253; 56; 35; 94;
  24; 8; 59; 79; 89; 129; 85; 66; 82; 213; 95; 182; 92; 171; 42; 75; 76; 110; 72; 234;
  217; 68; 188; 209; 113; 89; 53; 71; 84; 111; 64; 125; 28; 99; 193; 153; 106; 1; 191; 19;
  77; 164; 71; 231; 108; 122; 75; 74; 246; 94; 102; 105; 199; 115; 90; 242; 94; 49; 124; 52;
  126; 106; 125; 49; 138; 252; 82; 134; 2; 164; 111; 104; 52; 161; 129; 42; 2; 130; 60; 139;
  134; 252; 130; 154; 32; 157; 50; 195; 135; 49; 151; 176; 184; 171; 26; 153; 252; 175; 183; 191;
  146; 163; 66; 70; 168; 39; 38; 224; 41; 38; 42; 249; 150; 124; 157; 159; 161; 128; 169; 91;
  68; 174; 162; 241; 0; 24; 142; 91; 167; 133; 170; 98; 225; 223; 100; 203; 68; 138; 71; 87;
  253; 141; 75; 106; 76; 193; 241; 126; 193; 206; 162; 242; 60; 193; 158; 219; 14; 33; 218; 238;
  13; 235; 43; 206; 192; 77; 67; 238; 100; 210; 102; 206; 105; 88; 106; 207; 109; 226; 222; 242;
  172; 233; 254; 83; 250; 133; 206; 23; 246; 209; 90; 230; 239; 127; 3; 174; 55; 152; 130; 74;
  133; 158; 183; 52; 90; 169; 202; 50; 237; 31; 78; 20; 136; 193; 13; 6; 132; 253; 31; 223;
  12; 185; 32; 99; 8; 232; 14; 15; 132; 97; 19; 94; 134; 52; 198; 195; 106; 97; 6; 40;
  125; 106; 60; 63; 127; 163; 54; 184; 154; 108; 219; 36; 232; 17; 235; 23; 192; 172; 29; 140;
  58; 84; 145; 195; 71; 212; 120; 191; 143; 169; 116; 131; 188; 124; 118; 112; 154; 233; 208; 109;
  95; 229; 122; 87; 162; 35; 26; 75; 119; 96; 15; 30; 98; 81; 69; 51; 117; 76; 108; 0;
  0; 179].
Definition _td4 : bytes := [
  4; 107; 90; 3; 140; 48; 249; 248; 36; 153; 11; 11; 12; 12; 12; 15; 221; 17; 203; 159;
  157; 5; 150; 142; 152; 96; 11; 26; 77; 157; 223; 31; 144; 47; 178; 238; 28; 43; 110; 42;
  41; 217; 43; 3; 33; 53; 32; 39; 61; 110; 112; 50; 212; 53; 69; 183; 252; 185; 202; 57;
  240; 61; 190; 83; 192; 146; 66; 85; 212; 72; 196; 38; 136; 75; 192; 245; 204; 147; 206; 111;
  84; 5; 181; 115; 229; 86; 53; 151; 90; 27; 234; 88; 177; 77; 54; 84; 8; 109; 34; 102;
  188; 105; 222; 119; 98; 225; 103; 14; 140; 105; 224; 201; 240; 81; 166; 243; 209; 245; 163; 6;
  126; 160; 26; 122; 109; 120; 134; 117; 88; 140; 106; 137; 76; 147; 139; 71; 141; 25; 141; 236;
  157; 139; 229; 15; 106; 210; 243; 144; 196; 157; 228; 23; 152; 56; 155; 156; 180; 157; 153; 7;
  173; 105; 164; 155; 169; 253; 11; 214; 161; 194; 171; 163; 220; 165; 90; 201; 184; 112; 178; 180;
  212; 120; 254; 185; 224; 181; 170; 176; 172; 191; 182; 159; 207; 201; 204; 198; 198; 213; 206; 39;
  72; 205; 117; 75; 220; 193; 119; 79; 11; 81; 102; 143; 212; 246; 198; 208; 136; 222; 10; 220;
  52; 109; 219; 209; 241; 161; 239; 43; 234; 142; 7; 236; 101; 105; 78; 127; 108; 99; 159; 233;
  127; 65; 244; 147; 220; 37; 247; 143; 64; 242; 178; 187; 247; 220; 241; 111; 2; 113; 13; 144;
  165; 212; 11; 199; 136; 224; 138; 251; 3; 229; 47; 3; 88; 246; 210; 61; 244; 25; 158; 31;
  89; 16; 18; 189; 68; 12; 15; 159; 41; 39; 33; 243; 38; 252; 167; 43; 99; 201; 59; 59;
  32; 252; 110; 63; 208; 11; 16; 54; 44; 107; 59; 231; 42; 73; 49; 203; 50; 125; 55; 252;
  241; 80; 136; 64; 117; 79; 150; 84; 181; 201; 241; 203; 64; 140; 16; 115; 224; 67; 242; 90;
  68; 87; 246; 94; 160; 25; 85; 93; 217; 221; 83; 146; 208; 112; 236; 14; 228; 179; 199; 111;
  127; 105; 120; 171; 121; 45; 124; 82; 208; 101; 74; 123; 28; 189; 124; 143; 126; 169; 108; 99;
  121; 45; 113; 79; 128; 129; 49; 130; 155; 133; 134; 3; 69; 142; 139; 91; 136; 141; 126; 137;
  16; 25; 233; 11; 156; 149; 106; 152; 88; 142; 154; 91; 80; 177; 159; 79; 184; 170; 209; 167;
  42; 164; 221; 167; 168; 119; 171; 187; 10; 173; 171; 175; 178; 213; 47; 142; 84; 173; 6; 191;
  105; 161; 127; 161; 172; 153; 28; 190; 209; 219; 110; 163; 228; 222; 145; 196; 129; 96; 208; 158;
  206; 188; 213; 142; 202; 17; 201; 143; 159; 117; 214; 207; 196; 143; 24; 199; 29; 181; 254; 194;
  138; 168; 24; 248; 80; 230; 55; 251; 155; 81; 10; 246; 216; 142; 254; 245; 135; 236; 222; 96;
  245; 21; 214; 167; 229; 223; 243; 251; 230; 188; 250; 255; 9; 9; 11; 123; 8; 167; 94; 180;
  41; 33; 6; 163; 220; 13; 128; 239; 5; 49; 219; 147; 201; 149; 198; 198; 58; 199; 138; 57;
  22; 253; 18; 247; 40; 201; 34; 44; 45; 173; 157; 183; 45; 200; 9; 154; 253; 45; 78; 61;
  144; 19; 224; 162; 50; 103; 225; 215; 28; 153; 55; 74; 31; 56; 222; 58; 120; 231; 68; 19;
  67; 132; 99; 73; 172; 40; 110; 209; 77; 89; 198; 208; 208; 148; 227; 117; 150; 37; 68; 198;
  78; 63; 93; 59; 89; 45; 121; 151; 108; 145; 116; 240; 102; 235; 3; 158; 106; 185; 202; 111;
  65; 2; 159; 108; 112; 127; 211; 209; 244; 117; 120; 210; 120; 110; 58; 82; 13; 61; 86; 57;
  162; 161; 168; 99; 133; 137; 14; 136; 72; 163; 34; 239; 131; 5; 110; 168; 159; 226; 115; 151;
  4; 191; 123; 61; 32; 73; 191; 144; 93; 184; 149; 30; 133; 170; 194; 163; 229; 197; 128; 18;
  40; 160; 43; 27; 173; 128; 3; 238; 208; 165; 67; 174; 36; 56; 254; 135; 169; 183; 176; 211;
  77; 144; 94; 174; 198; 71; 66; 97; 68; 196; 102; 233; 100; 73; 75; 75; 125; 157; 208; 238;
  240; 212; 170; 218; 28; 220; 6; 244; 32; 208; 72; 67; 28; 242; 212; 103; 48; 236; 110; 84;
  165; 245; 67; 183; 252; 13; 43; 219; 51; 189; 94; 255; 61; 209; 231; 168; 244; 228; 215; 226;
  245; 201; 233; 123; 205; 218; 111; 234; 206; 190; 35; 15; 196; 39; 166; 53; 169; 59; 250; 20;
  189; 31; 9; 95; 18; 68; 98; 32; 108; 149; 25; 16; 248; 60; 88; 186; 15; 180; 18; 159;
  220; 144; 36; 179; 16; 133; 166; 208; 40; 164; 138; 57; 225; 61; 10; 143; 53; 153; 59; 155;
  165; 0; 67; 119; 19; 149; 107; 9; 223; 206; 28; 143; 100; 97; 97; 160; 222; 101; 199; 81;
  80; 88; 108; 75; 89; 85; 65; 223; 103; 245; 90; 67; 37; 66; 179; 75; 184; 65; 190; 107;
  92; 183; 97; 125; 120; 65; 2; 91; 178; 21; 102; 54; 80; 61; 74; 123; 103; 106; 106; 176;
  176; 73; 114; 30; 117; 125; 125; 138; 123; 89; 64; 252; 124; 217; 127; 127; 141; 208; 50; 117;
  141; 11; 140; 192; 136; 137; 248; 108; 153; 157; 34; 123; 212; 145; 155; 112; 28; 169; 150; 239;
  87; 125; 154; 148; 168; 99; 134; 170; 208; 164; 9; 199; 160; 75; 230; 158; 132; 188; 170; 138;
  173; 140; 208; 238; 193; 147; 17; 51; 115; 53; 35; 166; 134; 41; 239; 251; 191; 221; 127; 190;
  232; 49; 247; 204; 52; 251; 30; 230; 248; 226; 195; 243; 220; 32; 175; 235; 175; 81; 150; 27;
  84; 37; 233; 26; 88; 175; 10; 206; 140; 100; 31; 244; 136; 231; 162; 200; 4; 165; 182; 229;
  224; 25; 170; 215; 225; 155; 159; 198; 176; 255; 18; 226; 116; 203; 47; 135; 237; 105; 208; 86;
  93; 220; 244; 111; 66; 89; 9; 123; 81; 116; 40; 131; 89; 13; 143; 106; 79; 134; 14; 12;
  96; 15; 10; 131; 2; 69; 1; 71; 39; 73; 21; 51; 12; 181; 174; 20; 232; 49; 59; 194;
  47; 21; 37; 209; 9; 42; 170; 42; 173; 85; 174; 41; 113; 19; 243; 35; 169; 69; 51; 58;
  121; 18; 106; 127; 172; 8; 50; 76; 129; 78; 5; 67; 99; 133; 104; 39; 73; 225; 202; 220;
  204; 10; 174; 221; 121; 65; 20; 251; 94; 132; 64; 94; 64; 152; 121; 22; 220; 21; 158; 62;
  80; 81; 34; 99; 229; 69; 47; 100; 73; 73; 69; 235; 104; 252; 67; 191; 91; 185; 118; 216;
  212; 120; 70; 96; 0; 249; 77; 126; 28; 112; 114; 46; 178; 170; 98; 173; 36; 192; 12; 166;
  156; 5; 170; 159; 124; 189; 97; 142; 216; 17; 212; 83; 214; 5; 167; 156; 216; 213; 42; 184;
  233; 138; 142; 187; 209; 168; 145; 102; 156; 219; 39; 125; 202; 180; 59; 139; 204; 203; 184; 15;
  170; 0; 0; 218].
Definition _td5 : bytes := [
  4; 162; 182; 3; 109; 50; 255; 248; 3; 175; 14; 235; 12; 13; 137; 15; 245; 16; 2; 103;
  21; 21; 19; 23; 26; 76; 70; 27; 28; 11; 88; 29; 64; 32; 148; 34; 52; 17; 36; 54;
  41; 36; 184; 108; 76; 44; 123; 41; 153; 48; 49; 48; 69; 55; 148; 145; 184; 57; 58; 166;
  56; 148; 63; 75; 130; 66; 22; 34; 138; 101; 66; 182; 178; 75; 196; 105; 73; 182; 92; 206;
  144; 83; 29; 84; 60; 81; 122; 100; 89; 89; 90; 175; 82; 93; 103; 95; 185; 239; 98; 16;
  228; 191; 230; 10; 232; 137; 234; 105; 50; 173; 102; 15; 117; 225; 255; 27; 124; 93; 190; 122;
  0; 8; 115; 4; 60; 117; 242; 161; 144; 1; 83; 3; 81; 180; 140; 83; 8; 89; 138; 75;
  133; 29; 99; 183; 152; 153; 158; 146; 244; 156; 174; 155; 176; 145; 226; 151; 1; 220; 223; 151;
  203; 33; 91; 35; 222; 132; 170; 218; 168; 41; 86; 123; 191; 61; 131; 224; 177; 232; 66; 184;
  111; 53; 150; 189; 40; 177; 101; 234; 182; 98; 174; 239; 213; 81; 15; 115; 207; 61; 203; 175;
  64; 197; 194; 197; 188; 195; 182; 193; 72; 193; 223; 211; 6; 242; 70; 218; 64; 219; 3; 107;
  246; 241; 206; 209; 40; 161; 233; 232; 52; 234; 190; 236; 200; 49; 224; 131; 229; 33; 158; 224;
  126; 131; 242; 115; 241; 116; 158; 119; 3; 121; 162; 46; 220; 236; 30; 95; 15; 172; 82; 19;
  156; 5; 22; 214; 25; 11; 197; 171; 28; 129; 154; 143; 165; 145; 157; 131; 148; 165; 150; 157;
  200; 11; 26; 54; 236; 23; 18; 55; 38; 241; 44; 83; 55; 29; 40; 111; 46; 1; 50; 37;
  253; 124; 60; 186; 128; 59; 178; 161; 112; 181; 229; 150; 44; 236; 106; 15; 108; 46; 182; 27;
  71; 9; 130; 77; 67; 29; 215; 82; 224; 68; 70; 1; 79; 77; 68; 255; 88; 144; 210; 36;
  212; 55; 157; 198; 78; 131; 154; 108; 28; 72; 222; 86; 152; 101; 108; 235; 5; 114; 94; 106;
  32; 102; 23; 170; 92; 123; 224; 248; 240; 252; 242; 35; 108; 197; 98; 245; 238; 153; 110; 139;
  131; 66; 101; 178; 32; 134; 34; 195; 24; 169; 168; 148; 72; 139; 229; 27; 139; 173; 143; 161;
  142; 219; 62; 180; 147; 154; 107; 151; 11; 153; 153; 154; 151; 201; 154; 195; 226; 160; 50; 162;
  118; 164; 172; 10; 57; 168; 85; 31; 173; 191; 94; 180; 36; 225; 180; 51; 168; 190; 126; 178;
  213; 94; 191; 45; 115; 161; 108; 162; 88; 238; 220; 241; 219; 62; 148; 199; 89; 207; 11; 136;
  108; 202; 217; 149; 212; 130; 119; 209; 213; 6; 103; 213; 160; 211; 19; 222; 88; 159; 252; 251;
  20; 32; 178; 250; 172; 236; 14; 197; 229; 195; 170; 66; 99; 234; 248; 141; 160; 65; 242; 133;
  244; 30; 230; 49; 91; 142; 253; 98; 69; 253; 194; 255; 101; 160; 22; 17; 48; 5; 6; 100;
  117; 141; 2; 218; 8; 119; 13; 170; 160; 49; 137; 145; 18; 215; 37; 71; 1; 38; 26; 60;
  49; 37; 25; 30; 176; 9; 35; 43; 28; 196; 45; 163; 168; 173; 43; 170; 28; 4; 42; 174;
  184; 177; 242; 21; 182; 54; 103; 36; 51; 17; 53; 51; 55; 205; 41; 54; 32; 107; 234; 76;
  84; 94; 67; 22; 65; 25; 110; 91; 219; 189; 100; 126; 93; 225; 93; 139; 83; 113; 238; 89;
  152; 114; 242; 85; 188; 72; 22; 81; 35; 177; 66; 51; 112; 166; 230; 160; 232; 169; 70; 163;
  125; 124; 67; 162; 160; 82; 210; 88; 124; 124; 62; 117; 104; 201; 87; 99; 108; 181; 118; 167;
  143; 3; 206; 194; 144; 42; 6; 59; 8; 61; 73; 165; 148; 62; 190; 167; 32; 158; 114; 184;
  12; 155; 94; 214; 41; 182; 130; 148; 116; 147; 50; 239; 175; 89; 162; 169; 197; 159; 38; 62;
  40; 65; 138; 236; 237; 190; 158; 191; 112; 155; 26; 184; 76; 52; 135; 47; 188; 169; 160; 138;
  170; 83; 62; 92; 64; 46; 131; 162; 246; 53; 70; 35; 200; 251; 250; 220; 84; 221; 198; 151;
  221; 25; 98; 198; 217; 125; 209; 63; 160; 212; 241; 251; 238; 87; 78; 199; 48; 245; 2; 211;
  28; 54; 22; 210; 201; 218; 74; 229; 12; 254; 239; 218; 32; 226; 46; 171; 250; 5; 208; 103;
  214; 25; 232; 66; 45; 239; 126; 233; 22; 179; 242; 47; 6; 28; 246; 231; 15; 73; 244; 125;
  8; 48; 3; 205; 9; 239; 237; 172; 9; 57; 36; 229; 154; 30; 124; 125; 236; 43; 158; 0;
  66; 37; 166; 140; 37; 133; 38; 8; 41; 56; 37; 43; 54; 46; 127; 51; 0; 8; 63; 102;
  54; 109; 62; 217; 56; 198; 124; 59; 85; 234; 119; 47; 185; 201; 169; 132; 76; 183; 99; 250;
  220; 148; 10; 73; 172; 77; 231; 213; 216; 85; 50; 83; 100; 93; 198; 75; 174; 201; 213; 68;
  142; 64; 204; 64; 92; 67; 95; 131; 78; 234; 91; 102; 169; 77; 240; 142; 203; 101; 219; 59;
  57; 113; 114; 214; 12; 240; 121; 136; 135; 38; 108; 114; 190; 71; 142; 73; 224; 176; 185; 67;
  26; 36; 44; 143; 232; 146; 115; 42; 172; 38; 44; 172; 98; 161; 171; 159; 148; 191; 175; 179;
  0; 0; 171].
Definition _td6 : bytes := [
  4; 182; 134; 3; 202; 145; 241; 248; 24; 169; 9; 14; 140; 13; 12; 211; 211; 17; 18; 202;
  148; 21; 23; 0; 25; 53; 116; 26; 51; 151; 12; 31; 32; 75; 34; 38; 69; 34; 182; 234;
  208; 33; 39; 227; 35; 189; 44; 135; 32; 121; 62; 59; 108; 39; 79; 215; 56; 181; 253; 187;
  228; 185; 190; 232; 225; 66; 166; 195; 161; 229; 39; 69; 96; 49; 64; 51; 76; 78; 68; 191;
  82; 233; 91; 86; 164; 87; 40; 55; 91; 215; 236; 219; 167; 221; 214; 234; 224; 157; 211; 102;
  101; 52; 110; 23; 106; 233; 242; 99; 36; 102; 22; 103; 24; 208; 116; 115; 12; 126; 88; 118;
  161; 241; 245; 251; 252; 123; 255; 239; 0; 132; 115; 150; 228; 129; 140; 143; 168; 138; 132; 171;
  132; 117; 128; 87; 156; 148; 34; 145; 31; 213; 145; 25; 234; 25; 157; 26; 188; 230; 30; 97;
  32; 34; 34; 164; 53; 187; 38; 55; 165; 167; 168; 114; 110; 142; 174; 167; 148; 233; 185; 99;
  178; 77; 186; 23; 178; 241; 180; 179; 4; 177; 250; 159; 202; 81; 230; 83; 41; 213; 62; 204;
  224; 196; 122; 192; 84; 192; 230; 134; 96; 217; 223; 110; 244; 223; 198; 249; 40; 208; 43; 90;
  140; 214; 80; 102; 96; 56; 98; 92; 213; 232; 70; 36; 104; 52; 218; 196; 44; 225; 23; 111;
  252; 213; 2; 193; 4; 252; 193; 244; 248; 244; 71; 123; 248; 30; 126; 63; 14; 232; 130; 185;
  132; 233; 146; 215; 59; 89; 12; 131; 188; 7; 30; 231; 209; 30; 0; 11; 164; 29; 6; 86;
  136; 23; 146; 172; 156; 89; 211; 159; 144; 49; 237; 3; 16; 69; 40; 98; 169; 169; 58; 167;
  183; 173; 157; 175; 139; 128; 35; 58; 148; 56; 141; 71; 8; 40; 215; 67; 58; 245; 59; 159;
  70; 71; 34; 75; 252; 64; 142; 75; 206; 6; 59; 90; 44; 68; 174; 74; 144; 66; 83; 210;
  132; 70; 80; 183; 153; 97; 202; 118; 205; 204; 80; 143; 115; 65; 112; 247; 238; 229; 70; 106;
  241; 121; 127; 203; 85; 13; 100; 111; 72; 127; 154; 124; 172; 120; 62; 103; 105; 137; 111; 227;
  108; 211; 238; 113; 112; 126; 61; 131; 228; 248; 135; 135; 200; 21; 17; 132; 142; 167; 30; 142;
  254; 145; 44; 92; 251; 157; 146; 95; 212; 190; 155; 144; 99; 158; 215; 159; 32; 169; 162; 126;
  165; 174; 161; 163; 104; 177; 42; 44; 172; 142; 175; 191; 228; 176; 51; 179; 144; 103; 79; 199;
  160; 146; 190; 163; 189; 173; 173; 45; 194; 64; 194; 175; 120; 21; 198; 14; 207; 176; 208; 89;
  231; 191; 206; 234; 81; 129; 206; 251; 210; 12; 205; 69; 244; 171; 218; 85; 77; 189; 201; 237;
  233; 152; 248; 177; 85; 119; 250; 4; 32; 121; 241; 125; 230; 236; 187; 219; 241; 193; 3; 242;
  183; 164; 243; 103; 251; 28; 122; 253; 57; 44; 240; 127; 33; 223; 226; 6; 84; 21; 84; 103;
  56; 11; 27; 13; 28; 47; 108; 79; 50; 48; 184; 27; 4; 55; 149; 167; 58; 88; 251; 57;
  154; 93; 60; 141; 161; 97; 36; 14; 174; 116; 35; 177; 168; 169; 47; 108; 156; 42; 126; 11;
  128; 37; 138; 99; 63; 100; 48; 57; 44; 17; 53; 139; 41; 181; 111; 26; 152; 78; 3; 210;
  181; 77; 146; 199; 174; 73; 91; 203; 167; 28; 104; 103; 172; 145; 75; 50; 80; 80; 134; 92;
  144; 92; 123; 250; 84; 88; 214; 83; 171; 145; 106; 51; 121; 48; 166; 107; 180; 137; 77; 43;
  141; 100; 148; 63; 88; 193; 32; 108; 117; 125; 127; 255; 168; 125; 114; 59; 85; 37; 110; 119;
  88; 139; 125; 114; 161; 13; 6; 142; 204; 8; 1; 8; 139; 139; 95; 175; 0; 154; 58; 197;
  159; 165; 133; 135; 179; 241; 170; 147; 151; 173; 142; 62; 137; 81; 174; 47; 209; 116; 183; 215;
  139; 133; 25; 107; 182; 134; 222; 189; 248; 81; 176; 179; 167; 185; 142; 186; 50; 225; 235; 150;
  102; 76; 178; 97; 64; 35; 179; 206; 220; 24; 70; 20; 89; 232; 154; 197; 33; 5; 201; 117;
  248; 241; 194; 219; 196; 250; 166; 209; 56; 221; 233; 91; 202; 227; 108; 94; 239; 33; 232; 179;
  232; 197; 203; 167; 216; 113; 230; 158; 28; 248; 136; 142; 227; 73; 131; 250; 132; 217; 182; 198;
  68; 169; 122; 6; 140; 203; 190; 238; 112; 144; 22; 156; 137; 212; 18; 159; 153; 56; 154; 57;
  187; 125; 57; 255; 58; 97; 154; 20; 76; 26; 86; 36; 200; 12; 232; 53; 227; 13; 225; 20;
  246; 54; 114; 61; 96; 95; 59; 39; 132; 43; 42; 203; 42; 237; 94; 51; 32; 181; 210; 87;
  63; 131; 40; 58; 175; 98; 58; 229; 52; 111; 234; 119; 64; 165; 19; 67; 2; 85; 131; 166;
  247; 65; 211; 242; 78; 113; 94; 81; 159; 28; 67; 103; 84; 106; 114; 42; 80; 137; 105; 95;
  105; 156; 107; 144; 87; 97; 139; 104; 123; 62; 33; 103; 151; 24; 42; 74; 125; 175; 122; 10;
  123; 131; 68; 46; 112; 124; 202; 22; 79; 152; 25; 220; 121; 50; 90; 123; 170; 113; 148; 147;
  18; 183; 157; 103; 67; 220; 218; 191; 237; 7; 144; 221; 99; 140; 177; 35; 139; 82; 149; 119;
  128; 62; 132; 150; 242; 4; 17; 150; 128; 163; 149; 243; 189; 22; 107; 38; 184; 184; 255; 187;
  79; 165; 150; 247; 224; 136; 212; 164; 214; 180; 215; 128; 193; 223; 137; 179; 146; 185; 48; 9;
  195; 65; 226; 35; 215; 244; 55; 198; 137; 204; 70; 66; 201; 63; 63; 159; 212; 220; 89; 178;
  215; 5; 198; 23; 249; 185; 252; 8; 252; 207; 254; 249; 35; 49; 35; 192; 106; 244; 199; 231;
  231; 241; 0; 107; 44; 108; 172; 111; 209; 20; 66; 250; 235; 148; 242; 183; 223; 8; 240; 91;
  204; 253; 245; 23; 12; 177; 35; 18; 69; 206; 134; 246; 136; 105; 78; 253; 140; 55; 200; 159;
  21; 113; 226; 55; 20; 62; 86; 60; 20; 17; 56; 22; 142; 88; 150; 18; 233; 98; 96; 56;
  165; 108; 118; 97; 62; 168; 42; 57; 58; 124; 207; 9; 120; 131; 55; 51; 25; 173; 51; 39;
  52; 41; 29; 131; 124; 26; 127; 206; 105; 233; 194; 80; 197; 224; 23; 15; 232; 1; 202; 69;
  93; 188; 102; 7; 88; 193; 121; 155; 214; 83; 198; 124; 16; 95; 130; 80; 86; 188; 117; 194;
  224; 32; 189; 18; 37; 101; 72; 39; 41; 181; 42; 59; 102; 193; 99; 38; 113; 59; 18; 126;
  166; 38; 123; 181; 184; 51; 214; 251; 91; 157; 82; 111; 157; 137; 162; 149; 131; 245; 202; 167;
  0; 128; 50; 154; 56; 221; 133; 47; 189; 124; 146; 163; 124; 181; 154; 39; 219; 148; 170; 141;
  60; 176; 46; 138; 98; 84; 163; 233; 202; 37; 108; 39; 184; 133; 10; 229; 122; 215; 63; 137;
  112; 159; 127; 73; 154; 251; 71; 135; 88; 253; 241; 75; 175; 93; 245; 66; 49; 207; 63; 51;
  36; 244; 235; 233; 97; 232; 248; 75; 201; 141; 199; 126; 99; 128; 222; 146; 10; 238; 134; 152;
  56; 158; 186; 232; 125; 248; 208; 255; 174; 1; 161; 201; 44; 116; 232; 130; 153; 173; 138; 74;
  191; 186; 110; 71; 24; 65; 206; 179; 165; 22; 151; 164; 166; 40; 255; 83; 172; 125; 16; 14;
  84; 204; 160; 21; 117; 244; 16; 3; 242; 31; 78; 28; 16; 3; 223; 8; 214; 23; 211; 148;
  40; 0; 0; 28].
Definition _td7 : bytes := [
  4; 65; 177; 3; 107; 117; 254; 248; 24; 71; 11; 14; 12; 13; 12; 44; 165; 17; 18; 171;
  21; 134; 198; 23; 62; 24; 10; 251; 110; 29; 249; 245; 48; 32; 36; 202; 196; 36; 1; 38;
  37; 114; 192; 77; 36; 45; 168; 43; 121; 49; 155; 0; 26; 58; 54; 200; 199; 134; 50; 162;
  133; 1; 62; 62; 64; 64; 114; 83; 112; 69; 62; 201; 87; 105; 66; 233; 72; 90; 76; 239;
  81; 106; 80; 198; 214; 85; 135; 167; 90; 85; 51; 89; 76; 243; 44; 90; 52; 90; 11; 243;
  101; 15; 108; 97; 185; 27; 111; 195; 54; 247; 94; 109; 168; 9; 112; 51; 113; 151; 68; 127;
  126; 107; 134; 171; 124; 250; 122; 6; 130; 34; 51; 130; 132; 141; 237; 168; 207; 137; 168; 46;
  136; 157; 158; 86; 170; 31; 129; 151; 141; 232; 28; 150; 9; 157; 27; 58; 172; 152; 162; 155;
  94; 160; 146; 166; 169; 206; 128; 143; 161; 163; 158; 170; 44; 174; 93; 152; 164; 190; 153; 140;
  103; 164; 165; 179; 108; 121; 166; 234; 176; 38; 202; 24; 201; 48; 198; 178; 199; 5; 204; 66;
  114; 158; 205; 207; 27; 8; 78; 194; 250; 160; 194; 220; 63; 93; 155; 20; 223; 59; 209; 208;
  199; 248; 79; 209; 96; 200; 109; 181; 237; 204; 226; 114; 216; 230; 238; 199; 237; 77; 255; 72;
  224; 241; 179; 243; 244; 44; 120; 45; 120; 102; 122; 40; 124; 247; 88; 142; 18; 170; 146; 19;
  148; 200; 126; 1; 8; 129; 6; 83; 10; 101; 2; 167; 21; 20; 130; 0; 160; 4; 4; 160;
  152; 226; 154; 169; 12; 157; 232; 159; 140; 161; 54; 3; 52; 181; 6; 202; 32; 44; 114; 37;
  12; 56; 38; 32; 48; 9; 52; 11; 36; 96; 55; 238; 178; 41; 240; 187; 231; 189; 30; 41;
  156; 241; 87; 2; 84; 86; 142; 74; 208; 70; 50; 168; 90; 85; 106; 95; 39; 161; 71; 221;
  247; 244; 66; 216; 216; 91; 194; 90; 68; 206; 126; 65; 240; 76; 121; 99; 102; 188; 234; 14;
  232; 172; 234; 1; 252; 237; 168; 239; 31; 33; 107; 131; 94; 117; 99; 87; 240; 112; 194; 113;
  20; 124; 100; 55; 137; 41; 90; 137; 53; 85; 158; 9; 168; 144; 58; 154; 149; 204; 254; 155;
  80; 17; 37; 179; 191; 68; 143; 146; 172; 161; 149; 123; 135; 21; 158; 136; 224; 178; 173; 16;
  197; 100; 188; 36; 40; 6; 42; 75; 176; 13; 188; 209; 32; 49; 19; 195; 155; 5; 160; 15;
  176; 104; 172; 49; 187; 109; 168; 71; 64; 210; 204; 205; 199; 229; 212; 246; 136; 223; 18; 75;
  21; 44; 208; 15; 194; 15; 226; 91; 230; 69; 219; 55; 219; 106; 219; 196; 76; 213; 212; 59;
  0; 226; 57; 35; 236; 21; 224; 135; 143; 201; 41; 7; 13; 13; 249; 174; 249; 145; 148; 241;
  226; 213; 215; 252; 136; 253; 205; 249; 123; 205; 254; 6; 1; 17; 98; 35; 69; 13; 219; 41;
  177; 249; 3; 138; 4; 116; 9; 255; 26; 112; 48; 169; 228; 25; 58; 23; 75; 24; 62; 12;
  63; 166; 108; 31; 87; 143; 7; 83; 4; 218; 15; 45; 56; 222; 248; 42; 192; 201; 179; 223;
  57; 162; 152; 22; 20; 48; 247; 20; 131; 244; 170; 28; 118; 25; 212; 29; 114; 115; 74; 220;
  242; 117; 65; 55; 109; 35; 77; 159; 222; 68; 81; 155; 96; 121; 98; 90; 179; 76; 113; 183;
  84; 152; 121; 245; 194; 236; 117; 149; 73; 65; 109; 22; 197; 79; 112; 134; 66; 62; 128; 73;
  12; 124; 111; 67; 219; 23; 157; 34; 88; 92; 93; 91; 134; 41; 83; 175; 109; 241; 119; 54;
  146; 113; 133; 51; 153; 29; 136; 191; 133; 5; 130; 133; 188; 147; 94; 190; 136; 159; 51; 130;
  134; 23; 254; 22; 140; 247; 26; 107; 28; 238; 126; 173; 164; 97; 174; 19; 178; 189; 160; 127;
  184; 193; 170; 173; 132; 188; 38; 169; 184; 160; 148; 236; 21; 162; 182; 134; 216; 160; 138; 163;
  28; 137; 44; 223; 219; 209; 71; 82; 220; 62; 151; 243; 151; 73; 23; 75; 124; 248; 78; 41;
  80; 133; 82; 34; 36; 247; 103; 193; 232; 220; 242; 213; 4; 45; 197; 14; 214; 105; 236; 225;
  163; 52; 254; 187; 104; 29; 106; 138; 108; 9; 23; 111; 96; 195; 11; 179; 68; 238; 214; 228;
  201; 206; 114; 227; 249; 21; 63; 199; 72; 14; 200; 195; 30; 5; 252; 13; 105; 51; 138; 146;
  140; 229; 2; 159; 33; 97; 42; 35; 14; 221; 17; 175; 17; 93; 2; 19; 92; 39; 118; 23;
  9; 129; 60; 175; 118; 153; 166; 60; 168; 159; 123; 16; 137; 29; 51; 191; 78; 7; 64; 11;
  52; 2; 150; 1; 56; 14; 186; 8; 140; 5; 147; 126; 81; 122; 173; 195; 161; 197; 172; 6;
  117; 174; 11; 171; 117; 189; 177; 112; 75; 161; 50; 87; 20; 92; 102; 82; 24; 85; 202; 114;
  51; 93; 96; 165; 240; 64; 124; 107; 6; 215; 73; 1; 14; 104; 107; 235; 97; 80; 240; 226;
  124; 226; 67; 243; 121; 117; 198; 84; 86; 105; 246; 250; 135; 118; 239; 157; 139; 216; 173; 112;
  21; 139; 15; 239; 104; 179; 194; 233; 136; 153; 46; 176; 128; 161; 32; 176; 65; 143; 41; 71;
  190; 8; 243; 153; 0; 0; 48].
Definition _td8 : bytes := [
  4; 217; 5; 3; 179; 126; 254; 248; 36; 11; 11; 244; 12; 131; 30; 15; 8; 17; 23; 114;
  18; 21; 134; 250; 64; 16; 34; 16; 20; 20; 30; 247; 42; 57; 43; 251; 46; 227; 38; 167;
  241; 165; 143; 171; 208; 173; 178; 110; 50; 17; 168; 179; 206; 213; 38; 39; 57; 113; 48; 63;
  180; 50; 30; 60; 248; 78; 106; 73; 156; 77; 73; 1; 73; 89; 72; 198; 204; 156; 206; 78;
  112; 85; 157; 211; 218; 213; 152; 199; 77; 89; 202; 150; 228; 84; 22; 83; 88; 107; 64; 171;
  37; 96; 94; 106; 53; 152; 105; 200; 236; 41; 199; 239; 64; 115; 217; 243; 222; 21; 112; 167;
  126; 99; 122; 120; 204; 120; 214; 116; 120; 140; 234; 171; 136; 45; 136; 231; 143; 84; 106; 142;
  2; 28; 6; 15; 61; 17; 146; 155; 38; 21; 52; 199; 144; 157; 122; 134; 124; 155; 182; 153;
  104; 175; 154; 231; 162; 125; 135; 174; 64; 167; 117; 74; 169; 116; 174; 47; 11; 49; 86; 51;
  114; 53; 92; 190; 248; 179; 170; 145; 108; 181; 38; 185; 88; 207; 90; 43; 194; 141; 215; 204;
  136; 206; 56; 201; 206; 201; 68; 27; 129; 213; 0; 66; 208; 4; 70; 229; 200; 216; 234; 163;
  214; 181; 213; 15; 236; 113; 227; 235; 238; 236; 246; 234; 183; 234; 10; 236; 15; 109; 43; 111;
  248; 20; 114; 52; 245; 251; 58; 7; 7; 198; 248; 160; 60; 253; 254; 191; 0; 252; 50; 16;
  5; 213; 8; 104; 8; 195; 249; 36; 18; 83; 40; 143; 192; 31; 231; 28; 4; 68; 198; 23;
  24; 27; 174; 85; 169; 77; 14; 39; 128; 49; 202; 44; 198; 183; 54; 179; 110; 75; 106; 36;
  109; 7; 63; 47; 49; 48; 32; 151; 226; 34; 102; 37; 119; 63; 3; 42; 236; 111; 45; 27;
  43; 99; 178; 80; 172; 77; 223; 85; 23; 75; 99; 42; 95; 242; 155; 95; 69; 211; 216; 65;
  49; 86; 127; 54; 75; 29; 237; 107; 75; 111; 23; 74; 109; 18; 98; 206; 121; 111; 137; 205;
  47; 105; 12; 107; 133; 54; 97; 104; 18; 4; 120; 234; 116; 204; 74; 119; 36; 233; 101; 107;
  72; 125; 126; 254; 16; 242; 135; 184; 128; 34; 214; 132; 136; 165; 126; 251; 154; 2; 190; 156;
  17; 188; 146; 145; 30; 197; 144; 103; 145; 4; 42; 128; 92; 146; 167; 111; 164; 57; 168; 147;
  161; 197; 165; 149; 173; 241; 166; 189; 156; 124; 169; 159; 186; 65; 147; 185; 65; 53; 91; 246;
  24; 164; 90; 175; 44; 176; 119; 79; 195; 73; 82; 111; 68; 1; 70; 71; 214; 12; 58; 10;
  196; 125; 86; 194; 104; 218; 146; 216; 176; 210; 54; 246; 197; 185; 56; 91; 15; 93; 54; 110;
  251; 49; 255; 58; 68; 245; 248; 119; 197; 11; 202; 246; 220; 29; 206; 191; 93; 89; 250; 27;
  228; 242; 254; 119; 243; 29; 175; 203; 221; 173; 15; 223; 230; 0; 34; 188; 37; 15; 186; 166;
  217; 43; 176; 139; 238; 125; 110; 46; 253; 49; 25; 51; 124; 24; 238; 17; 96; 248; 57; 211;
  17; 159; 246; 47; 1; 193; 13; 179; 169; 61; 70; 34; 154; 34; 202; 15; 20; 33; 78; 56;
  144; 19; 172; 210; 57; 242; 150; 18; 104; 51; 218; 32; 251; 13; 6; 46; 95; 129; 67; 91;
  72; 205; 79; 55; 77; 153; 108; 51; 64; 130; 207; 63; 117; 221; 226; 211; 150; 213; 248; 198;
  70; 28; 58; 83; 148; 220; 80; 68; 144; 96; 130; 109; 102; 109; 102; 71; 102; 43; 101; 19;
  83; 15; 112; 75; 2; 123; 96; 100; 18; 19; 230; 95; 120; 114; 122; 233; 120; 131; 127; 248;
  128; 247; 131; 39; 148; 9; 20; 151; 235; 51; 138; 162; 251; 167; 159; 29; 34; 115; 184; 202;
  1; 213; 189; 225; 145; 16; 177; 72; 172; 182; 31; 136; 70; 224; 114; 180; 133; 164; 140; 112;
  190; 250; 90; 130; 29; 128; 158; 39; 160; 170; 85; 202; 159; 184; 182; 85; 122; 229; 179; 229;
  20; 244; 190; 191; 253; 250; 51; 205; 88; 43; 156; 206; 217; 11; 211; 80; 169; 235; 255; 213;
  97; 172; 137; 195; 221; 253; 210; 95; 216; 243; 215; 66; 240; 205; 234; 214; 63; 131; 82; 211;
  20; 250; 242; 255; 231; 198; 186; 219; 237; 47; 247; 178; 54; 212; 163; 50; 197; 159; 114; 210;
  217; 203; 139; 43; 230; 237; 173; 63; 26; 176; 47; 212; 84; 181; 21; 79; 146; 38; 17; 43;
  218; 226; 7; 205; 21; 225; 32; 1; 237; 117; 56; 24; 104; 9; 116; 152; 47; 237; 40; 1;
  33; 32; 22; 122; 72; 26; 46; 227; 44; 159; 7; 250; 54; 44; 94; 23; 1; 42; 41; 211;
  30; 20; 63; 63; 104; 41; 49; 250; 53; 96; 190; 217; 192; 64; 194; 122; 164; 197; 36; 199;
  147; 169; 82; 122; 188; 73; 54; 71; 248; 49; 95; 179; 117; 95; 254; 93; 95; 137; 96; 203;
  13; 67; 56; 223; 140; 225; 2; 10; 228; 140; 134; 126; 153; 109; 122; 78; 96; 63; 246; 94;
  76; 105; 121; 19; 72; 156; 231; 85; 174; 52; 91; 117; 167; 220; 89; 159; 185; 70; 34; 2;
  167; 125; 138; 142; 128; 201; 149; 203; 129; 128; 134; 132; 200; 149; 159; 120; 101; 169; 90; 23;
  44; 25; 81; 223; 28; 46; 47; 186; 19; 17; 143; 83; 153; 173; 247; 7; 137; 166; 146; 163;
  44; 174; 38; 175; 240; 161; 132; 163; 213; 146; 182; 145; 14; 88; 157; 155; 253; 126; 62; 123;
  117; 113; 98; 207; 9; 237; 205; 151; 201; 25; 203; 28; 156; 204; 158; 202; 128; 205; 252; 178;
  243; 82; 167; 211; 40; 155; 146; 18; 92; 85; 254; 247; 112; 210; 51; 235; 227; 244; 54; 248;
  176; 238; 114; 250; 168; 85; 226; 145; 75; 48; 176; 211; 252; 52; 231; 255; 248; 184; 234; 211;
  58; 172; 216; 124; 64; 29; 171; 37; 251; 250; 181; 222; 18; 25; 17; 27; 136; 161; 144; 244;
  176; 62; 226; 21; 212; 53; 94; 136; 27; 187; 188; 234; 52; 29; 126; 19; 182; 63; 130; 12;
  0; 0; 166].
Definition _td9 : bytes := [
  4; 164; 13; 3; 29; 239; 254; 248; 24; 111; 9; 14; 12; 13; 12; 176; 24; 17; 18; 62;
  29; 134; 198; 23; 62; 24; 10; 106; 110; 29; 180; 33; 240; 33; 32; 66; 45; 36; 43; 73;
  170; 214; 33; 114; 44; 22; 104; 47; 133; 158; 169; 35; 238; 117; 98; 43; 52; 160; 131; 7;
  156; 60; 110; 63; 118; 80; 118; 67; 60; 204; 144; 68; 200; 116; 78; 135; 79; 77; 98; 161;
  32; 83; 82; 206; 91; 85; 21; 86; 129; 215; 246; 75; 220; 235; 222; 240; 113; 103; 215; 227;
  216; 101; 86; 114; 248; 132; 114; 96; 68; 98; 110; 167; 122; 9; 125; 219; 126; 45; 121; 245;
  27; 168; 127; 227; 252; 177; 254; 239; 129; 137; 162; 8; 4; 66; 214; 164; 88; 143; 82; 142;
  132; 85; 131; 71; 97; 153; 234; 150; 28; 152; 18; 161; 154; 121; 159; 251; 28; 104; 30; 127;
  169; 225; 163; 34; 195; 37; 174; 214; 25; 161; 130; 187; 170; 101; 163; 151; 81; 187; 106; 181;
  220; 177; 184; 143; 8; 176; 50; 61; 60; 86; 62; 182; 16; 202; 43; 99; 101; 207; 62; 207;
  64; 197; 203; 75; 192; 181; 194; 247; 217; 233; 222; 180; 213; 100; 223; 171; 88; 125; 90; 90;
  92; 116; 220; 95; 96; 236; 76; 163; 204; 117; 43; 15; 104; 228; 194; 230; 84; 224; 182; 226;
  112; 248; 243; 99; 250; 230; 245; 46; 116; 148; 122; 57; 248; 125; 140; 127; 8; 129; 108; 131;
  207; 229; 86; 48; 152; 4; 155; 74; 3; 103; 143; 0; 99; 144; 18; 3; 148; 122; 150; 216;
  88; 34; 74; 21; 44; 37; 16; 7; 45; 81; 44; 145; 53; 141; 43; 7; 215; 214; 153; 42;
  51; 93; 43; 235; 45; 117; 184; 247; 148; 39; 198; 49; 216; 105; 40; 144; 180; 92; 48; 52;
  193; 64; 34; 37; 82; 212; 71; 99; 83; 72; 171; 74; 213; 87; 62; 74; 209; 85; 247; 74;
  85; 38; 4; 67; 145; 72; 250; 73; 242; 183; 74; 109; 160; 211; 119; 32; 167; 84; 100; 141;
  124; 21; 104; 2; 77; 122; 84; 222; 176; 98; 52; 67; 113; 253; 116; 137; 120; 226; 5; 113;
  46; 62; 54; 127; 48; 1; 151; 76; 139; 38; 140; 128; 130; 171; 142; 130; 220; 158; 17; 159;
  48; 149; 12; 248; 115; 147; 186; 200; 156; 169; 149; 187; 136; 174; 236; 159; 106; 72; 63; 115;
  188; 146; 236; 177; 136; 172; 43; 179; 237; 124; 223; 170; 41; 184; 171; 159; 181; 117; 168; 38;
  189; 254; 186; 123; 181; 181; 95; 63; 114; 241; 211; 67; 0; 69; 11; 134; 120; 214; 250; 205;
  156; 221; 125; 254; 207; 15; 194; 83; 8; 85; 0; 118; 248; 8; 90; 58; 88; 45; 211; 31;
  232; 73; 228; 27; 239; 101; 199; 55; 160; 229; 146; 237; 12; 225; 212; 46; 247; 225; 254; 125;
  36; 68; 251; 87; 218; 249; 244; 46; 92; 233; 79; 245; 40; 15; 122; 13; 116; 38; 158; 167;
  25; 7; 162; 143; 2; 134; 95; 45; 147; 145; 161; 147; 100; 49; 30; 185; 152; 103; 202; 22;
  76; 2; 142; 146; 96; 25; 40; 219; 40; 253; 47; 167; 13; 208; 239; 107; 8; 161; 206; 38;
  137; 177; 96; 242; 59; 85; 16; 179; 220; 57; 104; 55; 59; 37; 49; 103; 97; 102; 226; 75;
  67; 45; 73; 124; 25; 68; 33; 218; 83; 221; 62; 207; 154; 209; 66; 123; 145; 149; 230; 95;
  202; 148; 10; 124; 20; 77; 14; 120; 200; 113; 242; 68; 44; 157; 118; 90; 56; 100; 40; 77;
  189; 107; 96; 73; 184; 49; 88; 35; 125; 123; 30; 55; 115; 119; 11; 42; 205; 116; 201; 255;
  112; 240; 132; 113; 229; 174; 117; 99; 40; 189; 250; 154; 132; 136; 254; 132; 176; 189; 66; 185;
  56; 205; 147; 135; 159; 204; 136; 191; 156; 142; 116; 156; 179; 193; 222; 157; 220; 36; 69; 165;
  182; 74; 185; 160; 172; 157; 170; 30; 177; 229; 178; 84; 181; 173; 185; 74; 28; 73; 160; 11;
  146; 217; 186; 61; 192; 195; 77; 195; 156; 196; 214; 63; 200; 128; 171; 223; 80; 61; 190; 211;
  255; 214; 107; 207; 214; 112; 164; 207; 28; 201; 245; 219; 211; 39; 238; 198; 34; 208; 214; 53;
  52; 213; 228; 136; 41; 233; 221; 242; 111; 21; 126; 185; 248; 50; 202; 211; 238; 253; 139; 71;
  223; 233; 32; 63; 53; 245; 220; 251; 90; 79; 44; 2; 53; 30; 137; 144; 222; 15; 160; 15;
  199; 67; 12; 255; 34; 209; 9; 34; 39; 233; 122; 119; 53; 251; 80; 29; 165; 10; 104; 109;
  61; 71; 12; 67; 9; 206; 135; 142; 63; 5; 50; 42; 46; 188; 43; 29; 80; 17; 242; 191;
  75; 181; 136; 183; 69; 24; 0; 27; 45; 53; 242; 47; 68; 160; 106; 75; 220; 79; 142; 207;
  64; 65; 65; 75; 119; 53; 69; 217; 129; 84; 114; 59; 212; 174; 214; 59; 73; 101; 32; 219;
  212; 84; 47; 68; 144; 71; 138; 111; 140; 165; 69; 34; 152; 101; 101; 155; 80; 229; 97; 209;
  160; 74; 144; 81; 104; 21; 122; 127; 114; 161; 202; 90; 118; 69; 116; 116; 2; 191; 102; 114;
  161; 200; 6; 96; 8; 34; 42; 155; 204; 178; 248; 79; 187; 17; 162; 182; 89; 21; 183; 222;
  24; 181; 162; 156; 172; 221; 22; 152; 96; 141; 189; 38; 5; 174; 58; 182; 148; 48; 42; 83;
  92; 124; 134; 200; 128; 163; 18; 191; 116; 244; 126; 187; 104; 154; 10; 181; 248; 252; 94; 255;
  74; 36; 66; 33; 68; 5; 132; 36; 40; 153; 238; 91; 225; 139; 47; 232; 96; 222; 162; 251;
  23; 165; 217; 167; 240; 176; 90; 29; 172; 157; 157; 175; 193; 141; 233; 155; 212; 219; 22; 166;
  227; 233; 227; 235; 169; 178; 211; 127; 178; 125; 82; 204; 116; 234; 118; 203; 152; 255; 143; 123;
  88; 70; 206; 15; 43; 236; 74; 83; 70; 10; 180; 45; 67; 249; 27; 59; 76; 69; 78; 0;
  158; 158; 99; 21; 154; 133; 150; 163; 152; 157; 250; 92; 188; 32; 94; 58; 148; 137; 43; 179;
  25; 189; 183; 111; 122; 59; 50; 11; 27; 63; 202; 207; 28; 30; 51; 34; 39; 149; 242; 49;
  0; 242; 187; 48; 125; 116; 74; 117; 0; 0; 196].
Definition _td10 : bytes := [
  4; 103; 134; 3; 157; 189; 252; 248; 3; 37; 14; 8; 140; 12; 41; 15; 92; 16; 25; 76;
  101; 21; 22; 84; 24; 68; 27; 18; 197; 29; 159; 31; 33; 221; 199; 76; 43; 37; 166; 16;
  104; 41; 8; 43; 122; 41; 46; 172; 50; 59; 115; 147; 53; 37; 54; 54; 57; 40; 42; 56;
  53; 61; 50; 108; 64; 218; 120; 155; 68; 7; 230; 67; 65; 91; 65; 69; 63; 79; 180; 79;
  83; 209; 152; 83; 81; 85; 84; 123; 105; 201; 94; 125; 239; 93; 91; 200; 101; 113; 159; 145;
  96; 181; 2; 66; 56; 108; 247; 225; 105; 76; 111; 14; 118; 207; 102; 230; 36; 112; 164; 253;
  125; 142; 200; 124; 70; 168; 14; 120; 164; 229; 133; 122; 130; 212; 132; 70; 143; 61; 54; 162;
  188; 135; 149; 135; 41; 152; 203; 225; 158; 121; 121; 190; 24; 146; 147; 146; 133; 150; 227; 77;
  171; 227; 5; 14; 20; 163; 50; 210; 170; 26; 162; 116; 158; 160; 142; 78; 182; 35; 158; 217;
  184; 251; 181; 246; 181; 236; 158; 75; 178; 191; 138; 246; 200; 204; 46; 132; 64; 204; 245; 231;
  80; 140; 202; 64; 243; 45; 207; 1; 155; 209; 123; 218; 77; 108; 234; 215; 11; 240; 218; 55;
  211; 233; 222; 146; 106; 141; 230; 179; 125; 225; 182; 228; 232; 230; 54; 219; 239; 94; 234; 228;
  240; 113; 242; 42; 120; 173; 118; 40; 250; 121; 218; 239; 18; 125; 160; 127; 244; 1; 18; 27;
  148; 8; 137; 246; 27; 107; 138; 214; 0; 141; 110; 110; 5; 177; 6; 200; 116; 15; 134; 87;
  245; 97; 17; 3; 19; 85; 79; 9; 24; 49; 41; 11; 43; 136; 6; 50; 166; 157; 170; 47;
  195; 173; 110; 56; 193; 177; 129; 179; 198; 49; 6; 44; 24; 47; 162; 62; 228; 51; 198; 159;
  69; 57; 76; 27; 66; 21; 94; 141; 89; 94; 106; 204; 204; 177; 206; 217; 17; 72; 197; 211;
  92; 174; 86; 115; 168; 77; 24; 89; 133; 109; 95; 175; 121; 140; 90; 110; 204; 110; 206; 106;
  44; 113; 102; 187; 118; 53; 99; 43; 64; 107; 252; 83; 0; 245; 176; 247; 1; 218; 97; 186;
  44; 116; 142; 102; 173; 199; 226; 152; 8; 70; 6; 66; 138; 9; 74; 151; 68; 13; 67; 15;
  66; 225; 163; 242; 142; 109; 156; 63; 152; 130; 91; 134; 4; 151; 22; 7; 172; 233; 51; 191;
  116; 37; 26; 247; 181; 249; 42; 21; 44; 122; 174; 176; 32; 48; 175; 107; 180; 189; 158; 167;
  144; 176; 98; 180; 196; 248; 79; 160; 138; 80; 222; 2; 68; 37; 230; 219; 72; 219; 46; 58;
  208; 43; 126; 191; 207; 28; 26; 219; 148; 61; 221; 223; 209; 241; 214; 11; 253; 165; 90; 211;
  172; 128; 249; 40; 100; 7; 102; 119; 202; 72; 234; 202; 43; 109; 6; 15; 1; 232; 116; 195;
  238; 113; 182; 222; 136; 216; 146; 252; 100; 240; 14; 220; 128; 233; 15; 187; 3; 61; 8; 203;
  137; 23; 47; 27; 16; 186; 15; 19; 162; 145; 130; 8; 185; 229; 20; 58; 200; 58; 18; 28;
  84; 16; 54; 24; 130; 73; 51; 5; 156; 40; 193; 70; 10; 177; 59; 54; 230; 178; 223; 9;
  146; 225; 46; 99; 0; 180; 41; 183; 28; 53; 54; 19; 157; 28; 46; 23; 216; 74; 41; 64;
  76; 156; 182; 127; 136; 108; 18; 66; 212; 68; 8; 119; 65; 120; 34; 119; 76; 94; 231; 247;
  112; 213; 74; 216; 220; 174; 222; 95; 74; 151; 226; 29; 125; 165; 127; 7; 83; 137; 66; 171;
  122; 213; 97; 103; 52; 122; 154; 82; 95; 77; 102; 202; 168; 80; 242; 203; 173; 253; 153; 255;
  48; 159; 178; 160; 184; 245; 167; 255; 0; 128; 34; 171; 174; 220; 167; 111; 143; 145; 191; 73;
  191; 68; 191; 119; 190; 4; 203; 188; 59; 111; 179; 143; 158; 216; 35; 143; 163; 173; 6; 191;
  41; 141; 122; 133; 76; 187; 81; 191; 79; 2; 179; 172; 68; 187; 146; 128; 35; 185; 162; 186;
  188; 77; 184; 31; 240; 104; 74; 138; 197; 74; 100; 206; 168; 244; 239; 219; 221; 237; 197; 202;
  212; 162; 210; 227; 213; 54; 215; 183; 215; 36; 91; 219; 207; 13; 222; 255; 243; 42; 194; 227;
  99; 229; 88; 230; 216; 248; 187; 155; 236; 229; 141; 44; 185; 241; 91; 153; 164; 213; 249; 82;
  240; 118; 242; 185; 238; 125; 153; 123; 118; 17; 194; 17; 222; 129; 83; 14; 104; 9; 64; 188;
  93; 3; 225; 189; 23; 189; 234; 211; 36; 70; 179; 61; 23; 4; 136; 21; 239; 195; 14; 23;
  202; 33; 18; 4; 108; 42; 102; 52; 41; 57; 84; 231; 156; 43; 132; 45; 69; 232; 63; 129;
  198; 58; 247; 86; 52; 121; 19; 67; 48; 17; 56; 61; 192; 123; 243; 80; 111; 69; 159; 87;
  76; 204; 74; 81; 232; 189; 116; 193; 158; 209; 157; 82; 119; 54; 22; 112; 248; 121; 146; 251;
  87; 141; 125; 111; 66; 9; 20; 109; 148; 68; 198; 91; 176; 105; 65; 155; 80; 157; 84; 63;
  194; 127; 194; 84; 220; 112; 214; 97; 200; 68; 226; 91; 87; 109; 120; 135; 143; 187; 163; 150;
  242; 5; 80; 195; 8; 242; 73; 181; 87; 29; 154; 238; 172; 153; 186; 107; 153; 221; 39; 168;
  160; 185; 178; 150; 248; 200; 159; 134; 43; 96; 153; 51; 21; 229; 50; 103; 138; 185; 177; 170;
  180; 125; 180; 23; 113; 171; 130; 168; 60; 184; 206; 59; 181; 113; 203; 251; 92; 144; 11; 63;
  107; 96; 128; 163; 106; 69; 126; 167; 213; 73; 230; 251; 210; 197; 157; 239; 244; 64; 145; 235;
  222; 69; 204; 219; 25; 253; 187; 155; 92; 45; 94; 183; 96; 22; 83; 167; 27; 105; 102; 197;
  105; 246; 58; 199; 230; 53; 228; 175; 230; 101; 218; 248; 36; 176; 217; 134; 216; 98; 122; 91;
  209; 44; 142; 185; 163; 129; 164; 3; 71; 245; 103; 38; 184; 20; 1; 123; 39; 109; 73; 87;
  208; 48; 25; 123; 31; 69; 143; 119; 3; 11; 63; 11; 4; 141; 48; 71; 44; 176; 12; 99;
  40; 93; 33; 223; 35; 123; 75; 9; 127; 29; 174; 246; 176; 109; 147; 17; 228; 124; 205; 7;
  235; 89; 114; 235; 25; 50; 166; 143; 124; 79; 194; 101; 68; 5; 115; 7; 8; 31; 251; 109;
  253; 28; 89; 207; 27; 164; 210; 45; 228; 4; 124; 6; 18; 153; 102; 203; 119; 173; 127; 15;
  75; 169; 154; 104; 236; 106; 166; 108; 24; 114; 218; 85; 156; 43; 30; 74; 216; 213; 242; 28;
  180; 56; 214; 22; 48; 145; 186; 55; 250; 115; 30; 49; 1; 203; 142; 219; 139; 222; 215; 195;
  141; 121; 148; 73; 173; 146; 51; 15; 74; 17; 82; 161; 84; 196; 220; 127; 158; 121; 166; 203;
  204; 133; 144; 132; 64; 132; 98; 156; 251; 100; 130; 39; 130; 96; 42; 211; 47; 188; 143; 63;
  225; 15; 18; 148; 36; 56; 70; 255; 30; 49; 218; 163; 188; 240; 176; 54; 128; 140; 192; 3;
  231; 1; 203; 10; 121; 239; 75; 75; 118; 12; 159; 15; 155; 11; 184; 19; 135; 149; 102; 242;
  136; 151; 215; 203; 226; 157; 248; 74; 49; 220; 238; 163; 196; 3; 118; 196; 218; 219; 138; 247;
  222; 65; 159; 194; 93; 113; 98; 242; 36; 160; 244; 118; 136; 83; 122; 254; 237; 140; 210; 207;
  36; 33; 70; 75; 145; 212; 80; 63; 249; 44; 207; 171; 36; 47; 51; 223; 58; 108; 18; 68;
  236; 197; 42; 22; 64; 9; 83; 187; 82; 72; 49; 123; 44; 40; 169; 211; 38; 52; 22; 199;
  68; 179; 161; 163; 237; 54; 32; 110; 10; 113; 117; 42; 164; 37; 55; 0; 0; 27].
Definition _td11 : bytes := [
  4; 99; 155; 3; 195; 198; 253; 248; 3; 62; 14; 104; 12; 15; 105; 15; 63; 16; 2; 177;
  20; 21; 19; 23; 26; 92; 53; 27; 28; 230; 88; 24; 64; 32; 148; 34; 52; 63; 36; 54;
  41; 249; 56; 141; 12; 47; 70; 41; 152; 48; 30; 240; 53; 61; 100; 66; 49; 169; 57; 59;
  229; 177; 94; 55; 192; 136; 194; 19; 64; 139; 198; 36; 200; 73; 155; 219; 79; 221; 163; 247;
  91; 217; 18; 67; 60; 94; 110; 71; 16; 200; 95; 103; 77; 124; 90; 61; 224; 137; 163; 103;
  141; 229; 13; 38; 248; 111; 122; 108; 60; 125; 254; 78; 116; 245; 50; 243; 160; 245; 10; 247;
  180; 216; 125; 190; 120; 77; 114; 95; 133; 217; 137; 91; 139; 205; 4; 141; 8; 129; 162; 129;
  116; 130; 99; 206; 151; 177; 17; 19; 42; 21; 238; 230; 145; 235; 26; 155; 88; 45; 145; 15;
  109; 201; 170; 219; 228; 172; 78; 160; 80; 160; 242; 10; 166; 183; 76; 174; 224; 182; 122; 51;
  126; 212; 178; 199; 179; 9; 190; 179; 121; 45; 172; 143; 202; 9; 206; 203; 201; 77; 30; 203;
  208; 184; 198; 163; 193; 250; 239; 196; 214; 167; 131; 213; 148; 216; 61; 87; 169; 89; 42; 127;
  60; 203; 254; 211; 232; 234; 2; 239; 220; 53; 227; 241; 229; 169; 239; 123; 226; 155; 207; 228;
  70; 113; 1; 247; 116; 68; 183; 248; 84; 121; 2; 27; 224; 196; 222; 243; 168; 13; 195; 15;
  149; 9; 102; 23; 32; 4; 10; 35; 14; 212; 128; 238; 144; 195; 146; 145; 242; 36; 7; 250;
  152; 192; 138; 57; 61; 24; 70; 23; 152; 45; 50; 49; 69; 41; 46; 231; 56; 3; 3; 218;
  60; 84; 174; 15; 33; 79; 19; 32; 75; 181; 90; 213; 136; 216; 43; 251; 44; 181; 238; 47;
  240; 77; 79; 17; 188; 21; 74; 73; 100; 169; 88; 153; 156; 94; 67; 205; 126; 161; 66; 223;
  251; 213; 225; 215; 40; 76; 26; 242; 220; 233; 222; 251; 144; 176; 113; 171; 92; 96; 142; 105;
  8; 127; 234; 99; 140; 111; 22; 127; 242; 65; 131; 99; 231; 245; 185; 247; 237; 8; 109; 91;
  224; 253; 182; 31; 177; 129; 146; 59; 131; 148; 230; 143; 112; 142; 18; 219; 137; 138; 134; 131;
  156; 166; 145; 211; 131; 245; 159; 148; 25; 17; 26; 223; 98; 29; 254; 136; 94; 241; 152; 179;
  170; 189; 238; 169; 208; 167; 234; 177; 196; 163; 14; 187; 232; 181; 188; 8; 149; 172; 198; 55;
  189; 56; 192; 51; 60; 70; 62; 15; 219; 192; 211; 255; 37; 214; 230; 204; 32; 198; 2; 193;
  156; 209; 86; 197; 216; 201; 194; 55; 197; 206; 73; 87; 98; 89; 210; 77; 92; 30; 63; 216;
  35; 17; 29; 220; 228; 254; 22; 230; 232; 169; 20; 20; 83; 239; 251; 47; 242; 158; 242; 153;
  47; 119; 236; 187; 248; 83; 202; 229; 124; 254; 152; 153; 65; 30; 9; 131; 41; 1; 72; 5;
  143; 9; 99; 219; 12; 159; 202; 13; 17; 60; 41; 115; 21; 208; 30; 191; 25; 25; 23; 72;
  22; 95; 18; 122; 196; 105; 2; 35; 247; 156; 110; 55; 136; 54; 10; 39; 40; 180; 151; 47;
  54; 192; 71; 102; 37; 1; 55; 151; 38; 66; 209; 60; 91; 57; 74; 61; 17; 65; 70; 4;
  69; 22; 167; 68; 130; 8; 77; 198; 76; 205; 242; 207; 215; 209; 144; 211; 35; 92; 86; 114;
  24; 84; 74; 85; 180; 87; 198; 82; 215; 193; 71; 67; 112; 23; 104; 30; 105; 102; 154; 79;
  222; 140; 74; 202; 32; 108; 7; 179; 115; 213; 97; 151; 107; 65; 90; 105; 121; 253; 98; 121;
  48; 166; 26; 133; 236; 143; 12; 62; 152; 132; 90; 150; 12; 168; 30; 151; 160; 159; 10; 66;
  188; 95; 222; 246; 128; 109; 153; 148; 155; 28; 94; 182; 192; 186; 51; 19; 171; 94; 182; 132;
  185; 167; 162; 83; 220; 185; 3; 79; 168; 191; 66; 153; 84; 175; 132; 86; 170; 90; 235; 170;
  47; 221; 184; 109; 235; 42; 242; 67; 238; 232; 242; 23; 220; 221; 200; 236; 220; 209; 54; 239;
  248; 223; 10; 213; 118; 93; 151; 250; 0; 215; 164; 154; 201; 95; 127; 202; 99; 97; 249; 211;
  202; 139; 102; 92; 40; 196; 26; 199; 236; 245; 233; 151; 251; 137; 245; 43; 255; 85; 222; 240;
  208; 245; 246; 219; 229; 113; 238; 236; 8; 193; 130; 119; 21; 53; 117; 135; 201; 25; 136; 56;
  252; 28; 150; 3; 136; 30; 42; 18; 37; 191; 254; 86; 4; 81; 203; 52; 249; 140; 24; 253;
  33; 19; 176; 195; 100; 9; 70; 16; 57; 39; 39; 99; 140; 49; 57; 111; 34; 161; 58; 2;
  7; 187; 55; 42; 220; 185; 205; 170; 29; 46; 202; 191; 144; 113; 118; 115; 125; 181; 106; 161;
  160; 217; 90; 91; 127; 64; 86; 159; 70; 160; 96; 82; 79; 207; 218; 30; 67; 168; 175; 70;
  188; 126; 254; 70; 194; 127; 3; 3; 122; 186; 122; 103; 168; 11; 105; 237; 115; 234; 252; 108;
  80; 81; 231; 114; 5; 77; 112; 118; 184; 65; 90; 246; 125; 119; 191; 124; 160; 160; 125; 130;
  94; 151; 38; 190; 30; 185; 136; 187; 182; 134; 166; 174; 87; 144; 180; 11; 235; 175; 20; 172;
  109; 152; 11; 187; 112; 194; 187; 127; 128; 84; 91; 161; 180; 167; 196; 165; 153; 237; 151; 203;
  143; 213; 31; 150; 119; 176; 98; 144; 197; 183; 17; 236; 157; 41; 129; 180; 165; 156; 174; 19;
  82; 255; 186; 168; 145; 85; 251; 29; 81; 200; 230; 27; 215; 153; 143; 235; 249; 80; 194; 213;
  90; 127; 86; 40; 88; 120; 139; 152; 245; 61; 201; 37; 224; 224; 229; 118; 228; 228; 151; 238;
  189; 249; 174; 83; 109; 201; 127; 46; 212; 125; 49; 215; 53; 229; 118; 227; 104; 116; 154; 233;
  164; 242; 166; 154; 225; 68; 81; 99; 44; 139; 125; 102; 12; 153; 76; 207; 208; 141; 104; 254;
  25; 17; 28; 51; 8; 18; 102; 25; 152; 54; 240; 147; 47; 50; 96; 14; 45; 240; 99; 17;
  164; 109; 198; 20; 136; 255; 170; 244; 172; 53; 62; 58; 149; 64; 20; 253; 181; 212; 112; 229;
  126; 249; 55; 245; 108; 77; 18; 79; 7; 111; 72; 243; 99; 165; 78; 119; 96; 49; 26; 91;
  70; 123; 223; 126; 71; 228; 210; 224; 244; 123; 214; 250; 153; 82; 254; 246; 44; 220; 116; 231;
  102; 33; 118; 203; 197; 41; 104; 47; 8; 68; 10; 101; 45; 120; 60; 239; 172; 241; 84; 62;
  101; 65; 166; 58; 150; 233; 11; 49; 180; 122; 242; 183; 141; 1; 204; 81; 174; 173; 136; 189;
  187; 158; 220; 50; 77; 148; 30; 154; 8; 33; 180; 35; 69; 187; 174; 129; 159; 169; 175; 155;
  181; 229; 63; 207; 104; 174; 162; 150; 165; 184; 41; 150; 185; 55; 43; 250; 156; 176; 127; 31;
  201; 145; 170; 94; 28; 53; 155; 39; 174; 153; 145; 42; 238; 53; 82; 176; 241; 0; 243; 83;
  207; 60; 71; 218; 72; 154; 10; 194; 4; 51; 14; 250; 240; 203; 138; 194; 68; 242; 70; 230;
  123; 73; 253; 139; 237; 85; 214; 170; 81; 210; 182; 242; 173; 174; 182; 178; 8; 218; 179; 59;
  234; 77; 214; 222; 164; 244; 74; 187; 250; 29; 70; 225; 136; 227; 91; 214; 60; 237; 229; 191;
  248; 11; 99; 57; 132; 156; 86; 10; 168; 223; 55; 42; 0; 45; 59; 2; 0; 36; 90; 3;
  50; 197; 51; 87; 20; 230; 229; 168; 29; 2; 78; 39; 36; 105; 90; 107; 15; 197; 5; 23;
  47; 249; 3; 158; 44; 43; 207; 235; 59; 118; 141; 17; 235; 63; 250; 39; 60; 57; 0; 0;
  71].
Definition _td12 : bytes := string_array [
  4; 173; 61; 65; 251; 20; 6; 0; 18; 13; 10; 142; 12; 58; 240; 13; 240; 17; 125; 19;
  107; 20; 153; 21; 135; 26; 181; 31; 163; 24; 225; 208; 38; 254; 37; 204; 44; 218; 47; 40;
  35; 54; 38; 4; 33; 18; 32; 208; 127; 62; 109; 35; 91; 36; 73; 37; 183; 42; 165; 47;
  147; 40; 129; 41; 191; 142; 85; 156; 92; 170; 95; 184; 82; 70; 86; 84; 81; 98; 80; 112;
  79; 174; 29; 115; 11; 116; 57; 117; 39; 122; 213; 127; 195; 120; 241; 121; 223; 70; 157; 172;
  76; 186; 79; 136; 66; 150; 65; 100; 65; 114; 64; 64; 95; 78; 66; 140; 59; 68; 41; 69;
  23; 74; 5; 79; 243; 72; 225; 73; 47; 182; 61; 187; 123; 74; 191; 88; 178; 102; 177; 116;
  176; 130; 176; 144; 175; 190; 210; 172; 213; 150; 222; 213; 0; 0; 7].
Definition _td13 : bytes := string_array [
  4; 214; 17; 3; 137; 73; 249; 248; 5; 246; 41; 202; 12; 10; 141; 170; 89; 17; 11; 17;
  111; 21; 25; 75; 83; 52; 28; 8; 134; 35; 30; 31; 143; 104; 226; 45; 76; 219; 59; 39;
  56; 66; 42; 37; 44; 24; 36; 47; 48; 33; 46; 56; 49; 53; 52; 56; 21; 9; 58; 59;
  92; 194; 46; 60; 38; 66; 79; 91; 100; 149; 160; 64; 252; 235; 138; 75; 119; 29; 110; 105;
  64; 162; 194; 73; 7; 84; 57; 47; 26; 149; 139; 90; 117; 125; 44; 160; 32; 99; 73; 99;
  111; 101; 74; 55; 105; 142; 180; 105; 108; 109; 32; 111; 22; 65; 119; 19; 114; 39; 27; 199;
  126; 155; 114; 139; 122; 232; 94; 120; 144; 139; 136; 227; 131; 44; 22; 128; 136; 130; 234; 173;
  142; 75; 62; 137; 240; 156; 210; 179; 140; 213; 23; 199; 155; 83; 93; 156; 156; 29; 202; 111;
  168; 165; 113; 90; 20; 167; 164; 107; 104; 137; 106; 15; 160; 219; 126; 166; 48; 150; 162; 185;
  60; 245; 188; 35; 60; 147; 58; 177; 110; 109; 183; 159; 239; 49; 200; 99; 202; 198; 10; 199;
  251; 57; 192; 83; 92; 198; 90; 143; 234; 177; 217; 45; 68; 222; 54; 148; 184; 210; 142; 187;
  216; 61; 215; 151; 48; 234; 88; 2; 232; 168; 67; 167; 228; 9; 186; 230; 172; 163; 126; 226;
  28; 48; 255; 161; 165; 69; 250; 145; 253; 153; 247; 162; 220; 240; 56; 86; 160; 15; 2; 94;
  148; 8; 216; 166; 6; 107; 122; 5; 12; 99; 8; 195; 8; 240; 18; 58; 22; 157; 225; 23;
  11; 72; 10; 18; 222; 115; 94; 19; 116; 33; 37; 19; 47; 84; 150; 43; 14; 8; 59; 94;
  137; 77; 63; 119; 16; 32; 178; 69; 212; 59; 242; 54; 42; 59; 68; 203; 44; 59; 54; 243;
  92; 176; 66; 3; 189; 68; 157; 71; 71; 75; 26; 88; 25; 25; 236; 205; 128; 64; 126; 179;
  70; 181; 134; 68; 20; 11; 8; 75; 72; 157; 216; 79; 106; 29; 226; 119; 192; 55; 236; 135;
  123; 35; 99; 75; 120; 249; 62; 123; 248; 88; 18; 102; 20; 232; 214; 98; 146; 169; 111; 103;
  115; 117; 127; 136; 129; 33; 148; 106; 133; 102; 134; 207; 97; 72; 40; 187; 153; 205; 132; 143;
  128; 188; 154; 145; 133; 151; 54; 128; 201; 155; 101; 154; 156; 226; 124; 54; 96; 45; 83; 173;
  180; 173; 185; 23; 165; 25; 178; 251; 167; 221; 143; 143; 78; 78; 41; 226; 160; 69; 190; 127;
  151; 153; 189; 9; 191; 189; 94; 31; 200; 98; 43; 19; 117; 65; 158; 251; 190; 202; 218; 171;
  206; 12; 204; 27; 50; 195; 194; 200; 145; 156; 213; 199; 216; 223; 187; 192; 200; 80; 21; 207;
  227; 144; 11; 248; 200; 171; 231; 229; 0; 152; 236; 217; 236; 233; 108; 238; 244; 216; 114; 241;
  24; 229; 38; 234; 192; 73; 228; 187; 88; 181; 39; 47; 9; 33; 15; 165; 4; 117; 19; 12;
  45; 73; 24; 203; 220; 18; 170; 2; 0; 7; 14; 18; 129; 5; 26; 2; 248; 23; 202; 171;
  60; 89; 0; 31; 46; 119; 222; 146; 4; 36; 44; 43; 8; 34; 202; 95; 38; 9; 28; 4;
  195; 59; 210; 7; 229; 36; 54; 59; 24; 14; 119; 229; 55; 177; 111; 50; 240; 64; 78; 159;
  164; 73; 230; 225; 24; 40; 91; 235; 66; 237; 27; 56; 94; 207; 66; 92; 254; 81; 23; 88;
  178; 72; 85; 4; 28; 74; 102; 175; 111; 213; 2; 10; 132; 65; 190; 39; 79; 43; 123; 57;
  109; 127; 219; 174; 97; 175; 2; 97; 240; 212; 100; 2; 108; 3; 138; 111; 54; 221; 95; 106;
  68; 97; 144; 195; 22; 117; 161; 201; 129; 201; 156; 111; 40; 252; 150; 157; 32; 187; 162; 51;
  135; 101; 188; 231; 142; 137; 177; 89; 236; 138; 62; 131; 187; 163; 97; 162; 20; 142; 197; 181;
  176; 173; 168; 6; 60; 135; 255; 161; 96; 146; 98; 231; 186; 229; 103; 155; 136; 121; 178; 176;
  60; 170; 187; 63; 193; 48; 195; 4; 196; 234; 196; 39; 229; 201; 135; 201; 121; 13; 2; 254;
  241; 65; 210; 242; 228; 244; 38; 247; 8; 248; 138; 127; 252; 187; 174; 242; 32; 87; 98; 233;
  102; 148; 203; 203; 85; 233; 26; 192; 12; 192; 203; 110; 227; 212; 176; 117; 77; 244; 210; 147;
  225; 241; 16; 221; 222; 189; 224; 254; 32; 27; 194; 86; 58; 111; 130; 212; 45; 136; 125; 8;
  246; 43; 243; 10; 7; 140; 210; 19; 20; 155; 141; 137; 8; 46; 237; 42; 26; 89; 41; 250;
  160; 32; 161; 220; 149; 84; 35; 106; 96; 41; 244; 213; 204; 40; 246; 38; 208; 44; 47; 152;
  244; 35; 71; 49; 119; 57; 50; 203; 221; 59; 94; 31; 71; 19; 224; 163; 113; 67; 214; 71;
  126; 233; 139; 76; 164; 228; 222; 72; 114; 94; 226; 101; 170; 196; 99; 68; 120; 110; 14; 2;
  93; 61; 105; 72; 176; 102; 197; 163; 83; 165; 140; 125; 216; 95; 211; 170; 91; 118; 30; 87;
  160; 90; 242; 123; 218; 106; 230; 64; 168; 123; 58; 67; 92; 45; 71; 111; 0; 184; 22; 99;
  160; 197; 176; 2; 120; 176; 186; 162; 252; 181; 220; 34; 240; 171; 98; 191; 212; 157; 99; 23;
  161; 25; 24; 180; 92; 164; 130; 156; 198; 17; 150; 115; 145; 247; 202; 23; 147; 153; 146; 155;
  150; 33; 142; 147; 144; 187; 143; 147; 131; 90; 38; 139; 10; 134; 218; 125; 44; 69; 187; 55;
  208; 161; 255; 235; 213; 101; 225; 239; 192; 219; 54; 203; 241; 45; 254; 242; 214; 236; 80; 215;
  84; 227; 147; 183; 62; 241; 202; 219; 227; 95; 230; 206; 223; 137; 242; 187; 244; 185; 70; 217;
  124; 201; 172; 27; 215; 138; 62; 208; 224; 182; 2; 245; 166; 138; 182; 183; 40; 177; 186; 205;
  110; 77; 190; 31; 170; 75; 66; 11; 188; 68; 70; 75; 201; 48; 15; 91; 55; 7; 89; 111;
  44; 156; 18; 81; 152; 110; 150; 90; 8; 152; 118; 155; 34; 204; 92; 63; 209; 121; 181; 195;
  26; 165; 25; 167; 23; 145; 139; 104; 244; 61; 174; 18; 98; 130; 66; 113; 84; 110; 214; 15;
  242; 89; 126; 203; 12; 194; 225; 243; 94; 65; 93; 67; 110; 177; 41; 205; 94; 89; 87; 36;
  252; 124; 219; 223; 79; 17; 95; 85; 85; 3; 85; 0; 0; 30].
Definition _td14 : bytes := string_array [
  4; 148; 35; 3; 183; 220; 249; 248; 36; 221; 10; 54; 12; 206; 14; 15; 35; 17; 116; 163;
  19; 29; 118; 49; 141; 201; 26; 59; 22; 125; 24; 77; 149; 241; 34; 179; 47; 165; 39; 239;
  104; 40; 106; 41; 61; 221; 47; 49; 49; 87; 242; 32; 84; 117; 240; 207; 52; 129; 49; 147;
  61; 62; 118; 63; 75; 25; 72; 64; 70; 35; 22; 102; 216; 41; 172; 163; 65; 189; 76; 119;
  94; 97; 81; 66; 52; 81; 14; 91; 116; 153; 89; 213; 129; 221; 26; 132; 224; 65; 103; 131;
  228; 135; 22; 98; 248; 139; 78; 107; 104; 181; 98; 7; 48; 114; 83; 117; 244; 113; 243; 183;
  124; 44; 139; 127; 199; 253; 140; 255; 144; 134; 2; 116; 4; 63; 6; 127; 184; 175; 90; 137;
  204; 37; 133; 135; 128; 57; 155; 179; 156; 93; 134; 159; 176; 150; 253; 122; 154; 92; 30; 99;
  162; 33; 162; 170; 74; 37; 111; 39; 78; 25; 171; 122; 171; 117; 165; 71; 191; 217; 185; 203;
  156; 186; 174; 190; 232; 179; 206; 91; 186; 49; 90; 151; 64; 52; 66; 51; 206; 32; 151; 194;
  22; 57; 218; 52; 19; 65; 108; 111; 208; 145; 170; 29; 208; 206; 202; 39; 211; 182; 218; 211;
  208; 200; 206; 196; 124; 79; 227; 67; 228; 229; 70; 23; 234; 235; 250; 230; 252; 252; 238; 234;
  240; 243; 150; 195; 92; 149; 250; 181; 7; 232; 247; 142; 242; 240; 126; 45; 214; 206; 8; 219;
  154; 76; 118; 11; 8; 246; 180; 0; 67; 90; 220; 6; 39; 17; 247; 45; 20; 69; 129; 14;
  18; 113; 26; 229; 255; 8; 81; 224; 211; 36; 84; 98; 246; 43; 187; 186; 47; 216; 188; 75;
  35; 157; 174; 216; 3; 61; 29; 124; 3; 50; 52; 39; 40; 164; 135; 3; 55; 189; 46; 157;
  82; 92; 82; 188; 28; 67; 84; 71; 69; 68; 58; 158; 92; 40; 69; 255; 245; 241; 67; 178;
  29; 149; 214; 92; 41; 182; 61; 80; 203; 221; 62; 77; 240; 40; 158; 167; 109; 229; 118; 64;
  105; 89; 127; 227; 82; 107; 94; 63; 99; 97; 62; 114; 181; 120; 226; 117; 9; 105; 116; 45;
  53; 115; 110; 19; 82; 148; 214; 140; 57; 181; 144; 219; 226; 159; 253; 89; 153; 24; 196; 221;
  0; 134; 197; 249; 130; 161; 148; 54; 128; 123; 176; 98; 12; 138; 195; 181; 185; 225; 80; 186;
  97; 179; 35; 247; 178; 195; 99; 188; 128; 86; 174; 145; 33; 177; 179; 227; 184; 177; 198; 166;
  120; 117; 11; 162; 60; 141; 167; 15; 217; 17; 219; 147; 68; 216; 198; 221; 128; 200; 6; 11;
  217; 13; 194; 221; 108; 145; 204; 179; 243; 85; 200; 67; 218; 21; 250; 199; 117; 220; 127; 222;
  176; 254; 117; 226; 182; 92; 70; 248; 105; 195; 106; 245; 26; 205; 241; 247; 208; 98; 243; 6;
  245; 220; 103; 215; 225; 248; 242; 30; 189; 203; 174; 226; 145; 17; 178; 27; 72; 245; 9; 149;
  41; 249; 23; 121; 15; 61; 17; 154; 0; 16; 151; 18; 141; 148; 52; 140; 25; 158; 14; 26;
  32; 61; 62; 197; 97; 3; 141; 34; 245; 169; 39; 130; 153; 10; 90; 52; 225; 76; 110; 15;
  16; 53; 44; 55; 180; 22; 41; 54; 223; 56; 47; 42; 223; 25; 227; 126; 3; 16; 99; 87;
  244; 90; 6; 151; 91; 185; 84; 123; 94; 109; 104; 41; 97; 241; 118; 75; 169; 85; 118; 115;
  168; 127; 199; 90; 14; 80; 78; 120; 193; 38; 50; 126; 117; 133; 123; 121; 62; 25; 138; 74;
  95; 75; 250; 206; 84; 202; 211; 81; 197; 101; 119; 248; 121; 222; 122; 82; 157; 49; 190; 127;
  12; 176; 154; 19; 155; 181; 158; 87; 138; 148; 26; 150; 92; 145; 112; 112; 11; 192; 144; 135;
  164; 131; 222; 109; 43; 160; 153; 155; 148; 125; 147; 223; 192; 173; 210; 160; 125; 154; 243; 228;
  180; 153; 27; 178; 177; 61; 162; 175; 176; 188; 55; 160; 236; 187; 116; 156; 178; 28; 219; 182;
  67; 188; 172; 82; 112; 236; 237; 243; 232; 133; 232; 206; 4; 229; 89; 210; 220; 225; 181; 80;
  254; 112; 253; 225; 59; 250; 148; 207; 216; 200; 27; 214; 153; 103; 97; 47; 248; 185; 200; 250;
  164; 246; 231; 253; 30; 153; 196; 115; 236; 57; 16; 197; 223; 243; 198; 71; 91; 69; 220; 245;
  177; 179; 244; 46; 212; 238; 246; 246; 166; 32; 98; 12; 114; 192; 77; 10; 4; 27; 29; 29;
  24; 50; 242; 47; 3; 106; 67; 0; 160; 159; 136; 159; 17; 246; 185; 251; 15; 119; 141; 166;
  157; 46; 138; 74; 217; 66; 247; 55; 240; 185; 63; 7; 108; 10; 164; 16; 225; 45; 28; 35;
  41; 183; 55; 51; 56; 21; 46; 19; 28; 205; 53; 7; 160; 122; 146; 56; 156; 5; 182; 66;
  200; 9; 122; 203; 108; 64; 202; 69; 224; 144; 127; 212; 52; 97; 160; 12; 67; 159; 203; 219;
  81; 85; 88; 79; 96; 109; 102; 32; 244; 88; 228; 135; 88; 87; 234; 52; 67; 174; 83; 223;
  112; 81; 219; 119; 68; 118; 39; 199; 120; 89; 127; 211; 76; 254; 45; 239; 191; 241; 67; 188;
  216; 133; 198; 213; 184; 249; 159; 136; 232; 173; 177; 127; 224; 132; 17; 149; 224; 5; 169; 151;
  166; 169; 249; 159; 153; 57; 60; 154; 16; 224; 222; 166; 136; 164; 228; 45; 73; 233; 227; 43;
  237; 46; 51; 47; 242; 73; 184; 115; 246; 116; 55; 199; 248; 254; 248; 251; 206; 125; 249; 30;
  131; 97; 138; 131; 183; 133; 202; 247; 139; 37; 42; 139; 204; 11; 128; 15; 138; 17; 156; 147;
  140; 193; 22; 134; 200; 156; 146; 155; 233; 190; 10; 219; 224; 77; 231; 31; 224; 97; 227; 195;
  237; 206; 250; 173; 204; 248; 158; 172; 157; 49; 82; 241; 155; 181; 180; 147; 24; 191; 58; 155;
  116; 238; 110; 186; 148; 9; 4; 183; 3; 165; 65; 139; 15; 101; 12; 195; 104; 138; 53; 143;
  86; 214; 127; 242; 87; 181; 94; 23; 110; 89; 106; 219; 100; 61; 11; 47; 32; 98; 178; 34;
  55; 40; 178; 38; 172; 27; 167; 27; 44; 75; 234; 79; 12; 17; 60; 147; 2; 183; 184; 87;
  19; 65; 57; 251; 75; 209; 110; 33; 38; 105; 50; 111; 181; 78; 199; 82; 56; 120; 0; 0;
  54].
Definition _td15 : bytes := string_array [
  4; 254; 53; 3; 55; 84; 252; 248; 24; 108; 10; 14; 12; 13; 12; 217; 173; 17; 18; 37;
  235; 54; 198; 23; 62; 24; 10; 60; 25; 156; 30; 2; 30; 4; 242; 35; 119; 44; 39; 11;
  218; 57; 43; 172; 62; 45; 46; 30; 48; 53; 176; 50; 48; 53; 62; 183; 180; 145; 202; 57;
  28; 59; 62; 143; 64; 149; 254; 179; 118; 133; 202; 246; 93; 89; 154; 109; 188; 89; 78; 74;
  96; 69; 194; 83; 115; 239; 83; 155; 68; 12; 91; 214; 28; 95; 15; 94; 241; 99; 75; 83;
  98; 199; 102; 11; 168; 165; 219; 75; 156; 78; 254; 255; 80; 161; 81; 35; 85; 114; 128; 113;
  184; 124; 116; 172; 141; 120; 174; 120; 192; 135; 71; 130; 39; 103; 4; 245; 72; 141; 187; 175;
  188; 172; 30; 94; 152; 181; 162; 182; 132; 146; 212; 144; 40; 158; 143; 154; 148; 200; 156; 148;
  113; 168; 83; 163; 159; 39; 164; 210; 25; 175; 185; 187; 143; 29; 189; 95; 240; 144; 98; 160;
  100; 148; 236; 38; 177; 138; 138; 186; 103; 188; 161; 126; 203; 225; 206; 126; 133; 255; 191; 119;
  206; 152; 187; 206; 60; 199; 12; 195; 160; 246; 214; 141; 220; 101; 209; 28; 217; 116; 216; 26;
  76; 220; 105; 221; 183; 17; 239; 1; 99; 69; 238; 79; 249; 255; 26; 251; 233; 248; 94; 225;
  32; 0; 246; 181; 0; 132; 251; 231; 244; 120; 248; 28; 29; 250; 249; 255; 2; 140; 224; 252;
  187; 156; 38; 6; 99; 233; 9; 218; 15; 44; 62; 12; 206; 129; 17; 35; 22; 45; 2; 251;
  130; 189; 24; 24; 252; 12; 19; 53; 1; 33; 214; 47; 64; 62; 110; 39; 216; 104; 42; 116;
  33; 56; 126; 216; 61; 6; 215; 50; 20; 55; 100; 189; 59; 53; 82; 197; 86; 125; 214; 222;
  191; 96; 68; 168; 4; 84; 106; 81; 71; 121; 70; 26; 79; 94; 126; 94; 0; 85; 210; 219;
  20; 101; 214; 103; 90; 15; 153; 78; 92; 76; 92; 204; 16; 116; 20; 232; 125; 107; 101; 255;
  40; 80; 64; 111; 234; 110; 40; 254; 102; 31; 114; 119; 218; 246; 50; 247; 97; 218; 59; 59;
  92; 50; 94; 62; 32; 207; 50; 148; 164; 141; 204; 83; 142; 233; 156; 241; 142; 255; 138; 12;
  224; 137; 82; 133; 198; 151; 136; 211; 47; 200; 141; 155; 182; 61; 207; 191; 138; 129; 240; 131;
  166; 128; 102; 190; 180; 165; 50; 154; 74; 174; 174; 229; 181; 3; 177; 205; 177; 27; 180; 191;
  198; 252; 124; 235; 171; 94; 147; 159; 149; 197; 226; 235; 180; 222; 38; 208; 40; 141; 130; 155;
  194; 85; 207; 41; 224; 202; 186; 243; 200; 84; 212; 46; 233; 194; 244; 123; 243; 61; 240; 191;
  96; 208; 66; 206; 68; 215; 190; 247; 168; 243; 106; 165; 232; 115; 234; 141; 244; 123; 34; 229;
  245; 181; 232; 51; 213; 120; 99; 88; 219; 157; 250; 184; 160; 241; 28; 69; 36; 34; 230; 66;
  12; 21; 25; 91; 20; 111; 12; 81; 20; 103; 22; 17; 94; 4; 54; 45; 220; 82; 155; 2;
  28; 126; 90; 255; 106; 65; 102; 67; 109; 4; 86; 46; 8; 110; 114; 61; 254; 48; 152; 43;
  184; 11; 54; 145; 53; 23; 180; 243; 75; 137; 26; 59; 223; 125; 222; 112; 160; 1; 226; 15;
  68; 229; 121; 39; 3; 181; 181; 124; 239; 79; 102; 143; 69; 193; 173; 172; 3; 93; 86; 95;
  24; 71; 218; 91; 120; 106; 89; 115; 166; 137; 129; 98; 129; 101; 116; 7; 249; 104; 42; 127;
  141; 108; 186; 68; 85; 129; 103; 41; 30; 119; 213; 231; 120; 205; 110; 74; 206; 126; 126; 166;
  31; 208; 147; 3; 163; 101; 27; 15; 54; 153; 140; 191; 153; 253; 224; 155; 161; 146; 211; 35;
  188; 255; 147; 141; 222; 158; 74; 134; 114; 61; 159; 41; 163; 187; 160; 51; 183; 255; 182; 141;
  172; 42; 40; 154; 183; 139; 142; 147; 80; 151; 182; 83; 142; 213; 169; 23; 130; 109; 183; 35;
  184; 156; 152; 95; 216; 197; 224; 199; 138; 129; 196; 25; 136; 208; 104; 243; 108; 157; 46; 248;
  197; 81; 254; 119; 244; 201; 231; 215; 242; 87; 217; 221; 157; 236; 243; 45; 225; 155; 225; 13;
  52; 249; 178; 237; 231; 233; 199; 253; 188; 192; 235; 21; 242; 27; 246; 247; 46; 85; 216; 51;
  7; 134; 201; 173; 190; 255; 30; 238; 1; 151; 194; 98; 148; 34; 186; 135; 9; 233; 127; 180;
  126; 141; 1; 14; 2; 68; 71; 18; 251; 103; 22; 7; 169; 54; 80; 18; 29; 16; 30; 117;
  192; 69; 47; 189; 185; 108; 38; 111; 81; 158; 159; 211; 62; 39; 43; 158; 35; 20; 154; 195;
  205; 206; 22; 35; 185; 41; 31; 43; 156; 43; 151; 190; 64; 205; 114; 115; 109; 46; 92; 97;
  196; 185; 91; 12; 77; 106; 14; 121; 3; 118; 66; 98; 200; 69; 68; 95; 25; 9; 94; 59;
  47; 149; 238; 23; 224; 109; 19; 99; 112; 21; 124; 215; 124; 89; 112; 59; 238; 120; 78; 87;
  160; 117; 190; 107; 51; 197; 123; 117; 121; 185; 66; 218; 125; 54; 127; 226; 225; 67; 208; 35;
  140; 244; 144; 23; 145; 153; 133; 234; 180; 132; 126; 139; 138; 171; 50; 148; 140; 130; 151; 174;
  216; 155; 151; 154; 179; 159; 157; 95; 154; 195; 210; 215; 100; 169; 18; 55; 161; 57; 188; 43;
  160; 92; 156; 141; 192; 182; 2; 151; 133; 137; 182; 184; 153; 71; 182; 68; 39; 29; 178; 207;
  241; 137; 61; 57; 77; 196; 150; 232; 40; 196; 74; 214; 84; 59; 77; 235; 39; 206; 229; 210;
  226; 212; 247; 230; 4; 162; 71; 251; 225; 224; 212; 222; 128; 213; 195; 210; 246; 87; 150; 214;
  178; 165; 240; 205; 71; 157; 216; 94; 228; 218; 135; 197; 202; 183; 91; 211; 252; 99; 69; 171;
  188; 13; 197; 46; 146; 16; 34; 10; 212; 20; 182; 59; 248; 24; 26; 0; 142; 231; 190; 10;
  8; 44; 19; 108; 22; 85; 82; 52; 104; 36; 170; 16; 143; 31; 122; 238; 27; 51; 210; 130;
  196; 35; 52; 183; 9; 153; 171; 110; 36; 157; 21; 11; 144; 65; 162; 10; 101; 42; 102; 13;
  104; 38; 106; 139; 38; 45; 33; 223; 119; 91; 66; 5; 164; 19; 55; 55; 70; 89; 118; 91;
  236; 10; 109; 95; 91; 225; 7; 178; 19; 227; 87; 17; 37; 217; 97; 234; 108; 84; 126; 85;
  112; 176; 42; 29; 20; 104; 126; 56; 105; 6; 58; 105; 49; 108; 3; 222; 57; 18; 51; 99;
  109; 71; 51; 230; 104; 5; 147; 219; 101; 127; 111; 235; 191; 177; 218; 203; 232; 11; 49; 182;
  0; 0; 148].
Definition _td16 : bytes := string_array [
  4; 196; 36; 3; 169; 244; 252; 248; 5; 142; 103; 202; 12; 0; 141; 170; 89; 17; 131; 175;
  85; 21; 24; 191; 81; 59; 20; 44; 249; 35; 30; 31; 127; 185; 45; 47; 76; 219; 42; 39;
  210; 136; 212; 10; 42; 4; 44; 47; 48; 33; 64; 49; 49; 53; 52; 163; 52; 9; 58; 59;
  22; 194; 46; 60; 38; 66; 82; 44; 22; 65; 135; 69; 158; 161; 90; 72; 27; 7; 77; 245;
  121; 67; 86; 86; 41; 37; 82; 111; 17; 90; 118; 165; 92; 93; 127; 242; 112; 97; 113; 99;
  96; 229; 228; 102; 108; 105; 218; 148; 195; 189; 109; 111; 80; 119; 114; 3; 20; 179; 102; 97;
  104; 249; 58; 75; 252; 13; 122; 21; 245; 150; 135; 51; 128; 2; 118; 143; 24; 152; 155; 29;
  139; 141; 22; 190; 170; 149; 116; 144; 178; 145; 158; 69; 155; 135; 154; 145; 223; 48; 30; 134;
  224; 67; 140; 67; 147; 197; 150; 103; 162; 225; 138; 167; 52; 148; 92; 173; 16; 180; 160; 176;
  150; 151; 39; 188; 142; 252; 114; 59; 182; 94; 253; 255; 96; 248; 98; 135; 36; 253; 86; 203;
  168; 193; 252; 179; 193; 93; 199; 25; 210; 207; 215; 219; 58; 215; 224; 86; 213; 151; 31; 217;
  93; 253; 199; 183; 240; 121; 195; 3; 239; 143; 229; 230; 104; 231; 152; 40; 249; 108; 119; 204;
  215; 240; 66; 255; 148; 221; 86; 192; 88; 211; 26; 187; 197; 133; 239; 103; 65; 35; 34; 13;
  39; 5; 50; 231; 91; 105; 57; 171; 88; 237; 28; 37; 208; 1; 186; 7; 84; 30; 12; 19;
  206; 95; 30; 42; 22; 140; 15; 209; 228; 107; 98; 51; 148; 12; 22; 54; 97; 98; 26; 57;
  148; 29; 63; 30; 46; 49; 49; 149; 49; 15; 53; 189; 61; 11; 106; 56; 190; 184; 87; 126;
  80; 113; 178; 79; 36; 71; 119; 85; 92; 105; 127; 183; 179; 122; 141; 93; 91; 112; 91; 157;
  77; 117; 69; 87; 152; 66; 218; 91; 208; 165; 117; 216; 163; 94; 68; 101; 44; 104; 233; 119;
  216; 127; 200; 207; 172; 109; 66; 79; 59; 138; 126; 63; 27; 49; 119; 45; 135; 88; 184; 122;
  33; 83; 24; 128; 192; 131; 32; 130; 35; 197; 131; 231; 138; 8; 143; 85; 165; 45; 134; 224;
  58; 149; 54; 51; 151; 20; 147; 235; 48; 73; 159; 165; 150; 155; 182; 201; 161; 131; 83; 165;
  1; 145; 161; 119; 2; 175; 30; 122; 169; 252; 178; 243; 204; 225; 210; 115; 180; 121; 7; 164;
  40; 147; 106; 168; 12; 181; 148; 207; 213; 1; 223; 97; 194; 9; 222; 71; 121; 200; 109; 202;
  121; 204; 109; 94; 206; 217; 75; 50; 190; 149; 203; 134; 200; 73; 248; 211; 172; 205; 174; 94;
  255; 49; 195; 129; 227; 165; 42; 251; 225; 235; 117; 233; 188; 205; 69; 175; 242; 10; 243; 74;
  150; 130; 183; 234; 246; 113; 10; 231; 172; 157; 225; 225; 48; 16; 162; 34; 14; 209; 39; 39;
  155; 233; 42; 9; 133; 12; 161; 43; 18; 40; 130; 49; 246; 144; 38; 8; 41; 1; 26; 75;
  58; 45; 6; 111; 7; 177; 53; 51; 52; 13; 160; 47; 104; 55; 63; 41; 123; 57; 44; 4;
  113; 21; 123; 131; 22; 247; 191; 247; 48; 53; 26; 50; 44; 25; 25; 62; 5; 67; 68; 114;
  53; 96; 134; 101; 117; 107; 214; 139; 192; 109; 255; 82; 32; 121; 226; 51; 114; 114; 230; 7;
  70; 41; 124; 159; 109; 120; 135; 206; 66; 178; 98; 98; 205; 103; 129; 102; 253; 11; 245; 10;
  124; 78; 127; 127; 64; 82; 163; 108; 183; 106; 40; 177; 114; 73; 90; 75; 88; 82; 124; 96;
  80; 164; 211; 170; 129; 37; 175; 33; 168; 161; 123; 144; 124; 165; 126; 47; 139; 1; 187; 67;
  137; 5; 188; 245; 136; 176; 152; 223; 157; 183; 207; 141; 16; 133; 242; 177; 36; 181; 131; 55;
  186; 249; 143; 205; 189; 132; 142; 160; 177; 50; 176; 184; 197; 153; 191; 182; 252; 56; 56; 187;
  150; 49; 47; 170; 81; 235; 214; 137; 20; 165; 236; 213; 120; 228; 76; 192; 236; 239; 203; 205;
  209; 65; 242; 210; 213; 208; 212; 36; 216; 153; 223; 57; 35; 98; 199; 154; 80; 249; 98; 230;
  84; 241; 89; 166; 241; 55; 234; 67; 170; 141; 190; 167; 152; 240; 241; 245; 239; 254; 118; 239;
  220; 25; 249; 211; 252; 100; 255; 47; 22; 161; 44; 19; 29; 47; 251; 102; 19; 96; 160; 15;
  72; 95; 20; 75; 52; 84; 66; 10; 102; 255; 12; 93; 25; 58; 203; 0; 196; 29; 31; 121;
  172; 253; 162; 238; 164; 252; 38; 167; 248; 169; 247; 171; 248; 253; 11; 111; 80; 215; 186; 52;
  252; 36; 214; 2; 96; 61; 40; 195; 204; 8; 44; 49; 67; 39; 204; 195; 88; 196; 102; 198;
  95; 200; 111; 90; 123; 213; 104; 222; 100; 113; 90; 115; 95; 189; 66; 119; 83; 217; 210; 79;
  180; 86; 118; 75; 28; 209; 84; 67; 232; 148; 230; 37; 233; 185; 82; 86; 237; 13; 135; 239;
  69; 112; 75; 195; 67; 53; 120; 207; 120; 118; 66; 107; 148; 114; 86; 111; 88; 5; 141; 55;
  53; 179; 11; 7; 191; 8; 74; 177; 140; 201; 15; 3; 16; 212; 227; 208; 244; 157; 144; 210;
  156; 73; 174; 17; 28; 183; 31; 189; 47; 162; 158; 147; 245; 238; 134; 175; 32; 162; 162; 179;
  161; 197; 95; 147; 104; 187; 26; 190; 38; 112; 118; 140; 48; 75; 234; 128; 61; 77; 78; 130;
  68; 112; 140; 3; 248; 205; 206; 175; 218; 89; 244; 219; 116; 223; 118; 200; 32; 239; 231; 214;
  178; 215; 182; 71; 200; 31; 226; 202; 164; 206; 246; 158; 49; 222; 74; 243; 28; 247; 209; 135;
  215; 103; 106; 99; 108; 202; 111; 102; 112; 215; 3; 179; 215; 181; 193; 103; 199; 31; 226; 245;
  140; 197; 6; 242; 162; 9; 227; 66; 188; 22; 63; 151; 72; 169; 139; 74; 140; 197; 6; 119;
  2; 249; 26; 139; 68; 35; 134; 31; 144; 11; 33; 139; 92; 145; 215; 238; 29; 129; 228; 163;
  108; 164; 156; 23; 108; 232; 170; 106; 176; 11; 19; 175; 114; 176; 34; 179; 10; 36; 14; 247;
  6; 105; 43; 211; 45; 101; 175; 122; 10; 240; 1; 255; 4; 197; 148; 199; 253; 201; 129; 58;
  10; 245; 110; 191; 175; 142; 30; 91; 228; 79; 22; 165; 80; 172; 102; 70; 13; 68; 94; 41;
  158; 241; 26; 122; 158; 229; 54; 72; 218; 89; 11; 91; 0; 0; 144].
Definition _td17 : bytes := string_array [
  4; 189; 235; 3; 246; 36; 253; 248; 24; 160; 10; 3; 44; 13; 15; 124; 233; 17; 201; 19;
  56; 183; 22; 23; 160; 11; 10; 27; 64; 29; 120; 31; 176; 40; 98; 35; 25; 36; 234; 39;
  56; 61; 234; 39; 110; 141; 44; 79; 40; 241; 50; 191; 133; 23; 166; 19; 72; 26; 106; 25;
  25; 141; 61; 79; 105; 157; 82; 64; 88; 14; 78; 70; 3; 75; 58; 79; 59; 79; 27; 78;
  88; 208; 16; 115; 180; 87; 100; 84; 148; 65; 122; 118; 93; 14; 92; 96; 209; 100; 39; 98;
  172; 60; 68; 37; 40; 108; 78; 111; 76; 110; 14; 105; 112; 189; 3; 98; 36; 107; 230; 102;
  8; 40; 75; 124; 172; 99; 86; 222; 134; 40; 211; 128; 158; 133; 214; 172; 184; 147; 90; 161;
  220; 151; 190; 63; 186; 87; 152; 195; 144; 53; 147; 38; 153; 159; 145; 218; 149; 61; 151; 36;
  65; 94; 29; 186; 37; 133; 160; 167; 40; 21; 175; 11; 130; 125; 174; 175; 110; 177; 66; 141;
  105; 243; 210; 181; 241; 158; 187; 171; 38; 207; 190; 126; 24; 28; 194; 52; 192; 197; 127; 54;
  201; 199; 202; 207; 78; 204; 238; 203; 208; 161; 98; 112; 100; 222; 246; 209; 216; 217; 186; 30;
  96; 205; 220; 95; 160; 165; 210; 99; 68; 239; 120; 203; 252; 201; 229; 108; 125; 92; 229; 3;
  233; 111; 66; 252; 252; 243; 118; 250; 208; 185; 165; 128; 204; 246; 30; 127; 13; 193; 18; 3;
  250; 71; 26; 7; 59; 241; 11; 59; 24; 142; 74; 62; 1; 21; 98; 2; 66; 21; 20; 55;
  0; 21; 122; 61; 198; 45; 28; 159; 46; 37; 66; 37; 132; 44; 64; 119; 9; 73; 204; 11;
  100; 37; 166; 60; 24; 80; 33; 235; 51; 53; 238; 36; 46; 59; 92; 181; 243; 189; 190; 0;
  193; 139; 194; 121; 197; 140; 230; 83; 26; 56; 106; 88; 74; 85; 110; 91; 194; 64; 71; 73;
  81; 5; 67; 231; 121; 74; 82; 82; 36; 83; 70; 30; 81; 119; 90; 106; 60; 107; 71; 71;
  124; 229; 122; 229; 236; 36; 239; 79; 103; 54; 243; 255; 100; 245; 51; 134; 51; 120; 108; 116;
  116; 110; 118; 7; 143; 249; 195; 155; 108; 150; 112; 131; 137; 185; 158; 71; 12; 215; 15; 72;
  16; 196; 131; 82; 128; 198; 119; 216; 152; 143; 2; 146; 84; 143; 145; 255; 182; 233; 178; 227;
  190; 205; 183; 88; 184; 86; 103; 131; 166; 141; 161; 11; 34; 86; 176; 123; 132; 191; 70; 177;
  56; 210; 68; 239; 148; 31; 50; 184; 151; 202; 108; 49; 207; 208; 128; 150; 149; 197; 198; 202;
  118; 188; 195; 235; 100; 220; 114; 199; 56; 122; 54; 202; 224; 25; 196; 75; 154; 24; 218; 207;
  233; 145; 228; 53; 228; 41; 70; 234; 77; 89; 245; 25; 12; 242; 238; 245; 64; 238; 64; 83;
  246; 233; 22; 214; 184; 252; 202; 228; 236; 244; 107; 254; 143; 3; 0; 99; 37; 134; 4; 158;
  9; 118; 168; 161; 79; 13; 47; 51; 32; 48; 242; 50; 54; 85; 38; 54; 28; 61; 94; 75;
  31; 204; 15; 47; 9; 145; 106; 51; 116; 15; 87; 4; 4; 109; 27; 10; 117; 37; 47; 74;
  50; 1; 22; 80; 54; 110; 55; 19; 89; 91; 58; 24; 48; 117; 94; 29; 84; 140; 10; 66;
  131; 71; 38; 98; 139; 235; 187; 111; 0; 108; 127; 110; 213; 80; 237; 81; 4; 115; 191; 85;
  120; 208; 91; 182; 222; 207; 78; 124; 113; 126; 66; 179; 66; 149; 120; 151; 25; 78; 186; 76;
  232; 53; 103; 239; 117; 164; 114; 28; 118; 53; 94; 54; 248; 88; 165; 123; 229; 95; 226; 158;
  134; 150; 10; 83; 172; 245; 198; 174; 161; 121; 157; 27; 175; 143; 34; 142; 153; 106; 147; 86;
  150; 150; 148; 95; 37; 155; 109; 219; 149; 255; 50; 142; 131; 81; 163; 45; 191; 213; 133; 231;
  131; 217; 129; 27; 183; 125; 174; 133; 60; 169; 51; 194; 145; 149; 154; 86; 186; 52; 90; 157;
  254; 95; 75; 182; 128; 219; 155; 253; 102; 207; 82; 199; 232; 214; 137; 83; 37; 249; 50; 204;
  253; 116; 207; 196; 20; 220; 151; 201; 235; 93; 196; 107; 227; 159; 114; 156; 238; 161; 83; 93;
  212; 68; 249; 1; 237; 184; 202; 252; 252; 226; 116; 236; 104; 176; 200; 203; 116; 236; 22; 231;
  201; 233; 255; 171; 205; 205; 250; 215; 152; 0; 69; 83; 53; 137; 246; 54; 137; 64; 11; 203;
  61; 69; 11; 151; 41; 31; 22; 137; 28; 16; 236; 20; 56; 42; 244; 24; 186; 216; 158; 150;
  160; 184; 193; 99; 196; 108; 166; 5; 105; 56; 30; 110; 204; 102; 142; 39; 16; 0; 184; 38;
  4; 7; 158; 246; 12; 144; 234; 8; 31; 19; 30; 55; 23; 97; 114; 243; 113; 165; 118; 167;
  31; 73; 218; 68; 212; 124; 60; 76; 110; 84; 90; 57; 87; 19; 151; 97; 2; 156; 72; 218;
  220; 68; 61; 68; 128; 94; 130; 123; 196; 82; 38; 199; 126; 73; 40; 47; 125; 29; 88; 181;
  52; 115; 100; 3; 71; 119; 92; 114; 248; 65; 68; 127; 57; 100; 31; 72; 191; 161; 206; 99;
  185; 193; 38; 202; 57; 176; 197; 155; 158; 237; 182; 33; 58; 144; 147; 160; 149; 213; 165; 17;
  88; 163; 25; 43; 136; 141; 135; 124; 190; 65; 130; 166; 184; 133; 230; 131; 8; 177; 106; 144;
  92; 184; 78; 157; 178; 179; 182; 161; 176; 213; 138; 73; 187; 67; 187; 77; 188; 190; 213; 62;
  89; 162; 231; 35; 151; 193; 230; 228; 185; 244; 234; 43; 154; 173; 217; 143; 72; 16; 45; 172;
  231; 245; 166; 204; 216; 201; 139; 127; 157; 130; 78; 242; 92; 224; 170; 131; 242; 38; 157; 127;
  86; 105; 197; 221; 240; 84; 231; 45; 236; 236; 61; 47; 244; 229; 63; 244; 253; 48; 234; 233;
  209; 77; 46; 208; 30; 254; 186; 67; 0; 0; 93].
Definition _td18 : bytes := string_array [
  4; 193; 71; 3; 211; 142; 248; 248; 3; 20; 12; 40; 12; 8; 38; 15; 85; 16; 2; 155;
  23; 21; 19; 23; 26; 210; 207; 27; 28; 73; 24; 224; 64; 32; 148; 34; 41; 232; 144; 133;
  47; 41; 98; 143; 101; 45; 144; 47; 46; 33; 50; 216; 60; 165; 51; 160; 252; 7; 58; 59;
  131; 169; 130; 47; 40; 65; 100; 10; 100; 0; 185; 84; 68; 192; 90; 74; 92; 253; 28; 74;
  65; 80; 201; 161; 52; 84; 32; 206; 89; 117; 90; 183; 92; 171; 78; 89; 96; 216; 98; 99;
  96; 117; 86; 167; 164; 88; 75; 187; 76; 119; 254; 113; 64; 105; 115; 116; 99; 55; 246; 116;
  180; 25; 78; 187; 112; 13; 239; 120; 138; 186; 82; 132; 112; 21; 129; 155; 115; 137; 137; 153;
  142; 45; 134; 114; 145; 129; 155; 100; 181; 215; 215; 215; 144; 193; 158; 87; 124; 213; 63; 153;
  176; 161; 114; 132; 148; 181; 214; 128; 184; 184; 186; 59; 138; 171; 171; 191; 184; 208; 114; 63;
  180; 132; 173; 39; 147; 41; 160; 139; 144; 156; 206; 180; 16; 237; 158; 197; 68; 205; 251; 197;
  232; 230; 200; 240; 206; 252; 175; 195; 155; 115; 80; 161; 196; 222; 7; 244; 8; 249; 10; 235;
  209; 93; 255; 175; 196; 145; 192; 179; 227; 245; 234; 247; 143; 232; 107; 233; 204; 227; 85; 237;
  157; 225; 243; 50; 150; 136; 86; 241; 169; 221; 234; 251; 225; 173; 218; 47; 17; 49; 38; 179;
  4; 20; 46; 12; 196; 17; 37; 10; 107; 45; 12; 56; 17; 78; 16; 211; 20; 74; 84; 85;
  162; 24; 23; 58; 12; 61; 142; 79; 45; 63; 43; 98; 53; 56; 136; 198; 39; 240; 43; 90;
  45; 63; 225; 15; 32; 48; 131; 99; 38; 212; 201; 136; 60; 160; 109; 155; 61; 189; 178; 120;
  98; 108; 67; 67; 87; 155; 70; 211; 249; 43; 117; 219; 72; 34; 76; 136; 81; 40; 15; 59;
  89; 12; 84; 207; 232; 91; 172; 68; 36; 87; 102; 64; 104; 83; 109; 42; 5; 102; 116; 165;
  228; 96; 106; 3; 146; 123; 132; 81; 114; 111; 116; 113; 222; 101; 98; 122; 77; 11; 18; 117;
  139; 127; 15; 111; 149; 161; 146; 0; 142; 250; 183; 151; 43; 135; 189; 110; 252; 142; 1; 186;
  140; 211; 152; 163; 130; 150; 127; 76; 100; 249; 154; 108; 158; 158; 78; 137; 130; 20; 198; 164;
  61; 5; 167; 183; 189; 78; 182; 145; 188; 144; 247; 178; 130; 180; 64; 164; 50; 16; 246; 189;
  200; 161; 181; 243; 252; 236; 65; 188; 204; 186; 198; 211; 221; 206; 230; 201; 142; 198; 122; 110;
  156; 218; 135; 146; 240; 244; 222; 1; 69; 124; 53; 192; 229; 12; 152; 206; 189; 197; 88; 212;
  0; 31; 50; 251; 65; 168; 166; 252; 248; 185; 238; 250; 237; 218; 8; 239; 245; 168; 255; 201;
  241; 245; 198; 254; 217; 255; 99; 250; 154; 115; 238; 229; 129; 251; 130; 179; 27; 247; 134; 18;
  8; 136; 231; 187; 18; 109; 136; 103; 31; 17; 10; 1; 76; 26; 30; 5; 29; 27; 250; 125;
  156; 61; 126; 217; 32; 0; 242; 55; 229; 5; 55; 230; 9; 49; 39; 1; 29; 12; 11; 79;
  214; 53; 58; 56; 4; 23; 174; 61; 176; 52; 146; 171; 54; 165; 51; 64; 32; 99; 162; 107;
  52; 100; 70; 111; 70; 81; 94; 115; 66; 101; 90; 77; 24; 16; 118; 122; 87; 51; 218; 194;
  216; 217; 26; 218; 200; 221; 97; 222; 239; 33; 71; 103; 37; 81; 198; 69; 32; 121; 82; 123;
  36; 61; 127; 87; 127; 233; 67; 85; 49; 182; 82; 116; 122; 248; 154; 93; 114; 252; 237; 255;
  144; 224; 171; 51; 161; 131; 193; 55; 174; 11; 58; 174; 74; 245; 8; 158; 240; 183; 210; 187;
  44; 132; 78; 134; 136; 187; 152; 34; 93; 185; 4; 31; 92; 33; 59; 35; 134; 94; 215; 142;
  82; 25; 228; 107; 137; 181; 190; 60; 17; 153; 243; 153; 156; 164; 38; 150; 249; 188; 42; 164;
  156; 54; 62; 176; 65; 81; 131; 232; 86; 69; 206; 202; 201; 159; 106; 233; 36; 194; 6; 221;
  137; 209; 244; 203; 199; 245; 240; 87; 244; 20; 218; 240; 44; 205; 33; 0; 108; 67; 2; 253;
  164; 151; 243; 228; 216; 230; 202; 245; 131; 237; 66; 131; 66; 236; 116; 55; 212; 252; 128; 233;
  243; 255; 246; 84; 109; 253; 250; 131; 1; 241; 32; 183; 131; 2; 89; 152; 153; 89; 29; 243;
  7; 93; 9; 12; 201; 158; 160; 16; 68; 23; 67; 243; 24; 41; 30; 228; 108; 51; 14; 76;
  144; 55; 243; 62; 4; 10; 70; 10; 98; 16; 47; 59; 191; 221; 54; 158; 52; 146; 1; 227;
  25; 85; 203; 174; 10; 234; 10; 32; 141; 57; 167; 160; 144; 108; 48; 201; 118; 53; 91; 110;
  73; 123; 107; 135; 252; 126; 36; 21; 78; 30; 83; 25; 172; 116; 80; 126; 56; 95; 216; 90;
  221; 64; 156; 85; 203; 81; 85; 91; 116; 93; 70; 202; 166; 89; 104; 64; 124; 102; 31; 97;
  0; 81; 2; 125; 116; 229; 105; 135; 118; 105; 101; 177; 126; 244; 158; 110; 23; 128; 242; 156;
  33; 132; 33; 214; 178; 161; 35; 170; 181; 205; 134; 27; 225; 153; 67; 146; 208; 248; 148; 199;
  163; 250; 152; 92; 60; 166; 28; 23; 158; 97; 238; 35; 188; 105; 230; 225; 136; 149; 136; 47;
  12; 164; 182; 92; 177; 129; 190; 92; 181; 253; 247; 181; 83; 249; 135; 217; 240; 45; 130; 119;
  211; 96; 203; 115; 249; 201; 210; 23; 194; 213; 231; 202; 220; 182; 204; 246; 209; 209; 198; 248;
  213; 180; 194; 149; 139; 41; 224; 119; 188; 227; 198; 238; 225; 245; 33; 226; 180; 245; 47; 167;
  213; 232; 85; 202; 110; 132; 14; 230; 1; 229; 130; 214; 164; 54; 182; 255; 232; 223; 16; 251;
  240; 229; 113; 254; 133; 35; 0; 179; 69; 118; 4; 132; 152; 27; 168; 100; 127; 156; 78; 95;
  29; 53; 66; 67; 45; 245; 86; 103; 15; 49; 168; 151; 236; 16; 6; 152; 17; 47; 210; 98;
  93; 196; 103; 47; 71; 107; 86; 218; 34; 58; 254; 6; 128; 51; 36; 131; 112; 37; 32; 7;
  17; 181; 50; 38; 190; 126; 179; 46; 4; 145; 3; 211; 1; 56; 164; 217; 217; 73; 71; 90;
  81; 189; 78; 10; 77; 65; 50; 88; 197; 21; 93; 123; 112; 83; 250; 100; 105; 95; 222; 77;
  100; 66; 96; 131; 91; 120; 100; 218; 137; 198; 239; 27; 101; 51; 191; 126; 99; 115; 13; 114;
  116; 124; 19; 167; 48; 130; 90; 61; 125; 197; 126; 70; 144; 142; 18; 33; 167; 213; 137; 23;
  170; 153; 90; 201; 174; 189; 142; 139; 11; 48; 50; 164; 148; 29; 219; 149; 198; 152; 154; 130;
  124; 144; 94; 184; 91; 136; 230; 175; 52; 154; 0; 166; 0; 0; 39].
Definition _td19 : bytes := string_array [
  4; 95; 244; 3; 8; 131; 248; 248; 5; 170; 101; 85; 12; 29; 98; 175; 89; 17; 49; 164;
  225; 21; 26; 139; 253; 87; 21; 88; 179; 35; 30; 31; 234; 227; 37; 40; 76; 219; 117; 39;
  50; 122; 213; 62; 42; 64; 44; 47; 112; 60; 61; 239; 16; 56; 175; 134; 56; 251; 58; 15;
  113; 49; 1; 242; 189; 74; 117; 1; 161; 197; 71; 128; 65; 169; 64; 171; 77; 246; 14; 89;
  27; 81; 77; 85; 221; 37; 84; 71; 88; 189; 88; 94; 92; 95; 30; 244; 96; 121; 98; 6;
  155; 53; 99; 193; 109; 121; 216; 111; 69; 108; 107; 70; 206; 97; 116; 39; 254; 112; 75; 114;
  81; 24; 124; 179; 38; 205; 120; 35; 9; 132; 143; 136; 132; 134; 137; 138; 171; 127; 201; 139;
  115; 9; 19; 99; 205; 146; 87; 156; 17; 151; 22; 147; 154; 62; 154; 158; 176; 116; 158; 75;
  128; 167; 162; 163; 29; 165; 162; 37; 169; 173; 170; 131; 220; 196; 30; 223; 183; 137; 66; 184;
  52; 106; 182; 56; 72; 243; 122; 119; 77; 169; 46; 191; 227; 145; 215; 243; 231; 85; 211; 183;
  200; 234; 68; 194; 0; 213; 249; 206; 213; 145; 208; 240; 213; 36; 215; 202; 136; 215; 251; 219;
  66; 29; 82; 174; 248; 209; 202; 115; 180; 253; 246; 207; 88; 168; 229; 31; 60; 224; 242; 191;
  9; 241; 11; 242; 213; 229; 244; 183; 232; 238; 210; 217; 91; 61; 238; 254; 10; 225; 15; 6;
  5; 5; 73; 5; 1; 8; 65; 9; 3; 12; 6; 94; 114; 191; 194; 29; 197; 7; 38; 50;
  184; 201; 8; 203; 57; 109; 127; 13; 210; 209; 50; 39; 56; 60; 23; 54; 59; 40; 99; 41;
  61; 36; 78; 60; 178; 130; 194; 34; 5; 20; 38; 47; 60; 169; 26; 75; 51; 237; 33; 207;
  87; 55; 64; 72; 68; 84; 93; 69; 239; 72; 95; 73; 110; 236; 127; 90; 199; 208; 229; 162;
  69; 116; 102; 247; 64; 169; 122; 75; 69; 223; 74; 37; 176; 117; 96; 163; 164; 112; 170; 246;
  124; 185; 64; 251; 92; 121; 30; 68; 96; 0; 101; 67; 116; 238; 55; 117; 108; 169; 114; 115;
  31; 0; 123; 124; 128; 129; 98; 142; 132; 185; 69; 173; 203; 5; 249; 170; 148; 13; 130; 174;
  218; 224; 149; 243; 150; 84; 145; 80; 2; 109; 134; 147; 140; 61; 154; 158; 165; 245; 153; 227;
  168; 239; 246; 221; 178; 35; 248; 173; 240; 67; 158; 183; 186; 251; 76; 90; 175; 21; 228; 177;
  26; 49; 234; 190; 208; 88; 84; 185; 3; 99; 222; 189; 165; 164; 216; 253; 213; 201; 193; 226;
  221; 211; 69; 200; 128; 200; 30; 58; 210; 249; 192; 195; 217; 12; 171; 208; 161; 105; 213; 47;
  21; 73; 227; 160; 232; 85; 160; 109; 24; 252; 106; 171; 168; 221; 110; 143; 238; 143; 160; 228;
  212; 212; 113; 246; 8; 218; 130; 224; 236; 31; 252; 239; 8; 37; 4; 19; 132; 9; 221; 187;
  184; 13; 42; 24; 29; 77; 42; 154; 225; 80; 178; 24; 39; 82; 159; 23; 216; 138; 218; 144;
  92; 140; 222; 145; 32; 97; 182; 227; 51; 21; 69; 115; 43; 45; 6; 35; 12; 10; 122; 39;
  108; 50; 110; 51; 188; 246; 55; 4; 254; 102; 250; 88; 164; 125; 94; 127; 0; 105; 195; 107;
  84; 103; 70; 96; 200; 189; 73; 15; 69; 65; 74; 99; 17; 120; 66; 71; 221; 23; 84; 71;
  126; 10; 26; 41; 76; 157; 10; 159; 16; 33; 72; 35; 9; 77; 102; 66; 88; 26; 222; 109;
  64; 103; 50; 43; 118; 245; 67; 88; 152; 255; 35; 151; 81; 63; 122; 248; 60; 1; 62; 0;
  192; 249; 66; 163; 250; 69; 254; 215; 175; 105; 160; 247; 136; 205; 90; 136; 188; 149; 22; 148;
  132; 188; 18; 67; 31; 238; 75; 176; 24; 220; 184; 30; 224; 135; 147; 143; 228; 51; 166; 141;
  152; 58; 6; 74; 133; 241; 46; 239; 37; 241; 238; 115; 34; 117; 150; 152; 184; 46; 10; 144;
  140; 254; 242; 186; 196; 227; 200; 211; 244; 57; 79; 24; 24; 226; 13; 170; 204; 141; 100; 15;
  142; 145; 127; 19; 155; 148; 246; 230; 32; 38; 181; 157; 141; 61; 255; 255; 240; 202; 103; 190;
  235; 133; 255; 208; 232; 152; 202; 222; 194; 249; 139; 78; 162; 249; 46; 138; 226; 244; 6; 214;
  152; 233; 44; 186; 222; 225; 252; 153; 32; 143; 17; 130; 32; 132; 22; 51; 40; 136; 10; 4;
  141; 17; 239; 35; 112; 247; 234; 51; 30; 173; 26; 95; 19; 57; 47; 99; 23; 29; 150; 19;
  27; 34; 68; 175; 140; 165; 46; 100; 169; 130; 154; 8; 173; 157; 174; 106; 180; 112; 4; 211;
  0; 173; 57; 79; 42; 201; 12; 187; 4; 47; 86; 48; 72; 83; 244; 146; 113; 101; 77; 198;
  162; 201; 82; 74; 116; 87; 207; 71; 188; 33; 109; 179; 96; 93; 91; 111; 76; 216; 186; 99;
  212; 73; 6; 82; 184; 117; 82; 64; 37; 149; 85; 230; 232; 89; 235; 237; 157; 84; 227; 111;
  240; 88; 35; 61; 20; 179; 126; 123; 96; 17; 105; 195; 44; 72; 127; 68; 136; 149; 117; 194;
  52; 188; 10; 88; 8; 207; 11; 91; 183; 198; 206; 14; 116; 17; 194; 18; 197; 37; 172; 31;
  15; 184; 161; 91; 160; 237; 165; 135; 177; 156; 229; 166; 100; 156; 228; 164; 8; 157; 43; 87;
  44; 184; 95; 146; 188; 145; 179; 239; 212; 147; 119; 38; 133; 81; 58; 47; 114; 61; 238; 131;
  10; 224; 253; 7; 228; 69; 248; 239; 46; 241; 219; 235; 245; 37; 46; 235; 221; 41; 66; 220;
  204; 217; 30; 23; 230; 85; 125; 250; 224; 205; 119; 95; 169; 96; 2; 163; 163; 20; 25; 239;
  55; 101; 72; 251; 207; 173; 172; 84; 211; 243; 234; 131; 208; 154; 246; 37; 192; 251; 220; 95;
  70; 189; 76; 222; 8; 126; 114; 1; 4; 0; 0; 32].
Definition _td20 : bytes := string_array [
  4; 229; 5; 3; 229; 127; 248; 248; 3; 18; 12; 218; 12; 14; 38; 15; 98; 16; 31; 190;
  59; 21; 86; 27; 96; 142; 83; 27; 67; 49; 30; 100; 44; 252; 254; 235; 41; 18; 195; 39;
  22; 41; 114; 179; 212; 38; 70; 209; 32; 121; 250; 209; 202; 85; 54; 211; 60; 57; 58; 23;
  188; 60; 213; 2; 70; 65; 53; 83; 68; 65; 196; 70; 72; 74; 250; 81; 231; 75; 78; 111;
  82; 177; 81; 163; 149; 43; 70; 64; 72; 217; 26; 107; 220; 109; 90; 123; 31; 118; 103; 115;
  97; 226; 6; 98; 230; 190; 122; 33; 105; 45; 246; 86; 170; 114; 100; 118; 84; 115; 116; 119;
  125; 183; 121; 141; 184; 230; 254; 230; 192; 34; 193; 35; 178; 165; 196; 183; 143; 41; 170; 202;
  172; 186; 122; 133; 144; 151; 92; 145; 180; 243; 149; 45; 154; 203; 219; 147; 162; 222; 156; 39;
  80; 167; 193; 226; 68; 233; 6; 229; 184; 137; 228; 75; 239; 141; 167; 111; 190; 41; 146; 130;
  82; 180; 216; 179; 184; 179; 36; 191; 188; 191; 188; 5; 68; 61; 66; 218; 231; 200; 166; 192;
  141; 136; 195; 234; 199; 109; 138; 59; 223; 208; 34; 212; 106; 212; 48; 212; 2; 216; 216; 219;
  216; 63; 223; 37; 35; 240; 99; 250; 228; 70; 210; 199; 218; 73; 222; 11; 221; 173; 206; 218;
  144; 192; 174; 226; 20; 252; 148; 167; 250; 147; 249; 161; 13; 240; 168; 222; 8; 33; 11; 195;
  8; 38; 65; 39; 5; 41; 76; 171; 63; 77; 238; 75; 240; 37; 210; 0; 20; 19; 32; 39;
  26; 111; 30; 13; 253; 18; 158; 21; 170; 165; 242; 31; 165; 188; 234; 134; 39; 143; 75; 35;
  60; 37; 56; 85; 16; 61; 99; 34; 9; 149; 38; 84; 11; 89; 174; 110; 220; 60; 44; 95;
  112; 76; 23; 151; 149; 85; 70; 65; 76; 155; 73; 69; 72; 135; 77; 69; 22; 17; 65; 208;
  149; 68; 116; 118; 56; 26; 80; 59; 173; 78; 130; 158; 114; 223; 96; 17; 97; 117; 200; 101;
  10; 108; 106; 122; 14; 232; 55; 238; 178; 125; 146; 65; 20; 70; 214; 70; 169; 108; 50; 86;
  212; 104; 190; 114; 154; 131; 114; 145; 182; 196; 39; 145; 178; 139; 132; 79; 208; 60; 128; 166;
  17; 1; 128; 179; 184; 117; 206; 119; 181; 121; 141; 175; 0; 139; 238; 137; 86; 176; 179; 35;
  188; 131; 165; 167; 70; 171; 180; 104; 83; 210; 157; 37; 242; 179; 34; 182; 5; 68; 99; 234;
  40; 160; 6; 127; 189; 173; 142; 165; 110; 169; 52; 179; 199; 103; 220; 197; 196; 25; 208; 198;
  179; 170; 242; 195; 255; 209; 137; 155; 212; 245; 166; 131; 213; 114; 158; 107; 21; 62; 223; 249;
  140; 24; 131; 225; 129; 193; 28; 152; 41; 235; 68; 234; 252; 246; 161; 47; 240; 9; 254; 155;
  86; 176; 246; 24; 5; 187; 220; 22; 231; 172; 40; 161; 255; 209; 0; 228; 5; 133; 31; 23;
  134; 10; 15; 11; 14; 104; 60; 191; 0; 20; 66; 236; 183; 15; 181; 13; 21; 5; 58; 65;
  48; 16; 232; 101; 112; 32; 128; 168; 4; 167; 42; 244; 26; 248; 9; 55; 98; 195; 141; 207;
  42; 193; 44; 107; 194; 152; 119; 40; 112; 89; 62; 157; 44; 205; 60; 238; 95; 76; 181; 99;
  100; 124; 31; 103; 24; 101; 23; 74; 160; 44; 77; 223; 244; 82; 2; 71; 112; 238; 214; 115;
  96; 185; 89; 219; 81; 215; 26; 47; 118; 181; 102; 27; 255; 112; 5; 98; 22; 65; 184; 122;
  114; 157; 107; 70; 144; 101; 244; 119; 102; 179; 198; 80; 188; 10; 154; 115; 95; 94; 158; 255;
  186; 97; 163; 163; 184; 37; 153; 55; 160; 173; 94; 130; 110; 132; 8; 140; 192; 184; 8; 144;
  180; 107; 151; 37; 219; 59; 120; 147; 252; 168; 58; 191; 224; 209; 165; 67; 154; 213; 161; 59;
  72; 174; 178; 154; 106; 172; 158; 188; 128; 189; 72; 176; 106; 165; 183; 73; 187; 106; 139; 147;
  141; 29; 245; 155; 32; 238; 98; 202; 36; 235; 102; 206; 112; 196; 147; 235; 231; 7; 207; 223;
  195; 225; 255; 101; 101; 254; 116; 83; 219; 52; 10; 209; 63; 242; 190; 233; 96; 236; 241; 162;
  202; 229; 244; 211; 96; 41; 225; 218; 206; 239; 174; 45; 244; 163; 240; 97; 240; 149; 248; 101;
  188; 125; 238; 59; 239; 30; 190; 223; 64; 14; 63; 169; 36; 133; 1; 59; 120; 57; 234; 219;
  28; 60; 14; 30; 60; 139; 22; 179; 51; 149; 57; 129; 136; 8; 94; 37; 149; 189; 14; 188;
  6; 97; 54; 3; 1; 197; 54; 46; 33; 73; 2; 106; 196; 92; 58; 221; 49; 159; 49; 112;
  52; 6; 102; 36; 214; 56; 244; 248; 237; 12; 29; 47; 95; 161; 8; 99; 164; 109; 14; 231;
  86; 81; 234; 12; 112; 44; 88; 79; 73; 15; 81; 169; 21; 84; 99; 85; 91; 63; 25; 13;
  173; 114; 110; 79; 192; 45; 66; 77; 100; 83; 6; 76; 8; 77; 37; 227; 60; 117; 87; 69;
  64; 84; 113; 97; 246; 113; 54; 121; 154; 122; 16; 184; 17; 28; 105; 255; 172; 225; 214; 35;
  175; 101; 213; 231; 190; 232; 186; 179; 112; 114; 185; 44; 48; 145; 146; 182; 209; 149; 63; 184;
  145; 153; 218; 134; 156; 142; 30; 174; 150; 41; 127; 37; 237; 166; 54; 129; 172; 200; 238; 74;
  140; 138; 64; 93; 188; 184; 176; 21; 196; 148; 147; 93; 154; 183; 82; 184; 158; 92; 93; 190;
  163; 126; 210; 66; 230; 29; 40; 157; 225; 40; 232; 151; 140; 208; 158; 213; 209; 160; 241; 179;
  222; 124; 198; 237; 188; 131; 250; 65; 8; 111; 208; 219; 75; 127; 2; 217; 2; 220; 229; 234;
  15; 173; 99; 33; 159; 214; 140; 170; 10; 144; 240; 90; 128; 235; 191; 166; 196; 173; 123; 228;
  140; 226; 143; 220; 168; 7; 219; 226; 60; 95; 38; 45; 133; 204; 6; 61; 13; 220; 52; 92;
  51; 230; 31; 170; 0; 245; 7; 20; 58; 45; 202; 20; 237; 38; 59; 242; 23; 44; 99; 60;
  236; 37; 28; 0; 0; 13].
Definition _td21 : bytes := string_array [
  4; 30; 93; 3; 237; 153; 251; 248; 24; 166; 14; 14; 140; 13; 12; 14; 18; 17; 18; 130;
  196; 21; 23; 0; 25; 53; 174; 27; 239; 131; 22; 31; 32; 141; 34; 39; 166; 36; 34; 39;
  136; 61; 220; 144; 188; 44; 22; 95; 50; 129; 233; 181; 52; 37; 16; 247; 180; 8; 39; 11;
  20; 57; 110; 35; 224; 66; 242; 88; 148; 109; 164; 199; 76; 133; 86; 110; 78; 140; 79; 207;
  84; 81; 157; 82; 115; 87; 135; 54; 36; 153; 90; 151; 173; 70; 46; 71; 16; 122; 146; 33;
  124; 101; 98; 87; 113; 253; 98; 11; 104; 118; 118; 110; 143; 112; 210; 117; 228; 115; 143; 119;
  127; 125; 152; 240; 44; 120; 15; 96; 48; 155; 242; 131; 155; 149; 156; 151; 168; 249; 147; 129;
  12; 135; 66; 151; 103; 144; 209; 145; 244; 157; 222; 218; 154; 116; 42; 147; 222; 57; 206; 154;
  17; 161; 180; 179; 131; 181; 176; 23; 143; 89; 10; 190; 60; 138; 52; 164; 240; 185; 89; 179;
  179; 165; 180; 66; 184; 168; 42; 179; 188; 178; 92; 191; 63; 126; 219; 134; 197; 197; 70; 59;
  128; 54; 181; 238; 204; 204; 16; 207; 80; 218; 109; 253; 236; 181; 221; 22; 216; 88; 219; 216;
  124; 209; 206; 52; 89; 147; 226; 193; 145; 236; 231; 101; 233; 89; 232; 31; 29; 236; 236; 255;
  192; 243; 162; 246; 116; 181; 198; 119; 169; 57; 248; 193; 242; 233; 46; 255; 135; 113; 15; 241;
  76; 192; 17; 169; 184; 7; 2; 13; 204; 3; 14; 91; 213; 105; 210; 19; 244; 213; 24; 87;
  168; 31; 217; 129; 10; 141; 30; 222; 64; 48; 98; 47; 33; 117; 246; 43; 42; 53; 74; 39;
  12; 105; 73; 55; 51; 113; 186; 19; 44; 117; 102; 56; 82; 162; 48; 139; 45; 63; 125; 159;
  79; 207; 190; 79; 33; 69; 78; 3; 76; 74; 234; 69; 108; 89; 16; 31; 91; 33; 83; 163;
  71; 53; 219; 194; 57; 120; 90; 218; 24; 61; 94; 31; 116; 21; 146; 77; 180; 105; 104; 102;
  40; 125; 86; 103; 78; 105; 74; 95; 19; 241; 46; 116; 80; 127; 18; 112; 84; 24; 108; 123;
  8; 247; 239; 125; 179; 198; 206; 195; 140; 252; 70; 204; 200; 158; 202; 192; 76; 245; 142; 231;
  188; 161; 17; 108; 107; 243; 130; 192; 24; 153; 122; 148; 188; 133; 59; 79; 178; 217; 98; 175;
  27; 5; 227; 239; 201; 181; 164; 216; 160; 161; 159; 161; 173; 161; 163; 70; 37; 187; 198; 174;
  251; 187; 138; 161; 27; 252; 125; 189; 160; 177; 18; 211; 198; 209; 201; 233; 138; 46; 94; 196;
  88; 192; 212; 105; 228; 193; 18; 215; 239; 106; 21; 199; 88; 235; 200; 152; 148; 140; 186; 206;
  40; 244; 186; 51; 246; 217; 198; 245; 152; 233; 0; 172; 52; 202; 142; 41; 184; 251; 178; 155;
  251; 157; 255; 127; 246; 105; 229; 195; 252; 243; 60; 253; 102; 143; 128; 131; 226; 65; 134; 128;
  107; 41; 239; 59; 35; 61; 17; 39; 16; 24; 58; 28; 108; 28; 110; 24; 192; 57; 18; 3;
  12; 209; 29; 47; 0; 184; 162; 163; 19; 164; 133; 167; 5; 168; 130; 187; 14; 105; 31; 107;
  1; 46; 34; 139; 59; 5; 21; 207; 60; 54; 2; 123; 44; 45; 143; 59; 38; 205; 98; 132;
  196; 36; 199; 147; 9; 109; 150; 203; 12; 20; 223; 2; 48; 87; 136; 83; 112; 219; 214; 165;
  216; 98; 219; 175; 220; 96; 207; 122; 96; 32; 163; 50; 4; 227; 206; 108; 64; 233; 121; 131;
  103; 133; 124; 75; 117; 97; 86; 227; 236; 245; 113; 246; 104; 94; 115; 250; 60; 95; 126; 117;
  209; 211; 226; 101; 44; 148; 62; 133; 154; 137; 162; 19; 159; 229; 158; 87; 132; 219; 180; 115;
  178; 229; 70; 176; 190; 177; 74; 179; 18; 157; 101; 31; 153; 32; 90; 35; 152; 36; 175; 199;
  141; 149; 59; 123; 139; 107; 102; 163; 216; 161; 167; 155; 185; 189; 39; 157; 144; 173; 110; 168;
  93; 155; 206; 150; 232; 64; 162; 232; 225; 68; 58; 71; 72; 237; 59; 52; 19; 65; 108; 95;
  206; 219; 146; 18; 196; 206; 6; 207; 183; 217; 206; 47; 140; 218; 246; 71; 100; 146; 239; 99;
  68; 240; 230; 231; 227; 242; 236; 7; 239; 197; 238; 145; 80; 240; 222; 133; 244; 3; 7; 246;
  115; 217; 218; 187; 112; 45; 126; 41; 128; 211; 83; 44; 215; 21; 134; 208; 232; 48; 235; 44;
  28; 229; 0; 41; 72; 80; 34; 98; 55; 27; 213; 22; 60; 162; 154; 3; 41; 156; 160; 175;
  61; 64; 19; 13; 37; 106; 179; 39; 13; 52; 27; 0; 195; 237; 31; 174; 219; 64; 0; 37;
  222; 229; 20; 17; 18; 97; 75; 17; 52; 49; 134; 173; 85; 225; 90; 142; 108; 85; 85; 71;
  172; 89; 126; 106; 252; 71; 78; 191; 86; 177; 194; 103; 107; 183; 194; 197; 74; 218; 67; 67;
  141; 81; 189; 92; 225; 97; 64; 228; 164; 100; 102; 113; 151; 112; 107; 254; 108; 231; 153; 254;
  126; 11; 246; 105; 36; 213; 222; 247; 104; 251; 170; 187; 102; 93; 250; 253; 240; 178; 195; 132;
  164; 148; 86; 153; 152; 155; 202; 178; 220; 159; 158; 159; 143; 127; 145; 195; 146; 76; 151; 32;
  154; 152; 186; 161; 49; 156; 125; 158; 3; 192; 224; 225; 196; 166; 215; 191; 248; 131; 58; 174;
  28; 133; 135; 95; 169; 81; 177; 133; 229; 177; 171; 182; 160; 16; 187; 144; 141; 135; 238; 131;
  121; 0; 138; 202; 56; 255; 30; 194; 200; 243; 55; 202; 247; 207; 143; 207; 238; 150; 208; 40;
  213; 156; 208; 220; 4; 209; 80; 21; 152; 31; 213; 195; 123; 238; 212; 247; 96; 154; 18; 209;
  238; 89; 243; 230; 163; 186; 238; 59; 252; 140; 122; 205; 244; 142; 14; 247; 11; 245; 31; 80;
  216; 243; 201; 26; 1; 17; 67; 158; 138; 54; 13; 111; 246; 220; 34; 232; 65; 243; 30; 33;
  83; 129; 42; 63; 174; 9; 22; 239; 137; 46; 26; 91; 143; 7; 238; 184; 139; 164; 66; 27;
  236; 132; 101; 99; 86; 249; 59; 159; 55; 37; 236; 8; 39; 146; 61; 101; 215; 58; 140; 21;
  58; 122; 42; 123; 209; 210; 90; 34; 51; 91; 66; 129; 202; 68; 117; 1; 1; 9; 62; 79;
  140; 11; 110; 8; 16; 21; 146; 37; 20; 87; 116; 71; 78; 165; 82; 135; 84; 185; 86; 223;
  164; 105; 222; 107; 136; 109; 52; 102; 127; 45; 37; 43; 76; 100; 34; 175; 209; 65; 59; 51;
  116; 212; 6; 81; 72; 10; 30; 127; 200; 217; 118; 91; 129; 203; 126; 128; 164; 205; 19; 134;
  159; 9; 200; 203; 246; 77; 177; 79; 231; 176; 217; 139; 248; 205; 191; 71; 209; 233; 208; 175;
  148; 73; 58; 156; 172; 176; 238; 87; 34; 132; 190; 85; 136; 237; 116; 171; 205; 152; 31; 173;
  64; 169; 195; 163; 81; 149; 184; 211; 180; 186; 251; 245; 0; 0; 41].
Definition _td22 : bytes := string_array [
  4; 156; 21; 3; 198; 130; 251; 248; 24; 118; 9; 14; 12; 13; 12; 195; 64; 17; 18; 41;
  235; 22; 198; 23; 62; 24; 23; 191; 172; 92; 19; 119; 32; 130; 107; 35; 222; 18; 220; 42;
  243; 41; 232; 57; 34; 26; 203; 17; 48; 178; 50; 195; 39; 57; 94; 201; 222; 211; 136; 59;
  195; 36; 56; 96; 68; 65; 110; 114; 68; 68; 70; 163; 64; 73; 95; 75; 72; 205; 204; 174;
  81; 25; 135; 175; 241; 197; 87; 87; 96; 93; 74; 75; 108; 155; 142; 123; 40; 161; 110; 45;
  196; 101; 102; 66; 200; 108; 56; 62; 188; 104; 46; 110; 118; 39; 162; 118; 244; 4; 112; 45;
  109; 201; 124; 187; 157; 123; 32; 174; 133; 167; 66; 79; 132; 116; 144; 247; 161; 121; 156; 155;
  166; 191; 30; 143; 152; 187; 240; 210; 146; 85; 145; 155; 254; 194; 43; 157; 109; 149; 244; 190;
  167; 192; 171; 205; 53; 162; 129; 202; 72; 160; 216; 106; 164; 236; 164; 217; 129; 184; 242; 185;
  120; 149; 7; 166; 104; 145; 10; 219; 183; 154; 142; 15; 208; 145; 228; 185; 101; 204; 119; 205;
  182; 216; 192; 97; 228; 109; 203; 77; 80; 219; 150; 18; 216; 83; 39; 221; 149; 232; 215; 81;
  253; 209; 126; 210; 172; 111; 114; 239; 248; 133; 243; 230; 21; 232; 225; 122; 226; 29; 224; 28;
  244; 240; 219; 67; 249; 245; 243; 59; 232; 66; 250; 250; 133; 255; 75; 254; 115; 163; 92; 2;
  52; 14; 151; 22; 24; 47; 250; 26; 188; 69; 43; 191; 2; 209; 2; 93; 19; 117; 24; 30;
  16; 24; 95; 25; 124; 12; 123; 29; 51; 32; 42; 76; 134; 180; 118; 40; 108; 32; 230; 11;
  140; 184; 238; 163; 97; 47; 66; 56; 196; 228; 36; 163; 168; 38; 42; 51; 188; 93; 44; 191;
  217; 113; 80; 99; 8; 79; 138; 39; 229; 233; 88; 250; 82; 205; 254; 100; 128; 78; 194; 121;
  164; 228; 66; 119; 166; 166; 193; 10; 72; 205; 95; 87; 62; 97; 99; 141; 103; 101; 134; 106;
  40; 120; 202; 83; 154; 238; 119; 79; 70; 112; 98; 179; 119; 92; 247; 119; 101; 22; 170; 123;
  25; 119; 127; 31; 1; 145; 225; 141; 117; 19; 166; 133; 217; 77; 14; 7; 129; 69; 206; 156;
  35; 147; 181; 153; 178; 164; 149; 199; 12; 157; 76; 101; 60; 158; 92; 175; 183; 141; 52; 132;
  164; 170; 151; 163; 182; 208; 174; 139; 170; 239; 171; 175; 224; 181; 50; 243; 132; 137; 182; 30;
  172; 35; 5; 218; 169; 58; 254; 168; 194; 7; 218; 193; 106; 53; 208; 207; 78; 206; 234; 158;
  63; 205; 89; 205; 208; 81; 196; 147; 148; 21; 214; 207; 27; 125; 218; 232; 155; 129; 30; 95;
  66; 33; 190; 163; 70; 165; 185; 199; 247; 121; 186; 225; 220; 110; 30; 235; 195; 145; 98; 236;
  244; 134; 34; 241; 60; 243; 62; 253; 40; 172; 159; 223; 252; 139; 164; 211; 27; 117; 151; 24;
  175; 92; 170; 21; 140; 60; 47; 167; 96; 48; 130; 18; 52; 73; 30; 16; 100; 19; 90; 57;
  144; 23; 122; 24; 40; 181; 168; 232; 196; 4; 96; 98; 104; 143; 0; 235; 124; 51; 143; 94;
  19; 171; 195; 40; 71; 57; 118; 48; 92; 51; 230; 61; 168; 92; 26; 235; 72; 203; 5; 65;
  244; 91; 13; 135; 55; 9; 98; 5; 140; 207; 47; 106; 211; 49; 84; 99; 55; 117; 202; 95;
  12; 80; 238; 106; 122; 225; 86; 87; 44; 232; 1; 98; 65; 48; 166; 207; 40; 137; 56; 171;
  199; 45; 33; 31; 87; 33; 123; 195; 85; 71; 7; 119; 93; 113; 80; 106; 88; 61; 94; 123;
  100; 209; 135; 111; 128; 65; 87; 175; 43; 169; 162; 77; 157; 29; 171; 17; 80; 21; 2; 186;
  212; 18; 86; 159; 3; 169; 177; 139; 184; 129; 154; 67; 168; 169; 70; 160; 0; 4; 140; 131;
  32; 86; 85; 175; 202; 185; 46; 175; 176; 195; 198; 60; 107; 180; 54; 156; 192; 186; 154; 107;
  44; 221; 15; 40; 96; 231; 211; 194; 20; 194; 214; 183; 221; 194; 209; 123; 207; 205; 203; 231;
  208; 87; 211; 195; 246; 215; 255; 86; 216; 100; 86; 107; 199; 193; 100; 200; 212; 5; 242; 72;
  235; 3; 121; 55; 240; 223; 151; 172; 252; 224; 118; 167; 93; 146; 235; 104; 113; 40; 244; 252;
  8; 224; 109; 236; 61; 2; 235; 249; 154; 107; 210; 0; 20; 117; 28; 54; 31; 5; 192; 43;
  34; 207; 21; 182; 7; 61; 92; 18; 22; 244; 12; 103; 14; 28; 148; 31; 236; 82; 2; 7;
  110; 36; 186; 34; 116; 112; 166; 62; 124; 89; 31; 170; 141; 24; 77; 175; 96; 209; 87; 83;
  121; 213; 84; 183; 14; 145; 90; 89; 96; 76; 11; 105; 240; 82; 38; 83; 115; 69; 127; 89;
  76; 135; 73; 81; 72; 159; 218; 76; 70; 81; 106; 208; 20; 98; 79; 59; 216; 110; 238; 82;
  11; 221; 102; 43; 129; 84; 131; 91; 24; 116; 81; 61; 48; 217; 95; 239; 77; 84; 175; 86;
  252; 224; 75; 42; 113; 53; 76; 227; 249; 78; 252; 120; 46; 120; 12; 62; 161; 186; 236; 128;
  210; 64; 232; 55; 178; 42; 10; 205; 236; 206; 174; 198; 112; 209; 211; 175; 12; 172; 130; 155;
  8; 174; 170; 157; 154; 152; 158; 162; 228; 123; 166; 131; 173; 99; 162; 96; 73; 146; 142; 171;
  76; 146; 14; 139; 144; 143; 146; 149; 164; 21; 138; 119; 169; 121; 130; 158; 61; 164; 190; 11;
  210; 89; 243; 121; 198; 159; 197; 199; 6; 203; 140; 200; 106; 207; 208; 204; 208; 255; 83; 74;
  247; 240; 182; 152; 248; 81; 255; 59; 146; 237; 224; 191; 174; 9; 210; 220; 224; 220; 60; 150;
  215; 75; 232; 201; 239; 127; 39; 79; 177; 50; 194; 243; 203; 205; 229; 183; 199; 105; 187; 91;
  182; 254; 72; 253; 54; 130; 67; 59; 52; 69; 18; 151; 28; 137; 63; 64; 12; 50; 173; 38;
  112; 49; 39; 115; 62; 181; 34; 55; 92; 121; 46; 95; 20; 8; 94; 32; 66; 37; 28; 83;
  25; 33; 164; 101; 57; 108; 156; 239; 211; 82; 29; 255; 61; 16; 146; 31; 237; 165; 11; 76;
  200; 124; 230; 58; 60; 13; 56; 128; 199; 1; 202; 138; 165; 73; 49; 88; 91; 72; 0; 0;
  64].
Definition _td23 : bytes := string_array [
  4; 179; 151; 3; 102; 134; 251; 248; 5; 7; 80; 177; 12; 3; 31; 153; 89; 17; 109; 36;
  226; 21; 27; 122; 21; 57; 20; 44; 249; 35; 30; 31; 65; 118; 158; 47; 76; 219; 87; 39;
  58; 49; 213; 60; 42; 247; 42; 47; 48; 29; 36; 50; 52; 196; 62; 55; 24; 57; 58; 63;
  190; 220; 63; 119; 149; 189; 66; 230; 68; 69; 126; 67; 88; 89; 122; 75; 138; 157; 118; 143;
  92; 205; 81; 159; 84; 113; 22; 151; 20; 79; 94; 151; 216; 87; 31; 239; 100; 51; 130; 103;
  120; 110; 100; 254; 96; 107; 147; 106; 204; 104; 179; 110; 197; 83; 114; 35; 180; 249; 135; 99;
  232; 98; 74; 127; 105; 173; 223; 121; 176; 156; 132; 134; 72; 133; 6; 218; 72; 69; 187; 170;
  252; 173; 158; 159; 178; 1; 141; 114; 147; 136; 156; 145; 185; 249; 159; 96; 156; 208; 156; 63;
  168; 226; 160; 3; 85; 165; 159; 69; 203; 233; 174; 235; 221; 165; 142; 80; 176; 148; 176; 70;
  85; 188; 83; 183; 176; 172; 152; 223; 60; 186; 111; 174; 144; 230; 130; 19; 213; 117; 224; 247;
  216; 233; 193; 169; 204; 202; 2; 215; 63; 208; 65; 210; 1; 213; 215; 122; 217; 2; 219; 104;
  189; 167; 223; 111; 228; 112; 247; 83; 255; 117; 243; 119; 236; 245; 60; 122; 231; 248; 236; 46;
  241; 248; 98; 241; 65; 244; 11; 231; 254; 216; 119; 171; 250; 253; 175; 224; 208; 25; 82; 30;
  212; 31; 70; 183; 21; 57; 17; 27; 5; 173; 5; 164; 144; 16; 165; 17; 183; 20; 185; 21;
  120; 22; 92; 188; 140; 24; 95; 17; 61; 177; 10; 51; 35; 85; 14; 15; 216; 53; 154; 59;
  142; 28; 33; 214; 48; 54; 50; 63; 180; 36; 70; 38; 61; 56; 235; 218; 195; 21; 129; 166;
  124; 241; 64; 195; 52; 71; 134; 105; 141; 233; 73; 149; 92; 78; 78; 15; 105; 49; 64; 147;
  70; 84; 35; 68; 85; 116; 160; 146; 81; 200; 253; 126; 160; 97; 232; 181; 162; 107; 74; 102;
  36; 144; 254; 198; 145; 45; 108; 170; 160; 98; 98; 182; 180; 100; 166; 119; 122; 198; 113; 219;
  127; 42; 174; 118; 231; 146; 202; 147; 137; 135; 231; 145; 95; 234; 250; 156; 186; 12; 103; 153;
  157; 165; 166; 141; 155; 155; 199; 131; 16; 42; 221; 24; 33; 137; 106; 140; 128; 144; 160; 236;
  84; 172; 38; 176; 168; 160; 203; 189; 42; 113; 110; 189; 117; 179; 76; 234; 172; 142; 44; 141;
  180; 144; 31; 186; 220; 164; 67; 203; 225; 205; 91; 86; 220; 212; 146; 198; 180; 16; 193; 75;
  214; 255; 13; 63; 240; 46; 200; 213; 77; 214; 246; 193; 101; 221; 51; 186; 199; 100; 65; 111;
  246; 168; 8; 245; 132; 231; 132; 252; 226; 59; 250; 243; 250; 167; 246; 111; 38; 27; 252; 183;
  12; 104; 246; 234; 221; 192; 23; 230; 253; 35; 106; 238; 69; 208; 24; 33; 196; 18; 42; 85;
  152; 24; 175; 218; 14; 114; 254; 29; 192; 37; 98; 26; 118; 101; 18; 23; 0; 190; 27; 156;
  30; 128; 31; 98; 132; 35; 81; 99; 1; 199; 16; 87; 33; 133; 234; 15; 56; 237; 102; 127;
  54; 224; 226; 61; 28; 133; 44; 98; 72; 41; 42; 154; 26; 145; 111; 58; 13; 161; 83; 66;
  14; 20; 231; 86; 29; 185; 65; 138; 2; 141; 107; 179; 73; 113; 117; 19; 5; 100; 70; 183;
  91; 122; 42; 74; 12; 173; 127; 111; 115; 113; 75; 65; 20; 109; 126; 71; 233; 104; 21; 105;
  1; 172; 71; 6; 113; 213; 241; 49; 228; 127; 122; 49; 248; 80; 250; 10; 86; 247; 52; 207;
  170; 65; 98; 169; 200; 212; 144; 103; 130; 169; 218; 157; 156; 170; 192; 47; 153; 177; 247; 198;
  180; 144; 194; 54; 145; 172; 74; 144; 158; 45; 178; 22; 52; 163; 185; 163; 137; 199; 230; 139;
  164; 231; 234; 166; 172; 177; 177; 174; 145; 179; 155; 178; 163; 164; 167; 153; 177; 123; 207; 139;
  154; 12; 157; 47; 112; 224; 114; 224; 148; 228; 233; 215; 231; 81; 139; 198; 220; 136; 207; 242;
  210; 1; 253; 148; 214; 158; 254; 214; 149; 187; 90; 215; 208; 107; 210; 79; 232; 206; 34; 206;
  148; 232; 150; 192; 158; 228; 75; 218; 202; 245; 126; 227; 215; 225; 98; 253; 52; 211; 238; 7;
  208; 171; 56; 241; 108; 212; 121; 254; 115; 3; 114; 48; 84; 32; 20; 126; 136; 44; 136; 164;
  156; 37; 63; 29; 64; 57; 59; 195; 6; 101; 48; 103; 104; 45; 50; 91; 50; 22; 158; 23;
  144; 8; 114; 6; 99; 84; 19; 100; 41; 49; 171; 169; 153; 156; 0; 63; 56; 22; 66; 44;
  55; 149; 29; 167; 14; 233; 19; 197; 195; 166; 87; 21; 78; 241; 89; 203; 148; 105; 108; 247;
  86; 169; 71; 139; 140; 223; 217; 49; 19; 72; 82; 80; 146; 74; 133; 87; 78; 152; 77; 181;
  36; 237; 72; 59; 138; 119; 98; 120; 141; 100; 121; 193; 184; 25; 83; 9; 230; 114; 206; 113;
  81; 72; 96; 156; 20; 85; 118; 34; 50; 97; 46; 113; 1; 21; 114; 55; 36; 129; 159; 88;
  68; 141; 59; 158; 122; 61; 80; 225; 93; 151; 255; 15; 130; 113; 149; 150; 117; 174; 138; 185;
  41; 41; 186; 91; 134; 37; 167; 179; 58; 160; 169; 179; 173; 133; 130; 148; 248; 141; 90; 164;
  44; 237; 12; 159; 225; 162; 34; 154; 161; 213; 129; 48; 232; 166; 58; 255; 158; 173; 208; 188;
  88; 240; 114; 244; 212; 51; 194; 85; 202; 41; 136; 181; 206; 199; 206; 74; 235; 81; 75; 48;
  149; 181; 157; 215; 56; 152; 122; 147; 252; 158; 190; 152; 192; 149; 228; 123; 101; 142; 119; 164;
  220; 9; 106; 189; 140; 221; 142; 189; 208; 218; 178; 182; 112; 245; 241; 103; 188; 139; 122; 226;
  92; 77; 187; 251; 137; 139; 242; 70; 0; 12; 158; 198; 152; 12; 106; 77; 188; 157; 72; 54;
  178; 18; 236; 23; 21; 37; 81; 49; 29; 131; 25; 53; 217; 128; 23; 143; 99; 109; 40; 131;
  102; 79; 36; 237; 43; 161; 112; 41; 150; 188; 102; 181; 115; 148; 226; 117; 180; 150; 20; 87;
  3; 25; 25; 219; 189; 116; 46; 31; 125; 101; 73; 83; 3; 235; 68; 217; 88; 77; 220; 73;
  250; 204; 4; 133; 212; 227; 27; 51; 18; 54; 97; 23; 29; 57; 102; 219; 25; 253; 78; 98;
  192; 50; 254; 67; 46; 84; 92; 99; 45; 41; 38; 77; 63; 33; 100; 107; 187; 176; 54; 89;
  116; 149; 59; 151; 82; 89; 53; 155; 84; 205; 94; 46; 52; 141; 18; 199; 133; 200; 165; 23;
  195; 223; 198; 251; 197; 13; 192; 175; 80; 216; 222; 147; 183; 13; 196; 150; 200; 158; 3; 95;
  172; 210; 23; 255; 239; 184; 200; 111; 149; 234; 107; 71; 231; 125; 186; 251; 236; 164; 172; 239;
  194; 180; 112; 177; 38; 176; 230; 253; 42; 19; 63; 250; 236; 97; 175; 239; 14; 65; 147; 39;
  197; 139; 19; 38; 153; 37; 123; 154; 3; 173; 156; 59; 241; 131; 19; 129; 222; 41; 71; 133;
  8; 41; 139; 56; 224; 253; 141; 221; 0; 113; 169; 182; 4; 223; 134; 176; 216; 107; 228; 203;
  160; 143; 236; 49; 243; 135; 131; 187; 101; 229; 163; 85; 123; 23; 138; 180; 95; 191; 206; 187;
  4; 161; 64; 83; 64; 101; 66; 39; 65; 33; 72; 26; 156; 93; 124; 13; 102; 18; 210; 69;
  34; 21; 21; 145; 26; 59; 89; 49; 157; 132; 92; 124; 32; 101; 111; 67; 100; 133; 246; 105;
  20; 169; 202; 123; 208; 210; 25; 140; 24; 128; 115; 32; 69; 117; 22; 11; 248; 34; 155; 122;
  188; 186; 99; 37; 83; 34; 2; 35; 180; 101; 0; 0; 128].
Definition _td24 : bytes := string_array [
  4; 62; 65; 3; 79; 126; 251; 248; 5; 138; 248; 37; 12; 2; 141; 170; 89; 17; 39; 232;
  84; 21; 27; 26; 165; 208; 23; 44; 249; 35; 30; 31; 44; 150; 88; 40; 76; 219; 95; 39;
  49; 89; 213; 11; 42; 10; 42; 47; 176; 60; 195; 228; 142; 57; 3; 58; 248; 57; 178; 27;
  73; 69; 35; 62; 231; 147; 43; 114; 70; 71; 232; 55; 74; 101; 89; 74; 236; 69; 71; 15;
  80; 77; 82; 87; 214; 84; 38; 85; 184; 81; 13; 251; 92; 77; 93; 89; 96; 113; 35; 99;
  218; 181; 80; 167; 100; 7; 105; 167; 120; 109; 89; 239; 118; 189; 194; 117; 104; 68; 119; 87;
  253; 123; 95; 122; 5; 252; 121; 48; 98; 129; 207; 67; 72; 180; 164; 87; 150; 185; 138; 169;
  220; 150; 94; 146; 96; 135; 166; 209; 147; 165; 145; 94; 153; 10; 152; 219; 149; 0; 222; 157;
  11; 160; 25; 161; 216; 133; 174; 22; 168; 166; 122; 138; 156; 162; 254; 142; 96; 163; 188; 35;
  190; 149; 191; 151; 177; 150; 187; 214; 172; 191; 159; 190; 187; 160; 201; 86; 6; 94; 230; 7;
  68; 184; 234; 59; 28; 197; 209; 191; 144; 204; 98; 204; 100; 200; 22; 214; 211; 190; 154; 218;
  97; 220; 181; 222; 33; 176; 239; 38; 224; 100; 73; 231; 228; 88; 248; 91; 197; 253; 235; 191;
  254; 214; 162; 253; 36; 208; 240; 252; 52; 237; 122; 75; 12; 251; 224; 31; 14; 25; 23; 1;
  4; 44; 4; 8; 10; 42; 8; 12; 14; 5; 37; 77; 162; 225; 31; 66; 7; 101; 10; 149;
  136; 152; 10; 43; 8; 205; 5; 55; 113; 46; 162; 112; 37; 190; 36; 120; 41; 142; 139; 58;
  36; 156; 140; 150; 96; 33; 3; 32; 196; 46; 120; 7; 184; 41; 138; 51; 60; 44; 39; 139;
  0; 80; 94; 195; 3; 68; 235; 69; 25; 72; 253; 170; 93; 77; 249; 173; 175; 238; 75; 22;
  85; 85; 118; 215; 68; 4; 69; 100; 188; 88; 128; 95; 160; 49; 29; 191; 35; 17; 65; 183;
  124; 137; 111; 103; 84; 166; 239; 122; 0; 127; 118; 118; 116; 119; 18; 45; 238; 233; 111; 10;
  131; 15; 107; 139; 150; 140; 194; 6; 245; 254; 138; 188; 43; 137; 137; 2; 238; 215; 206; 143;
  183; 213; 21; 131; 149; 36; 149; 45; 156; 156; 106; 138; 152; 72; 114; 249; 95; 181; 22; 165;
  213; 21; 162; 183; 8; 173; 155; 189; 28; 108; 187; 45; 50; 11; 164; 37; 45; 215; 187; 223;
  121; 174; 170; 107; 42; 255; 176; 131; 216; 122; 60; 194; 78; 56; 150; 222; 37; 120; 206; 124;
  205; 108; 223; 202; 218; 164; 130; 214; 68; 5; 218; 91; 73; 205; 106; 251; 251; 77; 203; 111;
  200; 129; 252; 179; 205; 97; 30; 229; 136; 230; 19; 235; 27; 236; 206; 240; 48; 0; 243; 6;
  244; 24; 215; 23; 254; 201; 242; 91; 235; 141; 228; 111; 22; 49; 34; 211; 116; 27; 146; 30;
  124; 41; 13; 107; 237; 18; 191; 46; 208; 29; 70; 99; 53; 84; 26; 55; 152; 21; 98; 171;
  26; 189; 75; 254; 38; 93; 50; 1; 196; 196; 32; 167; 200; 9; 10; 49; 20; 237; 12; 171;
  209; 17; 18; 16; 248; 100; 39; 119; 168; 26; 138; 43; 12; 25; 62; 27; 144; 45; 100; 203;
  85; 103; 103; 100; 196; 200; 104; 218; 111; 188; 74; 94; 0; 17; 114; 65; 164; 79; 230; 69;
  80; 137; 64; 135; 124; 90; 70; 84; 97; 136; 238; 98; 115; 20; 64; 55; 111; 106; 104; 44;
  109; 115; 62; 124; 192; 106; 34; 2; 102; 5; 198; 82; 99; 125; 212; 115; 108; 118; 85; 126;
  83; 128; 161; 71; 133; 78; 7; 175; 75; 104; 6; 138; 146; 29; 175; 175; 183; 97; 177; 3;
  177; 21; 191; 71; 188; 83; 150; 155; 151; 133; 94; 144; 127; 160; 162; 179; 196; 143; 62; 88;
  169; 126; 250; 162; 173; 161; 188; 191; 32; 185; 153; 83; 147; 229; 151; 166; 40; 146; 78; 74;
  176; 232; 191; 39; 117; 192; 159; 242; 201; 228; 203; 230; 105; 136; 216; 131; 213; 61; 232; 79;
  245; 193; 250; 179; 249; 229; 222; 254; 204; 211; 218; 214; 161; 220; 171; 222; 225; 193; 204; 156;
  229; 98; 231; 110; 137; 74; 235; 171; 254; 28; 246; 63; 218; 1; 235; 35; 208; 222; 102; 119;
  216; 210; 148; 10; 209; 142; 255; 251; 73; 0; 18; 51; 59; 4; 113; 6; 51; 173; 235; 161;
  15; 1; 43; 31; 64; 56; 55; 131; 30; 173; 166; 50; 170; 249; 53; 11; 3; 109; 48; 29;
  160; 46; 99; 3; 22; 58; 36; 174; 106; 130; 10; 36; 10; 30; 111; 62; 113; 31; 48; 100;
  117; 6; 6; 60; 157; 251; 181; 121; 44; 77; 54; 15; 109; 114; 118; 211; 92; 19; 119; 84;
  200; 126; 72; 44; 78; 8; 76; 22; 1; 100; 234; 24; 246; 237; 247; 116; 232; 75; 234; 118;
  72; 44; 126; 30; 145; 115; 156; 156; 255; 52; 114; 39; 127; 97; 99; 219; 68; 195; 108; 207;
  117; 124; 178; 5; 117; 165; 20; 115; 8; 69; 252; 97; 108; 13; 103; 174; 153; 85; 36; 175;
  4; 147; 242; 222; 146; 153; 154; 150; 109; 181; 154; 44; 77; 161; 171; 230; 253; 172; 186; 176;
  153; 95; 56; 31; 129; 239; 155; 175; 142; 8; 51; 182; 53; 160; 202; 17; 34; 153; 133; 90;
  153; 141; 158; 161; 112; 144; 162; 229; 157; 229; 188; 23; 133; 55; 139; 157; 163; 125; 141; 190;
  208; 232; 195; 108; 197; 149; 238; 106; 201; 240; 95; 27; 232; 95; 62; 237; 144; 209; 237; 31;
  5; 37; 243; 247; 199; 201; 201; 203; 252; 173; 245; 15; 192; 181; 138; 231; 228; 208; 167; 247;
  207; 235; 74; 171; 189; 45; 236; 218; 242; 172; 208; 145; 213; 212; 198; 218; 178; 208; 123; 222;
  214; 204; 222; 213; 72; 17; 11; 27; 70; 0; 119; 45; 21; 8; 229; 10; 220; 79; 227; 11;
  241; 150; 226; 61; 197; 2; 70; 48; 104; 235; 13; 91; 2; 173; 8; 255; 99; 49; 39; 1;
  26; 117; 10; 174; 168; 109; 131; 42; 156; 30; 183; 14; 165; 17; 15; 1; 69; 229; 9; 17;
  72; 73; 54; 75; 13; 34; 110; 123; 101; 107; 146; 114; 84; 124; 71; 135; 71; 116; 227; 203;
  10; 175; 236; 46; 19; 71; 194; 22; 100; 100; 17; 126; 57; 71; 124; 9; 141; 108; 37; 31;
  80; 99; 15; 39; 101; 228; 55; 47; 241; 171; 204; 123; 102; 252; 208; 113; 192; 48; 18; 123;
  196; 52; 198; 50; 72; 59; 228; 138; 59; 79; 115; 31; 179; 131; 147; 162; 206; 197; 180; 212;
  170; 240; 90; 187; 128; 37; 127; 187; 208; 142; 210; 166; 212; 222; 203; 135; 154; 108; 155; 192;
  138; 137; 98; 96; 95; 163; 230; 113; 176; 17; 234; 141; 227; 225; 175; 165; 175; 190; 149; 254;
  253; 0; 0; 42].
Definition _td25 : bytes := string_array [
  4; 48; 91; 3; 149; 118; 251; 248; 24; 55; 10; 14; 12; 13; 12; 201; 60; 17; 18; 117;
  235; 22; 198; 23; 62; 24; 23; 75; 116; 135; 19; 115; 32; 129; 107; 35; 87; 229; 240; 42;
  148; 9; 209; 132; 33; 26; 203; 79; 48; 241; 62; 51; 132; 62; 94; 201; 53; 197; 144; 58;
  60; 30; 56; 10; 65; 65; 82; 75; 71; 108; 199; 71; 200; 9; 154; 75; 56; 71; 79; 136;
  194; 81; 25; 95; 112; 203; 30; 87; 249; 157; 24; 56; 33; 95; 217; 169; 88; 158; 194; 96;
  123; 100; 230; 103; 68; 194; 107; 130; 114; 100; 110; 111; 98; 113; 118; 241; 117; 113; 118; 167;
  108; 184; 213; 235; 125; 69; 46; 119; 144; 206; 70; 130; 116; 134; 70; 203; 197; 173; 180; 174;
  156; 141; 146; 63; 178; 193; 144; 95; 116; 178; 179; 151; 155; 87; 106; 146; 252; 173; 174; 149;
  130; 165; 234; 111; 184; 152; 54; 164; 170; 154; 185; 160; 139; 185; 204; 236; 16; 183; 16; 99;
  190; 173; 85; 182; 168; 198; 184; 182; 190; 237; 178; 164; 194; 176; 194; 97; 143; 5; 74; 22;
  218; 153; 209; 235; 220; 222; 94; 212; 64; 160; 223; 53; 209; 148; 198; 219; 149; 216; 101; 218;
  151; 236; 208; 150; 224; 224; 95; 2; 135; 37; 42; 86; 251; 225; 154; 205; 220; 204; 225; 127;
  226; 225; 213; 247; 180; 243; 22; 253; 227; 248; 29; 250; 227; 109; 255; 20; 1; 40; 98; 19;
  37; 97; 246; 9; 72; 24; 28; 59; 36; 221; 27; 47; 1; 161; 2; 6; 68; 61; 82; 247;
  23; 1; 77; 26; 60; 42; 28; 78; 33; 28; 19; 49; 103; 71; 143; 247; 56; 37; 98; 251;
  61; 141; 239; 61; 124; 208; 61; 35; 87; 52; 147; 53; 152; 42; 161; 57; 91; 21; 63; 168;
  162; 112; 81; 19; 53; 86; 117; 69; 90; 18; 58; 64; 78; 24; 239; 67; 109; 115; 55; 210;
  180; 69; 167; 64; 232; 112; 74; 65; 188; 72; 62; 47; 122; 113; 72; 55; 197; 113; 6; 105;
  53; 237; 104; 46; 189; 123; 85; 110; 23; 19; 226; 102; 112; 121; 46; 6; 107; 10; 123; 18;
  126; 24; 93; 126; 152; 1; 144; 254; 230; 240; 134; 138; 57; 168; 202; 27; 171; 253; 172; 95;
  182; 177; 139; 163; 220; 179; 248; 144; 120; 136; 225; 154; 60; 154; 19; 211; 161; 56; 146; 183;
  148; 191; 135; 208; 8; 163; 68; 41; 164; 109; 183; 194; 177; 48; 179; 230; 149; 174; 150; 248;
  185; 62; 187; 39; 12; 167; 79; 170; 72; 49; 222; 51; 84; 212; 219; 161; 194; 201; 196; 91;
  59; 205; 35; 206; 16; 205; 51; 210; 228; 200; 222; 0; 153; 126; 58; 203; 237; 203; 206; 198;
  101; 161; 243; 147; 5; 248; 182; 253; 222; 226; 91; 255; 200; 236; 223; 158; 251; 212; 240; 51;
  247; 214; 84; 133; 76; 9; 244; 106; 233; 77; 241; 191; 17; 193; 29; 51; 4; 19; 118; 32;
  246; 246; 145; 90; 24; 28; 190; 11; 152; 240; 175; 210; 28; 245; 27; 23; 88; 222; 39; 72;
  95; 8; 25; 124; 33; 65; 111; 131; 44; 53; 22; 56; 169; 41; 24; 168; 92; 41; 68; 98;
  57; 48; 34; 83; 51; 68; 20; 123; 218; 249; 24; 85; 189; 151; 58; 8; 148; 28; 76; 165;
  219; 101; 68; 47; 218; 146; 251; 86; 74; 175; 254; 78; 97; 86; 252; 2; 37; 82; 0; 86;
  178; 136; 93; 42; 188; 93; 210; 223; 127; 224; 64; 226; 64; 228; 123; 70; 64; 105; 125; 170;
  121; 13; 104; 0; 113; 23; 102; 211; 99; 181; 94; 255; 136; 81; 246; 126; 253; 93; 119; 254;
  134; 0; 138; 66; 173; 129; 151; 173; 146; 185; 163; 41; 124; 165; 110; 223; 186; 87; 122; 147;
  152; 77; 130; 239; 149; 209; 142; 147; 214; 147; 206; 180; 15; 193; 139; 35; 191; 197; 140; 97;
  161; 57; 128; 27; 179; 173; 130; 176; 178; 215; 226; 249; 145; 197; 154; 223; 24; 149; 54; 161;
  60; 149; 63; 250; 128; 236; 212; 146; 233; 214; 247; 224; 40; 229; 231; 201; 207; 109; 228; 253;
  176; 55; 154; 220; 220; 221; 195; 15; 214; 25; 244; 179; 210; 69; 202; 221; 207; 161; 204; 111;
  96; 101; 49; 103; 100; 249; 106; 52; 108; 124; 30; 192; 240; 194; 146; 247; 210; 196; 134; 216;
  118; 81; 122; 208; 125; 93; 87; 127; 42; 128; 169; 35; 53; 36; 102; 55; 40; 239; 130; 26;
  180; 29; 206; 62; 88; 1; 50; 139; 5; 45; 6; 153; 105; 54; 147; 155; 60; 195; 158; 146;
  160; 195; 211; 17; 192; 181; 38; 28; 72; 175; 37; 57; 75; 58; 6; 31; 61; 89; 34; 243;
  165; 7; 246; 26; 32; 184; 124; 28; 221; 20; 142; 11; 64; 128; 19; 146; 110; 77; 64; 239;
  152; 120; 59; 126; 228; 69; 246; 94; 100; 211; 87; 227; 100; 249; 214; 99; 217; 249; 43; 109;
  252; 201; 222; 119; 81; 55; 194; 82; 172; 101; 77; 39; 123; 65; 102; 83; 127; 117; 207; 88;
  229; 112; 66; 69; 248; 223; 246; 162; 248; 214; 250; 251; 172; 253; 208; 255; 79; 65; 219; 1;
  170; 145; 62; 148; 40; 167; 146; 235; 167; 130; 214; 155; 146; 55; 178; 171; 30; 155; 23; 98;
  24; 148; 219; 203; 166; 109; 97; 64; 44; 3; 82; 130; 228; 181; 146; 61; 230; 179; 138; 143;
  223; 173; 8; 175; 249; 92; 150; 39; 157; 127; 181; 119; 38; 67; 106; 184; 206; 158; 174; 152;
  225; 197; 68; 125; 4; 231; 108; 175; 49; 235; 230; 139; 209; 38; 79; 232; 164; 224; 254; 66;
  244; 252; 16; 207; 210; 217; 236; 211; 214; 93; 235; 203; 56; 232; 34; 214; 124; 133; 207; 105;
  252; 104; 194; 194; 109; 244; 207; 199; 238; 193; 178; 210; 233; 208; 230; 217; 220; 89; 214; 139;
  214; 221; 199; 199; 17; 151; 42; 211; 49; 84; 71; 207; 24; 59; 27; 56; 77; 57; 36; 215;
  64; 21; 147; 51; 39; 35; 103; 85; 43; 88; 181; 139; 45; 173; 29; 190; 16; 113; 26; 13;
  101; 20; 11; 101; 25; 147; 75; 42; 111; 26; 94; 0; 224; 115; 114; 119; 13; 117; 117; 157;
  152; 152; 126; 0; 220; 121; 254; 46; 5; 124; 3; 109; 97; 196; 3; 120; 136; 12; 74; 127;
  140; 115; 182; 68; 216; 201; 71; 27; 180; 71; 67; 95; 84; 89; 117; 153; 29; 252; 110; 201;
  224; 80; 227; 243; 35; 197; 36; 110; 72; 89; 92; 74; 12; 43; 136; 135; 119; 249; 50; 124;
  92; 125; 190; 120; 0; 168; 50; 39; 241; 78; 72; 173; 65; 185; 48; 187; 79; 133; 222; 86;
  162; 73; 132; 211; 153; 53; 128; 167; 49; 219; 130; 184; 198; 63; 199; 222; 6; 25; 26; 182;
  63; 28; 213; 58; 56; 33; 186; 82; 97; 159; 198; 135; 215; 139; 218; 144; 40; 194; 174; 15;
  252; 142; 148; 225; 204; 230; 138; 177; 56; 56; 247; 0; 0; 63].
Definition _td26 : bytes := string_array [
  4; 32; 20; 3; 101; 24; 251; 248; 36; 9; 8; 1; 12; 20; 4; 15; 34; 17; 22; 145;
  21; 21; 18; 23; 200; 234; 181; 27; 28; 133; 31; 15; 33; 209; 88; 228; 84; 41; 230; 43;
  8; 245; 42; 231; 236; 52; 46; 45; 152; 48; 58; 255; 52; 41; 70; 53; 172; 59; 246; 91;
  118; 23; 62; 61; 158; 81; 65; 99; 116; 21; 69; 95; 98; 74; 218; 72; 117; 173; 76; 215;
  160; 82; 78; 88; 28; 84; 81; 85; 200; 93; 161; 90; 92; 88; 175; 95; 193; 35; 162; 239;
  213; 71; 246; 121; 72; 25; 72; 187; 114; 61; 191; 106; 216; 116; 114; 191; 108; 72; 119; 174;
  121; 52; 123; 51; 149; 124; 59; 95; 133; 224; 227; 227; 129; 148; 134; 147; 184; 148; 154; 159;
  252; 144; 190; 175; 132; 1; 143; 85; 146; 229; 146; 152; 153; 25; 29; 153; 189; 156; 235; 157;
  139; 97; 170; 163; 198; 210; 102; 107; 89; 188; 122; 177; 164; 189; 184; 31; 33; 184; 162; 169;
  204; 178; 151; 215; 190; 172; 184; 158; 190; 221; 180; 144; 194; 203; 219; 115; 206; 103; 246; 206;
  68; 24; 217; 59; 196; 212; 126; 219; 80; 216; 98; 192; 4; 206; 84; 171; 232; 211; 198; 58;
  220; 194; 220; 143; 236; 192; 130; 233; 51; 229; 237; 5; 202; 226; 243; 187; 204; 202; 62; 246;
  224; 214; 130; 248; 4; 211; 116; 119; 217; 245; 77; 250; 65; 255; 43; 174; 14; 33; 221; 2;
  183; 39; 126; 39; 5; 248; 29; 11; 252; 36; 190; 23; 32; 56; 66; 10; 17; 133; 25; 147;
  57; 21; 5; 26; 127; 31; 51; 59; 33; 80; 67; 51; 89; 71; 38; 40; 228; 248; 2; 49;
  92; 6; 238; 38; 96; 96; 35; 3; 31; 15; 190; 38; 54; 244; 187; 51; 252; 51; 126; 45;
  165; 64; 70; 194; 230; 68; 73; 86; 105; 217; 111; 251; 205; 221; 75; 106; 0; 114; 162; 119;
  216; 101; 92; 113; 184; 168; 74; 219; 89; 109; 125; 94; 102; 67; 210; 105; 69; 197; 114; 247;
  105; 121; 73; 106; 91; 111; 41; 47; 101; 177; 120; 131; 124; 82; 84; 250; 137; 107; 88; 51;
  44; 96; 174; 95; 147; 156; 242; 2; 146; 149; 132; 142; 200; 131; 179; 138; 211; 143; 189; 142;
  182; 244; 226; 153; 20; 130; 20; 4; 185; 148; 184; 139; 215; 125; 153; 174; 184; 177; 242; 183;
  185; 53; 166; 176; 180; 65; 91; 171; 93; 189; 169; 175; 80; 183; 162; 182; 20; 179; 220; 20;
  152; 173; 43; 107; 164; 154; 62; 167; 240; 219; 50; 227; 216; 181; 225; 249; 194; 169; 204; 156;
  205; 237; 165; 205; 183; 208; 169; 146; 207; 74; 148; 93; 116; 153; 211; 138; 124; 222; 249; 79;
  192; 81; 248; 231; 212; 196; 134; 251; 220; 226; 38; 251; 167; 101; 239; 22; 241; 241; 239; 8;
  85; 67; 22; 236; 248; 200; 233; 75; 218; 237; 237; 111; 38; 5; 50; 18; 20; 27; 248; 248;
  147; 88; 30; 14; 108; 12; 70; 207; 14; 205; 16; 19; 244; 24; 150; 23; 189; 251; 89; 222;
  240; 19; 238; 1; 117; 192; 61; 19; 36; 5; 10; 103; 49; 34; 187; 43; 5; 38; 250; 47;
  240; 56; 156; 3; 20; 21; 48; 55; 104; 57; 158; 251; 140; 45; 190; 63; 22; 67; 74; 83;
  132; 9; 38; 71; 128; 67; 10; 75; 30; 56; 238; 77; 16; 112; 146; 80; 116; 213; 85; 87;
  82; 119; 154; 88; 72; 61; 90; 71; 171; 96; 237; 103; 102; 182; 103; 67; 181; 104; 239; 169;
  88; 200; 78; 76; 0; 177; 81; 211; 67; 149; 116; 231; 136; 93; 46; 187; 70; 237; 93; 143;
  113; 130; 189; 35; 161; 113; 207; 231; 173; 109; 202; 219; 174; 175; 138; 159; 135; 160; 162; 146;
  143; 151; 173; 102; 190; 25; 156; 130; 190; 163; 218; 189; 180; 209; 180; 242; 183; 53; 186; 231;
  190; 136; 246; 34; 28; 139; 142; 233; 177; 169; 147; 163; 144; 117; 162; 243; 72; 154; 10; 173;
  140; 153; 216; 31; 232; 221; 226; 92; 197; 12; 196; 76; 217; 227; 189; 202; 132; 120; 12; 131;
  178; 212; 130; 243; 132; 198; 102; 243; 199; 201; 170; 207; 195; 1; 143; 217; 117; 224; 198; 70;
  230; 21; 205; 124; 234; 233; 192; 112; 14; 166; 239; 224; 186; 229; 96; 227; 225; 181; 143; 246;
  233; 229; 234; 235; 214; 45; 226; 47; 15; 177; 31; 83; 144; 45; 144; 231; 27; 137; 234; 38;
  0; 151; 63; 5; 17; 193; 48; 144; 22; 108; 23; 104; 26; 154; 191; 203; 51; 223; 255; 50;
  177; 46; 98; 14; 116; 164; 22; 7; 56; 38; 186; 9; 178; 205; 61; 43; 74; 52; 98; 17;
  150; 52; 38; 44; 57; 118; 56; 204; 254; 61; 62; 13; 155; 65; 113; 1; 52; 116; 70; 93;
  42; 106; 26; 96; 252; 105; 158; 111; 123; 96; 123; 245; 37; 68; 67; 112; 90; 8; 139; 81;
  172; 110; 254; 85; 53; 115; 224; 194; 86; 148; 125; 87; 114; 89; 113; 187; 39; 141; 115; 126;
  69; 219; 113; 99; 41; 119; 67; 103; 186; 108; 235; 79; 45; 237; 87; 96; 240; 169; 242; 156;
  116; 149; 166; 87; 151; 39; 59; 186; 141; 143; 199; 19; 146; 108; 98; 149; 132; 167; 166; 138;
  154; 226; 234; 153; 130; 47; 156; 143; 192; 182; 2; 171; 85; 157; 141; 165; 129; 171; 200; 219;
  148; 33; 63; 180; 128; 157; 66; 50; 4; 164; 154; 135; 162; 73; 150; 239; 77; 165; 188; 136;
  208; 235; 195; 130; 197; 122; 199; 128; 216; 200; 15; 202; 100; 172; 203; 218; 224; 249; 146; 99;
  193; 69; 254; 135; 206; 169; 244; 65; 157; 13; 194; 199; 241; 224; 5; 226; 36; 217; 5; 164;
  24; 207; 90; 242; 13; 18; 81; 246; 240; 246; 242; 211; 116; 161; 28; 41; 206; 41; 229; 37;
  252; 61; 62; 218; 217; 69; 146; 20; 215; 26; 228; 24; 8; 25; 140; 11; 4; 13; 15; 208;
  117; 90; 197; 45; 0; 42; 128; 149; 39; 88; 56; 246; 35; 135; 7; 157; 31; 152; 231; 207;
  27; 0; 0; 34].
Definition _td27 : bytes := string_array [
  4; 9; 97; 3; 106; 178; 250; 248; 3; 22; 12; 90; 12; 14; 14; 15; 129; 16; 2; 192;
  22; 53; 19; 23; 26; 254; 24; 187; 28; 86; 225; 60; 64; 32; 148; 34; 52; 3; 37; 54;
  41; 10; 44; 34; 140; 44; 141; 209; 152; 48; 63; 124; 232; 205; 54; 56; 41; 175; 115; 59;
  16; 169; 12; 63; 77; 55; 9; 244; 75; 114; 163; 121; 72; 73; 124; 103; 250; 70; 38; 177;
  50; 121; 166; 75; 171; 53; 86; 215; 40; 91; 118; 152; 92; 92; 195; 19; 107; 97; 60; 99;
  96; 229; 228; 102; 108; 105; 234; 53; 217; 77; 108; 109; 72; 209; 116; 195; 225; 9; 230; 102;
  184; 89; 246; 234; 109; 173; 96; 15; 135; 17; 156; 131; 84; 151; 214; 154; 196; 136; 70; 147;
  140; 126; 143; 242; 146; 100; 147; 236; 150; 181; 133; 149; 231; 251; 130; 11; 155; 140; 190; 151;
  144; 135; 146; 17; 173; 129; 150; 133; 38; 200; 43; 163; 177; 175; 65; 174; 128; 184; 112; 185;
  81; 181; 55; 149; 120; 117; 107; 165; 12; 148; 158; 207; 223; 209; 235; 83; 37; 206; 44; 197;
  73; 89; 194; 34; 205; 108; 207; 212; 210; 97; 222; 243; 245; 215; 113; 86; 247; 169; 209; 138;
  204; 221; 238; 252; 176; 241; 114; 193; 116; 234; 162; 55; 201; 185; 232; 39; 240; 136; 78; 227;
  242; 209; 153; 242; 111; 247; 131; 39; 246; 155; 201; 218; 157; 240; 236; 15; 36; 81; 130; 12;
  33; 181; 47; 7; 0; 47; 50; 91; 2; 173; 78; 0; 28; 45; 55; 83; 4; 245; 102; 7;
  84; 89; 74; 21; 60; 41; 75; 159; 48; 101; 2; 50; 68; 116; 55; 111; 121; 39; 7; 176;
  237; 33; 30; 61; 21; 161; 48; 179; 38; 119; 114; 70; 51; 89; 42; 235; 28; 77; 49; 127;
  74; 33; 81; 19; 76; 99; 228; 67; 88; 91; 93; 73; 41; 79; 220; 104; 160; 95; 80; 98;
  36; 65; 116; 2; 216; 80; 119; 123; 79; 173; 174; 82; 241; 108; 146; 19; 119; 70; 214; 37;
  109; 25; 102; 128; 109; 196; 111; 127; 102; 236; 50; 114; 137; 116; 253; 246; 38; 232; 125; 88;
  109; 157; 119; 239; 163; 241; 210; 144; 167; 21; 166; 243; 180; 143; 74; 155; 235; 140; 157; 63;
  131; 0; 129; 35; 133; 244; 142; 167; 189; 31; 74; 140; 128; 8; 159; 223; 215; 163; 45; 162;
  213; 167; 102; 167; 199; 253; 8; 193; 188; 181; 63; 143; 165; 144; 226; 166; 228; 151; 151; 39;
  173; 9; 154; 9; 188; 164; 166; 102; 144; 192; 105; 194; 39; 244; 221; 42; 104; 197; 107; 193;
  184; 173; 195; 222; 144; 196; 246; 195; 246; 37; 245; 71; 207; 73; 201; 248; 116; 212; 94; 213;
  159; 224; 224; 106; 228; 236; 231; 116; 233; 108; 235; 114; 200; 12; 115; 111; 249; 128; 227; 35;
  236; 133; 231; 247; 136; 209; 202; 233; 204; 212; 250; 245; 149; 49; 19; 165; 132; 21; 186; 215;
  22; 21; 167; 218; 2; 28; 126; 16; 183; 19; 163; 35; 15; 247; 233; 168; 64; 0; 95; 26;
  172; 27; 191; 25; 10; 33; 33; 253; 164; 37; 178; 36; 179; 104; 14; 40; 92; 13; 175; 25;
  51; 243; 20; 102; 36; 247; 149; 39; 60; 113; 164; 93; 122; 85; 58; 147; 128; 96; 71; 96;
  80; 183; 32; 198; 77; 186; 187; 106; 220; 228; 111; 199; 64; 190; 201; 211; 118; 248; 91; 59;
  133; 123; 130; 199; 84; 52; 175; 124; 33; 96; 114; 211; 97; 20; 100; 51; 148; 9; 154; 109;
  74; 247; 111; 211; 194; 87; 105; 121; 156; 149; 86; 183; 129; 123; 86; 83; 125; 227; 59; 94;
  134; 154; 230; 133; 148; 221; 42; 116; 142; 153; 154; 176; 66; 61; 170; 110; 141; 177; 130; 180;
  131; 245; 129; 71; 151; 187; 144; 209; 156; 143; 134; 148; 161; 193; 233; 161; 171; 164; 225; 135;
  161; 217; 134; 105; 169; 108; 191; 225; 177; 163; 171; 177; 113; 180; 149; 27; 186; 2; 59; 150;
  140; 171; 139; 79; 236; 147; 82; 210; 70; 133; 214; 233; 4; 120; 235; 27; 214; 237; 192; 109;
  96; 48; 252; 227; 206; 131; 150; 199; 88; 200; 244; 205; 134; 140; 208; 223; 239; 72; 83; 237;
  123; 231; 179; 206; 152; 217; 40; 188; 109; 228; 255; 15; 218; 225; 227; 213; 164; 197; 232; 215;
  237; 220; 60; 26; 233; 240; 255; 207; 15; 3; 245; 3; 148; 23; 86; 53; 91; 75; 152; 131;
  28; 18; 191; 27; 128; 30; 2; 6; 52; 38; 18; 255; 16; 25; 1; 162; 29; 138; 28; 238;
  97; 240; 17; 212; 37; 180; 4; 181; 216; 57; 219; 122; 204; 38; 10; 223; 47; 129; 46; 91;
  213; 41; 219; 17; 56; 57; 49; 75; 9; 216; 63; 223; 117; 144; 3; 105; 237; 213; 114; 243;
  152; 87; 10; 251; 105; 193; 191; 77; 73; 225; 89; 163; 77; 37; 127; 231; 65; 204; 250; 69;
  154; 29; 65; 255; 16; 66; 110; 135; 196; 82; 38; 127; 39; 104; 13; 105; 39; 60; 86; 38;
  96; 112; 27; 209; 197; 228; 88; 106; 40; 80; 126; 75; 98; 44; 71; 96; 208; 169; 124; 124;
  140; 30; 215; 147; 168; 160; 130; 28; 115; 244; 143; 31; 144; 113; 159; 211; 175; 148; 40; 211;
  6; 0; 10; 177; 26; 186; 190; 187; 209; 163; 211; 232; 196; 143; 232; 155; 226; 142; 202; 141;
  189; 172; 96; 7; 128; 152; 156; 6; 45; 180; 154; 71; 141; 38; 43; 146; 108; 157; 186; 31;
  218; 209; 66; 131; 244; 69; 182; 239; 16; 253; 221; 206; 108; 205; 73; 143; 234; 213; 92; 194;
  250; 215; 70; 199; 208; 223; 202; 91; 244; 107; 97; 143; 225; 99; 2; 83; 164; 101; 56; 23;
  169; 189; 154; 214; 174; 44; 222; 199; 240; 161; 140; 174; 228; 210; 234; 246; 248; 184; 98; 53;
  188; 133; 231; 159; 230; 65; 74; 10; 204; 22; 254; 15; 24; 74; 210; 11; 4; 229; 29; 161;
  17; 119; 156; 27; 4; 148; 55; 150; 19; 24; 94; 3; 157; 9; 62; 238; 58; 65; 36; 147;
  228; 102; 54; 60; 40; 73; 236; 35; 61; 5; 35; 231; 32; 153; 218; 63; 76; 148; 115; 133;
  248; 122; 182; 107; 120; 119; 26; 94; 4; 90; 3; 7; 86; 116; 102; 2; 78; 91; 254; 187;
  8; 253; 97; 127; 21; 57; 67; 187; 52; 68; 110; 70; 224; 72; 10; 30; 76; 21; 183; 221;
  99; 81; 36; 223; 228; 52; 231; 204; 169; 33; 74; 193; 236; 63; 191; 36; 80; 54; 171; 119;
  241; 165; 53; 122; 56; 116; 251; 124; 253; 84; 95; 59; 168; 164; 19; 204; 84; 199; 158; 71;
  205; 157; 226; 138; 109; 199; 6; 131; 8; 133; 20; 150; 242; 177; 4; 207; 8; 222; 194; 138;
  12; 216; 182; 142; 176; 57; 178; 123; 180; 197; 234; 88; 87; 100; 230; 131; 166; 157; 236; 15;
  191; 134; 250; 51; 149; 69; 55; 23; 189; 138; 111; 223; 94; 176; 164; 190; 195; 213; 66; 116;
  116; 133; 198; 0; 0; 13].
Definition _td28 : bytes := string_array [
  4; 84; 28; 3; 134; 127; 250; 248; 24; 149; 8; 14; 12; 13; 12; 191; 231; 17; 18; 83;
  235; 22; 198; 23; 62; 24; 23; 26; 119; 188; 21; 106; 32; 133; 107; 35; 35; 211; 83; 43;
  225; 41; 28; 150; 33; 26; 203; 17; 48; 112; 50; 218; 102; 57; 94; 201; 225; 251; 80; 59;
  195; 30; 56; 105; 68; 65; 110; 75; 68; 68; 1; 68; 68; 73; 110; 75; 72; 205; 204; 174;
  81; 25; 135; 175; 241; 197; 87; 87; 96; 93; 74; 75; 108; 155; 238; 8; 96; 161; 174; 242;
  123; 21; 79; 247; 119; 97; 186; 67; 220; 124; 104; 247; 117; 189; 106; 243; 83; 116; 197; 118;
  89; 120; 195; 138; 122; 125; 187; 158; 245; 65; 14; 210; 152; 85; 130; 161; 120; 72; 141; 251;
  145; 221; 168; 115; 144; 150; 94; 143; 19; 148; 63; 150; 23; 153; 155; 42; 157; 8; 159; 52;
  1; 41; 227; 3; 161; 20; 183; 215; 183; 185; 25; 162; 124; 229; 176; 73; 184; 17; 180; 164;
  182; 21; 178; 148; 249; 8; 176; 158; 190; 98; 159; 44; 64; 200; 211; 131; 231; 85; 227; 183;
  235; 249; 11; 192; 188; 197; 236; 179; 217; 113; 212; 254; 214; 154; 212; 245; 239; 122; 214; 248;
  62; 69; 174; 212; 145; 243; 194; 147; 197; 85; 244; 87; 89; 228; 58; 202; 110; 125; 142; 227;
  208; 104; 50; 255; 96; 165; 248; 247; 228; 234; 248; 166; 254; 254; 252; 178; 64; 3; 255; 2;
  87; 167; 183; 102; 5; 23; 26; 251; 36; 125; 18; 15; 0; 33; 14; 35; 220; 60; 66; 28;
  200; 23; 49; 26; 108; 18; 174; 30; 3; 33; 51; 115; 53; 44; 132; 144; 89; 34; 63; 219;
  44; 10; 94; 59; 96; 22; 2; 38; 164; 117; 16; 201; 199; 162; 107; 47; 236; 61; 118; 62;
  160; 83; 26; 65; 68; 165; 75; 135; 56; 233; 75; 109; 136; 181; 65; 44; 81; 97; 195; 82;
  20; 245; 95; 43; 84; 80; 252; 123; 94; 83; 214; 207; 84; 111; 238; 97; 20; 128; 193; 183;
  98; 9; 108; 187; 111; 109; 126; 175; 115; 240; 114; 199; 126; 244; 102; 100; 16; 115; 123; 227;
  138; 127; 115; 93; 182; 80; 150; 193; 80; 251; 187; 146; 188; 122; 62; 178; 114; 237; 152; 124;
  65; 146; 242; 130; 220; 164; 146; 29; 43; 232; 158; 154; 172; 135; 14; 119; 27; 163; 167; 227;
  164; 197; 254; 32; 56; 180; 58; 172; 29; 205; 185; 63; 168; 33; 160; 243; 168; 245; 179; 167;
  176; 162; 36; 191; 60; 183; 1; 190; 175; 195; 64; 12; 245; 216; 31; 198; 173; 75; 150; 171;
  193; 217; 255; 239; 0; 218; 66; 242; 202; 197; 247; 39; 220; 251; 22; 75; 218; 193; 157; 221;
  161; 227; 242; 254; 230; 254; 228; 23; 230; 204; 40; 138; 207; 28; 243; 223; 254; 208; 162; 211;
  212; 213; 230; 215; 117; 217; 244; 31; 141; 247; 158; 226; 153; 3; 203; 18; 37; 180; 38; 26;
  135; 107; 155; 11; 16; 29; 16; 63; 64; 1; 115; 67; 52; 50; 198; 8; 40; 89; 8; 122;
  16; 124; 22; 30; 151; 32; 210; 1; 159; 36; 125; 38; 36; 232; 75; 171; 34; 253; 33; 60;
  0; 21; 34; 177; 32; 53; 18; 103; 44; 73; 30; 163; 253; 51; 190; 208; 65; 192; 64; 150;
  69; 34; 215; 90; 108; 42; 232; 250; 111; 28; 65; 31; 78; 1; 93; 50; 21; 83; 89; 103;
  71; 197; 235; 127; 76; 84; 55; 9; 98; 177; 106; 147; 66; 198; 86; 122; 138; 203; 79; 72;
  202; 189; 110; 73; 144; 122; 82; 195; 164; 82; 105; 226; 106; 73; 178; 253; 144; 148; 238; 105;
  224; 146; 2; 77; 228; 130; 64; 132; 54; 154; 29; 156; 28; 142; 154; 135; 158; 126; 49; 179;
  150; 6; 53; 241; 150; 203; 93; 10; 158; 66; 6; 127; 162; 225; 177; 160; 97; 141; 162; 90;
  168; 201; 188; 22; 236; 190; 190; 119; 25; 195; 178; 206; 234; 149; 162; 147; 177; 184; 170; 59;
  170; 84; 111; 147; 202; 107; 242; 212; 164; 159; 235; 231; 210; 248; 228; 223; 114; 252; 78; 225;
  178; 219; 211; 241; 64; 158; 222; 199; 251; 8; 218; 200; 107; 54; 127; 210; 240; 38; 178; 90;
  235; 103; 243; 163; 9; 96; 232; 224; 28; 198; 83; 234; 170; 14; 231; 245; 182; 146; 38; 219;
  212; 129; 251; 178; 109; 231; 80; 238; 212; 27; 242; 62; 168; 102; 29; 231; 218; 116; 30; 123;
  62; 172; 11; 44; 16; 57; 130; 49; 68; 6; 55; 34; 8; 44; 142; 24; 252; 61; 29; 30;
  203; 43; 35; 243; 17; 220; 6; 17; 40; 42; 168; 101; 45; 189; 41; 94; 18; 33; 40; 227;
  22; 69; 5; 198; 14; 249; 38; 137; 58; 141; 11; 95; 90; 54; 64; 233; 77; 52; 91; 84;
  41; 110; 38; 155; 109; 92; 158; 70; 18; 116; 50; 123; 132; 112; 6; 118; 72; 96; 128; 58;
  204; 106; 66; 68; 97; 204; 18; 114; 165; 92; 137; 55; 104; 174; 235; 4; 253; 106; 124; 15;
  96; 33; 163; 99; 122; 105; 102; 100; 152; 98; 8; 250; 116; 93; 91; 53; 255; 144; 167; 246;
  214; 152; 36; 7; 24; 177; 123; 199; 159; 61; 190; 167; 49; 173; 194; 128; 4; 139; 134; 132;
  73; 185; 202; 184; 253; 159; 14; 162; 205; 163; 103; 10; 116; 146; 68; 36; 41; 147; 165; 90;
  171; 162; 158; 167; 2; 193; 178; 157; 168; 33; 199; 189; 120; 191; 101; 138; 187; 231; 91; 94;
  249; 36; 226; 241; 180; 249; 23; 23; 197; 233; 47; 235; 247; 61; 108; 143; 241; 203; 179; 223;
  148; 244; 102; 234; 147; 57; 229; 75; 157; 58; 174; 250; 226; 123; 114; 237; 70; 96; 182; 233;
  168; 217; 168; 39; 61; 252; 254; 159; 224; 52; 114; 179; 239; 229; 181; 135; 227; 95; 59; 245;
  124; 194; 72; 154; 64; 30; 22; 59; 134; 166; 68; 39; 24; 25; 106; 72; 93; 12; 77; 95;
  12; 187; 82; 82; 208; 132; 82; 70; 145; 249; 11; 1; 172; 125; 12; 5; 112; 55; 114; 101;
  178; 139; 231; 5; 56; 36; 97; 42; 33; 30; 44; 191; 60; 245; 27; 49; 148; 36; 186; 166;
  37; 41; 3; 11; 52; 13; 142; 26; 208; 93; 2; 11; 210; 87; 122; 69; 74; 235; 8; 88;
  12; 229; 207; 18; 212; 232; 84; 108; 34; 66; 0; 0; 168].
Definition _td29 : bytes := string_array [
  4; 189; 144; 3; 96; 235; 253; 248; 24; 132; 10; 14; 172; 13; 12; 8; 66; 17; 98; 19;
  235; 197; 22; 22; 62; 24; 23; 14; 107; 168; 16; 153; 184; 33; 107; 35; 88; 98; 212; 42;
  32; 64; 42; 72; 35; 26; 203; 17; 48; 109; 207; 51; 91; 57; 94; 201; 108; 215; 28; 196;
  52; 31; 56; 175; 192; 65; 110; 6; 69; 79; 70; 228; 69; 73; 46; 75; 42; 193; 224; 71;
  208; 137; 210; 243; 80; 159; 214; 255; 216; 89; 158; 155; 75; 61; 120; 231; 97; 7; 66; 179;
  127; 5; 96; 162; 200; 108; 106; 118; 105; 141; 107; 146; 208; 116; 226; 83; 20; 179; 142; 119;
  115; 81; 119; 179; 119; 37; 115; 39; 129; 176; 133; 26; 134; 227; 8; 72; 8; 214; 142; 10;
  75; 124; 137; 73; 16; 241; 51; 186; 145; 117; 147; 12; 41; 158; 113; 27; 208; 28; 109; 158;
  129; 168; 90; 35; 245; 84; 139; 199; 78; 137; 194; 161; 84; 185; 6; 190; 186; 121; 184; 163;
  108; 161; 91; 180; 56; 189; 58; 59; 158; 191; 63; 191; 203; 229; 67; 70; 68; 236; 151; 197;
  136; 9; 204; 147; 192; 245; 195; 39; 219; 80; 194; 223; 252; 222; 46; 218; 202; 221; 58; 209;
  220; 66; 94; 2; 96; 127; 98; 63; 100; 247; 127; 167; 229; 201; 175; 11; 229; 245; 225; 87;
  240; 228; 154; 252; 156; 224; 174; 248; 160; 125; 239; 103; 61; 241; 130; 127; 35; 128; 50; 8;
  132; 45; 135; 131; 136; 44; 187; 65; 220; 6; 94; 23; 26; 57; 28; 195; 27; 205; 6; 16;
  17; 169; 146; 22; 66; 24; 238; 23; 112; 40; 121; 162; 45; 165; 112; 166; 223; 169; 127; 186;
  116; 237; 40; 47; 232; 32; 218; 35; 188; 36; 14; 38; 24; 97; 43; 51; 45; 160; 158; 47;
  204; 70; 82; 194; 7; 196; 64; 150; 90; 178; 202; 115; 72; 76; 20; 143; 93; 25; 89; 43;
  88; 205; 71; 148; 75; 113; 86; 254; 205; 79; 197; 223; 87; 33; 227; 197; 228; 39; 231; 206;
  104; 124; 203; 49; 49; 191; 101; 7; 16; 125; 115; 127; 172; 52; 122; 136; 104; 134; 183; 83;
  118; 253; 127; 123; 254; 72; 130; 169; 133; 133; 118; 129; 232; 168; 200; 155; 163; 47; 129; 134;
  129; 144; 82; 162; 137; 4; 6; 150; 136; 75; 152; 26; 156; 10; 58; 79; 183; 149; 1; 94;
  188; 164; 182; 103; 171; 216; 178; 94; 98; 168; 142; 183; 142; 187; 179; 62; 141; 183; 167; 255;
  186; 29; 154; 185; 159; 233; 89; 178; 117; 38; 147; 105; 198; 243; 231; 174; 89; 202; 16; 26;
  207; 54; 218; 207; 219; 224; 214; 198; 20; 195; 84; 214; 220; 137; 218; 11; 13; 115; 254; 197;
  216; 225; 252; 195; 228; 44; 39; 151; 192; 41; 230; 51; 238; 237; 34; 47; 221; 49; 190; 143;
  247; 57; 226; 215; 193; 9; 228; 99; 108; 226; 230; 20; 0; 65; 5; 1; 247; 5; 249; 6;
  168; 41; 7; 15; 238; 49; 254; 17; 4; 21; 222; 15; 253; 85; 23; 160; 26; 254; 27; 174;
  141; 60; 179; 31; 98; 105; 226; 175; 149; 52; 150; 61; 44; 185; 58; 91; 14; 221; 33; 127;
  43; 147; 115; 3; 21; 45; 55; 53; 39; 59; 170; 27; 33; 172; 191; 28; 89; 195; 17; 35;
  91; 127; 67; 7; 105; 105; 237; 74; 227; 79; 255; 222; 116; 234; 83; 87; 237; 151; 70; 115;
  148; 232; 69; 235; 79; 93; 238; 64; 16; 114; 242; 124; 52; 118; 106; 183; 110; 41; 75; 59;
  79; 204; 108; 162; 113; 107; 167; 130; 80; 160; 102; 98; 72; 91; 43; 111; 236; 63; 93; 239;
  165; 177; 166; 51; 150; 69; 161; 203; 202; 129; 186; 168; 157; 143; 201; 141; 224; 151; 161; 162;
  5; 189; 189; 213; 41; 216; 189; 27; 185; 183; 46; 27; 190; 177; 35; 138; 84; 141; 50; 172;
  232; 129; 138; 140; 173; 202; 172; 134; 209; 155; 143; 178; 148; 206; 84; 72; 7; 160; 186; 191;
  188; 61; 174; 43; 226; 32; 232; 19; 211; 27; 198; 139; 8; 106; 149; 142; 176; 247; 205; 232;
  201; 193; 207; 250; 85; 213; 184; 137; 248; 195; 183; 210; 221; 241; 2; 75; 224; 237; 99; 254;
  218; 101; 224; 103; 252; 185; 236; 185; 152; 253; 232; 255; 232; 65; 250; 124; 36; 219; 122; 231;
  249; 120; 229; 122; 60; 239; 219; 126; 18; 168; 50; 51; 69; 28; 182; 15; 149; 72; 37; 17;
  92; 11; 28; 212; 240; 33; 82; 55; 148; 0; 110; 31; 80; 144; 234; 22; 20; 21; 255; 46;
  72; 47; 189; 194; 44; 13; 219; 167; 30; 24; 57; 31; 205; 31; 28; 110; 50; 11; 146; 34;
  140; 58; 62; 37; 16; 41; 123; 251; 15; 181; 46; 151; 81; 93; 242; 77; 202; 245; 212; 199;
  80; 200; 234; 127; 44; 70; 223; 63; 95; 85; 211; 23; 228; 90; 94; 94; 32; 74; 114; 26;
  253; 104; 38; 86; 168; 114; 165; 210; 106; 155; 230; 231; 39; 232; 137; 235; 6; 236; 110; 106;
  120; 27; 163; 63; 180; 120; 174; 126; 96; 107; 126; 147; 116; 221; 73; 247; 136; 249; 144; 157;
  165; 36; 150; 135; 9; 66; 10; 11; 180; 73; 14; 158; 160; 162; 45; 179; 199; 116; 159; 135;
  112; 138; 202; 3; 140; 37; 141; 190; 148; 178; 199; 181; 64; 176; 198; 177; 221; 187; 189; 139;
  108; 181; 4; 205; 143; 218; 163; 171; 149; 155; 174; 134; 150; 195; 122; 155; 61; 160; 174; 238;
  4; 220; 146; 209; 105; 5; 222; 95; 25; 245; 88; 195; 1; 253; 192; 159; 245; 160; 203; 3;
  248; 87; 198; 38; 229; 169; 194; 235; 240; 151; 254; 192; 216; 253; 131; 226; 36; 193; 6; 217;
  56; 217; 167; 234; 68; 100; 47; 201; 32; 238; 122; 66; 202; 252; 102; 211; 114; 248; 170; 225;
  69; 188; 190; 58; 97; 45; 2; 34; 54; 11; 38; 36; 140; 72; 58; 34; 236; 48; 158; 39;
  130; 33; 146; 49; 60; 133; 214; 53; 48; 61; 10; 90; 152; 29; 74; 79; 5; 176; 61; 19;
  3; 213; 3; 167; 184; 14; 250; 53; 124; 5; 108; 127; 20; 99; 114; 67; 118; 121; 112; 103;
  28; 185; 75; 121; 77; 20; 142; 125; 105; 209; 115; 0; 116; 37; 111; 96; 2; 8; 27; 111;
  111; 79; 209; 78; 117; 0; 23; 122; 28; 87; 245; 150; 72; 29; 86; 21; 77; 24; 107; 79;
  97; 176; 99; 92; 229; 35; 39; 102; 187; 109; 107; 62; 172; 80; 95; 124; 32; 107; 66; 48;
  212; 80; 246; 54; 109; 41; 109; 225; 109; 56; 143; 126; 112; 160; 128; 120; 133; 38; 132; 104;
  137; 129; 29; 233; 210; 207; 201; 63; 176; 161; 128; 58; 36; 176; 198; 152; 40; 208; 44; 219;
  186; 133; 14; 191; 253; 97; 234; 80; 21; 237; 198; 134; 40; 225; 210; 234; 235; 186; 190; 95;
  168; 225; 167; 211; 255; 5; 162; 231; 127; 201; 132; 139; 148; 140; 251; 246; 194; 216; 147; 143;
  84; 230; 206; 232; 234; 81; 234; 128; 157; 221; 62; 211; 240; 225; 195; 195; 200; 5; 87; 154;
  116; 208; 219; 27; 226; 170; 223; 166; 225; 138; 227; 102; 245; 244; 217; 98; 41; 64; 218; 162;
  61; 204; 30; 255; 212; 1; 210; 227; 165; 186; 6; 212; 74; 63; 240; 155; 216; 13; 216; 52;
  2; 168; 18; 38; 85; 85; 131; 135; 41; 186; 139; 73; 29; 157; 40; 255; 176; 8; 18; 53;
  164; 5; 198; 49; 230; 230; 129; 88; 124; 58; 110; 50; 104; 168; 215; 218; 68; 9; 198; 39;
  37; 105; 33; 220; 217; 174; 214; 40; 51; 87; 40; 0; 0; 11].
Definition _td30 : bytes := string_array [
  4; 37; 118; 3; 116; 212; 253; 248; 3; 20; 12; 98; 12; 9; 36; 15; 147; 16; 31; 91;
  176; 21; 230; 26; 215; 189; 83; 27; 192; 241; 30; 216; 42; 144; 251; 29; 43; 18; 195; 39;
  22; 41; 114; 99; 253; 36; 70; 209; 48; 238; 253; 207; 203; 46; 48; 208; 57; 57; 58; 54;
  234; 222; 225; 52; 212; 216; 67; 19; 69; 127; 251; 211; 68; 133; 228; 233; 14; 65; 188; 78;
  45; 118; 51; 88; 36; 87; 39; 95; 180; 184; 164; 59; 92; 123; 90; 95; 76; 97; 26; 99;
  218; 155; 107; 103; 65; 105; 98; 111; 238; 108; 46; 106; 144; 10; 219; 115; 112; 117; 78; 55;
  125; 41; 90; 198; 172; 98; 254; 191; 140; 175; 128; 79; 132; 173; 150; 128; 26; 31; 202; 140;
  204; 189; 158; 136; 224; 146; 194; 148; 196; 168; 86; 219; 74; 184; 146; 165; 141; 154; 154; 183;
  108; 1; 230; 83; 163; 217; 166; 174; 12; 242; 171; 43; 171; 17; 171; 99; 112; 40; 114; 127;
  180; 164; 146; 7; 152; 41; 153; 139; 157; 188; 62; 181; 80; 224; 60; 60; 95; 148; 210; 198;
  184; 207; 2; 200; 233; 23; 205; 207; 112; 209; 221; 147; 56; 100; 240; 83; 84; 149; 106; 119;
  225; 96; 227; 143; 235; 81; 238; 243; 20; 231; 198; 226; 232; 235; 133; 196; 156; 235; 215; 16;
  211; 83; 254; 39; 249; 229; 164; 245; 233; 244; 213; 61; 97; 157; 243; 193; 154; 12; 50; 6;
  117; 11; 241; 169; 40; 7; 72; 21; 149; 0; 34; 166; 17; 174; 179; 22; 50; 12; 242; 18;
  232; 120; 11; 11; 141; 27; 14; 19; 225; 181; 178; 63; 244; 45; 66; 103; 47; 169; 1; 155;
  62; 127; 28; 15; 56; 177; 1; 131; 61; 245; 103; 36; 7; 156; 170; 40; 50; 77; 55; 123;
  6; 96; 72; 83; 132; 79; 6; 87; 89; 217; 104; 91; 95; 189; 90; 253; 217; 97; 70; 183;
  13; 53; 94; 70; 76; 41; 154; 79; 86; 72; 190; 74; 216; 129; 107; 127; 123; 103; 3; 101;
  106; 233; 124; 48; 110; 78; 108; 56; 146; 56; 210; 122; 184; 68; 102; 97; 82; 41; 90; 110;
  84; 51; 78; 159; 148; 241; 133; 211; 146; 165; 218; 231; 128; 24; 138; 156; 220; 171; 30; 152;
  160; 183; 86; 134; 212; 141; 246; 231; 128; 85; 170; 144; 204; 181; 46; 63; 179; 81; 138; 51;
  181; 85; 191; 111; 72; 160; 132; 11; 204; 180; 78; 172; 224; 167; 82; 194; 172; 228; 172; 55;
  104; 146; 234; 161; 172; 150; 110; 254; 216; 107; 159; 99; 222; 17; 151; 209; 237; 88; 220; 210;
  189; 209; 206; 50; 209; 80; 80; 179; 20; 89; 199; 215; 197; 41; 194; 203; 193; 173; 196; 143;
  192; 252; 82; 249; 220; 227; 166; 251; 163; 232; 168; 116; 60; 251; 239; 96; 242; 146; 82; 237;
  182; 247; 156; 135; 236; 40; 233; 43; 217; 77; 234; 182; 96; 30; 50; 22; 196; 29; 36; 0;
  104; 31; 229; 131; 12; 246; 15; 127; 48; 28; 16; 24; 132; 53; 210; 181; 109; 41; 7; 42;
  13; 45; 142; 21; 0; 59; 3; 147; 46; 53; 118; 6; 226; 57; 10; 51; 1; 36; 222; 32;
  49; 30; 115; 17; 5; 55; 195; 118; 186; 70; 75; 47; 47; 109; 39; 143; 81; 177; 95; 80;
  148; 81; 198; 100; 218; 65; 90; 105; 195; 76; 211; 111; 81; 218; 83; 202; 85; 149; 86; 206;
  217; 91; 204; 107; 65; 140; 127; 47; 72; 145; 66; 226; 84; 64; 86; 71; 216; 78; 212; 98;
  108; 73; 111; 15; 84; 26; 112; 250; 117; 28; 116; 8; 81; 25; 92; 185; 221; 12; 103; 97;
  176; 155; 210; 157; 5; 53; 159; 87; 149; 89; 173; 177; 134; 189; 144; 173; 189; 160; 182; 186;
  149; 52; 167; 191; 35; 24; 208; 34; 188; 130; 111; 95; 129; 133; 242; 162; 141; 21; 174; 168;
  88; 141; 172; 160; 51; 196; 24; 173; 179; 129; 180; 227; 165; 33; 149; 137; 252; 32; 150; 186;
  202; 173; 181; 170; 198; 166; 192; 235; 196; 237; 42; 198; 228; 9; 234; 11; 141; 220; 233; 206;
  144; 183; 98; 193; 180; 211; 185; 119; 244; 201; 144; 195; 60; 241; 80; 207; 205; 33; 248; 179;
  201; 50; 227; 70; 196; 201; 186; 198; 108; 239; 136; 99; 3; 225; 114; 47; 116; 12; 87; 217;
  2; 121; 39; 251; 76; 211; 158; 25; 24; 9; 250; 13; 36; 45; 14; 15; 7; 113; 219; 36;
  20; 14; 79; 127; 62; 179; 146; 89; 149; 176; 135; 39; 191; 25; 154; 83; 253; 44; 126; 217;
  104; 46; 42; 43; 41; 189; 167; 22; 192; 38; 114; 38; 174; 87; 126; 31; 190; 212; 178; 105;
  181; 69; 4; 183; 109; 184; 225; 187; 119; 204; 125; 111; 113; 81; 58; 73; 44; 87; 38; 116;
  80; 90; 98; 107; 71; 133; 93; 15; 84; 1; 96; 204; 212; 117; 188; 215; 254; 217; 171; 202;
  104; 175; 110; 221; 36; 1; 77; 219; 110; 173; 116; 15; 217; 90; 187; 59; 89; 5; 125; 232;
  65; 69; 235; 3; 103; 196; 70; 21; 95; 136; 74; 82; 109; 51; 30; 80; 240; 176; 202; 163;
  144; 109; 136; 111; 155; 9; 189; 243; 159; 137; 183; 138; 224; 191; 155; 18; 129; 20; 144; 151;
  25; 139; 27; 155; 29; 133; 143; 200; 161; 241; 147; 123; 173; 77; 182; 111; 161; 113; 187; 202;
  149; 197; 190; 7; 161; 137; 161; 50; 89; 181; 54; 175; 57; 81; 58; 152; 61; 78; 166; 79;
  63; 30; 178; 243; 4; 203; 134; 255; 111; 205; 154; 221; 252; 246; 161; 207; 0; 30; 93; 139;
  240; 17; 69; 215; 219; 239; 213; 92; 222; 208; 57; 85; 175; 65; 217; 143; 190; 245; 201; 230;
  41; 168; 251; 187; 16; 237; 136; 15; 33; 221; 182; 83; 216; 123; 54; 67; 120; 62; 122; 84;
  124; 13; 236; 111; 63; 41; 215; 179; 17; 53; 40; 131; 41; 54; 244; 139; 28; 78; 143; 12;
  145; 179; 82; 91; 165; 14; 215; 39; 45; 177; 10; 131; 15; 69; 157; 94; 64; 22; 40; 231;
  5; 26; 166; 215; 28; 169; 168; 171; 220; 217; 174; 139; 241; 115; 47; 35; 13; 133; 7; 167;
  121; 73; 11; 40; 156; 10; 126; 8; 120; 85; 114; 68; 34; 69; 101; 194; 104; 9; 205; 42;
  98; 246; 206; 138; 208; 129; 22; 211; 236; 213; 150; 215; 235; 9; 118; 75; 101; 29; 182; 87;
  40; 112; 170; 100; 132; 32; 62; 125; 111; 249; 83; 135; 13; 67; 94; 85; 48; 240; 99; 183;
  245; 55; 135; 49; 41; 24; 85; 59; 63; 204; 71; 111; 148; 137; 136; 171; 101; 194; 94; 148;
  170; 136; 219; 187; 53; 13; 86; 15; 39; 17; 72; 177; 20; 5; 160; 77; 136; 172; 251; 180;
  150; 165; 30; 138; 120; 171; 218; 183; 188; 174; 166; 237; 234; 107; 235; 153; 187; 44; 133; 46;
  16; 251; 136; 145; 53; 117; 240; 137; 105; 134; 216; 148; 180; 175; 191; 63; 239; 121; 211; 251;
  204; 93; 215; 41; 73; 233; 252; 71; 88; 77; 45; 79; 77; 208; 155; 2; 4; 153; 15; 55;
  128; 88; 147; 215; 28; 158; 94; 146; 161; 241; 160; 75; 232; 61; 242; 127; 233; 211; 148; 122;
  141; 219; 151; 111; 222; 64; 188; 218; 5; 0; 204; 238; 248; 242; 37; 218; 94; 198; 158; 213;
  0; 37; 52; 25; 203; 71; 58; 11; 250; 7; 0; 0; 0].
Definition _td31 : bytes := string_array [
  4; 2; 89; 3; 9; 169; 253; 248; 3; 44; 12; 175; 12; 14; 38; 15; 97; 16; 25; 15;
  18; 21; 213; 20; 1; 25; 137; 26; 12; 142; 158; 31; 40; 33; 35; 130; 89; 37; 221; 38;
  28; 57; 133; 185; 45; 39; 206; 45; 59; 51; 63; 13; 52; 182; 81; 58; 245; 180; 115; 59;
  26; 61; 236; 142; 76; 67; 52; 209; 74; 114; 70; 162; 118; 73; 5; 121; 212; 65; 38; 111;
  174; 85; 157; 63; 84; 53; 86; 242; 89; 216; 122; 95; 231; 208; 205; 80; 36; 252; 194; 103;
  228; 1; 253; 223; 101; 122; 197; 251; 95; 104; 102; 7; 224; 242; 195; 118; 39; 105; 221; 137;
  113; 89; 124; 87; 127; 29; 120; 131; 187; 54; 140; 135; 239; 19; 38; 131; 113; 50; 222; 133;
  25; 201; 71; 60; 163; 148; 90; 45; 145; 100; 145; 186; 152; 154; 246; 100; 190; 155; 147; 155;
  160; 161; 142; 13; 165; 121; 209; 169; 168; 60; 170; 171; 168; 221; 183; 111; 124; 224; 144; 243;
  196; 144; 134; 150; 232; 157; 170; 183; 12; 189; 157; 125; 193; 13; 218; 250; 197; 34; 196; 198;
  24; 197; 117; 202; 137; 204; 125; 14; 208; 253; 18; 95; 5; 199; 38; 247; 232; 216; 11; 214;
  204; 207; 14; 255; 36; 226; 46; 227; 248; 132; 231; 112; 234; 190; 235; 102; 172; 239; 181; 238;
  121; 211; 161; 81; 249; 69; 198; 214; 40; 235; 234; 155; 240; 44; 243; 153; 5; 64; 178; 15;
  77; 4; 49; 5; 59; 200; 26; 20; 28; 12; 45; 141; 73; 129; 29; 130; 2; 69; 54; 63;
  8; 14; 202; 60; 252; 12; 46; 56; 164; 161; 36; 131; 42; 46; 36; 58; 42; 137; 56; 99;
  59; 47; 209; 255; 48; 19; 93; 131; 63; 164; 54; 34; 168; 33; 170; 46; 76; 42; 206; 159;
  84; 145; 84; 113; 67; 213; 86; 62; 136; 72; 10; 74; 57; 76; 211; 78; 59; 176; 70; 38;
  84; 149; 26; 125; 80; 149; 58; 220; 156; 85; 82; 105; 105; 225; 112; 232; 101; 174; 100; 32;
  184; 125; 58; 125; 124; 120; 175; 173; 228; 224; 125; 124; 84; 101; 104; 71; 104; 9; 43; 108;
  108; 98; 188; 137; 129; 151; 209; 130; 195; 135; 54; 151; 200; 145; 170; 180; 141; 220; 12; 16;
  224; 130; 163; 157; 213; 69; 153; 231; 150; 233; 187; 139; 172; 138; 188; 149; 90; 161; 180; 99;
  69; 189; 119; 189; 152; 128; 40; 155; 253; 183; 62; 182; 96; 152; 76; 66; 163; 37; 235; 182;
  123; 184; 250; 160; 121; 188; 158; 167; 136; 14; 195; 99; 20; 208; 196; 205; 73; 219; 203; 195;
  235; 207; 201; 78; 204; 210; 211; 248; 150; 194; 214; 203; 216; 192; 154; 203; 244; 237; 206; 175;
  200; 209; 232; 240; 100; 248; 224; 166; 244; 182; 235; 130; 238; 164; 142; 241; 157; 243; 50; 253;
  155; 119; 199; 234; 105; 113; 227; 11; 215; 61; 228; 175; 43; 241; 98; 28; 192; 47; 18; 71;
  20; 17; 253; 11; 252; 1; 142; 47; 178; 204; 147; 51; 211; 20; 181; 183; 21; 40; 234; 6;
  83; 45; 16; 78; 1; 209; 45; 115; 40; 21; 45; 23; 8; 216; 107; 74; 12; 222; 46; 198;
  49; 196; 162; 17; 245; 247; 130; 23; 34; 200; 46; 43; 36; 13; 42; 111; 99; 65; 178; 85;
  180; 82; 184; 184; 211; 168; 8; 66; 28; 78; 134; 176; 175; 110; 194; 91; 180; 85; 91; 215;
  62; 91; 64; 223; 94; 109; 255; 233; 99; 106; 118; 101; 15; 244; 102; 63; 8; 104; 248; 253;
  158; 111; 181; 245; 44; 114; 120; 216; 36; 115; 156; 119; 88; 106; 104; 171; 91; 202; 190; 125;
  224; 169; 179; 167; 189; 91; 174; 151; 50; 38; 162; 41; 142; 205; 136; 138; 144; 217; 144; 36;
  55; 101; 177; 103; 102; 208; 179; 194; 14; 159; 239; 180; 207; 33; 34; 143; 254; 90; 175; 139;
  250; 205; 104; 135; 45; 44; 142; 130; 221; 232; 159; 190; 180; 157; 253; 104; 180; 195; 84; 255;
  188; 189; 154; 100; 130; 204; 60; 208; 226; 201; 66; 142; 12; 41; 195; 49; 85; 71; 197; 15;
  213; 17; 1; 223; 84; 40; 240; 209; 72; 207; 74; 247; 15; 93; 214; 14; 204; 54; 189; 3;
  201; 209; 188; 202; 40; 227; 195; 218; 194; 65; 46; 111; 222; 133; 72; 221; 214; 190; 230; 135;
  245; 37; 116; 219; 245; 65; 132; 159; 136; 12; 5; 211; 96; 2; 6; 8; 141; 184; 15; 91;
  128; 217; 125; 240; 112; 17; 155; 195; 56; 57; 128; 174; 184; 57; 43; 16; 47; 109; 21; 157;
  33; 241; 40; 11; 228; 210; 187; 7; 26; 17; 74; 28; 44; 88; 150; 227; 64; 58; 19; 18;
  20; 33; 38; 37; 45; 169; 2; 48; 140; 46; 142; 32; 182; 209; 67; 227; 105; 69; 199; 5;
  40; 233; 108; 75; 112; 159; 100; 239; 101; 95; 19; 147; 109; 109; 12; 116; 148; 92; 106; 85;
  80; 125; 126; 95; 224; 145; 171; 83; 74; 165; 71; 102; 152; 83; 191; 147; 239; 199; 111; 9;
  120; 113; 22; 18; 127; 244; 18; 246; 100; 88; 250; 88; 28; 155; 182; 118; 248; 143; 50; 191;
  134; 109; 230; 168; 130; 1; 135; 46; 142; 235; 206; 1; 36; 17; 206; 18; 59; 84; 171; 59;
  152; 25; 195; 234; 177; 253; 88; 199; 170; 169; 122; 176; 60; 20; 152; 95; 162; 209; 185; 171;
  195; 174; 200; 35; 116; 49; 104; 51; 37; 21; 137; 98; 56; 112; 58; 128; 156; 138; 46; 131;
  64; 73; 200; 235; 215; 125; 204; 159; 9; 137; 194; 195; 216; 64; 191; 240; 121; 81; 31; 83;
  86; 126; 119; 150; 104; 89; 18; 139; 231; 93; 224; 95; 40; 230; 170; 242; 60; 226; 190; 86;
  170; 225; 98; 248; 86; 157; 209; 97; 28; 113; 169; 127; 117; 24; 55; 202; 56; 186; 153; 106;
  192; 157; 188; 127; 232; 13; 138; 23; 220; 9; 126; 166; 76; 65; 34; 31; 195; 93; 77; 61;
  46; 145; 44; 107; 12; 30; 78; 3; 184; 92; 10; 94; 116; 22; 6; 59; 52; 209; 98; 102;
  86; 103; 167; 98; 39; 49; 46; 36; 228; 204; 104; 247; 63; 25; 61; 68; 54; 49; 166; 10;
  174; 185; 43; 186; 178; 189; 22; 54; 193; 201; 99; 11; 12; 213; 122; 111; 67; 156; 10; 116;
  228; 156; 6; 183; 160; 20; 65; 115; 103; 53; 21; 89; 148; 200; 25; 171; 29; 189; 23; 141;
  224; 1; 51; 105; 52; 197; 46; 127; 200; 41; 123; 99; 102; 85; 127; 142; 58; 249; 99; 117;
  228; 60; 250; 0; 248; 232; 42; 85; 14; 253; 121; 158; 203; 136; 243; 2; 206; 149; 126; 138;
  112; 157; 42; 199; 68; 152; 198; 31; 158; 137; 132; 155; 5; 220; 142; 22; 72; 210; 27; 59;
  209; 114; 30; 134; 33; 79; 50; 34; 238; 175; 142; 102; 148; 161; 11; 229; 68; 165; 54; 161;
  51; 33; 136; 3; 243; 55; 54; 77; 56; 60; 138; 138; 184; 61; 56; 95; 143; 49; 61; 28;
  72; 103; 135; 119; 255; 137; 124; 243; 98; 214; 78; 252; 191; 81; 210; 163; 187; 251; 247; 19;
  155; 238; 240; 218; 0; 0; 112].
Definition _td32 : bytes := string_array [
  4; 241; 253; 3; 110; 92; 253; 248; 3; 23; 12; 109; 12; 9; 38; 15; 153; 16; 25; 14;
  18; 17; 25; 22; 184; 25; 59; 26; 17; 176; 66; 31; 25; 44; 78; 131; 109; 37; 43; 184;
  40; 176; 39; 16; 37; 29; 32; 24; 213; 49; 12; 51; 196; 30; 19; 59; 80; 199; 58; 99;
  213; 54; 192; 39; 70; 144; 64; 194; 180; 68; 62; 247; 241; 71; 204; 211; 172; 76; 198; 44;
  8; 14; 111; 81; 206; 91; 136; 6; 91; 89; 101; 95; 92; 77; 64; 90; 101; 97; 226; 97;
  157; 198; 102; 103; 62; 150; 26; 109; 109; 171; 104; 67; 239; 112; 221; 23; 123; 117; 118; 74;
  120; 31; 244; 208; 252; 82; 255; 125; 37; 144; 138; 35; 4; 175; 135; 130; 232; 137; 140; 210;
  140; 137; 222; 166; 80; 157; 178; 85; 150; 89; 54; 184; 216; 144; 240; 152; 156; 81; 134; 24;
  161; 46; 160; 222; 165; 237; 63; 165; 219; 201; 160; 233; 227; 29; 167; 135; 176; 180; 126; 175;
  171; 183; 83; 182; 161; 169; 184; 80; 189; 174; 238; 180; 33; 147; 2; 195; 72; 116; 210; 23;
  234; 217; 222; 187; 228; 238; 158; 220; 64; 221; 234; 195; 223; 205; 247; 199; 218; 38; 219; 198;
  157; 208; 197; 221; 29; 229; 99; 182; 244; 233; 151; 232; 88; 201; 90; 123; 227; 29; 206; 31;
  193; 255; 178; 245; 228; 248; 122; 48; 249; 153; 253; 219; 243; 102; 255; 54; 160; 11; 134; 66;
  96; 5; 8; 246; 7; 121; 23; 171; 2; 101; 222; 19; 192; 112; 2; 91; 229; 27; 150; 28;
  75; 27; 24; 11; 13; 88; 28; 50; 34; 16; 96; 113; 65; 213; 41; 22; 9; 233; 36; 91;
  61; 63; 158; 37; 17; 177; 60; 239; 213; 37; 11; 53; 223; 56; 50; 10; 62; 230; 15; 44;
  249; 160; 47; 131; 196; 137; 215; 94; 216; 96; 218; 81; 92; 89; 110; 191; 75; 161; 120; 179;
  132; 71; 74; 30; 24; 88; 13; 89; 9; 92; 61; 126; 117; 28; 102; 1; 31; 100; 104; 120;
  88; 114; 26; 116; 237; 93; 122; 95; 109; 33; 106; 187; 115; 149; 100; 125; 23; 249; 111; 121;
  156; 107; 255; 125; 237; 128; 138; 0; 70; 6; 102; 150; 153; 151; 26; 173; 46; 61; 111; 152;
  128; 142; 98; 147; 140; 157; 182; 156; 152; 128; 155; 62; 157; 148; 159; 42; 161; 176; 2; 165;
  17; 68; 41; 183; 164; 56; 165; 155; 176; 141; 62; 143; 160; 33; 160; 19; 164; 148; 252; 190;
  185; 185; 181; 4; 189; 32; 191; 122; 193; 86; 230; 194; 11; 213; 221; 38; 83; 57; 197; 26;
  194; 131; 190; 158; 222; 1; 201; 113; 218; 229; 220; 39; 200; 46; 146; 219; 39; 220; 62; 195;
  229; 227; 18; 255; 205; 97; 100; 68; 56; 250; 155; 201; 188; 243; 142; 245; 33; 51; 239; 99;
  234; 29; 119; 235; 245; 216; 227; 43; 226; 254; 206; 230; 176; 29; 189; 226; 251; 186; 31; 66;
  136; 8; 10; 139; 252; 201; 166; 76; 160; 23; 18; 205; 20; 217; 177; 107; 46; 209; 20; 41;
  31; 172; 24; 247; 113; 241; 39; 195; 33; 127; 38; 19; 32; 41; 90; 36; 116; 149; 40; 61;
  55; 60; 185; 19; 5; 7; 59; 136; 112; 217; 59; 142; 103; 61; 61; 51; 142; 167; 205; 78;
  13; 129; 103; 167; 76; 253; 49; 247; 71; 13; 75; 81; 237; 133; 155; 174; 164; 85; 126; 199;
  91; 73; 42; 81; 125; 91; 138; 34; 115; 113; 66; 255; 205; 99; 118; 231; 107; 72; 108; 127;
  255; 42; 94; 104; 56; 232; 87; 126; 78; 200; 102; 53; 105; 250; 223; 107; 95; 248; 26; 139;
  160; 141; 22; 217; 9; 138; 68; 131; 56; 159; 200; 0; 173; 169; 35; 162; 224; 110; 242; 147;
  185; 216; 38; 183; 136; 89; 159; 138; 185; 165; 214; 239; 166; 193; 169; 9; 162; 69; 184; 23;
  57; 174; 13; 170; 202; 33; 190; 110; 48; 96; 50; 67; 159; 99; 54; 103; 145; 249; 150; 27;
  167; 109; 182; 109; 0; 234; 130; 222; 140; 165; 224; 35; 56; 229; 218; 235; 252; 224; 172; 159;
  210; 183; 162; 251; 20; 249; 93; 7; 245; 85; 218; 115; 92; 197; 95; 121; 96; 251; 99; 201;
  127; 37; 200; 38; 233; 199; 121; 59; 193; 159; 196; 106; 176; 222; 92; 178; 218; 89; 118; 187;
  121; 137; 212; 249; 180; 140; 246; 183; 225; 51; 98; 197; 172; 5; 8; 79; 28; 241; 4; 147;
  24; 5; 28; 30; 112; 32; 68; 16; 196; 62; 253; 151; 89; 27; 155; 27; 46; 34; 159; 241;
  160; 29; 243; 33; 17; 197; 22; 175; 38; 33; 63; 147; 34; 125; 246; 59; 184; 62; 98; 0;
  69; 229; 7; 185; 56; 37; 187; 29; 189; 38; 191; 26; 193; 19; 84; 3; 112; 100; 113; 151;
  64; 58; 138; 120; 12; 68; 254; 123; 118; 36; 147; 96; 94; 212; 123; 214; 26; 82; 251; 110;
  80; 220; 114; 62; 209; 85; 104; 97; 97; 133; 87; 142; 232; 58; 235; 135; 236; 101; 62; 238;
  136; 97; 69; 194; 45; 21; 144; 254; 232; 89; 82; 118; 236; 93; 166; 115; 184; 1; 177; 215;
  136; 76; 22; 177; 6; 201; 189; 193; 189; 186; 193; 143; 17; 114; 18; 247; 101; 106; 73; 219;
  210; 143; 186; 176; 220; 93; 186; 223; 188; 193; 136; 204; 36; 165; 136; 123; 7; 180; 28; 43;
  20; 136; 61; 31; 148; 160; 152; 173; 132; 101; 150; 68; 68; 176; 157; 251; 107; 149; 158; 176;
  60; 101; 210; 235; 109; 129; 246; 52; 255; 203; 49; 92; 232; 252; 203; 131; 56; 193; 247; 44;
  116; 208; 2; 22; 252; 105; 243; 170; 250; 247; 47; 110; 192; 142; 120; 198; 142; 231; 204; 124;
  186; 232; 134; 193; 225; 14; 131; 37; 254; 128; 111; 242; 228; 214; 27; 164; 222; 244; 118; 193;
  253; 236; 93; 215; 86; 155; 143; 34; 32; 51; 239; 96; 56; 9; 29; 13; 144; 125; 40; 0;
  0; 233].
Definition _td33 : bytes := string_array [
  4; 65; 14; 3; 87; 69; 253; 248; 24; 138; 10; 3; 44; 13; 15; 237; 236; 17; 201; 19;
  4; 215; 86; 21; 29; 25; 24; 188; 85; 141; 31; 115; 178; 222; 59; 34; 6; 38; 199; 38;
  246; 229; 218; 41; 46; 10; 71; 45; 28; 189; 51; 232; 158; 58; 182; 55; 10; 57; 62; 185;
  61; 57; 238; 63; 84; 152; 221; 19; 64; 125; 118; 66; 104; 43; 132; 75; 60; 74; 142; 67;
  140; 80; 158; 79; 116; 46; 87; 62; 90; 62; 203; 93; 57; 92; 126; 56; 98; 74; 162; 47;
  164; 100; 170; 199; 34; 68; 74; 109; 140; 237; 105; 111; 68; 81; 116; 249; 68; 118; 186; 183;
  64; 185; 125; 139; 120; 177; 102; 95; 185; 128; 27; 129; 161; 148; 143; 154; 137; 161; 27; 9;
  204; 45; 134; 145; 64; 153; 118; 195; 148; 85; 26; 134; 186; 105; 129; 11; 189; 223; 238; 14;
  170; 113; 184; 179; 161; 69; 174; 224; 160; 168; 65; 170; 204; 166; 65; 174; 245; 176; 186; 66;
  245; 228; 246; 189; 201; 170; 10; 166; 62; 109; 223; 179; 48; 210; 18; 222; 88; 245; 205; 135;
  212; 240; 200; 70; 206; 240; 175; 194; 239; 81; 208; 88; 54; 140; 22; 27; 73; 57; 214; 219;
  192; 77; 205; 47; 252; 209; 246; 115; 192; 248; 70; 199; 229; 201; 176; 202; 226; 207; 254; 231;
  208; 193; 209; 98; 251; 209; 230; 232; 92; 216; 219; 246; 239; 255; 35; 254; 112; 17; 227; 2;
  148; 24; 4; 236; 105; 73; 5; 135; 189; 125; 4; 47; 60; 65; 50; 131; 62; 181; 7; 103;
  50; 21; 88; 29; 252; 21; 158; 20; 83; 32; 199; 34; 6; 92; 183; 53; 171; 104; 66; 106;
  38; 57; 222; 127; 22; 97; 33; 3; 180; 38; 39; 135; 43; 171; 56; 60; 108; 45; 59; 62;
  187; 64; 77; 66; 196; 64; 68; 80; 73; 180; 171; 54; 28; 66; 106; 158; 67; 65; 81; 3;
  70; 53; 67; 103; 74; 9; 170; 122; 170; 87; 110; 75; 151; 241; 98; 97; 237; 37; 112; 128;
  105; 217; 124; 182; 13; 220; 94; 124; 112; 160; 82; 195; 87; 5; 86; 103; 92; 216; 10; 108;
  44; 89; 102; 116; 192; 147; 179; 51; 150; 135; 132; 183; 144; 228; 136; 152; 141; 194; 108; 141;
  34; 161; 158; 194; 130; 69; 177; 199; 141; 209; 74; 189; 236; 125; 146; 185; 246; 161; 186; 179;
  180; 114; 167; 16; 169; 137; 176; 110; 141; 23; 175; 127; 185; 128; 162; 195; 149; 133; 166; 231;
  248; 152; 68; 68; 39; 236; 170; 63; 197; 137; 199; 211; 222; 152; 246; 194; 40; 196; 138; 38;
  193; 93; 16; 12; 199; 225; 229; 210; 105; 208; 151; 212; 188; 250; 27; 155; 217; 54; 32; 6;
  227; 113; 246; 63; 161; 84; 226; 194; 28; 237; 218; 72; 67; 110; 235; 63; 160; 219; 59; 67;
  221; 69; 236; 211; 152; 241; 218; 94; 221; 245; 166; 143; 32; 225; 72; 82; 11; 18; 198; 13;
  72; 57; 29; 27; 23; 253; 24; 175; 49; 91; 55; 34; 31; 62; 38; 30; 26; 52; 154; 6;
  30; 42; 23; 159; 61; 131; 117; 2; 49; 43; 118; 5; 152; 113; 39; 27; 13; 93; 13; 95;
  39; 153; 115; 35; 21; 13; 55; 82; 58; 9; 30; 107; 36; 237; 42; 188; 226; 72; 2; 76;
  72; 233; 86; 101; 92; 70; 72; 72; 120; 79; 69; 63; 117; 179; 96; 66; 4; 116; 78; 231;
  152; 78; 202; 67; 12; 74; 174; 31; 70; 32; 114; 3; 153; 101; 59; 101; 125; 185; 97; 251;
  73; 108; 54; 84; 114; 21; 83; 102; 4; 123; 81; 23; 118; 9; 58; 82; 204; 103; 238; 84;
  112; 176; 144; 216; 196; 132; 3; 133; 235; 136; 247; 186; 165; 246; 138; 173; 232; 129; 177; 34;
  130; 197; 140; 39; 91; 72; 187; 11; 186; 45; 133; 25; 168; 65; 138; 99; 162; 173; 37; 165;
  253; 168; 129; 248; 173; 44; 108; 197; 56; 81; 149; 130; 4; 191; 149; 86; 169; 217; 173; 164;
  181; 109; 169; 175; 201; 209; 230; 234; 197; 234; 196; 195; 253; 200; 106; 233; 241; 204; 229; 45;
  47; 213; 109; 202; 164; 205; 214; 87; 232; 2; 126; 217; 239; 109; 195; 1; 224; 221; 249; 165;
  213; 113; 98; 229; 204; 247; 236; 26; 238; 136; 238; 174; 243; 157; 35; 212; 197; 218; 60; 244;
  242; 41; 236; 42; 226; 212; 239; 11; 4; 145; 29; 165; 167; 26; 182; 120; 216; 29; 154; 58;
  188; 45; 70; 239; 48; 9; 241; 18; 188; 184; 23; 200; 25; 42; 207; 43; 6; 92; 143; 23;
  82; 43; 34; 41; 228; 103; 52; 48; 120; 10; 218; 36; 220; 59; 48; 191; 4; 193; 62; 161;
  229; 61; 195; 54; 71; 237; 56; 194; 93; 8; 57; 95; 77; 131; 82; 98; 21; 84; 194; 247;
  110; 25; 93; 251; 105; 253; 106; 239; 102; 219; 40; 66; 118; 184; 166; 73; 90; 130; 90; 43;
  76; 12; 222; 104; 103; 67; 57; 99; 65; 209; 118; 104; 8; 108; 107; 83; 212; 140; 72; 102;
  113; 100; 112; 136; 18; 117; 118; 78; 56; 111; 107; 217; 124; 69; 174; 84; 159; 129; 114; 171;
  180; 154; 150; 174; 216; 150; 194; 187; 165; 49; 190; 170; 144; 232; 179; 178; 129; 59; 102; 7;
  132; 249; 137; 251; 186; 142; 238; 185; 60; 128; 182; 171; 247; 167; 241; 199; 131; 171; 229; 169;
  229; 189; 172; 234; 114; 19; 2; 138; 69; 166; 230; 114; 168; 145; 174; 43; 150; 13; 170; 111;
  160; 252; 210; 213; 78; 221; 70; 226; 95; 121; 220; 201; 89; 204; 94; 250; 104; 68; 179; 100;
  36; 240; 150; 217; 248; 245; 234; 75; 210; 201; 193; 79; 48; 244; 253; 181; 255; 160; 204; 246;
  234; 234; 251; 247; 44; 228; 236; 129; 117; 6; 161; 19; 234; 212; 217; 253; 191; 8; 248; 246;
  46; 252; 32; 245; 227; 241; 61; 98; 109; 7; 11; 241; 89; 204; 2; 6; 68; 169; 46; 13;
  128; 49; 20; 29; 20; 82; 235; 216; 21; 46; 255; 37; 28; 29; 131; 115; 194; 42; 74; 221;
  104; 36; 70; 157; 41; 49; 44; 65; 204; 3; 0; 0; 1].
Definition _td34 : bytes := string_array [
  4; 35; 18; 3; 103; 41; 253; 248; 24; 43; 10; 3; 44; 13; 15; 218; 162; 17; 201; 19;
  4; 51; 31; 101; 24; 188; 122; 199; 28; 49; 168; 30; 39; 33; 201; 44; 36; 1; 38; 35;
  24; 2; 42; 235; 160; 92; 51; 159; 22; 1; 47; 51; 68; 19; 38; 41; 168; 28; 142; 57;
  120; 241; 94; 254; 67; 240; 86; 19; 100; 65; 83; 3; 152; 108; 42; 78; 124; 104; 246; 143;
  84; 241; 251; 147; 87; 89; 234; 167; 93; 185; 123; 93; 156; 61; 88; 31; 116; 104; 96; 8;
  102; 98; 118; 96; 74; 179; 70; 203; 106; 169; 175; 107; 241; 118; 186; 130; 113; 245; 113; 119;
  244; 40; 109; 107; 85; 45; 102; 111; 192; 169; 114; 148; 52; 162; 74; 87; 142; 145; 134; 122;
  140; 205; 137; 31; 153; 72; 147; 150; 149; 129; 83; 118; 105; 158; 74; 251; 149; 189; 179; 95;
  108; 237; 118; 98; 163; 101; 172; 171; 112; 152; 162; 154; 167; 7; 114; 127; 182; 85; 19; 184;
  84; 36; 188; 153; 152; 181; 140; 95; 189; 182; 63; 179; 40; 176; 201; 67; 200; 9; 151; 231;
  213; 89; 224; 27; 208; 125; 195; 159; 204; 209; 194; 248; 110; 209; 26; 203; 167; 216; 222; 8;
  222; 77; 208; 24; 226; 154; 227; 32; 224; 135; 176; 54; 235; 203; 186; 207; 220; 206; 111; 79;
  255; 97; 209; 3; 215; 45; 240; 135; 246; 153; 1; 250; 117; 255; 33; 255; 2; 176; 18; 186;
  0; 231; 105; 119; 0; 56; 31; 251; 21; 221; 138; 26; 64; 176; 3; 163; 12; 97; 17; 119;
  8; 57; 167; 26; 123; 31; 171; 158; 50; 146; 35; 43; 77; 167; 94; 87; 37; 184; 52; 123;
  11; 121; 30; 48; 33; 53; 45; 99; 48; 165; 119; 37; 29; 177; 59; 236; 61; 93; 42; 240;
  65; 110; 98; 73; 64; 196; 197; 7; 91; 120; 88; 155; 86; 157; 78; 93; 96; 75; 66; 71;
  36; 78; 168; 85; 81; 9; 72; 172; 92; 118; 92; 86; 97; 225; 123; 97; 105; 100; 123; 69;
  195; 57; 123; 203; 125; 98; 222; 74; 0; 32; 101; 99; 180; 98; 158; 82; 176; 115; 10; 125;
  209; 60; 109; 159; 149; 145; 150; 1; 144; 116; 142; 148; 56; 161; 186; 128; 252; 132; 174; 198;
  145; 210; 144; 162; 21; 140; 187; 150; 176; 222; 56; 40; 156; 144; 220; 222; 185; 40; 163; 187;
  41; 167; 39; 22; 178; 185; 165; 44; 238; 25; 115; 239; 170; 199; 195; 169; 84; 161; 118; 163;
  129; 153; 176; 186; 160; 189; 5; 94; 63; 126; 219; 134; 197; 197; 102; 71; 48; 71; 108; 226;
  28; 205; 16; 95; 211; 32; 34; 209; 135; 21; 213; 115; 218; 8; 199; 59; 203; 175; 222; 155;
  242; 148; 223; 225; 165; 228; 238; 182; 235; 247; 207; 155; 241; 61; 30; 227; 188; 31; 18; 248;
  240; 218; 163; 183; 226; 11; 170; 247; 188; 12; 222; 9; 144; 11; 30; 69; 159; 212; 22; 215;
  41; 154; 8; 158; 253; 23; 78; 34; 49; 6; 7; 130; 12; 149; 7; 50; 24; 58; 74; 62;
  57; 76; 16; 7; 185; 47; 0; 109; 36; 4; 215; 58; 96; 217; 48; 155; 237; 9; 110; 42;
  112; 37; 3; 10; 116; 23; 52; 36; 216; 43; 186; 45; 220; 47; 188; 102; 71; 64; 71; 243;
  87; 197; 83; 88; 216; 83; 122; 106; 73; 141; 104; 65; 16; 67; 74; 66; 85; 6; 84; 223;
  77; 88; 21; 202; 123; 16; 220; 46; 17; 105; 102; 65; 212; 165; 110; 69; 24; 67; 26; 74;
  124; 61; 69; 165; 120; 241; 104; 174; 117; 250; 116; 117; 40; 80; 251; 121; 159; 124; 5; 221;
  130; 16; 243; 142; 149; 53; 153; 119; 152; 217; 158; 148; 220; 28; 164; 17; 177; 135; 227; 146;
  3; 50; 167; 179; 232; 187; 59; 129; 94; 60; 207; 135; 174; 49; 166; 247; 84; 171; 134; 132;
  152; 56; 189; 233; 188; 181; 182; 159; 91; 177; 133; 177; 132; 152; 198; 161; 75; 185; 242; 152;
  126; 23; 254; 153; 17; 223; 242; 202; 244; 132; 247; 233; 88; 212; 154; 227; 144; 141; 215; 171;
  210; 103; 226; 198; 5; 245; 6; 247; 168; 249; 249; 59; 250; 77; 241; 175; 195; 149; 67; 248;
  255; 231; 238; 68; 233; 254; 139; 219; 225; 239; 119; 110; 82; 70; 195; 219; 236; 101; 218; 231;
  234; 201; 139; 202; 124; 109; 213; 1; 255; 154; 19; 16; 180; 26; 4; 79; 88; 59; 62; 9;
  12; 237; 3; 207; 184; 238; 237; 168; 84; 11; 14; 148; 7; 41; 75; 5; 14; 2; 204; 30;
  226; 251; 223; 61; 42; 36; 47; 38; 57; 9; 236; 43; 74; 163; 36; 174; 33; 33; 179; 56;
  181; 39; 23; 1; 47; 120; 40; 123; 92; 251; 118; 52; 72; 85; 162; 117; 172; 197; 85; 175;
  66; 193; 89; 161; 77; 157; 123; 79; 149; 209; 23; 210; 233; 213; 107; 214; 74; 248; 106; 99;
  61; 118; 158; 105; 120; 105; 90; 227; 107; 109; 110; 79; 103; 209; 109; 91; 85; 109; 86; 108;
  22; 253; 243; 243; 141; 245; 119; 167; 65; 140; 250; 247; 252; 151; 254; 67; 161; 49; 186; 171;
  141; 61; 136; 71; 178; 241; 132; 171; 244; 132; 166; 129; 99; 49; 171; 29; 101; 165; 22; 173;
  25; 106; 75; 160; 108; 164; 170; 14; 226; 158; 98; 149; 204; 173; 126; 182; 24; 149; 194; 205;
  189; 125; 150; 255; 151; 140; 182; 19; 143; 21; 159; 140; 168; 56; 188; 58; 252; 92; 131; 242;
  49; 130; 130; 163; 34; 93; 207; 15; 218; 105; 244; 51; 140; 223; 118; 198; 200; 194; 143; 83;
  233; 89; 208; 204; 57; 228; 122; 228; 195; 92; 255; 94; 197; 101; 67; 169; 116; 217; 158; 236;
  16; 252; 202; 220; 124; 37; 251; 183; 250; 1; 178; 187; 241; 85; 205; 215; 33; 121; 179; 122;
  43; 92; 191; 42; 128; 233; 69; 210; 80; 181; 62; 175; 24; 48; 74; 50; 76; 48; 26; 0;
  216; 192; 80; 190; 116; 84; 154; 104; 152; 17; 56; 154; 158; 140; 93; 156; 160; 2; 211; 115;
  219; 250; 170; 133; 168; 27; 106; 43; 30; 114; 108; 15; 160; 44; 93; 51; 154; 21; 118; 50;
  158; 39; 186; 235; 32; 156; 123; 189; 5; 0; 0; 32].
Definition _td35 : bytes := string_array [
  4; 189; 235; 3; 246; 36; 253; 248; 24; 160; 10; 3; 44; 13; 15; 124; 233; 17; 201; 19;
  56; 183; 22; 23; 160; 11; 10; 27; 64; 29; 120; 31; 176; 40; 98; 35; 25; 36; 234; 39;
  56; 61; 234; 39; 110; 141; 44; 79; 40; 241; 50; 191; 133; 23; 166; 19; 72; 26; 106; 25;
  25; 141; 61; 79; 105; 157; 82; 64; 88; 14; 78; 70; 3; 75; 58; 79; 59; 79; 27; 78;
  88; 208; 16; 115; 180; 87; 100; 84; 148; 65; 122; 118; 93; 14; 92; 96; 209; 100; 39; 98;
  172; 60; 68; 37; 40; 108; 78; 111; 76; 110; 14; 105; 112; 189; 3; 98; 36; 107; 230; 102;
  8; 40; 75; 124; 172; 99; 86; 222; 134; 40; 211; 128; 158; 133; 214; 172; 184; 147; 90; 161;
  220; 151; 190; 63; 186; 87; 152; 195; 144; 53; 147; 38; 153; 159; 145; 218; 149; 61; 151; 36;
  65; 94; 29; 186; 37; 133; 160; 167; 40; 21; 175; 11; 130; 125; 174; 175; 110; 177; 66; 141;
  105; 243; 210; 181; 241; 158; 187; 171; 38; 207; 190; 126; 24; 28; 194; 52; 192; 197; 127; 54;
  201; 199; 202; 207; 78; 204; 238; 203; 208; 161; 98; 112; 100; 222; 246; 209; 216; 217; 186; 30;
  96; 205; 220; 95; 160; 165; 210; 99; 68; 239; 120; 203; 252; 201; 229; 108; 125; 92; 229; 3;
  233; 111; 66; 252; 252; 243; 118; 250; 208; 185; 165; 128; 204; 246; 30; 127; 13; 193; 18; 3;
  250; 71; 26; 7; 59; 241; 11; 59; 24; 142; 74; 62; 1; 21; 98; 2; 66; 21; 20; 55;
  0; 21; 122; 61; 198; 45; 28; 159; 46; 37; 66; 37; 132; 44; 64; 119; 9; 73; 204; 11;
  100; 37; 166; 60; 24; 80; 33; 235; 51; 53; 238; 36; 46; 59; 92; 181; 243; 189; 190; 0;
  193; 139; 194; 121; 197; 140; 230; 83; 26; 56; 106; 88; 74; 85; 110; 91; 194; 64; 71; 73;
  81; 5; 67; 231; 121; 74; 82; 82; 36; 83; 70; 30; 81; 119; 90; 106; 60; 107; 71; 71;
  124; 229; 122; 229; 236; 36; 239; 79; 103; 54; 243; 255; 100; 245; 51; 134; 51; 120; 108; 116;
  116; 110; 118; 7; 143; 249; 195; 155; 108; 150; 112; 131; 137; 185; 158; 71; 12; 215; 15; 72;
  16; 196; 131; 82; 128; 198; 119; 216; 152; 143; 2; 146; 84; 143; 145; 255; 182; 233; 178; 227;
  190; 205; 183; 88; 184; 86; 103; 131; 166; 141; 161; 11; 34; 86; 176; 123; 132; 191; 70; 177;
  56; 210; 68; 239; 148; 31; 50; 184; 151; 202; 108; 49; 207; 208; 128; 150; 149; 197; 198; 202;
  118; 188; 195; 235; 100; 220; 114; 199; 56; 122; 54; 202; 224; 25; 196; 75; 154; 24; 218; 207;
  233; 145; 228; 53; 228; 41; 70; 234; 77; 89; 245; 25; 12; 242; 238; 245; 64; 238; 64; 83;
  246; 233; 22; 214; 184; 252; 202; 228; 236; 244; 107; 254; 143; 3; 0; 99; 37; 134; 4; 158;
  9; 118; 168; 161; 79; 13; 47; 51; 32; 48; 242; 50; 54; 85; 38; 54; 28; 61; 94; 75;
  31; 204; 15; 47; 9; 145; 106; 51; 116; 15; 87; 4; 4; 109; 27; 10; 117; 37; 47; 74;
  50; 1; 22; 80; 54; 110; 55; 19; 89; 91; 58; 24; 48; 117; 94; 29; 84; 140; 10; 66;
  131; 71; 38; 98; 139; 235; 187; 111; 0; 108; 127; 110; 213; 80; 237; 81; 4; 115; 191; 85;
  120; 208; 91; 182; 222; 207; 78; 124; 113; 126; 66; 179; 66; 149; 120; 151; 25; 78; 186; 76;
  232; 53; 103; 239; 117; 164; 114; 28; 118; 53; 94; 54; 248; 88; 165; 123; 229; 95; 226; 158;
  134; 150; 10; 83; 172; 245; 198; 174; 161; 121; 157; 27; 175; 143; 34; 142; 153; 106; 147; 86;
  150; 150; 148; 95; 37; 155; 109; 219; 149; 255; 50; 142; 131; 81; 163; 45; 191; 213; 133; 231;
  131; 217; 129; 27; 183; 125; 174; 133; 60; 169; 51; 194; 145; 149; 154; 86; 186; 52; 90; 157;
  254; 95; 75; 182; 128; 219; 155; 253; 102; 207; 82; 199; 232; 214; 137; 83; 37; 249; 50; 204;
  253; 116; 207; 196; 20; 220; 151; 201; 235; 93; 196; 107; 227; 159; 114; 156; 238; 161; 83; 93;
  212; 68; 249; 1; 237; 184; 202; 252; 252; 226; 116; 236; 104; 176; 200; 203; 116; 236; 22; 231;
  201; 233; 255; 171; 205; 205; 250; 215; 152; 0; 69; 83; 53; 137; 246; 54; 137; 64; 11; 203;
  61; 69; 11; 151; 41; 31; 22; 137; 28; 16; 236; 20; 56; 42; 244; 24; 186; 216; 158; 150;
  160; 184; 193; 99; 196; 108; 166; 5; 105; 56; 30; 110; 204; 102; 142; 39; 16; 0; 184; 38;
  4; 7; 158; 246; 12; 144; 234; 8; 31; 19; 30; 55; 23; 97; 114; 243; 113; 165; 118; 167;
  31; 73; 218; 68; 212; 124; 60; 76; 110; 84; 90; 57; 87; 19; 151; 97; 2; 156; 72; 218;
  220; 68; 61; 68; 128; 94; 130; 123; 196; 82; 38; 199; 126; 73; 40; 47; 125; 29; 88; 181;
  52; 115; 100; 3; 71; 119; 92; 114; 248; 65; 68; 127; 57; 100; 31; 72; 191; 161; 206; 99;
  185; 193; 38; 202; 57; 176; 197; 155; 158; 237; 182; 33; 58; 144; 147; 160; 149; 213; 165; 17;
  88; 163; 25; 43; 136; 141; 135; 124; 190; 65; 130; 166; 184; 133; 230; 131; 8; 177; 106; 144;
  92; 184; 78; 157; 178; 179; 182; 161; 176; 213; 138; 73; 187; 67; 187; 77; 188; 190; 213; 62;
  89; 162; 231; 35; 151; 193; 230; 228; 185; 244; 234; 43; 154; 173; 217; 143; 72; 16; 45; 172;
  231; 245; 166; 204; 216; 201; 139; 127; 157; 130; 78; 242; 92; 224; 170; 131; 242; 38; 157; 127;
  86; 105; 197; 221; 240; 84; 231; 45; 236; 236; 61; 47; 244; 229; 63; 244; 253; 48; 234; 233;
  209; 77; 46; 208; 30; 254; 186; 67; 0; 0; 93].
Definition _td36 : bytes := string_array [
  4; 196; 36; 3; 169; 244; 252; 248; 5; 142; 103; 202; 12; 0; 141; 170; 89; 17; 131; 175;
  85; 21; 24; 191; 81; 59; 20; 44; 249; 35; 30; 31; 127; 185; 45; 47; 76; 219; 42; 39;
  210; 136; 212; 10; 42; 4; 44; 47; 48; 33; 64; 49; 49; 53; 52; 163; 52; 9; 58; 59;
  22; 194; 46; 60; 38; 66; 82; 44; 22; 65; 135; 69; 158; 161; 90; 72; 27; 7; 77; 245;
  121; 67; 86; 86; 41; 37; 82; 111; 17; 90; 118; 165; 92; 93; 127; 242; 112; 97; 113; 99;
  96; 229; 228; 102; 108; 105; 218; 148; 195; 189; 109; 111; 80; 119; 114; 3; 20; 179; 102; 97;
  104; 249; 58; 75; 252; 13; 122; 21; 245; 150; 135; 51; 128; 2; 118; 143; 24; 152; 155; 29;
  139; 141; 22; 190; 170; 149; 116; 144; 178; 145; 158; 69; 155; 135; 154; 145; 223; 48; 30; 134;
  224; 67; 140; 67; 147; 197; 150; 103; 162; 225; 138; 167; 52; 148; 92; 173; 16; 180; 160; 176;
  150; 151; 39; 188; 142; 252; 114; 59; 182; 94; 253; 255; 96; 248; 98; 135; 36; 253; 86; 203;
  168; 193; 252; 179; 193; 93; 199; 25; 210; 207; 215; 219; 58; 215; 224; 86; 213; 151; 31; 217;
  93; 253; 199; 183; 240; 121; 195; 3; 239; 143; 229; 230; 104; 231; 152; 40; 249; 108; 119; 204;
  215; 240; 66; 255; 148; 221; 86; 192; 88; 211; 26; 187; 197; 133; 239; 103; 65; 35; 34; 13;
  39; 5; 50; 231; 91; 105; 57; 171; 88; 237; 28; 37; 208; 1; 186; 7; 84; 30; 12; 19;
  206; 95; 30; 42; 22; 140; 15; 209; 228; 107; 98; 51; 148; 12; 22; 54; 97; 98; 26; 57;
  148; 29; 63; 30; 46; 49; 49; 149; 49; 15; 53; 189; 61; 11; 106; 56; 190; 184; 87; 126;
  80; 113; 178; 79; 36; 71; 119; 85; 92; 105; 127; 183; 179; 122; 141; 93; 91; 112; 91; 157;
  77; 117; 69; 87; 152; 66; 218; 91; 208; 165; 117; 216; 163; 94; 68; 101; 44; 104; 233; 119;
  216; 127; 200; 207; 172; 109; 66; 79; 59; 138; 126; 63; 27; 49; 119; 45; 135; 88; 184; 122;
  33; 83; 24; 128; 192; 131; 32; 130; 35; 197; 131; 231; 138; 8; 143; 85; 165; 45; 134; 224;
  58; 149; 54; 51; 151; 20; 147; 235; 48; 73; 159; 165; 150; 155; 182; 201; 161; 131; 83; 165;
  1; 145; 161; 119; 2; 175; 30; 122; 169; 252; 178; 243; 204; 225; 210; 115; 180; 121; 7; 164;
  40; 147; 106; 168; 12; 181; 148; 207; 213; 1; 223; 97; 194; 9; 222; 71; 121; 200; 109; 202;
  121; 204; 109; 94; 206; 217; 75; 50; 190; 149; 203; 134; 200; 73; 248; 211; 172; 205; 174; 94;
  255; 49; 195; 129; 227; 165; 42; 251; 225; 235; 117; 233; 188; 205; 69; 175; 242; 10; 243; 74;
  150; 130; 183; 234; 246; 113; 10; 231; 172; 157; 225; 225; 48; 16; 162; 34; 14; 209; 39; 39;
  155; 233; 42; 9; 133; 12; 161; 43; 18; 40; 130; 49; 246; 144; 38; 8; 41; 1; 26; 75;
  58; 45; 6; 111; 7; 177; 53; 51; 52; 13; 160; 47; 104; 55; 63; 41; 123; 57; 44; 4;
  113; 21; 123; 131; 22; 247; 191; 247; 48; 53; 26; 50; 44; 25; 25; 62; 5; 67; 68; 114;
  53; 96; 134; 101; 117; 107; 214; 139; 192; 109; 255; 82; 32; 121; 226; 51; 114; 114; 230; 7;
  70; 41; 124; 159; 109; 120; 135; 206; 66; 178; 98; 98; 205; 103; 129; 102; 253; 11; 245; 10;
  124; 78; 127; 127; 64; 82; 163; 108; 183; 106; 40; 177; 114; 73; 90; 75; 88; 82; 124; 96;
  80; 164; 211; 170; 129; 37; 175; 33; 168; 161; 123; 144; 124; 165; 126; 47; 139; 1; 187; 67;
  137; 5; 188; 245; 136; 176; 152; 223; 157; 183; 207; 141; 16; 133; 242; 177; 36; 181; 131; 55;
  186; 249; 143; 205; 189; 132; 142; 160; 177; 50; 176; 184; 197; 153; 191; 182; 252; 56; 56; 187;
  150; 49; 47; 170; 81; 235; 214; 137; 20; 165; 236; 213; 120; 228; 76; 192; 236; 239; 203; 205;
  209; 65; 242; 210; 213; 208; 212; 36; 216; 153; 223; 57; 35; 98; 199; 154; 80; 249; 98; 230;
  84; 241; 89; 166; 241; 55; 234; 67; 170; 141; 190; 167; 152; 240; 241; 245; 239; 254; 118; 239;
  220; 25; 249; 211; 252; 100; 255; 47; 22; 161; 44; 19; 29; 47; 251; 102; 19; 96; 160; 15;
  72; 95; 20; 75; 52; 84; 66; 10; 102; 255; 12; 93; 25; 58; 203; 0; 196; 29; 31; 121;
  172; 253; 162; 238; 164; 252; 38; 167; 248; 169; 247; 171; 248; 253; 11; 111; 80; 215; 186; 52;
  252; 36; 214; 2; 96; 61; 40; 195; 204; 8; 44; 49; 67; 39; 204; 195; 88; 196; 102; 198;
  95; 200; 111; 90; 123; 213; 104; 222; 100; 113; 90; 115; 95; 189; 66; 119; 83; 217; 210; 79;
  180; 86; 118; 75; 28; 209; 84; 67; 232; 148; 230; 37; 233; 185; 82; 86; 237; 13; 135; 239;
  69; 112; 75; 195; 67; 53; 120; 207; 120; 118; 66; 107; 148; 114; 86; 111; 88; 5; 141; 55;
  53; 179; 11; 7; 191; 8; 74; 177; 140; 201; 15; 3; 16; 212; 227; 208; 244; 157; 144; 210;
  156; 73; 174; 17; 28; 183; 31; 189; 47; 162; 158; 147; 245; 238; 134; 175; 32; 162; 162; 179;
  161; 197; 95; 147; 104; 187; 26; 190; 38; 112; 118; 140; 48; 75; 234; 128; 61; 77; 78; 130;
  68; 112; 140; 3; 248; 205; 206; 175; 218; 89; 244; 219; 116; 223; 118; 200; 32; 239; 231; 214;
  178; 215; 182; 71; 200; 31; 226; 202; 164; 206; 246; 158; 49; 222; 74; 243; 28; 247; 209; 135;
  215; 103; 106; 99; 108; 202; 111; 102; 112; 215; 3; 179; 215; 181; 193; 103; 199; 31; 226; 245;
  140; 197; 6; 242; 162; 9; 227; 66; 188; 22; 63; 151; 72; 169; 139; 74; 140; 197; 6; 119;
  2; 249; 26; 139; 68; 35; 134; 31; 144; 11; 33; 139; 92; 145; 215; 238; 29; 129; 228; 163;
  108; 164; 156; 23; 108; 232; 170; 106; 176; 11; 19; 175; 114; 176; 34; 179; 10; 36; 14; 247;
  6; 105; 43; 211; 45; 101; 175; 122; 10; 240; 1; 255; 4; 197; 148; 199; 253; 201; 129; 58;
  10; 245; 110; 191; 175; 142; 30; 91; 228; 79; 22; 165; 80; 172; 102; 70; 13; 68; 94; 41;
  158; 241; 26; 122; 158; 229; 54; 72; 218; 89; 11; 91; 0; 0; 144].
Definition _td37 : bytes := string_array [
  4; 254; 53; 3; 55; 84; 252; 248; 24; 108; 10; 14; 12; 13; 12; 217; 173; 17; 18; 37;
  235; 54; 198; 23; 62; 24; 10; 60; 25; 156; 30; 2; 30; 4; 242; 35; 119; 44; 39; 11;
  218; 57; 43; 172; 62; 45; 46; 30; 48; 53; 176; 50; 48; 53; 62; 183; 180; 145; 202; 57;
  28; 59; 62; 143; 64; 149; 254; 179; 118; 133; 202; 246; 93; 89; 154; 109; 188; 89; 78; 74;
  96; 69; 194; 83; 115; 239; 83; 155; 68; 12; 91; 214; 28; 95; 15; 94; 241; 99; 75; 83;
  98; 199; 102; 11; 168; 165; 219; 75; 156; 78; 254; 255; 80; 161; 81; 35; 85; 114; 128; 113;
  184; 124; 116; 172; 141; 120; 174; 120; 192; 135; 71; 130; 39; 103; 4; 245; 72; 141; 187; 175;
  188; 172; 30; 94; 152; 181; 162; 182; 132; 146; 212; 144; 40; 158; 143; 154; 148; 200; 156; 148;
  113; 168; 83; 163; 159; 39; 164; 210; 25; 175; 185; 187; 143; 29; 189; 95; 240; 144; 98; 160;
  100; 148; 236; 38; 177; 138; 138; 186; 103; 188; 161; 126; 203; 225; 206; 126; 133; 255; 191; 119;
  206; 152; 187; 206; 60; 199; 12; 195; 160; 246; 214; 141; 220; 101; 209; 28; 217; 116; 216; 26;
  76; 220; 105; 221; 183; 17; 239; 1; 99; 69; 238; 79; 249; 255; 26; 251; 233; 248; 94; 225;
  32; 0; 246; 181; 0; 132; 251; 231; 244; 120; 248; 28; 29; 250; 249; 255; 2; 140; 224; 252;
  187; 156; 38; 6; 99; 233; 9; 218; 15; 44; 62; 12; 206; 129; 17; 35; 22; 45; 2; 251;
  130; 189; 24; 24; 252; 12; 19; 53; 1; 33; 214; 47; 64; 62; 110; 39; 216; 104; 42; 116;
  33; 56; 126; 216; 61; 6; 215; 50; 20; 55; 100; 189; 59; 53; 82; 197; 86; 125; 214; 222;
  191; 96; 68; 168; 4; 84; 106; 81; 71; 121; 70; 26; 79; 94; 126; 94; 0; 85; 210; 219;
  20; 101; 214; 103; 90; 15; 153; 78; 92; 76; 92; 204; 16; 116; 20; 232; 125; 107; 101; 255;
  40; 80; 64; 111; 234; 110; 40; 254; 102; 31; 114; 119; 218; 246; 50; 247; 97; 218; 59; 59;
  92; 50; 94; 62; 32; 207; 50; 148; 164; 141; 204; 83; 142; 233; 156; 241; 142; 255; 138; 12;
  224; 137; 82; 133; 198; 151; 136; 211; 47; 200; 141; 155; 182; 61; 207; 191; 138; 129; 240; 131;
  166; 128; 102; 190; 180; 165; 50; 154; 74; 174; 174; 229; 181; 3; 177; 205; 177; 27; 180; 191;
  198; 252; 124; 235; 171; 94; 147; 159; 149; 197; 226; 235; 180; 222; 38; 208; 40; 141; 130; 155;
  194; 85; 207; 41; 224; 202; 186; 243; 200; 84; 212; 46; 233; 194; 244; 123; 243; 61; 240; 191;
  96; 208; 66; 206; 68; 215; 190; 247; 168; 243; 106; 165; 232; 115; 234; 141; 244; 123; 34; 229;
  245; 181; 232; 51; 213; 120; 99; 88; 219; 157; 250; 184; 160; 241; 28; 69; 36; 34; 230; 66;
  12; 21; 25; 91; 20; 111; 12; 81; 20; 103; 22; 17; 94; 4; 54; 45; 220; 82; 155; 2;
  28; 126; 90; 255; 106; 65; 102; 67; 109; 4; 86; 46; 8; 110; 114; 61; 254; 48; 152; 43;
  184; 11; 54; 145; 53; 23; 180; 243; 75; 137; 26; 59; 223; 125; 222; 112; 160; 1; 226; 15;
  68; 229; 121; 39; 3; 181; 181; 124; 239; 79; 102; 143; 69; 193; 173; 172; 3; 93; 86; 95;
  24; 71; 218; 91; 120; 106; 89; 115; 166; 137; 129; 98; 129; 101; 116; 7; 249; 104; 42; 127;
  141; 108; 186; 68; 85; 129; 103; 41; 30; 119; 213; 231; 120; 205; 110; 74; 206; 126; 126; 166;
  31; 208; 147; 3; 163; 101; 27; 15; 54; 153; 140; 191; 153; 253; 224; 155; 161; 146; 211; 35;
  188; 255; 147; 141; 222; 158; 74; 134; 114; 61; 159; 41; 163; 187; 160; 51; 183; 255; 182; 141;
  172; 42; 40; 154; 183; 139; 142; 147; 80; 151; 182; 83; 142; 213; 169; 23; 130; 109; 183; 35;
  184; 156; 152; 95; 216; 197; 224; 199; 138; 129; 196; 25; 136; 208; 104; 243; 108; 157; 46; 248;
  197; 81; 254; 119; 244; 201; 231; 215; 242; 87; 217; 221; 157; 236; 243; 45; 225; 155; 225; 13;
  52; 249; 178; 237; 231; 233; 199; 253; 188; 192; 235; 21; 242; 27; 246; 247; 46; 85; 216; 51;
  7; 134; 201; 173; 190; 255; 30; 238; 1; 151; 194; 98; 148; 34; 186; 135; 9; 233; 127; 180;
  126; 141; 1; 14; 2; 68; 71; 18; 251; 103; 22; 7; 169; 54; 80; 18; 29; 16; 30; 117;
  192; 69; 47; 189; 185; 108; 38; 111; 81; 158; 159; 211; 62; 39; 43; 158; 35; 20; 154; 195;
  205; 206; 22; 35; 185; 41; 31; 43; 156; 43; 151; 190; 64; 205; 114; 115; 109; 46; 92; 97;
  196; 185; 91; 12; 77; 106; 14; 121; 3; 118; 66; 98; 200; 69; 68; 95; 25; 9; 94; 59;
  47; 149; 238; 23; 224; 109; 19; 99; 112; 21; 124; 215; 124; 89; 112; 59; 238; 120; 78; 87;
  160; 117; 190; 107; 51; 197; 123; 117; 121; 185; 66; 218; 125; 54; 127; 226; 225; 67; 208; 35;
  140; 244; 144; 23; 145; 153; 133; 234; 180; 132; 126; 139; 138; 171; 50; 148; 140; 130; 151; 174;
  216; 155; 151; 154; 179; 159; 157; 95; 154; 195; 210; 215; 100; 169; 18; 55; 161; 57; 188; 43;
  160; 92; 156; 141; 192; 182; 2; 151; 133; 137; 182; 184; 153; 71; 182; 68; 39; 29; 178; 207;
  241; 137; 61; 57; 77; 196; 150; 232; 40; 196; 74; 214; 84; 59; 77; 235; 39; 206; 229; 210;
  226; 212; 247; 230; 4; 162; 71; 251; 225; 224; 212; 222; 128; 213; 195; 210; 246; 87; 150; 214;
  178; 165; 240; 205; 71; 157; 216; 94; 228; 218; 135; 197; 202; 183; 91; 211; 252; 99; 69; 171;
  188; 13; 197; 46; 146; 16; 34; 10; 212; 20; 182; 59; 248; 24; 26; 0; 142; 231; 190; 10;
  8; 44; 19; 108; 22; 85; 82; 52; 104; 36; 170; 16; 143; 31; 122; 238; 27; 51; 210; 130;
  196; 35; 52; 183; 9; 153; 171; 110; 36; 157; 21; 11; 144; 65; 162; 10; 101; 42; 102; 13;
  104; 38; 106; 139; 38; 45; 33; 223; 119; 91; 66; 5; 164; 19; 55; 55; 70; 89; 118; 91;
  236; 10; 109; 95; 91; 225; 7; 178; 19; 227; 87; 17; 37; 217; 97; 234; 108; 84; 126; 85;
  112; 176; 42; 29; 20; 104; 126; 56; 105; 6; 58; 105; 49; 108; 3; 222; 57; 18; 51; 99;
  109; 71; 51; 230; 104; 5; 147; 219; 101; 127; 111; 235; 191; 177; 218; 203; 232; 11; 49; 182;
  0; 0; 148].
Definition _td38 : bytes := string_array [
  4; 250; 34; 3; 90; 214; 255; 248; 36; 109; 11; 235; 12; 255; 29; 15; 77; 17; 22; 145;
  21; 21; 18; 23; 232; 125; 183; 27; 28; 101; 31; 15; 33; 161; 194; 173; 212; 50; 230; 43;
  8; 239; 43; 231; 140; 12; 46; 45; 84; 51; 50; 255; 52; 117; 246; 251; 41; 25; 170; 59;
  37; 45; 33; 175; 90; 209; 93; 83; 68; 94; 34; 67; 132; 81; 77; 73; 57; 79; 76; 79;
  84; 32; 80; 90; 86; 58; 148; 87; 30; 153; 214; 106; 126; 237; 67; 143; 98; 64; 114; 102;
  52; 68; 86; 122; 198; 108; 234; 167; 112; 130; 111; 196; 113; 174; 115; 117; 84; 160; 119; 214;
  121; 34; 154; 121; 13; 114; 63; 15; 133; 241; 141; 51; 164; 149; 230; 128; 168; 195; 56; 75;
  137; 201; 62; 137; 156; 39; 82; 150; 20; 16; 119; 144; 34; 88; 159; 190; 157; 104; 159; 95;
  168; 225; 85; 162; 135; 164; 95; 102; 249; 161; 20; 2; 140; 165; 174; 243; 32; 184; 112; 35;
  188; 245; 71; 190; 250; 127; 43; 179; 179; 188; 159; 189; 16; 203; 233; 99; 198; 46; 198; 236;
  74; 168; 192; 1; 12; 196; 202; 203; 83; 17; 212; 226; 200; 165; 253; 231; 94; 194; 138; 215;
  188; 222; 206; 243; 40; 233; 210; 235; 118; 115; 54; 227; 249; 241; 186; 231; 156; 249; 126; 227;
  240; 33; 224; 35; 221; 81; 255; 59; 8; 249; 187; 25; 16; 255; 91; 254; 13; 99; 0; 156;
  68; 8; 183; 21; 184; 21; 90; 25; 78; 93; 79; 0; 96; 10; 52; 25; 196; 16; 203; 154;
  25; 31; 255; 58; 12; 237; 27; 170; 97; 130; 227; 37; 20; 53; 118; 1; 24; 89; 45; 26;
  61; 93; 11; 45; 146; 209; 61; 43; 123; 52; 89; 53; 117; 169; 59; 86; 62; 2; 110; 45;
  162; 234; 146; 71; 100; 20; 90; 247; 98; 153; 75; 88; 28; 80; 94; 127; 122; 85; 89; 179;
  69; 118; 84; 52; 112; 91; 119; 89; 60; 79; 111; 31; 116; 131; 157; 83; 219; 124; 35; 102;
  200; 104; 250; 106; 172; 112; 99; 15; 113; 135; 162; 115; 116; 96; 50; 143; 149; 53; 111; 187;
  112; 103; 30; 106; 131; 193; 148; 142; 129; 230; 134; 25; 135; 135; 41; 194; 140; 75; 35; 143;
  205; 157; 254; 75; 108; 152; 161; 114; 152; 167; 154; 202; 241; 230; 149; 247; 94; 161; 187; 140;
  247; 90; 190; 161; 120; 172; 10; 171; 128; 35; 175; 78; 33; 177; 173; 35; 161; 177; 230; 190;
  72; 183; 43; 181; 76; 158; 14; 251; 205; 209; 35; 218; 52; 228; 232; 247; 202; 209; 66; 54;
  205; 74; 255; 203; 65; 211; 199; 211; 207; 65; 116; 207; 120; 210; 60; 91; 198; 157; 251; 175;
  226; 195; 132; 67; 230; 253; 7; 230; 136; 237; 25; 234; 78; 110; 111; 243; 125; 19; 219; 3;
  250; 36; 246; 242; 120; 227; 170; 217; 204; 231; 142; 222; 160; 2; 144; 211; 164; 7; 230; 50;
  136; 18; 246; 8; 220; 30; 46; 78; 17; 192; 19; 36; 215; 11; 177; 118; 10; 88; 203; 9;
  9; 205; 110; 2; 53; 177; 58; 55; 212; 48; 198; 38; 4; 249; 41; 55; 109; 47; 14; 222;
  49; 122; 48; 212; 229; 21; 227; 214; 42; 114; 218; 57; 205; 31; 14; 58; 176; 99; 50; 107;
  102; 213; 101; 183; 105; 109; 154; 64; 84; 224; 71; 15; 79; 83; 229; 242; 118; 148; 87; 202;
  186; 223; 8; 122; 65; 172; 88; 143; 111; 17; 125; 34; 117; 177; 121; 171; 9; 75; 45; 26;
  104; 50; 255; 75; 96; 101; 102; 118; 150; 229; 125; 59; 216; 97; 182; 91; 33; 120; 254; 100;
  84; 208; 166; 240; 134; 212; 132; 238; 44; 139; 209; 58; 168; 220; 236; 62; 181; 73; 83; 150;
  129; 149; 183; 0; 105; 185; 23; 219; 151; 156; 23; 61; 227; 17; 135; 35; 133; 178; 86; 142;
  248; 250; 130; 59; 36; 135; 202; 169; 128; 150; 109; 179; 177; 244; 189; 115; 65; 184; 58; 146;
  103; 92; 217; 62; 223; 97; 205; 226; 133; 202; 22; 220; 216; 221; 234; 221; 102; 202; 231; 127;
  218; 204; 211; 147; 242; 242; 149; 252; 151; 187; 252; 80; 94; 194; 78; 204; 80; 245; 160; 207;
  148; 204; 52; 43; 216; 231; 246; 56; 77; 202; 55; 222; 221; 161; 226; 251; 117; 247; 82; 231;
  244; 168; 218; 139; 218; 113; 142; 223; 32; 16; 82; 45; 212; 32; 220; 214; 25; 187; 173; 139;
  10; 15; 191; 46; 63; 1; 49; 162; 178; 1; 6; 55; 57; 82; 51; 123; 9; 195; 30; 87;
  64; 219; 105; 105; 128; 126; 71; 49; 105; 24; 44; 168; 92; 59; 174; 40; 48; 57; 50; 50;
  13; 17; 7; 122; 79; 11; 42; 155; 36; 141; 38; 61; 203; 1; 91; 67; 192; 17; 185; 63;
  122; 101; 102; 74; 174; 92; 87; 209; 228; 1; 75; 67; 78; 148; 115; 119; 68; 25; 106; 11;
  66; 15; 80; 223; 126; 161; 81; 147; 127; 29; 182; 82; 200; 160; 186; 105; 96; 79; 30; 79;
  16; 34; 147; 99; 196; 86; 194; 82; 200; 169; 103; 93; 252; 96; 30; 110; 92; 16; 138; 3;
  231; 132; 31; 134; 255; 136; 15; 202; 180; 201; 245; 110; 129; 185; 35; 128; 36; 213; 161; 132;
  24; 201; 191; 11; 143; 173; 187; 127; 33; 132; 136; 253; 84; 131; 66; 23; 175; 201; 170; 145;
  224; 69; 155; 254; 148; 30; 211; 156; 119; 21; 166; 230; 149; 12; 216; 185; 216; 109; 172; 206;
  215; 145; 235; 179; 211; 69; 118; 224; 120; 222; 186; 236; 58; 221; 231; 111; 200; 188; 211; 88;
  214; 69; 238; 66; 217; 228; 194; 68; 158; 171; 63; 221; 80; 254; 203; 211; 247; 201; 22; 192;
  232; 215; 154; 197; 184; 28; 194; 246; 242; 221; 61; 242; 84; 209; 198; 241; 249; 233; 197; 122;
  101; 94; 31; 199; 208; 41; 43; 19; 19; 132; 42; 17; 24; 73; 0; 203; 253; 33; 143; 175;
  63; 19; 107; 18; 173; 74; 134; 19; 25; 88; 250; 54; 252; 15; 55; 49; 180; 192; 45; 50;
  44; 39; 115; 37; 136; 107; 105; 41; 55; 47; 102; 22; 146; 159; 18; 46; 197; 43; 70; 59;
  104; 184; 106; 56; 39; 205; 32; 207; 91; 183; 51; 1; 223; 133; 120; 87; 103; 70; 11; 100;
  188; 87; 231; 174; 229; 69; 98; 175; 171; 42; 116; 213; 104; 248; 79; 96; 172; 83; 54; 123;
  82; 64; 80; 0; 0; 240].
Definition _td39 : bytes := string_array [
  3; 221; 40; 255; 255; 255; 255; 26; 4; 0; 0; 0; 0; 0; 0; 0; 0; 205; 3; 0;
  0; 26; 4; 0; 0; 0; 0; 0; 0; 0; 0; 205; 3; 0; 0; 26; 4; 0; 0; 0;
  0; 0; 0; 0; 0; 205; 3; 0; 0; 26; 4; 0; 0; 0; 0; 0; 0; 0; 0; 205;
  3; 0; 0; 26; 4; 0; 0; 0; 0; 0; 0; 0; 0; 205; 3; 0; 0; 26; 4; 0;
  0; 0; 0; 0; 0; 0; 0; 205; 3; 0; 0; 26; 4; 0; 0; 0; 0; 0; 0; 0;
  0; 205; 3; 0; 0; 26; 4; 0; 0; 0; 0; 0; 0; 0; 0; 205; 3; 0; 0; 26;
  4; 0; 0; 0; 0; 0; 0; 0; 0; 205; 3; 0; 0; 26; 4; 0; 0; 0; 0; 0;
  0; 0; 0; 205; 3; 0; 0; 26; 4; 0; 0; 0; 0; 0; 0; 0; 0; 205; 3; 0;
  0; 26; 4; 0; 0; 0; 0; 0; 0; 0; 0; 205; 3; 0; 0; 26; 4; 0; 0; 0;
  0; 0; 0; 0; 0; 205; 3; 0; 0; 26; 4; 0; 0; 0; 0; 0; 0; 0; 0; 205;
  3; 0; 0; 26; 4; 0; 0; 0; 0; 0; 0; 0; 0; 205; 3; 0; 0; 26; 4; 0;
  0; 0; 0; 0; 0; 0; 0; 205; 3; 0; 0; 26; 4; 0; 0; 0; 0; 0; 0; 0;
  0; 205; 3; 0; 0; 26; 4; 0; 0; 0; 0; 0; 0; 0; 0; 205; 3; 0; 0; 26;
  4; 0; 0; 0; 0; 0; 0; 0; 0; 205; 3; 0; 0; 26; 4; 0; 0; 0; 0; 0;
  0; 0; 0; 205; 3; 0; 0; 26; 4; 0; 0; 0; 0; 0; 0; 0; 0; 205; 3; 0;
  0; 26; 4; 0; 0; 0; 0; 0; 0; 0; 0; 205; 3; 0; 0; 26; 4; 0; 0; 0;
  0; 0; 0; 0; 0; 205; 3; 0; 0; 26; 4; 0; 0; 0; 0; 0; 0; 0; 0; 205;
  3; 0; 0; 26; 4; 0; 0; 0; 0; 0; 0; 0; 0; 205; 3; 0; 0; 26; 4; 0;
  0; 0; 0; 0; 0; 0; 0; 205; 3; 0; 0; 26; 4; 0; 0; 0; 0; 0; 0; 0;
  0; 205; 3; 0; 0; 26; 4; 0; 0; 0; 0; 0; 0; 0; 0; 205; 3; 0; 0; 26;
  4; 0; 0; 0; 0; 0; 0; 0; 0; 205; 3; 0; 0; 26; 4; 0; 0; 0; 0; 0;
  0; 0; 0; 205; 3; 0; 0; 26; 4; 0; 0; 0; 0; 0; 0; 0; 0; 205; 3; 0;
  0; 26; 4; 0; 0; 0; 0; 0; 0; 0; 0; 205; 3; 0; 0; 26; 4; 0; 0; 0;
  0; 0; 0; 0; 0; 205; 3; 0; 0; 26; 4; 0; 0; 0; 0; 0; 0; 0; 0; 205;
  3; 0; 0; 26; 4; 0; 0; 0; 0; 0; 0; 0; 0; 205; 3; 0; 0; 26; 4; 0;
  0; 0; 0; 0; 0; 0; 0; 205; 3; 0; 0; 26; 4; 0; 0; 0; 0; 0; 0; 0;
  0; 205; 3; 0; 0; 26; 4; 0; 0; 0; 0; 0; 0; 0; 0; 205; 3; 0; 0; 26;
  4; 0; 0; 0; 0; 0; 0; 0; 0; 205; 3; 0; 0; 26; 4; 0; 0; 0; 0; 0;
  0; 0; 0; 205; 3; 0; 0; 26; 4; 0; 0; 0; 0; 0; 0; 0; 0; 205; 3; 0;
  0; 26; 4; 0; 0; 0; 0; 0; 0; 0; 0; 205; 3; 0; 0; 26; 4; 0; 0; 0;
  0; 0; 0; 0; 0; 205; 3; 0; 0; 26; 4; 0; 0; 0; 0; 0; 0; 0; 0; 205;
  3; 0; 0; 26; 4; 0; 0; 0; 0; 0; 0; 0; 0; 205; 3; 0; 0; 26; 4; 0;
  0; 0; 0; 0; 0; 0; 0; 205; 3; 0; 0; 26; 4; 0; 0; 0; 0; 0; 0; 0;
  0; 205; 3; 0; 0; 26; 4; 0; 0; 0; 0; 0; 0; 0; 0; 205; 3; 0; 0; 26;
  4; 0; 0; 0; 0; 0; 0; 0; 0; 205; 3; 0; 0; 26; 4; 0; 0; 0; 0; 0;
  0; 0; 0; 205; 3; 0; 0; 26; 4; 0; 0; 0; 0; 0; 0; 0; 0; 205; 3; 0;
  0; 26; 4; 0; 0; 0; 0; 0; 0; 0; 0; 205; 3; 0; 0; 26; 4; 0; 0; 0;
  0; 0; 0; 0; 0; 205; 3; 0; 0; 26; 4; 0; 0; 0; 0; 0; 0; 0; 0; 205;
  3; 0; 0; 26; 4; 0; 0; 0; 0; 0; 0; 0; 0; 205; 3; 0; 0; 26; 4; 0;
  0; 0; 0; 0; 0; 0; 0; 205; 3; 0; 0; 26; 4; 0; 0; 0; 0; 0; 0; 0;
  0; 205; 3; 0; 0; 26; 4; 0; 0; 0; 0; 0; 0; 0; 0; 205; 3; 0; 0; 26;
  4; 0; 0; 0; 0; 0; 0; 0; 0; 205; 3; 0; 0; 26; 4; 0; 0; 0; 0; 0;
  0; 0; 0; 205; 3; 0; 0; 26; 4; 0; 0; 0; 0; 0; 0; 0; 0; 205; 3; 0;
  0; 26; 4; 0; 0; 0; 0; 0; 0; 0; 0; 205; 3; 0; 0; 26; 4; 0; 0; 0;
  0; 0; 0; 0; 0; 205; 3; 0; 0; 26; 4; 0; 0; 0; 0; 0; 0; 0; 0; 205;
  3; 0; 0; 26; 4; 0; 0; 0; 0; 0; 0; 0; 0; 205; 3; 0; 0; 26; 4; 0;
  0; 0; 0; 0; 0; 0; 0; 205; 3; 0; 0; 26; 4; 0; 0; 0; 0; 0; 0; 0;
  0; 205; 3; 0; 0; 26; 4; 0; 0; 0; 0; 0; 0; 0; 0; 205; 3; 0; 0; 26;
  4; 0; 0; 0; 0; 0; 0; 0; 0; 205; 3; 0; 0; 26; 4; 0; 0; 0; 0; 0;
  0; 0; 0; 205; 3; 0; 0; 32; 83; 101; 118; 101; 110; 32; 73; 115; 108; 97; 110; 100;
  115; 0; 0; 0; 0; 0; 0; 0; 0; 0; 0; 0; 0; 0; 0; 0; 0; 0; 0; 0;
  0; 0; 0; 0; 0; 0; 0; 0; 0; 0; 0; 0; 0; 0; 0; 0; 0; 0; 0; 0;
  0; 0; 0; 0; 0; 0; 0; 0; 0; 0; 0; 0; 0; 0; 0; 0; 0; 0; 0; 0;
  0; 0; 0; 0; 0; 0; 0; 0; 0; 0; 0; 0; 0; 0; 0; 0; 0; 0; 0; 0;
  0; 0; 0; 0; 0; 0; 0; 0; 0; 0; 0; 0; 0; 0; 0; 0; 0; 0; 0; 0;
  0; 0; 0; 0; 0; 0; 0; 0; 0; 0; 0; 0; 0; 0; 0; 0; 0; 0; 0; 0;
  0; 0; 0; 0; 0; 0; 0; 128; 7; 56; 4; 0; 110; 129; 189; 21; 1; 1; 1; 0;
  0; 1; 0; 164; 14; 6; 0; 0; 0; 100; 0; 100; 0; 232; 3; 9; 94; 252; 90; 204;
  204; 0; 0; 0; 0; 0; 0; 0; 6; 0; 0; 0; 0].

(** ** The packets; [length] of an array is its [sizeof] *)
Definition td1 : bytes := bytestring_of (drop 8 _td1) (length _td1 - 9).
Definition td2 : bytes := bytestring_of (drop 8 _td2) (length _td2 - 9).
Definition td3 : bytes := bytestring_of (drop 8 _td3) (length _td3 - 9).
Definition td4 : bytes := bytestring_of _td4 (length _td4).
Definition td5 : bytes := bytestring_of _td5 (length _td5).
Definition td6 : bytes := bytestring_of _td6 (length _td6).
Definition td7 : bytes := bytestring_of _td7 (length _td7).
Definition td8 : bytes := bytestring_of _td8 (length _td8).
Definition td9 : bytes := bytestring_of _td9 (length _td9).
Definition td10 : bytes := bytestring_of _td10 (length _td10).
Definition td11 : bytes := bytestring_of _td11 (length _td11).
Definition td12 : bytes := bytestring_of _td12 (length _td12 - 1).
Definition td13 : bytes := bytestring_of _td13 (length _td13 - 1).
Definition td14 : bytes := bytestring_of _td14 (length _td14 - 1).
Definition td15 : bytes := bytestring_of _td15 (length _td15 - 1).
Definition td16 : bytes := bytestring_of _td16 (length _td16 - 1).
Definition td17 : bytes := bytestring_of _td17 (length _td17 - 1).
Definition td18 : bytes := bytestring_of _td18 (length _td18 - 1).
Definition td19 : bytes := bytestring_of _td19 (length _td19 - 1).
Definition td20 : bytes := bytestring_of _td20 (length _td20 - 1).
Definition td21 : bytes := bytestring_of _td21 (length _td21 - 1).
Definition td22 : bytes := bytestring_of _td22 (length _td22 - 1).
Definition td23 : bytes := bytestring_of _td23 (length _td23 - 1).
Definition td24 : bytes := bytestring_of _td24 (length _td24 - 1).
Definition td25 : bytes := bytestring_of _td25 (length _td25 - 1).
Definition td26 : bytes := bytestring_of _td26 (length _td26 - 1).
Definition td27 : bytes := bytestring_of _td27 (length _td27 - 1).
Definition td28 : bytes := bytestring_of _td28 (length _td28 - 1).
Definition td29 : bytes := bytestring_of _td29 (length _td29 - 1).
Definition td30 : bytes := bytestring_of _td30 (length _td30 - 1).
Definition td31 : bytes := bytestring_of _td31 (length _td31 - 1).
Definition td32 : bytes := bytestring_of _td32 (length _td32 - 1).
Definition td33 : bytes := bytestring_of _td33 (length _td33 - 1).
Definition td34 : bytes := bytestring_of _td34 (length _td34 - 1).
Definition td35 : bytes := bytestring_of _td35 (length _td35 - 1).
Definition td36 : bytes := bytestring_of _td36 (length _td36 - 1).
Definition td37 : bytes := bytestring_of _td37 (length _td37 - 1).
Definition td38 : bytes := bytestring_of _td38 (length _td38 - 1).
Definition td39 : bytes := bytestring_of _td39 (length _td39 - 1).
