(* ===== verification/TPacketTest.v ===== *)
(** * The test of the packet codec (TPacket.cpp, [TPacket::test])

    The source decodes the packets of TestPackets.cpp, reports the first sub-packet of each
    whose size is not the one expected for its code, and counts the codes of those.  The test
    is stated here as the source states it and run on the definitions of the codec. *)
From S2P Require Import Prelude OrderedMaps TPacketCrypt TPacketCompress TPacketSplit TPacketSmartpak TPacketFast TestPackets.

(** what is printed *)
Inductive printed : Type :=
  | DataLength (n : nat)
  | Subpacket (n total : nat) (sizeExpected : Z) (sizeActual : nat)
  | UnknownSubpacket (sizeExpected : Z) (sizeActual : nat)
  | FurtherSubpackets (ofs : nat)
  | HexDump (s : bytes)
  | BadCode (code count : Z).

Fixpoint testUnpakability (s : bytes) (recurseDepth : nat) : res bool :=
  sz ← getExpectedSubPacketSize s;
  b0 ← rd8 s 0;
  if (sz =? 0) || (Z.of_nat (length s) <? sz) || (b0 =? 0) then Ok false
  else match recurseDepth with
       | S recurseDepth => testUnpakability (drop (Z.to_nat sz) s) recurseDepth
       | O => Ok true
       end.

(** [while (!testpak.empty())] *)
Fixpoint dump_all (fuel : nat) (testpak : bytes) : res (list printed) :=
  match fuel with
  | O => Hang
  | S fuel =>
      if bool_decide (testpak = []) then Ok []
      else
        '(subtestpak, testpak, _) ← split2 testpak true;
        dumped ← dump_all fuel testpak;
        Ok (HexDump subtestpak :: dumped)
  end.
(** the loop over [ofs], [n] being the iterations left *)
Fixpoint look_further (n ofs : nat) (subpak : bytes) : res (list printed) :=
  match n with
  | O => Ok []
  | S n =>
      let testpak := drop ofs subpak in
      unpakable ← testUnpakability testpak 5;
      if (unpakable : bool) then
        dumped ← dump_all (S (length testpak)) testpak;
        Ok (FurtherSubpackets ofs :: dumped)
      else look_further n (S ofs) subpak
  end.

(** the loop over the sub-packets, from the one after the first [nSubPak] *)
Fixpoint decode_report (total nSubPak : nat) (filter : Z) (unpaked : list bytes) : res (Z * list printed) :=
  match unpaked with
  | [] => Ok (-1, [])
  | subpak :: unpaked =>
      let nSubPak := S nSubPak in
      sizeExpected ← getExpectedSubPacketSize subpak;
      code ← rd8 subpak 0;
      let shown := (filter =? 0) || (code =? filter) in
      if sizeExpected =? Z.of_nat (length subpak) then
        '(bad, out) ← decode_report total nSubPak filter unpaked;
        Ok (bad, (if shown then [Subpacket nSubPak total sizeExpected (length subpak); HexDump subpak] else []) ++ out)
      else
        further ← (if shown then look_further (length subpak - 1) 1 subpak else Ok []);
        Ok (code, if shown then [UnknownSubpacket sizeExpected (length subpak); HexDump subpak] ++ further else [])
  end.
Definition testDecode (data : bytes) (isEncrypted hasTimestamp hasChecksum : bool) (filter : Z) : res (Z * list printed) :=
  let decrypted := if isEncrypted then (decrypt data 0 0 0).1.1 else data in
  decompressed ← decompress decrypted 3;
  unpaked ← unsmartpak decompressed hasTimestamp hasChecksum;
  '(bad, out) ← decode_report (length unpaked) 0 filter unpaked;
  Ok (bad, DataLength (length data) :: out).

(** ** The test *)
Definition encrypted_packets : list bytes :=
  [td1; td2; td3; td4; td5; td6; td7; td8; td9; td10; td11; td12; td13; td14; td15; td16; td17; td18; td19; td20;
   td21; td22; td23; td24; td25; td26; td27; td28; td29; td30; td31; td32; td33; td34; td35; td36; td37; td38].
Definition test_calls (filter : Z) : list (res (Z * list printed)) :=
  ((λ d, testDecode d true true true filter) <$> encrypted_packets) ++ [testDecode td39 false false true filter].
(** [++badSubPacketCounts[...]], one call after the other *)
Fixpoint count_bad (counts : gmap Z Z) (calls : list (res (Z * list printed))) : res (gmap Z Z * list printed) :=
  match calls with
  | [] => Ok (counts, [])
  | call :: calls =>
      '(bad, out) ← call;
      '(counts, out') ← count_bad (<[bad := u32 (at_key 0 counts bad + 1)]> counts) calls;
      Ok (counts, out ++ out')
  end.
Definition test : res (list printed) :=
  '(counts, out) ← count_bad ∅ (test_calls 0x20);
  Ok (out ++ ((λ code, BadCode code (at_key 0 counts code)) <$> sorted_keys counts)).

(** ** The same on the fast decoder *)
Definition fast_testDecode (data : bytes) (isEncrypted hasTimestamp hasChecksum : bool) (filter : Z) : res (Z * list printed) :=
  let decrypted := if isEncrypted then (fast_decrypt data).1.1 else data in
  decompressed ← fast_decompress decrypted 3;
  unpaked ← unsmartpak decompressed hasTimestamp hasChecksum;
  '(bad, out) ← decode_report (length unpaked) 0 filter unpaked;
  Ok (bad, DataLength (length data) :: out).
Definition packet_bytes (d : bytes) : bool := (4 <=? length d)%nat && forallb (λ b, (0 <=? b) && (b <? 256)) d.
Lemma packet_bytes_spec d : packet_bytes d = true → (4 <= length d)%nat ∧ are_bytes d.
Proof.
  unfold packet_bytes. rewrite andb_true_iff, Nat.leb_le, forallb_forall. intros [Hl Hf]. split; [done|].
  apply Forall_forall. intros b Hb. apply list_elem_of_In, Hf in Hb. unfold is_byte. lia.
Qed.
Lemma fast_testDecode_eq d isEncrypted ts cs filter : packet_bytes d = true →
  testDecode d isEncrypted ts cs filter = fast_testDecode d isEncrypted ts cs filter.
Proof.
  intros [Hl Hd]%packet_bytes_spec. unfold testDecode, fast_testDecode. destruct isEncrypted.
  - rewrite <- (fast_decrypt_eq d 0 0 Hl), <- fast_decompress_eq; [done|by apply decrypt_bytes|].
    rewrite length_decrypt by done. lia.
  - rewrite <- fast_decompress_eq; [done..|lia].
Qed.

(** ** What the test finds *)

(** the packet decodes and nothing in it is reported *)
Definition clean (r : res (Z * list printed)) (d : bytes) : bool :=
  match r with Ok (bad, [DataLength n]) => (bad =? -1) && (n =? length d)%nat | _ => false end.
Lemma clean_spec r d : clean r d = true → r = Ok (-1, [DataLength (length d)]).
Proof.
  destruct r as [[bad [|[n| | | | |] [|]]]| | |]; try done. cbn. rewrite andb_true_iff, Nat.eqb_eq, Z.eqb_eq. by intros [-> ->].
Qed.
Definition recorded_ok (d : bytes) : bool :=
  packet_bytes d && (let '(_, extracted, calculated) := fast_decrypt d in extracted =? calculated)
  && clean (fast_testDecode d true true true 0x20) d.
Lemma all_recorded_ok : forallb recorded_ok encrypted_packets = true.
Proof. by vm_compute. Qed.
Lemma recorded_spec d : d ∈ encrypted_packets →
  (decrypt d 0 0 0).1.2 = (decrypt d 0 0 0).2 ∧ testDecode d true true true 0x20 = Ok (-1, [DataLength (length d)]).
Proof.
  intros Hd%list_elem_of_In. pose proof all_recorded_ok as H. rewrite forallb_forall in H. specialize (H d Hd).
  unfold recorded_ok in H. apply andb_true_iff in H as [[Hb Hc]%andb_true_iff Ht]. split.
  - rewrite fast_decrypt_eq by apply (packet_bytes_spec d Hb). destruct (fast_decrypt d) as [[? ?] ?]. by apply Z.eqb_eq.
  - rewrite fast_testDecode_eq by done. by apply clean_spec.
Qed.

(** In every packet recorded from a game the checksum that [decrypt] calculates is the one that
    the packet carries. *)
Theorem recorded_checksums d : d ∈ encrypted_packets → (decrypt d 0 0 0).1.2 = (decrypt d 0 0 0).2.
Proof. apply recorded_spec. Qed.
(** The codec deciphers, decompresses and splits every packet recorded from a game into
    sub-packets of which each has the size that its code asks for. *)
Theorem recorded_packets_decode d : d ∈ encrypted_packets → testDecode d true true true 0x20 = Ok (-1, [DataLength (length d)]).
Proof. apply recorded_spec. Qed.
(** The packet from the log of a game is the one that its comment describes: a player info of
    which 186 of 192 bytes were received, at the end of the packet. *)
Theorem mysterious_packet :
  testDecode td39 false false true 0x20 =
  Ok (code_byte PLAYER_INFO_20, [DataLength 1173; UnknownSubpacket 192 186; HexDump (drop (1173 - 186) td39)]).
Proof. rewrite fast_testDecode_eq; by vm_compute. Qed.

Lemma count_clean ds : ∀ counts calls, (∀ d, d ∈ ds → testDecode d true true true 0x20 = Ok (-1, [DataLength (length d)])) →
  count_bad counts (((λ d, testDecode d true true true 0x20) <$> ds) ++ calls) =
  '(counts, out) ← count_bad (foldl (λ counts _, <[-1 := u32 (at_key 0 counts (-1) + 1)]> counts) counts ds) calls;
  Ok (counts, ((λ d, DataLength (length d)) <$> ds) ++ out).
Proof.
  induction ds as [|d ds IH]; intros counts calls H; cbn [foldl fmap list_fmap app].
  - by destruct (count_bad counts calls) as [[]| | |].
  - cbn [count_bad]. rewrite (H d) by left. cbn [mbind res_bind]. rewrite IH by (intros; apply H; by right). cbn [fmap list_fmap].
    by destruct (count_bad _ calls) as [[]| | |].
Qed.
(** The whole output of the test: 38 packets without a bad code, and the one of the log. *)
Theorem test_output :
  test = Ok (((λ d, DataLength (length d)) <$> encrypted_packets) ++
             [DataLength 1173; UnknownSubpacket 192 186; HexDump (drop (1173 - 186) td39); BadCode (-1) 38; BadCode 32 1]).
Proof.
  pose proof (count_clean encrypted_packets ∅ [testDecode td39 false false true 0x20] (λ d Hd, proj2 (recorded_spec d Hd))) as H.
  unfold test, test_calls. rewrite H. clear H. rewrite (fast_testDecode_eq td39) by by vm_compute. by vm_compute.
Qed.
