(* ===== verification/TPacketRecords.v ===== *)
(** * The typed sub-packets (TPacket.cpp, TPacket.h)

    [toUint32], [serialise] and the classes [TPing], [TPlayerInfo], [TAlliance],
    [TTeam], [TIdent2], [TIdent3], [TUnitData], [TProgress]: each constructor that
    parses a sub-packet, [asSubPacket], and the accessors. *)
From S2P Require Import Prelude TPacketSplit TPacketSmartpak.

(** ** Little-endian loads and stores *)

(** [for (int n = 2; n >= 0; --n) { result <<= 8; result |= bytes[n]; }] *)
Fixpoint toUint32_loop (n : nat) (s : bytes) (p : nat) (result : Z) : res Z :=
  match n with
  | O => Ok result
  | S n => b ← rd8 s (p + n)%nat; toUint32_loop n s p (Z.lor (u32 (Z.shiftl result 8)) b)
  end.
Definition toUint32 (s : bytes) (p : nat) : res Z :=
  b ← rd8 s (p + 3)%nat; toUint32_loop 3 s p b.
Definition toUint16 (s : bytes) (p : nat) : res Z :=
  b1 ← rd8 s (p + 1)%nat; b0 ← rd8 s p; Ok (Z.lor (u16 (Z.shiftl b1 8)) b0).

Definition serialise32 (dest : bytes) (x : Z) : bytes :=
  dest ++ [u8 x] ++ [u8 (Z.shiftr x 8)] ++ [u8 (Z.shiftr x 16)] ++ [u8 (Z.shiftr x 24)].
Definition serialise16 (dest : bytes) (x : Z) : bytes :=
  dest ++ [u8 x] ++ [u8 (Z.shiftr x 8)].

(** ** TPing *)
Record TPing := mkTPing { ping_from : Z; ping_id : Z; ping_value : Z }.
Definition TPing_parse (s : bytes) : res TPing :=
  id ← toUint32 s 1; value ← toUint32 s 5; from ← toUint32 s 9; Ok (mkTPing from id value).
Definition TPing_asSubPacket (t : TPing) : bytes :=
  serialise32 (serialise32 (serialise32 [code_byte PING_02] (ping_id t)) (ping_value t)) (ping_from t).

(** ** TAlliance *)
Record TAlliance := mkTAlliance {
  al_dpidFrom : Z; al_dpidTo : Z; al_alliedFromWithTo : Z; al_alliedToWithFrom : Z }.
Definition TAlliance_default : TAlliance := mkTAlliance 0 0 0 0.
Definition TAlliance_parse (s : bytes) : res TAlliance :=
  f ← toUint32 s 1; t ← toUint32 s 5; ft ← rd8 s 9; tf ← toUint32 s 10;
  Ok (mkTAlliance f t ft tf).
Definition TAlliance_asSubPacket (t : TAlliance) : bytes :=
  serialise32
    (serialise32 (serialise32 [code_byte ALLY_23] (al_dpidFrom t)) (al_dpidTo t)
     ++ [al_alliedFromWithTo t]) (al_alliedToWithFrom t).

(** ** TTeam *)
Record TTeam := mkTTeam { tm_dpidFrom : Z; tm_teamNumber : Z }.
Definition TTeam_default : TTeam := mkTTeam 0 5.
Definition TTeam_parse (s : bytes) : res TTeam :=
  f ← toUint32 s 1; n ← rd8 s 5; Ok (mkTTeam f n).
(** the type byte written is [ALLY_23], as in the code *)
Definition TTeam_asSubPacket (t : TTeam) : bytes :=
  serialise32 [code_byte ALLY_23] (tm_dpidFrom t) ++ [tm_teamNumber t].

(** ** TIdent2: ten player ids *)
Definition TIdent2 := list Z.
Definition TIdent2_default : TIdent2 := replicate 10 0.
Fixpoint TIdent2_loop (n : nat) (s : bytes) (ptr : nat) : res (list Z) :=
  match n with
  | O => Ok []
  | S n => d ← toUint32 s ptr; ds ← TIdent2_loop n s (ptr + 4); Ok (d :: ds)
  end.
Definition TIdent2_parse (s : bytes) : res TIdent2 := TIdent2_loop 10 s 1.
Definition TIdent2_asSubPacket (t : TIdent2) : bytes := foldl serialise32 [code_byte IDENT2_26] t.

(** ** TIdent3 *)
Record TIdent3 := mkTIdent3 { id3_dpid : Z; id3_number : Z }.
Definition TIdent3_parse (s : bytes) : res TIdent3 :=
  d ← toUint32 s 1; n ← rd8 s 5; Ok (mkTIdent3 d n).
Definition TIdent3_asSubPacket (t : TIdent3) : bytes :=
  serialise32 [code_byte IDENT3_22] (id3_dpid t) ++ [id3_number t].

(** ** TUnitData

    The union [u] is its 32 bits: [crc] is all of them, [statusAndLimit[0]] the low
    half and [statusAndLimit[1]] the high half. *)
Record TUnitData := mkTUnitData {
  ud_pktid : Z; ud_sub : Z; ud_fill : Z; ud_id : Z; ud_u : Z }.
Definition ud_crc (t : TUnitData) : Z := ud_u t.
Definition ud_status (t : TUnitData) : Z := u16 (ud_u t).
Definition ud_limit (t : TUnitData) : Z := u16 (ud_u t / 65536).
Definition union_statusAndLimit (status limit : Z) : Z := status + 65536 * limit.
(** [TUnitData()]: [memset(this, 0, sizeof(this))] clears the bytes of a pointer only,
    so that the other members keep what the memory held ([junk]) *)
Definition TUnitData_default (sizeof_ptr : nat) (junk : TUnitData) : TUnitData :=
  mkTUnitData (code_byte UNIT_DATA_1A)
    (if (8 <=? sizeof_ptr)%nat then 0 else ud_sub junk) (ud_fill junk) (ud_id junk) (ud_u junk).
Definition TUnitData_make (id limit : Z) (inUse : bool) : TUnitData :=
  mkTUnitData (code_byte UNIT_DATA_1A) 3 0 id
    (if inUse then union_statusAndLimit 257 limit else union_statusAndLimit 1 65535).
Definition TUnitData_parse (s : bytes) : res TUnitData :=
  pktid ← rd8 s 0; sub ← rd8 s 1; fill ← toUint32 s 2; id ← toUint32 s 6;
  u ← (if sub =? 3
       then (st ← toUint16 s 10; lim ← toUint16 s 12; Ok (union_statusAndLimit st lim))
       else toUint32 s 10);
  Ok (mkTUnitData pktid sub fill id u).
Definition TUnitData_asSubPacket (t : TUnitData) : bytes :=
  let bs := serialise32 (serialise32 ([u8 (ud_pktid t)] ++ [ud_sub t]) (ud_fill t)) (ud_id t) in
  if ud_sub t =? 3 then serialise16 (serialise16 bs (ud_status t)) (ud_limit t)
  else serialise32 bs (ud_crc t).

(** ** TProgress *)
Record TProgress := mkTProgress { pr_percent : Z; pr_data : Z }.
Definition TProgress_make (percent : Z) : TProgress := mkTProgress percent 6.
Definition TProgress_parse (s : bytes) : res TProgress :=
  p ← rd8 s 1; d ← rd8 s 2; Ok (mkTProgress p d).
Definition TProgress_asSubPacket (t : TProgress) : bytes :=
  [code_byte LOADING_PROGRESS_2A; pr_percent t; pr_data t].

(** ** TPlayerInfo *)
Record TPlayerInfo := mkTPlayerInfo {
  pi_serialisedSize : nat;
  pi_fill1 : bytes;         (* 139 *)
  pi_width : Z; pi_height : Z; pi_fill3 : Z; pi_player1Id : Z;
  pi_data2 : bytes;         (* 7 *)
  pi_clicked : Z;
  pi_fill2 : bytes;         (* 9 *)
  pi_maxUnits : Z; pi_versionMajor : Z; pi_versionMinor : Z;
  pi_data3 : bytes;         (* 17 *)
  pi_player2Id : Z; pi_data4 : Z }.

(** [junk] is what the memory of [data3[16]] holds: the short form leaves it
    uninitialised *)
Definition TPlayerInfo_parse (junk : Z) (s : bytes) : res TPlayerInfo :=
  fill1 ← rd_n s 1 139;
  width ← toUint16 s 140; height ← toUint16 s 142; fill3 ← rd8 s 144;
  player1Id ← toUint32 s 145; data2 ← rd_n s 149 7; clicked ← rd8 s 156;
  fill2 ← rd_n s 157 9; maxUnits ← toUint16 s 166;
  versionMajor ← rd8 s 168; versionMinor ← rd8 s 169;
  if (length s =? 192)%nat then
    data3 ← rd_n s 170 17; player2Id ← toUint32 s 187; data4 ← rd8 s 191;
    Ok (mkTPlayerInfo (length s) fill1 width height fill3 player1Id data2 clicked fill2
          maxUnits versionMajor versionMinor data3 player2Id data4)
  else
    data3 ← rd_n s 170 16;
    Ok (mkTPlayerInfo (length s) fill1 width height fill3 player1Id data2 clicked fill2
          maxUnits versionMajor versionMinor (data3 ++ [junk]) player1Id 0).

Definition TPlayerInfo_asSubPacket (t : TPlayerInfo) : bytes :=
  let result := [code_byte PLAYER_INFO_20] ++ pi_fill1 t in
  let result := serialise16 (serialise16 result (pi_width t)) (pi_height t) ++ [pi_fill3 t] in
  let result := serialise32 result (pi_player1Id t) ++ pi_data2 t ++ [pi_clicked t] ++ pi_fill2 t in
  let result := serialise16 result (pi_maxUnits t) ++ [pi_versionMajor t] ++ [pi_versionMinor t]
                ++ pi_data3 t in
  let result := serialise32 result (pi_player2Id t) ++ [pi_data4 t] in
  take (pi_serialisedSize t) result.

Definition setDpId (dpid : Z) (t : TPlayerInfo) : TPlayerInfo :=
  mkTPlayerInfo (pi_serialisedSize t) (pi_fill1 t) (pi_width t) (pi_height t) (pi_fill3 t)
    dpid (pi_data2 t) (pi_clicked t) (pi_fill2 t) (pi_maxUnits t) (pi_versionMajor t)
    (pi_versionMinor t) (pi_data3 t) dpid (pi_data4 t).
Definition setInternalVersion (v : Z) (t : TPlayerInfo) : TPlayerInfo :=
  mkTPlayerInfo (pi_serialisedSize t) (pi_fill1 t) (pi_width t) (pi_height t) (pi_fill3 t)
    (pi_player1Id t) (pi_data2 t) (pi_clicked t) (pi_fill2 t) (pi_maxUnits t) (pi_versionMajor t)
    (pi_versionMinor t) (<[(188 - 177)%nat := v]> (pi_data3 t)) (pi_player2Id t) (pi_data4 t).
Definition set_clicked (c : Z) (t : TPlayerInfo) : TPlayerInfo :=
  mkTPlayerInfo (pi_serialisedSize t) (pi_fill1 t) (pi_width t) (pi_height t) (pi_fill3 t)
    (pi_player1Id t) (pi_data2 t) c (pi_fill2 t) (pi_maxUnits t) (pi_versionMajor t)
    (pi_versionMinor t) (pi_data3 t) (pi_player2Id t) (pi_data4 t).
Definition set_fill2 (f : bytes) (t : TPlayerInfo) : TPlayerInfo :=
  mkTPlayerInfo (pi_serialisedSize t) (pi_fill1 t) (pi_width t) (pi_height t) (pi_fill3 t)
    (pi_player1Id t) (pi_data2 t) (pi_clicked t) f (pi_maxUnits t) (pi_versionMajor t)
    (pi_versionMinor t) (pi_data3 t) (pi_player2Id t) (pi_data4 t).
(** [clicked |= 0x80] or [clicked &= ~0x80] *)
Definition setAllowWatch (allowWatch : bool) (t : TPlayerInfo) : TPlayerInfo :=
  set_clicked (if allowWatch then u8 (Z.lor (pi_clicked t) 128)
               else u8 (Z.land (pi_clicked t) (Z.lnot 128))) t.
Definition setCheat (isCheat : bool) (t : TPlayerInfo) : TPlayerInfo :=
  let f0 := pi_fill2 t !!! 0%nat in
  set_fill2 (<[0%nat := if isCheat then u8 (Z.lor f0 32) else u8 (Z.land f0 (Z.lnot 32))]>
               (pi_fill2 t)) t.
(** the argument is ignored *)
Definition setPermLos (permLos : bool) (t : TPlayerInfo) : TPlayerInfo :=
  set_fill2 (<[0%nat := 8]> (pi_fill2 t)) t.
Definition getPermLosByte (t : TPlayerInfo) : Z := pi_fill2 t !!! 0%nat.
Definition isClickedIn (t : TPlayerInfo) : bool := negb (Z.land (pi_clicked t) 32 =? 0).
Definition isWatcher (t : TPlayerInfo) : bool := negb (Z.land (pi_clicked t) 64 =? 0).
Definition isCheatsEnabled (t : TPlayerInfo) : bool := negb (Z.land (pi_fill2 t !!! 0%nat) 32 =? 0).
Definition isAI (t : TPlayerInfo) : bool := pi_data2 t !!! 0%nat =? 2.
Definition getSide (t : TPlayerInfo) : Z := s8 (pi_data2 t !!! 1%nat).
Definition getSlotNumber (t : TPlayerInfo) : Z := pi_data2 t !!! 2%nat.
(** a name that fills [fill1] has no terminator in it *)
Definition getMapName (t : TPlayerInfo) : res bytes :=
  if existsb (Z.eqb 0) (pi_fill1 t) then Ok (c_str (pi_fill1 t)) else Undef.
Definition getMapHash (t : TPlayerInfo) : res Z := rd32 (pi_data3 t) 0.

(** ** Loads and stores agree with the memory model *)

Lemma serialise32_le4 dest x : serialise32 dest x = dest ++ le4 x.
Proof. unfold serialise32, le4. by rewrite !Z.shiftr_div_pow2 by lia. Qed.
Lemma serialise16_le2 dest x : serialise16 dest x = dest ++ le2 x.
Proof. unfold serialise16, le2. by rewrite !Z.shiftr_div_pow2 by lia. Qed.

Lemma lor_byte_shift x b : is_byte b → 0 ≤ x < 2 ^ 24 → Z.lor (u32 (Z.shiftl x 8)) b = b + 256 * x.
Proof.
  intros Hb Hx. rewrite u32_id.
  - rewrite Z.lor_comm, lor_add_shift by (unfold is_byte in *; lia). lia.
  - rewrite Z.shiftl_mul_pow2 by lia. unfold is_u32. lia.
Qed.

Lemma rd8_undef s i j : (i ≤ j)%nat → rd8 s i = Undef → rd8 s j = Undef.
Proof.
  unfold rd8. intros Hij. destruct (s !! i) eqn:E; [done|]. apply lookup_ge_None in E.
  destruct (Nat.eqb_spec i (length s)); [done|]. intros _. rewrite lookup_ge_None_2 by lia.
  destruct (Nat.eqb_spec j (length s)); [lia|done].
Qed.
Lemma rd8_cases s i : is_ok (rd8 s i) ∨ rd8 s i = Undef.
Proof. unfold rd8. case_match; [left; by eexists|]. case_match; [left; by eexists|by right]. Qed.

(** [toUint32] is a little-endian load *)
Lemma toUint32_rd32 s p : are_bytes s → toUint32 s p = rd32 s p.
Proof.
  intros Hs. unfold toUint32. destruct (rd8_cases s (p + 3)) as [[b3 E3]|E3].
  - assert (∀ i, (i ≤ 3)%nat → is_ok (rd8 s (p + i))) as Hok.
    { intros i Hi. destruct (rd8_cases s (p + i)) as [|E]; [done|].
      apply (rd8_undef _ _ (p + 3)) in E; [congruence|lia]. }
    destruct (Hok 0%nat ltac:(lia)) as [b0 E0], (Hok 1%nat ltac:(lia)) as [b1 E1],
      (Hok 2%nat ltac:(lia)) as [b2 E2].
    pose proof (rd8_byte _ _ _ Hs E0) as B0. pose proof (rd8_byte _ _ _ Hs E1) as B1.
    pose proof (rd8_byte _ _ _ Hs E2) as B2. pose proof (rd8_byte _ _ _ Hs E3) as B3.
    unfold rd32, rd16. rewrite Nat.add_0_r in E0. replace (p + 2 + 1)%nat with (p + 3)%nat by lia.
    cbn [toUint32_loop]. rewrite Nat.add_0_r, E0, E1, E2, E3, !res_bind_ok. unfold is_byte in *.
    rewrite (lor_byte_shift b3) by (unfold is_byte; lia).
    rewrite (lor_byte_shift (b2 + 256 * b3)) by (unfold is_byte; lia).
    rewrite lor_byte_shift by (unfold is_byte; lia). f_equal. lia.
  - rewrite E3. unfold rd32, rd16. replace (p + 2 + 1)%nat with (p + 3)%nat by lia.
    destruct (rd8_cases s p) as [[b0 ->]| ->], (rd8_cases s (p + 1)) as [[b1 ->]| ->],
      (rd8_cases s (p + 2)) as [[b2 ->]| ->]; rewrite ?E3; done.
Qed.

Lemma toUint16_rd16 s p : are_bytes s → toUint16 s p = rd16 s p.
Proof.
  intros Hs. unfold toUint16, rd16.
  destruct (rd8_cases s p) as [[b0 E0]|E0], (rd8_cases s (p + 1)) as [[b1 E1]|E1];
    rewrite E0, E1, ?res_bind_ok; try done.
  pose proof (rd8_byte _ _ _ Hs E0). pose proof (rd8_byte _ _ _ Hs E1). unfold is_byte in *.
  f_equal. rewrite u16_id by (rewrite Z.shiftl_mul_pow2 by lia; unfold is_u16; lia).
  rewrite Z.lor_comm, lor_add_shift by lia. lia.
Qed.

Create Rewrite HintDb records.
#[export] Hint Rewrite serialise32_le4 serialise16_le2 : records.
Lemma le4_bytes_app s x : are_bytes s → are_bytes (s ++ le4 x).
Proof. intros. apply Forall_app. auto using le4_bytes. Qed.
#[export] Hint Resolve le4_bytes le2_bytes : words.
#[export] Hint Extern 1 (are_bytes (_ ++ _)) => apply Forall_app; split : words.
#[export] Hint Extern 1 (are_bytes (_ :: _)) => apply Forall_cons; split : words.
#[export] Hint Extern 1 (are_bytes []) => apply Forall_nil : words.
#[export] Hint Extern 3 (is_byte _) => (unfold is_byte; cbn; lia) : words.

(** ** Round trips of the fixed-size records *)

Definition TPing_wf (t : TPing) : Prop := is_u32 (ping_from t) ∧ is_u32 (ping_id t) ∧ is_u32 (ping_value t).
Definition TAlliance_wf (t : TAlliance) : Prop :=
  is_u32 (al_dpidFrom t) ∧ is_u32 (al_dpidTo t) ∧ is_byte (al_alliedFromWithTo t) ∧ is_u32 (al_alliedToWithFrom t).
Definition TTeam_wf (t : TTeam) : Prop := is_u32 (tm_dpidFrom t) ∧ is_byte (tm_teamNumber t).
Definition TIdent2_wf (t : TIdent2) : Prop := length t = 10%nat ∧ Forall is_u32 t.
Definition TIdent3_wf (t : TIdent3) : Prop := is_u32 (id3_dpid t) ∧ is_byte (id3_number t).
Definition TUnitData_wf (t : TUnitData) : Prop :=
  ud_pktid t = code_byte UNIT_DATA_1A ∧ is_byte (ud_sub t) ∧ is_u32 (ud_fill t) ∧ is_u32 (ud_id t) ∧ is_u32 (ud_u t).

(** reads of an explicit byte list, and the loaded integers put together again *)
Ltac load_record :=
  rewrite ?toUint32_rd32, ?toUint16_rd16 by auto 30 with words;
  unfold rd32, rd16; cbn -[u8 u16 Z.add Z.mul Z.div];
  rewrite ?le4_value, ?le2_value by done.

Lemma TPing_roundtrip t : TPing_wf t → TPing_parse (TPing_asSubPacket t) = Ok t.
Proof.
  intros (? & ? & ?). unfold TPing_parse, TPing_asSubPacket.
  rewrite !serialise32_le4. load_record. by destruct t.
Qed.

Lemma TAlliance_roundtrip t : TAlliance_wf t → TAlliance_parse (TAlliance_asSubPacket t) = Ok t.
Proof.
  intros (? & ? & ? & ?). unfold TAlliance_parse, TAlliance_asSubPacket.
  rewrite !serialise32_le4. load_record. by destruct t.
Qed.

Lemma TIdent3_roundtrip t : TIdent3_wf t → TIdent3_parse (TIdent3_asSubPacket t) = Ok t.
Proof.
  intros (? & ?). unfold TIdent3_parse, TIdent3_asSubPacket.
  rewrite !serialise32_le4. load_record. by destruct t.
Qed.

Lemma TTeam_reads t : TTeam_wf t → TTeam_parse (TTeam_asSubPacket t) = Ok t.
Proof.
  intros (? & ?). unfold TTeam_parse, TTeam_asSubPacket.
  rewrite !serialise32_le4. load_record. by destruct t.
Qed.

Lemma foldl_serialise32 ds dest : foldl serialise32 dest ds = dest ++ (ds ≫= le4).
Proof.
  revert dest. induction ds as [|d ds IH]; intros dest; simpl; [by rewrite app_nil_r|].
  rewrite IH, serialise32_le4, <- app_assoc. done.
Qed.

Lemma bind_le4_bytes ds : are_bytes (ds ≫= le4).
Proof. induction ds; [by apply Forall_nil|]. apply Forall_app. auto with words. Qed.

Lemma TIdent2_loop_spec ds pre : Forall is_u32 ds → are_bytes pre →
  TIdent2_loop (length ds) (pre ++ (ds ≫= le4)) (length pre) = Ok ds.
Proof.
  revert pre. induction ds as [|d ds IH]; intros pre Hds Hpre; [done|].
  inversion Hds; subst. cbn [TIdent2_loop length]. change ((d :: ds) ≫= le4) with (le4 d ++ (ds ≫= le4)).
  rewrite toUint32_rd32 by auto using bind_le4_bytes with words.
  rewrite rd32_le4, res_bind_ok by done. rewrite app_assoc.
  replace (length pre + 4)%nat with (length (pre ++ le4 d)) by (rewrite length_app; done).
  rewrite IH by auto with words. done.
Qed.

Lemma TIdent2_roundtrip t : TIdent2_wf t → TIdent2_parse (TIdent2_asSubPacket t) = Ok t.
Proof.
  intros (Hl & Ht). unfold TIdent2_parse, TIdent2_asSubPacket. rewrite foldl_serialise32, <- Hl.
  apply (TIdent2_loop_spec t [code_byte IDENT2_26]); auto with words.
Qed.

Lemma union_halves u : is_u32 u → union_statusAndLimit (u16 u) (u16 (u / 65536)) = u.
Proof. unfold is_u32, union_statusAndLimit, u16. intros. Z.div_mod_to_equations. lia. Qed.

Lemma TUnitData_roundtrip t : TUnitData_wf t → TUnitData_parse (TUnitData_asSubPacket t) = Ok t.
Proof.
  intros (Hp & Hs & Hf & Hi & Hu). destruct t as [p s f i u]. unfold TUnitData_parse, TUnitData_asSubPacket.
  simpl in Hp, Hs, Hf, Hi, Hu. cbn [ud_pktid ud_sub ud_fill ud_id]. subst p. rewrite !serialise32_le4. destruct (Z.eqb_spec s 3) as [->|Hs3].
  - rewrite !serialise16_le2. unfold ud_status, ud_limit. cbn [ud_u].
    pose proof (u16_bound u). pose proof (u16_bound (u / 65536)). load_record.
    by rewrite union_halves.
  - unfold ud_crc. cbn [ud_u]. load_record. by rewrite (proj2 (Z.eqb_neq _ _) Hs3).
Qed.

(** C38: the records that the program both writes and reads survive the trip: parsing
    what [asSubPacket] writes gives the record back, for [TPing], [TAlliance],
    [TIdent2], [TIdent3] and [TUnitData] (both forms of its union), and what is
    written has exactly the size [getExpectedSubPacketSize] announces for it,
    whatever follows in the packet. *)
Theorem records_roundtrip (p : TPing) (a : TAlliance) (i2 : TIdent2) (i3 : TIdent3) (u : TUnitData) :
  TPing_wf p → TAlliance_wf a → TIdent2_wf i2 → TIdent3_wf i3 → TUnitData_wf u →
  (TPing_parse (TPing_asSubPacket p) = Ok p ∧ self_delimited (TPing_asSubPacket p)) ∧
  (TAlliance_parse (TAlliance_asSubPacket a) = Ok a ∧ self_delimited (TAlliance_asSubPacket a)) ∧
  (TIdent2_parse (TIdent2_asSubPacket i2) = Ok i2 ∧ self_delimited (TIdent2_asSubPacket i2)) ∧
  (TIdent3_parse (TIdent3_asSubPacket i3) = Ok i3 ∧ self_delimited (TIdent3_asSubPacket i3)) ∧
  (TUnitData_parse (TUnitData_asSubPacket u) = Ok u ∧ self_delimited (TUnitData_asSubPacket u)).
Proof.
  intros Hp Ha Hi2 Hi3 Hu. split_and!;
    auto using TPing_roundtrip, TAlliance_roundtrip, TIdent2_roundtrip, TIdent3_roundtrip, TUnitData_roundtrip.
  - by apply (self_delimited_fixed PING_02).
  - by apply (self_delimited_fixed ALLY_23).
  - destruct Hi2 as [Hl _]. do 11 (destruct i2 as [|? i2]; try done).
  - by apply (self_delimited_fixed IDENT3_22).
  - destruct Hu as (Hpk & _). unfold TUnitData_asSubPacket. rewrite Hpk.
    destruct (ud_sub u =? 3); by apply (self_delimited_fixed UNIT_DATA_1A).
Qed.

Lemma records_roundtrip_witness :
  TUnitData_parse (TUnitData_asSubPacket (TUnitData_make 4660 10 true)) = Ok (TUnitData_make 4660 10 true).
Proof.
  assert (TPing_wf (mkTPing 1 2 3)) as Hp by (unfold TPing_wf, is_u32; simpl; lia).
  assert (TAlliance_wf TAlliance_default) as Ha by (unfold TAlliance_wf, is_u32, is_byte; simpl; lia).
  assert (TIdent2_wf TIdent2_default) as H2.
  { split; [done|]. unfold TIdent2_default, is_u32. apply Forall_replicate. lia. }
  assert (TIdent3_wf (mkTIdent3 7 2)) as H3 by (unfold TIdent3_wf, is_u32, is_byte; simpl; lia).
  assert (TUnitData_wf (TUnitData_make 4660 10 true)) as Hu.
  { split; [done|]. unfold is_byte, is_u32. simpl. unfold union_statusAndLimit. lia. }
  apply (records_roundtrip _ _ _ _ _ Hp Ha H2 H3 Hu).
Defined.

(** [TTeam::asSubPacket] writes the type byte of an alliance record: the six
    bytes parse back as the team record, but a receiver that frames sub-packets by
    their type byte expects the 14 bytes of [ALLY_23], and [split2] reports an
    error on them. *)
Theorem TTeam_mislabelled (t : TTeam) :
  TTeam_wf t →
  TTeam_parse (TTeam_asSubPacket t) = Ok t ∧
  getExpectedSubPacketSize (TTeam_asSubPacket t) = Ok 14 ∧
  length (TTeam_asSubPacket t) = 6%nat ∧
  split2 (TTeam_asSubPacket t) true = Ok (TTeam_asSubPacket t, [], true).
Proof.
  intros Ht. split; [by apply TTeam_reads|]. repeat split.
Qed.

Lemma TTeam_mislabelled_witness :
  TTeam_wf TTeam_default ∧ split2 (TTeam_asSubPacket TTeam_default) true = Ok ([35; 0; 0; 0; 0; 5], [], true).
Proof.
  assert (TTeam_wf TTeam_default) as H by (unfold TTeam_wf, is_u32, is_byte; simpl; lia).
  split; [exact H|]. apply (TTeam_mislabelled _ H).
Defined.

(** ** Editing a player's record in place *)

Lemma asSubPacket_fields t : TPlayerInfo_asSubPacket t = take (pi_serialisedSize t)
  ([32] ++ pi_fill1 t ++ le2 (pi_width t) ++ le2 (pi_height t) ++ [pi_fill3 t] ++ le4 (pi_player1Id t)
   ++ pi_data2 t ++ [pi_clicked t] ++ pi_fill2 t ++ le2 (pi_maxUnits t) ++ [pi_versionMajor t]
   ++ [pi_versionMinor t] ++ pi_data3 t ++ le4 (pi_player2Id t) ++ [pi_data4 t]).
Proof.
  unfold TPlayerInfo_asSubPacket. rewrite !serialise32_le4, !serialise16_le2, <- !app_assoc. done.
Qed.

(** the fields of a parsed record are the slices of the sub-packet *)
Definition fields_of (s : bytes) (t : TPlayerInfo) : Prop :=
  pi_fill1 t = slice s 1 139 ∧ le2 (pi_width t) = slice s 140 2 ∧ le2 (pi_height t) = slice s 142 2 ∧
  [pi_fill3 t] = slice s 144 1 ∧ le4 (pi_player1Id t) = slice s 145 4 ∧ pi_data2 t = slice s 149 7 ∧
  [pi_clicked t] = slice s 156 1 ∧ pi_fill2 t = slice s 157 9 ∧ le2 (pi_maxUnits t) = slice s 166 2 ∧
  [pi_versionMajor t] = slice s 168 1 ∧ [pi_versionMinor t] = slice s 169 1.

Lemma toUint32_slice s p : are_bytes s → (p + 4 ≤ length s)%nat →
  ∃ x, toUint32 s p = Ok x ∧ is_u32 x ∧ le4 x = slice s p 4.
Proof. intros. rewrite toUint32_rd32 by done. by apply rd32_slice. Qed.
Lemma toUint16_slice s p : are_bytes s → (p + 2 ≤ length s)%nat →
  ∃ x, toUint16 s p = Ok x ∧ is_u16 x ∧ le2 x = slice s p 2.
Proof. intros. rewrite toUint16_rd16 by done. by apply rd16_slice. Qed.

Lemma TPlayerInfo_parse_192 junk s : are_bytes s → length s = 192%nat →
  ∃ t, TPlayerInfo_parse junk s = Ok t ∧ pi_serialisedSize t = 192%nat ∧ fields_of s t ∧
    pi_data3 t = slice s 170 17 ∧ le4 (pi_player2Id t) = slice s 187 4 ∧ [pi_data4 t] = slice s 191 1.
Proof.
  intros Hs Hl. unfold TPlayerInfo_parse. rewrite Hl. change (192 =? 192)%nat with true. cbv iota.
  destruct (toUint16_slice s 140 Hs ltac:(lia)) as (w & -> & _ & Hw).
  destruct (toUint16_slice s 142 Hs ltac:(lia)) as (h & -> & _ & Hh).
  destruct (toUint16_slice s 166 Hs ltac:(lia)) as (mu & -> & _ & Hmu).
  destruct (toUint32_slice s 145 Hs ltac:(lia)) as (p1 & -> & _ & Hp1).
  destruct (toUint32_slice s 187 Hs ltac:(lia)) as (p2 & -> & _ & Hp2).
  destruct (rd8_slice s 144 ltac:(lia)) as (f3 & -> & Hf3).
  destruct (rd8_slice s 156 ltac:(lia)) as (cl & -> & Hcl).
  destruct (rd8_slice s 168 ltac:(lia)) as (vM & -> & HvM).
  destruct (rd8_slice s 169 ltac:(lia)) as (vm & -> & Hvm).
  destruct (rd8_slice s 191 ltac:(lia)) as (d4 & -> & Hd4).
  rewrite !rd_n_slice by lia. eexists. split; [reflexivity|]. unfold fields_of. cbn. auto 20.
Qed.

Lemma TPlayerInfo_parse_short junk s : are_bytes s → (186 ≤ length s < 192)%nat →
  ∃ t, TPlayerInfo_parse junk s = Ok t ∧ pi_serialisedSize t = length s ∧ fields_of s t ∧
    pi_data3 t = slice s 170 16 ++ [junk] ∧ pi_player2Id t = pi_player1Id t ∧ pi_data4 t = 0.
Proof.
  intros Hs Hl. unfold TPlayerInfo_parse. rewrite (proj2 (Nat.eqb_neq _ _)) by lia.
  destruct (toUint16_slice s 140 Hs ltac:(lia)) as (w & -> & _ & Hw).
  destruct (toUint16_slice s 142 Hs ltac:(lia)) as (h & -> & _ & Hh).
  destruct (toUint16_slice s 166 Hs ltac:(lia)) as (mu & -> & _ & Hmu).
  destruct (toUint32_slice s 145 Hs ltac:(lia)) as (p1 & -> & _ & Hp1).
  destruct (rd8_slice s 144 ltac:(lia)) as (f3 & -> & Hf3).
  destruct (rd8_slice s 156 ltac:(lia)) as (cl & -> & Hcl).
  destruct (rd8_slice s 168 ltac:(lia)) as (vM & -> & HvM).
  destruct (rd8_slice s 169 ltac:(lia)) as (vm & -> & Hvm).
  rewrite !rd_n_slice by lia. eexists. split; [reflexivity|]. unfold fields_of. cbn. auto 20.
Qed.

Lemma slice_app_r s i n m r : slice s i n ++ slice s (i + n) m ++ r = slice s i (n + m) ++ r.
Proof. by rewrite app_assoc, slice_app. Qed.

(** joins neighbouring slices at concrete positions *)
Ltac merge_slices :=
  repeat match goal with
  | |- context [slice ?s ?i ?n ++ slice ?s ?j ?m ++ ?r] =>
      let k := eval compute in (n + m)%nat in
      rewrite (slice_app_r s i n m r : slice s i n ++ slice s j m ++ r = slice s i k ++ r)
  | |- context [slice ?s ?i ?n ++ slice ?s ?j ?m] =>
      let k := eval compute in (n + m)%nat in
      rewrite (slice_app s i n m : slice s i n ++ slice s j m = slice s i k)
  end.

Lemma wr_slices s i new k : (i + length new + k)%nat = length s →
  wr s i new = slice s 0 i ++ new ++ slice s (i + length new) k.
Proof.
  intros H. unfold wr, slice. rewrite drop_0. f_equal. f_equal. rewrite take_ge; [done|].
  rewrite length_drop. lia.
Qed.

Lemma insert_slice s i n j v k : (i + n ≤ length s)%nat → (j + 1 + k = n)%nat →
  <[j := v]> (slice s i n) = slice s i j ++ [v] ++ slice s (i + j + 1) k.
Proof.
  intros Hn Hj. destruct (rd8_slice s (i + j) ltac:(lia)) as (b & _ & Hb).
  replace n with (j + (1 + k))%nat by lia. rewrite <- slice_app, <- slice_app, Hb.
  rewrite <- (length_slice s i j) at 1 by lia. apply insert_middle.
Qed.

Lemma slice_u8 s i b : slice s i 1 = [b] → s !! i = Some b.
Proof.
  unfold slice. destruct (drop i s) eqn:E; [done|]. intros [= ->].
  rewrite <- (Nat.add_0_r i), <- lookup_drop, E. done.
Qed.

Lemma slice_head s i n b : slice s i (S n) !!! 0%nat = b → (i < length s)%nat → s !! i = Some b.
Proof.
  unfold slice. intros H Hi. destruct (lookup_lt_is_Some_2 _ _ Hi) as [c Hc].
  rewrite (drop_S _ _ _ Hc) in H. simpl in H. by subst.
Qed.

(** the bytes of a record, in terms of the sub-packet it was parsed from and of the
    bytes that the setters replace *)
Lemma TPlayerInfo_print_192 s t b156 :
  length s = 192%nat → s !! 0%nat = Some 32 → pi_serialisedSize t = 192%nat → fields_of s t →
  pi_data3 t = slice s 170 17 → le4 (pi_player2Id t) = slice s 187 4 → [pi_data4 t] = slice s 191 1 →
  s !! 156%nat = Some b156 →
  TPlayerInfo_asSubPacket t = s ∧
  (∀ d, TPlayerInfo_asSubPacket (setDpId d t)
        = slice s 0 145 ++ le4 d ++ slice s 149 38 ++ le4 d ++ slice s 191 1) ∧
  (∀ v, TPlayerInfo_asSubPacket (setInternalVersion v t) = wr s 181 [v]) ∧
  (∀ c, TPlayerInfo_asSubPacket (set_clicked c t) = wr s 156 [c]) ∧
  (∀ f, TPlayerInfo_asSubPacket (set_fill2 (<[0%nat := f]> (pi_fill2 t)) t) = wr s 157 [f]).
Proof.
  intros Hl H0 Hsz (F1 & F2 & F3 & F4 & F5 & F6 & F7 & F8 & F9 & F10 & F11) Hd3 Hp2 Hd4 H156.
  pose proof (slice_1 _ _ _ H0) as S0.
  unfold set_clicked, set_fill2, setDpId, setInternalVersion.
  split_and!; try intros ?; rewrite asSubPacket_fields; cbn [pi_serialisedSize pi_fill1 pi_width
    pi_height pi_fill3 pi_player1Id pi_data2 pi_clicked pi_fill2 pi_maxUnits pi_versionMajor
    pi_versionMinor pi_data3 pi_player2Id pi_data4];
    rewrite Hsz, ?F1, ?F2, ?F3, ?F4, ?F5, ?F6, ?F7, ?F8, ?F9, ?F10, ?F11, ?Hd3, ?Hp2, ?Hd4, <- S0.
  3: rewrite (insert_slice s 170 17 11 _ 5) by lia.
  5: rewrite (insert_slice s 157 9 0 _ 8) by lia.
  all: rewrite take_ge by
    (rewrite ?length_app, ?length_slice, ?length_le4 by lia; cbn [length]; lia).
  3: rewrite (wr_slices s 181 _ 10) by (cbn [length]; lia).
  4: rewrite (wr_slices s 156 _ 35) by (cbn [length]; lia).
  5: rewrite (wr_slices s 157 _ 34) by (cbn [length]; lia).
  all: rewrite <- ?app_assoc; cbn [length Nat.add].
  - merge_slices. apply slice_all. lia.
  - merge_slices. done.
  - merge_slices. done.
  - merge_slices. done.
  - change (slice s 157 0) with (@nil Z). cbn [app]. merge_slices. done.
Qed.

(** a full player record of 192 bytes is edited in place: parsing it and writing
    it back gives the same bytes, and each setter changes just the bytes that its
    comment claims, at their position in the packet (7 more "once smartpaked"): the
    ids at 145 and 187, the recorder version at 181, the watch flag in bit 7 of byte
    156, the cheat flag in bit 5 of byte 157, the line-of-sight byte 157. *)
Theorem TPlayerInfo_edit (junk : Z) (s : bytes) (b156 b157 : Z) :
  are_bytes s → length s = 192%nat → s !! 0%nat = Some 32 →
  s !! 156%nat = Some b156 → s !! 157%nat = Some b157 →
  ∃ t, TPlayerInfo_parse junk s = Ok t ∧ TPlayerInfo_asSubPacket t = s ∧
    (∀ d, TPlayerInfo_asSubPacket (setDpId d t)
          = slice s 0 145 ++ le4 d ++ slice s 149 38 ++ le4 d ++ slice s 191 1) ∧
    (∀ v, TPlayerInfo_asSubPacket (setInternalVersion v t) = wr s 181 [v]) ∧
    (∀ a, TPlayerInfo_asSubPacket (setAllowWatch a t)
          = wr s 156 [if a : bool then u8 (Z.lor b156 128) else u8 (Z.land b156 (Z.lnot 128))]) ∧
    (∀ c, TPlayerInfo_asSubPacket (setCheat c t)
          = wr s 157 [if c : bool then u8 (Z.lor b157 32) else u8 (Z.land b157 (Z.lnot 32))]) ∧
    (∀ l, TPlayerInfo_asSubPacket (setPermLos l t) = wr s 157 [8]).
Proof.
  intros Hs Hl H0 H156 H157.
  destruct (TPlayerInfo_parse_192 junk s Hs Hl) as (t & -> & Hsz & Hf & Hd3 & Hp2 & Hd4).
  exists t. split; [done|].
  assert (pi_clicked t = b156) as Hc.
  { destruct Hf as (_ & _ & _ & _ & _ & _ & F7 & _). rewrite (slice_1 _ _ _ H156) in F7. congruence. }
  assert (pi_fill2 t !!! 0%nat = b157) as Hf20.
  { destruct Hf as (_ & _ & _ & _ & _ & _ & _ & F8 & _). rewrite F8.
    change (slice s 157 9) with (slice s 157 (1 + 8)).
    by rewrite <- (slice_app s 157 1 8), (slice_1 _ _ _ H157). }
  destruct (TPlayerInfo_print_192 s t b156) as (P & Pd & Pv & Pc & Pf); try done.
  unfold setAllowWatch, setCheat, setPermLos. rewrite Hc, Hf20. auto 10.
Qed.

Lemma TPlayerInfo_edit_witness : ∃ t,
  TPlayerInfo_parse 0 (32 :: replicate 191 1) = Ok t ∧
  TPlayerInfo_asSubPacket (setAllowWatch true t) = 32 :: replicate 155 1 ++ [129] ++ replicate 35 1.
Proof.
  assert (are_bytes (32 :: replicate 191 1)) as H.
  { apply Forall_cons. split; [|apply Forall_replicate]; unfold is_byte; lia. }
  destruct (TPlayerInfo_edit 0 (32 :: replicate 191 1) 1 1 H eq_refl eq_refl eq_refl eq_refl)
    as (t & E & _ & _ & _ & Ha & _).
  exists t. split; [exact E|]. exact (Ha true).
Defined.

(** a truncated player record (186 to 191 bytes) is not copied faithfully: the
    first 186 bytes written back are the sender's, the next is the byte the parser
    leaves uninitialised, and then come the first player's id and a zero in place of
    the sender's bytes. *)
Theorem TPlayerInfo_short (junk : Z) (s : bytes) :
  are_bytes s → (186 ≤ length s < 192)%nat → s !! 0%nat = Some 32 →
  ∃ t, TPlayerInfo_parse junk s = Ok t ∧
    TPlayerInfo_asSubPacket t
    = slice s 0 186 ++ take (length s - 186) ([junk] ++ slice s 145 4 ++ [0]).
Proof.
  intros Hs Hl H0.
  destruct (TPlayerInfo_parse_short junk s Hs Hl) as (t & -> & Hsz & Hf & Hd3 & Hp2 & Hd4).
  exists t. split; [done|]. destruct Hf as (F1 & F2 & F3 & F4 & F5 & F6 & F7 & F8 & F9 & F10 & F11).
  rewrite asSubPacket_fields, Hsz, Hp2, F1, F2, F3, F4, F5, F6, F7, F8, F9, F10, F11, Hd3, Hd4,
    <- (slice_1 _ _ _ H0), <- !app_assoc.
  merge_slices. rewrite take_app, take_ge by (rewrite length_slice; lia).
  by rewrite length_slice by lia.
Qed.

Lemma TPlayerInfo_short_witness : ∃ t,
  TPlayerInfo_parse 77 (32 :: replicate 187 1) = Ok t ∧
  TPlayerInfo_asSubPacket t = 32 :: replicate 185 1 ++ [77; 1].
Proof.
  assert (are_bytes (32 :: replicate 187 1)) as H.
  { apply Forall_cons. split; [|apply Forall_replicate]; unfold is_byte; lia. }
  assert (186 ≤ length (32%Z :: replicate 187 1%Z) < 192)%nat as Hl by (simpl; lia).
  exact (TPlayerInfo_short 77 _ H Hl eq_refl).
Defined.
