(* ===== verification/DuplicateDetection.v ===== *)
(** * CRC-32 and the duplicate packet filter (nswfl_crc32.cpp, DuplicateDetection.cpp)

    [CRC32::Initialize], [Reflect], [PartialCRC], [FullCRC], and the sliding window of
    [DuplicateDetection] built on them. *)
From S2P Require Import Prelude.

(** ** CRC32 *)
Module CRC32.

Definition iPolynomial : Z := 79764919. (* 0x04C11DB7 *)

(** one iteration of the loop of [Reflect]; [cChar] is the width *)
Fixpoint Reflect_loop (n : nat) (iPos cChar iReflect iValue : Z) : Z :=
  match n with
  | O => iValue
  | S n =>
      let iValue := if negb (Z.land iReflect 1 =? 0)
                    then Z.lor iValue (u32 (Z.shiftl 1 (cChar - iPos))) else iValue in
      Reflect_loop n (iPos + 1) cChar (Z.shiftr iReflect 1) iValue
  end.
Definition Reflect (iReflect : Z) (cChar : nat) : Z := Reflect_loop cChar 1 (Z.of_nat cChar) iReflect 0.

(** [iTable[iCodes] = (iTable[iCodes] << 1) ^ ((iTable[iCodes] & (1 << 31)) ? iPolynomial : 0)] *)
Definition table_step (t : Z) : Z :=
  Z.lxor (u32 (Z.shiftl t 1)) (if negb (Z.land t 2147483648 =? 0) then iPolynomial else 0).
Definition table_entry (iCodes : Z) : Z :=
  let t := u32 (Z.shiftl (Reflect iCodes 8) 24) in
  Reflect (Nat.iter 8 table_step t) 32.
Definition Initialize : list Z := table_entry <$> seqZ 0 256.

(** [*iCRC = ( *iCRC >> 8) ^ this->iTable[( *iCRC & 0xFF) ^ *sData++]] *)
Definition PartialCRC_step (iTable : list Z) (iCRC b : Z) : Z :=
  Z.lxor (Z.shiftr iCRC 8) (iTable !!! Z.to_nat (Z.lxor (Z.land iCRC 255) b)).
Definition PartialCRC (iTable : list Z) (iCRC : Z) (sData : bytes) : Z :=
  foldl (PartialCRC_step iTable) iCRC sData.
Definition FullCRC (iTable : list Z) (sData : bytes) : Z :=
  Z.lxor (PartialCRC iTable 4294967295 sData) 4294967295.

(** *** The CRC of the standard, bit by bit *)
Definition crc_bit (x : Z) : Z := Z.lxor (Z.shiftr x 1) (if Z.odd x then 3988292384 else 0).
Definition crc_bits8 (x : Z) : Z := Nat.iter 8 crc_bit x.
Definition crc_byte (crc b : Z) : Z := crc_bits8 (Z.lxor crc b).

End CRC32.
Import CRC32.

(** ** DuplicateDetection *)
Record DuplicateDetection := mkDD {
  m_seenPacketCRCs : list (gset Z);           (* 0x100 buckets *)
  m_seenPacketCRCExpiryQueue : list Z }.

Definition EXPIRY_QUEUE_LENGTH : nat := 128.

Definition DD_init : DuplicateDetection := mkDD (replicate 256 ∅) [].

Definition crc_hash (crc : Z) : nat := Z.to_nat (Z.land crc 255).

(** returns true if already inserted *)
Definition DD_insert (crc : Z) (s : list (gset Z)) : bool * list (gset Z) :=
  let crcSet := s !!! crc_hash crc in
  if bool_decide (crc ∈ crcSet) then (true, s)
  else (false, <[crc_hash crc := {[crc]} ∪ crcSet]> s).

Definition DD_erase (crc : Z) (s : list (gset Z)) : list (gset Z) :=
  <[crc_hash crc := (s !!! crc_hash crc) ∖ {[crc]}]> s.

(** [while (queue.size() > EXPIRY_QUEUE_LENGTH) { erase(queue.front()); queue.pop(); }] *)
Fixpoint DD_expire (queue : list Z) (s : list (gset Z)) : DuplicateDetection :=
  if (EXPIRY_QUEUE_LENGTH <? length queue)%nat then
    match queue with
    | expiredCRC :: rest => DD_expire rest (DD_erase expiredCRC s)
    | [] => mkDD s queue
    end
  else mkDD s queue.

Definition packet_crc (sourceId destId : Z) (data : bytes) : Z :=
  PartialCRC Initialize
    (PartialCRC Initialize (PartialCRC Initialize 4294967295 (le4 sourceId)) (le4 destId)) data.

Definition isLikelyDuplicate (sourceId destId : Z) (data : bytes) (d : DuplicateDetection)
    : bool * DuplicateDetection :=
  let crc := packet_crc sourceId destId data in
  let '(found, s) := DD_insert crc (m_seenPacketCRCs d) in
  if found then (true, mkDD s (m_seenPacketCRCExpiryQueue d))
  else (false, DD_expire (m_seenPacketCRCExpiryQueue d ++ [crc]) s).

Example crc_check : FullCRC Initialize [49;50;51;52;53;54;55;56;57] = 3421780262. (* "123456789" *)
Proof. vm_compute. reflexivity. Qed.

(** ** CRC32: the table driven computation *)

Lemma crc_bit_lxor x y : crc_bit (Z.lxor x y) = Z.lxor (crc_bit x) (crc_bit y).
Proof.
  unfold crc_bit. rewrite Z.shiftr_lxor.
  assert (Z.odd (Z.lxor x y) = xorb (Z.odd x) (Z.odd y)) as ->
    by (rewrite <- !Z.bit0_odd; apply Z.lxor_spec).
  apply Z.bits_inj'. intros i Hi. rewrite !Z.lxor_spec.
  destruct (Z.odd x), (Z.odd y); simpl xorb; cbv iota; rewrite ?Z.bits_0;
    repeat match goal with |- context [Z.testbit ?a i] => destruct (Z.testbit a i) end; done.
Qed.

Lemma crc_iter_lxor n x y :
  Nat.iter n crc_bit (Z.lxor x y) = Z.lxor (Nat.iter n crc_bit x) (Nat.iter n crc_bit y).
Proof. induction n as [|n IH]; [done|]. rewrite !Nat.iter_succ, IH. apply crc_bit_lxor. Qed.

Lemma crc_iter_shift n x : Nat.iter n crc_bit (Z.shiftl x (Z.of_nat n)) = x.
Proof.
  induction n as [|n IH]; [apply Z.shiftl_0_r|].
  rewrite Nat.iter_succ_r. rewrite Nat2Z.inj_succ, <- Z.add_1_r, <- Z.shiftl_shiftl by lia.
  assert (crc_bit (Z.shiftl (Z.shiftl x (Z.of_nat n)) 1) = Z.shiftl x (Z.of_nat n)) as ->; [|done].
  unfold crc_bit. rewrite Z.shiftr_shiftl_r by lia. rewrite Z.sub_diag, Z.shiftr_0_r.
  rewrite <- Z.bit0_odd, Z.shiftl_spec_low by lia. apply Z.lxor_0_r.
Qed.

Lemma byte_split x : Z.lxor (Z.shiftl (Z.shiftr x 8) 8) (Z.land x 255) = x.
Proof.
  change 255 with (Z.ones 8). apply Z.bits_inj'. intros i Hi.
  rewrite Z.lxor_spec, Z.land_spec. destruct (decide (i < 8)).
  - rewrite Z.shiftl_spec_low, Z.ones_spec_low, andb_true_r by lia. done.
  - rewrite Z.shiftl_spec, Z.shiftr_spec, Z.ones_spec_high, andb_false_r by lia.
    rewrite xorb_false_r. f_equal. lia.
Qed.

Lemma table_entries : forallb (λ c, table_entry c =? crc_bits8 c) (seqZ 0 256) = true.
Proof. vm_compute. reflexivity. Qed.

Lemma table_entry_bits c : is_byte c → table_entry c = crc_bits8 c.
Proof.
  intros Hc. pose proof table_entries as H. rewrite forallb_forall in H.
  apply Z.eqb_eq, H, list_elem_of_In, elem_of_seqZ. unfold is_byte in Hc. lia.
Qed.

Lemma Initialize_lookup c : is_byte c → Initialize !!! Z.to_nat c = crc_bits8 c.
Proof.
  intros Hc. unfold is_byte in Hc. apply list_lookup_total_correct. unfold Initialize.
  rewrite list_lookup_fmap, lookup_seqZ_lt by lia. simpl. f_equal.
  rewrite table_entry_bits by (unfold is_byte; lia). f_equal. lia.
Qed.

Lemma land255_byte x : is_byte (Z.land x 255).
Proof.
  change 255 with (Z.ones 8). rewrite Z.land_ones by lia. unfold is_byte.
  apply Z.mod_pos_bound. lia.
Qed.
#[export] Hint Resolve land255_byte : words.

Lemma PartialCRC_step_bits crc b : is_byte b → PartialCRC_step Initialize crc b = crc_byte crc b.
Proof.
  intros Hb. unfold PartialCRC_step, crc_byte. rewrite Initialize_lookup by auto with words.
  assert (Z.lxor crc b = Z.lxor (Z.shiftl (Z.shiftr crc 8) 8) (Z.lxor (Z.land crc 255) b)) as ->
    by (rewrite <- Z.lxor_assoc, byte_split; done).
  unfold crc_bits8. rewrite (crc_iter_lxor 8 (Z.shiftl _ _)). f_equal. symmetry.
  pose proof (crc_iter_shift 8 (Z.shiftr crc 8)) as E. change (Z.of_nat 8) with 8 in E.
  exact E.
Qed.

(** The table driven CRC is the CRC of the standard: for every buffer,
    [PartialCRC] with the table that [Initialize] builds equals the bit by bit
    computation with the reflected polynomial 0xEDB88320; and it can be computed
    piecewise, as the callers do. *)
Theorem PartialCRC_bitwise (iCRC : Z) (sData more : bytes) :
  are_bytes sData →
  PartialCRC Initialize iCRC sData = foldl crc_byte iCRC sData ∧
  PartialCRC Initialize iCRC (sData ++ more)
  = PartialCRC Initialize (PartialCRC Initialize iCRC sData) more.
Proof.
  intros Hs. split; [|apply foldl_app]. revert iCRC.
  induction Hs as [|b s Hb Hs IH]; intros iCRC; [done|].
  cbn [PartialCRC foldl]. rewrite PartialCRC_step_bits by done. apply IH.
Qed.

Lemma PartialCRC_bitwise_witness :
  are_bytes [49; 50; 51] ∧
  PartialCRC Initialize 4294967295 [49; 50; 51] = foldl crc_byte 4294967295 [49; 50; 51].
Proof.
  assert (are_bytes [49; 50; 51]) as H by bytes_tac.
  split; [exact H|]. exact (proj1 (PartialCRC_bitwise 4294967295 [49; 50; 51] [] H)).
Defined.

(** ** The sliding window *)

(** the abstract filter: the last [EXPIRY_QUEUE_LENGTH] distinct CRCs, oldest first *)
Definition window_step (crc : Z) (w : list Z) : bool * list Z :=
  if bool_decide (crc ∈ w) then (true, w)
  else (false, drop (S (length w) - EXPIRY_QUEUE_LENGTH) (w ++ [crc])).

(** representation: each bucket holds the CRCs of the window with its low byte *)
Definition dd_rep (d : DuplicateDetection) (w : list Z) : Prop :=
  m_seenPacketCRCExpiryQueue d = w ∧ NoDup w ∧ (length w ≤ EXPIRY_QUEUE_LENGTH)%nat ∧
  length (m_seenPacketCRCs d) = 256%nat ∧
  ∀ h c, (h < 256)%nat → c ∈ (m_seenPacketCRCs d !!! h) ↔ c ∈ w ∧ crc_hash c = h.

Lemma crc_hash_bound c : (crc_hash c < 256)%nat.
Proof. pose proof (land255_byte c) as H. unfold is_byte in H. unfold crc_hash. lia. Qed.

Definition buckets_of (s : list (gset Z)) (w : list Z) : Prop :=
  length s = 256%nat ∧ ∀ h c, (h < 256)%nat → c ∈ (s !!! h) ↔ c ∈ w ∧ crc_hash c = h.

Lemma buckets_init : buckets_of (replicate 256 ∅) [].
Proof.
  split; [apply length_replicate|]. intros h c Hh. rewrite lookup_total_replicate_2 by done.
  set_solver.
Qed.

Lemma DD_insert_spec crc s w : buckets_of s w →
  DD_insert crc s = (bool_decide (crc ∈ w), (DD_insert crc s).2) ∧
  (crc ∈ w → (DD_insert crc s).2 = s) ∧ (crc ∉ w → buckets_of (DD_insert crc s).2 (w ++ [crc])).
Proof.
  intros [Hl Hb]. pose proof (crc_hash_bound crc) as Hh. unfold DD_insert.
  assert (bool_decide (crc ∈ s !!! crc_hash crc) = bool_decide (crc ∈ w)) as ->.
  { apply bool_decide_ext. rewrite Hb by done. naive_solver. }
  case_bool_decide as Hin; simpl; (split; [done|]); (split; [done|]); intros ?; [done|].
  split; [by rewrite length_insert|]. intros h c Hlt.
  destruct (decide (h = crc_hash crc)) as [->|Hne].
  - rewrite list_lookup_total_insert_eq by lia. rewrite elem_of_union, Hb by done. set_solver.
  - rewrite list_lookup_total_insert_ne by done. rewrite Hb by done. set_solver.
Qed.

Lemma DD_erase_spec c0 s w : NoDup (c0 :: w) → buckets_of s (c0 :: w) → buckets_of (DD_erase c0 s) w.
Proof.
  intros Hnd [Hl Hb]. apply NoDup_cons in Hnd as [Hnin _]. pose proof (crc_hash_bound c0) as Hh.
  split; [unfold DD_erase; by rewrite length_insert|]. intros h c Hlt. unfold DD_erase.
  destruct (decide (h = crc_hash c0)) as [->|Hne].
  - rewrite list_lookup_total_insert_eq by lia. rewrite elem_of_difference, Hb by done. set_solver.
  - rewrite list_lookup_total_insert_ne by done. rewrite Hb by done. set_solver.
Qed.

Lemma DD_expire_spec w s : NoDup w → buckets_of s w →
  m_seenPacketCRCExpiryQueue (DD_expire w s) = drop (length w - EXPIRY_QUEUE_LENGTH) w ∧
  buckets_of (m_seenPacketCRCs (DD_expire w s)) (drop (length w - EXPIRY_QUEUE_LENGTH) w).
Proof.
  revert s. induction w as [|c w IH]; intros s Hnd Hb; [done|]. cbn [DD_expire].
  destruct (Nat.ltb_spec EXPIRY_QUEUE_LENGTH (length (c :: w))) as [Hlt|Hge].
  - assert (length (c :: w) - EXPIRY_QUEUE_LENGTH = S (length w - EXPIRY_QUEUE_LENGTH))%nat as ->
      by (cbn [length] in *; unfold EXPIRY_QUEUE_LENGTH in *; lia).
    cbn [drop]. apply IH; [by inversion Hnd|by apply DD_erase_spec].
  - assert (length (c :: w) - EXPIRY_QUEUE_LENGTH = 0)%nat as -> by lia. done.
Qed.

Lemma isLikelyDuplicate_step src dst data d w : dd_rep d w →
  let '(dup, d') := isLikelyDuplicate src dst data d in
  let '(dup', w') := window_step (packet_crc src dst data) w in
  dup = dup' ∧ dd_rep d' w'.
Proof.
  intros (Hq & Hnd & Hlen & Hb). unfold isLikelyDuplicate, window_step.
  set (crc := packet_crc src dst data).
  destruct (DD_insert_spec crc _ w Hb) as (E & Hin & Hout). rewrite E.
  case_bool_decide as Hc.
  - split; [done|]. rewrite (Hin Hc). split_and!; [done..|apply Hb|apply Hb].
  - split; [done|]. rewrite Hq. specialize (Hout Hc).
    assert (NoDup (w ++ [crc])) as Hnd'.
    { apply NoDup_app. split; [done|]. split; [|apply NoDup_singleton]. set_solver. }
    destruct (DD_expire_spec (w ++ [crc]) _ Hnd' Hout) as [E1 E2].
    rewrite length_app, Nat.add_comm in E1, E2. simpl length in E1, E2.
    split; [done|]. split; [by apply (sublist_NoDup _ _ Hnd'), sublist_drop|]. split; [|exact E2].
    rewrite length_drop, length_app. simpl. unfold EXPIRY_QUEUE_LENGTH in *. lia.
Qed.

(** the verdicts on a sequence of packets, by the code and by the abstract filter *)
Lemma dd_rep_init : dd_rep DD_init [].
Proof. split; [done|]. split; [apply NoDup_nil_2|]. split; [simpl; lia|]. apply buckets_init. Qed.

Definition packet : Type := (Z * Z * bytes).
Fixpoint verdicts (ps : list packet) (d : DuplicateDetection) : list bool * DuplicateDetection :=
  match ps with
  | [] => ([], d)
  | (src, dst, data) :: ps =>
      let '(b, d) := isLikelyDuplicate src dst data d in
      let '(bs, d) := verdicts ps d in (b :: bs, d)
  end.
Fixpoint window_verdicts (ps : list packet) (w : list Z) : list bool * list Z :=
  match ps with
  | [] => ([], w)
  | (src, dst, data) :: ps =>
      let '(b, w) := window_step (packet_crc src dst data) w in
      let '(bs, w) := window_verdicts ps w in (b :: bs, w)
  end.

Lemma verdicts_sim ps d w : dd_rep d w →
  (verdicts ps d).1 = (window_verdicts ps w).1 ∧ dd_rep (verdicts ps d).2 (window_verdicts ps w).2.
Proof.
  revert d w. induction ps as [|[[src dst] data] ps IH]; intros d w Hr; [done|].
  cbn [verdicts window_verdicts]. pose proof (isLikelyDuplicate_step src dst data d w Hr) as H.
  destruct (isLikelyDuplicate src dst data d) as [b d'],
    (window_step (packet_crc src dst data) w) as [b' w'].
  destruct H as [<- Hr']. destruct (IH _ _ Hr') as [E1 E2].
  destruct (verdicts ps d') as [bs d''], (window_verdicts ps w') as [bs' w'']. simpl in *. by subst.
Qed.

(** C35: the duplicate filter, its 256 hash buckets and its expiry queue, refines a
    sliding window over the last 128 distinct CRCs: from the constructor on, after any
    history of packets, it gives the verdicts of the window, its queue is the window
    and its buckets hold exactly the CRCs of the window; so a packet is reported when
    and only when its CRC is among them. *)
Theorem isLikelyDuplicate_window (ps : list packet) (src dst : Z) (data : bytes) :
  let d := (verdicts ps DD_init).2 in
  let w := (window_verdicts ps []).2 in
  (verdicts ps DD_init).1 = (window_verdicts ps []).1 ∧
  dd_rep d w ∧
  ((isLikelyDuplicate src dst data d).1 = true ↔ packet_crc src dst data ∈ w).
Proof.
  intros d w. destruct (verdicts_sim ps _ _ dd_rep_init) as [E Hr]. fold d w in Hr. split; [done|]. split; [done|].
  pose proof (isLikelyDuplicate_step src dst data d w Hr) as H. unfold window_step in H.
  destruct (isLikelyDuplicate src dst data d) as [b d'].
  case_bool_decide; destruct H as [-> _]; simpl; naive_solver.
Qed.
