(* ===== verification/UnitDataRepo.v ===== *)
(** * The repository of unit data packets (UnitDataRepo.cpp)

    A [std::map] from (sub, id) to the packet: the latest packet of each key, except
    that a unit limit packet saying "in use" is not overwritten. *)
From S2P Require Import Prelude TPacketSplit TPacketRecords.

(** keys in the order of [std::pair] *)
Abbreviation SubAndId := (Z * Z)%type.
Definition key_le (a b : SubAndId * bytes) : Prop :=
  a.1.1 < b.1.1 ∨ a.1.1 = b.1.1 ∧ a.1.2 ≤ b.1.2.
#[export] Instance key_le_dec a b : Decision (key_le a b).
Proof. unfold key_le. apply _. Defined.

Abbreviation UnitDataRepo := (gmap SubAndId bytes).

(** the entries in the order the map iterates over them *)
Definition in_order (m : UnitDataRepo) : list (SubAndId * bytes) := merge_sort key_le (map_to_list m).

(** the private [add(pd, ud)] *)
Definition add_ud (pd : bytes) (ud : TUnitData) (m : UnitDataRepo) : res UnitDataRepo :=
  if bool_decide (ud_sub ud = 2 ∨ ud_sub ud = 3 ∨ ud_sub ud = 9) then
    match m !! (ud_sub ud, ud_id ud) with
    | Some bs =>
        if 3 =? ud_sub ud then
          oldUd ← TUnitData_parse bs;
          Ok (if negb (ud_status oldUd =? 257) then <[(ud_sub ud, ud_id ud) := pd]> m else m)
        else Ok (<[(ud_sub ud, ud_id ud) := pd]> m)
    | None => Ok (<[(ud_sub ud, ud_id ud) := pd]> m)
    end
  else if ud_sub ud =? 0 then Ok ∅
  else Ok m.

Definition add (packetData : bytes) (m : UnitDataRepo) : res UnitDataRepo :=
  match packetData with
  | [] => Ok m
  | b :: _ =>
      if negb (b =? code_byte UNIT_DATA_1A) then Ok m
      else
        size ← getExpectedSubPacketSize packetData;
        if negb (Z.of_nat (length packetData) =? size) then Ok m
        else ud ← TUnitData_parse packetData; add_ud packetData ud m
  end.

Fixpoint add_all (ps : list bytes) (m : UnitDataRepo) : res UnitDataRepo :=
  match ps with
  | [] => Ok m
  | p :: ps => m ← add p m; add_all ps m
  end.

Definition SY_UNIT_ID : Z := 2455016279. (* 0x92549357 *)

(** the body of the loop of [hash]: the calls to its callback [f] for one entry *)
Definition hash_entry (m : UnitDataRepo) (bs : bytes) : res (list Z) :=
  ud ← TUnitData_parse bs;
  match m !! (2, ud_id ud) with
  | Some bs02 =>
      if (3 =? ud_sub ud) && (257 =? ud_status ud) && negb (SY_UNIT_ID =? ud_id ud)
      then ud02 ← TUnitData_parse bs02; Ok [u32 (ud_id ud02 + ud_crc ud02)]
      else Ok []
  | None => Ok []
  end.
Fixpoint hash_loop (es : list (SubAndId * bytes)) (m : UnitDataRepo) : res (list Z) :=
  match es with
  | [] => Ok []
  | (_, bs) :: es => calls ← hash_entry m bs; rest ← hash_loop es m; Ok (calls ++ rest)
  end.
Definition hash (m : UnitDataRepo) : res (list Z) := hash_loop (in_order m) m.

(** ** Every packet of the map is a unit data packet filed under its own key *)

Definition filed (k : SubAndId) (bs : bytes) : Prop :=
  are_bytes bs ∧ length bs = 14%nat ∧ ∃ ud, TUnitData_parse bs = Ok ud ∧ k = (ud_sub ud, ud_id ud) ∧
    (ud_sub ud = 2 ∨ ud_sub ud = 3 ∨ ud_sub ud = 9).
Definition repo_ok (m : UnitDataRepo) : Prop := map_Forall filed m.

Lemma TUnitData_parse_14 bs : are_bytes bs → length bs = 14%nat → is_ok (TUnitData_parse bs).
Proof.
  intros Hb Hl. unfold TUnitData_parse.
  destruct (rd8_ok bs 0 ltac:(lia)) as [b0 ->], (rd8_ok bs 1 ltac:(lia)) as [b1 ->].
  destruct (toUint32_slice bs 2 Hb ltac:(lia)) as (x2 & -> & _).
  destruct (toUint32_slice bs 6 Hb ltac:(lia)) as (x6 & -> & _).
  destruct (toUint16_slice bs 10 Hb ltac:(lia)) as (x10 & -> & _).
  destruct (toUint16_slice bs 12 Hb ltac:(lia)) as (x12 & -> & _).
  destruct (toUint32_slice bs 10 Hb ltac:(lia)) as (y10 & -> & _).
  rewrite !res_bind_ok. destruct (b1 =? 3); cbn; by eexists.
Qed.

(** what [add] does to a packet that is not ignored *)
Lemma add_cases pd m : are_bytes pd →
  add pd m = Ok m ∨
  ∃ ud, length pd = 14%nat ∧ TUnitData_parse pd = Ok ud ∧ add pd m = add_ud pd ud m.
Proof.
  intros Hb. destruct pd as [|b pd]; [by left|]. unfold add.
  destruct (Z.eqb_spec b (code_byte UNIT_DATA_1A)) as [->|]; [|by left]. cbn [negb].
  change (getExpectedSubPacketSize (code_byte UNIT_DATA_1A :: pd)) with (Ok 14). rewrite res_bind_ok.
  destruct (negb (_ =? 14)) eqn:E; [by left|]. apply negb_false_iff, Z.eqb_eq in E.
  right. assert (length (code_byte UNIT_DATA_1A :: pd) = 14%nat) as Hl by lia.
  destruct (TUnitData_parse_14 _ Hb Hl) as [ud Hud]. exists ud. split; [done|]. split; [done|].
  by rewrite Hud.
Qed.

Lemma add_ud_ok pd ud m : are_bytes pd → length pd = 14%nat → TUnitData_parse pd = Ok ud → repo_ok m →
  ∃ m', add_ud pd ud m = Ok m' ∧ repo_ok m'.
Proof.
  intros Hb Hl Hud Hm. unfold add_ud. case_bool_decide as Hsub.
  - assert (repo_ok (<[(ud_sub ud, ud_id ud):=pd]> m)) as Hins.
    { apply map_Forall_insert_2; [|done]. split; [done|]. split; [done|]. eauto. }
    destruct (m !! (ud_sub ud, ud_id ud)) as [bs|] eqn:E; [|by eauto].
    destruct (3 =? ud_sub ud); [|by eauto].
    apply Hm in E as (_ & _ & old & -> & _). rewrite res_bind_ok. case_match; eauto.
  - case_match; eexists; (split; [done|]); [apply map_Forall_empty|done].
Qed.

Lemma add_ok pd m : are_bytes pd → repo_ok m → ∃ m', add pd m = Ok m' ∧ repo_ok m'.
Proof.
  intros Hb Hm. destruct (add_cases pd m Hb) as [->|(ud & Hl & Hud & ->)]; [by eauto|].
  by apply add_ud_ok.
Qed.

Lemma add_all_ok ps m : Forall are_bytes ps → repo_ok m → ∃ m', add_all ps m = Ok m' ∧ repo_ok m'.
Proof.
  intros Hps. revert m. induction Hps as [|p ps Hp Hps IH]; intros m Hm; [by exists m|].
  cbn [add_all]. destruct (add_ok p m Hp Hm) as (m1 & -> & Hm1). rewrite res_bind_ok. by apply IH.
Qed.

(** the value [hash] reports for the unit [id], if it reports one *)
Definition unit_hash (m : UnitDataRepo) (id : Z) (v : Z) : Prop :=
  id ≠ SY_UNIT_ID ∧
  ∃ bs3 ud3 bs2 ud2, m !! (3, id) = Some bs3 ∧ TUnitData_parse bs3 = Ok ud3 ∧ ud_status ud3 = 257 ∧
    m !! (2, id) = Some bs2 ∧ TUnitData_parse bs2 = Ok ud2 ∧ v = u32 (id + ud_crc ud2).

Lemma hash_entry_spec m k bs : repo_ok m → m !! k = Some bs →
  ∃ calls, hash_entry m bs = Ok calls ∧ ∀ v, v ∈ calls ↔ k.1 = 3 ∧ unit_hash m k.2 v.
Proof.
  intros Hm Hk. destruct (Hm _ _ Hk) as (_ & _ & ud & Hud & -> & _).
  unfold hash_entry. rewrite Hud, res_bind_ok. cbn [fst snd].
  assert (∀ v, unit_hash m (ud_id ud) v → ud_sub ud = 3 → is_Some (m !! (2, ud_id ud)) ∧
    257 = ud_status ud ∧ SY_UNIT_ID ≠ ud_id ud) as Hno.
  { intros v (Hsy & bs3 & ud3 & bs2 & ud2 & A & B & C & D & _) Hs. rewrite <- Hs, Hk in A.
    injection A as <-. rewrite Hud in B. injection B as <-. by eauto. }
  destruct (m !! (2, ud_id ud)) as [bs2|] eqn:E2.
  - destruct (Hm _ _ E2) as (_ & _ & ud2 & Hud2 & [= _ Hid] & _). rewrite Hud2, res_bind_ok.
    destruct (_ && _) eqn:Ec; eexists; (split; [done|]); intros v;
      rewrite ?list_elem_of_singleton, ?elem_of_nil.
    + apply andb_true_iff in Ec as [[H3%Z.eqb_eq H257%Z.eqb_eq]%andb_true_iff Hsy%negb_true_iff%Z.eqb_neq].
      split.
      * intros ->. split; [done|]. split; [done|]. rewrite Hid. rewrite H3, Hid in *. by eauto 12.
      * intros (_ & _ & bs3 & ud3 & bs2' & ud2' & _ & _ & _ & D & E & ->). rewrite E2 in D.
        injection D as <-. rewrite Hud2 in E. injection E as <-. by rewrite Hid.
    + split; [done|]. intros [H3 Hv]. destruct (Hno v Hv H3) as (_ & H257 & Hsy).
      rewrite <- H3, <- H257 in Ec. rewrite !Z.eqb_refl in Ec. cbn [andb] in Ec.
      apply negb_false_iff, Z.eqb_eq in Ec. congruence.
  - eexists. split; [done|]. intros v. rewrite elem_of_nil. split; [done|].
    intros [H3 Hv]. destruct (Hno v Hv H3) as ([? ?] & _). congruence.
Qed.

Lemma hash_loop_spec es m : repo_ok m → Forall (λ e, m !! e.1 = Some e.2) es →
  ∃ l, hash_loop es m = Ok l ∧ ∀ v, v ∈ l ↔ ∃ e, e ∈ es ∧ e.1.1 = 3 ∧ unit_hash m e.1.2 v.
Proof.
  intros Hm Hes. induction Hes as [|[k bs] es Hk Hes (l & El & Hl)].
  { exists []. split; [done|]. intros v. rewrite elem_of_nil. split; [done|].
    intros (? & ?%elem_of_nil & _). done. }
  cbn [hash_loop]. simpl in Hk. destruct (hash_entry_spec m k bs Hm Hk) as (calls & -> & Hc).
  rewrite El, !res_bind_ok. eexists. split; [done|]. intros v. rewrite elem_of_app, Hc, Hl.
  setoid_rewrite elem_of_cons. naive_solver.
Qed.

Lemma in_order_perm m : in_order m ≡ₚ map_to_list m.
Proof. apply merge_sort_Permutation. Qed.

(** what the packets leave can be hashed *)
Lemma hash_ok m : repo_ok m → ∃ l, hash m = Ok l ∧ ∀ v, v ∈ l ↔ ∃ e, e ∈ in_order m ∧ e.1.1 = 3 ∧ unit_hash m e.1.2 v.
Proof.
  intros Hm. apply hash_loop_spec; [done|]. apply Forall_forall. intros [k bs] Hin. rewrite in_order_perm in Hin.
  by apply elem_of_map_to_list in Hin.
Qed.
Lemma UnitDataRepo_kept ps m : Forall are_bytes ps → add_all ps ∅ = Ok m → repo_ok m ∧ ∃ l, hash m = Ok l.
Proof.
  intros Hps H. destruct (add_all_ok ps ∅ Hps (map_Forall_empty _)) as (m' & E & Hm). rewrite H in E. apply Ok_inj in E as <-.
  split; [done|]. destruct (hash_ok m Hm) as (l & E & _). by exists l.
Qed.

(** from the empty repository, any sequence of packets, well formed or not, is
    absorbed without a failure; every packet kept is a 14 byte unit data packet filed
    under its own (sub, id), and [hash] reports exactly the values id + crc of the
    units that are in use, have a crc packet and are not the excluded unit. *)
Theorem UnitDataRepo_hash (ps : list bytes) :
  Forall are_bytes ps →
  ∃ m l, add_all ps ∅ = Ok m ∧ repo_ok m ∧ hash m = Ok l ∧ ∀ v, v ∈ l ↔ ∃ id, unit_hash m id v.
Proof.
  intros Hps. destruct (add_all_ok ps ∅ Hps (map_Forall_empty _)) as (m & -> & Hm).
  destruct (hash_ok m Hm) as (l & Hl & Hv).
  exists m, l. split; [done|]. split; [done|]. split; [done|]. intros v. rewrite Hv. split.
  - intros (e & _ & _ & H). by eauto.
  - intros (id & H). pose proof H as (_ & bs3 & ud3 & bs2 & ud2 & H3 & _).
    exists ((3, id), bs3). rewrite in_order_perm. split; [by apply elem_of_map_to_list|auto].
Qed.

Definition unit_packet (sub id u : Z) : bytes := TUnitData_asSubPacket (mkTUnitData 26 sub 0 id u).

Lemma UnitDataRepo_hash_witness :
  ∃ m l, add_all [unit_packet 2 7 100; unit_packet 3 7 (257 + 65536); unit_packet 3 8 1] ∅ = Ok m ∧
    repo_ok m ∧ hash m = Ok l ∧ (∀ v, v ∈ l ↔ ∃ id, unit_hash m id v).
Proof.
  assert (Forall are_bytes [unit_packet 2 7 100; unit_packet 3 7 (257 + 65536); unit_packet 3 8 1]) as H.
  { do 3 (apply Forall_cons; split; [bytes_compute|]). by apply Forall_nil. }
  apply (UnitDataRepo_hash _ H).
Defined.

Example hash_ex : (add_all [unit_packet 2 7 100; unit_packet 3 7 (257 + 65536); unit_packet 3 8 1] ∅
  ≫= hash) = Ok [107].
Proof. vm_compute. reflexivity. Qed.

(** a packet that is filed, and its record *)
Definition files (p : bytes) (ud : TUnitData) : Prop :=
  are_bytes p ∧ length p = 14%nat ∧ p !! 0%nat = Some (code_byte UNIT_DATA_1A) ∧
  TUnitData_parse p = Ok ud ∧ (ud_sub ud = 2 ∨ ud_sub ud = 3 ∨ ud_sub ud = 9).

(** whether the packet stored under the key stays *)
Definition stays (m : UnitDataRepo) (ud : TUnitData) : bool :=
  match m !! (ud_sub ud, ud_id ud) with
  | Some bs => (3 =? ud_sub ud) &&
      match TUnitData_parse bs with Ok old => ud_status old =? 257 | _ => false end
  | None => false
  end.

Lemma add_files p ud m : files p ud → repo_ok m →
  add p m = Ok (if stays m ud then m else <[(ud_sub ud, ud_id ud) := p]> m).
Proof.
  intros (Hb & Hl & H0 & Hud & Hsub) Hm.
  assert (add p m = add_ud p ud m) as ->.
  { destruct p as [|b p]; [done|]. injection H0 as ->. unfold add. rewrite Z.eqb_refl. cbn [negb].
    change (getExpectedSubPacketSize (26 :: p)) with (Ok 14).
    rewrite res_bind_ok, Hl, Hud. done. }
  unfold add_ud, stays. rewrite bool_decide_true by done.
  destruct (m !! (ud_sub ud, ud_id ud)) as [bs|] eqn:E; [|done].
  apply Hm in E as (_ & _ & old & Hold & _). rewrite Hold.
  destruct (3 =? ud_sub ud); [|done]. rewrite res_bind_ok. by destruct (ud_status old =? 257).
Qed.

(** the order in which unit data packets arrive does not matter: two packets with
    different keys commute; and an "in use" unit limit packet and one that is not in
    use, of the same unit, leave the same repository whichever comes first. *)
Theorem UnitDataRepo_commute (m : UnitDataRepo) (p1 p2 : bytes) (ud1 ud2 : TUnitData) :
  repo_ok m → files p1 ud1 → files p2 ud2 →
  ((ud_sub ud1, ud_id ud1) ≠ (ud_sub ud2, ud_id ud2) ∨
   (ud_sub ud1, ud_id ud1) = (ud_sub ud2, ud_id ud2) ∧ ud_sub ud1 = 3 ∧ ud_status ud1 = 257 ∧
     ud_status ud2 ≠ 257) →
  add_all [p1; p2] m = add_all [p2; p1] m.
Proof.
  intros Hm H1 H2 Hcase. cbn [add_all].
  assert (∀ p ud, files p ud → repo_ok (if stays m ud then m else <[(ud_sub ud, ud_id ud) := p]> m)) as Hok.
  { intros p ud (? & ? & _ & ? & ?). case_match; [done|]. apply map_Forall_insert_2; [|done].
    split; [done|]. split; [done|]. by eauto. }
  rewrite (add_files p1 ud1 m), (add_files p2 ud2 m), !res_bind_ok by done.
  rewrite (add_files p2 ud2), (add_files p1 ud1), !res_bind_ok by auto. f_equal.
  destruct Hcase as [Hne|(Heq & H3 & Hin & Hout)].
  - assert (∀ ud ud' p, (ud_sub ud, ud_id ud) ≠ (ud_sub ud', ud_id ud') →
      stays (if stays m ud then m else <[(ud_sub ud, ud_id ud) := p]> m) ud' = stays m ud') as Hs.
    { intros ud ud' p Hn. destruct (stays m ud); [done|]. unfold stays. by rewrite lookup_insert_ne. }
    rewrite !Hs by done. destruct (stays m ud1), (stays m ud2); try done. by apply insert_insert_ne.
  - destruct H1 as (_ & _ & _ & Hp1 & _), H2 as (_ & _ & _ & Hp2 & _).
    assert (stays m ud2 = stays m ud1) as E by (unfold stays; injection Heq as -> ->; done).
    rewrite E. destruct (stays m ud1) eqn:Es1; rewrite ?E, ?Es1; [done|].
    assert (ud_sub ud2 = 3) as H3' by congruence.
    unfold stays. rewrite <- Heq, !lookup_insert_eq, Hp1, Hp2, Hin. rewrite Heq, H3, H3'.
    rewrite (proj2 (Z.eqb_neq _ _) Hout). simpl. by rewrite insert_insert_eq.
Qed.

Lemma UnitDataRepo_commute_witness :
  add_all [unit_packet 3 7 257; unit_packet 3 7 1] ∅ = add_all [unit_packet 3 7 1; unit_packet 3 7 257] ∅.
Proof.
  assert (files (unit_packet 3 7 257) (mkTUnitData 26 3 0 7 257)) as H1.
  { split; [bytes_compute|]. split; [done|]. split; [done|]. split; [done|]. simpl. lia. }
  assert (files (unit_packet 3 7 1) (mkTUnitData 26 3 0 7 1)) as H2.
  { split; [bytes_compute|]. split; [done|]. split; [done|]. split; [done|]. simpl. lia. }
  apply (UnitDataRepo_commute ∅ _ _ _ _ (map_Forall_empty _) H1 H2).
  right. split; [done|]. split; [done|]. split; done.
Defined.
