(* ===== verification/DPlayPacket.v ===== *)
(** * DirectPlay packets (DPlayPacket.cpp, DPlayPacket.h)

    Wide strings, network byte order, [DPAddress], [DPHeader], [DPEnumReq], and the
    places of their fields in a packet buffer. *)
From stdpp Require Import pretty.
From S2P Require Import Prelude.

(** ** Wide strings *)

(** [while ( *p++ != 0); return p;] *)
Fixpoint skipCWStr_loop (fuel : nat) (buf : bytes) (p : nat) : res nat :=
  match fuel with
  | O => Hang
  | S fuel => w ← rd16 buf p; if w =? 0 then Ok (p + 2)%nat else skipCWStr_loop fuel buf (p + 2)
  end.
Definition skipCWStr (buf : bytes) (p : nat) : res nat := skipCWStr_loop (S (length buf)) buf p.

(** the low bytes of the characters up to the terminator *)
Fixpoint getCWStr_loop (fuel : nat) (buf : bytes) (p : nat) : res bytes :=
  match fuel with
  | O => Hang
  | S fuel =>
      w ← rd16 buf p;
      if w =? 0 then Ok [] else (s ← getCWStr_loop fuel buf (p + 2); Ok (Z.land w 255 :: s))
  end.
Definition getCWStr (buf : bytes) (p : nat) : res bytes := getCWStr_loop (S (length buf)) buf p.

(** ** Byte order *)
Definition NetworkByteOrder16 (x : Z) : Z := u16 (Z.lor (Z.shiftr x 8) (Z.shiftl x 8)).
Definition NetworkByteOrder32 (x : Z) : Z :=
  Z.lor (Z.lor (Z.lor (u32 (Z.shiftl x 24)) (u32 (Z.shiftl (Z.land x 65280) 8)))
           (Z.shiftr (Z.land x 16711680) 8)) (Z.shiftr (Z.land x 4278190080) 24).

(** ** DPAddress: 16 bytes *)
Record DPAddress := mkDPAddress {
  dp_family : Z;
  dp_port : Z;      (* _port, in network byte order *)
  dp_ipv4 : Z;      (* _ipv4, in network byte order *)
  dp_pad : bytes }.
#[export] Instance DPAddress_eq_dec : EqDecision DPAddress.
Proof. solve_decision. Defined.
Definition sizeof_DPAddress : nat := 16.

Definition get_port (a : DPAddress) : Z := NetworkByteOrder16 (dp_port a).
Definition set_port (port : Z) (a : DPAddress) : DPAddress :=
  mkDPAddress (dp_family a) (NetworkByteOrder16 port) (dp_ipv4 a) (dp_pad a).
Definition get_address (a : DPAddress) : Z := NetworkByteOrder32 (dp_ipv4 a).
Definition set_address (addr : Z) (a : DPAddress) : DPAddress :=
  mkDPAddress (dp_family a) (dp_port a) (NetworkByteOrder32 addr) (dp_pad a).
Definition DPAddress_make (addr prt : Z) : DPAddress :=
  set_port prt (set_address addr (mkDPAddress 2 0 0 (replicate 8 0))).
Definition debugString (a : DPAddress) : string :=
  let b i := pretty (Z.to_N (u8 (Z.shiftr (dp_ipv4 a) (8 * i)))) in
  (b 0 +:+ "." +:+ b 1 +:+ "." +:+ b 2 +:+ "." +:+ b 3 +:+ ":" +:+ pretty (Z.to_N (get_port a)))%string.

(** the address as it lies in a packet *)
Definition DPAddress_bytes (a : DPAddress) : bytes :=
  le2 (dp_family a) ++ le2 (dp_port a) ++ le4 (dp_ipv4 a) ++ dp_pad a.
Definition DPAddress_at (buf : bytes) (p : nat) : res DPAddress :=
  f ← rd16 buf p; pt ← rd16 buf (p + 2); ip ← rd32 buf (p + 4); pad ← rd_n buf (p + 8) 8;
  Ok (mkDPAddress f pt ip pad).
(** a store through a pointer into the packet *)
Definition store (buf : bytes) (p : nat) (new : bytes) : res bytes :=
  if (p + length new <=? length buf)%nat then Ok (wr buf p new) else Undef.

(** ** DPHeader: 28 bytes *)
Record DPHeader := mkDPHeader {
  h_size_and_token : Z;
  h_address : DPAddress;
  h_actionstring : bytes;   (* 4 *)
  h_command : Z;
  h_dialect : Z }.
Definition sizeof_DPHeader : nat := 28.

Definition DPHeader_make (replyAddress replyPort : Z) (actionstring : bytes) (command dialect payloadSize : Z)
    : DPHeader :=
  mkDPHeader (Z.lor 4205838336 (Z.land (payloadSize + 28) 1048575)) (* 0xfab00000, 0xfffff *)
    (DPAddress_make replyAddress replyPort) (take 4 actionstring) (u16 command) dialect.

Definition size_of (size_and_token : Z) : Z := Z.land size_and_token 1048575.
Definition token_of (size_and_token : Z) : Z := Z.shiftr size_and_token 20.
Definition h_size (h : DPHeader) : Z := size_of (h_size_and_token h).
Definition h_token (h : DPHeader) : Z := token_of (h_size_and_token h).
Definition looksOk_fields (family size_and_token : Z) : bool :=
  (family =? 2) &&
  ((token_of size_and_token =? 4011) || (token_of size_and_token =? 3243) || (token_of size_and_token =? 2987)) &&
  (28 <=? size_of size_and_token).
Definition looksOk (h : DPHeader) : bool := looksOk_fields (dp_family (h_address h)) (h_size_and_token h).

Definition DPHeader_bytes (h : DPHeader) : bytes :=
  le4 (h_size_and_token h) ++ DPAddress_bytes (h_address h) ++ h_actionstring h ++ le2 (h_command h)
  ++ le2 (h_dialect h).

(** [hdr->size()], [hdr->looksOk()] and the other fields, for a header that lies at [p] *)
Definition size_at (buf : bytes) (p : nat) : res Z := st ← rd32 buf p; Ok (size_of st).
Definition looksOk_at (buf : bytes) (p : nat) : res bool :=
  family ← rd16 buf (p + 4);
  if negb (family =? 2) then Ok false
  else (st ← rd32 buf p; Ok (looksOk_fields family st)).
Definition address_ofs : nat := 4.
Definition actionstring_ofs : nat := 20.
Definition command_at (buf : bytes) (p : nat) : res Z := rd16 buf (p + 24).

(** ** DPEnumReq *)
Record DPEnumReq := mkDPEnumReq { er_guid : bytes; er_passwordOffset : Z; er_flags : Z; er_password : Z }.
Definition DPEnumReq_make (guid : bytes) : DPEnumReq := mkDPEnumReq (take 16 guid) 32 16 0.

(** ** Byte order is an involution *)

Lemma NetworkByteOrder16_swap x : is_u16 x → NetworkByteOrder16 x = (x mod 256) * 256 + x / 256.
Proof.
  unfold is_u16, NetworkByteOrder16, u16. intros Hx.
  rewrite Z.shiftr_div_pow2, lor_add_shift by (change (2 ^ 8) with 256; Z.div_mod_to_equations; lia).
  change (2 ^ 8) with 256. Z.div_mod_to_equations. lia.
Qed.

Lemma NetworkByteOrder16_involutive x : is_u16 x → NetworkByteOrder16 (NetworkByteOrder16 x) = x.
Proof.
  intros Hx. rewrite (NetworkByteOrder16_swap x) by done. unfold is_u16 in Hx.
  rewrite NetworkByteOrder16_swap by (unfold is_u16; Z.div_mod_to_equations; lia).
  Z.div_mod_to_equations. lia.
Qed.

Lemma NetworkByteOrder16_bound x : is_u16 (NetworkByteOrder16 x).
Proof. apply u16_bound. Qed.

Lemma land_field x k m : 0 ≤ k → 0 ≤ m → Z.land x (Z.shiftl (Z.ones m) k) = Z.shiftl (x / 2 ^ k mod 2 ^ m) k.
Proof.
  intros Hk Hm. rewrite <- Z.shiftr_div_pow2, <- Z.land_ones by lia. apply Z.bits_inj'. intros i Hi.
  rewrite Z.land_spec. destruct (decide (i < k)).
  - by rewrite !Z.shiftl_spec_low, andb_false_r by lia.
  - rewrite !Z.shiftl_spec, Z.land_spec, Z.shiftr_spec by lia. f_equal. f_equal. lia.
Qed.

Lemma NetworkByteOrder32_swap x : is_u32 x →
  NetworkByteOrder32 x
  = (x mod 256) * 16777216 + (x / 256 mod 256) * 65536 + (x / 65536 mod 256) * 256 + x / 16777216.
Proof.
  unfold is_u32, NetworkByteOrder32. intros Hx.
  change 65280 with (Z.shiftl (Z.ones 8) 8). change 16711680 with (Z.shiftl (Z.ones 8) 16).
  change 4278190080 with (Z.shiftl (Z.ones 8) 24). rewrite !land_field by lia.
  rewrite Z.shiftl_shiftl, !Z.shiftr_shiftl_l by lia.
  change (8 + 8) with 16. change (16 - 8) with 8. change (24 - 24) with 0. rewrite Z.shiftl_0_r.
  change (2 ^ 8) with 256. change (2 ^ 16) with 65536. change (2 ^ 24) with 16777216.
  set (b0 := x mod 256). set (b1 := x / 256 mod 256). set (b2 := x / 65536 mod 256).
  assert (x / 16777216 mod 256 = x / 16777216) as -> by (Z.div_mod_to_equations; lia).
  set (b3 := x / 16777216).
  assert (u32 (Z.shiftl x 24) = Z.shiftl b0 24) as ->.
  { unfold u32, b0. rewrite !Z.shiftl_mul_pow2 by lia. change (2 ^ 24) with 16777216.
    change 4294967296 with (256 * 16777216). rewrite Z.mul_mod_distr_r by lia. done. }
  assert (0 ≤ b0 < 256 ∧ 0 ≤ b1 < 256 ∧ 0 ≤ b2 < 256 ∧ 0 ≤ b3 < 256) as (?&?&?&?)
    by (unfold b0, b1, b2, b3; Z.div_mod_to_equations; lia).
  rewrite (u32_id (Z.shiftl b1 16)) by (rewrite Z.shiftl_mul_pow2 by lia; unfold is_u32; lia).
  assert (Z.lor (Z.shiftl b0 24) (Z.shiftl b1 16) = Z.shiftl (b1 + 256 * b0) 16) as ->.
  { change 24 with (8 + 16). rewrite <- Z.shiftl_shiftl, <- Z.shiftl_lor by lia. f_equal.
    rewrite Z.lor_comm, lor_add_shift by lia. lia. }
  assert (Z.lor (Z.shiftl (b1 + 256 * b0) 16) (Z.shiftl b2 8) = Z.shiftl (b2 + 256 * (b1 + 256 * b0)) 8) as ->.
  { change 16 with (8 + 8). rewrite <- Z.shiftl_shiftl, <- Z.shiftl_lor by lia. f_equal.
    rewrite Z.lor_comm, lor_add_shift by lia. lia. }
  rewrite Z.lor_comm, lor_add_shift by lia. lia.
Qed.

Lemma NetworkByteOrder32_bound x : is_u32 x → is_u32 (NetworkByteOrder32 x).
Proof. intros Hx. rewrite NetworkByteOrder32_swap by done. unfold is_u32 in *. Z.div_mod_to_equations. lia. Qed.

Lemma NetworkByteOrder32_involutive x : is_u32 x → NetworkByteOrder32 (NetworkByteOrder32 x) = x.
Proof.
  intros Hx. pose proof (NetworkByteOrder32_bound x Hx) as Hb.
  rewrite (NetworkByteOrder32_swap (NetworkByteOrder32 x)) by done.
  rewrite (NetworkByteOrder32_swap x) by done. unfold is_u32 in Hx.
  set (b0 := x mod 256). set (b1 := x / 256 mod 256). set (b2 := x / 65536 mod 256).
  set (b3 := x / 16777216).
  assert (x = b3 * 16777216 + b2 * 65536 + b1 * 256 + b0 ∧ 0 ≤ b0 < 256 ∧ 0 ≤ b1 < 256 ∧ 0 ≤ b2 < 256 ∧
    0 ≤ b3 < 256) as (Ex&?&?&?&?) by (unfold b0, b1, b2, b3; Z.div_mod_to_equations; lia).
  rewrite Ex at 1. clear Ex. clearbody b0 b1 b2 b3. clear x Hx Hb. Z.div_mod_to_equations. lia.
Qed.

(** ** Addresses and headers in a packet *)

Definition DPAddress_wf (a : DPAddress) : Prop :=
  is_u16 (dp_family a) ∧ is_u16 (dp_port a) ∧ is_u32 (dp_ipv4 a) ∧ length (dp_pad a) = 8%nat.

Lemma length_DPAddress_bytes a : DPAddress_wf a → length (DPAddress_bytes a) = sizeof_DPAddress.
Proof. intros (_ & _ & _ & H). unfold DPAddress_bytes. rewrite !length_app, H. done. Qed.

Lemma store_middle pre old new post : length old = length new →
  store (pre ++ old ++ post) (length pre) new = Ok (pre ++ new ++ post).
Proof.
  intros H. unfold store. rewrite !length_app, (proj2 (Nat.leb_le _ _)) by lia. f_equal. unfold wr.
  rewrite take_app_length, <- H. rewrite <- length_app, (app_assoc pre old post), drop_app_length. done.
Qed.

Lemma DPAddress_at_app pre a post : DPAddress_wf a →
  DPAddress_at (pre ++ DPAddress_bytes a ++ post) (length pre) = Ok a.
Proof.
  intros (Hf & Hp & Hi & Hl). unfold DPAddress_at, DPAddress_bytes. rewrite <- !app_assoc.
  rewrite rd16_le2, res_bind_ok by done.
  assert (∀ x, pre ++ le2 (dp_family a) ++ x = (pre ++ le2 (dp_family a)) ++ x) as -> by (intros; by rewrite app_assoc).
  replace (length pre + 2)%nat with (length (pre ++ le2 (dp_family a))) by (rewrite length_app; done).
  rewrite rd16_le2, res_bind_ok by done.
  set (p2 := pre ++ le2 (dp_family a)).
  assert (∀ x, p2 ++ le2 (dp_port a) ++ x = (p2 ++ le2 (dp_port a)) ++ x) as -> by (intros; by rewrite app_assoc).
  replace (length pre + 4)%nat with (length (p2 ++ le2 (dp_port a))) by (unfold p2; rewrite !length_app; simpl; lia).
  rewrite rd32_le4, res_bind_ok by done.
  set (p4 := p2 ++ le2 (dp_port a)).
  assert (∀ x, p4 ++ le4 (dp_ipv4 a) ++ x = (p4 ++ le4 (dp_ipv4 a)) ++ x) as -> by (intros; by rewrite app_assoc).
  replace (length pre + 8)%nat with (length (p4 ++ le4 (dp_ipv4 a)))
    by (unfold p4, p2; rewrite !length_app; simpl; lia).
  rewrite <- Hl, rd_n_app, res_bind_ok. by destruct a.
Qed.

Definition DPHeader_wf (h : DPHeader) : Prop :=
  is_u32 (h_size_and_token h) ∧ DPAddress_wf (h_address h) ∧ length (h_actionstring h) = 4%nat ∧
  is_u16 (h_command h) ∧ is_u16 (h_dialect h).

Lemma length_DPHeader_bytes h : DPHeader_wf h → length (DPHeader_bytes h) = sizeof_DPHeader.
Proof.
  intros (_ & Ha & Hs & _). unfold DPHeader_bytes.
  by rewrite !length_app, length_DPAddress_bytes, Hs by done.
Qed.

Lemma rd32_zero x post : is_u32 x → rd32 (le4 x ++ post) 0 = Ok x.
Proof. apply (rd32_le4 [] x post). Qed.
Lemma rd16_at pre x post n : is_u16 x → n = length pre → rd16 (pre ++ le2 x ++ post) n = Ok x.
Proof. intros ? ->. by apply rd16_le2. Qed.

(** the fields of a header that starts the buffer *)
Lemma header_fields h post : DPHeader_wf h →
  rd32 (DPHeader_bytes h ++ post) 0 = Ok (h_size_and_token h) ∧
  rd16 (DPHeader_bytes h ++ post) 4 = Ok (dp_family (h_address h)) ∧
  rd16 (DPHeader_bytes h ++ post) 24 = Ok (h_command h).
Proof.
  intros (Hs & Ha & Hl & Hc & Hd). unfold DPHeader_bytes. rewrite <- !app_assoc. split_and!.
  - by apply rd32_zero.
  - unfold DPAddress_bytes. rewrite <- !app_assoc. apply rd16_at; [apply Ha|done].
  - rewrite (app_assoc (le4 _)), (app_assoc (_ ++ DPAddress_bytes _)). apply rd16_at; [done|].
    by rewrite !length_app, length_DPAddress_bytes, Hl.
Qed.

Lemma header_reads pre h post : DPHeader_wf h →
  size_at (pre ++ DPHeader_bytes h ++ post) (length pre) = Ok (h_size h) ∧
  looksOk_at (pre ++ DPHeader_bytes h ++ post) (length pre) = Ok (looksOk h) ∧
  command_at (pre ++ DPHeader_bytes h ++ post) (length pre) = Ok (h_command h).
Proof.
  intros Hh. destruct (header_fields h post Hh) as (H1 & H2 & H3).
  unfold size_at, looksOk_at, command_at. rewrite <- (Nat.add_0_r (length pre)) at 1.
  rewrite !rd16_app_r, rd32_app_r, H1, H2, H3. split; [done|]. split; [|done].
  rewrite res_bind_ok. unfold looksOk, looksOk_fields.
  destruct (Z.eqb_spec (dp_family (h_address h)) 2) as [_|_]; [|done]. cbn [negb].
  rewrite <- (Nat.add_0_r (length pre)), rd32_app_r, H1. done.
Qed.

Lemma header_reads0 h post : DPHeader_wf h →
  size_at (DPHeader_bytes h ++ post) 0 = Ok (h_size h) ∧
  looksOk_at (DPHeader_bytes h ++ post) 0 = Ok (looksOk h) ∧
  command_at (DPHeader_bytes h ++ post) 0 = Ok (h_command h).
Proof. apply (header_reads []). Qed.

Lemma size_and_token_fields n : 0 ≤ n < 1048576 →
  size_of (Z.lor 4205838336 n) = n ∧ token_of (Z.lor 4205838336 n) = 4011 ∧ is_u32 (Z.lor 4205838336 n).
Proof.
  intros Hn. assert (Z.lor 4205838336 n = n + 4011 * 2 ^ 20) as ->.
  { rewrite Z.lor_comm. change 4205838336 with (Z.shiftl 4011 20). apply lor_add_shift; lia. }
  unfold size_of, token_of, is_u32. change 1048575 with (Z.ones 20).
  rewrite Z.land_ones, Z.shiftr_div_pow2 by lia. change (2 ^ 20) with 1048576.
  split_and!; Z.div_mod_to_equations; lia.
Qed.

Lemma DPAddress_make_wf addr prt : is_u32 addr → DPAddress_wf (DPAddress_make addr prt).
Proof.
  intros. split_and!; [done|apply NetworkByteOrder16_bound|by apply NetworkByteOrder32_bound|done].
Qed.

(** a header made for a payload that fits in the 20 bit size field is accepted by
    [looksOk] where it lies in a packet, announces the payload and itself, carries its
    command, and its address and port, stored in network byte order, read back. *)
Theorem DPHeader_make_reads_back (addr prt command dialect payloadSize : Z) (action pre post : bytes) :
  is_u32 addr → is_u16 prt → is_u16 command → is_u16 dialect → (4 ≤ length action)%nat →
  0 ≤ payloadSize < 1048548 →
  let h := DPHeader_make addr prt action command dialect payloadSize in
  let buf := pre ++ DPHeader_bytes h ++ post in
  length (DPHeader_bytes h) = sizeof_DPHeader ∧
  size_at buf (length pre) = Ok (payloadSize + 28) ∧ looksOk_at buf (length pre) = Ok true ∧
  command_at buf (length pre) = Ok command ∧
  ∃ a, DPAddress_at buf (length pre + address_ofs) = Ok a ∧ get_address a = addr ∧ get_port a = prt.
Proof.
  intros Ha Hp Hc Hd Hl Hs h buf.
  assert (Z.land (payloadSize + 28) 1048575 = payloadSize + 28) as Hland.
  { change 1048575 with (Z.ones 20). rewrite Z.land_ones, Z.mod_small by lia. done. }
  destruct (size_and_token_fields (payloadSize + 28) ltac:(lia)) as (S1 & S2 & S3).
  assert (DPHeader_wf h) as Hwf.
  { unfold h, DPHeader_make. split_and!; cbn [h_size_and_token h_address h_actionstring h_command h_dialect]; rewrite ?Hland; [done| |rewrite length_take; lia| |done].
    - by apply DPAddress_make_wf.
    - by apply u16_bound. }
  destruct (header_reads pre h post Hwf) as (R1 & R2 & R3). fold buf in R1, R2, R3.
  rewrite R1, R2, R3. split_and!; [by apply length_DPHeader_bytes|..].
  - unfold h_size, h, DPHeader_make. cbn [h_size_and_token]. by rewrite Hland, S1.
  - unfold looksOk, looksOk_fields, h, DPHeader_make. cbn [h_size_and_token h_address].
    rewrite Hland, S1, S2, (proj2 (Z.leb_le _ _)) by lia. done.
  - unfold h, DPHeader_make. cbn [h_command]. by rewrite u16_id.
  - exists (h_address h). split.
    + replace buf with ((pre ++ le4 (h_size_and_token h)) ++ DPAddress_bytes (h_address h) ++
        (h_actionstring h ++ le2 (h_command h) ++ le2 (h_dialect h) ++ post))
        by (unfold buf, DPHeader_bytes; by rewrite <- !app_assoc).
      replace (length pre + address_ofs)%nat with (length (pre ++ le4 (h_size_and_token h)))
        by (rewrite length_app; done).
      apply DPAddress_at_app, Hwf.
    + unfold get_address, get_port, h, DPHeader_make, DPAddress_make, set_address, set_port.
      cbn [h_address dp_ipv4 dp_port].
      by rewrite NetworkByteOrder32_involutive, NetworkByteOrder16_involutive.
Qed.

Lemma DPHeader_make_reads_back_witness :
  looksOk_at ([1; 2] ++ DPHeader_bytes (DPHeader_make 16777343 2300 [112;108;97;121] 8 14 4) ++ [0;0;0;0]) 2 = Ok true.
Proof.
  assert (is_u32 16777343) as H1 by (unfold is_u32; lia).
  assert (is_u16 2300 ∧ is_u16 8 ∧ is_u16 14) as (H2 & H3 & H4) by (unfold is_u16; lia).
  assert (4 ≤ length [112; 108; 97; 121]%Z)%nat as H5 by (cbn [length]; lia).
  assert (0 ≤ 4 < 1048548) as H6 by lia.
  pose proof (DPHeader_make_reads_back 16777343 2300 8 14 4 [112;108;97;121] [1; 2] [0;0;0;0] H1 H2 H3 H4 H5 H6) as H.
  cbv zeta in H. exact (proj1 (proj2 (proj2 H))).
Defined.
