(* ===== verification/GameAddressTranslater.v ===== *)
(** * Address translation in DirectPlay messages (GameAddressTranslater.cpp)

    [GameAddressTranslater::operator()] walks over the messages in a buffer and
    replaces the addresses they carry.  Pointers are offsets into the buffer. *)
From S2P Require Import Prelude DPlayPacket.

Section Translater.

(** the members: [replyAddress], [replyPorts[2]] and [translatePlayerSPA], which may
    change the state [St] of the object that it captures *)
Context {St : Type}.
Context (replyAddress : Z) (replyPorts : list Z).
Context (translatePlayerSPA : St → DPAddress → nat → bool * DPAddress * St).

Definition translateReplyAddress (buf : bytes) (p index : nat) : res bytes :=
  buf ← store buf (p + 4) (le4 (NetworkByteOrder32 replyAddress));
  match replyPorts !! index with
  | Some port => store buf (p + 2) (le2 (NetworkByteOrder16 port))
  | None => Undef
  end.

(** [if (!translatePlayerSPA( *addr, n)) translateReplyAddress( *addr, n)] *)
Definition translateSPA (s : St) (buf : bytes) (addr n : nat) : res (bytes * St) :=
  a ← DPAddress_at buf addr;
  let '(done, a, s) := translatePlayerSPA s a n in
  buf ← store buf addr (DPAddress_bytes a);
  if done : bool then Ok (buf, s) else (buf ← translateReplyAddress buf addr n; Ok (buf, s)).

Definition translateHeader (buf : bytes) (p : nat) : res (bool * bytes) :=
  ok ← looksOk_at buf p;
  if ok : bool then (buf ← translateReplyAddress buf (p + address_ofs) 0; Ok (true, buf))
  else Ok (false, buf).

(** offsets in [DPForwardOrCreateRequest], from the header on *)
Definition req_short_name_length : nat := 60.
Definition req_long_name_length : nat := 64.
Definition req_service_provider_data_size : nat := 68.
Definition req_sentinel : nat := 96.

(** [for (n = 0u; n * sizeof(DPAddress) < service_provider_data_size; ++n, ++addr)] *)
Fixpoint forward_loop (fuel : nat) (s : St) (buf : bytes) (p addr n : nat) : res (bytes * St) :=
  match fuel with
  | O => Hang
  | S fuel =>
      spd ← rd32 buf (p + req_service_provider_data_size);
      if Z.of_nat (n * sizeof_DPAddress) <? spd then
        bs ← translateSPA s buf addr n;
        forward_loop fuel bs.2 bs.1 p (addr + sizeof_DPAddress) (S n)
      else Ok (buf, s)
  end.

Definition translateForwardOrCreateRequest (s : St) (buf : bytes) (p : nat) : res (bool * bytes * St) :=
  command ← command_at buf p;
  if negb (command =? 46) && negb (command =? 19) && negb (command =? 8) && negb (command =? 56)
  then Ok (false, buf, s)
  else
    spd ← rd32 buf (p + req_service_provider_data_size);
    if spd =? 0 then Ok (false, buf, s)
    else
      short ← rd32 buf (p + req_short_name_length);
      long ← rd32 buf (p + req_long_name_length);
      bs ← forward_loop (S (length buf)) s buf p
             (p + req_sentinel + Z.to_nat short + Z.to_nat long) 0;
      Ok (true, bs.1, bs.2).

(** the bit fields of [DPSuperPackedPlayerInfo] *)
Definition haveShortName (info : Z) : bool := Z.testbit info 0.
Definition haveLongName (info : Z) : bool := Z.testbit info 1.
Definition serviceProvideDataLengthBytes (info : Z) : Z := Z.land (Z.shiftr info 2) 3.
Definition playerDataLengthBytes (info : Z) : Z := Z.land (Z.shiftr info 4) 3.

(** where the addresses of the packed player at [player] lie *)
Definition super_player_address (buf : bytes) (player : nat) : res nat :=
  size ← rd32 buf player;
  info ← rd32 buf (player + 12);
  let ptr := (player + Z.to_nat size + 4)%nat in
  ptr ← (if haveShortName info then skipCWStr buf ptr else Ok ptr);
  ptr ← (if haveLongName info then skipCWStr buf ptr else Ok ptr);
  ptr ← (if playerDataLengthBytes info =? 1
         then (len ← rd8 buf ptr; Ok (ptr + (1 + Z.to_nat len))%nat) else Ok ptr);
  ptr ← (if playerDataLengthBytes info =? 2
         then (len ← rd16 buf ptr; Ok (ptr + (2 + Z.to_nat len))%nat) else Ok ptr);
  ptr ← (if serviceProvideDataLengthBytes info =? 1
         then (len ← rd8 buf ptr; Ok (ptr + 1)%nat) else Ok ptr);
  (if serviceProvideDataLengthBytes info =? 2
   then (len ← rd16 buf ptr; Ok (ptr + 2)%nat) else Ok ptr).

(** [for (n = 0u; n < ephdr->player_count; ++n)] *)
Fixpoint super_loop (fuel : nat) (s : St) (buf : bytes) (p player n : nat) : res (bytes * St) :=
  match fuel with
  | O => Hang
  | S fuel =>
      player_count ← rd32 buf (p + 28);
      if Z.of_nat n <? player_count then
        addr ← super_player_address buf player;
        bs ← translateSPA s buf addr 0;
        bs ← translateSPA bs.2 bs.1 (addr + sizeof_DPAddress) 1;
        super_loop fuel bs.2 bs.1 p (addr + sizeof_DPAddress + sizeof_DPAddress) (S n)
      else Ok (buf, s)
  end.

Definition translateSuperEnumPlayersReply (s : St) (buf : bytes) (p : nat) : res (bool * bytes * St) :=
  command ← command_at buf p;
  if negb (command =? 41) then Ok (false, buf, s)
  else
    packed_offset ← rd32 buf (p + 36);
    if packed_offset =? 0 then Ok (true, buf, s)
    else
      bs ← super_loop (S (length buf)) s buf p (p + 74 - 54 + Z.to_nat packed_offset) 0;
      Ok (true, bs.1, bs.2).

(** the body of the loop of [operator()], for the message at [ptr] *)
Definition translate_message (s : St) (buf : bytes) (ptr : nat) : res (bytes * St) :=
  h ← translateHeader buf ptr;
  if h.1 : bool then
    '(done, buf, s) ← translateSuperEnumPlayersReply s h.2 ptr;
    if done : bool then Ok (buf, s)
    else ('(_, buf, s) ← translateForwardOrCreateRequest s buf ptr; Ok (buf, s))
  else Ok (h.2, s).

Fixpoint translate_loop (fuel : nat) (s : St) (buf : bytes) (ptr : nat) : res (bytes * St) :=
  match fuel with
  | O => Hang
  | S fuel =>
      if (ptr <? length buf)%nat then
        bs ← translate_message s buf ptr;
        size ← size_at bs.1 ptr;
        translate_loop fuel bs.2 bs.1 (ptr + Z.to_nat size)
      else Ok (buf, s)
  end.

(** [operator()(buf, len)] *)
Definition translate (s : St) (buf : bytes) : res (bytes * St) := translate_loop (S (length buf)) s buf 0.

End Translater.

(** the first constructor: [translatePlayerSPA] leaves the address alone *)
Definition no_translation (s : unit) (a : DPAddress) (index : nat) : bool * DPAddress * unit := (false, a, s).

(** ** The state of the object that translates *)
Section StateInvariant.
Context {St : Type} (replyAddress : Z) (replyPorts : list Z) (spa : St → DPAddress → nat → bool * DPAddress * St).
Context (P : St → Prop) (Hspa : ∀ s a i, P s → P (spa s a i).2).

Lemma translateSPA_inv s buf addr n r : translateSPA replyAddress replyPorts spa s buf addr n = Ok r → P s → P r.2.
Proof.
  unfold translateSPA. intros H Hs. apply res_bind_inv in H as (a & _ & H). apply (Hspa s a n) in Hs.
  destruct (spa s a n) as [[d a'] s']. apply res_bind_inv in H as (b & _ & H).
  destruct d; [|apply res_bind_inv in H as (b' & _ & H)]; by apply Ok_inj in H as <-.
Qed.
Lemma forward_loop_inv fuel s buf p addr n r : forward_loop replyAddress replyPorts spa fuel s buf p addr n = Ok r → P s → P r.2.
Proof.
  revert s buf addr n. induction fuel as [|fuel IH]; intros s buf addr n H Hs; [done|]. cbn [forward_loop] in H.
  apply res_bind_inv in H as (spd & _ & H). destruct (_ <? spd); [|by apply Ok_inj in H as <-].
  apply res_bind_inv in H as (bs & Hb & H). apply IH in H; [done|]. by apply translateSPA_inv in Hb.
Qed.
Lemma super_loop_inv fuel s buf p player n r : super_loop replyAddress replyPorts spa fuel s buf p player n = Ok r → P s → P r.2.
Proof.
  revert s buf player n. induction fuel as [|fuel IH]; intros s buf player n H Hs; [done|]. cbn [super_loop] in H.
  apply res_bind_inv in H as (count & _ & H). destruct (_ <? count); [|by apply Ok_inj in H as <-].
  apply res_bind_inv in H as (addr & _ & H). apply res_bind_inv in H as (b1 & H1 & H). apply res_bind_inv in H as (b2 & H2 & H).
  apply translateSPA_inv in H1; [|done]. apply translateSPA_inv in H2; [|done]. by apply IH in H.
Qed.
Lemma translate_message_inv s buf ptr r : translate_message replyAddress replyPorts spa s buf ptr = Ok r → P s → P r.2.
Proof.
  unfold translate_message. intros H Hs. apply res_bind_inv in H as (h & _ & H). destruct h.1; [|by apply Ok_inj in H as <-].
  apply res_bind_inv in H as ([[d b] s1] & H1 & H). assert (P s1) as Hs1.
  { unfold translateSuperEnumPlayersReply in H1. apply res_bind_inv in H1 as (c & _ & H1).
    destruct (negb _); [by injection (Ok_inj _ _ H1) as _ _ <-|]. apply res_bind_inv in H1 as (po & _ & H1).
    destruct (_ =? 0); [by injection (Ok_inj _ _ H1) as _ _ <-|]. apply res_bind_inv in H1 as (bs & Hb & H1).
    injection (Ok_inj _ _ H1) as _ _ <-. by apply super_loop_inv in Hb. }
  destruct d; [by apply Ok_inj in H as <-|]. apply res_bind_inv in H as ([[d2 b2] s2] & H2 & H).
  apply Ok_inj in H as <-. unfold translateForwardOrCreateRequest in H2. apply res_bind_inv in H2 as (c & _ & H2).
  destruct (_ && _); [by injection (Ok_inj _ _ H2) as _ _ <-|]. apply res_bind_inv in H2 as (spd & _ & H2).
  destruct (_ =? 0); [by injection (Ok_inj _ _ H2) as _ _ <-|]. apply res_bind_inv in H2 as (sh & _ & H2).
  apply res_bind_inv in H2 as (lo & _ & H2). apply res_bind_inv in H2 as (bs & Hb & H2).
  injection (Ok_inj _ _ H2) as _ _ <-. by apply forward_loop_inv in Hb.
Qed.
(** what every single translation keeps, the whole translation keeps *)
Lemma translate_inv s buf r : translate replyAddress replyPorts spa s buf = Ok r → P s → P r.2.
Proof.
  unfold translate. generalize (S (length buf)) 0%nat. intros fuel ptr. revert s buf ptr.
  induction fuel as [|fuel IH]; intros s buf ptr H Hs; [done|]. cbn [translate_loop] in H.
  destruct (ptr <? length buf)%nat; [|by apply Ok_inj in H as <-]. apply res_bind_inv in H as (bs & Hb & H).
  apply res_bind_inv in H as (sz & _ & H). apply IH in H; [done|]. by apply translate_message_inv in Hb.
Qed.
End StateInvariant.

(** ** Lengths and termination *)

Lemma skipCWStr_loop_spec fuel buf p : (length buf < fuel + p)%nat → (0 < fuel)%nat →
  skipCWStr_loop fuel buf p ≠ Hang ∧ ∀ q, skipCWStr_loop fuel buf p = Ok q → (p ≤ q)%nat.
Proof.
  revert p. induction fuel as [|fuel IH]; intros p Hf H0; [lia|]. cbn [skipCWStr_loop].
  destruct (rd16 buf p) as [w| | |] eqn:E; cbn [mbind res_bind]; try done; [|by apply rd16_no_hang in E].
  destruct (w =? 0); [split; [done|intros q [= <-]; lia]|].
  assert (p + 1 ≤ length buf)%nat.
  { unfold rd16 in E. apply res_bind_inv in E as (b0 & _ & E). apply res_bind_inv in E as (b1 & E & _).
    unfold rd8 in E. destruct (buf !! (p + 1)%nat) eqn:El; [apply lookup_lt_Some in El; lia|].
    destruct (Nat.eqb_spec (p + 1) (length buf)); [lia|done]. }
  destruct (IH (p + 2)%nat) as [H1 H2]; [lia..|]. split; [done|]. intros q Hq. apply H2 in Hq. lia.
Qed.

Lemma skipCWStr_spec buf p : skipCWStr buf p ≠ Hang ∧ ∀ q, skipCWStr buf p = Ok q → (p ≤ q)%nat.
Proof. apply skipCWStr_loop_spec; lia. Qed.

Lemma super_player_address_spec buf player :
  super_player_address buf player ≠ Hang ∧
  ∀ q, super_player_address buf player = Ok q → (player ≤ q)%nat.
Proof.
  unfold super_player_address.
  destruct (rd32 buf player) as [size| | |] eqn:E; cbn [mbind res_bind]; try done; [|by apply rd32_not_hang in E].
  destruct (rd32 buf (player + 12)) as [info| | |] eqn:E2; cbn [mbind res_bind]; try done; [|by apply rd32_not_hang in E2].
  set (g := λ r : res nat, r ≠ Hang ∧ ∀ q, r = Ok q → (player ≤ q)%nat).
  assert (∀ (m : res nat) (f : nat → res nat), g m → (∀ p, (player ≤ p)%nat → g (f p)) → g (m ≫= f)) as Hbind.
  { intros m f [H1 H2] Hf. destruct m as [p| | |]; [by apply Hf, H2|split; done..]. }
  assert (∀ p, (player ≤ p)%nat → g (Ok p)) as Hok by (intros; split; [done|by intros ? [= <-]]).
  assert (∀ (m : res Z) (k : Z → nat), m ≠ Hang → (∀ z, player ≤ k z)%nat → g (m ≫= λ z, Ok (k z))) as Hrd.
  { intros m k Hm Hk. destruct m as [z| | |]; try done. cbn. auto. }
  assert (∀ p, (player ≤ p)%nat → g (skipCWStr buf p)) as Hskip.
  { intros p Hp. destruct (skipCWStr_spec buf p) as [H1 H2]. split; [done|]. intros q Hq. apply H2 in Hq. lia. }
  apply Hbind; [case_match; auto with lia|intros p1 Hp1]. apply Hbind; [case_match; auto|intros p2 Hp2].
  apply Hbind; [case_match; [apply Hrd; [apply rd8_no_hang|lia]|auto]|intros p3 Hp3].
  apply Hbind; [case_match; [apply Hrd; [apply rd16_no_hang|lia]|auto]|intros p4 Hp4].
  apply Hbind; [case_match; [apply Hrd; [apply rd8_no_hang|lia]|auto]|intros p5 Hp5].
  case_match; [apply Hrd; [apply rd16_no_hang|lia]|auto].
Qed.

Lemma store_inv buf p new b : store buf p new = Ok b → (p + length new ≤ length buf)%nat ∧ length b = length buf.
Proof.
  unfold store. destruct (Nat.leb_spec (p + length new) (length buf)); [|done]. intros [= <-].
  split; [done|]. by apply length_wr.
Qed.
Lemma store_no_hang buf p new : store buf p new ≠ Hang.
Proof. unfold store. by case_match. Qed.
Lemma DPAddress_at_no_hang buf p : DPAddress_at buf p ≠ Hang.
Proof.
  unfold DPAddress_at. repeat (apply bind_no_hang; [apply rd16_no_hang || apply rd32_not_hang || apply rd_n_no_hang|intros ? _]).
  done.
Qed.

Section TranslaterFacts.
Context {St : Type}.
Context (replyAddress : Z) (replyPorts : list Z).
Context (spa : St → DPAddress → nat → bool * DPAddress * St).

Lemma translateReplyAddress_spec buf p n :
  translateReplyAddress replyAddress replyPorts buf p n ≠ Hang ∧
  ∀ b, translateReplyAddress replyAddress replyPorts buf p n = Ok b → length b = length buf.
Proof.
  unfold translateReplyAddress. split.
  - apply bind_no_hang; [apply store_no_hang|]. intros b _. case_match; [apply store_no_hang|done].
  - intros b Hb. res_inv. case_match; [|done]. apply store_inv in E as [_ E], Hb as [_ Hb]. congruence.
Qed.

Lemma translateSPA_spec s buf addr n :
  translateSPA replyAddress replyPorts spa s buf addr n ≠ Hang ∧
  ∀ bs, translateSPA replyAddress replyPorts spa s buf addr n = Ok bs →
    length bs.1 = length buf ∧ (addr + 8 ≤ length buf)%nat.
Proof.
  unfold translateSPA. split.
  - apply bind_no_hang; [apply DPAddress_at_no_hang|]. intros a _. destruct (spa s a n) as [[d a'] s'].
    apply bind_no_hang; [apply store_no_hang|]. intros b _. destruct d; [done|].
    apply bind_no_hang; [apply translateReplyAddress_spec|done].
  - intros bs H. apply res_bind_inv in H as (a & _ & H). destruct (spa s a n) as [[d a'] s'].
    apply res_bind_inv in H as (b & Hb & H). apply store_inv in Hb as [H1 H2].
    assert (addr + 8 ≤ length buf)%nat.
    { unfold DPAddress_bytes in H1. rewrite !length_app, !length_le2, length_le4 in H1. lia. }
    destruct d; [by injection H as <-|]. res_inv. simpl.
    apply translateReplyAddress_spec in E. split; [congruence|done].
Qed.

Lemma forward_loop_spec fuel s buf p addr n : (length buf < fuel + addr)%nat → (0 < fuel)%nat →
  forward_loop replyAddress replyPorts spa fuel s buf p addr n ≠ Hang ∧
  ∀ bs, forward_loop replyAddress replyPorts spa fuel s buf p addr n = Ok bs → length bs.1 = length buf.
Proof.
  revert s buf addr n. induction fuel as [|fuel IH]; intros s buf addr n Hf H0; [lia|]. cbn [forward_loop].
  destruct (rd32 buf _) as [spd| | |] eqn:E; cbn [mbind res_bind]; try done; [|by apply rd32_not_hang in E].
  destruct (_ <? spd); [|by split; [done|intros bs [= <-]]].
  destruct (translateSPA_spec s buf addr n) as [H1 H2].
  destruct (translateSPA _ _ _ s buf addr n) as [[b s']| | |] eqn:Et; cbn [mbind res_bind]; try done.
  destruct (H2 _ eq_refl) as [Hl Ha]. simpl in Hl |- *. unfold sizeof_DPAddress.
  destruct (IH s' b (addr + 16)%nat (S n)) as [G1 G2]; [lia..|].
  split; [done|]. intros bs Hbs. apply G2 in Hbs. congruence.
Qed.

Lemma super_loop_spec fuel s buf p player n : (length buf < fuel + player)%nat → (0 < fuel)%nat →
  super_loop replyAddress replyPorts spa fuel s buf p player n ≠ Hang ∧
  ∀ bs, super_loop replyAddress replyPorts spa fuel s buf p player n = Ok bs → length bs.1 = length buf.
Proof.
  revert s buf player n. induction fuel as [|fuel IH]; intros s buf player n Hf H0; [lia|]. cbn [super_loop].
  destruct (rd32 buf _) as [cnt| | |] eqn:E; cbn [mbind res_bind]; try done; [|by apply rd32_not_hang in E].
  destruct (_ <? cnt); [|by split; [done|intros bs [= <-]]].
  destruct (super_player_address_spec buf player) as [P1 P2].
  destruct (super_player_address buf player) as [addr| | |] eqn:Ea; cbn [mbind res_bind]; try done.
  specialize (P2 _ eq_refl).
  destruct (translateSPA_spec s buf addr 0) as [H1 H2].
  destruct (translateSPA _ _ _ s buf addr 0) as [[b s']| | |] eqn:Et; cbn [mbind res_bind]; try done.
  destruct (H2 _ eq_refl) as [Hl Ha]. simpl in Hl |- *. unfold sizeof_DPAddress.
  destruct (translateSPA_spec s' b (addr + 16) 1) as [H3 H4].
  destruct (translateSPA _ _ _ s' b (addr + 16) 1) as [[b2 s2]| | |] eqn:Et2; cbn [mbind res_bind]; try done.
  destruct (H4 _ eq_refl) as [Hl2 Ha2]. simpl in Hl2 |- *.
  destruct (IH s2 b2 (addr + 16 + 16)%nat (S n)) as [G1 G2]; [lia..|].
  split; [done|]. intros bs Hbs. apply G2 in Hbs. congruence.
Qed.

Lemma looksOk_at_no_hang buf p : looksOk_at buf p ≠ Hang.
Proof.
  apply bind_no_hang; [apply rd16_no_hang|]. intros f _. destruct (negb _); [done|].
  apply bind_no_hang; [apply rd32_not_hang|done].
Qed.

(** a computation that does not hang and keeps the length of the buffer *)
Definition keeps {A} (n : nat) (get : A → bytes) (r : res A) : Prop :=
  r ≠ Hang ∧ ∀ a, r = Ok a → length (get a) = n.

Lemma keeps_ok {A} n (get : A → bytes) a : length (get a) = n → keeps n get (Ok a).
Proof. intros H. split; [done|]. by intros ? [= <-]. Qed.
Lemma keeps_read {A B} n (get : B → bytes) (m : res A) (f : A → res B) :
  m ≠ Hang → (∀ a, m = Ok a → keeps n get (f a)) → keeps n get (m ≫= f).
Proof. intros Hm Hf. destruct m; cbn; [by apply Hf|split; done..]. Qed.

Lemma translateForward_spec s buf p :
  keeps (length buf) (λ r, r.1.2)
    (translateForwardOrCreateRequest replyAddress replyPorts spa s buf p).
Proof.
  unfold translateForwardOrCreateRequest, command_at.
  apply keeps_read; [apply rd16_no_hang|intros c _]. case_match; [by apply keeps_ok|].
  apply keeps_read; [apply rd32_not_hang|intros spd _]. case_match; [by apply keeps_ok|].
  apply keeps_read; [apply rd32_not_hang|intros sh _]. apply keeps_read; [apply rd32_not_hang|intros lo _].
  destruct (forward_loop_spec (S (length buf)) s buf p (p + req_sentinel + Z.to_nat sh + Z.to_nat lo) 0)
    as [G1 G2]; [lia..|].
  apply keeps_read; [done|]. intros bs Hbs. by apply keeps_ok, G2.
Qed.

Lemma translateSuper_spec s buf p :
  keeps (length buf) (λ r, r.1.2)
    (translateSuperEnumPlayersReply replyAddress replyPorts spa s buf p).
Proof.
  unfold translateSuperEnumPlayersReply, command_at.
  apply keeps_read; [apply rd16_no_hang|intros c _]. case_match; [by apply keeps_ok|].
  apply keeps_read; [apply rd32_not_hang|intros po _]. case_match; [by apply keeps_ok|].
  destruct (super_loop_spec (S (length buf)) s buf p (p + 74 - 54 + Z.to_nat po) 0) as [G1 G2]; [lia..|].
  apply keeps_read; [done|]. intros bs Hbs. by apply keeps_ok, G2.
Qed.

Lemma translate_message_spec s buf p :
  keeps (length buf) fst (translate_message replyAddress replyPorts spa s buf p).
Proof.
  unfold translate_message, translateHeader.
  apply keeps_read.
  { apply bind_no_hang; [apply looksOk_at_no_hang|]. intros ok _. destruct ok; [|done].
    apply bind_no_hang; [apply translateReplyAddress_spec|done]. }
  intros [ok b] Hh. assert (length b = length buf) as Hb.
  { apply res_bind_inv in Hh as (ok' & _ & Hh). destruct ok'; [|by injection Hh as _ <-].
    apply res_bind_inv in Hh as (b1 & Hb1 & [= _ <-]). by apply translateReplyAddress_spec in Hb1. }
  destruct ok; cbn [fst snd]; [|by apply keeps_ok]. rewrite <- Hb.
  destruct (translateSuper_spec s b p) as [G1 G2]. apply keeps_read; [done|].
  intros [[d b2] s2] H2. specialize (G2 _ H2). cbn [fst snd] in G2. rewrite <- G2.
  destruct d; [by apply keeps_ok|]. destruct (translateForward_spec s2 b2 p) as [G3 G4].
  apply keeps_read; [done|]. intros [[d3 b3] s3] H3. apply keeps_ok, (G4 _ H3).
Qed.

(** the positions at which the loop of [operator()] looks, with the buffer and the
    state it has made by then *)
Inductive visits (s : St) (buf : bytes) : nat → St → bytes → Prop :=
  | visit_start : visits s buf 0 s buf
  | visit_next ptr s' b' s'' b'' size :
      visits s buf ptr s' b' → (ptr < length b')%nat →
      translate_message replyAddress replyPorts spa s' b' ptr = Ok (b'', s'') →
      size_at b'' ptr = Ok size → visits s buf (ptr + Z.to_nat size) s'' b''.

(** a position with a header of size zero *)
Definition stuck (ptr : nat) (buf : bytes) : Prop :=
  (ptr < length buf)%nat ∧ looksOk_at buf ptr = Ok false ∧ size_at buf ptr = Ok 0.

Lemma stuck_hangs fuel ptr s buf : stuck ptr buf →
  translate_loop replyAddress replyPorts spa fuel s buf ptr = Hang.
Proof.
  intros (Hp & Hok & Hs). induction fuel as [|fuel IH]; [done|]. cbn [translate_loop].
  rewrite (proj2 (Nat.ltb_lt _ _)) by done. unfold translate_message, translateHeader. rewrite Hok.
  cbn [mbind res_bind fst snd]. rewrite Hs. cbn [mbind res_bind]. by rewrite Nat.add_0_r.
Qed.

Lemma looksOk_size buf p size : looksOk_at buf p = Ok true → size_at buf p = Ok size → 28 ≤ size.
Proof.
  unfold looksOk_at, size_at. intros H Hs.
  apply res_bind_inv in Hs as (st & Est & Hs%Ok_inj). apply res_bind_inv in H as (f & _ & H).
  destruct (negb (f =? 2)); [done|]. rewrite Est, res_bind_ok in H. apply Ok_inj in H.
  unfold looksOk_fields in H. rewrite andb_true_iff in H. destruct H as [_ H].
  apply Z.leb_le in H. by rewrite <- Hs.
Qed.

Lemma size_at_no_hang b p : size_at b p ≠ Hang.
Proof. apply bind_no_hang; [apply rd32_not_hang|done]. Qed.
Lemma size_at_nonneg b p size : size_at b p = Ok size → 0 ≤ size.
Proof.
  intros H. apply res_bind_inv in H as (x & _ & [= <-]). apply Z.land_nonneg. lia.
Qed.

Lemma visits_length s buf ptr s' b' : visits s buf ptr s' b' → length b' = length buf.
Proof.
  induction 1 as [|ptr s' b' s'' b'' size _ IH _ Ht _]; [done|].
  apply translate_message_spec in Ht. simpl in Ht. congruence.
Qed.

Lemma zero_size_stuck fuel ptr s b : (0 < fuel)%nat → (ptr < length b)%nat → size_at b ptr = Ok 0 →
  translate_loop replyAddress replyPorts spa fuel s b ptr = Hang → stuck ptr b.
Proof.
  intros H0 Hlt Hs. destruct fuel as [|fuel]; [lia|]. cbn [translate_loop].
  rewrite (proj2 (Nat.ltb_lt _ _)) by done. unfold translate_message, translateHeader.
  destruct (looksOk_at b ptr) as [ok|e| |] eqn:Eok; [|discriminate..|by apply looksOk_at_no_hang in Eok].
  destruct ok; [|done]. pose proof (looksOk_size _ _ _ Eok Hs). lia.
Qed.

Lemma translate_loop_hang s buf fuel ptr s' b' :
  visits s buf ptr s' b' → (length buf < fuel + ptr)%nat → (0 < fuel)%nat →
  translate_loop replyAddress replyPorts spa fuel s' b' ptr = Hang →
  ∃ ptr s' b', visits s buf ptr s' b' ∧ stuck ptr b'.
Proof.
  revert ptr s' b'. induction fuel as [|fuel IH]; intros ptr s' b' Hv Hf H0; [lia|].
  pose proof (visits_length _ _ _ _ _ Hv) as Hl. cbn [translate_loop].
  destruct (Nat.ltb_spec ptr (length b')) as [Hlt|]; [|done].
  destruct (translate_message_spec s' b' ptr) as [G1 G2].
  destruct (translate_message _ _ _ s' b' ptr) as [[b'' s'']|e| |] eqn:Et; try done.
  specialize (G2 _ eq_refl). rewrite res_bind_ok. cbn [fst snd] in *.
  destruct (size_at b'' ptr) as [size|e| |] eqn:Es; try done; [|by apply size_at_no_hang in Es].
  rewrite res_bind_ok. assert (visits s buf (ptr + Z.to_nat size) s'' b'') as Hv' by by eapply visit_next.
  destruct (decide (size = 0)) as [->|Hne].
  - rewrite Nat.add_0_r in *. intros Hh. exists ptr, s'', b''. split; [done|].
    eapply zero_size_stuck; [|by rewrite G2|done..]. lia.
  - assert (0 < Z.to_nat size)%nat by (apply size_at_nonneg in Es; lia).
    apply IH; [done|lia..].
Qed.

Lemma visits_hang s buf ptr s' b' : visits s buf ptr s' b' →
  (∀ fuel, translate_loop replyAddress replyPorts spa fuel s' b' ptr = Hang) →
  ∀ fuel, translate_loop replyAddress replyPorts spa fuel s buf 0 = Hang.
Proof.
  induction 1 as [|ptr s' b' s'' b'' size _ IH Hlt Ht Hs]; intros Hh; [done|].
  apply IH. intros [|fuel]; [done|]. cbn [translate_loop].
  rewrite (proj2 (Nat.ltb_lt _ _)), Ht, res_bind_ok by done. cbn [fst snd].
  rewrite Hs, res_bind_ok. apply Hh.
Qed.

Lemma translate_loop_length fuel s b ptr b' s' :
  translate_loop replyAddress replyPorts spa fuel s b ptr = Ok (b', s') → length b' = length b.
Proof.
  revert s b ptr. induction fuel as [|fuel IH]; intros s b ptr; [done|]. cbn [translate_loop].
  destruct (ptr <? length b)%nat; [|by intros [= <- _]]. intros H.
  apply res_bind_inv in H as (bs & Ht & H). apply res_bind_inv in H as (size & _ & H).
  apply IH in H. apply translate_message_spec in Ht. congruence.
Qed.

(** The translation of a buffer, whatever its contents and whatever
    [translatePlayerSPA] does, keeps the length of the buffer; and its loop fails to
    end exactly when it comes to a header whose size field is zero, where it stays for
    ever: such a buffer is one a peer can send. *)
Theorem translate_hang_iff (s : St) (buf : bytes) :
  (translate replyAddress replyPorts spa s buf = Hang ↔
   ∃ ptr s' b', visits s buf ptr s' b' ∧ stuck ptr b') ∧
  (∀ b' s', translate replyAddress replyPorts spa s buf = Ok (b', s') → length b' = length buf).
Proof.
  split; [split|].
  - apply (translate_loop_hang s buf (S (length buf)) 0 s buf); [constructor|lia..].
  - intros (ptr & s' & b' & Hv & Hst). apply (visits_hang _ _ _ _ _ Hv).
    intros fuel. by apply stuck_hangs.
  - intros b' s'. apply translate_loop_length.
Qed.

(** *** What the translation writes *)

Definition reply (port : Z) (a : DPAddress) : DPAddress := set_port port (set_address replyAddress a).
Definition reply_header (port : Z) (h : DPHeader) : DPHeader :=
  mkDPHeader (h_size_and_token h) (reply port (h_address h)) (h_actionstring h) (h_command h) (h_dialect h).

Lemma translateReplyAddress_app pre a post n port : replyPorts !! n = Some port →
  translateReplyAddress replyAddress replyPorts (pre ++ DPAddress_bytes a ++ post) (length pre) n
  = Ok (pre ++ DPAddress_bytes (reply port a) ++ post).
Proof.
  intros Hp. unfold translateReplyAddress, DPAddress_bytes. rewrite Hp, <- !app_assoc.
  set (p2 := pre ++ le2 (dp_family a)). set (p4 := p2 ++ le2 (dp_port a)).
  replace (pre ++ le2 (dp_family a) ++ le2 (dp_port a) ++ le4 (dp_ipv4 a) ++ dp_pad a ++ post)
    with (p4 ++ le4 (dp_ipv4 a) ++ (dp_pad a ++ post)) by (unfold p4, p2; by rewrite <- !app_assoc).
  replace (length pre + 4)%nat with (length p4) by (unfold p4, p2; rewrite !length_app; simpl; lia).
  rewrite store_middle, res_bind_ok by done. unfold p4. rewrite <- app_assoc.
  replace (length pre + 2)%nat with (length p2) by (unfold p2; rewrite !length_app; simpl; lia).
  rewrite store_middle by done. unfold p2. by rewrite <- app_assoc.
Qed.

Lemma translateSPA_app s s' pre a a' post n : DPAddress_wf a → DPAddress_wf a' → spa s a n = (true, a', s') →
  translateSPA replyAddress replyPorts spa s (pre ++ DPAddress_bytes a ++ post) (length pre) n
  = Ok (pre ++ DPAddress_bytes a' ++ post, s').
Proof.
  intros Ha Ha' Hs. unfold translateSPA. rewrite DPAddress_at_app, res_bind_ok, Hs by done.
  rewrite store_middle by (by rewrite !length_DPAddress_bytes). done.
Qed.

(** the loop of [translateForwardOrCreateRequest] on the two addresses of a player *)
Lemma forward_loop_2 fuel s s1 s2 pre a0 a1 b0 b1 post p : (2 < fuel)%nat →
  DPAddress_wf a0 → DPAddress_wf a1 → DPAddress_wf b0 → DPAddress_wf b1 →
  (p + req_service_provider_data_size + 4 ≤ length pre)%nat →
  rd32 pre (p + req_service_provider_data_size) = Ok 32 →
  spa s a0 0 = (true, b0, s1) → spa s1 a1 1 = (true, b1, s2) →
  forward_loop replyAddress replyPorts spa fuel s (pre ++ DPAddress_bytes a0 ++ DPAddress_bytes a1 ++ post) p
    (length pre) 0
  = Ok (pre ++ DPAddress_bytes b0 ++ DPAddress_bytes b1 ++ post, s2).
Proof.
  intros Hf Ha0 Ha1 Hb0 Hb1 Hp Hr S0 S1. do 3 (destruct fuel as [|fuel]; [lia|]). cbn [forward_loop].
  rewrite rd32_app_l, Hr, res_bind_ok by done. change (Z.of_nat (0 * sizeof_DPAddress) <? 32) with true. cbv iota.
  rewrite (translateSPA_app s s1 pre a0 b0), res_bind_ok by done. cbn [fst snd].
  rewrite rd32_app_l, Hr, res_bind_ok by done. change (Z.of_nat (1 * sizeof_DPAddress) <? 32) with true. cbv iota.
  rewrite (app_assoc pre), (app_assoc pre (DPAddress_bytes b0)).
  replace (length pre + sizeof_DPAddress)%nat with (length (pre ++ DPAddress_bytes b0))
    by (by rewrite length_app, length_DPAddress_bytes).
  rewrite (translateSPA_app s1 s2 (pre ++ DPAddress_bytes b0) a1 b1), res_bind_ok by done. cbn [fst snd].
  rewrite <- app_assoc, rd32_app_l, Hr, res_bind_ok by done.
  change (Z.of_nat (2 * sizeof_DPAddress) <? 32) with false. done.
Qed.

(** a message that creates a player with a TCP and a UDP address, the whole buffer *)
Record create_message := mkCreate {
  cm_header : DPHeader;
  cm_request : bytes;         (* the fixed part of the request and the names *)
  cm_tcp : DPAddress;
  cm_udp : DPAddress;
  cm_rest : bytes }.
Definition create_bytes (m : create_message) : bytes :=
  DPHeader_bytes (cm_header m) ++ cm_request m ++ DPAddress_bytes (cm_tcp m) ++ DPAddress_bytes (cm_udp m)
  ++ cm_rest m.
Definition create_wf (m : create_message) : Prop :=
  DPHeader_wf (cm_header m) ∧ looksOk (cm_header m) = true ∧
  (h_command (cm_header m) = 46 ∨ h_command (cm_header m) = 19 ∨ h_command (cm_header m) = 8 ∨ h_command (cm_header m) = 56) ∧
  DPAddress_wf (cm_tcp m) ∧ DPAddress_wf (cm_udp m) ∧
  h_size (cm_header m) = Z.of_nat (length (create_bytes m)) ∧
  ∃ short long, rd32 (cm_request m) 32 = Ok short ∧ rd32 (cm_request m) 36 = Ok long ∧
    rd32 (cm_request m) 40 = Ok 32 ∧ 0 ≤ short ∧ 0 ≤ long ∧
    length (cm_request m) = (68 + Z.to_nat short + Z.to_nat long)%nat.

Lemma reply_wf port a : is_u32 replyAddress → DPAddress_wf a → DPAddress_wf (reply port a).
Proof.
  intros Hr (Hf & _ & _ & Hl). split_and!; [done|apply NetworkByteOrder16_bound|by apply NetworkByteOrder32_bound|done].
Qed.
Lemma reply_header_wf port h : is_u32 replyAddress → DPHeader_wf h → DPHeader_wf (reply_header port h).
Proof. intros Hr (? & Ha & ? & ? & ?). split_and!; try done. by apply reply_wf. Qed.

Lemma translateHeader_app h post port : DPHeader_wf h → looksOk h = true → replyPorts !! 0%nat = Some port →
  translateHeader replyAddress replyPorts (DPHeader_bytes h ++ post) 0
  = Ok (true, DPHeader_bytes (reply_header port h) ++ post).
Proof.
  intros Hh Hok Hp. unfold translateHeader.
  destruct (header_reads0 h post Hh) as (_ & -> & _). rewrite Hok, res_bind_ok. cbv iota.
  unfold DPHeader_bytes. rewrite <- !app_assoc.
  change (0 + address_ofs)%nat with (length (le4 (h_size_and_token h))).
  rewrite (translateReplyAddress_app _ _ _ _ port) by done. done.
Qed.

(** the request part is read where it lies *)
Lemma request_read h req post k x : DPHeader_wf h → rd32 req k = Ok x → (k + 4 ≤ length req)%nat →
  rd32 (DPHeader_bytes h ++ req ++ post) (28 + k) = Ok x.
Proof.
  intros Hh Hr Hk. change 28%nat with sizeof_DPHeader. rewrite <- (length_DPHeader_bytes h) by done.
  by rewrite rd32_app_r, rd32_app_l.
Qed.

Lemma forward_create h req a0 a1 b0 b1 rest s s1 s2 short long :
  DPHeader_wf h → (h_command h = 46 ∨ h_command h = 19 ∨ h_command h = 8 ∨ h_command h = 56) →
  DPAddress_wf a0 → DPAddress_wf a1 → DPAddress_wf b0 → DPAddress_wf b1 →
  rd32 req 32 = Ok short → rd32 req 36 = Ok long → rd32 req 40 = Ok 32 →
  length req = (68 + Z.to_nat short + Z.to_nat long)%nat →
  spa s a0 0 = (true, b0, s1) → spa s1 a1 1 = (true, b1, s2) →
  translateForwardOrCreateRequest replyAddress replyPorts spa s
    (DPHeader_bytes h ++ req ++ DPAddress_bytes a0 ++ DPAddress_bytes a1 ++ rest) 0
  = Ok (true, DPHeader_bytes h ++ req ++ DPAddress_bytes b0 ++ DPAddress_bytes b1 ++ rest, s2).
Proof.
  intros Hh Hc Ha0 Ha1 Hb0 Hb1 Rs Rl Rp Hl S0 S1. unfold translateForwardOrCreateRequest.
  destruct (header_reads0 h (req ++ DPAddress_bytes a0 ++ DPAddress_bytes a1 ++ rest) Hh) as (_ & _ & R3).
  rewrite R3, res_bind_ok.
  replace (_ && negb (h_command h =? 56)) with false by (by destruct Hc as [-> |[-> |[-> | ->]]]).
  cbv iota. change (0 + req_service_provider_data_size)%nat with (28 + 40)%nat.
  change (0 + req_short_name_length)%nat with (28 + 32)%nat.
  change (0 + req_long_name_length)%nat with (28 + 36)%nat.
  rewrite (request_read h req _ 40 32), (request_read h req _ 32 short), (request_read h req _ 36 long), !res_bind_ok
    by (done || lia).
  change (32 =? 0) with false. cbv iota. rewrite ?res_bind_ok.
  set (pre := DPHeader_bytes h ++ req).
  replace (DPHeader_bytes h ++ req ++ DPAddress_bytes a0 ++ DPAddress_bytes a1 ++ rest)
    with (pre ++ DPAddress_bytes a0 ++ DPAddress_bytes a1 ++ rest) by (unfold pre; by rewrite <- app_assoc).
  assert (length pre = 96 + Z.to_nat short + Z.to_nat long)%nat as Hpre
    by (unfold pre; rewrite length_app, length_DPHeader_bytes by done; unfold sizeof_DPHeader; lia).
  change (0 + req_sentinel)%nat with 96%nat. rewrite <- Hpre.
  rewrite (forward_loop_2 _ s s1 s2 pre a0 a1 b0 b1), res_bind_ok; try done.
  - unfold pre. by rewrite <- app_assoc.
  - rewrite length_app. lia.
  - unfold req_service_provider_data_size. lia.
  - unfold pre. rewrite <- (app_nil_r req).
    apply (request_read h req [] 40 32); [done|done|lia].
Qed.

Lemma translate_create (m : create_message) (s s1 s2 : St) (port : Z) (b0 b1 : DPAddress) :
  create_wf m → is_u32 replyAddress → replyPorts !! 0%nat = Some port →
  spa s (cm_tcp m) 0 = (true, b0, s1) → spa s1 (cm_udp m) 1 = (true, b1, s2) →
  DPAddress_wf b0 → DPAddress_wf b1 →
  translate replyAddress replyPorts spa s (create_bytes m)
  = Ok (create_bytes (mkCreate (reply_header port (cm_header m)) (cm_request m) b0 b1 (cm_rest m)), s2).
Proof.
  intros (Hh & Hok & Hc & Ha0 & Ha1 & Hsz & short & long & Rs & Rl & Rp & Hs & Hlo & Hl) Hr Hp S0 S1 Hb0 Hb1.
  destruct m as [h req a0 a1 rest]. unfold create_bytes in *. cbn [cm_header cm_request cm_tcp cm_udp cm_rest] in *.
  set (tail := req ++ DPAddress_bytes a0 ++ DPAddress_bytes a1 ++ rest) in *.
  set (h' := reply_header port h). pose proof (reply_header_wf port h Hr Hh) as Hh'. fold h' in Hh'.
  assert (length (DPHeader_bytes h ++ tail) = 28 + length tail)%nat as Hlen
    by (by rewrite length_app, length_DPHeader_bytes).
  unfold translate. destruct (length (DPHeader_bytes h ++ tail)) as [|len] eqn:El; [lia|].
  set (fuel := S len). cbn [translate_loop]. rewrite El. change (0 <? S len)%nat with true. cbv iota.
  unfold translate_message. rewrite (translateHeader_app h tail port), res_bind_ok by done. cbn [fst snd]. fold h'.
  destruct (header_reads0 h' tail Hh') as (_ & _ & R3). cbn [app length] in R3.
  unfold translateSuperEnumPlayersReply. rewrite R3, res_bind_ok.
  replace (negb (h_command h' =? 41)) with true by (by destruct Hc as [E|[E|[E|E]]]; cbn; rewrite E).
  rewrite res_bind_ok. unfold tail. rewrite (forward_create h' req a0 a1 b0 b1 rest s s1 s2 short long), !res_bind_ok by done.
  cbn [fst snd]. set (tail' := req ++ DPAddress_bytes b0 ++ DPAddress_bytes b1 ++ rest).
  destruct (header_reads0 h' tail' Hh') as (R1 & _ & _). rewrite R1, res_bind_ok.
  assert (length (DPHeader_bytes h' ++ tail') = S len) as El'.
  { rewrite <- El. unfold tail, tail'. by rewrite !length_app, !length_DPHeader_bytes, !length_DPAddress_bytes. }
  change (h_size h') with (h_size h). rewrite Hsz. unfold fuel. cbn [translate_loop].
  rewrite El', Nat2Z.id. cbn [Nat.add]. rewrite Nat.ltb_irrefl. done.
Qed.

(** in a message that creates or forwards a player with a TCP and a UDP address
    (commands 0x2e, 0x13, 0x08, 0x38), the translation replaces the reply address of
    the header by its own reply address and first port, and the two addresses of the
    player by what [translatePlayerSPA] makes of them, called for 0 (TCP) and then for
    1 (UDP); every other byte of the message stays as it is. *)
Theorem translate_create_message (m : create_message) (s s1 s2 : St) (port : Z) (b0 b1 : DPAddress) :
  create_wf m → is_u32 replyAddress → replyPorts !! 0%nat = Some port →
  spa s (cm_tcp m) 0 = (true, b0, s1) → spa s1 (cm_udp m) 1 = (true, b1, s2) →
  DPAddress_wf b0 → DPAddress_wf b1 →
  translate replyAddress replyPorts spa s (create_bytes m)
  = Ok (create_bytes (mkCreate (reply_header port (cm_header m)) (cm_request m) b0 b1 (cm_rest m)), s2).
Proof. apply translate_create. Qed.

End TranslaterFacts.

(** a buffer of 28 zero bytes is enough *)
Example zero_header_hangs :
  translate (St:=unit) 0 [1; 2] no_translation tt (replicate 28 0) = Hang.
Proof. vm_compute. reflexivity. Qed.

Definition ex_create : create_message :=
  mkCreate (DPHeader_make 2130706433 2300 [112; 108; 97; 121] 46 14 100)
    (replicate 40 0 ++ le4 32 ++ replicate 24 0) (DPAddress_make 2130706433 2300) (DPAddress_make 2130706433 2350) [].

Lemma ex_create_wf : create_wf ex_create.
Proof.
  assert (DPAddress_wf (DPAddress_make 2130706433 2300) ∧ DPAddress_wf (DPAddress_make 2130706433 2350)) as [H1 H2]
    by (split; apply DPAddress_make_wf; unfold is_u32; lia).
  split_and!; try done.
  - by left.
  - exists 0, 0. split_and!; done.
Qed.

Lemma translate_create_message_witness :
  translate 3 [5; 6] (λ (s : nat) a i, (true, set_address 7 a, (s + i)%nat)) 0%nat (create_bytes ex_create)
  = Ok (create_bytes (mkCreate (reply_header 3 5 (cm_header ex_create)) (cm_request ex_create)
          (set_address 7 (cm_tcp ex_create)) (set_address 7 (cm_udp ex_create)) []), 1%nat).
Proof.
  apply (translate_create_message 3 [5; 6] (λ (s : nat) a i, (true, set_address 7 a, (s + i)%nat))
           ex_create 0%nat 0%nat 1%nat 5 (set_address 7 (cm_tcp ex_create)) (set_address 7 (cm_udp ex_create))
           ex_create_wf); try reflexivity.
  - unfold is_u32. lia.
  - by split_and!.
  - by split_and!.
Defined.

(** a service provider data size for three addresses makes the loop read
    [replyPorts[2]], which does not exist *)
Example third_address_overruns :
  translate 3 [5; 6] no_translation tt (create_bytes
    (mkCreate (DPHeader_make 2130706433 2300 [112; 108; 97; 121] 46 14 116)
      (replicate 40 0 ++ le4 48 ++ replicate 24 0) (DPAddress_make 2130706433 2300)
      (DPAddress_make 2130706433 2350) (DPAddress_bytes (DPAddress_make 2130706433 2351)))) = Undef.
Proof. vm_compute. reflexivity. Qed.
