(* ===== verification/TAPacketParser.v ===== *)
(** * The parser of game traffic (TAPacketParser.cpp)

    [parseGameData] walks over the DirectPlay messages of a buffer and calls the
    handlers: with the players that DirectPlay messages announce, and with the
    decrypted, decompressed and unpacked sub-packets of game packets.  The calls to
    the handlers are the events of the model; every subscribed handler gets them in
    the same order. *)
From S2P Require Import Prelude TPacketCrypt TPacketCompress TPacketSplit TPacketSmartpak.
From S2P Require Import DuplicateDetection DPlayPacket GameAddressTranslater.

Inductive event : Type :=
  | onDplaySuperEnumPlayerReply (dplayId : Z) (playerName : bytes) (tcp udp : nat)
  | onDplayCreateOrForwardPlayer (command dplayId : Z) (name : bytes) (tcp udp : option nat)
  | onDplayDeletePlayer (dplayId : Z)
  | onTaPacket (sourceDplayId otherDplayId : Z) (isLocalSource : bool) (encrypted : bytes)
      (subpaks : list bytes).

(** the state: [m_taDuplicateDetection], [m_parsedSubPacketCodes] (type bytes) and
    [m_progressTicks] *)
Record TAPacketParser := mkParser {
  p_dups : DuplicateDetection;
  p_parsed : gset Z;
  p_progressTicks : Z }.
Definition TAPacketParser_init : TAPacketParser := mkParser DD_init ∅ 0.

(** the filter: consulted only once the game is in progress, and for packets without a
    second id *)
Definition checkDuplicate (st : TAPacketParser) (src other : Z) (payload : bytes) : bool * TAPacketParser :=
  if (0 <? p_progressTicks st) && (other =? 0) then
    let '(dup, d) := isLikelyDuplicate src other payload (p_dups st) in
    (dup, mkParser d (p_parsed st) (p_progressTicks st))
  else (false, st).

(** the body of [for (const bytestring& s : subpaks)] *)
Definition noteSubpak (st : TAPacketParser) (s : bytes) : res TAPacketParser :=
  expectedSize ← getExpectedSubPacketSize s;
  if (expectedSize =? 0) || negb (Z.of_nat (length s) =? expectedSize) then Ok st
  else
    code ← rd8 s 0;
    let st := mkParser (p_dups st) ({[code]} ∪ p_parsed st) (p_progressTicks st) in
    if bool_decide (SubPacketCode_of code = Some UNIT_STAT_AND_MOVE_2C) then
      tick ← rd32 s 3;
      Ok (mkParser (p_dups st) (p_parsed st) (Z.max tick (p_progressTicks st)))
    else Ok st.
Fixpoint noteSubpaks (st : TAPacketParser) (subpaks : list bytes) : res TAPacketParser :=
  match subpaks with
  | [] => Ok st
  | s :: subpaks => st ← noteSubpak st s; noteSubpaks st subpaks
  end.

(** [junk] is what the uninitialised [checksum[2]] holds: [decrypt] does not set it on a
    payload shorter than four bytes *)
Definition parseTaPacket (junk : Z * Z) (st : TAPacketParser) (src other : Z) (isLocalSource : bool)
    (_payload : bytes) : res (TAPacketParser * list event) :=
  let '(dup, st) := checkDuplicate st src other _payload in
  if dup : bool then Ok (st, [])
  else
    let '(payload, extracted, calculated) := decrypt _payload 0 junk.1 junk.2 in
    if negb (extracted =? calculated) then Ok (st, [])
    else
      code ← rd8 payload 0;
      payload ← (if code =? 4 then decompress payload 3 else Ok payload);
      subpaks ← unsmartpak payload true true;
      st ← noteSubpaks st subpaks;
      Ok (st, [onTaPacket src other isLocalSource _payload subpaks]).

(** [std::strncmp(header->actionstring, "play", 4) == 0] *)
Definition is_play (data : bytes) (p : nat) : res bool :=
  c0 ← rd8 data (p + 20); if negb (c0 =? 112) then Ok false else
  c1 ← rd8 data (p + 21); if negb (c1 =? 108) then Ok false else
  c2 ← rd8 data (p + 22); if negb (c2 =? 97) then Ok false else
  c3 ← rd8 data (p + 23); Ok (c3 =? 121).

(** ** DirectPlay messages; [p] is where the header lies *)

(** the names of a packed player and the place of its addresses *)
Definition super_player (data : bytes) (player : nat) : res (bytes * nat) :=
  size ← rd32 data player;
  info ← rd32 data (player + 12);
  let ptr := (player + Z.to_nat size + 4)%nat in
  '(name, ptr) ← (if haveShortName info
                  then (name ← getCWStr data ptr; ptr ← skipCWStr data ptr; Ok (name, ptr))
                  else Ok ([], ptr));
  '(name, ptr) ← (if haveLongName info
                  then (name ← getCWStr data ptr; ptr ← skipCWStr data ptr; Ok (name, ptr))
                  else Ok (name, ptr));
  ptr ← (if playerDataLengthBytes info =? 1
         then (len ← rd8 data ptr; Ok (ptr + (1 + Z.to_nat len))%nat) else Ok ptr);
  ptr ← (if playerDataLengthBytes info =? 2
         then (len ← rd16 data ptr; Ok (ptr + (2 + Z.to_nat len))%nat) else Ok ptr);
  ptr ← (if serviceProvideDataLengthBytes info =? 1
         then (len ← rd8 data ptr; Ok (ptr + 1)%nat) else Ok ptr);
  ptr ← (if serviceProvideDataLengthBytes info =? 2
         then (len ← rd16 data ptr; Ok (ptr + 2)%nat) else Ok ptr);
  Ok (name, ptr).

(** the players are not bounded by the packet, only by [player_count]: the fuel is the
    buffer, which every player but the last must lie in *)
Fixpoint super_players (fuel : nat) (data : bytes) (player : nat) (n count : Z) : res (list event) :=
  match fuel with
  | O => Hang
  | S fuel =>
      if n <? count then
        '(name, addr) ← super_player data player;
        id ← rd32 data (player + 8);
        rest ← super_players fuel data (addr + 32) (n + 1) count;
        Ok (onDplaySuperEnumPlayerReply id name addr (addr + 16) :: rest)
      else Ok []
  end.

Definition parseDplaySuperEnumReply (data : bytes) (p : nat) : res (list event) :=
  packed_offset ← rd32 data (p + 36);
  if packed_offset =? 0 then Ok []
  else
    player_count ← rd32 data (p + 28);
    super_players (S (length data)) data (p + 74 - 54 + Z.to_nat packed_offset) 0 player_count.

Definition parseDplayCreateOrForwardPlayer (data : bytes) (p : nat) : res (list event) :=
  spd ← rd32 data (p + req_service_provider_data_size);
  if spd =? 0 then Ok []
  else
    short ← rd32 data (p + req_short_name_length);
    long ← rd32 data (p + req_long_name_length);
    name ← (if 0 <? short then getCWStr data (p + req_sentinel) else Ok []);
    name ← (if 0 <? long then getCWStr data (p + req_sentinel + Z.to_nat short) else Ok name);
    let addr := (p + req_sentinel + Z.to_nat short + Z.to_nat long)%nat in
    command ← command_at data p;
    player_id ← rd32 data (p + 32);
    Ok [onDplayCreateOrForwardPlayer command player_id name
          (if spd =? 16 then Some addr else None) (if spd =? 32 then Some (addr + 16)%nat else None)].

Definition parseDplayDeletePlayer (data : bytes) (p : nat) : res (list event) :=
  player_id ← rd32 data (p + 32); Ok [onDplayDeletePlayer player_id].

Definition parseDplayPacket (data : bytes) (p : nat) : res (list event) :=
  command ← command_at data p;
  if command =? 41 then parseDplaySuperEnumReply data p
  else if (command =? 8) || (command =? 19) || (command =? 46) || (command =? 56)
  then parseDplayCreateOrForwardPlayer data p
  else if command =? 11 then parseDplayDeletePlayer data p
  else Ok [].

(** ** parseGameData *)

Inductive step_end : Type :=
  | Continue (st : TAPacketParser) (es : list event)
  | Return (st : TAPacketParser) (es : list event).

(** the body of the loop, for the header at [ptr] *)
Definition parse_message (junk : Z * Z) (isLocalSource : bool) (data : bytes) (st : TAPacketParser) (ptr : nat)
    : res step_end :=
  ok ← looksOk_at data ptr;
  if negb ok && (8 <? length data)%nat then
    id1 ← rd32 data 0; id2 ← rd32 data 4;
    payload ← rd_n data 8 (length data - 8);
    r ← parseTaPacket junk st id1 id2 isLocalSource payload;
    Ok (Return r.1 r.2)
  else
    play ← is_play data ptr;
    size ← size_at data ptr;
    if play : bool then
      es ← parseDplayPacket data ptr; Ok (Continue st es)
    else
      src ← rd32 data (ptr + actionstring_ofs);
      (* a size below that of the header is a huge std::size_t in the copy *)
      (if size <? 28 then Undef else
       payload ← rd_n data (ptr + sizeof_DPHeader) (Z.to_nat size - sizeof_DPHeader);
       r ← parseTaPacket junk st src 0 isLocalSource payload;
       Ok (Continue r.1 r.2)).

Fixpoint parse_loop (fuel : nat) (junk : Z * Z) (isLocalSource : bool) (data : bytes) (st : TAPacketParser)
    (ptr : nat) : res (TAPacketParser * list event) :=
  match fuel with
  | O => Hang
  | S fuel =>
      if (ptr <? length data)%nat then
        r ← parse_message junk isLocalSource data st ptr;
        match r with
        | Return st es => Ok (st, es)
        | Continue st es =>
            size ← size_at data ptr;
            '(st, es') ← parse_loop fuel junk isLocalSource data st (ptr + Z.to_nat size);
            Ok (st, es ++ es')
        end
      else Ok (st, [])
  end.

(** the codes parsed are those of this call: the set is cleared first *)
Definition parseGameData (junk : Z * Z) (isLocalSource : bool) (data : bytes) (st : TAPacketParser)
    : res (TAPacketParser * list event) :=
  parse_loop (S (length data)) junk isLocalSource data (mkParser (p_dups st) ∅ (p_progressTicks st)) 0.

(** ** A packet is delivered as it was sent *)

(** what a player puts on the wire: sub-packets packed by one SmartPaker after a header
    with time stamp, possibly compressed, and enciphered *)
Definition plain (c1 c2 ts : Z) (ps : list bytes) : bytes := 3 :: c1 :: c2 :: le4 ts ++ smartPak_all true ps.
Definition wire (compressed : bool) (c1 c2 ts : Z) (ps : list bytes) : bytes :=
  encrypt (if compressed then compress (plain c1 c2 ts ps) else plain c1 c2 ts ps).

Lemma plain_long c1 c2 ts ps : (4 ≤ length (plain c1 c2 ts ps))%nat.
Proof. unfold plain. cbn [length]. rewrite length_app, length_le4. lia. Qed.

(** decryption, decompression and unpacking, as [parseTaPacket] does them *)
Lemma wire_unpacks compressed c1 c2 ts ps j1 j2 :
  stream_ok None ps → are_bytes (plain c1 c2 ts ps) →
  ∃ payload calc code, decrypt (wire compressed c1 c2 ts ps) 0 j1 j2 = (payload, calc, calc) ∧
    rd8 payload 0 = Ok code ∧
    ((if code =? 4 then decompress payload 3 else Ok payload) ≫= λ p, unsmartpak p true true) = Ok ps.
Proof.
  intros Hps Hb. unfold wire. set (dd := if compressed then _ else _).
  assert (dd = plain c1 c2 ts ps ∨ ∃ r, dd = 4 :: c1 :: c2 :: r ∧ are_bytes (4 :: r) ∧
    decompress (4 :: c1 :: c2 :: r) 3 = Ok (plain c1 c2 ts ps)) as Hdd.
  { unfold dd. destruct compressed; [|by left].
    destruct (compress_head c1 c2 (le4 ts ++ smartPak_all true ps)) as [[r E]|E]; [right|by left].
    exists r. split; [done|]. split.
    - pose proof (compress_bytes _ Hb) as H. unfold plain in H. rewrite E in H.
      inversion H as [|? ? ? H1]; subst. inversion H1 as [|? ? ? H2]; subst. inversion H2; subst.
      by apply Forall_cons.
    - rewrite <- E. by rewrite decompress_compress_core. }
  assert (4 ≤ length dd)%nat as Hlen.
  { destruct Hdd as [-> |(r & -> & _ & Hr)]; [apply plain_long|].
    destruct r; [|simpl; lia]. change (decompress [4; c1; c2] 3) with (Ok [3; c1; c2]) in Hr.
    apply Ok_inj in Hr. pose proof (plain_long c1 c2 ts ps) as Hl. rewrite <- Hr in Hl. exact Hl. }
  destruct (decrypt_encrypt_core [] dd j1 j2 Hlen) as (k1 & k2 & calc & E).
  change ([] ++ encrypt dd) with (encrypt dd) in E. change (length (@nil Z)) with 0%nat in E. rewrite E.
  destruct Hdd as [-> |(r & -> & Hr & Hd)].
  - exists (3 :: k1 :: k2 :: le4 ts ++ smartPak_all true ps), calc, 3. split; [reflexivity|].
    split; [reflexivity|]. change (3 =? 4) with false. cbv iota. rewrite res_bind_ok.
    apply (unsmartpak_smartPak_core ps k1 k2 ts true Hps).
  - exists (4 :: k1 :: k2 :: r), calc, 4. split; [reflexivity|].
    split; [reflexivity|]. change (4 =? 4) with true. cbv iota.
    unfold plain in Hd. rewrite (decompress_checksum 4 c1 c2 k1 k2 r _ _ Hr Hd), res_bind_ok.
    apply (unsmartpak_smartPak_core ps k1 k2 ts true Hps).
Qed.

(** what the sub-packets leave in the parser *)
Definition seq_of (s : bytes) : Z := match rd32 s 3 with Ok t => t | _ => 0 end.
Definition note (st : TAPacketParser) (s : bytes) : TAPacketParser :=
  mkParser (p_dups st) ({[s !!! 0%nat]} ∪ p_parsed st)
    (if s !!! 0%nat =? 44 then Z.max (seq_of s) (p_progressTicks st) else p_progressTicks st).

Lemma SubPacketCode_of_44 b : SubPacketCode_of b = Some UNIT_STAT_AND_MOVE_2C ↔ b = 44.
Proof.
  split; [|by intros ->]. intros H. apply code_byte_of in H. by subst.
Qed.

Lemma noteSubpak_sized st b s : getExpectedSubPacketSize (b :: s) = Ok (Z.of_nat (length (b :: s))) →
  (b = 44 → is_ok (rd32 (b :: s) 3)) → noteSubpak st (b :: s) = Ok (note st (b :: s)).
Proof.
  intros Hs Ht. unfold noteSubpak. rewrite Hs, res_bind_ok.
  rewrite Z.eqb_refl, (proj2 (Z.eqb_neq _ _)) by (cbn [length]; lia). cbn [orb negb].
  rewrite rd8_0, res_bind_ok. unfold note, seq_of. change ((b :: s) !!! 0%nat) with b.
  destruct (Z.eqb_spec b 44) as [->|Hne].
  - rewrite bool_decide_true by (by apply SubPacketCode_of_44). destruct (Ht eq_refl) as [t ->]. done.
  - rewrite bool_decide_false; [done|]. by rewrite SubPacketCode_of_44.
Qed.

Lemma move_sized seq body : Z.of_nat (7 + length body) < 65536 →
  getExpectedSubPacketSize (move seq body) = Ok (Z.of_nat (length (move seq body))).
Proof.
  intros H. unfold move. unfold getExpectedSubPacketSize. change (SubPacketCode_of 44) with (Some UNIT_STAT_AND_MOVE_2C).
  cbv iota. rewrite (proj2 (Nat.leb_le 3 _)) by (cbn [length]; rewrite length_app; simpl; lia).
  pose proof (rd16_le2 [44] (Z.of_nat (7 + length body)) (le4 seq ++ body)) as Hr.
  cbn [app length] in Hr. rewrite Hr by (unfold is_u16; lia). reflexivity.
Qed.

Lemma move_seq seq body : is_u32 seq → rd32 (move seq body) 3 = Ok seq.
Proof.
  intros H. unfold move. pose proof (rd32_le4 (44 :: le2 (Z.of_nat (7 + length body))) seq body H) as E.
  change (length (44 :: le2 _)) with 3%nat in E. rewrite <- app_comm_cons in E. exact E.
Qed.

Lemma noteSubpaks_stream next ps st : stream_ok next ps → noteSubpaks st ps = Ok (foldl note st ps).
Proof.
  intros H. revert st. induction H as [|next seq body ps Hn Hu Hl Hb Hps IH|next b p ps Hd Hc Hps IH]; intros st; [done|..].
  - cbn [noteSubpaks foldl]. unfold move at 1. rewrite noteSubpak_sized, res_bind_ok; [apply IH|by apply move_sized|].
    intros _. exists seq. by apply move_seq.
  - cbn [noteSubpaks foldl]. rewrite noteSubpak_sized, res_bind_ok; [apply IH| |].
    + rewrite <- (app_nil_r (b :: p)) at 1. apply Hd.
    + intros ->. exfalso. apply (Hc UNIT_STAT_AND_MOVE_2C); [set_solver|done].
Qed.

(** a packet that is not filtered out is taken apart *)
Lemma parseTaPacket_wire junk isLocal st st1 src other compressed c1 c2 ts ps :
  stream_ok None ps → are_bytes (plain c1 c2 ts ps) →
  checkDuplicate st src other (wire compressed c1 c2 ts ps) = (false, st1) →
  parseTaPacket junk st src other isLocal (wire compressed c1 c2 ts ps)
  = Ok (foldl note st1 ps, [onTaPacket src other isLocal (wire compressed c1 c2 ts ps) ps]).
Proof.
  intros Hps Hb Hd. unfold parseTaPacket. rewrite Hd.
  destruct (wire_unpacks compressed c1 c2 ts ps junk.1 junk.2 Hps Hb) as (p & calc & code & -> & Hc & Hu).
  rewrite Z.eqb_refl. cbn [negb]. rewrite Hc, res_bind_ok.
  apply res_bind_inv in Hu as (p' & -> & Hu). rewrite res_bind_ok, Hu, res_bind_ok.
  by rewrite (noteSubpaks_stream None), res_bind_ok.
Qed.

(** a message without a header: the sender's id, 0 for everybody, and the payload *)
Definition raw_message (src : Z) (payload : bytes) : bytes := le4 src ++ le4 0 ++ payload.
Definition cleared (st : TAPacketParser) : TAPacketParser := mkParser (p_dups st) ∅ (p_progressTicks st).
Lemma parseGameData_raw junk isLocal src payload st : is_u32 src → payload ≠ [] →
  parseGameData junk isLocal (raw_message src payload) st = parseTaPacket junk (cleared st) src 0 isLocal payload.
Proof.
  intros Hsrc Hne. set (data := raw_message src payload). unfold parseGameData. fold (cleared st).
  assert (length data = 8 + length payload)%nat as El by (unfold data, raw_message; by rewrite !length_app, !length_le4).
  assert (0 < length payload)%nat as Hp by (destruct payload; [done|simpl; lia]).
  cbn [parse_loop]. rewrite (proj2 (Nat.ltb_lt 0 _)) by lia. unfold parse_message.
  assert (looksOk_at data 0 = Ok false) as -> by done. rewrite res_bind_ok. cbn [negb andb].
  rewrite (proj2 (Nat.ltb_lt 8 _)) by lia.
  assert (rd32 data 0 = Ok src) as -> by exact (rd32_le4 [] src (le4 0 ++ payload) Hsrc).
  assert (rd32 data 4 = Ok 0) as -> by (apply (rd32_le4 (le4 src) 0 payload); unfold is_u32; lia).
  rewrite !res_bind_ok. assert (rd_n data 8 (length data - 8) = Ok payload) as ->.
  { rewrite rd_n_slice by lia. unfold slice. f_equal. rewrite El. unfold data, raw_message. rewrite app_assoc.
    replace 8%nat with (length (le4 src ++ le4 0)) by done. rewrite drop_app_length. apply take_ge. lia. }
  rewrite res_bind_ok. by destruct (parseTaPacket junk (cleared st) src 0 isLocal payload) as [[st' es]|e| |].
Qed.

(** a message with a header, and a payload *)
Definition ta_message (h : DPHeader) (payload : bytes) : bytes := DPHeader_bytes h ++ payload.

Lemma rd8_middle pre b post : rd8 (pre ++ b :: post) (length pre) = Ok b.
Proof. apply rd8_lookup. by apply list_lookup_middle. Qed.

Lemma is_play_spec pre b0 b1 b2 b3 post : length pre = 20%nat →
  is_play (pre ++ [b0; b1; b2; b3] ++ post) 0 = Ok (bool_decide ([b0; b1; b2; b3] = [112; 108; 97; 121])).
Proof.
  intros Hl. unfold is_play. cbn [app].
  pose proof (rd8_middle pre b0 (b1 :: b2 :: b3 :: post)) as E0.
  pose proof (rd8_middle (pre ++ [b0]) b1 (b2 :: b3 :: post)) as E1.
  pose proof (rd8_middle (pre ++ [b0; b1]) b2 (b3 :: post)) as E2.
  pose proof (rd8_middle (pre ++ [b0; b1; b2]) b3 post) as E3.
  rewrite length_app, <- app_assoc in E1, E2, E3. cbn [app length] in E1, E2, E3. rewrite Hl in E0, E1, E2, E3.
  cbn [Nat.add] in *. rewrite E0, E1, E2, E3, !res_bind_ok.
  destruct (Z.eqb_spec b0 112) as [->|], (Z.eqb_spec b1 108) as [->|], (Z.eqb_spec b2 97) as [->|],
    (Z.eqb_spec b3 121) as [->|]; cbn [negb]; rewrite ?res_bind_ok;
    [by rewrite bool_decide_true|rewrite bool_decide_false; [done|congruence]..].
Qed.

Lemma parse_message_ta junk isLocal h src payload st :
  DPHeader_wf h → looksOk h = true → h_size h = Z.of_nat (28 + length payload) →
  is_u32 src → h_actionstring h = le4 src → le4 src ≠ [112; 108; 97; 121] →
  parse_message junk isLocal (ta_message h payload) st 0
  = (r ← parseTaPacket junk st src 0 isLocal payload; Ok (Continue r.1 r.2)).
Proof.
  intros Hh Hok Hsz Hsrc Hact Hplay. unfold parse_message, ta_message.
  destruct (header_reads0 h payload Hh) as (R1 & R2 & _). rewrite R2, res_bind_ok, Hok. cbn [negb andb].
  set (pre := le4 (h_size_and_token h) ++ DPAddress_bytes (h_address h)).
  set (post := le2 (h_command h) ++ le2 (h_dialect h) ++ payload).
  assert (DPHeader_bytes h ++ payload = pre ++ le4 src ++ post) as Ed.
  { unfold pre, post, DPHeader_bytes. rewrite Hact, <- !app_assoc. done. }
  assert (length pre = 20%nat) as Hpre by (unfold pre; rewrite length_app, length_DPAddress_bytes by apply Hh; done).
  assert (is_play (DPHeader_bytes h ++ payload) 0 = Ok false) as ->.
  { rewrite Ed. unfold le4 in *. rewrite is_play_spec by done. by rewrite bool_decide_false. }
  rewrite R1, !res_bind_ok. assert (rd32 (DPHeader_bytes h ++ payload) (0 + actionstring_ofs) = Ok src) as ->.
  { rewrite Ed. change (0 + actionstring_ofs)%nat with 20%nat. rewrite <- Hpre. by apply rd32_le4. }
  rewrite res_bind_ok, Hsz, (proj2 (Z.ltb_ge _ _)), Nat2Z.id by lia.
  replace (28 + length payload - sizeof_DPHeader)%nat with (length payload) by (unfold sizeof_DPHeader; lia).
  pose proof (rd_n_app (DPHeader_bytes h) payload []) as Hn. rewrite app_nil_r, length_DPHeader_bytes in Hn by done.
  change (0 + sizeof_DPHeader)%nat with sizeof_DPHeader. by rewrite Hn.
Qed.

Lemma parseGameData_single junk isLocal h src payload st st' es :
  DPHeader_wf h → looksOk h = true → h_size h = Z.of_nat (28 + length payload) →
  is_u32 src → h_actionstring h = le4 src → le4 src ≠ [112; 108; 97; 121] →
  parseTaPacket junk (mkParser (p_dups st) ∅ (p_progressTicks st)) src 0 isLocal payload = Ok (st', es) →
  parseGameData junk isLocal (ta_message h payload) st = Ok (st', es).
Proof.
  intros Hh Hok Hsz Hsrc Hact Hplay Hp. unfold parseGameData.
  pose proof (λ st0, parse_message_ta junk isLocal h src payload st0 Hh Hok Hsz Hsrc Hact Hplay) as Hm.
  assert (length (ta_message h payload) = S (27 + length payload)) as El
    by (unfold ta_message; by rewrite length_app, length_DPHeader_bytes).
  rewrite El. set (fuel := S (27 + length payload)). cbn [parse_loop]. rewrite El.
  rewrite (proj2 (Nat.ltb_lt 0 _)) by lia. cbv iota. rewrite Hm, Hp, !res_bind_ok. cbn [fst snd].
  destruct (header_reads0 h payload Hh) as (R1 & _). fold (ta_message h payload) in R1.
  rewrite R1, res_bind_ok, Hsz, Nat2Z.id. unfold fuel. cbn [parse_loop].
  rewrite El. cbn [Nat.add]. rewrite Nat.ltb_irrefl, res_bind_ok. by rewrite app_nil_r.
Qed.

(** a copy is one whose CRC is in the window, once the game is in progress *)
Definition is_copy (w : list Z) (src : Z) (payload : bytes) (st : TAPacketParser) : bool :=
  (0 <? p_progressTicks st) && bool_decide (packet_crc src 0 payload ∈ w).
Lemma checkDuplicate_copy w src payload st : dd_rep (p_dups st) w →
  (checkDuplicate st src 0 payload).1 = is_copy w src payload st.
Proof.
  intros Hr. unfold checkDuplicate, is_copy. destruct (0 <? p_progressTicks st); [|done]. cbn [andb Z.eqb].
  pose proof (isLikelyDuplicate_step src 0 payload (p_dups st) w Hr) as H. unfold window_step in H.
  destruct (isLikelyDuplicate src 0 payload (p_dups st)) as [b d]. by case_bool_decide; destruct H as [-> _].
Qed.
Lemma wire_restored compressed c1 c2 ts ps : ticking None ps → wire compressed c1 c2 ts (restored <$> ps) = wire compressed c1 c2 ts ps.
Proof. intros H. unfold wire, plain. by rewrite (smartPak_all_restored None). Qed.

(** C9: end to end: sub-packets packed by a SmartPaker, compressed or not, enciphered and
    sent behind a DirectPlay header (well formed, with the size of the message, and not
    that of a "play" message), reach the handlers as the same list of sub-packets, up to
    what the packer does not keep ([restored], as for [unsmartpak_smartPak], whose
    conditions on the stream are those here), in one call with the sender's id from the
    header; the parser records their codes and the latest tick they carry.  Only a copy is
    dropped: once a tick has been seen, a packet whose CRC is among the last 128 that the
    duplicate filter holds reaches no handler and changes only the filter. *)
Theorem parseGameData_delivers (junk : Z * Z) (isLocal compressed : bool) (h : DPHeader) (src c1 c2 ts : Z)
    (ps : list bytes) (st : TAPacketParser) (w : list Z) :
  let payload := wire compressed c1 c2 ts ps in
  ticking None ps → are_bytes (plain c1 c2 ts ps) →
  DPHeader_wf h → looksOk h = true → h_size h = Z.of_nat (28 + length payload) →
  is_u32 src → h_actionstring h = le4 src → le4 src ≠ [112; 108; 97; 121] → dd_rep (p_dups st) w →
  let st1 := (checkDuplicate (cleared st) src 0 payload).2 in
  parseGameData junk isLocal (ta_message h payload) st
  = Ok (if is_copy w src payload st then (st1, [])
        else (foldl note st1 (restored <$> ps), [onTaPacket src 0 isLocal payload (restored <$> ps)])).
Proof.
  intros payload Hps Hb Hh Hok Hsz Hsrc Hact Hplay Hr. pose proof (checkDuplicate_copy w src payload (cleared st) Hr) as Hc.
  change (is_copy w src payload (cleared st)) with (is_copy w src payload st) in Hc.
  destruct (checkDuplicate (cleared st) src 0 payload) as [b st1] eqn:E. cbn [fst snd] in *. subst b. cbv zeta.
  destruct (is_copy w src payload st); apply (parseGameData_single _ _ h src); try done; fold (cleared st).
  - unfold parseTaPacket. by rewrite E.
  - subst payload. revert E. rewrite <- wire_restored by done. intros E.
    apply parseTaPacket_wire; [by apply ticking_restored| |done]. unfold plain. by rewrite (smartPak_all_restored None).
Qed.

Lemma isLikelyDuplicate_again src dst data d w b d' : dd_rep d w →
  isLikelyDuplicate src dst data d = (b, d') → isLikelyDuplicate src dst data d' = (true, d').
Proof.
  intros Hr E. pose proof (isLikelyDuplicate_step src dst data d w Hr) as H. rewrite E in H.
  destruct (window_step (packet_crc src dst data) w) as [b' w'] eqn:Ew. destruct H as [-> Hr'].
  assert (packet_crc src dst data ∈ w') as Hin.
  { unfold window_step in Ew. case_bool_decide; injection Ew as <- <-; [done|].
    destruct Hr as (_ & _ & Hl & _). rewrite drop_app_le by (unfold EXPIRY_QUEUE_LENGTH in *; lia). set_solver. }
  destruct Hr' as (Hq & _ & _ & Hb). unfold isLikelyDuplicate.
  destruct (DD_insert_spec (packet_crc src dst data) _ w' Hb) as (E1 & E2 & _).
  rewrite E1, bool_decide_true by done. rewrite (E2 Hin). by destruct d'.
Qed.

Lemma noteSubpaks_frame ss st st' : noteSubpaks st ss = Ok st' →
  p_dups st' = p_dups st ∧ p_progressTicks st ≤ p_progressTicks st'.
Proof.
  revert st. induction ss as [|s ss IH]; intros st H; [injection H as <-; split; [done|lia]|].
  cbn [noteSubpaks] in H. apply res_bind_inv in H as (st1 & H1 & H). apply IH in H as [-> Ht].
  unfold noteSubpak in H1. apply res_bind_inv in H1 as (n & _ & H1).
  destruct (_ || _); [apply Ok_inj in H1 as <-; by split|].
  apply res_bind_inv in H1 as (c & _ & H1). case_bool_decide.
  - apply res_bind_inv in H1 as (t & _ & H1). apply Ok_inj in H1 as <-. cbn [p_dups p_progressTicks] in *. split; [done|lia].
  - apply Ok_inj in H1 as <-. by split.
Qed.

(** a packet that was parsed is in the window *)
Lemma parsed_is_known junk isLocal st st' st2 src payload w es : dd_rep (p_dups st) w → 0 < p_progressTicks st →
  parseTaPacket junk st src 0 isLocal payload = Ok (st', es) →
  p_dups st2 = p_dups st' → p_progressTicks st2 = p_progressTicks st' →
  checkDuplicate st2 src 0 payload = (true, st2).
Proof.
  intros Hr Ht H Hd2 Ht2. unfold parseTaPacket, checkDuplicate in H.
  rewrite (proj2 (Z.ltb_lt _ _) Ht) in H. cbn [andb Z.eqb] in H.
  destruct (isLikelyDuplicate src 0 payload (p_dups st)) as [b d'] eqn:E.
  pose proof (isLikelyDuplicate_again _ _ _ _ _ _ _ Hr E) as Hd.
  assert (p_dups st' = d' ∧ p_progressTicks st ≤ p_progressTicks st') as [Ed Hp].
  { destruct b; [apply Ok_inj in H; injection H as <- _; split; [done|apply Z.le_refl]|].
    destruct (decrypt payload 0 junk.1 junk.2) as [[pl ex] ca].
    destruct (negb _); [apply Ok_inj in H; injection H as <- _; split; [done|apply Z.le_refl]|].
    apply res_bind_inv in H as (code & _ & H). apply res_bind_inv in H as (pl' & _ & H).
    apply res_bind_inv in H as (ss & _ & H). apply res_bind_inv in H as (st3 & H2 & H).
    apply Ok_inj in H. injection H as <- _. by apply noteSubpaks_frame in H2. }
  unfold checkDuplicate. rewrite (proj2 (Z.ltb_lt _ _)) by lia. cbn [andb Z.eqb].
  rewrite Hd2, Ed, Hd. rewrite <- Ed, <- Hd2. by destruct st2.
Qed.

(** a copy of a packet that was broadcast is dropped: once the game is in progress,
    a game packet that was parsed without a failure and comes again at once, whatever
    socket it comes from, changes nothing and is not given to the handlers a second
    time. *)
Theorem parseTaPacket_no_copy (junk : Z * Z) (isLocal isLocal' : bool) (st st' : TAPacketParser) (src : Z)
    (payload : bytes) (w : list Z) (es : list event) :
  dd_rep (p_dups st) w → 0 < p_progressTicks st →
  parseTaPacket junk st src 0 isLocal payload = Ok (st', es) →
  parseTaPacket junk st' src 0 isLocal' payload = Ok (st', []).
Proof.
  intros Hr Ht H. unfold parseTaPacket. by rewrite (parsed_is_known _ _ _ _ st' _ _ _ _ Hr Ht H).
Qed.

Lemma getCWStr_loop_no_hang fuel data p : (length data < fuel + p)%nat → (0 < fuel)%nat →
  getCWStr_loop fuel data p ≠ Hang.
Proof.
  revert p. induction fuel as [|fuel IH]; intros p Hf H0; [lia|]. cbn [getCWStr_loop].
  destruct (rd16 data p) as [w|e| |] eqn:E; [|done..|by apply rd16_no_hang in E]. rewrite res_bind_ok.
  destruct (w =? 0); [done|]. apply rd16_in_bounds in E.
  apply bind_no_hang; [apply IH; lia|done].
Qed.
Lemma getCWStr_no_hang data p : getCWStr data p ≠ Hang.
Proof. apply getCWStr_loop_no_hang; lia. Qed.
Lemma skipCWStr_no_hang data p : skipCWStr data p ≠ Hang.
Proof. apply skipCWStr_spec. Qed.


(** ** The parser ends on every input *)

Lemma noteSubpak_no_hang st s : noteSubpak st s ≠ Hang.
Proof.
  unfold noteSubpak. apply bind_no_hang; [apply expected_size_no_hang|]. intros n _. case_match; [done|].
  apply bind_no_hang; [apply rd8_no_hang|]. intros c _. case_match; [|done].
  apply bind_no_hang; [apply rd32_not_hang|done].
Qed.
Lemma noteSubpaks_no_hang st ss : noteSubpaks st ss ≠ Hang.
Proof.
  revert st. induction ss as [|s ss IH]; intros st; [done|]. cbn [noteSubpaks].
  apply bind_no_hang; [apply noteSubpak_no_hang|]. intros st1 _. apply IH.
Qed.

Lemma parseTaPacket_no_hang junk st src other isLocal payload : are_bytes payload →
  parseTaPacket junk st src other isLocal payload ≠ Hang.
Proof.
  intros Hb. unfold parseTaPacket. destruct (checkDuplicate _ _ _ _) as [[] st1]; [done|].
  pose proof (decrypt_bytes payload 0 junk.1 junk.2 Hb) as Hd.
  destruct (decrypt payload 0 junk.1 junk.2) as [[p ex] ca]. simpl in Hd. case_match; [done|].
  apply bind_no_hang; [apply rd8_no_hang|]. intros code _.
  apply bind_no_hang; [case_match; [apply decompress_no_hang|done]|]. intros p2 Hp2.
  assert (are_bytes p2) as Hb2 by (case_match; [by apply decompress_bytes in Hp2|by apply Ok_inj in Hp2 as <-]).
  apply bind_no_hang; [by apply unsmartpak_no_hang|]. intros ss _.
  apply bind_no_hang; [apply noteSubpaks_no_hang|done].
Qed.

(** a computation of a place at or after [p] *)
Lemma super_player_spec data player :
  super_player data player ≠ Hang ∧ ∀ r, super_player data player = Ok r → (player + 4 ≤ r.2)%nat.
Proof.
  unfold super_player.
  set (g := λ {A} (get : A → nat) (r : res A), r ≠ Hang ∧ ∀ q, r = Ok q → (player + 4 ≤ get q)%nat).
  assert (∀ A B (get : A → nat) (get' : B → nat) (m : res A) (f : A → res B), g _ get m →
    (∀ a, (player + 4 ≤ get a)%nat → g _ get' (f a)) → g _ get' (m ≫= f)) as Hbind.
  { intros A B get get' m f [H1 H2] Hf. destruct m as [a|e| |]; [by apply Hf, H2|by split..|done]. }
  assert (∀ A (get : A → nat) a, (player + 4 ≤ get a)%nat → g _ get (Ok a)) as Hok
    by (intros; split; [done|by intros ? [= <-]]).
  assert (∀ A B (get : B → nat) (m : res A) (f : A → res B), m ≠ Hang → (∀ a, g _ get (f a)) → g _ get (m ≫= f)) as Hrd.
  { intros A B get m f Hm Hf. destruct m as [a|e| |]; [apply Hf|by split..|done]. }
  assert (∀ p, (player + 4 ≤ p)%nat → g _ snd (name ← getCWStr data p; ptr ← skipCWStr data p; Ok (name, ptr))) as Hname.
  { intros p Hp. apply Hrd; [apply getCWStr_no_hang|]. intros nm. apply (Hbind _ _ id).
    - destruct (skipCWStr_spec data p) as [H1 H2]. split; [done|]. intros q Hq. apply H2 in Hq. simpl. lia.
    - intros q Hq. by apply Hok. }
  assert (∀ (b : bool) (m : res Z) (k : Z → nat) p, m ≠ Hang → (player + 4 ≤ p)%nat → (∀ z, player + 4 ≤ k z)%nat →
    g _ id (if b then (z ← m; Ok (k z)) else Ok p)) as Hskip.
  { intros b m k p Hm Hp Hk. destruct b; [|by apply Hok]. apply Hrd; [done|]. intros z. apply Hok, Hk. }
  apply Hrd; [apply rd32_not_hang|]. intros size. apply Hrd; [apply rd32_not_hang|]. intros info.
  apply (Hbind _ _ snd); [case_match; [apply Hname; lia|apply Hok; simpl; lia]|]. intros [n1 p1] H1.
  apply (Hbind _ _ snd); [case_match; [by apply Hname|by apply Hok]|]. intros [n2 p2] H2. simpl in H1, H2.
  apply (Hbind _ _ id); [apply Hskip; [apply rd8_no_hang|lia|lia]|]. intros p3 H3. cbv [id] in H3.
  apply (Hbind _ _ id); [apply Hskip; [apply rd16_no_hang|lia|lia]|]. intros p4 H4. cbv [id] in H4.
  apply (Hbind _ _ id); [apply Hskip; [apply rd8_no_hang|lia|lia]|]. intros p5 H5. cbv [id] in H5.
  apply (Hbind _ _ id); [apply Hskip; [apply rd16_no_hang|lia|lia]|]. intros p6 H6. by apply Hok.
Qed.

Lemma super_players_no_hang fuel data player n count : (length data < fuel + player)%nat → (0 < fuel)%nat →
  super_players fuel data player n count ≠ Hang.
Proof.
  revert player n. induction fuel as [|fuel IH]; intros player n Hf H0; [lia|]. cbn [super_players].
  case_match; [|done]. destruct (super_player_spec data player) as [H1 H2].
  apply bind_no_hang; [done|]. intros [name addr] Hp. specialize (H2 _ Hp). simpl in H2.
  apply bind_no_hang; [apply rd32_not_hang|]. intros id Hid. apply rd32_in_bounds in Hid.
  apply bind_no_hang; [apply IH; lia|done].
Qed.

Lemma parseDplayPacket_no_hang data p : parseDplayPacket data p ≠ Hang.
Proof.
  unfold parseDplayPacket, command_at. apply bind_no_hang; [apply rd16_no_hang|]. intros c _.
  case_match; [|case_match; [|case_match; [|done]]].
  - apply bind_no_hang; [apply rd32_not_hang|]. intros po _. case_match; [done|].
    apply bind_no_hang; [apply rd32_not_hang|]. intros cnt _. apply super_players_no_hang; lia.
  - unfold parseDplayCreateOrForwardPlayer, command_at.
    apply bind_no_hang; [apply rd32_not_hang|]. intros spd _. case_match; [done|].
    do 2 (apply bind_no_hang; [apply rd32_not_hang|]; intros ? _).
    do 2 (apply bind_no_hang; [case_match; [apply getCWStr_no_hang|done]|]; intros ? _).
    apply bind_no_hang; [apply rd16_no_hang|]; intros ? _. by apply bind_no_hang; [apply rd32_not_hang|].
  - apply bind_no_hang; [apply rd32_not_hang|done].
Qed.

Lemma is_play_inv data p b : is_play data p = Ok b → (p + 20 ≤ length data)%nat.
Proof.
  unfold is_play. intros H. apply res_bind_inv in H as (c & H & _). unfold rd8 in H.
  destruct (data !! (p + 20)%nat) eqn:E; [apply lookup_lt_Some in E; lia|].
  destruct (Nat.eqb_spec (p + 20) (length data)); [lia|done].
Qed.

Lemma rd_n_bytes s i n b : are_bytes s → rd_n s i n = Ok b → are_bytes b.
Proof.
  unfold rd_n. intros Hs. case_match; [|case_match; [|done]]; intros [= <-].
  - by apply Forall_take, Forall_drop.
  - apply Forall_app. split; [by apply Forall_take, Forall_drop|]. apply Forall_singleton. unfold is_byte. lia.
Qed.

(** a turn of the loop does not hang, and goes on only past a header of 28 bytes *)
Lemma parse_message_spec junk isLocal data st ptr : are_bytes data → (ptr < length data)%nat →
  parse_message junk isLocal data st ptr ≠ Hang ∧
  ∀ st' es, parse_message junk isLocal data st ptr = Ok (Continue st' es) →
    ∀ size, size_at data ptr = Ok size → 28 ≤ size.
Proof.
  intros Hb Hp. unfold parse_message.
  destruct (looksOk_at data ptr) as [ok|e| |] eqn:Eok; [|by split..|by apply looksOk_at_no_hang in Eok].
  rewrite res_bind_ok. destruct (negb ok && (8 <? length data)%nat) eqn:Ec.
  - split.
    + do 2 (apply bind_no_hang; [apply rd32_not_hang|]; intros ? _).
      apply bind_no_hang; [apply rd_n_no_hang|]. intros pl Hpl.
      apply bind_no_hang; [|done]. apply parseTaPacket_no_hang. by eapply rd_n_bytes.
    + intros st' es H. repeat (apply res_bind_inv in H as (? & _ & H)). done.
  - split.
    + apply bind_no_hang. { unfold is_play. repeat (apply bind_no_hang; [apply rd8_no_hang|intros ? _]; try (case_match; [done|])). done. }
      intros play _. apply bind_no_hang; [apply size_at_no_hang|]. intros size _. destruct play.
      * apply bind_no_hang; [apply parseDplayPacket_no_hang|done].
      * apply bind_no_hang; [apply rd32_not_hang|]. intros src _. case_match; [done|].
        apply bind_no_hang; [apply rd_n_no_hang|]. intros pl Hpl.
        apply bind_no_hang; [|done]. apply parseTaPacket_no_hang. by eapply rd_n_bytes.
    + intros st' es H size Hsz. apply res_bind_inv in H as (play & Hplay & _). apply is_play_inv in Hplay.
      destruct ok; [by eapply looksOk_size|]. apply andb_false_iff in Ec as [?|Ec]; [done|].
      apply Nat.ltb_ge in Ec. lia.
Qed.

(** C36: [parseGameData] ends on every buffer, whatever a peer sends: the loops over
    messages, over the players of a message, over wide strings, over the groups of a
    compressed packet and over the sub-packets of a smartpak all make progress.  The
    address translation of the same traffic does not. *)
Theorem parseGameData_terminates (junk : Z * Z) (isLocal : bool) (data : bytes) (st : TAPacketParser) :
  are_bytes data → parseGameData junk isLocal data st ≠ Hang.
Proof.
  intros Hb. unfold parseGameData. generalize (mkParser (p_dups st) ∅ (p_progressTicks st)). clear st.
  assert (∀ fuel st ptr, (length data < fuel + ptr)%nat → (0 < fuel)%nat →
    parse_loop fuel junk isLocal data st ptr ≠ Hang) as H; [|intros st; apply H; lia].
  induction fuel as [|fuel IH]; intros st ptr Hf H0; [lia|]. cbn [parse_loop].
  destruct (Nat.ltb_spec ptr (length data)) as [Hlt|]; [|done].
  destruct (parse_message_spec junk isLocal data st ptr Hb Hlt) as [H1 H2].
  apply bind_no_hang; [done|]. intros [st' es|st' es] Hm; [|done].
  apply bind_no_hang; [apply size_at_no_hang|]. intros size Hsz. specialize (H2 _ _ Hm _ Hsz).
  apply bind_no_hang; [apply IH; lia|]. by intros [? ?].
Qed.

Lemma parseGameData_terminates_witness :
  parseGameData (0, 0) true (replicate 30 0) TAPacketParser_init ≠ Hang.
Proof.
  assert (are_bytes (replicate 30 0)) as H by bytes_compute.
  exact (parseGameData_terminates (0, 0) true _ TAPacketParser_init H).
Defined.

(** ** Witnesses *)

Definition ex_stream : list bytes := [move 5 [255;255;1;0]; [23; 7]; move 6 [1;2;3]].
Lemma ex_stream_ok : stream_ok None ex_stream.
Proof.
  apply stream_move; [by left|unfold is_u32; lia|simpl; lia|done|].
  apply stream_other.
  { by apply (self_delimited_fixed UNK_17). }
  { vm_compute. intros c Hc [= <-]. repeat (apply elem_of_cons in Hc as [?|Hc]; [done|]). by apply elem_of_nil in Hc. }
  apply stream_move; [by right|unfold is_u32; lia|simpl; lia|done|]. constructor.
Qed.
Definition ex_header (src payloadSize : Z) : DPHeader := DPHeader_make 2130706433 2300 (le4 src) 0 14 payloadSize.

Lemma parseGameData_delivers_witness :
  parseGameData (0, 0) true
    (ta_message (ex_header 77 (Z.of_nat (length (wire true 0 0 9 ex_ticking)))) (wire true 0 0 9 ex_ticking))
    (mkParser DD_init ∅ 4)
  = let st1 := (checkDuplicate (mkParser DD_init ∅ 4) 77 0 (wire true 0 0 9 ex_ticking)).2 in
    Ok (foldl note st1 (restored <$> ex_ticking), [onTaPacket 77 0 true (wire true 0 0 9 ex_ticking) (restored <$> ex_ticking)]).
Proof.
  assert (are_bytes (plain 0 0 9 ex_ticking)) as Hb by bytes_compute.
  assert (DPHeader_wf (ex_header 77 (Z.of_nat (length (wire true 0 0 9 ex_ticking))))) as Hh.
  { split_and!; [vm_compute; split; congruence|by apply DPAddress_make_wf|done|vm_compute; split; congruence..]. }
  apply (parseGameData_delivers (0, 0) true true (ex_header 77 (Z.of_nat (length (wire true 0 0 9 ex_ticking)))) 77 0 0 9
           ex_ticking (mkParser DD_init ∅ 4) [] ex_ticking_ok Hb Hh); try (vm_compute; reflexivity).
  - vm_compute. split; congruence.
  - vm_compute. congruence.
  - apply dd_rep_init.
Defined.

Lemma parseTaPacket_no_copy_witness : ∃ st' es,
  parseTaPacket (0, 0) (mkParser DD_init ∅ 5) 77 0 true (wire false 0 0 9 ex_stream) = Ok (st', es) ∧
  parseTaPacket (0, 0) st' 77 0 false (wire false 0 0 9 ex_stream) = Ok (st', []).
Proof.
  destruct (parseTaPacket (0, 0) (mkParser DD_init ∅ 5) 77 0 true (wire false 0 0 9 ex_stream))
    as [[st' es]|e| |] eqn:E; [|vm_compute in E; congruence..].
  exists st', es. split; [reflexivity|].
  assert (0 < p_progressTicks (mkParser DD_init ∅ 5)) as Ht by (simpl; lia).
  exact (parseTaPacket_no_copy (0, 0) true false (mkParser DD_init ∅ 5) st' 77 _ [] es dd_rep_init Ht E).
Defined.
