(* ===== verification/Resumable.v ===== *)
(** * Readers that can be resumed

    Code that consumes a stream of which only a part has arrived leaves by an exception
    ("not ready") and is called again later, with its state kept.  A program of this
    file takes its state and what the stream holds now, and returns a result, the new
    state, and what is left in the stream.  It [resumes] when running it on the parts of
    a stream, one after the other, comes to the same as running it on the whole. *)
From S2P Require Import Prelude.

Definition prog (S A : Type) : Type := S → bytes → res A * S * bytes.

Definition pret {S A} (a : A) : prog S A := λ s inp, (Ok a, s, inp).
(** an exception leaves the state as it is at that point *)
Definition pbind {S A B} (m : prog S A) (f : A → prog S B) : prog S B := λ s inp,
  match m s inp with
  | (Ok a, s, inp) => f a s inp
  | (Throw e, s, inp) => (Throw e, s, inp)
  | (Undef, s, inp) => (Undef, s, inp)
  | (Hang, s, inp) => (Hang, s, inp)
  end.
Definition pseq {S B} (m : prog S unit) (f : prog S B) : prog S B := pbind m (λ _, f).

Declare Scope prog_scope.
Delimit Scope prog_scope with prog.
Notation "m ;;; f" := (pseq m%prog f%prog) (at level 60, right associativity) : prog_scope.

(** [for (; cond; ) body], with fuel *)
Fixpoint ploop {S} (fuel : nat) (cond : S → bool) (body : prog S unit) : prog S unit :=
  match fuel with
  | O => λ s inp, (Hang, s, inp)
  | S fuel => λ s inp,
      if cond s then pseq body (ploop fuel cond body) s inp else (Ok tt, s, inp)
  end.
(** every turn of the loop takes something from the stream: its length is enough fuel *)
Definition pwhile {S} (cond : S → bool) (body : prog S unit) : prog S unit := λ s inp,
  ploop (Datatypes.S (length inp)) cond body s inp.

Section Resumable.
Context {S : Type} (ok : S → Prop).

Definition resumes {A} (m : prog S A) : Prop := ∀ s a b, ok s →
  match m s a with
  | (Throw DataNotReady, s', a') => a' = [] ∧ ok s' ∧ m s (a ++ b) = m s' b
  | (Ok x, s', a') => ok s' ∧ m s (a ++ b) = (Ok x, s', a' ++ b)
  | (x, s', a') => m s (a ++ b) = (x, s', a' ++ b)
  end.

(** [m] has nothing left to do in the state [s] *)
Definition passes (m : prog S unit) (s : S) : Prop := ∀ inp, m s inp = (Ok tt, s, inp).
(** [m] is over once it has returned: then [P] holds, and with [P] it has nothing to do *)
Definition completes (m : prog S unit) (P : S → Prop) : Prop :=
  (∀ s a s' a', ok s → m s a = (Ok tt, s', a') → P s') ∧ (∀ s, P s → passes m s).
(** [m'] keeps [P] when it stops to wait *)
Definition keeps_waiting {A} (P : S → Prop) (m' : prog S A) : Prop := ∀ s a s' a',
  ok s → P s → m' s a = (Throw DataNotReady, s', a') → P s'.
Definition keeps_done {A} (P : S → Prop) (m' : prog S A) : Prop := ∀ s a s' a' x,
  ok s → P s → m' s a = (Ok x, s', a') → P s'.

Lemma resumes_seq {A} P (m : prog S unit) (f : prog S A) :
  resumes m → completes m P → resumes f → keeps_waiting P f → resumes (pseq m f).
Proof.
  intros Hm [Hc HP] Hf Hk s a b Hs. unfold pseq, pbind. specialize (Hm s a b Hs). specialize (Hc s a).
  destruct (m s a) as [[[[]|[]| |] s1] a1] eqn:E; try (by rewrite Hm).
  - destruct Hm as [Hs1 ->]. specialize (Hc _ _ Hs eq_refl). pose proof (Hk s1 a1) as Hk1. pose proof (Hf s1 a1 b Hs1) as Hf1.
    destruct (f s1 a1) as [[[x|[]| |] s2] a2] eqn:Ef; try done.
    destruct Hf1 as (-> & Hs2 & ->). split; [done|]. split; [done|].
    by rewrite (HP _ (Hk1 _ _ Hs1 Hc eq_refl) b).
  - destruct Hm as (-> & Hs1 & ->). done.
Qed.

Lemma keeps_waiting_seq {A} P m1 (m2 : prog S A) : resumes m1 →
  keeps_waiting P m1 → keeps_done P m1 → keeps_waiting P m2 → keeps_waiting P (pseq m1 m2).
Proof.
  intros Hr H1 H1' H2 s a s' a' Hs Hp. unfold pseq, pbind. pose proof (Hr s a [] Hs) as Hok.
  destruct (m1 s a) as [[[[]|e| |] s1] a1] eqn:E1; intros Heq; try done.
  - eapply H2; [apply Hok|by eapply H1'|exact Heq].
  - injection Heq as -> <- <-. by eapply H1.
Qed.

(** a body that takes at least one byte whenever it returns *)
Definition consumes (body : prog S unit) : Prop := ∀ s a s' a',
  ok s → body s a = (Ok tt, s', a') → (length a' < length a)%nat.

Section Loop.
Context (cond : S → bool) (body : prog S unit).
Context (Hbody : resumes body) (Hcons : consumes body).

Lemma ploop_fuel f1 f2 s a : ok s → (length a < f1)%nat → (length a < f2)%nat →
  ploop f1 cond body s a = ploop f2 cond body s a.
Proof.
  revert f2 s a. induction f1 as [|f1 IH]; intros f2 s a Hs H1 H2; [lia|].
  destruct f2 as [|f2]; [lia|]. cbn [ploop]. destruct (cond s); [|done]. unfold pseq, pbind.
  pose proof (Hbody s a [] Hs) as Hok.
  destruct (body s a) as [[[[]|e| |] s1] a1] eqn:E; try done.
  apply Hcons in E; [|done]. apply IH; [apply Hok|lia..].
Qed.

(** the loop, one turn at a time *)
Lemma pwhile_step s a : ok s →
  pwhile cond body s a = if cond s then pseq body (pwhile cond body) s a else (Ok tt, s, a).
Proof.
  intros Hs. unfold pwhile at 1. cbn [ploop]. destruct (cond s); [|done]. unfold pseq, pbind.
  pose proof (Hbody s a [] Hs) as Hok.
  destruct (body s a) as [[[[]|e| |] s1] a1] eqn:E; try done.
  apply Hcons in E; [|done]. unfold pwhile. apply ploop_fuel; [apply Hok|lia..].
Qed.

Lemma pwhile_resumes :
  (∀ s a s' a', ok s → cond s = true → body s a = (Throw DataNotReady, s', a') → cond s' = true) →
  resumes (pwhile cond body).
Proof.
  intros Hcond s a b Hs. remember (length a) as n eqn:Hn. revert s a Hn Hs.
  induction n as [n IH] using lt_wf_ind; intros s a Hn Hs.
  rewrite !(pwhile_step s) by done. destruct (cond s) eqn:Ec; [|by split].
  unfold pseq, pbind. pose proof (Hbody s a b Hs) as H.
  destruct (body s a) as [[[[]|[]| |] s1] a1] eqn:E; try (by rewrite H).
  - destruct H as [Hs1 ->]. apply Hcons in E; [|done].
    exact (IH (length a1) ltac:(lia) s1 a1 eq_refl Hs1).
  - destruct H as (-> & Hs1 & ->). split; [done|]. split; [done|].
    rewrite (pwhile_step s1) by done. by rewrite (Hcond _ _ _ _ Hs Ec E).
Qed.

Lemma pwhile_completes : completes (pwhile cond body) (λ s, cond s = false).
Proof.
  split; cycle 1.
  { intros s Hc inp. unfold pwhile. cbn [ploop]. by rewrite Hc. }
  intros s a s' a' Hs. remember (length a) as n eqn:Hn. revert s a Hn Hs.
  induction n as [n IH] using lt_wf_ind; intros s a Hn Hs.
  rewrite pwhile_step by done. destruct (cond s) eqn:Ec; [|by intros [= <- <-]].
  unfold pseq, pbind. pose proof (Hbody s a [] Hs) as H.
  destruct (body s a) as [[[[]|e| |] s1] a1] eqn:E; try done. destruct H as [Hs1 _].
  apply Hcons in E; [|done]. exact (IH (length a1) ltac:(lia) s1 a1 eq_refl Hs1).
Qed.

(** what is kept by the body is kept by the loop *)
Lemma pwhile_keeps (P : S → Prop) :
  (∀ s a s' a' x, ok s → P s → body s a = (x, s', a') → P s') →
  ∀ s a s' a' x, ok s → P s → pwhile cond body s a = (x, s', a') → P s'.
Proof.
  intros HP s a s' a' x Hs. remember (length a) as n eqn:Hn. revert s a Hn Hs.
  induction n as [n IH] using lt_wf_ind; intros s a Hn Hs Hp.
  rewrite pwhile_step by done. destruct (cond s) eqn:Ec; [|by intros [= _ <- _]].
  unfold pseq, pbind. pose proof (Hbody s a [] Hs) as H.
  destruct (body s a) as [[[[]|e| |] s1] a1] eqn:E; intros Heq.
  - destruct H as [Hs1 _]. pose proof (Hcons _ _ _ _ Hs E). eapply (IH (length a1)); [lia|done|done| |exact Heq].
    exact (HP _ _ _ _ _ Hs Hp E).
  - injection Heq as <- <- <-. exact (HP _ _ _ _ _ Hs Hp E).
  - injection Heq as <- <- <-. exact (HP _ _ _ _ _ Hs Hp E).
  - injection Heq as <- <- <-. exact (HP _ _ _ _ _ Hs Hp E).
Qed.
End Loop.
End Resumable.

(** ** Programs over a part of the state *)

(** [m] on the part that [get] finds; a part that is not there is not to be accessed *)
Definition zoom {S T A} (get : S → option T) (put : T → S → S) (m : prog T A) : prog S A := λ s inp,
  match get s with
  | Some t => let '(x, t, inp) := m t inp in (x, put t s, inp)
  | None => (Undef, s, inp)
  end.

(** [m] has been done with the result [x], and does nothing but return it *)
Definition done_with {S A} (m : prog S A) (x : A) (s : S) : Prop := ∀ inp, m s inp = (Ok x, s, inp).

Section Zoom.
Context {S T : Type} (okS : S → Prop) (okT : T → Prop) (get : S → option T) (put : T → S → S).
Context (get_put : ∀ t s, is_Some (get s) → get (put t s) = Some t) (put_put : ∀ t t' s, put t (put t' s) = put t s).
Context (ok_get : ∀ s t, okS s → get s = Some t → okT t) (ok_put : ∀ s t, okS s → okT t → okS (put t s)).

Lemma zoom_resumes {A} (m : prog T A) : resumes okT m → resumes okS (zoom get put m).
Proof.
  intros Hm s a b Hs. unfold zoom. destruct (get s) as [t|] eqn:E; [|done].
  specialize (Hm t a b (ok_get s t Hs E)). destruct (m t a) as [[[x|[]| |] t1] a1]; try (by rewrite Hm).
  - destruct Hm as [Ht ->]. by split; [apply ok_put|].
  - destruct Hm as (-> & Ht & ->). split; [done|]. split; [by apply ok_put|].
    rewrite get_put by done. destruct (m t1 b) as [[x t2] b2]. by rewrite put_put.
Qed.
End Zoom.

(** what [m] keeps, however it ends, and what it keeps when it leaves by an exception *)
Definition preserves {S A} (P : S → Prop) (m : prog S A) : Prop := ∀ s a x s' a', P s → m s a = (x, s', a') → P s'.
Definition throws_with {S A} (P : S → Prop) (m : prog S A) : Prop := ∀ s a e s' a',
  P s → m s a = (Throw e, s', a') → P s'.
Lemma preserves_throws {S A} (P : S → Prop) (m : prog S A) : preserves P m → throws_with P m.
Proof. intros H s a e s' a'. apply H. Qed.
Lemma preserves_pret {S A} (P : S → Prop) (x : A) : preserves P (pret x).
Proof. by intros s a y s' a' Hs [= _ <- _]. Qed.
Lemma preserves_bind {S A B} (P : S → Prop) (m : prog S A) (f : A → prog S B) :
  preserves P m → (∀ x, preserves P (f x)) → preserves P (pbind m f).
Proof.
  intros Hm Hf s a x s' a' Hs. unfold pbind. destruct (m s a) as [[[y|e| |] s1] a1] eqn:E; apply Hm in E; try done.
  - by apply Hf.
  - by intros [= _ <- _].
  - by intros [= _ <- _].
  - by intros [= _ <- _].
Qed.
Lemma throws_bind {S A B} (P : S → Prop) (m : prog S A) (f : A → prog S B) :
  preserves P m → (∀ x, throws_with P (f x)) → throws_with P (pbind m f).
Proof.
  intros Hm Hf s a e0 s' a' Hs. unfold pbind. destruct (m s a) as [[[y|e| |] s1] a1] eqn:E; apply Hm in E; try done.
  - by apply Hf.
  - by intros [= _ <- _].
Qed.
Lemma preserves_zoom {S T A} (P : S → Prop) get put (m : prog T A) :
  (∀ s t, P s → P (put t s)) → preserves P (zoom get put m).
Proof.
  intros H s a x s' a' Hs. unfold zoom. destruct (get s) as [t|]; [|by intros [= _ <- _]].
  destruct (m t a) as [[y t1] a1]. intros [= _ <- _]. by apply H.
Qed.

(** [R x]: [m] is done with the result [x].  A bind resumes when its first part, once
    done, stays done while the second waits *)
Definition finishes {S A} (ok : S → Prop) (R : A → S → Prop) (m : prog S A) : Prop :=
  (∀ s a x s' a', ok s → m s a = (Ok x, s', a') → R x s') ∧ (∀ x s, R x s → done_with m x s).
Lemma resumes_bind {S A B} (ok : S → Prop) (R : A → S → Prop) (m : prog S A) (f : A → prog S B) :
  resumes ok m → finishes ok R m → (∀ x, resumes ok (f x)) → (∀ x, throws_with (R x) (f x)) → resumes ok (pbind m f).
Proof.
  intros Hm [Hd HR] Hf Hk s a b Hs. unfold pbind. specialize (Hm s a b Hs). specialize (Hd s a).
  destruct (m s a) as [[[x|[]| |] s1] a1] eqn:E; try (by rewrite Hm).
  - destruct Hm as [Hs1 ->]. specialize (Hd x _ _ Hs eq_refl). specialize (Hf x s1 a1 b Hs1). specialize (Hk x s1 a1 DataNotReady).
    destruct (f x s1 a1) as [[[y|[]| |] s2] a2]; try done.
    destruct Hf as (-> & Hs2 & ->). split; [done|]. split; [done|]. by rewrite (HR _ _ (Hk _ _ Hd eq_refl) b).
  - destruct Hm as (-> & Hs1 & ->). done.
Qed.
Lemma finishes_bind {S A B} (ok : S → Prop) (R : A → S → Prop) (Q : A → B → S → Prop) (m : prog S A) (f : A → prog S B) :
  resumes ok m → finishes ok R m → (∀ x, finishes ok (Q x) (f x)) → (∀ x, preserves (R x) (f x)) →
  finishes ok (λ y s, ∃ x, R x s ∧ Q x y s) (pbind m f).
Proof.
  intros Hm [H1 H2] Hf Hp. split.
  - intros s a y s' a' Hs. unfold pbind. pose proof (Hm s a [] Hs) as Hr. specialize (H1 s a).
    destruct (m s a) as [[[x|e| |] s1] a1] eqn:E; try done. intros E2. exists x. split.
    + apply (Hp x _ _ _ _ _ (H1 x _ _ Hs eq_refl) E2).
    + destruct (Hf x) as [F1 _]. by apply (F1 s1 a1 y s' a'); [apply Hr|].
  - intros y s (x & HR & HQ) inp. unfold pbind. rewrite (H2 _ _ HR inp). destruct (Hf x) as [_ F2]. by apply F2.
Qed.
Lemma finishes_pret {S A} (ok : S → Prop) (x : A) : finishes ok (λ y _, y = x) (pret x).
Proof. split; [by intros s a y s' a' _ [= -> _ _]|]. by intros y s ->. Qed.
(** a second part that does not wait needs nothing of the first *)
Lemma resumes_bind_last {S A B} (ok : S → Prop) (m : prog S A) (f : A → prog S B) :
  resumes ok m → (∀ x, resumes ok (f x)) → (∀ x s a, (f x s a).1.1 ≠ Throw DataNotReady) → resumes ok (pbind m f).
Proof.
  intros Hm Hf Hk s a b Hs. unfold pbind. specialize (Hm s a b Hs).
  destruct (m s a) as [[[x|[]| |] s1] a1] eqn:E; try (by rewrite Hm).
  - destruct Hm as [Hs1 ->]. specialize (Hf x s1 a1 b Hs1). specialize (Hk x s1 a1).
    destruct (f x s1 a1) as [[[y|[]| |] s2] a2]; done.
  - destruct Hm as (-> & Hs1 & ->). done.
Qed.
Lemma zoom_finishes {S T A} (okS : S → Prop) (okT : T → Prop) get put (R : A → T → Prop) (m : prog T A) :
  (∀ t s, is_Some (get s) → get (put t s) = Some t) → (∀ t s, get s = Some t → put t s = s) →
  (∀ s t, okS s → get s = Some t → okT t) → finishes okT R m →
  finishes okS (λ x s, ∃ t, get s = Some t ∧ R x t) (zoom get put m).
Proof.
  intros Hgp Hpg Hok [H1 H2]. split.
  - intros s a x s' a' Hs. unfold zoom. destruct (get s) as [t|] eqn:E; [|done].
    destruct (m t a) as [[y t1] a1] eqn:Em. intros [= -> <- <-]. exists t1. split; [by apply Hgp|].
    by apply (H1 t a x t1 a1 (Hok _ _ Hs E)).
  - intros x s (t & E & HR) inp. unfold zoom. rewrite E, (H2 _ _ HR inp). by rewrite (Hpg _ _ E).
Qed.

(** ** Failures that stay *)

(** once [m] has failed it fails in the same way for ever, and takes nothing *)
Definition sticks {S A} (ok : S → Prop) (m : prog S A) : Prop := ∀ s a e s' a',
  ok s → m s a = (Throw e, s', a') → e ≠ DataNotReady → ∀ inp, m s' inp = (Throw e, s', inp).
Lemma sticks_const {S A} (ok : S → Prop) (x : res A) : sticks ok (λ s inp, (x, s, inp)).
Proof. intros s a e s' a' _ [= -> <- _] _ inp. done. Qed.
Lemma sticks_never {S A} (ok : S → Prop) (m : prog S A) : (∀ s a e, ok s → (m s a).1.1 = Throw e → e = DataNotReady) → sticks ok m.
Proof. intros H s a e s' a' Hs E Hne. specialize (H s a e Hs). rewrite E in H. by destruct Hne; apply H. Qed.
Lemma sticks_bind {S A B} (ok : S → Prop) (R : A → S → Prop) (m : prog S A) (f : A → prog S B) :
  resumes ok m → finishes ok R m → (∀ x, throws_with (R x) (f x)) → sticks ok m → (∀ x, sticks ok (f x)) → sticks ok (pbind m f).
Proof.
  intros Hr [H1 H2] Hp Hm Hf s a e s' a' Hs. unfold pbind. specialize (Hr s a [] Hs). specialize (H1 s a). specialize (Hm s a).
  destruct (m s a) as [[[x|e'| |] s1] a1] eqn:E; try done.
  - intros E2 Hne inp. destruct Hr as [Hs1 _]. specialize (H1 x _ _ Hs eq_refl).
    rewrite (H2 x s' (Hp x _ _ _ _ _ H1 E2) inp). by apply (Hf x s1 a1 e s' a').
  - intros [= -> -> ->] Hne inp. by rewrite (Hm e s' a' Hs eq_refl Hne inp).
Qed.
Lemma sticks_bind_last {S A B} (ok : S → Prop) (m : prog S A) (f : A → prog S B) :
  sticks ok m → (∀ x s a e, (f x s a).1.1 ≠ Throw e) → sticks ok (pbind m f).
Proof.
  intros Hm Hf s a e s' a' Hs. unfold pbind. specialize (Hm s a).
  destruct (m s a) as [[[x|e'| |] s1] a1] eqn:E; try done.
  - intros E2. specialize (Hf x s1 a1 e). by rewrite E2 in Hf.
  - intros [= -> -> ->] Hne inp. by rewrite (Hm e s' a' Hs eq_refl Hne inp).
Qed.
Lemma zoom_sticks {S T A} (okS : S → Prop) (okT : T → Prop) get put (m : prog T A) :
  (∀ t s, is_Some (get s) → get (put t s) = Some t) → (∀ t t' s, put t (put t' s) = put t s) →
  (∀ s t, okS s → get s = Some t → okT t) → sticks okT m → sticks okS (zoom get put m).
Proof.
  intros Hgp Hpp Hok Hm s a e s' a' Hs. unfold zoom. destruct (get s) as [t|] eqn:E; [|done].
  destruct (m t a) as [[y t1] a1] eqn:Em. intros [= -> <- <-] Hne inp. rewrite Hgp by done.
  rewrite (Hm t a e t1 a1 (Hok _ _ Hs E) Em Hne inp). by rewrite Hpp.
Qed.

(** ** Reading what was written *)

(** from the state [s], [m] takes exactly [w] and returns [x] *)
Definition reads {S A} (m : prog S A) (s : S) (w : bytes) (x : A) (s' : S) : Prop :=
  ∀ rest, m s (w ++ rest) = (Ok x, s', rest).
Lemma reads_bind {S A B} (m : prog S A) (f : A → prog S B) s w1 x s1 w2 y s2 :
  reads m s w1 x s1 → reads (f x) s1 w2 y s2 → reads (pbind m f) s (w1 ++ w2) y s2.
Proof. intros H1 H2 rest. unfold pbind. by rewrite <- (assoc_L (++)), H1, H2. Qed.
Lemma reads_pret {S A} (x : A) (s : S) : reads (pret x) s [] x s.
Proof. done. Qed.
Lemma reads_zoom {S T A} (get : S → option T) put (m : prog T A) s t w x t' :
  get s = Some t → reads m t w x t' → reads (zoom get put m) s w x (put t' s).
Proof. intros E H rest. unfold zoom. by rewrite E, H. Qed.

(** what a result depends on is what was consumed *)
Definition local {S A} (m : prog S A) : Prop := ∀ s a x s' a', m s a = (Ok x, s', a') → ∃ c, a = c ++ a' ∧ reads m s c x s'.
Lemma local_const {S A} (x : S → res A) (g : S → S) : local (λ s inp, (x s, g s, inp)).
Proof. intros s a y s' a' [= Hx <- <-]. exists []. split; [done|]. intros rest. cbn. by rewrite Hx. Qed.
Lemma local_bind {S A B} (m : prog S A) (f : A → prog S B) : local m → (∀ x, local (f x)) → local (pbind m f).
Proof.
  intros Hm Hf s a y s' a'. unfold pbind at 1. destruct (m s a) as [[[x|e| |] s1] a1] eqn:E; try done. intros E2.
  destruct (Hm _ _ _ _ _ E) as (c1 & -> & R1). destruct (Hf x _ _ _ _ _ E2) as (c2 & -> & R2).
  exists (c1 ++ c2). split; [by rewrite (assoc_L (++))|]. by eapply reads_bind.
Qed.
Lemma local_zoom {S T A} (get : S → option T) put (m : prog T A) : local m → local (zoom get put m).
Proof.
  intros Hm s a x s' a'. unfold zoom at 1. destruct (get s) as [t|] eqn:E; [|done].
  destruct (m t a) as [[y t1] a1] eqn:Em. intros [= -> <- <-]. destruct (Hm _ _ _ _ _ Em) as (c & -> & R).
  exists c. split; [done|]. intros rest. unfold zoom. by rewrite E, R.
Qed.

(** no loop of [m] runs out of fuel *)
Definition hangs_not {S A} (m : prog S A) : Prop := ∀ s a, (m s a).1.1 ≠ Hang.
Lemma hangs_not_const {S A} (x : S → res A) (g : S → S) : (∀ s, x s ≠ Hang) → hangs_not (λ s inp, (x s, g s, inp)).
Proof. intros Hx s a. apply Hx. Qed.
Lemma hangs_not_bind {S A B} (m : prog S A) (f : A → prog S B) : hangs_not m → (∀ x, hangs_not (f x)) → hangs_not (pbind m f).
Proof.
  intros Hm Hf s a. unfold pbind. specialize (Hm s a). destruct (m s a) as [[[x|e| |] s1] a1]; try done. apply Hf.
Qed.
Lemma hangs_not_zoom {S T A} (get : S → option T) put (m : prog T A) : hangs_not m → hangs_not (zoom get put m).
Proof.
  intros Hm s a. unfold zoom. destruct (get s) as [t|]; [|done]. specialize (Hm t a). by destruct (m t a) as [[y t1] a1].
Qed.
