(* ===== verification/TADemoRecords.v ===== *)
(** * Demo files: records, writer and record reader

    TADemoRecords.h, TADemoWriter.cpp, and the [RecordReader] of TADemoParser.cpp, which
    can be called again when more of a growing file has arrived. *)
From S2P Require Import Prelude Resumable TPacketCrypt TPacketCompress TPacketSplit TPacketSmartpak.

(** ** The records *)
Record Header := mkHeader {
  hd_magic : bytes;       (* char[8] *)
  hd_version : Z; hd_numPlayers : Z; hd_maxUnits : Z; hd_mapName : bytes }.
Record ExtraHeader := mkExtraHeader { eh_numSectors : Z }.
Record ExtraSector := mkExtraSector { es_sectorType : Z; es_data : bytes }.
Record Player := mkPlayer { pl_color : Z; pl_side : Z; pl_number : Z; pl_name : bytes }.
Record PlayerStatusMessage := mkPlayerStatusMessage { sm_number : Z; sm_statusMessage : bytes }.
Record UnitData := mkUnitData { un_unitData : bytes }.
Record Packet := mkPacket { pk_time : Z; pk_sender : Z; pk_data : bytes }.

Definition getSide_name (p : Player) : string :=
  if pl_side p =? 0 then "ARM" else if pl_side p =? 1 then "CORE" else if pl_side p =? 2 then "WATCH" else "ARM".

(** ** TADemoWriter: what each [write] puts into the output *)
Definition writeRecord (s : bytes) : res bytes :=
  let size16 := u16 (2 + Z.of_nat (length s)) in
  if negb (size16 =? 2 + Z.of_nat (length s)) then Throw RuntimeError
  else Ok (le2 size16 ++ s).
Definition Header_payload (h : Header) : bytes :=
  hd_magic h ++ le2 (hd_version h) ++ [u8 (hd_numPlayers h)] ++ le2 (hd_maxUnits h) ++ take 64 (hd_mapName h).
Definition ExtraHeader_payload (h : ExtraHeader) : bytes := le4 (eh_numSectors h).
Definition ExtraSector_payload (e : ExtraSector) : bytes := le4 (es_sectorType e) ++ es_data e.
Definition Player_payload (p : Player) : bytes :=
  [u8 (pl_color p)] ++ [u8 (pl_side p)] ++ [u8 (pl_number p)] ++ take 16 (pl_name p).
Definition PlayerStatusMessage_payload (s : PlayerStatusMessage) : bytes := [sm_number s] ++ sm_statusMessage s.
Definition UnitData_payload (u : UnitData) : bytes := un_unitData u.
Definition Packet_payload (p : Packet) : bytes := le2 (pk_time p) ++ [pk_sender p] ++ pk_data p.
Definition write_Header (h : Header) : res bytes := writeRecord (Header_payload h).
Definition write_ExtraHeader (h : ExtraHeader) : res bytes := writeRecord (ExtraHeader_payload h).
Definition write_ExtraSector (e : ExtraSector) : res bytes := writeRecord (ExtraSector_payload e).
Definition write_Player (p : Player) : res bytes := writeRecord (Player_payload p).
Definition write_PlayerStatusMessage (s : PlayerStatusMessage) : res bytes := writeRecord (PlayerStatusMessage_payload s).
Definition write_UnitData (u : UnitData) : res bytes := writeRecord (UnitData_payload u).
Definition write_Packet (p : Packet) : res bytes := writeRecord (Packet_payload p).

(** ** RecordReader *)
Inductive State : Set := READ_RECLEN1 | READ_RECLEN2 | READ_RECORD.
Record RecordReader := mkReader {
  rr_state : State;
  rr_len0 : Z; rr_len1 : Z;           (* m_recordLength *)
  rr_got : bytes;                     (* the m_bytesRead bytes of m_readBuffer already read *)
  rr_size : nat }.                    (* m_readBuffer.size() *)
Definition RecordReader_init : RecordReader := mkReader READ_RECLEN1 0 0 [] 0.

(** the three parts of [operator()]; the stream holds what has arrived so far *)
Definition read_reclen1 : prog RecordReader unit := λ r inp,
  match rr_state r with
  | READ_RECLEN1 =>
      match inp with
      | b :: inp => (Ok tt, mkReader READ_RECLEN2 b (rr_len1 r) (rr_got r) (rr_size r), inp)
      | [] => (Throw DataNotReady, r, [])
      end
  | _ => (Ok tt, r, inp)
  end.
Definition read_reclen2 : prog RecordReader unit := λ r inp,
  match rr_state r with
  | READ_RECLEN2 =>
      match inp with
      | b :: inp =>
          let length := Z.lor (rr_len0 r) (Z.shiftl b 8) in
          if (32768 <? length) || (length <=? 2)
          then (Throw RuntimeError, mkReader READ_RECLEN2 (rr_len0 r) b (rr_got r) (rr_size r), inp)
          else (Ok tt, mkReader READ_RECORD (rr_len0 r) b [] (Z.to_nat (length - 2)), inp)
      | [] => (Throw DataNotReady, r, [])
      end
  | _ => (Ok tt, r, inp)
  end.
Definition read_record : prog RecordReader bytes := λ r inp,
  match rr_state r with
  | READ_RECORD =>
      let n := (rr_size r - length (rr_got r))%nat in
      let got := rr_got r ++ take n inp in
      if (length got <? rr_size r)%nat
      then (Throw DataNotReady, mkReader READ_RECORD (rr_len0 r) (rr_len1 r) got (rr_size r), drop n inp)
      else (Ok got, mkReader READ_RECLEN1 (rr_len0 r) (rr_len1 r) [] 0, drop n inp)
  | _ => (Ok [], r, inp)
  end.
Definition RecordReader_read : prog RecordReader bytes := (read_reclen1 ;;; read_reclen2 ;;; read_record)%prog.

(** ** What [DemoParser::load] makes of a record *)

Definition TA_Demo : bytes := [84; 65; 32; 68; 101; 109; 111; 0].
(** [isprint]; its argument is a [char], and a negative one is out of its domain *)
Definition isprint (b : Z) : res bool := if 128 <=? b then Undef else Ok ((32 <=? b) && (b <=? 126)).
Fixpoint all_printable (s : bytes) : res unit :=
  match s with
  | [] => Ok tt
  | b :: s => p ← isprint b; if p : bool then all_printable s else Throw RuntimeError
  end.
Definition parse_Header (data : bytes) : res Header :=
  magic ← rd_n data 0 8;
  if negb (bool_decide (magic = TA_Demo)) then Throw RuntimeError else
  version ← rd16 data 8;
  if (version <? 3) || (5 <? version) then Throw RuntimeError else
  numPlayers ← rd8 data 10;
  if 10 <? numPlayers then Throw RuntimeError else
  maxUnits ← rd16 data 11;
  if 5000 <? maxUnits then Throw RuntimeError else
  rest ← substr data 13;
  let mapName := c_str rest in
  if (64 <? length mapName)%nat then Throw RuntimeError else
  _ ← all_printable mapName;
  Ok (mkHeader magic version numPlayers maxUnits mapName).
Definition parse_ExtraHeader (data : bytes) : res ExtraHeader :=
  n ← rd32 data 0; if 10000 <? n then Throw RuntimeError else Ok (mkExtraHeader n).
Definition parse_ExtraSector (data : bytes) : res ExtraSector :=
  t ← rd32 data 0; d ← substr data 4; Ok (mkExtraSector t d).
Definition parse_Player (data : bytes) : res Player :=
  color ← rd8 data 0; side ← rd8 data 1; number ← rd8 data 2; rest ← substr data 3;
  Ok (mkPlayer color (s8 side) number (c_str rest)).
(** a wrong checksum is only logged; [junk] is the uninitialised [checks[2]] *)
Definition parse_PlayerStatusMessage (junk : Z * Z) (data : bytes) : res PlayerStatusMessage :=
  number ← rd8 data 0;
  let '(data, _, _) := decrypt data 1 junk.1 junk.2 in
  d ← decompress (drop 1 data) 3;
  m ← substr d 7;
  Ok (mkPlayerStatusMessage number m).
Definition parse_UnitData (data : bytes) : res UnitData := Ok (mkUnitData data).
Definition parse_Packet (data : bytes) : res Packet :=
  time ← rd16 data 0; sender ← rd8 data 2; d ← substr data 3; Ok (mkPacket time sender d).

(** ** The reader resumes where it stopped *)

Definition reader_ok (r : RecordReader) : Prop :=
  rr_state r = READ_RECORD → (length (rr_got r) < rr_size r)%nat.

Lemma take_drop_app_short {A} n (a b : list A) : (length a ≤ n)%nat →
  take n (a ++ b) = a ++ take (n - length a) b ∧ drop n (a ++ b) = drop (n - length a) b.
Proof.
  intros H. rewrite take_app, drop_app. rewrite take_ge, drop_ge by lia. done.
Qed.

Lemma read_record_resumes : resumes reader_ok read_record.
Proof.
  intros r a b Hr. unfold read_record. destruct (rr_state r) eqn:Es; try by split. specialize (Hr Es).
  set (n := (rr_size r - length (rr_got r))%nat).
  destruct (Nat.ltb_spec (length (rr_got r ++ take n a)) (rr_size r)) as [Hlt|Hge].
  - rewrite length_app, length_take in Hlt. assert (length a < n)%nat by lia.
    rewrite (take_ge a n), (drop_ge a n) by lia. split; [done|]. split; [intros _; simpl; rewrite length_app; lia|].
    cbn [rr_state rr_got rr_size rr_len0 rr_len1].
    destruct (take_drop_app_short n a b ltac:(lia)) as [-> ->]. rewrite app_assoc.
    replace (rr_size r - length (rr_got r ++ a))%nat with (n - length a)%nat by (rewrite length_app; lia). done.
  - rewrite length_app, length_take in Hge. assert (n ≤ length a)%nat by lia.
    rewrite take_app_le, drop_app_le by lia.
    rewrite (proj2 (Nat.ltb_ge _ _)) by (rewrite length_app, length_take; lia). by split.
Qed.

Lemma read_reclen1_resumes : resumes reader_ok read_reclen1.
Proof.
  intros r a b Hr. unfold read_reclen1. destruct (rr_state r) eqn:Es; try by split.
  destruct a as [|x a]; [|by split]. rewrite Es. done.
Qed.
Lemma read_reclen2_resumes : resumes reader_ok read_reclen2.
Proof.
  intros r a b Hr. unfold read_reclen2. destruct (rr_state r) eqn:Es; try by split.
  destruct a as [|x a]; [rewrite Es; done|]. cbn [app].
  set (l := Z.lor _ _). destruct (_ || _) eqn:Ec; [done|]. split; [|done]. intros _. simpl.
  apply orb_false_iff in Ec as [_ Ec]. apply Z.leb_gt in Ec. lia.
Qed.
Lemma passes_reclen1 r : rr_state r ≠ READ_RECLEN1 → passes read_reclen1 r.
Proof. intros H inp. unfold read_reclen1. by destruct (rr_state r). Qed.
Lemma passes_reclen2 r : rr_state r ≠ READ_RECLEN2 → passes read_reclen2 r.
Proof. intros H inp. unfold read_reclen2. by destruct (rr_state r). Qed.

Lemma read_record_waiting r a r' a' : read_record r a = (Throw DataNotReady, r', a') → rr_state r' = READ_RECORD.
Proof. unfold read_record. destruct (rr_state r); try done. case_match; [|done]. by intros [= <- <-]. Qed.
Lemma read_reclen2_done r a r' a' : read_reclen2 r a = (Ok tt, r', a') →
  rr_state r' = rr_state r ∧ rr_state r ≠ READ_RECLEN2 ∨ rr_state r' = READ_RECORD.
Proof.
  unfold read_reclen2. destruct (rr_state r) eqn:E; [|destruct a; [done|]; case_match; [done|]|].
  all: intros [= <- <-]; rewrite ?E; auto.
Qed.
Lemma read_reclen2_waiting r a r' a' : read_reclen2 r a = (Throw DataNotReady, r', a') → r' = r.
Proof.
  unfold read_reclen2. destruct (rr_state r); try done. destruct a; [by intros [= <- _]|]. by case_match.
Qed.

(** reading a growing file piece by piece gives the records of the whole *)
Lemma RecordReader_resumes : resumes reader_ok RecordReader_read.
Proof.
  unfold RecordReader_read.
  apply (resumes_seq _ (λ r, rr_state r ≠ READ_RECLEN1)); [apply read_reclen1_resumes| | |].
  - split; [|apply passes_reclen1]. intros r a r' a' _. unfold read_reclen1. intros H.
    destruct (rr_state r) eqn:E; [destruct a; [done|]|..]; injection H as <- _; simpl; congruence.
  - apply (resumes_seq _ (λ r, rr_state r ≠ READ_RECLEN2)); [apply read_reclen2_resumes| |apply read_record_resumes|].
    + split; [|apply passes_reclen2]. intros r a r' a' _ H. apply read_reclen2_done in H as [[-> H]| ->]; done.
    + intros r a r' a' _ _ H. apply read_record_waiting in H. by rewrite H.
  - apply keeps_waiting_seq; [apply read_reclen2_resumes|..].
    + intros r a r' a' _ H1 H. apply read_reclen2_waiting in H. by subst.
    + intros r a r' a' [] _ H1 H. apply read_reclen2_done in H as [[-> _]| ->]; done.
    + intros r a r' a' _ _ H. apply read_record_waiting in H. by rewrite H.
Qed.

(** ** Conversions do not wait *)

Lemma decompress_no_wait data hs : no_wait (decompress data hs).
Proof.
  unfold decompress. apply bind_no_wait; [auto with no_wait|]. intros b0. apply if_no_wait; [done|].
  apply bind_no_wait; [auto with no_wait|]. intros h. generalize (<[0%nat:=3]> h) as result.
  generalize hs at 2 as index. generalize (S (length data)) as fuel.
  assert (∀ n cbf nump index result, no_wait (decompress_group n cbf nump data hs index result)) as Hg.
  { induction n as [|n IH]; intros; cbn [decompress_group]; [done|]. cbv zeta. auto 8 with no_wait. }
  induction fuel as [|fuel IH]; intros; cbn [decompress_loop]; [done|]. apply if_no_wait; [|done].
  apply bind_no_wait; [auto with no_wait|]. intros cbf. apply bind_no_wait; [done|]. intros []; auto with no_wait.
Qed.

Lemma expected_size_no_wait s : no_wait (getExpectedSubPacketSize s).
Proof. destruct (expected_size_cases s) as [[_ [n ->]]|[_ ->]]; done. Qed.

Lemma unsmartpak_no_wait c ts cs : no_wait (unsmartpak c ts cs).
Proof.
  unfold unsmartpak. apply bind_no_wait; [auto with no_wait|]. intros b0.
  apply bind_no_wait; [apply if_no_wait; [apply decompress_no_wait|done]|]. intros buf.
  generalize 0 as packnum, (@nil bytes) as ut, (1 + (if cs then 2 else 0) + (if ts then 4 else 0))%nat as ptr.
  generalize (S (length buf)) as fuel.
  induction fuel as [|fuel IH]; intros; cbn [unsmartpak_loop]; [done|]. apply if_no_wait; [|done].
  apply bind_no_wait; [apply expected_size_no_wait|]. intros len. cbv zeta.
  apply bind_no_wait; [auto with no_wait|]. intros code.
  destruct (SubPacketCode_of code) as [[]|]; auto with no_wait.
Qed.

Lemma all_printable_no_wait s : no_wait (all_printable s).
Proof.
  induction s as [|b s IH]; cbn [all_printable]; [done|]. unfold isprint.
  apply bind_no_wait; auto with no_wait.
Qed.
#[export] Hint Resolve decompress_no_wait unsmartpak_no_wait all_printable_no_wait : no_wait.

Lemma parse_no_wait junk data :
  no_wait (parse_Header data) ∧ no_wait (parse_ExtraHeader data) ∧ no_wait (parse_ExtraSector data) ∧
  no_wait (parse_Player data) ∧ no_wait (parse_PlayerStatusMessage junk data) ∧ no_wait (parse_Packet data).
Proof.
  split_and!; unfold parse_Header, parse_ExtraHeader, parse_ExtraSector, parse_Player, parse_PlayerStatusMessage,
    parse_Packet; cbv zeta.
  5: destruct (decrypt _ _ _ _) as [[? ?] ?]. 5: auto 10 with no_wait.
  all: auto 30 with no_wait.
Qed.
