(* ===== verification/TADemoParser.v ===== *)
(** * The demo file parser (TADemoParser.cpp)

    [DemoParser] reads a demo file record by record and calls its handlers; it stops
    when the file has no more to give and goes on where it stopped when it is called
    again.  The calls to the handlers are logged in the state. *)
From S2P Require Import Prelude Resumable TPacketCrypt TPacketSmartpak TADemoRecords.

Inductive demo_event : Type :=
  | handle_Header (h : Header)
  | handle_ExtraSector (es : ExtraSector) (n ofTotal : Z)
  | handle_Player (p : Player) (n ofTotal : Z)
  | handle_PlayerStatusMessage (msg : PlayerStatusMessage) (dplayid n ofTotal : Z)
  | handle_UnitData (ud : UnitData)
  | handle_Packet (p : Packet) (unpacked : list bytes) (n : Z).

Record DemoParser := mkDemoParser {
  m_recordReader : RecordReader;
  m_header : option Header;
  m_extraHeader : option ExtraHeader;
  m_numExtraSectorsRead : Z;
  m_numPlayersRead : Z;
  m_numPlayerStatusMessagesRead : Z;
  m_numUnitDataRead : Z;
  m_numPacketsRead : Z;
  m_numTimesNewDataReceived : Z;
  handled : list demo_event }.
(** [m_numTimesNewDataReceived] has no initialiser *)
Definition DemoParser_init (junk : Z) : DemoParser :=
  mkDemoParser RecordReader_init None None 0 0 0 0 0 junk [].

Definition set_reader (r : RecordReader) (s : DemoParser) : DemoParser :=
  mkDemoParser r (m_header s) (m_extraHeader s) (m_numExtraSectorsRead s) (m_numPlayersRead s)
    (m_numPlayerStatusMessagesRead s) (m_numUnitDataRead s) (m_numPacketsRead s)
    (m_numTimesNewDataReceived s) (handled s).
Definition add_event (e : demo_event) (s : DemoParser) : DemoParser :=
  mkDemoParser (m_recordReader s) (m_header s) (m_extraHeader s) (m_numExtraSectorsRead s) (m_numPlayersRead s)
    (m_numPlayerStatusMessagesRead s) (m_numUnitDataRead s) (m_numPacketsRead s)
    (m_numTimesNewDataReceived s) (handled s ++ [e]).
Definition set_header (h : Header) (s : DemoParser) : DemoParser :=
  mkDemoParser (m_recordReader s) (Some h) (m_extraHeader s) (m_numExtraSectorsRead s) (m_numPlayersRead s)
    (m_numPlayerStatusMessagesRead s) (m_numUnitDataRead s) (m_numPacketsRead s)
    (m_numTimesNewDataReceived s) (handled s).
Definition set_extraHeader (eh : ExtraHeader) (s : DemoParser) : DemoParser :=
  mkDemoParser (m_recordReader s) (m_header s) (Some eh) (m_numExtraSectorsRead s) (m_numPlayersRead s)
    (m_numPlayerStatusMessagesRead s) (m_numUnitDataRead s) (m_numPacketsRead s)
    (m_numTimesNewDataReceived s) (handled s).
Definition set_counters (sectors players statuses units packets : Z) (s : DemoParser) : DemoParser :=
  mkDemoParser (m_recordReader s) (m_header s) (m_extraHeader s) (m_numExtraSectorsRead s + sectors)
    (m_numPlayersRead s + players) (m_numPlayerStatusMessagesRead s + statuses) (m_numUnitDataRead s + units)
    (m_numPacketsRead s + packets) (m_numTimesNewDataReceived s) (handled s).
Definition count_new_data (s : DemoParser) : DemoParser :=
  mkDemoParser (m_recordReader s) (m_header s) (m_extraHeader s) (m_numExtraSectorsRead s) (m_numPlayersRead s)
    (m_numPlayerStatusMessagesRead s) (m_numUnitDataRead s) (m_numPacketsRead s)
    (m_numTimesNewDataReceived s + 1) (handled s).

(** [load(x)] and what follows it up to the next [load]: [f] is given the record *)
Definition on_record (f : bytes → DemoParser → res DemoParser) : prog DemoParser unit := λ s inp,
  match RecordReader_read (m_recordReader s) inp with
  | (Ok data, r, inp) =>
      match f data (set_reader r s) with
      | Ok s => (Ok tt, s, inp)
      | Throw e => (Throw e, set_reader r s, inp)
      | Undef => (Undef, set_reader r s, inp)
      | Hang => (Hang, set_reader r s, inp)
      end
  | (Throw e, r, inp) => (Throw e, set_reader r s, inp)
  | (Undef, r, inp) => (Undef, set_reader r s, inp)
  | (Hang, r, inp) => (Hang, set_reader r s, inp)
  end.

(** [m_header->version] and [m_header->numPlayers] *)
Definition version (s : DemoParser) : Z := from_option hd_version 0 (m_header s).
Definition numPlayers (s : DemoParser) : Z := from_option hd_numPlayers 0 (m_header s).
Definition numSectors (s : DemoParser) : Z := from_option eh_numSectors 0 (m_extraHeader s).

Definition record_header (data : bytes) (s : DemoParser) : res DemoParser :=
  h ← parse_Header data; Ok (set_header h (add_event (handle_Header h) s)).
Definition record_extra_header (data : bytes) (s : DemoParser) : res DemoParser :=
  eh ← parse_ExtraHeader data; Ok (set_extraHeader eh s).
(** the addresses of the players are XORed with 42 *)
Definition record_sector (data : bytes) (s : DemoParser) : res DemoParser :=
  es ← parse_ExtraSector data;
  let es := if es_sectorType es =? 6
            then mkExtraSector (es_sectorType es) (map (λ c, Z.lxor c 42) (es_data es)) else es in
  Ok (set_counters 1 0 0 0 0 (add_event (handle_ExtraSector es (m_numExtraSectorsRead s) (numSectors s)) s)).
Definition record_player (data : bytes) (s : DemoParser) : res DemoParser :=
  p ← parse_Player data;
  Ok (set_counters 0 1 0 0 0 (add_event (handle_Player p (m_numPlayersRead s) (numPlayers s)) s)).
Definition record_status (junk : Z * Z) (data : bytes) (s : DemoParser) : res DemoParser :=
  msg ← parse_PlayerStatusMessage junk data;
  dplayid ← rd32 (sm_statusMessage msg) 145;
  Ok (set_counters 0 0 1 0 0
        (add_event (handle_PlayerStatusMessage msg dplayid (m_numPlayerStatusMessagesRead s) (numPlayers s)) s)).
Definition record_units (data : bytes) (s : DemoParser) : res DemoParser :=
  ud ← parse_UnitData data; Ok (set_counters 0 0 0 1 0 (add_event (handle_UnitData ud) s)).
Definition record_packet (data : bytes) (s : DemoParser) : res DemoParser :=
  p ← parse_Packet data;
  unpacked ← unsmartpak (pk_data p) (version s =? 3) false;
  Ok (set_counters 0 0 0 0 1 (add_event (handle_Packet p unpacked (m_numPacketsRead s)) s)).

Definition load_header : prog DemoParser unit := λ s inp,
  match m_header s with None => on_record record_header s inp | Some _ => (Ok tt, s, inp) end.
Definition load_extra_header : prog DemoParser unit := λ s inp,
  match m_extraHeader s with None => on_record record_extra_header s inp | Some _ => (Ok tt, s, inp) end.
Definition load_sectors : prog DemoParser unit :=
  pwhile (λ s, m_numExtraSectorsRead s <? numSectors s) (on_record record_sector).
Definition load_extra : prog DemoParser unit := λ s inp,
  if 4 <? version s then (load_extra_header ;;; load_sectors)%prog s inp else (Ok tt, s, inp).
Definition load_players : prog DemoParser unit :=
  pwhile (λ s, m_numPlayersRead s <? numPlayers s) (on_record record_player).
Definition load_statuses (junk : Z * Z) : prog DemoParser unit :=
  pwhile (λ s, m_numPlayerStatusMessagesRead s <? numPlayers s) (on_record (record_status junk)).
Definition load_units : prog DemoParser unit :=
  pwhile (λ s, m_numUnitDataRead s <? 1) (on_record record_units).
(** [for (n = 0u; n < maxPaksToLoad || maxPaksToLoad == 0u; ++n, ++m_numPacketsRead)] *)
Fixpoint packets_loop (fuel : nat) (maxPaksToLoad n : Z) : prog DemoParser unit :=
  match fuel with
  | O => λ s inp, (Hang, s, inp)
  | S fuel => λ s inp,
      if (n <? maxPaksToLoad) || (maxPaksToLoad =? 0)
      then pseq (on_record record_packet) (packets_loop fuel maxPaksToLoad (n + 1)) s inp
      else (Ok tt, s, inp)
  end.
Definition load_packets (maxPaksToLoad : Z) : prog DemoParser unit := λ s inp,
  packets_loop (S (length inp)) maxPaksToLoad 0 s inp.

Definition doParse (junk : Z * Z) (maxPaksToLoad : Z) : prog DemoParser unit :=
  (load_header ;;; load_extra ;;; load_players ;;; load_statuses junk ;;; load_units ;;;
   load_packets maxPaksToLoad)%prog.

(** [parse]: only the "not ready" exception is caught *)
Definition parse (junk : Z * Z) (maxPaksToLoad : Z) : prog DemoParser bool := λ s inp,
  let '(x, s', inp') := doParse junk maxPaksToLoad s inp in
  let received :=
    if m_numPacketsRead s <? m_numPacketsRead s' then (Ok true, count_new_data s', inp')
    else (Ok false, s', inp') in
  match x with
  | Ok _ => received
  | Throw DataNotReady => received
  | Throw e => (Throw e, s', inp')
  | Undef => (Undef, s', inp')
  | Hang => (Hang, s', inp')
  end.

(** ** The parser resumes *)

Definition parser_ok (s : DemoParser) : Prop := reader_ok (m_recordReader s).

(** handlers and conversions do not raise the "not ready" exception and leave the reader
    alone *)
Definition pure_handler (f : bytes → DemoParser → res DemoParser) : Prop := ∀ data s,
  f data s ≠ Throw DataNotReady ∧ ∀ s', f data s = Ok s' → m_recordReader s' = m_recordReader s.

Lemma set_reader_twice r r' s : set_reader r (set_reader r' s) = set_reader r s.
Proof. done. Qed.

Lemma on_record_resumes f : pure_handler f → resumes parser_ok (on_record f).
Proof.
  intros Hf s a b Hs. unfold on_record. pose proof (RecordReader_resumes (m_recordReader s) a b Hs) as H.
  destruct (RecordReader_read (m_recordReader s) a) as [[[data|[]| |] r] a1]; try (by rewrite H).
  - destruct H as [Hr ->]. destruct (Hf data (set_reader r s)) as [H1 H2].
    destruct (f data (set_reader r s)) as [s1|[]| |]; try done. split; [|done].
    unfold parser_ok. by rewrite H2.
  - destruct H as (-> & Hr & ->). by split.
Qed.

Lemma RecordReader_consumes r a data r' a' : reader_ok r →
  RecordReader_read r a = (Ok data, r', a') → (length a' < length a)%nat.
Proof.
  intros Hr. unfold RecordReader_read, pseq, pbind, read_reclen1.
  assert (∀ r a, reader_ok r → rr_state r = READ_RECORD → read_record r a = (Ok data, r', a') →
    (length a' < length a)%nat) as H3.
  { clear. intros r a Hr Hs. unfold read_record. rewrite Hs. specialize (Hr Hs). case_match eqn:E; [done|].
    apply Nat.ltb_ge in E. rewrite length_app, length_take in E. intros [= _ _ <-]. rewrite length_drop. lia. }
  assert (∀ r a, rr_state r = READ_RECLEN2 →
    match read_reclen2 r a with (Ok _, r, a) => read_record r a | (Throw e, r, a) => (Throw e, r, a)
      | (Undef, r, a) => (Undef, r, a) | (Hang, r, a) => (Hang, r, a) end = (Ok data, r', a') →
    (length a' < length a)%nat) as H2.
  { clear -H3. intros r a Hs. unfold read_reclen2. rewrite Hs. destruct a as [|b a]; [done|].
    destruct (_ || _) eqn:Ec; [done|]. intros H. apply H3 in H; [simpl; lia| |done].
    intros _. simpl. apply orb_false_iff in Ec as [_ Ec]. apply Z.leb_gt in Ec. lia. }
  destruct (rr_state r) eqn:Es.
  - destruct a as [|b a]; [done|]. intros H. apply H2 in H; [simpl; lia|done].
  - by apply H2.
  - unfold read_reclen2. rewrite Es. by apply H3.
Qed.

Lemma on_record_consumes f : consumes parser_ok (on_record f).
Proof.
  intros s a s' a' Hs. unfold on_record.
  destruct (RecordReader_read (m_recordReader s) a) as [[[data|e| |] r] a1] eqn:E; try done.
  apply RecordReader_consumes in E; [|done]. destruct (f data (set_reader r s)); try done. by intros [= _ <-].
Qed.

(** how a handler changes the parts of the state that the loops look at *)
Lemma on_record_wait f s a s' a' : pure_handler f →
  on_record f s a = (Throw DataNotReady, s', a') → ∃ r, s' = set_reader r s.
Proof.
  intros Hf. unfold on_record. destruct (RecordReader_read _ a) as [[[data|e| |] r] a1]; try done.
  - destruct (Hf data (set_reader r s)) as [H1 _]. destruct (f data (set_reader r s)) as [|[]| |]; try done.
  - intros [= _ <- _]. by eexists.
Qed.
Lemma on_record_done f s a s' a' x : on_record f s a = (Ok x, s', a') → ∃ data r, f data (set_reader r s) = Ok s'.
Proof.
  unfold on_record. destruct (RecordReader_read _ a) as [[[data|e| |] r] a1]; try done.
  destruct (f data (set_reader r s)) eqn:E; try done. intros [= _ <- _]. by eexists _, _.
Qed.

(** what the phases after the header leave alone *)
Definition le_state (s s' : DemoParser) : Prop :=
  m_header s' = m_header s ∧ m_extraHeader s' = m_extraHeader s ∧
  m_numExtraSectorsRead s ≤ m_numExtraSectorsRead s' ∧ m_numPlayersRead s ≤ m_numPlayersRead s' ∧
  m_numPlayerStatusMessagesRead s ≤ m_numPlayerStatusMessagesRead s' ∧ m_numUnitDataRead s ≤ m_numUnitDataRead s'.

Lemma le_state_refl s : le_state s s.
Proof. repeat split; lia. Qed.
Lemma le_state_trans s1 s2 s3 : le_state s1 s2 → le_state s2 s3 → le_state s1 s3.
Proof.
  intros (A & B & ? & ? & ? & ?) (C & D & ? & ? & ? & ?). unfold le_state. rewrite C, D, A, B.
  repeat split; lia.
Qed.

(** a handler that also keeps to [le_state] *)
Definition monotone (f : bytes → DemoParser → res DemoParser) : Prop :=
  ∀ data s s', f data s = Ok s' → le_state s s'.

Lemma handlers_ok junk :
  (pure_handler record_header ∧ pure_handler record_extra_header) ∧
  (pure_handler record_sector ∧ monotone record_sector) ∧ (pure_handler record_player ∧ monotone record_player) ∧
  (pure_handler (record_status junk) ∧ monotone (record_status junk)) ∧
  (pure_handler record_units ∧ monotone record_units) ∧ (pure_handler record_packet ∧ monotone record_packet).
Proof.
  split_and!; intros data s; destruct (parse_no_wait junk data) as (?&?&?&?&?&?);
    unfold record_header, record_extra_header, record_sector, record_player, record_status, record_units,
    record_packet, parse_UnitData.
  all: lazymatch goal with
       | |- _ ∧ _ => split; [cbv zeta; apply bind_no_wait; auto with no_wait; intros; auto with no_wait|]
       | |- _ => idtac
       end.
  all: intros s' Hs'; repeat (apply res_bind_inv in Hs' as (? & _ & Hs')); apply Ok_inj in Hs' as <-; try done.
  all: repeat split; cbn -[Z.add]; lia.
Qed.

Lemma on_record_le f s a s' a' x : monotone f → on_record f s a = (x, s', a') → le_state s s'.
Proof.
  intros Hf. unfold on_record. destruct (RecordReader_read _ a) as [[[data|e| |] r] a1].
  - destruct (f data (set_reader r s)) as [s1|e| |] eqn:E; intros [= _ <- _];
      [by apply Hf in E|repeat split; cbn; lia..].
  - intros [= _ <- _]. repeat split; cbn; lia.
  - intros [= _ <- _]. repeat split; cbn; lia.
  - intros [= _ <- _]. repeat split; cbn; lia.
Qed.

(** a counted loop over records *)
Section CountedLoop.
Context (cond : DemoParser → bool) (f : bytes → DemoParser → res DemoParser).
Context (Hpure : pure_handler f) (Hmono : monotone f) (Hcond : ∀ r s, cond (set_reader r s) = cond s).

Lemma counted_resumes : resumes parser_ok (pwhile cond (on_record f)).
Proof.
  apply pwhile_resumes; [by apply on_record_resumes|apply on_record_consumes|].
  intros s a s' a' _ Hc H. apply on_record_wait in H as [r ->]; [|done]. by rewrite Hcond.
Qed.
Lemma counted_le s a s' a' x : parser_ok s → pwhile cond (on_record f) s a = (x, s', a') → le_state s s'.
Proof.
  intros Hs H. apply (pwhile_keeps parser_ok cond (on_record f) (on_record_resumes f Hpure)
    (on_record_consumes f) (le_state s)) in H; [done| |done|apply le_state_refl].
  intros s1 a1 s1' a1' x1 _ Hle H1. eapply le_state_trans; [exact Hle|]. by eapply on_record_le.
Qed.
Lemma counted_completes : completes parser_ok (pwhile cond (on_record f)) (λ s, cond s = false).
Proof. apply pwhile_completes; [by apply on_record_resumes|apply on_record_consumes]. Qed.
End CountedLoop.

(** a phase: it resumes, is over once it has returned, and what it leaves is kept by
    the later phases *)
Definition stable (P : DemoParser → Prop) : Prop := ∀ s s', le_state s s' → P s → P s'.

Lemma stable_counter (num : DemoParser → Z) (total : DemoParser → Z) :
  (∀ s s', le_state s s' → num s ≤ num s') → (∀ s s', le_state s s' → total s' = total s) →
  stable (λ s, (num s <? total s) = false).
Proof. intros Hn Ht s s' Hle. rewrite (Ht _ _ Hle). pose proof (Hn _ _ Hle). rewrite !Z.ltb_ge. lia. Qed.

Lemma le_numPlayers s s' : le_state s s' → numPlayers s' = numPlayers s.
Proof. intros (E & _). unfold numPlayers. by rewrite E. Qed.
Lemma le_version s s' : le_state s s' → version s' = version s.
Proof. intros (E & _). unfold version. by rewrite E. Qed.
Lemma le_numSectors s s' : le_state s s' → numSectors s' = numSectors s.
Proof. intros (_ & E & _). unfold numSectors. by rewrite E. Qed.

Definition phase (m : prog DemoParser unit) : Prop :=
  resumes parser_ok m ∧ (∃ P, completes parser_ok m P ∧ stable P) ∧
  (∀ s a s' a' x, parser_ok s → m s a = (x, s', a') → le_state s s').

Lemma counted_phase cond f : pure_handler f → monotone f → (∀ r s, cond (set_reader r s) = cond s) →
  stable (λ s, cond s = false) → phase (pwhile cond (on_record f)).
Proof.
  intros Hp Hm Hc Hs. split_and!.
  - by apply counted_resumes.
  - eexists. split; [by apply counted_completes|done].
  - intros s a s' a' x. by apply counted_le.
Qed.

(** the phases from one on *)
Definition tail_ok (m : prog DemoParser unit) : Prop :=
  resumes parser_ok m ∧ ∀ s a s' a' x, parser_ok s → m s a = (x, s', a') → le_state s s'.

Lemma tail_seq m1 m2 : phase m1 → tail_ok m2 → tail_ok (pseq m1 m2).
Proof.
  intros (R1 & (P & C1 & S1) & L1) (R2 & L2). split.
  - apply (resumes_seq _ P); [done..|]. intros s a s' a' Hs H1 H2. eapply S1; [by eapply L2|exact H1].
  - intros s a s' a' x Hs. unfold pseq, pbind. pose proof (R1 s a [] Hs) as Hok.
    destruct (m1 s a) as [[[[]|e| |] s1] a1] eqn:E; [|intros [= _ <- _]; by eapply L1..].
    intros H. eapply le_state_trans; [by eapply L1|eapply L2; [apply Hok|exact H]].
Qed.

Lemma load_players_phase : phase load_players.
Proof.
  destruct (handlers_ok (0, 0)) as (_ & _ & [H1 H2] & _). apply counted_phase; [done..|].
  apply stable_counter; [by intros s s' (_ & _ & _ & ? & _)|apply le_numPlayers].
Qed.
Lemma load_statuses_phase junk : phase (load_statuses junk).
Proof.
  destruct (handlers_ok junk) as (_ & _ & _ & [H1 H2] & _). apply counted_phase; [done..|].
  apply stable_counter; [by intros s s' (_ & _ & _ & _ & ? & _)|apply le_numPlayers].
Qed.
Lemma load_units_phase : phase load_units.
Proof.
  destruct (handlers_ok (0, 0)) as (_ & _ & _ & _ & [H1 H2] & _). apply counted_phase; [done..|].
  apply (stable_counter _ (λ _, 1)); [by intros s s' (_ & _ & _ & _ & _ & ?)|done].
Qed.

Lemma packets_loop_unlimited fuel n s inp :
  packets_loop fuel 0 n s inp = ploop fuel (λ _, true) (on_record record_packet) s inp.
Proof.
  revert n s inp. induction fuel as [|fuel IH]; intros n s inp; [done|]. cbn [packets_loop ploop].
  rewrite orb_true_r. unfold pseq, pbind. destruct (on_record record_packet s inp) as [[[]?]?]; done || apply IH.
Qed.
Lemma load_packets_unlimited s inp : load_packets 0 s inp = pwhile (λ _, true) (on_record record_packet) s inp.
Proof. apply packets_loop_unlimited. Qed.

Lemma resumes_ext {A} (m m' : prog DemoParser A) : (∀ s a, m s a = m' s a) → resumes parser_ok m' → resumes parser_ok m.
Proof. intros E H s a b Hs. rewrite !E. specialize (H s a b Hs). destruct (m' s a) as [[[|[]| |] ?] ?]; rewrite ?E; done. Qed.

Lemma load_packets_tail : tail_ok (load_packets 0).
Proof.
  destruct (handlers_ok (0, 0)) as (_ & _ & _ & _ & _ & [H1 H2]). split.
  - apply (resumes_ext _ _ load_packets_unlimited). by apply counted_resumes.
  - intros s a s' a' x. rewrite load_packets_unlimited. by apply counted_le.
Qed.

(** the extra sectors: only after version 4 *)
Lemma load_extra_header_resumes : resumes parser_ok load_extra_header.
Proof.
  destruct (handlers_ok (0, 0)) as ([_ H1] & _). intros s a b Hs. unfold load_extra_header.
  pose proof (on_record_resumes record_extra_header H1 s a b Hs) as H.
  destruct (m_extraHeader s) as [eh|] eqn:E; [by split|].
  destruct (on_record record_extra_header s a) as [[[[]|[]| |] s1] a1] eqn:Eo; try done.
  apply on_record_wait in Eo as [r ->]; [|done]. simpl. by rewrite E.
Qed.
Lemma load_extra_header_done s a s' a' x : load_extra_header s a = (Ok x, s', a') → m_extraHeader s' ≠ None.
Proof.
  unfold load_extra_header. destruct (m_extraHeader s) eqn:E; [intros [= _ <- _]; by rewrite E|].
  intros H. apply on_record_done in H as (data & r & H). unfold record_extra_header in H.
  apply res_bind_inv in H as (eh & _ & H). apply Ok_inj in H as <-. done.
Qed.
Lemma passes_extra_header s : m_extraHeader s ≠ None → passes load_extra_header s.
Proof. intros H inp. unfold load_extra_header. by destruct (m_extraHeader s). Qed.

Lemma sectors_phase : phase load_sectors ∧ completes parser_ok load_sectors
  (λ s, (m_numExtraSectorsRead s <? numSectors s) = false).
Proof.
  destruct (handlers_ok (0, 0)) as (_ & [H1 H2] & _). split; [|by apply counted_completes].
  apply counted_phase; [done..|]. apply stable_counter; [by intros s s' (_ & _ & ? & _)|apply le_numSectors].
Qed.

(** all sectors of a file of version 5 are read *)
Definition sectors_read (s : DemoParser) : Prop :=
  4 < version s → m_extraHeader s ≠ None ∧ (m_numExtraSectorsRead s <? numSectors s) = false.

Lemma load_extra_header_header s a s' a' x : load_extra_header s a = (x, s', a') → m_header s' = m_header s.
Proof.
  unfold load_extra_header. destruct (m_extraHeader s); [by intros [= _ <- _]|].
  unfold on_record. destruct (RecordReader_read _ a) as [[[data|e| |] r] a1]; try (by intros [= _ <- _]).
  unfold record_extra_header. destruct (parse_ExtraHeader data); by intros [= _ <- _].
Qed.

Lemma extra_seq_resumes : resumes parser_ok (pseq load_extra_header load_sectors).
Proof.
  destruct sectors_phase as [(R & _ & L) _].
  apply (resumes_seq _ (λ s, m_extraHeader s ≠ None)); [apply load_extra_header_resumes| |done|].
  - split; [|apply passes_extra_header]. intros s a s' a' _ H. by eapply load_extra_header_done.
  - intros s a s' a' Hs Hp H. apply L in H as (_ & -> & _); done.
Qed.

Lemma load_extra_header_kept s a s' a' x : parser_ok s → load_extra s a = (x, s', a') → m_header s' = m_header s.
Proof.
  destruct sectors_phase as [(_ & _ & L) _]. intros Hs. unfold load_extra. case_match; [|by intros [= _ <- _]].
  unfold pseq, pbind. pose proof (load_extra_header_resumes s a [] Hs) as Hok.
  destruct (load_extra_header s a) as [[[[]|e| |] s1] a1] eqn:E;
    [|intros [= _ <- _]; by eapply load_extra_header_header..].
  intros Heq. apply L in Heq as (-> & _); [by eapply load_extra_header_header|apply Hok].
Qed.

Lemma load_extra_resumes : resumes parser_ok load_extra.
Proof.
  intros s a b Hs. pose proof (load_extra_header_kept s a) as Hk. unfold load_extra in *.
  destruct (4 <? version s) eqn:Ev; [|by split]. pose proof (extra_seq_resumes s a b Hs) as H.
  destruct (pseq load_extra_header load_sectors s a) as [[[[]|[]| |] s'] a']; try done.
  assert (version s' = version s) as -> by (unfold version; by rewrite (Hk _ _ _ Hs eq_refl)).
  by rewrite Ev.
Qed.

Lemma load_extra_completes : completes parser_ok load_extra sectors_read.
Proof.
  destruct sectors_phase as [(_ & _ & L) [C1 C2]]. split.
  - intros s a s' a' Hs H Hv. pose proof (load_extra_header_kept _ _ _ _ _ Hs H) as Hh. revert H. unfold load_extra.
    assert (version s' = version s) as Ev by (unfold version; by rewrite Hh).
    rewrite (proj2 (Z.ltb_lt _ _)) by lia. unfold pseq, pbind.
    pose proof (load_extra_header_resumes s a [] Hs) as Hok.
    destruct (load_extra_header s a) as [[[[]|e| |] s1] a1] eqn:E; try done. destruct Hok as [Hs1 _].
    apply load_extra_header_done in E. intros H. split; [|by eapply C1].
    apply L in H as (_ & -> & _); done.
  - intros s H inp. unfold load_extra. destruct (Z.ltb_spec 4 (version s)) as [Hv|]; [|done].
    destruct (H Hv) as [H1 H2]. unfold pseq, pbind. rewrite (passes_extra_header s H1). by apply C2.
Qed.

Lemma sectors_read_stable : stable sectors_read.
Proof.
  intros s s' Hle H Hv. rewrite (le_version _ _ Hle) in Hv. destruct (H Hv) as [H1 H2].
  rewrite (le_numSectors _ _ Hle). destruct Hle as (_ & -> & Hn & _). split; [done|].
  rewrite Z.ltb_ge in *. lia.
Qed.

Lemma load_header_resumes : resumes parser_ok load_header.
Proof.
  destruct (handlers_ok (0, 0)) as ([H1 _] & _). intros s a b Hs. unfold load_header.
  pose proof (on_record_resumes record_header H1 s a b Hs) as H.
  destruct (m_header s) as [h|] eqn:E; [by split|].
  destruct (on_record record_header s a) as [[[[]|[]| |] s1] a1] eqn:Eo; try done.
  apply on_record_wait in Eo as [r ->]; [|done]. simpl. by rewrite E.
Qed.

Lemma load_header_completes : completes parser_ok load_header (λ s, m_header s ≠ None).
Proof.
  split.
  - intros s a s' a' _. unfold load_header. destruct (m_header s) eqn:E; [intros [= <- _]; by rewrite E|].
    intros H. apply on_record_done in H as (data & r & H). apply res_bind_inv in H as (h & _ & H).
    by apply Ok_inj in H as <-.
  - intros s H inp. unfold load_header. by destruct (m_header s).
Qed.

Lemma doParse_resumes junk : resumes parser_ok (doParse junk 0).
Proof.
  assert (tail_ok (load_players ;;; load_statuses junk ;;; load_units ;;; load_packets 0)%prog) as [R L].
  { apply tail_seq; [apply load_players_phase|]. apply tail_seq; [apply load_statuses_phase|].
    apply tail_seq; [apply load_units_phase|apply load_packets_tail]. }
  assert (resumes parser_ok (pseq load_extra (load_players ;;; load_statuses junk ;;; load_units ;;; load_packets 0)%prog)) as R1.
  { apply (resumes_seq _ sectors_read); [apply load_extra_resumes|apply load_extra_completes|done|].
    intros s a s' a' Hs H1 H2. eapply sectors_read_stable; [by eapply L|done]. }
  apply (resumes_seq _ (λ s, m_header s ≠ None)); [apply load_header_resumes|apply load_header_completes|done|].
  intros s a s' a' Hs Hp. unfold pseq at 1, pbind. pose proof (load_extra_resumes s a [] Hs) as Hok.
  destruct (load_extra s a) as [[[[]|e| |] s1] a1] eqn:E; intros Heq; try done.
  - apply L in Heq as (-> & _); [|apply Hok]. by rewrite (load_extra_header_kept _ _ _ _ _ Hs E).
  - injection Heq as -> <- <-. by rewrite (load_extra_header_kept _ _ _ _ _ Hs E).
Qed.

(** ** The counter of [parse] has no influence on the rest *)

Definition with_times (t : Z) (s : DemoParser) : DemoParser :=
  mkDemoParser (m_recordReader s) (m_header s) (m_extraHeader s) (m_numExtraSectorsRead s) (m_numPlayersRead s)
    (m_numPlayerStatusMessagesRead s) (m_numUnitDataRead s) (m_numPacketsRead s) t (handled s).
Definition commutes {A} (m : prog DemoParser A) : Prop := ∀ t s inp,
  m (with_times t s) inp = let '(x, s', inp') := m s inp in (x, with_times t s', inp').

Lemma commutes_seq {A} m1 (m2 : prog DemoParser A) : commutes m1 → commutes m2 → commutes (pseq m1 m2).
Proof.
  intros H1 H2 t s inp. unfold pseq, pbind. rewrite H1.
  destruct (m1 s inp) as [[[[]|e| |] s1] a1]; first [apply H2|done].
Qed.
Lemma commutes_record f : (∀ t data s, f data (with_times t s) = (s' ← f data s; Ok (with_times t s'))) →
  commutes (on_record f).
Proof.
  intros Hf t s inp. unfold on_record. change (m_recordReader (with_times t s)) with (m_recordReader s).
  destruct (RecordReader_read (m_recordReader s) inp) as [[[data|e| |] r] a1]; try done.
  change (set_reader r (with_times t s)) with (with_times t (set_reader r s)). rewrite Hf.
  by destruct (f data (set_reader r s)).
Qed.
Lemma commutes_while cond body : (∀ t s, cond (with_times t s) = cond s) → commutes body → commutes (pwhile cond body).
Proof.
  intros Hc Hb t s inp. unfold pwhile. generalize (S (length inp)) as fuel. intros fuel. revert s inp.
  induction fuel as [|fuel IH]; intros s inp; [done|]. cbn [ploop]. rewrite Hc. destruct (cond s); [|done].
  unfold pseq, pbind. rewrite Hb. destruct (body s inp) as [[[[]|e| |] s1] a1]; first [apply IH|done].
Qed.

Lemma commutes_handlers junk t data s :
  record_header data (with_times t s) = (s' ← record_header data s; Ok (with_times t s')) ∧
  record_extra_header data (with_times t s) = (s' ← record_extra_header data s; Ok (with_times t s')) ∧
  record_sector data (with_times t s) = (s' ← record_sector data s; Ok (with_times t s')) ∧
  record_player data (with_times t s) = (s' ← record_player data s; Ok (with_times t s')) ∧
  record_status junk data (with_times t s) = (s' ← record_status junk data s; Ok (with_times t s')) ∧
  record_units data (with_times t s) = (s' ← record_units data s; Ok (with_times t s')) ∧
  record_packet data (with_times t s) = (s' ← record_packet data s; Ok (with_times t s')).
Proof.
  unfold record_header, record_extra_header, record_sector, record_player, record_status, record_units, record_packet.
  split_and!.
  - by destruct (parse_Header data).
  - by destruct (parse_ExtraHeader data).
  - by destruct (parse_ExtraSector data).
  - by destruct (parse_Player data).
  - destruct (parse_PlayerStatusMessage junk data) as [m|e| |]; try done. cbn. by destruct (rd32 _ _).
  - done.
  - destruct (parse_Packet data) as [p|e| |]; try done. cbn -[unsmartpak]. change (version (with_times t s)) with (version s).
    by destruct (unsmartpak _ _ _).
Qed.

Lemma doParse_commutes junk : commutes (doParse junk 0).
Proof.
  pose proof (commutes_handlers junk) as H. unfold doParse. repeat apply commutes_seq.
  - intros t s inp. unfold load_header. change (m_header (with_times t s)) with (m_header s).
    destruct (m_header s); [done|]. apply commutes_record. intros t' d' s'. apply H.
  - intros t s inp. unfold load_extra. change (version (with_times t s)) with (version s).
    destruct (4 <? version s); [|done]. apply commutes_seq.
    + intros t' s' inp'. unfold load_extra_header. change (m_extraHeader (with_times t' s')) with (m_extraHeader s').
      destruct (m_extraHeader s'); [done|]. apply commutes_record. intros t2 d2 s2. apply H.
    + apply commutes_while; [done|]. apply commutes_record. intros t2 d2 s2. apply H.
  - apply commutes_while; [done|]. apply commutes_record. intros t2 d2 s2. apply H.
  - apply commutes_while; [done|]. apply commutes_record. intros t2 d2 s2. apply H.
  - apply commutes_while; [done|]. apply commutes_record. intros t2 d2 s2. apply H.
  - intros t s inp. rewrite !load_packets_unlimited. apply commutes_while; [done|]. apply commutes_record.
    intros t2 d2 s2. apply H.
Qed.

Lemma doParse_never_done junk s inp s' inp' : parser_ok s → doParse junk 0 s inp ≠ (Ok tt, s', inp').
Proof.
  assert (∀ m, resumes parser_ok m → ∀ (f : prog DemoParser unit),
    (∀ s inp s' inp', parser_ok s → f s inp ≠ (Ok tt, s', inp')) →
    ∀ s inp s' inp', parser_ok s → pseq m f s inp ≠ (Ok tt, s', inp')) as Hseq.
  { intros m Hm f Hf s1 i1 s2 i2 Hs. unfold pseq, pbind. pose proof (Hm s1 i1 [] Hs) as Hok.
    destruct (m s1 i1) as [[[[]|e| |] s3] i3]; try done. apply Hf, Hok. }
  revert s inp s' inp'. unfold doParse.
  apply Hseq; [apply load_header_resumes|]. apply Hseq; [apply load_extra_resumes|].
  apply Hseq; [apply load_players_phase|]. apply Hseq; [apply load_statuses_phase|].
  apply Hseq; [apply load_units_phase|]. intros s inp s' inp' Hs H. rewrite load_packets_unlimited in H.
  destruct (handlers_ok (0, 0)) as (_ & _ & _ & _ & _ & [H1 _]).
  by apply (counted_completes (λ _, true) record_packet H1) in H.
Qed.

(** [parse] called each time that more of the file has arrived; an exception ends it *)
Fixpoint feed (junk : Z * Z) (chunks : list bytes) (s : DemoParser) : res unit * DemoParser :=
  match chunks with
  | [] => (Ok tt, s)
  | c :: chunks =>
      match parse junk 0 s c with
      | (Ok _, s, _) => feed junk chunks s
      | (Throw e, s, _) => (Throw e, s)
      | (Undef, s, _) => (Undef, s)
      | (Hang, s, _) => (Hang, s)
      end
  end.

(** the outcome of [feed] and that of one [doParse] *)
Definition same_outcome (x : res unit) (y : res unit) : Prop :=
  match x, y with
  | Ok _, Throw DataNotReady => True
  | Throw DataNotReady, _ => False
  | Throw e, Throw e' => e = e'
  | Undef, Undef | Hang, Hang => True
  | _, _ => False
  end.

Lemma feed_doParse junk c chunks s : parser_ok s →
  let '(x, s1) := feed junk (c :: chunks) s in
  let '(y, s2, _) := doParse junk 0 s (c ++ concat chunks) in
  with_times 0 s1 = with_times 0 s2 ∧ same_outcome x y.
Proof.
  revert c s. induction chunks as [|d chunks IH]; intros c s Hs; cbn [feed concat].
  - rewrite app_nil_r. unfold parse. pose proof (doParse_never_done junk s c) as Hn.
    destruct (doParse junk 0 s c) as [[[[]|[]| |] s1] a1]; try by split.
    + by destruct (Hn s1 a1 Hs eq_refl).
    + by destruct (m_numPacketsRead s <? m_numPacketsRead s1).
  - pose proof (doParse_resumes junk s c (d ++ concat chunks) Hs) as H. unfold parse at 1.
    pose proof (doParse_never_done junk s c) as Hn.
    destruct (doParse junk 0 s c) as [[[[]|[]| |] s1] a1]; try (rewrite H; by split).
    { by destruct (Hn s1 a1 Hs eq_refl). }
    destruct H as (-> & Hs1 & ->).
    assert (∃ t, with_times t s1 = if m_numPacketsRead s <? m_numPacketsRead s1 then count_new_data s1 else s1) as [t Ht].
    { case_match; [by eexists|]. exists (m_numTimesNewDataReceived s1). by destruct s1. }
    specialize (IH d (with_times t s1) Hs1). rewrite doParse_commutes in IH.
    destruct (doParse junk 0 s1 (d ++ concat chunks)) as [[y s2] b].
    rewrite Ht in IH. clear -IH. by destruct (m_numPacketsRead s <? m_numPacketsRead s1).
Qed.

(** C33: a demo file that grows while it is read is parsed as if it had been there from
    the start: however the file is cut into pieces, in the middle of a record length or
    of a record, calling [parse] after each piece makes the same calls to the handlers,
    comes to the same state (up to the count of calls with news) and fails with the same
    exception as parsing the whole at once. *)
Theorem parse_resumes (junk : Z * Z) (chunks : list bytes) (s : DemoParser) :
  parser_ok s → chunks ≠ [] →
  let '(x, s1) := feed junk chunks s in
  let '(y, s2, _) := parse junk 0 s (concat chunks) in
  with_times 0 s1 = with_times 0 s2 ∧
  match x, y with
  | Ok _, Ok _ => True
  | Throw e, Throw e' => e = e'
  | Undef, Undef | Hang, Hang => True
  | _, _ => False
  end.
Proof.
  intros Hs. destruct chunks as [|c chunks]; [done|]. intros _. pose proof (feed_doParse junk c chunks s Hs) as H.
  destruct (feed junk (c :: chunks) s) as [x s1]. cbn [concat]. unfold parse.
  destruct (doParse junk 0 s (c ++ concat chunks)) as [[y s2] b]. destruct H as [H1 H2].
  destruct x as [|[]| |], y as [|[]| |]; try done; destruct (m_numPacketsRead s <? m_numPacketsRead s2); done.
Qed.

(** a version 3 file without players, of three records, that arrives in two pieces cut in
    the middle of the second record *)
Definition small_demo : list bytes :=
  [[18; 0; 84; 65; 32; 68; 101; 109; 111; 0; 3; 0; 0; 244; 1; 77; 65; 80; 4];
   [0; 26; 0; 12; 0; 7; 0; 1; 3; 9; 0; 0; 0; 42; 6]].
Example small_demo_written :
  (h ← write_Header (mkHeader TA_Demo 3 0 500 [77; 65; 80]);
   u ← write_UnitData (mkUnitData [26; 0]);
   p ← write_Packet (mkPacket 7 1 [3; 9; 0; 0; 0; 42; 6]); Ok (h ++ u ++ p)) = Ok (concat small_demo).
Proof. vm_compute. reflexivity. Qed.
Example small_demo_events : handled (feed (0, 0) small_demo (DemoParser_init 9)).2 =
  [handle_Header (mkHeader TA_Demo 3 0 500 [77; 65; 80]); handle_UnitData (mkUnitData [26; 0]);
   handle_Packet (mkPacket 7 1 [3; 9; 0; 0; 0; 42; 6]) [[42; 6]] 0].
Proof. vm_compute. reflexivity. Qed.
Lemma parse_resumes_witness : parser_ok (DemoParser_init 9) ∧ small_demo ≠ [] ∧
  let '(x, s1) := feed (0, 0) small_demo (DemoParser_init 9) in
  let '(y, s2, _) := parse (0, 0) 0 (DemoParser_init 9) (concat small_demo) in
  with_times 0 s1 = with_times 0 s2 ∧
  match x, y with
  | Ok _, Ok _ => True
  | Throw e, Throw e' => e = e'
  | Undef, Undef | Hang, Hang => True
  | _, _ => False
  end.
Proof.
  assert (parser_ok (DemoParser_init 9)) as H by discriminate. assert (small_demo ≠ []) as H2 by discriminate.
  split; [exact H|]. split; [exact H2|]. exact (parse_resumes (0, 0) small_demo (DemoParser_init 9) H H2).
Defined.
