(* ===== verification/TADemoEnds.v ===== *)
(** * Reading a demo ends (TADemoParser.cpp)

    Whatever the bytes of a file are, no loop of the parser runs out of fuel, and every
    packet that it reports has cost a byte of the stream. *)
From S2P Require Import Prelude Resumable TPacketCrypt TPacketCompress TPacketSplit TPacketSmartpak TADemoRecords TADemoParser.

Definition is_packet (e : demo_event) : bool := match e with handle_Packet _ _ _ => true | _ => false end.
Definition packets_of (s : DemoParser) : nat := length (filter (λ e, is_packet e = true) (handled s)).
Definition whole (r : RecordReader) : Prop := reader_ok r ∧ are_bytes (rr_got r).

Lemma RecordReader_ends r inp : whole r → are_bytes inp →
  match RecordReader_read r inp with
  | (x, r', inp') => x ≠ Hang ∧ whole r' ∧ are_bytes inp' ∧ (length inp' ≤ length inp)%nat ∧
      match x with Ok data => are_bytes data ∧ (length inp' < length inp)%nat | _ => True end
  end.
Proof.
  intros [Hr Hg] Hi. destruct (RecordReader_read r inp) as [[x r'] inp'] eqn:E.
  assert (∀ data, x = Ok data → (length inp' < length inp)%nat) as Hc.
  { intros data ->. by apply (RecordReader_consumes r inp data r' inp'). }
  assert (x ≠ Hang ∧ whole r' ∧ are_bytes inp' ∧ (length inp' ≤ length inp)%nat ∧ match x with Ok data => are_bytes data | _ => True end)
    as (H1 & H2 & H3 & H4 & H5); [|split_and!; try done; destruct x; try done; split; [done|by eapply Hc]].
  clear Hc. revert E. unfold RecordReader_read, pseq, pbind.
  assert (∀ r a x r' a', rr_state r = READ_RECORD → whole r → are_bytes a → read_record r a = (x, r', a') →
    x ≠ Hang ∧ whole r' ∧ are_bytes a' ∧ (length a' ≤ length a)%nat ∧ match x with Ok data => are_bytes data | _ => True end) as H3.
  { clear. intros r a x r' a' Hs [Hr Hg] Ha. unfold read_record. rewrite Hs. case_match eqn:E; intros [= <- <- <-].
    - split_and!; [done|split; cbn|by apply Forall_drop|rewrite length_drop; lia|done].
      + intros _. by apply Nat.ltb_lt in E.
      + apply Forall_app. split; [done|by apply Forall_take].
    - split_and!; [done|split; [done|apply Forall_nil; done]|by apply Forall_drop|rewrite length_drop; lia|].
      apply Forall_app. split; [done|by apply Forall_take]. }
  assert (∀ r a x r' a', rr_state r = READ_RECLEN2 → whole r → are_bytes a →
    match read_reclen2 r a with (Ok _, r, a) => read_record r a | (Throw e, r, a) => (Throw e, r, a)
      | (Undef, r, a) => (Undef, r, a) | (Hang, r, a) => (Hang, r, a) end = (x, r', a') →
    x ≠ Hang ∧ whole r' ∧ are_bytes a' ∧ (length a' ≤ length a)%nat ∧ match x with Ok data => are_bytes data | _ => True end) as H2.
  { clear -H3. intros r a x r' a' Hs Hw Ha. unfold read_reclen2. rewrite Hs. destruct a as [|b a].
    - intros [= <- <- <-]. by split_and!.
    - apply Forall_cons in Ha as [_ Ha]. destruct (_ || _) eqn:Ec.
      + intros [= <- <- <-]. split_and!; try done; [|cbn [length]; lia]. split; [done|]. by destruct Hw.
      + intros H. apply H3 in H as (?&?&?&?&?); [|done| |done].
        * split_and!; try done. cbn [length]. lia.
        * split; [|by apply Forall_nil]. intros _. cbn. apply orb_false_iff in Ec as [_ Ec]. apply Z.leb_gt in Ec. lia. }
  destruct (rr_state r) eqn:Es.
  - unfold read_reclen1. rewrite Es. destruct inp as [|b a].
    + intros [= <- <- <-]. by split_and!.
    + apply Forall_cons in Hi as [_ Hi]. intros H. apply H2 in H as (?&?&?&?&?); [|done|by split|done]. split_and!; try done. cbn [length]. lia.
  - unfold read_reclen1. rewrite Es. by apply H2.
  - unfold read_reclen1. rewrite Es. unfold read_reclen2 at 1. rewrite Es. by apply H3.
Qed.

(** [m] ends, and has paid for the packets that it reports *)
Definition ends {A} (m : prog DemoParser A) : Prop := ∀ s inp, whole (m_recordReader s) → are_bytes inp →
  match m s inp with
  | (x, s', inp') => x ≠ Hang ∧ whole (m_recordReader s') ∧ are_bytes inp' ∧ (length inp' ≤ length inp)%nat ∧
      (packets_of s' + length inp' ≤ packets_of s + length inp)%nat
  end.
Definition takes (m : prog DemoParser unit) : Prop := ∀ s inp s' inp', whole (m_recordReader s) → are_bytes inp →
  m s inp = (Ok tt, s', inp') → (length inp' < length inp)%nat.
Lemma ends_seq {A} m (f : prog DemoParser A) : ends m → ends f → ends (pseq m f).
Proof.
  intros Hm Hf s inp Hw Hi. unfold pseq, pbind. specialize (Hm s inp Hw Hi). destruct (m s inp) as [[x s1] i1].
  destruct Hm as (Hx & Hw1 & Hi1 & Hl & Hp). destruct x as [[]|e| |]; try (by split_and!). specialize (Hf s1 i1 Hw1 Hi1). destruct (f s1 i1) as [[x s2] i2].
  destruct Hf as (? & ? & ? & ? & ?). split_and!; try done; lia.
Qed.
Lemma ends_ret {A} (x : A) : ends (λ s inp, (Ok x, s, inp)).
Proof. intros s inp Hw Hi. by split_and!. Qed.
Lemma ends_if (c : DemoParser → bool) (m m' : prog DemoParser unit) : ends m → ends m' → ends (λ s inp, if c s then m s inp else m' s inp).
Proof. intros Hm Hm' s inp. destruct (c s); [apply Hm|apply Hm']. Qed.
Lemma ends_ploop cond body : ends body → takes body → ∀ fuel s inp, whole (m_recordReader s) → are_bytes inp → (length inp < fuel)%nat →
  match ploop fuel cond body s inp with
  | (x, s', inp') => x ≠ Hang ∧ whole (m_recordReader s') ∧ are_bytes inp' ∧ (length inp' ≤ length inp)%nat ∧
      (packets_of s' + length inp' ≤ packets_of s + length inp)%nat
  end.
Proof.
  intros Hb Ht. induction fuel as [|fuel IH]; intros s inp Hw Hi Hl; [lia|]. cbn [ploop]. destruct (cond s); [|by split_and!].
  unfold pseq, pbind. specialize (Hb s inp Hw Hi). specialize (Ht s inp). destruct (body s inp) as [[x s1] i1].
  destruct Hb as (Hx & Hw1 & Hi1 & Hl1 & Hp). destruct x as [[]|e| |]; try (by split_and!). specialize (Ht _ _ Hw Hi eq_refl). specialize (IH s1 i1 Hw1 Hi1 ltac:(lia)).
  destruct (ploop fuel cond body s1 i1) as [[x s2] i2]. destruct IH as (? & ? & ? & ? & ?). split_and!; try done; lia.
Qed.
Lemma ends_pwhile cond body : ends body → takes body → ends (pwhile cond body).
Proof. intros Hb Ht s inp Hw Hi. apply ends_ploop; [done..|lia]. Qed.
Lemma ends_packets_loop n body : ends body → takes body → body = on_record record_packet → ∀ fuel k s inp,
  whole (m_recordReader s) → are_bytes inp → (length inp < fuel)%nat →
  match packets_loop fuel n k s inp with
  | (x, s', inp') => x ≠ Hang ∧ whole (m_recordReader s') ∧ are_bytes inp' ∧ (length inp' ≤ length inp)%nat ∧
      (packets_of s' + length inp' ≤ packets_of s + length inp)%nat
  end.
Proof.
  intros Hb Ht ->. induction fuel as [|fuel IH]; intros k s inp Hw Hi Hl; [lia|]. cbn [packets_loop]. destruct (_ || _); [|by split_and!].
  unfold pseq, pbind. specialize (Hb s inp Hw Hi). specialize (Ht s inp). destruct (on_record record_packet s inp) as [[x s1] i1].
  destruct Hb as (Hx & Hw1 & Hi1 & Hl1 & Hp). destruct x as [[]|e| |]; try (by split_and!). specialize (Ht _ _ Hw Hi eq_refl). specialize (IH (k + 1) s1 i1 Hw1 Hi1 ltac:(lia)).
  destruct (packets_loop fuel n (k + 1) s1 i1) as [[x s2] i2]. destruct IH as (? & ? & ? & ? & ?). split_and!; try done; lia.
Qed.

(** ** What is left is the end of what there was *)
Definition reads_on {A} (m : prog DemoParser A) : Prop := ∀ s inp, (m s inp).2 `suffix_of` inp.
Lemma reads_on_ret {A} (x : A) : reads_on (λ s inp, (Ok x, s, inp)).
Proof. by intros s inp. Qed.
Lemma reads_on_seq {A} m (f : prog DemoParser A) : reads_on m → reads_on f → reads_on (pseq m f).
Proof.
  intros Hm Hf s inp. unfold pseq, pbind. specialize (Hm s inp). destruct (m s inp) as [[[[]|e| |] s1] i1]; try done.
  trans i1; [apply Hf|done].
Qed.
Lemma RecordReader_reads_on r inp : (RecordReader_read r inp).2 `suffix_of` inp.
Proof.
  unfold RecordReader_read, pseq, pbind.
  assert (∀ r a, (read_record r a).2 `suffix_of` a) as H3.
  { intros r0 a. unfold read_record. destruct (rr_state r0); try done. case_match; apply suffix_drop. }
  assert (∀ r a, (read_reclen2 r a).2 `suffix_of` a) as H2.
  { intros r0 a. unfold read_reclen2. destruct (rr_state r0); try done. destruct a as [|b a]; [done|].
    case_match; by apply suffix_cons_r. }
  assert ((read_reclen1 r inp).2 `suffix_of` inp) as H1.
  { unfold read_reclen1. destruct (rr_state r); try done. destruct inp as [|b a]; [done|]. by apply suffix_cons_r. }
  destruct (read_reclen1 r inp) as [[[[]|e| |] r1] i1]; try done.
  trans i1; [|done]. specialize (H2 r1 i1). destruct (read_reclen2 r1 i1) as [[[[]|e| |] r2] i2]; try done.
  trans i2; [apply H3|done].
Qed.
Lemma on_record_reads_on f : reads_on (on_record f).
Proof.
  intros s inp. unfold on_record. pose proof (RecordReader_reads_on (m_recordReader s) inp) as H.
  destruct (RecordReader_read (m_recordReader s) inp) as [[[data|e| |] r] i1]; try done. by destruct (f data _).
Qed.
Lemma reads_on_pwhile cond body : reads_on body → reads_on (pwhile cond body).
Proof.
  intros Hb s inp. unfold pwhile. generalize (S (length inp)). intros fuel. revert s inp.
  induction fuel as [|fuel IH]; intros s inp; [done|]. cbn [ploop]. destruct (cond s); [|done].
  by apply (reads_on_seq body (ploop fuel cond body)).
Qed.
Lemma reads_on_packets n k : reads_on (λ s inp, packets_loop (S (length inp)) n k s inp).
Proof.
  intros s inp. generalize (S (length inp)). intros fuel. revert k s inp.
  induction fuel as [|fuel IH]; intros k s inp; [done|]. cbn [packets_loop]. destruct (_ || _); [|done].
  apply (reads_on_seq (on_record record_packet) (packets_loop fuel n (k + 1))); [apply on_record_reads_on|exact (IH (k + 1))].
Qed.
Lemma parse_reads_on junk n : reads_on (parse junk n).
Proof.
  assert (reads_on (doParse junk n)) as Hd.
  { unfold doParse. repeat apply reads_on_seq; try (apply reads_on_pwhile, on_record_reads_on).
    - intros s inp. unfold load_header. case_match; [done|apply on_record_reads_on].
    - intros s inp. unfold load_extra. case_match; [|done]. apply reads_on_seq; [|apply reads_on_pwhile, on_record_reads_on].
      clear. intros s inp. unfold load_extra_header. case_match; [done|apply on_record_reads_on].
    - apply reads_on_packets. }
  intros s inp. unfold parse. specialize (Hd s inp). destruct (doParse junk n s inp) as [[[a|[]| |] s'] inp']; try done; by case_match.
Qed.

(** ** The handlers of records *)
Definition handler_ends (f : bytes → DemoParser → res DemoParser) : Prop := ∀ data s, are_bytes data →
  f data s ≠ Hang ∧ ∀ s', f data s = Ok s' → m_recordReader s' = m_recordReader s ∧ (packets_of s' ≤ S (packets_of s))%nat.
Lemma on_record_ends f : handler_ends f → ends (on_record f) ∧ takes (on_record f).
Proof.
  intros Hf. split.
  - intros s inp Hw Hi. unfold on_record. pose proof (RecordReader_ends _ inp Hw Hi) as Hr.
    destruct (RecordReader_read (m_recordReader s) inp) as [[x r] i1]. destruct Hr as (Hx & Hw1 & Hi1 & Hl & Hd).
    assert (packets_of (set_reader r s) + length i1 ≤ packets_of s + length inp)%nat as Hp by (change (packets_of (set_reader r s)) with (packets_of s); lia).
    destruct x as [data|e| |]; try (by split_and!).
    destruct Hd as [Hd Hlt]. destruct (Hf data (set_reader r s) Hd) as [Hn Hok].
    destruct (f data (set_reader r s)) as [s'|e| |] eqn:E; try (by split_and!).
    destruct (Hok s' eq_refl) as [Er Hp']. change (packets_of (set_reader r s)) with (packets_of s) in Hp'.
    split_and!; [done|by rewrite Er|done|done|lia].
  - intros s inp s' inp' Hw Hi. unfold on_record. pose proof (RecordReader_ends _ inp Hw Hi) as Hr.
    destruct (RecordReader_read (m_recordReader s) inp) as [[[data|e| |] r] i1]; try done. destruct Hr as (_ & _ & _ & _ & _ & Hlt).
    destruct (f data (set_reader r s)); try done. by intros [= _ <-].
Qed.

Lemma substr_no_hang s p : substr s p ≠ Hang.
Proof. unfold substr. by case_match. Qed.
Lemma all_printable_no_hang s : all_printable s ≠ Hang.
Proof.
  induction s as [|b s IH]; [done|]. cbn [all_printable]. unfold isprint. destruct (128 <=? b); [done|]. rewrite res_bind_ok. by case_match.
Qed.
Create HintDb no_hang discriminated.
#[export] Hint Resolve rd8_no_hang rd16_no_hang rd32_not_hang rd_n_no_hang substr_no_hang all_printable_no_hang decompress_no_hang : no_hang.
Ltac no_hang := repeat first [done | solve [auto with no_hang] | apply bind_no_hang; [|intros ? ?] | progress cbv zeta | case_match].
Lemma drop_bytes s n : are_bytes s → are_bytes (drop n s).
Proof. apply Forall_drop. Qed.
Lemma packets_add e s : (packets_of (add_event e s) ≤ S (packets_of s))%nat.
Proof. unfold packets_of. cbn [handled add_event]. rewrite filter_app, length_app, filter_cons. case_decide; cbn [length filter]; rewrite ?filter_nil; cbn [length]; lia. Qed.
Lemma record_status_no_hang junk data s : record_status junk data s ≠ Hang.
Proof.
  unfold record_status. apply bind_no_hang; [|intros m _; apply bind_no_hang; [apply rd32_not_hang|done]].
  unfold parse_PlayerStatusMessage. apply bind_no_hang; [apply rd8_no_hang|].
  intros n _. destruct (decrypt _ _ _ _) as [[d ?] ?]. no_hang.
Qed.
Lemma record_packet_no_hang data s : are_bytes data → record_packet data s ≠ Hang.
Proof.
  intros Hd. unfold record_packet. apply bind_no_hang; [unfold parse_Packet; no_hang|]. intros p Hp. apply bind_no_hang; [|no_hang].
  apply unsmartpak_no_hang. unfold parse_Packet in Hp. res_inv. cbn. unfold substr in E1. case_match; [|done].
  injection E1 as <-. by apply drop_bytes.
Qed.
Lemma record_handlers_end junk : handler_ends record_header ∧ handler_ends record_extra_header ∧ handler_ends record_sector ∧
  handler_ends record_player ∧ handler_ends (record_status junk) ∧ handler_ends record_units ∧ handler_ends record_packet.
Proof.
  split_and!; intros data s Hd; split.
  all: try (intros s' Hs'; repeat (apply res_bind_inv in Hs' as (? & _ & Hs')); apply Ok_inj in Hs' as <-; split; [done|];
    first [apply packets_add | change (packets_of s ≤ S (packets_of s))%nat; lia]).
  all: try apply record_status_no_hang; try by apply record_packet_no_hang.
  all: unfold record_header, record_extra_header, record_sector, record_player, record_units,
    parse_Header, parse_ExtraHeader, parse_ExtraSector, parse_Player, parse_UnitData; no_hang.
Qed.

(** reading ends, and the packets that are reported are no more than the bytes read *)
Lemma doParse_ends junk n : ends (doParse junk n).
Proof.
  destruct (record_handlers_end junk) as (H1 & H2 & H3 & H4 & H5 & H6 & H7).
  unfold doParse. repeat apply ends_seq.
  - intros s inp. unfold load_header. destruct (TADemoParser.m_header s); [apply ends_ret|by apply on_record_ends].
  - intros s inp. unfold load_extra. destruct (4 <? version s); [|apply ends_ret]. apply ends_seq.
    + clear s inp. intros s inp. unfold load_extra_header. destruct (m_extraHeader s); [apply ends_ret|by apply on_record_ends].
    + by apply ends_pwhile; apply on_record_ends.
  - by apply ends_pwhile; apply on_record_ends.
  - by apply ends_pwhile; apply on_record_ends.
  - by apply ends_pwhile; apply on_record_ends.
  - intros s inp Hw Hi. apply (ends_packets_loop n (on_record record_packet)); [by apply on_record_ends..|done|done|done|lia].
Qed.
Lemma parse_ends junk n : ends (parse junk n).
Proof.
  intros s inp Hw Hi. unfold parse. pose proof (doParse_ends junk n s inp Hw Hi) as H.
  destruct (doParse junk n s inp) as [[x s'] inp']. destruct H as (Hx & Hw' & Hi' & Hl & Hp).
  destruct x as [a|[]| |]; try done; try (by split_and!); destruct (_ <? _); by split_and!.
Qed.
