(* ===== verification/TADemoRoundTrip.v ===== *)
(** * Demo files that are written are read back

    The records of a demo file of version 5, in the order in which they have to be
    written, and what [DemoParser] reports when it reads the file. *)
From S2P Require Import Prelude Resumable TPacketCrypt TPacketCompress TPacketSplit TPacketSmartpak TADemoRecords TADemoParser.

(** ** One record *)
Definition record (s : bytes) : bytes := le2 (Z.of_nat (2 + length s)) ++ s.
Definition record_fits (s : bytes) : Prop := (0 < length s)%nat ∧ Z.of_nat (length s) ≤ 32766.
Definition reader_fresh (r : RecordReader) : Prop := rr_state r = READ_RECLEN1.

Lemma writeRecord_fits s : Z.of_nat (length s) ≤ 65533 → writeRecord s = Ok (record s).
Proof.
  intros H. unfold writeRecord, record. rewrite u16_id by (unfold is_u16; lia). rewrite Z.eqb_refl. cbn [negb].
  do 3 f_equal. lia.
Qed.

Lemma record_read r s : reader_fresh r → record_fits s → ∃ r', reader_fresh r' ∧ reads RecordReader_read r (record s) s r'.
Proof.
  intros Hr [H0 H1]. destruct r as [st l0 l1 got sz]. unfold reader_fresh in Hr. cbn in Hr. subst st.
  assert (is_u16 (Z.of_nat (2 + length s))) as Hu by (unfold is_u16; lia).
  set (a := u8 (Z.of_nat (2 + length s))). set (b := u8 (Z.of_nat (2 + length s) / 256)).
  exists (mkReader READ_RECLEN1 a b [] 0). split; [done|]. intros rest. unfold record, le2. fold a b.
  assert (Z.lor a (Z.shiftl b 8) = Z.of_nat (2 + length s)) as Hl.
  { rewrite lor_add_shift; [|lia|apply u8_byte|apply u8_byte]. change (2 ^ 8) with 256.
    pose proof (le2_value _ Hu) as H. unfold a, b. lia. }
  cbn [app]. unfold RecordReader_read, pseq, pbind, read_reclen1. cbn [rr_state rr_len0 rr_len1 rr_got rr_size].
  unfold read_reclen2. cbn [rr_state rr_len0]. rewrite Hl. rewrite (proj2 (Z.ltb_ge _ _)), (proj2 (Z.leb_gt _ _)) by lia.
  cbn [orb]. unfold read_record. cbn [rr_state rr_got rr_size length rr_len0 rr_len1 app].
  replace (Z.to_nat (Z.of_nat (2 + length s) - 2) - 0)%nat with (length s) by lia.
  rewrite take_app_length, drop_app_length. rewrite (proj2 (Nat.ltb_ge _ _)) by lia. done.
Qed.

(** ** The contents of the records *)
Definition is_name (n : nat) (s : bytes) : Prop := (length s ≤ n)%nat ∧ Forall (λ b, b ≠ 0) s.
Lemma c_str_name s : Forall (λ b, b ≠ 0) s → c_str s = s.
Proof. induction 1 as [|b s Hb Hs IH]; [done|]. cbn [c_str]. rewrite (proj2 (Z.eqb_neq _ _)) by done. by rewrite IH. Qed.
Lemma is_name_take n s : is_name n s → c_str (take n s) = s.
Proof. intros [H1 H2]. rewrite take_ge by done. by apply c_str_name. Qed.
Definition printable (b : Z) : Prop := 32 ≤ b ≤ 126.
Lemma all_printable_ok s : Forall printable s → all_printable s = Ok tt.
Proof.
  unfold printable. induction 1 as [|b s Hb Hs IH]; [done|]. cbn [all_printable]. unfold isprint.
  rewrite (proj2 (Z.leb_gt _ _)) by lia. rewrite res_bind_ok, (proj2 (Z.leb_le _ _)), (proj2 (Z.leb_le _ _)) by lia. exact IH.
Qed.

Definition header_wf (h : Header) : Prop :=
  hd_magic h = TA_Demo ∧ 3 ≤ hd_version h ≤ 5 ∧ 0 ≤ hd_numPlayers h ≤ 10 ∧ 0 ≤ hd_maxUnits h ≤ 5000 ∧
  (length (hd_mapName h) ≤ 64)%nat ∧ Forall printable (hd_mapName h).
Lemma parse_Header_written h : header_wf h → parse_Header (Header_payload h) = Ok h.
Proof.
  intros (Hm & Hv & Hn & Hu & Hl & Hp). unfold Header_payload. rewrite Hm, take_ge by done. set (map := hd_mapName h) in *.
  set (data := TA_Demo ++ le2 (hd_version h) ++ [u8 (hd_numPlayers h)] ++ le2 (hd_maxUnits h) ++ map).
  unfold parse_Header. assert (rd_n data 0 8 = Ok TA_Demo) as -> by apply (rd_n_app [] TA_Demo). rewrite res_bind_ok.
  rewrite bool_decide_true by done. cbn [negb].
  assert (rd16 data 8 = Ok (hd_version h)) as -> by (apply (rd16_le2 TA_Demo); unfold is_u16; lia). rewrite res_bind_ok.
  rewrite (proj2 (Z.ltb_ge _ 3)), (proj2 (Z.ltb_ge 5 _)) by lia. cbn [orb].
  assert (rd8 data 10 = Ok (hd_numPlayers h)) as ->.
  { transitivity (Ok (u8 (hd_numPlayers h)) : res Z); [done|]. by rewrite u8_id by (unfold is_byte; lia). }
  rewrite res_bind_ok, (proj2 (Z.ltb_ge 10 _)) by lia.
  assert (rd16 data 11 = Ok (hd_maxUnits h)) as ->.
  { apply (rd16_le2 (TA_Demo ++ le2 (hd_version h) ++ [u8 (hd_numPlayers h)])). unfold is_u16. lia. }
  rewrite res_bind_ok, (proj2 (Z.ltb_ge 5000 _)) by lia.
  assert (substr data 13 = Ok map) as -> by done. rewrite res_bind_ok. cbv zeta. rewrite c_str_name.
  - rewrite (proj2 (Nat.ltb_ge _ _)) by done. rewrite all_printable_ok, res_bind_ok by done. rewrite <- Hm. by destruct h.
  - eapply Forall_impl; [exact Hp|]. unfold printable. intros b Hb. lia.
Qed.
Lemma header_fits h : header_wf h → record_fits (Header_payload h).
Proof.
  intros (Hm & _ & _ & _ & Hl & _). unfold record_fits, Header_payload. rewrite Hm, take_ge by done.
  rewrite !length_app. cbn [length TA_Demo le2]. lia.
Qed.

Lemma parse_ExtraHeader_written n : 0 ≤ n ≤ 10000 → parse_ExtraHeader (ExtraHeader_payload (mkExtraHeader n)) = Ok (mkExtraHeader n).
Proof.
  intros H. unfold parse_ExtraHeader, ExtraHeader_payload. cbn [eh_numSectors].
  pose proof (rd32_le4 [] n []) as E. rewrite app_nil_r in E. cbn [app length] in E. rewrite E by (unfold is_u32; lia).
  rewrite res_bind_ok, (proj2 (Z.ltb_ge _ _)) by lia. done.
Qed.

Definition sector_wf (e : ExtraSector) : Prop := is_u32 (es_sectorType e) ∧ Z.of_nat (length (es_data e)) ≤ 32762.
Lemma parse_ExtraSector_written e : sector_wf e → parse_ExtraSector (ExtraSector_payload e) = Ok e.
Proof.
  intros [H _]. unfold parse_ExtraSector, ExtraSector_payload.
  assert (rd32 (le4 (es_sectorType e) ++ es_data e) 0 = Ok (es_sectorType e)) as -> by by apply (rd32_le4 []).
  rewrite res_bind_ok. assert (substr (le4 (es_sectorType e) ++ es_data e) 4 = Ok (es_data e)) as -> by done. by destruct e.
Qed.

Definition player_wf (p : Player) : Prop :=
  is_byte (pl_color p) ∧ -128 ≤ pl_side p ≤ 127 ∧ is_byte (pl_number p) ∧ is_name 16 (pl_name p).
Lemma s8_u8 x : -128 ≤ x ≤ 127 → s8 (u8 x) = x.
Proof. unfold s8, u8. intros H. case_match; Z.div_mod_to_equations; lia. Qed.
Lemma parse_Player_written p : player_wf p → parse_Player (Player_payload p) = Ok p.
Proof.
  intros (Hc & Hs & Hn & Hm). unfold parse_Player, Player_payload.
  set (data := [u8 (pl_color p)] ++ [u8 (pl_side p)] ++ [u8 (pl_number p)] ++ take 16 (pl_name p)).
  assert (rd8 data 0 = Ok (u8 (pl_color p)) ∧ rd8 data 1 = Ok (u8 (pl_side p)) ∧ rd8 data 2 = Ok (u8 (pl_number p)) ∧
    substr data 3 = Ok (take 16 (pl_name p))) as (-> & -> & -> & ->) by done.
  rewrite !res_bind_ok, is_name_take, s8_u8, !u8_id by done. by destruct p.
Qed.

(** a status message as the compiler writes it: packed, compressed and enciphered *)
Definition packed_status (m : bytes) : bytes := encrypt (compress (trivialSmartpak m (-1))).
Definition status_wf (s : PlayerStatusMessage) : Prop :=
  is_byte (sm_number s) ∧ are_bytes (sm_statusMessage s) ∧ (149 ≤ length (sm_statusMessage s))%nat ∧
  Z.of_nat (length (packed_status (sm_statusMessage s))) ≤ 32765.
(** deciphering and decompressing gives back all but the two bytes of the checksum *)
Lemma enciphered_unpacks pre c1 c2 rest j1 j2 : are_bytes (3 :: c1 :: c2 :: rest) → rest ≠ [] →
  ∃ payload k1 k2 calc, decrypt (pre ++ encrypt (compress (3 :: c1 :: c2 :: rest))) (length pre) j1 j2 = (pre ++ payload, calc, calc) ∧
    decompress payload 3 = Ok (3 :: k1 :: k2 :: rest).
Proof.
  intros Hb Hne. set (dd := compress (3 :: c1 :: c2 :: rest)). pose proof (compress_bytes _ Hb) as Hcb. fold dd in Hcb.
  assert (decompress dd 3 = Ok (3 :: c1 :: c2 :: rest)) as Hd by (unfold dd; by rewrite decompress_compress_core).
  assert (4 ≤ length rest + 3)%nat as Hl by (destruct rest; [done|simpl; lia]).
  destruct (compress_head c1 c2 rest) as [[r E]|E]; fold dd in E.
  - assert (4 ≤ length dd)%nat as Hlen.
    { rewrite E. destruct r; [|simpl; lia]. rewrite E in Hd. change (decompress [4; c1; c2] 3) with (Ok [3; c1; c2]) in Hd.
      injection Hd as <-. done. }
    destruct (decrypt_encrypt_core pre dd j1 j2 Hlen) as (k1 & k2 & calc & ->).
    exists (<[2%nat := k2]> (<[1%nat := k1]> dd)), k1, k2, calc. split; [done|]. rewrite E. cbn [insert list_insert].
    rewrite E in Hd, Hcb. apply (decompress_checksum 4 c1 c2 k1 k2 r); [|done].
    apply Forall_cons in Hcb as [H1 Hcb]. apply Forall_cons in Hcb as [_ Hcb]. apply Forall_cons in Hcb as [_ Hcb]. by apply Forall_cons.
  - assert (4 ≤ length dd)%nat as Hlen by (rewrite E; simpl; lia).
    destruct (decrypt_encrypt_core pre dd j1 j2 Hlen) as (k1 & k2 & calc & ->).
    exists (<[2%nat := k2]> (<[1%nat := k1]> dd)), k1, k2, calc. split; [done|]. rewrite E. done.
Qed.
Lemma parse_Status_written junk s : status_wf s →
  parse_PlayerStatusMessage junk (PlayerStatusMessage_payload (mkPlayerStatusMessage (sm_number s) (packed_status (sm_statusMessage s)))) = Ok s.
Proof.
  intros (Hn & Hb & Hl & _). unfold parse_PlayerStatusMessage, PlayerStatusMessage_payload. cbn [sm_number sm_statusMessage].
  unfold packed_status, trivialSmartpak. set (rest := le4 (-1) ++ sm_statusMessage s). change ([3; 0; 0] ++ rest) with (3 :: 0 :: 0 :: rest).
  assert (are_bytes (3 :: 0 :: 0 :: rest)) as Hd.
  { repeat (apply Forall_cons; split; [unfold is_byte; lia|]). apply Forall_app. split; [apply le4_bytes|done]. }
  destruct (enciphered_unpacks [sm_number s] 0 0 rest junk.1 junk.2 Hd) as (p & k1 & k2 & calc & E & Ep); [done|].
  assert (rd8 ([sm_number s] ++ encrypt (compress (3 :: 0 :: 0 :: rest))) 0 = Ok (sm_number s)) as -> by exact (rd8_0 _ _).
  rewrite res_bind_ok. change (length [sm_number s]) with 1%nat in E. rewrite E. cbn [app drop].
  rewrite drop_0, Ep, res_bind_ok. assert (substr (3 :: k1 :: k2 :: rest) 7 = Ok (sm_statusMessage s)) as -> by done. by destruct s.
Qed.

Definition packet_wf (p : Packet) : Prop := is_u16 (pk_time p) ∧ is_byte (pk_sender p) ∧ Z.of_nat (length (pk_data p)) ≤ 32763.
Lemma parse_Packet_written p : packet_wf p → parse_Packet (Packet_payload p) = Ok p.
Proof.
  intros (Ht & Hs & _). unfold parse_Packet, Packet_payload.
  assert (rd16 (le2 (pk_time p) ++ [pk_sender p] ++ pk_data p) 0 = Ok (pk_time p)) as -> by by apply (rd16_le2 []).
  assert (rd8 (le2 (pk_time p) ++ [pk_sender p] ++ pk_data p) 2 = Ok (pk_sender p)) as -> by done.
  assert (substr (le2 (pk_time p) ++ [pk_sender p] ++ pk_data p) 3 = Ok (pk_data p)) as -> by done. by destruct p.
Qed.

(** ** Reading the records of a phase *)
Lemma on_record_written f S S' r data : reader_fresh r → record_fits data →
  (∀ r, f data (set_reader r S) = Ok (set_reader r S')) →
  ∃ r', reader_fresh r' ∧ reads (on_record f) (set_reader r S) (record data) tt (set_reader r' S').
Proof.
  intros Hr Hd Hf. destruct (record_read r data Hr Hd) as (r' & Hr' & H). exists r'. split; [done|].
  intros rest. unfold on_record. change (m_recordReader (set_reader r S)) with r. rewrite H.
  change (set_reader r' (set_reader r S)) with (set_reader r' S). by rewrite Hf.
Qed.
Lemma fresh_parser_ok r S : reader_fresh r → parser_ok (set_reader r S).
Proof. unfold reader_fresh, parser_ok, reader_ok. cbn. by intros ->. Qed.
Lemma nothing_left f r S : reader_fresh r → on_record f (set_reader r S) [] = (Throw DataNotReady, set_reader r S, []).
Proof.
  intros Hr. unfold on_record, RecordReader_read, pseq, pbind, read_reclen1. unfold reader_fresh in Hr.
  change (m_recordReader (set_reader r S)) with r. by rewrite Hr.
Qed.

Definition add_events (es : list demo_event) (s : DemoParser) : DemoParser :=
  mkDemoParser (m_recordReader s) (m_header s) (m_extraHeader s) (m_numExtraSectorsRead s) (m_numPlayersRead s)
    (m_numPlayerStatusMessagesRead s) (m_numUnitDataRead s) (m_numPacketsRead s)
    (m_numTimesNewDataReceived s) (handled s ++ es).

Section Phase.
Context {A : Type} (enc : A → bytes) (ok : A → Prop) (f : bytes → DemoParser → res DemoParser).
(** the counter of the phase, what it counts up to, and the event for the [n]th record *)
Context (count : Z → DemoParser → DemoParser) (num : DemoParser → Z) (P : DemoParser → Prop) (event : A → Z → demo_event).
Context (Hpure : pure_handler f) (Hfits : ∀ x, ok x → record_fits (enc x)).
Context (Hf : ∀ x S r, ok x → P S → f (enc x) (set_reader r S) = Ok (set_reader r (count 1 (add_events [event x (num S)] S)))).
Context (Hnum : ∀ k es S, num (count k (add_events es S)) = num S + k) (Hnum_r : ∀ r S, num (set_reader r S) = num S).
Context (HP : ∀ k es S, P S → P (count k (add_events es S))).
Context (Hcount : ∀ k es k' es' S, count k' (add_events es' (count k (add_events es S))) = count (k + k') (add_events (es ++ es') S)).
Context (Hcount0 : ∀ S, count 0 (add_events [] S) = S).

Definition after (xs : list A) (S : DemoParser) : DemoParser :=
  count (Z.of_nat (length xs)) (add_events (imap (λ i x, event x (num S + Z.of_nat i)) xs) S).
Lemma after_cons x xs S : after (x :: xs) S = after xs (count 1 (add_events [event x (num S)] S)).
Proof.
  unfold after. rewrite Hcount. cbn [length imap]. f_equal; [lia|]. f_equal. cbn [app imap]. f_equal; [f_equal; lia|].
  apply imap_ext. intros i y _. cbn [compose]. f_equal. rewrite Hnum. lia.
Qed.

Lemma pwhile_turn cond r S a : reader_fresh r → pwhile cond (on_record f) (set_reader r S) a =
  if cond (set_reader r S) then pseq (on_record f) (pwhile cond (on_record f)) (set_reader r S) a else (Ok tt, set_reader r S, a).
Proof.
  intros Hr. apply (pwhile_step parser_ok); [by apply on_record_resumes|apply on_record_consumes|by apply fresh_parser_ok].
Qed.

(** a phase that knows how many records there are *)
Lemma counted_written total xs : ∀ S r, reader_fresh r → Forall ok xs → P S →
  (∀ k es S, total (count k (add_events es S)) = total S) → (∀ r S, total (set_reader r S) = total S) →
  num S + Z.of_nat (length xs) = total S → ∃ r', reader_fresh r' ∧
  reads (pwhile (λ s, num s <? total s) (on_record f)) (set_reader r S) (concat (record ∘ enc <$> xs)) tt (set_reader r' (after xs S)).
Proof.
  induction xs as [|x xs IH]; intros S r Hr Hok HS Ht Htr Hn; cbn [length] in Hn.
  - exists r. split; [done|]. intros rest. unfold pwhile, after. cbn [ploop length imap]. rewrite Hnum_r, Htr.
    rewrite (proj2 (Z.ltb_ge _ _)) by lia. rewrite Hcount0. done.
  - apply Forall_cons in Hok as [Hx Hok]. set (S1 := count 1 (add_events [event x (num S)] S)).
    destruct (on_record_written f S S1 r (enc x) Hr (Hfits x Hx)) as (r1 & Hr1 & H1); [intros r0; by apply Hf|].
    destruct (IH S1 r1 Hr1 Hok) as (r2 & Hr2 & H2); [by apply HP|done|done|unfold S1; rewrite Hnum, Ht; lia|].
    exists r2. split; [done|]. rewrite after_cons. fold S1. intros rest. cbn [fmap list_fmap concat compose]. rewrite <- (assoc_L (++)).
    rewrite pwhile_turn by done. rewrite Hnum_r, Htr, (proj2 (Z.ltb_lt _ _)) by lia. unfold pseq, pbind.
    by rewrite H1, H2.
Qed.
(** the packets are read until there are no more *)
Lemma all_written xs : ∀ S r, reader_fresh r → Forall ok xs → P S → ∃ r',
  pwhile (λ _, true) (on_record f) (set_reader r S) (concat (record ∘ enc <$> xs)) = (Throw DataNotReady, set_reader r' (after xs S), []).
Proof.
  induction xs as [|x xs IH]; intros S r Hr Hok HS.
  - exists r. rewrite pwhile_turn by done. unfold pseq, pbind. cbn [fmap list_fmap concat]. rewrite nothing_left by done.
    unfold after. cbn [length imap]. by rewrite Hcount0.
  - apply Forall_cons in Hok as [Hx Hok]. set (S1 := count 1 (add_events [event x (num S)] S)).
    destruct (on_record_written f S S1 r (enc x) Hr (Hfits x Hx)) as (r1 & Hr1 & H1); [intros r0; by apply Hf|].
    destruct (IH S1 r1 Hr1 Hok) as (r2 & H2); [by apply HP|].
    exists r2. rewrite pwhile_turn by done. unfold pseq, pbind. cbn [fmap list_fmap concat compose]. by rewrite H1, H2, after_cons.
Qed.
End Phase.

(** ** A demo file of version 5 *)
Record demo := mkDemo {
  d_header : Header;
  d_sectors : list ExtraSector;
  d_players : list Player;
  d_statuses : list PlayerStatusMessage;      (* as the players sent them *)
  d_units : UnitData;
  d_packets : list Packet }.
Definition status_payload (s : PlayerStatusMessage) : bytes :=
  PlayerStatusMessage_payload (mkPlayerStatusMessage (sm_number s) (packed_status (sm_statusMessage s))).
Definition headers_file (d : demo) : bytes :=
  record (Header_payload (d_header d)) ++ record (ExtraHeader_payload (mkExtraHeader (Z.of_nat (length (d_sectors d))))) ++
  concat (record ∘ ExtraSector_payload <$> d_sectors d) ++ concat (record ∘ Player_payload <$> d_players d) ++
  concat (record ∘ status_payload <$> d_statuses d) ++ record (UnitData_payload (d_units d)).
Definition demo_file (d : demo) : bytes := headers_file d ++ concat (record ∘ Packet_payload <$> d_packets d).

Definition unpack_ok (p : Packet) : Prop := is_ok (unsmartpak (pk_data p) false false).
Definition unpacked (p : Packet) : list bytes := match unsmartpak (pk_data p) false false with Ok l => l | _ => [] end.
Definition demo_wf (d : demo) : Prop :=
  header_wf (d_header d) ∧ hd_version (d_header d) = 5 ∧
  hd_numPlayers (d_header d) = Z.of_nat (length (d_players d)) ∧ length (d_statuses d) = length (d_players d) ∧
  Z.of_nat (length (d_sectors d)) ≤ 10000 ∧ Forall sector_wf (d_sectors d) ∧ Forall player_wf (d_players d) ∧
  Forall status_wf (d_statuses d) ∧ record_fits (UnitData_payload (d_units d)) ∧
  Forall (λ p, packet_wf p ∧ unpack_ok p) (d_packets d).

(** what a reader is told of it *)
Definition shown_sector (e : ExtraSector) : ExtraSector :=
  if es_sectorType e =? 6 then mkExtraSector (es_sectorType e) (map (λ c, Z.lxor c 42) (es_data e)) else e.
Definition status_dplayid (s : PlayerStatusMessage) : Z := match rd32 (sm_statusMessage s) 145 with Ok i => i | _ => 0 end.
Definition sector_event (total : Z) (e : ExtraSector) (n : Z) : demo_event := handle_ExtraSector (shown_sector e) n total.
Definition player_event (total : Z) (p : Player) (n : Z) : demo_event := handle_Player p n total.
Definition status_event (total : Z) (s : PlayerStatusMessage) (n : Z) : demo_event :=
  handle_PlayerStatusMessage s (status_dplayid s) n total.
Definition packet_event (p : Packet) (n : Z) : demo_event := handle_Packet p (unpacked p) n.
Definition numbered {A} (event : A → Z → demo_event) (xs : list A) : list demo_event := imap (λ i x, event x (Z.of_nat i)) xs.
Definition demo_events (d : demo) : list demo_event :=
  let players := Z.of_nat (length (d_players d)) in
  [handle_Header (d_header d)] ++ numbered (sector_event (Z.of_nat (length (d_sectors d)))) (d_sectors d) ++
  numbered (player_event players) (d_players d) ++ numbered (status_event players) (d_statuses d) ++
  [handle_UnitData (d_units d)] ++ numbered packet_event (d_packets d).

(** the phases *)
Lemma set_counters_twice k1 k2 k3 k4 k5 es k1' k2' k3' k4' k5' es' S :
  set_counters k1' k2' k3' k4' k5' (add_events es' (set_counters k1 k2 k3 k4 k5 (add_events es S)))
  = set_counters (k1 + k1') (k2 + k2') (k3 + k3') (k4 + k4') (k5 + k5') (add_events (es ++ es') S).
Proof. unfold set_counters, add_events. cbn. rewrite !Z.add_assoc, app_assoc. done. Qed.
Lemma set_counters_0 S : set_counters 0 0 0 0 0 (add_events [] S) = S.
Proof. unfold set_counters, add_events. cbn. rewrite !Z.add_0_r, app_nil_r. by destruct S. Qed.

Definition in_demo (d : demo) (S : DemoParser) : Prop :=
  m_header S = Some (d_header d) ∧ m_extraHeader S = Some (mkExtraHeader (Z.of_nat (length (d_sectors d)))).
Section Reading.
Context (junk : Z * Z) (d : demo) (Hd : demo_wf d).

Lemma read_sector e S r : sector_wf e → in_demo d S → record_sector (ExtraSector_payload e) (set_reader r S)
  = Ok (set_reader r (set_counters 1 0 0 0 0 (add_events [sector_event (Z.of_nat (length (d_sectors d))) e (m_numExtraSectorsRead S)] S))).
Proof.
  intros He [_ H]. unfold record_sector. rewrite parse_ExtraSector_written, res_bind_ok by done.
  unfold sector_event, shown_sector. assert (numSectors (set_reader r S) = Z.of_nat (length (d_sectors d))) as -> by (unfold numSectors; cbn; by rewrite H).
  done.
Qed.
Lemma in_demo_players S : in_demo d S → numPlayers S = Z.of_nat (length (d_players d)).
Proof. intros [H _]. unfold numPlayers. rewrite H. cbn. apply Hd. Qed.
Lemma read_player p S r : player_wf p → in_demo d S → record_player (Player_payload p) (set_reader r S)
  = Ok (set_reader r (set_counters 0 1 0 0 0 (add_events [player_event (Z.of_nat (length (d_players d))) p (m_numPlayersRead S)] S))).
Proof.
  intros Hp HS. unfold record_player. rewrite parse_Player_written, res_bind_ok by done. unfold player_event.
  change (numPlayers (set_reader r S)) with (numPlayers S). by rewrite in_demo_players.
Qed.
Lemma read_status s S r : status_wf s → in_demo d S → record_status junk (status_payload s) (set_reader r S)
  = Ok (set_reader r (set_counters 0 0 1 0 0 (add_events [status_event (Z.of_nat (length (d_players d))) s (m_numPlayerStatusMessagesRead S)] S))).
Proof.
  intros Hs HS. unfold record_status, status_payload. rewrite parse_Status_written, res_bind_ok by done. unfold status_event, status_dplayid.
  destruct Hs as (_ & _ & Hl & _). destruct (rd32_ok (sm_statusMessage s) 145 ltac:(lia)) as [i ->]. rewrite res_bind_ok.
  change (numPlayers (set_reader r S)) with (numPlayers S). by rewrite in_demo_players.
Qed.
Lemma read_packet p S r : packet_wf p ∧ unpack_ok p → in_demo d S → record_packet (Packet_payload p) (set_reader r S)
  = Ok (set_reader r (set_counters 0 0 0 0 1 (add_events [packet_event p (m_numPacketsRead S)] S))).
Proof.
  intros [Hp Hu] [H _]. unfold record_packet. rewrite parse_Packet_written, res_bind_ok by done.
  assert (version (set_reader r S) = 5) as -> by (unfold version; cbn; rewrite H; apply Hd). change (5 =? 3) with false.
  unfold packet_event, unpacked. destruct Hu as [l ->]. done.
Qed.
End Reading.

Lemma read_units u S r : record_units (UnitData_payload u) (set_reader r S)
  = Ok (set_reader r (set_counters 0 0 0 1 0 (add_event (handle_UnitData u) S))).
Proof. unfold record_units, parse_UnitData, UnitData_payload. rewrite res_bind_ok. by destruct u. Qed.

Lemma sector_fits e : sector_wf e → record_fits (ExtraSector_payload e).
Proof. intros [_ H]. unfold record_fits, ExtraSector_payload. rewrite length_app, length_le4. lia. Qed.
Lemma player_fits p : player_wf p → record_fits (Player_payload p).
Proof. intros _. unfold record_fits, Player_payload. rewrite !length_app, length_take. cbn [length]. lia. Qed.
Lemma status_fits s : status_wf s → record_fits (status_payload s).
Proof.
  intros (_ & _ & _ & H). unfold record_fits, status_payload, PlayerStatusMessage_payload. cbn [sm_number sm_statusMessage].
  revert H. generalize (packed_status (sm_statusMessage s)) as m. intros m H. cbn [app length]. lia.
Qed.
Lemma packet_fits p : packet_wf p ∧ unpack_ok p → record_fits (Packet_payload p).
Proof. intros [(_ & _ & H) _]. unfold record_fits, Packet_payload. rewrite !length_app, length_le2. cbn [length]. lia. Qed.

Lemma pseq_reads {S B} (m : prog S unit) (f : prog S B) s w s' rest : reads m s w tt s' → pseq m f s (w ++ rest) = f s' rest.
Proof. intros H. unfold pseq, pbind. by rewrite H. Qed.

(** the counters of the four phases *)
Definition count_sectors (k : Z) := set_counters k 0 0 0 0.
Definition count_players (k : Z) := set_counters 0 k 0 0 0.
Definition count_statuses (k : Z) := set_counters 0 0 k 0 0.
Definition count_packets (k : Z) := set_counters 0 0 0 0 k.

Definition header_events (d : demo) : list demo_event :=
  let players := Z.of_nat (length (d_players d)) in
  [handle_Header (d_header d)] ++ numbered (sector_event (Z.of_nat (length (d_sectors d)))) (d_sectors d) ++
  numbered (player_event players) (d_players d) ++ numbered (status_event players) (d_statuses d) ++ [handle_UnitData (d_units d)].
Lemma demo_events_split d : demo_events d = header_events d ++ numbered packet_event (d_packets d).
Proof. unfold demo_events, header_events. by rewrite <- !(assoc_L (++)). Qed.

(** the phases before the packets, whatever comes after them *)
Lemma headers_file_parses junk j d (m : prog DemoParser unit) : demo_wf d → ∃ r S, reader_fresh r ∧ in_demo d S ∧
  m_numPacketsRead S = 0 ∧ handled S = header_events d ∧ ∀ rest,
  (load_header ;;; load_extra ;;; load_players ;;; load_statuses junk ;;; load_units ;;; m)%prog (DemoParser_init j) (headers_file d ++ rest)
  = m (set_reader r S) rest.
Proof.
  intros Hd. pose proof Hd as (Hh & Hv & Hnp & Hns & Hse & Hses & Hps & Hss & Hu & Hpk).
  destruct (handlers_ok junk) as ((P1 & P2) & (P3 & _) & (P4 & _) & (P5 & _) & (P6 & _) & (P7 & _)).
  set (np := Z.of_nat (length (d_players d))) in *. set (ns := Z.of_nat (length (d_sectors d))) in *.
  set (S0 := DemoParser_init j).
  set (S1 := set_header (d_header d) (add_event (handle_Header (d_header d)) S0)).
  set (S2 := set_extraHeader (mkExtraHeader ns) S1).
  assert (in_demo d S2) as H2 by done.
  set (S3 := after count_sectors m_numExtraSectorsRead (sector_event ns) (d_sectors d) S2).
  set (S4 := after count_players m_numPlayersRead (player_event np) (d_players d) S3).
  set (S5 := after count_statuses m_numPlayerStatusMessagesRead (status_event np) (d_statuses d) S4).
  set (S6 := set_counters 0 0 0 1 0 (add_event (handle_UnitData (d_units d)) S5)).
  assert (in_demo d S3 ∧ in_demo d S4 ∧ in_demo d S5 ∧ in_demo d S6) as (H3 & H4 & H5 & H6) by done.
  destruct (on_record_written record_header S0 S1 RecordReader_init (Header_payload (d_header d))) as (r1 & F1 & R1);
    [done|by apply header_fits|intros r; unfold record_header; by rewrite parse_Header_written|].
  destruct (on_record_written record_extra_header S1 S2 r1 (ExtraHeader_payload (mkExtraHeader ns))) as (r2 & F2 & R2);
    [done|split; cbn; lia|intros r; unfold record_extra_header; rewrite parse_ExtraHeader_written by (unfold ns in *; lia); done|].
  destruct (counted_written ExtraSector_payload sector_wf record_sector count_sectors m_numExtraSectorsRead (in_demo d) (sector_event ns) P3 sector_fits) with
    (total := numSectors) (xs := d_sectors d) (S := S2) (r := r2) as (r3 & F3 & R3);
    [intros; by apply read_sector|done|done|done|intros; apply set_counters_twice|intros; apply set_counters_0|done..|].
  destruct (counted_written Player_payload player_wf record_player count_players m_numPlayersRead (in_demo d) (player_event np) P4 player_fits) with
    (total := numPlayers) (xs := d_players d) (S := S3) (r := r3) as (r4 & F4 & R4);
    [intros; by apply (read_player d Hd)|done|done|done|intros; apply set_counters_twice|intros; apply set_counters_0|done..|by rewrite (in_demo_players d Hd)|].
  destruct (counted_written status_payload status_wf (record_status junk) count_statuses m_numPlayerStatusMessagesRead (in_demo d) (status_event np) P5 status_fits) with
    (total := numPlayers) (xs := d_statuses d) (S := S4) (r := r4) as (r5 & F5 & R5);
    [intros; by apply (read_status junk d Hd)|done|done|done|intros; apply set_counters_twice|intros; apply set_counters_0|done..|by rewrite (in_demo_players d Hd), Hns|].
  destruct (on_record_written record_units S5 S6 r5 (UnitData_payload (d_units d))) as (r6 & F6 & R6);
    [done|done|intros r; apply read_units|].
  exists r6, S6. split_and!; [done|done|done| |intros w].
  - transitivity (((([] ++ [handle_Header (d_header d)]) ++ numbered (sector_event ns) (d_sectors d)) ++ numbered (player_event np) (d_players d)) ++
      numbered (status_event np) (d_statuses d) ++ [handle_UnitData (d_units d)]).
    + unfold numbered. rewrite (assoc_L (++) _ _ [handle_UnitData _]). reflexivity.
    + unfold header_events. by rewrite <- !(assoc_L (++)).
  - unfold headers_file. rewrite <- !(assoc_L (++)).
    change (DemoParser_init j) with (set_reader RecordReader_init S0).
    rewrite (pseq_reads load_header _ _ _ (set_reader r1 S1)) by exact R1.
    rewrite (assoc_L (++) (record (ExtraHeader_payload _))).
    rewrite (pseq_reads load_extra _ _ _ (set_reader r3 S3)).
    2:{ intros rest. unfold load_extra. assert (version (set_reader r1 S1) = 5) as -> by exact Hv. change (4 <? 5) with true. cbv iota.
        rewrite <- (assoc_L (++)), (pseq_reads load_extra_header _ _ _ (set_reader r2 S2)) by exact R2. apply R3. }
    rewrite (pseq_reads load_players _ _ _ (set_reader r4 S4)) by exact R4.
    rewrite (pseq_reads (load_statuses junk) _ _ _ (set_reader r5 S5)) by exact R5.
    rewrite (pseq_reads load_units _ _ _ (set_reader r6 S6)).
    2:{ intros rest. unfold load_units. rewrite (pwhile_turn record_units P6) by done.
        assert (m_numUnitDataRead (set_reader r5 S5) = 0) as -> by done. change (0 <? 1) with true. cbv iota.
        rewrite (pseq_reads _ _ _ _ (set_reader r6 S6)) by exact R6. rewrite (pwhile_turn record_units P6) by done.
        assert (m_numUnitDataRead (set_reader r6 S6) = 1) as -> by done. done. }
    done.
Qed.
Lemma demo_file_parses junk j d : demo_wf d → ∃ s,
  doParse junk 0 (DemoParser_init j) (demo_file d) = (Throw DataNotReady, s, []) ∧ handled s = demo_events d ∧
  m_numPacketsRead s = Z.of_nat (length (d_packets d)).
Proof.
  intros Hd. destruct (headers_file_parses junk j d (load_packets 0) Hd) as (r6 & S6 & F6 & H6 & Hn & He & R6).
  destruct (handlers_ok junk) as (_ & _ & _ & _ & _ & (P7 & _)).
  destruct (all_written Packet_payload (λ p, packet_wf p ∧ unpack_ok p) record_packet count_packets m_numPacketsRead (in_demo d) packet_event P7 packet_fits) with
    (xs := d_packets d) (S := S6) (r := r6) as (r7 & R7);
    [intros; by apply (read_packet d Hd)|done|done|intros; apply set_counters_twice|intros; apply set_counters_0|done|apply Hd|done|].
  exists (set_reader r7 (after count_packets m_numPacketsRead packet_event (d_packets d) S6)). split_and!.
  - unfold demo_file, doParse. rewrite R6, load_packets_unlimited. exact R7.
  - rewrite demo_events_split, <- He. unfold after, numbered. rewrite Hn. reflexivity.
  - unfold after. cbn. by rewrite Hn.
Qed.
(** a limited number of packets *)
Lemma packets_limited d (Hd : demo_wf d) maxPaks fuel : ∀ xs k S r, reader_fresh r → Forall (λ p, packet_wf p ∧ unpack_ok p) xs → in_demo d S →
  (length xs < fuel)%nat → ∃ n x s rest,
  packets_loop fuel maxPaks k (set_reader r S) (concat (record ∘ Packet_payload <$> xs)) = (x, s, rest) ∧ (x = Ok tt ∨ x = Throw DataNotReady) ∧
  handled s = handled S ++ imap (λ i p, packet_event p (m_numPacketsRead S + Z.of_nat i)) (take n xs).
Proof.
  induction fuel as [|fuel IH]; intros xs k S r Hr Hok HS Hl; [lia|]. cbn [packets_loop]. case_match.
  2:{ eexists 0%nat, _, _, _. split; [done|]. split; [by left|]. by rewrite take_0, app_nil_r. }
  destruct xs as [|p xs].
  - eexists 0%nat, _, _, _. split; [cbn [fmap list_fmap concat]; unfold pseq, pbind; by rewrite nothing_left|].
    split; [by right|]. by rewrite app_nil_r.
  - apply Forall_cons in Hok as [Hp Hok]. set (S1 := count_packets 1 (add_events [packet_event p (m_numPacketsRead S)] S)).
    destruct (on_record_written record_packet S S1 r (Packet_payload p) Hr (packet_fits p Hp)) as (r1 & Hr1 & H1); [intros r0; by apply (read_packet d Hd)|].
    cbn [length] in Hl. destruct (IH xs (k + 1) S1 r1 Hr1 Hok HS ltac:(lia)) as (n & x & s & rest & E & Hx & Hs).
    exists (Datatypes.S n), x, s, rest. split_and!; [|done|].
    + cbn [fmap list_fmap concat compose]. unfold pseq, pbind. by rewrite H1.
    + rewrite Hs. unfold S1. cbn [handled count_packets set_counters add_events m_numPacketsRead take imap]. rewrite <- app_assoc. cbn [app].
      f_equal. f_equal; [f_equal; lia|]. apply imap_ext. intros i y _. cbn [compose]. f_equal. lia.
Qed.
(** [parse] with a limit, on a whole demo: everything but the packets after a number of them *)
Lemma demo_file_parse_some junk j d maxPaks : demo_wf d → ∃ n b s rest,
  parse junk maxPaks (DemoParser_init j) (demo_file d) = (Ok b, s, rest) ∧ handled s = header_events d ++ numbered packet_event (take n (d_packets d)).
Proof.
  intros Hd. destruct (headers_file_parses junk j d (load_packets maxPaks) Hd) as (r & S & F & HS & Hn & He & R).
  set (w := concat (record ∘ Packet_payload <$> d_packets d)).
  assert (length (d_packets d) < Datatypes.S (length w))%nat as Hl.
  { unfold w. clear. induction (d_packets d) as [|p ps IH]; [cbn; lia|]. cbn [fmap list_fmap concat compose length]. rewrite length_app.
    unfold record at 1. rewrite length_app, length_le2. lia. }
  destruct (packets_limited d Hd maxPaks (Datatypes.S (length w)) (d_packets d) 0 S r F ltac:(apply Hd) HS Hl) as (n & x & s & rest & E & Hx & Hs).
  assert (handled s = header_events d ++ numbered packet_event (take n (d_packets d))) as Hh.
  { rewrite Hs, He. f_equal. unfold numbered. apply imap_ext. intros i y _. rewrite Hn. f_equal. }
  assert (doParse junk maxPaks (DemoParser_init j) (demo_file d) = (x, s, rest)) as Ed.
  { unfold doParse, demo_file. rewrite R. exact E. }
  unfold parse. rewrite Ed. exists n. destruct Hx as [-> | ->]; case_match; eexists _, _, _; (split; [reflexivity|exact Hh]).
Qed.

(** ** The writer and the parser *)

(** one [write] after the other *)
Fixpoint write_all {A} (write : A → res bytes) (xs : list A) : res bytes :=
  match xs with
  | [] => Ok []
  | x :: xs => w ← write x; ws ← write_all write xs; Ok (w ++ ws)
  end.
Definition write_demo (d : demo) : res bytes :=
  h ← write_Header (d_header d);
  eh ← write_ExtraHeader (mkExtraHeader (Z.of_nat (length (d_sectors d))));
  sectors ← write_all write_ExtraSector (d_sectors d);
  players ← write_all write_Player (d_players d);
  statuses ← write_all (λ s, write_PlayerStatusMessage (mkPlayerStatusMessage (sm_number s) (packed_status (sm_statusMessage s)))) (d_statuses d);
  units ← write_UnitData (d_units d);
  packets ← write_all write_Packet (d_packets d);
  Ok (h ++ eh ++ sectors ++ players ++ statuses ++ units ++ packets).

Lemma write_all_fits {A} (write : A → res bytes) (enc : A → bytes) (ok : A → Prop) xs :
  (∀ x, ok x → write x = writeRecord (enc x)) → (∀ x, ok x → record_fits (enc x)) → Forall ok xs →
  write_all write xs = Ok (concat (record ∘ enc <$> xs)).
Proof.
  intros Hw Hf. induction 1 as [|x xs Hx Hxs IH]; [done|]. cbn [write_all]. rewrite (Hw x Hx).
  destruct (Hf x Hx) as [_ H]. rewrite writeRecord_fits, res_bind_ok, IH by lia. done.
Qed.
Lemma write_demo_ok d : demo_wf d → write_demo d = Ok (demo_file d).
Proof.
  intros Hd. pose proof Hd as (Hh & Hv & Hnp & Hns & Hse & Hses & Hps & Hss & [_ Hu] & Hpk). unfold write_demo.
  destruct (header_fits _ Hh) as [_ Hh2].
  unfold write_Header. rewrite writeRecord_fits, res_bind_ok by lia.
  unfold write_ExtraHeader. rewrite writeRecord_fits, res_bind_ok by (cbn; lia).
  rewrite (write_all_fits _ ExtraSector_payload sector_wf), res_bind_ok by (done || apply sector_fits).
  rewrite (write_all_fits _ Player_payload player_wf), res_bind_ok by (done || apply player_fits).
  rewrite (write_all_fits _ status_payload status_wf), res_bind_ok by (done || apply status_fits).
  unfold write_UnitData. rewrite writeRecord_fits, res_bind_ok by lia.
  rewrite (write_all_fits _ Packet_payload (λ p, packet_wf p ∧ unpack_ok p)), res_bind_ok by (done || apply packet_fits).
  unfold demo_file, headers_file. by rewrite <- !(assoc_L (++)).
Qed.

Lemma demo_file_fed (junk : Z * Z) (j : Z) (d : demo) (chunks : list bytes) :
  demo_wf d → chunks ≠ [] → concat chunks = demo_file d →
  ∃ s, feed junk chunks (DemoParser_init j) = (Ok tt, s) ∧ handled s = demo_events d.
Proof.
  intros Hd Hne E. destruct chunks as [|c chunks]; [done|].
  pose proof (feed_doParse junk c chunks (DemoParser_init j) ltac:(done)) as H. cbn [concat] in E. rewrite E in H.
  destruct (demo_file_parses junk j d Hd) as (s & Hp & Hs & _). rewrite Hp in H.
  destruct (feed junk (c :: chunks) (DemoParser_init j)) as [x s1]. destruct H as [H1 H2]. exists s1. split.
  - by destruct x as [[]|[]| |].
  - rewrite <- Hs. apply (f_equal handled) in H1. exact H1.
Qed.

(** C32: a demo of version 5 that [TADemoWriter] writes, and whose parts are within what a
    reader accepts, is read back by [DemoParser]: in whatever pieces the file reaches it, the
    handlers are called for the header, every sector, player and status message, the units
    and every packet, in the order in which they were written, numbered, with the addresses
    of the players deciphered, the status messages deciphered and decompressed and the
    packets unpacked; and nothing fails.  What a reader accepts ([demo_wf]): ten players, as
    many as the header says, each with a status that is long enough for his id, 10000
    sectors and a limit of 5000 units at most; records, that of the units too, that are not
    empty and have at most 32766 bytes; numbers in the range of their fields; a printable map
    name of at most 64 characters, names of at most 16 bytes without zeros; packets that can
    be unpacked.  The writer does not see to this: it writes empty records and records of
    up to 65533 bytes, which the reader refuses. *)
Theorem demo_roundtrip (junk : Z * Z) (j : Z) (d : demo) (chunks : list bytes) :
  demo_wf d → chunks ≠ [] → concat chunks = demo_file d →
  write_demo d = Ok (demo_file d) ∧ ∃ s, feed junk chunks (DemoParser_init j) = (Ok tt, s) ∧ handled s = demo_events d.
Proof. intros Hd Hne E. split; [by apply write_demo_ok|by apply demo_file_fed]. Qed.
(** one player, the sectors of his version and his address, and two packets, in three
    pieces *)
Definition ex_demo : demo := mkDemo (mkHeader TA_Demo 5 1 500 [77; 65; 80])
  [mkExtraSector 2 [116; 97; 102]; mkExtraSector 6 [27; 42]] [mkPlayer 1 (-1) 1 [66; 79]]
  [mkPlayerStatusMessage 1 (32 :: replicate 160 7)] (mkUnitData [26; 3; 0])
  [mkPacket 0 1 [3; 254; 9; 0; 0; 0; 255]; mkPacket 33 1 [3; 42; 100]].
Lemma ex_demo_wf : demo_wf ex_demo.
Proof.
  split_and!.
  - split_and!; [done|cbn; lia..|]. cbn [ex_demo d_header hd_mapName]. unfold printable. by repeat constructor.
  - done.
  - done.
  - done.
  - cbn. lia.
  - apply Forall_cons. split; [|apply Forall_singleton]; (split; [unfold is_u32; cbn; lia|cbn; lia]).
  - apply Forall_singleton. split_and!; [unfold is_byte; cbn; lia|cbn; lia..|unfold is_byte; cbn; lia|split; [cbn; lia|]].
    cbn [pl_name]. by repeat constructor.
  - apply Forall_singleton. split_and!; [unfold is_byte; cbn; lia|bytes_compute|cbn; lia|vm_compute; congruence].
  - split; cbn; lia.
  - apply Forall_cons. split; [|apply Forall_singleton]; (split; [split_and!; [unfold is_u16; cbn; lia|unfold is_byte; cbn; lia|cbn; lia]|]).
    + exists [idle_move 9]. vm_compute. reflexivity.
    + exists [[42; 100]]. vm_compute. reflexivity.
Qed.
Definition ex_pieces : list bytes := let f := demo_file ex_demo in [take 10 f; take 100 (drop 10 f); drop 110 f].
Lemma demo_roundtrip_witness : ∃ s, feed (0, 0) ex_pieces (DemoParser_init 9) = (Ok tt, s) ∧
  handled s = [handle_Header (d_header ex_demo); handle_ExtraSector (mkExtraSector 2 [116; 97; 102]) 0 2;
    handle_ExtraSector (mkExtraSector 6 [49; 0]) 1 2; handle_Player (mkPlayer 1 (-1) 1 [66; 79]) 0 1;
    handle_PlayerStatusMessage (mkPlayerStatusMessage 1 (32 :: replicate 160 7)) 117901063 0 1; handle_UnitData (mkUnitData [26; 3; 0]);
    handle_Packet (mkPacket 0 1 [3; 254; 9; 0; 0; 0; 255]) [idle_move 9] 0; handle_Packet (mkPacket 33 1 [3; 42; 100]) [[42; 100]] 1].
Proof.
  destruct (demo_roundtrip (0, 0) 9 ex_demo ex_pieces ex_demo_wf) as (_ & s & H1 & H2).
  - discriminate.
  - vm_compute. reflexivity.
  - exists s. split; [exact H1|]. rewrite H2. vm_compute. reflexivity.
Defined.
