(* ===== verification/GpgNetParse.v ===== *)
(** * Commands of the lobby protocol (GpgNetParse.cpp, GpgNetSend.cpp)

    A command is a name and up to ten arguments, numbers or byte strings, in little
    endian.  [GpgNetParse] can be called again when a command has arrived only in part. *)
From S2P Require Import Prelude Resumable.

(** the entries of a [QVariantList] *)
Inductive Variant : Type :=
  | V_uint (n : Z)
  | V_bytes (b : bytes).

Definition MAX_RECORD_SIZE : Z := 10000.
Definition MAX_NUM_ARGS : Z := 10.

(** ** GpgNetSend *)

(** [m_os << QByteArray]: the length and the bytes *)
Definition put_bytes (b : bytes) : bytes := le4 (Z.of_nat (length b)) ++ b.
Definition sendCommand (command : bytes) (argumentCount : Z) : bytes := put_bytes command ++ le4 (u32 argumentCount).
Definition sendArgument_bytes (arg : bytes) : bytes := [1] ++ put_bytes arg.
Definition sendArgument_int (arg : Z) : bytes := [0] ++ le4 (u32 arg).

(** ** GpgNetParse::RecordReader and its classes *)
Record GRecordReader := mkGReader {
  g_size : nat;                (* m_buffer.size() *)
  g_got : bytes }.             (* the m_progress bytes that were read *)
Definition setSize (size : nat) (r : GRecordReader) : GRecordReader := mkGReader size (g_got r).
Definition greset (r : GRecordReader) : GRecordReader := mkGReader (g_size r) [].
(** [readRawData] gives what is there *)
Definition gget : prog GRecordReader bytes := λ r inp,
  let n := (g_size r - length (g_got r))%nat in
  let r' := mkGReader (g_size r) (g_got r ++ take n inp) in
  (if (length (g_got r') =? g_size r)%nat then Ok (g_got r') else Throw DataNotReady, r', drop n inp).
Definition ByteRecordReader : GRecordReader := mkGReader 1 [].
Definition getByte : prog GRecordReader Z := pbind gget (λ b r inp, (rd8 b 0, r, inp)).
Definition IntRecordReader : GRecordReader := mkGReader 4 [].
Definition getInt : prog GRecordReader Z := pbind gget (λ b r inp, (rd32 b 0, r, inp)).

Record ByteArrayRecordReader := mkBAReader { ba_size : GRecordReader; ba_data : GRecordReader }.
Definition ByteArrayRecordReader_init : ByteArrayRecordReader := mkBAReader IntRecordReader (mkGReader 0 []).
Definition set_ba_size (r : GRecordReader) (b : ByteArrayRecordReader) := mkBAReader r (ba_data b).
Definition set_ba_data (r : GRecordReader) (b : ByteArrayRecordReader) := mkBAReader (ba_size b) r.
Definition ba_reset (b : ByteArrayRecordReader) : ByteArrayRecordReader :=
  mkBAReader (greset (ba_size b)) (greset (ba_data b)).
Definition ba_get : prog ByteArrayRecordReader bytes :=
  pbind (zoom (λ b, Some (ba_size b)) set_ba_size getInt) (λ size,
  if MAX_RECORD_SIZE <? size then λ b inp, (Throw RuntimeError, b, inp)
  else zoom (λ b, Some (ba_data b)) set_ba_data (λ r, gget (setSize (Z.to_nat size) r))).

(** ** GpgNetParse *)
Inductive ArgReader : Type :=
  | IntArg (r : GRecordReader)
  | BytesArg (b : ByteArrayRecordReader).
(** the virtual [get] *)
Definition arg_get : prog ArgReader bytes := λ a inp,
  match a with
  | IntArg r => let '(x, r, inp) := gget r inp in (x, IntArg r, inp)
  | BytesArg b => let '(x, b, inp) := ba_get b inp in (x, BytesArg b, inp)
  end.
Record GpgNetParse := mkParse {
  m_command : ByteArrayRecordReader;
  m_numArgs : GRecordReader;
  m_argTypes : list GRecordReader;
  m_args : list ArgReader }.
Definition GpgNetParse_init : GpgNetParse := mkParse ByteArrayRecordReader_init IntRecordReader [] [].
Definition set_command (b : ByteArrayRecordReader) (p : GpgNetParse) := mkParse b (m_numArgs p) (m_argTypes p) (m_args p).
Definition set_numArgs (r : GRecordReader) (p : GpgNetParse) := mkParse (m_command p) r (m_argTypes p) (m_args p).
Definition set_argTypes (l : list GRecordReader) (p : GpgNetParse) := mkParse (m_command p) (m_numArgs p) l (m_args p).
Definition set_args (l : list ArgReader) (p : GpgNetParse) := mkParse (m_command p) (m_numArgs p) (m_argTypes p) l.
Definition GpgNetParse_reset (p : GpgNetParse) : GpgNetParse := mkParse (ba_reset (m_command p)) (greset (m_numArgs p)) [] [].

(** [if (m_argTypes.size() == nArg) m_argTypes.push_back(...)], and so for [m_args] *)
Definition push_type (nArg : nat) : prog GpgNetParse unit := λ p inp,
  (Ok tt, if (length (m_argTypes p) =? nArg)%nat then set_argTypes (m_argTypes p ++ [ByteRecordReader]) p else p, inp).
Definition push_arg (nArg : nat) (a : ArgReader) : prog GpgNetParse unit := λ p inp,
  (Ok tt, if (length (m_args p) =? nArg)%nat then set_args (m_args p ++ [a]) p else p, inp).
Definition get_type (nArg : nat) : prog GpgNetParse Z :=
  zoom (λ p, m_argTypes p !! nArg) (λ r p, set_argTypes (<[nArg := r]> (m_argTypes p)) p) getByte.
Definition get_arg (nArg : nat) : prog GpgNetParse bytes :=
  zoom (λ p, m_args p !! nArg) (λ r p, set_args (<[nArg := r]> (m_args p)) p) arg_get.
Definition as_uint (b : bytes) : prog GpgNetParse Variant := λ p inp,
  (match rd32 b 0 with Ok n => Ok (V_uint n) | Throw e => Throw e | Undef => Undef | Hang => Hang end, p, inp).

(** the body of the loop over the arguments *)
Definition read_arg (nArg : nat) : prog GpgNetParse Variant :=
  pseq (push_type nArg) (pbind (get_type nArg) (λ argType,
  if argType =? 0 then pseq (push_arg nArg (IntArg IntRecordReader)) (pbind (get_arg nArg) as_uint)
  else if argType =? 1 then
    pseq (push_arg nArg (BytesArg ByteArrayRecordReader_init)) (pbind (get_arg nArg) (λ b, pret (V_bytes b)))
  else λ p inp, (Throw RuntimeError, p, inp))).
Fixpoint read_args (count nArg : nat) (commandAndArgs : list Variant) : prog GpgNetParse (list Variant) :=
  match count with
  | O => pret commandAndArgs
  | S count => pbind (read_arg nArg) (λ a, read_args count (S nArg) (commandAndArgs ++ [a]))
  end.
Definition GetCommand : prog GpgNetParse (list Variant) :=
  pbind (zoom (λ p, Some (m_command p)) set_command ba_get) (λ command,
  pbind (zoom (λ p, Some (m_numArgs p)) set_numArgs getInt) (λ numArgs,
  if MAX_NUM_ARGS <? numArgs then λ p inp, (Throw RuntimeError, p, inp)
  else pbind (read_args (Z.to_nat numArgs) 0 [V_bytes command]) (λ l p inp, (Ok l, GpgNetParse_reset p, inp)))).

(** ** The parser resumes *)
Definition reader_fits (r : GRecordReader) : Prop := (length (g_got r) ≤ g_size r)%nat.
Definition complete (r : GRecordReader) : Prop := length (g_got r) = g_size r.

Lemma gget_spec r a : reader_fits r →
  let r' := mkGReader (g_size r) (g_got r ++ take (g_size r - length (g_got r)) a) in
  reader_fits r' ∧ gget r a = (if decide (g_size r ≤ length (g_got r) + length a)%nat then Ok (g_got r') else Throw DataNotReady,
                               r', drop (g_size r - length (g_got r)) a).
Proof.
  intros Hr r'. unfold reader_fits in *. subst r'. cbn [g_got g_size]. rewrite length_app, length_take. split; [lia|].
  unfold gget. cbn [g_got g_size]. rewrite length_app, length_take. f_equal. f_equal.
  case_decide; [rewrite (proj2 (Nat.eqb_eq _ _)) by lia|rewrite (proj2 (Nat.eqb_neq _ _)) by lia]; done.
Qed.
Lemma gget_resumes : resumes reader_fits gget.
Proof.
  intros r a b Hr. destruct (gget_spec r a Hr) as [Hr' ->]. destruct (gget_spec r (a ++ b) Hr) as [_ ->].
  unfold reader_fits in Hr. set (n := (g_size r - length (g_got r))%nat) in *.
  rewrite length_app. case_decide as H1.
  - rewrite decide_True by lia. split; [done|]. by rewrite take_app_le, drop_app_le by lia.
  - split; [apply drop_ge; lia|]. split; [done|]. destruct (gget_spec _ b Hr') as [_ ->]. cbn [g_got g_size].
    rewrite (take_ge a) by lia. rewrite length_app. rewrite take_app, drop_app, (drop_ge a), (take_ge a) by lia. cbn [app].
    rewrite <- (assoc_L (++)). replace (g_size r - (length (g_got r) + length a))%nat with (n - length a)%nat by lia.
    rewrite (decide_ext _ (g_size r ≤ length (g_got r) + length a + length b)%nat) by lia. done.
Qed.
Lemma gget_finishes : finishes reader_fits (λ x r, complete r ∧ g_got r = x) gget.
Proof.
  split.
  - intros r a x r' a' Hr. destruct (gget_spec r a Hr) as [_ ->]. case_decide; [|done]. intros [= <- <- _].
    split; [|done]. unfold complete, reader_fits in *. cbn [g_got g_size]. rewrite length_app, length_take. lia.
  - intros x r [Hc Hx] inp. destruct (gget_spec r inp) as [_ ->]; [unfold reader_fits; unfold complete in Hc; lia|].
    unfold complete in Hc. rewrite Hc, Nat.sub_diag, take_0, drop_0, app_nil_r, Hx. rewrite decide_True by lia.
    subst x. by destruct r.
Qed.
Lemma resumes_const {S A} (ok : S → Prop) (x : res A) : no_wait x → resumes ok (λ s inp, (x, s, inp)).
Proof. intros Hx s a b Hs. destruct x as [y|[]| |]; done. Qed.
Lemma preserves_const {S A} (P : S → Prop) (x : res A) : preserves P (λ s inp, (x, s, inp)).
Proof. by intros s a y s' a' Hs [= _ <- _]. Qed.

(** [getByte] and [getInt] *)
Section Converted.
Context {A : Type} (conv : bytes → res A) (Hconv : ∀ b, no_wait (conv b)).
Let m : prog GRecordReader A := pbind gget (λ b r inp, (conv b, r, inp)).
Lemma converted_resumes : resumes reader_fits m.
Proof.
  apply (resumes_bind _ _ _ _ gget_resumes gget_finishes).
  - intros x. by apply resumes_const.
  - intros x. apply preserves_throws, preserves_const.
Qed.
Lemma converted_finishes : finishes reader_fits (λ x r, complete r ∧ conv (g_got r) = Ok x) m.
Proof.
  destruct gget_finishes as [H1 H2]. split.
  - intros r a x r' a' Hr. unfold m, pbind. destruct (gget r a) as [[[b|e| |] r1] a1] eqn:E; try done.
    intros [= Hx <- _]. destruct (H1 _ _ _ _ _ Hr E) as [Hc <-]. done.
  - intros x r [Hc Hx] inp. unfold m, pbind. rewrite (H2 (g_got r)) by done. by rewrite Hx.
Qed.
End Converted.
Lemma getByte_resumes : resumes reader_fits getByte.
Proof. apply converted_resumes. intros b. auto with no_wait. Qed.
Lemma getByte_finishes : finishes reader_fits (λ x r, complete r ∧ rd8 (g_got r) 0 = Ok x) getByte.
Proof. apply (converted_finishes (λ b, rd8 b 0)). Qed.
Lemma getInt_resumes : resumes reader_fits getInt.
Proof. apply converted_resumes. intros b. auto with no_wait. Qed.
Lemma getInt_finishes : finishes reader_fits (λ x r, complete r ∧ rd32 (g_got r) 0 = Ok x) getInt.
Proof. apply (converted_finishes (λ b, rd32 b 0)). Qed.

(** the data of a byte array is read after its size is known *)
Definition ba_ok (b : ByteArrayRecordReader) : Prop :=
  reader_fits (ba_size b) ∧ reader_fits (ba_data b) ∧
  (g_got (ba_data b) ≠ [] → ∃ n, complete (ba_size b) ∧ rd32 (g_got (ba_size b)) 0 = Ok n ∧ Z.to_nat n = g_size (ba_data b)).
Definition ba_done (x : bytes) (b : ByteArrayRecordReader) : Prop :=
  ∃ n, complete (ba_size b) ∧ rd32 (g_got (ba_size b)) 0 = Ok n ∧ n ≤ MAX_RECORD_SIZE ∧
       Z.to_nat n = g_size (ba_data b) ∧ complete (ba_data b) ∧ g_got (ba_data b) = x.

Lemma ba_data_step b r1 n : ba_ok b → reader_fits r1 → complete r1 → rd32 (g_got r1) 0 = Ok n →
  (g_got (ba_data b) ≠ [] → Z.to_nat n = g_size (ba_data b)) →
  reader_fits (setSize (Z.to_nat n) (ba_data b)) ∧
  ∀ r2, reader_fits r2 → g_size r2 = Z.to_nat n → ba_ok (mkBAReader r1 r2).
Proof.
  intros (H1 & H2 & _) Hr1 Hc Hn Hg. split.
  - unfold reader_fits, setSize in *. cbn [g_got g_size]. destruct (g_got (ba_data b)) as [|x l] eqn:E; [cbn; lia|].
    rewrite Hg by done. done.
  - intros r2 Hr2 Es. split_and!; [done..|]. intros _. exists n. cbn [ba_size ba_data]. by rewrite Es.
Qed.

Lemma ba_get_run b a : ba_get b a =
  match getInt (ba_size b) a with
  | (Ok n, r1, a1) =>
      if MAX_RECORD_SIZE <? n then (Throw RuntimeError, mkBAReader r1 (ba_data b), a1)
      else let '(x, r2, a2) := gget (setSize (Z.to_nat n) (ba_data b)) a1 in (x, mkBAReader r1 r2, a2)
  | (Throw e, r1, a1) => (Throw e, mkBAReader r1 (ba_data b), a1)
  | (Undef, r1, a1) => (Undef, mkBAReader r1 (ba_data b), a1)
  | (Hang, r1, a1) => (Hang, mkBAReader r1 (ba_data b), a1)
  end.
Proof.
  unfold ba_get, pbind, zoom. destruct (getInt (ba_size b) a) as [[[n|e| |] r1] a1]; try done.
  by case_match.
Qed.
(** a completed size is the size the data has been read with *)
Lemma ba_size_known b a n r1 a1 : ba_ok b → getInt (ba_size b) a = (Ok n, r1, a1) →
  reader_fits r1 ∧ complete r1 ∧ rd32 (g_got r1) 0 = Ok n ∧ (g_got (ba_data b) ≠ [] → Z.to_nat n = g_size (ba_data b)).
Proof.
  intros (Hs & _ & Hd) E. destruct getInt_finishes as [F1 F2]. destruct (F1 _ _ _ _ _ Hs E) as [Hc Hn].
  pose proof (getInt_resumes (ba_size b) a [] Hs) as Hr. rewrite E in Hr. split_and!; [apply Hr|done..|].
  intros Hne. destruct (Hd Hne) as (n' & Hc' & Hn' & <-). by rewrite (F2 n' (ba_size b) (conj Hc' Hn') a) in E; injection E as -> _ _.
Qed.

Lemma ba_get_resumes : resumes ba_ok ba_get.
Proof.
  intros b a c Hb. rewrite !ba_get_run. pose proof Hb as (Hs & _). pose proof (getInt_resumes (ba_size b) a c Hs) as Hi.
  pose proof (ba_size_known b a) as Hk.
  destruct (getInt (ba_size b) a) as [[[n|[]| |] r1] a1] eqn:E; try (by rewrite Hi).
  - destruct Hi as [Hr1 ->]. destruct (Hk n r1 a1 Hb eq_refl) as (_ & Hc & Hn & Hg). destruct (MAX_RECORD_SIZE <? n) eqn:H; [done|].
    destruct (ba_data_step b r1 n Hb Hr1 Hc Hn Hg) as [Hf Hok].
    pose proof (gget_resumes (setSize (Z.to_nat n) (ba_data b)) a1 c Hf) as Hd.
    pose proof (gget_spec _ a1 Hf) as [Hr2 Es].
    destruct (gget (setSize (Z.to_nat n) (ba_data b)) a1) as [[[x|[]| |] r2] a2] eqn:Ed; try (by rewrite Hd).
    + destruct Hd as [Hr ->]. split; [|done]. apply Hok; [done|]. by injection Es as _ -> _.
    + destruct Hd as (-> & Hr & ->). split; [done|].
      assert (g_size r2 = Z.to_nat n) as Esz by (by injection Es as _ -> _).
      split; [by apply Hok|]. rewrite ba_get_run. cbn [ba_size ba_data]. destruct getInt_finishes as [_ F2]. rewrite (F2 n r1 (conj Hc Hn) c).
      rewrite H. unfold setSize. rewrite <- Esz. destruct r2. cbn [g_size g_got]. done.
  - destruct Hi as (-> & Hr1 & ->). split; [done|]. destruct Hb as (H1 & H2 & H3). split; [|rewrite ba_get_run; done].
    split_and!; [done..|]. intros Hne. destruct (H3 Hne) as (n & Hc & Hn & Hg). destruct getInt_finishes as [_ F2].
    by rewrite (F2 n (ba_size b) (conj Hc Hn) a) in E.
Qed.
Lemma ba_get_finishes : finishes ba_ok ba_done ba_get.
Proof.
  destruct gget_finishes as [G1 G2], getInt_finishes as [F1 F2]. split.
  - intros b a x b' a' Hb. rewrite ba_get_run. destruct (getInt (ba_size b) a) as [[[n|e| |] r1] a1] eqn:E; try done.
    destruct (ba_size_known b a n r1 a1 Hb E) as (Hr1 & Hc & Hn & Hg). destruct (Z.ltb_spec MAX_RECORD_SIZE n); [done|].
    destruct (ba_data_step b r1 n Hb Hr1 Hc Hn Hg) as [Hf _]. pose proof (gget_spec _ a1 Hf) as [_ Es].
    destruct (gget (setSize (Z.to_nat n) (ba_data b)) a1) as [[y r2] a2] eqn:Ed. intros [= -> <- _].
    destruct (G1 _ _ _ _ _ Hf Ed) as [Hc2 Hx]. exists n. cbn [ba_size ba_data]. split_and!; try done. by injection Es as _ -> _.
  - intros x b (n & Hc & Hn & Hm & Hsz & Hc2 & Hx) inp. rewrite ba_get_run, (F2 n (ba_size b) (conj Hc Hn) inp).
    rewrite (proj2 (Z.ltb_ge _ _)) by done. rewrite Hsz. assert (setSize (g_size (ba_data b)) (ba_data b) = ba_data b) as -> by (by destruct (ba_data b)).
    rewrite (G2 x (ba_data b) (conj Hc2 Hx) inp). by destruct b.
Qed.

Definition arg_ok (a : ArgReader) : Prop := match a with IntArg r => reader_fits r | BytesArg b => ba_ok b end.
Definition arg_done (x : bytes) (a : ArgReader) : Prop :=
  match a with IntArg r => complete r ∧ g_got r = x | BytesArg b => ba_done x b end.
Lemma arg_get_resumes : resumes arg_ok arg_get.
Proof.
  intros [r|b] a c Ha; unfold arg_get.
  - pose proof (gget_resumes r a c Ha) as H. destruct (gget r a) as [[[x|[]| |] r1] a1]; try (by rewrite H).
    + destruct H as [Hr ->]. by split.
    + destruct H as (-> & Hr & ->). by split_and!.
  - pose proof (ba_get_resumes b a c Ha) as H. destruct (ba_get b a) as [[[x|[]| |] r1] a1]; try (by rewrite H).
    + destruct H as [Hr ->]. by split.
    + destruct H as (-> & Hr & ->). by split_and!.
Qed.
Lemma arg_get_finishes : finishes arg_ok arg_done arg_get.
Proof.
  destruct gget_finishes as [G1 G2], ba_get_finishes as [B1 B2]. split.
  - intros [r|b] a x t a' Ha; unfold arg_get.
    + destruct (gget r a) as [[y r1] a1] eqn:E. intros [= -> <- _]. by apply (G1 _ _ _ _ _ Ha E).
    + destruct (ba_get b a) as [[y b1] a1] eqn:E. intros [= -> <- _]. by apply (B1 _ _ _ _ _ Ha E).
  - intros x [r|b] Hd inp; unfold arg_get; [by rewrite (G2 x r Hd inp)|by rewrite (B2 x b Hd inp)].
Qed.

(** the parser with a command of which a part has arrived *)
Definition gpg_ok (p : GpgNetParse) : Prop :=
  ba_ok (m_command p) ∧ reader_fits (m_numArgs p) ∧ Forall reader_fits (m_argTypes p) ∧ Forall arg_ok (m_args p).

Lemma get_type_resumes n : resumes gpg_ok (get_type n).
Proof.
  apply (zoom_resumes gpg_ok reader_fits).
  - intros r p [r0 Hr]. cbn. apply list_lookup_insert_eq. by apply lookup_lt_Some in Hr.
  - intros r r' p. unfold set_argTypes. cbn. by rewrite list_insert_insert_eq.
  - intros p r (_ & _ & H & _) E. by apply (Forall_lookup_1 _ _ _ _ H E).
  - intros p r (H1 & H2 & H3 & H4) Hr. split_and!; try done. by apply Forall_insert.
  - apply getByte_resumes.
Qed.
Definition type_done (n : nat) (x : Z) (p : GpgNetParse) : Prop :=
  ∃ r, m_argTypes p !! n = Some r ∧ complete r ∧ rd8 (g_got r) 0 = Ok x.
Lemma get_type_finishes n : finishes gpg_ok (type_done n) (get_type n).
Proof.
  apply (zoom_finishes gpg_ok reader_fits).
  - intros r p [r0 Hr]. cbn. apply list_lookup_insert_eq. by apply lookup_lt_Some in Hr.
  - intros r p E. unfold set_argTypes. rewrite list_insert_id by done. by destruct p.
  - intros p r (_ & _ & H & _) E. by apply (Forall_lookup_1 _ _ _ _ H E).
  - apply getByte_finishes.
Qed.
Lemma get_arg_resumes n : resumes gpg_ok (get_arg n).
Proof.
  apply (zoom_resumes gpg_ok arg_ok).
  - intros r p [r0 Hr]. cbn. apply list_lookup_insert_eq. by apply lookup_lt_Some in Hr.
  - intros r r' p. unfold set_args. cbn. by rewrite list_insert_insert_eq.
  - intros p r (_ & _ & _ & H) E. by apply (Forall_lookup_1 _ _ _ _ H E).
  - intros p r (H1 & H2 & H3 & H4) Hr. split_and!; try done. by apply Forall_insert.
  - apply arg_get_resumes.
Qed.
Definition value_done (n : nat) (x : bytes) (p : GpgNetParse) : Prop :=
  ∃ a, m_args p !! n = Some a ∧ arg_done x a.
Lemma get_arg_finishes n : finishes gpg_ok (value_done n) (get_arg n).
Proof.
  apply (zoom_finishes gpg_ok arg_ok).
  - intros r p [r0 Hr]. cbn. apply list_lookup_insert_eq. by apply lookup_lt_Some in Hr.
  - intros r p E. unfold set_args. rewrite list_insert_id by done. by destruct p.
  - intros p r (_ & _ & _ & H) E. by apply (Forall_lookup_1 _ _ _ _ H E).
  - apply arg_get_finishes.
Qed.

(** the pushes *)
Lemma push_type_resumes n : resumes gpg_ok (push_type n).
Proof.
  intros p a b Hp. unfold push_type. split; [|done]. case_match; [|done]. destruct Hp as (H1 & H2 & H3 & H4).
  split_and!; try done. apply Forall_app. split; [done|]. apply Forall_singleton. unfold reader_fits. cbn. lia.
Qed.
Lemma push_type_finishes n : finishes gpg_ok (λ _ p, length (m_argTypes p) ≠ n) (push_type n).
Proof.
  split.
  - intros p a x p' a' _ [= _ <- _]. destruct (Nat.eqb_spec (length (m_argTypes p)) n); cbn; [rewrite length_app; cbn; lia|done].
  - intros [] p Hn inp. unfold push_type. by rewrite (proj2 (Nat.eqb_neq _ _) Hn).
Qed.
Lemma push_arg_resumes n r : arg_ok r → resumes gpg_ok (push_arg n r).
Proof.
  intros Hr p a b Hp. unfold push_arg. split; [|done]. case_match; [|done]. destruct Hp as (H1 & H2 & H3 & H4).
  split_and!; try done. apply Forall_app. split; [done|]. by apply Forall_singleton.
Qed.
Lemma push_arg_finishes n r : finishes gpg_ok (λ _ p, length (m_args p) ≠ n) (push_arg n r).
Proof.
  split.
  - intros p a x p' a' _ [= _ <- _]. destruct (Nat.eqb_spec (length (m_args p)) n); cbn; [rewrite length_app; cbn; lia|done].
  - intros [] p Hn inp. unfold push_arg. by rewrite (proj2 (Nat.eqb_neq _ _) Hn).
Qed.

(** what the reading of an argument leaves alone *)
Lemma preserves_get_type (P : GpgNetParse → Prop) n :
  (∀ p r, P p → P (set_argTypes (<[n := r]> (m_argTypes p)) p)) → preserves P (get_type n).
Proof. intros H. by apply preserves_zoom. Qed.
Lemma preserves_get_arg (P : GpgNetParse → Prop) n :
  (∀ p r, P p → P (set_args (<[n := r]> (m_args p)) p)) → preserves P (get_arg n).
Proof. intros H. by apply preserves_zoom. Qed.
Lemma preserves_push_type (P : GpgNetParse → Prop) n :
  (∀ p, P p → length (m_argTypes p) = n → P (set_argTypes (m_argTypes p ++ [ByteRecordReader]) p)) → preserves P (push_type n).
Proof.
  intros H p a x p' a' Hp [= _ <- _]. destruct (Nat.eqb_spec (length (m_argTypes p)) n); [by apply H|done].
Qed.
Lemma preserves_push_arg (P : GpgNetParse → Prop) n r :
  (∀ p, P p → length (m_args p) = n → P (set_args (m_args p ++ [r]) p)) → preserves P (push_arg n r).
Proof.
  intros H p a x p' a' Hp [= _ <- _]. destruct (Nat.eqb_spec (length (m_args p)) n); [by apply H|done].
Qed.
Lemma preserves_read_arg (P : GpgNetParse → Prop) n :
  (∀ p, P p → length (m_argTypes p) = n → P (set_argTypes (m_argTypes p ++ [ByteRecordReader]) p)) →
  (∀ p r, P p → length (m_args p) = n → P (set_args (m_args p ++ [r]) p)) →
  (∀ p r, P p → P (set_argTypes (<[n := r]> (m_argTypes p)) p)) →
  (∀ p r, P p → P (set_args (<[n := r]> (m_args p)) p)) → preserves P (read_arg n).
Proof.
  intros H1 H2 H3 H4. unfold read_arg, pseq. apply preserves_bind; [by apply preserves_push_type|]. intros _.
  apply preserves_bind; [by apply preserves_get_type|]. intros t. case_match; [|case_match; [|apply preserves_const]].
  - apply preserves_bind; [apply preserves_push_arg; auto|]. intros _. apply preserves_bind; [by apply preserves_get_arg|].
    intros b. apply preserves_const.
  - apply preserves_bind; [apply preserves_push_arg; auto|]. intros _. apply preserves_bind; [by apply preserves_get_arg|].
    intros b. apply preserves_pret.
Qed.

(** an argument that has been read *)
Definition read_done (n : nat) (x : Variant) (p : GpgNetParse) : Prop :=
  ∃ t, type_done n t p ∧ ∃ b, value_done n b p ∧
  if t =? 0 then ∃ v, rd32 b 0 = Ok v ∧ x = V_uint v else t = 1 ∧ x = V_bytes b.
Lemma value_done_length n b p : value_done n b p → length (m_args p) ≠ n.
Proof. intros (a & H & _). apply lookup_lt_Some in H. lia. Qed.
Lemma type_done_length n t p : type_done n t p → length (m_argTypes p) ≠ n.
Proof. intros (r & H & _). apply lookup_lt_Some in H. lia. Qed.

Lemma read_value_ok {B} n r (conv : bytes → prog GpgNetParse B) (R : bytes → B → GpgNetParse → Prop) : arg_ok r →
  (∀ b, resumes gpg_ok (conv b)) → (∀ b, finishes gpg_ok (R b) (conv b)) → (∀ b (P : GpgNetParse → Prop), preserves P (conv b)) →
  let m := pseq (push_arg n r) (pbind (get_arg n) conv) in
  resumes gpg_ok m ∧ finishes gpg_ok (λ y p, ∃ b, value_done n b p ∧ R b y p) m.
Proof.
  intros Hr Hc Hf Hp m.
  assert (resumes gpg_ok (pbind (get_arg n) conv)) as H1.
  { apply (resumes_bind _ _ _ _ (get_arg_resumes n) (get_arg_finishes n) Hc). intros b. by apply preserves_throws. }
  assert (finishes gpg_ok (λ y p, ∃ b, value_done n b p ∧ R b y p) (pbind (get_arg n) conv)) as H2.
  { apply finishes_bind; [apply get_arg_resumes|apply get_arg_finishes|done|auto]. }
  assert (preserves (λ p, length (m_args p) ≠ n) (pbind (get_arg n) conv)) as H3.
  { apply preserves_bind; [|auto]. apply preserves_get_arg. intros p x Hx. cbn. by rewrite length_insert. }
  split.
  - apply (resumes_bind _ _ _ _ (push_arg_resumes n r Hr) (push_arg_finishes n r)); [done|]. intros _. by apply preserves_throws.
  - destruct (finishes_bind gpg_ok _ _ _ (λ _, pbind (get_arg n) conv) (push_arg_resumes n r Hr) (push_arg_finishes n r)
      (λ _, H2) (λ _, H3)) as [F1 F2]. split.
    + intros p a y p' a' Hp0 E. by destruct (F1 p a y p' a' Hp0 E) as ([] & _ & H).
    + intros y p (b & Hb & HR). apply F2. exists tt. split; [by apply (value_done_length n b)|by exists b].
Qed.
Lemma as_uint_ok b : resumes gpg_ok (as_uint b) ∧
  finishes gpg_ok (λ y _, ∃ v, rd32 b 0 = Ok v ∧ y = V_uint v) (as_uint b) ∧ ∀ P, preserves P (as_uint b).
Proof.
  split_and!.
  - apply resumes_const. pose proof (rd32_no_wait b 0) as H. by destruct (rd32 b 0) as [v|[]| |].
  - split; [|intros y p (v & E & ->) inp; unfold as_uint; by rewrite E].
    intros p a y p' a' _. unfold as_uint. destruct (rd32 b 0) as [v|e| |]; try done. intros [= <- _ _]. by exists v.
  - intros P. apply preserves_const.
Qed.
Lemma pret_ok b : resumes gpg_ok (pret (V_bytes b)) ∧
  finishes gpg_ok (λ y _, y = V_bytes b) (pret (V_bytes b)) ∧ ∀ P, preserves P (@pret GpgNetParse _ (V_bytes b)).
Proof. split_and!; [by apply resumes_const|apply finishes_pret|intros P; apply preserves_pret]. Qed.

(** the body after the type of the argument *)
Definition read_value (n : nat) (argType : Z) : prog GpgNetParse Variant :=
  if argType =? 0 then pseq (push_arg n (IntArg IntRecordReader)) (pbind (get_arg n) as_uint)
  else if argType =? 1 then
    pseq (push_arg n (BytesArg ByteArrayRecordReader_init)) (pbind (get_arg n) (λ b, pret (V_bytes b)))
  else λ p inp, (Throw RuntimeError, p, inp).
Lemma read_value_spec n t : resumes gpg_ok (read_value n t) ∧
  finishes gpg_ok (λ y p, ∃ b, value_done n b p ∧ if t =? 0 then ∃ v, rd32 b 0 = Ok v ∧ y = V_uint v else t = 1 ∧ y = V_bytes b)
    (read_value n t).
Proof.
  unfold read_value. destruct (t =? 0).
  - apply read_value_ok; [unfold arg_ok, reader_fits; cbn; lia|apply as_uint_ok..].
  - destruct (Z.eqb_spec t 1) as [->|Ht].
    + destruct (read_value_ok n (BytesArg ByteArrayRecordReader_init) (λ b, pret (V_bytes b)) (λ b y _, y = V_bytes b)) as [H1 [H2 H3]].
      * split_and!; [unfold reader_fits; cbn; lia..|done].
      * intros b. apply pret_ok.
      * intros b. apply pret_ok.
      * intros b. apply pret_ok.
      * split; [done|]. split.
        -- intros p a y p' a' Hp E. destruct (H2 p a y p' a' Hp E) as (b & Hb & ->). by exists b.
        -- intros y p (b & Hb & _ & ->). apply H3. by exists b.
    + split; [by apply resumes_const|]. split; [done|]. by intros y p (b & _ & ? & _).
Qed.
Lemma read_value_types n t (P : list GRecordReader → Prop) : preserves (λ p, P (m_argTypes p)) (read_value n t).
Proof.
  unfold read_value, pseq.
  assert (∀ B r (conv : bytes → prog GpgNetParse B), (∀ b, preserves (λ p, P (m_argTypes p)) (conv b)) →
    preserves (λ p, P (m_argTypes p)) (pbind (push_arg n r) (λ _, pbind (get_arg n) conv))) as H.
  { intros B r conv Hc. apply preserves_bind; [by apply preserves_push_arg|]. intros _.
    apply preserves_bind; [by apply preserves_get_arg|done]. }
  case_match; [apply H; intros b; apply preserves_const|]. case_match; [apply H; intros b; apply preserves_pret|apply preserves_const].
Qed.

Lemma read_arg_spec n : resumes gpg_ok (read_arg n) ∧ finishes gpg_ok (read_done n) (read_arg n).
Proof.
  change (read_arg n) with (pseq (push_type n) (pbind (get_type n) (read_value n))). set (m := pbind (get_type n) (read_value n)).
  assert (∀ t, preserves (type_done n t) (read_value n t)) as H0.
  { intros t. unfold type_done. apply (read_value_types n t (λ l, ∃ r, l !! n = Some r ∧ _)). }
  assert (resumes gpg_ok m) as H1.
  { apply (resumes_bind _ _ _ _ (get_type_resumes n) (get_type_finishes n)).
    - intros t. apply read_value_spec.
    - intros t. by apply preserves_throws. }
  assert (finishes gpg_ok (read_done n) m) as H2.
  { apply (finishes_bind _ _ _ _ _ (get_type_resumes n) (get_type_finishes n)).
    - intros t. apply read_value_spec.
    - done. }
  assert (preserves (λ p, length (m_argTypes p) ≠ n) m) as H3.
  { apply preserves_bind.
    - apply preserves_get_type. intros p r Hp. cbn. by rewrite length_insert.
    - intros t. apply (read_value_types n t (λ l, length l ≠ n)). }
  split.
  - apply (resumes_bind _ _ _ _ (push_type_resumes n) (push_type_finishes n)); [done|]. intros _. by apply preserves_throws.
  - destruct (finishes_bind gpg_ok _ _ _ (λ _, m) (push_type_resumes n) (push_type_finishes n) (λ _, H2) (λ _, H3)) as [F1 F2]. split.
    + intros p a y p' a' Hp E. by destruct (F1 p a y p' a' Hp E) as ([] & _ & H).
    + intros y p Hd. apply F2. exists tt. split; [|done]. destruct Hd as (t & Ht & _). by apply (type_done_length n t).
Qed.

Lemma read_done_kept n x k : (n < k)%nat → preserves (read_done n x) (read_arg k).
Proof.
  intros Hn.
  assert (∀ (p p' : GpgNetParse), (∀ r, m_argTypes p !! n = Some r → m_argTypes p' !! n = Some r) →
    (∀ a, m_args p !! n = Some a → m_args p' !! n = Some a) → read_done n x p → read_done n x p') as H.
  { intros p p' H1 H2 (t & (r & Hr & Hr') & b & (a & Ha & Ha') & Hx). exists t. split; [by exists r; auto|].
    exists b. split; [by exists a; auto|done]. }
  apply preserves_read_arg; intros p **; (eapply H; [..|eassumption]); cbn; intros ? Hl; try done.
  - by apply lookup_app_l_Some.
  - by apply lookup_app_l_Some.
  - rewrite list_lookup_insert_ne by lia. done.
  - rewrite list_lookup_insert_ne by lia. done.
Qed.
Lemma read_args_kept n x count k l : (n < k)%nat → preserves (read_done n x) (read_args count k l).
Proof.
  revert k l. induction count as [|count IH]; intros k l Hk; cbn [read_args]; [apply preserves_pret|].
  apply preserves_bind; [by apply read_done_kept|]. intros a. apply IH. lia.
Qed.
Lemma read_args_resumes count n l : resumes gpg_ok (read_args count n l).
Proof.
  revert n l. induction count as [|count IH]; intros n l; cbn [read_args]; [by apply resumes_const|].
  destruct (read_arg_spec n) as [H1 H2]. apply (resumes_bind _ _ _ _ H1 H2); [auto|].
  intros a. apply preserves_throws, read_args_kept. lia.
Qed.
Lemma read_args_others count n l (P : ByteArrayRecordReader → GRecordReader → Prop) :
  preserves (λ p, P (m_command p) (m_numArgs p)) (read_args count n l).
Proof.
  revert n l. induction count as [|count IH]; intros n l; cbn [read_args]; [apply preserves_pret|].
  apply preserves_bind; [by apply preserves_read_arg|auto].
Qed.

Definition read_command : prog GpgNetParse bytes := zoom (λ p, Some (m_command p)) set_command ba_get.
Definition read_numArgs : prog GpgNetParse Z := zoom (λ p, Some (m_numArgs p)) set_numArgs getInt.
Lemma read_command_spec : resumes gpg_ok read_command ∧
  finishes gpg_ok (λ x p, ∃ b, Some (m_command p) = Some b ∧ ba_done x b) read_command.
Proof.
  split.
  - apply (zoom_resumes gpg_ok ba_ok); [done|done|..|apply ba_get_resumes].
    + intros p b (H & _) [= <-]. done.
    + intros p b (H1 & H2 & H3 & H4) Hb. by split_and!.
  - apply (zoom_finishes gpg_ok ba_ok); [done|..|apply ba_get_finishes].
    + intros b p [= <-]. by destruct p.
    + intros p b (H & _) [= <-]. done.
Qed.
Lemma read_numArgs_spec : resumes gpg_ok read_numArgs ∧
  finishes gpg_ok (λ x p, ∃ r, Some (m_numArgs p) = Some r ∧ complete r ∧ rd32 (g_got r) 0 = Ok x) read_numArgs.
Proof.
  split.
  - apply (zoom_resumes gpg_ok reader_fits); [done|done|..|apply getInt_resumes].
    + intros p b (_ & H & _) [= <-]. done.
    + intros p b (H1 & H2 & H3 & H4) Hb. by split_and!.
  - apply (zoom_finishes gpg_ok reader_fits); [done|..|apply getInt_finishes].
    + intros b p [= <-]. by destruct p.
    + intros p b (_ & H & _) [= <-]. done.
Qed.

Definition finish_command (l : list Variant) : prog GpgNetParse (list Variant) := λ p inp, (Ok l, GpgNetParse_reset p, inp).
Definition after_numArgs (command : bytes) (numArgs : Z) : prog GpgNetParse (list Variant) :=
  if MAX_NUM_ARGS <? numArgs then λ p inp, (Throw RuntimeError, p, inp)
  else pbind (read_args (Z.to_nat numArgs) 0 [V_bytes command]) finish_command.
Lemma after_numArgs_others c n (P : ByteArrayRecordReader → GRecordReader → Prop) :
  throws_with (λ p, P (m_command p) (m_numArgs p)) (after_numArgs c n).
Proof.
  unfold after_numArgs. case_match; [apply preserves_throws, preserves_const|]. apply throws_bind; [apply read_args_others|].
  intros l p a e p' a' _. done.
Qed.
Lemma GetCommand_resumes : resumes gpg_ok GetCommand.
Proof.
  change GetCommand with (pbind read_command (λ c, pbind read_numArgs (after_numArgs c))).
  destruct read_command_spec as [C1 C2], read_numArgs_spec as [N1 N2].
  apply (resumes_bind _ _ _ _ C1 C2).
  - intros c. apply (resumes_bind _ _ _ _ N1 N2).
    + intros n. unfold after_numArgs. case_match; [by apply resumes_const|].
      apply resumes_bind_last; [apply read_args_resumes| |done].
      intros l p a b (H1 & H2 & H3 & H4). split; [|done]. split_and!; try by apply Forall_nil.
      * split_and!; unfold reader_fits; cbn; [lia..|done].
      * unfold reader_fits. cbn. lia.
    + intros n. apply (after_numArgs_others c n (λ _ r, ∃ r0, Some r = Some r0 ∧ complete r0 ∧ rd32 (g_got r0) 0 = Ok n)).
  - intros c. apply throws_bind.
    + apply preserves_zoom. intros p t H. exact H.
    + intros n. apply (after_numArgs_others c n (λ b _, ∃ b0, Some b = Some b0 ∧ ba_done c b0)).
Qed.

(** a parser between two commands *)
Definition fresh (p : GpgNetParse) : Prop :=
  ba_size (m_command p) = IntRecordReader ∧ g_got (ba_data (m_command p)) = [] ∧ m_numArgs p = IntRecordReader ∧
  m_argTypes p = [] ∧ m_args p = [].
Lemma fresh_ok p : fresh p → gpg_ok p.
Proof.
  intros (H1 & H2 & H3 & H4 & H5). unfold gpg_ok, ba_ok. rewrite H1, H2, H3, H4, H5. split_and!; unfold reader_fits; rewrite ?H2; cbn; try lia; try done.
Qed.

(** ** A command that is not accepted *)
Lemma converted_sticks {A} (conv : bytes → res A) : sticks reader_fits (pbind gget (λ b r inp, (conv b, r, inp))).
Proof.
  apply (sticks_bind _ _ _ _ gget_resumes gget_finishes).
  - intros x. apply preserves_throws, preserves_const.
  - apply sticks_never. intros r a e _. unfold gget. cbn. case_match; [done|]. by intros [= <-].
  - intros x. apply sticks_const.
Qed.
Lemma getInt_sticks : sticks reader_fits getInt.
Proof. apply (converted_sticks (λ b, rd32 b 0)). Qed.
Lemma gget_sticks : sticks reader_fits gget.
Proof. apply sticks_never. intros r a e _. unfold gget. cbn. case_match; [done|]. by intros [= <-]. Qed.
Lemma ba_get_sticks : sticks ba_ok ba_get.
Proof.
  intros b a e b' a' Hb. rewrite ba_get_run. destruct (getInt (ba_size b) a) as [[[n|e1| |] r1] a1] eqn:E; try done.
  - destruct (ba_size_known b a n r1 a1 Hb E) as (Hr1 & Hc & Hn & Hg). destruct getInt_finishes as [_ F2].
    destruct (MAX_RECORD_SIZE <? n) eqn:Em.
    + intros [= <- <- _] _ inp. rewrite ba_get_run. cbn [ba_size ba_data]. by rewrite (F2 n r1 (conj Hc Hn) inp), Em.
    + destruct (gget _ a1) as [[x r2] a2] eqn:Eg. intros [= -> _ _] Hne. exfalso. apply Hne. revert Eg. unfold gget.
      case_match; [done|]. by intros [= <- _ _].
  - intros [= -> <- _] Hne inp. rewrite ba_get_run. cbn [ba_size ba_data].
    by rewrite (getInt_sticks (ba_size b) a e r1 a1 (proj1 Hb) E Hne inp).
Qed.
Lemma arg_get_sticks : sticks arg_ok arg_get.
Proof.
  intros [r|b] a e t a' Ha; unfold arg_get.
  - destruct (gget r a) as [[y r1] a1] eqn:E. intros [= -> <- _] Hne inp. by rewrite (gget_sticks r a e r1 a1 Ha E Hne inp).
  - destruct (ba_get b a) as [[y b1] a1] eqn:E. intros [= -> <- _] Hne inp. by rewrite (ba_get_sticks b a e b1 a1 Ha E Hne inp).
Qed.
Lemma read_value_sticks n t : sticks gpg_ok (read_value n t).
Proof.
  assert (∀ r (conv : bytes → prog GpgNetParse Variant), arg_ok r → (∀ b, sticks gpg_ok (conv b)) →
    (∀ b (P : GpgNetParse → Prop), preserves P (conv b)) → sticks gpg_ok (pseq (push_arg n r) (pbind (get_arg n) conv))) as H.
  { intros r conv Hr Hc Hp. apply (sticks_bind _ _ _ _ (push_arg_resumes n r Hr) (push_arg_finishes n r)).
    - intros _. apply preserves_throws, preserves_bind; [|auto]. apply preserves_get_arg. intros p x Hx. cbn. by rewrite length_insert.
    - by apply sticks_never.
    - intros _. apply (sticks_bind _ _ _ _ (get_arg_resumes n) (get_arg_finishes n)); [intros b; by apply preserves_throws| |done].
      apply (zoom_sticks gpg_ok arg_ok); [..|apply arg_get_sticks].
      + intros a p [r0 Hr0]. cbn. apply list_lookup_insert_eq. by apply lookup_lt_Some in Hr0.
      + intros a a' p. unfold set_args. cbn. by rewrite list_insert_insert_eq.
      + intros p a (_ & _ & _ & Ha) E. by apply (Forall_lookup_1 _ _ _ _ Ha E). }
  unfold read_value. case_match; [|case_match; [|apply sticks_const]].
  - apply H; [unfold arg_ok, reader_fits; cbn; lia| |]; intros b; [apply sticks_const|apply as_uint_ok].
  - apply H; [| |]; [split_and!; [unfold reader_fits; cbn; lia..|done]| |]; intros b; [apply sticks_const|apply pret_ok].
Qed.
Lemma read_arg_sticks n : sticks gpg_ok (read_arg n).
Proof.
  change (read_arg n) with (pseq (push_type n) (pbind (get_type n) (read_value n))).
  apply (sticks_bind _ _ _ _ (push_type_resumes n) (push_type_finishes n)).
  - intros _. apply preserves_throws, preserves_bind.
    + apply preserves_get_type. intros p r Hp. cbn. by rewrite length_insert.
    + intros t. apply (read_value_types n t (λ l, length l ≠ n)).
  - by apply sticks_never.
  - intros _. apply (sticks_bind _ _ _ _ (get_type_resumes n) (get_type_finishes n)).
    + intros t. apply preserves_throws, (read_value_types n t (λ l, ∃ r, l !! n = Some r ∧ _)).
    + apply (zoom_sticks gpg_ok reader_fits); [..|apply converted_sticks].
      * intros a p [r0 Hr0]. cbn. apply list_lookup_insert_eq. by apply lookup_lt_Some in Hr0.
      * intros a a' p. unfold set_argTypes. cbn. by rewrite list_insert_insert_eq.
      * intros p a (_ & _ & Ha & _) E. by apply (Forall_lookup_1 _ _ _ _ Ha E).
    + intros t. apply read_value_sticks.
Qed.
Lemma read_args_sticks count n l : sticks gpg_ok (read_args count n l).
Proof.
  revert n l. induction count as [|count IH]; intros n l; cbn [read_args]; [apply sticks_const|].
  destruct (read_arg_spec n) as [H1 H2]. apply (sticks_bind _ _ _ _ H1 H2); [|apply read_arg_sticks|auto].
  intros a. apply preserves_throws, read_args_kept. lia.
Qed.

Lemma GetCommand_sticks : sticks gpg_ok GetCommand.
Proof.
  change GetCommand with (pbind read_command (λ c, pbind read_numArgs (after_numArgs c))).
  destruct read_command_spec as [C1 C2], read_numArgs_spec as [N1 N2].
  apply (sticks_bind _ _ _ _ C1 C2).
  - intros c. apply throws_bind; [apply preserves_zoom; intros q t Hq; exact Hq|].
    intros n. apply (after_numArgs_others c n (λ b _, ∃ b0, Some b = Some b0 ∧ ba_done c b0)).
  - apply (zoom_sticks gpg_ok ba_ok); [done|done| |apply ba_get_sticks]. by intros q t (Ht & _) [= <-].
  - intros c. apply (sticks_bind _ _ _ _ N1 N2).
    + intros n. apply (after_numArgs_others c n (λ _ r, ∃ r0, Some r = Some r0 ∧ complete r0 ∧ rd32 (g_got r0) 0 = Ok n)).
    + apply (zoom_sticks gpg_ok reader_fits); [done|done| |apply getInt_sticks]. by intros q t (_ & Ht & _) [= <-].
    + intros n. unfold after_numArgs. case_match; [apply sticks_const|]. apply sticks_bind_last; [apply read_args_sticks|done].
Qed.
(** A command that the parser refuses (a name or argument of more than 10000 bytes,
    more than 10 arguments, an argument of an unknown type) blocks its connection: the
    parser keeps what it has read, and from then on fails in the same way whatever
    arrives, of which it takes nothing. *)
Theorem bad_command_blocks (p p' : GpgNetParse) (e : exn) (b b' : bytes) :
  gpg_ok p → GetCommand p b = (Throw e, p', b') → e ≠ DataNotReady → ∀ later, GetCommand p' later = (Throw e, p', later).
Proof. intros Hp H Hne later. by apply (GetCommand_sticks p b e p' b'). Qed.
(** a "Chat" with eleven arguments *)
Lemma bad_command_blocks_witness : ∃ p', ∀ later,
  GetCommand GpgNetParse_init (sendCommand [67; 104; 97; 116] 11 ++ [1; 2; 3]) = (Throw RuntimeError, p', [1; 2; 3]) ∧
  GetCommand p' later = (Throw RuntimeError, p', later).
Proof.
  destruct (GetCommand GpgNetParse_init (sendCommand [67; 104; 97; 116] 11 ++ [1; 2; 3])) as [[x p'] b'] eqn:E. exists p'. intros later.
  assert (x = Throw RuntimeError ∧ b' = [1; 2; 3]) as [-> ->] by (vm_compute in E; injection E as <- _ <-; split; reflexivity).
  split; [reflexivity|]. apply (bad_command_blocks GpgNetParse_init p' RuntimeError _ _) with (2 := E); [|discriminate].
  apply fresh_ok. split_and!; reflexivity.
Defined.

(** ** What was sent is what is received *)

Lemma gget_reads r w : g_got r = [] → length w = g_size r → reads gget r w w (mkGReader (g_size r) w).
Proof.
  intros Hg Hl rest. unfold gget. rewrite Hg. cbn [length g_size g_got app]. rewrite Nat.sub_0_r, <- Hl.
  rewrite take_app_length, drop_app_length. by rewrite Nat.eqb_refl.
Qed.
Lemma getByte_reads b : reads getByte ByteRecordReader [b] b (mkGReader 1 [b]).
Proof.
  rewrite <- (app_nil_r [b]) at 1. apply (reads_bind _ _ _ _ [b] (mkGReader 1 [b])); [by apply gget_reads|].
  intros rest. by rewrite rd8_0.
Qed.
Lemma getInt_reads n : is_u32 n → reads getInt IntRecordReader (le4 n) n (mkGReader 4 (le4 n)).
Proof.
  intros Hn. rewrite <- (app_nil_r (le4 n)) at 1.
  apply (reads_bind _ _ _ _ (le4 n) (mkGReader 4 (le4 n))); [by apply gget_reads|].
  intros rest. pose proof (rd32_le4 [] n [] Hn) as E. rewrite app_nil_r in E. cbn [app length] in E. by rewrite E.
Qed.
Definition short (b : bytes) : Prop := Z.of_nat (length b) ≤ MAX_RECORD_SIZE.
Lemma ba_get_reads b w : ba_size b = IntRecordReader → g_got (ba_data b) = [] → short w →
  reads ba_get b (put_bytes w) w (mkBAReader (mkGReader 4 (le4 (Z.of_nat (length w)))) (mkGReader (length w) w)).
Proof.
  intros Hs Hd Hw rest. rewrite ba_get_run, Hs. unfold put_bytes, short, MAX_RECORD_SIZE in *.
  rewrite <- (assoc_L (++)), getInt_reads by (unfold is_u32; lia). rewrite (proj2 (Z.ltb_ge _ _)) by done.
  rewrite Nat2Z.id. rewrite (gget_reads (setSize (length w) (ba_data b)) w) by done. done.
Qed.

(** an argument on the wire *)
Definition send_arg (a : Variant) : bytes :=
  match a with V_uint n => sendArgument_int n | V_bytes b => sendArgument_bytes b end.
Definition arg_wf (a : Variant) : Prop := match a with V_uint n => is_u32 n | V_bytes b => short b end.
(** a command with its arguments, as the calls of [sendCommand] and [sendArgument] write it *)
Definition send (c : bytes * list Variant) : bytes :=
  sendCommand c.1 (Z.of_nat (length c.2)) ++ concat (send_arg <$> c.2).
Definition command_wf (c : bytes * list Variant) : Prop :=
  short c.1 ∧ Z.of_nat (length c.2) ≤ MAX_NUM_ARGS ∧ Forall arg_wf c.2.
Definition received (c : bytes * list Variant) : list Variant := V_bytes c.1 :: c.2.

Lemma lookup_end {A} (l : list A) x : (l ++ [x]) !! length l = Some x.
Proof. by rewrite lookup_app_r, Nat.sub_diag by lia. Qed.
Lemma insert_end {A} (l : list A) x y : <[length l := y]> (l ++ [x]) = l ++ [y].
Proof. rewrite <- (Nat.add_0_r (length l)). by rewrite insert_app_r. Qed.

(** the next argument of a parser that has read [n] *)
Definition at_arg (n : nat) (c : ByteArrayRecordReader) (k : GRecordReader) (p : GpgNetParse) : Prop :=
  length (m_argTypes p) = n ∧ length (m_args p) = n ∧ m_command p = c ∧ m_numArgs p = k.
Lemma push_type_run n c k p inp : at_arg n c k p →
  push_type n p inp = (Ok tt, set_argTypes (m_argTypes p ++ [ByteRecordReader]) p, inp).
Proof. intros (H & _). unfold push_type. by rewrite H, Nat.eqb_refl. Qed.
Lemma read_value_reads {B} n c k p t r w b r' (conv : bytes → prog GpgNetParse B) (y : B) : at_arg n c k p →
  (∀ s inp, conv b s inp = (Ok y, s, inp)) → reads arg_get r w b r' →
  let p0 := set_argTypes (m_argTypes p ++ [t]) p in
  ∃ p', reads (pseq (push_arg n r) (pbind (get_arg n) conv)) p0 w y p' ∧ at_arg (S n) c k p'.
Proof.
  intros (H1 & H2 & H3 & H4) Hc Hr p0. exists (set_args (m_args p ++ [r']) p0). split.
  - intros rest. unfold pseq, pbind, push_arg. cbn [p0 set_argTypes m_args]. rewrite H2, Nat.eqb_refl.
    unfold get_arg, zoom. cbn [set_args m_args]. rewrite <- H2, lookup_end, (Hr rest). rewrite insert_end. apply Hc.
  - unfold at_arg. cbn. rewrite !length_app, H1, H2. cbn. split_and!; (lia || done).
Qed.
Lemma read_arg_reads n c k p a : at_arg n c k p → arg_wf a → ∃ p', reads (read_arg n) p (send_arg a) a p' ∧ at_arg (S n) c k p'.
Proof.
  intros Hp Ha. pose proof Hp as (H1 & H2 & H3 & H4).
  assert (∀ t w y p', reads (read_value n t) (set_argTypes (m_argTypes p ++ [mkGReader 1 [t]]) p) w y p' →
    reads (read_arg n) p ([t] ++ w) y p') as Hread.
  { subst n. set (n := length (m_argTypes p)) in *. intros t w y p' Hv rest.
    change (read_arg n) with (pseq (push_type n) (pbind (get_type n) (read_value n))).
    unfold pseq, pbind. rewrite (push_type_run _ c k) by done. unfold get_type, zoom. cbn [set_argTypes m_argTypes].
    subst n. rewrite lookup_end, <- (assoc_L (++)), getByte_reads. rewrite insert_end. apply Hv. }
  destruct a as [v|b]; cbn [send_arg arg_wf] in *.
  - destruct (read_value_reads n c k p (mkGReader 1 [0]) (IntArg IntRecordReader) (le4 v) (le4 v) (IntArg (mkGReader 4 (le4 v)))
      as_uint (V_uint v) Hp) as (p' & Hr & Hp').
    + intros s inp. unfold as_uint. pose proof (rd32_le4 [] v [] Ha) as E. rewrite app_nil_r in E. cbn [app length] in E. by rewrite E.
    + intros rest. unfold arg_get. by rewrite (gget_reads IntRecordReader (le4 v)).
    + exists p'. split; [|done]. unfold sendArgument_int. rewrite u32_id by done. by apply Hread.
  - destruct (read_value_reads n c k p (mkGReader 1 [1]) (BytesArg ByteArrayRecordReader_init) (put_bytes b) b
      (BytesArg (mkBAReader (mkGReader 4 (le4 (Z.of_nat (length b)))) (mkGReader (length b) b)))
      (λ b, pret (V_bytes b)) (V_bytes b) Hp) as (p' & Hr & Hp').
    + done.
    + intros rest. unfold arg_get. by rewrite (ba_get_reads ByteArrayRecordReader_init b).
    + exists p'. split; [|done]. by apply Hread.
Qed.
Lemma read_args_reads args n c k p l : at_arg n c k p → Forall arg_wf args → ∃ p',
  reads (read_args (length args) n l) p (concat (send_arg <$> args)) (l ++ args) p' ∧ m_command p' = c ∧ m_numArgs p' = k.
Proof.
  revert n p l. induction args as [|a args IH]; intros n p l Hp Ha.
  - exists p. destruct Hp as (_ & _ & H3 & H4). split; [|done]. intros rest. by rewrite app_nil_r.
  - apply Forall_cons in Ha as [Ha1 Ha]. destruct (read_arg_reads n c k p a Hp Ha1) as (p1 & R1 & Hp1).
    destruct (IH (S n) p1 (l ++ [a]) Hp1 Ha) as (p2 & R2 & Hc). exists p2. split; [|done].
    cbn [length read_args fmap list_fmap concat]. eapply reads_bind; [exact R1|]. by rewrite <- (assoc_L (++)) in R2.
Qed.
Lemma GetCommand_reads p c : fresh p → command_wf c → ∃ p', reads GetCommand p (send c) (received c) p' ∧ fresh p'.
Proof.
  intros (H1 & H2 & H3 & H4 & H5) (Hc & Hn & Ha). destruct c as [cmd args]. cbn [fst snd] in *. unfold MAX_NUM_ARGS in Hn.
  set (cr := mkBAReader (mkGReader 4 (le4 (Z.of_nat (length cmd)))) (mkGReader (length cmd) cmd)).
  set (nr := mkGReader 4 (le4 (Z.of_nat (length args)))).
  destruct (read_args_reads args 0 cr nr (set_numArgs nr (set_command cr p)) [V_bytes cmd]) as (p' & Hr & Ec & En); [|done|].
  { unfold at_arg. cbn. rewrite H4, H5. done. }
  exists (GpgNetParse_reset p'). split.
  - intros rest. unfold GetCommand, pbind, zoom, send, sendCommand. cbn [fst snd]. rewrite u32_id by (unfold is_u32; lia).
    rewrite <- !(assoc_L (++)), (ba_get_reads (m_command p) cmd) by done. cbn [set_command m_numArgs]. rewrite H3.
    rewrite getInt_reads by (unfold is_u32; lia). unfold MAX_NUM_ARGS. rewrite (proj2 (Z.ltb_ge _ _)) by done. rewrite Nat2Z.id.
    by rewrite Hr.
  - unfold fresh, GpgNetParse_reset. cbn. rewrite Ec, En. done.
Qed.

(** a command that announces more arguments than are sent: what follows is taken for one *)
Lemma read_args_prefix args k : ∀ n c nr p l, at_arg n c nr p → Forall arg_wf args → ∃ p', at_arg (n + length args) c nr p' ∧
  ∀ rest, read_args (length args + k) n l p (concat (send_arg <$> args) ++ rest) = read_args k (n + length args) (l ++ args) p' rest.
Proof.
  induction args as [|a args IH]; intros n c nr p l Hp Ha.
  - exists p. cbn [length fmap list_fmap concat app Nat.add]. rewrite Nat.add_0_r, app_nil_r. done.
  - apply Forall_cons in Ha as [Ha1 Ha]. destruct (read_arg_reads n c nr p a Hp Ha1) as (p1 & R1 & Hp1).
    destruct (IH (S n) c nr p1 (l ++ [a]) Hp1 Ha) as (p2 & Hp2 & R2). exists p2. cbn [length]. rewrite Nat.add_succ_r. split; [done|].
    intros rest. cbn [fmap list_fmap concat Nat.add read_args]. unfold pbind at 1. rewrite <- (assoc_L (++)), (R1 _).
    rewrite <- (assoc_L (++)) in R2. apply R2.
Qed.
Lemma missing_argument q cmd args n t rest : fresh q → short cmd → Forall arg_wf args →
  Z.of_nat (length args) < n ≤ MAX_NUM_ARGS → 1 < t → ∃ p',
  GetCommand q (sendCommand cmd n ++ concat (send_arg <$> args) ++ t :: rest) = (Throw RuntimeError, p', rest).
Proof.
  intros (H1 & H2 & H3 & H4 & H5) Hc Ha Hn Ht. unfold MAX_NUM_ARGS in *.
  set (cr := mkBAReader (mkGReader 4 (le4 (Z.of_nat (length cmd)))) (mkGReader (length cmd) cmd)).
  set (nr := mkGReader 4 (le4 n)).
  destruct (Nat.le_exists_sub (S (length args)) (Z.to_nat n)) as (k & Hk & _); [lia|].
  destruct (read_args_prefix args (S k) 0 cr nr (set_numArgs nr (set_command cr q)) [V_bytes cmd]) as (p' & (Ep & _) & Hr); [|done|].
  { unfold at_arg. cbn. rewrite H4, H5. done. }
  eexists. unfold GetCommand, pbind, zoom, sendCommand. rewrite u32_id by (unfold is_u32; lia).
  rewrite <- !(assoc_L (++)), (ba_get_reads (m_command q) cmd) by done. cbn [set_command m_numArgs]. rewrite H3.
  rewrite getInt_reads by (unfold is_u32; lia). unfold MAX_NUM_ARGS. rewrite (proj2 (Z.ltb_ge _ _)) by lia.
  replace (Z.to_nat n) with (length args + S k)%nat by lia. rewrite Hr. cbn [read_args Nat.add]. cbn [Nat.add] in Ep.
  rewrite <- Ep. unfold read_arg, push_type, pseq, pbind at 1 2 3 4. rewrite Nat.eqb_refl. unfold get_type, zoom.
  cbn [set_argTypes m_argTypes]. rewrite lookup_end. change (t :: rest) with ([t] ++ rest). rewrite getByte_reads.
  rewrite (proj2 (Z.eqb_neq t 0)), (proj2 (Z.eqb_neq t 1)) by lia. reflexivity.
Qed.

(** ** Every command takes something from the stream *)

Lemma local_gget : local gget.
Proof.
  intros r a x r' a'. unfold gget. cbv zeta. destruct (Nat.eqb_spec (length (g_got (mkGReader (g_size r) (g_got r ++ take (g_size r - length (g_got r)) a)))) (g_size r)) as [Hl|]; [|done].
  cbn [g_got] in Hl. intros [= <- <- <-]. set (n := (g_size r - length (g_got r))%nat) in *. exists (take n a). split; [by rewrite take_drop|].
  intros rest. unfold gget. cbv zeta. cbn [g_got g_size]. rewrite length_app in Hl.
  destruct (decide (length (g_got r) ≤ g_size r)%nat).
  - assert (length (take n a) = n) as E by lia. fold n. rewrite (take_app_le (take n a)), (drop_app_le (take n a)) by lia.
    rewrite (take_ge (take n a)), (drop_ge (take n a)) by lia. rewrite length_app, (proj2 (Nat.eqb_eq _ _)) by lia. done.
  - fold n. assert (n = 0%nat) as -> by lia. rewrite !take_0, drop_0, app_nil_r. rewrite !take_0 in Hl. cbn [length app] in *.
    rewrite (proj2 (Nat.eqb_eq _ _)) by lia. done.
Qed.
Lemma local_getInt : local getInt.
Proof. apply local_bind; [apply local_gget|]. intros b. apply (local_const (λ _, rd32 b 0) id). Qed.
Lemma local_ba_get : local ba_get.
Proof.
  unfold ba_get. apply local_bind; [apply local_zoom, local_getInt|]. intros n. case_match; [by intros s a x s' a'|].
  apply local_zoom. intros r a x r' a' E. by apply local_gget in E.
Qed.
Lemma local_arg_get : local arg_get.
Proof.
  intros [r|b] a x t a'; unfold arg_get.
  - destruct (gget r a) as [[y r1] a1] eqn:E. intros [= -> <- <-]. destruct (local_gget _ _ _ _ _ E) as (c & -> & R).
    exists c. split; [done|]. intros rest. by rewrite R.
  - destruct (ba_get b a) as [[y b1] a1] eqn:E. intros [= -> <- <-]. destruct (local_ba_get _ _ _ _ _ E) as (c & -> & R).
    exists c. split; [done|]. intros rest. by rewrite R.
Qed.
Lemma local_read_arg n : local (read_arg n).
Proof.
  unfold read_arg, pseq. apply local_bind; [apply (local_const (λ _, Ok tt))|]. intros _. apply local_bind.
  - apply local_zoom, local_bind; [apply local_gget|]. intros b. apply (local_const (λ _, rd8 b 0) id).
  - intros t. case_match; [|case_match; [|by intros s a x s' a']].
    + apply local_bind; [apply (local_const (λ _, Ok tt))|]. intros _. apply local_bind; [apply local_zoom, local_arg_get|].
      intros b. unfold as_uint. apply (local_const (λ _, match rd32 b 0 with Ok n => Ok (V_uint n) | Throw e => Throw e | Undef => Undef | Hang => Hang end) id).
    + apply local_bind; [apply (local_const (λ _, Ok tt))|]. intros _. apply local_bind; [apply local_zoom, local_arg_get|].
      intros b. apply (local_const (λ _, Ok (V_bytes b)) id).
Qed.
Lemma local_read_args count : ∀ n l, local (read_args count n l).
Proof.
  induction count as [|count IH]; intros n l; cbn [read_args]; [apply (local_const (λ _, Ok l) id)|].
  apply local_bind; [apply local_read_arg|auto].
Qed.
Lemma local_GetCommand : local GetCommand.
Proof.
  apply local_bind; [apply local_zoom, local_ba_get|]. intros c. apply local_bind; [apply local_zoom, local_getInt|].
  intros n. case_match; [by intros s a x s' a'|]. apply local_bind; [apply local_read_args|]. intros l. apply (local_const (λ _, Ok l)).
Qed.

Ltac not_hang := repeat first [apply hangs_not_bind; [|intros ?] | apply hangs_not_zoom | case_match
  | apply (hangs_not_const (λ _, _) id); by intros | by intros ? ?].
Lemma rd8_const b i : ∀ S, hangs_not (λ (s : S) inp, (rd8 b i, s, inp)).
Proof. intros S s a. apply rd8_no_hang. Qed.
Lemma rd32_const b i : ∀ S, hangs_not (λ (s : S) inp, (rd32 b i, s, inp)).
Proof. intros S s a. apply rd32_not_hang. Qed.
Lemma gget_hangs_not : hangs_not gget.
Proof. intros r a. unfold gget. cbv zeta. cbn. by case_match. Qed.
Lemma getInt_hangs_not : hangs_not getInt.
Proof. apply hangs_not_bind; [apply gget_hangs_not|]. intros b. apply rd32_const. Qed.
Lemma ba_get_hangs_not : hangs_not ba_get.
Proof.
  unfold ba_get. apply hangs_not_bind; [apply hangs_not_zoom, getInt_hangs_not|]. intros n. case_match; [by intros s a|].
  apply hangs_not_zoom. intros r a. apply gget_hangs_not.
Qed.
Lemma arg_get_hangs_not : hangs_not arg_get.
Proof.
  intros [r|b] a; unfold arg_get.
  - pose proof (gget_hangs_not r a) as H. by destruct (gget r a) as [[y r1] a1].
  - pose proof (ba_get_hangs_not b a) as H. by destruct (ba_get b a) as [[y b1] a1].
Qed.
Lemma GetCommand_hangs_not : hangs_not GetCommand.
Proof.
  apply hangs_not_bind; [apply hangs_not_zoom, ba_get_hangs_not|]. intros c. apply hangs_not_bind; [apply hangs_not_zoom, getInt_hangs_not|].
  intros n. case_match; [by intros s a|]. apply hangs_not_bind; [|by intros l s a].
  generalize 0%nat as i, [V_bytes c] as l. induction (Z.to_nat n) as [|count IH]; intros i l; cbn [read_args]; [by intros s a|].
  apply hangs_not_bind; [|auto]. unfold read_arg, pseq. apply hangs_not_bind; [by intros s a|]. intros _.
  apply hangs_not_bind; [apply hangs_not_zoom, hangs_not_bind; [apply gget_hangs_not|intros b; apply rd8_const]|]. intros t.
  case_match; [|case_match; [|by intros s a]]; (apply hangs_not_bind; [by intros s a|]); intros _;
    (apply hangs_not_bind; [apply hangs_not_zoom, arg_get_hangs_not|]); intros b s a; [|done].
  unfold as_uint. pose proof (rd32_not_hang b 0). cbn. by destruct (rd32 b 0).
Qed.

(** the size of a size is 4 bytes *)
Definition sizes_ok (p : GpgNetParse) : Prop := g_size (ba_size (m_command p)) = 4%nat ∧ g_size (m_numArgs p) = 4%nat.
Lemma gget_size n : preserves (λ r, g_size r = n) gget.
Proof. intros r a x r' a' Hr. unfold gget. cbv zeta. by intros [= _ <- _]. Qed.
Lemma getInt_size n : preserves (λ r, g_size r = n) getInt.
Proof. apply preserves_bind; [apply gget_size|]. intros b. apply preserves_const. Qed.
Lemma preserves_inside {S T A} (P : S → Prop) (Q : T → Prop) get put (m : prog T A) :
  (∀ s t, get s = Some t → P s → Q t) → (∀ s t, P s → Q t → P (put t s)) → preserves Q m → preserves P (zoom get put m).
Proof.
  intros Hg Hp Hm s a x s' a' Hs. unfold zoom. destruct (get s) as [t|] eqn:E; [|by intros [= _ <- _]].
  destruct (m t a) as [[y t1] a1] eqn:Em. intros [= _ <- _]. apply Hp; [done|]. apply (Hm _ _ _ _ _ (Hg s t E Hs) Em).
Qed.
Lemma ba_get_size n : preserves (λ b, g_size (ba_size b) = n) ba_get.
Proof.
  apply preserves_bind.
  - apply (preserves_inside _ (λ r, g_size r = n)); [by intros b r [= <-]|done|apply getInt_size].
  - intros k. case_match; [apply preserves_const|]. by apply preserves_zoom.
Qed.
Lemma GetCommand_sizes : preserves sizes_ok GetCommand.
Proof.
  apply preserves_bind; [|intros c; apply preserves_bind].
  - apply (preserves_inside _ (λ b, g_size (ba_size b) = 4%nat)); [by intros p b [= <-] [H _]|by intros p b [_ H2] H1|apply ba_get_size].
  - apply (preserves_inside _ (λ r, g_size r = 4%nat)); [by intros p b [= <-] [_ H]|by intros p b [H1 _] H2|apply getInt_size].
  - intros n. case_match; [apply preserves_const|]. apply preserves_bind; [apply (read_args_others _ _ _ (λ b r, g_size (ba_size b) = 4%nat ∧ g_size r = 4%nat))|].
    intros l p a x p' a' [H1 H2] [= _ <- _]. by split.
Qed.

(** a parser that has work left, or that has failed for good *)
Definition alive (p : GpgNetParse) : Prop :=
  gpg_ok p ∧ sizes_ok p ∧ (∀ l p' a', GetCommand p [] ≠ (Ok l, p', a')) ∨ ∃ e, ∀ later, GetCommand p later = (Throw e, p, later).
Lemma reset_waits p : sizes_ok p → ∃ p', GetCommand (GpgNetParse_reset p) [] = (Throw DataNotReady, p', []).
Proof.
  intros [H _]. eexists. unfold GetCommand, pbind, zoom, ba_get, getInt. cbn. unfold pbind, zoom, gget. cbn. rewrite H. cbn. reflexivity.
Qed.
Lemma init_alive : alive GpgNetParse_init.
Proof. left. split; [by apply fresh_ok|]. split; [done|]. intros l p' a' E. vm_compute in E. discriminate E. Qed.
Lemma alive_step p a : alive p →
  match GetCommand p a with
  | (Ok _, p', a') => alive p' ∧ (length a' < length a)%nat
  | (Throw _, p', _) => alive p'
  | (Undef, _, _) => True
  | (Hang, _, _) => False
  end.
Proof.
  intros [(Hp & Hs & Hw)|[e He]]; [|rewrite He; right; by exists e].
  pose proof (GetCommand_hangs_not p a) as Hh. pose proof (GetCommand_resumes p a [] Hp) as Hr.
  destruct (GetCommand p a) as [[[l|e| |] p1] a1] eqn:E; [..|done|done].
  - destruct (local_GetCommand _ _ _ _ _ E) as (c & -> & R). split.
    + left. destruct Hr as [Hp1 _]. split; [done|]. split; [apply (GetCommand_sizes _ _ _ _ _ Hs E)|].
      intros l' p' a' E'. specialize (R []). rewrite app_nil_r in R.
      assert (∃ p2, sizes_ok p2 ∧ p1 = GpgNetParse_reset p2) as (p2 & Hp2 & ->).
      { clear E'. revert R. unfold GetCommand, pbind. destruct (zoom _ _ ba_get p c) as [[[cmd|?| |] p2] a2] eqn:E1; try done.
        destruct (zoom _ _ getInt p2 a2) as [[[n|?| |] p3] a3] eqn:E2; try done. destruct (MAX_NUM_ARGS <? n); [done|].
        destruct (read_args _ _ _ p3 a3) as [[[l0|?| |] p4] a4] eqn:E3; try done. intros [= _ <- _]. exists p4. split; [|done].
        apply (read_args_others _ _ _ (λ b r, g_size (ba_size b) = 4%nat ∧ g_size r = 4%nat) _ _ _ _ _) in E3; [exact E3|].
        apply (preserves_inside sizes_ok (λ r, g_size r = 4%nat) (λ p, Some (m_numArgs p)) set_numArgs getInt) in E2;
          [exact E2|by intros q b [= <-] [_ H]|by intros q b [H1 _] H2|apply getInt_size|].
        apply (preserves_inside sizes_ok (λ b, g_size (ba_size b) = 4%nat) (λ p, Some (m_command p)) set_command ba_get) in E1;
          [exact E1|by intros q b [= <-] [H _]|by intros q b [_ H2] H1|apply ba_get_size|done]. }
      destruct (reset_waits p2 Hp2) as [p3 E3]. rewrite E3 in E'. discriminate E'.
    + destruct c as [|x c]; [|cbn [app length]; rewrite length_app; lia]. specialize (R []). exfalso. by apply (Hw l p1 []).
  - destruct (decide (e = DataNotReady)) as [->|Hne].
    + destruct Hr as (-> & Hp1 & Hr). left. split; [done|]. split; [apply (GetCommand_sizes _ _ _ _ _ Hs E)|].
      intros l p' a' E'. rewrite <- Hr, app_nil_r, E in E'. done.
    + right. exists e. by apply (GetCommand_sticks p a e p1 a1).
Qed.
