(* ===== verification/GpgNetStream.v ===== *)
(** * The stream of commands of a connection

    The loop with which GpgNetClient and TaDemoCompiler take commands out of a socket:
    whatever the pieces in which the data arrives, every command is handled once, in
    order, and the loop ends on arbitrary data. *)
From S2P Require Import Prelude Resumable GpgNetParse.

(** ** The loop over the commands of a connection *)
Section Receive.
Context {W : Type} (handle : list Variant → W → res unit * W).

(** [while (bytesAvailable() > 0) { command = GetCommand(...); ... }] *)
Fixpoint receive_loop (fuel : nat) (p : GpgNetParse) (w : W) (inp : bytes) : res unit * GpgNetParse * W * bytes :=
  match fuel with
  | O => (Hang, p, w, inp)
  | S fuel =>
      match inp with
      | [] => (Ok tt, p, w, inp)
      | _ =>
          match GetCommand p inp with
          | (Ok c, p, inp) =>
              match handle c w with
              | (Ok _, w) => receive_loop fuel p w inp
              | (e, w) => (e, p, w, inp)
              end
          | (Throw e, p, inp) => (Throw e, p, w, inp)
          | (Undef, p, inp) => (Undef, p, w, inp)
          | (Hang, p, inp) => (Hang, p, w, inp)
          end
      end
  end.
Definition receive (p : GpgNetParse) (w : W) (inp : bytes) : res unit * GpgNetParse * W * bytes :=
  receive_loop (S (length inp)) p w inp.
(** a chunk of data arrives; that more is needed is not an error *)
Definition on_chunk (p : GpgNetParse) (w : W) (chunk : bytes) : res unit * GpgNetParse * W * bytes :=
  match receive p w chunk with
  | (Throw DataNotReady, p, w, inp) => (Ok tt, p, w, inp)
  | r => r
  end.
Fixpoint on_chunks (p : GpgNetParse) (w : W) (inp : bytes) (chunks : list bytes) : res unit * GpgNetParse * W * bytes :=
  match chunks with
  | [] => (Ok tt, p, w, inp)
  | c :: chunks =>
      match on_chunk p w (inp ++ c) with
      | (Ok _, p, w, inp) => on_chunks p w inp chunks
      | (e, p, w, inp) => (e, p, w, inp)
      end
  end.
(** the handler on one command after the other *)
Fixpoint handle_all (cs : list (bytes * list Variant)) (w : W) : res unit * W :=
  match cs with
  | [] => (Ok tt, w)
  | c :: cs => match handle (received c) w with (Ok _, w) => handle_all cs w | (e, w) => (e, w) end
  end.

(** the parser [p] has read the part [v] of a command, [q] was fresh before *)
Definition has_read (q : GpgNetParse) (v : bytes) (p : GpgNetParse) : Prop :=
  gpg_ok p ∧ ∀ b, GetCommand p b = GetCommand q (v ++ b).
Lemma partial_waits q v d c rest : fresh q → command_wf c → v ++ d ++ rest = send c → rest ≠ [] →
  ∀ p, has_read q v p → ∃ p', GetCommand p d = (Throw DataNotReady, p', []) ∧ has_read q (v ++ d) p'.
Proof.
  intros Hq Hc E Hne p [Hp Hr]. destruct (GetCommand_reads q c Hq Hc) as (q' & Hg & _).
  pose proof (GetCommand_resumes q (v ++ d) rest (fresh_ok q Hq)) as H. rewrite <- (assoc_L (++)), E in H.
  specialize (Hg []). rewrite app_nil_r in Hg. rewrite Hg, <- Hr in H.
  pose proof (λ b, GetCommand_resumes p d b Hp) as Hd.
  destruct (GetCommand p d) as [[[x|[]| |] p1] a1]; try done.
  - destruct H as [_ [= _ _ H]]. by symmetry in H; apply app_nil in H as [_ ?].
  - exists p1. pose proof (Hd []) as (-> & Hp1 & _). split; [done|]. split; [done|]. intros b.
    destruct (Hd b) as (_ & _ & <-). by rewrite Hr, (assoc_L (++)).
Qed.

Lemma receive_stream cs : ∀ q v p d later w w' fuel, fresh q → has_read q v p → Forall command_wf cs →
  v ++ d ++ later = concat (send <$> cs) → (∀ c cs', cs = c :: cs' → (length v < length (send c))%nat) →
  handle_all cs w = (Ok tt, w') → (length d < fuel)%nat → ∃ x p1 w1 q1 v1 cs1,
  receive_loop fuel p w d = (x, p1, w1, []) ∧ (x = Ok tt ∨ x = Throw DataNotReady ∧ v1 ≠ []) ∧
  fresh q1 ∧ has_read q1 v1 p1 ∧ Forall command_wf cs1 ∧ v1 ++ later = concat (send <$> cs1) ∧
  (∀ c cs', cs1 = c :: cs' → (length v1 < length (send c))%nat) ∧ handle_all cs1 w1 = (Ok tt, w') ∧
  ∃ cs0, cs = cs0 ++ cs1 ∧ handle_all cs0 w = (Ok tt, w1).
Proof.
  induction cs as [|c cs IH]; intros q v p d later w w' fuel Hq Hp Hcs E Hv Hw Hf; (destruct fuel as [|fuel]; [lia|]).
  - apply app_nil in E as [-> E]. apply app_nil in E as [-> ->]. exists (Ok tt), p, w, q, [], []. split_and!; [done|by left|done..|]. by exists [].
  - destruct d as [|x d]. { exists (Ok tt), p, w, q, v, (c :: cs). split_and!; [done|by left|done..|]. by exists []. }
    apply Forall_cons in Hcs as [Hc Hcs]. specialize (Hv c cs eq_refl). cbn [fmap list_fmap concat] in E.
    set (dd := x :: d) in *. destruct (decide (length v + length dd < length (send c))%nat) as [Hs|Hs].
    + assert (∃ rest, v ++ dd ++ rest = send c ∧ rest ≠ []) as (rest & Er & Hne).
      { exists (drop (length v + length dd) (send c)). split.
        - rewrite (assoc_L (++)). rewrite <- length_app. rewrite <- (take_drop (length (v ++ dd)) (send c)) at 2. f_equal.
          rewrite (assoc_L (++)) in E. apply (f_equal (take (length (v ++ dd)))) in E.
          rewrite take_app_length in E. rewrite take_app_le in E by (rewrite length_app; lia). done.
        - intros H. apply (f_equal length) in H. rewrite length_drop in H. cbn [length] in H. lia. }
      destruct (partial_waits q v dd c rest Hq Hc Er Hne p Hp) as (p' & Eg & Hp').
      exists (Throw DataNotReady), p', w, q, (v ++ dd), (c :: cs). split.
      { cbn [receive_loop]. unfold dd at 1. by rewrite Eg. }
      split_and!; [right; split; [done|by destruct v]|done|done|by apply Forall_cons|by rewrite <- (assoc_L (++))| |done|by exists []].
      intros c' cs' [= <- <-]. by rewrite length_app.
    + assert (∃ d1 d2, dd = d1 ++ d2 ∧ v ++ d1 = send c ∧ d1 ≠ []) as (d1 & d2 & Ed & Ec & Hne).
      { exists (take (length (send c) - length v) dd), (drop (length (send c) - length v) dd). split; [by rewrite take_drop|]. split.
        - apply (f_equal (take (length (send c)))) in E. rewrite take_app_length in E. rewrite (assoc_L (++)), take_app_le in E by (rewrite length_app; lia).
          rewrite take_app, (take_ge v) in E by lia. done.
        - intros H. apply (f_equal length) in H. rewrite length_take in H. cbn [length] in H. lia. }
      destruct (GetCommand_reads q c Hq Hc) as (q' & Hg & Hq'). cbn [handle_all] in Hw.
      destruct (handle (received c) w) as [[[]|e| |] w2] eqn:Eh; try done.
      destruct (IH q' [] q' d2 later w2 w' fuel) as (x' & p1 & w1 & q1 & v1 & cs1 & R & Hrest); try done.
      * split; [by apply fresh_ok|done].
      * rewrite Ed, <- (assoc_L (++)), (assoc_L (++)), Ec in E. by apply app_inv_head in E.
      * intros c' cs' _. cbn [length]. unfold send, sendCommand, put_bytes. rewrite !length_app, !length_le4. lia.
      * assert (length dd = length d1 + length d2)%nat as El by (by rewrite Ed, length_app). destruct d1; [done|]. cbn [length] in El. lia.
      * destruct Hrest as (R1 & R2 & R3 & R4 & R5 & R6 & R7 & cs0 & -> & R8).
        exists x', p1, w1, q1, v1, cs1. split; [|split_and!; try done; exists (c :: cs0); split; [done|cbn [handle_all]; by rewrite Eh]]. cbn [receive_loop]. unfold dd at 1.
        destruct Hp as [_ Hp]. rewrite (Hp dd), Ed, (assoc_L (++)), Ec, (Hg d2). by rewrite Eh.
Qed.

(** the pieces [chunks] of a stream of which [later] has not arrived: what is complete has
    been handled *)
Lemma chunks_prefix chunks : ∀ cs q v p later w w', fresh q → has_read q v p → Forall command_wf cs →
  v ++ concat chunks ++ later = concat (send <$> cs) → (∀ c cs', cs = c :: cs' → (length v < length (send c))%nat) →
  handle_all cs w = (Ok tt, w') → ∃ p1 w1 q1 v1 cs0 cs1,
  on_chunks p w [] chunks = (Ok tt, p1, w1, []) ∧ fresh q1 ∧ has_read q1 v1 p1 ∧ cs = cs0 ++ cs1 ∧
  handle_all cs0 w = (Ok tt, w1) ∧ handle_all cs1 w1 = (Ok tt, w') ∧
  v1 ++ later = concat (send <$> cs1) ∧ (∀ c cs', cs1 = c :: cs' → (length v1 < length (send c))%nat).
Proof.
  induction chunks as [|d chunks IH]; intros cs q v p later w w' Hq Hp Hcs E Hv Hw.
  - exists p, w, q, v, [], cs. by split_and!.
  - cbn [concat] in E. rewrite <- (assoc_L (++)) in E.
    destruct (receive_stream cs q v p d (concat chunks ++ later) w w' (S (length d)) Hq Hp Hcs E Hv Hw) as
      (x & p1 & w1 & q1 & v1 & cs1 & R & Hx & Hq1 & Hp1 & Hcs1 & E1 & Hv1 & Hw1 & cs0 & -> & Hw0); [lia|].
    destruct (IH cs1 q1 v1 p1 later w1 w' Hq1 Hp1 Hcs1 E1 Hv1 Hw1) as (p2 & w2 & q2 & v2 & cs2 & cs3 & R2 & Hq2 & Hp2 & -> & H2 & H3 & E2 & Hv2).
    exists p2, w2, q2, v2, (cs0 ++ cs2), cs3. split_and!; try done; [|by rewrite (assoc_L (++))|].
    + cbn [on_chunks app]. unfold on_chunk, receive. rewrite R. by destruct Hx as [-> | [-> _]].
    + clear - Hw0 H2. revert w Hw0. induction cs0 as [|c cs0 IH]; intros w Hw0; cbn [handle_all app] in *; [by injection Hw0 as <-|].
      destruct (handle (received c) w) as [[[]|e| |] w3]; try done. by apply IH.
Qed.
Lemma chunks_stream chunks cs q v p w w' : fresh q → has_read q v p → Forall command_wf cs →
  v ++ concat chunks = concat (send <$> cs) → (∀ c cs', cs = c :: cs' → (length v < length (send c))%nat) →
  handle_all cs w = (Ok tt, w') → ∃ p', on_chunks p w [] chunks = (Ok tt, p', w', []) ∧ ∀ b, ∃ q, fresh q ∧ GetCommand p' b = GetCommand q b.
Proof.
  intros Hq Hp Hcs E Hv Hw. destruct (chunks_prefix chunks cs q v p [] w w' Hq Hp Hcs) as
    (p1 & w1 & q1 & v1 & cs0 & cs1 & R & Hq1 & [_ Hp1] & _ & _ & H1 & E1 & Hv1); [by rewrite app_nil_r|done..|].
  rewrite app_nil_r in E1. destruct cs1 as [|c cs1].
  - injection H1 as ->. exists p1. split; [done|]. intros b. exists q1. split; [done|]. by rewrite Hp1, E1.
  - specialize (Hv1 c cs1 eq_refl). rewrite E1 in Hv1. cbn [fmap list_fmap concat] in Hv1. rewrite length_app in Hv1. lia.
Qed.

(** commands that were sent one after the other are received as they were sent:
    however the stream is cut into pieces, in the middle of a length or of an argument,
    the receiving loop gives the handler every command once, with its arguments, in
    order, and ends between two commands. *)
Theorem commands_arrive (cs : list (bytes * list Variant)) (chunks : list bytes) (w w' : W) :
  Forall command_wf cs → concat chunks = concat (send <$> cs) → handle_all cs w = (Ok tt, w') → ∃ p,
  on_chunks GpgNetParse_init w [] chunks = (Ok tt, p, w', []) ∧ ∀ b, ∃ q, fresh q ∧ GetCommand p b = GetCommand q b.
Proof.
  intros Hcs E Hw. apply (chunks_stream chunks cs GpgNetParse_init [] GpgNetParse_init w); try done.
  - split; [by apply fresh_ok|done].
  - intros c cs' _. cbn [length]. unfold send, sendCommand, put_bytes. rewrite !length_app, !length_le4. lia.
Qed.
(** one command that arrives at once *)
Lemma receive_one q c w w' : fresh q → command_wf c → handle (received c) w = (Ok tt, w') → ∃ q', fresh q' ∧
  receive q w (send c) = (Ok tt, q', w', []).
Proof.
  intros Hq Hc Hh. destruct (GetCommand_reads q c Hq Hc) as (q' & Hg & Hq'). exists q'. split; [done|]. specialize (Hg []).
  rewrite app_nil_r in Hg. assert (send c ≠ []) as Hne.
  { intros E. apply (f_equal length) in E. unfold send, sendCommand, put_bytes in E. rewrite !length_app, !length_le4 in E. cbn [length] in E. lia. }
  unfold receive. destruct (send c) as [|b l] eqn:E; [done|]. cbn [receive_loop length]. rewrite Hg, Hh. done.
Qed.
(** what every command keeps, the loop keeps *)
Lemma receive_keeps (P : W → Prop) : (∀ c w, P w → P (handle c w).2) →
  ∀ fuel p w inp x p' w' inp', P w → receive_loop fuel p w inp = (x, p', w', inp') → P w'.
Proof.
  intros HP. induction fuel as [|fuel IH]; intros p w inp x p' w' inp' Hw; cbn [receive_loop]; [by intros [= _ _ <- _]|].
  destruct inp as [|b inp]; [by intros [= _ _ <- _]|].
  destruct (GetCommand p (b :: inp)) as [[[c|e| |] p1] a1]; try (by intros [= _ _ <- _]).
  pose proof (HP c w Hw) as H1. destruct (handle c w) as [[[]|e| |] w1]; try (by intros [= _ _ <- _]). by apply IH.
Qed.
(** ** The loop ends, whatever arrives *)
Hypothesis handle_ends : ∀ c w, (handle c w).1 ≠ Hang.
Lemma receive_ends fuel : ∀ p w inp, alive p → (length inp < fuel)%nat →
  match receive_loop fuel p w inp with
  | (Hang, _, _, _) => False
  | (Undef, _, _, _) => True
  | (_, p', _, _) => alive p'
  end.
Proof.
  induction fuel as [|fuel IH]; intros p w inp Hp Hl; [lia|]. cbn [receive_loop]. destruct inp as [|x inp]; [done|].
  pose proof (alive_step p (x :: inp) Hp) as Ha. destruct (GetCommand p (x :: inp)) as [[[c|e| |] p1] a1]; [|done|done|done].
  destruct Ha as [Hp1 Hlt]. pose proof (handle_ends c w) as Hh. destruct (handle c w) as [[[]|e| |] w1]; [|done|done|done].
  apply IH; [done|lia].
Qed.
End Receive.
(** "Move" and "Ping" in three pieces, logged *)
Definition ex_commands : list (bytes * list Variant) := [([77; 111; 118; 101], [V_bytes [44; 11]; V_uint 7]); ([80; 105; 110; 103], [])].
Definition ex_log (c : list Variant) (w : list (list Variant)) : res unit * list (list Variant) := (Ok tt, w ++ [c]).
Definition ex_stream_bytes : bytes := concat (send <$> ex_commands).
Lemma commands_arrive_witness : ∃ p,
  on_chunks ex_log GpgNetParse_init [] [] [take 2 ex_stream_bytes; take 20 (drop 2 ex_stream_bytes); drop 22 ex_stream_bytes]
  = (Ok tt, p, received <$> ex_commands, []).
Proof.
  destruct (commands_arrive ex_log ex_commands [take 2 ex_stream_bytes; take 20 (drop 2 ex_stream_bytes); drop 22 ex_stream_bytes]
    [] (received <$> ex_commands)) as (p & H & _).
  - apply Forall_cons. split; [|apply Forall_singleton].
    + split_and!; [vm_compute; congruence..|]. apply Forall_cons. split; [vm_compute; congruence|].
      apply Forall_singleton. unfold arg_wf, is_u32. lia.
    + split_and!; [vm_compute; congruence..|]. apply Forall_nil. exact I.
  - vm_compute. reflexivity.
  - vm_compute. reflexivity.
  - exists p. exact H.
Defined.
