(* ===== verification/GpgNetMessages.v ===== *)
(** * Messages of the lobby and the client (GpgNetServerMessages.cpp, GpgNetClient.cpp)

    Strings are the bytes of their UTF-8 encoding.  What Qt makes of an entry of a
    [QVariantList] is not part of the program: [Qt] is the interface, with what Qt
    documents for entries that are of the type asked for. *)
From S2P Require Import Prelude Resumable GpgNetParse GpgNetStream.

Fixpoint str (s : string) : bytes :=
  match s with EmptyString => [] | String c s => Z.of_N (Ascii.N_of_ascii c) :: str s end.
Definition ascii (b : Z) : Prop := 0 < b < 128.
Definition is_s32 (x : Z) : Prop := -2147483648 ≤ x < 2147483648.

Class Qt := {
  toString : Variant → bytes;
  toByteArray : Variant → bytes;
  toInt : Variant → Z;
  toUInt : Variant → Z;
  toString_ascii b : Forall ascii b → toString (V_bytes b) = b;
  toByteArray_bytes b : toByteArray (V_bytes b) = b;
  toInt_uint n : is_u32 n → toInt (V_uint n) = s32 n;
  toUInt_uint n : is_u32 n → toUInt (V_uint n) = n;
  toInt_range v : is_s32 (toInt v);
  toUInt_range v : is_u32 (toUInt v);
  (** [QString::fromStdString], of any bytes *)
  fromUtf8 : bytes → bytes;
  fromUtf8_ascii b : Forall ascii b → fromUtf8 b = b;
  (** [QString::split] and [QStringList::join] *)
  split : Z → bytes → list bytes;
  join : Z → list bytes → bytes;
  split_one sep a : sep ∉ a → split sep a = [a];
  split_cons sep a b : sep ∉ a → split sep (a ++ sep :: b) = a :: split sep b;
  join_one sep a : join sep [a] = a;
  join_cons sep a b l : join sep (a :: b :: l) = a ++ sep :: join sep (b :: l) }.

Section Messages.
Context `{Qt}.

(** [command[n]]: a missing entry is undefined behaviour *)
Definition arg (command : list Variant) (n : nat) : res Variant :=
  match command !! n with Some v => Ok v | None => Undef end.
(** [if (cmd.compare(ID)) throw ...] *)
Definition check_ID (ID : string) (command : list Variant) : res unit :=
  cmd ← arg command 0; if bool_decide (toString cmd = str ID) then Ok tt else Throw RuntimeError.

(** ** GpgNetServerMessages *)
Definition SplitAliasAndRealName (aliasAndReal : bytes) : bytes * bytes :=
  match split 47 aliasAndReal with
  | alias :: real :: _ => (alias, real)
  | [alias] => (alias, [])
  | [] => ([], [])                       (* never: [split] gives at least one part *)
  end.

Record CreateLobbyCommand := mkCreateLobby {
  cl_protocol : Z; cl_localPort : Z; cl__playerName : bytes; cl_playerAlias : bytes;
  cl_playerRealName : bytes; cl_playerId : Z; cl_natTraversal : Z }.
Definition CreateLobbyCommand_Set (command : list Variant) : res CreateLobbyCommand :=
  _ ← check_ID "CreateLobby" command;
  protocol ← arg command 1; localPort ← arg command 2; name ← arg command 3;
  let '(alias, real) := SplitAliasAndRealName (toString name) in
  playerId ← arg command 4; nat ← arg command 5;
  Ok (mkCreateLobby (toInt protocol) (toInt localPort) (toString name) alias real (toInt playerId) (toInt nat)).

Record HostGameCommand := mkHostGame { hg_mapName : bytes }.
Definition HostGameCommand_Set (command : list Variant) : res HostGameCommand :=
  _ ← check_ID "HostGame" command; mapName ← arg command 1; Ok (mkHostGame (toString mapName)).

Record JoinGameCommand := mkJoinGame {
  jg_remoteHost : bytes; jg__remotePlayerName : bytes; jg_remotePlayerAlias : bytes;
  jg_remotePlayerRealName : bytes; jg_remotePlayerId : Z }.
Definition JoinGameCommand_Set (command : list Variant) : res JoinGameCommand :=
  _ ← check_ID "JoinGame" command;
  host ← arg command 1; name ← arg command 2; id ← arg command 3;
  let '(alias, real) := SplitAliasAndRealName (toString name) in
  Ok (mkJoinGame (toString host) (toString name) alias real (toInt id)).

Record ConnectToPeerCommand := mkConnectToPeer {
  cp_host : bytes; cp__playerName : bytes; cp_playerAlias : bytes; cp_playerRealName : bytes; cp_playerId : Z }.
Definition ConnectToPeerCommand_Set (command : list Variant) : res ConnectToPeerCommand :=
  _ ← check_ID "ConnectToPeer" command;
  host ← arg command 1; name ← arg command 2; id ← arg command 3;
  let '(alias, real) := SplitAliasAndRealName (toString name) in
  Ok (mkConnectToPeer (toString host) (toString name) alias real (toInt id)).

Record DisconnectFromPeerCommand := mkDisconnectFromPeer { dp_playerId : Z }.
Definition DisconnectFromPeerCommand_Set (command : list Variant) : res DisconnectFromPeerCommand :=
  _ ← check_ID "DisconnectFromPeer" command; id ← arg command 1; Ok (mkDisconnectFromPeer (toInt id)).

Definition PingMessage_Set (command : list Variant) : res unit := check_ID "Ping" command.

(** ** GpgNetClient *)
Inductive signal : Type :=
  | createLobby (protocol localPort : Z) (playerAlias realName : bytes) (playerId natTraversal : Z)
  | hostGame (mapName : bytes)
  | joinGame (host playerAlias realName : bytes) (playerId : Z)
  | connectToPeer (host playerAlias realName : bytes) (playerId : Z)
  | disconnectFromPeer (playerId : Z).

(** what the handler of a command changes *)
Record Heard := mkHeard { m_gpgnetPlayerIds : gmap bytes Z; emitted : list signal }.
Definition set_id (name : bytes) (id : Z) (h : Heard) : Heard :=
  mkHeard (<[name := u32 id]> (m_gpgnetPlayerIds h)) (emitted h).
Definition emit (s : signal) (h : Heard) : Heard := mkHeard (m_gpgnetPlayerIds h) (emitted h ++ [s]).

(** the body of the loop, after [GetCommand] *)
Definition on_command (serverCommand : list Variant) (h : Heard) : res unit * Heard :=
  match arg serverCommand 0 with
  | Ok v =>
      let cmd := toString v in
      if bool_decide (cmd = str "CreateLobby") then
        match CreateLobbyCommand_Set serverCommand with
        | Ok clc => (Ok tt, emit (createLobby (cl_protocol clc) (cl_localPort clc) (cl_playerAlias clc)
                                    (cl_playerRealName clc) (cl_playerId clc) (cl_natTraversal clc))
                              (set_id (cl_playerAlias clc) (cl_playerId clc) h))
        | Throw e => (Throw e, h) | Undef => (Undef, h) | Hang => (Hang, h)
        end
      else if bool_decide (cmd = str "HostGame") then
        match HostGameCommand_Set serverCommand with
        | Ok hgc => (Ok tt, emit (hostGame (hg_mapName hgc)) h)
        | Throw e => (Throw e, h) | Undef => (Undef, h) | Hang => (Hang, h)
        end
      else if bool_decide (cmd = str "JoinGame") then
        match JoinGameCommand_Set serverCommand with
        | Ok jgc => (Ok tt, emit (joinGame (jg_remoteHost jgc) (jg_remotePlayerAlias jgc)
                                    (jg_remotePlayerRealName jgc) (jg_remotePlayerId jgc))
                              (set_id (jg_remotePlayerAlias jgc) (jg_remotePlayerId jgc) h))
        | Throw e => (Throw e, h) | Undef => (Undef, h) | Hang => (Hang, h)
        end
      else if bool_decide (cmd = str "ConnectToPeer") then
        match ConnectToPeerCommand_Set serverCommand with
        | Ok ctp => (Ok tt, emit (connectToPeer (cp_host ctp) (cp_playerAlias ctp)
                                    (cp_playerRealName ctp) (cp_playerId ctp))
                              (set_id (cp_playerAlias ctp) (cp_playerId ctp) h))
        | Throw e => (Throw e, h) | Undef => (Undef, h) | Hang => (Hang, h)
        end
      else if bool_decide (cmd = str "DisconnectFromPeer") then
        match DisconnectFromPeerCommand_Set serverCommand with
        | Ok ctp => (Ok tt, emit (disconnectFromPeer (dp_playerId ctp)) h)
        | Throw e => (Throw e, h) | Undef => (Undef, h) | Hang => (Hang, h)
        end
      else (Ok tt, h)
  | Throw e => (Throw e, h) | Undef => (Undef, h) | Hang => (Hang, h)
  end.

Record GpgNetClient := mkClient {
  gc_parser : GpgNetParse.GpgNetParse;
  gc_available : bytes;                   (* what the socket has received and nobody has read *)
  gc_heard : Heard }.
Definition GpgNetClient_init : GpgNetClient := mkClient GpgNetParse_init [] (mkHeard ∅ []).
(** every exception is caught, and logged at most; what the loop has not read stays *)
Definition onReadyRead (arrived : bytes) (c : GpgNetClient) : res unit * GpgNetClient :=
  match receive on_command (gc_parser c) (gc_heard c) (gc_available c ++ arrived) with
  | (Ok _, p, h, inp) => (Ok tt, mkClient p inp h)
  | (Throw _, p, h, inp) => (Ok tt, mkClient p inp h)
  | (Undef, p, h, inp) => (Undef, mkClient p inp h)
  | (Hang, p, h, inp) => (Hang, mkClient p inp h)
  end.
Definition lookupPlayerId (playerName : bytes) (c : GpgNetClient) : Z :=
  if bool_decide (str "AI:" `prefix_of` playerName) then 0
  else default 0 (m_gpgnetPlayerIds (gc_heard c) !! playerName).

(** what the calls of the client write to the server *)
Definition sendGameState (state substate : bytes) : bytes :=
  sendCommand (str "GameOption") 2 ++ sendArgument_bytes (str "SubState") ++ sendArgument_bytes substate ++
  sendCommand (str "GameState") 1 ++ sendArgument_bytes state.
Definition sendCreateLobby : res bytes := Throw RuntimeError.
Definition sendHostGame (mapName : bytes) : bytes := sendCommand (str "HostGame") 1 ++ sendArgument_bytes mapName.
Definition sendJoinGame (hostAndPort remotePlayerName : bytes) (remotePlayerId : Z) : bytes :=
  sendCommand (str "JoinGame") 3 ++ sendArgument_bytes remotePlayerName ++ sendArgument_int remotePlayerId.
Definition sendGameMods_count (numMods : Z) : bytes :=
  sendCommand (str "GameMods") 2 ++ sendArgument_bytes (str "activated") ++ sendArgument_int numMods.
Definition sendGameMods_uids (uids : list bytes) : bytes :=
  sendCommand (str "GameMods") 2 ++ sendArgument_bytes (str "uids") ++ sendArgument_bytes (join 32 uids).
Definition sendGameOption (key value : bytes) : bytes :=
  sendCommand (str "GameOption") 2 ++ sendArgument_bytes key ++ sendArgument_bytes value.
Definition sendGameOption_int (key : bytes) (value : Z) : bytes :=
  sendCommand (str "GameOption") 2 ++ sendArgument_bytes key ++ sendArgument_int value.
Definition sendGameMetrics (key value : bytes) : bytes :=
  sendCommand (str "GameMetrics") 2 ++ sendArgument_bytes key ++ sendArgument_bytes value.
Definition sendPlayerOption (playerId key value : bytes) : bytes :=
  sendCommand (str "PlayerOption") 3 ++ sendArgument_bytes playerId ++ sendArgument_bytes key ++ sendArgument_bytes value.
Definition sendPlayerOption_int (playerId key : bytes) (value : Z) : bytes :=
  sendCommand (str "PlayerOption") 3 ++ sendArgument_bytes playerId ++ sendArgument_bytes key ++ sendArgument_int value.
Definition sendAiOption (name key : bytes) (value : Z) : bytes :=
  sendCommand (str "AIOption") 3 ++ sendArgument_bytes name ++ sendArgument_bytes key ++ sendArgument_int value.
Definition sendClearSlot (slot : Z) : bytes := sendCommand (str "ClearSlot") 1 ++ sendArgument_int slot.
Definition sendGameEnded : bytes := sendCommand (str "GameEnded") 0.
Definition sendGameResult (army score : Z) : bytes :=
  sendCommand (str "GameResult") 2 ++ sendArgument_int army ++
  (if 0 <? score then sendArgument_bytes (str "VICTORY 1")
   else if score =? 0 then sendArgument_bytes (str "DRAW 0")
   else sendArgument_bytes (str "DEFEAT -1")).


(** ** The application hears what the server says *)

(** what a lobby server sends; a player is named by his alias and his real name *)
Inductive server_message : Type :=
  | SM_CreateLobby (protocol localPort : Z) (alias real : bytes) (playerId natTraversal : Z)
  | SM_HostGame (mapName : bytes)
  | SM_JoinGame (host alias real : bytes) (playerId : Z)
  | SM_ConnectToPeer (host alias real : bytes) (playerId : Z)
  | SM_DisconnectFromPeer (playerId : Z)
  | SM_Ping.
Definition v_int (x : Z) : Variant := V_uint (u32 x).
Definition v_name (alias real : bytes) : Variant := V_bytes (alias ++ 47 :: real).
Definition encode (m : server_message) : bytes * list Variant :=
  match m with
  | SM_CreateLobby protocol localPort alias real id nat =>
      (str "CreateLobby", [v_int protocol; v_int localPort; v_name alias real; v_int id; v_int nat])
  | SM_HostGame mapName => (str "HostGame", [V_bytes mapName])
  | SM_JoinGame host alias real id => (str "JoinGame", [V_bytes host; v_name alias real; v_int id])
  | SM_ConnectToPeer host alias real id => (str "ConnectToPeer", [V_bytes host; v_name alias real; v_int id])
  | SM_DisconnectFromPeer id => (str "DisconnectFromPeer", [v_int id])
  | SM_Ping => (str "Ping", [])
  end.
Definition text (b : bytes) : Prop := Forall ascii b ∧ Z.of_nat (length b) ≤ 4000.
Definition name_part (b : bytes) : Prop := text b ∧ 47 ∉ b.
Definition message_wf (m : server_message) : Prop :=
  match m with
  | SM_CreateLobby protocol localPort alias real id nat =>
      is_s32 protocol ∧ is_s32 localPort ∧ name_part alias ∧ name_part real ∧ is_s32 id ∧ is_s32 nat
  | SM_HostGame mapName => text mapName
  | SM_JoinGame host alias real id | SM_ConnectToPeer host alias real id =>
      text host ∧ name_part alias ∧ name_part real ∧ is_s32 id
  | SM_DisconnectFromPeer id => is_s32 id
  | SM_Ping => True
  end.
(** what the application is told *)
Definition told (m : server_message) : list signal :=
  match m with
  | SM_CreateLobby protocol localPort alias real id nat => [createLobby protocol localPort alias real id nat]
  | SM_HostGame mapName => [hostGame mapName]
  | SM_JoinGame host alias real id => [joinGame host alias real id]
  | SM_ConnectToPeer host alias real id => [connectToPeer host alias real id]
  | SM_DisconnectFromPeer id => [disconnectFromPeer id]
  | SM_Ping => []
  end.
Definition named (m : server_message) : option (bytes * Z) :=
  match m with
  | SM_CreateLobby _ _ alias _ id _ | SM_JoinGame _ alias _ id | SM_ConnectToPeer _ alias _ id => Some (alias, id)
  | _ => None
  end.
Definition hears (m : server_message) (h : Heard) : Heard :=
  let h := match named m with Some (alias, id) => set_id alias id h | None => h end in
  mkHeard (m_gpgnetPlayerIds h) (emitted h ++ told m).

Lemma v_int_read x : is_s32 x → toInt (v_int x) = x.
Proof.
  intros Hx. unfold v_int. rewrite toInt_uint by apply u32_bound. unfold s32, u32, is_s32 in *.
  rewrite Z.mod_mod by lia. destruct (Z.ltb_spec (x mod 4294967296) 2147483648); Z.div_mod_to_equations; lia.
Qed.
Lemma v_text_read b : text b → toString (V_bytes b) = b.
Proof. intros [Hb _]. by apply toString_ascii. Qed.
Lemma v_name_read alias real : name_part alias → name_part real → SplitAliasAndRealName (toString (v_name alias real)) = (alias, real).
Proof.
  intros [[Ha _] Hna] [[Hr _] Hnr]. unfold v_name. rewrite toString_ascii.
  - unfold SplitAliasAndRealName. by rewrite split_cons, split_one.
  - apply Forall_app. split; [done|]. apply Forall_cons. split; [unfold ascii; lia|done].
Qed.
Lemma str_ascii s : forallb (λ b, (0 <? b) && (b <? 128)) (str s) = true → toString (V_bytes (str s)) = str s.
Proof.
  intros E. apply toString_ascii, Forall_forall. intros b Hb. rewrite forallb_forall in E.
  specialize (E b (proj1 (list_elem_of_In _ _) Hb)). apply andb_prop in E as [E1 E2].
  apply Z.ltb_lt in E1. apply Z.ltb_lt in E2. done.
Qed.
Lemma check_ID_ok s l : forallb (λ b, (0 <? b) && (b <? 128)) (str s) = true → check_ID s (V_bytes (str s) :: l) = Ok tt.
Proof. intros E. unfold check_ID, arg. cbn [lookup list_lookup]. rewrite res_bind_ok, str_ascii by done. by rewrite bool_decide_true. Qed.

Lemma on_command_hears m h : message_wf m → on_command (received (encode m)) h = (Ok tt, hears m h).
Proof.
  intros Hm. destruct m as [p l a r i n|n|ho a r i|ho a r i|i|]; cbn [message_wf] in Hm.
  all: unfold on_command, arg, received, encode; cbn [fst snd lookup list_lookup]; rewrite str_ascii by done; cbv zeta.
  all: repeat (rewrite bool_decide_false by done); try (rewrite bool_decide_true by done).
  - destruct Hm as (Hp & Hl & Ha & Hr & Hi & Hn). unfold CreateLobbyCommand_Set. rewrite check_ID_ok by done.
    rewrite !res_bind_ok. unfold arg. cbn [lookup list_lookup]. rewrite !res_bind_ok, v_name_read by done. rewrite !res_bind_ok.
    cbn [cl_protocol cl_localPort cl_playerAlias cl_playerRealName cl_playerId cl_natTraversal]. by rewrite !v_int_read.
  - unfold HostGameCommand_Set. rewrite check_ID_ok by done. unfold arg. cbn [lookup list_lookup]. rewrite !res_bind_ok.
    cbn [hg_mapName]. by rewrite v_text_read.
  - destruct Hm as (Hh & Ha & Hr & Hi). unfold JoinGameCommand_Set. rewrite check_ID_ok by done. unfold arg. cbn [lookup list_lookup].
    rewrite !res_bind_ok, v_name_read by done. cbn [jg_remoteHost jg_remotePlayerAlias jg_remotePlayerRealName jg_remotePlayerId].
    by rewrite v_text_read, !v_int_read.
  - destruct Hm as (Hh & Ha & Hr & Hi). unfold ConnectToPeerCommand_Set. rewrite check_ID_ok by done. unfold arg. cbn [lookup list_lookup].
    rewrite !res_bind_ok, v_name_read by done. cbn [cp_host cp_playerAlias cp_playerRealName cp_playerId].
    by rewrite v_text_read, !v_int_read.
  - unfold DisconnectFromPeerCommand_Set. rewrite check_ID_ok by done. unfold arg. cbn [lookup list_lookup]. rewrite !res_bind_ok.
    cbn [dp_playerId]. by rewrite v_int_read.
  - unfold hears. cbn [named told]. rewrite app_nil_r. by destruct h.
Qed.
Lemma handle_all_hears ms h : Forall message_wf ms →
  handle_all on_command (encode <$> ms) h = (Ok tt, foldl (λ h m, hears m h) h ms).
Proof.
  intros Hms. revert h. induction Hms as [|m ms Hm Hms IH]; intros h; [done|].
  cbn [fmap list_fmap handle_all foldl]. by rewrite on_command_hears.
Qed.
Lemma text_short b : text b → short b.
Proof. intros [_ Hl]. unfold short, MAX_RECORD_SIZE. lia. Qed.
Lemma name_short a r : name_part a → name_part r → short (a ++ 47 :: r).
Proof. intros [[_ Ha] _] [[_ Hr] _]. unfold short, MAX_RECORD_SIZE. rewrite length_app. cbn [length]. lia. Qed.
Lemma encode_wf m : message_wf m → command_wf (encode m).
Proof.
  assert (∀ x, arg_wf (v_int x)) as Hi by (intros x; apply u32_bound).
  destruct m; cbn [message_wf encode]; intros Hm; (split_and!; [unfold short, MAX_RECORD_SIZE; cbn; lia|cbn; unfold MAX_NUM_ARGS; lia|]); cbn [snd].
  all: repeat (apply Forall_cons; split); try apply Forall_nil; try done; try apply Hi; cbn [arg_wf v_name].
  all: first [apply name_short; apply Hm | apply text_short; apply Hm].
Qed.

(** the pieces in which the data of the connection becomes available *)
Fixpoint onReadyReads (pieces : list bytes) (c : GpgNetClient) : res unit * GpgNetClient :=
  match pieces with
  | [] => (Ok tt, c)
  | b :: pieces => match onReadyRead b c with (Ok _, c) => onReadyReads pieces c | r => r end
  end.
Lemma onReadyReads_chunks pieces : ∀ p h inp p' h' inp',
  on_chunks on_command p h inp pieces = (Ok tt, p', h', inp') →
  onReadyReads pieces (mkClient p inp h) = (Ok tt, mkClient p' inp' h').
Proof.
  induction pieces as [|b pieces IH]; intros p h inp p' h' inp' E; cbn [on_chunks onReadyReads] in *; [by injection E as -> -> ->|].
  unfold onReadyRead. cbn [gc_parser gc_heard gc_available]. unfold on_chunk in E.
  destruct (receive on_command p h (inp ++ b)) as [[[[[]|[]| |] p1] h1] i1]; try done; by apply IH.
Qed.

Lemma hears_emitted ms h : emitted (foldl (λ h m, hears m h) h ms) = emitted h ++ concat (told <$> ms).
Proof.
  revert h. induction ms as [|m ms IH]; intros h; cbn [foldl fmap list_fmap concat]; [by rewrite app_nil_r|].
  rewrite IH, (assoc_L (++)). f_equal. unfold hears. by destruct (named m) as [[]|].
Qed.
(** the last id that was given for a player *)
Definition last_id (alias : bytes) (ms : list server_message) : option Z :=
  foldl (λ i m, match named m with Some (a, id) => if bool_decide (a = alias) then Some id else i | None => i end) None ms.
Lemma hears_ids alias ms : ∀ h i, m_gpgnetPlayerIds h !! alias = u32 <$> i →
  m_gpgnetPlayerIds (foldl (λ h m, hears m h) h ms) !! alias = u32 <$>
  foldl (λ i m, match named m with Some (a, id) => if bool_decide (a = alias) then Some id else i | None => i end) i ms.
Proof.
  induction ms as [|m ms IH]; intros h i E; cbn [foldl]; [done|]. apply IH. unfold hears.
  destruct (named m) as [[a id]|]; cbn [m_gpgnetPlayerIds set_id]; [|done].
  case_bool_decide as Ea; [by rewrite Ea, lookup_insert_eq|by rewrite lookup_insert_ne].
Qed.

(** in whatever pieces the messages arrive *)
Lemma messages_heard ms pieces : Forall message_wf ms → concat pieces = concat (send <$> (encode <$> ms)) → ∃ p,
  onReadyReads pieces GpgNetClient_init = (Ok tt, mkClient p [] (foldl (λ h m, hears m h) (mkHeard ∅ []) ms)).
Proof.
  intros Hms E. pose proof (handle_all_hears ms (mkHeard ∅ []) Hms) as Hh.
  destruct (chunks_stream on_command pieces (encode <$> ms) GpgNetParse_init [] GpgNetParse_init (mkHeard ∅ [])
    (foldl (λ h m, hears m h) (mkHeard ∅ []) ms)) as (p & Hc & _); try done.
  - split; [by apply fresh_ok|done].
  - apply Forall_fmap. apply (Forall_impl _ _ _ Hms). intros m Hm. by apply encode_wf.
  - intros c cs' _. cbn [length]. unfold send, sendCommand, put_bytes. rewrite !length_app, !length_le4. lia.
  - eexists. by apply onReadyReads_chunks.
Qed.
(** whatever the lobby server says reaches the application: in whatever pieces the
    messages arrive, the client emits the signals of all of them in order, with their
    players' names taken apart, and afterwards knows each player by the last id that was
    given for his alias. *)
Theorem server_messages_arrive (ms : list server_message) (pieces : list bytes) :
  Forall message_wf ms → concat pieces = concat (send <$> (encode <$> ms)) → ∃ c,
  onReadyReads pieces GpgNetClient_init = (Ok tt, c) ∧ gc_available c = [] ∧
  emitted (gc_heard c) = concat (told <$> ms) ∧
  ∀ alias, ¬ str "AI:" `prefix_of` alias → lookupPlayerId alias c = default 0 (u32 <$> last_id alias ms).
Proof.
  intros Hms E. destruct (messages_heard ms pieces Hms E) as (p & Hp). eexists. split; [exact Hp|]. cbn [gc_available gc_heard].
  split_and!; [done|by rewrite hears_emitted|]. intros alias Ha. unfold lookupPlayerId. rewrite bool_decide_false by done. cbn [gc_heard].
  by rewrite (hears_ids alias ms _ None) by apply lookup_empty.
Qed.

(** ** What the client says *)

(** the commands that the calls stand for *)
Lemma sends_commands :
  (∀ state substate, sendGameState state substate =
     send (str "GameOption", [V_bytes (str "SubState"); V_bytes substate]) ++ send (str "GameState", [V_bytes state])) ∧
  (∀ mapName, sendHostGame mapName = send (str "HostGame", [V_bytes mapName])) ∧
  (∀ n, sendGameMods_count n = send (str "GameMods", [V_bytes (str "activated"); V_uint n])) ∧
  (∀ uids, sendGameMods_uids uids = send (str "GameMods", [V_bytes (str "uids"); V_bytes (join 32 uids)])) ∧
  (∀ key value, sendGameOption key value = send (str "GameOption", [V_bytes key; V_bytes value])) ∧
  (∀ key value, sendGameOption_int key value = send (str "GameOption", [V_bytes key; V_uint value])) ∧
  (∀ key value, sendGameMetrics key value = send (str "GameMetrics", [V_bytes key; V_bytes value])) ∧
  (∀ id key value, sendPlayerOption id key value = send (str "PlayerOption", [V_bytes id; V_bytes key; V_bytes value])) ∧
  (∀ id key value, sendPlayerOption_int id key value = send (str "PlayerOption", [V_bytes id; V_bytes key; V_uint value])) ∧
  (∀ name key value, sendAiOption name key value = send (str "AIOption", [V_bytes name; V_bytes key; V_uint value])) ∧
  (∀ slot, sendClearSlot slot = send (str "ClearSlot", [V_uint slot])) ∧
  sendGameEnded = send (str "GameEnded", []) ∧
  (∀ army score, sendGameResult army score = send (str "GameResult", [V_uint army;
     V_bytes (str (if 0 <? score then "VICTORY 1" else if score =? 0 then "DRAW 0" else "DEFEAT -1"))])).
Proof.
  split_and!; intros; unfold send; cbn [fst snd length fmap list_fmap concat send_arg]; rewrite ?app_nil_r, <- ?(assoc_L (++)); try done.
  unfold sendGameResult. by destruct (0 <? score), (score =? 0).
Qed.

(** [sendJoinGame] announces three arguments and sends two, so that the parser of the
    other side takes the length of the next command for the type of the third: it refuses
    the command, and with it everything that comes later. *)
Theorem sendJoinGame_blocks (q : GpgNetParse.GpgNetParse) (host name : bytes) (id : Z) (c : bytes * list Variant) :
  fresh q → text name → (2 ≤ length c.1 < 256)%nat → ∃ p rest,
  GetCommand q (sendJoinGame host name id ++ send c) = (Throw RuntimeError, p, rest) ∧
  ∀ later, GetCommand p later = (Throw RuntimeError, p, later).
Proof.
  intros Hq Hn Hc.
  destruct (missing_argument q (str "JoinGame") [V_bytes name; V_uint (u32 id)] 3 (Z.of_nat (length c.1))
    (drop 1 (le4 (Z.of_nat (length c.1))) ++ c.1 ++ le4 (u32 (Z.of_nat (length c.2))) ++ concat (send_arg <$> c.2)) Hq) as (p & E).
  - unfold short, MAX_RECORD_SIZE. cbn. lia.
  - apply Forall_cons. split; [by apply text_short|]. apply Forall_singleton. apply u32_bound.
  - cbn. unfold MAX_NUM_ARGS. lia.
  - lia.
  - eexists p, _. assert (sendJoinGame host name id ++ send c = sendCommand (str "JoinGame") 3 ++
      concat (send_arg <$> [V_bytes name; V_uint (u32 id)]) ++ Z.of_nat (length c.1) ::
      (drop 1 (le4 (Z.of_nat (length c.1))) ++ c.1 ++ le4 (u32 (Z.of_nat (length c.2))) ++ concat (send_arg <$> c.2))) as ->.
    { unfold sendJoinGame, send. cbn [fmap list_fmap concat send_arg]. rewrite app_nil_r. unfold sendArgument_int. rewrite (u32_id (u32 id)) by apply u32_bound.
      rewrite <- !(assoc_L (++)). do 4 f_equal. unfold sendCommand, put_bytes, le4. cbn [drop app].
      rewrite u8_id by (unfold is_byte; lia). rewrite <- !(assoc_L (++)). done. }
    split; [exact E|]. intros later. by apply (GetCommand_sticks q _ _ _ _ (fresh_ok q Hq) E).
Qed.
End Messages.

(** ** A Qt, for examples *)
Fixpoint split_at (sep : Z) (b : bytes) : list bytes :=
  match b with
  | [] => [[]]
  | x :: b => if x =? sep then [] :: split_at sep b
              else match split_at sep b with p :: ps => (x :: p) :: ps | [] => [[x]] end
  end.
Fixpoint join_with (sep : Z) (l : list bytes) : bytes :=
  match l with [] => [] | [a] => a | a :: l => a ++ sep :: join_with sep l end.
Lemma split_at_one sep a : sep ∉ a → split_at sep a = [a].
Proof.
  induction a as [|x a IH]; intros Ha; [done|]. apply not_elem_of_cons in Ha as [Hx Ha]. cbn [split_at].
  rewrite (proj2 (Z.eqb_neq _ _)) by done. by rewrite IH.
Qed.
Lemma split_at_cons sep a b : sep ∉ a → split_at sep (a ++ sep :: b) = a :: split_at sep b.
Proof.
  induction a as [|x a IH]; intros Ha; cbn [app split_at]; [by rewrite Z.eqb_refl|]. apply not_elem_of_cons in Ha as [Hx Ha].
  rewrite (proj2 (Z.eqb_neq _ _)) by done. by rewrite IH.
Qed.
Lemma s32_range x : is_s32 (s32 x).
Proof. unfold is_s32, s32. pose proof (u32_bound x) as H. unfold is_u32 in H. case_match eqn:E; [apply Z.ltb_lt in E|apply Z.ltb_ge in E]; lia. Qed.
Definition ex_toInt (v : Variant) : Z := match v with V_uint n => s32 n | V_bytes _ => 0 end.
Definition ex_toUInt (v : Variant) : Z := match v with V_uint n => u32 n | V_bytes _ => 0 end.
Definition ex_bytes (v : Variant) : bytes := match v with V_uint _ => [48] | V_bytes b => b end.
#[refine] Definition ex_qt : Qt := {| toString := ex_bytes; toByteArray := ex_bytes; toInt := ex_toInt; toUInt := ex_toUInt;
  fromUtf8 := id;  split := split_at; join := join_with |}.
Proof.
  - done.
  - done.
  - done.
  - intros n Hn. by apply u32_id.
  - intros []; [apply s32_range|unfold is_s32; cbn; lia].
  - intros []; [apply u32_bound|unfold is_u32; cbn; lia].
  - done.
  - apply split_at_one.
  - apply split_at_cons.
  - done.
  - done.
Defined.

(** Bob hosts a game that Al joins, and leaves, in pieces of 9 bytes *)
Definition ex_messages : list server_message :=
  [SM_CreateLobby 0 6112 (str "Bob") (str "BobX") 7 1; SM_HostGame (str "Red Hot Lava"); SM_Ping;
   SM_ConnectToPeer (str "10.0.0.2:6112") (str "Al") (str "") 9; SM_DisconnectFromPeer 9].
Fixpoint pieces_of (n fuel : nat) (b : bytes) : list bytes :=
  match fuel with O => [b] | S fuel => take n b :: pieces_of n fuel (drop n b) end.
#[export] Instance ascii_dec b : Decision (ascii b).
Proof. unfold ascii. apply _. Defined.
Lemma text_intro (b : bytes) : bool_decide (Forall ascii b) = true → (Z.of_nat (length b) <=? 4000) = true → text b.
Proof. intros H1 H2. split; [by apply bool_decide_eq_true_1 in H1|by apply Z.leb_le]. Qed.
Lemma name_part_intro (b : bytes) : bool_decide (Forall ascii b) = true → (Z.of_nat (length b) <=? 4000) = true →
  bool_decide (47 ∉ b) = true → name_part b.
Proof. intros H1 H2 H3. split; [by apply text_intro|by apply bool_decide_eq_true_1 in H3]. Qed.
Lemma ex_messages_wf : Forall message_wf ex_messages.
Proof.
  repeat (apply Forall_cons; split); try apply Forall_nil; try done; cbn [message_wf]; split_and?; unfold is_s32; try lia;
    first [apply name_part_intro|apply text_intro]; vm_compute; reflexivity.
Qed.
Lemma server_messages_arrive_witness : ∃ c,
  onReadyReads (H:=ex_qt) (pieces_of 9 40 (concat (send <$> (encode <$> ex_messages)))) GpgNetClient_init = (Ok tt, c) ∧
  emitted (gc_heard c) = [createLobby 0 6112 (str "Bob") (str "BobX") 7 1; hostGame (str "Red Hot Lava");
    connectToPeer (str "10.0.0.2:6112") (str "Al") [] 9; disconnectFromPeer 9] ∧ lookupPlayerId (str "Al") c = 9.
Proof.
  destruct (server_messages_arrive (H:=ex_qt) ex_messages (pieces_of 9 40 (concat (send <$> (encode <$> ex_messages))))) as (c & H1 & _ & H2 & H3).
  - exact ex_messages_wf.
  - vm_compute. reflexivity.
  - exists c. split; [exact H1|]. split; [rewrite H2; vm_compute; reflexivity|]. rewrite H3; [vm_compute; reflexivity|].
    intros [k Hk]. discriminate Hk.
Defined.
Lemma sendJoinGame_blocks_witness : ∃ p rest, 
  GetCommand GpgNetParse_init (sendJoinGame (str "10.0.0.2") (str "Al") 9 ++ send (str "GameEnded", [])) = (Throw RuntimeError, p, rest) ∧
  ∀ later, GetCommand p later = (Throw RuntimeError, p, later).
Proof.
  apply (sendJoinGame_blocks GpgNetParse_init (str "10.0.0.2") (str "Al") 9 (str "GameEnded", [])).
  - split_and!; reflexivity.
  - apply text_intro; vm_compute; reflexivity.
  - cbn. lia.
Defined.
