(* ===== verification/GpgNetReports.v ===== *)
(** * Commands for the lobby server

    Each [send] function of the client writes one or two commands.  They are kept here
    as commands, so that what the program reports is a list that can be reasoned about;
    [reports_written] ties them to the bytes. *)
From S2P Require Import Prelude GpgNetParse GpgNetStream GpgNetMessages.
#[local] Open Scope Z_scope.

Definition gameState (state substate : bytes) : list (bytes * list Variant) :=
  [(str "GameOption", [V_bytes (str "SubState"); V_bytes substate]); (str "GameState", [V_bytes state])].
Definition gameOption (key value : bytes) : list (bytes * list Variant) := [(str "GameOption", [V_bytes key; V_bytes value])].
Definition gameOption_int (key : bytes) (value : Z) : list (bytes * list Variant) :=
  [(str "GameOption", [V_bytes key; V_uint (u32 value)])].
Definition playerOption_int (id key : bytes) (value : Z) : list (bytes * list Variant) :=
  [(str "PlayerOption", [V_bytes id; V_bytes key; V_uint (u32 value)])].
Definition gameEnded : list (bytes * list Variant) := [(str "GameEnded", [])].
Definition aiOption_int (name key : bytes) (value : Z) : list (bytes * list Variant) :=
  [(str "AIOption", [V_bytes name; V_bytes key; V_uint (u32 value)])].
Definition clearSlot (slot : Z) : list (bytes * list Variant) := [(str "ClearSlot", [V_uint (u32 slot)])].
Definition gameResult (army score : Z) : list (bytes * list Variant) :=
  [(str "GameResult", [V_uint (u32 army);
      V_bytes (if 0 <? score then str "VICTORY 1" else if score =? 0 then str "DRAW 0" else str "DEFEAT -1")])].
Definition gameMetrics (key value : bytes) : list (bytes * list Variant) := [(str "GameMetrics", [V_bytes key; V_bytes value])].

Lemma reports_written :
  (∀ state substate, sendGameState state substate = concat (send <$> gameState state substate)) ∧
  (∀ key value, sendGameOption key value = concat (send <$> gameOption key value)) ∧
  (∀ key value, sendGameOption_int key value = concat (send <$> gameOption_int key value)) ∧
  (∀ id key value, sendPlayerOption_int id key value = concat (send <$> playerOption_int id key value)) ∧
  sendGameEnded = concat (send <$> gameEnded) ∧
  (∀ name key value, sendAiOption name key value = concat (send <$> aiOption_int name key value)) ∧
  (∀ slot, sendClearSlot slot = concat (send <$> clearSlot slot)) ∧
  (∀ army score, sendGameResult army score = concat (send <$> gameResult army score)) ∧
  (∀ key value, sendGameMetrics key value = concat (send <$> gameMetrics key value)).
Proof.
  assert (∀ x, sendArgument_int (u32 x) = sendArgument_int x) as Hu.
  { intros x. unfold sendArgument_int. by rewrite (u32_id (u32 x)) by apply u32_bound. }
  split_and!; intros; unfold send; cbn [fst snd length fmap list_fmap concat send_arg gameState gameOption gameOption_int playerOption_int gameEnded
      aiOption_int clearSlot gameResult gameMetrics];
    rewrite ?app_nil_r, <- ?(assoc_L (++)), ?Hu; try done.
  unfold sendGameResult. by repeat case_match.
Qed.
