(* ===== verification/QtText.v ===== *)
(** * Text and numbers of Qt

    A [QString] is the bytes of its UTF-8 encoding.  Searching, cutting and replacing at
    ASCII patterns is the same on both; so is the order of a [QMap] with strings as keys,
    which is that of the UTF-16 code units.  How Qt reads a number or an address is an
    interface, [QtText], with what Qt documents for texts that are well formed. *)
From S2P Require Import Prelude GpgNetParse GpgNetStream GpgNetMessages.
From stdpp Require Import pretty.
#[local] Open Scope Z_scope.

(** [QString::number], to the base of 10 and, for 32 bits, of 16 *)
Definition number (n : Z) : bytes := str (pretty n).
Definition hex_char (d : Z) : Z := if d <? 10 then 48 + d else 87 + d.
Fixpoint hex_digits (fuel : nat) (n : Z) (acc : bytes) : bytes :=
  match fuel with
  | O => acc
  | S fuel => let acc := hex_char (n mod 16) :: acc in if n <? 16 then acc else hex_digits fuel (n / 16) acc
  end.
Definition hex (n : Z) : bytes := hex_digits 8 n [].
(** [arg(n, 8, 16, '0')] *)
Definition hex8 (n : Z) : bytes := replicate (8 - length (hex n)) 48 ++ hex n.

(** [QString::startsWith] and [endsWith] *)
Fixpoint starts_with (p s : bytes) : bool :=
  match p, s with
  | [], _ => true
  | x :: p, y :: s => (x =? y) && starts_with p s
  | _ :: _, [] => false
  end.
Definition ends_with (p s : bytes) : bool := starts_with (rev p) (rev s).
(** [s.contains(p)] *)
Fixpoint find_text (p s : bytes) : bool :=
  starts_with p s || match s with [] => false | _ :: s => find_text p s end.
(** what comes after the last [p], if there is one *)
Fixpoint after_last (p s : bytes) : option bytes :=
  match s with
  | [] => if starts_with p s then Some [] else None
  | _ :: s' =>
      match after_last p s' with
      | Some t => Some t
      | None => if starts_with p s then Some (drop (length p) s) else None
      end
  end.
(** [QString::replace(before, after)], from the left to the right *)
Fixpoint replace_all (fuel : nat) (before after s : bytes) : bytes :=
  match fuel with
  | O => []
  | S fuel =>
      match s with
      | [] => []
      | c :: s' =>
          if starts_with before s then after ++ replace_all fuel before after (drop (length before) s)
          else c :: replace_all fuel before after s'
      end
  end.
Definition replace (before after s : bytes) : bytes := replace_all (length s) before after s.

(** ** The order of a [QMap] *)

(** UTF-16 puts the characters from U+E000 to U+FFFF, whose encodings begin with 238 or
    239, after those that need two code units *)
Definition weight (b : Z) : Z := if (b =? 238) || (b =? 239) then b + 100 else b.
Fixpoint qstring_leb (a b : bytes) : bool :=
  match a, b with
  | [], _ => true
  | _ :: _, [] => false
  | x :: a, y :: b => (weight x <? weight y) || (weight x =? weight y) && qstring_leb a b
  end.
Definition qstring_le (a b : bytes) : Prop := qstring_leb a b = true.
#[export] Instance qstring_le_dec a b : Decision (qstring_le a b).
Proof. unfold qstring_le. apply _. Defined.
(** the keys in the order of the iterators *)
Definition qmap_keys {A} (m : gmap bytes A) : list bytes := merge_sort qstring_le (map_to_list m).*1.

Lemma elem_of_qmap_keys {A} (m : gmap bytes A) k : k ∈ qmap_keys m ↔ is_Some (m !! k).
Proof.
  unfold qmap_keys. rewrite merge_sort_Permutation, list_elem_of_fmap. split.
  - intros ([k' x] & -> & H). apply elem_of_map_to_list in H. by exists x.
  - intros [x H]. exists (k, x). by rewrite elem_of_map_to_list.
Qed.

(** ** Reading numbers *)

(** the address 10.0.0.1 *)
Definition dotted (a b c d : Z) : bytes := number a ++ 46 :: number b ++ 46 :: number c ++ 46 :: number d.
Class QtText := {
  toUInt_text : bytes → Z;                 (* [QString::toUInt()], 0 when it fails *)
  toInt_text : bytes → Z;
  toLongLong_hex : bytes → option Z;       (* [toLongLong(&ok, 16)] *)
  ipv4 : bytes → Z;                        (* [QHostAddress::setAddress], then [toIPv4Address] *)
  chop_last : bytes → bytes;               (* [s.mid(0, s.size() - 1)] *)
  toUInt_text_range s : is_u32 (toUInt_text s);
  toUInt_text_number n : is_u32 n → toUInt_text (number n) = n;
  toInt_text_number n : 0 ≤ n < 2147483648 → toInt_text (number n) = n;
  toLongLong_hex_hex n : is_u32 n → toLongLong_hex (hex n) = Some n;
  ipv4_dotted a b c d : is_byte a → is_byte b → is_byte c → is_byte d →
    ipv4 (dotted a b c d) = ((a * 256 + b) * 256 + c) * 256 + d;
  chop_last_ascii b c : Forall ascii (b ++ [c]) → chop_last (b ++ [c]) = b }.

(** ** Facts *)
Lemma starts_with_spec p s : starts_with p s = true ↔ ∃ t, s = p ++ t.
Proof.
  revert s. induction p as [|x p IH]; intros s; [split; [by exists s|done]|]. destruct s as [|y s]; cbn [starts_with app].
  - split; [done|]. by intros [t Ht].
  - rewrite andb_true_iff, Z.eqb_eq, IH. split.
    + intros [-> [t ->]]. by exists t.
    + intros [t [= -> ->]]. split; [done|]. by exists t.
Qed.
Lemma starts_with_app p t : starts_with p (p ++ t) = true.
Proof. apply starts_with_spec. by exists t. Qed.
Lemma ends_with_app p t : ends_with p (t ++ p) = true.
Proof. unfold ends_with. rewrite rev_app_distr. apply starts_with_app. Qed.

(** a text made of digits *)
Definition digit (b : Z) : Prop := 48 ≤ b ≤ 57.
#[export] Instance digit_dec b : Decision (digit b).
Proof. unfold digit. apply _. Defined.
Lemma str_app a b : str (a +:+ b) = str a ++ str b.
Proof. induction a as [|c a IH]; [done|]. exact (f_equal (cons _) IH). Qed.
(** what the digits mean, after [acc] *)
Definition digits_value (acc : Z) (s : bytes) : Z := foldl (λ v b, 10 * v + (b - 48)) acc s.
Lemma pretty_N_char_digit x : (x < 10)%N → Z.of_N (Ascii.N_of_ascii (pretty_N_char x)) = 48 + Z.of_N x.
Proof.
  intros Hx. assert (x = 0 ∨ x = 1 ∨ x = 2 ∨ x = 3 ∨ x = 4 ∨ x = 5 ∨ x = 6 ∨ x = 7 ∨ x = 8 ∨ x = 9)%N as H by lia.
  by repeat destruct H as [-> | H]; subst.
Qed.
Lemma pretty_go_value x : ∀ s, digits_value 0 (str (pretty_N_go x s)) = digits_value (Z.of_N x) (str s) ∧
  (Forall digit (str s) → Forall digit (str (pretty_N_go x s))).
Proof.
  induction (N.lt_wf_0 x) as [x _ IH]. intros s. destruct (decide (x = 0)%N) as [->|Hx]; [by rewrite pretty_N_go_0|].
  rewrite pretty_N_go_step by lia. destruct (IH (x `div` 10)%N ltac:(apply N.div_lt; lia) (String (pretty_N_char (x `mod` 10)) s)) as [IH1 IH2].
  pose proof (pretty_N_char_digit (x `mod` 10) ltac:(apply N.mod_lt; lia)) as Hd. split.
  - rewrite IH1. cbn [str]. unfold digits_value. cbn [foldl]. f_equal. rewrite Hd, N2Z.inj_div, N2Z.inj_mod. Z.div_mod_to_equations. lia.
  - intros Hs. apply IH2. cbn [str]. apply Forall_cons. split; [|done]. rewrite Hd. unfold digit.
    assert (x `mod` 10 < 10)%N by (apply N.mod_lt; lia). clear -H. generalize dependent (x `mod` 10)%N. intros y Hy. lia.
Qed.
Lemma number_value n : 0 ≤ n → digits_value 0 (number n) = n ∧ Forall digit (number n) ∧ number n ≠ [].
Proof.
  intros Hn. unfold number. destruct n as [|p|p]; [|clear Hn|lia].
  - split; [done|]. split; [|done]. apply Forall_singleton. change (48 ≤ 48 ≤ 57). lia.
  - assert (pretty (Z.pos p) = pretty_N_go (N.pos p) "") as -> by (by unfold pretty, pretty_Z, pretty, pretty_N).
    destruct (pretty_go_value (N.pos p) "") as [H1 H2]. split; [exact H1|]. split; [by apply H2|].
    intros E. rewrite E in H1. discriminate H1.
Qed.
Lemma pretty_go_length k : ∀ x s, (x < 10 ^ N.of_nat k)%N → (length (str (pretty_N_go x s)) ≤ k + length (str s))%nat.
Proof.
  induction k as [|k IH]; intros x s Hx.
  - assert (x = 0)%N as -> by (cbn in Hx; lia). by rewrite pretty_N_go_0.
  - destruct (decide (x = 0)%N) as [->|Hn]; [rewrite pretty_N_go_0; lia|]. rewrite pretty_N_go_step by lia.
    etrans; [apply IH|cbn [str length]; lia]. apply N.Div0.div_lt_upper_bound. rewrite Nat2N.inj_succ, N.pow_succ_r' in Hx. lia.
Qed.
Lemma number_length k n : (1 ≤ k)%nat → 0 ≤ n < 10 ^ Z.of_nat k → (length (number n) ≤ k)%nat.
Proof.
  intros Hk Hn. unfold number. destruct n as [|p|p]; [exact Hk| |lia].
  assert (pretty (Z.pos p) = pretty_N_go (N.pos p) "") as -> by (by unfold pretty, pretty_Z, pretty, pretty_N).
  etrans; [apply (pretty_go_length k)|by rewrite Nat.add_0_r]. apply N2Z.inj_lt. rewrite N2Z.inj_pow, nat_N_Z. apply Hn.
Qed.
Lemma number_ascii n : 0 ≤ n → Forall ascii (number n).
Proof. intros Hn. destruct (number_value n Hn) as (_ & H & _). apply (Forall_impl _ _ _ H). unfold digit, ascii. lia. Qed.
Lemma number_no c n : 0 ≤ n → ¬ digit c → c ∉ number n.
Proof. intros Hn Hc Hin. destruct (number_value n Hn) as (_ & H & _). rewrite Forall_forall in H. by apply Hc, H. Qed.

(** what hexadecimal digits mean, after [acc]; [None] when one is not such a digit *)
Definition hex_digit (b : Z) : option Z :=
  if (48 <=? b) && (b <=? 57) then Some (b - 48) else if (97 <=? b) && (b <=? 102) then Some (b - 87) else None.
Fixpoint hex_value (acc : Z) (s : bytes) : option Z :=
  match s with [] => Some acc | b :: s => match hex_digit b with Some d => hex_value (16 * acc + d) s | None => None end end.
Lemma hex_digit_char d : 0 ≤ d < 16 → hex_digit (hex_char d) = Some d.
Proof.
  intros Hd. unfold hex_digit, hex_char. destruct (Z.ltb_spec d 10).
  - rewrite (proj2 (Z.leb_le 48 _)), (proj2 (Z.leb_le _ 57)) by lia. cbn [andb]. f_equal. lia.
  - rewrite (proj2 (Z.leb_gt (87 + d) 57)) by lia. rewrite andb_false_r.
    rewrite (proj2 (Z.leb_le 97 _)), (proj2 (Z.leb_le _ 102)) by lia. cbn [andb]. f_equal. lia.
Qed.
Lemma hex_digits_value fuel : ∀ n acc, 0 ≤ n < 16 ^ Z.of_nat fuel → 
  hex_value 0 (hex_digits fuel n acc) = hex_value n acc.
Proof.
  induction fuel as [|fuel IH]; intros n acc Hn; cbn [hex_digits].
  - assert (n = 0) as -> by (rewrite Z.pow_0_r in Hn; lia). done.
  - rewrite Nat2Z.inj_succ, Z.pow_succ_r in Hn by lia.
    assert (hex_value (n / 16) (hex_char (n mod 16) :: acc) = hex_value n acc) as E.
    { cbn [hex_value]. rewrite hex_digit_char by (apply Z.mod_pos_bound; lia). f_equal. Z.div_mod_to_equations. lia. }
    destruct (Z.ltb_spec n 16).
    + rewrite <- E. by rewrite Z.div_small by lia.
    + rewrite <- E. apply IH. split; [apply Z.div_pos; lia|]. apply Z.div_lt_upper_bound; lia.
Qed.
Lemma hex_digits_not_empty fuel n acc : acc ≠ [] ∨ fuel ≠ O → hex_digits fuel n acc ≠ [].
Proof.
  revert n acc. induction fuel as [|fuel IH]; intros n acc H; cbn [hex_digits]; [by destruct H|].
  case_match; [done|]. apply IH. by left.
Qed.
Lemma hex_read n : is_u32 n → hex_value 0 (hex n) = Some n.
Proof. intros Hn. unfold hex. rewrite hex_digits_value; [done|]. unfold is_u32 in Hn. change (16 ^ Z.of_nat 8) with 4294967296. lia. Qed.

(** ** Lists of texts *)
Section Lists.
Context `{Qt}.
Lemma split_join sep l : l ≠ [] → Forall (λ a, sep ∉ a) l → GpgNetMessages.split sep (GpgNetMessages.join sep l) = l.
Proof.
  intros Hne Hl. induction Hl as [|a l Ha Hl IH]; [done|]. destruct l as [|b l]; [rewrite join_one; by apply split_one|].
  rewrite join_cons, split_cons by done. f_equal. by apply IH.
Qed.
Lemma join_no c sep l : c ≠ sep → l ≠ [] → Forall (λ a, c ∉ a) l → c ∉ GpgNetMessages.join sep l.
Proof.
  intros Hc Hne Hl. induction Hl as [|a l Ha Hl IH]; [done|]. destruct l as [|b l]; [by rewrite join_one|].
  rewrite join_cons, not_elem_of_app, not_elem_of_cons. split_and!; [done..|by apply IH].
Qed.
End Lists.

(** ** A Qt that reads nothing but well formed texts, for examples *)
Definition ex_toUInt_text (s : bytes) : Z :=
  if bool_decide (Forall digit s) then
    let v := digits_value 0 s in if (0 <=? v) && (v <? 4294967296) then v else 0
  else 0.
Definition ex_ipv4 (s : bytes) : Z :=
  match split_at 46 s with
  | [a; b; c; d] => ((ex_toUInt_text a * 256 + ex_toUInt_text b) * 256 + ex_toUInt_text c) * 256 + ex_toUInt_text d
  | _ => 0
  end.
Lemma ex_toUInt_text_number n : is_u32 n → ex_toUInt_text (number n) = n.
Proof.
  intros [H0 H1]. destruct (number_value n H0) as (E & Hd & _). unfold ex_toUInt_text. rewrite bool_decide_true by done. rewrite E.
  by rewrite (proj2 (Z.leb_le _ _)), (proj2 (Z.ltb_lt _ _)) by lia.
Qed.
Lemma ex_ipv4_dotted a b c d : is_byte a → is_byte b → is_byte c → is_byte d →
  ex_ipv4 (dotted a b c d) = ((a * 256 + b) * 256 + c) * 256 + d.
Proof.
  unfold is_byte. intros Ha Hb Hc Hd. assert (∀ n, 0 ≤ n → 46 ∉ number n) as Hn by (intros n H; apply number_no; [done|unfold digit; lia]).
  unfold ex_ipv4, dotted. rewrite !split_at_cons, split_at_one by (apply Hn; lia).
  by rewrite !ex_toUInt_text_number by (unfold is_u32; lia).
Qed.
#[refine] Definition ex_text : QtText := {| toUInt_text := ex_toUInt_text; toInt_text s := s32 (ex_toUInt_text s);
  toLongLong_hex s := match s with [] => None | _ => hex_value 0 s end; ipv4 := ex_ipv4; chop_last s := removelast s |}.
Proof.
  - intros s. unfold ex_toUInt_text, is_u32. case_bool_decide; [|lia]. destruct (_ && _) eqn:E; [|lia].
    apply andb_prop in E as [E1 E2]. apply Z.leb_le in E1. apply Z.ltb_lt in E2. lia.
  - apply ex_toUInt_text_number.
  - intros n Hn. rewrite ex_toUInt_text_number by (unfold is_u32; lia). unfold s32. rewrite u32_id by (unfold is_u32; lia).
    by rewrite (proj2 (Z.ltb_lt _ _)) by lia.
  - intros n Hn. destruct (hex n) as [|b s] eqn:E; [|rewrite <- E; by apply hex_read].
    by destruct (hex_digits_not_empty 8 n [] ltac:(by right)).
  - apply ex_ipv4_dotted.
  - intros b c _. apply removelast_last.
Defined.
