(* ===== verification/TaDemoCompilerMessages.v ===== *)
(** * Messages of the demo compiler (TaDemoCompilerMessages.cpp)

    What the clients of the compiler send it.  The members of a message are those of its
    class; [set] reads them from a command. *)
From S2P Require Import Prelude GpgNetParse GpgNetMessages.

Record HelloMessage := mkHello { he_gameId : Z; he_playerDpId : Z; he_playerName : bytes }.
Record GameInfoMessage := mkGameInfo { gi_maxUnits : Z; gi_mapName : bytes }.
Record GamePlayerMessage := mkGamePlayer { gp_side : Z; gp_name : bytes; gp_statusMessage : bytes }.
Record GamePlayerNumber := mkGamePlayerNumber { gn_dplayId : Z; gn_number : Z }.
Record GamePlayerLoading := mkLoading { gl_lockedInPlayers : list Z }.
Record GameUnitDataMessage := mkUnitDataMessage { gu_unitData : bytes }.
Record GameMoveMessage := mkMove { gm_moves : bytes }.
Record ReconnectMessage := mkReconnect { rc_gameId : Z; rc_playerDpId : Z }.
Record DebugDumpRequestMessage := mkDebugDump { dd_gameId : Z }.
Definition GameInfoMessage_init : GameInfoMessage := mkGameInfo 1500 (str "SHERWOOD").
Definition GamePlayerMessage_init : GamePlayerMessage := mkGamePlayer 1 (str "BILLY_IDOL") [].

Section Messages.
Context `{Qt}.

Definition HelloMessage_set (command : list Variant) : res HelloMessage :=
  _ ← check_ID "Hello" command;
  gameId ← arg command 1; playerDpId ← arg command 2; playerName ← arg command 3;
  Ok (mkHello (toUInt gameId) (toUInt playerDpId) (toString playerName)).
Definition GameInfoMessage_set (command : list Variant) : res GameInfoMessage :=
  _ ← check_ID "GameInfo" command;
  maxUnits ← arg command 1; mapName ← arg command 2;
  Ok (mkGameInfo (u16 (toUInt maxUnits)) (toString mapName)).
Definition GamePlayerMessage_set (command : list Variant) : res GamePlayerMessage :=
  _ ← check_ID "GamePlayer" command;
  side ← arg command 1; name ← arg command 2; statusMessage ← arg command 3;
  Ok (mkGamePlayer (s8 (toInt side)) (toString name) (toByteArray statusMessage)).
Definition GamePlayerNumber_set (command : list Variant) : res GamePlayerNumber :=
  _ ← check_ID "GamePlayerNumber" command;
  dplayId ← arg command 1; number ← arg command 2;
  Ok (mkGamePlayerNumber (toUInt dplayId) (u8 (toUInt number))).
(** the loop over [command[1]], [command[2]], ... *)
Definition GamePlayerLoading_set (command : list Variant) : res GamePlayerLoading :=
  _ ← check_ID "GamePlayerLoading" command; Ok (mkLoading (toUInt <$> drop 1 command)).
Definition GameUnitDataMessage_set (command : list Variant) : res GameUnitDataMessage :=
  _ ← check_ID "UnitData" command; unitData ← arg command 1; Ok (mkUnitDataMessage (toByteArray unitData)).
Definition GameMoveMessage_set (command : list Variant) : res GameMoveMessage :=
  _ ← check_ID "Move" command; moves ← arg command 1; Ok (mkMove (toByteArray moves)).
Definition StopRecordingMessage_set (command : list Variant) : res unit := check_ID "StopRecording" command.
Definition ReconnectMessage_set (command : list Variant) : res ReconnectMessage :=
  _ ← check_ID "Reconnect" command;
  gameId ← arg command 1; playerDpId ← arg command 2; Ok (mkReconnect (toUInt gameId) (toUInt playerDpId)).
Definition DebugDumpRequestMessage_set (command : list Variant) : res DebugDumpRequestMessage :=
  _ ← check_ID "Debug" command; gameId ← arg command 1; Ok (mkDebugDump (toUInt gameId)).
End Messages.

(** ** The messages as they are sent (TaDemoCompilerClient.cpp) *)
Definition sendHello (gameId dplayPlayerId : Z) (playerName : bytes) : bytes :=
  sendCommand (str "Hello") 3 ++ sendArgument_int gameId ++ sendArgument_int dplayPlayerId ++ sendArgument_bytes playerName.
Definition sendReconnect (gameId dplayPlayerId : Z) : bytes :=
  sendCommand (str "Reconnect") 2 ++ sendArgument_int gameId ++ sendArgument_int dplayPlayerId.
Definition sendGameInfo (maxUnits : Z) (mapName : bytes) : bytes :=
  sendCommand (str "GameInfo") 2 ++ sendArgument_int maxUnits ++ sendArgument_bytes mapName.
Definition sendGamePlayer (side : Z) (name statusMessage : bytes) : bytes :=
  sendCommand (str "GamePlayer") 3 ++ sendArgument_int side ++ sendArgument_bytes name ++ sendArgument_bytes statusMessage.
Definition sendGamePlayerNumber (dplayId number : Z) : bytes :=
  sendCommand (str "GamePlayerNumber") 2 ++ sendArgument_int dplayId ++ sendArgument_int number.
(** [lockedInPlayers]: the set in the order in which it is iterated over *)
Definition sendGamePlayerLoading (m_hostDplayId : Z) (lockedInPlayers : list Z) : bytes :=
  sendCommand (str "GamePlayerLoading") (Z.of_nat (length lockedInPlayers)) ++ sendArgument_int m_hostDplayId ++
  concat (sendArgument_int <$> filter (λ dpid, dpid ≠ m_hostDplayId) lockedInPlayers).
Definition sendUnitData (unitData : bytes) : bytes := sendCommand (str "UnitData") 1 ++ sendArgument_bytes unitData.
Definition sendMoves (moves : bytes) : bytes := sendCommand (str "Move") 1 ++ sendArgument_bytes moves.
Definition sendDebugRequest (gameId : Z) : bytes := sendCommand (str "Debug") 1 ++ sendArgument_int gameId.

(** ** A message is read as it was sent *)
Inductive message : Type :=
  | M_Hello (m : HelloMessage)
  | M_Reconnect (m : ReconnectMessage)
  | M_GameInfo (m : GameInfoMessage)
  | M_GamePlayer (m : GamePlayerMessage)
  | M_UnitData (m : GameUnitDataMessage)
  | M_Loading (m : GamePlayerLoading)
  | M_Move (m : GameMoveMessage).
Definition command_of (m : message) : bytes * list Variant :=
  match m with
  | M_Hello m => (str "Hello", [V_uint (he_gameId m); V_uint (he_playerDpId m); V_bytes (he_playerName m)])
  | M_Reconnect m => (str "Reconnect", [V_uint (rc_gameId m); V_uint (rc_playerDpId m)])
  | M_GameInfo m => (str "GameInfo", [V_uint (gi_maxUnits m); V_bytes (gi_mapName m)])
  | M_GamePlayer m => (str "GamePlayer", [v_int (gp_side m); V_bytes (gp_name m); V_bytes (gp_statusMessage m)])
  | M_UnitData m => (str "UnitData", [V_bytes (gu_unitData m)])
  | M_Loading m => (str "GamePlayerLoading", V_uint <$> gl_lockedInPlayers m)
  | M_Move m => (str "Move", [V_bytes (gm_moves m)])
  end.
Definition message_ok (m : message) : Prop :=
  match m with
  | M_Hello m => is_u32 (he_gameId m) ∧ is_u32 (he_playerDpId m) ∧ text (he_playerName m)
  | M_Reconnect m => is_u32 (rc_gameId m) ∧ is_u32 (rc_playerDpId m)
  | M_GameInfo m => is_u16 (gi_maxUnits m) ∧ text (gi_mapName m)
  | M_GamePlayer m => -128 ≤ gp_side m ≤ 127 ∧ text (gp_name m) ∧ short (gp_statusMessage m)
  | M_UnitData m => short (gu_unitData m)
  | M_Loading m => Forall is_u32 (gl_lockedInPlayers m) ∧ Z.of_nat (length (gl_lockedInPlayers m)) ≤ MAX_NUM_ARGS
  | M_Move m => short (gm_moves m)
  end.
Lemma command_of_wf m : message_ok m → command_wf (command_of m).
Proof.
  assert (∀ x, is_u16 x → is_u32 x) as H16 by (unfold is_u16, is_u32; lia).
  destruct m; cbn [message_ok command_of]; intros Hm; (split_and!; [unfold short, MAX_RECORD_SIZE; cbn; lia| |]); cbn [snd].
  all: try (cbn; unfold MAX_NUM_ARGS; lia).
  all: try (by rewrite length_fmap; apply Hm).
  all: try (apply Forall_fmap; apply Hm).
  all: repeat (apply Forall_cons; split); try apply Forall_nil; try done; cbn [arg_wf v_int]; try apply u32_bound.
  all: first [apply text_short; apply Hm | apply Hm | apply H16, Hm].
Qed.
