(* ===== verification/TaDemoCompilerClient.v ===== *)
(** * The client of the demo compiler (TaDemoCompilerClient.cpp)

    A handler of game packets ([TaPacketHandler]) that tells the compiler who the local
    player is and what his game sends.  A write to the stream is dropped when the socket
    is not open, and from then on until [resetStatus], as [QDataStream] does. *)
From S2P Require Import Prelude ExceptState TPacketSplit TPacketSmartpak TPacketRecords TAPacketParser GpgNetParse GpgNetMessages TaDemoCompilerMessages.

Inductive SocketState : Set := UnconnectedState | ConnectingState | ConnectedState.
#[export] Instance SocketState_eq_dec : EqDecision SocketState.
Proof. solve_decision. Defined.

Record TaDemoCompilerClient := mkTaClient {
  m_hasServer : bool;                     (* a host name and a port are set *)
  m_tafGameId : Z;
  m_localPlayerName : bytes; m_hostPlayerName : bytes;
  m_localPlayerDplayId : Z; m_hostDplayId : Z;
  m_ticks : Z;                            (* qint64 *)
  m_dpConnectedPlayers : gset Z;
  m_tcpSocket : SocketState;
  m_datastream_ok : bool;                 (* its status *)
  tc_written : bytes }.                   (* what the stream has taken for the current connection *)
Definition TaDemoCompilerClient_make (hasServer : bool) (tafGameId : Z) : TaDemoCompilerClient :=
  mkTaClient hasServer tafGameId [] [] 0 0 (-1) ∅ ConnectingState true [].

Definition set_names (localName hostName : bytes) (c : TaDemoCompilerClient) : TaDemoCompilerClient :=
  mkTaClient (m_hasServer c) (m_tafGameId c) localName hostName (m_localPlayerDplayId c) (m_hostDplayId c) (m_ticks c)
    (m_dpConnectedPlayers c) (m_tcpSocket c) (m_datastream_ok c) (tc_written c).
Definition set_ids (local host : Z) (players : gset Z) (c : TaDemoCompilerClient) : TaDemoCompilerClient :=
  mkTaClient (m_hasServer c) (m_tafGameId c) (m_localPlayerName c) (m_hostPlayerName c) local host (m_ticks c)
    players (m_tcpSocket c) (m_datastream_ok c) (tc_written c).
Definition set_ticks (ticks : Z) (c : TaDemoCompilerClient) : TaDemoCompilerClient :=
  mkTaClient (m_hasServer c) (m_tafGameId c) (m_localPlayerName c) (m_hostPlayerName c) (m_localPlayerDplayId c)
    (m_hostDplayId c) ticks (m_dpConnectedPlayers c) (m_tcpSocket c) (m_datastream_ok c) (tc_written c).
Definition set_socket (s : SocketState) (ok : bool) (written : bytes) (c : TaDemoCompilerClient) : TaDemoCompilerClient :=
  mkTaClient (m_hasServer c) (m_tafGameId c) (m_localPlayerName c) (m_hostPlayerName c) (m_localPlayerDplayId c)
    (m_hostDplayId c) (m_ticks c) (m_dpConnectedPlayers c) s ok written.
Definition setHostPlayerName (name : bytes) (c : TaDemoCompilerClient) : TaDemoCompilerClient := set_names (m_localPlayerName c) name c.
Definition setLocalPlayerName (name : bytes) (c : TaDemoCompilerClient) : TaDemoCompilerClient := set_names name (m_hostPlayerName c) c.

(** [m_datastream << ...] *)
Definition write (b : bytes) (c : TaDemoCompilerClient) : TaDemoCompilerClient :=
  if negb (m_datastream_ok c) then c
  else if decide (m_tcpSocket c = UnconnectedState) then set_socket (m_tcpSocket c) false (tc_written c) c
  else set_socket (m_tcpSocket c) true (tc_written c ++ b) c.
(** [connectToHost]: a new connection *)
Definition timerEvent (c : TaDemoCompilerClient) : TaDemoCompilerClient :=
  if bool_decide (m_tcpSocket c = UnconnectedState) && m_hasServer c then set_socket ConnectingState (m_datastream_ok c) [] c else c.
Definition onSocketStateChanged (socketState : SocketState) (c : TaDemoCompilerClient) : TaDemoCompilerClient :=
  let c := set_socket socketState (m_datastream_ok c) (tc_written c) c in
  match socketState with
  | ConnectedState =>
      let c := set_socket socketState true (tc_written c) c in
      if (0 <? m_tafGameId c) && (0 <? m_localPlayerDplayId c)
      then write (sendReconnect (m_tafGameId c) (m_localPlayerDplayId c)) c else c
  | _ => c
  end.

Abbreviation tc := (stx TaDemoCompilerClient).

Section Client.
Context `{Qt}.
(** [order]: the order in which a [QSet] is iterated over *)
Context (order : gset Z → list Z).

Definition onPlayer (dplayId : Z) (name : bytes) : tc unit :=
  if (0 <? dplayId) && negb (bool_decide (name = [])) then
    modify (λ c, set_ids (m_localPlayerDplayId c) (m_hostDplayId c) ({[dplayId]} ∪ m_dpConnectedPlayers c) c) ≫= λ _,
    c ← gets id;
    if bool_decide (m_hostPlayerName c = []) then lift (Throw RuntimeError)
    else
      when (bool_decide (fromUtf8 name = m_hostPlayerName c))
        (modify (λ c, set_ids (m_localPlayerDplayId c) dplayId (m_dpConnectedPlayers c) c)) ≫= λ _,
      if bool_decide (m_localPlayerName c = []) then lift (Throw RuntimeError)
      else
        when (bool_decide (fromUtf8 name = m_localPlayerName c) && negb (dplayId =? m_localPlayerDplayId c))
          (modify (λ c, write (sendHello (m_tafGameId c) dplayId (m_localPlayerName c))
                          (set_ids dplayId (m_hostDplayId c) (m_dpConnectedPlayers c) c)))
  else mret tt.
Definition onDplaySuperEnumPlayerReply (dplayId : Z) (name : bytes) : tc unit := onPlayer dplayId name.
(** the same code, but for the log *)
Definition onDplayCreateOrForwardPlayer (command dplayId : Z) (name : bytes) : tc unit := onPlayer dplayId name.
Definition onDplayDeletePlayer (dplayId : Z) : tc unit :=
  modify (λ c, set_ids (if dplayId =? m_localPlayerDplayId c then 0 else m_localPlayerDplayId c) (m_hostDplayId c)
                 (m_dpConnectedPlayers c ∖ {[dplayId]}) c).

(** the [switch]; [junk] is the byte that a short [PLAYER_INFO_20] leaves uninitialised *)
Definition report (junk sourceDplayId : Z) (s : bytes) : tc unit :=
  code ← lift (rd8 s 0);
  match SubPacketCode_of code with
  | Some PLAYER_INFO_20 =>
      playerInfo ← lift (TPlayerInfo_parse junk s);
      when (getSlotNumber playerInfo <? 10)
        (c ← gets id;
         when (sourceDplayId =? m_hostDplayId c)
           (mapName ← lift (getMapName playerInfo);
            modify (write (sendGameInfo (pi_maxUnits playerInfo) (fromUtf8 mapName)))) ≫= λ _,
         let side := if isWatcher playerInfo then 2 else getSide playerInfo in
         modify (λ c, write (sendGamePlayer side (m_localPlayerName c) s) c))
  | Some UNIT_DATA_1A =>
      ud ← lift (TUnitData_parse s);
      when ((ud_sub ud =? 2) || (ud_sub ud =? 3)) (modify (write (sendUnitData s)))
  | Some LOADING_STARTED_08 =>
      modify (λ c, write (sendGamePlayerLoading (m_hostDplayId c) (order (m_dpConnectedPlayers c))) c)
  | Some LOADING_PROGRESS_2A => p ← lift (rd8 s 1); when (p =? 100) (modify (set_ticks 0))
  | Some UNIT_STAT_AND_MOVE_2C => tick ← lift (rd32 s 3); modify (set_ticks tick)
  | _ => mret tt
  end.
(** what is appended to [filteredMoves] *)
Definition filtered (m_first : bool) (s : bytes) : res (bool * bytes) :=
  code ← rd8 s 0;
  if code =? code_byte UNIT_STAT_AND_MOVE_2C then Ok (smartPak m_first s) else Ok (m_first, s).
Fixpoint report_all (junk sourceDplayId : Z) (m_first : bool) (filteredMoves : bytes) (subpaks : list bytes) : tc bytes :=
  match subpaks with
  | [] => mret filteredMoves
  | s :: subpaks =>
      report junk sourceDplayId s ≫= λ _,
      p ← lift (filtered m_first s);
      report_all junk sourceDplayId p.1 (filteredMoves ++ p.2) subpaks
  end.
Definition onTaPacket (junk sourceDplayId : Z) (isLocalSource : bool) (subpaks : list bytes) : tc unit :=
  if negb isLocalSource then mret tt
  else
    filteredMoves ← report_all junk sourceDplayId true [3] subpaks;
    c ← gets id;
    when (0 <=? m_ticks c) (modify (write (sendMoves filteredMoves))).

(** the calls of the parser *)
Definition on_event (junk : Z) (e : event) : tc unit :=
  match e with
  | TAPacketParser.onDplaySuperEnumPlayerReply dplayId name _ _ => onDplaySuperEnumPlayerReply dplayId name
  | TAPacketParser.onDplayCreateOrForwardPlayer command dplayId name _ _ => onDplayCreateOrForwardPlayer command dplayId name
  | TAPacketParser.onDplayDeletePlayer dplayId => onDplayDeletePlayer dplayId
  | TAPacketParser.onTaPacket source _ isLocalSource _ subpaks => onTaPacket junk source isLocalSource subpaks
  end.
End Client.
