(* ===== verification/TaDemoCompiler.v ===== *)
(** * The demo compiler (TaDemoCompiler.cpp)

    A server to which the players of a game connect; what they report is written into one
    demo file per game.  The [UserContext] of a connection is shared between the table of
    connections and the games in which its player takes part: both hold numbers of
    objects in a store.  Files, and what is written to sockets, are a log of effects;
    [gc_demo] is what has been written through the stream of a game. *)
From S2P Require Import Prelude ExceptState OrderedMaps TPacketCrypt TPacketCompress TPacketSplit TPacketSmartpak TPacketRecords UnitDataRepo.
From S2P Require Import TADemoRecords Resumable GpgNetParse GpgNetStream GpgNetMessages TaDemoCompilerMessages.

Inductive NoUserContextOption : Set := IGNORE | CLOSE_CONNECTION | ABORT_CONNECTION | DISCONNECT_FROM_HOST.
Definition GAME_EXPIRY_TICKS : Z := 3600.

Record UserContext := mkUser {
  uc_gameId : Z; uc_playerDpId : Z; uc_playerName : bytes;
  uc_socket : Z;                          (* the device of [dataStream] *)
  uc_gpgNetParser : GpgNetParse.GpgNetParse;
  uc_gamePlayerInfo : GamePlayerMessage; uc_gamePlayerNumber : Z }.
Definition UserContext_make (socket : Z) : UserContext := mkUser 0 0 [] socket GpgNetParse_init GamePlayerMessage_init 0.
Definition uc_identify (gameId playerDpId : Z) (playerName : bytes) (u : UserContext) : UserContext :=
  mkUser gameId playerDpId playerName (uc_socket u) (uc_gpgNetParser u) (uc_gamePlayerInfo u) (uc_gamePlayerNumber u).
Definition uc_set_info (info : GamePlayerMessage) (u : UserContext) : UserContext :=
  mkUser (uc_gameId u) (uc_playerDpId u) (uc_playerName u) (uc_socket u) (uc_gpgNetParser u) info (uc_gamePlayerNumber u).
Definition uc_set_number (number : Z) (u : UserContext) : UserContext :=
  mkUser (uc_gameId u) (uc_playerDpId u) (uc_playerName u) (uc_socket u) (uc_gpgNetParser u) (uc_gamePlayerInfo u) number.
Definition uc_set_parser (p : GpgNetParse.GpgNetParse) (u : UserContext) : UserContext :=
  mkUser (uc_gameId u) (uc_playerDpId u) (uc_playerName u) (uc_socket u) p (uc_gamePlayerInfo u) (uc_gamePlayerNumber u).

Record GameContext := mkGame {
  gc_gameId : Z; gc_header : GameInfoMessage;
  gc_players : gmap Z nat;                (* by DirectPlay id, objects *)
  gc_playersLockedIn : list Z;
  gc_unitData : UnitDataRepo;
  gc_timer : option Z;                    (* when it was (re)started, in ms *)
  gc_demo : option bytes;                 (* [demoCompilation]: what was written to it *)
  gc_tempFileName : bytes; gc_finalFileName : bytes;
  gc_expiryCountdown : Z }.
Definition GameContext_init : GameContext := mkGame 0 GameInfoMessage_init ∅ [] ∅ None None [] [] GAME_EXPIRY_TICKS.
Definition gc_set_info (gameId : Z) (header : GameInfoMessage) (g : GameContext) : GameContext :=
  mkGame gameId header (gc_players g) (gc_playersLockedIn g) (gc_unitData g) (gc_timer g) (gc_demo g)
    (gc_tempFileName g) (gc_finalFileName g) (gc_expiryCountdown g).
Definition gc_set_players (players : gmap Z nat) (g : GameContext) : GameContext :=
  mkGame (gc_gameId g) (gc_header g) players (gc_playersLockedIn g) (gc_unitData g) (gc_timer g) (gc_demo g)
    (gc_tempFileName g) (gc_finalFileName g) (gc_expiryCountdown g).
Definition gc_set_loading (lockedIn : list Z) (temp final : bytes) (g : GameContext) : GameContext :=
  mkGame (gc_gameId g) (gc_header g) (gc_players g) lockedIn (gc_unitData g) (gc_timer g) (gc_demo g)
    temp final (gc_expiryCountdown g).
Definition gc_set_unitData (unitData : UnitDataRepo) (g : GameContext) : GameContext :=
  mkGame (gc_gameId g) (gc_header g) (gc_players g) (gc_playersLockedIn g) unitData (gc_timer g) (gc_demo g)
    (gc_tempFileName g) (gc_finalFileName g) (gc_expiryCountdown g).
Definition gc_set_demo (timer : option Z) (demo : option bytes) (g : GameContext) : GameContext :=
  mkGame (gc_gameId g) (gc_header g) (gc_players g) (gc_playersLockedIn g) (gc_unitData g) timer demo
    (gc_tempFileName g) (gc_finalFileName g) (gc_expiryCountdown g).
Definition gc_set_expiry (expiry : Z) (g : GameContext) : GameContext :=
  mkGame (gc_gameId g) (gc_header g) (gc_players g) (gc_playersLockedIn g) (gc_unitData g) (gc_timer g) (gc_demo g)
    (gc_tempFileName g) (gc_finalFileName g) expiry.
Definition refresh : GameContext → GameContext := gc_set_expiry GAME_EXPIRY_TICKS.

(** what goes into the .json file next to a demo *)
Record Meta := mkMeta {
  mt_gameId : Z; mt_unitsHash : bytes; mt_taVersionMajor : Z; mt_taVersionMinor : Z;
  mt_cheatsEnabled : bool; mt_permLosByte : Z; mt_mapName : bytes; mt_taMapHash : Z;
  mt_players : list (bytes * Z * Z) }.    (* name, side, number *)
Inductive effect : Type :=
  | F_open (name : bytes)
  | F_meta (name : bytes) (meta : Meta)
  | F_rename (from to : bytes)
  | F_remove (name : bytes)
  | Sent (socket : Z) (data : bytes)
  | Closing (socket : Z) (how : NoUserContextOption).

Record TaDemoCompiler := mkCompiler {
  objects : gmap nat UserContext; next_object : nat;
  sockets : gset Z;                       (* the sockets that have not been deleted *)
  m_players : gmap Z nat;                 (* by socket *)
  m_games : gmap Z GameContext;
  m_timerCounter : Z;
  effects : list effect }.
Definition TaDemoCompiler_make : TaDemoCompiler := mkCompiler ∅ 0 ∅ ∅ ∅ 0 [].
Definition set_objects (o : gmap nat UserContext) (d : TaDemoCompiler) : TaDemoCompiler :=
  mkCompiler o (next_object d) (sockets d) (m_players d) (m_games d) (m_timerCounter d) (effects d).
Definition set_games (games : gmap Z GameContext) (d : TaDemoCompiler) : TaDemoCompiler :=
  mkCompiler (objects d) (next_object d) (sockets d) (m_players d) games (m_timerCounter d) (effects d).
Definition log_effect (e : effect) (d : TaDemoCompiler) : TaDemoCompiler :=
  mkCompiler (objects d) (next_object d) (sockets d) (m_players d) (m_games d) (m_timerCounter d) (effects d ++ [e]).
Definition set_game (k : Z) (g : GameContext) (d : TaDemoCompiler) : TaDemoCompiler := set_games (<[k := g]> (m_games d)) d.
Definition update_object (o : nat) (f : UserContext → UserContext) (d : TaDemoCompiler) : TaDemoCompiler :=
  set_objects (alter f o (objects d)) d.

(** what is decided outside: the clock in ms, today's date, what uninitialised memory
    holds, and whether a connection that is being closed has nothing left to write, so
    that it is disconnected at once *)
Record Env := mkEnv { e_now : Z; e_date : bytes; e_junk : Z; e_hash : Z; e_closes : bool }.

(** the state of a turn of [onReadyRead]: the compiler, the local [committedMoves], and
    whether the socket has been closed *)
Record Turn := mkTurn { tn_compiler : TaDemoCompiler; tn_committedMoves : bool; tn_closed : bool }.
Abbreviation td := (stx Turn).
Definition on_compiler (f : TaDemoCompiler → TaDemoCompiler) : td unit :=
  modify (λ t, mkTurn (f (tn_compiler t)) (tn_committedMoves t) (tn_closed t)).
Definition compiler : td TaDemoCompiler := gets tn_compiler.

Section Compiler.
Context `{Qt}.
(** the file name that the template gives for a game, [m_minDemoSize],
    [m_noUserContextOption], VERSION, the MD5 of Qt in hexadecimal, and the address of
    the peer of a socket *)
Context (demoPath : Z → bytes) (m_minDemoSize : Z) (m_noUserContextOption : NoUserContextOption)
  (VERSION : bytes) (md5 : bytes → bytes) (peerAddress : Z → bytes).

(** the stream keeps pointing to its socket when that has been deleted *)
Definition ipAddr (d : TaDemoCompiler) (u : UserContext) : res bytes :=
  if bool_decide (uc_socket u ∈ sockets d) then Ok (peerAddress (uc_socket u)) else Undef.
Definition getUnitDataHash (g : GameContext) : res bytes :=
  calls ← hash (gc_unitData g); Ok (md5 (concat (le4 <$> calls))).

Definition accept (socket : Z) (d : TaDemoCompiler) : TaDemoCompiler :=
  mkCompiler (<[next_object d := UserContext_make socket]> (objects d)) (S (next_object d)) ({[socket]} ∪ sockets d)
    (<[socket := next_object d]> (m_players d)) (m_games d) (m_timerCounter d) (effects d).
Definition onNewConnection (pending : list Z) (d : TaDemoCompiler) : TaDemoCompiler := foldl (λ d s, accept s d) d pending.
(** [UnconnectedState]; [deleteLater] *)
Definition onDisconnected (socket : Z) (d : TaDemoCompiler) : TaDemoCompiler :=
  mkCompiler (objects d) (next_object d) (sockets d ∖ {[socket]}) (delete socket (m_players d)) (m_games d)
    (m_timerCounter d) (effects d).

(** ** Writing a demo *)

Definition player_of (d : TaDemoCompiler) (g : GameContext) (dpid : Z) : option UserContext :=
  gc_players g !! dpid ≫= λ o, objects d !! o.
Definition knownLockedIn (g : GameContext) : list Z :=
  filter (λ dpid, is_Some (gc_players g !! dpid)) (gc_playersLockedIn g).
(** [game.players[dpid]->gamePlayerNumber = numPlayer + 1] for one after the other *)
Fixpoint number_players (n : Z) (g : GameContext) (dpids : list Z) (d : TaDemoCompiler) : TaDemoCompiler :=
  match dpids with
  | [] => d
  | dpid :: dpids =>
      number_players (n + 1) g dpids
        (match gc_players g !! dpid with Some o => update_object o (uc_set_number n) d | None => d end)
  end.
(** the body of a loop [for (dpid : knownLockedInPlayers)] *)
Fixpoint for_players {A} (d : TaDemoCompiler) (g : GameContext) (f : UserContext → res A) (dpids : list Z) : res (list A) :=
  match dpids with
  | [] => Ok []
  | dpid :: dpids =>
      match player_of d g dpid with
      | Some u => a ← f u; l ← for_players d g f dpids; Ok (a :: l)
      | None => for_players d g f dpids
      end
  end.
Definition address_sector (d : TaDemoCompiler) (u : UserContext) : res bytes :=
  addr ← ipAddr d u;
  write_ExtraSector (mkExtraSector 6 (replicate 80 0 ++ map (λ x, Z.lxor x 42) (addr ++ [0]))).
Definition player_record (u : UserContext) : res bytes :=
  write_Player (mkPlayer (u8 (uc_gamePlayerNumber u)) (gp_side (uc_gamePlayerInfo u)) (u8 (uc_gamePlayerNumber u))
    (gp_name (uc_gamePlayerInfo u))).
Definition pack_status (statusMessage : bytes) : bytes := encrypt (compress (trivialSmartpak statusMessage 4294967295)).
Definition status_record (env : Env) (mapName : bytes) (u : UserContext) : res (bytes * option TPlayerInfo) :=
  let status := gp_statusMessage (uc_gamePlayerInfo u) in
  playerInfo ← TPlayerInfo_parse (e_junk env) status;
  itsMap ← getMapName playerInfo;
  w ← write_PlayerStatusMessage (mkPlayerStatusMessage (u8 (uc_gamePlayerNumber u)) (pack_status status));
  Ok (w, if bool_decide (itsMap = mapName) then Some playerInfo else None).
(** the last player whose map is the one of the game *)
Definition on_map (l : list (bytes * option TPlayerInfo)) : option TPlayerInfo :=
  foldl (λ i p, match p.2 with Some j => Some j | None => i end) None l.

Definition demo_headers (env : Env) (d : TaDemoCompiler) (g : GameContext) (known : list Z) : res (bytes * option TPlayerInfo) :=
  let numPlayers := u8 (Z.of_nat (length known)) in
  let mapName := gi_mapName (gc_header g) in
  header ← write_Header (mkHeader TA_Demo 5 numPlayers (gi_maxUnits (gc_header g)) mapName);
  extra ← write_ExtraHeader (mkExtraHeader (2 + numPlayers));
  version ← write_ExtraSector (mkExtraSector 3 VERSION);
  date ← write_ExtraSector (mkExtraSector 4 (e_date env));
  addresses ← for_players d g (address_sector d) known;
  players ← for_players d g player_record known;
  statuses ← for_players d g (status_record env mapName) known;
  units ← write_UnitData (mkUnitData (concat (in_order (gc_unitData g)).*2));
  Ok (header ++ extra ++ version ++ date ++ concat addresses ++ concat players ++ concat statuses.*1 ++ units, on_map statuses).
Definition demo_meta (env : Env) (d : TaDemoCompiler) (g : GameContext) (known : list Z) (info : option TPlayerInfo) : res Meta :=
  unitsHash ← getUnitDataHash g;
  taMapHash ← (match info with Some i => getMapHash i | None => Ok (e_hash env) end);
  players ← for_players d g (λ u, Ok (gp_name (uc_gamePlayerInfo u), gp_side (uc_gamePlayerInfo u), uc_gamePlayerNumber u)) known;
  Ok (mkMeta (s32 (gc_gameId g)) unitsHash (from_option pi_versionMajor 0 info) (from_option pi_versionMinor 0 info)
    (from_option isCheatsEnabled false info) (from_option getPermLosByte 0 info) (c_str (gi_mapName (gc_header g))) taMapHash players).

(** the stream, when it was made *)
Definition commitHeaders (env : Env) (game : GameContext) (filename : bytes) : td (option bytes) :=
  let known := knownLockedIn game in
  if negb (length known =? length (gc_playersLockedIn game))%nat then mret None
  else
    on_compiler (number_players 1 game known) ≫= λ _,
    on_compiler (log_effect (F_open filename)) ≫= λ _,
    d ← compiler;
    h ← lift (demo_headers env d game known);
    meta ← lift (demo_meta env d game known h.2);
    on_compiler (log_effect (F_meta (filename ++ str ".json") meta)) ≫= λ _,
    mret (Some h.1).

Definition commitMove (env : Env) (gameId : Z) (game : GameContext) (playerNumber : Z) (moves : GameMoveMessage) : td unit :=
  let started := default (e_now env) (gc_timer game) in
  on_compiler (set_game gameId (gc_set_demo (Some (e_now env)) (gc_demo game) game)) ≫= λ _,
  w ← lift (write_Packet (mkPacket (u16 (e_now env - started)) (u8 playerNumber) (gm_moves moves)));
  on_compiler (set_game gameId (gc_set_demo (Some (e_now env)) ((λ b, b ++ w) <$> gc_demo game) game)).

(** ** Commands *)

(** an immediate disconnection removes the entry of the connection from [m_players],
    which the loop then reads through its iterator *)
Definition handleBadConnection (env : Env) (socket : Z) : td unit :=
  match m_noUserContextOption with
  | CLOSE_CONNECTION =>
      if e_closes env then lift Undef
      else modify (λ t, mkTurn (log_effect (Closing socket CLOSE_CONNECTION) (tn_compiler t)) (tn_committedMoves t) true)
  | ABORT_CONNECTION => lift Undef
  | DISCONNECT_FROM_HOST =>
      if e_closes env then lift Undef else on_compiler (log_effect (Closing socket DISCONNECT_FROM_HOST))
  | IGNORE => mret tt
  end.

(** [m_games[gameId].players[dpid] = m_players[sender]] *)
Definition enter_game (gameId dpid : Z) (o : nat) (d : TaDemoCompiler) : TaDemoCompiler :=
  let g := at_key GameContext_init (m_games d) gameId in
  set_game gameId (gc_set_players (<[dpid := o]> (gc_players g)) g) d.

Definition on_Hello (o : nat) (command : list Variant) : td unit :=
  msg ← lift (HelloMessage_set command);
  on_compiler (update_object o (uc_identify (he_gameId msg) (he_playerDpId msg) (he_playerName msg))) ≫= λ _,
  on_compiler (enter_game (he_gameId msg) (he_playerDpId msg) o).
Definition on_Reconnect (socket : Z) (o : nat) (command : list Variant) : td unit :=
  msg ← lift (ReconnectMessage_set command);
  d ← compiler;
  (match m_games d !! rc_gameId msg ≫= λ g, player_of d g (rc_playerDpId msg) with
   | Some oldContext =>
       on_compiler (update_object o (λ u, uc_set_number (uc_gamePlayerNumber oldContext)
         (uc_set_info (uc_gamePlayerInfo oldContext)
           (uc_identify (rc_gameId msg) (rc_playerDpId msg) (uc_playerName oldContext) u))))
   | None => on_compiler (update_object o (uc_identify (rc_gameId msg) (rc_playerDpId msg) (peerAddress socket)))
   end) ≫= λ _,
  on_compiler (enter_game (rc_gameId msg) (rc_playerDpId msg) o).
Definition on_Move (env : Env) (user : UserContext) (command : list Variant) : td unit :=
  d ← compiler;
  match m_games d !! uc_gameId user with
  | Some game =>
      match gc_players game !! uc_playerDpId user with
      | Some _ =>
          on_compiler (set_game (uc_gameId user) (refresh game)) ≫= λ _,
          match gc_demo game with
          | Some _ =>
              moves ← lift (GameMoveMessage_set command);
              commitMove env (uc_gameId user) (refresh game) (uc_gamePlayerNumber user) moves ≫= λ _,
              modify (λ t, mkTurn (tn_compiler t) true (tn_closed t))
          | None => mret tt
          end
      | None => mret tt
      end
  | None => mret tt
  end.
Definition on_GameInfo (user : UserContext) (command : list Variant) : td unit :=
  on_compiler (λ d, set_game (uc_gameId user)
    (refresh (gc_set_info (uc_gameId user) (gc_header (at_key GameContext_init (m_games d) (uc_gameId user)))
      (at_key GameContext_init (m_games d) (uc_gameId user)))) d) ≫= λ _,
  msg ← lift (GameInfoMessage_set command);
  on_compiler (λ d, set_game (uc_gameId user)
    (gc_set_info (uc_gameId user) msg (at_key GameContext_init (m_games d) (uc_gameId user))) d).
(** the information goes to the context that is registered for the player *)
Definition on_GamePlayer (env : Env) (socket : Z) (user : UserContext) (command : list Variant) : td unit :=
  gpm ← lift (GamePlayerMessage_set command);
  d ← compiler;
  match m_games d !! uc_gameId user with
  | Some game =>
      match gc_players game !! uc_playerDpId user with
      | Some o =>
          on_compiler (set_game (uc_gameId user) (refresh game)) ≫= λ _,
          on_compiler (update_object o (uc_set_info gpm))
      | None =>
          _ ← lift (TPlayerInfo_parse (e_junk env) (gp_statusMessage gpm));
          handleBadConnection env socket
      end
  | None => mret tt
  end.
Definition on_UnitData (user : UserContext) (command : list Variant) : td unit :=
  d ← compiler;
  match m_games d !! uc_gameId user with
  | Some game =>
      msg ← lift (GameUnitDataMessage_set command);
      unitData ← lift (UnitDataRepo.add (gu_unitData msg) (gc_unitData game));
      on_compiler (set_game (uc_gameId user) (refresh (gc_set_unitData unitData game)))
  | None => mret tt
  end.
Definition on_Loading (env : Env) (user : UserContext) (command : list Variant) : td unit :=
  msg ← lift (GamePlayerLoading_set command);
  d ← compiler;
  match m_games d !! uc_gameId user with
  | Some game =>
      match gc_demo game with
      | Some _ => mret tt
      | None =>
          let final := demoPath (gc_gameId game) in
          let game := gc_set_loading (gl_lockedInPlayers msg) (final ++ str ".part") final game in
          on_compiler (set_game (uc_gameId user) game) ≫= λ _,
          demo ← commitHeaders env game (gc_tempFileName game);
          on_compiler (set_game (uc_gameId user) (gc_set_demo (gc_timer game) demo game))
      end
  | None => mret tt
  end.
(** only the log; a [TUnitData] is made of the bytes before the first zero *)
Fixpoint dump_units (units : list bytes) : res unit :=
  match units with [] => Ok tt | bs :: units => _ ← TUnitData_parse (c_str bs); dump_units units end.
Fixpoint dump_games (id : Z) (games : list GameContext) : res unit :=
  match games with
  | [] => Ok tt
  | g :: games =>
      _ ← (if (gc_gameId g =? id) || (id =? 0)
           then _ ← dump_units (in_order (gc_unitData g)).*2; _ ← getUnitDataHash g; Ok tt else Ok tt);
      dump_games id games
  end.
Definition games_in_order (d : TaDemoCompiler) : list GameContext := omap (λ k, m_games d !! k) (sorted_keys (m_games d)).
Fixpoint dump_players (d : TaDemoCompiler) (players : list nat) : res unit :=
  match players with
  | [] => Ok tt
  | o :: players => match objects d !! o with Some u => _ ← ipAddr d u; dump_players d players | None => Undef end
  end.
Definition on_Debug (command : list Variant) : td unit :=
  msg ← lift (DebugDumpRequestMessage_set command);
  d ← compiler;
  _ ← lift (dump_players d (map_to_list (m_players d)).*2);
  lift (dump_games (dd_gameId msg) (games_in_order d)).

(** one command of the connection [socket], whose context is the object [o] *)
Definition on_command (env : Env) (socket : Z) (o : nat) (command : list Variant) : td unit :=
  v ← lift (arg command 0);
  let cmd := toString v in
  if bool_decide (cmd = str "Hello") then on_Hello o command
  else if bool_decide (cmd = str "Reconnect") then on_Reconnect socket o command
  else
    d ← compiler;
    match objects d !! o with
    | None => lift Undef
    | Some user =>
        if (uc_gameId user =? 0) || (uc_playerDpId user =? 0) then handleBadConnection env socket
        else if bool_decide (cmd = str "Move") then on_Move env user command
        else if bool_decide (cmd = str "GameInfo") then on_GameInfo user command
        else if bool_decide (cmd = str "GamePlayer") then on_GamePlayer env socket user command
        else if bool_decide (cmd = str "UnitData") then on_UnitData user command
        else if bool_decide (cmd = str "GamePlayerLoading") then on_Loading env user command
        else if bool_decide (cmd = str "Debug") then on_Debug command
        else mret tt
    end.

(** [while (!dataStream->atEnd())]; a closed socket is at its end *)
Fixpoint read_loop (env : Env) (socket : Z) (o : nat) (fuel : nat) (p : GpgNetParse.GpgNetParse) (t : Turn) (inp : bytes)
    : res unit * GpgNetParse.GpgNetParse * Turn :=
  match fuel with
  | O => (Hang, p, t)
  | S fuel =>
      match inp with
      | [] => (Ok tt, p, t)
      | _ =>
          if tn_closed t then (Ok tt, p, t)
          else
            match GetCommand p inp with
            | (Ok c, p, inp) =>
                match on_command env socket o c t with
                | (Ok _, t) => read_loop env socket o fuel p t inp
                | (e, t) => (e, p, t)
                end
            | (Throw e, p, inp) => (Throw e, p, t)
            | (Undef, p, inp) => (Undef, p, t)
            | (Hang, p, inp) => (Hang, p, t)
            end
      end
  end.
(** [m_games[userContext.gameId].demoCompilation->flush()] *)
Definition flush_moves (o : nat) (t : Turn) : res TaDemoCompiler :=
  let d := tn_compiler t in
  if tn_committedMoves t then
    match objects d !! o with
    | Some u =>
        match gc_demo (at_key GameContext_init (m_games d) (uc_gameId u)) with
        | Some _ => Ok (set_games (touch GameContext_init (uc_gameId u) (m_games d)) d)
        | None => Undef
        end
    | None => Undef
    end
  else Ok d.
(** [sender->close()] after an exception *)
Definition close_connection (env : Env) (socket : Z) (d : TaDemoCompiler) : TaDemoCompiler :=
  let d := log_effect (Closing socket CLOSE_CONNECTION) d in if e_closes env then onDisconnected socket d else d.
(** [arrived]: what the socket has received and nobody has read *)
Definition onReadyRead (env : Env) (socket : Z) (arrived : bytes) (d : TaDemoCompiler) : res TaDemoCompiler :=
  match m_players d !! socket with
  | None => Ok (close_connection env socket d)
  | Some o =>
      match objects d !! o with
      | None => Undef
      | Some u =>
          let '(x, p, t) := read_loop env socket o (S (length arrived)) (uc_gpgNetParser u) (mkTurn d false false) arrived in
          let t := mkTurn (update_object o (uc_set_parser p) (tn_compiler t)) (tn_committedMoves t) (tn_closed t) in
          match x with
          | Ok _ => flush_moves o t
          | Throw DataNotReady => Ok (tn_compiler t)
          | Throw _ => Ok (close_connection env socket (tn_compiler t))
          | Undef => Undef
          | Hang => Hang
          end
      end
  end.

(** ** The timer *)

Definition count_down (d : TaDemoCompiler) : TaDemoCompiler :=
  set_games ((λ g, gc_set_expiry (gc_expiryCountdown g - 1) g) <$> m_games d) d.
Definition expiredGameIds (d : TaDemoCompiler) : list Z :=
  gc_gameId <$> filter (λ g, gc_expiryCountdown g ≤ 0) (games_in_order d).
(** [m_games[gameid]] makes a game that is not there *)
Definition close_game (d : TaDemoCompiler) (gameid : Z) : TaDemoCompiler :=
  let game := at_key GameContext_init (m_games d) gameid in
  let d := match gc_demo game with
           | Some demo =>
               if m_minDemoSize <=? Z.of_nat (length demo)
               then log_effect (F_rename (gc_tempFileName game) (gc_finalFileName game)) d
               else log_effect (F_remove (gc_tempFileName game)) d
           | None => d
           end in
  set_games (delete gameid (m_games d)) d.
Definition closeExpiredGames (d : TaDemoCompiler) : TaDemoCompiler :=
  let d := count_down d in foldl close_game d (expiredGameIds d).
(** the connections in the order of the addresses of their sockets *)
Definition pingUsers (d : TaDemoCompiler) : TaDemoCompiler :=
  foldl (λ d s, log_effect (Sent s (sendCommand (str "Ping") 0)) d) d (sorted_keys (m_players d)).
Definition timerEvent (d : TaDemoCompiler) : TaDemoCompiler :=
  let d := mkCompiler (objects d) (next_object d) (sockets d) (m_players d) (m_games d) (u32 (m_timerCounter d + 1)) (effects d) in
  closeExpiredGames (if m_timerCounter d mod 60 =? 0 then pingUsers d else d).

(** a write to a socket that has been deleted is undefined *)
Fixpoint send_all (users : list nat) (d : TaDemoCompiler) : res TaDemoCompiler :=
  match users with
  | [] => Ok d
  | o :: users =>
      match objects d !! o with
      | Some u => if bool_decide (uc_socket u ∈ sockets d)
                  then send_all users (log_effect (Sent (uc_socket u) (sendCommand (str "StopRecording") 0)) d) else Undef
      | None => Undef
      end
  end.
Definition sendStopRecordingToAllInGame (gameId : Z) (d : TaDemoCompiler) : res TaDemoCompiler :=
  match m_games d !! gameId with
  | Some g => send_all (omap (λ k, gc_players g !! k) (sorted_keys (gc_players g))) d
  | None => Ok d
  end.
End Compiler.
