(* ===== verification/TaDemoCompilerFacts.v ===== *)
(** * What the demo compiler writes

    A game whose players have all registered is compiled into a demo that [DemoParser]
    reads; the moves of its players are appended to it in the order in which they arrive. *)
From S2P Require Import Prelude ExceptState OrderedMaps TPacketCrypt TPacketCompress TPacketSplit TPacketSmartpak TPacketRecords UnitDataRepo.
From S2P Require Import Resumable TADemoRecords TADemoParser TADemoRoundTrip GpgNetParse GpgNetStream GpgNetMessages TaDemoCompilerMessages TaDemoCompiler.

(** a player: his DirectPlay id, his connection and the object with his context *)
Record member := mkMember { mb_dpid : Z; mb_socket : Z; mb_object : nat }.
(** the context [u], up to the parser of the connection *)
Definition member_ok (d : TaDemoCompiler) (gid : Z) (players : gmap Z nat) (m : member) (u : UserContext) : Prop :=
  players !! mb_dpid m = Some (mb_object m) ∧ m_players d !! mb_socket m = Some (mb_object m) ∧ mb_socket m ∈ sockets d ∧
  (∃ p, objects d !! mb_object m = Some (uc_set_parser p u)) ∧
  uc_gameId u = gid ∧ uc_playerDpId u = mb_dpid m ∧ uc_socket u = mb_socket m ∧ mb_dpid m ≠ 0.
(** the players [ms] have joined the game [gid], and [us] are their contexts *)
Definition registered (d : TaDemoCompiler) (gid : Z) (game : GameContext) (ms : list member) (us : list UserContext) : Prop :=
  gid ≠ 0 ∧ m_games d !! gid = Some game ∧ NoDup (mb_object <$> ms) ∧
  Forall2 (member_ok d gid (gc_players game)) ms us ∧ Forall2 (λ m u, objects d !! mb_object m = Some u) ms us.

Definition number_from (n : Z) (us : list UserContext) : list UserContext := imap (λ i u, uc_set_number (n + Z.of_nat i) u) us.
Lemma number_from_cons n u us : number_from n (u :: us) = uc_set_number n u :: number_from (n + 1) us.
Proof.
  unfold number_from. cbn [imap]. rewrite Z.add_0_r. f_equal. apply imap_ext. intros i x _. unfold compose.
  f_equal. lia.
Qed.

Lemma Forall2_strengthen {A B} (P Q : A → B → Prop) l k :
  Forall2 P l k → (∀ x y, x ∈ l → y ∈ k → P x y → Q x y) → Forall2 Q l k.
Proof.
  induction 1 as [|x y l k Hxy Hlk IH]; intros HQ; constructor; [by apply HQ; [left|left|]|].
  apply IH. intros x' y' Hx Hy. by apply HQ; right.
Qed.

Section Facts.
Context `{Qt} (demoPath : Z → bytes) (m_noUserContextOption : NoUserContextOption)
  (VERSION : bytes) (md5 : bytes → bytes) (peerAddress : Z → bytes).

(** ** Numbering the players *)
Lemma number_players_objects g ms : ∀ n us d, NoDup (mb_object <$> ms) →
  Forall2 (λ m u, gc_players g !! mb_dpid m = Some (mb_object m) ∧ objects d !! mb_object m = Some u) ms us →
  ∃ o, number_players n g (mb_dpid <$> ms) d = set_objects o d ∧
    (∀ k, k ∉ mb_object <$> ms → o !! k = objects d !! k) ∧
    Forall2 (λ m u, o !! mb_object m = Some u) ms (number_from n us).
Proof.
  induction ms as [|m ms IH]; intros n us d Hd Hms.
  - apply Forall2_nil_inv_l in Hms as ->. exists (objects d). split; [by destruct d|]. split; [done|constructor].
  - apply Forall2_cons_inv_l in Hms as (u & us' & [Hp Ho] & Hms & ->). rewrite number_from_cons. cbn [fmap list_fmap] in *.
    apply NoDup_cons in Hd as [Hn Hd]. cbn [number_players]. rewrite Hp.
    destruct (IH (n + 1) us' (update_object (mb_object m) (uc_set_number n) d) Hd) as (o & E & Hother & Ho2).
    { apply (Forall2_strengthen _ _ _ _ Hms). intros m' u' Hm' _ [Hp' Ho']. split; [done|]. cbn.
      rewrite lookup_alter_ne; [done|]. intros E. apply Hn. rewrite E. apply list_elem_of_fmap. by exists m'. }
    exists o. split_and!.
    + rewrite E. done.
    + intros k Hk. apply not_elem_of_cons in Hk as [Hk1 Hk2]. rewrite Hother by done. cbn. by rewrite lookup_alter_ne.
    + constructor; [|done]. rewrite Hother by done. cbn. by rewrite lookup_alter_eq, Ho.
Qed.
Lemma for_players_all {A} d g (f : UserContext → res A) (h : UserContext → A) dpids us :
  Forall2 (λ k u, player_of d g k = Some u) dpids us → Forall (λ u, f u = Ok (h u)) us → for_players d g f dpids = Ok (h <$> us).
Proof.
  induction 1 as [|k u dpids us Hk Hks IH]; intros Hf; [done|]. apply Forall_cons in Hf as [Hf1 Hf]. cbn [for_players].
  rewrite Hk, Hf1, res_bind_ok, IH by done. done.
Qed.

(** ** The demo of a game *)
Definition address_of (u : UserContext) : ExtraSector :=
  mkExtraSector 6 (replicate 80 0 ++ map (λ x, Z.lxor x 42) (peerAddress (uc_socket u) ++ [0])).
Definition player_entry (u : UserContext) : Player :=
  mkPlayer (uc_gamePlayerNumber u) (gp_side (uc_gamePlayerInfo u)) (uc_gamePlayerNumber u) (gp_name (uc_gamePlayerInfo u)).
Definition status_entry (u : UserContext) : PlayerStatusMessage :=
  mkPlayerStatusMessage (uc_gamePlayerNumber u) (gp_statusMessage (uc_gamePlayerInfo u)).
Definition described (date : bytes) (game : GameContext) (us : list UserContext) (packets : list Packet) : demo :=
  mkDemo (mkHeader TA_Demo 5 (Z.of_nat (length us)) (gi_maxUnits (gc_header game)) (gi_mapName (gc_header game)))
    (mkExtraSector 3 VERSION :: mkExtraSector 4 date :: (address_of <$> us))
    (player_entry <$> us) (status_entry <$> us)
    (mkUnitData (concat (in_order (gc_unitData game)).*2)) packets.
(** his status says on which map he plays *)
Definition status_readable (junk : Z) (u : UserContext) : Prop :=
  ∃ i n, TPlayerInfo_parse junk (gp_statusMessage (uc_gamePlayerInfo u)) = Ok i ∧ getMapName i = Ok n.

Lemma pack_status_eq m : pack_status m = packed_status m.
Proof.
  assert (le4 4294967295 = le4 (-1)) as E by (vm_compute; reflexivity).
  unfold pack_status, packed_status, trivialSmartpak. by rewrite E.
Qed.
Lemma write_fits {A} (write : A → res bytes) enc (ok : A → Prop) x :
  (∀ x, ok x → write x = writeRecord (enc x)) → (∀ x, ok x → record_fits (enc x)) → ok x → write x = Ok (record (enc x)).
Proof. intros Hw Hf Hx. rewrite Hw by done. destruct (Hf x Hx) as [_ Hl]. by rewrite writeRecord_fits by lia. Qed.

Lemma on_map_from (P : TPlayerInfo → Prop) l : Forall (λ p : bytes * option TPlayerInfo, ∀ i, p.2 = Some i → P i) l → ∀ i, on_map l = Some i → P i.
Proof.
  intros Hl. unfold on_map. assert (∀ i, @None TPlayerInfo = Some i → P i) as H0 by done. revert H0. generalize (@None TPlayerInfo) as acc.
  induction Hl as [|p l Hp Hl IH]; intros acc Hacc; cbn [foldl]; [done|]. apply IH. by destruct p.2.
Qed.
Lemma rd_n_length s i n x : (0 < n)%nat → rd_n s i n = Ok x → length x = n.
Proof.
  intros Hn. unfold rd_n. destruct (Nat.leb_spec (i + n) (length s)); [intros [= <-]; rewrite length_take, length_drop; lia|].
  destruct (Nat.eqb_spec (i + n) (length s + 1)); [|done]. intros [= <-]. rewrite length_app, length_take, length_drop. cbn. lia.
Qed.
Lemma map_hash_known junk status i : TPlayerInfo_parse junk status = Ok i → is_ok (getMapHash i).
Proof.
  intros E. assert (4 ≤ length (pi_data3 i))%nat as Hl; [|by apply rd32_ok].
  unfold TPlayerInfo_parse in E. repeat (apply res_bind_inv in E as (? & _ & E)).
  destruct (length status =? 192)%nat; apply res_bind_inv in E as (data3 & E3 & E); apply rd_n_length in E3; try lia.
  - repeat (apply res_bind_inv in E as (? & _ & E)). injection E as <-. cbn. lia.
  - injection E as <-. cbn. rewrite length_app. cbn. lia.
Qed.
Lemma headers_written env d game us known packets :
  Forall2 (λ k u, player_of d game k = Some u) known us → Forall (λ u, uc_socket u ∈ sockets d) us →
  Forall (status_readable (e_junk env)) us → demo_wf (described (e_date env) game us packets) →
  ∃ info, demo_headers VERSION peerAddress env d game known = Ok (headers_file (described (e_date env) game us packets), info) ∧
  ∀ i, info = Some i → ∃ status, TPlayerInfo_parse (e_junk env) status = Ok i.
Proof.
  intros Hk Hs Hr Hd. pose proof Hd as (Hh & _ & _ & _ & _ & Hse & Hpl & Hst & [_ Hu] & _). cbn [described d_header d_sectors d_players d_statuses d_units] in *.
  apply Forall_cons in Hse as [Hse1 Hse]. apply Forall_cons in Hse as [Hse2 Hse]. rewrite Forall_fmap in Hse. rewrite Forall_fmap in Hpl. rewrite Forall_fmap in Hst.
  assert (length known = length us) as Hl by (by apply Forall2_length in Hk).
  assert (u8 (Z.of_nat (length known)) = Z.of_nat (length us)) as Hn.
  { rewrite Hl. apply u8_id. destruct Hh as (_ & _ & Hnp & _). cbn in Hnp. unfold is_byte. lia. }
  unfold demo_headers. rewrite Hn.
  rewrite (write_fits write_Header Header_payload header_wf), res_bind_ok by (done || apply header_fits).
  unfold write_ExtraHeader. rewrite writeRecord_fits, res_bind_ok by (cbn; lia).
  rewrite !(write_fits write_ExtraSector ExtraSector_payload sector_wf), !res_bind_ok by (done || apply sector_fits).
  rewrite (for_players_all d game (address_sector peerAddress d) (record ∘ ExtraSector_payload ∘ address_of) known us Hk), res_bind_ok.
  2:{ apply Forall_forall. intros u Hin. rewrite Forall_forall in Hs, Hse. unfold address_sector, ipAddr.
      rewrite bool_decide_true by auto. rewrite res_bind_ok.
      apply (write_fits write_ExtraSector ExtraSector_payload sector_wf); [done|apply sector_fits|]. by apply (Hse u). }
  rewrite (for_players_all d game player_record (record ∘ Player_payload ∘ player_entry) known us Hk), res_bind_ok.
  2:{ apply (Forall_impl _ _ _ Hpl). intros u Hp. destruct (player_fits _ Hp) as [_ Hfit]. unfold player_record, write_Player, Player_payload in *.
      cbn [player_entry pl_color pl_side pl_number pl_name] in *. rewrite (u8_id (u8 _)) by apply u8_byte. rewrite writeRecord_fits by lia. done. }
  set (h := λ u, (record (status_payload (status_entry u)),
    match TPlayerInfo_parse (e_junk env) (gp_statusMessage (uc_gamePlayerInfo u)) with
    | Ok i => if bool_decide (getMapName i = Ok (gi_mapName (gc_header game))) then Some i else None
    | _ => None
    end)).
  rewrite (for_players_all d game (status_record env (gi_mapName (gc_header game))) h known us Hk), res_bind_ok.
  2:{ apply Forall_forall. intros u Hin. rewrite Forall_forall in Hr. destruct (Hr u Hin) as (i & n & E1 & E2).
      unfold status_record, h. rewrite E1, res_bind_ok, E2, res_bind_ok. rewrite Forall_forall in Hst. specialize (Hst u Hin). cbn in Hst.
      assert (u8 (uc_gamePlayerNumber u) = uc_gamePlayerNumber u) as -> by (apply u8_id, Hst).
      unfold write_PlayerStatusMessage. destruct (status_fits _ Hst) as [_ Hfit]. rewrite pack_status_eq.
      rewrite writeRecord_fits; [|unfold status_payload, status_entry in Hfit; cbn [sm_number sm_statusMessage] in Hfit; lia].
      rewrite res_bind_ok. do 2 f_equal. repeat case_bool_decide; congruence. }
  eexists. unfold write_UnitData. rewrite writeRecord_fits, res_bind_ok by lia. split; [f_equal; f_equal|].
  2:{ apply on_map_from. rewrite Forall_fmap. apply Forall_forall. intros u _ i. cbn. unfold h. cbn.
      destruct (TPlayerInfo_parse _ _) as [x|e| |] eqn:E; try done. case_bool_decide; [|done]. intros [= <-]. by eexists. }
  unfold headers_file, described. cbn [d_header d_sectors d_players d_statuses d_units].
  cbn [fmap list_fmap concat length]. rewrite length_fmap. rewrite <- !list_fmap_compose.
  replace (Z.of_nat (S (S (length us)))) with (2 + Z.of_nat (length us)) by lia. by rewrite <- !(assoc_L (++)).
Qed.

Lemma meta_known env d game us known info :
  Forall2 (λ k u, player_of d game k = Some u) known us → repo_ok (gc_unitData game) →
  (∀ i, info = Some i → ∃ status, TPlayerInfo_parse (e_junk env) status = Ok i) → is_ok (demo_meta md5 env d game known info).
Proof.
  intros Hk Hr Hi. unfold demo_meta, getUnitDataHash, hash.
  destruct (hash_loop_spec (in_order (gc_unitData game)) (gc_unitData game) Hr) as (l & -> & _).
  { apply Forall_forall. intros [k bs] Hin. rewrite in_order_perm in Hin. by apply elem_of_map_to_list in Hin. }
  rewrite !res_bind_ok. assert (∃ h, match info with Some i => getMapHash i | None => Ok (e_hash env) end = Ok h) as [h ->].
  { destruct info as [i|]; [|by eexists]. destruct (Hi i eq_refl) as [status E]. apply (map_hash_known _ _ _ E). }
  rewrite res_bind_ok. erewrite (for_players_all d game); [|exact Hk|by apply Forall_forall]. by eexists.
Qed.

(** ** The players are loading: the demo is begun *)
Lemma known_all (game : GameContext) (ms : list member) (P : member → UserContext → Prop) us :
  Forall2 (λ m u, gc_players game !! mb_dpid m = Some (mb_object m) ∧ P m u) ms us →
  filter (λ dpid, is_Some (gc_players game !! dpid)) (mb_dpid <$> ms) = mb_dpid <$> ms.
Proof.
  induction 1 as [|m u ms us [Hm _] Hms IH]; [done|]. cbn [fmap list_fmap]. rewrite filter_cons_True by (by eexists). by rewrite IH.
Qed.
Lemma Forall_number_from (P : UserContext → Prop) us : (∀ n u, P u → P (uc_set_number n u)) → Forall P us → ∀ n, Forall P (number_from n us).
Proof. intros HP. induction 1 as [|u us Hu Hus IH]; intros n; [constructor|]. rewrite number_from_cons. constructor; auto. Qed.
Lemma length_number_from n us : length (number_from n us) = length us.
Proof. apply length_imap. Qed.

Lemma commitHeaders_known env t game name ms us packets : let d := tn_compiler t in
  NoDup (mb_object <$> ms) →
  Forall2 (λ m u, gc_players game !! mb_dpid m = Some (mb_object m) ∧ objects d !! mb_object m = Some u) ms us →
  Forall (λ u, uc_socket u ∈ sockets d) us → gc_playersLockedIn game = mb_dpid <$> ms → repo_ok (gc_unitData game) →
  Forall (status_readable (e_junk env)) us → demo_wf (described (e_date env) game (number_from 1 us) packets) →
  ∃ o eff, commitHeaders VERSION md5 peerAddress env game name t =
    (Ok (Some (headers_file (described (e_date env) game (number_from 1 us) packets))),
     mkTurn (mkCompiler o (next_object d) (sockets d) (m_players d) (m_games d) (m_timerCounter d) eff) (tn_committedMoves t) (tn_closed t)) ∧
    (∀ k, k ∉ mb_object <$> ms → o !! k = objects d !! k) ∧
    Forall2 (λ m u, o !! mb_object m = Some u) ms (number_from 1 us).
Proof.
  intros d Hd Hms Hs Hlock Hrepo Hread Hwf. unfold commitHeaders, knownLockedIn. rewrite Hlock.
  rewrite (known_all game ms (λ m u, objects d !! mb_object m = Some u) us Hms), Nat.eqb_refl. cbn [negb].
  destruct (number_players_objects game ms 1 us d Hd Hms) as (o & En & Ho & Hms').
  set (d1 := log_effect (F_open name) (set_objects o d)).
  assert (Forall2 (λ k u, player_of d1 game k = Some u) (mb_dpid <$> ms) (number_from 1 us)) as Hk.
  { clear -Hms Hms'. unfold player_of. revert Hms Hms'. generalize (number_from 1 us) as us'. intros us' Hms Hms'.
    apply Forall2_fmap_l. revert us Hms. induction Hms' as [|m u ms us' Hm Hms' IH]; intros us Hms; [constructor|].
    apply Forall2_cons_inv_l in Hms as (u0 & us0 & [Hp _] & Hms & _). constructor; [|by apply (IH us0)]. cbn. rewrite Hp. exact Hm. }
  destruct (headers_written env d1 game (number_from 1 us) (mb_dpid <$> ms) packets Hk) as (info & Eh & Hinfo); [|by apply Forall_number_from|done|].
  { by apply Forall_number_from. }
  destruct (meta_known env d1 game (number_from 1 us) (mb_dpid <$> ms) info Hk Hrepo Hinfo) as [meta Em].
  exists o. eexists. split; [|done].
  unfold on_compiler, compiler. unfold mbind at 1 2 3 4 5 6, stx_bind at 1 2 3 4 5 6. unfold modify at 1 2, gets at 1, lift at 1 2.
  cbn [tn_compiler tn_committedMoves tn_closed]. fold d. rewrite En. fold d1. rewrite Eh. cbn [fst snd]. rewrite Em. reflexivity.
Qed.

(** ** A game that is being recorded *)
(** [game0]: the game as it was when its demo was begun; [us]: its players then; [timer]:
    when the last move was *)
Definition recording (d : TaDemoCompiler) (gid : Z) (date : bytes) (game0 : GameContext) (ms : list member)
    (us : list UserContext) (packets : list Packet) (timer : option Z) : Prop :=
  gid ≠ 0 ∧ NoDup (mb_object <$> ms) ∧ ∃ game, m_games d !! gid = Some game ∧
  gc_demo game = Some (demo_file (described date game0 us packets)) ∧ gc_timer game = timer ∧
  Forall2 (member_ok d gid (gc_players game)) ms us.

Lemma read_Loading l : Forall is_u32 l → GamePlayerLoading_set (received (command_of (M_Loading (mkLoading l)))) = Ok (mkLoading l).
Proof.
  intros Hl. unfold GamePlayerLoading_set. cbn [command_of]. unfold received. cbn [fst snd]. rewrite check_ID_ok by done. rewrite res_bind_ok. cbn [drop]. rewrite drop_0. cbn [gl_lockedInPlayers].
  do 2 f_equal. induction Hl as [|x l Hx Hl IH]; [done|]. cbn [gl_lockedInPlayers] in *. rewrite !fmap_cons, toUInt_uint by done. f_equal. exact IH.
Qed.
Lemma read_Move m : GameMoveMessage_set (received (command_of (M_Move m))) = Ok m.
Proof.
  unfold GameMoveMessage_set. cbn [command_of]. unfold received. cbn [fst snd]. rewrite check_ID_ok by done. rewrite res_bind_ok. unfold arg.
  cbn [lookup list_lookup]. rewrite res_bind_ok, toByteArray_bytes. by destruct m.
Qed.
Lemma described_file date game us : demo_file (described date game us []) = headers_file (described date game us []).
Proof. unfold demo_file. cbn [described d_packets fmap list_fmap concat]. apply app_nil_r. Qed.

Abbreviation handle := (on_command demoPath m_noUserContextOption VERSION md5 peerAddress).
Lemma Loading_step env t socket o u gid game ms us : let d := tn_compiler t in
  registered d gid game ms us → gc_demo game = None → Forall (λ m, is_u32 (mb_dpid m)) ms →
  objects d !! o = Some u → uc_gameId u = gid → uc_playerDpId u ≠ 0 →
  repo_ok (gc_unitData game) → Forall (status_readable (e_junk env)) us →
  demo_wf (described (e_date env) game (number_from 1 us) []) →
  ∃ d', handle env socket o (received (command_of (M_Loading (mkLoading (mb_dpid <$> ms))))) t
      = (Ok tt, mkTurn d' (tn_committedMoves t) (tn_closed t)) ∧
    recording d' gid (e_date env) game ms (number_from 1 us) [] (gc_timer game) ∧
    (∀ k, uc_gpgNetParser <$> objects d' !! k = uc_gpgNetParser <$> objects d !! k).
Proof.
  intros d (Hgid & Hg & Hnd & Hms & Hobj) Hdemo Hids Ho Hu Hdp Hrepo Hread Hwf.
  unfold on_command. rewrite stx_bind_ok with (a := V_bytes (str "GamePlayerLoading")) (s' := t) by done.
  cbv zeta. rewrite str_ascii by done. rewrite !bool_decide_false by done. rewrite (bool_decide_true (str _ = str _)) by done.
  unfold compiler at 1. rewrite stx_bind_ok with (a := d) (s' := t) by done. rewrite Ho, Hu.
  rewrite (proj2 (Z.eqb_neq _ _)), (proj2 (Z.eqb_neq _ _)) by done. cbn [orb].
  unfold on_Loading. rewrite read_Loading by (by apply Forall_fmap).
  rewrite stx_bind_ok with (a := mkLoading (mb_dpid <$> ms)) (s' := t) by done.
  unfold compiler at 1. rewrite stx_bind_ok with (a := d) (s' := t) by done. rewrite Hu, Hg, Hdemo. cbv zeta. cbn [gl_lockedInPlayers].
  set (game1 := gc_set_loading (mb_dpid <$> ms) (demoPath (gc_gameId game) ++ str ".part") (demoPath (gc_gameId game)) game).
  set (t1 := mkTurn (set_game gid game1 d) (tn_committedMoves t) (tn_closed t)).
  rewrite stx_bind_ok with (a := tt) (s' := t1) by done.
  destruct (commitHeaders_known env t1 game1 (gc_tempFileName game1) ms us [] Hnd) as (o' & eff & E & Hother & Hnum); try done.
  { clear -Hms Hobj. revert Hobj. induction Hms as [|m u ms us Hm Hms IH]; intros Hobj; [constructor|].
    apply Forall2_cons in Hobj as [Ho Hobj]. constructor; [|by apply IH]. split; [apply Hm|exact Ho]. }
  { clear -Hms. induction Hms as [|m u ms us Hm Hms IH]; constructor; [|done]. destruct Hm as (_ & _ & Hs & _ & _ & _ & -> & _). exact Hs. }
  rewrite (stx_bind_ok _ _ _ _ _ E). eexists. split; [reflexivity|]. cbn [tn_compiler t1]. split.
  - split; [done|]. split; [done|]. eexists. cbn [set_game set_games m_games]. rewrite lookup_insert_eq. split; [done|].
    split; [cbn [gc_set_demo gc_demo]; by rewrite described_file|]. split; [done|].
    cbn [gc_set_demo gc_players game1 gc_set_loading]. clear -Hms Hnum. revert Hnum. generalize 1 as n.
    induction Hms as [|m u ms us Hm Hms IH]; intros n Hnum; [constructor|]. rewrite number_from_cons in *.
    apply Forall2_cons in Hnum as [Hn Hnum]. apply Forall2_cons. split; [|exact (IH (n + 1) Hnum)]. destruct Hm as (H1 & H2 & H3 & _ & H5 & H6 & H7 & H8).
    split; [exact H1|]. split; [exact H2|]. split; [exact H3|]. split; [|split; [exact H5|]; split; [exact H6|]; split; [exact H7|exact H8]].
    exists (uc_gpgNetParser u). cbn [objects set_games set_game]. rewrite Hn. by destruct u.
  - intros k. cbn [set_game set_games objects]. destruct (decide (k ∈ mb_object <$> ms)) as [Hk|Hk]; [|by rewrite Hother].
    apply list_elem_of_fmap in Hk as (m & -> & Hm). clear -Hobj Hnum Hm. revert Hnum. generalize 1 as n.
    induction Hobj as [|m' u ms us Hm' Hobj IH]; intros n Hnum; [by apply elem_of_nil in Hm|]. rewrite number_from_cons in Hnum.
    apply Forall2_cons in Hnum as [Hn Hnum]. apply elem_of_cons in Hm as [->|Hm]; [by rewrite Hm', Hn|by apply (IH Hm (n + 1))].
Qed.

(** ** A move of a player is appended *)
Definition elapsed (timer : option Z) (now : Z) : Z := u16 (now - default now timer).
Lemma described_app date game us packets p :
  demo_file (described date game us (packets ++ [p])) = demo_file (described date game us packets) ++ record (Packet_payload p).
Proof.
  unfold demo_file. cbn [described d_packets]. rewrite fmap_app, concat_app, (assoc_L (++)). f_equal. cbn [fmap list_fmap concat]. apply app_nil_r.
Qed.
Lemma Forall2_pick {A B} (P : A → B → Prop) l k i x : Forall2 P l k → l !! i = Some x → ∃ y, k !! i = Some y ∧ P x y.
Proof. intros Hlk Hi. apply (Forall2_lookup_l _ _ _ _ _ Hlk Hi). Qed.

Lemma Move_step env t socket gid date game0 ms us packets timer i m u moves : let d := tn_compiler t in
  recording d gid date game0 ms us packets timer → ms !! i = Some m → us !! i = Some u →
  is_byte (uc_gamePlayerNumber u) → Z.of_nat (length moves) ≤ 32763 →
  ∃ game, handle env socket (mb_object m) (received (command_of (M_Move (mkMove moves)))) t
      = (Ok tt, mkTurn (set_game gid game d) true (tn_closed t)) ∧
    recording (set_game gid game d) gid date game0 ms us
      (packets ++ [mkPacket (elapsed timer (e_now env)) (uc_gamePlayerNumber u) moves]) (Some (e_now env)).
Proof.
  intros d (Hgid & Hnd & game & Hg & Hdemo & Htimer & Hms) Him Hiu Hnum Hlen.
  destruct (Forall2_pick _ _ _ _ _ Hms Him) as (u' & Hu' & (Hp & Hpl & Hs & [p Ho] & H5 & H6 & H7 & H8)). rewrite Hiu in Hu'. injection Hu' as <-.
  unfold on_command. rewrite stx_bind_ok with (a := V_bytes (str "Move")) (s' := t) by reflexivity.
  cbv zeta. rewrite str_ascii by reflexivity. rewrite !bool_decide_false by discriminate. rewrite (bool_decide_true (str _ = str _)) by reflexivity.
  unfold compiler at 1. rewrite stx_bind_ok with (a := d) (s' := t) by reflexivity. rewrite Ho. cbn [uc_set_parser uc_gameId uc_playerDpId].
  rewrite H5, H6, (proj2 (Z.eqb_neq _ _) Hgid), (proj2 (Z.eqb_neq _ _) H8). cbn [orb].
  unfold on_Move. unfold compiler at 1. rewrite stx_bind_ok with (a := d) (s' := t) by reflexivity.
  cbn [uc_set_parser uc_gameId uc_playerDpId uc_gamePlayerNumber]. rewrite H5, Hg, H6, Hp.
  set (t1 := mkTurn (set_game gid (refresh game) d) (tn_committedMoves t) (tn_closed t)).
  rewrite stx_bind_ok with (a := tt) (s' := t1) by reflexivity. rewrite Hdemo.
  rewrite read_Move. rewrite stx_bind_ok with (a := mkMove moves) (s' := t1) by reflexivity.
  set (demo := demo_file _) in *. set (pk := mkPacket (elapsed timer (e_now env)) (uc_gamePlayerNumber u) moves).
  assert (write_Packet pk = Ok (record (Packet_payload pk))) as Hw.
  { apply (writeRecord_fits (Packet_payload pk)). unfold Packet_payload, pk. cbn [pk_data]. rewrite !length_app, length_le2. cbn [length]. lia. }
  set (game' := gc_set_demo (Some (e_now env)) (Some (demo ++ record (Packet_payload pk))) (refresh game)).
  assert (∀ g1 g2, set_game gid g2 (set_game gid g1 d) = set_game gid g2 d) as Hss.
  { intros g1 g2. unfold set_game, set_games. cbn [m_games objects next_object sockets m_players m_timerCounter effects]. by rewrite insert_insert_eq. }
  exists game'. split.
  - assert (commitMove env gid (refresh game) (uc_gamePlayerNumber u) (mkMove moves) t1 =
      (Ok tt, mkTurn (set_game gid game' d) (tn_committedMoves t) (tn_closed t))) as E.
    { unfold commitMove. cbv zeta. cbn [gm_moves refresh gc_set_expiry gc_timer gc_demo]. rewrite Htimer, Hdemo, u8_id by exact Hnum.
      change (u16 (e_now env - default (e_now env) timer)) with (elapsed timer (e_now env)). fold pk. rewrite Hw.
      unfold on_compiler, mbind, stx_bind, modify, lift, t1. cbn [tn_compiler tn_committedMoves tn_closed fmap option_fmap option_map]. rewrite !Hss. reflexivity. }
    rewrite (stx_bind_ok _ _ _ _ _ E). reflexivity.
  - split; [exact Hgid|]. split; [exact Hnd|]. exists game'. cbn [set_game set_games m_games]. rewrite lookup_insert_eq. split; [reflexivity|].
    split; [cbn [game' gc_set_demo gc_demo]; by rewrite described_app|]. split; [reflexivity|]. exact Hms.
Qed.
End Facts.
