(* ===== verification/TaDemoRecording.v ===== *)
(** * A recorded game

    From the connections of the players to what a reader of the demo is told: whatever
    the pieces in which the data of the players arrives, and however they alternate, the
    demo has every move of every player, in the order of that player. *)
From S2P Require Import Prelude ExceptState OrderedMaps TPacketCrypt TPacketCompress TPacketSplit TPacketSmartpak TPacketRecords UnitDataRepo.
From S2P Require Import Resumable TADemoRecords TADemoParser TADemoRoundTrip GpgNetParse GpgNetStream GpgNetMessages TaDemoCompilerMessages TaDemoCompiler TaDemoCompilerFacts.

(** what a player's client sends for the sub-packets of one packet of the game *)
Definition moves_of (ps : list bytes) : bytes := 3 :: smartPak_all true ps.
Definition move_command (ps : list bytes) : bytes * list Variant := command_of (M_Move (mkMove (moves_of ps))).
(** a player's packets: well formed, and small enough for a command *)
Definition packet_ok (ps : list bytes) : Prop := stream_ok None ps ∧ short (moves_of ps).
Lemma move_command_wf ps : packet_ok ps → command_wf (move_command ps).
Proof. intros [_ H]. by apply command_of_wf. Qed.
Lemma send_moves ps : send (move_command ps) = sendMoves (moves_of ps).
Proof. unfold send, move_command, sendMoves. cbn [command_of fst snd length fmap list_fmap concat send_arg gm_moves]. by rewrite app_nil_r. Qed.

(** the packets of the demo, for moves that arrive as said: when, from which player, what *)
Fixpoint packets_of (timer : option Z) (order : list (Z * nat * list bytes)) : list Packet :=
  match order with
  | [] => []
  | (now, i, ps) :: order => mkPacket (elapsed timer now) (Z.of_nat i + 1) (moves_of ps) :: packets_of (Some now) order
  end.
Definition timer_after (timer : option Z) (order : list (Z * nat * list bytes)) : option Z :=
  match last order with Some (now, _, _) => Some now | None => timer end.
Lemma timer_after_cons timer x order : timer_after timer (x :: order) = timer_after (Some x.1.1) order.
Proof. unfold timer_after. destruct x as [[now i] ps], order as [|y order]; [done|]. cbn [last]. by destruct (last (y :: order)) as [[[]]|] eqn:E; [|by apply last_None in E]. Qed.
Lemma timer_after_app order1 order2 : ∀ timer, timer_after timer (order1 ++ order2) = timer_after (timer_after timer order1) order2.
Proof.
  induction order1 as [|x order1 IH]; intros timer; [done|]. change ((x :: order1) ++ order2) with (x :: (order1 ++ order2)).
  by rewrite !timer_after_cons, IH.
Qed.
Lemma packets_of_app order1 order2 : ∀ timer,
  packets_of timer (order1 ++ order2) = packets_of timer order1 ++ packets_of (timer_after timer order1) order2.
Proof.
  induction order1 as [|[[now i] ps] order1 IH]; intros timer; [done|]. cbn [app packets_of]. rewrite IH, timer_after_cons. done.
Qed.

Section Recording.
Context `{Qt} (demoPath : Z → bytes) (m_noUserContextOption : NoUserContextOption)
  (VERSION : bytes) (md5 : bytes → bytes) (peerAddress : Z → bytes).
#[local] Abbreviation handle := (on_command demoPath m_noUserContextOption VERSION md5 peerAddress).
#[local] Abbreviation ready := (TaDemoCompiler.onReadyRead demoPath m_noUserContextOption VERSION md5 peerAddress).
#[local] Abbreviation loop := (read_loop demoPath m_noUserContextOption VERSION md5 peerAddress).
#[local] Abbreviation recording := (TaDemoCompilerFacts.recording VERSION peerAddress).

(** the loop is the common one while the socket stays open *)
Definition open_handle (env : Env) (socket : Z) (o : nat) (c : list Variant) (t : Turn) : res unit * Turn :=
  match handle env socket o c t with
  | (Ok _, t) => if tn_closed t then (Throw RuntimeError, t) else (Ok tt, t)
  | r => r
  end.
Lemma read_loop_receive env socket o fuel : ∀ p t inp x p' t', tn_closed t = false →
  receive_loop (open_handle env socket o) fuel p t inp = (x, p', t', []) → x = Ok tt ∨ x = Throw DataNotReady →
  loop env socket o fuel p t inp = (x, p', t').
Proof.
  induction fuel as [|fuel IH]; intros p t inp x p' t' Ht E Hx; cbn [receive_loop read_loop] in *; [by injection E as <- <- <- _|].
  destruct inp as [|b inp]; [by injection E as <- <- <-|]. rewrite Ht. destruct (GetCommand p (b :: inp)) as [[[c|e| |] p1] a1].
  - unfold open_handle in E. destruct (handle env socket o c t) as [[[]|e| |] t1].
    + destruct (tn_closed t1) eqn:Ec; [injection E as <- _ _ _; by destruct Hx|]. by apply IH.
    + by injection E as <- <- <- _.
    + by injection E as <- <- <- _.
    + by injection E as <- <- <- _.
  - by injection E as <- <- <- _.
  - by injection E as <- <- <- _.
  - by injection E as <- <- <- _.
Qed.

Context (gid : Z) (date : bytes) (game0 : GameContext) (ms : list member) (us : list UserContext).
Hypothesis Hlen : length us = length ms.
Hypothesis Hnumbers : ∀ i u, us !! i = Some u → uc_gamePlayerNumber u = Z.of_nat i + 1.
Hypothesis Hfew : Z.of_nat (length ms) < 255.

Lemma moves_handled env socket i m cs : ∀ t packets timer, ms !! i = Some m → Forall packet_ok cs →
  recording (tn_compiler t) gid date game0 ms us packets timer → tn_closed t = false → ∃ t',
  handle_all (open_handle env socket (mb_object m)) (move_command <$> cs) t = (Ok tt, t') ∧ tn_closed t' = false ∧
  recording (tn_compiler t') gid date game0 ms us (packets ++ packets_of timer ((λ ps, (e_now env, i, ps)) <$> cs))
    (timer_after timer ((λ ps, (e_now env, i, ps)) <$> cs)) ∧
  objects (tn_compiler t') = objects (tn_compiler t).
Proof.
  induction cs as [|ps cs IH]; intros t packets timer Hm Hcs Hr Ht.
  - exists t. split; [reflexivity|]. split; [exact Ht|]. split; [|reflexivity]. cbn [fmap list_fmap packets_of]. rewrite app_nil_r. exact Hr.
  - apply Forall_cons in Hcs as [[Hps Hsh] Hcs].
    destruct (lookup_lt_is_Some_2 us i) as [u Hu]; [rewrite Hlen; by apply lookup_lt_Some in Hm|].
    pose proof (lookup_lt_Some _ _ _ Hm) as Hi.
    destruct (Move_step demoPath m_noUserContextOption VERSION md5 peerAddress env t socket gid date game0 ms us packets timer i m u (moves_of ps) Hr Hm Hu)
      as (game & E & Hr').
    { rewrite (Hnumbers i u Hu). unfold is_byte. lia. }
    { unfold short, MAX_RECORD_SIZE in Hsh. lia. }
    rewrite (Hnumbers i u Hu) in Hr'.
    destruct (IH (mkTurn (set_game gid game (tn_compiler t)) true (tn_closed t)) _ _ Hm Hcs Hr' Ht) as (t' & E' & Ht' & Hr2 & Ho).
    exists t'. split.
    + cbn [fmap list_fmap handle_all]. unfold open_handle at 1. unfold move_command at 1. rewrite E. cbn [tn_closed]. rewrite Ht in E' |- *. exact E'.
    + split; [exact Ht'|]. split; [|exact Ho]. rewrite fmap_cons, timer_after_cons. cbn [packets_of fst].
      rewrite <- (assoc_L (++)) in Hr2. exact Hr2.
Qed.

(** ** Pieces of data from several connections *)
Record arrival := mkArrival { ar_env : Env; ar_player : nat; ar_data : bytes }.
Definition data_of (i : nat) (l : list arrival) : bytes := concat (ar_data <$> filter (λ a, ar_player a = i) l).
(** what is still to come from the player [i], whose parser may have read a part of a command *)
Definition expects (d : TaDemoCompiler) (m : member) (cs : list (list bytes)) (later : bytes) : Prop :=
  ∃ u q v, objects d !! mb_object m = Some u ∧ fresh q ∧ has_read q v (uc_gpgNetParser u) ∧ Forall packet_ok cs ∧
    v ++ later = concat (send <$> (move_command <$> cs)) ∧
    (∀ c cs', cs = c :: cs' → (length v < length (send (move_command c)))%nat).

Lemma recording_parser d packets timer o p :
  recording d gid date game0 ms us packets timer → recording (update_object o (uc_set_parser p) d) gid date game0 ms us packets timer.
Proof.
  intros (Hgid & Hnd & game & Hg & Hdemo & Ht & Hms). split; [exact Hgid|]. split; [exact Hnd|]. exists game.
  split; [exact Hg|]. split; [exact Hdemo|]. split; [exact Ht|]. apply (Forall2_impl _ _ _ _ Hms). intros m u (H1 & H2 & H3 & [q Ho] & Hr).
  split; [exact H1|]. split; [exact H2|]. split; [exact H3|]. split; [|exact Hr]. cbn [update_object set_objects objects].
  destruct (decide (mb_object m = o)) as [<-|Hne]; [|rewrite lookup_alter_ne by done; by exists q].
  exists p. rewrite lookup_alter_eq, Ho. by destruct u.
Qed.

Lemma arrival_step env i m chunk d packets timer cs later : ms !! i = Some m →
  recording d gid date game0 ms us packets timer → expects d m cs (chunk ++ later) →
  ∃ d' cs0 cs1, cs = cs0 ++ cs1 ∧ ready env (mb_socket m) chunk d = Ok d' ∧
    recording d' gid date game0 ms us (packets ++ packets_of timer ((λ ps, (e_now env, i, ps)) <$> cs0))
      (timer_after timer ((λ ps, (e_now env, i, ps)) <$> cs0)) ∧
    expects d' m cs1 later ∧ ∀ o, o ≠ mb_object m → objects d' !! o = objects d !! o.
Proof.
  intros Hm Hr (u & q & v & Ho & Hq & Hp & Hcs & Es & Hv).
  destruct (moves_handled env (mb_socket m) i m cs (mkTurn d false false) packets timer Hm Hcs Hr eq_refl) as (tw & Hall & _).
  destruct (receive_stream (open_handle env (mb_socket m) (mb_object m)) (move_command <$> cs) q v (uc_gpgNetParser u) chunk later
    (mkTurn d false false) tw (S (length chunk)) Hq Hp) as (x & p1 & t1 & q1 & v1 & cs1' & R & Hx & Hq1 & Hp1 & _ & E1 & Hv1 & _ & cs0' & Ecs & H0).
  { apply Forall_fmap. apply (Forall_impl _ _ _ Hcs). intros ps Hps. by apply move_command_wf. }
  { exact Es. }
  { intros c cs' E. destruct cs as [|c0 cs]; [done|]. rewrite fmap_cons in E. injection E as <- _. by apply (Hv c0 cs). }
  { exact Hall. }
  { lia. }
  apply fmap_app_inv in Ecs as (cs0 & cs1 & -> & -> & ->). apply Forall_app in Hcs as [Hcs0 Hcs1].
  destruct (moves_handled env (mb_socket m) i m cs0 (mkTurn d false false) packets timer Hm Hcs0 Hr eq_refl) as (t' & Hall' & Hc' & Hr' & Ho').
  rewrite H0 in Hall'. injection Hall' as <-.
  assert (x = Ok tt ∨ x = Throw DataNotReady) as Hx' by tauto. clear Hx. rename Hx' into Hx.
  apply read_loop_receive in R; [|reflexivity|exact Hx].
  set (d1 := update_object (mb_object m) (uc_set_parser p1) (tn_compiler t1)).
  pose proof (recording_parser _ _ _ (mb_object m) p1 Hr') as Hrec. fold d1 in Hrec.
  assert (objects d1 !! mb_object m = Some (uc_set_parser p1 u)) as Hod.
  { unfold d1. cbn [update_object set_objects objects]. rewrite lookup_alter_eq, Ho'. cbn [tn_compiler]. by rewrite Ho. }
  exists d1, cs0, cs1. split; [reflexivity|]. split; [|split; [exact Hrec|split]].
  - unfold TaDemoCompiler.onReadyRead. destruct Hr as (_ & _ & game & _ & _ & _ & Hms).
    destruct (Forall2_pick _ _ _ _ _ Hms Hm) as (u' & _ & (_ & Hpl & _)). rewrite Hpl, Ho, R. fold d1.
    destruct Hx as [-> | ->]; [|reflexivity]. unfold flush_moves. cbn [tn_compiler tn_committedMoves].
    destruct (tn_committedMoves t1); [|reflexivity]. rewrite Hod. cbn [uc_set_parser uc_gameId].
    destruct Hrec as (_ & _ & g & Hg & Hdemo & _ & Hmem).
    destruct (Forall2_pick _ _ _ _ _ Hmem Hm) as (u2 & _ & (_ & _ & _ & [p2 Hu2] & Hgid & _)).
    assert (uc_gameId u = gid) as -> by (rewrite Hod in Hu2; apply (f_equal (from_option uc_gameId 0)) in Hu2; cbn in Hu2; congruence).
    unfold touch. assert (at_key GameContext_init (m_games d1) gid = g) as -> by (unfold at_key; by rewrite Hg).
    rewrite Hdemo, insert_id by exact Hg. by destruct d1.
  - exists (uc_set_parser p1 u), q1, v1. split; [exact Hod|]. cbn [uc_set_parser uc_gpgNetParser]. split; [exact Hq1|]. split; [exact Hp1|].
    split; [exact Hcs1|]. split; [exact E1|]. intros c cs' ->. apply (Hv1 (move_command c) (move_command <$> cs')). reflexivity.
  - intros o Hne. unfold d1. cbn [update_object set_objects objects]. rewrite lookup_alter_ne by done. by rewrite Ho'.
Qed.

Fixpoint run (l : list arrival) (d : TaDemoCompiler) : res TaDemoCompiler :=
  match l with
  | [] => Ok d
  | a :: l =>
      match ms !! ar_player a with
      | Some m => d ← ready (ar_env a) (mb_socket m) (ar_data a) d; run l d
      | None => run l d
      end
  end.
Definition sent_by (i : nat) (order : list (Z * nat * list bytes)) : list (list bytes) := snd <$> filter (λ x, x.1.2 = i) order.
Lemma sent_by_own i now cs : sent_by i ((λ ps, (now, i, ps)) <$> cs) = cs.
Proof. unfold sent_by. induction cs as [|c cs IH]; [done|]. rewrite fmap_cons, filter_cons_True by done. cbn [fmap list_fmap]. f_equal. exact IH. Qed.
Lemma sent_by_other i j now cs : i ≠ j → sent_by j ((λ ps, (now, i, ps)) <$> cs) = [].
Proof. intros Hne. unfold sent_by. induction cs as [|c cs IH]; [done|]. rewrite fmap_cons, filter_cons_False by done. exact IH. Qed.
Lemma sent_by_app i a b : sent_by i (a ++ b) = sent_by i a ++ sent_by i b.
Proof. unfold sent_by. by rewrite filter_app, fmap_app. Qed.

Lemma run_records l : ∀ d packets timer (remaining : nat → list (list bytes)),
  recording d gid date game0 ms us packets timer →
  (∀ i m, ms !! i = Some m → expects d m (remaining i) (data_of i l)) →
  ∃ d' order, run l d = Ok d' ∧ recording d' gid date game0 ms us (packets ++ packets_of timer order) (timer_after timer order) ∧
    Forall (λ x, is_Some (ms !! x.1.2)) order ∧ ∀ i m, ms !! i = Some m → sent_by i order = remaining i.
Proof.
  induction l as [|a l IH]; intros d packets timer remaining Hr Hex.
  - exists d, []. cbn [packets_of]. rewrite app_nil_r. split; [reflexivity|]. split; [exact Hr|]. split; [constructor|].
    intros i m Hm. destruct (Hex i m Hm) as (u & q & v & _ & _ & _ & _ & E & Hv). destruct (remaining i) as [|c cs]; [reflexivity|].
    specialize (Hv c cs eq_refl). unfold data_of in E. cbn [filter list_filter fmap list_fmap concat] in E. rewrite app_nil_r in E.
    rewrite E in Hv. cbn [fmap list_fmap concat] in Hv. rewrite length_app in Hv. lia.
  - cbn [run]. destruct (ms !! ar_player a) as [m|] eqn:Hm.
    + pose proof (Hex _ m Hm) as He. unfold data_of in He. rewrite filter_cons_True in He by done. cbn [fmap list_fmap concat] in He.
      destruct (arrival_step (ar_env a) (ar_player a) m (ar_data a) d packets timer (remaining (ar_player a)) _ Hm Hr He)
        as (d1 & cs0 & cs1 & Ecs & -> & Hr1 & He1 & Hother). rewrite res_bind_ok.
      destruct (IH d1 _ _ (λ j, if decide (j = ar_player a) then cs1 else remaining j) Hr1) as (d' & order & E & Hr' & Hin & Hs).
      { intros j m' Hm'. case_decide as Hj; [subst j; rewrite Hm in Hm'; injection Hm' as <-; exact He1|].
        specialize (Hex j m' Hm'). unfold data_of in Hex. rewrite filter_cons_False in Hex by congruence.
        destruct Hex as (u & Hex). exists u. rewrite Hother; [exact Hex|]. intros Eo.
        destruct Hr as (_ & Hnd & _). apply Hj. apply (NoDup_lookup (mb_object <$> ms) j (ar_player a) (mb_object m)); [exact Hnd|..];
          rewrite list_lookup_fmap; [by rewrite Hm', <- Eo|by rewrite Hm]. }
      exists d', (((λ ps, (e_now (ar_env a), ar_player a, ps)) <$> cs0) ++ order). split; [exact E|].
      split.
      * rewrite packets_of_app, (assoc_L (++)), timer_after_app. exact Hr'.
      * split; [apply Forall_app; split; [apply Forall_fmap, Forall_forall; intros ps _; cbn; by exists m|exact Hin]|].
        intros j m' Hm'. rewrite sent_by_app, (Hs j m' Hm'). case_decide as Hj.
        -- subst j. by rewrite sent_by_own, Ecs.
        -- by rewrite sent_by_other.
    + destruct (IH d packets timer remaining Hr) as (d' & order & E & Hr' & Hin & Hs); [|by exists d', order].
      intros i m' Hm'. specialize (Hex i m' Hm'). unfold data_of in Hex. rewrite filter_cons_False in Hex by congruence. exact Hex.
Qed.
End Recording.

(** ** From the connections to the reader of the demo *)
Section Compiled.
Context `{Qt} (demoPath : Z → bytes) (m_noUserContextOption : NoUserContextOption)
  (VERSION : bytes) (md5 : bytes → bytes) (peerAddress : Z → bytes).
#[local] Abbreviation handle := (on_command demoPath m_noUserContextOption VERSION md5 peerAddress).
#[local] Abbreviation ready := (TaDemoCompiler.onReadyRead demoPath m_noUserContextOption VERSION md5 peerAddress).
#[local] Abbreviation recording := (TaDemoCompilerFacts.recording VERSION peerAddress).
#[local] Abbreviation described := (TaDemoCompilerFacts.described VERSION peerAddress).

Definition loading (ms : list member) : bytes * list Variant := command_of (M_Loading (mkLoading (mb_dpid <$> ms))).
(** what the theorem asks of the players of a game: their ids, their statuses, and that
    everything about them fits into the records of a demo *)
Definition recordable (env : Env) (game : GameContext) (ms : list member) (us : list UserContext) : Prop :=
  Forall (λ m, is_u32 (mb_dpid m)) ms ∧ repo_ok (gc_unitData game) ∧ Forall (status_readable (e_junk env)) us ∧
  Forall (λ u, fresh (uc_gpgNetParser u)) us ∧ demo_wf (described (e_date env) game (number_from 1 us) []).

Lemma few_players env game ms us : length ms = length us → recordable env game ms us → Z.of_nat (length ms) ≤ 10.
Proof.
  intros Hl (_ & _ & _ & _ & (_ & _ & Hnp & _) & _). cbn [described d_header hd_numPlayers] in Hnp.
  rewrite length_number_from in Hnp. lia.
Qed.
Lemma loading_wf env game ms us : length ms = length us → recordable env game ms us → command_wf (loading ms).
Proof.
  intros Hl Hr. apply command_of_wf. split; cbn [gl_lockedInPlayers]; [apply Forall_fmap, Hr|].
  rewrite length_fmap. unfold MAX_NUM_ARGS. by apply (few_players env game ms us).
Qed.

Lemma Loading_arrival env j m d gid game ms us : registered d gid game ms us → gc_demo game = None →
  recordable env game ms us → ms !! j = Some m → ∃ d',
  ready env (mb_socket m) (send (loading ms)) d = Ok d' ∧
  recording d' gid (e_date env) game ms (number_from 1 us) [] (gc_timer game) ∧
  ∀ i m', ms !! i = Some m' → ∃ u q, objects d' !! mb_object m' = Some u ∧ fresh q ∧ has_read q [] (uc_gpgNetParser u).
Proof.
  intros Hreg Hdemo Hrec Hj. pose proof Hreg as (Hgid & Hg & Hnd & Hms & Hobj). pose proof Hrec as (Hids & Hrepo & Hread & Hfresh & Hwf).
  destruct (Forall2_pick _ _ _ _ _ Hobj Hj) as (u & Hu & Ho). destruct (Forall2_pick _ _ _ _ _ Hms Hj) as (u' & Hu' & (_ & Hpl & _ & _ & H5 & H6 & _ & H8)).
  rewrite Hu in Hu'. injection Hu' as <-. pose proof (Forall_lookup_1 _ _ _ _ Hfresh Hu) as Hfu. cbn beta in Hfu.
  destruct (Loading_step demoPath m_noUserContextOption VERSION md5 peerAddress env (mkTurn d false false) (mb_socket m) (mb_object m) u gid game ms us
    Hreg Hdemo Hids Ho H5 ltac:(congruence) Hrepo Hread Hwf) as (d1 & E & Hr & Hparsers). cbn [tn_compiler tn_committedMoves tn_closed] in *.
  assert (handle_all (open_handle demoPath m_noUserContextOption VERSION md5 peerAddress env (mb_socket m) (mb_object m)) [loading ms] (mkTurn d false false)
    = (Ok tt, mkTurn d1 false false)) as Hall.
  { cbn [handle_all]. unfold open_handle. unfold loading. rewrite E. reflexivity. }
  destruct (receive_stream (open_handle demoPath m_noUserContextOption VERSION md5 peerAddress env (mb_socket m) (mb_object m)) [loading ms] (uc_gpgNetParser u) []
    (uc_gpgNetParser u) (send (loading ms)) [] (mkTurn d false false) (mkTurn d1 false false) (S (length (send (loading ms)))) Hfu)
    as (x & p1 & t1 & q1 & v1 & cs1 & R & Hx & Hq1 & Hp1 & _ & E1 & Hv1 & Hrest & cs0 & Ecs & H0).
  { split; [by apply fresh_ok|reflexivity]. }
  { apply Forall_singleton. apply (loading_wf env game ms us); [by apply Forall2_length in Hms|exact Hrec]. }
  { cbn [fmap list_fmap concat app]. reflexivity. }
  { intros c cs' [= <- _]. cbn [length]. unfold send, sendCommand, put_bytes. rewrite !length_app, !length_le4. lia. }
  { exact Hall. }
  { lia. }
  assert (cs1 = []) as ->.
  { destruct cs1 as [|c cs1]; [reflexivity|]. specialize (Hv1 c cs1 eq_refl). rewrite app_nil_r in E1. rewrite E1 in Hv1.
    cbn [fmap list_fmap concat] in Hv1. rewrite length_app in Hv1. lia. }
  cbn [fmap list_fmap concat] in E1. apply app_nil in E1 as [-> _]. cbn [handle_all] in Hrest. injection Hrest as ->.
  assert (x = Ok tt ∨ x = Throw DataNotReady) as Hx' by tauto. clear Hx. rename Hx' into Hx.
  apply read_loop_receive in R; [|reflexivity|exact Hx].
  exists (update_object (mb_object m) (uc_set_parser p1) d1). split; [|split].
  - unfold TaDemoCompiler.onReadyRead. rewrite Hpl, Ho, R. destruct Hx as [-> | ->]; reflexivity.
  - apply recording_parser. exact Hr.
  - intros i m' Hm'. cbn [update_object set_objects objects]. specialize (Hparsers (mb_object m')).
    destruct (Forall2_pick _ _ _ _ _ Hobj Hm') as (u1 & Hu1 & Ho1). rewrite Ho1 in Hparsers.
    destruct (objects d1 !! mb_object m') as [u2|] eqn:Eu; [|discriminate Hparsers]. cbn in Hparsers. injection Hparsers as Hpar.
    destruct (decide (mb_object m' = mb_object m)) as [Heq|Hne].
    + rewrite <- Heq, lookup_alter_eq, Eu. exists (uc_set_parser p1 u2), q1. split; [reflexivity|]. split; [exact Hq1|exact Hp1].
    + rewrite lookup_alter_ne by congruence. exists u2, (uc_gpgNetParser u1). split; [exact Eu|].
      pose proof (Forall_lookup_1 _ _ _ _ Hfresh Hu1) as Hf1. split; [exact Hf1|]. rewrite Hpar. split; [by apply fresh_ok|reflexivity].
Qed.

Lemma demo_wf_packets date game us order : demo_wf (described date game us []) → Z.of_nat (length us) ≤ 10 →
  Forall (λ x : Z * nat * list bytes, (x.1.2 < length us)%nat ∧ packet_ok x.2) order → ∀ timer,
  demo_wf (described date game us (packets_of timer order)) ∧
  Forall2 (λ x p, pk_sender p = Z.of_nat x.1.2 + 1 ∧ unpacked p = x.2) order (packets_of timer order).
Proof.
  intros (H1 & H2 & H3 & H4 & H5 & H6 & H7 & H8 & H9 & _) Hfew Ho timer. split.
  - split; [exact H1|]. split; [exact H2|]. split; [exact H3|]. split; [exact H4|]. split; [exact H5|]. split; [exact H6|].
    split; [exact H7|]. split; [exact H8|]. split; [exact H9|]. cbn [described d_packets]. revert timer.
    induction Ho as [|[[now i] ps] order [Hi [Hps Hsh]] Ho IH]; intros timer; cbn [packets_of]; constructor; [|by apply IH].
    cbn [fst snd] in *. split.
    + split; [apply u16_bound|]. split; [cbn; unfold is_byte; lia|]. cbn [pk_data]. unfold short, MAX_RECORD_SIZE in Hsh. lia.
    + exists ps. apply unsmartpak_moves. exact Hps.
  - revert timer. induction Ho as [|[[now i] ps] order [Hi [Hps Hsh]] Ho IH]; intros timer; cbn [packets_of]; constructor; [|by apply IH].
    cbn [pk_sender fst snd]. split; [reflexivity|]. unfold unpacked. cbn [pk_data]. unfold moves_of. by rewrite unsmartpak_moves.
Qed.

(** C19: a recorded game: when all the players of a game have registered and one of them
    reports that they are loading, and then the moves of the players arrive, in whatever
    pieces and however the connections alternate, then a reader of the demo file, while
    it grows or later, is told of the map, the players in the order in which they were
    locked in, their statuses and units, and of every packet of every player once, with
    his number and its sub-packets, the packets of one player in the order he sent them.
    This is about a game that can be recorded ([recordable]): at most ten players with ids
    of 32 bits, whose status messages can be parsed and whose connections are between two
    commands; unit data, of which there is some and which fits into a record (32766 bytes),
    as do the other records; a printable map name; and moves that are streams as SmartPaker
    packs them without loss, short enough for an argument.  (Without unit data the demo
    cannot be read.) *)
Theorem game_recorded (env : Env) (j : nat) (m : member) (d : TaDemoCompiler) (gid : Z) (game : GameContext)
    (ms : list member) (us : list UserContext) (l : list arrival) (sent : nat → list (list bytes)) :
  registered d gid game ms us → gc_demo game = None → gc_timer game = None → recordable env game ms us → ms !! j = Some m →
  Forall (λ a, (ar_player a < length ms)%nat) l →
  (∀ i, (i < length ms)%nat → Forall packet_ok (sent i) ∧ data_of i l = concat (sendMoves ∘ moves_of <$> sent i)) →
  ∃ d1 d2 order game', ready env (mb_socket m) (send (loading ms)) d = Ok d1 ∧
    run demoPath m_noUserContextOption VERSION md5 peerAddress ms l d1 = Ok d2 ∧
    (∀ i, (i < length ms)%nat → sent_by i order = sent i) ∧
    let file := described (e_date env) game (number_from 1 us) (packets_of None order) in
    m_games d2 !! gid = Some game' ∧ gc_demo game' = Some (demo_file file) ∧
    Forall2 (λ x p, pk_sender p = Z.of_nat x.1.2 + 1 ∧ unpacked p = x.2) order (packets_of None order) ∧
    ∀ junk j' chunks, chunks ≠ [] → concat chunks = demo_file file →
      ∃ s, feed junk chunks (DemoParser_init j') = (Ok tt, s) ∧ handled s = demo_events file.
Proof.
  intros Hreg Hdemo Htimer Hrec Hm Hl Hsent. pose proof Hreg as (_ & _ & _ & Hms & _). apply Forall2_length in Hms as Hlen.
  pose proof (few_players env game ms us Hlen Hrec) as Hfew.
  destruct (Loading_arrival env j m d gid game ms us Hreg Hdemo Hrec Hm) as (d1 & E1 & Hr1 & Hp1). rewrite Htimer in Hr1.
  destruct (run_records demoPath m_noUserContextOption VERSION md5 peerAddress gid (e_date env) game ms (number_from 1 us)) with
    (l := l) (d := d1) (packets := @nil Packet) (timer := @None Z) (remaining := sent) as (d2 & order & E2 & Hr2 & Hin & Hs).
  { by rewrite length_number_from. }
  { intros i u Hu. unfold number_from in Hu. rewrite list_lookup_imap in Hu. destruct (us !! i) as [u0|]; [|discriminate Hu].
    injection Hu as <-. cbn. lia. }
  { lia. }
  { exact Hr1. }
  { intros i m' Hm'. destruct (Hp1 i m' Hm') as (u & q & Hu & Hq & Hpq). destruct (Hsent i) as [Hok E]; [by apply lookup_lt_Some in Hm'|].
    exists u, q, []. split; [exact Hu|]. split; [exact Hq|]. split; [exact Hpq|]. split; [exact Hok|]. split.
    - cbn [app]. rewrite E. f_equal. rewrite <- list_fmap_compose. apply list_fmap_ext. intros k ps _. cbn. symmetry. apply send_moves.
    - intros c cs' _. cbn [length]. unfold send, sendCommand, put_bytes. rewrite !length_app, !length_le4. lia. }
  destruct Hr2 as (_ & _ & game' & Hg & Hd & _). cbn [app] in Hd.
  destruct (demo_wf_packets (e_date env) game (number_from 1 us) order (proj2 (proj2 (proj2 (proj2 Hrec))))) with (timer := @None Z) as [Hwf Hun].
  { rewrite length_number_from, <- Hlen. exact Hfew. }
  { apply Forall_forall. intros [[now i] ps] Hx. rewrite Forall_forall in Hin. specialize (Hin _ Hx). cbn [fst snd] in *.
    destruct Hin as [m' Hm']. rewrite length_number_from, <- Hlen. split; [by apply lookup_lt_Some in Hm'|].
    destruct (Hsent i) as [Hok _]; [by apply lookup_lt_Some in Hm'|]. rewrite <- (Hs i m' Hm') in Hok. rewrite Forall_forall in Hok. apply Hok.
    unfold sent_by. apply list_elem_of_fmap. exists (now, i, ps). split; [reflexivity|]. by apply list_elem_of_filter. }
  exists d1, d2, order, game'. split; [exact E1|]. split; [exact E2|]. split.
  { intros i Hi. destruct (lookup_lt_is_Some_2 ms i Hi) as [m' Hm']. by apply (Hs i m'). }
  cbv zeta. split; [exact Hg|]. split; [exact Hd|]. split; [exact Hun|]. intros junk j' chunks Hne Hc. by apply demo_file_fed.
Qed.
End Compiled.

(** ** Two players, from their connections to a demo *)
#[local] Instance printable_dec b : Decision (printable b).
Proof. unfold printable. apply _. Defined.
#[local] Instance sector_wf_dec e : Decision (sector_wf e).
Proof. unfold sector_wf. apply _. Defined.
#[local] Instance player_wf_dec p : Decision (player_wf p).
Proof. unfold player_wf. apply _. Defined.
#[local] Instance status_wf_dec s : Decision (status_wf s).
Proof. unfold status_wf. apply _. Defined.
#[local] Instance record_fits_dec s : Decision (record_fits s).
Proof. unfold record_fits. apply _. Defined.
#[local] Instance header_wf_dec h : Decision (header_wf h).
Proof. unfold header_wf. apply _. Defined.
Definition ex_env (now : Z) : Env := mkEnv now (str "2024-01-01") 0 0 false.
Definition ex_address (socket : Z) : bytes := str "10.0.0.1".
Definition ex_path (gameId : Z) : bytes := str "demo".
#[local] Abbreviation ex_ready := (TaDemoCompiler.onReadyRead (H:=ex_qt) ex_path IGNORE (str "taf-1") id ex_address).
Definition ex_status : bytes := 32 :: str "MAP" ++ replicate 188 0.
Definition ex_units : bytes := unit_packet 3 77 66000.
(** both greet and show themselves, the first one tells the map and the units *)
Definition ex_greeting (dpid : Z) (name : string) : bytes :=
  sendHello 7 dpid (str name) ++ sendGamePlayer 1 (str name) ex_status.
Definition ex_registered : res TaDemoCompiler :=
  d ← ex_ready (ex_env 0) 1 (ex_greeting 100 "Al" ++ sendGameInfo 500 (str "MAP") ++ sendUnitData ex_units)
        (onNewConnection [1; 2] TaDemoCompiler_make);
  ex_ready (ex_env 5) 2 (ex_greeting 200 "Bob") d.
Definition ex_d : TaDemoCompiler := match ex_registered with Ok d => d | _ => TaDemoCompiler_make end.
Definition ex_game : GameContext := default GameContext_init (m_games ex_d !! 7).
Definition ex_members : list member := [mkMember 100 1 0; mkMember 200 2 1].
Definition ex_users : list UserContext := omap (λ m, objects ex_d !! mb_object m) ex_members.
Definition ex_sent (i : nat) : list (list bytes) :=
  match i with
  | O => [[move 5 [255; 255; 1; 0]; [23; 7]]; [move 6 [1; 2; 3]]]
  | _ => [[move 5 [255; 255; 1; 0]]]
  end.
Definition ex_data (i : nat) : bytes := concat (sendMoves ∘ moves_of <$> ex_sent i).
Definition ex_arrivals : list arrival :=
  [mkArrival (ex_env 100) 0 (take 9 (ex_data 0)); mkArrival (ex_env 120) 1 (ex_data 1); mkArrival (ex_env 150) 0 (drop 9 (ex_data 0))].

Definition ex_user (i : nat) : UserContext := default (UserContext_make 0) (ex_users !! i).
Lemma ex_users_eq : ex_users = [ex_user 0; ex_user 1].
Proof. vm_compute. reflexivity. Qed.
Lemma ex_member_0 : member_ok ex_d 7 (gc_players ex_game) (mkMember 100 1 0) (ex_user 0).
Proof. split_and!; [vm_compute; reflexivity | vm_compute; reflexivity | apply (bool_decide_eq_true_1 _); vm_compute; reflexivity
    | exists (uc_gpgNetParser (ex_user 0)); vm_compute; reflexivity | vm_compute; reflexivity | vm_compute; reflexivity | vm_compute; reflexivity | discriminate]. Qed.
Lemma ex_member_1 : member_ok ex_d 7 (gc_players ex_game) (mkMember 200 2 1) (ex_user 1).
Proof. split_and!; [vm_compute; reflexivity | vm_compute; reflexivity | apply (bool_decide_eq_true_1 _); vm_compute; reflexivity
    | exists (uc_gpgNetParser (ex_user 1)); vm_compute; reflexivity | vm_compute; reflexivity | vm_compute; reflexivity | vm_compute; reflexivity | discriminate]. Qed.
Lemma ex_registered_ok : registered ex_d 7 ex_game ex_members ex_users.
Proof.
  split; [discriminate|]. split; [vm_compute; reflexivity|]. split; [apply (bool_decide_eq_true_1 _); vm_compute; reflexivity|].
  rewrite ex_users_eq. split.
  - apply Forall2_cons. split; [exact ex_member_0|]. apply Forall2_cons. split; [exact ex_member_1|]. apply Forall2_nil. exact I.
  - apply Forall2_cons. split; [vm_compute; reflexivity|]. apply Forall2_cons. split; [vm_compute; reflexivity|]. apply Forall2_nil. exact I.
Qed.
Lemma ex_recordable : recordable (str "taf-1") ex_address (ex_env 200) ex_game ex_members ex_users.
Proof.
  split; [repeat (apply Forall_cons; split; [unfold is_u32; cbn; lia|]); apply Forall_nil; exact I|]. split.
  - destruct (add_ok ex_units ∅) as (m & E & Hm); [bytes_compute|apply map_Forall_empty|].
    assert (gc_unitData ex_game = m) as ->; [|exact Hm]. apply Ok_inj. rewrite <- E. vm_compute. reflexivity.
  - rewrite ex_users_eq. split; [|split].
    + assert (∀ u, uc_gamePlayerInfo u = uc_gamePlayerInfo (ex_user 0) ∨ uc_gamePlayerInfo u = uc_gamePlayerInfo (ex_user 1) → status_readable 0 u) as Hread.
      { intros u [E|E]; unfold status_readable; rewrite E; eexists _, _; split; vm_compute; reflexivity. }
      apply Forall_cons. split; [apply Hread; by left|]. apply Forall_singleton, Hread. by right.
    + apply Forall_cons. split; [|apply Forall_singleton]; split_and!; vm_compute; reflexivity.
    + unfold demo_wf. do 9 (split; [apply (bool_decide_eq_true_1 _); vm_compute; reflexivity|]). apply Forall_nil. exact I.
Qed.
Lemma ex_sent_ok i ps : (i < 2)%nat → ps ∈ ex_sent i → packet_ok ps.
Proof.
  assert (∀ b ps n, stream_ok n ps → b = 23 → stream_ok n ([b; 7] :: ps)) as H23.
  { intros b qs n Hqs ->. apply stream_other; [by apply (self_delimited_fixed UNK_17)| |exact Hqs].
    vm_compute. intros c Hc [= <-]. repeat (apply elem_of_cons in Hc as [?|Hc]; [done|]). by apply elem_of_nil in Hc. }
  intros Hi Hps. split.
  - destruct i as [|[|i]]; [| |lia]; cbn [ex_sent] in Hps.
    + apply elem_of_cons in Hps as [->|Hps]; [|apply list_elem_of_singleton in Hps as ->].
      * apply stream_move; [by left|unfold is_u32; lia|cbn; lia|done|]. apply H23; [apply stream_nil|done].
      * apply stream_move; [by left|unfold is_u32; lia|cbn; lia|done|apply stream_nil].
    + apply list_elem_of_singleton in Hps as ->. apply stream_move; [by left|unfold is_u32; lia|cbn; lia|done|apply stream_nil].
  - unfold short, MAX_RECORD_SIZE. destruct i as [|[|i]]; [| |lia]; cbn [ex_sent] in Hps.
    + apply elem_of_cons in Hps as [->|Hps]; [|apply list_elem_of_singleton in Hps as ->]; vm_compute; discriminate.
    + apply list_elem_of_singleton in Hps as ->. vm_compute. discriminate.
Qed.
Lemma game_recorded_witness : ∃ d1 d2 order game',
  ex_ready (ex_env 200) 2 (send (loading ex_members)) ex_d = Ok d1 ∧
  run (H:=ex_qt) ex_path IGNORE (str "taf-1") id ex_address ex_members ex_arrivals d1 = Ok d2 ∧
  sent_by 0 order = ex_sent 0 ∧ sent_by 1 order = ex_sent 1 ∧ m_games d2 !! 7 = Some game' ∧
  ∃ s, feed (0, 0) [default [] (gc_demo game')] (DemoParser_init 0) = (Ok tt, s).
Proof.
  destruct (game_recorded (H:=ex_qt) ex_path IGNORE (str "taf-1") id ex_address (ex_env 200) 1 (mkMember 200 2 1) ex_d 7 ex_game ex_members
    ex_users ex_arrivals ex_sent ex_registered_ok) as (d1 & d2 & order & game' & E1 & E2 & Hs & Hg & Hd & _ & Hf).
  - vm_compute. reflexivity.
  - vm_compute. reflexivity.
  - exact ex_recordable.
  - reflexivity.
  - repeat (apply Forall_cons; split; [cbn; lia|]). apply Forall_nil. exact I.
  - intros i Hi. split; [apply Forall_forall; intros ps Hps; by apply (ex_sent_ok i)|].
    destruct i as [|[|i]]; [vm_compute; reflexivity|vm_compute; reflexivity|cbn in Hi; lia].
  - exists d1, d2, order, game'. split; [exact E1|]. split; [exact E2|]. split; [apply Hs; cbn; lia|]. split; [apply Hs; cbn; lia|].
    split; [exact Hg|]. rewrite Hd. destruct (Hf (0, 0) 0 [demo_file (described (str "taf-1") ex_address (e_date (ex_env 200)) ex_game (number_from 1 ex_users) (packets_of None order))]) as (s & H1 & _).
    + discriminate.
    + apply app_nil_r.
    + exists s. exact H1.
Defined.
