(* ===== verification/TaReplayServer.v ===== *)
(** * The live replay server (TaReplayServer.cpp, TaReplayServerMessages.cpp)

    Viewers subscribe to a game that is being played.  Once a second the server notes how
    long the demo file of every game is, and sends its viewers what the file held a number
    of seconds ago.  The files are written by somebody else: they are an argument of the
    operations that look at them. *)
From S2P Require Import Prelude OrderedMaps Resumable GpgNetParse GpgNetStream GpgNetMessages.

Definition CHUNK_SIZE : Z := 1000.

(** ** Messages *)
Record TaReplayServerSubscribe := mkSubscribe { sb_gameId : Z; sb_position : Z }.
Inductive TaReplayServerStatus : Set := CONNECTING | OK | GAME_NOT_FOUND | LIVE_REPLAY_DISABLED | UNKNOWN (n : Z).
Definition status_code (s : TaReplayServerStatus) : Z :=
  match s with CONNECTING => 0 | OK => 1 | GAME_NOT_FOUND => 2 | LIVE_REPLAY_DISABLED => 3 | UNKNOWN n => n end.
(** the cast [TaReplayServerStatus(command[1].toUInt())] *)
Definition status_of (n : Z) : TaReplayServerStatus :=
  if n =? 0 then CONNECTING else if n =? 1 then OK else if n =? 2 then GAME_NOT_FOUND
  else if n =? 3 then LIVE_REPLAY_DISABLED else UNKNOWN n.
Record TaReplayServerData := mkData { sd_status : TaReplayServerStatus; sd_data : bytes }.

(** ** Files *)

(** the names that are files, and the files; one that cannot be opened is [None] *)
Record Files := mkFiles { fs_names : gmap bytes (option nat); fs_data : gmap nat bytes }.
(** an [std::ifstream], that follows a file when it is renamed *)
Record istream := mkStream { is_file : option nat; is_pos : Z }.
Definition contents (fs : Files) (f : istream) : bytes := from_option (λ i, default [] (fs_data fs !! i)) [] (is_file f).
Definition tellg (f : istream) : Z := match is_file f with Some _ => is_pos f | None => -1 end.
Definition tellg_end (fs : Files) (f : istream) : Z :=
  match is_file f with Some _ => Z.of_nat (length (contents fs f)) | None => -1 end.
(** [read(data, size)], of which [gcount()] bytes are there *)
Definition read (fs : Files) (f : istream) (size : Z) : bytes := take (Z.to_nat size) (drop (Z.to_nat (is_pos f)) (contents fs f)).
Definition seek (pos : Z) (f : istream) : istream := mkStream (is_file f) pos.

(** ** State *)
Record GameInfo := mkInfo {
  ri_gameId : Z; ri_delaySeconds : Z; ri_state : bytes;
  ri_demoFile : option istream;
  ri_demoFileSizeLog : option (list Z) }.   (* from front to back *)
Definition GameInfo_init : GameInfo := mkInfo 0 0 [] None None.
Record UserContext := mkViewer {
  ru_gameId : Z;
  ru_gpgNetParser : GpgNetParse.GpgNetParse;
  ru_demoFile : option istream;
  ru_enableLogWarn : bool;
  ru_open : bool;                           (* the socket has not been closed *)
  ru_written : bytes;                       (* what was written to the socket, *)
  ru_gone : Z }.                            (* how much of it has left *)
Definition UserContext_make : UserContext := mkViewer 0 GpgNetParse_init None true true [] 0.
Definition ru_set_gameId (gameId : Z) (u : UserContext) : UserContext :=
  mkViewer gameId (ru_gpgNetParser u) (ru_demoFile u) (ru_enableLogWarn u) (ru_open u) (ru_written u) (ru_gone u).
Definition ru_set_parser (p : GpgNetParse.GpgNetParse) (u : UserContext) : UserContext :=
  mkViewer (ru_gameId u) p (ru_demoFile u) (ru_enableLogWarn u) (ru_open u) (ru_written u) (ru_gone u).
Definition ru_set_file (f : option istream) (u : UserContext) : UserContext :=
  mkViewer (ru_gameId u) (ru_gpgNetParser u) f (ru_enableLogWarn u) (ru_open u) (ru_written u) (ru_gone u).
Definition ru_no_warn (u : UserContext) : UserContext :=
  mkViewer (ru_gameId u) (ru_gpgNetParser u) (ru_demoFile u) false (ru_open u) (ru_written u) (ru_gone u).
Definition ru_close (u : UserContext) : UserContext :=
  mkViewer (ru_gameId u) (ru_gpgNetParser u) (ru_demoFile u) (ru_enableLogWarn u) false (ru_written u) (ru_gone u).
Definition ru_write (b : bytes) (u : UserContext) : UserContext :=
  mkViewer (ru_gameId u) (ru_gpgNetParser u) (ru_demoFile u) (ru_enableLogWarn u) (ru_open u)
    (if ru_open u then ru_written u ++ b else ru_written u) (ru_gone u).
Definition bytesToWrite (u : UserContext) : Z := Z.of_nat (length (ru_written u)) - ru_gone u.

Record TaReplayServer := mkReplay { rs_users : gmap Z UserContext; rs_gameInfo : gmap Z GameInfo }.
Definition TaReplayServer_make : TaReplayServer := mkReplay ∅ ∅.
Definition set_user (socket : Z) (u : UserContext) (s : TaReplayServer) : TaReplayServer :=
  mkReplay (<[socket := u]> (rs_users s)) (rs_gameInfo s).

(** [compare("ended", Qt::CaseInsensitive)] *)
Definition lower (b : Z) : Z := if (65 <=? b) && (b <=? 90) then b + 32 else b.
Definition is_ended (state : bytes) : bool := bool_decide (lower <$> state = str "ended").

Definition setGameInfo (gameId delaySeconds : Z) (state : bytes) (s : TaReplayServer) : TaReplayServer :=
  mkReplay (rs_users s)
    (if is_ended state then delete gameId (rs_gameInfo s)
     else let g := at_key GameInfo_init (rs_gameInfo s) gameId in
          <[gameId := mkInfo gameId delaySeconds state (ri_demoFile g) (ri_demoFileSizeLog g)]> (rs_gameInfo s)).

Definition accept (s : TaReplayServer) (socket : Z) : TaReplayServer :=
  if bool_decide (is_Some (rs_users s !! socket)) then s else set_user socket UserContext_make s.
Definition onNewConnection (pending : list Z) (s : TaReplayServer) : TaReplayServer := foldl accept s pending.
(** [UnconnectedState] *)
Definition onDisconnected (socket : Z) (s : TaReplayServer) : TaReplayServer :=
  mkReplay (delete socket (rs_users s)) (rs_gameInfo s).
(** the system takes bytes of the socket *)
Definition drained (socket n : Z) (s : TaReplayServer) : TaReplayServer :=
  mkReplay (alter (λ u, mkViewer (ru_gameId u) (ru_gpgNetParser u) (ru_demoFile u) (ru_enableLogWarn u) (ru_open u)
    (ru_written u) (ru_gone u + Z.max 0 (Z.min n (bytesToWrite u)))) socket (rs_users s)) (rs_gameInfo s).

Definition sendData (status : TaReplayServerStatus) (data : bytes) (u : UserContext) : UserContext :=
  ru_write (sendArgument_bytes data) (ru_write (sendArgument_int (status_code status))
    (ru_write (sendCommand (str "ReplayServerData") 2) u)).

Section ReplayServer.
Context `{Qt}.
(** the name that the template gives for a game *)
Context (m_demoPathTemplate : Z → bytes) (m_maxBytesPerUserPerSecond : Z).

Definition TaReplayServerSubscribe_set (command : list Variant) : res TaReplayServerSubscribe :=
  _ ← check_ID "ReplayServerSubscribe" command;
  gameId ← arg command 1; position ← arg command 2;
  Ok (mkSubscribe (toUInt gameId) (toUInt position)).

Definition findReplayFileForGame (fs : Files) (gameId : Z) : option istream :=
  match fs_names fs !! (m_demoPathTemplate gameId ++ str ".part") with
  | Some file => Some (mkStream file 0)
  | None => (λ file, mkStream file 0) <$> fs_names fs !! m_demoPathTemplate gameId
  end.

(** what a subscription does to its user *)
Definition not_found (msg : TaReplayServerSubscribe) (u : UserContext) : UserContext :=
  if sb_position msg =? 0 then sendData GAME_NOT_FOUND [] u else u.
Definition subscribe (fs : Files) (games : gmap Z GameInfo) (msg : TaReplayServerSubscribe) (u : UserContext) : UserContext :=
  match games !! sb_gameId msg with
  | None => sendData GAME_NOT_FOUND [] u
  | Some game =>
      if ri_delaySeconds game <? 0 then sendData LIVE_REPLAY_DISABLED [] u
      else
        let file := findReplayFileForGame fs (sb_gameId msg) in
        let u := ru_set_file file u in
        match file with
        | Some (mkStream (Some i) pos) =>
            match ri_demoFileSizeLog game with
            | None => not_found msg u
            | Some log =>
                let u := match log with
                         | front :: _ =>
                             if ri_delaySeconds game <? Z.of_nat (length log)
                             then ru_set_file (Some (mkStream (Some i) (Z.min (sb_position msg) (u32 front)))) u
                             else u
                         | [] => u
                         end in
                ru_set_gameId (sb_gameId msg) u
            end
        | _ => not_found msg u
        end
  end.
Definition on_user (socket : Z) (f : UserContext → UserContext) (s : TaReplayServer) : TaReplayServer :=
  mkReplay (alter f socket (rs_users s)) (rs_gameInfo s).
(** the body of the loop, after [GetCommand] *)
Definition on_command (fs : Files) (socket : Z) (command : list Variant) (s : TaReplayServer) : res unit * TaReplayServer :=
  match arg command 0 with
  | Ok v =>
      if bool_decide (toString v = str "ReplayServerSubscribe") then
        match TaReplayServerSubscribe_set command with
        | Ok msg => (Ok tt, on_user socket (subscribe fs (rs_gameInfo s) msg) s)
        | Throw e => (Throw e, s) | Undef => (Undef, s) | Hang => (Hang, s)
        end
      else (Ok tt, s)
  | Throw e => (Throw e, s) | Undef => (Undef, s) | Hang => (Hang, s)
  end.
(** [sender->close()]: at once, unless something is left to write *)
Definition close_connection (socket : Z) (s : TaReplayServer) : TaReplayServer :=
  match rs_users s !! socket with
  | Some u => if bytesToWrite u <=? 0 then onDisconnected socket s else set_user socket (ru_close u) s
  | None => s
  end.
(** [arrived]: what the socket has received and nobody has read *)
Definition onReadyRead (fs : Files) (socket : Z) (arrived : bytes) (s : TaReplayServer) : res TaReplayServer :=
  match rs_users s !! socket with
  | None => Ok s
  | Some u =>
      let '(x, p, s, rest) := receive (on_command fs socket) (ru_gpgNetParser u) s arrived in
      let s := on_user socket (ru_set_parser p) s in
      match x with
      | Ok _ => Ok s
      | Throw DataNotReady => Ok s
      | Throw _ => Ok (close_connection socket s)
      | Undef => Undef
      | Hang => Hang
      end
  end.

(** ** Once a second *)

(** [while (size() > required) dequeue()]; to take from an empty queue is undefined *)
Fixpoint dequeue_to (required : Z) (log : list Z) : res (list Z) :=
  if required <? Z.of_nat (length log) then
    match log with _ :: log => dequeue_to required log | [] => Undef end
  else Ok log.
Definition updateFileSizeLog (fs : Files) (g : GameInfo) : res GameInfo :=
  let '(file, log) :=
    match ri_demoFile g with
    | Some f => (Some f, ri_demoFileSizeLog g)
    | None => match findReplayFileForGame fs (ri_gameId g) with
              | Some f => (Some f, Some [])
              | None => (None, ri_demoFileSizeLog g)
              end
    end in
  match file, log with
  | Some f, None => Undef                   (* never: they are made together *)
  | Some f, Some log =>
      if ri_delaySeconds g =? 2147483647 then Undef
      else
        log ← dequeue_to (1 + ri_delaySeconds g) (log ++ [s32 (tellg_end fs f)]);
        Ok (mkInfo (ri_gameId g) (ri_delaySeconds g) (ri_state g) (Some f) (Some log))
  | None, Some log =>
      if ri_delaySeconds g =? 2147483647 then Undef
      else
        log ← dequeue_to (1 + ri_delaySeconds g) log;
        Ok (mkInfo (ri_gameId g) (ri_delaySeconds g) (ri_state g) None (Some log))
  | None, None => Ok g
  end.

(** [dataEscrowThreshold]; [None]: the user gets nothing *)
Definition dataEscrowThreshold (games : gmap Z GameInfo) (gameId : Z) (f : istream) : option Z :=
  match games !! gameId with
  | Some g =>
      match ri_demoFileSizeLog g with
      | None => None
      | Some [] => None
      | Some (front :: log) => if ri_delaySeconds g <? Z.of_nat (S (length log)) then Some front else None
      end
  | None => Some (s32 (s32 (tellg f) + m_maxBytesPerUserPerSecond))
  end.
Fixpoint send_loop (fs : Files) (threshold : Z) (fuel : nat) (f : istream) (u : UserContext) : res (istream * UserContext) :=
  match fuel with
  | O => Hang
  | S fuel =>
      if bytesToWrite u <? m_maxBytesPerUserPerSecond then
        let thisChunkSize := Z.min (s32 (threshold - tellg f)) CHUNK_SIZE in
        if thisChunkSize <=? 0 then Ok (f, u)
        else
          match read fs f thisChunkSize with
          | [] => Ok (f, u)
          | data => send_loop fs threshold fuel (seek (is_pos f + Z.of_nat (length data)) f) (sendData OK data u)
          end
      else Ok (f, u)
  end.
Definition serviceUser (fs : Files) (games : gmap Z GameInfo) (u : UserContext) : res UserContext :=
  match ru_demoFile u with
  | None => Ok (if ru_enableLogWarn u then ru_no_warn u else u)
  | Some f =>
      match dataEscrowThreshold games (ru_gameId u) f with
      | Some threshold =>
          r ← send_loop fs threshold (S (length (contents fs f))) f u;
          Ok (ru_set_file (Some r.1) r.2)
      | None =>
          Ok (match games !! ru_gameId u with
              | Some g => if bool_decide (ri_demoFileSizeLog g = None) then ru_no_warn u else u
              | None => u
              end)
      end
  end.
(** a loop over the entries of a [QMap] *)
Fixpoint for_entries {A} (f : A → res A) (keys : list Z) (m : gmap Z A) : res (gmap Z A) :=
  match keys with
  | [] => Ok m
  | k :: keys =>
      match m !! k with
      | Some a => a ← f a; for_entries f keys (<[k := a]> m)
      | None => for_entries f keys m
      end
  end.
Definition timerEvent (fs : Files) (s : TaReplayServer) : res TaReplayServer :=
  games ← for_entries (updateFileSizeLog fs) (sorted_keys (rs_gameInfo s)) (rs_gameInfo s);
  users ← for_entries (λ u, match ru_demoFile u with Some _ => serviceUser fs games u | None => Ok u end)
            (sorted_keys (rs_users s)) (rs_users s);
  Ok (mkReplay users games).
End ReplayServer.
