(* ===== verification/TaReplayFacts.v ===== *)
(** * What the live replay server reveals

    The delay of the live replay: a viewer of a game is sent what its demo file held the
    given number of seconds ago, and not more, whatever the viewers do; and the case in
    which the server does not keep to it. *)
From S2P Require Import Prelude OrderedMaps Resumable GpgNetParse GpgNetStream GpgNetMessages TaReplayServer.

(** a difference that fits is not wrapped *)
Lemma s32_signed x : is_s32 x → s32 x = x.
Proof.
  intros Hx. unfold s32, u32, is_s32 in *. destruct (Z.ltb_spec (x mod 4294967296) 2147483648); Z.div_mod_to_equations; lia.
Qed.

(** ** Chunks of a file *)
Definition data_command (data : bytes) : bytes * list Variant := (str "ReplayServerData", [V_uint 1; V_bytes data]).
(** the bytes of [b] from [p] to [q] *)
Definition segment (p q : Z) (b : bytes) : bytes := take (Z.to_nat (q - p)) (drop (Z.to_nat p) b).
Definition is_chunk (c : bytes) : Prop := c ≠ [] ∧ Z.of_nat (length c) ≤ CHUNK_SIZE.

Lemma sendData_write d u : sendData OK d u = ru_write (send (data_command d)) u.
Proof.
  unfold sendData, ru_write, send, data_command. destruct u as [g p f w o wr go]. cbn [ru_gameId ru_gpgNetParser ru_demoFile
    ru_enableLogWarn ru_open ru_written ru_gone]. destruct o; cbn [ru_gameId ru_gpgNetParser ru_demoFile ru_enableLogWarn ru_open ru_written ru_gone]; [|done].
  f_equal. cbn [fst snd length fmap list_fmap concat send_arg status_code]. rewrite app_nil_r, <- !(assoc_L (++)). done.
Qed.
Definition send_chunks (chunks : list bytes) (u : UserContext) : UserContext := foldl (λ u d, sendData OK d u) u chunks.
Lemma send_chunks_same chunks u : ru_demoFile (send_chunks chunks u) = ru_demoFile u ∧ ru_gameId (send_chunks chunks u) = ru_gameId u ∧
  ru_open (send_chunks chunks u) = ru_open u ∧ ru_gone (send_chunks chunks u) = ru_gone u ∧
  ru_gpgNetParser (send_chunks chunks u) = ru_gpgNetParser u ∧
  ru_written (send_chunks chunks u) = if ru_open u then ru_written u ++ concat (send <$> (data_command <$> chunks)) else ru_written u.
Proof.
  revert u. induction chunks as [|d chunks IH]; intros u; unfold send_chunks; cbn [foldl fmap list_fmap concat].
  - split_and!; try done. rewrite app_nil_r. by destruct (ru_open u).
  - fold (send_chunks chunks (sendData OK d u)). rewrite sendData_write. destruct (IH (ru_write (send (data_command d)) u)) as (-> & -> & -> & -> & -> & ->).
    split_and!; try done. unfold ru_write. cbn [ru_open ru_written]. destruct (ru_open u); [by rewrite <- (assoc_L (++))|done].
Qed.
Lemma segment_app p q r b : 0 ≤ p ≤ q → q ≤ r → segment p q b ++ segment q r b = segment p r b.
Proof.
  intros Hp Hr. unfold segment. replace (Z.to_nat (r - p)) with (Z.to_nat (q - p) + Z.to_nat (r - q))%nat by lia.
  rewrite <- (take_take_drop (drop (Z.to_nat p) b)). rewrite drop_drop. do 2 f_equal. f_equal. lia.
Qed.

Lemma length_segment p q b : 0 ≤ p → p ≤ q → q ≤ Z.of_nat (length b) → Z.of_nat (length (segment p q b)) = q - p.
Proof. intros. unfold segment. rewrite length_take, length_drop. lia. Qed.
Lemma segment_self p b : segment p p b = [].
Proof. unfold segment. by rewrite Z.sub_diag. Qed.
(** a segment of what is there does not change when the file grows *)
Lemma segment_prefix p q b b' : q ≤ Z.of_nat (length b) → 0 ≤ p ≤ q → b `prefix_of` b' → segment p q b' = segment p q b.
Proof. intros Hq Hp [k ->]. unfold segment. rewrite drop_app_le, take_app_le; [done|rewrite length_drop|]; lia. Qed.

Section Reveal.
Context (max : Z).
Abbreviation send_loop := (send_loop max).

(** ** One turn of the loop that sends *)
Definition overhead : Z := Z.of_nat (length (send (data_command []))).
Lemma bytesToWrite_sendData d u : bytesToWrite (sendData OK d u) =
  bytesToWrite u + if ru_open u then overhead + Z.of_nat (length d) else 0.
Proof.
  rewrite sendData_write. unfold bytesToWrite, ru_write, overhead. cbn [ru_written ru_gone].
  destruct (ru_open u); [|lia]. rewrite length_app. unfold send, data_command, sendCommand.
  cbn [fst snd length fmap list_fmap concat send_arg]. rewrite !app_nil_r, !length_app. unfold sendArgument_bytes, put_bytes.
  rewrite !length_app, !length_le4. cbn [length]. lia.
Qed.

(** the loop ends with the fuel it is given, and sends chunks of the file from its
    position on, not beyond the threshold; the user gets everything up to there, unless
    the write buffer fills up *)
Lemma send_loop_spec fs thr fuel : ∀ f u, 0 ≤ is_pos f → (is_file f = None → contents fs f = []) →
  (length (contents fs f) - Z.to_nat (is_pos f) < fuel)%nat → ∃ chunks pos u',
  send_loop fs thr fuel f u = Ok (seek pos f, u') ∧ u' = send_chunks chunks u ∧ Forall is_chunk chunks ∧
  is_pos f ≤ pos ∧ concat chunks = segment (is_pos f) pos (contents fs f) ∧
  Z.of_nat (length (concat chunks)) = pos - is_pos f ∧
  bytesToWrite u' ≤ Z.max (bytesToWrite u) (max + overhead + CHUNK_SIZE) ∧
  (thr < 2147483648 → is_pos f ≤ thr → pos ≤ thr) ∧
  (is_file f ≠ None → 0 ≤ thr < 2147483648 → is_pos f < 2147483648 →
     max ≤ bytesToWrite u' ∨ thr ≤ pos ∨ Z.of_nat (length (contents fs f)) ≤ pos).
Proof.
  induction fuel as [|fuel IH]; intros f u Hp Hf Hl; [lia|]. cbn [TaReplayServer.send_loop].
  assert (seek (is_pos f) f = f) as Hs by (by destruct f).
  destruct (Z.ltb_spec (bytesToWrite u) max) as [Hb|Hb].
  2: { exists [], (is_pos f), u. rewrite Hs, segment_self. cbn. split_and!; try done; try lia. }
  set (n := Z.min (s32 (thr - tellg f)) CHUNK_SIZE).
  destruct (Z.leb_spec n 0) as [Hn|Hn].
  { exists [], (is_pos f), u. rewrite Hs, segment_self. cbn. split_and!; try done; try lia. intros Hi Ht Hq. right; left.
    unfold n, tellg in Hn. destruct (is_file f); [|done]. unfold CHUNK_SIZE in Hn. rewrite s32_signed in Hn by (unfold is_s32; lia). lia. }
  destruct (read fs f n) as [|x l] eqn:Er.
  { exists [], (is_pos f), u. rewrite Hs, segment_self. cbn. split_and!; try done; try lia. intros Hi Ht Hq. right; right.
    apply (f_equal length) in Er. unfold read in Er. rewrite length_take, length_drop in Er. cbn [length] in Er. lia. }
  set (data := x :: l) in *. set (k := Z.of_nat (length data)).
  assert (1 ≤ k ≤ n ∧ is_pos f + k ≤ Z.of_nat (length (contents fs f)) ∧ data = segment (is_pos f) (is_pos f + k) (contents fs f)) as (Hk & Hle & Ed).
  { pose proof (f_equal length Er) as El. unfold read in El. rewrite length_take, length_drop in El. fold k.
    assert (1 ≤ k) by (unfold k, data; cbn [length]; lia). split_and!; try lia.
    unfold segment. rewrite <- Er at 1. unfold read. replace (is_pos f + k - is_pos f) with k by lia.
    destruct (decide (k = n)) as [->|Hne]; [done|]. rewrite !take_ge; [done|rewrite length_drop; lia..]. }
  assert (n ≤ CHUNK_SIZE) as Hc by (unfold n; lia).
  assert (is_file f ≠ None) as Hi. { intros Hi. rewrite (Hf Hi) in Hle. cbn [length] in Hle. lia. }
  assert (n = Z.min (s32 (thr - is_pos f)) CHUNK_SIZE) as En by (unfold n, tellg; by destruct (is_file f)).
  destruct (IH (seek (is_pos f + k) f) (sendData OK data u)) as (chunks & pos & u' & E & Eu & Hch & Hpos & Ecs & Elen & Hw & Hesc & Hmax).
  { cbn. lia. } { by intros ?. } { unfold contents in *. cbn [seek is_file is_pos]. lia. }
  exists (data :: chunks), pos, u'. cbn [seek is_pos is_file] in *.
  replace (contents fs (seek (is_pos f + k) f)) with (contents fs f) in * by done.
  split; [exact E|]. split; [done|]. split.
  { apply Forall_cons. split; [|done]. split; [done|]. fold k. lia. }
  cbn [concat]. split_and!.
  - lia.
  - rewrite Ecs. rewrite Ed at 1. apply segment_app; lia.
  - rewrite length_app. fold k. lia.
  - rewrite bytesToWrite_sendData in Hw. fold k in Hw. destruct (ru_open u); unfold CHUNK_SIZE in *; lia.
  - intros Ht Hp0. apply Hesc; [lia|]. rewrite s32_id in En by lia. lia.
  - intros _ Ht Hq. destruct (decide (is_pos f + k < 2147483648)); [by apply Hmax|right; left].
    rewrite s32_signed in En by (unfold is_s32; lia). unfold CHUNK_SIZE in En. lia.
Qed.
End Reveal.

(** ** Maps, queues *)
Lemma for_entries_lookup {A} (f : A → res A) keys : ∀ m m', NoDup keys → for_entries f keys m = Ok m' → ∀ k,
  if bool_decide (k ∈ keys) then match m !! k with Some a => ∃ b, f a = Ok b ∧ m' !! k = Some b | None => m' !! k = None end
  else m' !! k = m !! k.
Proof.
  induction keys as [|j keys IH]; intros m m' Hn; cbn [for_entries].
  - by intros [= <-] k.
  - apply NoDup_cons in Hn as [Hj Hn]. destruct (m !! j) as [a|] eqn:Ej.
    + intros E. apply res_bind_inv in E as (b & Eb & E). intros k. specialize (IH _ _ Hn E k).
      destruct (decide (k = j)) as [->|Hne].
      * rewrite bool_decide_false in IH by done. rewrite bool_decide_true by (by left). rewrite Ej, IH, lookup_insert_eq. by exists b.
      * rewrite lookup_insert_ne in IH by done. rewrite (bool_decide_ext (k ∈ j :: keys) (k ∈ keys)); [done|]. rewrite elem_of_cons. naive_solver.
    + intros E k. specialize (IH _ _ Hn E k). destruct (decide (k = j)) as [->|Hne].
      * rewrite bool_decide_false in IH by done. rewrite bool_decide_true by (by left). by rewrite Ej, IH.
      * rewrite (bool_decide_ext (k ∈ j :: keys) (k ∈ keys)); [done|]. rewrite elem_of_cons. naive_solver.
Qed.
(** a loop over all entries *)
Lemma for_all_entries {A} (f : A → res A) m m' k : for_entries f (sorted_keys m) m = Ok m' →
  match m !! k with Some a => ∃ b, f a = Ok b ∧ m' !! k = Some b | None => m' !! k = None end.
Proof.
  intros E. pose proof (for_entries_lookup f _ m m' (NoDup_sorted_keys m) E k) as H. case_bool_decide as Hk; [done|].
  rewrite elem_of_sorted_keys in Hk. destruct (m !! k) as [a|]; [by destruct Hk|done].
Qed.
Lemma dequeue_to_drop r l : 0 ≤ r → dequeue_to r l = Ok (drop (length l - Z.to_nat r) l).
Proof.
  intros Hr. induction l as [|x l IH]; cbn [dequeue_to length].
  - by rewrite (proj2 (Z.ltb_ge _ _)) by lia.
  - destruct (Z.ltb_spec r (Z.of_nat (S (length l)))) as [H|H].
    + rewrite IH. replace (S (length l) - Z.to_nat r)%nat with (S (length l - Z.to_nat r)) by lia. done.
    + by replace (S (length l) - Z.to_nat r)%nat with 0%nat by lia.
Qed.
(** taking from the empty queue *)
Lemma dequeue_to_negative r l : r < 0 → dequeue_to r l = Undef.
Proof. intros Hr. induction l as [|x l IH]; cbn [dequeue_to length]; rewrite (proj2 (Z.ltb_lt _ _)) by lia; done. Qed.

(** a delay of -1 empties the log, one below that takes from an empty queue *)
Lemma negative_delay path fs g f log : ri_demoFile g = Some f → ri_demoFileSizeLog g = Some log → ri_delaySeconds g < 0 →
  updateFileSizeLog path fs g = if ri_delaySeconds g =? -1
    then Ok (mkInfo (ri_gameId g) (ri_delaySeconds g) (ri_state g) (Some f) (Some [])) else Undef.
Proof.
  intros Ef El Hd. unfold updateFileSizeLog. rewrite Ef, El, (proj2 (Z.eqb_neq _ _)) by lia.
  destruct (Z.eqb_spec (ri_delaySeconds g) (-1)) as [->|Hne].
  - rewrite dequeue_to_drop by lia. rewrite drop_ge by lia. done.
  - by rewrite dequeue_to_negative by lia.
Qed.
(** the rate: a service leaves at most a second's worth and one chunk in the write buffer *)
Lemma serviceUser_rate max fs games u u' f : ru_demoFile u = Some f → 0 ≤ is_pos f → serviceUser max fs games u = Ok u' →
  bytesToWrite u' ≤ Z.max (bytesToWrite u) (max + overhead + CHUNK_SIZE).
Proof.
  intros Ef Hp. unfold serviceUser. rewrite Ef. destruct (dataEscrowThreshold _ _ _ f) as [thr|].
  - destruct (send_loop_spec max fs thr (S (length (contents fs f))) f u Hp) as (chunks & pos & v & E & _ & _ & _ & _ & _ & Hw & _).
    + intros E. unfold contents. by rewrite E.
    + lia.
    + rewrite E, res_bind_ok. intros [= <-]. exact Hw.
  - intros [= <-]. destruct (games !! _); [case_bool_decide|]; unfold bytesToWrite; cbn; lia.
Qed.

(** ** The log of sizes *)
Section Delay.
Context `{Qt} (path : Z → bytes) (gid d : Z) (ino : nat) (Hd : 0 ≤ d < 2147483647).

Definition size (fs : Files) : Z := Z.of_nat (length (default [] (fs_data fs !! ino))).
(** [ino] is the demo file of the game, under whatever name, and of no other *)
Definition env_ok (fs : Files) : Prop :=
  (findReplayFileForGame path fs gid = None ∨ findReplayFileForGame path fs gid = Some (mkStream (Some ino) 0)) ∧
  (∀ g f, g ≠ gid → findReplayFileForGame path fs g = Some f → is_file f ≠ Some ino) ∧ size fs < 2147483648.
(** the sizes of the file, once a second, the newest first *)
Definition delayed (hist : list Z) : Z := default 0 (hist !! Z.to_nat d).
Definition hist_ok (hist : list Z) : Prop := StronglySorted (λ x y, y ≤ x) hist ∧ Forall (λ x, 0 ≤ x < 2147483648) hist.
Definition monitored (hist : list Z) (s : TaReplayServer) : Prop := ∃ state,
  rs_gameInfo s !! gid = Some (mkInfo gid d state (Some (mkStream (Some ino) 0)) (Some (reverse (take (S (Z.to_nat d)) hist)))).

Lemma delayed_bound hist : hist_ok hist → 0 ≤ delayed hist < 2147483648.
Proof.
  intros [_ H1]. unfold delayed. destruct (hist !! _) as [x|] eqn:E; cbn; [|lia]. by apply (Forall_lookup_1 _ _ _ _ H1 E).
Qed.
Lemma delayed_mono x hist : hist_ok (x :: hist) → delayed hist ≤ delayed (x :: hist).
Proof.
  intros Hh. unfold delayed. destruct (Z.to_nat d) as [|n] eqn:E; cbn [lookup list_lookup].
  - destruct Hh as [Hs Hp]. destruct hist as [|y hist]; cbn.
    + apply Forall_cons in Hp as [? _]. lia.
    + apply StronglySorted_inv in Hs as [_ Hs]. by apply Forall_cons in Hs as [? _].
  - destruct Hh as [Hs Hp]. apply StronglySorted_inv in Hs as [Hs _]. apply Forall_cons in Hp as [_ Hp].
    destruct (hist !! S n) as [z|] eqn:Ez.
    + assert (is_Some (hist !! n)) as [y Ey] by (apply lookup_lt_is_Some; apply lookup_lt_Some in Ez; lia).
      change (z ≤ default 0 (hist !! n)). rewrite Ey. cbn.
      clear - Hs Ey Ez. revert n Ey Ez. induction hist as [|a hist IH]; intros n Ey Ez; [done|].
      apply StronglySorted_inv in Hs as [Hs Ha]. destruct n as [|n]; cbn in Ey, Ez.
      * injection Ey as ->. by apply (Forall_lookup_1 _ _ _ _ Ha Ez).
      * by apply (IH Hs n).
    + change (0 ≤ default 0 (hist !! n)). destruct (hist !! n) as [y|] eqn:Ey; cbn; [|lia]. by apply (Forall_lookup_1 _ _ _ _ Hp Ey).
Qed.
Lemma delayed_head x hist : hist_ok (x :: hist) → delayed (x :: hist) ≤ x.
Proof.
  intros [Hs Hp]. apply StronglySorted_inv in Hs as [_ Hs]. apply Forall_cons in Hp as [Hx _]. unfold delayed.
  destruct (Z.to_nat d) as [|n]; cbn [lookup list_lookup]; [done|]. change (default 0 (hist !! n) ≤ x).
  destruct (hist !! n) as [y|] eqn:Ey; [by apply (Forall_lookup_1 _ _ _ _ Hs Ey)|cbn; lia].
Qed.
Lemma drop_reverse_take {A} (l : list A) n : drop (length l - n) (reverse l) = reverse (take n l).
Proof.
  rewrite <- (take_drop n l) at 2. rewrite reverse_app, drop_app_le by (rewrite length_reverse, length_drop; lia).
  rewrite drop_ge by (rewrite length_reverse, length_drop; lia). done.
Qed.
Lemma take_S_take {A} n (x : A) l : take (S n) (x :: take (S n) l) = take (S n) (x :: l).
Proof. cbn [take]. f_equal. rewrite take_take. f_equal. lia. Qed.
Lemma update_monitored fs hist state : size fs < 2147483648 →
  updateFileSizeLog path fs (mkInfo gid d state (Some (mkStream (Some ino) 0)) (Some (reverse (take (S (Z.to_nat d)) hist))))
  = Ok (mkInfo gid d state (Some (mkStream (Some ino) 0)) (Some (reverse (take (S (Z.to_nat d)) (size fs :: hist))))).
Proof.
  intros Hs. unfold updateFileSizeLog. cbn [ri_demoFile ri_demoFileSizeLog ri_delaySeconds ri_gameId ri_state].
  rewrite (proj2 (Z.eqb_neq _ _)) by lia. unfold tellg_end, contents. cbn [is_file from_option]. fold (size fs).
  rewrite s32_id by (unfold size in *; lia). rewrite <- reverse_cons, dequeue_to_drop by lia. rewrite res_bind_ok. do 3 f_equal.
  rewrite length_reverse. replace (Z.to_nat (1 + d)) with (S (Z.to_nat d)) by lia. by rewrite drop_reverse_take, take_S_take.
Qed.
Lemma threshold_monitored max s hist f : monitored hist s →
  dataEscrowThreshold max (rs_gameInfo s) gid f = if decide (Z.to_nat d < length hist)%nat then Some (delayed hist) else None.
Proof.
  intros (state & E). unfold dataEscrowThreshold, delayed. rewrite E. cbn [ri_demoFileSizeLog ri_delaySeconds].
  set (n := Z.to_nat d). destruct (decide (n < length hist)%nat) as [Hl|Hl].
  - destruct (lookup_lt_is_Some_2 hist n Hl) as [x Ex]. rewrite (take_S_r _ _ x Ex), reverse_app, reverse_singleton. cbn [app].
    rewrite (proj2 (Z.ltb_lt _ _)) by (rewrite length_reverse, length_take; lia). by rewrite Ex.
  - destruct (reverse (take (S n) hist)) as [|x l] eqn:El; [done|]. apply (f_equal length) in El.
    rewrite length_reverse, length_take in El. cbn [length] in El. by rewrite (proj2 (Z.ltb_ge _ _)) by lia.
Qed.

(** ** What viewers can get at *)

(** a viewer who has the file open is subscribed to the game, and not ahead of it *)
Definition follows (hist : list Z) (u : UserContext) : Prop := ∀ pos,
  ru_demoFile u = Some (mkStream (Some ino) pos) → ru_gameId u = gid ∧ 0 ≤ pos ≤ delayed hist.
Definition replay_ok (hist : list Z) (s : TaReplayServer) : Prop :=
  monitored hist s ∧ hist_ok hist ∧ map_Forall (λ _, follows hist) (rs_users s).

Lemma send_follows hist status b u : follows hist u → follows hist (sendData status b u).
Proof. done. Qed.
Lemma not_found_follows hist msg u : follows hist u → follows hist (not_found msg u).
Proof. unfold not_found. by case_match. Qed.
Lemma subscribe_follows fs hist s msg u : env_ok fs → monitored hist s → hist_ok hist → 0 ≤ sb_position msg →
  follows hist u → follows hist (subscribe path fs (rs_gameInfo s) msg u).
Proof.
  intros (Hf1 & Hf2 & _) (state & E) Hh Hp Hu. unfold subscribe.
  destruct (rs_gameInfo s !! sb_gameId msg) as [game|] eqn:Eg; [|done].
  destruct (ri_delaySeconds game <? 0); [done|]. cbv zeta.
  assert (∀ v f, (∀ pos, f ≠ Some (mkStream (Some ino) pos)) → follows hist (ru_set_file f v)) as Hno.
  { intros v f Hf pos Hpos. by destruct (Hf pos). }
  destruct (decide (sb_gameId msg = gid)) as [Egid|Hne].
  - rewrite Egid in *. rewrite E in Eg. injection Eg as <-. cbn [ri_demoFileSizeLog ri_delaySeconds].
    destruct Hf1 as [-> | ->]; [apply not_found_follows; by apply Hno|].
    pose proof (delayed_bound hist Hh) as Hb. pose proof (threshold_monitored 0 s hist (mkStream None 0) (ex_intro _ state E)) as Ht.
    unfold dataEscrowThreshold in Ht. rewrite E in Ht. cbn [ri_demoFileSizeLog ri_delaySeconds] in Ht.
    destruct (reverse _) as [|front log].
    + intros pos [= <-]. split; [done|]. lia.
    + cbn [length]. destruct (d <? Z.of_nat (S (length log))); intros pos [= <-]; (split; [done|]); [|lia].
      case_decide; [|done]. injection Ht as ->. rewrite u32_id by (unfold is_u32; lia). lia.
  - pose proof (λ f, Hf2 _ f Hne) as Hf. destruct (findReplayFileForGame path fs (sb_gameId msg)) as [[[i|] p0]|].
    + assert (i ≠ ino) as Hi. { intros ->. by apply (Hf _ eq_refl). }
      destruct (ri_demoFileSizeLog game) as [log|].
      * intros pos Hpos. exfalso. destruct log as [|front log]; [by injection Hpos|]. by destruct (_ <? _); injection Hpos.
      * apply not_found_follows, Hno. by intros pos [= ].
    + apply not_found_follows. by apply Hno.
    + apply not_found_follows. by apply Hno.
Qed.
Lemma on_command_ok fs hist socket c s : env_ok fs → replay_ok hist s → replay_ok hist (on_command path fs socket c s).2.
Proof.
  intros He (Hm & Hh & Hu). unfold on_command. destruct (arg c 0); [|done..]. case_bool_decide; [|done].
  unfold TaReplayServerSubscribe_set. destruct (check_ID _ c); [|done..]. destruct (arg c 1); [|done..]. destruct (arg c 2) as [v|e| |]; [|done..].
  cbn [mbind res_bind snd]. split; [done|]. split; [done|]. unfold on_user. cbn [rs_users rs_gameInfo].
  apply map_Forall_lookup. intros k u Hk. rewrite lookup_alter in Hk. case_decide as Ek.
  - destruct (rs_users s !! k) as [u0|] eqn:E; [|by subst; rewrite E in Hk]. subst. rewrite E in Hk. injection Hk as <-.
    apply subscribe_follows; try done; [|by apply (Hu k)]. cbn. destruct (toUInt_range v). lia.
  - by apply (Hu k).
Qed.
Lemma user_step_ok hist s k f : replay_ok hist s → (∀ u, follows hist u → follows hist (f u)) → replay_ok hist (on_user k f s).
Proof.
  intros (Hm & Hh & Hu) Hf. split; [done|]. split; [done|]. apply map_Forall_lookup. intros j u Hj. cbn [on_user rs_users] in Hj.
  rewrite lookup_alter in Hj. case_decide as Ek; [|by apply (Hu j)]. subst.
  destruct (rs_users s !! j) as [u0|] eqn:E; [|done]. injection Hj as <-. apply Hf. by apply (Hu j).
Qed.
Lemma disconnect_ok hist s k : replay_ok hist s → replay_ok hist (onDisconnected k s).
Proof. intros (Hm & Hh & Hu). split; [done|]. split; [done|]. by apply map_Forall_delete. Qed.
Lemma set_user_ok hist s k u : replay_ok hist s → follows hist u → replay_ok hist (set_user k u s).
Proof. intros (Hm & Hh & Hu) Hf. split; [done|]. split; [done|]. by apply map_Forall_insert_2. Qed.
Lemma onReadyRead_ok fs hist k b s s' : env_ok fs → replay_ok hist s → onReadyRead path fs k b s = Ok s' → replay_ok hist s'.
Proof.
  intros He Hs. unfold onReadyRead. destruct (rs_users s !! k) as [u|]; [|by intros [= <-]].
  destruct (receive _ _ s b) as [[[x p] s1] rest] eqn:E. unfold receive in E.
  assert (replay_ok hist s1) as H1.
  { eapply (receive_keeps _ (replay_ok hist)); [|exact Hs|exact E]. intros c w Hw. by apply on_command_ok. }
  assert (replay_ok hist (on_user k (ru_set_parser p) s1)) as H2 by (apply user_step_ok; [done|by intros]).
  destruct x as [[]|[]| |]; intros [= <-]; try done; unfold close_connection.
  all: destruct (rs_users (on_user _ _ s1) !! k) as [v|] eqn:Ev; [|done].
  all: destruct (bytesToWrite v <=? 0); [by apply disconnect_ok|].
  all: apply set_user_ok; [done|]; destruct H2 as (_ & _ & H2); exact (H2 k v Ev).
Qed.

(** ** A second passes *)
Context (max : Z).

(** what a viewer of the file receives in one service *)
Definition receives (fs : Files) (bound : Z) (u u' : UserContext) : Prop := ∀ pos,
  ru_demoFile u = Some (mkStream (Some ino) pos) → ∃ chunks pos',
  ru_demoFile u' = Some (mkStream (Some ino) pos') ∧ ru_open u' = ru_open u ∧ pos ≤ pos' ≤ bound ∧ Forall is_chunk chunks ∧
  concat chunks = segment pos pos' (default [] (fs_data fs !! ino)) ∧
  ru_written u' = (if ru_open u then ru_written u ++ concat (send <$> (data_command <$> chunks)) else ru_written u).

Lemma serviceUser_file fs games u u' f : serviceUser max fs games u = Ok u' → ru_demoFile u = Some f →
  ∃ pos, ru_demoFile u' = Some (mkStream (is_file f) pos).
Proof.
  intros E Hf. unfold serviceUser in E. rewrite Hf in E. destruct (dataEscrowThreshold _ _ _ f) as [thr|].
  - apply res_bind_inv in E as ([f' v] & E & [= <-]). cbn [ru_set_file ru_demoFile fst snd].
    enough (is_file f' = is_file f) as <- by (exists (is_pos f'); by destruct f').
    clear Hf.
    revert E. generalize (S (length (contents fs f))) as fuel. intros fuel. revert f u. induction fuel as [|fuel IH]; intros f u; cbn [send_loop]; [done|].
    destruct (_ <? max); [|by intros [= -> _]]. destruct (_ <=? 0); [by intros [= -> _]|].
    destruct (read _ _ _); [by intros [= -> _]|]. by intros ->%IH.
  - exists (is_pos f). injection E as <-. destruct (games !! ru_gameId u); [case_bool_decide|]; cbn; rewrite Hf; by destruct f.
Qed.
Lemma serviceUser_receives fs hist s u pos : monitored hist s → hist_ok hist → head hist = Some (size fs) →
  ru_gameId u = gid → 0 ≤ pos ≤ delayed hist → ru_demoFile u = Some (mkStream (Some ino) pos) → ∃ u',
  serviceUser max fs (rs_gameInfo s) u = Ok u' ∧ receives fs (delayed hist) u u' ∧ ru_gameId u' = gid ∧
  (∀ pos', ru_demoFile u' = Some (mkStream (Some ino) pos') →
   (Z.to_nat d < length hist)%nat → bytesToWrite u' < max → pos' = delayed hist).
Proof.
  intros Hm Hh Hhd Eg Hp Ef. pose proof (delayed_bound hist Hh) as Hb. unfold serviceUser. rewrite Ef, Eg, (threshold_monitored max s hist _ Hm).
  set (f := mkStream (Some ino) pos) in *. destruct (decide (Z.to_nat d < length hist)%nat) as [Hl|Hl].
  - destruct (send_loop_spec max fs (delayed hist) (S (length (contents fs f))) f u) as
      (chunks & pos' & u' & E & Eu & Hc & Hle & Ecs & Elen & _ & Hesc & Hmax); [cbn; lia|done|lia|].
    rewrite E, res_bind_ok. destruct (send_chunks_same chunks u) as (_ & Egid & Eo & _ & _ & Ew). rewrite <- Eu in *.
    assert (pos' ≤ delayed hist) as Hp' by (apply Hesc; cbn; lia).
    eexists. split; [done|]. cbn [fst snd]. split_and!.
    + intros p0 Ep0. rewrite Ef in Ep0. injection Ep0 as <-. exists chunks, pos'. cbn [ru_set_file ru_demoFile ru_written seek is_file f].
      split_and!; try done.
    + cbn. by rewrite Egid.
    + intros p1 [= <-] _ Hw. destruct (Hmax ltac:(done) Hb ltac:(cbn; lia)) as [H1|[H1|H1]]; [unfold bytesToWrite in *; cbn in Hw; lia|lia|].
      destruct hist as [|x hist]; [done|]. injection Hhd as ->. pose proof (delayed_head (size fs) hist Hh). unfold size, f in *. cbn in H1. lia.
  - destruct Hm as (state & E). rewrite E. cbn [ri_demoFileSizeLog]. rewrite bool_decide_false by done.
    eexists. split; [done|]. split_and!; [|done|done].
    intros p0 Ep0. rewrite Ef in Ep0. injection Ep0 as <-. exists [], pos. split_and!; [done|done|lia..|by apply Forall_nil|by rewrite segment_self|].
    cbn. rewrite app_nil_r. by destruct (ru_open u).
Qed.
Lemma update_games fs hist s games : env_ok fs → monitored hist s →
  for_entries (updateFileSizeLog path fs) (sorted_keys (rs_gameInfo s)) (rs_gameInfo s) = Ok games →
  monitored (size fs :: hist) (mkReplay (rs_users s) games).
Proof.
  intros (_ & _ & Hs) (state & E) Hg. pose proof (for_all_entries _ _ _ gid Hg) as H1. rewrite E in H1. destruct H1 as (b & E1 & E2).
  rewrite update_monitored in E1 by done. injection E1 as <-. by exists state.
Qed.
(** a second of a server: what was allowed stays allowed, and who watches receives *)
Lemma timer_ok fs hist s s' : env_ok fs → replay_ok hist s → hist_ok (size fs :: hist) → timerEvent path max fs s = Ok s' →
  replay_ok (size fs :: hist) s' ∧ ∀ k u pos, rs_users s !! k = Some u → ru_demoFile u = Some (mkStream (Some ino) pos) →
  ∃ u', rs_users s' !! k = Some u' ∧ receives fs (delayed (size fs :: hist)) u u' ∧
  ∀ pos', ru_demoFile u' = Some (mkStream (Some ino) pos') → (Z.to_nat d ≤ length hist)%nat → bytesToWrite u' < max →
  pos' = delayed (size fs :: hist).
Proof.
  intros He (Hm & Hh & Hu) Hh' E. unfold timerEvent in E. apply res_bind_inv in E as (games & Eg & E).
  apply res_bind_inv in E as (users & Eu & [= <-]). pose proof (update_games fs hist s games He Hm Eg) as Hm'.
  pose proof (delayed_mono (size fs) hist Hh') as Hmono.
  assert (∀ k u pos, rs_users s !! k = Some u → ru_demoFile u = Some (mkStream (Some ino) pos) → ∃ u', users !! k = Some u' ∧
    receives fs (delayed (size fs :: hist)) u u' ∧ ru_gameId u' = gid ∧
    ∀ pos', ru_demoFile u' = Some (mkStream (Some ino) pos') → (Z.to_nat d ≤ length hist)%nat → bytesToWrite u' < max →
    pos' = delayed (size fs :: hist)) as Hr.
  { intros k u pos Ek Ef. pose proof (for_all_entries _ _ _ k Eu) as H1. rewrite Ek, Ef in H1. destruct H1 as (u' & E1 & E2).
    destruct (Hu k u Ek pos Ef) as [Egid Hp].
    destruct (serviceUser_receives fs (size fs :: hist) _ u pos Hm' Hh' eq_refl Egid ltac:(lia) Ef) as (v & Ev & Hv & Hg & Hx).
    cbn [rs_gameInfo] in Ev. rewrite Ev in E1. injection E1 as <-. exists v. split_and!; try done.
    intros p1 H1 H2 H3. apply Hx; [done|cbn [length]; lia|done]. }
  split.
  - split; [done|]. split; [done|]. apply map_Forall_lookup. intros k u' Ek' pos' Ef'. cbn [rs_users] in Ek'.
    pose proof (for_all_entries _ _ _ k Eu) as H1. destruct (rs_users s !! k) as [u|] eqn:Ek; [|congruence].
    destruct H1 as (v & E1 & E2). assert (v = u') as -> by congruence. destruct (ru_demoFile u) as [f|] eqn:Ef.
    + destruct (serviceUser_file _ _ _ _ _ E1 Ef) as (p1 & E3). rewrite E3 in Ef'. injection Ef' as Ei ->.
      assert (f = mkStream (Some ino) (is_pos f)) as Ef1 by (destruct f; cbn in *; congruence). rewrite Ef1 in Ef.
      destruct (Hr k u _ Ek Ef) as (w & Ew & Hw & Hg & _). rewrite E2 in Ew. injection Ew as <-. split; [done|].
      destruct (Hw _ Ef) as (chunks & p2 & E4 & _ & Hle & _). rewrite Ei, E4 in E3. injection E3 as ->.
      destruct (Hu k u Ek _ Ef) as [_ Hp]. lia.
    + injection E1 as <-. by rewrite Ef in Ef'.
  - intros k u pos Ek Ef. destruct (Hr k u pos Ek Ef) as (u' & H1 & H2 & _ & H3). by exists u'.
Qed.

(** ** The delay, whatever happens *)

(** what can happen to a server that has begun to watch the file of the game: [hist] are
    the sizes of the file, second by second *)
Inductive runs : list Z → TaReplayServer → Prop :=
  | runs_start hist s : monitored hist s → hist_ok hist →
      map_Forall (λ _ u, ∀ pos, ru_demoFile u ≠ Some (mkStream (Some ino) pos)) (rs_users s) → runs hist s
  | runs_connect hist s pending : runs hist s → runs hist (onNewConnection pending s)
  | runs_data hist s fs k arrived s' : runs hist s → env_ok fs →
      onReadyRead path fs k arrived s = Ok s' → runs hist s'
  | runs_disconnect hist s k : runs hist s → runs hist (onDisconnected k s)
  | runs_drained hist s k n : runs hist s → runs hist (drained k n s)
  | runs_other_game hist s g delay state : runs hist s → g ≠ gid → runs hist (setGameInfo g delay state s)
  | runs_same_game hist s state : runs hist s → is_ended state = false → runs hist (setGameInfo gid d state s)
  | runs_second hist s fs s' : runs hist s → env_ok fs → from_option (λ x, x ≤ size fs) True (head hist) →
      timerEvent path max fs s = Ok s' → runs (size fs :: hist) s'.

Lemma hist_ok_cons fs hist : env_ok fs → hist_ok hist → from_option (λ x, x ≤ size fs) True (head hist) → hist_ok (size fs :: hist).
Proof.
  intros (_ & _ & Hs) [Hh1 Hh2] Hx. split.
  - apply SSorted_cons; [done|]. destruct hist as [|x hist]; [by apply Forall_nil|]. cbn in Hx.
    apply StronglySorted_inv in Hh1 as [_ Hh1]. apply Forall_cons. split; [done|]. apply (Forall_impl _ _ _ Hh1). intros y Hy. lia.
  - apply Forall_cons. split; [unfold size in *; lia|done].
Qed.
Lemma accept_ok hist pending : ∀ s, replay_ok hist s → replay_ok hist (onNewConnection pending s).
Proof.
  induction pending as [|k pending IH]; intros s Hs; [done|]. apply IH. unfold accept. case_bool_decide; [done|].
  by apply set_user_ok.
Qed.
Lemma runs_ok hist s : runs hist s → replay_ok hist s.
Proof.
  induction 1 as [hist s Hm Hh Hu|hist s p _ IH|hist s fs k b s' _ IH He E|hist s k _ IH|hist s k n _ IH|hist s g delay state _ IH Hg|hist s state _ IH Hg|
    hist s fs s' _ IH He Hx E].
  - split; [done|]. split; [done|]. apply (map_Forall_impl _ _ _ Hu). intros k u H1 pos H2. by destruct (H1 pos).
  - by apply accept_ok.
  - by apply (onReadyRead_ok fs hist k b s).
  - by apply disconnect_ok.
  - by apply (user_step_ok hist s k).
  - destruct IH as ((st & E) & Hh & Hu). split; [|done]. exists st. cbn [setGameInfo rs_gameInfo].
    destruct (is_ended state); [by rewrite lookup_delete_ne|by rewrite lookup_insert_ne].
  - destruct IH as ((st & E) & Hh & Hu). split; [|done]. exists state. cbn [setGameInfo rs_gameInfo]. rewrite Hg.
    unfold at_key. by rewrite E, lookup_insert_eq.
  - destruct (timer_ok fs hist s s' He IH) as [H1 _]; [|done|done]. apply hist_ok_cons; [done|apply IH|done].
Qed.

(** C21: the live replay is late: from when the server begins to watch the demo file of a
    game, provided that no viewer has it open then ([early_subscriber_sees_live] shows what
    happens to one who has), whatever viewers connect, send and do, and whatever becomes of
    other games, a second after which the file has been [hist] bytes long (the newest first;
    it does not shrink, and stays below 2 GB) gives nobody a byte which the file did not
    have [d] seconds ago; each viewer receives the bytes that follow those he has, cut in
    chunks, and, once the log of sizes is long enough, all of them up to that point unless
    his connection is too slow. *)
Theorem live_delay (hist : list Z) (s s' : TaReplayServer) (fs : Files) (k : Z) (u : UserContext) (pos : Z) :
  runs hist s → env_ok fs → from_option (λ x, x ≤ size fs) True (head hist) → timerEvent path max fs s = Ok s' →
  rs_users s !! k = Some u → ru_demoFile u = Some (mkStream (Some ino) pos) → ∃ u' chunks pos',
  rs_users s' !! k = Some u' ∧ ru_demoFile u' = Some (mkStream (Some ino) pos') ∧
  pos ≤ pos' ≤ delayed (size fs :: hist) ∧
  concat chunks = segment pos pos' (default [] (fs_data fs !! ino)) ∧
  ru_written u' = (if ru_open u then ru_written u ++ concat (send <$> (data_command <$> chunks)) else ru_written u) ∧
  ((Z.to_nat d ≤ length hist)%nat → bytesToWrite u' < max → pos' = delayed (size fs :: hist)).
Proof.
  intros Hr He Hx E Ek Ef. pose proof (runs_ok hist s Hr) as Hs.
  destruct (timer_ok fs hist s s' He Hs) as [_ H1]; [apply hist_ok_cons; [done|apply Hs|done]|done|].
  destruct (H1 k u pos Ek Ef) as (u' & Ek' & H2 & H3). destruct (H2 pos Ef) as (chunks & pos' & Ef' & _ & Hp & Hc & Es & Ew).
  exists u', chunks, pos'. split_and!; try done; try lia. intros Hl Hw. by apply H3.
Qed.
End Delay.

(** ** The case in which the server does not keep to it *)
Section Early.
Context `{Qt} (path : Z → bytes) (max : Z) (gid : Z) (ino : nat).

Definition subscribe_command (gameId position : Z) : bytes * list Variant :=
  (str "ReplayServerSubscribe", [V_uint gameId; V_uint position]).
Lemma subscribe_command_wf g p : is_u32 g → is_u32 p → command_wf (subscribe_command g p).
Proof.
  intros Hg Hp. split_and!; [unfold short, MAX_RECORD_SIZE; cbn; lia|cbn; unfold MAX_NUM_ARGS; lia|].
  apply Forall_cons. split; [done|]. by apply Forall_singleton.
Qed.
Lemma on_subscribe fs k g p s : is_u32 g → is_u32 p →
  on_command path fs k (received (subscribe_command g p)) s = (Ok tt, on_user k (subscribe path fs (rs_gameInfo s) (mkSubscribe g p)) s).
Proof.
  intros Hg Hp. unfold on_command, received, subscribe_command, arg. cbn [fst snd lookup list_lookup].
  rewrite str_ascii by done. rewrite bool_decide_true by done. unfold TaReplayServerSubscribe_set. rewrite check_ID_ok by done.
  unfold arg. cbn [lookup list_lookup]. rewrite !res_bind_ok. by rewrite !toUInt_uint.
Qed.
(** a subscription arrives *)
Lemma subscription_arrives fs k g p s u : is_u32 g → is_u32 p → rs_users s !! k = Some u → fresh (ru_gpgNetParser u) → ∃ q,
  fresh q ∧ onReadyRead path fs k (send (subscribe_command g p)) s =
  Ok (on_user k (ru_set_parser q) (on_user k (subscribe path fs (rs_gameInfo s) (mkSubscribe g p)) s)).
Proof.
  intros Hg Hp Eu Hq. destruct (receive_one (on_command path fs k) (ru_gpgNetParser u) (subscribe_command g p) s _ Hq
    (subscribe_command_wf g p Hg Hp) (on_subscribe fs k g p s Hg Hp)) as (q & Hq' & Hr).
  exists q. split; [done|]. unfold onReadyRead. by rewrite Eu, Hr.
Qed.

Lemma first_log fs g g' : 0 < ri_delaySeconds g → ri_demoFile g = None → ri_demoFileSizeLog g = None →
  updateFileSizeLog path fs g = Ok g' → ri_delaySeconds g' = ri_delaySeconds g ∧
  (ri_demoFileSizeLog g' = None ∨ ∃ x, ri_demoFileSizeLog g' = Some [x]).
Proof.
  intros Hd Hf Hl. unfold updateFileSizeLog. rewrite Hf, Hl. destruct (findReplayFileForGame path fs (ri_gameId g)) as [f|].
  - destruct (ri_delaySeconds g =? 2147483647); [done|]. rewrite dequeue_to_drop by lia. rewrite res_bind_ok. intros [= <-].
    cbn [ri_delaySeconds ri_demoFileSizeLog app length]. split; [done|]. right. eexists.
    by replace (1 - Z.to_nat (1 + ri_delaySeconds g))%nat with 0%nat by lia.
  - intros [= <-]. auto.
Qed.
(** a user without a game is served up to the rate *)
Lemma unsubscribed_service fs games u : ru_demoFile u = Some (mkStream (Some ino) 0) → games !! ru_gameId u = None →
  0 < max < 2147483648 → bytesToWrite u < max → default [] (fs_data fs !! ino) ≠ [] → ∃ u' chunks pos,
  serviceUser max fs games u = Ok u' ∧ ru_demoFile u' = Some (mkStream (Some ino) pos) ∧ 0 < pos ∧
  concat chunks = segment 0 pos (default [] (fs_data fs !! ino)) ∧
  ru_written u' = (if ru_open u then ru_written u ++ concat (send <$> (data_command <$> chunks)) else ru_written u).
Proof.
  intros Ef Eg Hmax Hb Hne. unfold serviceUser, dataEscrowThreshold. rewrite Ef, Eg. cbn [tellg is_file is_pos].
  rewrite (s32_id 0) by lia. rewrite s32_id by lia. set (f := mkStream (Some ino) 0).
  destruct (send_loop_spec max fs (0 + max) (S (length (contents fs f))) f u) as
    (chunks & pos & u' & E & Eu & Hc & Hle & Ecs & Elen & _ & _ & Hx); [cbn; lia|done|lia|].
  rewrite E, res_bind_ok. destruct (send_chunks_same chunks u) as (_ & _ & _ & Ego & _ & Ew). rewrite <- Eu in *.
  exists (ru_set_file (Some (seek pos f)) u'), chunks, pos. cbn [fst snd ru_set_file ru_demoFile ru_written].
  split_and!; try done. destruct chunks as [|c chunks].
  - exfalso. unfold send_chunks in Eu. cbn in Eu, Elen, Hle. subst u'. destruct (default [] (fs_data fs !! ino)) as [|x l] eqn:El; [done|].
    destruct Hx as [Hx|[Hx|Hx]]; [done|lia|cbn; lia|lia|lia|]. unfold f, contents in Hx. cbn [is_file from_option] in Hx.
    rewrite El in Hx. cbn [length] in Hx. lia.
  - apply Forall_cons in Hc as [[Hc _] _]. cbn [concat] in Elen. rewrite length_app in Elen. destruct c; [done|]. cbn [length is_pos f] in Elen. cbn in Elen. lia.
Qed.

(** a viewer who asks for a game after its demo file was made, and before the server
    has looked at the file for the first time, is told that the game is not found, but
    keeps the file open without being subscribed to a game: from the next second on he
    receives it as it grows, while the delay of the game lets nobody see anything yet. *)
Theorem early_subscriber_sees_live (fs fs' : Files) (s s'' : TaReplayServer) (k : Z) (u : UserContext) (g : GameInfo) :
  is_u32 gid → rs_users s !! k = Some u → fresh (ru_gpgNetParser u) → ru_gameId u = 0 → rs_gameInfo s !! 0 = None →
  0 < max < 2147483648 → bytesToWrite u + overhead < max →
  rs_gameInfo s !! gid = Some g → ri_gameId g = gid → 0 < ri_delaySeconds g → ri_demoFile g = None → ri_demoFileSizeLog g = None →
  findReplayFileForGame path fs gid = Some (mkStream (Some ino) 0) → default [] (fs_data fs' !! ino) ≠ [] → ∃ s',
  onReadyRead path fs k (send (subscribe_command gid 0)) s = Ok s' ∧ (timerEvent path max fs' s' = Ok s'' →
  dataEscrowThreshold max (rs_gameInfo s'') gid (mkStream (Some ino) 0) = None ∧
  ∃ u'' chunks pos, rs_users s'' !! k = Some u'' ∧ ru_demoFile u'' = Some (mkStream (Some ino) pos) ∧ 0 < pos ∧
  concat chunks = segment 0 pos (default [] (fs_data fs' !! ino)) ∧
  ru_written u'' = if ru_open u then ru_written u ++ sendCommand (str "ReplayServerData") 2 ++
    sendArgument_int (status_code GAME_NOT_FOUND) ++ sendArgument_bytes [] ++ concat (send <$> (data_command <$> chunks)) else ru_written u).
Proof.
  intros Hg Eu Hq Eg0 E0 Hmax Hb Eg Ei Hd Ef El Efs Hne.
  destruct (subscription_arrives fs k gid 0 s u Hg ltac:(unfold is_u32; lia) Eu Hq) as (q & _ & Hr).
  set (u1 := ru_set_parser q (sendData GAME_NOT_FOUND [] (ru_set_file (Some (mkStream (Some ino) 0)) u))).
  eexists. split; [exact Hr|]. intros E. unfold timerEvent in E. apply res_bind_inv in E as (games & Egs & E).
  apply res_bind_inv in E as (users & Eus & [= <-]). cbn [on_user rs_gameInfo rs_users] in *.
  pose proof (for_all_entries _ _ _ gid Egs) as H1. rewrite Eg in H1. destruct H1 as (g' & Eg' & Egs').
  pose proof (for_all_entries _ _ _ 0 Egs) as H2. rewrite E0 in H2.
  destruct (first_log fs' g g' Hd Ef El Eg') as [Edel Hlog]. split.
  { unfold dataEscrowThreshold. rewrite Egs'. destruct Hlog as [-> | [x ->]]; [done|]. cbn [length].
    by rewrite (proj2 (Z.ltb_ge _ _)) by lia. }
  pose proof (for_all_entries _ _ _ k Eus) as H3. rewrite !lookup_alter, !decide_True, Eu in H3 by done. cbn [fmap option_fmap option_map] in H3.
  assert (subscribe path fs (rs_gameInfo s) (mkSubscribe gid 0) u = sendData GAME_NOT_FOUND [] (ru_set_file (Some (mkStream (Some ino) 0)) u)) as Es.
  { unfold subscribe. cbn [sb_gameId]. rewrite Eg, (proj2 (Z.ltb_ge _ _)), Efs, El by lia. done. }
  rewrite Es in H3. fold u1 in H3. destruct H3 as (u2 & E2 & E3).
  assert (ru_demoFile u1 = Some (mkStream (Some ino) 0)) as Ef1 by done. rewrite Ef1 in E2.
  destruct (unsubscribed_service fs' games u1) as (u3 & chunks & pos & E4 & E5 & Hpos & Ecs & Ew); try done.
  { cbn. by rewrite Eg0. }
  { assert (bytesToWrite u1 ≤ bytesToWrite u + overhead); [|lia]. assert (0 ≤ overhead) by (unfold overhead; lia).
    unfold bytesToWrite, u1. cbn [ru_set_parser sendData ru_write ru_set_file ru_written ru_gone ru_open].
    destruct (ru_open u); [|lia]. rewrite <- !(assoc_L (++)), length_app.
    assert (Z.of_nat (length (sendCommand (str "ReplayServerData") 2 ++ sendArgument_int (status_code GAME_NOT_FOUND) ++ sendArgument_bytes [])) = overhead) by (vm_compute; reflexivity).
    lia. }
  rewrite E4 in E2. injection E2 as <-. exists u3, chunks, pos. split_and!; try done.
  rewrite Ew. unfold u1. cbn [ru_set_parser sendData ru_write ru_set_file ru_written ru_open].
  destruct (ru_open u); [|done]. by rewrite <- !(assoc_L (++)).
Qed.
End Early.

(** ** An example: game 7 and its file, which is [n] bytes long *)
Definition ex_path (g : Z) : bytes := [g].
Definition ex_files (n : nat) : Files :=
  mkFiles {[ [7] ++ str ".part" := Some 0%nat ]} {[ 0%nat := Z.of_nat <$> seq 0 n ]}.
Lemma ex_files_size n : size 0 (ex_files n) = Z.of_nat n.
Proof. unfold size, ex_files. cbn [fs_data]. rewrite lookup_singleton_eq. cbn. by rewrite length_fmap, length_seq. Qed.
Lemma ex_files_ok n : Z.of_nat n < 2147483648 → env_ok ex_path 7 0 (ex_files n).
Proof.
  intros Hn. split_and!; [right; vm_compute; reflexivity| |by rewrite ex_files_size].
  intros g f Hg. unfold findReplayFileForGame, ex_files. cbn [fs_names]. rewrite !lookup_singleton_ne; [done|..].
  - unfold ex_path. vm_compute. intros [= H]. 
  - unfold ex_path. vm_compute. congruence.
Qed.
(** seconds 10 and 20 bytes long, a delay of one second, one viewer *)
Definition ex_before : TaReplayServer :=
  mkReplay ∅ {[ 7 := mkInfo 7 1 (str "live") (Some (mkStream (Some 0%nat) 0)) (Some [10; 20]) ]}.
Definition ex_or (r : res TaReplayServer) : TaReplayServer := match r with Ok s => s | _ => TaReplayServer_make end.
Definition ex_subscribed : TaReplayServer :=
  ex_or (onReadyRead (H:=ex_qt) ex_path (ex_files 25) 3 (send (subscribe_command 7 0)) (onNewConnection [3] ex_before)).
Definition ex_served : TaReplayServer := ex_or (timerEvent ex_path 5000 (ex_files 30) ex_subscribed).
Lemma ex_runs_before : runs (H:=ex_qt) ex_path 7 1 0 5000 [20; 10] ex_before.
Proof.
  apply runs_start.
  - exists (str "live"). vm_compute. reflexivity.
  - split; [repeat (apply SSorted_cons; [|repeat (apply Forall_cons; split; [lia|]); apply Forall_nil; exact I]); apply SSorted_nil|].
    repeat (apply Forall_cons; split; [lia|]). apply Forall_nil. exact I.
  - apply map_Forall_empty.
Qed.
Lemma ex_runs_subscribed : runs (H:=ex_qt) ex_path 7 1 0 5000 [20; 10] ex_subscribed.
Proof.
  apply (runs_data _ _ _ _ _ _ (onNewConnection [3] ex_before) (ex_files 25) 3 (send (subscribe_command 7 0))).
  - apply runs_connect. exact ex_runs_before.
  - apply ex_files_ok. lia.
  - vm_compute. reflexivity.
Qed.
Definition ex_viewer : UserContext := default UserContext_make (rs_users ex_subscribed !! 3).
Lemma live_delay_witness : ∃ u' chunks pos',
  rs_users ex_served !! 3 = Some u' ∧ ru_demoFile u' = Some (mkStream (Some 0%nat) pos') ∧ 0 ≤ pos' ≤ 20 ∧
  concat chunks = segment 0 pos' (Z.of_nat <$> seq 0 30) ∧
  ru_written u' = concat (send <$> (data_command <$> chunks)).
Proof.
  destruct (live_delay (H:=ex_qt) ex_path 7 1 0 ltac:(lia) 5000 [20; 10] ex_subscribed ex_served (ex_files 30) 3 ex_viewer 0) as
    (u' & chunks & pos' & H1 & H2 & H3 & H4 & H5 & _).
  - exact ex_runs_subscribed.
  - apply ex_files_ok. lia.
  - rewrite ex_files_size. cbn. lia.
  - vm_compute. reflexivity.
  - vm_compute. reflexivity.
  - vm_compute. reflexivity.
  - exists u', chunks, pos'. split_and!; [exact H1|exact H2|apply H3|apply H3|exact H4|exact H5].
Defined.

(** a delay of a minute, and a viewer who is early *)
Definition ex_new_game : TaReplayServer :=
  mkReplay {[ 3 := UserContext_make ]} {[ 7 := mkInfo 7 60 (str "live") None None ]}.
Definition ex_refused : TaReplayServer :=
  ex_or (onReadyRead (H:=ex_qt) ex_path (ex_files 0) 3 (send (subscribe_command 7 0)) ex_new_game).
Definition ex_early : TaReplayServer := ex_or (timerEvent ex_path 5000 (ex_files 5) ex_refused).
Lemma early_subscriber_sees_live_witness : ∃ u'' chunks pos,
  rs_users ex_early !! 3 = Some u'' ∧ 0 < pos ∧ concat chunks = segment 0 pos (Z.of_nat <$> seq 0 5) ∧
  dataEscrowThreshold 5000 (rs_gameInfo ex_early) 7 (mkStream (Some 0%nat) 0) = None.
Proof.
  destruct (early_subscriber_sees_live (H:=ex_qt) ex_path 5000 7 0 (ex_files 0) (ex_files 5) ex_new_game ex_early 3 UserContext_make
    (mkInfo 7 60 (str "live") None None)) as (s' & E & Ht); try reflexivity; try (cbn; lia).
  - unfold is_u32. lia.
  - split_and!; reflexivity.
  - intros E. vm_compute in E. discriminate E.
  - assert (onReadyRead (H:=ex_qt) ex_path (ex_files 0) 3 (send (subscribe_command 7 0)) ex_new_game = Ok ex_refused) as E2 by (vm_compute; reflexivity).
    assert (s' = ex_refused) as -> by (rewrite E in E2; by apply Ok_inj).
    destruct Ht as (H1 & u'' & chunks & pos & H2 & _ & H3 & H4 & _).
    + vm_compute. reflexivity.
    + exists u'', chunks, pos. split_and!; [exact H2|exact H3|exact H4|exact H1].
Defined.
