(* ===== verification/TaReplayClient.v ===== *)
(** * The viewer of a live replay (TaReplayClient.cpp)

    The client subscribes to a game, keeps what it receives in a file that a demo reader
    follows, and asks for the rest when it has to connect again. *)
From S2P Require Import Prelude OrderedMaps Resumable GpgNetParse GpgNetStream GpgNetMessages TaReplayServer TaReplayFacts.

Inductive SocketState : Set := Unconnected | Connecting | Connected.
(** what the handler of a command changes *)
Record Buffer := mkBuffer {
  m_position : Z;
  rc_file : bytes;                         (* written through m_replayBufferOStream *)
  gameNotFound : list TaReplayServerStatus }.   (* emitted *)
Record TaReplayClient := mkReplayClient {
  m_tafGameId : Z;
  rc_socket : SocketState;
  rc_available : bytes;                    (* what the socket has received and nobody has read *)
  rc_parser : GpgNetParse.GpgNetParse;
  rc_buffer : Buffer;
  rc_flushed : nat;                        (* how much of the file its readers are sure to find *)
  rc_sent : bytes }.                       (* written to the connection *)
(** [m_tafGameId] has 16 bits *)
Definition TaReplayClient_make (tafGameId position : Z) : TaReplayClient :=
  mkReplayClient (u16 tafGameId) Unconnected [] GpgNetParse_init (mkBuffer position [] []) 0 [].

Definition sendSubscribe (gameId position : Z) : bytes :=
  sendCommand (str "ReplayServerSubscribe") 2 ++ sendArgument_int gameId ++ sendArgument_int position.
(** [connectToHost] forgets what the last connection left *)
Definition connect (c : TaReplayClient) : TaReplayClient :=
  match rc_socket c with
  | Unconnected => mkReplayClient (m_tafGameId c) Connecting [] (rc_parser c) (rc_buffer c) (rc_flushed c) []
  | _ => c
  end.
Definition timerEvent (c : TaReplayClient) : TaReplayClient := connect c.
Definition onSocketStateChanged (state : SocketState) (c : TaReplayClient) : TaReplayClient :=
  mkReplayClient (m_tafGameId c) state (rc_available c) (rc_parser c) (rc_buffer c) (rc_flushed c)
    (match state with
     | Connected => rc_sent c ++ sendSubscribe (m_tafGameId c) (m_position (rc_buffer c))
     | _ => rc_sent c
     end).

Section Client.
Context `{Qt}.

Definition TaReplayServerData_set (command : list Variant) : res TaReplayServerData :=
  _ ← check_ID "ReplayServerData" command;
  status ← arg command 1; data ← arg command 2;
  Ok (mkData (status_of (toUInt status)) (toByteArray data)).
(** the body of the loop, after [GetCommand] *)
Definition on_data (command : list Variant) (b : Buffer) : res unit * Buffer :=
  match arg command 0 with
  | Ok v =>
      if bool_decide (toString v = str "ReplayServerData") then
        match TaReplayServerData_set command with
        | Ok msg =>
            (Ok tt, match sd_status msg with
                    | OK => mkBuffer (u32 (m_position b + Z.of_nat (length (sd_data msg)))) (rc_file b ++ sd_data msg) (gameNotFound b)
                    | status => mkBuffer (m_position b) (rc_file b) (gameNotFound b ++ [status])
                    end)
        | Throw e => (Throw e, b) | Undef => (Undef, b) | Hang => (Hang, b)
        end
      else (Ok tt, b)
  | Throw e => (Throw e, b) | Undef => (Undef, b) | Hang => (Hang, b)
  end.
(** the file is flushed unless the loop ends by an exception *)
Definition onReadyRead (arrived : bytes) (c : TaReplayClient) : res unit * TaReplayClient :=
  let '(x, p, b, rest) := receive on_data (rc_parser c) (rc_buffer c) (rc_available c ++ arrived) in
  let c' flushed := mkReplayClient (m_tafGameId c) (rc_socket c) rest p b flushed (rc_sent c) in
  match x with
  | Ok _ => (Ok tt, c' (length (rc_file b)))
  | Throw _ => (Ok tt, c' (rc_flushed c))
  | Undef => (Undef, c' (rc_flushed c))
  | Hang => (Hang, c' (rc_flushed c))
  end.
Fixpoint onReadyReads (pieces : list bytes) (c : TaReplayClient) : res unit * TaReplayClient :=
  match pieces with
  | [] => (Ok tt, c)
  | b :: pieces => match onReadyRead b c with (Ok _, c) => onReadyReads pieces c | r => r end
  end.

(** ** What arrives is what was sent *)
Lemma on_data_ok d b : on_data (received (data_command d)) b =
  (Ok tt, mkBuffer (u32 (m_position b + Z.of_nat (length d))) (rc_file b ++ d) (gameNotFound b)).
Proof.
  unfold on_data, received, data_command, arg. cbn [fst snd lookup list_lookup]. rewrite str_ascii by done.
  rewrite bool_decide_true by done. unfold TaReplayServerData_set. rewrite check_ID_ok by done. unfold arg.
  cbn [lookup list_lookup]. rewrite !res_bind_ok, toUInt_uint by (unfold is_u32; lia). cbn [sd_status sd_data status_of].
  by rewrite toByteArray_bytes.
Qed.
Lemma handle_data chunks b : ∃ b', handle_all on_data (data_command <$> chunks) b = (Ok tt, b') ∧
  rc_file b' = rc_file b ++ concat chunks ∧ gameNotFound b' = gameNotFound b ∧
  (is_u32 (m_position b) → m_position b' = u32 (m_position b + Z.of_nat (length (concat chunks)))).
Proof.
  revert b. induction chunks as [|d chunks IH]; intros b; cbn [fmap list_fmap handle_all concat].
  - exists b. split_and!; [done|by rewrite app_nil_r|done|]. intros Hp. cbn. by rewrite Z.add_0_r, u32_id.
  - rewrite on_data_ok. destruct (IH (mkBuffer (u32 (m_position b + Z.of_nat (length d))) (rc_file b ++ d) (gameNotFound b))) as (b' & E & E1 & E2 & E3).
    exists b'. split; [done|]. cbn [rc_file gameNotFound m_position] in *. split_and!; [by rewrite E1, (assoc_L (++))|done|].
    intros _. rewrite E3 by apply u32_bound. rewrite length_app. unfold u32. rewrite Zplus_mod_idemp_l. f_equal. lia.
Qed.
Lemma chunk_wf d : is_chunk d → command_wf (data_command d).
Proof.
  intros [_ Hd]. split_and!; [unfold short, MAX_RECORD_SIZE; cbn; lia|cbn; unfold MAX_NUM_ARGS; lia|].
  apply Forall_cons. split; [unfold arg_wf, is_u32; lia|]. apply Forall_singleton. unfold arg_wf, short, MAX_RECORD_SIZE, CHUNK_SIZE in *. lia.
Qed.

Lemma viewer_reads_chunks pieces : ∀ c p b inp, on_chunks on_data (rc_parser c) (rc_buffer c) (rc_available c) pieces = (Ok tt, p, b, inp) → ∃ c',
  onReadyReads pieces c = (Ok tt, c') ∧ rc_parser c' = p ∧ rc_buffer c' = b ∧ rc_available c' = inp ∧
  m_tafGameId c' = m_tafGameId c ∧ rc_socket c' = rc_socket c.
Proof.
  induction pieces as [|d pieces IH]; intros c p b inp E; cbn [on_chunks onReadyReads] in *.
  - injection E as <- <- <-. by exists c.
  - unfold onReadyRead. unfold on_chunk in E. destruct (receive _ _ _ (rc_available c ++ d)) as [[[[[]|[]| |] p1] b1] i1]; try done.
    all: by match goal with |- context [onReadyReads _ ?c1] => destruct (IH c1 p b inp E) as (c2 & H1); exists c2 end.
Qed.
(** a part of the chunks that the server sent arrives, at the start of a connection *)
Lemma data_arrives c chunks pieces later : fresh (rc_parser c) → rc_available c = [] → Forall is_chunk chunks →
  concat pieces ++ later = concat (send <$> (data_command <$> chunks)) → is_u32 (m_position (rc_buffer c)) → ∃ c' chunks0 chunks1 q v,
  onReadyReads pieces c = (Ok tt, c') ∧ chunks = chunks0 ++ chunks1 ∧
  rc_file (rc_buffer c') = rc_file (rc_buffer c) ++ concat chunks0 ∧
  m_position (rc_buffer c') = u32 (m_position (rc_buffer c) + Z.of_nat (length (concat chunks0))) ∧
  m_tafGameId c' = m_tafGameId c ∧ rc_socket c' = rc_socket c ∧ rc_available c' = [] ∧
  fresh q ∧ has_read q v (rc_parser c') ∧ v ++ later = concat (send <$> (data_command <$> chunks1)) ∧
  (∀ d ds, chunks1 = d :: ds → (length v < length (send (data_command d)))%nat).
Proof.
  intros Hq Ha Hc E Hp. destruct (handle_data chunks (rc_buffer c)) as (b & Hb & _).
  destruct (chunks_prefix on_data pieces (data_command <$> chunks) (rc_parser c) [] (rc_parser c) later (rc_buffer c) b Hq) as
    (p1 & w1 & q1 & v1 & cs0 & cs1 & R & Hq1 & Hp1 & Ecs & H0 & H1 & E1 & Hv1); try done.
  { split; [by apply fresh_ok|done]. } { apply Forall_fmap. apply (Forall_impl _ _ _ Hc). by intros d Hd; apply chunk_wf. }
  { intros x l _. cbn [length]. unfold send, sendCommand, put_bytes. rewrite !length_app, !length_le4. lia. }
  apply fmap_app_inv in Ecs as (ch0 & ch1 & -> & -> & ->).
  destruct (viewer_reads_chunks pieces c p1 w1 []) as (c' & E2 & <- & <- & E3 & E4 & E5); [by rewrite Ha|].
  destruct (handle_data ch0 (rc_buffer c)) as (b0 & Hb0 & F1 & F2 & F3). rewrite H0 in Hb0. injection Hb0 as <-.
  exists c', ch0, ch1, q1, v1. split_and!; try done.
  - by apply F3.
  - intros d ds ->. by apply (Hv1 (data_command d) (data_command <$> ds)).
Qed.

(** The download: of what the server sends, [chunks], there is [pending] still to come.
    The file has the chunks that are complete, and all of it is flushed when no part of a
    further chunk has been read. *)
Definition downloads (chunks : list bytes) (pending : bytes) (c : TaReplayClient) : Prop := ∃ q v chunks0 chunks1,
  fresh q ∧ has_read q v (rc_parser c) ∧ rc_available c = [] ∧ chunks = chunks0 ++ chunks1 ∧ rc_file (rc_buffer c) = concat chunks0 ∧
  v ++ pending = concat (send <$> (data_command <$> chunks1)) ∧ (∀ d ds, chunks1 = d :: ds → (length v < length (send (data_command d)))%nat) ∧
  (rc_flushed c ≤ length (rc_file (rc_buffer c)))%nat ∧ (v = [] → rc_flushed c = length (rc_file (rc_buffer c))).
Lemma send_nonempty x : (0 < length (send x))%nat.
Proof. unfold send, sendCommand, put_bytes. rewrite !length_app, !length_le4. lia. Qed.
Lemma downloads_start gid position chunks : downloads chunks (concat (send <$> (data_command <$> chunks))) (TaReplayClient_make gid position).
Proof.
  exists GpgNetParse_init, [], [], chunks. split_and!; try done; [split; [by apply fresh_ok|done]|intros d ds _; apply send_nonempty].
Qed.
Lemma downloads_step chunks data pending c : Forall is_chunk chunks → downloads chunks (data ++ pending) c → ∃ c',
  onReadyRead data c = (Ok tt, c') ∧ downloads chunks pending c' ∧ gameNotFound (rc_buffer c') = gameNotFound (rc_buffer c).
Proof.
  intros Hch (q & v & chunks0 & chunks1 & Hq & Hp & Ha & -> & Ef & E & Hv & Hl & _). apply Forall_app in Hch as [_ Hch].
  destruct (handle_data chunks1 (rc_buffer c)) as (b & Hb & _).
  destruct (receive_stream on_data (data_command <$> chunks1) q v (rc_parser c) data pending (rc_buffer c) b (S (length data)) Hq Hp) as
    (x & p1 & w1 & q1 & v1 & cs1 & R & Hx & Hq1 & Hp1 & _ & E1 & Hv1 & _ & cs0 & Ecs & H0); try done.
  { apply Forall_fmap. apply (Forall_impl _ _ _ Hch). by intros d Hd; apply chunk_wf. }
  { intros y l Ey. destruct chunks1 as [|d ds]; [done|]. injection Ey as <- <-. by apply (Hv d ds). }
  { lia. }
  apply fmap_app_inv in Ecs as (ch0 & ch1 & -> & -> & ->).
  destruct (handle_data ch0 (rc_buffer c)) as (b0 & Hb0 & F1 & F2 & _). rewrite H0 in Hb0. injection Hb0 as <-.
  assert (∀ flushed, (flushed ≤ length (rc_file w1))%nat → (v1 = [] → flushed = length (rc_file w1)) →
    downloads (chunks0 ++ ch0 ++ ch1) pending (mkReplayClient (m_tafGameId c) (rc_socket c) [] p1 w1 flushed (rc_sent c))) as Hd.
  { intros flushed H1 H2. exists q1, v1, (chunks0 ++ ch0), ch1. split_and!; try done; [by rewrite (assoc_L (++))|by rewrite concat_app, <- Ef|].
    intros d ds ->. by apply (Hv1 (data_command d) (data_command <$> ds)). }
  unfold onReadyRead. rewrite Ha. cbn [app]. unfold receive. rewrite R. rewrite F1, length_app in Hd.
  destruct Hx as [-> | [-> Hne]]; (eexists; split; [reflexivity|]; split; [|exact F2]); apply Hd; try done; try lia; by rewrite F1, length_app.
Qed.
(** when nothing is to come all is there *)
Lemma downloads_end chunks pending c : downloads chunks pending c → rc_file (rc_buffer c) `prefix_of` concat chunks ∧
  (pending = [] → rc_file (rc_buffer c) = concat chunks ∧ rc_flushed c = length (concat chunks)).
Proof.
  intros (q & v & chunks0 & chunks1 & _ & _ & _ & -> & Ef & E & Hv & _ & Hfl). rewrite Ef, concat_app. split; [by apply prefix_app_r|].
  intros ->. rewrite app_nil_r in E. assert (chunks1 = []) as ->.
  { destruct chunks1 as [|d ds]; [done|]. specialize (Hv d ds eq_refl). rewrite E in Hv. cbn [fmap list_fmap concat] in Hv. rewrite length_app in Hv. lia. }
  rewrite app_nil_r. split; [done|]. rewrite <- Ef. by apply Hfl.
Qed.
End Client.

(** ** A viewer's file *)
Section Viewer.
Context `{Qt} (path : Z → bytes) (max gid d : Z) (ino : nat) (Hd : 0 ≤ d < 2147483647) (k : Z).
Abbreviation runs := (runs path gid d ino max).

(** what becomes of the connection [k] after [s1], when the demo file held [content1]:
    seconds pass in which the file grows, data leaves, and the rest of the server goes on *)
Inductive after (hist1 : list Z) (content1 : bytes) (s1 : TaReplayServer) : list Z → bytes → TaReplayServer → Prop :=
  | after_now : after hist1 content1 s1 hist1 content1 s1
  | after_second hist content s fs s' : after hist1 content1 s1 hist content s → env_ok path gid ino fs →
      from_option (λ x, x ≤ size ino fs) True (head hist) → content `prefix_of` default [] (fs_data fs !! ino) →
      TaReplayServer.timerEvent path max fs s = Ok s' →
      after hist1 content1 s1 (size ino fs :: hist) (default [] (fs_data fs !! ino)) s'
  | after_drained hist content s n : after hist1 content1 s1 hist content s → after hist1 content1 s1 hist content (drained k n s)
  | after_others hist content s s' : after hist1 content1 s1 hist content s → runs hist s' →
      rs_users s' !! k = rs_users s !! k → after hist1 content1 s1 hist content s'.

(** the connection has been sent the file from [p0] up to [pos], and nothing else *)
Definition streamed (p0 : Z) (hist : list Z) (content : bytes) (s : TaReplayServer) : Prop := ∃ u chunks pos,
  rs_users s !! k = Some u ∧ ru_demoFile u = Some (mkStream (Some ino) pos) ∧ ru_open u = true ∧
  Forall is_chunk chunks ∧ ru_written u = concat (send <$> (data_command <$> chunks)) ∧
  concat chunks = segment p0 pos content ∧ 0 ≤ p0 ≤ pos ∧ pos ≤ Z.of_nat (length content) ∧ pos ≤ delayed d hist.

Lemma after_streamed p0 hist1 content1 s1 hist content s : runs hist1 s1 → streamed p0 hist1 content1 s1 →
  after hist1 content1 s1 hist content s → runs hist s ∧ streamed p0 hist content s.
Proof.
  intros Hr1 Hs1. induction 1 as [|hist content s fs s' _ [Hr (u & chunks & pos & Ek & Ef & Eo & Hc & Ew & Ecs & Hp & Hpos & Hdel)] He Hx Hpre E|
    hist content s n _ [Hr (u & chunks & pos & Ek & Ef & Eo & Hc & Ew & Ecs & Hp & Hpos & Hdel)]|hist content s s' _ [Hr Hst] Hr' Ek]; [done|..].
  - assert (runs (size ino fs :: hist) s') as Hr' by (by apply (runs_second _ _ _ _ _ _ s)). split; [done|].
    pose proof (runs_ok path gid d ino Hd max hist s Hr) as Hs.
    destruct (timer_ok path gid d ino Hd max fs hist s s' He Hs) as [_ H1]; [apply (hist_ok_cons path gid); [done|apply Hs|done]|done|].
    destruct (H1 k u pos Ek Ef) as (u' & Ek' & H2 & _). destruct (H2 pos Ef) as (ch & pos' & Ef' & Eo' & Hle & Hch & Es & Ew').
    rewrite Eo in Ew', Eo'.
    assert (Z.of_nat (length content) ≤ size ino fs) as Hlen by (destruct Hpre as [z Ez]; unfold size; rewrite Ez, length_app; lia).
    assert (pos' ≤ size ino fs) as Hsz.
    { pose proof (runs_ok path gid d ino Hd max _ _ Hr') as (_ & Hh & _). pose proof (delayed_head d (size ino fs) hist Hh). lia. }
    exists u', (chunks ++ ch), pos'. split_and!; try done; try lia; try (unfold size in Hsz; lia).
    + by apply Forall_app.
    + by rewrite Ew', Ew, !fmap_app, concat_app.
    + rewrite concat_app, Ecs, Es. rewrite <- (segment_prefix p0 pos content _ Hpos Hp Hpre). apply segment_app; lia.
  - split; [by apply runs_drained|]. exists (mkViewer (ru_gameId u) (ru_gpgNetParser u) (ru_demoFile u) (ru_enableLogWarn u) (ru_open u)
      (ru_written u) (ru_gone u + Z.max 0 (Z.min n (bytesToWrite u)))), chunks, pos. split_and!; try done; try lia.
    cbn [drained rs_users]. by rewrite lookup_alter_eq, Ek.
  - split; [done|]. unfold streamed. by rewrite Ek.
Qed.

(** a client connects and asks for what it does not have *)
Lemma connects_and_subscribes hist0 s0 fs0 c : runs hist0 s0 → rs_users s0 !! k = None → env_ok path gid ino fs0 →
  findReplayFileForGame path fs0 gid = Some (mkStream (Some ino) 0) → (Z.to_nat d < length hist0)%nat → is_u32 gid →
  m_tafGameId c = gid → rc_socket c = Unconnected → 0 ≤ m_position (rc_buffer c) ≤ delayed d hist0 →
  from_option (λ x, x ≤ size ino fs0) True (head hist0) → ∃ s1,
  TaReplayServer.onReadyRead path fs0 k (rc_sent (onSocketStateChanged Connected (connect c))) (accept s0 k) = Ok s1 ∧
  runs hist0 s1 ∧ streamed (m_position (rc_buffer c)) hist0 (default [] (fs_data fs0 !! ino)) s1.
Proof.
  intros Hr Ek He Ef Hl Hg Eg Eu Hp Hx. set (p := m_position (rc_buffer c)) in *.
  pose proof (runs_ok path gid d ino Hd max hist0 s0 Hr) as (Hm & Hh & _). pose proof (delayed_bound d hist0 Hh) as Hb.
  assert (rc_sent (onSocketStateChanged Connected (connect c)) = send (subscribe_command gid p)) as Es.
  { unfold connect. rewrite Eu. unfold onSocketStateChanged. cbn [rc_sent m_tafGameId rc_buffer app]. rewrite Eg. fold p.
    unfold sendSubscribe, send, subscribe_command. cbn [fst snd length fmap list_fmap concat send_arg]. by rewrite app_nil_r. }
  rewrite Es. assert (is_u32 p) as Hp32 by (unfold is_u32; lia).
  assert (accept s0 k = set_user k UserContext_make s0) as Ea. { unfold accept. rewrite bool_decide_false; [done|]. rewrite Ek. by intros [? ?]. }
  destruct (subscription_arrives path fs0 k gid p (accept s0 k) UserContext_make Hg Hp32) as (q & _ & Hrr).
  { rewrite Ea. apply lookup_insert_eq. } { done. }
  eexists. split; [exact Hrr|]. split.
  { apply (runs_data _ _ _ _ _ _ (accept s0 k) fs0 k (send (subscribe_command gid p))); [|done..].
    apply (runs_connect _ _ _ _ _ _ _ [k] Hr). }
  assert (subscribe path fs0 (rs_gameInfo (accept s0 k)) (mkSubscribe gid p) UserContext_make =
    ru_set_gameId gid (ru_set_file (Some (mkStream (Some ino) p)) UserContext_make)) as Esub.
  { rewrite Ea. cbn [set_user rs_gameInfo]. destruct Hm as (st & E). pose proof (threshold_monitored gid d ino max s0 hist0 (mkStream None 0) (ex_intro _ st E)) as Ht.
    unfold dataEscrowThreshold in Ht. unfold subscribe. cbn [sb_gameId sb_position]. rewrite E in *. cbn [ri_delaySeconds ri_demoFileSizeLog] in *.
    rewrite (proj2 (Z.ltb_ge _ _)), Ef by lia. rewrite decide_True in Ht by done. destruct (reverse _) as [|front log]; [done|]. cbn [length].
    destruct (d <? Z.of_nat (S (length log))); [|done]. injection Ht as ->. rewrite u32_id by (unfold is_u32; lia). rewrite Z.min_l by lia. done. }
  exists (ru_set_parser q (ru_set_gameId gid (ru_set_file (Some (mkStream (Some ino) p)) UserContext_make))), [], p.
  cbn [on_user rs_users]. rewrite !lookup_alter_eq, Ea. cbn [set_user rs_users rs_gameInfo]. rewrite lookup_insert_eq. cbn [fmap option_fmap option_map].
  rewrite Ea in Esub. cbn [set_user rs_gameInfo] in Esub. rewrite Esub, segment_self. split_and!; try done; try lia.
  destruct hist0 as [|x hist]; [cbn in Hl; lia|]. pose proof (delayed_head d x hist Hh). cbn in Hx. unfold size in Hx. lia.
Qed.

(** C20: a viewer's file is a beginning of the demo: a client that is not connected, that
    has a parser which has read no part of a command, and has the first bytes of a game's
    demo file, connects and subscribes; then, however the file grows, whatever the other
    viewers do, and in whatever pieces what the server writes arrives, the client's file is
    again a beginning of the demo file, it is no longer than the demo was [d] seconds ago,
    the position the client will ask for is its end, and when all has arrived the two sides
    agree on it.  The server has watched the file for more than [d] seconds, and from when
    no viewer had it open; the file is no other game's, does not shrink and stays below 2 GB;
    the client is new to the server, asks for this game, and has no more than the delay
    allows.  (A client whose parser has read a part of a command when it
    connects again gets a corrupted file: [reconnect_corrupts].) *)
Theorem viewer_sees_demo (hist0 : list Z) (s0 : TaReplayServer) (fs0 : Files) (c : TaReplayClient) :
  runs hist0 s0 → rs_users s0 !! k = None → env_ok path gid ino fs0 →
  findReplayFileForGame path fs0 gid = Some (mkStream (Some ino) 0) → (Z.to_nat d < length hist0)%nat → is_u32 gid →
  from_option (λ x, x ≤ size ino fs0) True (head hist0) →
  m_tafGameId c = gid → rc_socket c = Unconnected → fresh (rc_parser c) →
  0 ≤ m_position (rc_buffer c) ≤ delayed d hist0 →
  rc_file (rc_buffer c) = segment 0 (m_position (rc_buffer c)) (default [] (fs_data fs0 !! ino)) → ∃ s1,
  let c1 := onSocketStateChanged Connected (connect c) in
  TaReplayServer.onReadyRead path fs0 k (rc_sent c1) (accept s0 k) = Ok s1 ∧
  ∀ hist content s u pieces later, after hist0 (default [] (fs_data fs0 !! ino)) s1 hist content s →
  rs_users s !! k = Some u → concat pieces ++ later = ru_written u → ∃ c' n,
  onReadyReads pieces c1 = (Ok tt, c') ∧ rc_file (rc_buffer c') = segment 0 n content ∧ m_position (rc_buffer c') = n ∧
  0 ≤ n ≤ delayed d hist ∧ (later = [] → ru_demoFile u = Some (mkStream (Some ino) n)).
Proof.
  intros Hr Ek He Ef Hl Hg Hx Eg Eu Hq Hp Efile.
  destruct (connects_and_subscribes hist0 s0 fs0 c Hr Ek He Ef Hl Hg Eg Eu Hp Hx) as (s1 & E1 & Hr1 & Hst).
  exists s1. split; [exact E1|]. intros hist content s u pieces later Ha Eku Ew.
  destruct (after_streamed _ _ _ _ _ _ _ Hr1 Hst Ha) as (Hrs & u' & chunks & pos & Eku' & Efu & Eo & Hc & Ew' & Ecs & Hp0 & Hpos & Hdel).
  rewrite Eku in Eku'. injection Eku' as <-. rewrite Ew' in Ew. set (p := m_position (rc_buffer c)) in *.
  pose proof (runs_ok path gid d ino Hd max hist s Hrs) as (_ & Hh & _). pose proof (delayed_bound d hist Hh) as Hb.
  set (c1 := onSocketStateChanged Connected (connect c)).
  assert (rc_parser c1 = rc_parser c ∧ rc_buffer c1 = rc_buffer c ∧ rc_available c1 = []) as (Ep & Eb & Ea).
  { unfold c1, connect. by rewrite Eu. }
  destruct (data_arrives c1 chunks pieces later) as (c' & ch0 & ch1 & q & v & R & Ech & Ef' & Epos & _ & _ & _ & _ & _ & Ev & Hv); try done.
  { by rewrite Ep. } { rewrite Eb. fold p. unfold is_u32. lia. }
  rewrite Eb in Ef', Epos. fold p in Epos. set (n := p + Z.of_nat (length (concat ch0))) in *.
  assert (Z.of_nat (length (concat ch0)) ≤ pos - p ∧ concat ch0 = segment p n content) as [Hn Esl].
  { assert (Z.of_nat (length (concat chunks)) = pos - p) as Hlen by (rewrite Ecs; apply length_segment; lia).
    rewrite Ech, concat_app, length_app in Hlen. split; [lia|].
    rewrite Ech, concat_app in Ecs. apply (f_equal (take (length (concat ch0)))) in Ecs. rewrite take_app_length in Ecs.
    rewrite Ecs at 1. unfold segment, n. rewrite take_take. f_equal. lia. }
  assert (0 ≤ n ≤ pos) as Hnp by lia. exists c', n. split_and!; try done; try lia.
  - rewrite Ef', Efile, Esl. rewrite <- (segment_prefix 0 p _ content); [apply segment_app; lia|..]; try lia.
    + destruct Hst as (? & ? & pos1 & _ & _ & _ & _ & _ & _ & H1 & H2 & _). lia.
    + clear - Ha. induction Ha as [|? ? ? fs ? _ IH _ _ Hpre _| |]; try done. by etrans.
  - rewrite Epos. apply u32_id. unfold is_u32. lia.
  - intros ->. rewrite app_nil_r in Ev. destruct ch1 as [|x ch1].
    + rewrite app_nil_r in Ech. subst chunks. assert (n = pos) as ->; [|done]. unfold n. rewrite Ecs, length_segment by lia. lia.
    + specialize (Hv x ch1 eq_refl). rewrite Ev in Hv. cbn [fmap list_fmap concat] in Hv. rewrite length_app in Hv. lia.
Qed.
End Viewer.

(** ** A connection that breaks in the middle of a chunk *)
Section Reconnect.
Context `{Qt}.

(** what has arrived of a command when the last [n] bytes of its data are missing *)
Definition broken_off (data : bytes) (n : nat) : bytes :=
  take (length (send (data_command data)) - n) (send (data_command data)).
Lemma broken_off_completed part rest new : length new = length rest →
  broken_off (part ++ rest) (length rest) ++ new = send (data_command (part ++ new)).
Proof.
  intros Hl. unfold broken_off, send, data_command. cbn [fst snd length fmap list_fmap concat send_arg]. rewrite !app_nil_r.
  unfold sendArgument_bytes, put_bytes. rewrite !length_app, Hl. rewrite !(assoc_L (++)). rewrite (take_app_le _ rest) by (rewrite !length_app; lia).
  rewrite take_ge by (rewrite !length_app; lia). done.
Qed.

(** the parser of the client is not reset: when a connection ends after [part] of a
    chunk, the client does not count that part, and asks the next connection to begin with
    the whole chunk again; but it takes the first bytes of that connection, whatever they
    say, for the bytes that were missing, and writes them into its file. *)
Theorem reconnect_corrupts (c : TaReplayClient) (part rest new : bytes) :
  fresh (rc_parser c) → rc_available c = [] → is_chunk (part ++ rest) → rest ≠ [] → is_u32 (m_position (rc_buffer c)) →
  length new = length rest → ∃ c1 c3,
  onReadyRead (broken_off (part ++ rest) (length rest)) c = (Ok tt, c1) ∧
  let c2 := onSocketStateChanged Connected (connect (onSocketStateChanged Unconnected c1)) in
  rc_sent c2 = sendSubscribe (m_tafGameId c) (m_position (rc_buffer c)) ∧
  onReadyRead new c2 = (Ok tt, c3) ∧ rc_file (rc_buffer c3) = rc_file (rc_buffer c) ++ part ++ new.
Proof.
  intros Hq Ha Hc Hne Hp Hl. assert (is_chunk (part ++ new)) as Hc'.
  { destruct Hc as [Hc1 Hc2]. split; [destruct part, new, rest; done|]. rewrite !length_app in *. lia. }
  pose proof (broken_off_completed part rest new Hl) as Es. set (v := broken_off (part ++ rest) (length rest)) in *.
  destruct (GetCommand_reads (rc_parser c) (data_command (part ++ new)) Hq (chunk_wf _ Hc')) as (q & Hg & Hq').
  destruct (partial_waits (rc_parser c) [] v (data_command (part ++ new)) new Hq (chunk_wf _ Hc') Es) with (p := rc_parser c) as (p1 & E1 & Hp1 & E2).
  { destruct new, rest; done. } { split; [by apply fresh_ok|done]. }
  assert (v ≠ []) as Hv.
  { intros Ev. rewrite Ev in Es. apply (f_equal length) in Es. unfold send, data_command, sendCommand, put_bytes, sendArgument_bytes in Es.
    cbn [fst snd fmap list_fmap concat send_arg app] in Es. unfold sendArgument_bytes, put_bytes in Es. rewrite !length_app, !length_le4 in Es. lia. }
  exists (mkReplayClient (m_tafGameId c) (rc_socket c) [] p1 (rc_buffer c) (rc_flushed c) (rc_sent c)).
  eexists. split.
  { unfold onReadyRead, receive. rewrite Ha. cbn [app]. destruct v as [|x v]; [done|]. cbn [receive_loop length]. by rewrite E1. }
  cbv zeta. unfold connect, onSocketStateChanged. cbn [rc_socket m_tafGameId rc_buffer rc_sent rc_parser rc_available rc_flushed app].
  split; [done|]. unfold onReadyRead, receive. cbn [rc_available rc_parser rc_buffer app m_tafGameId rc_socket rc_flushed rc_sent].
  specialize (E2 new). cbn [app] in E2. specialize (Hg []). rewrite app_nil_r in Hg. rewrite Es, Hg in E2.
  destruct new as [|x new]; [destruct rest; done|]. cbn [receive_loop length]. rewrite E2, on_data_ok. cbn [receive_loop].
  split; [reflexivity|]. cbn [rc_buffer rc_file]. reflexivity.
Qed.
End Reconnect.

(** ** Examples *)
Lemma reconnect_corrupts_witness : ∃ c1 c3,
  onReadyRead (H:=ex_qt) (broken_off [1; 2; 3; 4; 5; 6] 4) (TaReplayClient_make 7 0) = (Ok tt, c1) ∧
  onReadyRead (H:=ex_qt) [16; 0; 0; 0] (onSocketStateChanged Connected (connect (onSocketStateChanged Unconnected c1))) = (Ok tt, c3) ∧
  rc_file (rc_buffer c3) = [1; 2; 16; 0; 0; 0].
Proof.
  destruct (reconnect_corrupts (H:=ex_qt) (TaReplayClient_make 7 0) [1; 2] [3; 4; 5; 6] [16; 0; 0; 0]) as (c1 & c3 & H1 & _ & H2 & H3).
  - split_and!; reflexivity.
  - reflexivity.
  - split; [discriminate|]. vm_compute. discriminate.
  - discriminate.
  - unfold is_u32. cbn. lia.
  - reflexivity.
  - exists c1, c3. split; [exact H1|]. split; [exact H2|]. rewrite H3. reflexivity.
Defined.

(** the client of [ex_subscribed] has 20 of 30 bytes after a second *)
Definition ex_client : TaReplayClient := onSocketStateChanged Connected (connect (TaReplayClient_make 7 0)).
Definition ex_stream : bytes := ru_written (default UserContext_make (rs_users ex_served !! 3)).
Lemma viewer_sees_demo_witness : ∃ c' n,
  onReadyReads (H:=ex_qt) (pieces_of 9 40 ex_stream) ex_client = (Ok tt, c') ∧
  rc_file (rc_buffer c') = segment 0 n (Z.of_nat <$> seq 0 30) ∧ m_position (rc_buffer c') = n ∧ 0 ≤ n ≤ 20.
Proof.
  destruct (viewer_sees_demo (H:=ex_qt) ex_path 5000 7 1 0 ltac:(lia) 3 [20; 10] ex_before (ex_files 25) (TaReplayClient_make 7 0)) as (s1 & E1 & Hv).
  - exact ex_runs_before.
  - reflexivity.
  - apply ex_files_ok. lia.
  - vm_compute. reflexivity.
  - cbn. lia.
  - unfold is_u32. lia.
  - rewrite ex_files_size. cbn. lia.
  - reflexivity.
  - reflexivity.
  - split_and!; reflexivity.
  - vm_compute. split; discriminate.
  - reflexivity.
  - assert (TaReplayServer.onReadyRead (H:=ex_qt) ex_path (ex_files 25) 3 (rc_sent ex_client) (accept ex_before 3) = Ok ex_subscribed) as E2 by (vm_compute; reflexivity).
    assert (s1 = ex_subscribed) as -> by (unfold ex_client in E2; rewrite E1 in E2; by apply Ok_inj).
    destruct (Hv [size 0 (ex_files 30); 20; 10] (default [] (fs_data (ex_files 30) !! 0%nat)) ex_served
      (default UserContext_make (rs_users ex_served !! 3)) (pieces_of 9 40 ex_stream) []) as (c' & n & H1 & H2 & H3 & H4 & _).
    + eapply after_second; [apply after_now|..].
      * apply ex_files_ok. lia.
      * rewrite ex_files_size. cbn. lia.
      * exists (Z.of_nat <$> seq 25 5). vm_compute. reflexivity.
      * vm_compute. reflexivity.
    + vm_compute. reflexivity.
    + vm_compute. reflexivity.
    + exists c', n. split; [exact H1|]. split; [exact H2|]. split; [exact H3|exact H4].
Defined.
