(* ===== verification/LobbyClient.v ===== *)
(** * The client of the lobby server (TafLobbyClient.cpp, TafLobbyJsonProtocol.cpp)

    The replay server listens to the lobby, which tells it about the games.  A message is
    a JSON object, in UTF-16, as a byte array in a byte array.  JSON and the text codec are
    Qt's: the interface [QtJson].  The slots of the signals are an argument. *)
From S2P Require Import Prelude ExceptState OrderedMaps GpgNetParse GpgNetStream GpgNetMessages.
From coqutil Require Import Datatypes.RecordSetters.
Export RecordSetters.TriangleBracketNotations.
Open Scope record_set.
#[local] Open Scope Z_scope.

(** ** JSON *)

(** a number is known when it is an integer *)
Inductive json : Type :=
  | JNull
  | JBool (b : bool)
  | JNumber (n : option Z)
  | JString (s : bytes)
  | JArray (l : list json)
  | JObject (fields : list (bytes * json)).
Abbreviation QJsonObject := (list (bytes * json)).
Class QtJson := {
  QTextDecoder : Type;
  makeDecoder : QTextDecoder;
  toUnicode : QTextDecoder → bytes → bytes * QTextDecoder;   (* it keeps half a character *)
  fromJson : bytes → QJsonObject;          (* empty when the text is not an object *)
  fromUnicode_toJson : QJsonObject → bytes }.

Definition jvalue (key : bytes) (o : QJsonObject) : option json := snd <$> find (λ f, bool_decide (f.1 = key)) o.
Definition toInt (dflt : Z) (v : option json) : Z :=
  match v with Some (JNumber (Some n)) => if (-2147483648 <=? n) && (n <? 2147483648) then n else dflt | _ => dflt end.
Definition toString (v : option json) : bytes := match v with Some (JString s) => s | _ => [] end.
Definition toBool (v : option json) : bool := match v with Some (JBool b) => b | _ => false end.
Definition toArray (v : option json) : list json := match v with Some (JArray l) => l | _ => [] end.
Definition toObject (v : option json) : QJsonObject := match v with Some (JObject o) => o | _ => [] end.

(** ** Messages *)
Record TafLobbyPlayerInfo := mkPlayerInfo { lp_id : Z; lp_login : bytes }.
Definition TafLobbyPlayerInfo_of (o : QJsonObject) : TafLobbyPlayerInfo :=
  mkPlayerInfo (toInt 0 (jvalue (str "id") o)) (toString (jvalue (str "login") o)).
Record TafLobbyGameInfo := mkGameInfo {
  lg_id : Z; lg_host : bytes; lg_title : bytes; lg_featuredMod : bytes; lg_mapName : bytes; lg_mapFilePath : bytes;
  lg_gameType : bytes; lg_ratingType : bytes; lg_visibility : bytes; lg_passwordProtected : bool; lg_state : bytes;
  lg_replayDelaySeconds : Z; lg_numPlayers : Z; lg_maxPlayers : Z;
  lg_teams : gmap bytes (list bytes) }.
Definition teams_of (o : QJsonObject) : gmap bytes (list bytes) :=
  foldl (λ teams f, <[f.1 := (λ m, toString (Some m)) <$> toArray (Some f.2)]> teams) ∅ o.
Definition TafLobbyGameInfo_of (o : QJsonObject) : TafLobbyGameInfo :=
  let text key := toString (jvalue (str key) o) in
  mkGameInfo (toInt 0 (jvalue (str "uid") o)) (text "host"%string) (text "title"%string) (text "featured_mod"%string)
    (text "map_name"%string) (text "map_file_path"%string) (text "game_type"%string) (text "rating_type"%string)
    (text "visibility"%string) (toBool (jvalue (str "password_protected") o)) (text "state"%string)
    (toInt 300 (jvalue (str "replay_delay_seconds") o)) (toInt 0 (jvalue (str "num_players") o))
    (toInt 0 (jvalue (str "max_players") o)) (teams_of (toObject (jvalue (str "teams") o))).

Inductive lobby_signal : Type :=
  | notice (style text : bytes)
  | session (sessionId : Z)
  | welcome (me : TafLobbyPlayerInfo)
  | playerInfo (player : TafLobbyPlayerInfo)
  | gameInfo (game : TafLobbyGameInfo).

(** ** The wire: [QDataStream], big endian *)
Definition be4 (n : Z) : bytes := reverse (le4 n).
Definition qbytearray (b : bytes) : bytes := be4 (Z.of_nat (length b)) ++ b.
(** [stream >> bytes]; [None] when there is not enough.  A length of -1 is the null array. *)
Definition read_qbytearray (inp : bytes) : option (bytes * bytes) :=
  match inp with
  | b0 :: b1 :: b2 :: b3 :: rest =>
      let len := ((b0 * 256 + b1) * 256 + b2) * 256 + b3 in
      if len =? 4294967295 then Some ([], rest)
      else if (Z.to_nat len <=? length rest)%nat then Some (take (Z.to_nat len) rest, drop (Z.to_nat len) rest)
      else None
  | _ => None
  end.

Section Client.
Context `{QtJson}.

(** ** The client *)
Record TafLobbyClient := mkClient {
  lc_userAgentName : bytes; lc_userAgentVersion : bytes;
  lc_hostName : bytes; lc_port : Z;
  lc_unconnected : bool;                   (* the state of the socket *)
  lc_attempts : list (bytes * Z);          (* the calls of its [connectToHost] *)
  lc_unread : bytes;                       (* what waits in the socket *)
  lc_written : bytes;                      (* what was written to it *)
  lc_decoder : QTextDecoder }.
(** [m_port] has no initialiser *)
Definition TafLobbyClient_make (userAgentName userAgentVersion : bytes) (junk : Z) : TafLobbyClient :=
  mkClient userAgentName userAgentVersion [] junk true [] [] [] makeDecoder.
Definition connectToHost (hostName : bytes) (port : Z) (c : TafLobbyClient) : TafLobbyClient :=
  (c <| lc_hostName := hostName |>) <| lc_port := port |>.
Definition timerEvent (c : TafLobbyClient) : TafLobbyClient :=
  if lc_unconnected c && negb (bool_decide (lc_hostName c = [])) && (0 <? lc_port c)
  then (c <| lc_unconnected := false |>) <| lc_attempts ::= (λ l, l ++ [(lc_hostName c, lc_port c)]) |>
  else c.

Definition sendJson (o : QJsonObject) (c : TafLobbyClient) : TafLobbyClient :=
  c <| lc_written ::= (λ w, w ++ qbytearray (qbytearray (fromUnicode_toJson o))) |>.
(** the fields in the order of a [QJsonObject] *)
Definition sendAskSession (c : TafLobbyClient) : TafLobbyClient :=
  sendJson [(str "command", JString (str "ask_session")); (str "user_agent", JString (lc_userAgentName c));
            (str "version", JString (lc_userAgentVersion c))] c.
Definition sendHello (sessionId : Z) (uniqueId localIp login password : bytes) (c : TafLobbyClient) : TafLobbyClient :=
  sendJson [(str "command", JString (str "hello")); (str "local_ip", JString localIp); (str "login", JString login);
            (str "password", JString password); (str "session", JNumber (Some sessionId)); (str "unique_id", JString uniqueId)] c.
Definition sendPong (c : TafLobbyClient) : TafLobbyClient := sendJson [(str "command", JString (str "pong"))] c.

(** what the socket holds is gone when it is closed *)
Inductive socket_state : Set := UnconnectedState | ConnectedState | OtherState.
Definition onSocketStateChanged (socketState : socket_state) (c : TafLobbyClient) : TafLobbyClient :=
  match socketState with
  | UnconnectedState => (c <| lc_unconnected := true |>) <| lc_unread := [] |>
  | ConnectedState => sendAskSession c
  | OtherState => c
  end.

(** ** Receiving *)
Section Slots.
(** the slots may change the client and the rest of the program *)
Context {W : Type} (emit : lobby_signal → stx (TafLobbyClient * W) unit).
Abbreviation lc := (stx (TafLobbyClient * W)).
Definition on_client (f : TafLobbyClient → TafLobbyClient) : lc unit := modify (λ s, (f s.1, s.2)).

Definition decode (bytes1 : bytes) (d : QTextDecoder) : QJsonObject * QTextDecoder :=
  let '(text, d) := toUnicode d (from_option fst [] (read_qbytearray bytes1)) in (fromJson text, d).
(** a transaction that fails leaves everything in the socket *)
Definition receiveJson : lc QJsonObject :=
  s ← gets fst;
  match read_qbytearray (lc_unread s) with
  | None => lift (Throw DataNotReady)
  | Some (bytes1, rest) =>
      let '(o, d) := decode bytes1 (lc_decoder s) in
      on_client (λ c, (c <| lc_unread := rest |>) <| lc_decoder := d |>) ≫= λ _, mret o
  end.
(** the branches of [onReadyRead]; a message without a command is an iterator at its end *)
Definition on_message (cmd : QJsonObject) : lc unit :=
  match jvalue (str "command") cmd with
  | None => lift Undef
  | Some (JString name) =>
      if bool_decide (name = str "notice") then emit (notice (toString (jvalue (str "style") cmd)) (toString (jvalue (str "text") cmd)))
      else if bool_decide (name = str "session") then emit (session (toInt 0 (jvalue (str "session") cmd)))
      else if bool_decide (name = str "welcome") then emit (welcome (TafLobbyPlayerInfo_of (toObject (jvalue (str "me") cmd))))
      else if bool_decide (name = str "player_info") then
        for_each (toArray (jvalue (str "players") cmd)) (λ p, emit (playerInfo (TafLobbyPlayerInfo_of (toObject (Some p)))))
      else if bool_decide (name = str "social") then mret tt
      else if bool_decide (name = str "game_info") then
        match jvalue (str "games") cmd with
        | Some games => for_each (toArray (Some games)) (λ g, emit (gameInfo (TafLobbyGameInfo_of (toObject (Some g)))))
        | None => emit (gameInfo (TafLobbyGameInfo_of cmd))
        end
      else if bool_decide (name = str "ping") then on_client sendPong
      else mret tt
  | Some _ => mret tt
  end.
(** [while (bytesAvailable() > 0)] *)
Fixpoint receive_loop (fuel : nat) : lc unit :=
  match fuel with
  | O => lift Hang
  | S fuel =>
      s ← gets fst;
      if bool_decide (lc_unread s = []) then mret tt
      else cmd ← receiveJson; on_message cmd ≫= λ _, receive_loop fuel
  end.
Definition onReadyRead : lc unit := s ← gets fst; caught (receive_loop (S (length (lc_unread s)))).
(** a piece of the stream arrives *)
Definition on_chunk (chunk : bytes) : lc unit := on_client (λ c, c <| lc_unread ::= (λ u, u ++ chunk) |>) ≫= λ _, onReadyRead.

(** ** Messages arrive whatever the pieces *)

(** one message whose text, in the encoding of the wire, is [b] *)
Definition on_text (b : bytes) : lc unit :=
  s ← gets fst;
  let '(o, d) := decode (qbytearray b) (lc_decoder s) in
  on_client (λ c, c <| lc_decoder := d |>) ≫= λ _, on_message o.
Lemma on_text_run b s : on_text b s =
  let '(o, d) := decode (qbytearray b) (lc_decoder s.1) in on_message o (s.1 <| lc_decoder := d |>, s.2).
Proof. unfold on_text. rewrite stx_gets. by destruct (decode (qbytearray b) (lc_decoder s.1)). Qed.
Definition frame (b : bytes) : bytes := qbytearray (qbytearray b).
Definition fits (b : bytes) : Prop := Z.of_nat (length b) < 4294967291.

Definition with_unread (u : bytes) (s : TafLobbyClient * W) : TafLobbyClient * W := (s.1 <| lc_unread := u |>, s.2).
(** a method that does not look at the socket *)
Definition blind {A} (m : lc A) : Prop := ∀ u s, m (with_unread u s) = let '(r, s') := m s in (r, with_unread u s').
Lemma blind_ret {A} (a : A) : blind (mret a). Proof. done. Qed.
Lemma blind_lift {A} (r : res A) : blind (lift r). Proof. done. Qed.
Lemma blind_bind {A B} (m : lc A) (f : A → lc B) : blind m → (∀ a, blind (f a)) → blind (m ≫= f).
Proof.
  intros Hm Hf u s. unfold mbind, stx_bind. rewrite (Hm u s). destruct (m s) as [[a|e| |] s']; [apply Hf|done..].
Qed.
Lemma blind_for_each {A} (l : list A) body : (∀ a, blind (body a)) → blind (for_each l body).
Proof. intros Hb. induction l as [|a l IH]; [apply blind_ret|]. cbn [for_each]. by apply blind_bind. Qed.

Hypothesis emit_blind : ∀ x, blind (emit x).
Lemma blind_on_message o : blind (on_message o).
Proof.
  unfold on_message. repeat first [apply blind_lift | apply blind_ret | apply emit_blind | apply blind_for_each; intros ? | case_match].
  done.
Qed.
Lemma blind_on_text b : blind (on_text b).
Proof.
  intros u s. unfold on_text. rewrite !stx_gets. change (lc_decoder (with_unread u s).1) with (lc_decoder s.1).
  destruct (decode (qbytearray b) (lc_decoder s.1)) as [o d]. unfold on_client. rewrite !stx_modify.
  exact (blind_on_message o u (s.1 <| lc_decoder := d |>, s.2)).
Qed.

Lemma be4_value n : is_u32 n → ∃ b0 b1 b2 b3, be4 n = [b0; b1; b2; b3] ∧ ((b0 * 256 + b1) * 256 + b2) * 256 + b3 = n.
Proof.
  intros Hn. exists (u8 (n / 16777216)), (u8 (n / 65536)), (u8 (n / 256)), (u8 n). split; [done|].
  unfold is_u32, u8 in *. Z.to_euclidean_division_equations. lia.
Qed.
Lemma read_qbytearray_app b rest : Z.of_nat (length b) < 4294967295 → read_qbytearray (qbytearray b ++ rest) = Some (b, rest).
Proof.
  intros Hl. unfold qbytearray. destruct (be4_value (Z.of_nat (length b))) as (b0 & b1 & b2 & b3 & -> & E); [unfold is_u32; lia|].
  cbn [app read_qbytearray]. rewrite E, (proj2 (Z.eqb_neq _ _)), Nat2Z.id, length_app by lia.
  rewrite (proj2 (Nat.leb_le _ _)) by lia. by rewrite take_app_length, drop_app_length.
Qed.
Lemma read_qbytearray_short b v w : Z.of_nat (length b) < 4294967295 → v ++ w = qbytearray b → w ≠ [] → read_qbytearray v = None.
Proof.
  intros Hl E Hw. unfold qbytearray in E. destruct (be4_value (Z.of_nat (length b))) as (b0 & b1 & b2 & b3 & E4 & En); [unfold is_u32; lia|].
  rewrite E4 in E. destruct v as [|x0 [|x1 [|x2 [|x3 v]]]]; [done..|]. cbn [app] in E. injection E as -> -> -> -> E.
  cbn [read_qbytearray]. rewrite En, (proj2 (Z.eqb_neq _ _)), Nat2Z.id by lia. apply (f_equal length) in E. rewrite length_app in E.
  destruct w; [done|]. cbn [length] in E. by rewrite (proj2 (Nat.leb_gt _ _)) by lia.
Qed.
Lemma length_qbytearray b : length (qbytearray b) = (4 + length b)%nat.
Proof. unfold qbytearray, be4. by rewrite length_app, length_reverse, length_le4. Qed.

Definition on_texts (texts : list bytes) : lc unit := for_each texts on_text.
Definition stream (texts : list bytes) : bytes := concat (frame <$> texts).
Lemma stream_cons b texts : stream (b :: texts) = frame b ++ stream texts. Proof. done. Qed.
Lemma length_frame b : length (frame b) = (8 + length b)%nat.
Proof. unfold frame. by rewrite !length_qbytearray. Qed.
(** [v] is what has arrived of the next message *)
Definition partial (v : bytes) : Prop := v = [] ∨ read_qbytearray v = None.
Lemma receive_texts texts : ∀ fuel v s s', Forall fits texts → partial v → on_texts texts s = (Ok tt, s') →
  (length (stream texts) + length v < fuel)%nat → ∃ x, receive_loop fuel (with_unread (stream texts ++ v) s) = (x, with_unread v s') ∧
  (x = Ok tt ∨ x = Throw DataNotReady).
Proof.
  induction texts as [|b texts IH]; intros fuel v s s' Ht Hv Hs Hf; (destruct fuel as [|fuel]; [lia|]); cbn [receive_loop]; rewrite stx_gets;
    change (lc_unread (with_unread ?u s).1) with u.
  - injection Hs as <-. destruct Hv as [->|Hv]; [exists (Ok tt); split; [done|by left]|]. cbn [app stream concat fmap list_fmap].
    destruct v as [|x v]; [exists (Ok tt); split; [done|by left]|]. rewrite bool_decide_false by done.
    exists (Throw DataNotReady). split; [|by right]. unfold receiveJson, mbind at 1, stx_bind at 1. rewrite stx_gets.
    change (lc_unread (with_unread (x :: v) s).1) with (x :: v). by rewrite Hv.
  - apply Forall_cons in Ht as [Hb Ht]. unfold fits in Hb. cbn [on_texts for_each] in Hs.
    assert (Z.of_nat (length (qbytearray b)) < 4294967295) as Hq by (rewrite length_qbytearray; lia).
    replace (stream (b :: texts) ++ v) with (qbytearray (qbytearray b) ++ (stream texts ++ v)) by (by rewrite stream_cons, <- app_assoc).
    assert (qbytearray (qbytearray b) ++ stream texts ++ v ≠ []) as Hne.
    { intros E. apply (f_equal length) in E. rewrite length_app, length_qbytearray in E. cbn in E. lia. }
    rewrite bool_decide_false by done. destruct (on_text b s) as [[[]|e| |] s1] eqn:E1; unfold mbind, stx_bind in Hs; rewrite E1 in Hs; try done.
    destruct (IH fuel v s1 s' Ht Hv Hs) as (x & Hx & Hor).
    { rewrite stream_cons, length_app, length_frame in Hf. lia. }
    exists x. split; [|done]. rewrite <- Hx. clear Hx Hs IH.
    pose proof (blind_on_text b (stream texts ++ v) s) as H1. rewrite E1 in H1.
    unfold on_text in H1. rewrite stx_gets in H1. unfold receiveJson. rewrite stx_bind_assoc, stx_gets.
    change (lc_unread (with_unread ?u s).1) with u. rewrite read_qbytearray_app by done.
    change (lc_decoder (with_unread ?u s).1) with (lc_decoder s.1) in *. destruct (decode (qbytearray b) (lc_decoder s.1)) as [o d].
    unfold on_client in *. rewrite stx_bind_assoc, stx_modify, stx_ret_bind. rewrite stx_modify in H1. by rewrite (stx_bind_ok _ _ _ _ _ H1).
Qed.

(** what has arrived of a stream is a number of messages and a part of the next *)
Lemma stream_prefix texts : ∀ p q, Forall fits texts → p ++ q = stream texts → ∃ done rest v,
  texts = done ++ rest ∧ p = stream done ++ v ∧ v ++ q = stream rest ∧ partial v.
Proof.
  induction texts as [|b texts IH]; intros p q Ht E.
  - apply app_nil in E as [-> ->]. exists [], [], []. split_and!; [done..|by left].
  - apply Forall_cons in Ht as [Hb Ht]. rewrite stream_cons in E.
    destruct (decide (length (frame b) ≤ length p)%nat) as [Hl|Hl].
    + assert (p = frame b ++ drop (length (frame b)) p) as Ep.
      { rewrite <- (take_drop (length (frame b)) p) at 1. f_equal. apply (f_equal (take (length (frame b)))) in E.
        by rewrite take_app_le, take_app_length in E by done. }
      rewrite Ep, <- app_assoc in E. apply app_inv_head in E. destruct (IH _ _ Ht E) as (done & rest & v & -> & Ed & Ev & Hv).
      exists (b :: done), rest, v. split_and!; [done| |done..]. by rewrite Ep, Ed, stream_cons, <- app_assoc.
    + exists [], (b :: texts), p. split_and!; [done..|]. destruct p as [|x p]; [by left|]. right.
      apply (read_qbytearray_short (qbytearray b) _ (drop (length (x :: p)) (frame b))).
      * rewrite length_qbytearray. unfold fits in Hb. lia.
      * fold (frame b). apply (f_equal (take (length (x :: p)))) in E. rewrite take_app_length, take_app_le in E by lia.
        rewrite E at 1. apply take_drop.
      * intros E0. apply (f_equal length) in E0. rewrite length_drop in E0. cbn [length] in *. lia.
Qed.
Lemma on_texts_app l1 l2 s s' : on_texts (l1 ++ l2) s = (Ok tt, s') → ∃ s1, on_texts l1 s = (Ok tt, s1) ∧ on_texts l2 s1 = (Ok tt, s').
Proof.
  revert s. induction l1 as [|b l1 IH]; intros s E; [by exists s|]. unfold on_texts in *. cbn [app for_each] in *. unfold mbind, stx_bind in *.
  destruct (on_text b s) as [[[]|e| |] s2]; try done. by apply IH.
Qed.
Lemma chunks_texts chunks : ∀ texts v s s', Forall fits texts → partial v → v ++ concat chunks = stream texts →
  on_texts texts s = (Ok tt, s') → for_each chunks on_chunk (with_unread v s) = (Ok tt, with_unread [] s').
Proof.
  induction chunks as [|c chunks IH]; intros texts v s s' Ht Hv E Hs.
  - cbn [concat for_each] in *. rewrite app_nil_r in E. subst v. destruct texts as [|b texts].
    + by injection Hs as <-.
    + exfalso. apply Forall_cons in Ht as [Hb Ht]. unfold fits in Hb. rewrite stream_cons in Hv. destruct Hv as [Hv|Hv].
      * apply (f_equal length) in Hv. rewrite length_app, length_frame in Hv. cbn in Hv. lia.
      * unfold frame in Hv. rewrite read_qbytearray_app in Hv; [done|rewrite length_qbytearray; lia].
  - cbn [concat] in E. rewrite app_assoc in E. destruct (stream_prefix texts _ _ Ht E) as (done & rest & v' & -> & Ed & Ev & Hv').
    apply Forall_app in Ht as [Ht1 Ht2]. destruct (on_texts_app _ _ _ _ Hs) as (s1 & Hs1 & Hs2). cbn [for_each].
    rewrite (stx_bind_ok _ _ _ tt (with_unread v' s1)); [by apply (IH rest v' s1 s')|].
    unfold on_chunk, on_client. rewrite stx_modify. change ((with_unread v s).1 <| lc_unread ::= _ |>, (with_unread v s).2) with (with_unread (v ++ c) s).
    unfold onReadyRead. rewrite stx_gets. change (lc_unread (with_unread ?u s).1) with u.
    destruct (receive_texts done (S (length (v ++ c))) v' s s1 Ht1 Hv' Hs1) as (x & Hx & Hor); [rewrite Ed, length_app; lia|].
    rewrite <- Ed in Hx. unfold caught. rewrite Hx. by destruct Hor as [-> | ->].
Qed.
(** Every message of the lobby server gets to its slots once and in order, however the
    stream is cut into pieces, and nothing stays in the socket. *)
Theorem lobby_messages_arrive (texts chunks : list bytes) (s s' : TafLobbyClient * W) :
  Forall fits texts → concat chunks = stream texts → on_texts texts s = (Ok tt, s') →
  for_each chunks on_chunk (with_unread [] s) = (Ok tt, with_unread [] s').
Proof. intros Ht E Hs. apply (chunks_texts chunks texts); [done|by left|done..]. Qed.

(** A text that is not a JSON object, or an object without a command, is more than a
    message that is not understood: the client then reads a value past the end of the object. *)
Theorem no_command_undefined (b rest : bytes) (s : TafLobbyClient * W) :
  fits b → jvalue (str "command") (decode (qbytearray b) (lc_decoder s.1)).1 = None →
  (onReadyRead (with_unread (frame b ++ rest) s)).1 = Undef.
Proof.
  intros Hb Hn. unfold fits in Hb. unfold onReadyRead. rewrite stx_gets. change (lc_unread (with_unread ?u s).1) with u. unfold caught.
  cbn [receive_loop]. rewrite stx_gets. change (lc_unread (with_unread ?u s).1) with u.
  rewrite bool_decide_false; [|intros E; apply (f_equal length) in E; rewrite length_app, length_frame in E; cbn in E; lia].
  unfold receiveJson. rewrite stx_bind_assoc, stx_gets. change (lc_unread (with_unread ?u s).1) with u. unfold frame.
  rewrite read_qbytearray_app by (rewrite length_qbytearray; lia). change (lc_decoder (with_unread ?u s).1) with (lc_decoder s.1).
  destruct (decode (qbytearray b) (lc_decoder s.1)) as [o d]. cbn [fst] in Hn. unfold on_client. rewrite stx_bind_assoc, stx_modify, stx_ret_bind.
  unfold on_message. by rewrite Hn.
Qed.
End Slots.
End Client.
