(* ===== verification/ReplayServerApp.v ===== *)
(** * The replay server program (replayserver.cpp)

    One process with up to three parts: the compiler of demos, the replay server, and the
    client of the lobby, whose news about games go to the replay server. *)
From S2P Require Import Prelude ExceptState OrderedMaps GpgNetParse GpgNetStream GpgNetMessages QtText TaDemoCompilerMessages TaDemoCompiler TaReplayServer LobbyClient.
From coqutil Require Import Datatypes.RecordSetters.
#[local] Open Scope Z_scope.

(** the parsed command line, with the defaults of its options, and the environment *)
Record CommandLine := mkLine {
  cl_isSet : string → bool;
  cl_value : string → bytes;
  cl_env : string → option bytes }.

Section Program.
Context `{QtJson} `{QtText}.
Context (VERSION : bytes) (sha256_hex : bytes → bytes) (cl : CommandLine).

(** ** What [doMain] constructs *)
Definition noUserContextOption : NoUserContextOption :=
  let v := cl_value cl "nousercontextoption" in
  if bool_decide (v = str "close") then CLOSE_CONNECTION
  else if bool_decide (v = str "abort") then ABORT_CONNECTION
  else if bool_decide (v = str "disconnect") then DISCONNECT_FROM_HOST
  else IGNORE.
Record compiler_config := mkCompilerConfig {
  cc_demoPathTemplate : bytes; cc_host : Z; cc_port : Z; cc_minDemoSize : Z; cc_noUserContextOption : NoUserContextOption }.
Record replayer_config := mkReplayerConfig {
  rc_demoPathTemplate : bytes; rc_host : Z; rc_port : Z; rc_delaySeconds : Z; rc_maxBytesPerUserPerSecond : Z }.
Definition host : Z := if cl_isSet cl "addr" then ipv4 (cl_value cl "addr") else 0.
Definition first_port : Z := u16 (toInt_text (cl_value cl "port")).
(** [port++] *)
Definition compiler : option compiler_config :=
  if cl_isSet cl "compiler"
  then Some (mkCompilerConfig (cl_value cl "demofile") host first_port (toUInt_text (cl_value cl "mindemosize")) noUserContextOption)
  else None.
Definition replayer_port : Z := if cl_isSet cl "compiler" then u16 (first_port + 1) else first_port.
Definition replayer : option replayer_config :=
  if cl_isSet cl "replayer"
  then Some (mkReplayerConfig (cl_value cl "demofile") host replayer_port
               (toUInt_text (cl_value cl "livedelaysecs")) (toInt_text (cl_value cl "maxsendrate")))
  else None.
(** user and password, when the program talks to the lobby *)
Definition login : option (bytes * bytes) :=
  if bool_decide (cl_value cl "lobbyserver" = []) then None
  else match cl_env cl "RS_USERNAME", cl_env cl "RS_PASSWORD" with
       | Some user, Some password => Some (user, password)
       | _, _ => None
       end.
(** [hostAndPort[1]] of a text without a colon is past the end *)
Definition tafLobbyClient (junk : Z) : res TafLobbyClient :=
  let c := TafLobbyClient_make (str "ReplayServer") VERSION junk in
  match login with
  | None => Ok c
  | Some _ =>
      match split_at 58 (cl_value cl "lobbyserver") with
      | hostName :: port :: _ => Ok (connectToHost hostName (u16 (toInt_text port)) c)
      | _ => Undef
      end
  end.

(** ** The slots, over the replay server if there is one *)
Abbreviation app := (stx (TafLobbyClient * TaReplayServer)).
Definition on_session (sessionId : Z) : app unit :=
  match login with
  | Some (user, password) => on_client (sendHello sessionId (str "0") (str "0.0.0.0") user (sha256_hex password))
  | None => mret tt
  end.
Definition on_gameInfo (g : TafLobbyGameInfo) : app unit :=
  when (cl_isSet cl "replayer") (modify (λ s, (s.1, setGameInfo (u32 (lg_id g)) (lg_replayDelaySeconds g) (lg_state g) s.2))).
Definition slots (x : lobby_signal) : app unit :=
  match x with session sessionId => on_session sessionId | gameInfo g => on_gameInfo g | _ => mret tt end.
Lemma slots_blind x : blind (slots x).
Proof. destruct x; cbn [slots]; unfold on_session, on_gameInfo; intros u s; [done|by destruct login as [[user password]|]|done..|by destruct (cl_isSet cl _)]. Qed.

(** ** What the program does with the news *)

(** The ports of the two servers are the one of the option and the next, so they differ. *)
Theorem ports_differ c r : compiler = Some c → replayer = Some r → cc_port c ≠ rc_port r.
Proof.
  unfold compiler, replayer, replayer_port. destruct (cl_isSet cl "compiler"); [|done]. destruct (cl_isSet cl "replayer"); [|done].
  intros [= <-] [= <-]. cbn [cc_port rc_port]. assert (is_u16 first_port) as Hp by apply u16_bound. unfold u16, is_u16 in *.
  intros E. Z.to_euclidean_division_equations. lia.
Qed.

(** one message of the lobby on one game *)
Definition one_game (o : QJsonObject) : Prop := jvalue (str "command") o = Some (JString (str "game_info")) ∧ jvalue (str "games") o = None.
Lemma on_message_game o s : one_game o → cl_isSet cl "replayer" = true →
  on_message slots o s = (Ok tt, (s.1, let g := TafLobbyGameInfo_of o in setGameInfo (u32 (lg_id g)) (lg_replayDelaySeconds g) (lg_state g) s.2)).
Proof.
  intros [Hc Hg] Hr. unfold on_message. rewrite Hc. rewrite !bool_decide_false by done. rewrite bool_decide_true by done. rewrite Hg.
  cbn [slots]. unfold on_session, on_gameInfo. by rewrite Hr.
Qed.
(** the messages of the lobby, decoded one after the other *)
Fixpoint decode_all (texts : list bytes) (d : QTextDecoder) : list QJsonObject :=
  match texts with
  | [] => []
  | b :: texts => let '(o, d) := decode (qbytearray b) d in o :: decode_all texts d
  end.
Definition told (games : list TafLobbyGameInfo) (r : TaReplayServer) : TaReplayServer :=
  foldl (λ r g, setGameInfo (u32 (lg_id g)) (lg_replayDelaySeconds g) (lg_state g) r) r games.
Lemma on_texts_games texts : ∀ c r, cl_isSet cl "replayer" = true → Forall one_game (decode_all texts (lc_decoder c)) →
  ∃ c', on_texts slots texts (c, r) = (Ok tt, (c', told (TafLobbyGameInfo_of <$> decode_all texts (lc_decoder c)) r)) ∧
        lc_written c' = lc_written c.
Proof.
  induction texts as [|b texts IH]; intros c r Hr Hg; [by exists c|]. cbn [decode_all] in *. unfold on_texts. cbn [for_each].
  pose proof (on_text_run slots b (c, r)) as E. cbn [fst snd] in E. destruct (decode (qbytearray b) (lc_decoder c)) as [o d].
  apply Forall_cons in Hg as [Ho Hg]. rewrite (on_message_game o _ Ho Hr) in E. rewrite (stx_bind_ok _ _ _ _ _ E).
  exact (IH (c <| lc_decoder := d |>) _ Hr Hg).
Qed.
(** What the lobby says of its games, in whatever pieces it arrives, is what the replay
    server knows of them, in the order in which it was said. *)
Theorem lobby_news_reach_replays (texts chunks : list bytes) (c : TafLobbyClient) (r : TaReplayServer) :
  cl_isSet cl "replayer" = true → lc_unread c = [] → Forall fits texts → concat chunks = stream texts →
  Forall one_game (decode_all texts (lc_decoder c)) → ∃ c',
  for_each chunks (on_chunk slots) (c, r) = (Ok tt, (c', told (TafLobbyGameInfo_of <$> decode_all texts (lc_decoder c)) r)) ∧
  lc_unread c' = [] ∧ lc_written c' = lc_written c.
Proof.
  intros Hr Hu Ht E Hg. destruct (on_texts_games texts c r Hr Hg) as (c' & Hs & Hw).
  exists (c' <| lc_unread := [] |>). split_and!; [|done..].
  replace (c, r) with (with_unread [] (c, r)) by (destruct c; cbn in Hu; by subst).
  exact (lobby_messages_arrive slots slots_blind texts chunks _ _ Ht E Hs).
Qed.

(** A game that has ended, for the lobby, is not delayed or sent any more. *)
Theorem ended_game_forgotten (games : list TafLobbyGameInfo) (g : TafLobbyGameInfo) (r : TaReplayServer) :
  is_ended (lg_state g) = true → rs_gameInfo (told (games ++ [g]) r) !! u32 (lg_id g) = None.
Proof. intros He. unfold told. rewrite foldl_app. cbn [foldl]. unfold setGameInfo. rewrite He. apply lookup_delete_eq. Qed.

(** The program logs in when the lobby gives it a session. *)
Theorem session_answered (o : QJsonObject) (user password : bytes) (s : TafLobbyClient * TaReplayServer) :
  login = Some (user, password) → jvalue (str "command") o = Some (JString (str "session")) →
  on_message slots o s =
  (Ok tt, (sendHello (toInt 0 (jvalue (str "session") o)) (str "0") (str "0.0.0.0") user (sha256_hex password) s.1, s.2)).
Proof.
  intros Hl Hc. unfold on_message. rewrite Hc. rewrite !bool_decide_false by done. rewrite bool_decide_true by done.
  cbn [slots]. unfold on_session, on_gameInfo. by rewrite Hl.
Qed.
(** An address of the lobby without a port is taken apart past its end. *)
Theorem lobby_without_port (junk : Z) (user password : bytes) :
  login = Some (user, password) → 58 ∉ cl_value cl "lobbyserver" → tafLobbyClient junk = Undef.
Proof. intros Hl Hn. unfold tafLobbyClient. rewrite Hl. by rewrite split_at_one. Qed.
End Program.
