(* ===== verification/DemoInfo.v ===== *)
(** * The information on a demo (replayer.cpp, [DemoInfoParser] and [doDemoInfo])

    With the option info the replayer only reads the start of a demo file and prints what
    it is a demo of: the map, the players, and a hash of the units.  What the option detail
    adds is printed to the log. *)
From S2P Require Import Prelude ExceptState OrderedMaps Resumable GpgNetParse GpgNetStream GpgNetMessages QtText TPacketSplit TPacketRecords UnitDataRepo.
From S2P Require Import TADemoRecords TADemoParser TADemoRoundTrip.
From coqutil Require Import Datatypes.RecordSetters.
Export RecordSetters.TriangleBracketNotations.
Open Scope record_set.
#[local] Open Scope Z_scope.

(** [QString::fromLatin1], in UTF-8; [QByteArray::toHex] *)
Definition fromLatin1 (s : bytes) : bytes := s ≫= λ b, if b <? 128 then [b] else [192 + b / 64; 128 + b mod 64].
Definition toHex (s : bytes) : bytes := s ≫= λ b, [hex_char (b / 16); hex_char (b mod 16)].

Record DemoInfoParser := mkInfo {
  di_units : UnitDataRepo;
  di_players : list (bytes * string * Z);     (* name, side and number *)
  di_mapName : bytes;
  di_mapHash : Z;
  di_versionMajor : Z; di_versionMinor : Z }.
(** the version has no initialiser *)
Definition DemoInfoParser_make (junk : Z * Z) : DemoInfoParser := mkInfo ∅ [] [] 0 junk.1 junk.2.

(** [while (ptr < end && subpakLen > 0)]: the length is that of the first sub-packet *)
Fixpoint units_loop (fuel : nat) (data : bytes) (ptr : nat) (subpakLen : Z) (m : UnitDataRepo) : res UnitDataRepo :=
  match fuel with
  | O => Hang
  | S fuel =>
      if (ptr <? length data)%nat && (0 <? subpakLen) then
        bs ← rd_n data ptr (Z.to_nat subpakLen);
        m ← UnitDataRepo.add bs m;
        units_loop fuel data (ptr + Z.to_nat subpakLen) subpakLen m
      else Ok m
  end.
Definition handle_units (data : bytes) (m : UnitDataRepo) : res UnitDataRepo :=
  subpakLen ← getExpectedSubPacketSize data;
  units_loop (S (length data)) data 0 subpakLen m.

Section Info.
(** [junk]: the byte that a short player info leaves uninitialised *)
Context (md5 : bytes → bytes) (junk : Z).

Definition handle_info_status (msg : PlayerStatusMessage) (i : DemoInfoParser) : res DemoInfoParser :=
  playerInfo ← TPlayerInfo_parse junk (sm_statusMessage msg);
  mapName ← getMapName playerInfo;
  if bool_decide (mapName = di_mapName i) then
    h ← getMapHash playerInfo;
    Ok (((i <| di_mapHash := h |>) <| di_versionMajor := pi_versionMajor playerInfo |>) <| di_versionMinor := pi_versionMinor playerInfo |>)
  else Ok i.
Definition handle_info (e : demo_event) (i : DemoInfoParser) : res DemoInfoParser :=
  match e with
  | handle_Header h => Ok (i <| di_mapName := hd_mapName h |>)
  | handle_Player p n ofTotal => Ok (i <| di_players ::= (λ l, l ++ [(fromLatin1 (pl_name p), getSide_name p, pl_number p)]) |>)
  | handle_ExtraSector _ _ _ | handle_Packet _ _ _ => Ok i
  | handle_PlayerStatusMessage msg _ _ _ => handle_info_status msg i
  | handle_UnitData u => m ← handle_units (un_unitData u) (di_units i); Ok (i <| di_units := m |>)
  end.
Fixpoint handle_infos (es : list demo_event) (i : DemoInfoParser) : res DemoInfoParser :=
  match es with
  | [] => Ok i
  | e :: es => i ← handle_info e i; handle_infos es i
  end.

Definition getUnitDataFingerPrint (i : DemoInfoParser) : res bytes :=
  calls ← hash (di_units i); Ok (md5 (concat (le4 <$> calls))).
(** the fields of the JSON object *)
Record demo_json := mkJson {
  dj_filePath : bytes; dj_mapName : bytes; dj_mapHash : bytes; dj_modHash : bytes;
  dj_taVersionMajor : Z; dj_taVersionMinor : Z;
  dj_players : list (bytes * string * Z) }.
Definition toJson (filePath : bytes) (i : DemoInfoParser) : res demo_json :=
  fingerPrint ← getUnitDataFingerPrint i;
  Ok (mkJson filePath (di_mapName i) (hex8 (di_mapHash i)) (toHex fingerPrint) (di_versionMajor i) (di_versionMinor i) (di_players i)).

(** what the URL of the command line is, and the file there *)
Inductive demo_source : Type :=
  | InvalidUrl
  | RemoteUrl
  | NoSuchFile
  | Unreadable
  | LocalFile (path content : bytes).
(** the handlers are called while the parser reads; what it throws comes after them *)
Definition doDemoInfo (checks : Z * Z) (version_junk : Z * Z) (parser_junk : Z) (demoUrl : demo_source) (numPaksToRead : Z) : res demo_json :=
  match demoUrl with
  | LocalFile path content =>
      let '(x, p, _) := parse checks numPaksToRead (DemoParser_init parser_junk) content in
      i ← handle_infos (handled p) (DemoInfoParser_make version_junk);
      _ ← x;
      toJson path i
  | _ => Throw RuntimeError
  end.

(** ** The units of a demo *)

(** a packet of units as [UnitDataRepo] keeps them *)
Definition unit_packet_ok (bs : bytes) : Prop := head bs = Some (code_byte UNIT_DATA_1A) ∧ length bs = 14%nat.
Lemma unit_size bs rest : unit_packet_ok bs → getExpectedSubPacketSize (bs ++ rest) = Ok 14.
Proof. intros [H _]. destruct bs as [|b bs]; [done|]. injection H as ->. done. Qed.
Lemma units_loop_packets ps : ∀ fuel pre m, Forall unit_packet_ok ps → (length ps < fuel)%nat →
  units_loop fuel (pre ++ concat ps) (length pre) 14 m = add_all ps m.
Proof.
  induction ps as [|bs ps IH]; intros fuel pre m Hps Hf; (destruct fuel as [|fuel]; [cbn in Hf; lia|]); cbn [units_loop].
  - cbn [concat]. rewrite app_nil_r, Nat.ltb_irrefl. done.
  - apply Forall_cons in Hps as [Hb Hps]. pose proof Hb as [_ Hl]. cbn [concat length] in *.
    rewrite !length_app, Hl, (proj2 (Nat.ltb_lt _ _)) by lia. change (0 <? 14) with true. cbn [andb]. change (Z.to_nat 14) with 14%nat.
    replace (rd_n (pre ++ bs ++ concat ps) (length pre) 14) with (Ok bs) by (by rewrite <- Hl, rd_n_app). cbn [add_all]. rewrite res_bind_ok.
    destruct (UnitDataRepo.add bs m) as [m'| | |]; [|done..]. rewrite !res_bind_ok.
    rewrite app_assoc, <- (IH fuel (pre ++ bs) m' Hps) by lia. by rewrite length_app, Hl.
Qed.
Lemma handle_units_packets ps m : Forall unit_packet_ok ps → handle_units (concat ps) m = add_all ps m.
Proof.
  intros Hps. unfold handle_units. destruct ps as [|bs ps].
  - done.
  - pose proof Hps as Hp. apply Forall_cons in Hp as [Hb _]. cbn [concat]. rewrite unit_size by done. rewrite res_bind_ok.
    apply (units_loop_packets (bs :: ps) _ []); [done|].
    clear Hb. assert (length (bs :: ps) ≤ length (concat (bs :: ps)))%nat as H; [|cbn [concat length] in *; lia].
    induction Hps as [|x xs [_ Hx] _ IH]; [done|]. cbn [concat length]. rewrite length_app. lia.
Qed.

(** the repository of a game can be rebuilt from its packets, in the order of the map *)
Definition unit_packets (m : UnitDataRepo) : Prop := map_Forall (λ _ bs, unit_packet_ok bs) m.
Lemma add_ud_packets pd ud m m' : unit_packet_ok pd → unit_packets m → add_ud pd ud m = Ok m' → unit_packets m'.
Proof.
  intros Hp Hm H. unfold add_ud in H.
  assert (∀ k, unit_packets (<[k := pd]> m)) as Hi by (intros k; by apply map_Forall_insert_2).
  case_bool_decide.
  - destruct (m !! (ud_sub ud, ud_id ud)) as [bs|]; [|by apply Ok_inj in H as <-]. destruct (3 =? ud_sub ud); [|by apply Ok_inj in H as <-].
    apply res_bind_inv in H as (old & _ & H). apply Ok_inj in H as <-. by case_match.
  - destruct (ud_sub ud =? 0); apply Ok_inj in H as <-; [apply map_Forall_empty|done].
Qed.
Lemma add_packets pd m m' : unit_packets m → UnitDataRepo.add pd m = Ok m' → unit_packets m'.
Proof.
  intros Hm H. destruct pd as [|b pd]; [by apply Ok_inj in H as <-|]. cbn [UnitDataRepo.add] in H.
  destruct (Z.eqb_spec b (code_byte UNIT_DATA_1A)) as [->|]; cbn [negb] in H; [|by apply Ok_inj in H as <-].
  change (getExpectedSubPacketSize (code_byte UNIT_DATA_1A :: pd)) with (Ok 14) in H. rewrite res_bind_ok in H.
  destruct (Z.eqb_spec (Z.of_nat (length (code_byte UNIT_DATA_1A :: pd))) 14) as [Hl|]; cbn [negb] in H; [|by apply Ok_inj in H as <-].
  apply res_bind_inv in H as (ud & _ & H). apply (add_ud_packets _ _ _ _) in H; [done| |done]. split; [done|lia].
Qed.
Lemma add_all_packets ps : ∀ m m', unit_packets m → add_all ps m = Ok m' → unit_packets m'.
Proof.
  induction ps as [|p ps IH]; intros m m' Hm H; [by apply Ok_inj in H as <-|]. cbn [add_all] in H.
  apply res_bind_inv in H as (m1 & H1 & H). apply (IH m1); [by eapply add_packets|done].
Qed.
Lemma add_new k bs m : filed k bs → unit_packet_ok bs → m !! k = None → UnitDataRepo.add bs m = Ok (<[k := bs]> m).
Proof.
  intros (_ & _ & ud & Hud & -> & Hsub) [Hh Hl] Hm. destruct bs as [|b bs]; [done|]. injection Hh as ->. unfold UnitDataRepo.add.
  rewrite Z.eqb_refl. cbn [negb]. change (getExpectedSubPacketSize (26 :: bs)) with (Ok 14). rewrite res_bind_ok, Hl.
  change (Z.of_nat 14 =? 14) with true. cbn [negb]. rewrite Hud, res_bind_ok. unfold add_ud. by rewrite bool_decide_true, Hm by done.
Qed.
Lemma add_all_new es : ∀ m, Forall (λ e, filed e.1 e.2 ∧ unit_packet_ok e.2) es → NoDup es.*1 → (∀ k, k ∈ es.*1 → m !! k = None) →
  add_all es.*2 m = Ok (m ∪ list_to_map es).
Proof.
  induction es as [|[k bs] es IH]; intros m He Hn Hm; [cbn; by rewrite (right_id_L ∅ (∪) m)|].
  apply Forall_cons in He as [[Hf Hp] He]. apply NoDup_cons in Hn as [Hk Hn]. cbn [fst snd fmap list_fmap] in *. cbn [add_all].
  rewrite (add_new k bs m Hf Hp), res_bind_ok by (apply Hm; left). rewrite IH; [|done|done|].
  - cbn [list_to_map foldr]. f_equal. rewrite <- insert_union_l, <- insert_union_r by (apply Hm; left). done.
  - intros k' Hk'. rewrite lookup_insert_ne by (by intros <-). apply Hm. by right.
Qed.
Lemma repository_rebuilt m : repo_ok m → unit_packets m → add_all (in_order m).*2 ∅ = Ok m.
Proof.
  intros Hm Hp. pose proof (in_order_perm m) as Hperm. rewrite add_all_new.
  - rewrite (left_id_L ∅ (∪)). f_equal. rewrite (list_to_map_proper (in_order m) (map_to_list m)) by
      (try done; rewrite Hperm; apply NoDup_fst_map_to_list). apply list_to_map_to_list.
  - rewrite Hperm. apply Forall_forall. intros [k bs] Hk%elem_of_map_to_list. split; [by apply Hm|by eapply Hp].
  - rewrite Hperm. apply NoDup_fst_map_to_list.
  - intros k _. apply lookup_empty.
Qed.
Lemma concat_packets m : unit_packets m → Forall unit_packet_ok (in_order m).*2.
Proof.
  intros Hp. apply Forall_fmap. rewrite in_order_perm. apply Forall_forall. intros [k bs] Hk%elem_of_map_to_list. by eapply Hp.
Qed.

(** ** What is printed for a demo *)

(** the status messages say which map is played; those of the map of the header agree on it *)
Definition status_agrees (mapName : bytes) (h : Z) (v : Z * Z) (s : PlayerStatusMessage) : Prop :=
  ∃ info name, TPlayerInfo_parse junk (sm_statusMessage s) = Ok info ∧ getMapName info = Ok name ∧
    (name = mapName → getMapHash info = Ok h ∧ (pi_versionMajor info, pi_versionMinor info) = v).
Definition shows_map (mapName : bytes) (s : PlayerStatusMessage) : Prop :=
  ∃ info, TPlayerInfo_parse junk (sm_statusMessage s) = Ok info ∧ getMapName info = Ok mapName.
Definition with_map (h : Z) (v : Z * Z) (i : DemoInfoParser) : DemoInfoParser :=
  ((i <| di_mapHash := h |>) <| di_versionMajor := v.1 |>) <| di_versionMinor := v.2 |>.

Lemma handle_infos_app es1 es2 i i' : handle_infos es1 i = Ok i' → handle_infos (es1 ++ es2) i = handle_infos es2 i'.
Proof.
  revert i. induction es1 as [|e es1 IH]; intros i H; [by apply Ok_inj in H as ->|]. cbn [handle_infos app] in *.
  apply res_bind_inv in H as (i1 & -> & H). rewrite res_bind_ok. by apply IH.
Qed.
(** records of one kind *)
Lemma handle_infos_quiet {A} (event : A → Z → demo_event) xs i : (∀ x n, handle_info (event x n) i = Ok i) →
  ∀ z, handle_infos (imap (λ n x, event x (z n)) xs) i = Ok i.
Proof.
  intros H. induction xs as [|x xs IH]; intros z; [done|]. cbn [imap handle_infos]. rewrite H, res_bind_ok. exact (IH (z ∘ S)).
Qed.
Lemma handle_infos_players total ps : ∀ z i, handle_infos (imap (λ n x, player_event total x (z n)) ps) i =
  Ok (i <| di_players ::= (λ l, l ++ ((λ p, (fromLatin1 (pl_name p), getSide_name p, pl_number p)) <$> ps)) |>).
Proof.
  induction ps as [|p ps IH]; intros z i; [cbn; rewrite app_nil_r; by destruct i|]. cbn [imap handle_infos player_event handle_info]. rewrite res_bind_ok.
  rewrite (IH (z ∘ S)). cbn. by rewrite <- app_assoc.
Qed.
Lemma handle_infos_statuses mapName h v total ss : ∀ z i, Forall (status_agrees mapName h v) ss → di_mapName i = mapName →
  ∃ i', handle_infos (imap (λ n x, status_event total x (z n)) ss) i = Ok i' ∧
    (i' = with_map h v i ∨ i' = i ∧ ¬ Exists (shows_map mapName) ss).
Proof.
  induction ss as [|s ss IH]; intros z i Hs Hi.
  - exists i. split; [done|]. right. split; [done|]. by intros H%Exists_nil.
  - apply Forall_cons in Hs as [(info & name & E1 & E2 & Hn) Hs]. cbn [imap handle_infos status_event handle_info]. unfold handle_info_status.
    rewrite E1, res_bind_ok, E2, res_bind_ok, Hi. case_bool_decide as Hm.
    + destruct (Hn Hm) as [-> <-]. rewrite !res_bind_ok. cbn [fst snd] in *.
      destruct (IH (z ∘ S) (with_map h (pi_versionMajor info, pi_versionMinor info) i) Hs Hi) as (i' & E & Hor).
      exists i'. split; [exact E|]. left. destruct Hor as [-> | [-> _]]; [by destruct i|done].
    + rewrite res_bind_ok. destruct (IH (z ∘ S) i Hs Hi) as (i' & E & Hor). exists i'. split; [exact E|].
      destruct Hor as [-> | [-> Hex]]; [by left|]. right. split; [done|]. rewrite Exists_cons. intros [(info' & E1' & E2')|?]; [|done].
      rewrite E1 in E1'. injection E1' as <-. rewrite E2 in E2'. by injection E2' as ->.
Qed.
Lemma handle_header_events mapName h v d m vj : hd_mapName (d_header d) = mapName → Forall (status_agrees mapName h v) (d_statuses d) →
  repo_ok m → unit_packets m → d_units d = mkUnitData (concat (in_order m).*2) →
  ∃ i, handle_infos (header_events d) (DemoInfoParser_make vj) = Ok i ∧ di_units i = m ∧ di_mapName i = mapName ∧
    di_players i = (λ p, (fromLatin1 (pl_name p), getSide_name p, pl_number p)) <$> d_players d ∧
    ((di_mapHash i, (di_versionMajor i, di_versionMinor i)) = (h, v) ∨
     (di_mapHash i, (di_versionMajor i, di_versionMinor i)) = (0, vj) ∧ ¬ Exists (shows_map mapName) (d_statuses d)).
Proof.
  intros Hn Hs Hm Hp Hu. set (i0 := (DemoInfoParser_make vj) <| di_mapName := mapName |>).
  set (players := (λ p, (fromLatin1 (pl_name p), getSide_name p, pl_number p)) <$> d_players d).
  set (i1 := i0 <| di_players := players |>).
  destruct (handle_infos_statuses mapName h v (Z.of_nat (length (d_players d))) (d_statuses d) Z.of_nat i1 Hs eq_refl) as (i2 & E2 & Hor).
  exists (i2 <| di_units := m |>). assert (di_units i2 = ∅ ∧ di_mapName i2 = mapName ∧ di_players i2 = players) as (H1 & H2 & H3)
    by (by destruct Hor as [-> | [-> _]]).
  split_and!; [|done..|].
  - unfold header_events. cbn [app handle_infos handle_info]. rewrite res_bind_ok, Hn.
    rewrite (handle_infos_app _ _ _ i0) by (by apply handle_infos_quiet).
    rewrite (handle_infos_app _ _ _ i1) by (unfold numbered; rewrite handle_infos_players; done).
    rewrite (handle_infos_app _ _ _ i2) by exact E2. cbn [handle_infos handle_info]. rewrite Hu. cbn [un_unitData].
    rewrite handle_units_packets by (by apply concat_packets). by rewrite H1, repository_rebuilt.
  - destruct Hor as [-> | [-> Hex]]; [left; by destruct v|right; by destruct vj].
Qed.

(** The option info on a demo file with the units of a game prints the map, the players in
    their order, and the hash of the units that the compiler of demos calculates for the
    game: taking the units apart and putting them together again changes nothing.  The hash
    of the map and the version are what the players have said about this map. *)
Theorem info_of_demo (d : demo) (ps : list bytes) (m : UnitDataRepo) (h : Z) (v vj checks : Z * Z) (pj n : Z) (path : bytes) :
  demo_wf d → Forall are_bytes ps → add_all ps ∅ = Ok m → d_units d = mkUnitData (concat (in_order m).*2) →
  Forall (status_agrees (hd_mapName (d_header d)) h v) (d_statuses d) → Exists (shows_map (hd_mapName (d_header d))) (d_statuses d) →
  ∃ calls, hash m = Ok calls ∧
  doDemoInfo checks vj pj (LocalFile path (demo_file d)) n =
  Ok (mkJson path (hd_mapName (d_header d)) (hex8 h) (toHex (md5 (concat (le4 <$> calls)))) v.1 v.2
        ((λ p, (fromLatin1 (pl_name p), getSide_name p, pl_number p)) <$> d_players d)).
Proof.
  intros Hd Hps Hm Hu Hs Hex. destruct (UnitDataRepo_kept ps m Hps Hm) as (Hrepo & calls & Hh).
  assert (unit_packets m) as Hpk by (apply (add_all_packets ps ∅); [apply map_Forall_empty|done]).
  destruct (demo_file_parse_some checks pj d n Hd) as (k & b & s & rest & Ep & Eh).
  destruct (handle_header_events (hd_mapName (d_header d)) h v d m vj eq_refl Hs Hrepo Hpk Hu) as (i & Ei & H1 & H2 & H3 & Hor).
  exists calls. split; [done|]. unfold doDemoInfo. rewrite Ep, Eh, (handle_infos_app _ _ _ i Ei).
  unfold numbered. rewrite (handle_infos_quiet packet_event) by done. rewrite !res_bind_ok. unfold toJson, getUnitDataFingerPrint.
  rewrite H1, Hh, !res_bind_ok, H2, H3. destruct Hor as [[= -> <-]|[_ Hne]]; [done|by destruct Hne].
Qed.
(** When no status message is about the map of the demo, the version that is printed is not
    the version of the demo: it is what the memory held, and the hash of the map is 0. *)
Theorem info_without_map (d : demo) (ps : list bytes) (m : UnitDataRepo) (vj checks : Z * Z) (pj n : Z) (path : bytes) :
  demo_wf d → Forall are_bytes ps → add_all ps ∅ = Ok m → d_units d = mkUnitData (concat (in_order m).*2) →
  Forall (λ s, ∃ info name, TPlayerInfo_parse junk (sm_statusMessage s) = Ok info ∧ getMapName info = Ok name ∧ name ≠ hd_mapName (d_header d))
    (d_statuses d) →
  ∃ j, doDemoInfo checks vj pj (LocalFile path (demo_file d)) n = Ok j ∧
    (dj_taVersionMajor j, dj_taVersionMinor j) = vj ∧ dj_mapHash j = str "00000000".
Proof.
  intros Hd Hps Hm Hu Hs. destruct (UnitDataRepo_kept ps m Hps Hm) as (Hrepo & calls & Hh).
  assert (unit_packets m) as Hpk by (apply (add_all_packets ps ∅); [apply map_Forall_empty|done]).
  destruct (demo_file_parse_some checks pj d n Hd) as (k & b & s & rest & Ep & Eh).
  destruct (handle_header_events (hd_mapName (d_header d)) 0 vj d m vj eq_refl) as (i & Ei & H1 & H2 & H3 & Hor); [|done..|].
  { eapply Forall_impl; [exact Hs|]. intros x (info & name & E1 & E2 & Hn). exists info, name. by split_and!. }
  assert ((di_mapHash i, (di_versionMajor i, di_versionMinor i)) = (0, vj)) as E by (by destruct Hor as [?|[? _]]).
  unfold doDemoInfo. rewrite Ep, Eh, (handle_infos_app _ _ _ i Ei). unfold numbered. rewrite (handle_infos_quiet packet_event) by done. rewrite !res_bind_ok.
  unfold toJson, getUnitDataFingerPrint. rewrite H1, Hh, !res_bind_ok. injection E as E1 <-. eexists. split_and!; [done|done|]. cbn [dj_mapHash]. by rewrite E1.
Qed.
End Info.
