(* ===== verification/JDPlay.v ===== *)
(** * Launching a game through DirectPlay (JDPlay.cpp)

    [JDPlay] holds the interface pointers of DirectPlay, the description of a session and
    the process of the game.  DirectPlay itself is not part of the program: what each of
    its calls answers is an argument, an [HRESULT] of which [0] is [S_OK].  Messages for
    the log are left out. *)
From S2P Require Import Prelude ExceptState GpgNetMessages TPacketSmartpak.

Definition DPOPEN_JOIN : Z := 1.
Definition DPOPEN_CREATE : Z := 2.
Definition DPSESSION_JOINDISABLED : Z := 32.
Definition STILL_ACTIVE : Z := 259.

(** a pointer that was never set, a null pointer, or one to an object *)
Inductive pointer : Set := Wild | Null | Live.
#[export] Instance pointer_eq_dec : EqDecision pointer.
Proof. solve_decision. Defined.
(** what [lpszSessionName] points to: nothing, [dpSessionNameStorage], what DirectPlay has
    written, or a string that is gone *)
Inductive name_pointer : Set := N_null | N_storage | N_directplay | N_dangling.

Record DPSESSIONDESC2 := mkDesc {
  ds_dwSize : Z; ds_dwFlags : Z; ds_guidInstance : bytes; ds_guidApplication : bytes;
  ds_dwMaxPlayers : Z; ds_dwCurrentPlayers : Z; ds_dwReserved1 : Z; ds_dwReserved2 : Z;
  ds_dwUser1 : Z; ds_dwUser2 : Z; ds_dwUser3 : Z; ds_dwUser4 : Z }.
Definition desc_zero : DPSESSIONDESC2 := mkDesc 0 0 [] [] 0 0 0 0 0 0 0 0.
Definition set_current (players max : Z) (d : DPSESSIONDESC2) : DPSESSIONDESC2 :=
  mkDesc (ds_dwSize d) (ds_dwFlags d) (ds_guidInstance d) (ds_guidApplication d) max players
    (ds_dwReserved1 d) (ds_dwReserved2 d) (ds_dwUser1 d) (ds_dwUser2 d) (ds_dwUser3 d) (ds_dwUser4 d).
Definition set_users (u1 u2 u3 u4 : Z) (d : DPSESSIONDESC2) : DPSESSIONDESC2 :=
  mkDesc (ds_dwSize d) (ds_dwFlags d) (ds_guidInstance d) (ds_guidApplication d) (ds_dwMaxPlayers d) (ds_dwCurrentPlayers d)
    (ds_dwReserved1 d) (ds_dwReserved2 d) u1 u2 u3 u4.
(** the fields that [areEqual] compares: not the number of players *)
Definition areEqual (d e : DPSESSIONDESC2) : bool :=
  (ds_dwSize d =? ds_dwSize e) && (ds_dwFlags d =? ds_dwFlags e) && bool_decide (ds_guidInstance d = ds_guidInstance e) &&
  bool_decide (ds_guidApplication d = ds_guidApplication e) && (ds_dwMaxPlayers d =? ds_dwMaxPlayers e) &&
  (ds_dwReserved1 d =? ds_dwReserved1 e) && (ds_dwReserved2 d =? ds_dwReserved2 e) && (ds_dwUser1 d =? ds_dwUser1 e) &&
  (ds_dwUser2 d =? ds_dwUser2 e) && (ds_dwUser3 d =? ds_dwUser3 e) && (ds_dwUser4 d =? ds_dwUser4 e).

(** a session that DirectPlay reports: with its name and password, when it has them *)
Record found := mkFound { fd_desc : DPSESSIONDESC2; fd_name : option (list Z); fd_password : option (list Z) }.

(** [DPLCONNECTION]: the flags and the address *)
Record connection := mkConn { cn_create : bool; cn_hostIP : bytes; cn_addressSize : Z }.

Record JDPlay := mkJD {
  searchValidationCount : Z; validateCount : Z; foundLobby : bool;
  isInitialized : bool; lpDPIsOpen : bool;
  dpSessionNameStorage : list Z; dpSessionPasswordStorage : list Z;
  lpDP : pointer; lpDPLobby : pointer;
  dpName : list Z;                         (* what was written at lpszShortName *)
  dpSessionDesc : DPSESSIONDESC2; lpszSessionName : name_pointer;
  dpConn : option connection;
  sessionFlags : option Z;                 (* not set by the constructor *)
  processHandle : option Z }.

(** [FromAnsi(ansi, dest, maxBytes)]: the 16 bit words that are written to [dest] *)
Fixpoint FromAnsi (ansi : bytes) (maxBytes : Z) : list Z :=
  match ansi with
  | [] => [0]
  | b :: ansi => if b =? 0 then [0] else if 3 <? maxBytes then u16 (s8 b) :: FromAnsi ansi (maxBytes - 2) else [0]
  end.
(** [junk]: [foundLobby] is not initialised *)
Definition JDPlay_make (playerName : bytes) (searchValidationCount : Z) (junk : bool) : JDPlay :=
  mkJD searchValidationCount (-1) junk false false [] [] Wild Wild (FromAnsi playerName 256) desc_zero N_null None None None.

Abbreviation jd := (stx JDPlay).
Definition set_lpDP (p : pointer) (j : JDPlay) : JDPlay :=
  mkJD (searchValidationCount j) (validateCount j) (foundLobby j) (isInitialized j) (lpDPIsOpen j) (dpSessionNameStorage j)
    (dpSessionPasswordStorage j) p (lpDPLobby j) (dpName j) (dpSessionDesc j) (lpszSessionName j) (dpConn j) (sessionFlags j) (processHandle j).
Definition set_lobby (p : pointer) (j : JDPlay) : JDPlay :=
  mkJD (searchValidationCount j) (validateCount j) (foundLobby j) (isInitialized j) (lpDPIsOpen j) (dpSessionNameStorage j)
    (dpSessionPasswordStorage j) (lpDP j) p (dpName j) (dpSessionDesc j) (lpszSessionName j) (dpConn j) (sessionFlags j) (processHandle j).
Definition set_initialized (b : bool) (j : JDPlay) : JDPlay :=
  mkJD (searchValidationCount j) (validateCount j) (foundLobby j) b (lpDPIsOpen j) (dpSessionNameStorage j)
    (dpSessionPasswordStorage j) (lpDP j) (lpDPLobby j) (dpName j) (dpSessionDesc j) (lpszSessionName j) (dpConn j) (sessionFlags j) (processHandle j).
Definition set_open (b : bool) (j : JDPlay) : JDPlay :=
  mkJD (searchValidationCount j) (validateCount j) (foundLobby j) (isInitialized j) b (dpSessionNameStorage j)
    (dpSessionPasswordStorage j) (lpDP j) (lpDPLobby j) (dpName j) (dpSessionDesc j) (lpszSessionName j) (dpConn j) (sessionFlags j) (processHandle j).
Definition set_found (b : bool) (j : JDPlay) : JDPlay :=
  mkJD (searchValidationCount j) (validateCount j) b (isInitialized j) (lpDPIsOpen j) (dpSessionNameStorage j)
    (dpSessionPasswordStorage j) (lpDP j) (lpDPLobby j) (dpName j) (dpSessionDesc j) (lpszSessionName j) (dpConn j) (sessionFlags j) (processHandle j).
Definition set_validate (n : Z) (j : JDPlay) : JDPlay :=
  mkJD (searchValidationCount j) n (foundLobby j) (isInitialized j) (lpDPIsOpen j) (dpSessionNameStorage j)
    (dpSessionPasswordStorage j) (lpDP j) (lpDPLobby j) (dpName j) (dpSessionDesc j) (lpszSessionName j) (dpConn j) (sessionFlags j) (processHandle j).
Definition set_session (name password : list Z) (d : DPSESSIONDESC2) (p : name_pointer) (j : JDPlay) : JDPlay :=
  mkJD (searchValidationCount j) (validateCount j) (foundLobby j) (isInitialized j) (lpDPIsOpen j) name
    password (lpDP j) (lpDPLobby j) (dpName j) d p (dpConn j) (sessionFlags j) (processHandle j).
Definition set_connection (c : connection) (flags : Z) (j : JDPlay) : JDPlay :=
  mkJD (searchValidationCount j) (validateCount j) (foundLobby j) (isInitialized j) (lpDPIsOpen j) (dpSessionNameStorage j)
    (dpSessionPasswordStorage j) (lpDP j) (lpDPLobby j) (dpName j) (dpSessionDesc j) (lpszSessionName j) (Some c) (Some flags) (processHandle j).
Definition set_process (h : Z) (j : JDPlay) : JDPlay :=
  mkJD (searchValidationCount j) (validateCount j) (foundLobby j) (isInitialized j) (lpDPIsOpen j) (dpSessionNameStorage j)
    (dpSessionPasswordStorage j) (lpDP j) (lpDPLobby j) (dpName j) (dpSessionDesc j) (lpszSessionName j) (dpConn j) (sessionFlags j) (Some h).

(** a call through an interface pointer *)
Definition deref (p : JDPlay → pointer) : jd unit := λ j, (if decide (p j = Live) then Ok tt else Undef, j).
(** [if (p)]: a pointer that was never set must not be looked at *)
Definition is_set (p : JDPlay → pointer) : jd bool := λ j,
  (match p j with Live => Ok true | Null => Ok false | Wild => Undef end, j).

(** ** Release *)
Definition releaseDirectPlay : jd unit :=
  b ← is_set lpDP; when b (modify (λ j, set_lpDP Null (set_open false j))).
Definition releaseLobby : jd unit := b ← is_set lpDPLobby; when b (modify (set_lobby Null)).
Definition deInitialize : jd unit :=
  releaseDirectPlay ≫= λ _, releaseLobby ≫= λ _, modify (set_initialized false).
(** [~JDPlay] *)
Definition JDPlay_delete : jd unit := b ← gets isInitialized; when b deInitialize.

(** ** Initialisation *)

(** what the calls of [initialize] answer *)
Record InitAnswers := mkAnswers {
  ia_CLSIDFromString : bytes → option bytes;
  ia_CoInitialize : Z; ia_CoCreateInstance : Z; ia_LobbyCreate : Z; ia_QueryInterface : Z; ia_Release : Z;
  ia_addressSize : Z; ia_CompoundAddress : Z; ia_InitializeConnection : Z }.
Definition TAF_Game : list Z := [84; 65; 70; 32; 71; 97; 109; 101].
Definition sizeof_DPSESSIONDESC2 : Z := 80.

(** [if (hr != S_OK) return false;] and so on *)
Definition check_hr (hr : Z) (next : jd bool) : jd bool := if hr =? 0 then next else mret false.
Definition initialize (gameGUID hostIP : bytes) (isHost : bool) (maxPlayers : Z) (a : InitAnswers) : jd bool :=
  b ← gets isInitialized;
  when b deInitialize ≫= λ _,
  match ia_CLSIDFromString a (c_str gameGUID) with
  | None => mret false
  | Some gameID =>
      check_hr (ia_CoInitialize a) (
      if negb (ia_CoCreateInstance a =? 0) then modify (set_lpDP Null) ≫= λ _, mret false
      else
        modify (set_lpDP Live) ≫= λ _,
        check_hr (ia_LobbyCreate a) (
        if negb (ia_QueryInterface a =? 0) then modify (set_lobby Null) ≫= λ _, mret false
        else
          modify (set_lobby Live) ≫= λ _,
          check_hr (ia_Release a) (
          let hostIP := if isHost then [] else c_str hostIP in
          let addressSize := if ia_addressSize a =? 0 then 1000 else ia_addressSize a in
          check_hr (ia_CompoundAddress a) (
          check_hr (ia_InitializeConnection a) (
          modify (λ j, set_session TAF_Game [] (mkDesc sizeof_DPSESSIONDESC2 0 gameID gameID maxPlayers 0 0 0 0 0 0 0) N_storage j) ≫= λ _,
          modify (set_connection (mkConn isHost hostIP addressSize) (if isHost then DPOPEN_CREATE else DPOPEN_JOIN)) ≫= λ _,
          modify (set_initialized true) ≫= λ _,
          mret true)))))
  end.
Definition isHost : jd bool := λ j,
  (match sessionFlags j with Some f => Ok (negb (f =? DPOPEN_JOIN)) | None => Undef end, j).
Definition updatePlayerName (name : bytes) (j : JDPlay) : JDPlay :=
  mkJD (searchValidationCount j) (validateCount j) (foundLobby j) (isInitialized j) (lpDPIsOpen j) (dpSessionNameStorage j)
    (dpSessionPasswordStorage j) (lpDP j) (lpDPLobby j) (FromAnsi name 256) (dpSessionDesc j) (lpszSessionName j) (dpConn j) (sessionFlags j) (processHandle j).

(** ** Sessions *)
Definition updateFoundSessionDescription (f : found) (j : JDPlay) : JDPlay :=
  let j :=
    if -1 <? validateCount j then
      set_validate (if areEqual (dpSessionDesc j) (fd_desc f) then validateCount j + 1 else -1) j
    else
      set_validate 0 (set_session (default TAF_Game (fd_name f)) (default [] (fd_password f)) (fd_desc f) N_storage j)
  in set_found (searchValidationCount j <=? validateCount j) j.
(** [EnumSessions]: the callback is called for the first session, and ends the enumeration *)
Definition EnumSessions (answer : option found) : jd unit :=
  deref lpDP ≫= λ _, modify (λ j, match answer with Some f => updateFoundSessionDescription f j | None => j end).

Definition searchOnce (hr : Z) (answer : option found) (open_hr : Z) : jd bool :=
  host ← isHost;
  if (host : bool) then mret true
  else
    modify (set_found false) ≫= λ _,
    b ← is_set lpDP;
    if (b : bool) then
      EnumSessions answer ≫= λ _,
      check_hr hr (
      f ← gets foundLobby;
      if negb f then mret false
      else check_hr open_hr (modify (set_open true) ≫= λ _, mret true))
    else mret true.
(** the process that was found for the application that DirectPlay has started *)
Definition launch (startGame : bool) (run_hr : Z) (process : option Z) : jd bool :=
  b ← gets isInitialized;
  if negb b then mret false
  else if negb startGame then mret false
  else
    deref lpDPLobby ≫= λ _,
    check_hr run_hr (match process with
                     | Some h => modify (set_process h) ≫= λ _, mret true
                     | None => mret false
                     end).
Definition pollStillActive (exitCode : Z) : jd bool := λ j,
  (match processHandle j with Some _ => Ok (exitCode =? STILL_ACTIVE) | None => Undef end, j).
(** without an interface of its own it calls itself with the one it has tried to make:
    when that has failed, for ever *)
Fixpoint pollSessionStatus (fuel : nat) (dplay : bool) (created : bool) (answer : option found) : jd unit :=
  match fuel with
  | O => lift Hang
  | S fuel =>
      if dplay then modify (λ j, match answer with Some f => updateFoundSessionDescription f j | None => j end)
      else b ← is_set lpDP; pollSessionStatus fuel (b || created) created answer
  end.
Definition enumSessions (answer : option found) : jd DPSESSIONDESC2 :=
  EnumSessions answer ≫= λ _, gets dpSessionDesc.

(** ** Hosting a session of one's own *)

(** the name is a local string, to which the description keeps pointing *)
Definition dpOpen (maxPlayers u1 u2 u3 u4 hr : Z) : jd bool :=
  modify (λ j, set_session (dpSessionNameStorage j) (dpSessionPasswordStorage j)
    (set_users u1 u2 u3 u4 (set_current 0 maxPlayers (dpSessionDesc j))) N_dangling j) ≫= λ _,
  deref lpDP ≫= λ _, mret (hr =? 0).
Definition dpGetSession (answer : DPSESSIONDESC2) : jd (Z * Z * Z * Z) :=
  deref lpDP ≫= λ _,
  modify (λ j, set_session (dpSessionNameStorage j) (dpSessionPasswordStorage j) answer N_directplay j) ≫= λ _,
  d ← gets dpSessionDesc; mret (ds_dwUser1 d, ds_dwUser2 d, ds_dwUser3 d, ds_dwUser4 d).
(** the description goes to DirectPlay, which reads the name it points to *)
Definition dpSetSession (u1 u2 u3 u4 : Z) : jd DPSESSIONDESC2 :=
  modify (λ j, set_session (dpSessionNameStorage j) (dpSessionPasswordStorage j)
    (set_users u1 u2 u3 u4 (dpSessionDesc j)) (lpszSessionName j) j) ≫= λ _,
  deref lpDP ≫= λ _,
  j ← gets id;
  match lpszSessionName j with N_dangling => lift Undef | _ => mret (dpSessionDesc j) end.

(** ** Calls that only forward to DirectPlay *)
Inductive dp_call : Type :=
  | DP_Open (d : DPSESSIONDESC2)
  | DP_Close
  | DP_SetSessionDesc (d : DPSESSIONDESC2)
  | DP_Send (from to flags : Z) (data : bytes)
  | DP_CreatePlayer (name : bytes)
  | DP_DestroyPlayer (dpid : Z)
  | DP_SetPlayerName (dpid : Z) (name : bytes)
  | DP_EnumPlayers.
(** [FromAnsi(s)]: the bytes up to the terminator that [data()] adds *)
Definition FromAnsi_string (s : bytes) : bytes := (c_str s ≫= λ c, [c; 0]) ++ [0].
Definition dpClose : jd dp_call := deref lpDP ≫= λ _, mret DP_Close.
Definition dpSend (sourceDplayId destDplayId flags : Z) (data : bytes) : jd dp_call :=
  deref lpDP ≫= λ _, mret (DP_Send sourceDplayId destDplayId flags data).
Definition dpCreatePlayer (nameA : bytes) : jd dp_call :=
  deref lpDP ≫= λ _, mret (DP_CreatePlayer (FromAnsi_string nameA)).
Definition dpDestroyPlayer (dpid : Z) : jd dp_call := deref lpDP ≫= λ _, mret (DP_DestroyPlayer dpid).
Definition dpSetPlayerName (dpid : Z) (nameA : bytes) : jd dp_call :=
  deref lpDP ≫= λ _, mret (DP_SetPlayerName dpid (FromAnsi_string nameA)).
Definition dpEnumPlayers : jd dp_call := deref lpDP ≫= λ _, mret DP_EnumPlayers.
(** what [Receive] answers: a message, which it has written to the buffer, or an error *)
Inductive received : Type :=
  | R_message (from to : Z) (data : bytes)
  | R_error (size : Z).
(** the buffer holds [capacity] bytes; the size is passed in and returned *)
Definition dpReceive (capacity : Z) (answer : received) : jd (option (Z * Z * bytes) * Z) :=
  deref lpDP ≫= λ _,
  match answer with
  | R_message from to data =>
      if capacity <? Z.of_nat (length data) then lift Undef else mret (Some (from, to, data), Z.of_nat (length data))
  | R_error size => mret (None, size)
  end.

(** ** Facts *)
Lemma FromAnsi_length ansi : ∀ maxBytes, 2 ≤ maxBytes → 2 * Z.of_nat (length (FromAnsi ansi maxBytes)) ≤ maxBytes.
Proof.
  induction ansi as [|b ansi IH]; intros m Hm; cbn [FromAnsi]; [cbn [length]; lia|]. destruct (b =? 0); [cbn [length]; lia|].
  destruct (Z.ltb_spec 3 m); cbn [length]; [|lia]. specialize (IH (m - 2) ltac:(lia)). lia.
Qed.
(** names are cut to the memory that the constructor has allocated, and end with a zero *)
Lemma updatePlayerName_fits name j : (length (dpName (updatePlayerName name j)) ≤ 128)%nat ∧ last (dpName (updatePlayerName name j)) = Some 0.
Proof.
  unfold updatePlayerName. cbn [dpName]. split; [pose proof (FromAnsi_length name 256 ltac:(lia)); lia|].
  generalize 256. induction name as [|b name IH]; intros m; cbn [FromAnsi]; [done|]. destruct (b =? 0); [done|].
  destruct (3 <? m); [|done]. specialize (IH (m - 2)). destruct (FromAnsi name (m - 2)) as [|x l]; [done|]. rewrite last_cons_cons. exact IH.
Qed.
Lemma pollSessionStatus_never_ends j answer : lpDP j = Null → ∀ fuel, (pollSessionStatus fuel false false answer j).1 = Hang.
Proof.
  intros Hj fuel. revert j Hj. induction fuel as [|fuel IH]; intros j Hj; [done|]. cbn [pollSessionStatus].
  unfold mbind, stx_bind, is_set. rewrite Hj. cbn [orb]. by apply IH.
Qed.
