(* ===== verification/LaunchServer.v ===== *)
(** * Starting the game on request (LaunchServer.cpp, LaunchClient.cpp)

    The server runs with the rights that the game needs; clients on the same machine ask
    it over a local connection to start the game, and are told how it goes.  Each call of
    the operating system and of DirectPlay answers by an argument. *)
From S2P Require Import Prelude ExceptState GpgNetParse GpgNetMessages QtText TPacketSmartpak JDPlay.

(** ** LaunchServer *)
Inductive signal : Type :=
  | quit
  | gameFailedToLaunch (gameGuid : bytes)
  | gameExitedWithError (exitCode : Z)
  | gameFileVersionMismatch (message : bytes).
Record LaunchServer := mkLaunch {
  m_keepAliveTimeout : Z;
  m_tcpSockets : list Z;
  m_jdPlay : option JDPlay;
  m_shutdownCounter : Z;
  m_joinIsDisabled : bool;                 (* not initialised before the first launch *)
  written : list (Z * bytes);              (* to which socket, what *)
  signals : list signal }.
Definition LaunchServer_make (keepAliveTimeout : Z) (junk : bool) : LaunchServer :=
  mkLaunch (Z.quot (keepAliveTimeout * 1000) 1000) [] None keepAliveTimeout junk [] [].
Abbreviation ls := (stx LaunchServer).
Definition set_sockets (l : list Z) (s : LaunchServer) : LaunchServer :=
  mkLaunch (m_keepAliveTimeout s) l (m_jdPlay s) (m_shutdownCounter s) (m_joinIsDisabled s) (written s) (signals s).
Definition set_jdPlay (j : option JDPlay) (s : LaunchServer) : LaunchServer :=
  mkLaunch (m_keepAliveTimeout s) (m_tcpSockets s) j (m_shutdownCounter s) (m_joinIsDisabled s) (written s) (signals s).
Definition set_counter (n : Z) (s : LaunchServer) : LaunchServer :=
  mkLaunch (m_keepAliveTimeout s) (m_tcpSockets s) (m_jdPlay s) n (m_joinIsDisabled s) (written s) (signals s).
Definition set_joinIsDisabled (b : bool) (s : LaunchServer) : LaunchServer :=
  mkLaunch (m_keepAliveTimeout s) (m_tcpSockets s) (m_jdPlay s) (m_shutdownCounter s) b (written s) (signals s).
Definition emit_signal (x : signal) (s : LaunchServer) : LaunchServer :=
  mkLaunch (m_keepAliveTimeout s) (m_tcpSockets s) (m_jdPlay s) (m_shutdownCounter s) (m_joinIsDisabled s) (written s) (signals s ++ [x]).
(** [notifyClients]: the message and its terminator, to every socket *)
Definition notifyClients (msg : bytes) (s : LaunchServer) : LaunchServer :=
  mkLaunch (m_keepAliveTimeout s) (m_tcpSockets s) (m_jdPlay s) (m_shutdownCounter s) (m_joinIsDisabled s)
    (written s ++ ((λ k, (k, msg ++ [0])) <$> m_tcpSockets s)) (signals s).

Definition onNewConnection (socket : Z) (s : LaunchServer) : LaunchServer := set_sockets (m_tcpSockets s ++ [socket]) s.
(** [removeOne] *)
Fixpoint removeOne (x : Z) (l : list Z) : list Z :=
  match l with [] => [] | y :: l => if y =? x then l else y :: removeOne x l end.
Definition onDisconnected (socket : Z) (s : LaunchServer) : LaunchServer := set_sockets (removeOne socket (m_tcpSockets s)) s.

(** a method of [*m_jdPlay] *)
Definition on_jd {A} (m : jd A) : ls A := λ s,
  match m_jdPlay s with
  | Some j => let '(x, j) := m j in (x, set_jdPlay (Some j) s)
  | None => (Undef, s)
  end.
(** [m_jdPlay.reset()] *)
Definition reset_jdPlay : ls unit := λ s,
  match m_jdPlay s with
  | Some j => let '(x, _) := JDPlay_delete j in (x, set_jdPlay None s)
  | None => (Ok tt, s)
  end.

(** what DirectPlay and the system answer to a launch *)
Record LaunchAnswers := mkLaunchAnswers {
  la_initialize : InitAnswers;
  la_search : Z → Z * option found * Z;    (* of the n-th search *)
  la_run : Z; la_process : option Z; la_junk : bool }.
Definition searchOnce_n (a : LaunchAnswers) (n : Z) : ls bool :=
  let '(hr, answer, open_hr) := la_search a n in on_jd (searchOnce hr answer open_hr).
(** [searchOnce() || searchOnce() || searchOnce()] *)
Definition search_thrice (a : LaunchAnswers) : ls bool :=
  b ← searchOnce_n a 1; if (b : bool) then mret true
  else b ← searchOnce_n a 2; if (b : bool) then mret true else searchOnce_n a 3.
Definition launch_failed (guid : bytes) : ls unit :=
  reset_jdPlay ≫= λ _, modify (notifyClients (str "FAIL")) ≫= λ _, modify (emit_signal (gameFailedToLaunch guid)).
Definition launchGame (guid player ipaddr : bytes) (asHost doSearch : bool) (a : LaunchAnswers) : ls unit :=
  j ← gets m_jdPlay;
  if bool_decide (is_Some j) then mret tt
  else
    modify (set_jdPlay (Some (JDPlay_make (c_str player) 0 (la_junk a)))) ≫= λ _,
    ok ← on_jd (initialize guid ipaddr asHost 10 (la_initialize a));
    if negb ok then launch_failed guid
    else
      found ← (if negb asHost && doSearch then search_thrice a else mret true);
      if negb (found : bool) then launch_failed guid
      else
        ok ← on_jd (launch true (la_run a) (la_process a));
        if negb ok then launch_failed guid
        else modify (set_joinIsDisabled false) ≫= λ _, modify (notifyClients (str "RUNNING")).

Section Server.
Context `{Qt}.

Definition is_newline (b : Z) : bool := (b =? 10) || (b =? 13).
(** [onReadyReadTcp]: all that has arrived is taken for one request *)
Definition onReadyReadTcp (datas : bytes) (a : LaunchAnswers) : ls unit :=
  match split 32 (filter (λ b, is_newline b = false) (fromUtf8 datas)) with
  | [] => mret tt
  | cmd :: args =>
      if bool_decide (cmd = str "/keepalive") then modify (λ s, set_counter (m_keepAliveTimeout s) s)
      else if bool_decide (cmd = str "/failversion") then
        reset_jdPlay ≫= λ _, modify (notifyClients (str "FAIL")) ≫= λ _,
        modify (emit_signal (gameFileVersionMismatch (join 32 args)))
      else
        match args with
        | guid :: player :: ipaddr :: _ =>
            if bool_decide (cmd = str "/host") then launchGame guid player ipaddr true false a
            else if bool_decide (cmd = str "/join") then launchGame guid player ipaddr false false a
            else if bool_decide (cmd = str "/searchjoin") then launchGame guid player ipaddr false true a
            else mret tt
        | _ => mret tt
        end
  end.
End Server.

(** [exitCode]: of the process of the game; [answer]: the session that DirectPlay reports *)
Definition timerEvent (exitCode : Z) (answer : option found) : ls unit :=
  j ← gets m_jdPlay;
  (if bool_decide (is_Some j) then
     active ← on_jd (pollStillActive exitCode);
     if negb active then
       (if exitCode =? 0 then modify (notifyClients (str "IDLE"))
        else modify (notifyClients (str "FAIL " ++ hex exitCode)) ≫= λ _, modify (emit_signal (gameExitedWithError exitCode))) ≫= λ _,
       reset_jdPlay
     else
       host ← on_jd isHost;
       disabled ← gets m_joinIsDisabled;
       when (host && negb disabled)
         (desc ← on_jd (enumSessions answer);
          when (negb (Z.land (ds_dwFlags desc) DPSESSION_JOINDISABLED =? 0))
            (modify (set_joinIsDisabled true) ≫= λ _, modify (notifyClients (str "LAUNCHED"))))
   else mret tt) ≫= λ _,
  s ← gets id;
  when (bool_decide (m_jdPlay s = None) || negb (exitCode =? STILL_ACTIVE)) (modify (λ s, set_counter (m_shutdownCounter s - 1) s)) ≫= λ _,
  n ← gets m_shutdownCounter;
  when (n <=? 0) (modify (emit_signal quit)).
