(* ===== verification/LaunchClient.v ===== *)
(** * The client of the launch server (LaunchClient.cpp)

    What its blocking calls on the socket answer is an argument.  Together with the server
    of LaunchServer: a request is understood, and what is lost of the answers. *)
From S2P Require Import Prelude ExceptState GpgNetParse GpgNetMessages TPacketSmartpak JDPlay LaunchServer.

Inductive State : Set := CONNECTING | IDLE | RUNNING | LAUNCHED | FAIL.
#[export] Instance State_eq_dec : EqDecision State.
Proof. solve_decision. Defined.
Record LaunchClient := mkLClient {
  m_state : State;
  m_playerName : bytes; m_gameGuid : bytes; m_gameAddress : bytes;
  m_isHost : bool; m_requireSearch : bool;
  lc_sent : list bytes }.                  (* the requests that were written *)
Definition set_state (x : State) (c : LaunchClient) : LaunchClient :=
  mkLClient x (m_playerName c) (m_gameGuid c) (m_gameAddress c) (m_isHost c) (m_requireSearch c) (lc_sent c).
Definition write_request (b : bytes) (c : LaunchClient) : LaunchClient :=
  mkLClient (m_state c) (m_playerName c) (m_gameGuid c) (m_gameAddress c) (m_isHost c) (m_requireSearch c) (lc_sent c ++ [b]).

(** [connect]: what each [waitForConnected] answers, the first before any attempt *)
Definition connect (waits : nat → bool) : bool := existsb waits (seq 0 32).
Definition LaunchClient_make (waits : nat → bool) : LaunchClient :=
  mkLClient (if connect waits then IDLE else CONNECTING) (str "BILLYIDOL") (str "{99797420-F5F5-11CF-9827-00A0241496C8}")
    (str "127.0.0.1") true false [].
Definition setPlayerName (b : bytes) (c : LaunchClient) : LaunchClient :=
  mkLClient (m_state c) b (m_gameGuid c) (m_gameAddress c) (m_isHost c) (m_requireSearch c) (lc_sent c).
Definition setGameGuid (b : bytes) (c : LaunchClient) : LaunchClient :=
  mkLClient (m_state c) (m_playerName c) b (m_gameAddress c) (m_isHost c) (m_requireSearch c) (lc_sent c).
Definition setAddress (b : bytes) (c : LaunchClient) : LaunchClient :=
  mkLClient (m_state c) (m_playerName c) (m_gameGuid c) b (m_isHost c) (m_requireSearch c) (lc_sent c).
Definition setIsHost (b : bool) (c : LaunchClient) : LaunchClient :=
  mkLClient (m_state c) (m_playerName c) (m_gameGuid c) (m_gameAddress c) b (m_requireSearch c) (lc_sent c).
Definition setRequireSearch (b : bool) (c : LaunchClient) : LaunchClient :=
  mkLClient (m_state c) (m_playerName c) (m_gameGuid c) (m_gameAddress c) (m_isHost c) b (lc_sent c).
Definition onSocketDisconnected (c : LaunchClient) : LaunchClient := set_state CONNECTING c.
Definition isApplicationRunning (c : LaunchClient) : bool := bool_decide (m_state c = RUNNING) || bool_decide (m_state c = LAUNCHED).
Definition isGameLaunched (c : LaunchClient) : bool := bool_decide (m_state c = LAUNCHED).

(** ** [QString::arg] *)

(** a place marker, %1 to %99, at the head of a string, and what comes after it *)
Definition digit (b : Z) : option Z := if (48 <=? b) && (b <=? 57) then Some (b - 48) else None.
Definition marker (b : bytes) : option (Z * bytes) :=
  match b with
  | 37 :: x :: rest =>
      match digit x with
      | Some d =>
          match rest with
          | y :: rest' => match digit y with Some e => Some (10 * d + e, rest') | None => Some (d, rest) end
          | [] => Some (d, rest)
          end
      | None => None
      end
  | _ => None
  end.
Fixpoint markers (fuel : nat) (b : bytes) : list Z :=
  match fuel with
  | O => []
  | S fuel => match b with
              | [] => []
              | _ :: rest => match marker b with Some (n, rest') => n :: markers fuel rest' | None => markers fuel rest end
              end
  end.
Fixpoint replace_marker (fuel : nat) (n : Z) (a b : bytes) : bytes :=
  match fuel with
  | O => []
  | S fuel => match b with
              | [] => []
              | x :: rest => match marker b with
                             | Some (m, rest') =>
                                 (if m =? n then a else take (length b - length rest') b) ++ replace_marker fuel n a rest'
                             | None => x :: replace_marker fuel n a rest
                             end
              end
  end.
(** every occurrence of the lowest marker *)
Definition arg_string (b a : bytes) : bytes :=
  match markers (length b) b with
  | [] => b
  | n :: ns => replace_marker (length b) (foldl Z.min n ns) a b
  end.

Section Client.
Context `{Qt}.

(** [QString::fromUtf8] of a [QByteArray] ends at the first NUL *)
Definition onReadyReadTcp (data : bytes) (c : LaunchClient) : LaunchClient :=
  match data with
  | [] => c
  | _ =>
      match split 32 (fromUtf8 (c_str data)) with
      | [] => c
      | response :: _ =>
          if bool_decide (response = str "IDLE") then set_state IDLE c
          else if bool_decide (response = str "RUNNING") then set_state RUNNING c
          else if bool_decide (response = str "LAUNCHED") then set_state LAUNCHED c
          else if bool_decide (response = str "FAIL") then set_state FAIL c
          else c
      end
  end.
(** write a request and wait for half a minute; [reply]: what is read, if anything comes *)
Definition request (message : bytes) (reply : option bytes) (c : LaunchClient) : LaunchClient :=
  let c := write_request message c in
  match reply with
  | None => set_state FAIL c
  | Some data => onReadyReadTcp data c
  end.
Definition start_message (c : LaunchClient) : bytes :=
  join 32 [str (if m_isHost c then "/host" else if m_requireSearch c then "/searchjoin" else "/join");
           m_gameGuid c; m_playerName c; m_gameAddress c].
(** [connected]: what [waitForConnected(3)] answers after [connect] *)
Definition startApplication (connected : bool) (reply : option bytes) (c : LaunchClient) : bool * LaunchClient :=
  let c := if connected then request (start_message c) reply c else set_state CONNECTING c in
  (isApplicationRunning c, c).
Definition failGameFileVersions (filename reason : bytes) (connected : bool) (reply : option bytes) (c : LaunchClient) : bool * LaunchClient :=
  let c := if connected then request (arg_string (arg_string (str "/failversion %1 %2)") filename) reason) reply c else c in
  (isApplicationRunning c, c).
End Client.
