(* ===== verification/LaunchFacts.v ===== *)
(** * Theorems on starting the game

    The server never uses what it has not set up; what it answers to a request is true;
    the beginning of a game is announced; and what a client can miss. *)
From S2P Require Import Prelude ExceptState GpgNetParse GpgNetMessages QtText TPacketSmartpak JDPlay LaunchServer LaunchClient.

(** ** JDPlay, once it is initialised *)
Definition ready (host : bool) (j : JDPlay) : Prop :=
  isInitialized j = true ∧ lpDP j = Live ∧ lpDPLobby j = Live ∧ sessionFlags j = Some (if host then DPOPEN_CREATE else DPOPEN_JOIN).
(** a computation that returns, in a state that satisfies [P] *)
Definition returns {S A} (m : stx S A) (s : S) (P : A → S → Prop) : Prop := ∃ a s', m s = (Ok a, s') ∧ P a s'.
Lemma returns_ret {S A} (a : A) (s : S) (P : A → S → Prop) : P a s → returns (mret a) s P.
Proof. intros H. by exists a, s. Qed.
Lemma returns_modify {S} (f : S → S) (s : S) (P : unit → S → Prop) : P tt (f s) → returns (modify f) s P.
Proof. intros H. by exists tt, (f s). Qed.
Lemma returns_gets {S A} (f : S → A) (s : S) (P : A → S → Prop) : P (f s) s → returns (gets f) s P.
Proof. intros H. by exists (f s), s. Qed.
Lemma returns_bind {S A B} (m : stx S A) (f : A → stx S B) (s : S) (Q : A → S → Prop) (P : B → S → Prop) :
  returns m s Q → (∀ a s', Q a s' → returns (f a) s' P) → returns (m ≫= f) s P.
Proof. intros (a & s' & E & HQ) Hf. destruct (Hf a s' HQ) as (b & s2 & E2 & HP). exists b, s2. split; [|done]. by rewrite (stx_bind_ok _ _ _ _ _ E). Qed.
Lemma returns_bind_modify {S B} (g : S → S) (f : unit → stx S B) (s : S) (P : B → S → Prop) :
  returns (f tt) (g s) P → returns (modify g ≫= f) s P.
Proof. intros H. apply (returns_bind _ _ _ (λ _ s', s' = g s)); [by apply returns_modify|]. by intros [] ? ->. Qed.
Lemma returns_bind_gets {S A B} (g : S → A) (f : A → stx S B) (s : S) (P : B → S → Prop) :
  returns (f (g s)) s P → returns (gets g ≫= f) s P.
Proof. intros H. apply (returns_bind _ _ _ (λ a s', a = g s ∧ s' = s)); [by apply returns_gets|]. by intros a ? [-> ->]. Qed.
Lemma returns_impl {S A} (m : stx S A) (s : S) (Q P : A → S → Prop) : returns m s Q → (∀ a s', Q a s' → P a s') → returns m s P.
Proof. intros (a & s' & E & HQ) H. exists a, s'. auto. Qed.

Definition initialized (host : bool) (b : bool) (j : JDPlay) : Prop := if b then ready host j else isInitialized j = false.
Lemma check_hr_returns hr next j host : isInitialized j = false → returns next j (initialized host) → returns (check_hr hr next) j (initialized host).
Proof. intros Hj H. unfold check_hr. destruct (hr =? 0); [done|]. by apply returns_ret. Qed.
Lemma initialize_fresh guid ip host n a j : isInitialized j = false → returns (initialize guid ip host n a) j (initialized host).
Proof.
  intros Hj. unfold initialize. apply returns_bind_gets. rewrite Hj. cbn [when].
  apply (returns_bind _ _ _ (λ _ s', s' = j)); [by apply returns_ret|]. intros _ s' ->.
  destruct (ia_CLSIDFromString a (c_str guid)) as [gameID|]; [|by apply returns_ret].
  apply check_hr_returns; [done|]. destruct (negb _); [by apply returns_bind_modify, returns_ret|]. apply returns_bind_modify.
  apply check_hr_returns; [done|]. destruct (negb _); [by apply returns_bind_modify, returns_ret|]. apply returns_bind_modify.
  apply check_hr_returns; [done|]. cbv zeta. apply check_hr_returns; [done|]. apply check_hr_returns; [done|].
  repeat apply returns_bind_modify. by apply returns_ret.
Qed.

Lemma update_ready host f j : ready host j → ready host (updateFoundSessionDescription f j).
Proof. intros Hj. unfold updateFoundSessionDescription. by destruct (-1 <? validateCount j). Qed.
Lemma update_process f j : processHandle (updateFoundSessionDescription f j) = processHandle j.
Proof. unfold updateFoundSessionDescription. by destruct (-1 <? validateCount j). Qed.
Lemma isHost_ready host j : ready host j → isHost j = (Ok host, j).
Proof. intros (_ & _ & _ & E). unfold isHost. rewrite E. by destruct host. Qed.
Lemma EnumSessions_ready host answer j : ready host j →
  returns (EnumSessions answer) j (λ _ j', j' = from_option (λ f, updateFoundSessionDescription f j) j answer).
Proof.
  intros (_ & E & _). unfold EnumSessions. apply (returns_bind _ _ _ (λ _ s', s' = j)).
  - exists tt, j. split; [|done]. unfold deref. by rewrite decide_True.
  - intros _ s' ->. apply returns_modify. by destruct answer.
Qed.
Lemma searchOnce_ready host hr answer open_hr j : ready host j → returns (searchOnce hr answer open_hr) j (λ _, ready host).
Proof.
  intros Hj. unfold searchOnce. apply (returns_bind _ _ _ (λ h s', h = host ∧ s' = j)). { exists host, j. split; [by apply isHost_ready|done]. }
  intros h s' [-> ->]. destruct host; [by apply returns_ret|]. apply returns_bind_modify. set (j1 := set_found false j).
  assert (ready false j1) as H1 by done. apply (returns_bind _ _ _ (λ b s', b = true ∧ s' = j1)).
  { exists true, j1. split; [|done]. unfold is_set. destruct H1 as (_ & E & _). by rewrite E. }
  intros b s' [-> ->]. apply (returns_bind _ _ _ (λ _, ready false)).
  { apply (returns_impl _ _ _ _ (EnumSessions_ready false answer j1 H1)). intros _ s' ->. destruct answer; [by apply update_ready|done]. }
  intros _ j2 H2. unfold check_hr. destruct (hr =? 0); [|by apply returns_ret]. apply returns_bind_gets.
  destruct (foundLobby j2); cbn [negb]; [|by apply returns_ret]. destruct (open_hr =? 0); [|by apply returns_ret].
  by apply returns_bind_modify, returns_ret.
Qed.
Lemma launch_ready host hr p j : ready host j →
  returns (launch true hr p) j (λ b j', ready host j' ∧ (b = true → is_Some (processHandle j'))).
Proof.
  intros Hj. unfold launch. pose proof Hj as (E1 & _ & E2 & _). apply returns_bind_gets. rewrite E1. cbn [negb].
  apply (returns_bind _ _ _ (λ _ s', s' = j)). { exists tt, j. split; [|done]. unfold deref. by rewrite decide_True. }
  intros _ s' ->. unfold check_hr. destruct (hr =? 0); [|by apply returns_ret]. destruct p as [h|]; [|by apply returns_ret].
  apply returns_bind_modify, returns_ret. split; [done|]. intros _. by exists h.
Qed.

(** ** The server *)

(** a game that the server knows of has been started *)
Definition launch_ok (s : LaunchServer) : Prop :=
  from_option (λ j, is_Some (processHandle j) ∧ ∃ host, ready host j) True (m_jdPlay s).
(** in the middle of a launch *)
Definition launching (host : bool) (s0 s : LaunchServer) : Prop := ∃ j, ready host j ∧ s = set_jdPlay (Some j) s0.
Lemma on_jd_returns {A} (m : jd A) s j P : m_jdPlay s = Some j → returns m j P →
  returns (on_jd m) s (λ a s', ∃ j', P a j' ∧ s' = set_jdPlay (Some j') s).
Proof. intros E (a & j' & Em & HP). exists a, (set_jdPlay (Some j') s). split; [unfold on_jd; by rewrite E, Em|by exists j']. Qed.
Lemma reset_returns s : from_option (λ j, isInitialized j = false ∨ ∃ host, ready host j) True (m_jdPlay s) →
  returns reset_jdPlay s (λ _ s', s' = set_jdPlay None s).
Proof.
  intros Hs. unfold reset_jdPlay, returns. destruct s as [t l [j|] c b w g]; cbn in *; [|by eexists _, _].
  assert (∃ j', JDPlay_delete j = (Ok tt, j')) as [j' ->]; [|by eexists _, _]. unfold JDPlay_delete.
  destruct Hs as [Hj|(host & E1 & E2 & E3 & _)].
  - exists j. unfold mbind, stx_bind, gets. by rewrite Hj.
  - destruct j. cbn in *. subst. eexists. reflexivity.
Qed.
(** the outcome of a launch: an answer to every client, which is true *)
Definition launched (guid : bytes) (s0 s : LaunchServer) : Prop := launch_ok s ∧ m_tcpSockets s = m_tcpSockets s0 ∧
  m_shutdownCounter s = m_shutdownCounter s0 ∧ m_keepAliveTimeout s = m_keepAliveTimeout s0 ∧
  if bool_decide (is_Some (m_jdPlay s)) then
    m_joinIsDisabled s = false ∧ signals s = signals s0 ∧
    written s = written s0 ++ ((λ k, (k, str "RUNNING" ++ [0])) <$> m_tcpSockets s0)
  else
    signals s = signals s0 ++ [gameFailedToLaunch guid] ∧
    written s = written s0 ++ ((λ k, (k, str "FAIL" ++ [0])) <$> m_tcpSockets s0).
Lemma launch_failed_returns guid s0 j : isInitialized j = false ∨ (∃ host, ready host j) →
  returns (launch_failed guid) (set_jdPlay (Some j) s0) (λ _, launched guid s0).
Proof.
  intros Hj. unfold launch_failed. apply (returns_bind _ _ _ _ _ (reset_returns (set_jdPlay (Some j) s0) Hj)). intros _ s' ->.
  apply returns_bind_modify, returns_modify. split_and!; done.
Qed.
Lemma searches_return a host s0 s : launching host s0 s → returns (search_thrice a) s (λ _, launching host s0).
Proof.
  assert (∀ n s, launching host s0 s → returns (searchOnce_n a n) s (λ _, launching host s0)) as H1.
  { intros n s1 (j & Hj & ->). unfold searchOnce_n. destruct (la_search a n) as [[hr answer] open_hr].
    apply (returns_impl _ _ _ _ (on_jd_returns (searchOnce hr answer open_hr) (set_jdPlay (Some j) s0) j _ eq_refl (searchOnce_ready host hr answer open_hr j Hj))).
    intros b s' (j' & Hj' & ->). by exists j'. }
  intros Hs. unfold search_thrice. apply (returns_bind _ _ _ _ _ (H1 1 s Hs)). intros b1 s1 Hs1. destruct b1; [by apply returns_ret|].
  apply (returns_bind _ _ _ _ _ (H1 2 s1 Hs1)). intros b2 s2 Hs2. destruct b2; [by apply returns_ret|]. by apply H1.
Qed.
Lemma launchGame_returns guid player ip asHost doSearch a s : m_jdPlay s = None →
  returns (launchGame guid player ip asHost doSearch a) s (λ _, launched guid s).
Proof.
  intros Hs. unfold launchGame. apply returns_bind_gets. rewrite Hs. rewrite bool_decide_false by (by intros [? ?]). apply returns_bind_modify.
  set (j0 := JDPlay_make _ _ _). set (s1 := set_jdPlay (Some j0) s).
  apply (returns_bind _ _ _ _ _ (on_jd_returns _ s1 j0 _ eq_refl (initialize_fresh guid ip asHost 10 (la_initialize a) j0 eq_refl))).
  intros ok s2 (j & Hj & ->). change (set_jdPlay (Some j) s1) with (set_jdPlay (Some j) s).
  destruct ok; cbn [negb initialized] in *; [|apply launch_failed_returns; by left].
  apply (returns_bind _ _ _ (λ _, launching asHost s)).
  { assert (launching asHost s (set_jdPlay (Some j) s)) by (by exists j). destruct (negb asHost && doSearch); [by apply searches_return|by apply returns_ret]. }
  intros found s3 (j3 & Hj3 & ->). destruct found; cbn [negb]; [|apply launch_failed_returns; right; by exists asHost].
  apply (returns_bind _ _ _ _ _ (on_jd_returns _ (set_jdPlay (Some j3) s) j3 _ eq_refl (launch_ready asHost (la_run a) (la_process a) j3 Hj3))).
  intros ok s4 (j4 & [Hj4 Hp] & ->). change (set_jdPlay (Some j4) (set_jdPlay (Some j3) s)) with (set_jdPlay (Some j4) s).
  destruct ok; cbn [negb]; [|apply launch_failed_returns; right; by exists asHost].
  apply returns_bind_modify, returns_modify. split_and!; try done. split; [by apply Hp|by exists asHost].
Qed.
Lemma launchGame_busy guid player ip asHost doSearch a s : m_jdPlay s ≠ None → launchGame guid player ip asHost doSearch a s = (Ok tt, s).
Proof. intros Hs. unfold launchGame, mbind, stx_bind, gets. rewrite bool_decide_true by (destruct (m_jdPlay s); [by eexists|done]). done. Qed.

(** ** Nothing is used before it is set up *)
Section Events.
Context `{Qt}.

Inductive event : Type :=
  | E_connect (socket : Z)
  | E_disconnect (socket : Z)
  | E_request (datas : bytes) (a : LaunchAnswers)
  | E_second (exitCode : Z) (answer : option found).
Definition step (e : event) : ls unit :=
  match e with
  | E_connect k => modify (onNewConnection k)
  | E_disconnect k => modify (onDisconnected k)
  | E_request datas a => LaunchServer.onReadyReadTcp datas a
  | E_second code answer => timerEvent code answer
  end.
Lemma reset_ok s : launch_ok s → returns reset_jdPlay s (λ _ s', s' = set_jdPlay None s).
Proof. intros Hs. apply reset_returns. unfold launch_ok in Hs. destruct (m_jdPlay s); [right; apply Hs|done]. Qed.
Lemma launch_from_ok guid player ip asHost doSearch a s : launch_ok s →
  returns (launchGame guid player ip asHost doSearch a) s (λ _, launch_ok).
Proof.
  intros Hs. destruct (m_jdPlay s) as [j|] eqn:E.
  - exists tt, s. split; [|done]. apply launchGame_busy. by rewrite E.
  - apply (returns_impl _ _ _ _ (launchGame_returns guid player ip asHost doSearch a s E)). by intros _ s' [H1 _].
Qed.
Lemma request_ok datas a s : launch_ok s → returns (LaunchServer.onReadyReadTcp datas a) s (λ _, launch_ok).
Proof.
  intros Hs. unfold LaunchServer.onReadyReadTcp. destruct (split 32 _) as [|cmd args]; [by apply returns_ret|].
  case_bool_decide; [by apply returns_modify|]. case_bool_decide.
  - apply (returns_bind _ _ _ _ _ (reset_ok s Hs)). intros _ s' ->. by apply returns_bind_modify, returns_modify.
  - destruct args as [|guid [|player [|ip args]]]; try by apply returns_ret.
    repeat (case_bool_decide; [by apply launch_from_ok|]). by apply returns_ret.
Qed.
(** what a second does while the game is active *)
Definition while_active (answer : option found) (s : LaunchServer) : LaunchServer :=
  match m_jdPlay s with
  | Some j =>
      if bool_decide (sessionFlags j = Some DPOPEN_CREATE) && negb (m_joinIsDisabled s) then
        let j := from_option (λ f, updateFoundSessionDescription f j) j answer in
        let s := set_jdPlay (Some j) s in
        if Z.land (ds_dwFlags (dpSessionDesc j)) DPSESSION_JOINDISABLED =? 0 then s
        else notifyClients (str "LAUNCHED") (set_joinIsDisabled true s)
      else s
  | None => s
  end.
Lemma while_active_ok answer s : launch_ok s → launch_ok (while_active answer s).
Proof.
  unfold launch_ok, while_active. destruct (m_jdPlay s) as [j|] eqn:E; [|by rewrite E]. intros (Hp & host & Hj).
  destruct (_ && _); [|rewrite E; split; [done|by exists host]].
  assert (is_Some (processHandle (from_option (λ f, updateFoundSessionDescription f j) j answer)) ∧
    ready host (from_option (λ f, updateFoundSessionDescription f j) j answer)) as [H1 H2].
  { destruct answer as [f|]; [|done]. cbn [from_option]. rewrite update_process. split; [done|by apply update_ready]. }
  cbv zeta. destruct (_ =? 0); (split; [exact H1|by exists host]).
Qed.
(** the end of a second *)
Definition count_down (active : bool) (s : LaunchServer) : LaunchServer :=
  let s := if active then s else set_counter (m_shutdownCounter s - 1) s in
  if m_shutdownCounter s <=? 0 then emit_signal quit s else s.
Definition after_exit (exitCode : Z) (s : LaunchServer) : LaunchServer :=
  set_jdPlay None (if exitCode =? 0 then notifyClients (str "IDLE") s
                   else emit_signal (gameExitedWithError exitCode) (notifyClients (str "FAIL " ++ hex exitCode) s)).
(** the fields of a state that is given by them *)
Ltac lred := unfold set_jdPlay, set_joinIsDisabled, set_counter, notifyClients, emit_signal;
  cbn [m_jdPlay m_tcpSockets m_keepAliveTimeout m_shutdownCounter m_joinIsDisabled written signals].
Lemma timerEvent_spec exitCode answer s : launch_ok s → timerEvent exitCode answer s = (Ok tt,
  if decide (m_jdPlay s = None) then count_down false s
  else if exitCode =? STILL_ACTIVE then count_down true (while_active answer s)
  else count_down false (after_exit exitCode s)).
Proof.
  intros Hs. unfold timerEvent, while_active. destruct s as [t l [j|] c b w g].
  - destruct Hs as ((h & Hp) & host & Hj). pose proof (isHost_ready host j Hj) as Eh. pose proof Hj as (E1 & E2 & E3 & E4).
    rewrite decide_False by done. unfold mbind, stx_bind, gets. cbn [m_jdPlay m_joinIsDisabled]. rewrite bool_decide_true by (by eexists).
    unfold on_jd, pollStillActive. cbn [m_jdPlay]. rewrite Hp. destruct (exitCode =? STILL_ACTIVE) eqn:Ea; cbn [negb].
    + lred. rewrite Eh.
      lred.
      assert (bool_decide (sessionFlags j = Some DPOPEN_CREATE) = host) as -> by (rewrite E4; by destruct host).
      unfold when. destruct (host && negb b).
      * unfold enumSessions, EnumSessions, deref, mbind, stx_bind, modify, gets. lred. rewrite decide_True by done. lred.
        assert (match answer with Some f => updateFoundSessionDescription f j | None => j end =
          from_option (λ f, updateFoundSessionDescription f j) j answer) as -> by (by destruct answer).
        destruct (Z.land _ _ =? 0); cbn [negb]; unfold mret, stx_ret; lred;
          rewrite bool_decide_false by done; cbn [orb]; unfold count_down, mret, stx_ret; lred; by destruct (c <=? 0).
      * unfold mret, stx_ret. lred. rewrite bool_decide_false by done. cbn [orb]. unfold count_down. lred. by destruct (c <=? 0).
    + destruct (reset_returns (if exitCode =? 0 then notifyClients (str "IDLE") (mkLaunch t l (Some j) c b w g)
        else emit_signal (gameExitedWithError exitCode) (notifyClients (str "FAIL " ++ hex exitCode) (mkLaunch t l (Some j) c b w g)))) as ([] & s' & Er & ->).
      { destruct (exitCode =? 0); right; by exists host. }
      unfold after_exit. revert Er. destruct (exitCode =? 0); unfold modify; lred; intros Er; rewrite Er;
        unfold when; rewrite bool_decide_true by done; cbn [orb]; unfold count_down, mret, stx_ret;
        lred; by destruct (c - 1 <=? 0).
  - rewrite decide_True by done. unfold mbind, stx_bind, gets. cbn [m_jdPlay]. rewrite bool_decide_false by (by intros [? ?]).
    unfold mret, stx_ret, when, modify. cbn [m_jdPlay]. rewrite bool_decide_true by done. cbn [orb]. unfold count_down.
    lred. by destruct (c - 1 <=? 0).
Qed.

Lemma count_down_ok b s : launch_ok s → launch_ok (count_down b s).
Proof. intros Hs. unfold count_down. destruct b; by destruct (_ <=? 0). Qed.
Lemma step_ok e s : launch_ok s → returns (step e) s (λ _, launch_ok).
Proof.
  intros Hs. destruct e as [k|k|datas a|code answer]; cbn [step].
  - by apply returns_modify.
  - by apply returns_modify.
  - by apply request_ok.
  - eexists _, _. split; [by apply timerEvent_spec|]. case_decide; [by apply count_down_ok|].
    destruct (code =? STILL_ACTIVE); [by apply count_down_ok, while_active_ok|]. apply count_down_ok. done.
Qed.

(** C29: whatever clients send, and whatever DirectPlay and the system answer, the server
    never uses a pointer, the flags of a session or the handle of a process that it has
    not set, and no exception leaves its handlers; between two events, a game that it
    knows of has been initialised and launched. *)
Theorem launch_server_never_fails (keepAliveTimeout : Z) (junk : bool) (evs : list event) : ∃ s,
  for_each evs step (LaunchServer_make keepAliveTimeout junk) = (Ok tt, s) ∧ launch_ok s.
Proof.
  assert (∀ s, launch_ok s → returns (for_each evs step) s (λ _, launch_ok)) as H1.
  { induction evs as [|e evs IH]; intros s Hs; cbn [for_each]; [by apply returns_ret|].
    apply (returns_bind _ _ _ _ _ (step_ok e s Hs)). intros _ s' Hs'. by apply IH. }
  destruct (H1 (LaunchServer_make keepAliveTimeout junk) I) as ([] & s & E & Hs). by exists s.
Qed.

(** ** A request and its answer *)

(** a word: without spaces and line ends *)
Definition word (b : bytes) : Prop := Forall ascii b ∧ (32 ∉ b) ∧ (10 ∉ b) ∧ (13 ∉ b).
Lemma join_words ws : ws ≠ [] → Forall word ws → Forall (λ x, ascii x ∧ x ≠ 10 ∧ x ≠ 13) (join 32 ws).
Proof.
  assert (∀ w, word w → Forall (λ x, ascii x ∧ x ≠ 10 ∧ x ≠ 13) w) as Hw.
  { intros w (Ha & _ & Hn & Hr). apply Forall_forall. intros x Hx. rewrite Forall_forall in Ha. split_and!; [by apply Ha|by intros ->..]. }
  intros Hne Hws. induction Hws as [|w ws H1 Hws IH]; [done|].
  destruct ws as [|w' ws]; [by rewrite join_one; apply Hw|]. specialize (IH ltac:(done)). rewrite join_cons. apply Forall_app. split; [by apply Hw|].
  apply Forall_cons. split; [unfold ascii; lia|exact IH].
Qed.
Lemma split_words ws : ws ≠ [] → Forall word ws → split 32 (filter (λ x, is_newline x = false) (fromUtf8 (join 32 ws))) = ws.
Proof.
  intros Hne Hws. pose proof (join_words ws Hne Hws) as Hj. rewrite fromUtf8_ascii by (by eapply Forall_impl; [exact Hj|intros x []]).
  assert (∀ l : bytes, Forall (λ x, ascii x ∧ x ≠ 10 ∧ x ≠ 13) l → filter (λ x, is_newline x = false) l = l) as ->; [| |exact Hj].
  { induction 1 as [|x l (_ & H10 & H13) _ IH]; [done|].
    rewrite filter_cons_True by (unfold is_newline; rewrite !(proj2 (Z.eqb_neq _ _)) by done; done). by rewrite IH. }
  apply split_join; [done|]. eapply Forall_impl; [exact Hws|]. by intros w (_ & Hs & _).
Qed.
Lemma str_word s : forallb (λ b, (0 <? b) && (b <? 128) && negb (b =? 32) && negb (b =? 10) && negb (b =? 13)) (str s) = true → word (str s).
Proof.
  intros E. rewrite forallb_forall in E.
  assert (∀ x, x ∈ str s → 0 < x < 128 ∧ x ≠ 32 ∧ x ≠ 10 ∧ x ≠ 13) as H1.
  { intros x Hx. specialize (E x (proj1 (list_elem_of_In _ _) Hx)). repeat (apply andb_prop in E as [E ?]).
    repeat match goal with H : negb _ = true |- _ => apply negb_true_iff, Z.eqb_neq in H end.
    apply Z.ltb_lt in E. rewrite Z.ltb_lt in *. lia. }
  split_and!; [apply Forall_forall; intros x Hx; by apply H1|intros Hx; apply H1 in Hx; lia..].
Qed.
Lemma request_understood c a s : word (m_gameGuid c) → word (m_playerName c) → word (m_gameAddress c) →
  LaunchServer.onReadyReadTcp (start_message c) a s =
  launchGame (m_gameGuid c) (m_playerName c) (m_gameAddress c) (m_isHost c) (negb (m_isHost c) && m_requireSearch c) a s.
Proof.
  intros Hg Hp Ha. unfold LaunchServer.onReadyReadTcp, start_message.
  rewrite split_words; [|done|repeat (apply Forall_cons; split; [first [done|destruct (m_isHost c); [|destruct (m_requireSearch c)]; by apply str_word]|]); by apply Forall_nil].
  destruct (m_isHost c); [|destruct (m_requireSearch c)]; cbn [negb andb].
  all: repeat (rewrite bool_decide_false by done); try (rewrite bool_decide_true by done); done.
Qed.
Lemma reply_understood s rest : forallb (λ b, (0 <? b) && (b <? 128) && negb (b =? 32) && negb (b =? 10) && negb (b =? 13)) (str s) = true →
  s ≠ EmptyString → split 32 (fromUtf8 (c_str (str s ++ 0 :: rest))) = [str s].
Proof.
  intros E Hs. destruct (str_word s E) as (H1 & H2 & _). assert (c_str (str s ++ 0 :: rest) = str s) as ->.
  { clear - H1. induction (str s) as [|x l IH]; [done|]. apply Forall_cons in H1 as [Hx H1]. cbn [app c_str].
    unfold ascii in Hx. rewrite (proj2 (Z.eqb_neq x 0)) by lia. by rewrite IH. }
  by rewrite fromUtf8_ascii, split_one.
Qed.

(** C30: a request to start a game is understood and answered truly: when a client asks a
    server that runs no game, with a guid, a name and an address of ASCII characters without
    blanks and line ends ([word]; the fields of a request are separated by blanks and not
    quoted, so that a blank in a name starts something else: [blank_in_name_misdirects]), the
    server tries to start just that game for that player (host, join, or search and join),
    every client is sent the same answer, and the client that has asked, when it reads it,
    says that the game is running exactly if the server has one running. *)
Theorem request_answered (c : LaunchClient) (a : LaunchAnswers) (s : LaunchServer) :
  word (m_gameGuid c) → word (m_playerName c) → word (m_gameAddress c) → m_jdPlay s = None → ∃ s' reply,
  LaunchServer.onReadyReadTcp (start_message c) a s = (Ok tt, s') ∧
  launchGame (m_gameGuid c) (m_playerName c) (m_gameAddress c) (m_isHost c) (negb (m_isHost c) && m_requireSearch c) a s = (Ok tt, s') ∧
  written s' = written s ++ ((λ k, (k, reply)) <$> m_tcpSockets s) ∧
  (startApplication true (Some reply) c).1 = bool_decide (is_Some (m_jdPlay s')) ∧
  (m_jdPlay s' = None → signals s' = signals s ++ [gameFailedToLaunch (m_gameGuid c)]).
Proof.
  intros Hg Hp Ha Hs. rewrite request_understood by done.
  destruct (launchGame_returns (m_gameGuid c) (m_playerName c) (m_gameAddress c) (m_isHost c) (negb (m_isHost c) && m_requireSearch c) a s Hs) as
    ([] & s' & E & _ & _ & _ & _ & Hout). rewrite E.
  exists s', (str (if bool_decide (is_Some (m_jdPlay s')) then "RUNNING" else "FAIL") ++ [0]).
  case_bool_decide as Hj; destruct Hout as (H1 & H2).
  - destruct H2 as [H2 H3]. split_and!; try done; [|intros E0; rewrite E0 in Hj; by destruct Hj].
    unfold startApplication, request, LaunchClient.onReadyReadTcp. cbn [fst]. rewrite (reply_understood "RUNNING") by done. done.
  - split_and!; try done. unfold startApplication, request, LaunchClient.onReadyReadTcp. cbn [fst]. rewrite (reply_understood "FAIL") by done. done.
Qed.

(** ** The beginning of a game *)
Definition hosting (s : LaunchServer) : Prop := from_option (λ j, ready true j) False (m_jdPlay s).
Definition join_disabled (f : found) : Prop := Z.land (ds_dwFlags (fd_desc f)) DPSESSION_JOINDISABLED ≠ 0.
Definition announcement (s : LaunchServer) : list (Z * bytes) := (λ k, (k, str "LAUNCHED" ++ [0])) <$> m_tcpSockets s.
(** the description that is looked at in two seconds is one that was reported *)
Lemma update_twice j f1 f2 : join_disabled f1 → join_disabled f2 →
  let j1 := updateFoundSessionDescription f1 j in
  Z.land (ds_dwFlags (dpSessionDesc j1)) DPSESSION_JOINDISABLED ≠ 0 ∨
  Z.land (ds_dwFlags (dpSessionDesc (updateFoundSessionDescription f2 j1))) DPSESSION_JOINDISABLED ≠ 0.
Proof.
  intros H1 H2. cbv zeta. unfold updateFoundSessionDescription at 1 3. destruct (Z.ltb_spec (-1) (validateCount j)).
  - destruct (areEqual (dpSessionDesc j) (fd_desc f1)) eqn:E.
    + left. cbn. unfold areEqual in E. repeat (apply andb_prop in E as [E ?]).
      match goal with H : (ds_dwFlags _ =? _) = true |- _ => apply Z.eqb_eq in H; rewrite H end. exact H1.
    + right. unfold updateFoundSessionDescription. cbn [set_found set_validate validateCount]. cbn. exact H2.
  - left. cbn. exact H1.
Qed.

(** seconds of an active game whose players have left the battle room *)
Fixpoint playing (s : LaunchServer) (reports : list found) : LaunchServer :=
  match reports with [] => s | f :: reports => playing (count_down true (while_active (Some f) s)) reports end.
Lemma playing_runs reports : ∀ s, launch_ok s → m_jdPlay s ≠ None →
  for_each reports (λ f, timerEvent STILL_ACTIVE (Some f)) s = (Ok tt, playing s reports).
Proof.
  induction reports as [|f reports IH]; intros s Hs Hj; [done|]. cbn [for_each playing].
  rewrite (stx_bind_ok _ _ s tt (count_down true (while_active (Some f) s))).
  - apply IH; [by apply count_down_ok, while_active_ok|]. unfold count_down, while_active. destruct (m_jdPlay s) as [j|] eqn:E; [|done].
    cbv zeta. destruct (_ && _); [destruct (_ =? 0)|]; destruct (_ <=? 0); cbn; congruence.
  - rewrite timerEvent_spec by done. rewrite decide_False by done. by rewrite Z.eqb_refl.
Qed.
(** once announced, nothing more is written *)
Lemma playing_announced reports : ∀ s, m_joinIsDisabled s = true → written (playing s reports) = written s ∧ m_joinIsDisabled (playing s reports) = true.
Proof.
  induction reports as [|f reports IH]; intros s Hd; [done|]. cbn [playing].
  assert (while_active (Some f) s = s) as ->. { unfold while_active. destruct (m_jdPlay s); [|done]. by rewrite Hd, andb_false_r. }
  destruct (IH (count_down true s)) as [-> ->]; unfold count_down; by destruct (_ <=? 0).
Qed.
Lemma hosting_active f s : hosting s → m_joinIsDisabled s = false → ∃ j j', m_jdPlay s = Some j ∧ j' = updateFoundSessionDescription f j ∧
  while_active (Some f) s = if Z.land (ds_dwFlags (dpSessionDesc j')) DPSESSION_JOINDISABLED =? 0 then set_jdPlay (Some j') s
    else notifyClients (str "LAUNCHED") (set_joinIsDisabled true (set_jdPlay (Some j') s)).
Proof.
  unfold hosting, while_active. destruct (m_jdPlay s) as [j|]; [|done]. intros (_ & _ & _ & E) Hd. exists j, (updateFoundSessionDescription f j).
  split; [done|]. split; [done|]. rewrite E, bool_decide_true, Hd by done. done.
Qed.

(** C31: the beginning of a game is announced once: from the moment that the session of a
    hosted game says that nobody can join any more, every client is sent LAUNCHED within
    two seconds (the comparison of the description with the last one can take one of
    them), and not again as long as the game goes on. *)
Theorem game_start_announced (s : LaunchServer) (f1 f2 : found) (reports : list found) :
  launch_ok s → hosting s → m_joinIsDisabled s = false → join_disabled f1 → join_disabled f2 → ∃ s',
  for_each (f1 :: f2 :: reports) (λ f, timerEvent STILL_ACTIVE (Some f)) s = (Ok tt, s') ∧
  written s' = written s ++ announcement s.
Proof.
  intros Hs Hh Hd H1 H2. exists (playing s (f1 :: f2 :: reports)). split.
  { apply playing_runs; [done|]. intros E. unfold hosting in Hh. by rewrite E in Hh. }
  destruct (hosting_active f1 s Hh Hd) as (j & j1 & Ej & Ej1 & E1).
  change (playing s (f1 :: f2 :: reports)) with (playing (count_down true (while_active (Some f1) s)) (f2 :: reports)). rewrite E1.
  destruct (Z.eqb_spec (Z.land (ds_dwFlags (dpSessionDesc j1)) DPSESSION_JOINDISABLED) 0) as [Hz|Hz].
  - cbn [playing]. set (s1 := count_down true (set_jdPlay (Some j1) s)).
    assert (m_jdPlay s1 = Some j1 ∧ m_joinIsDisabled s1 = false ∧ written s1 = written s ∧ m_tcpSockets s1 = m_tcpSockets s) as (F1 & F2 & F3 & F4).
    { unfold s1, count_down. by destruct (_ <=? 0). }
    destruct (hosting_active f2 s1) as (j' & j2 & Ej' & Ej2 & E2); [|done|].
    { unfold hosting in *. rewrite Ej in Hh. rewrite F1. cbn in *. subst j1. by apply update_ready. }
    rewrite F1 in Ej'. injection Ej' as <-. rewrite E2. subst j2. destruct (update_twice j f1 f2 H1 H2) as [H3|H3]; [by subst j1|].
    rewrite <- Ej1 in H3. rewrite (proj2 (Z.eqb_neq _ _)) by done.
    match goal with |- context [playing (count_down true ?x) reports] =>
      destruct (playing_announced reports (count_down true x)) as [-> _] end; [unfold count_down; by destruct (_ <=? 0)|].
    unfold count_down. destruct (_ <=? 0); cbn [written emit_signal notifyClients set_joinIsDisabled set_jdPlay m_tcpSockets]; by rewrite F3, F4.
  - match goal with |- context [playing ?x _] => destruct (playing_announced (f2 :: reports) x) as [-> _] end.
    + unfold count_down. by destruct (_ <=? 0).
    + unfold count_down. by destruct (_ <=? 0).
Qed.

(** ** What a client can miss *)

(** Only the first of the notifications that a client reads at once counts: when a
    game ends before the client reads that it has begun, the server has no game, both
    messages have been sent, and the client says from then on that the game is running. *)
Theorem short_game_never_ends (c : LaunchClient) (a : LaunchAnswers) (s s' : LaunchServer) (answer : option found) (k : Z) :
  word (m_gameGuid c) → word (m_playerName c) → word (m_gameAddress c) → m_jdPlay s = None → m_tcpSockets s = [k] →
  LaunchServer.onReadyReadTcp (start_message c) a s = (Ok tt, s') → m_jdPlay s' ≠ None → ∃ s'' m1 m2,
  timerEvent 0 answer s' = (Ok tt, s'') ∧ m_jdPlay s'' = None ∧ written s'' = written s ++ [(k, m1); (k, m2)] ∧
  (startApplication true (Some (m1 ++ m2)) c).1 = true ∧
  isApplicationRunning (LaunchClient.onReadyReadTcp m2 (startApplication true (Some m1) c).2) = false.
Proof.
  intros Hg Hp Ha Hs Hk E Hj. rewrite request_understood in E by done.
  destruct (launchGame_returns (m_gameGuid c) (m_playerName c) (m_gameAddress c) (m_isHost c) (negb (m_isHost c) && m_requireSearch c) a s Hs) as
    ([] & s1 & E1 & Hok & Hsock & _ & _ & Hout). rewrite E in E1. injection E1 as <-.
  rewrite bool_decide_true in Hout by (destruct (m_jdPlay s'); [by eexists|done]). destruct Hout as (_ & _ & Hw).
  eexists _, (str "RUNNING" ++ [0]), (str "IDLE" ++ [0]). split; [by apply timerEvent_spec|]. rewrite decide_False by done.
  rewrite (proj2 (Z.eqb_neq 0 STILL_ACTIVE)) by done. unfold after_exit. rewrite Z.eqb_refl. unfold count_down.
  split; [by case_match|]. split.
  { case_match; cbn [written emit_signal set_counter set_jdPlay notifyClients]; rewrite Hw, Hsock, Hk; cbn [fmap list_fmap];
      by rewrite <- (assoc_L (++)). }
  unfold startApplication, request, LaunchClient.onReadyReadTcp. cbn [fst snd].
  pose proof (reply_understood "RUNNING" (str "IDLE" ++ [0]) eq_refl ltac:(done)) as R1.
  pose proof (reply_understood "RUNNING" [] eq_refl ltac:(done)) as R2.
  pose proof (reply_understood "IDLE" [] eq_refl ltac:(done)) as R3.
  rewrite <- (assoc_L (++)). cbn [app]. change (str "RUNNING" ++ 0 :: str "IDLE" ++ [0]) with (str "RUNNING" ++ 0 :: (str "IDLE" ++ [0])) in *.
  split; [by rewrite R1|]. by rewrite R2, R3.
Qed.
(** without a game and without keepalive messages the server ends in time *)
Lemma idle_second code answer s : m_jdPlay s = None → timerEvent code answer s = (Ok tt, count_down false s).
Proof. intros Hs. rewrite timerEvent_spec by (unfold launch_ok; by rewrite Hs). by rewrite decide_True. Qed.
Lemma idle_server_quits (n : nat) (seconds : list (Z * option found)) : ∀ s, m_jdPlay s = None → m_shutdownCounter s = Z.of_nat (length seconds) →
  seconds ≠ [] → ∃ s', for_each seconds (λ p, timerEvent p.1 p.2) s = (Ok tt, s') ∧ signals s' = signals s ++ [quit].
Proof.
  induction seconds as [|[code answer] seconds IH]; intros s Hs Hc Hne; [done|]. cbn [for_each].
  rewrite (stx_bind_ok _ _ s tt (count_down false s)) by (by apply idle_second). unfold count_down. cbn [m_shutdownCounter set_counter].
  rewrite Hc. cbn [length]. destruct seconds as [|x seconds].
  - eexists. split; [reflexivity|]. done.
  - rewrite (proj2 (Z.leb_gt _ _)) by (cbn [length]; lia). destruct (IH (set_counter (Z.of_nat (S (length (x :: seconds))) - 1) s)) as (s' & E & Eq).
    + done.
    + cbn [m_shutdownCounter set_counter]. lia.
    + done.
    + by exists s'.
Qed.
End Events.

(** ** Examples *)
Definition ex_answers : LaunchAnswers :=
  mkLaunchAnswers (mkAnswers (λ g, Some g) 0 0 0 0 0 48 0 0) (λ _, (0, None, 0)) 0 (Some 77) false.
Definition ex_server : LaunchServer := onNewConnection 4 (LaunchServer_make 10 true).
Definition ex_lclient : LaunchClient := setPlayerName (str "Bob") (LaunchClient_make (λ n, Nat.eqb n 2)).
Definition ex_hosting : LaunchServer := (LaunchServer.onReadyReadTcp (H:=ex_qt) (start_message (H:=ex_qt) ex_lclient) ex_answers ex_server).2.
Lemma ex_words : word (m_gameGuid ex_lclient) ∧ word (m_playerName ex_lclient) ∧ word (m_gameAddress ex_lclient).
Proof. split_and!; apply str_word; reflexivity. Qed.
Lemma request_answered_witness : ∃ reply,
  written ex_hosting = [(4, reply)] ∧ (startApplication (H:=ex_qt) true (Some reply) ex_lclient).1 = bool_decide (is_Some (m_jdPlay ex_hosting)) ∧
  is_Some (m_jdPlay ex_hosting).
Proof.
  destruct ex_words as (W1 & W2 & W3).
  destruct (request_answered (H:=ex_qt) ex_lclient ex_answers ex_server W1 W2 W3 eq_refl) as (s' & reply & E & _ & H1 & H2 & _).
  assert (ex_hosting = s') as <- by (unfold ex_hosting; by rewrite E).
  exists reply. split; [exact H1|]. split; [exact H2|]. vm_compute. eexists. reflexivity.
Defined.
Definition ex_session (flags : Z) : found := mkFound (mkDesc 80 flags [1] [1] 10 2 0 0 0 0 0 0) (Some TAF_Game) None.
(** a second in the battle room, and three in the game *)
Definition ex_in_battleroom : LaunchServer := (timerEvent STILL_ACTIVE (Some (ex_session 0)) ex_hosting).2.
Definition ex_jdplay : JDPlay :=
  mkJD 0 0 true true false TAF_Game [] Live Live (FromAnsi (str "Bob") 256) (fd_desc (ex_session 0)) N_storage
    (Some (mkConn true [] 48)) (Some DPOPEN_CREATE) (Some 77).
Lemma ex_in_battleroom_jdplay : m_jdPlay ex_in_battleroom = Some ex_jdplay.
Proof. vm_compute. reflexivity. Qed.
Lemma game_start_announced_witness : ∃ s',
  for_each [ex_session 32; ex_session 32; ex_session 32] (λ f, timerEvent STILL_ACTIVE (Some f)) ex_in_battleroom = (Ok tt, s') ∧
  written s' = [(4, str "RUNNING" ++ [0]); (4, str "LAUNCHED" ++ [0])].
Proof.
  destruct (game_start_announced ex_in_battleroom (ex_session 32) (ex_session 32) [ex_session 32]) as (s' & E & Hw).
  - unfold launch_ok. rewrite ex_in_battleroom_jdplay. split; [by eexists|]. exists true. split_and!; reflexivity.
  - unfold hosting. rewrite ex_in_battleroom_jdplay. split_and!; reflexivity.
  - vm_compute. reflexivity.
  - vm_compute. discriminate.
  - vm_compute. discriminate.
  - exists s'. split; [exact E|]. rewrite Hw. vm_compute. reflexivity.
Defined.
Lemma short_game_never_ends_witness : ∃ s'' m1 m2,
  timerEvent 0 None ex_hosting = (Ok tt, s'') ∧ m_jdPlay s'' = None ∧ written s'' = [(4, m1); (4, m2)] ∧
  (startApplication (H:=ex_qt) true (Some (m1 ++ m2)) ex_lclient).1 = true.
Proof.
  destruct ex_words as (W1 & W2 & W3).
  destruct (short_game_never_ends (H:=ex_qt) ex_lclient ex_answers ex_server ex_hosting None 4 W1 W2 W3 eq_refl eq_refl) as
    (s'' & m1 & m2 & H1 & H2 & H3 & H4 & _).
  - vm_compute. reflexivity.
  - vm_compute. discriminate.
  - exists s'', m1, m2. split; [exact H1|]. split; [exact H2|]. split; [exact H3|exact H4].
Defined.
