(* ===== verification/Talauncher.v ===== *)
(** * The launcher program (talauncher.cpp)

    talauncher runs the launch server, and before that it can register the game with
    DirectPlay, for which it starts itself again with the rights of an administrator.
    Windows and the user are arguments: what the elevated process leaves in the registry,
    and which button is pressed. *)
From S2P Require Import Prelude ExceptState GpgNetParse GpgNetStream GpgNetMessages QtText JDPlay LaunchServer.
#[local] Open Scope Z_scope.

(** ** The registry: the applications of DirectPlay and their values *)
Abbreviation Registry := (list (bytes * gmap bytes bytes)).
Definition childGroups (r : Registry) : list bytes := r.*1.
Fixpoint group (name : bytes) (r : Registry) : gmap bytes bytes :=
  match r with [] => ∅ | (n, values) :: r => if bool_decide (n = name) then values else group name r end.
(** [registry.value(name + "/" + key)] and [registry.value(..., fallback)], as text *)
Definition value (r : Registry) (name : bytes) (key : string) : bytes := default [] (group name r !! str key).
Definition value_or (r : Registry) (name : bytes) (key : string) (fallback : string) : bytes := default (str fallback) (group name r !! str key).
Fixpoint set_group (name : bytes) (values : gmap bytes bytes) (r : Registry) : Registry :=
  match r with
  | [] => [(name, values)]
  | (n, old) :: r => if bool_decide (n = name) then (n, values ∪ old) :: r else (n, old) :: set_group name values r
  end.

Record DplayApp := mkApplication { da_guid : bytes; da_path : bytes; da_file : bytes; da_commandLine : bytes; da_currentDirectory : bytes }.
Definition RegisterDplayLobbyableApplication (name : bytes) (a : DplayApp) (r : Registry) : Registry :=
  set_group name (list_to_map [(str "Guid", da_guid a); (str "Path", da_path a); (str "File", da_file a);
                               (str "CommandLine", da_commandLine a); (str "CurrentDirectory", da_currentDirectory a)]) r.

Section Launcher.
(** [QString::compare(..., Qt::CaseInsensitive)] compares the texts without their case *)
Context (casefold : bytes → bytes).
Definition same_text (a b : bytes) : bool := bool_decide (casefold a = casefold b).
Definition CheckDplayLobbyableApplication (a : DplayApp) (r : Registry) : bool :=
  existsb (λ name,
    same_text (da_guid a) (value r name "Guid") && same_text (da_path a) (value r name "Path") &&
    same_text (da_file a) (value r name "File") && bool_decide (da_commandLine a = value r name "CommandLine") &&
    same_text (da_currentDirectory a) (value r name "CurrentDirectory")) (childGroups r).
Definition named_guid (guid : bytes) (r : Registry) : option bytes := find (λ name, bool_decide (guid = value r name "Guid")) (childGroups r).
Definition GetDplayLobbableAppPath (guid defaultPath : bytes) (r : Registry) : bytes :=
  match named_guid guid r with Some name => value r name "Path" | None => defaultPath end.
Definition GetDplayLobbableApp (guid : bytes) (r : Registry) : option DplayApp :=
  (λ name, mkApplication (value r name "Guid") (value_or r name "Path" "<no Path>") (value_or r name "File" "<no File>")
             (value_or r name "CommandLine" "<no CommandLine>") (value_or r name "CurrentDirectory" "<no CurrentDirectory>"))
  <$> named_guid guid r.

(** ** Message boxes *)
Definition endl : bytes := [10].
Definition quoted (s : bytes) : bytes := [34] ++ s ++ [34].
Definition GameFileVersionMismatchMsgBox (message : bytes) : bytes := str "Unable to launch game!" ++ endl ++ endl ++ message.
Definition UnableToLaunchMsgBox (guid : bytes) (r : Registry) : bytes :=
  match GetDplayLobbableApp guid r with
  | Some a =>
      str "Unable to launch game at path " ++ quoted (da_path a ++ [92] ++ da_file a) ++ endl ++
      str "- Please check path is correct" ++ endl ++
      str "  Correct the path in TAF Settings menu if not" ++ endl ++
      str "- Please check you can launch game outside of TAF" ++ endl ++
      str "- Try enable 'Run TA as Admin' in TAF Settings menu" ++ endl ++
      str "  (and restart TAF)"
  | None => str "Unable to launch game.  There is no DirectPlay registry entry for game with guid=" ++ quoted guid ++ endl
  end.
Definition GameExitedWithErrorMsgBox (exitCode : Z) : bytes :=
  str "TotalA.exe exited with error code 0x" ++ hex8 exitCode ++ str " (" ++ number (s32 exitCode) ++ str ")" ++ endl ++ endl ++
  str "Some common causes of issues are:" ++ endl ++
  str "- Error code -1? Check that TotalA.exe isn't already running" ++ endl ++
  str "- Low game resolution? Try 1024x768 or higher" ++ endl ++
  str "- Corrupted 3rd party .ufo files? If in doubt, clear them out" ++ endl ++
  str "- Incorrect installation? Let TAF download and install your mod" ++ endl ++
  str "  (settings, Total Annihilation, select mod and then uncheck" ++ endl ++
  str "   'I already have ...')" ++ endl ++ endl ++
  str "If the issue persists you might like to ask for help on any" ++ endl ++
  str "of the TA community's fine discord servers".
(** the slots of the launch server's signals; [None] is the end of the program *)
Definition on_signal (r : Registry) (s : signal) : option bytes :=
  match s with
  | quit => None
  | gameFileVersionMismatch message => Some (GameFileVersionMismatchMsgBox message)
  | gameFailedToLaunch guid => Some (UnableToLaunchMsgBox guid r)
  | gameExitedWithError exitCode => Some (GameExitedWithErrorMsgBox exitCode)
  end.

(** ** Registering the game *)
Record Options := mkOptions { op_isSet : string → bool; op_value : string → bytes }.
(** [QUuid::createUuidV5], [toUpper], and whether a file of a directory can be executed *)
Context (uuid5 : bytes → bytes) (toUpper : bytes → bytes) (isExecutable : bytes → bytes → bool).
(** [contains("-c", Qt::CaseInsensitive)] *)
Definition contains_c (s : bytes) : bool := find_text (str "-c") ((λ b, if b =? 67 then 99 else b) <$> s).

Definition ADDITIONAL_GAME_ARGS : bytes := str "-c TAForever.ini".
Definition dplayGuid (o : Options) : bytes := uuid5 (toUpper (op_value o "gamemod")).
Definition dplayAppName (o : Options) : bytes := str "Total Annihilation Forever (" ++ toUpper (op_value o "gamemod") ++ str ")".
Definition dplayGameArgs (o : Options) : bytes :=
  let gameargs := op_value o "gameargs" in
  if negb (bool_decide (gameargs = [])) && negb (contains_c gameargs) then gameargs ++ [32] ++ ADDITIONAL_GAME_ARGS else ADDITIONAL_GAME_ARGS.
Definition dplayApp (o : Options) : DplayApp :=
  mkApplication (dplayGuid o) (op_value o "gamepath") (op_value o "gameexe") (dplayGameArgs o) (op_value o "gamepath").

(** what [RunAs] starts *)
Definition RunAs_parameters (args : list bytes) : bytes := GpgNetMessages.join_with 32 (quoted <$> args).
Definition register_args (o : Options) : list bytes :=
  [str "--registerdplay"; str "--alreadyuac"; str "--gamemod"; op_value o "gamemod"; str "--gamepath"; op_value o "gamepath";
   str "--gameexe"; op_value o "gameexe"; str "--gameargs"; op_value o "gameargs"].

Inductive button : Set := IDABORT | IDRETRY | IDIGNORE.
(** the answers of the user, each with the registry after the process that a retry starts *)
Fixpoint ask (o : Options) (answers : list (button * Registry)) (r : Registry) : res Z :=
  if CheckDplayLobbyableApplication (dplayApp o) r then Ok 0
  else match answers with
       | [] => Hang                        (* the message box waits *)
       | (IDABORT, _) :: _ => Ok 1
       | (IDIGNORE, _) :: _ => Ok 0
       | (IDRETRY, r) :: answers => ask o answers r
       end.
(** [after]: the registry after the first elevated process *)
Definition handleRegisterDplay (o : Options) (after : Registry) (answers : list (button * Registry)) (r : Registry) : res Z * Registry :=
  if negb (isExecutable (op_value o "gamepath") (op_value o "gameexe")) then (Ok 1, r)
  else if op_isSet o "alreadyuac" then (Ok 0, RegisterDplayLobbyableApplication (dplayAppName o) (dplayApp o) r)
  else if CheckDplayLobbyableApplication (dplayApp o) r then (Ok 0, r)
  else (ask o answers after, after).

(** ** [doMain] *)
Definition forwarded : list string := ["gamepath"; "gameexe"; "gameargs"; "gamemod"; "bindaddress"; "bindport"; "logfile"; "loglevel"]%string.
Definition elevated_args (o : Options) : list bytes :=
  concat ((λ arg, if op_isSet o arg then [str "--" ++ str arg; op_value o arg] else []) <$> forwarded) ++
  (if op_isSet o "registerdplay" then [str "--registerdplay"] else []) ++ [str "--alreadyuac"].
Inductive launcher_run : Type :=
  | Elevate (args : list bytes)            (* starts itself again, waits and ends *)
  | Register (code : res Z) (r : Registry)
  | Serve (bindport keepalivetimeout : Z). (* the launch server, until it quits *)
Definition doMain `{QtText} (o : Options) (after : Registry) (answers : list (button * Registry)) (r : Registry) : launcher_run :=
  if op_isSet o "uac" && negb (op_isSet o "alreadyuac") then Elevate (elevated_args o)
  else if op_isSet o "registerdplay" then let '(code, r) := handleRegisterDplay o after answers r in Register code r
  else Serve (toInt_text (op_value o "bindport")) (toInt_text (op_value o "keepalivetimeout")).

(** ** Facts *)
Lemma group_set name values r : group name (set_group name values r) = values ∪ group name r.
Proof.
  induction r as [|[n old] r IH]; cbn [set_group group].
  - rewrite bool_decide_true by done. by rewrite (right_id_L ∅ (∪)).
  - case_bool_decide as H; cbn [group]; [by rewrite bool_decide_true|]. by rewrite bool_decide_false.
Qed.
Lemma group_set_ne name name' values r : name' ≠ name → group name' (set_group name values r) = group name' r.
Proof.
  intros Hn. induction r as [|[n old] r IH]; cbn [set_group group]; [by rewrite bool_decide_false by done|].
  case_bool_decide as H; cbn [group]; [subst n; by rewrite !bool_decide_false by done|]. by rewrite IH.
Qed.
Lemma childGroups_set name values r : name ∈ childGroups (set_group name values r).
Proof.
  unfold childGroups. induction r as [|[n old] r IH]; cbn [set_group fmap list_fmap fst]; [by left|]. case_bool_decide as H; cbn; [subst n; left|by right].
Qed.

(** What has been registered is found again: the elevated process leaves a registry in
    which the check of the process that has started it succeeds. *)
Theorem registered_is_found (name : bytes) (a : DplayApp) (r : Registry) :
  CheckDplayLobbyableApplication a (RegisterDplayLobbyableApplication name a r) = true.
Proof.
  unfold CheckDplayLobbyableApplication. apply existsb_exists. exists name. split; [apply list_elem_of_In, childGroups_set|].
  unfold value, RegisterDplayLobbyableApplication, same_text. rewrite group_set.
  set (m := list_to_map _). assert (∀ k v, m !! k = Some v → default [] ((m ∪ group name r) !! k) = v) as H.
  { intros k v Hk. by rewrite (lookup_union_Some_l _ _ _ v Hk). }
  rewrite (H (str "Guid") (da_guid a)), (H (str "Path") (da_path a)), (H (str "File") (da_file a)), (H (str "CommandLine") (da_commandLine a)),
    (H (str "CurrentDirectory") (da_currentDirectory a)) by reflexivity. by rewrite !bool_decide_true by done.
Qed.
(** Other applications keep their values. *)
Theorem others_keep_values (name name' : bytes) (a : DplayApp) (r : Registry) (key : string) :
  name' ≠ name → value (RegisterDplayLobbyableApplication name a r) name' key = value r name' key.
Proof. intros Hn. unfold value, RegisterDplayLobbyableApplication. by rewrite group_set_ne. Qed.

(** The elevated process, with the options that it is given. *)
Definition child_options (o : Options) : Options :=
  mkOptions (λ s, bool_decide (s ∈ ["registerdplay"; "alreadyuac"; "gamemod"; "gamepath"; "gameexe"; "gameargs"]%string)) (op_value o).
(** A process without the rights starts one that has them; when that one is let run, the
    first one finds the game registered and ends without a question; when the rights are
    refused, and the user gives up, nothing has changed and it says so. *)
Theorem registration_completes (o : Options) (r : Registry) (answers : list (button * Registry)) :
  isExecutable (op_value o "gamepath") (op_value o "gameexe") = true → op_isSet o "alreadyuac" = false →
  let '(code, after) := handleRegisterDplay (child_options o) [] [] r in
  code = Ok 0 ∧ CheckDplayLobbyableApplication (dplayApp o) after = true ∧
  (handleRegisterDplay o after answers r).1 = Ok 0 ∧
  (CheckDplayLobbyableApplication (dplayApp o) r = false → handleRegisterDplay o r [(IDABORT, r)] r = (Ok 1, r)).
Proof.
  intros Hx Hu. unfold handleRegisterDplay. cbn [child_options op_value op_isSet]. rewrite Hx. cbn [negb].
  rewrite bool_decide_true by (right; left). rewrite Hu. split_and!; [done|apply registered_is_found| |].
  - destruct (CheckDplayLobbyableApplication (dplayApp o) r); [done|]. cbn [fst ask]. destruct answers; cbn [ask]; by rewrite registered_is_found.
  - intros Hc. rewrite Hc. cbn [ask]. by rewrite Hc.
Qed.
(** The time without a sign of life after which the server ends is not handed on: the
    elevated process gets the same arguments whatever it was set to. *)
Theorem keepalive_not_forwarded (o o' : Options) :
  (∀ s, s ≠ "keepalivetimeout"%string → op_isSet o s = op_isSet o' s ∧ op_value o s = op_value o' s) → elevated_args o = elevated_args o'.
Proof.
  intros H. unfold elevated_args. destruct (H "registerdplay"%string) as [-> _]; [done|]. f_equal. f_equal.
  apply list_fmap_ext. intros i arg Hi. destruct (decide (arg = "keepalivetimeout"%string)) as [->|Hn].
  - do 8 (destruct i as [|i]; [done|]). done.
  - by destruct (H arg Hn) as [-> ->].
Qed.
End Launcher.
