(* ===== verification/GpgNetGameLauncher.v ===== *)
(** * The launcher of the game (GpgNetGameLauncher.cpp)

    It turns what the lobby server and the console say into requests to the launch
    server, and reports how far the game has come.  What it writes to the lobby server,
    its signals and the files that it writes are kept in the state; what the disk holds
    and what the blocking calls of the launch client answer are arguments. *)
From S2P Require Import Prelude GpgNetParse GpgNetStream GpgNetMessages GpgNetReports QtText DuplicateDetection LaunchClient.
From coqutil Require Import Datatypes.RecordSetters.
From stdpp Require Import pretty.
Export RecordSetters.TriangleBracketNotations.
Open Scope record_set.
#[local] Open Scope Z_scope.

Inductive launcher_signal : Set := applicationStarted | applicationTerminated | app_quit.
#[export] Instance launcher_signal_eq_dec : EqDecision launcher_signal.
Proof. solve_decision. Defined.
Inductive file_effect : Type :=
  | WriteFile (name text : bytes)
  | CopyFile (from to : bytes).

Record GpgNetGameLauncher := mkLauncher {
  m_iniTemplate : bytes; m_gamePath : bytes; m_iniTarget : bytes; m_guid : bytes;
  m_playerLimit : Z; m_lockOptions : bool; m_maxUnits : Z;
  m_launchClient : LaunchClient;
  m_thisPlayerName : bytes; m_mapName : bytes; m_thisPlayerId : Z;
  m_pollStillActiveTimer : bool;             (* it is running *)
  m_autoStart : bool; m_readyToStart : bool; m_alreadyStarted : bool; m_alreadyLaunched : bool;
  m_isHost : bool; m_randomPositions : bool;
  m_quitCount : Z; m_quitCountResetTimer : bool;
  m_gameFileVersions : gmap bytes (gset Z); m_enableGameFileVersionVerify : bool;
  gl_reports : list (bytes * list Variant);  (* the commands written to the lobby server *)
  gl_signals : list launcher_signal;
  gl_files : list file_effect }.

(** ** The world outside *)
Inductive file : Type := F_missing | F_unreadable | F_content (b : bytes).
Record World := mkWorld {
  w_disk : bytes → file;
  w_template : option bytes;               (* the text of the template, if it can be opened *)
  w_ini : bool;                            (* the target can be opened *)
  w_connected : bool;                      (* to the launch server *)
  w_reply : option bytes;                  (* what it answers in time *)
  w_fail_reply : option bytes }.           (* what it answers to the report of a bad file *)

(** ** Reports to the lobby server *)
Definition report (cs : list (bytes * list Variant)) (s : GpgNetGameLauncher) : GpgNetGameLauncher :=
  s <| gl_reports ::= (λ l, l ++ cs) |>.
(** the bytes on the connection *)
Definition gl_written (s : GpgNetGameLauncher) : bytes := concat (send <$> gl_reports s).
Section Launcher.
Context `{Qt} `{QtText}.

(** [m_thisPlayerId] has no initial value *)
Definition GpgNetGameLauncher_make (iniTemplate gamePath iniTarget guid : bytes) (playerLimit : Z) (lockOptions : bool) (maxUnits : Z)
    (launchClient : LaunchClient) (junk : Z) : GpgNetGameLauncher :=
  report (gameState (str "Idle") (str "Idle"))
    (mkLauncher iniTemplate gamePath iniTarget guid playerLimit lockOptions maxUnits launchClient [] [] junk false
       false false false false false true 0 false ∅ false [] [] []).

Definition on_client (f : LaunchClient → LaunchClient) (s : GpgNetGameLauncher) : GpgNetGameLauncher := s <| m_launchClient ::= f |>.
Definition emit_signal (x : launcher_signal) (s : GpgNetGameLauncher) : GpgNetGameLauncher := s <| gl_signals ::= (λ l, l ++ [x]) |>.
Definition file_done (x : file_effect) (s : GpgNetGameLauncher) : GpgNetGameLauncher := s <| gl_files ::= (λ l, l ++ [x]) |>.

(** ** Game files *)
Definition setEnableGameFileVersionVerify (enable : bool) (s : GpgNetGameLauncher) : GpgNetGameLauncher :=
  s <| m_enableGameFileVersionVerify := enable |>.
Definition parse_crc (filename : bytes) (m : gmap bytes (gset Z)) (s : bytes) : gmap bytes (gset Z) :=
  match toLongLong_hex s with
  | Some crc32 => <[filename := {[crc32]} ∪ default ∅ (m !! filename)]> m
  | None => m
  end.
Definition parse_item (m : gmap bytes (gset Z)) (item : bytes) : gmap bytes (gset Z) :=
  match GpgNetMessages.split 58 item with
  | [filename; crcs] => foldl (parse_crc filename) m (GpgNetMessages.split 44 crcs)
  | _ => m
  end.
Definition parseGameFileVersions (versions : bytes) (s : GpgNetGameLauncher) : GpgNetGameLauncher :=
  s <| m_gameFileVersions ::= (λ m, foldl parse_item m (GpgNetMessages.split 59 versions)) |>.

Definition bufferSize : nat := Z.to_nat 4096.
Fixpoint crc_blocks (fuel : nat) (fileCrc32 : Z) (b : bytes) : Z :=
  match fuel with
  | O => fileCrc32
  | S fuel =>
      match b with
      | [] => fileCrc32
      | _ => crc_blocks fuel (CRC32.PartialCRC CRC32.Initialize fileCrc32 (take bufferSize b)) (drop bufferSize b)
      end
  end.
Definition file_crc (b : bytes) : Z := Z.lxor (crc_blocks (length b) 4294967295 b) 4294967295.
Definition crc_complaint (fileCrc32 : Z) : bytes :=
  str " (crc=" ++ hex fileCrc32 ++
  str ") fails version verification.  It is not whitelisted for competitive play.  Please revert to an official version, or play an unranked game instead.".
(** what is wrong with a file, and what the launch server is told *)
Definition check_file (w : World) (fileName : bytes) (allowed : gset Z) : option (bytes * bytes) :=
  match w_disk w fileName with
  | F_missing => None
  | F_unreadable => if bool_decide (allowed = ∅) then None else Some (fileName, str "unable to open for reading")
  | F_content b =>
      if bool_decide (allowed = ∅) then None
      else if bool_decide (file_crc b ∈ allowed) then None else Some (fileName, crc_complaint (file_crc b))
  end.
Definition file_name (s : GpgNetGameLauncher) (key : bytes) : bytes := m_gamePath s ++ str "/" ++ key.
Fixpoint verify_loop (w : World) (keys : list bytes) (s : GpgNetGameLauncher) : bool * GpgNetGameLauncher :=
  match keys with
  | [] => (true, s)
  | key :: keys =>
      match check_file w (file_name s key) (default ∅ (m_gameFileVersions s !! key)) with
      | Some (fileName, reason) =>
          (false, on_client (λ c, (failGameFileVersions fileName reason (w_connected w) (w_fail_reply w) c).2) s)
      | None => verify_loop w keys s
      end
  end.
Definition verifyGameFileVersions (w : World) (s : GpgNetGameLauncher) : bool * GpgNetGameLauncher :=
  verify_loop w (qmap_keys (m_gameFileVersions s)) s.

(** ** Starting the game *)

(** the values of the markers, in the order of the calls of [replace] *)
Definition ini_values (session mission : bytes) (playerLimit : Z) (lockOptions : bool) (maxUnits : Z) (randomPositions : bool)
    : list (bytes * bytes) :=
  [(str "{session}", session); (str "{mission}", mission);
   (str "{playerlimit}", number (Z.max 2 (Z.min playerLimit 10)));
   (str "{maxunits}", number (Z.max 20 (Z.min maxUnits 1500)));
   (str "{lockoptions}", if lockOptions then str "1" else str "0");
   (str "{location}", if randomPositions then str "2" else str "1")].
Definition fill_template (values : list (bytes * bytes)) (txt : bytes) : bytes :=
  foldl (λ txt v, replace v.1 v.2 txt) txt values.
Definition createTAInitFile (w : World) (s : GpgNetGameLauncher) : GpgNetGameLauncher :=
  match w_template w with
  | None => s
  | Some txt =>
      let session := m_thisPlayerName s ++ str "'s Game" in
      let values := ini_values session (m_mapName s) (m_playerLimit s) (m_lockOptions s) (m_maxUnits s) (m_randomPositions s) in
      if w_ini w then file_done (WriteFile (m_iniTarget s) (fill_template values txt)) s else s
  end.
Definition copyOnlineDll (w : World) (target : bytes) (s : GpgNetGameLauncher) : GpgNetGameLauncher :=
  match w_disk w target with
  | F_missing => file_done (CopyFile (str "online.dll") target) s
  | _ => s
  end.
Definition onStartApplication (w : World) (s : GpgNetGameLauncher) : GpgNetGameLauncher :=
  if m_alreadyStarted s then s
  else if negb (m_readyToStart s) then s <| m_autoStart := true |>
  else
    let s := copyOnlineDll w (m_gamePath s ++ str "/online.dll") (createTAInitFile w s) in
    let '(verified, s) := if m_enableGameFileVersionVerify s then verifyGameFileVersions w s else (true, s) in
    if negb verified then s
    else
      let s := s <| m_alreadyLaunched := false |> in
      let '(started, client) := startApplication (w_connected w) (w_reply w) (m_launchClient s) in
      let s := s <| m_launchClient := client |> in
      if negb started then s
      else emit_signal applicationStarted (report (gameState (str "Lobby") (str "Battleroom"))
             (s <| m_alreadyStarted := true |> <| m_pollStillActiveTimer := true |>)).

(** ** What the lobby server says *)
Definition onCreateLobby (playerName : bytes) (playerId : Z) (s : GpgNetGameLauncher) : GpgNetGameLauncher :=
  report (gameState (str "Lobby") (str "Staging"))
    (on_client (setPlayerName playerName) (s <| m_thisPlayerName := playerName |> <| m_thisPlayerId := playerId |>)).
(** [onHostGame] and [onJoinGame] begin with the address of the game *)
Definition set_game (isHost : bool) (s : GpgNetGameLauncher) : GpgNetGameLauncher :=
  (on_client (λ c, setIsHost isHost (setAddress (str "127.0.0.1") (setGameGuid (m_guid s) c))) s) <| m_readyToStart := true |>.
Definition start_deferred (w : World) (s : GpgNetGameLauncher) : GpgNetGameLauncher :=
  if m_autoStart s then onStartApplication w s else s.
Definition onHostGame (w : World) (mapName mapDetails : bytes) (s : GpgNetGameLauncher) : GpgNetGameLauncher :=
  let s := start_deferred w (set_game true (s <| m_mapName := mapName |>)) in
  (report (playerOption_int (number (m_thisPlayerId s)) (str "Team") 1 ++ gameOption_int (str "Slots") (m_playerLimit s) ++
           gameOption (str "MapDetails") mapDetails) s) <| m_isHost := true |>.
Definition onJoinGame (w : World) (s : GpgNetGameLauncher) : GpgNetGameLauncher :=
  let s := start_deferred w (set_game false s) in
  report (playerOption_int (number (m_thisPlayerId s)) (str "Team") 1) s.

(** ** The console *)

(** an option that only the host may set, and only before the game has started *)
Definition host_option (f : GpgNetGameLauncher → GpgNetGameLauncher) (s : GpgNetGameLauncher) : GpgNetGameLauncher :=
  if negb (m_isHost s) then s else if m_alreadyStarted s then s else f s.
Definition set_map (mapDetails : bytes) (s : GpgNetGameLauncher) : GpgNetGameLauncher :=
  report (gameOption (str "MapDetails") mapDetails) (s <| m_mapName := default [] (head (GpgNetMessages.split 31 mapDetails)) |>).
(** [if (!isApplicationRunning() || ++m_quitCount == 2)] *)
Definition on_quit (s : GpgNetGameLauncher) : GpgNetGameLauncher :=
  if negb (isApplicationRunning (m_launchClient s)) then emit_signal app_quit s
  else
    let s := s <| m_quitCount ::= Z.succ |> in
    if m_quitCount s =? 2 then emit_signal app_quit s else s <| m_quitCountResetTimer := true |>.
Definition onExtendedMessage (w : World) (msg : bytes) (s : GpgNetGameLauncher) : GpgNetGameLauncher :=
  if starts_with (str "/launch") msg then
    onStartApplication w (if negb (ends_with (str "/launch") msg) then s <| m_randomPositions := false |> else s)
  else if starts_with (str "/map ") msg && (5 <? length msg)%nat then host_option (set_map (drop 5 msg)) s
  else if starts_with (str "/enable_game_file_version_verify") msg then setEnableGameFileVersionVerify true s
  else if starts_with (str "/disable_game_file_version_verify") msg then setEnableGameFileVersionVerify false s
  else if starts_with (str "/rating_type ") msg && (13 <? length msg)%nat then
    host_option (report (gameOption (str "RatingType") (drop 13 msg))) s
  else if starts_with (str "/replay_delay_seconds ") msg && (22 <? length msg)%nat then
    host_option (report (gameOption (str "ReplayDelaySeconds") (drop 22 msg))) s
  else if starts_with (str "/title ") msg && (6 <? length msg)%nat then
    host_option (report (gameOption (str "Title") (drop 6 msg))) s
  else if bool_decide (msg = str "/quit") then on_quit s
  else s.
(** the timer is a single shot *)
Definition onResetQuitCount (s : GpgNetGameLauncher) : GpgNetGameLauncher :=
  s <| m_quitCountResetTimer := false |> <| m_quitCount := 0 |>.

(** ** The timer that watches the game *)
Definition pollJdplayStillActive (s : GpgNetGameLauncher) : GpgNetGameLauncher :=
  if negb (isApplicationRunning (m_launchClient s)) then
    emit_signal applicationTerminated (report gameEnded (s <| m_pollStillActiveTimer := false |>))
  else if m_isHost s && negb (m_alreadyLaunched s) && isGameLaunched (m_launchClient s) then
    report (gameState (str "Launching") (str "Launching")) (s <| m_alreadyLaunched := true |>)
  else s.
End Launcher.
