(* ===== verification/GpgNetGameLauncherFacts.v ===== *)
(** * Theorems about the launcher of the game

    The settings file, the check of the game's files, and the life of one game. *)
From S2P Require Import Prelude GpgNetParse GpgNetStream GpgNetMessages GpgNetReports QtText DuplicateDetection JDPlay LaunchServer LaunchClient GpgNetGameLauncher.
From coqutil Require Import Datatypes.RecordSetters.
From stdpp Require Import pretty.
#[local] Open Scope Z_scope.

(** ** The settings file *)

(** a template is text without opening braces, and markers *)
Inductive piece : Type := Text (b : bytes) | Marker (m : bytes).
Definition render (p : piece) : bytes := match p with Text b => b | Marker m => m end.
Definition marker_name (m : bytes) : Prop := ∃ a, m = 123 :: a ++ [125] ∧ 123 ∉ a ∧ 125 ∉ a.
Definition piece_ok (p : piece) : Prop := match p with Text b => 123 ∉ b | Marker m => marker_name m end.
Definition put (t v : bytes) (p : piece) : piece :=
  match p with Marker m => if bool_decide (m = t) then Text v else p | Text b => p end.

Lemma replace_all_text t v b : ∀ rest fuel, marker_name t → 123 ∉ b →
  replace_all (length b + fuel) t v (b ++ rest) = b ++ replace_all fuel t v rest.
Proof.
  intros rest fuel (a & -> & Ha & _). induction b as [|c b IH]; intros Hb; [done|]. apply not_elem_of_cons in Hb as [Hc Hb].
  cbn [length Nat.add app replace_all starts_with]. rewrite (proj2 (Z.eqb_neq 123 c)) by done. cbn [andb]. f_equal. by apply IH.
Qed.
Lemma marker_prefix t m rest : marker_name t → marker_name m → starts_with t (m ++ rest) = true → t = m.
Proof.
  intros (a & -> & _ & Ha) (b & -> & _ & Hb) H. apply starts_with_spec in H as [s H]. cbn [app] in H. injection H as H.
  rewrite <- !(assoc_L (++)) in H. cbn [app] in H. f_equal. f_equal. revert b Hb H. induction a as [|x a IH]; intros [|y b] Hb H; cbn [app] in H.
  - done.
  - injection H as E _. exfalso. apply Hb. rewrite E. by left.
  - injection H as E _. exfalso. apply Ha. rewrite E. by left.
  - injection H as <- H. apply not_elem_of_cons in Ha as [_ Ha]. apply not_elem_of_cons in Hb as [_ Hb]. f_equal. by apply IH.
Qed.
Lemma replace_pieces t v ps : marker_name t → Forall piece_ok ps → ∀ fuel, (length (concat (render <$> ps)) ≤ fuel)%nat →
  replace_all fuel t v (concat (render <$> ps)) = concat (render <$> (put t v <$> ps)).
Proof.
  intros Ht. induction 1 as [|p ps Hp Hps IH]; intros fuel Hf; [by destruct fuel|]. cbn [fmap list_fmap concat] in *. rewrite length_app in Hf.
  destruct p as [b|m]; cbn [render put] in *.
  - replace fuel with (length b + (fuel - length b))%nat by lia. rewrite replace_all_text by done. f_equal. apply IH. lia.
  - case_bool_decide as E.
    + subst m. assert (∃ c t', t = c :: t') as (c & t' & Et) by (destruct Ht as (a & -> & _); eauto).
      destruct fuel as [|fuel]; [rewrite Et in Hf; cbn [length] in Hf; lia|]. rewrite Et in *. cbn [replace_all app render].
      change (c :: t' ++ ?r) with ((c :: t') ++ r). rewrite starts_with_app, drop_app_length. cbn [render]. f_equal. apply IH. cbn [length] in Hf. lia.
    + cbn [render]. pose proof Hp as (b & -> & Hb & _). set (m := 123 :: b ++ [125]) in *.
      destruct fuel as [|fuel]; [unfold m in Hf; cbn [length] in Hf; lia|]. unfold m at 1. cbn [replace_all app]. change (123 :: (b ++ [125]) ++ ?r) with (m ++ r).
      destruct (starts_with t (m ++ _)) eqn:Es; [by apply marker_prefix in Es|]. change (m ++ ?r) with (123 :: (b ++ [125]) ++ r). f_equal.
      assert (length m = S (length (b ++ [125]))) as Hm by done. set (k := length (b ++ [125])) in *.
      replace fuel with (k + (fuel - k))%nat by lia. unfold k.
      rewrite replace_all_text; [|done|apply not_elem_of_app; split; [done|by apply not_elem_of_cons; split; [lia|apply not_elem_of_nil]]].
      f_equal. apply IH. fold k. lia.
Qed.
Lemma put_ok t v ps : 123 ∉ v → Forall piece_ok ps → Forall piece_ok (put t v <$> ps).
Proof. intros Hv H. apply Forall_fmap, (Forall_impl _ _ _ H). intros [b|m] Hp; cbn; [done|]. by case_bool_decide. Qed.
(** what a piece becomes: the first value for a marker *)
Definition value_of (values : list (bytes * bytes)) (p : piece) : bytes :=
  match p with
  | Text b => b
  | Marker m => match list_find (λ v, v.1 = m) values with Some (_, v) => v.2 | None => m end
  end.
Lemma value_of_put t v values p : value_of values (put t v p) = value_of ((t, v) :: values) p.
Proof.
  destruct p as [b|m]; [done|]. cbn [put value_of list_find fst snd]. destruct (decide (t = m)) as [->|Hn].
  - by rewrite bool_decide_true.
  - rewrite bool_decide_false by done. cbn [value_of]. by destruct (list_find _ values) as [[]|].
Qed.
Lemma fill_pieces values : Forall (λ v, marker_name v.1 ∧ 123 ∉ v.2) values → ∀ ps, Forall piece_ok ps →
  fill_template values (concat (render <$> ps)) = concat (value_of values <$> ps).
Proof.
  induction 1 as [|[t v] values [Ht Hv] Hvs IH]; intros ps Hps.
  - done.
  - unfold fill_template. cbn [foldl fst snd]. unfold replace. rewrite (replace_pieces t v ps) by done.
    etrans; [exact (IH _ (put_ok t v ps Hv Hps))|]. f_equal. rewrite <- list_fmap_compose. apply list_fmap_ext. intros _ p _. apply value_of_put.
Qed.
Lemma number_no_brace n : 0 ≤ n → 123 ∉ number n.
Proof. intros Hn. apply number_no; [done|unfold QtText.digit; lia]. Qed.
Lemma ini_values_ok session mission playerLimit lockOptions maxUnits randomPositions : 123 ∉ session → 123 ∉ mission →
  Forall (λ v, marker_name v.1 ∧ 123 ∉ v.2) (ini_values session mission playerLimit lockOptions maxUnits randomPositions).
Proof.
  intros Hs Hm. assert (∀ a, bool_decide (123 ∉ str a ∧ 125 ∉ str a) = true → marker_name (123 :: str a ++ [125])) as Hk.
  { intros a Ha. apply bool_decide_eq_true in Ha as [H1 H2]. by exists (str a). }
  repeat (apply Forall_cons; split); try apply Forall_nil; cbn [fst snd]; split; try done; try (by apply number_no_brace; lia).
  - by apply (Hk "session").
  - by apply (Hk "mission").
  - by apply (Hk "playerlimit").
  - by apply (Hk "maxunits").
  - by apply (Hk "lockoptions").
  - by destruct lockOptions; apply (bool_decide_eq_true_1 _); vm_compute.
  - by apply (Hk "location").
  - by destruct randomPositions; apply (bool_decide_eq_true_1 _); vm_compute.
Qed.
(** the settings file of the game is the template with every marker replaced by its
    value, all at once: the six replacements do not disturb each other, whatever the
    order of the markers and however often they occur, as long as neither the name of the
    player nor that of the map has an opening brace.  Markers that are not known stay. *)
Theorem settings_filled (w : World) (s : GpgNetGameLauncher) (ps : list piece) :
  123 ∉ m_thisPlayerName s → 123 ∉ m_mapName s → Forall piece_ok ps →
  w_template w = Some (concat (render <$> ps)) → w_ini w = true →
  gl_files (createTAInitFile w s) = gl_files s ++ [WriteFile (m_iniTarget s) (concat (value_of
    (ini_values (m_thisPlayerName s ++ str "'s Game") (m_mapName s) (m_playerLimit s) (m_lockOptions s) (m_maxUnits s) (m_randomPositions s)) <$> ps))].
Proof.
  intros Hn Hm Hps Et Ei. unfold createTAInitFile. rewrite Et, Ei. rewrite fill_pieces; [done| |done].
  apply ini_values_ok; [|done]. apply not_elem_of_app. split; [done|]. by apply (bool_decide_eq_true_1 _); vm_compute.
Qed.
Definition ex_client : LaunchClient := LaunchClient_make (λ _, true).
Definition ex_launcher : GpgNetGameLauncher :=
  GpgNetGameLauncher_make (str "taforever.ini.template") (str "C:\TA") (str "C:\TA\TAForever.ini") (str "{guid}") 10 false 1000 ex_client 0.
Definition ex_template : list piece :=
  [Text (str "location="); Marker (str "{location}"); Text (10 :: str "mission="); Marker (str "{mission}"); Text (10 :: str "session=");
   Marker (str "{session}"); Text (str " on "); Marker (str "{mission}"); Marker (str "{pfs}")].
Definition ex_world (disk : bytes → file) : World :=
  mkWorld disk (Some (concat (render <$> ex_template))) true true (Some (str "RUNNING")) None.
Definition ex_named : GpgNetGameLauncher := ex_launcher <| m_thisPlayerName := str "Bob" |> <| m_mapName := str "Red Hot Lava" |>.
Lemma ex_template_ok : Forall piece_ok ex_template.
Proof.
  assert (∀ b, bool_decide (123 ∉ b) = true → piece_ok (Text b)) as Ht by (intros b Hb; by apply bool_decide_eq_true in Hb).
  assert (∀ a, bool_decide (123 ∉ a) = true → bool_decide (125 ∉ a) = true → piece_ok (Marker (123 :: a ++ [125]))) as Hm.
  { intros a H1 H2. apply bool_decide_eq_true in H1, H2. by exists a. }
  unfold ex_template. repeat apply Forall_cons_2; try apply Forall_nil_2.
  all: first [apply Ht; vm_compute; reflexivity | idtac].
  - apply (Hm (str "location")); vm_compute; reflexivity.
  - apply (Hm (str "mission")); vm_compute; reflexivity.
  - apply (Hm (str "session")); vm_compute; reflexivity.
  - apply (Hm (str "mission")); vm_compute; reflexivity.
  - apply (Hm (str "pfs")); vm_compute; reflexivity.
Qed.
Lemma settings_filled_witness : gl_files (createTAInitFile (ex_world (λ _, F_missing)) ex_named) =
  [WriteFile (str "C:\TA\TAForever.ini")
     (str "location=2" ++ 10 :: str "mission=Red Hot Lava" ++ 10 :: str "session=Bob's Game on Red Hot Lava{pfs}")].
Proof.
  rewrite (settings_filled (ex_world (λ _, F_missing)) ex_named ex_template).
  - vm_compute. reflexivity.
  - apply (bool_decide_eq_true_1 _). vm_compute. reflexivity.
  - apply (bool_decide_eq_true_1 _). vm_compute. reflexivity.
  - exact ex_template_ok.
  - reflexivity.
  - reflexivity.
Defined.
(** a player whose name is a marker gets the name of the map for it *)
Example marker_as_name :
  gl_files (createTAInitFile (ex_world (λ _, F_missing)) (ex_named <| m_thisPlayerName := str "{mission}" |>)) =
  [WriteFile (str "C:\TA\TAForever.ini")
     (str "location=2" ++ 10 :: str "mission=Red Hot Lava" ++ 10 :: str "session=Red Hot Lava's Game on Red Hot Lava{pfs}")].
Proof. vm_compute. reflexivity. Qed.

(** ** The game's files *)

(** reading a file in blocks is reading it at once *)
Lemma crc_blocks_spec fuel : ∀ crc b, (length b ≤ fuel)%nat → crc_blocks fuel crc b = CRC32.PartialCRC CRC32.Initialize crc b.
Proof.
  induction fuel as [|fuel IH]; intros crc b Hf; [by destruct b; cbn [length] in Hf; [|lia]|].
  cbn [crc_blocks]. destruct b as [|x b]; [done|]. rewrite IH.
  - unfold CRC32.PartialCRC. rewrite <- foldl_app. by rewrite take_drop.
  - rewrite length_drop. assert (1 ≤ bufferSize)%nat by (unfold bufferSize; lia). cbn [length] in *. lia.
Qed.
Lemma file_crc_full b : file_crc b = CRC32.FullCRC CRC32.Initialize b.
Proof. unfold file_crc, CRC32.FullCRC. by rewrite crc_blocks_spec. Qed.

Section Files.
Context `{Qt} `{QtText}.
(** a file of the list is in order when it is not there, or there is nothing to compare
    it with, or it can be read and has one of the checksums *)
Definition file_ok (w : World) (fileName : bytes) (allowed : gset Z) : Prop :=
  match w_disk w fileName with
  | F_missing => True
  | F_unreadable => allowed = ∅
  | F_content b => allowed = ∅ ∨ CRC32.FullCRC CRC32.Initialize b ∈ allowed
  end.
Lemma file_ok_empty w fileName : file_ok w fileName ∅.
Proof. unfold file_ok. destruct (w_disk w fileName) as [| |b]; [done|done|by left]. Qed.
Lemma check_file_ok w fileName allowed : check_file w fileName allowed = None ↔ file_ok w fileName allowed.
Proof.
  unfold check_file, file_ok. destruct (w_disk w fileName) as [| |b]; [done| |].
  - by case_bool_decide.
  - rewrite file_crc_full. case_bool_decide; [split; [by left|done]|]. case_bool_decide; split; try done; [by right|by intros [|]].
Qed.
Lemma verify_loop_spec w s : ∀ keys,
  (Forall (λ k, file_ok w (file_name s k) (default ∅ (m_gameFileVersions s !! k))) keys ∧ verify_loop w keys s = (true, s)) ∨
  ∃ before key after fileName reason, keys = before ++ key :: after ∧
    Forall (λ k, file_ok w (file_name s k) (default ∅ (m_gameFileVersions s !! k))) before ∧
    check_file w (file_name s key) (default ∅ (m_gameFileVersions s !! key)) = Some (fileName, reason) ∧
    verify_loop w keys s = (false, on_client (λ c, (failGameFileVersions fileName reason (w_connected w) (w_fail_reply w) c).2) s).
Proof.
  induction keys as [|k keys IH]; [by left|]. cbn [verify_loop].
  destruct (check_file w (file_name s k) _) as [[fileName reason]|] eqn:E.
  - right. by exists [], k, keys, fileName, reason.
  - apply check_file_ok in E. destruct IH as [[Hall ->]|(before & key & after & fileName & reason & -> & Hb & Hc & ->)].
    + left. split; [by apply Forall_cons|done].
    + right. exists (k :: before), key, after, fileName, reason. split; [done|]. split; [by apply Forall_cons|done].
Qed.

(** ** The list of the game's files *)
Definition item_text (item : bytes * list Z) : bytes := item.1 ++ 58 :: GpgNetMessages.join 44 (hex <$> item.2).
Definition versions_text (l : list (bytes * list Z)) : bytes := GpgNetMessages.join 59 (item_text <$> l).
Definition item_ok (item : bytes * list Z) : Prop := 58 ∉ item.1 ∧ 59 ∉ item.1 ∧ item.2 ≠ [] ∧ Forall is_u32 item.2.
Lemma hex_no c n : 0 ≤ n → 57 < c < 97 ∨ c < 48 → c ∉ hex n.
Proof.
  intros Hn Hc. unfold hex. assert (∀ fuel n acc, 0 ≤ n → c ∉ acc → c ∉ hex_digits fuel n acc) as H'.
  { intros fuel. induction fuel as [|fuel IH]; intros m acc Hm Ha; [done|]. cbn [hex_digits].
    assert (c ∉ hex_char (m mod 16) :: acc) as Ha'.
    { apply not_elem_of_cons. split; [|done]. unfold hex_char. pose proof (Z.mod_pos_bound m 16). case_match eqn:E; [apply Z.ltb_lt in E|apply Z.ltb_ge in E]; lia. }
    case_match; [done|]. apply IH; [apply Z.div_pos; lia|done]. }
  apply H'; [done|apply not_elem_of_nil].
Qed.
Lemma parse_crcs f cs : Forall is_u32 cs → ∀ m : gmap bytes (gset Z), ∀ k,
  default ∅ (foldl (parse_crc f) m (hex <$> cs) !! k) = default ∅ (m !! k) ∪ (if decide (k = f) then list_to_set cs else ∅).
Proof.
  induction 1 as [|c cs Hc Hcs IH]; intros m k; cbn [fmap list_fmap foldl]; [case_decide; set_solver|].
  rewrite IH. unfold parse_crc at 1. rewrite toLongLong_hex_hex by done. case_decide as Hk.
  - subst k. rewrite lookup_insert_eq. cbn [default list_to_set]. set_solver.
  - rewrite lookup_insert_ne by done. set_solver.
Qed.
Lemma item_text_no item : item_ok item → 59 ∉ item_text item.
Proof.
  intros (_ & H59 & Hne & Hu). unfold item_text. rewrite not_elem_of_app, not_elem_of_cons. split_and!; [done|lia|].
  apply join_no; [done|by destruct item.2|].
  apply Forall_fmap, (Forall_impl _ _ _ Hu). intros c Hc. apply hex_no; unfold is_u32 in *; lia.
Qed.
Lemma parse_item_text m item : item_ok item → parse_item m (item_text item) = foldl (parse_crc item.1) m (hex <$> item.2).
Proof.
  intros (H58 & _ & Hne & Hu). unfold parse_item, item_text.
  assert (∀ c, 57 < c < 97 ∨ c < 48 → Forall (λ a, c ∉ a) (hex <$> item.2)) as Hno.
  { intros c Hc. apply Forall_fmap, (Forall_impl _ _ _ Hu). intros x Hx. apply hex_no; unfold is_u32 in *; lia. }
  rewrite split_cons by done. rewrite (split_one 58).
  - f_equal. apply split_join; [by destruct item.2|]. apply Hno. lia.
  - apply join_no; [done|by destruct item.2|apply Hno; lia].
Qed.
Lemma parse_items l : Forall item_ok l → ∀ (m : gmap bytes (gset Z)) k c,
  c ∈ default ∅ (foldl parse_item m (item_text <$> l) !! k) ↔ c ∈ default ∅ (m !! k) ∨ ∃ cs, (k, cs) ∈ l ∧ c ∈ cs.
Proof.
  induction 1 as [|item l Hi Hl IH]; intros m k c; cbn [fmap list_fmap foldl].
  - split; [by left|]. intros [|(cs & Hcs & _)]; [done|]. by apply elem_of_nil in Hcs.
  - rewrite IH, parse_item_text by done. rewrite parse_crcs by apply Hi. rewrite elem_of_union. destruct item as [f cs0]; cbn [fst snd].
    setoid_rewrite elem_of_cons. split.
    + intros [[Hc|Hc]|(cs & Hcs & Hc)]; [by left| |right; by exists cs; auto]. case_decide as Hk; [|by apply elem_of_empty in Hc].
      right. exists cs0. subst k. split; [by left|]. by apply elem_of_list_to_set in Hc.
    + intros [Hc|(cs & [[= -> ->]|Hcs] & Hc)]; [by left; left| |right; by exists cs]. left. right.
      rewrite decide_True by done. by apply elem_of_list_to_set.
Qed.
(** a launcher that has read the list of a rated game *)
Definition with_versions (l : list (bytes * list Z)) (s : GpgNetGameLauncher) : GpgNetGameLauncher :=
  setEnableGameFileVersionVerify true (parseGameFileVersions (versions_text l) s).
Lemma versions_parsed l s k c : l ≠ [] → Forall item_ok l → m_gameFileVersions s = ∅ →
  c ∈ default ∅ (m_gameFileVersions (with_versions l s) !! k) ↔ ∃ cs, (k, cs) ∈ l ∧ c ∈ cs.
Proof.
  intros Hne Hl Hs. unfold with_versions, setEnableGameFileVersionVerify, parseGameFileVersions.
  change (m_gameFileVersions _) with (foldl parse_item (m_gameFileVersions s) (GpgNetMessages.split 59 (versions_text l))).
  unfold versions_text. rewrite split_join; [|by destruct l|].
  - rewrite parse_items by done. rewrite Hs, lookup_empty. split; [intros [Hc|]; [by apply elem_of_empty in Hc|done]|by right].
  - apply Forall_fmap, (Forall_impl _ _ _ Hl). intros item. apply item_text_no.
Qed.
(** a file that is listed must be missing, or be one of the listed versions *)
Definition listed_ok (w : World) (l : list (bytes * list Z)) (path : bytes → bytes) (f : bytes) : Prop :=
  match w_disk w (path f) with
  | F_missing => True
  | F_unreadable => False
  | F_content b => ∃ cs, (f, cs) ∈ l ∧ CRC32.FullCRC CRC32.Initialize b ∈ cs
  end.
(** the files that are written before the check *)
Definition prepared (w : World) (s : GpgNetGameLauncher) : GpgNetGameLauncher :=
  copyOnlineDll w (m_gamePath s ++ str "/online.dll") (createTAInitFile w s).
Lemma prepared_files w s : ∃ fs, prepared w s = s <| gl_files := fs |>.
Proof.
  unfold prepared, copyOnlineDll, createTAInitFile, file_done. destruct s. case_match; case_match; try case_match; by eexists.
Qed.
(** what the launch server is sent when the game is started *)
Lemma startApplication_sent w c : w_connected w = true → lc_sent (startApplication true (w_reply w) c).2 = lc_sent c ++ [start_message c].
Proof.
  intros _. unfold startApplication, request. destruct (w_reply w) as [[|x data]|]; cbn [snd]; [done| |done].
  unfold onReadyReadTcp. case_match; [done|]. by repeat case_match.
Qed.
Lemma failGameFileVersions_sent f r w c : w_connected w = true → ∃ complaint,
  lc_sent (failGameFileVersions f r (w_connected w) (w_fail_reply w) c).2 = lc_sent c ++ [complaint].
Proof.
  intros ->. eexists. unfold failGameFileVersions, request. destruct (w_fail_reply w) as [[|x data]|]; cbn [snd]; [done| |done].
  unfold onReadyReadTcp. case_match; [done|]. by repeat case_match.
Qed.
(** C14: the list of file versions of a rated game is enforced: the game is started only if
    each file of the list that exists can be read and its CRC-32 is one of those that the
    text of the list gives for it; then the launch server gets the request to start and
    nothing else, otherwise it gets a complaint and nothing is started. *)
Theorem listed_files_enforced (w : World) (s : GpgNetGameLauncher) (l : list (bytes * list Z)) :
  m_gameFileVersions s = ∅ → l ≠ [] → Forall item_ok l → m_readyToStart s = true → m_alreadyStarted s = false → w_connected w = true →
  let s' := onStartApplication w (with_versions l s) in
  let ok := λ f, listed_ok w l (file_name s) f in
  (∀ f cs, (f, cs) ∈ l → ok f) ∧ lc_sent (m_launchClient s') = lc_sent (m_launchClient s) ++ [start_message (m_launchClient s)] ∨
  (∃ f cs complaint, (f, cs) ∈ l ∧ ¬ ok f ∧ m_alreadyStarted s' = false ∧ gl_signals s' = gl_signals s ∧
     lc_sent (m_launchClient s') = lc_sent (m_launchClient s) ++ [complaint]).
Proof.
  intros Hs Hne Hl Hr Ha Hc s' ok. set (s1 := with_versions l s) in *. destruct (prepared_files w s1) as (fs & Ep).
  pose proof (λ k c, versions_parsed l s k c Hne Hl Hs) as Hv. fold s1 in Hv.
  assert (∀ k, file_ok w (file_name s k) (default ∅ (m_gameFileVersions s1 !! k)) ↔ ((∃ cs, (k, cs) ∈ l) → ok k)) as Hok.
  { intros k. unfold file_ok, ok, listed_ok. assert (default ∅ (m_gameFileVersions s1 !! k) = ∅ ↔ ¬ ∃ cs, (k, cs) ∈ l) as He.
    { split.
      - intros E (cs & Hcs). rewrite Forall_forall in Hl. destruct (Hl _ Hcs) as (_ & _ & Hn & _). cbn [snd] in Hn. destruct cs as [|c cs]; [done|].
        assert (c ∈ default ∅ (m_gameFileVersions s1 !! k)) as Hin by (apply Hv; exists (c :: cs); split; [done|by left]). set_solver.
      - intros Hno. apply set_eq. intros c. rewrite Hv. split; [intros (cs & Hcs & _); destruct Hno; by exists cs|set_solver]. }
    destruct (w_disk w (file_name s k)) as [| |b]; [by split|rewrite He; naive_solver|]. rewrite He, Hv. split; [naive_solver|].
    intros H'. destruct (decide (default ∅ (m_gameFileVersions s1 !! k) = ∅)) as [E|E]; [left; by apply He|right].
    apply H'. apply set_choose_L in E as [c Hin]. apply Hv in Hin as (cs & Hcs & _). by exists cs. }
  assert (∀ k, file_name (prepared w s1) k = file_name s k) as Hfn by (intros k; by rewrite Ep).
  assert (m_gameFileVersions (prepared w s1) = m_gameFileVersions s1) as Hgv by (by rewrite Ep).
  assert (m_launchClient (prepared w s1) = m_launchClient s) as Hlc by (by rewrite Ep).
  assert (gl_signals (prepared w s1) = gl_signals s ∧ m_alreadyStarted (prepared w s1) = false) as [Hsg Has] by (by rewrite Ep).
  assert (s' = let '(verified, s) := verifyGameFileVersions w (prepared w s1) in
    if negb verified then s
    else
      let s := s <| m_alreadyLaunched := false |> in
      let '(started, client) := startApplication (w_connected w) (w_reply w) (m_launchClient s) in
      let s := s <| m_launchClient := client |> in
      if negb started then s
      else emit_signal applicationStarted (report (gameState (str "Lobby") (str "Battleroom"))
             (s <| m_alreadyStarted := true |> <| m_pollStillActiveTimer := true |>))) as Es.
  { unfold s', onStartApplication. change (m_alreadyStarted s1) with (m_alreadyStarted s). change (m_readyToStart s1) with (m_readyToStart s).
    rewrite Ha, Hr. cbn [negb]. fold (prepared w s1). rewrite Ep. reflexivity. }
  unfold verifyGameFileVersions in Es.
  destruct (verify_loop_spec w (prepared w s1) (qmap_keys (m_gameFileVersions (prepared w s1)))) as
    [[Hall Ev]|(before & key & after & fileName & reason & Ek & _ & Hck & Ev)]; rewrite Ev in Es; cbv beta iota zeta in Es.
  - left. split.
    + intros f cs Hf. apply Hok; [|by exists cs]. destruct (decide (default ∅ (m_gameFileVersions s1 !! f) = ∅)) as [E|E].
      * rewrite E. apply file_ok_empty.
      * rewrite Forall_forall in Hall. rewrite <- Hfn, <- Hgv. apply Hall, elem_of_qmap_keys. rewrite Hgv.
        destruct (m_gameFileVersions s1 !! f); [by eexists|done].
    + rewrite Es. cbn [negb]. cbv zeta. change (m_launchClient ((prepared w s1) <| m_alreadyLaunched := false |>)) with (m_launchClient (prepared w s1)).
      rewrite Hlc, Hc. pose proof (startApplication_sent w (m_launchClient s) Hc) as Hst.
      destruct (startApplication true (w_reply w) (m_launchClient s)) as [[] client]; exact Hst.
  - right. assert (¬ file_ok w (file_name s key) (default ∅ (m_gameFileVersions s1 !! key))) as Hbad.
    { rewrite <- Hfn, <- Hgv. intros Hgood. apply check_file_ok in Hgood. congruence. }
    destruct (failGameFileVersions_sent fileName reason w (m_launchClient s) Hc) as (complaint & Hcm).
    assert (∃ cs, (key, cs) ∈ l) as (cs & Hcs).
    { destruct (decide (default ∅ (m_gameFileVersions s1 !! key) = ∅)) as [E|E].
      - destruct Hbad. rewrite E. apply file_ok_empty.
      - apply set_choose_L in E as [c Hin]. apply Hv in Hin as (cs & Hcs & _). by exists cs. }
    exists key, cs, complaint. split; [done|]. split; [intros Hk; by apply Hbad, Hok|]. rewrite Es. cbn [negb].
    split; [exact Has|]. split; [exact Hsg|]. rewrite <- Hcm. rewrite <- Hlc. reflexivity.
Qed.
End Files.
Definition ex_exe : bytes := [77; 90; 144; 0].
Definition ex_listed : list (bytes * list Z) :=
  [(str "totala.exe", [CRC32.FullCRC CRC32.Initialize ex_exe; 7]); (str "ta.ini", [1])].
Definition ex_disk (name : bytes) : file := if bool_decide (name = str "C:\TA/totala.exe") then F_content ex_exe else F_missing.
Lemma listed_files_enforced_witness :
  let s := ex_named <| m_readyToStart := true |> in
  lc_sent (m_launchClient (onStartApplication (H:=ex_qt) (ex_world ex_disk) (with_versions (H:=ex_qt) (H0:=ex_text) ex_listed s))) =
    [start_message (H:=ex_qt) (m_launchClient s)].
Proof.
  intros s. destruct (listed_files_enforced (H:=ex_qt) (H0:=ex_text) (ex_world ex_disk) s ex_listed) as
    [[_ Hsent]|(f & cs & complaint & Hf & Hbad & _)].
  - reflexivity.
  - discriminate.
  - apply Forall_forall. intros item Hi. apply (elem_of_list_to_set (C:=gset (bytes * list Z))) in Hi.
    assert (item = (str "totala.exe", [CRC32.FullCRC CRC32.Initialize ex_exe; 7]) ∨ item = (str "ta.ini", [1])) as [-> | ->]
      by (unfold ex_listed in Hi; set_solver);
      (split_and!; [apply (bool_decide_eq_true_1 _); vm_compute; reflexivity|apply (bool_decide_eq_true_1 _); vm_compute; reflexivity|discriminate|]);
      repeat (apply Forall_cons; split); try apply Forall_nil; unfold is_u32; try lia. vm_compute. split; [discriminate|reflexivity].
  - reflexivity.
  - reflexivity.
  - reflexivity.
  - exact Hsent.
  - destruct Hbad. unfold ex_listed in Hf. apply elem_of_cons in Hf as [[= -> ->]|Hf]; [|apply list_elem_of_singleton in Hf as [= -> ->]].
    + change (∃ cs, (str "totala.exe", cs) ∈ ex_listed ∧ CRC32.FullCRC CRC32.Initialize ex_exe ∈ cs).
      exists [CRC32.FullCRC CRC32.Initialize ex_exe; 7]. split; by left.
    + exact I.
Defined.

(** ** The life of a game *)
Section Life.
Context `{Qt}.
(** the calls that the launcher gets; timers only fire when they run *)
Inductive launcher_input : Type :=
  | In_CreateLobby (playerName : bytes) (playerId : Z)
  | In_HostGame (w : World) (mapName mapDetails : bytes)
  | In_JoinGame (w : World)
  | In_Start (w : World)
  | In_Message (w : World) (msg : bytes)
  | In_Poll
  | In_QuitTimer
  | In_LaunchServer (data : bytes)          (* a notification *)
  | In_LaunchServerLost.
Definition launcher_handle (i : launcher_input) (s : GpgNetGameLauncher) : GpgNetGameLauncher :=
  match i with
  | In_CreateLobby playerName playerId => onCreateLobby playerName playerId s
  | In_HostGame w mapName mapDetails => onHostGame w mapName mapDetails s
  | In_JoinGame w => onJoinGame w s
  | In_Start w => onStartApplication w s
  | In_Message w msg => onExtendedMessage w msg s
  | In_Poll => if m_pollStillActiveTimer s then pollJdplayStillActive s else s
  | In_QuitTimer => if m_quitCountResetTimer s then onResetQuitCount s else s
  | In_LaunchServer data => on_client (onReadyReadTcp data) s
  | In_LaunchServerLost => on_client onSocketDisconnected s
  end.
Definition launcher_run (inputs : list launcher_input) (s : GpgNetGameLauncher) : GpgNetGameLauncher :=
  foldl (λ s i, launcher_handle i s) s inputs.

(** the stages of a game that the lobby server is told *)
Inductive stage : Set := Battleroom | Launching | Ended.
Definition stage_of (c : bytes * list Variant) : option stage :=
  if bool_decide (c.1 = str "GameEnded") then Some Ended
  else if bool_decide (c.1 = str "GameState") then
    match c.2 with [V_bytes b] => if bool_decide (b = str "Launching") then Some Launching else None | _ => None end
  else if bool_decide (c.1 = str "GameOption") then
    match c.2 with
    | [V_bytes k; V_bytes v] => if bool_decide (k = str "SubState") && bool_decide (v = str "Battleroom") then Some Battleroom else None
    | _ => None
    end
  else None.
Definition stages (s : GpgNetGameLauncher) : list stage := omap stage_of (gl_reports s).
Definition game_signals (s : GpgNetGameLauncher) : list launcher_signal := filter (λ x, x ≠ app_quit) (gl_signals s).
(** the states of a game: not started, running, over *)
Inductive life : GpgNetGameLauncher → Prop :=
  | life_new s : m_alreadyStarted s = false → m_pollStillActiveTimer s = false → stages s = [] → game_signals s = [] → life s
  | life_running s : m_alreadyStarted s = true → m_pollStillActiveTimer s = true →
      stages s = Battleroom :: (if m_alreadyLaunched s then [Launching] else []) → (m_alreadyLaunched s = true → m_isHost s = true) →
      game_signals s = [applicationStarted] → life s
  | life_over s : m_alreadyStarted s = true → m_pollStillActiveTimer s = false →
      stages s = Battleroom :: (if m_alreadyLaunched s then [Launching] else []) ++ [Ended] → (m_alreadyLaunched s = true → m_isHost s = true) →
      game_signals s = [applicationStarted; applicationTerminated] → life s.

Lemma stages_report cs s : stages (report cs s) = stages s ++ omap stage_of cs.
Proof. exact (omap_app stage_of (gl_reports s) cs). Qed.
(** what does not belong to the life of a game *)
Definition alike (s s' : GpgNetGameLauncher) : Prop :=
  m_alreadyStarted s' = m_alreadyStarted s ∧ m_pollStillActiveTimer s' = m_pollStillActiveTimer s ∧
  (m_alreadyStarted s = true → m_alreadyLaunched s' = m_alreadyLaunched s) ∧
  (m_isHost s = true → m_isHost s' = true) ∧ stages s' = stages s ∧ game_signals s' = game_signals s.
#[export] Instance alike_preorder : PreOrder alike.
Proof.
  split; [by intros s|]. intros s1 s2 s3 (A1 & A2 & A3 & A4 & A5 & A6) (B1 & B2 & B3 & B4 & B5 & B6).
  split_and!; try congruence; [|auto]. intros Ha. rewrite B3 by congruence. auto.
Qed.
Lemma life_alike s s' : alike s s' → life s → life s'.
Proof.
  intros (A1 & A2 & A3 & A4 & A5 & A6) Hl. destruct Hl as [s H1 H2 H3 H4|s H1 H2 H3 H4 H5|s H1 H2 H3 H4 H5].
  - apply life_new; congruence.
  - specialize (A3 H1). apply life_running; rewrite ?A3; try congruence. intros Ha. apply A4, H4. congruence.
  - specialize (A3 H1). apply life_over; rewrite ?A3; try congruence. intros Ha. apply A4, H4. congruence.
Qed.

(** an update of other fields, and a report that is not about the life of the game *)
Lemma alike_report cs s : omap stage_of cs = [] → alike s (report cs s).
Proof. intros Hc. split_and!; try done. rewrite stages_report, Hc. apply app_nil_r. Qed.
Lemma alike_quit s : alike s (emit_signal app_quit s).
Proof. split_and!; try done. change (filter (λ x, x ≠ app_quit) (gl_signals s ++ [app_quit]) = game_signals s). rewrite filter_app. apply app_nil_r. Qed.
Lemma alike_client f s : alike s (on_client f s).
Proof. by split_and!. Qed.
Lemma alike_host s : alike s (s <| m_isHost := true |>).
Proof. by split_and!. Qed.
Lemma alike_options k v s : k ≠ str "SubState" → alike s (report (gameOption k v) s).
Proof.
  intros Hk. apply alike_report. unfold gameOption. cbn [omap list_omap]. unfold stage_of. cbn [fst snd].
  rewrite (bool_decide_false (str "GameOption" = str "GameEnded")) by done.
  rewrite (bool_decide_false (str "GameOption" = str "GameState")) by done. by rewrite bool_decide_true, bool_decide_false.
Qed.
Lemma alike_host_option f s : (∀ s, alike s (f s)) → alike s (host_option f s).
Proof. intros Hf. unfold host_option. by repeat case_match. Qed.
Lemma alike_verify w s : alike s (verifyGameFileVersions w s).2.
Proof.
  unfold verifyGameFileVersions. generalize (qmap_keys (m_gameFileVersions s)). intros keys. induction keys as [|k keys IH]; [done|].
  cbn [verify_loop]. destruct (check_file _ _ _) as [[]|]; [apply alike_client|done].
Qed.
Lemma alike_on_quit s : alike s (on_quit s).
Proof. unfold on_quit. case_match; [apply alike_quit|]. cbv zeta. case_match; [|by split_and!]. etrans; [|apply alike_quit]. by split_and!. Qed.

(** ** The steps of the life *)
Lemma life_start w s : life s → life (onStartApplication w s).
Proof.
  intros Hl. unfold onStartApplication. destruct (m_alreadyStarted s) eqn:Ha; [done|]. destruct (m_readyToStart s); cbn [negb].
  2: { refine (life_alike _ _ _ Hl). by split_and!. }
  fold (prepared w s). destruct (prepared_files w s) as (fs & Ep). assert (alike s (prepared w s)) as H1 by (rewrite Ep; by split_and!).
  cbv zeta. destruct (if m_enableGameFileVersionVerify (prepared w s) then _ else _) as [verified s2] eqn:Ev.
  assert (alike (prepared w s) s2) as H2.
  { destruct (m_enableGameFileVersionVerify _); [|by injection Ev as _ <-]. pose proof (alike_verify w (prepared w s)) as Hv. by rewrite Ev in Hv. }
  assert (alike s s2) as H3 by (by etrans). destruct verified; cbn [negb]; [|by apply (life_alike s)].
  set (s3 := s2 <| m_alreadyLaunched := false |>). assert (alike s s3) as H4.
  { destruct H3 as (A1 & A2 & A3 & A4 & A5 & A6). split_and!; try done. congruence. }
  destruct (startApplication _ _ (m_launchClient s3)) as [started client].
  apply (life_alike _ _ H4) in Hl. destruct started; cbn [negb]; [|refine (life_alike _ _ _ Hl); by split_and!].
  destruct H4 as (A1 & _). assert (m_alreadyStarted s3 = false) as Hb by congruence. assert (m_alreadyLaunched s3 = false) as Hz by done. clearbody s3.
  destruct Hl as [s4 B1 B2 B3 B4|s4 B1|s4 B1]; try congruence. apply life_running; try done.
  - change (stages (report (gameState (str "Lobby") (str "Battleroom")) s4) = Battleroom :: (if m_alreadyLaunched s4 then [Launching] else [])).
    rewrite stages_report, B3, Hz. reflexivity.
  - change (m_alreadyLaunched s4 = true → m_isHost s4 = true). congruence.
  - change (filter (λ x, x ≠ app_quit) (gl_signals s4 ++ [applicationStarted]) = [applicationStarted]). rewrite filter_app.
    change (filter (λ x, x ≠ app_quit) (gl_signals s4)) with (game_signals s4). by rewrite B4.
Qed.
Lemma life_poll s : life s → m_pollStillActiveTimer s = true → life (pollJdplayStillActive s).
Proof.
  intros Hl Hp. destruct Hl as [s H1 H2|s H1 H2 H3 H4 H5|s H1 H2]; try congruence. unfold pollJdplayStillActive.
  destruct (isApplicationRunning (m_launchClient s)); cbn [negb].
  - destruct (m_isHost s && negb (m_alreadyLaunched s) && isGameLaunched (m_launchClient s)) eqn:E; [|by apply life_running].
    apply andb_true_iff in E as [E _]. apply andb_true_iff in E as [Eh El]. apply negb_true_iff in El. apply life_running; try done.
    change (stages (report (gameState (str "Launching") (str "Launching")) s) = [Battleroom; Launching]).
    rewrite stages_report, H3, El. reflexivity.
  - apply life_over; try done.
    + change (stages (report gameEnded s) = Battleroom :: (if m_alreadyLaunched s then [Launching] else []) ++ [Ended]).
      rewrite stages_report, H3. reflexivity.
    + change (filter (λ x, x ≠ app_quit) (gl_signals s ++ [applicationTerminated]) = [applicationStarted; applicationTerminated]). rewrite filter_app.
      change (filter (λ x, x ≠ app_quit) (gl_signals s)) with (game_signals s). by rewrite H5.
Qed.
Lemma life_deferred w s : life s → life (start_deferred w s).
Proof. unfold start_deferred. case_match; [apply life_start|done]. Qed.
Lemma life_message w msg s : life s → life (onExtendedMessage w msg s).
Proof.
  intros Hl. unfold onExtendedMessage. destruct (starts_with (str "/launch") msg).
  { apply life_start. case_match; [|done]. refine (life_alike _ _ _ Hl). by split_and!. }
  refine (life_alike _ _ _ Hl). repeat match goal with |- alike _ (if ?b then _ else _) => destruct b end; try done.
  - apply alike_host_option. intros s'. unfold set_map. etrans; [|by apply alike_options]. by split_and!.
  - apply alike_host_option. intros s'. by apply alike_options.
  - apply alike_host_option. intros s'. by apply alike_options.
  - apply alike_host_option. intros s'. by apply alike_options.
  - apply alike_on_quit.
Qed.
Lemma life_handle i s : life s → life (launcher_handle i s).
Proof.
  intros Hl. destruct i as [name id|w mapName details|w|w|w msg| | |data|]; cbn [launcher_handle].
  - refine (life_alike _ _ _ Hl). unfold onCreateLobby. etrans; [|by apply alike_report]. by split_and!.
  - unfold onHostGame. cbv zeta. eapply life_alike; [|apply (life_deferred w (set_game true (s <| m_mapName := mapName |>)));
      refine (life_alike _ _ _ Hl); by split_and!].
    etrans; [|apply alike_host]. apply alike_report. reflexivity.
  - unfold onJoinGame. cbv zeta. eapply life_alike; [|apply (life_deferred w (set_game false s)); refine (life_alike _ _ _ Hl); by split_and!].
    apply alike_report. reflexivity.
  - by apply life_start.
  - by apply life_message.
  - case_match; [by apply life_poll|done].
  - case_match; [|done]. refine (life_alike _ _ _ Hl). by split_and!.
  - refine (life_alike _ _ _ Hl). apply alike_client.
  - refine (life_alike _ _ _ Hl). apply alike_client.
Qed.
Lemma life_run inputs : ∀ s, life s → life (launcher_run inputs s).
Proof. induction inputs as [|i inputs IH]; intros s Hl; [done|]. apply IH. by apply life_handle. Qed.
(** C13: whatever the lobby server, the console, the timers and the launch server do, a
    launcher reports each stage of a game once and in the order of the game: the
    battleroom when the game has been started, the launch at most once, by the host only
    and while the game runs, and the end after them.  The end is reported exactly when the
    watching timer is stopped, together with the only [applicationTerminated]. *)
Theorem game_reported_once (iniTemplate gamePath iniTarget guid : bytes) (playerLimit : Z) (lockOptions : bool) (maxUnits : Z)
    (client : LaunchClient) (junk : Z) (inputs : list launcher_input) :
  let s := launcher_run inputs (GpgNetGameLauncher_make iniTemplate gamePath iniTarget guid playerLimit lockOptions maxUnits client junk) in
  (stages s = [] ∧ game_signals s = [] ∧ m_alreadyStarted s = false) ∨
  ∃ launched, (launched = [] ∨ launched = [Launching] ∧ m_isHost s = true) ∧
    ((stages s = Battleroom :: launched ∧ game_signals s = [applicationStarted] ∧ m_pollStillActiveTimer s = true) ∨
     (stages s = Battleroom :: launched ++ [Ended] ∧ game_signals s = [applicationStarted; applicationTerminated] ∧ m_pollStillActiveTimer s = false)).
Proof.
  intros s. assert (life s) as Hl by (apply life_run; by apply life_new). clearbody s. destruct Hl as [s H1 H2 H3 H4|s H1 H2 H3 H4 H5|s H1 H2 H3 H4 H5].
  - by left.
  - right. exists (if m_alreadyLaunched s then [Launching] else []). split; [|by left]. destruct (m_alreadyLaunched s); [right; auto|by left].
  - right. exists (if m_alreadyLaunched s then [Launching] else []). split; [|by right]. destruct (m_alreadyLaunched s); [right; auto|by left].
Qed.
End Life.

(** ** Launching before and after the game is known *)
Section Order.
Context `{Qt} `{QtText}.
(** what the start of the game does not read *)
Definition touch (r : list (bytes * list Variant)) (h a : bool) (s : GpgNetGameLauncher) : GpgNetGameLauncher :=
  s <| gl_reports := r |> <| m_isHost := h |> <| m_autoStart := a |>.
Lemma verify_touch w r h a s : verifyGameFileVersions w (touch r h a s) =
  ((verifyGameFileVersions w s).1, touch r h a (verifyGameFileVersions w s).2).
Proof.
  unfold verifyGameFileVersions. change (m_gameFileVersions (touch r h a s)) with (m_gameFileVersions s). generalize (qmap_keys (m_gameFileVersions s)).
  intros keys. induction keys as [|k keys IH]; [done|]. cbn [verify_loop]. change (file_name (touch r h a s) k) with (file_name s k).
  change (m_gameFileVersions (touch r h a s)) with (m_gameFileVersions s). destruct (check_file _ _ _) as [[]|]; [done|exact IH].
Qed.
Lemma prepared_touch w r h a s : prepared w (touch r h a s) = touch r h a (prepared w s).
Proof.
  unfold prepared, copyOnlineDll, createTAInitFile. change (m_gamePath (touch r h a s)) with (m_gamePath s).
  by destruct (w_template w), (w_disk w _), (w_ini w).
Qed.
(** the two halves of the start *)
Definition verified (w : World) (s : GpgNetGameLauncher) : bool * GpgNetGameLauncher :=
  if m_enableGameFileVersionVerify (prepared w s) then verifyGameFileVersions w (prepared w s) else (true, prepared w s).
Definition started (w : World) (s : GpgNetGameLauncher) : GpgNetGameLauncher :=
  let '(started, client) := startApplication (w_connected w) (w_reply w) (m_launchClient s) in
  let s := (s <| m_alreadyLaunched := false |>) <| m_launchClient := client |> in
  if negb started then s
  else emit_signal applicationStarted (report (gameState (str "Lobby") (str "Battleroom"))
         (s <| m_alreadyStarted := true |> <| m_pollStillActiveTimer := true |>)).
Lemma start_halves w s : m_readyToStart s = true → m_alreadyStarted s = false →
  onStartApplication w s = if (verified w s).1 then started w (verified w s).2 else (verified w s).2.
Proof. intros Hr Ha. unfold onStartApplication. rewrite Ha, Hr. cbn [negb]. fold (prepared w s). cbv zeta. fold (verified w s). by destruct (verified w s) as [[] v]. Qed.
Lemma verified_touch w r h a s : verified w (touch r h a s) = ((verified w s).1, touch r h a (verified w s).2).
Proof.
  unfold verified. rewrite prepared_touch. change (m_enableGameFileVersionVerify (touch r h a ?p)) with (m_enableGameFileVersionVerify p).
  destruct (m_enableGameFileVersionVerify (prepared w s)); [apply verify_touch|done].
Qed.
Lemma verified_same w s : gl_reports (verified w s).2 = gl_reports s ∧ m_thisPlayerId (verified w s).2 = m_thisPlayerId s ∧
  m_playerLimit (verified w s).2 = m_playerLimit s.
Proof.
  unfold verified. destruct (prepared_files w s) as (fs & Ep). destruct (m_enableGameFileVersionVerify _); [|by rewrite Ep].
  assert (∀ y, gl_reports (verifyGameFileVersions w y).2 = gl_reports y ∧ m_thisPlayerId (verifyGameFileVersions w y).2 = m_thisPlayerId y ∧
    m_playerLimit (verifyGameFileVersions w y).2 = m_playerLimit y) as Hv.
  { intros y. unfold verifyGameFileVersions. generalize (qmap_keys (m_gameFileVersions y)). intros keys. induction keys as [|k keys IH]; [done|].
    cbn [verify_loop]. by destruct (check_file _ _ _) as [[]|]. }
  destruct (Hv (prepared w s)) as (-> & -> & ->). by rewrite Ep.
Qed.
Lemma started_touch w s : ∃ new, gl_reports (started w s) = gl_reports s ++ new ∧ m_thisPlayerId (started w s) = m_thisPlayerId s ∧
  m_playerLimit (started w s) = m_playerLimit s ∧ ∀ r h a, started w (touch r h a s) = touch (r ++ new) h a (started w s).
Proof.
  unfold started. change (m_launchClient (touch ?r ?h ?a s)) with (m_launchClient s). destruct (startApplication _ _ _) as [[] client]; cbn [negb].
  - by exists (gameState (str "Lobby") (str "Battleroom")).
  - exists []. split_and!; [by rewrite app_nil_r|done..|]. intros r h a. change (m_launchClient (touch r h a s)) with (m_launchClient s). by rewrite app_nil_r.
Qed.
Lemma start_touch w s : m_readyToStart s = true → m_alreadyStarted s = false → ∃ new,
  gl_reports (onStartApplication w s) = gl_reports s ++ new ∧ m_thisPlayerId (onStartApplication w s) = m_thisPlayerId s ∧
  m_playerLimit (onStartApplication w s) = m_playerLimit s ∧
  ∀ r h a, onStartApplication w (touch r h a s) = touch (r ++ new) h a (onStartApplication w s).
Proof.
  intros Hr Ha. destruct (verified_same w s) as (V1 & V2 & V3). rewrite (start_halves w s Hr Ha).
  assert (∀ r h a, onStartApplication w (touch r h a s) =
    if (verified w s).1 then started w (touch r h a (verified w s).2) else touch r h a (verified w s).2) as Hs.
  { intros r h a. rewrite start_halves by done. by rewrite verified_touch. }
  destruct (verified w s) as [[] v]; cbn [fst snd] in *.
  - destruct (started_touch w v) as (new & N1 & N2 & N3 & N4). exists new. split_and!; [congruence..|]. intros r h a. by rewrite Hs, N4.
  - exists []. split_and!; [by rewrite app_nil_r|done..|]. intros r h a. by rewrite Hs, app_nil_r.
Qed.
(** C34: it does not matter whether the console asks for the launch before the lobby server
    says which game to host or after it: what the launch server is asked, the files, the
    signals and the whole state are the same, but for the flag of the deferred launch, and
    the lobby server gets the same reports in another order. *)
Theorem launch_order (w0 w : World) (mapName mapDetails : bytes) (s : GpgNetGameLauncher) :
  m_alreadyStarted s = false → m_readyToStart s = false → m_autoStart s = false →
  let before := onHostGame w mapName mapDetails (onStartApplication w0 s) in
  let after := onStartApplication w (onHostGame w mapName mapDetails s) in
  gl_reports before ≡ₚ gl_reports after ∧ before = touch (gl_reports before) true true after.
Proof.
  intros Hs Hr Ha before after. set (t := set_game true (s <| m_mapName := mapName |>)).
  destruct (start_touch w t eq_refl Hs) as (new & Hn & Hid & Hlimit & Ht). set (u := onStartApplication w t) in *.
  set (said := λ x, playerOption_int (number (m_thisPlayerId x)) (str "Team") 1 ++ gameOption_int (str "Slots") (m_playerLimit x) ++ gameOption (str "MapDetails") mapDetails).
  assert (said u = said t) as Hsaid by (unfold said; by rewrite Hid, Hlimit).
  assert (before = touch (gl_reports u ++ said u) true true u) as ->.
  { unfold before, onHostGame. assert (onStartApplication w0 s = s <| m_autoStart := true |>) as -> by (unfold onStartApplication; rewrite Hs, Hr; done).
    unfold start_deferred. change (m_autoStart (set_game true ((s <| m_autoStart := true |>) <| m_mapName := mapName |>))) with true. cbv iota zeta.
    change (set_game true ((s <| m_autoStart := true |>) <| m_mapName := mapName |>)) with (touch (gl_reports t) (m_isHost t) true t).
    rewrite Ht, <- Hn. reflexivity. }
  assert (after = touch ((gl_reports t ++ said t) ++ new) true false u) as ->.
  { unfold after, onHostGame, start_deferred. change (m_autoStart (set_game true (s <| m_mapName := mapName |>))) with (m_autoStart s). rewrite Ha. cbv iota zeta. fold t.
    rewrite <- Ht. f_equal. fold (said t). unfold touch. rewrite <- Ha. reflexivity. }
  split; [|reflexivity]. change (gl_reports u ++ said u ≡ₚ (gl_reports t ++ said t) ++ new). rewrite Hn, Hsaid. solve_Permutation.
Qed.
End Order.
Lemma launch_order_witness :
  let w := ex_world (λ _, F_missing) in
  let before := onHostGame (H:=ex_qt) w (str "Red Hot Lava") (str "details") (onStartApplication (H:=ex_qt) w ex_named) in
  let after := onStartApplication (H:=ex_qt) w (onHostGame (H:=ex_qt) w (str "Red Hot Lava") (str "details") ex_named) in
  gl_reports before ≡ₚ gl_reports after ∧ m_launchClient before = m_launchClient after ∧ length (gl_reports after) = 7%nat ∧
  gl_signals before = [applicationStarted].
Proof.
  intros w before after. destruct (launch_order (H:=ex_qt) w w (str "Red Hot Lava") (str "details") ex_named) as [Hp Hb]; [reflexivity..|].
  split; [exact Hp|]. fold before in Hb. fold after in Hb. rewrite Hb. split; [reflexivity|]. split; vm_compute; reflexivity.
Defined.
