(* ===== verification/EngineeringNotation.v ===== *)
(** * Floating point numbers, and how amounts are shown (EngineeringNotation.cpp)

    A [double] is a binary64 number of the Standard Library's [SpecFloat], whose
    operations round as IEEE 754 does.  The logarithm and the power of the C library, and
    the formatting of numbers by Qt, are parameters. *)
From S2P Require Import Prelude GpgNetMessages QtText.
From Stdlib Require Import SpecFloat.
#[local] Open Scope Z_scope.

(** ** Doubles *)
Abbreviation double := spec_float.
Definition of_int (n : Z) : double := binary_normalize 53 1024 n 0 false.
Definition fadd : double → double → double := SFadd 53 1024.
Definition fsub : double → double → double := SFsub 53 1024.
Definition fmul : double → double → double := SFmul 53 1024.
Definition fdiv : double → double → double := SFdiv 53 1024.
(** the literal [n/d]: both are exact, so that the quotient is the nearest double *)
Definition literal (n d : Z) : double := fdiv (of_int n) (of_int d).
Definition flt (x y : double) : bool := SFltb x y.
Definition fge (x y : double) : bool := SFleb y x.
Definition fmax (x y : double) : double := if flt x y then y else x.
Definition fmin (x y : double) : double := if flt y x then y else x.
(** the integer part towards zero, and [floor] *)
Definition truncate (x : double) : option Z :=
  match x with
  | S754_zero _ => Some 0
  | S754_finite s m e =>
      let v := if 0 <=? e then Zpos m * 2 ^ e else Zpos m / 2 ^ (- e) in Some (if s then - v else v)
  | _ => None
  end.
Definition floor (x : double) : option Z :=
  match x with
  | S754_zero _ => Some 0
  | S754_finite s m e =>
      let m := if s then Zneg m else Zpos m in Some (if 0 <=? e then m * 2 ^ e else m / 2 ^ (- e))
  | _ => None
  end.
(** conversions to integers are undefined when the value does not fit *)
Definition to_range (lo hi : Z) (v : option Z) : res Z :=
  match v with Some v => if (lo <=? v) && (v <=? hi) then Ok v else Undef | None => Undef end.
Definition to_s32 (v : option Z) : res Z := to_range (- 2147483648) 2147483647 v.
Definition to_u32 (v : option Z) : res Z := to_range 0 4294967295 v.
(** [*(float* )p], converted to a double *)
Definition float_of_bits (w : Z) : double :=
  let s := Z.testbit w 31 in
  let e := (w / 2 ^ 23) mod 256 in
  let m := w mod 2 ^ 23 in
  if e =? 255 then (if m =? 0 then S754_infinity s else S754_nan)
  else
    let m := if e =? 0 then m else m + 2 ^ 23 in
    binary_normalize 53 1024 (if s then - m else m) (if e =? 0 then -149 else e - 150) s.

Example float_of_bits_ex : float_of_bits 1069547520 = literal 3 2.
Proof. vm_compute. reflexivity. Qed.
Example literal_ex : literal 5 1000 = S754_finite false 5764607523034235 (-60).
Proof. vm_compute. reflexivity. Qed.

(** ** Amounts *)

(** the C library's logarithm and power; [QString("%1").arg(x, 0, 'g', 2)] and
    [QString("%1").arg(x)] *)
Class Numbers := {
  log : double → double;
  pow : double → double → double;
  arg_g2 : double → bytes;
  arg_default : double → bytes }.

Definition dot : Z := 46.
Definition contains (c : Z) (s : bytes) : bool := existsb (Z.eqb c) s.
Definition replace_char (c d : Z) (s : bytes) : bytes := (λ x, if x =? c then d else x) <$> s.

Section Notation_.
Context `{Numbers}.

(** [while (s.contains('.') && ( *s.rbegin() == '0' || *s.rbegin() == '.')) s.chop(1)] *)
Fixpoint chop_zeros (fuel : nat) (s : bytes) : bytes :=
  match fuel with
  | O => s
  | S fuel =>
      if contains dot s && match last s with Some c => (c =? 48) || (c =? dot) | None => false end
      then chop_zeros fuel (removelast s) else s
  end.
Definition chop (s : bytes) : bytes := chop_zeros (length s) s.

Fixpoint _engineeringNotation (fuel : nat) (x : double) (k : Z) : res bytes :=
  match fuel with
  | O => Hang
  | S fuel =>
      if fge x (of_int (10 ^ 15)) then Ok (arg_g2 x)
      else if fge x (of_int (10 ^ 12)) then _engineeringNotation fuel (fdiv x (of_int (10 ^ 12))) 84
      else if fge x (of_int (10 ^ 9)) then _engineeringNotation fuel (fdiv x (of_int (10 ^ 9))) 71
      else if fge x (of_int (10 ^ 6)) then _engineeringNotation fuel (fdiv x (of_int (10 ^ 6))) 77
      else if fge x (of_int (10 ^ 3)) then _engineeringNotation fuel (fdiv x (of_int (10 ^ 3))) 107
      else if fge x (of_int 10) && (k =? 0) then n ← to_s32 (truncate x); Ok (number n)
      else if fge x (of_int 10) then s ← _engineeringNotation fuel x 0; Ok (s ++ [k])
      else if fge x (of_int 1) && (k =? 0) then Ok (chop (take 3 (arg_default x)))
      else if fge x (of_int 1) then
        s ← _engineeringNotation fuel x 0; Ok (if contains dot s then replace_char dot k s else s ++ [k])
      else if flt (of_int 0) x then Ok (chop (take 4 (arg_default x)))
      else if SFeqb x (of_int 0) then Ok [48]
      else s ← _engineeringNotation fuel (SFopp x) k; Ok (45 :: s)
  end.

(** [order] is the exponent of the decimal notation; the argument of [pow] is an [int] *)
Definition twoOrThreSigFigs (x : double) : res double :=
  if SFeqb x (of_int 0) then Ok (of_int 0)
  else
    order ← to_s32 (floor (fdiv (log x) (log (of_int 10))));
    let order := if Z.rem order 3 =? 2 then order - 2 else order - 1 in
    Ok (fadd x (fdiv (pow (of_int 10) (of_int order)) (of_int 2))).
Fixpoint drop_zeros (s : bytes) : bytes :=
  match s with
  | c :: ((_ :: _) as s') => if c =? 48 then drop_zeros s' else c :: s'
  | _ => s
  end.
(** numbers that are not [NaN] need at most six calls: a sign, a power of ten, a rounding
    to the next one, and a letter *)
Definition engineeringNotation (x : double) : res bytes :=
  y ← twoOrThreSigFigs x;
  s ← _engineeringNotation 8 y 0;
  Ok (drop_zeros (replace_char dot 44 s)).

(** [NaN] is none of the cases, and is negated for ever *)
Lemma engineeringNotation_nan k : ∀ fuel, _engineeringNotation fuel S754_nan k = Hang.
Proof. induction fuel as [|fuel IH]; [done|]. cbn. by rewrite IH. Qed.
End Notation_.
