(* ===== verification/Replayer.v ===== *)
(** * The replayer: its state, hosting, and reading the demo (TaReplayer.cpp)

    [Replayer] reads a demo while it arrives, and hosts a game in which the players of the
    demo play again, for the viewers who join.  ReplayerLobby and ReplayerPlay hold the
    later stages.  What DirectPlay answers comes from [incoming] or is an argument; what
    the replayer does is logged in [performed].  An [Environment] holds what uninitialised
    memory contains, and the values of [rand].  Only the keys of [m_demoPlayersById] are
    used, and the [dpId] of the player that is kept there, which is the key. *)
From S2P Require Import Prelude ExceptState OrderedMaps TPacketCrypt TPacketCompress TPacketSplit TPacketSmartpak TPacketRecords TADemoRecords TADemoParser GpgNetMessages QtText JDPlay EngineeringNotation.
From coqutil Require Import Datatypes.RecordSetters.
From stdpp Require Import pretty.
Export RecordSetters.TriangleBracketNotations.
Open Scope record_set.
#[local] Open Scope Z_scope.

Inductive ReplayState : Set := LOADING_DEMO_PLAYERS | LOBBY | LAUNCH | LOAD | PLAY | DONE.
Inductive DpPlayerState : Set :=
  START_SYNC | SEND_UNITS | WAIT_RECEIVE_UNITS | CHECK_ERRORS | SEND_ACKS | WAIT_ACKS | END_SYNC | WAIT_GO | LOADING | PLAYING.
Inductive WarnedWatcherState : Set := INITIAL | HAVE_WARNED | PROCEED_REGARDLESS.
#[export] Instance ReplayState_eq_dec : EqDecision ReplayState.
Proof. solve_decision. Defined.
#[export] Instance DpPlayerState_eq_dec : EqDecision DpPlayerState.
Proof. solve_decision. Defined.
#[export] Instance WarnedWatcherState_eq_dec : EqDecision WarnedWatcherState.
Proof. solve_decision. Defined.

Record DemoPlayer := mkDemoPlayer {
  dm_player : Player; dm_ordinalId : Z; dm_dpId : Z; dm_originalDpId : Z; dm_statusPacket : bytes; dm_ticks : Z;
  dm_cumulativeMetal : double; dm_cumulativeMetalShared : double;
  dm_cumulativeEnergy : double; dm_cumulativeEnergyShared : double }.
Record DpPlayer := mkDpPlayer {
  w_ordinalId : Z; w_dpid : Z; w_ticks : Z; w_statusPacket : bytes; w_state : DpPlayerState;
  w_unitSyncSendCount : Z; w_unitSyncNextUnit : Z; w_unitSyncErrorCount : Z; w_unitSyncAckCount : Z; w_unitSyncReceiveCount : Z;
  w_hasTaken : bool; w_warnedWatcherState : WarnedWatcherState }.
Record UnitInfo := mkUnitInfo { ui_id : Z; ui_crc : Z; ui_limit : Z; ui_inUse : bool }.
Definition UnitInfo_default : UnitInfo := mkUnitInfo 0 0 0 false.
(** [ordinalId] is not initialised *)
Definition DemoPlayer_make (junk : Z) (p : Player) : DemoPlayer :=
  mkDemoPlayer p junk 0 0 [] 0 (of_int 0) (of_int 0) (of_int 0) (of_int 0).
Definition DpPlayer_make (junk : Z) (dpid : Z) : DpPlayer :=
  mkDpPlayer junk dpid 0 [] START_SYNC 0 0 0 0 0 false INITIAL.

Definition SY_UNIT_ID : Z := 2455016279.      (* 0x92549357 *)
Definition NUM_PAKS_TO_PRELOAD : Z := 100.
Definition UNITS_SYNC_PER_TICK : nat := 100.
Definition BUFFER_SIZE : Z := 10000.

Inductive action : Type :=
  | Call (c : dp_call)
  | readyToJoin                            (* the signal *)
  | startTimer (ms : Z).

Record Replayer := mkReplayer {
  m_jdPlay : option JDPlay;
  m_tcpSeq : Z; m_wallClockTicks : Z; m_demoTicks : Z; m_targetTicks : Z;
  m_targetTicksFractional : double; m_playBackSpeed : double;
  m_state : ReplayState; m_isPaused : bool; m_tickLastUserPauseEvent : Z;
  m_launch : bool; m_nochat : bool; m_rateControl : double;
  m_dpIdsPrealloc : list Z;
  m_header : option Header;
  m_demoPlayers : list DemoPlayer;
  m_demoPlayersById : gset Z;
  m_dpPlayers : gmap Z DpPlayer;
  m_demoUnitInfo : gmap Z UnitInfo;
  m_demoUnitInfoLinear : list Z;           (* pointers into [m_demoUnitInfo] *)
  m_demoUnitsCrc : option Z;
  m_pendingGamePackets : list (Packet * list bytes);
  m_recentChatMessageCrcsExpireyQueue : list Z;
  m_recentChatMessageCrcsSet : gset Z;
  m_parser : DemoParser;                   (* the base class *)
  m_demoDataStream : bytes;                (* what has arrived and was not read *)
  m_streamRead : Z;                        (* how many bytes were read *)
  incoming : list received;                (* the next answers of [Receive] *)
  bytesReceived : Z;                       (* the local variable of [doLobby], [doLoad] and [doPlay] *)
  performed : list action;
  m_rands : nat }.                         (* how often [rand] was called *)

Record Environment := mkEnvironment {
  env_checks : Z * Z; env_byte : Z; env_ordinal : Z; env_unit : TUnitData; env_sizeof_ptr : nat; env_rand : nat → Z; env_new : Z }.

Abbreviation rp := (stx Replayer).

Definition Replayer_make (env : Environment) : Replayer :=
  mkReplayer None 4294967294 0 0 0 (of_int 0) (of_int 1) LOADING_DEMO_PLAYERS false 0 true false (of_int 1) [] None [] ∅ ∅ ∅ []
    None [] [] ∅ (DemoParser_init (env_new env)) [] 0 [] BUFFER_SIZE [startTimer 100] 0.
Definition setNoChat (option_ : bool) (s : Replayer) : Replayer := s <| m_nochat := option_ |>.

(** ** DirectPlay *)
Definition perform (a : action) (s : Replayer) : Replayer := s <| performed ::= (λ l, l ++ [a]) |>.
Definition on_jd {A} (m : jd A) : rp A := λ s,
  match m_jdPlay s with
  | Some j => let '(x, j) := m j in (x, s <| m_jdPlay := Some j |>)
  | None => (Undef, s)
  end.
Definition call (m : jd dp_call) : rp unit := on_jd m ≫= λ c, modify (perform (Call c)).
(** [m_jdPlay.reset()] *)
Definition reset_jdPlay : rp unit := λ s,
  match m_jdPlay s with
  | Some j => let '(x, _) := JDPlay_delete j in (x, s <| m_jdPlay := None |>)
  | None => (Ok tt, s)
  end.

Definition send (fromId toId : Z) (subpak : bytes) : rp unit :=
  seq ← gets m_tcpSeq;
  when (toId =? 0) (modify (λ s, s <| m_tcpSeq := u32 (seq - 1) |>)) ≫= λ _,
  let bs := trivialSmartpak subpak (if toId =? 0 then seq else 4294967295) in
  call (dpSend fromId toId 1 (encrypt bs)).
Definition sendUdp (fromId toId : Z) (subpak : bytes) : rp unit :=
  call (dpSend fromId toId 0 (encrypt (trivialSmartpak subpak 0))).
Definition say (fromId : Z) (text : bytes) : rp unit := sendUdp fromId 0 (createChatSubpacket text).

Definition getDemoPlayerByOriginalDpId (originalDpId : Z) (s : Replayer) : option nat :=
  fst <$> list_find (λ p, dm_originalDpId p = originalDpId) (m_demoPlayers s).
Definition upd_demo (i : nat) (f : DemoPlayer → DemoPlayer) (s : Replayer) : Replayer :=
  s <| m_demoPlayers ::= alter f i |>.
Definition upd_dp (id : Z) (f : DpPlayer → DpPlayer) (s : Replayer) : Replayer := s <| m_dpPlayers ::= alter f id |>.
(** [m_demoPlayers[0]]: there is none in an empty vector *)
Definition demo_player (i : nat) : rp DemoPlayer := λ s,
  (match m_demoPlayers s !! i with Some p => Ok p | None => Undef end, s).

(** ** hostGame *)
Record HostAnswers := mkHostAnswers {
  ho_junk : bool; ho_initialize : InitAnswers;
  ho_open : nat → Z;                       (* [Open] of each turn *)
  ho_create : nat → nat → Z }.             (* the players of each turn *)
Definition create_ids (a : HostAnswers) (m : nat) : rp unit :=
  for_each (seq 0 20) (λ n,
    call (dpCreatePlayer (str "dpIdPrealloc" ++ number (Z.of_nat n))) ≫= λ _,
    modify (λ s, s <| m_dpIdsPrealloc ::= (λ l, l ++ [ho_create a m n]) |>)).
Definition destroy_ids : rp unit :=
  ids ← gets m_dpIdsPrealloc;
  for_each (rev ids) (λ dpid, call (dpDestroyPlayer dpid)) ≫= λ _, modify (λ s, s <| m_dpIdsPrealloc := [] |>).
Fixpoint host_loop (rounds m : nat) (a : HostAnswers) : rp unit :=
  match rounds with
  | O => mret tt
  | S rounds =>
      ok ← on_jd (dpOpen 100 1753284736 4 655370 16974324 (ho_open a m));
      d ← on_jd (gets dpSessionDesc);
      modify (perform (Call (DP_Open d))) ≫= λ _,
      if negb ok then reset_jdPlay
      else
        create_ids a m ≫= λ _,
        ids ← gets m_dpIdsPrealloc;
        when (default 0 (last ids) <? default 0 (head ids)) (destroy_ids ≫= λ _, call dpClose) ≫= λ _,
        ids ← gets m_dpIdsPrealloc;
        if bool_decide (ids = []) then host_loop rounds (S m) a else mret tt
  end.
Definition hostGame (guid player ipaddr : bytes) (a : HostAnswers) : rp unit :=
  reset_jdPlay ≫= λ _,
  modify (λ s, s <| m_jdPlay := Some (JDPlay_make (c_str player) 3 (ho_junk a)) |>) ≫= λ _,
  ok ← on_jd (initialize guid ipaddr true 10 (ho_initialize a));
  if negb ok then reset_jdPlay else host_loop 100 0 a.

(** ** What the parser reports *)
Definition handle_player (env : Environment) (p : Player) (s : Replayer) : Replayer :=
  s <| m_demoPlayers ::= (λ l, l ++ [DemoPlayer_make (env_ordinal env) p]) |>.
Definition handle_status (msg : PlayerStatusMessage) (dplayid n : Z) : rp unit := λ s,
  if Z.of_nat (length (m_demoPlayers s)) <=? n then (Undef, s)
  else
    (Ok tt, upd_demo (Z.to_nat n) (λ p, p <| dm_ordinalId := n |> <| dm_originalDpId := dplayid |>
                                           <| dm_statusPacket := sm_statusMessage msg |>) s).
Definition processUnitData (t : TUnitData) (s : Replayer) : Replayer :=
  let info := at_key UnitInfo_default (m_demoUnitInfo s) (ud_id t) in
  if (ud_pktid t =? code_byte GIVE_UNIT_14) || (ud_pktid t =? code_byte TEAM_24) then s
  else if ud_sub t =? 3 then
    s <| m_demoUnitInfo ::= insert (ud_id t) (info <| ui_id := ud_id t |> <| ui_limit := ud_limit t |>
                                                    <| ui_inUse := ud_status t =? 257 |>) |>
  else if ud_sub t =? 2 then
    s <| m_demoUnitInfo ::= insert (ud_id t) (info <| ui_id := ud_id t |> <| ui_crc := ud_crc t |>) |>
  else if ud_id t =? 4294967295 then s <| m_demoUnitsCrc := Some (ud_fill t) |>
  else s.
(** the length is that of the first sub-packet, for all of them *)
Fixpoint unit_data_loop (fuel : nat) (data : bytes) (ptr : nat) (subpakLen : Z) : rp unit :=
  match fuel with
  | O => lift Hang
  | S fuel =>
      if (ptr <? length data)%nat && (0 <? subpakLen) then
        bs ← lift (rd_n data ptr (Z.to_nat subpakLen));
        t ← lift (TUnitData_parse bs);
        modify (processUnitData t) ≫= λ _,
        unit_data_loop fuel data (ptr + Z.to_nat subpakLen) subpakLen
      else mret tt
  end.
Definition SY_unit : UnitInfo := mkUnitInfo SY_UNIT_ID 0 100 true.
Definition units_in_use (m : gmap Z UnitInfo) : gmap Z UnitInfo :=
  <[SY_UNIT_ID := SY_unit]> (filter (λ kv, ui_inUse kv.2 = true) m).
Definition handle_unit_data (u : UnitData) : rp unit :=
  let data := un_unitData u in
  subpakLen ← lift (getExpectedSubPacketSize data);
  unit_data_loop (S (length data)) data 0 subpakLen ≫= λ _,
  modify (λ s, s <| m_demoUnitInfo ::= units_in_use |>) ≫= λ _,
  modify (λ s, s <| m_demoUnitInfoLinear ::= (λ l, l ++ sorted_keys (m_demoUnitInfo s)) |>).
Definition handle_packet (p : Packet) (unpaked : list bytes) (s : Replayer) : Replayer :=
  s <| m_pendingGamePackets ::= (λ l, l ++ [(p, unpaked)]) |>.

Definition on_event (env : Environment) (e : demo_event) : rp unit :=
  match e with
  | handle_Header h => modify (λ s, s <| m_header := Some h |>)
  | handle_ExtraSector _ _ _ => mret tt
  | handle_Player p n ofTotal => modify (handle_player env p)
  | handle_PlayerStatusMessage msg dplayid n ofTotal => handle_status msg dplayid n
  | handle_UnitData u => handle_unit_data u
  | handle_Packet p unpaked n => modify (handle_packet p unpaked)
  end.
Definition forget_events (p : DemoParser) : DemoParser :=
  mkDemoParser (m_recordReader p) (TADemoParser.m_header p) (m_extraHeader p) (m_numExtraSectorsRead p) (m_numPlayersRead p)
    (m_numPlayerStatusMessagesRead p) (m_numUnitDataRead p) (m_numPacketsRead p) (m_numTimesNewDataReceived p) [].
(** [this->parse(m_demoDataStream, NUM_PAKS_TO_PRELOAD)]: the parser calls the handlers *)
Definition parse_demo (env : Environment) : rp unit := λ s,
  let '(x, p, rest) := parse (env_checks env) NUM_PAKS_TO_PRELOAD (m_parser s) (m_demoDataStream s) in
  let s' := s <| m_parser := forget_events p |> <| m_demoDataStream := rest |>
              <| m_streamRead ::= Z.add (Z.of_nat (length (m_demoDataStream s) - length rest)) |> in
  (for_each (handled p) (on_event env) ≫= λ _, lift (_ ← x; Ok tt)) s'.

(** more of the demo arrives; more answers of DirectPlay *)
Definition demo_arrives (data : bytes) (s : Replayer) : Replayer := s <| m_demoDataStream ::= (λ d, d ++ data) |>.
Definition messages_arrive (l : list received) (s : Replayer) : Replayer := s <| incoming ::= (λ r, r ++ l) |>.
