(* ===== verification/ReplayerLobby.v ===== *)
(** * The replayer: lobby, launch and loading (TaReplayer.cpp)

    Viewers join the hosted game; the unit restrictions of the demo are synchronised with
    each of them; when all are ready the game is launched and loads. *)
From S2P Require Import Prelude ExceptState OrderedMaps TPacketCrypt TPacketCompress TPacketSplit TPacketSmartpak TPacketRecords TADemoRecords TADemoParser GpgNetMessages QtText JDPlay EngineeringNotation Replayer.
From coqutil Require Import Datatypes.RecordSetters.
#[local] Open Scope Z_scope.

Definition DPID_SYSMSG : Z := 0.
Definition DPSYS_CREATEPLAYERORGROUP : Z := 3.
Definition DPSYS_DESTROYPLAYERORGROUP : Z := 5.

(** ** Receiving *)
(** a message that is longer than the size that is passed in stays where it is; without a
    message the size is left alone *)
Definition next_answer (size : Z) (l : list received) : received * list received :=
  match l with
  | [] => (R_error size, [])
  | R_message from to data :: l' =>
      if size <? Z.of_nat (length data) then (R_error (Z.of_nat (length data)), l) else (R_message from to data, l')
  | a :: l' => (a, l')
  end.
(** the size is not set again between two calls *)
Definition receive : rp (option (Z * Z * bytes)) := λ s,
  let size := bytesReceived s in
  let '(answer, rest) := next_answer size (incoming s) in
  (r ← on_jd (dpReceive size answer); modify (λ s, s <| bytesReceived := r.2 |>) ≫= λ _, mret r.1) (s <| incoming := rest |>).
Definition declare_bytesReceived : rp unit := modify (λ s, s <| bytesReceived := BUFFER_SIZE |>).
(** [while (dpReceive(...)) body]: [true] when the body returns from the function *)
Fixpoint receive_loop (fuel : nat) (body : Z → Z → bytes → rp bool) : rp bool :=
  match fuel with
  | O => lift Hang
  | S fuel =>
      r ← receive;
      match r with
      | None => mret false
      | Some (from, to, payload) =>
          stop ← body from to payload; if (stop : bool) then mret true else receive_loop fuel body
      end
  end.
Definition receive_all (body : Z → Z → bytes → rp bool) : rp bool := λ s,
  receive_loop (S (length (incoming s))) body s.

(** decryption, decompression and unpacking, at the start of each handler; nothing when
    the checksum is wrong *)
Definition decode (env : Environment) (_payload : bytes) : res (list bytes) :=
  let '(payload, extracted, calculated) := decrypt _payload 0 (env_checks env).1 (env_checks env).2 in
  if negb (extracted =? calculated) then Ok []
  else
    b ← rd8 payload 0;
    payload ← (if b =? 4 then decompress payload 3 else Ok payload);
    unsmartpak payload true true.
(** sub-packets of an unknown or wrong size are skipped *)
Definition each_subpak (body : SubPacketCode → bytes → rp unit) (subpaks : list bytes) : rp unit :=
  for_each subpaks (λ s,
    expectedSize ← lift (getExpectedSubPacketSize s);
    if (expectedSize =? 0) || negb (Z.of_nat (length s) =? expectedSize) then mret tt
    else b ← lift (rd8 s 0); match SubPacketCode_of b with Some c => body c s | None => mret tt end).
Definition on_message (env : Environment) (body : SubPacketCode → bytes → rp unit) (payload : bytes) : rp unit :=
  subpaks ← lift (decode env payload); each_subpak body subpaks.

(** ** Loading the players of the demo *)
Definition by_original (p q : DemoPlayer) : Prop := dm_originalDpId p ≤ dm_originalDpId q.
Definition by_ordinal (p q : DemoPlayer) : Prop := dm_ordinalId p ≤ dm_ordinalId q.
#[export] Instance by_original_dec p q : Decision (by_original p q).
Proof. unfold by_original. apply _. Defined.
#[export] Instance by_ordinal_dec p q : Decision (by_ordinal p q).
Proof. unfold by_ordinal. apply _. Defined.
(** the [n]-th player gets the [n]-th identity *)
Fixpoint assign_ids (players : list DemoPlayer) (ids : list Z) : option (list DemoPlayer) :=
  match players, ids with
  | [], _ => Some []
  | p :: players, dpid :: ids => cons (p <| dm_dpId := dpid |>) <$> assign_ids players ids
  | _ :: _, [] => None
  end.
Definition onCompletedLoadingDemoPlayers : rp unit :=
  modify (λ s, s <| m_dpIdsPrealloc ::= merge_sort Z.le |> <| m_demoPlayers ::= merge_sort by_original |>) ≫= λ _,
  s ← gets id;
  match assign_ids (m_demoPlayers s) (m_dpIdsPrealloc s) with
  | None => lift Undef
  | Some players =>
      modify (λ s, s <| m_demoPlayers := players |> <| m_demoPlayersById ::= union (list_to_set (dm_dpId <$> players)) |>) ≫= λ _,
      for_each players (λ p, call (dpSetPlayerName (dm_dpId p) (pl_name (dm_player p)))) ≫= λ _,
      modify (λ s, s <| m_demoPlayers ::= merge_sort by_ordinal |>) ≫= λ _,
      for_each (rev (drop (length players) (m_dpIdsPrealloc s))) (λ dpid, call (dpDestroyPlayer dpid)) ≫= λ _,
      modify (λ s, s <| m_dpIdsPrealloc ::= take (length players) |>) ≫= λ _,
      call dpEnumPlayers
  end.

(** ** Messages in the lobby *)
Definition onLobbySystemMessage (env : Environment) (payload : bytes) : rp unit :=
  dwType ← lift (rd32 payload 0);
  if dwType =? DPSYS_CREATEPLAYERORGROUP then
    dpId ← lift (rd32 payload 8);
    modify (λ s, if bool_decide (dpId ∈ m_demoPlayersById s) then s
                 else s <| m_dpPlayers ::= insert dpId (DpPlayer_make (env_ordinal env) dpId) |>)
  else if dwType =? DPSYS_DESTROYPLAYERORGROUP then
    dpId ← lift (rd32 payload 8);
    modify (λ s, if bool_decide (dpId ∈ m_demoPlayersById s) then s else s <| m_dpPlayers ::= delete dpId |>)
  else mret tt.

Definition on_ping (env : Environment) (source other : Z) (s : bytes) : rp unit :=
  ping ← lift (TPing_parse s);
  n ← gets m_rands;
  modify (λ st, st <| m_rands := S n |>) ≫= λ _,
  let value := u32 (1000000 + u32 (env_rand env n) mod 1000000) in
  send other source (TPing_asSubPacket (mkTPing (ping_from ping) (ping_id ping) value)).
(** what a viewer reports about a unit *)
Definition on_unit_data (source : Z) (s : bytes) : rp unit :=
  w ← gets (λ st, m_dpPlayers st !! source);
  match w with
  | None => mret tt
  | Some _ =>
      t ← lift (TUnitData_parse s);
      if ud_sub t =? 2 then
        info ← gets (λ st, m_demoUnitInfo st !! ud_id t);
        match info with
        | Some info =>
            if negb (ui_crc info =? ud_crc t) && negb (ud_id t =? SY_UNIT_ID)
            then modify (upd_dp source (λ w, w <| w_unitSyncErrorCount ::= Z.succ |>))
            else modify (upd_dp source (λ w, w <| w_unitSyncAckCount ::= Z.succ |>))
        | None => mret tt
        end
      else if ud_sub t =? 4 then modify (upd_dp source (λ w, w <| w_unitSyncReceiveCount := ud_status t |>))
      else mret tt
  end.
Definition on_player_info (source : Z) (s : bytes) (st : Replayer) : Replayer :=
  if bool_decide (source ∈ m_demoPlayersById st) then st else upd_dp source (λ w, w <| w_statusPacket := s |>) st.
Definition onLobbyTaMessage (env : Environment) (source other : Z) (payload : bytes) : rp unit :=
  on_message env (λ c s,
    match c with
    | PING_02 => on_ping env source other s
    | UNIT_DATA_1A => on_unit_data source s
    | PLAYER_INFO_20 => modify (on_player_info source s)
    | _ => mret tt
    end) payload.

(** ** Synchronising the units *)
Definition sendPlayerInfos (env : Environment) : rp unit :=
  players ← gets m_demoPlayers;
  if (10 <? length players)%nat then lift Undef
  else
    host ← demo_player 0;
    let host := dm_dpId host in
    send host 0 (TIdent2_asSubPacket ((dm_dpId <$> players) ++ replicate (10 - length players) 0)) ≫= λ _,
    for_each (zip (seq 0 (length players)) players) (λ np,
      modify (upd_demo np.1 (λ p, p <| dm_ordinalId := Z.of_nat np.1 |>)) ≫= λ _,
      send host 0 (TIdent3_asSubPacket (mkTIdent3 (dm_dpId np.2) (u8 (Z.of_nat np.1))))) ≫= λ _,
    watchers ← gets (λ s, sorted_keys (m_dpPlayers s));
    for_each (zip (seq (length players) (length watchers)) watchers) (λ nw,
      modify (upd_dp nw.2 (λ w, w <| w_ordinalId := Z.of_nat nw.1 |>)) ≫= λ _,
      send host 0 (TIdent3_asSubPacket (mkTIdent3 nw.2 (u8 (Z.of_nat nw.1))))) ≫= λ _,
    for_each players (λ p,
      info ← lift (TPlayerInfo_parse (env_byte env) (dm_statusPacket p));
      send host 0 (TPlayerInfo_asSubPacket (setCheat true (setAllowWatch true (setInternalVersion 0 (setDpId (dm_dpId p) info)))))).

Definition get_dp (id : Z) : rp DpPlayer := λ s,
  (match m_dpPlayers s !! id with Some w => Ok w | None => Undef end, s).
(** [*m_demoUnitInfoLinear[n]] *)
Definition unit_info (n : Z) : rp UnitInfo := λ s,
  (match (if 0 <=? n then m_demoUnitInfoLinear s !! Z.to_nat n else None) ≫= λ k, m_demoUnitInfo s !! k with
   | Some i => Ok i | None => Undef end, s).
(** one unit is sent to a viewer: the number of units that were sent *)
Definition send_unit (host id : Z) : rp Z :=
  w ← get_dp id;
  info ← unit_info (w_unitSyncNextUnit w);
  send host id (TUnitData_asSubPacket (TUnitData_make (ui_id info) (ui_limit info) true)) ≫= λ _,
  modify (upd_dp id (λ w, w <| w_unitSyncNextUnit ::= Z.succ |> <| w_unitSyncSendCount ::= Z.succ |>)) ≫= λ _,
  mret (w_unitSyncNextUnit w + 1).
Definition send_count (id : Z) : rp bytes := w ← get_dp id; mret (number (w_unitSyncSendCount w)).
Fixpoint send_units_loop (n : nat) (host id : Z) : rp unit :=
  match n with
  | O => mret tt
  | S n =>
      next ← send_unit host id;
      size ← gets (λ s, Z.of_nat (length (m_demoUnitInfoLinear s)));
      if next =? size then
        sent ← send_count id;
        say host (str "*** Sent all units - " ++ sent) ≫= λ _,
        modify (upd_dp id (λ w, w <| w_unitSyncNextUnit := 0 |> <| w_state := WAIT_RECEIVE_UNITS |>))
      else send_units_loop n host id
  end.
(** this loop goes on after the last unit *)
Fixpoint send_acks_loop (n : nat) (host id : Z) : rp unit :=
  match n with
  | O => mret tt
  | S n =>
      next ← send_unit host id;
      size ← gets (λ s, Z.of_nat (size (m_demoUnitInfo s)));
      when (next =? size) (
        sent ← send_count id;
        say host (str "*** Sent ack on all units - " ++ sent) ≫= λ _,
        modify (upd_dp id (λ w, w <| w_unitSyncNextUnit := 0 |> <| w_state := WAIT_ACKS |>))) ≫= λ _,
      send_acks_loop n host id
  end.
Definition ack_status (w : DpPlayer) : bytes :=
  str "*** Current ack status: " ++ number (w_unitSyncReceiveCount w) ++ str " of " ++ number (w_unitSyncSendCount w).

(** [1] when the viewer is ready *)
Definition doSyncWatcher (env : Environment) (id : Z) : rp Z :=
  host ← demo_player 0;
  let host := dm_dpId host in
  w ← get_dp id;
  let upd f := modify (upd_dp id f) in
  match w_state w with
  | START_SYNC =>
      upd (λ w, w <| w_unitSyncNextUnit := 0 |> <| w_unitSyncSendCount := w_unitSyncReceiveCount w |>) ≫= λ _,
      send host id (createHostMigrationSubpacket (w_ordinalId w)) ≫= λ _,
      send host id (TUnitData_asSubPacket (TUnitData_default (env_sizeof_ptr env) (env_unit env))) ≫= λ _,
      upd (λ w, w <| w_unitSyncSendCount ::= Z.succ |> <| w_state := SEND_UNITS |>) ≫= λ _, mret 0
  | SEND_UNITS => send_units_loop UNITS_SYNC_PER_TICK host id ≫= λ _, mret 0
  | WAIT_RECEIVE_UNITS =>
      upd (λ w, w <| w_unitSyncNextUnit ::= Z.succ |>) ≫= λ _,
      (if w_unitSyncSendCount w <=? w_unitSyncReceiveCount w + 1 then
         upd (λ w, w <| w_unitSyncSendCount := w_unitSyncReceiveCount w |> <| w_state := CHECK_ERRORS |>)
       else if 10 <? w_unitSyncNextUnit w + 1 then
         say host (ack_status w) ≫= λ _,
         say host (str "*** Attempting resync") ≫= λ _,
         upd (λ w, w <| w_state := START_SYNC |>)
       else mret tt) ≫= λ _, mret 0
  | CHECK_ERRORS =>
      total ← gets (λ s, Z.of_nat (size (m_demoUnitInfo s)));
      when (negb (w_unitSyncErrorCount w =? 0))
        (say host (str "*** You have CRC errors on " ++ number (w_unitSyncErrorCount w) ++ str " units!")) ≫= λ _,
      when (w_unitSyncAckCount w <? total)
        (say host (str "*** You are missing " ++ number (total - w_unitSyncAckCount w) ++ str " of " ++ number total ++ str " units!")) ≫= λ _,
      upd (λ w, w <| w_state := SEND_ACKS |> <| w_unitSyncNextUnit := 0 |>) ≫= λ _, mret 0
  | SEND_ACKS => send_acks_loop UNITS_SYNC_PER_TICK host id ≫= λ _, mret 0
  | WAIT_ACKS =>
      upd (λ w, w <| w_unitSyncNextUnit ::= Z.succ |>) ≫= λ _,
      (if w_unitSyncReceiveCount w =? w_unitSyncSendCount w then upd (λ w, w <| w_state := END_SYNC |>)
       else if 30 <? w_unitSyncNextUnit w + 1 then
         say host (ack_status w) ≫= λ _,
         say host (str "*** Attempting resync 2") ≫= λ _,
         total ← gets (λ s, Z.of_nat (size (m_demoUnitInfo s)));
         upd (λ w, w <| w_state := SEND_ACKS |> <| w_unitSyncSendCount := total + 1 |>)
       else mret tt) ≫= λ _, mret 0
  | END_SYNC =>
      say host (str "*** Unit sync is complete") ≫= λ _,
      upd (λ w, w <| w_state := WAIT_GO |>) ≫= λ _, mret 0
  | WAIT_GO =>
      info ← lift (TPlayerInfo_parse (env_byte env) (w_statusPacket w));
      if isClickedIn info && (negb (isWatcher info) || bool_decide (w_warnedWatcherState w = PROCEED_REGARDLESS)) then mret 1
      else if isClickedIn info && bool_decide (w_warnedWatcherState w = INITIAL) then
        upd (λ w, w <| w_warnedWatcherState := HAVE_WARNED |>) ≫= λ _,
        say host (str "Please join as a regular player, not as a watcher") ≫= λ _,
        say host (str "(or green-off / green-on again to proceed as watcher)") ≫= λ _, mret 0
      else if negb (isClickedIn info) && bool_decide (w_warnedWatcherState w = HAVE_WARNED) then
        upd (λ w, w <| w_warnedWatcherState := PROCEED_REGARDLESS |>) ≫= λ _, mret 0
      else mret 0
  | LOADING | PLAYING => mret 0
  end.
Fixpoint sync_watchers (env : Environment) (ids : list Z) : rp Z :=
  match ids with
  | [] => mret 0
  | id :: ids => n ← doSyncWatcher env id; m ← sync_watchers env ids; mret (n + m)
  end.

(** ** The stages *)

(** a system message to the first player ends the call *)
Definition lobby_message (env : Environment) (from to : Z) (payload : bytes) : rp bool :=
  system ← (if from =? DPID_SYSMSG then host ← demo_player 0; mret (to =? dm_dpId host) else mret false);
  if (system : bool) then onLobbySystemMessage env payload ≫= λ _, mret true
  else onLobbyTaMessage env from to payload ≫= λ _, mret false.
Definition doLobby (env : Environment) : rp bool :=
  declare_bytesReceived ≫= λ _,
  returned ← receive_all (lobby_message env);
  if (returned : bool) then mret false
  else
    ticks ← gets m_wallClockTicks;
    goCount ← (if ticks mod 10 =? 0 then
                 sendPlayerInfos env ≫= λ _, ids ← gets (λ s, sorted_keys (m_dpPlayers s)); sync_watchers env ids
               else mret 0);
    watchers ← gets m_dpPlayers;
    let launch := negb (bool_decide (watchers = ∅)) && (goCount =? Z.of_nat (size watchers)) in
    players ← gets m_demoPlayers;
    when launch (
      for_each players (λ p,
        info ← lift (TPlayerInfo_parse (env_byte env) (dm_statusPacket p));
        send (dm_dpId p) 0 (TPlayerInfo_asSubPacket (setCheat true (setPermLos true (setAllowWatch true (setDpId (dm_dpId p) info))))))) ≫= λ _,
    mret launch.

Definition replayer_user1 (user1 : Z) : Z := Z.lor (Z.land user1 4278255615) 3276800.
Definition replayerServerMsg : bytes := [code_byte REPLAYER_SERVER_FA; 6].
Definition loadingStartedMsg : bytes := [code_byte LOADING_STARTED_08; 6].
(** [session]: the description that DirectPlay gives *)
Definition doLaunch (session : DPSESSIONDESC2) : rp unit :=
  players ← gets m_demoPlayers;
  for_each players (λ p,
    host ← demo_player 0;
    send (dm_dpId host) 0 (TIdent3_asSubPacket (mkTIdent3 (dm_dpId p) (u8 (dm_ordinalId p))))) ≫= λ _,
  watchers ← gets (λ s, sorted_keys (m_dpPlayers s));
  for_each watchers (λ id,
    host ← demo_player 0;
    w ← get_dp id;
    send (dm_dpId host) 0 (TIdent3_asSubPacket (mkTIdent3 id (u8 (w_ordinalId w)))) ≫= λ _,
    modify (upd_dp id (λ w, w <| w_state := LOADING |>))) ≫= λ _,
  users ← on_jd (dpGetSession session);
  let '(user1, user2, user3, user4) := users in
  d ← on_jd (dpSetSession (replayer_user1 user1) user2 user3 user4);
  modify (perform (Call (DP_SetSessionDesc d))) ≫= λ _,
  host ← demo_player 0;
  send (dm_dpId host) 0 replayerServerMsg ≫= λ _,
  send (dm_dpId host) 0 loadingStartedMsg.

Definition onLoadingTaMessage (env : Environment) (source : Z) (payload : bytes) : rp unit :=
  on_message env (λ c _,
    match c with
    | UNIT_STAT_AND_MOVE_2C | START_15 => modify (upd_dp source (λ w, w <| w_state := PLAYING |>))
    | _ => mret tt
    end) payload.
Definition loading_message (env : Environment) (from to : Z) (payload : bytes) : rp bool :=
  demo ← gets (λ s, bool_decide (from ∈ m_demoPlayersById s));
  when (negb demo) (onLoadingTaMessage env from payload) ≫= λ _, mret false.
Definition doLoad (env : Environment) : rp bool :=
  declare_bytesReceived ≫= λ _,
  receive_all (loading_message env) ≫= λ _,
  ticks ← gets m_wallClockTicks;
  players ← gets m_demoPlayers;
  watchers ← gets (λ s, sorted_keys (m_dpPlayers s));
  when (ticks mod 10 =? 0) (
    let percent := if 20 <? ticks then 100 else ticks * 5 in
    for_each players (λ p, send (dm_dpId p) 0 (TProgress_asSubPacket (TProgress_make percent)))) ≫= λ _,
  when ((ticks mod 10 =? 0) && (20 <=? ticks)) (
    for_each players (λ p, send (dm_dpId p) 0 [code_byte START_15]) ≫= λ _,
    for_each watchers (λ id,
      host ← demo_player 0;
      w ← get_dp id;
      send (dm_dpId host) id [code_byte START_1E; u8 (1 + w_ordinalId w)])) ≫= λ _,
  gets (λ s, (20 <=? ticks) && forallb (λ kw, bool_decide (w_state kw.2 = PLAYING)) (map_to_list (m_dpPlayers s))).
