(* ===== verification/ReplayerPlay.v ===== *)
(** * The replayer: playing the demo (TaReplayer.cpp)

    The packets of the demo are sent in the names of the demo's players, at the pace of
    the viewers' games, and the clock of the replayer drives the rest. *)
From S2P Require Import Prelude ExceptState OrderedMaps TPacketCrypt TPacketCompress TPacketSplit TPacketSmartpak TPacketRecords DuplicateDetection TADemoRecords TADemoParser GpgNetMessages QtText JDPlay EngineeringNotation Replayer ReplayerLobby.
From coqutil Require Import Datatypes.RecordSetters.
From Stdlib Require Import SpecFloat.
From stdpp Require Import pretty.
#[local] Open Scope Z_scope.

(** ** Feeding the moves of a packet *)

(** the last player with that number *)
Definition find_sender (number : Z) (s : Replayer) : option nat :=
  foldl (λ r ip, if pl_number (dm_player ip.2) =? number then Some ip.1 else r) None
    (zip (seq 0 (length (m_demoPlayers s))) (m_demoPlayers s)).
Definition CHAT_WINDOW : nat := 16.
Fixpoint chat_expire (queue : list Z) (set_ : gset Z) : list Z * gset Z :=
  match queue with
  | crc :: queue' => if (CHAT_WINDOW <? length queue)%nat then chat_expire queue' (set_ ∖ {[crc]}) else (queue, set_)
  | [] => (queue, set_)
  end.
(** is the message new, and the messages that are remembered *)
Definition chat_step (crc : Z) (queue : list Z) (set_ : gset Z) : bool * (list Z * gset Z) :=
  (bool_decide (crc ∉ set_), chat_expire (queue ++ [crc]) (set_ ∪ {[crc]})).
Definition play_chat (move : bytes) : rp bytes :=
  message ← lift (rd_n move 0 65);
  s ← gets id;
  let crc := CRC32.FullCRC CRC32.Initialize message in
  let '(isNew, (queue, set_)) := chat_step crc (m_recentChatMessageCrcsExpireyQueue s) (m_recentChatMessageCrcsSet s) in
  modify (λ s, s <| m_recentChatMessageCrcsExpireyQueue := queue |> <| m_recentChatMessageCrcsSet := set_ |>) ≫= λ _,
  mret (if negb (m_nochat s) && isNew then move else []).

Definition sender_player (sender : nat) : rp DemoPlayer := demo_player sender.
Definition name_of (p : DemoPlayer) : bytes := pl_name (dm_player p).
Definition showpos (n : Z) : bytes := if 0 <=? n then 43 :: number n else number n.
Definition play_speed (sender : nat) (move : bytes) : rp bytes :=
  b1 ← lift (rd8 move 1); b2 ← lift (rd8 move 2);
  p ← sender_player sender;
  say (dm_dpId p)
    (if (b1 =? 0) && (b2 =? 1) then name_of p ++ str " paused the game"
     else if b1 =? 0 then name_of p ++ str " unpaused the game"
     else name_of p ++ str " set speed to " ++ showpos (b2 - 10)) ≫= λ _, mret [].
Definition play_reject (sender : nat) (move : bytes) : rp bytes :=
  originalDpId ← lift (rd32 move 1);
  rejectee ← gets (λ s, getDemoPlayerByOriginalDpId originalDpId s ≫= λ i, m_demoPlayers s !! i);
  p ← sender_player sender;
  match rejectee with
  | Some r => say (dm_dpId p) (name_of p ++ str " rejected " ++ name_of r)
  | None => mret tt
  end ≫= λ _, mret move.
(** the clock follows the most lagged of the players who are making progress *)
Definition most_lagged (ticks demoTicks : Z) (players : list DemoPlayer) : Z :=
  foldl (λ t p, if demoTicks <? dm_ticks p then Z.min t (dm_ticks p) else t) ticks players.
Definition play_move_ticks (sender : nat) (move : bytes) : rp bytes :=
  ticks ← lift (rd32 move 3);
  modify (upd_demo sender (λ p, p <| dm_ticks := ticks |>)) ≫= λ _,
  modify (λ s, s <| m_demoTicks := most_lagged ticks (m_demoTicks s) (m_demoPlayers s) |>) ≫= λ _,
  mret move.
(** the text is only made, and dropped; when the move is too short to have one, the
    constructor of the string throws *)
Definition play_ally_chat (move : bytes) : rp bytes :=
  lift (_ ← rd32 move 1; if (length move <? 9)%nat then Throw LengthError else Ok []).
Definition play_resources (sender : nat) (move : bytes) : rp bytes :=
  metal ← lift (rd32 move 46); energy ← lift (rd32 move 34);
  modify (upd_demo sender (λ p, p <| dm_cumulativeMetal := float_of_bits metal |> <| dm_cumulativeEnergy := float_of_bits energy |>)) ≫= λ _,
  mret move.
Definition play_share (move : bytes) : rp bytes :=
  originalDpId ← lift (rd32 move 9);
  benefactor ← gets (getDemoPlayerByOriginalDpId originalDpId);
  match benefactor with
  | Some i =>
      amount ← lift (rd32 move 13); type ← lift (rd8 move 1);
      let amount := float_of_bits amount in
      modify (upd_demo i (λ p, if type =? 2 then p <| dm_cumulativeMetalShared ::= (λ x, fadd x amount) |>
                               else p <| dm_cumulativeEnergyShared ::= (λ x, fadd x amount) |>))
  | None => mret tt
  end ≫= λ _, mret move.
(** what of a move is fed to the viewers *)
Definition play_move (sender : nat) (move : bytes) : rp bytes :=
  b ← lift (rd8 move 0);
  match SubPacketCode_of b with
  | Some CHAT_05 => play_chat move
  | Some GIVE_UNIT_14 => mret []
  | Some SPEED_19 => play_speed sender move
  | Some REJECT_1B => play_reject sender move
  | Some UNIT_STAT_AND_MOVE_2C => play_move_ticks sender move
  | Some ALLY_CHAT_F9 => play_ally_chat move
  | Some PLAYER_RESOURCE_INFO_28 => play_resources sender move
  | Some SHARE_RESOURCES_16 => play_share move
  | _ => mret move
  end.
Fixpoint play_moves (sender : nat) (moves : list bytes) (filteredMoves : bytes) : rp bytes :=
  match moves with
  | [] => mret filteredMoves
  | move :: moves => m ← play_move sender move; play_moves sender moves (filteredMoves ++ m)
  end.
Definition play_packet (packet : Packet) (moves : list bytes) : rp unit :=
  sender ← gets (find_sender (pk_sender packet));
  match sender with
  | None => mret tt
  | Some i =>
      filteredMoves ← play_moves i moves [];
      p ← sender_player i;
      when (0 <? Z.of_nat (length filteredMoves)) (sendUdp (dm_dpId p) 0 filteredMoves)
  end.

(** ** Messages of the viewers' games *)

(** [*(std::uint16_t* )&bs[i] = x] *)
Definition store16 (i : nat) (x : Z) (bs : bytes) : bytes := <[i := u8 x]> (<[S i := u8 (x / 256)]> bs).
Definition store32 (i : nat) (x : Z) (bs : bytes) : bytes := store16 i x (store16 (i + 2) (x / 65536) bs).
Definition startBuildSonar : bytes :=
  [9; 70; 0; 49; 50; 0; 0; 80; 0; 0; 0; 2; 0; 0; 0; 144; 0; 0; 0; 233; 116; 0; 0].
Definition finishBuildSonar : bytes := [17; 5; 0; 1].
Definition giveSonar : bytes :=
  [20; 49; 50; 51; 52; 53; 54; 0; 0; 0; 0; 70; 1; 0; 0; 0; 0; 100; 126; 0; 0; 0; 0; 0].
(** the header is there once the demo plays; the unit is that of the player with the lowest identity *)
Definition createSonar (receivingDpId number : Z) : rp unit :=
  s ← gets id;
  match m_header s, head (merge_sort Z.le (elements (m_demoPlayersById s))) with
  | Some h, Some benefactor =>
      let unitNumber := u16 (hd_maxUnits h - 1) in
      send benefactor 0 (store16 7 (u16 (number * 160 + 80)) (store16 3 unitNumber (store16 1 (Z.of_nat (size (m_demoUnitInfo s))) startBuildSonar))) ≫= λ _,
      send benefactor 0 (store16 1 unitNumber finishBuildSonar) ≫= λ _,
      send benefactor 0 (store32 3 receivingDpId (store16 1 unitNumber giveSonar))
  | _, _ => lift Undef
  end.

(** [std::setw(15)] *)
Definition setw (n : nat) (s : bytes) : bytes := replicate (n - length s) 32 ++ s.
Section Chat.
Context `{Numbers}.
Definition total_text (p : DemoPlayer) : res bytes :=
  metalProduced ← engineeringNotation (fsub (dm_cumulativeMetal p) (dm_cumulativeMetalShared p));
  energyProduced ← engineeringNotation (fsub (dm_cumulativeEnergy p) (dm_cumulativeEnergyShared p));
  metalShared ← engineeringNotation (dm_cumulativeMetalShared p);
  Ok (setw 15 (name_of p) ++ str " Metal: " ++ metalProduced ++ str " Energy: " ++ energyProduced ++ str " Shared M: " ++ metalShared).
(** the parser has cleared the flags of the stream *)
Definition position_text (s : Replayer) : res bytes :=
  let pos := m_streamRead s in
  let size_ := m_streamRead s + Z.of_nat (length (m_demoDataStream s)) in
  percent ← to_s32 (truncate (fdiv (fmul (of_int 100) (of_int pos)) (of_int size_)));
  Ok (number percent ++ str "% of " ++ number (size_ / 1000) ++ str "KB").
Definition on_chat (other : Z) (s : bytes) : rp unit :=
  if find_text (str "> .total") (tail s) then
    players ← gets m_demoPlayers;
    for_each players (λ p, text ← lift (total_text p); say (dm_dpId p) text)
  else if find_text (str "> .pos") (tail s) then
    st ← gets id;
    text ← lift (position_text st);
    say other text
  else mret tt.

Definition speed_of (b : Z) : double :=
  if b =? 19 then literal 424 100 else if b =? 20 then of_int 10 else fdiv (of_int b) (of_int 10).
Definition on_speed (b1 b2 : Z) (s : Replayer) : Replayer :=
  if b1 =? 0 then s <| m_isPaused := (b2 =? 1) |> <| m_tickLastUserPauseEvent := m_wallClockTicks s |>
  else s <| m_playBackSpeed := speed_of b2 |>.
(** the first time that a viewer's game gets to 100 ticks *)
Definition on_ticks (source ticks : Z) : rp unit :=
  w ← gets (λ s, m_dpPlayers s !! source);
  match w with
  | Some w =>
      players ← gets m_demoPlayers;
      when ((100 <=? ticks) && (w_ticks w <? 100))
        (createSonar source (u32 (w_ordinalId w - Z.of_nat (length players)))) ≫= λ _,
      modify (upd_dp source (λ w, w <| w_ticks := ticks |>))
  | None => mret tt
  end.
Definition onPlayingTaMessage (env : Environment) (source other : Z) (payload : bytes) : rp unit :=
  on_message env (λ c s,
    match c with
    | CHAT_05 => on_chat other s
    | SPEED_19 => b1 ← lift (rd8 s 1); b2 ← lift (rd8 s 2); modify (on_speed b1 b2)
    | UNIT_STAT_AND_MOVE_2C => ticks ← lift (rd32 s 3); on_ticks source ticks
    | _ => mret tt
    end) payload.
Definition playing_message (env : Environment) (from to : Z) (payload : bytes) : rp bool :=
  host ← demo_player 0;
  demo ← gets (λ s, bool_decide (from ∈ m_demoPlayersById s));
  when ((to =? dm_dpId host) && negb demo) (onPlayingTaMessage env from to payload) ≫= λ _, mret false.

(** ** doPlay *)
Definition preload (env : Environment) : rp unit :=
  n ← gets (λ s, Z.of_nat (length (m_pendingGamePackets s)));
  when (n <? NUM_PAKS_TO_PRELOAD) (parse_demo env).
Definition control_rate (s : Replayer) : Replayer :=
  let step := literal 5 1000 in
  let rate := fadd (m_rateControl s) (if Z.of_nat (length (m_pendingGamePackets s)) <? 25 then SFopp step else step) in
  s <| m_rateControl := fmin (fmax rate (literal 1 2)) (of_int 1) |>.
(** [std::int32_t(m_targetTicks - m_demoTicks) <= 0] *)
Definition target_reached (s : Replayer) : bool := s32 (m_targetTicks s - m_demoTicks s) <=? 0.
Definition set_target (s : Replayer) : res Replayer :=
  let dpTicks := foldr (λ kw t, Z.max t (w_ticks kw.2)) 0 (map_to_list (m_dpPlayers s)) in
  if negb (m_isPaused s) && (negb (bool_decide (m_pendingGamePackets s = [])) || target_reached s) then
    if m_wallClockTicks s <? 100 then
      Ok (s <| m_targetTicks := u32 (dpTicks + 1) |> <| m_targetTicksFractional := of_int 0 |>)
    else
      let fractional := fadd (m_targetTicksFractional s) (fmul (fmul (m_rateControl s) (m_playBackSpeed s)) (of_int 1)) in
      target ← to_u32 (truncate (fadd (of_int (m_targetTicks s)) fractional));
      whole ← to_u32 (truncate fractional);
      Ok (s <| m_targetTicks := target |> <| m_targetTicksFractional := fsub fractional (of_int whole) |>)
  else Ok s.
Definition advance_target : rp unit := λ s,
  match set_target s with Ok s' => (Ok tt, s') | Throw e => (Throw e, s) | Undef => (Undef, s) | Hang => (Hang, s) end.
Fixpoint play_loop (fuel : nat) (env : Environment) : rp unit :=
  match fuel with
  | O => lift Hang
  | S fuel =>
      receive_all (playing_message env) ≫= λ _,
      preload env ≫= λ _,
      s ← gets id;
      if m_isPaused s || target_reached s then mret tt
      else
        match m_pendingGamePackets s with
        | [] => mret tt
        | (packet, moves) :: _ =>
            play_packet packet moves ≫= λ _,
            modify (λ s, s <| m_pendingGamePackets ::= tail |>) ≫= λ _,
            play_loop fuel env
        end
  end.
(** every turn of the loop plays a packet: there are those that wait, and at most one for
    each byte of the stream *)
Definition play_all (env : Environment) : rp unit := λ s,
  play_loop (S (length (m_pendingGamePackets s) + length (m_demoDataStream s))) env s.
Definition doPlay (env : Environment) : rp bool :=
  declare_bytesReceived ≫= λ _,
  preload env ≫= λ _,
  modify control_rate ≫= λ _,
  advance_target ≫= λ _,
  play_all env ≫= λ _,
  mret false.

(** ** The clock *)
Definition set_state (x : ReplayState) (s : Replayer) : Replayer := s <| m_state := x |>.
Definition reset_clock (s : Replayer) : Replayer := s <| m_wallClockTicks := 0 |>.
(** the players of the demo are complete *)
Definition players_loaded (s : Replayer) : bool :=
  negb (bool_decide (m_pendingGamePackets s = [])) &&
  match last (m_demoPlayers s) with Some p => negb (dm_originalDpId p =? 0) | None => false end.
Definition load_stage (env : Environment) : rp unit :=
  loaded ← doLoad env;
  when loaded (modify (set_state PLAY) ≫= λ _, modify reset_clock ≫= λ _, modify (perform (startTimer 33))).
Definition stage (env : Environment) (session : DPSESSIONDESC2) : rp unit :=
  st ← gets m_state;
  match st with
  | LOADING_DEMO_PLAYERS =>
      loaded ← gets players_loaded;
      when loaded (onCompletedLoadingDemoPlayers ≫= λ _, modify (set_state LOBBY) ≫= λ _, modify reset_clock)
  | LOBBY =>
      launch ← gets m_launch;
      when launch (modify (λ s, s <| m_launch := false |>) ≫= λ _, modify (perform readyToJoin)) ≫= λ _,
      go ← doLobby env;
      when go (modify (set_state LAUNCH))
  | LAUNCH =>
      doLaunch session ≫= λ _, modify (set_state LOAD) ≫= λ _, modify reset_clock ≫= λ _, load_stage env
  | LOAD => load_stage env
  | PLAY => over ← doPlay env; when over (modify (set_state DONE))
  | DONE => mret tt
  end.
Definition tick (env : Environment) (session : DPSESSIONDESC2) : rp unit :=
  modify (λ s, s <| m_wallClockTicks ::= (λ n, u32 (n + 1)) |>) ≫= λ _,
  s ← gets id;
  when (negb (bool_decide (m_state s = PLAY)) && negb (bool_decide (m_state s = DONE)) && bool_decide (m_pendingGamePackets s = []))
    (parse_demo env) ≫= λ _,
  stage env session.
(** exceptions end in the log *)
Definition timerEvent (env : Environment) (session : DPSESSIONDESC2) : rp unit := λ s,
  match tick env session s with (Throw _, s) => (Ok tt, s) | r => r end.
End Chat.
