(* ===== verification/ReplayerFacts.v ===== *)
(** * Theorems on the replayer

    The players of the demo get identities in the order that they had; the stages of a
    replay only go forward; chat messages are only left out when they were just shown. *)
From S2P Require Import Prelude ExceptState OrderedMaps TPacketCrypt TPacketCompress TPacketSplit TPacketSmartpak TPacketRecords DuplicateDetection TADemoRecords TADemoParser TADemoEnds GpgNetMessages QtText JDPlay EngineeringNotation Replayer ReplayerLobby ReplayerPlay.
From coqutil Require Import Datatypes.RecordSetters.
#[local] Open Scope Z_scope.

(** ** Calls of DirectPlay *)
Definition connected (s : Replayer) : Prop := ∃ j, m_jdPlay s = Some j ∧ lpDP j = Live.

Lemma call_ok (m : jd dp_call) c s : connected s → (∀ j, lpDP j = Live → m j = (Ok c, j)) →
  call m s = (Ok tt, perform (Call c) s).
Proof.
  intros (j & Ej & Hj) Hm. unfold call. erewrite stx_bind_ok; [reflexivity|]. unfold on_jd. rewrite Ej, Hm by done.
  destruct s. cbn in *. by rewrite Ej.
Qed.
Lemma forwards_ok (c : dp_call) : ∀ j, lpDP j = Live → (deref lpDP ≫= λ _, mret c : jd dp_call) j = (Ok c, j).
Proof. intros j Hj. unfold mbind, stx_bind, deref. by rewrite decide_True by done. Qed.
Lemma perform_all {A} (f : A → action) l s : foldl (λ s a, perform (f a) s) s l = s <| performed ::= (λ p, p ++ (f <$> l)) |>.
Proof.
  revert s. induction l as [|a l IH]; intros s; cbn [foldl fmap list_fmap].
  - destruct s. cbn. by rewrite app_nil_r.
  - rewrite IH. destruct s. cbn. by rewrite <- (assoc_L (++)).
Qed.
Lemma for_each_call {A} (l : list A) (m : A → jd dp_call) (c : A → dp_call) s : connected s →
  (∀ a j, a ∈ l → lpDP j = Live → m a j = (Ok (c a), j)) →
  for_each l (λ a, call (m a)) s = (Ok tt, s <| performed ::= (λ p, p ++ ((λ a, Call (c a)) <$> l)) |>).
Proof.
  intros Hs Hm. rewrite <- perform_all.
  apply (for_each_ok l _ (λ a s, perform (Call (c a)) s) connected); [done|].
  intros a s' Ha Hs'. split; [|done]. apply call_ok; [done|]. intros j Hj. by apply Hm.
Qed.

(** ** The players of the demo *)
Lemma assign_ids_some players : ∀ ids, (length players ≤ length ids)%nat →
  assign_ids players ids = Some (zip_with (λ p dpid, p <| dm_dpId := dpid |>) players ids).
Proof.
  induction players as [|p players IH]; intros [|dpid ids] Hl; cbn [length] in Hl; try done; [lia|].
  cbn [assign_ids zip_with]. by rewrite IH by lia.
Qed.
Lemma sorted_lookup_le (l : list Z) i j x y : StronglySorted Z.le l → l !! i = Some x → l !! j = Some y → (i ≤ j)%nat → x ≤ y.
Proof.
  intros Hl. revert i j. induction Hl as [|z l Hl IH Hz]; intros i j Hi Hj Hij; [done|].
  destruct i as [|i], j as [|j]; cbn in Hi, Hj; try lia.
  - injection Hi as ->. injection Hj as ->. lia.
  - injection Hi as ->. rewrite Forall_forall in Hz. apply Hz. by eapply list_elem_of_lookup_2.
  - apply (IH i j); [done..|lia].
Qed.
(** in a sorted list without repetitions the positions are ordered as the elements are *)
Lemma sorted_lt_iff (l : list Z) i j x y : StronglySorted Z.le l → NoDup l → l !! i = Some x → l !! j = Some y → (x < y ↔ (i < j)%nat).
Proof.
  intros Hl Hn Hi Hj. split; intros H.
  - destruct (decide (i < j)%nat); [done|]. pose proof (sorted_lookup_le l j i y x Hl Hj Hi). lia.
  - pose proof (sorted_lookup_le l i j x y Hl Hi Hj ltac:(lia)). assert (x ≠ y); [|lia].
    intros ->. pose proof (NoDup_lookup _ _ _ _ Hn Hi Hj). lia.
Qed.
#[export] Instance by_original_total : Total by_original.
Proof. intros p q. unfold by_original. lia. Qed.
#[export] Instance by_original_trans : Transitive by_original.
Proof. intros p q r. unfold by_original. lia. Qed.
#[export] Instance by_ordinal_total : Total by_ordinal.
Proof. intros p q. unfold by_ordinal. lia. Qed.

Definition unassigned (p : DemoPlayer) : DemoPlayer := p <| dm_dpId := 0 |>.
Definition assign (players : list DemoPlayer) (ids : list Z) : list DemoPlayer :=
  zip_with (λ p dpid, p <| dm_dpId := dpid |>) players ids.
Section Assign.
Context (players : list DemoPlayer) (ids : list Z) (Hlen : (length players ≤ length ids)%nat).
Lemma assign_unassigned : unassigned <$> assign players ids = unassigned <$> players.
Proof using Hlen.
  clear -Hlen. revert ids Hlen. induction players as [|p ps IH]; intros [|d ds] Hlen; cbn [length] in Hlen; [done..|lia|].
  cbn. f_equal. apply IH. lia.
Qed.
Lemma assign_ids_of : dm_dpId <$> assign players ids = take (length players) ids.
Proof using Hlen.
  clear -Hlen. revert ids Hlen. induction players as [|p ps IH]; intros [|d ds] Hlen; cbn [length] in Hlen; [done..|lia|].
  cbn. f_equal. apply IH. lia.
Qed.
Lemma assign_order p q : StronglySorted Z.le (dm_originalDpId <$> players) → StronglySorted Z.le ids →
  NoDup (dm_originalDpId <$> players) → NoDup ids → p ∈ assign players ids → q ∈ assign players ids →
  (dm_dpId p < dm_dpId q ↔ dm_originalDpId p < dm_originalDpId q).
Proof using.
  intros Hp Hi Np Ni (i & Ei)%list_elem_of_lookup (j & Ej)%list_elem_of_lookup.
  apply lookup_zip_with_Some in Ei as (p' & x & -> & Ep & Ex). apply lookup_zip_with_Some in Ej as (q' & y & -> & Eq & Ey). cbn.
  rewrite (sorted_lt_iff ids i j) by done.
  rewrite (sorted_lt_iff (dm_originalDpId <$> players) i j); [done..| |]; by rewrite list_lookup_fmap, ?Ep, ?Eq.
Qed.
End Assign.

Definition set_name (p : DemoPlayer) : dp_call := DP_SetPlayerName (dm_dpId p) (FromAnsi_string (pl_name (dm_player p))).
(** the players of a demo come back in the order in which they once were: of any two of
    them, the one whose DirectPlay identity was lower in the recorded game has the lower
    one in the replay, which the game relies on to tell them apart.  Nobody is lost, the
    players are numbered as in the demo, and identities that are left over are given back. *)
Theorem identities_keep_order (s : Replayer) :
  connected s → (length (m_demoPlayers s) ≤ length (m_dpIdsPrealloc s))%nat →
  NoDup (m_dpIdsPrealloc s) → NoDup (dm_originalDpId <$> m_demoPlayers s) → ∃ s' named gone,
  onCompletedLoadingDemoPlayers s = (Ok tt, s') ∧
  unassigned <$> m_demoPlayers s' ≡ₚ unassigned <$> m_demoPlayers s ∧ Sorted by_ordinal (m_demoPlayers s') ∧
  (∀ p q, p ∈ m_demoPlayers s' → q ∈ m_demoPlayers s' → (dm_dpId p < dm_dpId q ↔ dm_originalDpId p < dm_originalDpId q)) ∧
  m_demoPlayersById s' = m_demoPlayersById s ∪ list_to_set (dm_dpId <$> m_demoPlayers s') ∧
  m_dpIdsPrealloc s' ≡ₚ dm_dpId <$> m_demoPlayers s' ∧ m_dpIdsPrealloc s' ++ gone ≡ₚ m_dpIdsPrealloc s ∧
  named ≡ₚ m_demoPlayers s' ∧
  performed s' = performed s ++ ((λ p, Call (set_name p)) <$> named) ++ ((λ d, Call (DP_DestroyPlayer d)) <$> rev gone) ++ [Call DP_EnumPlayers].
Proof.
  intros Hc Hlen Ni Np. unfold onCompletedLoadingDemoPlayers.
  set (I := merge_sort Z.le (m_dpIdsPrealloc s)). set (P := merge_sort by_original (m_demoPlayers s)).
  assert (I ≡ₚ m_dpIdsPrealloc s) as HI by apply merge_sort_Permutation.
  assert (P ≡ₚ m_demoPlayers s) as HP by apply merge_sort_Permutation.
  assert (length P ≤ length I)%nat as Hl by (by rewrite HI, HP).
  rewrite stx_modify, stx_gets. unfold id. set (s1 := s <| m_dpIdsPrealloc ::= _ |> <| m_demoPlayers ::= _ |>).
  change (m_demoPlayers s1) with P. change (m_dpIdsPrealloc s1) with I.
  rewrite (assign_ids_some P I Hl). fold (assign P I).
  rewrite stx_modify. erewrite stx_bind_ok; [|apply (for_each_call _ _ set_name); [done|]; intros p j _ Hj; by apply forwards_ok].
  rewrite stx_modify. erewrite stx_bind_ok; [|apply (for_each_call _ _ DP_DestroyPlayer); [done|]; intros d j _ Hj; by apply forwards_ok].
  rewrite stx_modify. rewrite (call_ok _ DP_EnumPlayers); [|done|apply forwards_ok].
  set (Q := merge_sort by_ordinal (assign P I)). assert (Q ≡ₚ assign P I) as HQ by apply merge_sort_Permutation.
  assert (length (assign P I) = length P) as Hl' by (unfold assign; rewrite length_zip_with; lia).
  eexists _, (assign P I), (drop (length P) I). split; [rewrite Hl'; reflexivity|].
  lazymatch goal with |- context [m_demoPlayersById ?t = _] => replace (m_demoPlayers t) with Q by reflexivity; replace (m_dpIdsPrealloc t) with (take (length P) I) by reflexivity end.
  cbn [performed]. split_and!.
  - by rewrite HQ, (assign_unassigned P I Hl), HP.
  - apply Sorted_merge_sort. apply _.
  - intros p q. rewrite !HQ. apply assign_order.
    + apply (StronglySorted_fmap _ by_original); [done|]. apply StronglySorted_merge_sort; apply _.
    + apply StronglySorted_merge_sort; apply _.
    + by rewrite HP.
    + by rewrite HI.
  - trans (list_to_set (dm_dpId <$> assign P I) ∪ m_demoPlayersById s); [reflexivity|]. rewrite union_comm_L.
    f_equal. apply list_to_set_perm_L. by rewrite HQ.
  - by rewrite HQ, (assign_ids_of P I Hl).
  - by rewrite take_drop.
  - done.
  - trans (((performed s ++ ((λ p, Call (set_name p)) <$> assign P I)) ++ ((λ d, Call (DP_DestroyPlayer d)) <$> rev (drop (length P) I))) ++ [Call DP_EnumPlayers]);
      [reflexivity|]. by rewrite <- !(assoc_L (++)).
Qed.
Definition ex_environment : Environment := mkEnvironment (0, 0) 0 7 (mkTUnitData 26 0 0 0 0) 4 (λ _, 5) 0.
Definition ex_jdPlay : JDPlay := set_lpDP Live (JDPlay_make [82] 3 false).
Definition ex_demo_player (original ordinal : Z) (name : bytes) : DemoPlayer :=
  (DemoPlayer_make 7 (mkPlayer 0 0 (ordinal + 1) name)) <| dm_ordinalId := ordinal |> <| dm_originalDpId := original |>.
(** two players, whose order in the demo is not that of their identities *)
Definition ex_loaded : Replayer := (Replayer_make ex_environment) <| m_jdPlay := Some ex_jdPlay |>
  <| m_dpIdsPrealloc := [20; 30; 10] |> <| m_demoPlayers := [ex_demo_player 900 0 [66]; ex_demo_player 500 1 [65]] |>.
Lemma identities_keep_order_witness : ∃ s' named gone, onCompletedLoadingDemoPlayers ex_loaded = (Ok tt, s') ∧
  performed s' = performed ex_loaded ++ ((λ p, Call (set_name p)) <$> named) ++ ((λ d, Call (DP_DestroyPlayer d)) <$> rev gone) ++ [Call DP_EnumPlayers] ∧
  (λ p, (dm_originalDpId p, dm_dpId p)) <$> m_demoPlayers s' = [(900, 20); (500, 10)].
Proof.
  destruct (identities_keep_order ex_loaded) as (s' & named & gone & E & _ & _ & _ & _ & _ & _ & _ & Ep).
  - by exists ex_jdPlay.
  - cbn. lia.
  - apply (bool_decide_eq_true_1 _). vm_compute. reflexivity.
  - apply (bool_decide_eq_true_1 _). vm_compute. reflexivity.
  - exists s', named, gone. split; [exact E|]. split; [exact Ep|].
    assert (s' = (onCompletedLoadingDemoPlayers ex_loaded).2) as -> by (by rewrite E). vm_compute. reflexivity.
Defined.

(** ** The stages of a replay *)
Definition is_ready (a : action) : bool := match a with readyToJoin => true | _ => false end.
Definition ready_count (s : Replayer) : nat := length (filter (λ a, is_ready a = true) (performed s)).
(** a property of the stage, whether viewers are still to be called, how often they were,
    what waits to be read of the demo, and how much was read *)
Definition watch (P : ReplayState → bool → nat → bytes → Z → Prop) (s : Replayer) : Prop :=
  P (m_state s) (m_launch s) (ready_count s) (m_demoDataStream s) (m_streamRead s).
(** reading from the demo keeps it *)
Definition closed (P : ReplayState → bool → nat → bytes → Z → Prop) : Prop :=
  ∀ x b n stream rest k, P x b n stream k → rest `suffix_of` stream → P x b n rest (Z.of_nat (length stream - length rest) + k).
Definition stage_is (x : ReplayState) (b : bool) (n : nat) : ReplayState → bool → nat → bytes → Z → Prop :=
  λ x' b' n' _ _, x' = x ∧ b' = b ∧ n' = n.
Lemma stage_is_closed x b n : closed (stage_is x b n).
Proof. by intros ? ? ? ? ? ? H _. Qed.
Abbreviation at_stage x b n := (watch (stage_is x b n)).
Section Stages.
Context `{Numbers} (env : Environment) (P : ReplayState → bool → nat → bytes → Z → Prop).
#[local] Abbreviation stays := (keeps (watch P)).

Lemma stays_perform a : is_ready a = false → stays (modify (perform a)).
Proof.
  intros Ha s Hs. red. cbn [modify snd]. assert (ready_count (perform a s) = ready_count s) as ->; [|exact Hs].
  unfold ready_count, perform. cbn. rewrite filter_app, filter_cons, Ha. cbn. by rewrite app_nil_r.
Qed.
Lemma stays_on_jd {A} (m : jd A) : stays (on_jd m).
Proof. intros s Hs. unfold on_jd. destruct (m_jdPlay s); [|done]. by destruct (m j). Qed.
Lemma stays_reset : stays reset_jdPlay.
Proof. intros s Hs. unfold reset_jdPlay. destruct (m_jdPlay s); [|done]. by destruct (JDPlay_delete j). Qed.
#[local] Hint Resolve stays_on_jd stays_reset : keeps.
#[local] Hint Extern 1 (keeps _ (modify (perform _))) => (apply stays_perform; reflexivity) : keeps.
#[local] Hint Extern 2 (keeps _ (modify _)) => (apply keeps_modify; intros ? ?; assumption) : keeps.
Lemma stays_call m : stays (call m).
Proof. unfold call. keeps_tac. Qed.
#[local] Hint Resolve stays_call : keeps.
Lemma stays_send f t p : stays (send f t p).
Proof. unfold send. keeps_tac. Qed.
Lemma stays_sendUdp f t p : stays (sendUdp f t p).
Proof. unfold sendUdp. keeps_tac. Qed.
Lemma stays_say f t : stays (say f t).
Proof. apply stays_sendUdp. Qed.
Lemma stays_demo_player i : stays (demo_player i).
Proof. by intros s Hs. Qed.
Lemma stays_get_dp i : stays (get_dp i).
Proof. by intros s Hs. Qed.
Lemma stays_unit_info i : stays (unit_info i).
Proof. by intros s Hs. Qed.
#[local] Hint Resolve stays_send stays_sendUdp stays_say stays_demo_player stays_get_dp stays_unit_info : keeps.

Lemma stays_host_loop a rounds : ∀ m, stays (host_loop rounds m a).
Proof.
  induction rounds as [|rounds IH]; intros m; cbn [host_loop]; unfold create_ids, destroy_ids; keeps_tac.
Qed.
#[local] Hint Resolve stays_host_loop : keeps.
Lemma stays_hostGame guid player ipaddr a : stays (hostGame guid player ipaddr a).
Proof. unfold hostGame. keeps_tac. Qed.
Lemma stays_processUnitData t : stays (modify (processUnitData t)).
Proof. apply keeps_modify. intros s Hs. unfold processUnitData. cbv zeta. by repeat (destruct (_ || _) || destruct (_ =? _)). Qed.
#[local] Hint Resolve stays_processUnitData : keeps.
Lemma stays_unit_data_loop data len fuel : ∀ ptr, stays (unit_data_loop fuel data ptr len).
Proof. induction fuel as [|fuel IH]; intros ptr; cbn [unit_data_loop]; keeps_tac. Qed.
#[local] Hint Resolve stays_unit_data_loop : keeps.
Lemma stays_handle_status msg dplayid i : stays (handle_status msg dplayid i).
Proof. intros s Hs. unfold handle_status. by case_match. Qed.
#[local] Hint Resolve stays_handle_status : keeps.
Lemma stays_on_event e : stays (on_event env e).
Proof. unfold on_event, handle_unit_data. keeps_tac. Qed.
#[local] Hint Resolve stays_on_event : keeps.
Context (Hclosed : closed P).
Lemma stays_parse_demo : stays (parse_demo env).
Proof using Hclosed.
  intros s Hs. unfold parse_demo. pose proof (parse_reads_on (env_checks env) NUM_PAKS_TO_PRELOAD (m_parser s) (m_demoDataStream s)) as Hr.
  destruct (parse _ _ _ _) as [[r p] rest].
  apply (keeps_bind (watch P)); [keeps_tac|intros ?; keeps_tac|]. exact (Hclosed _ _ _ _ _ _ Hs Hr).
Qed.
#[local] Hint Resolve stays_parse_demo : keeps.
Lemma stays_receive : stays receive.
Proof. intros s Hs. unfold receive. destruct (next_answer _ _). by apply (keeps_bind (watch P)); [keeps_tac|intros ?; keeps_tac|]. Qed.
#[local] Hint Resolve stays_receive : keeps.
Lemma stays_receive_loop body fuel : (∀ f t p, stays (body f t p)) → stays (receive_loop fuel body).
Proof. intros Hb. induction fuel as [|fuel IH]; cbn [receive_loop]; keeps_tac. Qed.
Lemma stays_receive_all body : (∀ f t p, stays (body f t p)) → stays (receive_all body).
Proof. intros Hb s. unfold receive_all. by apply stays_receive_loop. Qed.
Lemma stays_on_message body p : (∀ c m, stays (body c m)) → stays (on_message env body p).
Proof. intros Hb. unfold on_message, each_subpak. keeps_tac. Qed.
#[local] Hint Extern 1 (keeps _ (receive_all _)) => (apply stays_receive_all; intros ? ? ?) : keeps.
#[local] Hint Extern 1 (keeps _ (on_message _ _ _)) => (apply stays_on_message; intros ? ?) : keeps.

Lemma stays_onCompleted : stays onCompletedLoadingDemoPlayers.
Proof. unfold onCompletedLoadingDemoPlayers. keeps_tac. Qed.
Lemma stays_sendPlayerInfos : stays (sendPlayerInfos env).
Proof. unfold sendPlayerInfos. keeps_tac. Qed.
Lemma stays_send_unit host id : stays (send_unit host id).
Proof. unfold send_unit. keeps_tac. Qed.
Lemma stays_send_count id : stays (send_count id).
Proof. unfold send_count. keeps_tac. Qed.
#[local] Hint Resolve stays_onCompleted stays_sendPlayerInfos stays_send_unit stays_send_count : keeps.
Lemma stays_units_loop host id k : stays (send_units_loop k host id).
Proof. induction k as [|k IH]; cbn [send_units_loop]; keeps_tac. Qed.
Lemma stays_acks_loop host id k : stays (send_acks_loop k host id).
Proof. induction k as [|k IH]; cbn [send_acks_loop]; keeps_tac. Qed.
#[local] Hint Resolve stays_units_loop stays_acks_loop : keeps.
Lemma stays_doSyncWatcher id : stays (doSyncWatcher env id).
Proof. unfold doSyncWatcher. keeps_tac. Qed.
#[local] Hint Resolve stays_doSyncWatcher : keeps.
Lemma stays_sync_watchers ids : stays (sync_watchers env ids).
Proof. induction ids as [|id ids IH]; cbn [sync_watchers]; keeps_tac. Qed.
#[local] Hint Resolve stays_sync_watchers : keeps.
Lemma stays_system_message p : stays (onLobbySystemMessage env p).
Proof.
  unfold onLobbySystemMessage. keeps_tac; apply keeps_modify; intros s Hs; by case_match.
Qed.
Lemma stays_lobby_message source other p : stays (onLobbyTaMessage env source other p).
Proof.
  unfold onLobbyTaMessage. apply stays_on_message. intros c m. destruct c; try apply keeps_ret.
  - unfold on_ping. keeps_tac.
  - unfold on_unit_data. keeps_tac.
  - apply keeps_modify. intros s Hs. unfold on_player_info. by case_match.
Qed.
#[local] Hint Resolve stays_system_message stays_lobby_message : keeps.
Lemma stays_doLobby : stays (doLobby env).
Proof. unfold doLobby, declare_bytesReceived, lobby_message. keeps_tac. apply stays_receive_all. intros ? ? ?. keeps_tac. Qed.
Lemma stays_doLaunch session : stays (doLaunch session).
Proof. unfold doLaunch. keeps_tac. Qed.
Lemma stays_doLoad : stays (doLoad env).
Proof.
  unfold doLoad, declare_bytesReceived, loading_message, onLoadingTaMessage. keeps_tac. apply stays_receive_all. intros ? ? ?. keeps_tac.
Qed.
#[local] Hint Resolve stays_doLobby stays_doLaunch stays_doLoad : keeps.

Lemma stays_play_chat move : stays (play_chat move).
Proof. unfold play_chat. keeps_tac. Qed.
Lemma stays_play_speed i move : stays (play_speed i move).
Proof. unfold play_speed, sender_player. keeps_tac. Qed.
Lemma stays_play_reject i move : stays (play_reject i move).
Proof. unfold play_reject, sender_player. keeps_tac. Qed.
Lemma stays_play_ticks i move : stays (play_move_ticks i move).
Proof. unfold play_move_ticks. keeps_tac. Qed.
Lemma stays_play_ally_chat move : stays (play_ally_chat move).
Proof. unfold play_ally_chat. keeps_tac. Qed.
Lemma stays_play_resources i move : stays (play_resources i move).
Proof. unfold play_resources. keeps_tac. Qed.
Lemma stays_play_share move : stays (play_share move).
Proof. unfold play_share. keeps_tac. Qed.
#[local] Hint Resolve stays_play_chat stays_play_speed stays_play_reject stays_play_ticks stays_play_ally_chat stays_play_resources stays_play_share : keeps.
Lemma stays_play_move i move : stays (play_move i move).
Proof. unfold play_move. apply keeps_bind; [apply keeps_lift|]. intros c. destruct (SubPacketCode_of c) as [[]|]; auto 2 with keeps nocore. Qed.
#[local] Hint Resolve stays_play_move : keeps.
Lemma stays_play_moves i moves : ∀ filtered, stays (play_moves i moves filtered).
Proof. induction moves as [|move moves IH]; intros filtered; cbn [play_moves]; keeps_tac. Qed.
#[local] Hint Resolve stays_play_moves : keeps.
Lemma stays_play_packet p moves : stays (play_packet p moves).
Proof. unfold play_packet, sender_player. keeps_tac. Qed.
Lemma stays_createSonar to k : stays (createSonar to k).
Proof. unfold createSonar. keeps_tac. Qed.
#[local] Hint Resolve stays_play_packet stays_createSonar : keeps.
Lemma stays_on_chat other m : stays (on_chat other m).
Proof. unfold on_chat. keeps_tac. Qed.
Lemma stays_on_speed b1 b2 : stays (modify (on_speed b1 b2)).
Proof. apply keeps_modify. intros s Hs. unfold on_speed. by case_match. Qed.
Lemma stays_on_ticks source ticks : stays (on_ticks source ticks).
Proof. unfold on_ticks. keeps_tac. Qed.
#[local] Hint Resolve stays_on_chat stays_on_speed stays_on_ticks : keeps.
Lemma stays_onPlaying source other p : stays (onPlayingTaMessage env source other p).
Proof. unfold onPlayingTaMessage. apply stays_on_message. intros c m. destruct c; try apply keeps_ret; keeps_tac. Qed.
#[local] Hint Resolve stays_onPlaying : keeps.
Lemma stays_preload : stays (preload env).
Proof. unfold preload. keeps_tac. Qed.
#[local] Hint Resolve stays_preload : keeps.
Lemma stays_play_loop fuel : stays (play_loop fuel env).
Proof.
  induction fuel as [|fuel IH]; cbn [play_loop]; keeps_tac. apply stays_receive_all. intros ? ? ?. unfold playing_message. keeps_tac.
Qed.
Lemma stays_advance : stays advance_target.
Proof.
  intros s Hs. unfold advance_target. destruct (set_target s) as [s'|e| |] eqn:E; try done. revert E. unfold set_target.
  destruct (_ && _); [|by intros [= <-]]. destruct (_ <? 100); [by intros [= <-]|]. intros E. by res_inv.
Qed.
#[local] Hint Resolve stays_advance : keeps.
Lemma stays_doPlay : stays (doPlay env).
Proof. unfold doPlay, declare_bytesReceived. keeps_tac. intros s. apply stays_play_loop. Qed.
#[local] Hint Resolve stays_doPlay : keeps.
End Stages.
#[export] Hint Resolve stage_is_closed stays_on_jd stays_reset stays_call stays_hostGame stays_parse_demo stays_onCompleted stays_doLobby stays_doLaunch
  stays_doLoad stays_doPlay : keeps.

(** ** The stages in their order *)
Definition follows (x y : ReplayState) : bool :=
  match x, y with
  | LOADING_DEMO_PLAYERS, (LOADING_DEMO_PLAYERS | LOBBY) | LOBBY, (LOBBY | LAUNCH) | LAUNCH, (LAUNCH | LOAD | PLAY)
  | LOAD, (LOAD | PLAY) | PLAY, PLAY => true
  | _, _ => false
  end.
(** whether the viewers were called *)
Definition called (y : ReplayState) (launch : bool) (count : nat) : Prop :=
  count = (if launch then 0%nat else 1%nat) ∧
  match y with LOADING_DEMO_PLAYERS => launch = true | LOBBY => True | DONE => False | _ => launch = false end.
Definition well_staged (s : Replayer) : Prop := called (m_state s) (m_launch s) (ready_count s).
Definition advanced (x : ReplayState) (s : Replayer) : Prop := follows x (m_state s) = true ∧ well_staged s.

Section Order.
Context `{Numbers} (env : Environment) (session : DPSESSIONDESC2).
Lemma stays_advanced x b n s : called x b n → at_stage x b n s → advanced x s.
Proof.
  intros Hx (E1 & E2 & E3). unfold advanced, well_staged. rewrite E1, E2, E3. split; [|done]. destruct x; try done. by destruct Hx.
Qed.
Lemma arrives x y b n s : follows x y = true → called y b n → at_stage y b n s → advanced x s.
Proof. intros Hy Hc (E1 & E2 & E3). unfold advanced, well_staged. rewrite E1, E2, E3. done. Qed.
Lemma sets_state x y b n s : at_stage x b n s → at_stage y b n (set_state y s).
Proof. intros (E1 & E2 & E3). done. Qed.
Lemma moves_load_stage x : follows x LOAD = true → follows x PLAY = true → moves (at_stage LOAD false 1) (advanced x) (load_stage env).
Proof.
  intros Hl Hp. unfold load_stage. apply moves_bind; [intros s; by apply arrives|auto with keeps|]. intros [|] s Hs; [|by apply (arrives _ LOAD false 1)].
  apply (arrives _ PLAY false 1); [done..|]. cbn [when]. rewrite !stx_modify. apply stays_perform; [done|]. by destruct Hs.
Qed.
Lemma moves_loading n : called LOADING_DEMO_PLAYERS true n →
  moves (at_stage LOADING_DEMO_PLAYERS true n) (advanced LOADING_DEMO_PLAYERS) (stage env session).
Proof.
  intros Hc s Hs. unfold stage. rewrite stx_gets. destruct Hs as (E1 & E2 & E3). rewrite E1, stx_gets.
  destruct (players_loaded s); [|by apply (stays_advanced _ true n)]. cbn [when].
  assert (at_stage LOADING_DEMO_PLAYERS true n s) as Hs by done. clear E1 E2 E3. revert s Hs.
  apply moves_bind; [intros s; by apply stays_advanced|auto with keeps|]. intros _ s Hs. apply (arrives _ LOBBY true n); [done|by destruct Hc|].
  by destruct Hs.
Qed.
Lemma ready_count_join s : ready_count (perform readyToJoin (s <| m_launch := false |>)) = S (ready_count s).
Proof.
  unfold ready_count. change (performed (perform readyToJoin (s <| m_launch := false |>))) with (performed s ++ [readyToJoin]).
  rewrite filter_app, length_app, filter_cons_True, filter_nil by done. cbn [length]. lia.
Qed.
Lemma moves_lobby b n : called LOBBY b n → moves (at_stage LOBBY b n) (advanced LOBBY) (stage env session).
Proof.
  intros [-> _] s Hs. unfold stage. rewrite stx_gets. destruct Hs as (E1 & E2 & E3). rewrite E1, stx_gets, E2.
  set (rest := (λ _ : unit, go ← doLobby env; when go (modify (set_state LAUNCH)))).
  assert (∀ s1, at_stage LOBBY false 1 s1 → advanced LOBBY ((rest tt) s1).2) as Hrest.
  { apply moves_bind; [intros s1; by apply stays_advanced|auto with keeps|].
    intros [|] s1 Hs1; [|by apply (stays_advanced _ false 1)]. apply (arrives _ LAUNCH false 1); [done..|]. by apply (sets_state LOBBY). }
  destruct b; cbn [when].
  - assert (∀ s1, ((modify (λ s, s <| m_launch := false |>) ≫= λ _, modify (perform readyToJoin)) ≫= rest) s1 =
      rest tt (perform readyToJoin (s1 <| m_launch := false |>))) as -> by done.
    apply Hrest. split_and!; [done..|]. by rewrite ready_count_join, E3.
  - rewrite stx_ret_bind. apply Hrest. done.
Qed.
Lemma moves_launch : moves (at_stage LAUNCH false 1) (advanced LAUNCH) (stage env session).
Proof.
  intros s Hs. unfold stage. rewrite stx_gets. destruct Hs as (E1 & E2 & E3). rewrite E1.
  assert (at_stage LAUNCH false 1 s) as Hs by done. clear E1 E2 E3. revert s Hs.
  apply moves_bind; [intros s; by apply stays_advanced|auto with keeps|]. intros _ s Hs. rewrite !stx_modify.
  apply (moves_load_stage LAUNCH); [done..|]. by destruct Hs.
Qed.
Lemma moves_playing : moves (at_stage PLAY false 1) (advanced PLAY) (stage env session).
Proof.
  intros s Hs. unfold stage. rewrite stx_gets. destruct Hs as (E1 & E2 & E3). rewrite E1.
  assert (at_stage PLAY false 1 s) as Hs by done. pose proof (stays_doPlay env _ (stage_is_closed PLAY false 1) s Hs) as Hp.
  unfold mbind, stx_bind. assert (∀ s s', doPlay env s ≠ (Ok true, s')) as Hover.
  { intros t t'. unfold doPlay, mbind, stx_bind. by repeat case_match. }
  destruct (doPlay env s) as [[[|]|e| |] s'] eqn:E; try by apply (stays_advanced _ false 1). by apply Hover in E.
Qed.
Lemma moves_stage x b n : called x b n → moves (at_stage x b n) (advanced x) (stage env session).
Proof.
  destruct x; intros Hc.
  - pose proof Hc as [_ ->]. by apply moves_loading.
  - by apply moves_lobby.
  - destruct Hc as [-> ->]. apply moves_launch.
  - destruct Hc as [-> ->]. intros s Hs. unfold stage. rewrite stx_gets. destruct Hs as (E1 & E2 & E3). rewrite E1.
    by apply (moves_load_stage LOAD).
  - destruct Hc as [-> ->]. apply moves_playing.
  - by destruct Hc.
Qed.
Lemma timer_advances s : well_staged s → advanced (m_state s) (timerEvent env session s).2.
Proof.
  intros Hw. assert ((timerEvent env session s).2 = (tick env session s).2) as ->.
  { unfold timerEvent. by destruct (tick env session s) as [[] ?]. }
  assert (at_stage (m_state s) (m_launch s) (ready_count s) s) as Hs by done. red in Hw.
  generalize dependent (m_state s). generalize (m_launch s), (ready_count s). intros b n x Hc Hs. revert s Hs.
  unfold tick. apply moves_bind; [intros s; by apply stays_advanced|by intros s|]. intros _.
  apply moves_bind; [intros s; by apply stays_advanced|auto with keeps|]. intros s0.
  apply moves_bind; [intros s; by apply stays_advanced|apply keeps_when; auto with keeps|]. intros _. by apply moves_stage.
Qed.
End Order.

(** what can happen to a replayer *)
Inductive step `{Numbers} (env : Environment) : Replayer → Replayer → Prop :=
  | step_host guid player ipaddr a s : step env s (hostGame guid player ipaddr a s).2
  | step_demo data s : step env s (demo_arrives data s)
  | step_messages l s : step env s (messages_arrive l s)
  | step_nochat b s : step env s (setNoChat b s)
  | step_timer session s : step env s (timerEvent env session s).2.
Lemma step_advances `{Numbers} env s s' : well_staged s → step env s s' → advanced (m_state s) s'.
Proof.
  intros Hw Hs. assert (at_stage (m_state s) (m_launch s) (ready_count s) s) as Ha by done.
  destruct Hs; try (by apply timer_advances); apply (stays_advanced _ _ _ _ Hw); [|exact Ha..]. by apply stays_hostGame.
Qed.
(** C27: whatever arrives and in whatever order, a replay only goes forward: from loading to
    the lobby, the launch, loading the game and playing, and never back.  The signal that
    lets viewers join is given once at most, after the players of the demo are there and
    before the launch.  (The last stage is never reached: a demo plays until it is closed.) *)
Theorem replay_goes_forward `{Numbers} (env : Environment) (s s' : Replayer) :
  rtc (step env) (Replayer_make env) s → step env s s' →
  follows (m_state s) (m_state s') = true ∧ (ready_count s' ≤ 1)%nat ∧
  (m_state s' = LOADING_DEMO_PLAYERS → ready_count s' = 0%nat) ∧
  (m_state s' = LAUNCH ∨ m_state s' = LOAD ∨ m_state s' = PLAY → ready_count s' = 1%nat) ∧ m_state s' ≠ DONE.
Proof.
  intros Hr Hs. assert (∀ a c, rtc (step env) a c → well_staged a → well_staged c) as Hall.
  { induction 1 as [|a c d Hac _ IH]; [done|]. intros Ha. by apply IH, (step_advances env a c). }
  pose proof (Hall _ _ Hr ltac:(done)) as Hw. clear Hall.
  destruct (step_advances env s s' Hw Hs) as [Hf [Hc Hl]]. split; [done|]. rewrite Hc. split_and!.
  - destruct (m_launch s'); lia.
  - intros E. rewrite E in Hl. by rewrite Hl.
  - intros [E | [E | E]]; rewrite E in Hl; by rewrite Hl.
  - intros E. by rewrite E in Hl.
Qed.
#[local] Instance ex_numbers : Numbers := { log x := x; pow x y := x; arg_g2 _ := [49]; arg_default _ := [49] }.
Lemma replay_goes_forward_witness : let s := demo_arrives [1; 2; 3] (Replayer_make ex_environment) in
  rtc (step ex_environment) (Replayer_make ex_environment) s ∧
  follows (m_state s) (m_state (timerEvent ex_environment desc_zero s).2) = true ∧ m_state (timerEvent ex_environment desc_zero s).2 ≠ DONE.
Proof.
  intros s. assert (rtc (step ex_environment) (Replayer_make ex_environment) s) as Hr by (apply rtc_once; constructor).
  destruct (replay_goes_forward ex_environment s (timerEvent ex_environment desc_zero s).2 Hr) as (Hf & _ & _ & _ & Hd); [constructor|].
  split; [exact Hr|]. split; [exact Hf|exact Hd].
Defined.

(** ** Chat *)
Definition chat_crc (move : bytes) : Z := CRC32.FullCRC CRC32.Initialize move.
(** what is remembered after these messages *)
Definition chats_after (crcs : list Z) : list Z * gset Z :=
  foldl (λ qs crc, (chat_step crc qs.1 qs.2).2) ([], ∅) crcs.
(** the last sixteen *)
Definition recent (crcs : list Z) : list Z := drop (length crcs - CHAT_WINDOW) crcs.

Lemma chats_after_snoc crcs c : chats_after (crcs ++ [c]) = (chat_step c (chats_after crcs).1 (chats_after crcs).2).2.
Proof. unfold chats_after. by rewrite foldl_app. Qed.
Lemma recent_snoc crcs c : recent (crcs ++ [c]) = if decide (length crcs < CHAT_WINDOW)%nat then recent crcs ++ [c] else tail (recent crcs) ++ [c].
Proof.
  unfold recent, CHAT_WINDOW. rewrite length_app. cbn [length]. case_decide.
  - replace (length crcs + 1 - 16)%nat with 0%nat by lia. replace (length crcs - 16)%nat with 0%nat by lia. done.
  - replace (length crcs + 1 - 16)%nat with (length crcs - 16 + 1)%nat by lia.
    rewrite drop_app_le by lia. f_equal. rewrite <- drop_drop. by destruct (drop (length crcs - 16) crcs).
Qed.
Lemma length_recent crcs : length (recent crcs) = Nat.min (length crcs) CHAT_WINDOW.
Proof. unfold recent, CHAT_WINDOW. rewrite length_drop. lia. Qed.
(** the queue holds the last sixteen, and the set only some of them *)
Lemma chat_expire_one queue st : (length queue ≤ S CHAT_WINDOW)%nat → chat_expire queue st =
  if decide (length queue ≤ CHAT_WINDOW)%nat then (queue, st)
  else (tail queue, st ∖ match queue with crc :: _ => {[crc]} | [] => ∅ end).
Proof.
  intros Hl. destruct queue as [|crc queue]; [done|]. cbn [chat_expire]. case_decide as Hd.
  - by destruct (Nat.ltb_spec CHAT_WINDOW (length (crc :: queue))); [lia|].
  - destruct (Nat.ltb_spec CHAT_WINDOW (length (crc :: queue))); [|lia]. cbn [length tail] in *.
    destruct queue as [|c queue]; [done|]. cbn [chat_expire]. by destruct (Nat.ltb_spec CHAT_WINDOW (length (c :: queue))); [lia|].
Qed.
Lemma chat_step_after crcs c : (chats_after crcs).1 = recent crcs →
  chats_after (crcs ++ [c]) = (recent (crcs ++ [c]),
    if decide (length crcs < CHAT_WINDOW)%nat then (chats_after crcs).2 ∪ {[c]}
    else ((chats_after crcs).2 ∪ {[c]}) ∖ match recent crcs with x :: _ => {[x]} | [] => ∅ end).
Proof.
  intros E. rewrite chats_after_snoc. unfold chat_step. cbn [snd]. rewrite E. pose proof (length_recent crcs) as Hl.
  rewrite chat_expire_one by (rewrite length_app; cbn [length]; lia). rewrite length_app. cbn [length]. rewrite recent_snoc.
  case_decide; case_decide; try lia; [done|]. destruct (recent crcs) as [|x l]; [cbn [length] in Hl; unfold CHAT_WINDOW in *; lia|]. done.
Qed.
Lemma chats_after_queue crcs : (chats_after crcs).1 = recent crcs.
Proof. induction crcs as [|c crcs IH] using rev_ind; [done|]. by rewrite chat_step_after. Qed.
Lemma recent_sub crcs c x : x ∈ recent crcs → x ∈ recent (crcs ++ [c]) ∨ head (recent crcs) = Some x.
Proof.
  rewrite recent_snoc. case_decide; [set_solver|]. destruct (recent crcs) as [|y l]; [set_solver|]. cbn [tail head]. set_solver.
Qed.
Lemma chats_after_set crcs x : x ∈ (chats_after crcs).2 → x ∈ recent crcs.
Proof.
  induction crcs as [|c crcs IH] using rev_ind; [done|]. rewrite chat_step_after by apply chats_after_queue. cbn [snd].
  rewrite recent_snoc. case_decide as Hd; [set_solver|].
  destruct (recent crcs) as [|y l] eqn:E; [pose proof (length_recent crcs) as Hl; rewrite E in Hl; cbn [length] in Hl; unfold CHAT_WINDOW in *; lia|].
  cbn [tail]. set_solver.
Qed.
(** a message that was not among them stays in the set while fifteen others follow *)
Lemma chats_after_kept crcs c others : c ∉ recent crcs → (length others ≤ 15)%nat → c ∈ (chats_after (crcs ++ c :: others)).2.
Proof.
  intros Hc. induction others as [|x others IH] using rev_ind; intros Hl.
  - rewrite chat_step_after by apply chats_after_queue. cbn [snd]. case_decide; [set_solver|].
    destruct (recent crcs) as [|y l]; set_solver.
  - rewrite length_app in Hl. cbn [length] in Hl. specialize (IH ltac:(lia)).
    replace (crcs ++ c :: others ++ [x]) with ((crcs ++ c :: others) ++ [x]) by by rewrite <- (assoc_L (++)).
    rewrite chat_step_after by apply chats_after_queue. cbn [snd]. case_decide as Hd; [set_solver|].
    assert (head (recent (crcs ++ c :: others)) ≠ Some c) as Hh.
    2: { destruct (recent (crcs ++ c :: others)) as [|y l]; [set_solver|]. assert (c ≠ y) by (intros ->; by apply Hh). set_solver. }
    unfold recent, CHAT_WINDOW in *. rewrite length_app in *. cbn [length] in *.
    rewrite head_lookup, lookup_drop, lookup_app_l by lia. intros E. apply Hc. apply list_elem_of_lookup.
    exists (Nat.add (length others) 1 - (16 - (length crcs - (length crcs - 16))))%nat.
    rewrite lookup_drop. rewrite <- E. f_equal. lia.
Qed.
(** every player's game is in a demo with a copy of each chat message, and viewers
    should see one of them.  A message is always shown when none of the sixteen before it
    has its checksum; and when it was shown, no copy of it is shown among the next fifteen
    messages.  What is remembered depends on nothing but the messages so far. *)
Theorem chat_filter (history : list bytes) (message : bytes) (s : Replayer) :
  let crc := chat_crc message in
  let crcs := chat_crc <$> history in
  (m_recentChatMessageCrcsExpireyQueue s, m_recentChatMessageCrcsSet s) = chats_after crcs →
  m_nochat s = false → length message = 65%nat → ∃ out s', play_chat message s = (Ok out, s') ∧
  (m_recentChatMessageCrcsExpireyQueue s', m_recentChatMessageCrcsSet s') = chats_after (chat_crc <$> history ++ [message]) ∧
  (crc ∉ recent crcs → out = message) ∧
  (∀ before others, crcs = before ++ crc :: others → crc ∉ recent before → (length others ≤ 15)%nat → out = []).
Proof.
  intros crc crcs Hs Hn Hl. unfold play_chat. unfold rd_n. rewrite Hl. rewrite drop_0, take_ge by lia.
  rewrite (proj2 (Nat.leb_le (0 + 65) 65)) by lia. rewrite stx_lift_ok, stx_gets. unfold id. fold (chat_crc message). fold crc.
  destruct (chat_step crc (m_recentChatMessageCrcsExpireyQueue s) (m_recentChatMessageCrcsSet s)) as [isNew [queue set_]] eqn:E.
  rewrite stx_modify. eexists _, _. split; [reflexivity|]. rewrite Hn. cbn [negb andb].
  injection E as Enew Eq. assert (m_recentChatMessageCrcsSet s = (chats_after crcs).2) as Eset by (by rewrite <- Hs). split_and!.
  - rewrite fmap_app. cbn [fmap list_fmap]. fold crc crcs. rewrite chats_after_snoc, <- Hs. cbn [fst snd]. unfold chat_step. cbn [snd]. by rewrite Eq.
  - intros Hc. rewrite <- Enew, bool_decide_true; [done|]. rewrite Eset. intros Hin. by apply Hc, chats_after_set.
  - intros before others Ec Hb Ho. rewrite <- Enew, bool_decide_false; [done|]. rewrite Eset, Ec. intros Hin. by apply Hin, chats_after_kept.
Qed.
Definition ex_chat : bytes := createChatSubpacket (str "<Bob> hi").
Lemma chat_filter_witness :
  let s := snd (play_chat ex_chat (Replayer_make ex_environment)) in ∃ s', play_chat ex_chat s = (Ok [], s').
Proof.
  intros s. destruct (chat_filter [ex_chat] ex_chat s) as (out & s' & E & _ & _ & Hd).
  - apply (bool_decide_eq_true_1 _). vm_compute. reflexivity.
  - vm_compute. reflexivity.
  - vm_compute. reflexivity.
  - exists s'. rewrite (Hd [] []) in E; [exact E|reflexivity|apply not_elem_of_nil|cbn; lia].
Defined.
(** a copy that arrives while the first one is forgotten makes the filter forget both *)
Example chat_forgotten : 
  let '(queue, set_) := chats_after ([7] ++ seqZ 100 15 ++ [7]) in (chat_step 7 queue set_).1 = true.
Proof. vm_compute. reflexivity. Qed.
(** the game the viewers are shown, once the recording's players have their identities *)
Definition ex_replayed : Replayer := (onCompletedLoadingDemoPlayers ex_loaded).2.
(** a message that is longer than the one before waits for the next turn *)
Example longer_message_waits :
  incoming (receive_all (λ _ _ _, mret false) (messages_arrive [R_message 1 2 [0]; R_message 1 2 [0; 0]] ex_replayed)).2 = [R_message 1 2 [0; 0]].
Proof. vm_compute. reflexivity. Qed.
