(* ===== verification/ReplayerPlayFacts.v ===== *)
(** * Theorems on playing a demo

    The moves of a packet reach the viewers' games as they were recorded, and a turn of
    the clock plays as far as it should, and ends. *)
From S2P Require Import Prelude ExceptState Resumable OrderedMaps TPacketCrypt TPacketCompress TPacketSplit TPacketSmartpak TPacketRecords DuplicateDetection TADemoRecords TADemoParser GpgNetMessages QtText JDPlay EngineeringNotation TADemoEnds Replayer ReplayerLobby ReplayerPlay ReplayerFacts.
From coqutil Require Import Datatypes.RecordSetters.
#[local] Open Scope Z_scope.

(** ** What a game reads *)
Definition plain_code (b : Z) : Prop :=
  ∀ c, c ∈ [SMARTPAK_TICK_START_FE; SMARTPAK_TICK_FF; SMARTPAK_TICK_OTHER_FD] → SubPacketCode_of b ≠ Some c.
Definition sendable (m : bytes) : Prop := self_delimited m ∧ match m with b :: _ => plain_code b | [] => False end.
Lemma un_loop_concat ms : ∀ fuel packnum ut, Forall sendable ms → (length ms < fuel)%nat →
  un_loop fuel (concat ms) packnum ut = Ok (ut ++ ms).
Proof.
  induction ms as [|m ms IH]; intros fuel packnum ut Hms Hf; (destruct fuel as [|fuel]; [cbn [length] in Hf; lia|]).
  - cbn. by rewrite app_nil_r.
  - apply Forall_cons in Hms as [[Hd Hc] Hms]. destruct m as [|b m]; [done|]. cbn [concat].
    rewrite un_loop_plain by done. rewrite IH by (try done; cbn [length] in Hf; lia). by rewrite <- (assoc_L (++)).
Qed.
Lemma length_concat_le ms : Forall sendable ms → (length ms ≤ length (concat ms))%nat.
Proof.
  induction 1 as [|m ms [_ Hm] _ IH]; [done|]. cbn [concat]. rewrite length_app. cbn [length]. destruct m; [done|]. cbn [length]. lia.
Qed.
(** sub-packets that are sent together come out of the decoder one by one *)
Lemma decode_sent env ms seq : Forall sendable ms → decode env (encrypt (trivialSmartpak (concat ms) seq)) = Ok ms.
Proof.
  intros Hms. unfold decode, trivialSmartpak. change ([3; 0; 0] ++ le4 seq ++ concat ms) with (3 :: 0 :: 0 :: le4 seq ++ concat ms).
  set (d := 3 :: 0 :: 0 :: le4 seq ++ concat ms).
  assert (4 ≤ length d)%nat as Hl by (unfold d; cbn [length]; rewrite length_app, length_le4; lia).
  destruct (decrypt_encrypt_core [] d (env_checks env).1 (env_checks env).2 Hl) as (k1 & k2 & calc & E). cbn [app length] in E. rewrite E.
  rewrite Z.eqb_refl. cbn [negb]. unfold d. cbn [list_insert]. change (rd8 _ 0) with (Ok 3). rewrite res_bind_ok. change (3 =? 4) with false.
  cbv iota. rewrite res_bind_ok. unfold unsmartpak. change (rd8 _ 0) with (Ok 3). rewrite res_bind_ok. change (3 =? 4) with false.
  cbv iota. rewrite res_bind_ok. rewrite unsmartpak_loop_drop.
  match goal with |- un_loop ?f ?x _ _ = _ => change x with (concat ms); apply (un_loop_concat ms f 0 []); [done|] end.
  pose proof (length_concat_le ms Hms). rewrite !length_insert. cbn [length]. rewrite length_app. lia.
Qed.

(** ** What is fed of a move *)

(** moves that are fed as they are or left out, whatever happened before *)
Definition feeds (m : bytes) : option bool :=
  match m with
  | [] => None
  | b :: _ =>
      match SubPacketCode_of b with
      | Some (CHAT_05 | SPEED_19 | REJECT_1B) => None
      | Some GIVE_UNIT_14 => Some false
      | Some ALLY_CHAT_F9 => if (9 <=? length m)%nat then Some false else None
      | Some UNIT_STAT_AND_MOVE_2C => if (7 <=? length m)%nat then Some true else None
      | Some PLAYER_RESOURCE_INFO_28 => if (50 <=? length m)%nat then Some true else None
      | Some SHARE_RESOURCES_16 => if (17 <=? length m)%nat then Some true else None
      | _ => Some true
      end
  end.
Definition fed (m : bytes) : bool := default false (feeds m).
(** the players' identities, the connection and what was done are as before *)
Definition same_net (s s' : Replayer) : Prop :=
  m_jdPlay s' = m_jdPlay s ∧ performed s' = performed s ∧ dm_dpId <$> m_demoPlayers s' = dm_dpId <$> m_demoPlayers s.
#[export] Instance same_net_preorder : PreOrder same_net.
Proof. split; [by intros s|]. intros s1 s2 s3 (H1 & H2 & H3) (H4 & H5 & H6). split_and!; congruence. Qed.
Lemma same_net_demo i f s : (∀ p, dm_dpId (f p) = dm_dpId p) → same_net s (upd_demo i f s).
Proof.
  intros Hf. split_and!; [done..|]. change (m_demoPlayers (upd_demo i f s)) with (alter f i (m_demoPlayers s)).
  apply list_eq. intros j. rewrite !list_lookup_fmap. destruct (decide (i = j)) as [->|Hj].
  - rewrite list_lookup_alter_eq. destruct (m_demoPlayers s !! j); [|done]. cbn. by rewrite Hf.
  - by rewrite list_lookup_alter_ne.
Qed.
Lemma rd32_some m i : (i + 4 ≤ length m)%nat → ∃ x, rd32 m i = Ok x.
Proof.
  intros Hl. unfold rd32. destruct (rd16_ok' m i ltac:(lia)) as [a ->]. rewrite res_bind_ok.
  destruct (rd16_ok' m (i + 2) ltac:(lia)) as [b ->]. rewrite res_bind_ok. by eexists.
Qed.

Lemma play_move_feeds i m b s : (i < length (m_demoPlayers s))%nat → feeds m = Some b → ∃ s',
  play_move i m s = (Ok (if b then m else []), s') ∧ same_net s s'.
Proof.
  intros Hi Hm. destruct m as [|c m]; [done|]. unfold feeds in Hm. set (mv := c :: m) in *. unfold play_move.
  change (rd8 mv 0) with (Ok c). rewrite stx_lift_ok.
  destruct (SubPacketCode_of c) as [code|]; [|injection Hm as <-; by exists s].
  destruct code; try discriminate Hm; try (injection Hm as <-; by exists s).
  - (* SHARE_RESOURCES_16 *)
    destruct (Nat.leb_spec 17 (length mv)); [injection Hm as <-|done]. unfold play_share.
    destruct (rd32_some mv 9 ltac:(lia)) as [x ->]. rewrite stx_lift_ok, stx_gets.
    destruct (getDemoPlayerByOriginalDpId x s) as [k|]; [|by exists s].
    destruct (rd32_some mv 13 ltac:(lia)) as [amount ->]. destruct (rd8_ok mv 1 ltac:(lia)) as [t ->].
    eexists. split; [reflexivity|]. apply same_net_demo. intros p. by destruct (t =? 2).
  - (* PLAYER_RESOURCE_INFO_28 *)
    destruct (Nat.leb_spec 50 (length mv)); [injection Hm as <-|done]. unfold play_resources.
    destruct (rd32_some mv 46 ltac:(lia)) as [x ->]. destruct (rd32_some mv 34 ltac:(lia)) as [y ->].
    eexists. split; [reflexivity|]. by apply same_net_demo.
  - (* UNIT_STAT_AND_MOVE_2C *)
    destruct (Nat.leb_spec 7 (length mv)); [injection Hm as <-|done]. unfold play_move_ticks.
    destruct (rd32_some mv 3 ltac:(lia)) as [x ->]. eexists. split; [reflexivity|]. by apply (same_net_demo i (λ p, p <| dm_ticks := x |>)).
  - (* ALLY_CHAT_F9 *)
    destruct (Nat.leb_spec 9 (length mv)) as [Hl|]; [injection Hm as <-|done]. unfold play_ally_chat.
    destruct (rd32_some mv 1 ltac:(lia)) as [x ->]. rewrite res_bind_ok.
    rewrite (proj2 (Nat.ltb_ge _ _)) by done. by exists s.
Qed.
Lemma play_moves_feed i moves : ∀ filtered s, (i < length (m_demoPlayers s))%nat → Forall (λ m, is_Some (feeds m)) moves → ∃ s',
  play_moves i moves filtered s = (Ok (filtered ++ concat (filter (λ m, fed m = true) moves)), s') ∧ same_net s s'.
Proof.
  induction moves as [|m moves IH]; intros filtered s Hi Hm.
  - exists s. cbn. by rewrite app_nil_r.
  - apply Forall_cons in Hm as [[b Hb] Hm]. cbn [play_moves].
    destruct (play_move_feeds i m b s Hi Hb) as (s1 & E & Hn). rewrite (stx_bind_ok _ _ _ _ _ E).
    destruct (IH (filtered ++ (if b then m else [])) s1) as (s2 & E2 & Hn2); [|done|].
    { destruct Hn as (_ & _ & Hn). apply (f_equal length) in Hn. rewrite !length_fmap in Hn. lia. }
    exists s2. split; [|by trans s1]. rewrite E2. do 2 f_equal. rewrite filter_cons. assert (fed m = b) as Hfd by (unfold fed; by rewrite Hb).
    rewrite <- (assoc_L (++)). case_decide as Hd; rewrite Hfd in Hd; by destruct b.
Qed.

(** C22: a packet of the demo reaches the viewers' games as its sender's own.  When its moves
    are ones that are fed or left out for what they are, one message is sent in the name
    of that player and to everybody, and what a game decodes from it are the recorded
    moves that are to be fed, all of them, in order, byte for byte. *)
Theorem packet_fed (env : Environment) (packet : Packet) (moves : list bytes) (i : nat) (p : DemoPlayer) (s : Replayer) :
  let feed := filter (λ m, fed m = true) moves in
  connected s → find_sender (pk_sender packet) s = Some i → m_demoPlayers s !! i = Some p →
  Forall (λ m, is_Some (feeds m)) moves → Forall sendable feed → feed ≠ [] → ∃ s' data,
  play_packet packet moves s = (Ok tt, s') ∧
  performed s' = performed s ++ [Call (DP_Send (dm_dpId p) 0 0 data)] ∧ decode env data = Ok feed.
Proof.
  intros feed Hc Hf Hp Hm Hs Hne. unfold play_packet. rewrite stx_gets, Hf.
  destruct (play_moves_feed i moves [] s) as (s1 & E & Hj & Hperf & Hids); [by eapply lookup_lt_Some|done|].
  rewrite (stx_bind_ok _ _ _ _ _ E). cbn [app]. fold feed.
  assert (∃ p1, m_demoPlayers s1 !! i = Some p1 ∧ dm_dpId p1 = dm_dpId p) as (p1 & Ep1 & Eid).
  { apply (f_equal (lookup i)) in Hids. rewrite !list_lookup_fmap, Hp in Hids. destruct (m_demoPlayers s1 !! i) as [p1|]; [|done].
    cbn in Hids. exists p1. split; [done|congruence]. }
  assert (sender_player i s1 = (Ok p1, s1)) as Esp by (unfold sender_player, demo_player; by rewrite Ep1).
  rewrite (stx_bind_ok _ _ _ _ _ Esp). pose proof (length_concat_le feed Hs).
  rewrite (proj2 (Z.ltb_lt _ _)) by (destruct feed; [done|cbn [length] in *; lia]). cbn [when]. unfold sendUdp.
  rewrite (call_ok _ (DP_Send (dm_dpId p1) 0 0 (encrypt (trivialSmartpak (concat feed) 0)))).
  - eexists _, _. split; [reflexivity|]. split; [|by apply decode_sent].
    change (performed (perform ?a s1)) with (performed s1 ++ [a]). by rewrite Hperf, Eid.
  - destruct Hc as (j & Ej & Hlive). exists j. by rewrite Hj.
  - apply forwards_ok.
Qed.
(** a move and a unit given away, by the player with the number 2 *)
Definition ex_packet : Packet := mkPacket 0 2 [].
Definition ex_moves : list bytes := [[44; 11; 0; 5; 0; 0; 0; 255; 255; 1; 0]; 20 :: replicate 23 0; [17; 1; 2; 3]].
Lemma sendable_ex : Forall sendable [[44; 11; 0; 5; 0; 0; 0; 255; 255; 1; 0]; [17; 1; 2; 3]].
Proof.
  assert (∀ b c, SubPacketCode_of b = Some c → c ∉ [SMARTPAK_TICK_START_FE; SMARTPAK_TICK_FF; SMARTPAK_TICK_OTHER_FD] → plain_code b) as Hp.
  { intros b c E Hn c' Hc' E'. rewrite E in E'. injection E' as ->. by apply Hn. }
  apply Forall_cons; split; [split|apply Forall_cons; split; [split|by apply Forall_nil]].
  - intros rest. reflexivity.
  - apply (Hp 44 UNIT_STAT_AND_MOVE_2C); [reflexivity|set_solver].
  - by apply (self_delimited_fixed UNIT_STATE_11).
  - apply (Hp 17 UNIT_STATE_11); [reflexivity|set_solver].
Qed.
Lemma packet_fed_witness : ∃ s' data, play_packet ex_packet ex_moves ex_replayed = (Ok tt, s') ∧
  performed s' = performed ex_replayed ++ [Call (DP_Send 10 0 0 data)] ∧ decode ex_environment data = Ok [[44; 11; 0; 5; 0; 0; 0; 255; 255; 1; 0]; [17; 1; 2; 3]].
Proof.
  destruct (packet_fed ex_environment ex_packet ex_moves 1 ((ex_demo_player 500 1 [65]) <| dm_dpId := 10 |>) ex_replayed)
    as (s' & data & E & Ep & Ed).
  - exists ex_jdPlay. split; vm_compute; reflexivity.
  - vm_compute. reflexivity.
  - vm_compute. reflexivity.
  - unfold ex_moves. repeat (apply Forall_cons; split; [eexists; vm_compute; reflexivity|]). by apply Forall_nil.
  - exact sendable_ex.
  - vm_compute. discriminate.
  - exists s', data. split; [exact E|]. split; [exact Ep|]. exact Ed.
Defined.

(** ** A turn of the clock *)

(** what playing a packet changes *)
Section PlayKeeps.
Context (P : Replayer → Prop).
Context (P_perform : ∀ c s, P s → P (perform (Call c) s)) (P_jd : ∀ j s, m_jdPlay s = Some j → P s → P (s <| m_jdPlay := Some j |>)).
Context (P_demo : ∀ i f s, P s → P (upd_demo i f s)) (P_ticks : ∀ t s, P s → P (s <| m_demoTicks := t |>)).
Context (P_chat : ∀ q t s, P s → P (s <| m_recentChatMessageCrcsExpireyQueue := q |> <| m_recentChatMessageCrcsSet := t |>)).
Lemma dpSend_same f t fl d j : (dpSend f t fl d j).2 = j.
Proof. unfold dpSend, mbind, stx_bind, deref. by case_decide. Qed.
Lemma keeps_sendUdp f t b : keeps P (sendUdp f t b).
Proof using P_perform P_jd.
  unfold sendUdp, call. apply keeps_bind; [|intros c; apply keeps_modify; intros s; apply P_perform].
  intros s Hs. unfold on_jd. destruct (m_jdPlay s) as [j|] eqn:Ej; [|done].
  destruct (dpSend f t 0 _ j) as [x j'] eqn:E. cbn [snd]. apply (f_equal snd) in E. rewrite dpSend_same in E. cbn in E. subst. by apply P_jd.
Qed.
Lemma keeps_demo_player i : keeps P (sender_player i).
Proof. by intros s. Qed.
#[local] Hint Resolve keeps_sendUdp keeps_demo_player : keeps.
#[local] Hint Extern 2 (keeps _ (modify _)) => (apply keeps_modify; intros ? ?; auto 2) : keeps.
Lemma keeps_play_move i m : keeps P (play_move i m).
Proof using All.
  unfold play_move. apply keeps_bind; [apply keeps_lift|]. intros c. destruct (SubPacketCode_of c) as [[]|]; try apply keeps_ret.
  - unfold play_chat. keeps_tac.
  - unfold play_share. keeps_tac.
  - unfold play_speed, say. keeps_tac.
  - unfold play_reject, say. keeps_tac.
  - unfold play_resources. keeps_tac.
  - unfold play_move_ticks. keeps_tac.
  - unfold play_ally_chat. keeps_tac.
Qed.
Lemma keeps_play_packet p moves : keeps P (play_packet p moves).
Proof using All.
  unfold play_packet. apply keeps_bind; [apply keeps_gets|]. intros [i|]; [|apply keeps_ret]. apply keeps_bind; [|intros ?; keeps_tac].
  generalize (@nil Z). induction moves as [|m moves IH]; intros l; cbn [play_moves]; [apply keeps_ret|].
  apply keeps_bind; [apply keeps_play_move|intros b; apply IH].
Qed.
End PlayKeeps.

Lemma quick_on_jd {A} (m : jd A) : quick m → quick (on_jd m).
Proof. intros Hm s. unfold on_jd. destruct (m_jdPlay s); [|done]. specialize (Hm j). by destruct (m j). Qed.
Lemma quick_deref {A} p (a : A) : quick (deref p ≫= λ _, mret a).
Proof. intros j. unfold mbind, stx_bind, deref. by case_decide. Qed.
Lemma quick_sendUdp f t b : quick (sendUdp f t b).
Proof. unfold sendUdp, call. quick_tac. apply quick_on_jd, quick_deref. Qed.
Lemma quick_sender i : quick (sender_player i).
Proof. intros s. unfold sender_player, demo_player. by case_match. Qed.
#[export] Hint Resolve quick_sendUdp quick_sender : quick.
#[export] Hint Extern 1 (quick (lift _)) => (apply quick_lift; auto 2 with no_hang) : quick.
Lemma quick_play_move i m : quick (play_move i m).
Proof.
  unfold play_move. apply quick_bind; [auto with quick|]. intros c. destruct (SubPacketCode_of c) as [[]|]; try apply quick_ret.
  - unfold play_chat. quick_tac.
  - unfold play_share. quick_tac.
  - unfold play_speed, say. quick_tac.
  - unfold play_reject, say. quick_tac.
  - unfold play_resources. quick_tac.
  - unfold play_move_ticks. quick_tac.
  - unfold play_ally_chat. apply quick_lift. apply bind_no_hang; [auto with no_hang|]. intros. by case_match.
Qed.
Lemma quick_play_packet p moves : quick (play_packet p moves).
Proof.
  unfold play_packet. apply quick_bind; [auto with quick|]. intros [i|]; [|apply quick_ret]. apply quick_bind; [|intros ?; quick_tac].
  generalize (@nil Z). induction moves as [|m moves IH]; intros l; cbn [play_moves]; [apply quick_ret|].
  apply quick_bind; [apply quick_play_move|intros b; apply IH].
Qed.

(** what the handlers of the parser leave alone *)
Definition same_feed (s s' : Replayer) : Prop :=
  incoming s' = incoming s ∧ m_jdPlay s' = m_jdPlay s ∧ m_parser s' = m_parser s ∧ m_demoDataStream s' = m_demoDataStream s ∧
  performed s' = performed s ∧ m_isPaused s' = m_isPaused s.
#[export] Instance same_feed_preorder : PreOrder same_feed.
Proof. split; [by intros s|]. intros s1 s2 s3 (?&?&?&?&?&?) (?&?&?&?&?&?). split_and!; congruence. Qed.
Lemma TUnitData_parse_no_hang s : TUnitData_parse s ≠ Hang.
Proof.
  assert (∀ n p z, toUint32_loop n s p z ≠ Hang) as Hl.
  { induction n as [|n IH]; intros p z; cbn [toUint32_loop]; no_hang. }
  assert (∀ p, toUint32 s p ≠ Hang) as H32 by (intros p; unfold toUint32; apply bind_no_hang; [apply rd8_no_hang|intros; apply Hl]).
  assert (∀ p, toUint16 s p ≠ Hang) as H16 by (intros p; unfold toUint16; no_hang).
  unfold TUnitData_parse. repeat (apply bind_no_hang; [|intros ? _]); auto with no_hang. case_match; [|done]. no_hang.
Qed.
#[export] Hint Resolve TUnitData_parse_no_hang expected_size_no_hang : no_hang.
Lemma quick_unit_data_loop data len : ∀ fuel ptr, (length data < fuel + ptr)%nat → (0 < fuel)%nat → quick (unit_data_loop fuel data ptr len).
Proof.
  induction fuel as [|fuel IH]; intros ptr Hf Hp; [lia|]. cbn [unit_data_loop].
  destruct (Nat.ltb_spec ptr (length data)); [|done]. destruct (Z.ltb_spec 0 len); [|done]. cbn [andb].
  apply quick_bind; [auto with quick|]. intros bs. apply quick_bind; [auto with quick|]. intros t.
  apply quick_bind; [auto with quick|]. intros _. apply IH; lia.
Qed.
Lemma quick_on_event env e : quick (on_event env e).
Proof.
  destruct e; cbn [on_event]; auto with quick.
  - intros s. unfold handle_status. by case_match.
  - unfold handle_unit_data. cbv zeta. apply quick_bind; [auto with quick|]. intros len. apply quick_bind; [apply quick_unit_data_loop; lia|].
    intros _. quick_tac.
Qed.
(** one event adds one packet at most *)
Lemma on_event_adds env e s : same_feed s (on_event env e s).2 ∧
  (length (m_pendingGamePackets (on_event env e s).2) ≤ length (m_pendingGamePackets s) + (if is_packet e then 1 else 0))%nat.
Proof.
  set (P := λ s', same_feed s s' ∧ m_pendingGamePackets s' = m_pendingGamePackets s).
  assert (P s) as Hs by done. assert (keeps P (on_event env e) ∨ is_packet e = true) as [Hk|He].
  - destruct e; cbn [on_event]; [left..|by right]; try (apply keeps_modify; intros s1 H1; exact H1).
    + intros s1 H1. unfold handle_status. by case_match.
    + assert (∀ len fuel ptr, keeps P (unit_data_loop fuel (un_unitData ud) ptr len)) as Hl.
      { intros len. induction fuel as [|fuel IH]; intros ptr; cbn [unit_data_loop]; keeps_tac. apply keeps_modify. intros s1 H1.
        unfold processUnitData. cbv zeta. by repeat (destruct (_ || _) || destruct (_ =? _)). }
      unfold handle_unit_data. cbv zeta. apply keeps_bind; [apply keeps_lift|]. intros len. apply keeps_bind; [apply Hl|]. intros _.
      apply keeps_bind; [|intros _]; apply keeps_modify; intros s1 H1; exact H1.
  - destruct (Hk s Hs) as [Hf ->]. split; [done|]. lia.
  - destruct e; try done. cbn [on_event is_packet]. split; [done|].
    change (m_pendingGamePackets (modify (handle_packet p unpacked) s).2) with (m_pendingGamePackets s ++ [(p, unpacked)]).
    rewrite length_app. cbn [length]. lia.
Qed.
Lemma events_add env es : ∀ s, same_feed s (for_each es (on_event env) s).2 ∧
  (length (m_pendingGamePackets (for_each es (on_event env) s).2) ≤ length (m_pendingGamePackets s) + length (filter (λ e, is_packet e = true) es))%nat.
Proof.
  induction es as [|e es IH]; intros s; [split; [done|cbn; lia]|]. cbn [for_each]. destruct (on_event_adds env e s) as [Hf Hp].
  assert (length (filter (λ e, is_packet e = true) (e :: es)) = (if is_packet e then 1 else 0) + length (filter (λ e, is_packet e = true) es))%nat as ->.
  { rewrite filter_cons. case_decide as Hd; destruct (is_packet e); done. }
  unfold mbind, stx_bind. destruct (on_event env e s) as [[[]|x| |] s1]; cbn [snd] in *; try (split; [done|lia]).
  destruct (IH s1) as [Hf1 Hp1]. split; [by trans s1|lia].
Qed.

(** nothing comes from the viewers, and the demo is a file of bytes *)
Definition feeding (s : Replayer) : Prop :=
  incoming s = [] ∧ connected s ∧ whole (m_recordReader (m_parser s)) ∧ are_bytes (m_demoDataStream s) ∧ handled (m_parser s) = [].
Definition work (s : Replayer) : nat := length (m_pendingGamePackets s) + length (m_demoDataStream s).
Lemma parse_demo_feeds env s : feeding s → (parse_demo env s).1 ≠ Hang ∧ feeding (parse_demo env s).2 ∧
  (work (parse_demo env s).2 ≤ work s)%nat ∧ performed (parse_demo env s).2 = performed s ∧ m_isPaused (parse_demo env s).2 = m_isPaused s.
Proof.
  intros (Hi & Hc & Hw & Hb & Hh). unfold parse_demo. pose proof (parse_ends (env_checks env) NUM_PAKS_TO_PRELOAD (m_parser s) _ Hw Hb) as Hp.
  destruct (parse (env_checks env) NUM_PAKS_TO_PRELOAD (m_parser s) (m_demoDataStream s)) as [[x p] rest]. destruct Hp as (Hx & Hw1 & Hb1 & Hl & Hpk).
  set (s1 := s <| m_parser := forget_events p |> <| m_demoDataStream := rest |> <| m_streamRead ::= _ |>).
  destruct (events_add env (handled p) s1) as [Hf Hn].
  assert (∀ r : stx Replayer unit, keeps (λ s2, (same_feed s1 s2 ∧ length (m_pendingGamePackets s2) ≤ length (m_pendingGamePackets s) + packets_of p)%nat) r →
    quick r → let out := (for_each (handled p) (on_event env) ≫= λ _, r) s1 in
    out.1 ≠ Hang ∧ same_feed s1 out.2 ∧ (length (m_pendingGamePackets out.2) ≤ length (m_pendingGamePackets s) + packets_of p)%nat) as Hout.
  { intros r Hk Hq. split; [apply quick_bind; [apply quick_for_each; intros e; apply quick_on_event|done]|].
    unfold mbind, stx_bind. destruct (for_each (handled p) (on_event env) s1) as [[[]|e| |] s2]; cbn [snd] in *; try done. by apply (Hk s2). }
  destruct (Hout (lift (_ ← x; Ok tt))) as (H1 & (F1 & F2 & F3 & F4 & F5 & F6) & H3); [intros s2 H2; exact H2|apply quick_lift; by destruct x|].
  unfold packets_of in Hpk. rewrite Hh, filter_nil in Hpk. cbn [length] in Hpk. split_and!; [done| | |done|done].
  - unfold feeding. rewrite F1, F3, F4. split_and!; [done| |done|done|done]. destruct Hc as (j & Ej & Hj). exists j. by rewrite F2.
  - unfold work. rewrite F4. change (m_demoDataStream s1) with rest. unfold packets_of in H3. lia.
Qed.

(** with nothing to receive the loop of [Receive] is over at once *)
Lemma receive_nothing body s : feeding s → ∃ s', receive_all body s = (Ok false, s') ∧ feeding s' ∧
  m_pendingGamePackets s' = m_pendingGamePackets s ∧ m_demoDataStream s' = m_demoDataStream s ∧
  performed s' = performed s ∧ m_isPaused s' = m_isPaused s.
Proof.
  intros (Hi & (j & Ej & Hj) & H). unfold receive_all. cbn [receive_loop]. unfold mbind at 1, stx_bind at 1, receive. rewrite Hi.
  cbn [next_answer]. set (size := bytesReceived s). set (s1 := s <| incoming := [] |>).
  assert (on_jd (dpReceive size (R_error size)) s1 = (Ok (None, size), s1 <| m_jdPlay := Some j |>)) as Er.
  { unfold on_jd. change (m_jdPlay s1) with (m_jdPlay s). rewrite Ej. unfold dpReceive, mbind, stx_bind, deref. by case_decide. }
  rewrite (stx_bind_ok _ _ _ _ _ Er), stx_modify. eexists. split; [reflexivity|]. split; [|done].
  split; [done|]. split; [by exists j|exact H].
Qed.
Lemma preload_feeds env s : feeding s → (preload env s).1 ≠ Hang ∧ feeding (preload env s).2 ∧ (work (preload env s).2 ≤ work s)%nat ∧
  performed (preload env s).2 = performed s ∧ m_isPaused (preload env s).2 = m_isPaused s.
Proof.
  intros Hs. unfold preload. rewrite stx_gets. destruct (_ <? _); [by apply parse_demo_feeds|]. by split_and!.
Qed.
Lemma play_packet_feeds p moves s : feeding s → feeding (play_packet p moves s).2 ∧ work (play_packet p moves s).2 = work s ∧
  m_pendingGamePackets (play_packet p moves s).2 = m_pendingGamePackets s.
Proof.
  intros Hs. set (P := λ s', feeding s' ∧ work s' = work s ∧ m_pendingGamePackets s' = m_pendingGamePackets s).
  assert (keeps P (play_packet p moves)) as Hk; [|by apply Hk].
  apply keeps_play_packet; try (intros; exact H); try (by intros).
  intros j s1 Ej ((H1 & (j' & Ej' & Hj') & H3) & H4). split; [|done]. split; [done|]. split; [|done]. exists j. split; [done|]. congruence.
Qed.

Definition turn_over (s : Replayer) : Prop := m_isPaused s = true ∨ target_reached s = true ∨ m_pendingGamePackets s = [].
Lemma play_loop_over `{Numbers} env fuel : ∀ s s', play_loop fuel env s = (Ok tt, s') → turn_over s'.
Proof.
  induction fuel as [|fuel IH]; intros s s'; [done|]. cbn [play_loop]. unfold mbind at 1, stx_bind at 1.
  destruct (receive_all _ s) as [[r|e| |] s1]; try done. unfold mbind at 1, stx_bind at 1.
  destruct (preload env s1) as [[r2|e| |] s2]; try done. rewrite stx_gets. unfold id.
  destruct (m_isPaused s2) eqn:Ep; [intros [= <-]; by left|]. destruct (target_reached s2) eqn:Et; [intros [= <-]; by right; left|]. cbn [orb].
  destruct (m_pendingGamePackets s2) as [|[packet moves] pending] eqn:Eq; [intros [= <-]; by right; right|].
  unfold mbind at 1, stx_bind at 1. destruct (play_packet packet moves s2) as [[r3|e| |] s3]; try done. rewrite stx_modify. apply IH.
Qed.
Lemma play_loop_ends `{Numbers} env fuel : ∀ s, feeding s → (work s < fuel)%nat → (play_loop fuel env s).1 ≠ Hang.
Proof.
  induction fuel as [|fuel IH]; intros s Hs Hf; [lia|]. cbn [play_loop].
  destruct (receive_nothing (playing_message env) s Hs) as (s1 & E1 & Hs1 & Ep1 & Ed1 & _). rewrite (stx_bind_ok _ _ _ _ _ E1).
  destruct (preload_feeds env s1 Hs1) as (Hn & Hs2 & Hw & _). unfold mbind at 1, stx_bind at 1.
  destruct (preload env s1) as [[[]|e| |] s2]; try done. cbn [fst snd] in *. rewrite stx_gets. unfold id.
  destruct (_ || _); [done|]. destruct (m_pendingGamePackets s2) as [|[packet moves] pending] eqn:Eq; [done|].
  pose proof (quick_play_packet packet moves s2) as Hq. destruct (play_packet_feeds packet moves s2 Hs2) as (Hs3 & Hw3 & Ep3).
  unfold mbind at 1, stx_bind at 1. destruct (play_packet packet moves s2) as [[[]|e| |] s3]; try done. cbn [fst snd] in *. rewrite stx_modify.
  apply IH; [exact Hs3|]. assert (work s1 = work s) as Hw1 by (unfold work; by rewrite Ep1, Ed1).
  unfold work in *. change (m_pendingGamePackets (s3 <| m_pendingGamePackets ::= tail |>)) with (tail (m_pendingGamePackets s3)).
  change (m_demoDataStream (s3 <| m_pendingGamePackets ::= tail |>)) with (m_demoDataStream s3). rewrite Ep3, Eq in *. cbn [tail length] in *. lia.
Qed.
Lemma play_loop_paused `{Numbers} env fuel s : feeding s → m_isPaused s = true → performed (play_loop (S fuel) env s).2 = performed s.
Proof.
  intros Hs Hi. cbn [play_loop]. destruct (receive_nothing (playing_message env) s Hs) as (s4 & E4 & Hs4 & _ & _ & Hp4 & Hi4).
  rewrite (stx_bind_ok _ _ _ _ _ E4). destruct (preload_feeds env s4 Hs4) as (_ & _ & _ & Hp5 & Hi5). unfold mbind at 1, stx_bind at 1.
  destruct (preload env s4) as [[[]|e| |] s5]; cbn [fst snd] in *; try congruence. rewrite stx_gets. unfold id.
  assert (m_isPaused s5 = true) as -> by congruence. cbn. congruence.
Qed.
Lemma set_target_feeds s : feeding s → (advance_target s).1 ≠ Hang ∧ feeding (advance_target s).2 ∧
  work (advance_target s).2 = work s ∧ performed (advance_target s).2 = performed s ∧ m_isPaused (advance_target s).2 = m_isPaused s.
Proof.
  intros Hs. unfold advance_target. assert (set_target s ≠ Hang) as Hn.
  { unfold set_target. cbv zeta. destruct (_ && _); [|done]. destruct (_ <? _); [done|].
    assert (∀ v, to_u32 v ≠ Hang) as Hu by (intros [v|]; [unfold to_u32, to_range; by case_match|done]).
    apply bind_no_hang; [apply Hu|]. intros. apply bind_no_hang; [apply Hu|done]. }
  destruct (set_target s) as [s'|e| |] eqn:E; try done. split; [done|]. revert E. unfold set_target. cbv zeta.
  destruct (_ && _); [|by intros [= <-]]. destruct (_ <? _); [by intros [= <-]|]. intros E. by res_inv.
Qed.
(** C23: a turn of the clock ends, whatever the demo holds, broken records included, and
    unless it ends in an exception or with a read out of bounds it plays as far as it
    should: afterwards the clock of the demo has come to that of the viewers, or nothing that
    has arrived is left to play, or the replay is paused.  (An ALLY_CHAT move of fewer than
    nine bytes does end the turn in an exception.)  While it is paused nothing is sent.  The replayer is connected, its parser
    is between two records or in one of a length that it accepts, and no message from a
    viewer arrives during the turn ([feeding]). *)
Theorem turn_plays_to_target `{Numbers} (env : Environment) (s : Replayer) : feeding s →
  (doPlay env s).1 ≠ Hang ∧
  (∀ over s', doPlay env s = (Ok over, s') → turn_over s') ∧
  (m_isPaused s = true → performed (doPlay env s).2 = performed s).
Proof.
  intros Hs. set (Q := λ r : res bool * Replayer, r.1 ≠ Hang ∧ (∀ over s', r = (Ok over, s') → turn_over s') ∧
    (m_isPaused s = true → performed r.2 = performed s)). change (Q (doPlay env s)). unfold doPlay, declare_bytesReceived.
  rewrite stx_modify. set (s0 := s <| bytesReceived := BUFFER_SIZE |>). assert (feeding s0) as Hs0 by exact Hs.
  change (performed s) with (performed s0) in Q. change (m_isPaused s) with (m_isPaused s0) in Q. clearbody s0. clear Hs s. rename s0 into s, Hs0 into Hs.
  destruct (preload_feeds env s Hs) as (Hn1 & Hs1 & _ & Hp1 & Hi1). unfold mbind at 1, stx_bind at 1.
  destruct (preload env s) as [x1 s1]. cbn [fst snd] in *. destruct x1 as [[]|e| |]; try (by split_and!). rewrite stx_modify.
  assert (feeding (control_rate s1)) as Hs2 by exact Hs1. destruct (set_target_feeds _ Hs2) as (Hn3 & Hs3 & _ & Hp3 & Hi3).
  change (performed (control_rate s1)) with (performed s1) in Hp3. change (m_isPaused (control_rate s1)) with (m_isPaused s1) in Hi3.
  unfold mbind at 1, stx_bind at 1. destruct (advance_target (control_rate s1)) as [x3 s3]. cbn [fst snd] in *.
  destruct x3 as [[]|e| |]; try (split_and!; [done|done|intros _; cbn; congruence]).
  pose proof (play_loop_ends env (S (work s3)) s3 Hs3 ltac:(lia)) as Hn4. pose proof (play_loop_over env (S (work s3)) s3) as Ho.
  assert (m_isPaused s = true → performed (play_loop (S (work s3)) env s3).2 = performed s) as Hq.
  { intros Hi. rewrite (play_loop_paused env (work s3) s3 Hs3); congruence. }
  unfold mbind, stx_bind. change (play_all env s3) with (play_loop (S (work s3)) env s3).
  destruct (play_loop (S (work s3)) env s3) as [x4 s4]. cbn [fst snd] in *. specialize (Ho s4).
  destruct x4 as [[]|e| |]; (split_and!; [done| |exact Hq]); try done. intros over s' [= _ <-]. by apply Ho.
Qed.
Lemma turn_plays_to_target_witness : let s := demo_arrives [1; 2; 3] ex_replayed in
  feeding s ∧ (@doPlay ex_numbers ex_environment s).1 ≠ Hang ∧
  (∀ over s', @doPlay ex_numbers ex_environment s = (Ok over, s') → turn_over s').
Proof.
  intros s. assert (feeding s) as Hs.
  { split; [vm_compute; reflexivity|]. split; [exists ex_jdPlay; split; vm_compute; reflexivity|]. split; [|split].
    - split; [intros H; vm_compute in H; discriminate H|]. bytes_compute.
    - bytes_compute.
    - vm_compute. reflexivity. }
  destruct (@turn_plays_to_target ex_numbers ex_environment s Hs) as (H1 & H2 & _). split; [exact Hs|]. split; [exact H1|exact H2].
Defined.
