(* ===== verification/ReplayerSync.v ===== *)
(** * Theorems on the synchronisation of units

    [doSyncWatcher] is a state machine over what the replayer knows of a viewer; a viewer
    who reports in time is released, and one who reports late is kept waiting. *)
From S2P Require Import Prelude ExceptState OrderedMaps TPacketCrypt TPacketCompress TPacketSplit TPacketSmartpak TPacketRecords DuplicateDetection TADemoRecords TADemoParser GpgNetMessages QtText JDPlay EngineeringNotation Replayer ReplayerLobby ReplayerFacts.
From coqutil Require Import Datatypes.RecordSetters.
#[local] Open Scope Z_scope.

(** ** The machine *)
Section Machine.
Context (N : Z).                           (* the number of units *)
(** what a turn makes of a viewer; [None] when it reads past the list of units *)
Definition sync_step (w : DpPlayer) : option DpPlayer :=
  let a := w_unitSyncNextUnit w in
  let c := w_unitSyncSendCount w in
  let r := w_unitSyncReceiveCount w in
  match w_state w with
  | START_SYNC => Some (w <| w_unitSyncNextUnit := 0 |> <| w_unitSyncSendCount := r + 1 |> <| w_state := SEND_UNITS |>)
  | SEND_UNITS =>
      if N <=? a then None
      else if a + 100 <? N then Some (w <| w_unitSyncNextUnit := a + 100 |> <| w_unitSyncSendCount := c + 100 |>)
      else Some (w <| w_unitSyncNextUnit := 0 |> <| w_unitSyncSendCount := c + (N - a) |> <| w_state := WAIT_RECEIVE_UNITS |>)
  | WAIT_RECEIVE_UNITS =>
      let w := w <| w_unitSyncNextUnit := a + 1 |> in
      Some (if c <=? r + 1 then w <| w_unitSyncSendCount := r |> <| w_state := CHECK_ERRORS |>
            else if 10 <? a + 1 then w <| w_state := START_SYNC |> else w)
  | CHECK_ERRORS => Some (w <| w_state := SEND_ACKS |> <| w_unitSyncNextUnit := 0 |>)
  | SEND_ACKS =>
      if N <=? a then None
      else
        let w := w <| w_unitSyncNextUnit := (a + 100) mod N |> <| w_unitSyncSendCount := c + 100 |> in
        Some (if N <=? a + 100 then w <| w_state := WAIT_ACKS |> else w)
  | WAIT_ACKS =>
      let w := w <| w_unitSyncNextUnit := a + 1 |> in
      Some (if r =? c then w <| w_state := END_SYNC |>
            else if 30 <? a + 1 then w <| w_state := SEND_ACKS |> <| w_unitSyncSendCount := N + 1 |> else w)
  | END_SYNC => Some (w <| w_state := WAIT_GO |>)
  | WAIT_GO | LOADING | PLAYING => Some w
  end.
(** how many messages go to the viewer *)
Definition sync_sent (w : DpPlayer) : Z :=
  match w_state w with
  | START_SYNC => 2
  | SEND_UNITS => Z.min 100 (N - w_unitSyncNextUnit w)
  | SEND_ACKS => 100
  | _ => 0
  end.
End Machine.

(** ** The replayer during a turn *)
Definition to_viewer (id : Z) (a : action) : bool := match a with Call (DP_Send _ t _ _) => t =? id | _ => false end.
Definition sent_to (id : Z) (s : Replayer) : Z := Z.of_nat (length (filter (λ a, to_viewer id a = true) (performed s))).
(** the connection, the players and the units are as before; [m] of the viewers, and [k]
    more messages for this one *)
Definition turned (id : Z) (m : gmap Z DpPlayer) (k : Z) (s s' : Replayer) : Prop :=
  m_jdPlay s' = m_jdPlay s ∧ m_demoPlayers s' = m_demoPlayers s ∧ m_demoUnitInfo s' = m_demoUnitInfo s ∧
  m_demoUnitInfoLinear s' = m_demoUnitInfoLinear s ∧ m_dpPlayers s' = m ∧ sent_to id s' = sent_to id s + k.
(** there are [N] units, all of them known, and a host *)
Record sync_ready (N : Z) (s : Replayer) : Prop := {
  sr_connected : connected s;
  sr_host : is_Some (m_demoPlayers s !! 0%nat);
  sr_linear : Z.of_nat (length (m_demoUnitInfoLinear s)) = N;
  sr_size : Z.of_nat (size (m_demoUnitInfo s)) = N;
  sr_units : Forall (λ k, is_Some (m_demoUnitInfo s !! k)) (m_demoUnitInfoLinear s) }.
Lemma turned_ready N id m k s s' : turned id m k s s' → sync_ready N s → sync_ready N s'.
Proof.
  intros (E1 & E2 & E3 & E4 & _) [(j & Ej & Hj) H2 H3 H4 H5]. split; rewrite ?E2, ?E3, ?E4; try done. exists j. by rewrite E1.
Qed.
Lemma turned_trans id m1 m2 k1 k2 s s1 s2 : turned id m1 k1 s s1 → turned id m2 k2 s1 s2 → turned id m2 (k1 + k2) s s2.
Proof. intros (?&?&?&?&?&?) (?&?&?&?&?&?). split_and!; try congruence. lia. Qed.
Lemma sent_to_perform id a s : sent_to id (perform a s) = sent_to id s + (if to_viewer id a then 1 else 0).
Proof.
  unfold sent_to. change (performed (perform a s)) with (performed s ++ [a]).
  rewrite filter_app, length_app, filter_cons, filter_nil. case_decide as Hd; [rewrite Hd|apply not_true_is_false in Hd; rewrite Hd]; cbn [length]; lia.
Qed.

Section Turn.
Context (env : Environment) (N id : Z) (Hid : id ≠ 0).
Lemma send_turned f t p s : connected s → ∃ s', send f t p s = (Ok tt, s') ∧ turned id (m_dpPlayers s) (if t =? id then 1 else 0) s s'.
Proof using.
  intros Hc. unfold send. rewrite stx_gets.
  set (s1 := if t =? 0 then s <| m_tcpSeq := u32 (m_tcpSeq s - 1) |> else s).
  assert (when (t =? 0) (modify (λ s0, s0 <| m_tcpSeq := u32 (m_tcpSeq s - 1) |>)) s = (Ok tt, s1)) as E by (unfold s1; by destruct (t =? 0)).
  rewrite (stx_bind_ok _ _ _ _ _ E). cbv zeta.
  assert (connected s1 ∧ turned id (m_dpPlayers s) 0 s s1) as [Hc1 H1].
  { unfold s1. destruct (t =? 0); (split; [exact Hc|]); split_and!; try done; change (sent_to id _) with (sent_to id s); lia. }
  erewrite (call_ok _ (DP_Send f t 1 _)); [|done|apply forwards_ok]. eexists. split; [reflexivity|].
  apply (turned_trans id (m_dpPlayers s) (m_dpPlayers s) 0 _ _ _ _ H1). split_and!; try done; [change (m_dpPlayers s1 = m_dpPlayers s); apply H1|].
  rewrite sent_to_perform. done.
Qed.
Lemma say_turned f text s : connected s → ∃ s', say f text s = (Ok tt, s') ∧ turned id (m_dpPlayers s) 0 s s'.
Proof using Hid.
  intros Hc. unfold say, sendUdp. erewrite (call_ok _ (DP_Send f 0 0 _)); [|done|apply forwards_ok]. eexists. split; [reflexivity|].
  split_and!; try done. rewrite sent_to_perform. cbn [to_viewer]. destruct (Z.eqb_spec 0 id); [by subst|lia].
Qed.
Lemma upd_turned f w s : m_dpPlayers s !! id = Some w → turned id (<[id := f w]> (m_dpPlayers s)) 0 s (upd_dp id f s).
Proof using.
  intros Hw. split_and!; try done.
  - change (m_dpPlayers (upd_dp id f s)) with (alter f id (m_dpPlayers s)). apply map_eq. intros i. destruct (decide (i = id)) as [->|Hi].
    + by rewrite lookup_alter_eq, lookup_insert_eq, Hw.
    + by rewrite lookup_alter_ne, lookup_insert_ne.
  - change (sent_to id (upd_dp id f s)) with (sent_to id s). lia.
Qed.
Lemma get_dp_ok w s : m_dpPlayers s !! id = Some w → get_dp id s = (Ok w, s).
Proof using. intros Hw. unfold get_dp. by rewrite Hw. Qed.
Lemma unit_info_ok n s : sync_ready N s → 0 ≤ n → if n <? N then ∃ i, unit_info n s = (Ok i, s) else unit_info n s = (Undef, s).
Proof using.
  intros [_ _ Hl _ Hu] Hn. unfold unit_info. rewrite (proj2 (Z.leb_le _ _) Hn). destruct (Z.ltb_spec n N).
  - destruct (lookup_lt_is_Some_2 (m_demoUnitInfoLinear s) (Z.to_nat n)) as [k Hk]; [lia|]. rewrite Hk. cbn.
    rewrite Forall_forall in Hu. destruct (Hu k) as [i Hi]; [by eapply list_elem_of_lookup_2|]. rewrite Hi. by exists i.
  - by rewrite lookup_ge_None_2 by lia.
Qed.

(** one unit *)
Definition one_more (w : DpPlayer) : DpPlayer := w <| w_unitSyncNextUnit ::= Z.succ |> <| w_unitSyncSendCount ::= Z.succ |>.
Lemma send_unit_turned host w s : sync_ready N s → m_dpPlayers s !! id = Some w → 0 ≤ w_unitSyncNextUnit w →
  if w_unitSyncNextUnit w <? N then
    ∃ s', send_unit host id s = (Ok (w_unitSyncNextUnit w + 1), s') ∧ turned id (<[id := one_more w]> (m_dpPlayers s)) 1 s s'
  else (send_unit host id s).1 = Undef.
Proof using.
  intros Hs Hw Hn. unfold send_unit. rewrite (stx_bind_ok _ _ _ _ _ (get_dp_ok w s Hw)). pose proof (unit_info_ok _ s Hs Hn) as Hu.
  destruct (w_unitSyncNextUnit w <? N).
  - destruct Hu as (i & Ei). rewrite (stx_bind_ok _ _ _ _ _ Ei).
    destruct (send_turned host id (TUnitData_asSubPacket (TUnitData_make (ui_id i) (ui_limit i) true)) s (sr_connected _ _ Hs)) as (s1 & E1 & H1).
    rewrite (stx_bind_ok _ _ _ _ _ E1), stx_modify. eexists. split; [reflexivity|]. rewrite Z.eqb_refl in H1.
    assert (m_dpPlayers s1 = m_dpPlayers s) as Em by apply H1. change 1 with (1 + 0).
    apply (turned_trans _ _ _ _ _ _ _ _ H1). rewrite <- Em. apply (upd_turned one_more). by rewrite Em.
  - unfold mbind, stx_bind. by rewrite Hu.
Qed.

(** one assignment after another *)
Lemma turned_then m k s s1 w f : turned id m k s s1 → m !! id = Some w → turned id (<[id := f w]> m) k s (upd_dp id f s1).
Proof using.
  intros H Hw. rewrite <- (Z.add_0_r k). apply (turned_trans _ _ _ _ _ _ _ _ H).
  assert (m_dpPlayers s1 = m) as <- by apply H. by apply upd_turned.
Qed.
Lemma turned_set m k w w' s s1 : turned id (<[id := w]> m) k s s1 → w = w' → turned id (<[id := w']> m) k s s1.
Proof using. by intros H ->. Qed.

Ltac watcher_eq w := destruct w; cbn in *; unfold constant; f_equal; lia.
(** the first loop stops after the last unit *)
Definition units_after (n : Z) (w : DpPlayer) : DpPlayer :=
  let a := w_unitSyncNextUnit w in
  let c := w_unitSyncSendCount w in
  if a + n <? N then w <| w_unitSyncNextUnit := a + n |> <| w_unitSyncSendCount := c + n |>
  else w <| w_unitSyncNextUnit := 0 |> <| w_unitSyncSendCount := c + (N - a) |> <| w_state := WAIT_RECEIVE_UNITS |>.
Lemma send_units_turned host n : ∀ s w, sync_ready N s → m_dpPlayers s !! id = Some w → 0 ≤ w_unitSyncNextUnit w < N → ∃ s',
  send_units_loop n host id s = (Ok tt, s') ∧
  turned id (<[id := units_after (Z.of_nat n) w]> (m_dpPlayers s)) (Z.min (Z.of_nat n) (N - w_unitSyncNextUnit w)) s s'.
Proof using Hid.
  induction n as [|n IH]; intros s w Hs Hw Ha.
  - exists s. split; [done|]. assert (units_after (Z.of_nat 0) w = w) as ->.
    { unfold units_after. rewrite (proj2 (Z.ltb_lt _ _)) by lia. watcher_eq w. }
    rewrite insert_id by done. replace (Z.min _ _) with 0 by lia. split_and!; try done. lia.
  - cbn [send_units_loop]. pose proof (send_unit_turned host w s Hs Hw ltac:(lia)) as Hu. rewrite (proj2 (Z.ltb_lt _ _)) in Hu by lia.
    destruct Hu as (s1 & E1 & H1). rewrite (stx_bind_ok _ _ _ _ _ E1), stx_gets.
    pose proof (turned_ready _ _ _ _ _ _ H1 Hs) as Hs1. rewrite (sr_linear _ _ Hs1).
    assert (m_dpPlayers s1 = <[id := one_more w]> (m_dpPlayers s)) as Em1 by apply H1.
    assert (m_dpPlayers s1 !! id = Some (one_more w)) as Hw1 by (by rewrite Em1, lookup_insert_eq).
    destruct (Z.eqb_spec (w_unitSyncNextUnit w + 1) N) as [Hl|Hl].
    + unfold send_count. unfold mbind at 1, stx_bind at 1. rewrite (stx_bind_ok _ _ _ _ _ (get_dp_ok _ s1 Hw1)). unfold mret, stx_ret.
      destruct (say_turned host (str "*** Sent all units - " ++ number (w_unitSyncSendCount (one_more w))) s1 (sr_connected _ _ Hs1)) as (s2 & E2 & H2).
      rewrite (stx_bind_ok _ _ _ _ _ E2). eexists. split; [reflexivity|]. replace (Z.min _ _) with (1 + 0) by lia.
      pose proof (turned_trans _ _ _ _ _ _ _ _ H1 H2) as H12. rewrite Em1 in H12.
      pose proof (turned_then _ _ _ _ (one_more w) (λ w, w <| w_unitSyncNextUnit := 0 |> <| w_state := WAIT_RECEIVE_UNITS |>) H12 (lookup_insert_eq _ _ _)) as H.
      rewrite insert_insert_eq in H. apply (turned_set _ _ _ _ _ _ H).
      unfold units_after. rewrite (proj2 (Z.ltb_ge _ _)) by lia. watcher_eq w.
    + destruct (IH s1 (one_more w) Hs1 Hw1) as (s2 & E2 & H2); [change (w_unitSyncNextUnit (one_more w)) with (Z.succ (w_unitSyncNextUnit w)); lia|].
      exists s2. split; [done|]. change (w_unitSyncNextUnit (one_more w)) with (Z.succ (w_unitSyncNextUnit w)) in H2.
      pose proof (turned_trans _ _ _ _ _ _ _ _ H1 H2) as H12. rewrite Em1, insert_insert_eq in H12.
      replace (Z.min (Z.of_nat (S n)) _) with (1 + Z.min (Z.of_nat n) (N - Z.succ (w_unitSyncNextUnit w))) by lia.
      apply (turned_set _ _ _ _ _ _ H12). unfold units_after. change (w_unitSyncNextUnit (one_more w)) with (Z.succ (w_unitSyncNextUnit w)).
      replace (Z.succ (w_unitSyncNextUnit w) + Z.of_nat n) with (w_unitSyncNextUnit w + Z.of_nat (S n)) by lia.
      destruct (_ <? N); watcher_eq w.
Qed.

(** the second loop goes round *)
Definition acks_after (n : Z) (w : DpPlayer) : DpPlayer :=
  let a := w_unitSyncNextUnit w in
  let w' := w <| w_unitSyncNextUnit := (a + n) mod N |> <| w_unitSyncSendCount := w_unitSyncSendCount w + n |> in
  if N <=? a + n then w' <| w_state := WAIT_ACKS |> else w'.
Lemma send_acks_turned host n : ∀ s w, sync_ready N s → m_dpPlayers s !! id = Some w → 0 ≤ w_unitSyncNextUnit w < N → ∃ s',
  send_acks_loop n host id s = (Ok tt, s') ∧ turned id (<[id := acks_after (Z.of_nat n) w]> (m_dpPlayers s)) (Z.of_nat n) s s'.
Proof using Hid.
  induction n as [|n IH]; intros s w Hs Hw Ha.
  - exists s. split; [done|]. assert (acks_after (Z.of_nat 0) w = w) as ->.
    { unfold acks_after. change (Z.of_nat 0) with 0. rewrite (proj2 (Z.leb_gt _ _)) by lia. rewrite !Z.add_0_r, Z.mod_small by done. watcher_eq w. }
    rewrite insert_id by done. split_and!; try done. lia.
  - cbn [send_acks_loop]. pose proof (send_unit_turned host w s Hs Hw ltac:(lia)) as Hu. rewrite (proj2 (Z.ltb_lt _ _)) in Hu by lia.
    destruct Hu as (s1 & E1 & H1). rewrite (stx_bind_ok _ _ _ _ _ E1), stx_gets.
    pose proof (turned_ready _ _ _ _ _ _ H1 Hs) as Hs1. rewrite (sr_size _ _ Hs1).
    assert (m_dpPlayers s1 = <[id := one_more w]> (m_dpPlayers s)) as Em1 by apply H1.
    assert (m_dpPlayers s1 !! id = Some (one_more w)) as Hw1 by (by rewrite Em1, lookup_insert_eq).
    set (w1 := if w_unitSyncNextUnit w + 1 =? N then (one_more w) <| w_unitSyncNextUnit := 0 |> <| w_state := WAIT_ACKS |> else one_more w).
    assert (∃ s2, when (w_unitSyncNextUnit w + 1 =? N) (sent ← send_count id; say host (str "*** Sent ack on all units - " ++ sent) ≫= λ _,
        modify (upd_dp id (λ w, w <| w_unitSyncNextUnit := 0 |> <| w_state := WAIT_ACKS |>))) s1 = (Ok tt, s2) ∧
      turned id (<[id := w1]> (m_dpPlayers s)) 1 s s2) as (s2 & E2 & H2).
    { unfold w1. destruct (Z.eqb_spec (w_unitSyncNextUnit w + 1) N); cbn [when]; [|by exists s1].
      unfold send_count. unfold mbind at 1, stx_bind at 1. rewrite (stx_bind_ok _ _ _ _ _ (get_dp_ok _ s1 Hw1)). unfold mret, stx_ret.
      destruct (say_turned host (str "*** Sent ack on all units - " ++ number (w_unitSyncSendCount (one_more w))) s1 (sr_connected _ _ Hs1)) as (s2 & E2 & H2).
      rewrite (stx_bind_ok _ _ _ _ _ E2). eexists. split; [reflexivity|]. change 1 with (1 + 0).
      pose proof (turned_trans _ _ _ _ _ _ _ _ H1 H2) as H12. rewrite Em1 in H12.
      pose proof (turned_then _ _ _ _ (one_more w) (λ w, w <| w_unitSyncNextUnit := 0 |> <| w_state := WAIT_ACKS |>) H12 (lookup_insert_eq _ _ _)) as H.
      by rewrite insert_insert_eq in H. }
    rewrite (stx_bind_ok _ _ _ _ _ E2). pose proof (turned_ready _ _ _ _ _ _ H2 Hs) as Hs2.
    assert (m_dpPlayers s2 = <[id := w1]> (m_dpPlayers s)) as Em2 by apply H2.
    assert (w_unitSyncNextUnit w1 = (w_unitSyncNextUnit w + 1) mod N) as En.
    { unfold w1. destruct (Z.eqb_spec (w_unitSyncNextUnit w + 1) N) as [->|].
      - by rewrite Z_mod_same_full.
      - rewrite Z.mod_small by lia. change (w_unitSyncNextUnit (one_more w)) with (Z.succ (w_unitSyncNextUnit w)). lia. }
    destruct (IH s2 w1 Hs2) as (s3 & E3 & H3); [by rewrite Em2, lookup_insert_eq|rewrite En; apply Z.mod_pos_bound; lia|].
    exists s3. split; [done|]. pose proof (turned_trans _ _ _ _ _ _ _ _ H2 H3) as H12. rewrite Em2, insert_insert_eq in H12.
    replace (Z.of_nat (S n)) with (1 + Z.of_nat n) by lia. apply (turned_set _ _ _ _ _ _ H12). unfold acks_after. rewrite En.
    rewrite Z.add_mod_idemp_l by lia. replace (w_unitSyncNextUnit w + 1 + Z.of_nat n) with (w_unitSyncNextUnit w + (1 + Z.of_nat n)) by lia.
    unfold w1. destruct (Z.eqb_spec (w_unitSyncNextUnit w + 1) N) as [Hl|Hl].
    + rewrite Hl, Z_mod_same_full. rewrite (proj2 (Z.leb_le N (w_unitSyncNextUnit w + (1 + Z.of_nat n)))) by lia.
      destruct (_ <=? _); watcher_eq w.
    + rewrite Z.mod_small by lia. replace (w_unitSyncNextUnit w + 1 + Z.of_nat n) with (w_unitSyncNextUnit w + (1 + Z.of_nat n)) by lia.
      destruct (_ <=? _); watcher_eq w.
Qed.

(** ** A turn *)
Context (s : Replayer) (w : DpPlayer) (Hs : sync_ready N s) (Hw : m_dpPlayers s !! id = Some w) (Ha : 0 ≤ w_unitSyncNextUnit w).
#[local] Abbreviation now v k := (turned id (<[id := v]> (m_dpPlayers s)) k s).
Lemma now_start : now w 0 s.
Proof using Hw. rewrite insert_id by done. split_and!; try done. lia. Qed.
Lemma now_upd v k s1 f : now v k s1 → now (f v) k (upd_dp id f s1).
Proof using. intros H. pose proof (turned_then _ _ _ _ v f H (lookup_insert_eq _ _ _)) as H'. by rewrite insert_insert_eq in H'. Qed.
Lemma now_send v k s1 f t p : now v k s1 → ∃ s2, send f t p s1 = (Ok tt, s2) ∧ now v (k + if t =? id then 1 else 0) s2.
Proof using Hs.
  intros H. destruct (send_turned f t p s1 (sr_connected _ _ (turned_ready _ _ _ _ _ _ H Hs))) as (s2 & E & H2). exists s2. split; [done|].
  assert (m_dpPlayers s1 = <[id := v]> (m_dpPlayers s)) as Em by apply H. rewrite Em in H2. by apply (turned_trans _ _ _ _ _ _ _ _ H).
Qed.
Lemma now_say v k s1 f text : now v k s1 → ∃ s2, say f text s1 = (Ok tt, s2) ∧ now v k s2.
Proof using Hs Hid.
  intros H. destruct (say_turned f text s1 (sr_connected _ _ (turned_ready _ _ _ _ _ _ H Hs))) as (s2 & E & H2). exists s2. split; [done|].
  assert (m_dpPlayers s1 = <[id := v]> (m_dpPlayers s)) as Em by apply H. rewrite Em in H2. rewrite <- (Z.add_0_r k). by apply (turned_trans _ _ _ _ _ _ _ _ H).
Qed.
Lemma now_say_when b v k s1 f text : now v k s1 → ∃ s2, when b (say f text) s1 = (Ok tt, s2) ∧ now v k s2.
Proof using Hs Hid. intros H. destruct b; cbn [when]; [by apply now_say|by exists s1]. Qed.

Lemma doSyncWatcher_turn : w_state w ∉ [WAIT_GO; LOADING; PLAYING] →
  match sync_step N w with
  | Some w' => ∃ s', doSyncWatcher env id s = (Ok 0, s') ∧ now w' (sync_sent N w) s'
  | None => (doSyncWatcher env id s).1 = Undef
  end.
Proof using All.
  intros Hst. destruct (sr_host _ _ Hs) as [host Eh]. unfold doSyncWatcher.
  assert (demo_player 0 s = (Ok host, s)) as E0 by (unfold demo_player; by rewrite Eh).
  rewrite !(stx_bind_ok _ _ _ _ _ E0). cbv zeta. rewrite !(stx_bind_ok _ _ _ _ _ (get_dp_ok w s Hw)).
  pose proof now_start as H0. unfold sync_step, sync_sent. destruct (w_state w) eqn:Ew; try (by destruct Hst; set_solver).
  - (* START_SYNC *)
    rewrite stx_modify. apply (now_upd _ _ _ (λ w, w <| w_unitSyncNextUnit := 0 |> <| w_unitSyncSendCount := w_unitSyncReceiveCount w |>)) in H0.
    destruct (now_send _ _ _ (dm_dpId host) id (createHostMigrationSubpacket (w_ordinalId w)) H0) as (s1 & E1 & H1).
    rewrite (stx_bind_ok _ _ _ _ _ E1).
    destruct (now_send _ _ _ (dm_dpId host) id (TUnitData_asSubPacket (TUnitData_default (env_sizeof_ptr env) (env_unit env))) H1) as (s2 & E2 & H2).
    rewrite (stx_bind_ok _ _ _ _ _ E2), stx_modify. rewrite Z.eqb_refl in H2. eexists. split; [reflexivity|].
    apply (now_upd _ _ _ (λ w, w <| w_unitSyncSendCount ::= Z.succ |> <| w_state := SEND_UNITS |>)) in H2.
    apply (turned_set _ _ _ _ _ _ H2). watcher_eq w.
  - (* SEND_UNITS *)
    destruct (Z.leb_spec N (w_unitSyncNextUnit w)) as [Hn|Hn].
    + unfold UNITS_SYNC_PER_TICK. cbn [send_units_loop]. pose proof (send_unit_turned (dm_dpId host) w s Hs Hw Ha) as Hu.
      rewrite (proj2 (Z.ltb_ge _ _)) in Hu by lia. unfold mbind at 1, stx_bind at 1. unfold mbind at 1, stx_bind at 1.
      destruct (send_unit (dm_dpId host) id s) as [[]]; try done.
    + destruct (send_units_turned (dm_dpId host) UNITS_SYNC_PER_TICK s w Hs Hw ltac:(lia)) as (s1 & E1 & H1).
      rewrite (stx_bind_ok _ _ _ _ _ E1). change (Z.of_nat UNITS_SYNC_PER_TICK) with 100 in H1. unfold units_after in H1.
      destruct (_ <? N); (eexists; split; [reflexivity|exact H1]).
  - (* WAIT_RECEIVE_UNITS *)
    rewrite stx_modify. apply (now_upd _ _ _ (λ w, w <| w_unitSyncNextUnit ::= Z.succ |>)) in H0.
    destruct (_ <=? _); [|destruct (10 <? _)].
    + rewrite stx_modify. eexists. split; [reflexivity|].
      apply (now_upd _ _ _ (λ w, w <| w_unitSyncSendCount := w_unitSyncReceiveCount w |> <| w_state := CHECK_ERRORS |>)) in H0.
      apply (turned_set _ _ _ _ _ _ H0). watcher_eq w.
    + rewrite stx_bind_assoc. destruct (now_say _ _ _ (dm_dpId host) (ack_status w) H0) as (s1 & E1 & H1). rewrite (stx_bind_ok _ _ _ _ _ E1).
      rewrite stx_bind_assoc. destruct (now_say _ _ _ (dm_dpId host) (str "*** Attempting resync") H1) as (s2 & E2 & H2).
      rewrite (stx_bind_ok _ _ _ _ _ E2), stx_modify. eexists. split; [reflexivity|].
      apply (now_upd _ _ _ (λ w, w <| w_state := START_SYNC |>)) in H2. apply (turned_set _ _ _ _ _ _ H2). watcher_eq w.
    + rewrite stx_ret_bind. eexists. split; [reflexivity|]. apply (turned_set _ _ _ _ _ _ H0). watcher_eq w.
  - (* CHECK_ERRORS *)
    rewrite stx_gets.
    lazymatch goal with |- context [(when ?b (say ?f ?t) ≫= _) _] => destruct (now_say_when b _ _ _ f t H0) as (s1 & E1 & H1) end.
    rewrite (stx_bind_ok _ _ _ _ _ E1).
    lazymatch goal with |- context [(when ?b (say ?f ?t) ≫= _) _] => destruct (now_say_when b _ _ _ f t H1) as (s2 & E2 & H2) end.
    rewrite (stx_bind_ok _ _ _ _ _ E2), stx_modify. eexists. split; [reflexivity|].
    apply (now_upd _ _ _ (λ w, w <| w_state := SEND_ACKS |> <| w_unitSyncNextUnit := 0 |>)) in H2. exact H2.
  - (* SEND_ACKS *)
    destruct (Z.leb_spec N (w_unitSyncNextUnit w)) as [Hn|Hn].
    + unfold UNITS_SYNC_PER_TICK. cbn [send_acks_loop]. pose proof (send_unit_turned (dm_dpId host) w s Hs Hw Ha) as Hu.
      rewrite (proj2 (Z.ltb_ge _ _)) in Hu by lia. unfold mbind at 1, stx_bind at 1. unfold mbind at 1, stx_bind at 1.
      destruct (send_unit (dm_dpId host) id s) as [[]]; try done.
    + destruct (send_acks_turned (dm_dpId host) UNITS_SYNC_PER_TICK s w Hs Hw ltac:(lia)) as (s1 & E1 & H1).
      rewrite (stx_bind_ok _ _ _ _ _ E1). change (Z.of_nat UNITS_SYNC_PER_TICK) with 100 in H1. eexists. split; [reflexivity|]. exact H1.
  - (* WAIT_ACKS *)
    rewrite stx_modify. apply (now_upd _ _ _ (λ w, w <| w_unitSyncNextUnit ::= Z.succ |>)) in H0.
    destruct (_ =? _); [|destruct (30 <? _)].
    + rewrite stx_modify. eexists. split; [reflexivity|].
      apply (now_upd _ _ _ (λ w, w <| w_state := END_SYNC |>)) in H0. apply (turned_set _ _ _ _ _ _ H0). watcher_eq w.
    + rewrite stx_bind_assoc. destruct (now_say _ _ _ (dm_dpId host) (ack_status w) H0) as (s1 & E1 & H1). rewrite (stx_bind_ok _ _ _ _ _ E1).
      rewrite stx_bind_assoc. destruct (now_say _ _ _ (dm_dpId host) (str "*** Attempting resync 2") H1) as (s2 & E2 & H2).
      rewrite (stx_bind_ok _ _ _ _ _ E2), stx_bind_assoc, stx_gets, stx_modify. rewrite (sr_size _ _ (turned_ready _ _ _ _ _ _ H2 Hs)).
      eexists. split; [reflexivity|].
      apply (now_upd _ _ _ (λ w, w <| w_state := SEND_ACKS |> <| w_unitSyncSendCount := N + 1 |>)) in H2. apply (turned_set _ _ _ _ _ _ H2). watcher_eq w.
    + rewrite stx_ret_bind. eexists. split; [reflexivity|]. apply (turned_set _ _ _ _ _ _ H0). watcher_eq w.
  - (* END_SYNC *)
    destruct (now_say _ _ _ (dm_dpId host) (str "*** Unit sync is complete") H0) as (s1 & E1 & H1). rewrite (stx_bind_ok _ _ _ _ _ E1), stx_modify.
    eexists. split; [reflexivity|]. by apply (now_upd _ _ _ (λ w, w <| w_state := WAIT_GO |>)) in H1.
Qed.
End Turn.

(** ** The refinement *)
Definition syncing (w : DpPlayer) : Prop := w_state w ∉ [WAIT_GO; LOADING; PLAYING].
(** C24: until a viewer is ready, a turn of the synchronisation does to what the replayer
    knows of the viewer what the machine [sync_step] says, sends the viewer as many
    messages as [sync_sent] counts, and changes neither other viewers, nor the players and
    units of the demo; and where the machine has no step, the code reads past the end of
    its list of units. *)
Theorem doSyncWatcher_refines (env : Environment) (N id : Z) (s : Replayer) (w : DpPlayer) :
  id ≠ 0 → sync_ready N s → m_dpPlayers s !! id = Some w → 0 ≤ w_unitSyncNextUnit w → syncing w →
  match sync_step N w with
  | Some w' => ∃ s', doSyncWatcher env id s = (Ok 0, s') ∧ turned id (<[id := w']> (m_dpPlayers s)) (sync_sent N w) s s'
  | None => (doSyncWatcher env id s).1 = Undef
  end.
Proof. intros Hid Hs Hw Ha Hst. by apply doSyncWatcher_turn. Qed.

(** ** A viewer who reports in time *)

(** the number that a viewer reports has 16 bits on its way to the replayer *)
Definition reports (id n : Z) (s : Replayer) : Replayer := upd_dp id (λ w, w <| w_unitSyncReceiveCount := u16 n |>) s.
Lemma reports_turned id n s w : m_dpPlayers s !! id = Some w →
  turned id (<[id := w <| w_unitSyncReceiveCount := u16 n |>]> (m_dpPlayers s)) 0 s (reports id n s).
Proof. apply (upd_turned id (λ v, v <| w_unitSyncReceiveCount := u16 n |>)). Qed.
(** a turn before which the viewer has received, and reported, as much as was sent *)
Definition prompt_turn (env : Environment) (id : Z) : rp Z :=
  w ← get_dp id; modify (reports id (w_unitSyncSendCount w)) ≫= λ _, doSyncWatcher env id.
(** what happens between the turns of this viewer: anything that keeps the connection, the
    host and the units, and what the replayer knows of him *)
Definition undisturbed (N id : Z) (s s' : Replayer) : Prop :=
  (sync_ready N s → sync_ready N s') ∧ m_dpPlayers s' !! id = m_dpPlayers s !! id.
Inductive prompt_run (env : Environment) (N id : Z) : nat → Replayer → Replayer → Prop :=
  | run_start s : prompt_run env N id 0 s s
  | run_others k s s1 s2 : prompt_run env N id k s s1 → undisturbed N id s1 s2 → prompt_run env N id k s s2
  | run_turn k s s1 s2 : prompt_run env N id k s s1 → prompt_turn env id s1 = (Ok 0, s2) → prompt_run env N id (S k) s s2.
(** the turn of another viewer is of this kind, unless it reads past the list of units *)
Lemma other_turn_undisturbed env N id other s w r s' : other ≠ 0 → other ≠ id → sync_ready N s → m_dpPlayers s !! other = Some w →
  0 ≤ w_unitSyncNextUnit w → syncing w → doSyncWatcher env other s = (Ok r, s') → undisturbed N id s s'.
Proof.
  intros H0 Hne Hs Hw Ha Hst E. pose proof (doSyncWatcher_turn env N other H0 s w Hs Hw Ha Hst) as Ht.
  destruct (sync_step N w) as [w'|]; [|by rewrite E in Ht]. destruct Ht as (s1 & E1 & H1). rewrite E in E1. injection E1 as _ <-.
  split; [intros _; by apply (turned_ready _ _ _ _ _ _ H1)|]. destruct H1 as (_ & _ & _ & _ & -> & _). by rewrite lookup_insert_ne.
Qed.

Definition prompt (w : DpPlayer) : DpPlayer := w <| w_unitSyncReceiveCount := w_unitSyncSendCount w |>.
Inductive path (N : Z) : nat → DpPlayer → DpPlayer → Prop :=
  | path_nil w : path N 0 w w
  | path_step k w w1 w' : syncing w → 0 ≤ w_unitSyncNextUnit w → is_u16 (w_unitSyncSendCount w) → sync_step N (prompt w) = Some w1 →
      path N k w1 w' → path N (S k) w w'.
Lemma path_app N j k w w1 w' : path N j w w1 → path N k w1 w' → path N (j + k) w w'.
Proof. induction 1; [done|]. intros Hk. cbn [Nat.add]. eapply path_step; eauto. Qed.
(** the machine has no choice: what is left of a path begins where a part of it ends *)
Lemma path_rest N j k w w1 w' : path N j w w1 → path N k w w' → (j ≤ k)%nat → path N (k - j) w1 w'.
Proof.
  intros H. revert k. induction H as [w|j w v w1 _ _ _ E _ IH]; intros k Hk Hl; [by rewrite Nat.sub_0_r|].
  destruct k as [|k]; [lia|]. inversion Hk as [|? ? v' ? _ _ _ E' Hrest]; subst. rewrite E in E'. injection E' as <-.
  cbn [Nat.sub]. apply IH; [done|lia].
Qed.
Lemma prompt_turn_step env N id s w w1 : id ≠ 0 → sync_ready N s → m_dpPlayers s !! id = Some w →
  syncing w → 0 ≤ w_unitSyncNextUnit w → is_u16 (w_unitSyncSendCount w) → sync_step N (prompt w) = Some w1 → ∃ s',
  prompt_turn env id s = (Ok 0, s') ∧ sync_ready N s' ∧ m_dpPlayers s' !! id = Some w1.
Proof.
  intros Hid Hs Hw Hst Ha Hc Hstep. unfold prompt_turn. rewrite (stx_bind_ok _ _ _ _ _ (get_dp_ok id w s Hw)), stx_modify.
  pose proof (reports_turned id (w_unitSyncSendCount w) s w Hw) as Hr. rewrite u16_id in Hr by done. fold (prompt w) in Hr.
  pose proof (turned_ready _ _ _ _ _ _ Hr Hs) as Hs1.
  assert (m_dpPlayers (reports id (w_unitSyncSendCount w) s) = <[id := prompt w]> (m_dpPlayers s)) as Em by apply Hr.
  pose proof (doSyncWatcher_turn env N id Hid _ (prompt w) Hs1 ltac:(by rewrite Em, lookup_insert_eq) Ha Hst) as Ht. rewrite Hstep in Ht.
  destruct Ht as (s2 & E2 & H2). exists s2. split; [done|]. split; [by apply (turned_ready _ _ _ _ _ _ H2)|].
  destruct H2 as (_ & _ & _ & _ & -> & _). apply lookup_insert_eq.
Qed.
(** a run follows the path as long as the path goes on *)
Lemma prompt_run_path env N id K : id ≠ 0 → ∀ k s s', prompt_run env N id k s s' → ∀ w wK, sync_ready N s → m_dpPlayers s !! id = Some w →
  path N K w wK → (k ≤ K)%nat → sync_ready N s' ∧ ∃ w', m_dpPlayers s' !! id = Some w' ∧ path N (K - k) w' wK.
Proof.
  intros Hid k s s' H. induction H as [s|k s s1 s2 _ IH [H1 H2]|k s s1 s2 _ IH E]; intros w wK Hs Hw Hp Hk.
  - split; [done|]. exists w. by rewrite Nat.sub_0_r.
  - destruct (IH w wK Hs Hw Hp Hk) as (Hs1 & w' & Hw' & Hp'). split; [auto|]. exists w'. by rewrite H2.
  - destruct (IH w wK Hs Hw Hp ltac:(lia)) as (Hs1 & w1 & Hw1 & Hp1). replace (K - k)%nat with (S (K - S k)) in Hp1 by lia.
    inversion Hp1 as [|? ? v ? Hst Ha Hc Hstep Hrest]; subst.
    destruct (prompt_turn_step env N id s1 w1 v Hid Hs1 Hw1 Hst Ha Hc Hstep) as (s2' & E' & Hs2 & Hw2).
    rewrite E in E'. injection E' as <-. split; [done|]. by exists v.
Qed.
(** and there is one *)
Lemma prompt_run_exists env N id K : id ≠ 0 → ∀ s w wK, sync_ready N s → m_dpPlayers s !! id = Some w → path N K w wK →
  ∀ k, (k ≤ K)%nat → ∃ s', prompt_run env N id k s s'.
Proof.
  intros Hid s w wK Hs Hw Hp. induction k as [|k IH]; intros Hk; [exists s; apply run_start|]. destruct (IH ltac:(lia)) as (s1 & H1).
  destruct (prompt_run_path env N id K Hid k s s1 H1 w wK Hs Hw Hp ltac:(lia)) as (Hs1 & w1 & Hw1 & Hp1).
  replace (K - k)%nat with (S (K - S k)) in Hp1 by lia. inversion Hp1 as [|? ? v ? Hst Ha Hc Hstep Hrest]; subst.
  destruct (prompt_turn_step env N id s1 w1 v Hid Hs1 Hw1 Hst Ha Hc Hstep) as (s2 & E & _). exists s2. by eapply run_turn.
Qed.
Definition rounds (n : Z) : nat := Z.to_nat ((n + 99) / 100).
Lemma rounds_more n : 100 < n → rounds n = S (rounds (n - 100)).
Proof. intros H. unfold rounds. replace (n + 99) with (n - 100 + 99 + 1 * 100) by lia. rewrite Z.div_add by lia. rewrite Z2Nat.inj_add; [lia|apply Z.div_pos; lia|lia]. Qed.
Lemma rounds_last n : 0 < n ≤ 100 → rounds n = 1%nat.
Proof. intros H. unfold rounds. replace ((n + 99) / 100) with 1; [done|]. apply (Z.div_unique _ _ _ (n - 1)); lia. Qed.
Lemma path_units N : ∀ k w, w_state w = SEND_UNITS → 0 ≤ w_unitSyncNextUnit w < N → rounds (N - w_unitSyncNextUnit w) = k →
  0 ≤ w_unitSyncSendCount w → w_unitSyncSendCount w + (N - w_unitSyncNextUnit w) < 65536 →
  ∃ w', path N k w w' ∧ w_state w' = WAIT_RECEIVE_UNITS ∧ w_unitSyncNextUnit w' = 0 ∧
    w_unitSyncSendCount w' = w_unitSyncSendCount w + (N - w_unitSyncNextUnit w).
Proof.
  induction k as [|k IH]; intros w Hw Ha Hk Hc Hb.
  - unfold rounds in Hk. assert (1 ≤ (N - w_unitSyncNextUnit w + 99) / 100) by (apply Z.div_le_lower_bound; lia). lia.
  - assert (syncing w) as Hst by (unfold syncing; rewrite Hw; set_solver).
    assert (is_u16 (w_unitSyncSendCount w)) as Hu by (unfold is_u16; lia).
    destruct (Z.ltb_spec (w_unitSyncNextUnit w + 100) N) as [Hl|Hl].
    + set (w1 := (prompt w) <| w_unitSyncNextUnit := w_unitSyncNextUnit w + 100 |> <| w_unitSyncSendCount := w_unitSyncSendCount w + 100 |>).
      assert (w_unitSyncNextUnit w1 = w_unitSyncNextUnit w + 100 ∧ w_unitSyncSendCount w1 = w_unitSyncSendCount w + 100) as [En Ec] by done.
      destruct (IH w1) as (w' & Hp & H1 & H2 & H3); rewrite ?En, ?Ec; try lia; [exact Hw| |].
      { rewrite rounds_more in Hk by lia. injection Hk as <-. f_equal. lia. }
      exists w'. split; [|split_and!; [done..|rewrite H3, En, Ec; lia]]. apply (path_step N k w w1); [done|lia|done| |done]. unfold sync_step.
      change (w_state (prompt w)) with (w_state w). change (w_unitSyncNextUnit (prompt w)) with (w_unitSyncNextUnit w). rewrite Hw.
      rewrite (proj2 (Z.leb_gt _ _)) by lia. by rewrite (proj2 (Z.ltb_lt _ _)) by lia.
    + rewrite rounds_last in Hk by lia. injection Hk as <-. eexists. split; [|split; [|split]].
      * eapply (path_step N 0 w _ _ Hst); [lia|done| |apply path_nil]. unfold sync_step.
        change (w_state (prompt w)) with (w_state w). change (w_unitSyncNextUnit (prompt w)) with (w_unitSyncNextUnit w). rewrite Hw.
        rewrite (proj2 (Z.leb_gt _ _)) by lia. by rewrite (proj2 (Z.ltb_ge _ _)) by lia.
      * done.
      * done.
      * done.
Qed.
Lemma path_acks N : ∀ k w, w_state w = SEND_ACKS → 0 ≤ w_unitSyncNextUnit w < N → rounds (N - w_unitSyncNextUnit w) = k →
  0 ≤ w_unitSyncSendCount w → w_unitSyncSendCount w + 100 * Z.of_nat k < 65536 →
  ∃ w', path N k w w' ∧ w_state w' = WAIT_ACKS ∧ 0 ≤ w_unitSyncNextUnit w' ∧ w_unitSyncSendCount w' = w_unitSyncSendCount w + 100 * Z.of_nat k.
Proof.
  induction k as [|k IH]; intros w Hw Ha Hk Hc Hb.
  - unfold rounds in Hk. assert (1 ≤ (N - w_unitSyncNextUnit w + 99) / 100) by (apply Z.div_le_lower_bound; lia). lia.
  - assert (syncing w) as Hst by (unfold syncing; rewrite Hw; set_solver).
    assert (is_u16 (w_unitSyncSendCount w)) as Hu by (unfold is_u16; lia).
    set (w1 := (prompt w) <| w_unitSyncNextUnit := (w_unitSyncNextUnit w + 100) mod N |> <| w_unitSyncSendCount := w_unitSyncSendCount w + 100 |>).
    assert (sync_step N (prompt w) = Some (if N <=? w_unitSyncNextUnit w + 100 then w1 <| w_state := WAIT_ACKS |> else w1)) as Hstep.
    { unfold sync_step. change (w_state (prompt w)) with (w_state w). change (w_unitSyncNextUnit (prompt w)) with (w_unitSyncNextUnit w).
      rewrite Hw. by rewrite (proj2 (Z.leb_gt N (w_unitSyncNextUnit w))) by lia. }
    assert (w_unitSyncSendCount w1 = w_unitSyncSendCount w + 100) as Ec by done.
    destruct (Z.leb_spec N (w_unitSyncNextUnit w + 100)) as [Hl|Hl].
    + rewrite rounds_last in Hk by lia. injection Hk as <-. eexists. split; [|split; [|split]].
      * eapply (path_step N 0 w _ _ Hst); [lia|done|exact Hstep|apply path_nil].
      * done.
      * apply Z.mod_pos_bound. lia.
      * done.
    + assert (w_unitSyncNextUnit w1 = w_unitSyncNextUnit w + 100) as En by (apply Z.mod_small; lia).
      destruct (IH w1) as (w' & Hp & H1 & H2 & H3); rewrite ?En, ?Ec; try lia; [exact Hw| |].
      { rewrite rounds_more in Hk by lia. injection Hk as <-. f_equal. lia. }
      exists w'. split; [|split_and!; [done..|rewrite H3, Ec; lia]]. by apply (path_step N k w w1); [done|lia|done| |].
Qed.
Lemma path_one N w w1 : syncing w → 0 ≤ w_unitSyncNextUnit w → is_u16 (w_unitSyncSendCount w) → sync_step N (prompt w) = Some w1 → path N 1 w w1.
Proof. intros H1 H2 H3 H4. eapply path_step; eauto using path_nil. Qed.
Lemma rounds_bound N : 0 < N → 0 ≤ 100 * Z.of_nat (rounds N) ≤ N + 99.
Proof. intros HN. unfold rounds. rewrite Z2Nat.id by (apply Z.div_pos; lia). split; [apply Z.mul_nonneg_nonneg; [lia|apply Z.div_pos; lia]|apply Z.mul_div_le; lia]. Qed.
Lemma sync_path N w : 0 < N → w_state w = START_SYNC → 0 ≤ w_unitSyncNextUnit w → 0 ≤ w_unitSyncSendCount w →
  w_unitSyncSendCount w + 2 * N + 100 < 65536 → ∃ w', path N (2 * rounds N + 5) w w' ∧ w_state w' = WAIT_GO.
Proof.
  intros HN Hw Ha Hc Hb. pose proof (rounds_bound N HN) as HR.
  assert (∀ v, w_state v = START_SYNC ∨ w_state v = SEND_UNITS ∨ w_state v = WAIT_RECEIVE_UNITS ∨ w_state v = CHECK_ERRORS ∨ w_state v = WAIT_ACKS ∨ w_state v = END_SYNC → syncing v) as Hsy.
  { unfold syncing. intros v [-> | [-> | [-> | [-> | [-> | ->]]]]]; set_solver. }
  assert (∃ w1, path N 1 w w1 ∧ w_state w1 = SEND_UNITS ∧ w_unitSyncNextUnit w1 = 0 ∧ w_unitSyncSendCount w1 = w_unitSyncSendCount w + 1) as (w1 & P1 & S1 & A1 & C1).
  { eexists. split; [eapply path_one; [by apply Hsy; left|done|unfold is_u16; lia|]|].
    - unfold sync_step. change (w_state (prompt w)) with (w_state w). by rewrite Hw.
    - done. }
  destruct (path_units N (rounds N) w1) as (w2 & P2 & S2 & A2 & C2); [done|lia|f_equal; lia|lia..|].
  assert (∃ w3, path N 1 w2 w3 ∧ w_state w3 = CHECK_ERRORS ∧ 0 ≤ w_unitSyncNextUnit w3 ∧ w_unitSyncSendCount w3 = w_unitSyncSendCount w2) as (w3 & P3 & S3 & A3 & C3).
  { eexists. split; [eapply path_one; [apply Hsy; tauto|lia|unfold is_u16; lia|]|].
    - unfold sync_step. change (w_state (prompt w2)) with (w_state w2). rewrite S2. rewrite (proj2 (Z.leb_le _ _)); [reflexivity|].
      change (w_unitSyncSendCount w2 ≤ w_unitSyncSendCount w2 + 1). lia.
    - split; [done|]. split; [|done]. change (0 ≤ w_unitSyncNextUnit w2 + 1). lia. }
  assert (∃ w4, path N 1 w3 w4 ∧ w_state w4 = SEND_ACKS ∧ w_unitSyncNextUnit w4 = 0 ∧ w_unitSyncSendCount w4 = w_unitSyncSendCount w3) as (w4 & P4 & S4 & A4 & C4).
  { eexists. split; [eapply path_one; [apply Hsy; tauto|lia|unfold is_u16; lia|]|].
    - unfold sync_step. change (w_state (prompt w3)) with (w_state w3). by rewrite S3.
    - done. }
  destruct (path_acks N (rounds N) w4) as (w5 & P5 & S5 & A5 & C5); [done|lia|f_equal; lia|lia..|].
  assert (∃ w6, path N 1 w5 w6 ∧ w_state w6 = END_SYNC ∧ 0 ≤ w_unitSyncNextUnit w6 ∧ w_unitSyncSendCount w6 = w_unitSyncSendCount w5) as (w6 & P6 & S6 & A6 & C6).
  { eexists. split; [eapply path_one; [apply Hsy; tauto|lia|unfold is_u16; lia|]|].
    - unfold sync_step. change (w_state (prompt w5)) with (w_state w5). rewrite S5. change (w_unitSyncReceiveCount (prompt w5)) with (w_unitSyncSendCount w5).
      change (w_unitSyncSendCount (prompt w5)) with (w_unitSyncSendCount w5). rewrite Z.eqb_refl. reflexivity.
    - split; [done|]. split; [|done]. change (0 ≤ w_unitSyncNextUnit w5 + 1). lia. }
  eexists. split.
  - replace (2 * rounds N + 5)%nat with (1 + (rounds N + (1 + (1 + (rounds N + (1 + 1))))))%nat by lia.
    do 5 (eapply path_app; [eassumption|]). eapply path_app; [eassumption|]. apply path_one; [apply Hsy; tauto|done|unfold is_u16; lia|].
    unfold sync_step. change (w_state (prompt w6)) with (w_state w6). by rewrite S6.
  - done.
Qed.
(** C25: a viewer who receives what is sent and reports it before his next turn is released:
    after one turn for the start, one for every hundred units, sent twice, and four more,
    the replayer only waits for the viewer to be ready to go, and until then none of his
    turns fails.  Between his turns anything may happen that leaves the connection, the
    host, the units and the replayer's record of this viewer alone, such as the turns of
    other viewers ([other_turn_undisturbed]).  The replayer is connected and knows its host
    and all units of its list.  The reports have 16 bits: what has been sent
    to him before, twice the number of units and a hundred more must stay below 65536. *)
Theorem prompt_viewer_released (env : Environment) (N id : Z) (s s' : Replayer) (w : DpPlayer) (k : nat) :
  id ≠ 0 → 0 < N → sync_ready N s → m_dpPlayers s !! id = Some w → w_state w = START_SYNC → 0 ≤ w_unitSyncNextUnit w →
  0 ≤ w_unitSyncSendCount w → w_unitSyncSendCount w + 2 * N + 100 < 65536 →
  prompt_run env N id k s s' → (k ≤ 2 * rounds N + 5)%nat →
  ((k < 2 * rounds N + 5)%nat → ∃ s2, prompt_turn env id s' = (Ok 0, s2)) ∧
  (k = 2 * rounds N + 5 → w_state <$> m_dpPlayers s' !! id = Some WAIT_GO)%nat.
Proof.
  intros Hid HN Hs Hw Hst Ha Hc Hb Hrun Hk. destruct (sync_path N w HN Hst Ha Hc Hb) as (wK & Hp & Hgo).
  destruct (prompt_run_path env N id _ Hid k s s' Hrun w wK Hs Hw Hp Hk) as (Hs' & w' & Hw' & Hp'). split.
  - intros Hl. destruct (2 * rounds N + 5 - k)%nat eqn:E; [lia|]. inversion Hp' as [|? ? v ? Hst' Ha' Hc' Hstep _]; subst.
    destruct (prompt_turn_step env N id s' w' v Hid Hs' Hw' Hst' Ha' Hc' Hstep) as (s2 & E2 & _). by exists s2.
  - intros ->. rewrite Nat.sub_diag in Hp'. inversion Hp'; subst. by rewrite Hw', <- Hgo.
Qed.
Definition ex_unit (id : Z) : UnitInfo := mkUnitInfo id 5 100 true.
(** [n] units, and one viewer, 77 *)
Definition ex_units (n : nat) : gmap Z UnitInfo := list_to_map ((λ k, (k, ex_unit k)) <$> seqZ 1 (Z.of_nat n)).
Definition ex_syncing (n : nat) (w : DpPlayer) : Replayer :=
  ex_replayed <| m_demoUnitInfo := ex_units n |> <| m_demoUnitInfoLinear := seqZ 1 (Z.of_nat n) |> <| m_dpPlayers := {[77 := w]} |>.
Lemma ex_game_connected : connected ex_replayed.
Proof. exists ex_jdPlay. split; vm_compute; reflexivity. Qed.
Lemma ex_units_lookup n k : k ∈ seqZ 1 (Z.of_nat n) → ex_units n !! k = Some (ex_unit k).
Proof.
  intros Hk. unfold ex_units. apply elem_of_list_to_map_1; [|by apply (list_elem_of_fmap_2 (λ k, (k, ex_unit k)))].
  rewrite <- list_fmap_compose. change (fst ∘ (λ k0 : Z, (k0, ex_unit k0))) with (id : Z → Z). rewrite list_fmap_id. apply NoDup_seqZ.
Qed.
Lemma ex_syncing_ready n w : sync_ready (Z.of_nat n) (ex_syncing n w).
Proof.
  split.
  - exact ex_game_connected.
  - change (is_Some (m_demoPlayers ex_replayed !! 0%nat)). vm_compute. by eexists.
  - change (Z.of_nat (length (seqZ 1 (Z.of_nat n))) = Z.of_nat n). rewrite length_seqZ. lia.
  - change (Z.of_nat (size (ex_units n)) = Z.of_nat n). unfold ex_units. rewrite map_size_list_to_map.
    + rewrite length_fmap, length_seqZ. lia.
    + rewrite <- list_fmap_compose. change (fst ∘ (λ k : Z, (k, ex_unit k))) with (id : Z → Z). rewrite list_fmap_id. apply NoDup_seqZ.
  - change (Forall (λ k, is_Some (ex_units n !! k)) (seqZ 1 (Z.of_nat n))). apply Forall_forall. intros k Hk. rewrite (ex_units_lookup n k Hk). by eexists.
Qed.
Definition ex_new_viewer : DpPlayer := DpPlayer_make 2 77.
Lemma doSyncWatcher_refines_witness : ∃ s', doSyncWatcher ex_environment 77 (ex_syncing 3 ex_new_viewer) = (Ok 0, s') ∧
  (w_state <$> m_dpPlayers s' !! 77) = Some SEND_UNITS.
Proof.
  assert (syncing ex_new_viewer) as Hst by (apply (bool_decide_eq_true_1 _); vm_compute; reflexivity).
  destruct (doSyncWatcher_refines ex_environment 3 77 (ex_syncing 3 ex_new_viewer) ex_new_viewer ltac:(discriminate)
    (ex_syncing_ready 3 ex_new_viewer) eq_refl ltac:(discriminate) Hst) as (s' & E & H).
  exists s'. split; [exact E|]. destruct H as (_ & _ & _ & _ & -> & _). reflexivity.
Defined.
Lemma ex_prompt_run : ∃ s', prompt_run ex_environment 3 77 7 (ex_syncing 3 ex_new_viewer) s'.
Proof.
  destruct (sync_path 3 ex_new_viewer) as (wK & Hp & _); [done|done|discriminate|discriminate|done|].
  apply (prompt_run_exists ex_environment 3 77 7 ltac:(discriminate) _ ex_new_viewer wK (ex_syncing_ready 3 ex_new_viewer) eq_refl Hp). lia.
Qed.
Lemma prompt_viewer_released_witness : ∃ s', prompt_run ex_environment 3 77 7 (ex_syncing 3 ex_new_viewer) s' ∧
  w_state <$> m_dpPlayers s' !! 77 = Some WAIT_GO.
Proof.
  destruct ex_prompt_run as (s' & Hrun). exists s'. split; [exact Hrun|].
  refine (proj2 (prompt_viewer_released ex_environment 3 77 (ex_syncing 3 ex_new_viewer) s' ex_new_viewer 7 _ eq_refl
    (ex_syncing_ready 3 ex_new_viewer) eq_refl eq_refl _ _ eq_refl Hrun _) eq_refl); [discriminate..|apply le_n].
Defined.

(** ** A viewer who reports late *)

(** a turn before which the viewer reports all that it has counted: what it had counted
    before and what was sent to it *)
Definition counted_turn (env : Environment) (id base : Z) : rp Z :=
  n ← gets (λ s, base + sent_to id s); modify (reports id n) ≫= λ _, doSyncWatcher env id.
(** such turns, as long as the count fits into the 16 bits of the report, and what happens
    between them *)
Inductive counted_run (env : Environment) (N id base : Z) (s : Replayer) : Replayer → Prop :=
  | counted_start : counted_run env N id base s s
  | counted_others s1 s2 : counted_run env N id base s s1 → undisturbed N id s1 s2 → sent_to id s1 ≤ sent_to id s2 →
      counted_run env N id base s s2
  | counted_more s1 s2 : counted_run env N id base s s1 → base + sent_to id s1 < 65536 → counted_turn env id base s1 = (Ok 0, s2) →
      counted_run env N id base s s2.
(** in the last part of the synchronisation, with a count that is too low for good *)
Definition behind (N id base : Z) (s : Replayer) (w : DpPlayer) : Prop :=
  m_dpPlayers s !! id = Some w ∧ (w_state w = SEND_ACKS ∨ w_state w = WAIT_ACKS) ∧ 0 ≤ w_unitSyncNextUnit w ∧
  w_unitSyncSendCount w < base + sent_to id s ∧ N + 1 < base + sent_to id s.
Lemma behind_step env N id base s w r s' : id ≠ 0 → 0 ≤ N → sync_ready N s → behind N id base s w → base + sent_to id s < 65536 →
  counted_turn env id base s = (r, s') → r = Undef ∨ r = Ok 0 ∧ sync_ready N s' ∧ ∃ w', behind N id base s' w'.
Proof.
  intros Hid HN0 Hs (Hw & Hst & Ha & Hc & HN) Hfit. unfold counted_turn. rewrite stx_gets, stx_modify.
  set (n := base + sent_to id s) in *. set (v := w <| w_unitSyncReceiveCount := n |>).
  pose proof (reports_turned id n s w Hw) as Hr. rewrite u16_id in Hr by (unfold is_u16; lia). fold v in Hr.
  pose proof (turned_ready _ _ _ _ _ _ Hr Hs) as Hs1. set (s1 := reports id n s) in *.
  assert (m_dpPlayers s1 = <[id := v]> (m_dpPlayers s)) as Em by apply Hr.
  assert (syncing v) as Hsy by (unfold syncing; change (w_state v) with (w_state w); destruct Hst as [-> | ->]; set_solver).
  pose proof (doSyncWatcher_turn env N id Hid s1 v Hs1 ltac:(by rewrite Em, lookup_insert_eq) Ha Hsy) as Ht.
  assert (∀ w' k s2, turned id (<[id := w']> (m_dpPlayers s1)) k s1 s2 → 0 ≤ k → (w_state w' = SEND_ACKS ∨ w_state w' = WAIT_ACKS) →
    0 ≤ w_unitSyncNextUnit w' → w_unitSyncSendCount w' < n + k → ∃ w', behind N id base s2 w') as Hb.
  { intros w' k s2 H2 Hk H3 H4 H5. exists w'. destruct H2 as (_ & _ & _ & _ & Em2 & Es2). destruct Hr as (_ & _ & _ & _ & _ & Es1).
    split_and!; [by rewrite Em2, lookup_insert_eq|done|done|unfold n in *; lia|unfold n in *; lia]. }
  revert Ht. unfold sync_step, sync_sent. change (w_state v) with (w_state w). change (w_unitSyncNextUnit v) with (w_unitSyncNextUnit w).
  change (w_unitSyncReceiveCount v) with n. change (w_unitSyncSendCount v) with (w_unitSyncSendCount w).
  destruct Hst as [Hst | Hst]; rewrite Hst.
  - destruct (Z.leb_spec N (w_unitSyncNextUnit w)) as [Hn|Hn].
    + intros Hu E. rewrite E in Hu. by left.
    + intros (s2 & E2 & H2) E. rewrite E2 in E. injection E as <- <-. right. split; [done|]. split; [by eapply turned_ready|].
      apply (Hb _ _ _ H2); [done|destruct (N <=? _); [by right|left; exact Hst]| |].
      * destruct (N <=? _); apply Z.mod_pos_bound; lia.
      * destruct (N <=? _); change (w_unitSyncSendCount w + 100 < n + 100); lia.
  - intros (s2 & E2 & H2) E. rewrite E2 in E. injection E as <- <-. right. split; [done|]. split; [by eapply turned_ready|].
    rewrite (proj2 (Z.eqb_neq n (w_unitSyncSendCount w))) in H2 by lia. apply (Hb _ _ _ H2); [done|destruct (30 <? _); [by left|by right]| |].
    + destruct (30 <? _); change (0 ≤ w_unitSyncNextUnit w + 1); lia.
    + destruct (30 <? _); [change (N + 1 < n + 0)|change (w_unitSyncSendCount w < n + 0)]; lia.
Qed.
Lemma counted_run_behind env N id base s w s' : id ≠ 0 → 0 ≤ N → sync_ready N s → behind N id base s w → counted_run env N id base s s' →
  sync_ready N s' ∧ ∃ w', behind N id base s' w'.
Proof.
  intros Hid HN Hs Hb. induction 1 as [|s1 s2 _ (Hs1 & w1 & H1 & H2 & H3 & H4 & H5) [Hu Hw] Hk|s1 s2 _ (Hs1 & w1 & Hb1) Hfit E];
    [split; [done|by exists w]|split; [auto|]; exists w1; rewrite <- Hw in H1; split_and!; try done; lia|].
  destruct (behind_step _ _ _ _ _ _ _ _ Hid HN Hs1 Hb1 Hfit E) as [|(_ & H)]; done.
Qed.
(** C26: a viewer whose report of the last units has not come when the replayer runs out of
    patience is not released, although it has received everything and reports it before
    every turn from then on: the replayer starts to send again with a count of its own that
    is lower than what the viewer has counted (more than one message for each unit and one
    more), and waits for the two to be equal.  So it stays, whatever happens between his
    turns that leaves the connection, the host, the units and the record of the viewer
    alone, for as long as the count of the viewer fits into the 16 bits of its report; until
    then a turn either runs or reads past the list of units.  (Patience can run out in the
    first turn: the loop that sends the units goes on after the last one, and its index is
    then taken for the number of turns.) *)
Theorem late_viewer_kept_waiting (env : Environment) (N id base : Z) (s : Replayer) (w : DpPlayer) :
  id ≠ 0 → sync_ready N s → m_dpPlayers s !! id = Some w → w_state w = WAIT_ACKS → 30 ≤ w_unitSyncNextUnit w →
  w_unitSyncReceiveCount w ≠ w_unitSyncSendCount w → N + 1 < base + sent_to id s → ∃ s1,
  doSyncWatcher env id s = (Ok 0, s1) ∧ ∀ s2, counted_run env N id base s1 s2 →
    (∃ w', m_dpPlayers s2 !! id = Some w' ∧ (w_state w' = SEND_ACKS ∨ w_state w' = WAIT_ACKS)) ∧
    (base + sent_to id s2 < 65536 → (counted_turn env id base s2).1 ∈ [Ok 0; Undef]).
Proof.
  intros Hid Hs Hw Hst Ha Hr HN. assert (0 ≤ N) as HN0 by (rewrite <- (sr_linear _ _ Hs); lia).
  assert (syncing w) as Hsy by (unfold syncing; rewrite Hst; set_solver).
  pose proof (doSyncWatcher_turn env N id Hid s w Hs Hw ltac:(lia) Hsy) as Ht. revert Ht. unfold sync_step, sync_sent. rewrite Hst.
  rewrite (proj2 (Z.eqb_neq _ _)) by done. rewrite (proj2 (Z.ltb_lt _ _)) by lia. intros (s1 & E1 & H1). exists s1. split; [done|].
  pose proof (turned_ready _ _ _ _ _ _ H1 Hs) as Hs1. destruct H1 as (_ & _ & _ & _ & Em & Es).
  set (w1 := w <| w_unitSyncNextUnit := _ |> <| w_state := _ |> <| w_unitSyncSendCount := _ |>) in *.
  assert (behind N id base s1 w1) as Hb.
  { split; [by rewrite Em, lookup_insert_eq|]. split; [by left|]. rewrite Es, Z.add_0_r. split_and!; try done.
    change (0 ≤ w_unitSyncNextUnit w + 1). lia. }
  intros s2 Hrun. destruct (counted_run_behind env N id base s1 w1 s2 Hid HN0 Hs1 Hb Hrun) as (Hs2 & w2 & Hb2). split.
  - destruct Hb2 as (H2 & H3 & _). by exists w2.
  - intros Hfit. destruct (counted_turn env id base s2) as [r s3] eqn:E.
    destruct (behind_step _ _ _ _ _ _ _ _ Hid HN0 Hs2 Hb2 Hfit E) as [-> | (-> & _)]; set_solver.
Qed.
(** 150 units: both rounds are sent, 50 units more because of the loop, and the report is a turn late *)
Definition ex_late_viewer : DpPlayer :=
  ex_new_viewer <| w_state := WAIT_ACKS |> <| w_unitSyncNextUnit := 50 |> <| w_unitSyncReceiveCount := 151 |> <| w_unitSyncSendCount := 351 |>.
(** the next turn after that of the resend runs *)
Lemma ex_late_turn s1 : doSyncWatcher ex_environment 77 (ex_syncing 150 ex_late_viewer) = (Ok 0, s1) →
  ∃ s2, 351 + sent_to 77 s1 < 65536 ∧ counted_turn ex_environment 77 351 s1 = (Ok 0, s2).
Proof.
  intros E. pose proof (doSyncWatcher_turn ex_environment 150 77 ltac:(discriminate) (ex_syncing 150 ex_late_viewer) ex_late_viewer
    (ex_syncing_ready 150 ex_late_viewer) eq_refl ltac:(discriminate)) as Ht.
  destruct Ht as (s1' & E' & H1); [apply (bool_decide_eq_true_1 _); vm_compute; reflexivity|]. rewrite E in E'. injection E' as <-.
  pose proof (turned_ready _ _ _ _ _ _ H1 (ex_syncing_ready 150 ex_late_viewer)) as Hs1. destruct H1 as (_ & _ & _ & _ & Em & Es).
  change (sent_to 77 (ex_syncing 150 ex_late_viewer) + sync_sent 150 ex_late_viewer) with 0 in Es. unfold counted_turn. rewrite stx_gets, stx_modify, Es.
  eassert (m_dpPlayers s1 !! 77 = Some _) as Hw by (rewrite Em; apply lookup_insert_eq).
  pose proof (reports_turned 77 (351 + 0) s1 _ Hw) as Hr. pose proof (turned_ready _ _ _ _ _ _ Hr Hs1) as Hs2.
  destruct Hr as (_ & _ & _ & _ & Er & _).
  pose proof (doSyncWatcher_turn ex_environment 150 77 ltac:(discriminate) _ _ Hs2 ltac:(rewrite Er; apply lookup_insert_eq) ltac:(vm_compute; discriminate)) as Ht.
  destruct Ht as (s2 & E2 & _); [apply (bool_decide_eq_true_1 _); vm_compute; reflexivity|]. exists s2. split; [lia|exact E2].
Qed.
Lemma late_viewer_kept_waiting_witness : ∃ s1 s2,
  doSyncWatcher ex_environment 77 (ex_syncing 150 ex_late_viewer) = (Ok 0, s1) ∧ counted_turn ex_environment 77 351 s1 = (Ok 0, s2) ∧
  ∃ w', m_dpPlayers s2 !! 77 = Some w' ∧ (w_state w' = SEND_ACKS ∨ w_state w' = WAIT_ACKS).
Proof.
  destruct (late_viewer_kept_waiting ex_environment 150 77 351 (ex_syncing 150 ex_late_viewer) ex_late_viewer ltac:(discriminate)
    (ex_syncing_ready 150 ex_late_viewer) eq_refl eq_refl ltac:(discriminate) ltac:(discriminate) eq_refl) as (s1 & E1 & Hrun).
  destruct (ex_late_turn s1 E1) as (s2 & Hfit & E2). exists s1, s2. split; [exact E1|]. split; [exact E2|].
  refine (proj1 (Hrun s2 _)). eapply counted_more; [apply counted_start|exact Hfit|exact E2].
Defined.
