(* ===== verification/ReplayerApp.v ===== *)
(** * The replayer program (replayer.cpp, [doMain])

    The program either prints what a demo is, or plays it: from a file, or from a replay
    server, whose data a [TaReplayClient] keeps in a file that the [Replayer] follows.
    Once the replayer is ready, the viewer's own game is started through the launch
    server, and the program ends with it. *)
From S2P Require Import Prelude ExceptState OrderedMaps GpgNetParse GpgNetStream GpgNetMessages QtText JDPlay LaunchServer LaunchClient LaunchFacts.
From S2P Require Import TADemoRecords TADemoParser TADemoEnds EngineeringNotation TaReplayServer TaReplayFacts TaReplayClient DemoInfo Replayer ReplayerLobby ReplayerPlay ReplayerFacts.
From coqutil Require Import Datatypes.RecordSetters.
#[local] Open Scope Z_scope.

(** what [QUrl] makes of an argument, and what is at the place *)
Inductive demo_url : Type :=
  | InvalidDemo
  | FileDemo (path : bytes) (isFile : bool) (content : option bytes)   (* [None]: it cannot be read *)
  | ServerDemo (host : bytes) (port : Z) (path : bytes).               (* the port is -1 if there is none *)
Definition info_source (u : demo_url) : demo_source :=
  match u with
  | InvalidDemo => InvalidUrl
  | ServerDemo _ _ _ => RemoteUrl
  | FileDemo _ false _ => NoSuchFile
  | FileDemo _ true None => Unreadable
  | FileDemo path true (Some content) => LocalFile path content
  end.

Definition GameNotFoundMessageBox : bytes :=
  str "TAF Replay Server responded GAME NOT FOUND. This is typically because the game includes AI players. TAF suggests you find a different game to watch, or go play one yourself.".
Definition LiveReplayDisabledMessageBox : bytes :=
  str "TAF Replay Server responded LIVE REPLAY DISABLED. The host has disabled live replay for this game because their underpants are too tight. TAF suggests you find a different game to watch, or go play one yourself.".
Definition status_box (s : TaReplayServerStatus) : list bytes :=
  match s with
  | GAME_NOT_FOUND => [GameNotFoundMessageBox]
  | LIVE_REPLAY_DISABLED => [LiveReplayDisabledMessageBox]
  | _ => []
  end.

Record ReplayApp := mkReplayApp {
  ra_launchClient : option LaunchClient;
  ra_server : option (bytes * Z);          (* the server that the replay client connects to *)
  ra_replayClient : option TaReplayClient;
  ra_replayer : option Replayer;
  ra_visible : nat;                        (* how much of the client's file has left the stream buffer *)
  ra_timer : bool;                         (* the timer that looks after the game runs *)
  ra_boxes : list bytes;                   (* the texts of the message boxes *)
  ra_quitWhenAcknowledged : bool;
  ra_quit : bool }.
Inductive replayer_run : Type :=
  | Info (j : demo_json)
  | Run (a : ReplayApp).

Section Program.
Context `{Qt} `{QtText} `{Numbers}.
(** the command line; the libraries; [waits]: how the launch server's connection answers *)
Context (isSet : string → bool) (value : string → bytes) (fromUserInput : bytes → demo_url).
Context (uuid5 toUpper md5 : bytes → bytes) (env : Environment) (junk : Z) (waits : nat → bool).

Definition OTA_DPLAY_REGISTERED_GAME_GUID : bytes := str "{99797420-F5F5-11CF-9827-00A0241496C8}".
Definition dplayGuid : bytes := if isSet "gamemod" then uuid5 (toUpper (value "gamemod")) else OTA_DPLAY_REGISTERED_GAME_GUID.
Definition launchClient : option LaunchClient :=
  if isSet "launchserverport"
  then Some (setRequireSearch true (setIsHost false (setAddress (str "127.0.0.1") (setGameGuid dplayGuid
         (setPlayerName (value "playername") (LaunchClient_make waits))))))
  else None.
(** [path().replace("/", "").toInt()], and the 32 bits of the parameter *)
Definition url_gameId (path : bytes) : Z := u32 (toInt_text (filter (λ b, b ≠ 47) path)).
(** [setNoChat] and [hostGame], over the stream of the demo *)
Definition hosted (stream : bytes) (answers : HostAnswers) : res unit * Replayer :=
  hostGame dplayGuid (str "TAF Replayer") (str "127.0.0.1") answers
    (setNoChat (isSet "nochat") (demo_arrives stream (Replayer_make env))).
Definition run (server : option (bytes * Z)) (client : option TaReplayClient) (stream : bytes) (answers : HostAnswers) : res replayer_run :=
  match hosted stream answers with
  | (Ok _, r) => Ok (Run (mkReplayApp launchClient server client (Some r) 0 false [] false false))
  | (Throw e, _) => Throw e
  | (Undef, _) => Undef
  | (Hang, _) => Hang
  end.
Definition doMain (checks version_junk : Z * Z) (parser_junk : Z) (answers : HostAnswers) : res replayer_run :=
  let url := fromUserInput (value "demourl") in
  if isSet "info" || isSet "detail" then
    j ← doDemoInfo md5 junk checks version_junk parser_junk (info_source url) 100; Ok (Info j)
  else
    match url with
    | InvalidDemo | FileDemo _ false _ => Throw RuntimeError
    | FileDemo _ true content => run None None (default [] content) answers
    | ServerDemo host port path => run (Some (host, u16 port)) (Some (TaReplayClient_make (url_gameId path) 0)) [] answers
    end.

(** ** Events *)

(** [readyToJoin]; [connected] and [reply] are what the launch server's connection does *)
Definition on_ready (connected : bool) (reply : option bytes) (a : ReplayApp) : ReplayApp :=
  match ra_launchClient a with
  | Some c => (a <| ra_launchClient := Some (startApplication connected reply c).2 |>) <| ra_timer := true |>
  | None => a
  end.
(** a turn of the replayer's clock, and the signals of it *)
Definition on_clock (session : DPSESSIONDESC2) (connected : bool) (reply : option bytes) (a : ReplayApp) : res unit * ReplayApp :=
  match ra_replayer a with
  | None => (Ok tt, a)
  | Some r =>
      let '(x, r') := timerEvent env session r in
      (x, Nat.iter (ready_count r' - ready_count r) (on_ready connected reply) (a <| ra_replayer := Some r' |>))
  end.
(** the timer of the program *)
Definition on_second (a : ReplayApp) : ReplayApp :=
  match ra_launchClient a with
  | Some c =>
      if ra_timer a && negb (isApplicationRunning c)
      then ((a <| ra_replayClient := None |>) <| ra_replayer := None |>) <| ra_quit := true |>
      else a
  | None => a
  end.
Definition on_launch_data (data : bytes) (a : ReplayApp) : ReplayApp :=
  a <| ra_launchClient ::= fmap (LaunchClient.onReadyReadTcp data) |>.
(** [gameNotFound]: whatever the status, acknowledging a box ends the program from now on *)
Definition on_gameNotFound (a : ReplayApp) (s : TaReplayServerStatus) : ReplayApp :=
  (a <| ra_quitWhenAcknowledged := true |>) <| ra_boxes ::= (λ l, l ++ status_box s) |>.
Definition acknowledged (a : ReplayApp) : ReplayApp := if ra_quitWhenAcknowledged a then a <| ra_quit := true |> else a.
(** What the replay server sends.  The client writes its file through one stream and the
    replayer reads it through another, which clears its state before every read: the
    replayer finds what has been flushed, and so much more as the stream has written of its
    own accord ([early]). *)
Definition on_replay_data (early : nat) (data : bytes) (a : ReplayApp) : res unit * ReplayApp :=
  match ra_replayClient a with
  | None => (Ok tt, a)
  | Some c =>
      let '(x, c') := TaReplayClient.onReadyRead data c in
      let file := rc_file (rc_buffer c') in
      let visible := Nat.max (rc_flushed c') (Nat.min (ra_visible a + early) (length file)) in
      let stream := take (visible - ra_visible a) (drop (ra_visible a) file) in
      (x, foldl on_gameNotFound
            (((a <| ra_replayClient := Some c' |>) <| ra_visible := visible |>) <| ra_replayer ::= fmap (demo_arrives stream) |>)
            (drop (length (gameNotFound (rc_buffer c))) (gameNotFound (rc_buffer c'))))
  end.
Definition on_replay_socket (f : TaReplayClient → TaReplayClient) (a : ReplayApp) : ReplayApp := a <| ra_replayClient ::= fmap f |>.

(** ** The viewer's game joins the game that the replayer hosts *)

(** The launch client is set up for the guid under which the replayer hosts, and a launch
    server that is free understands its request: it searches for that game and joins it,
    for the viewer's name. *)
Theorem viewer_joins_hosted_game (checks version_junk : Z * Z) (parser_junk : Z) (answers : HostAnswers) (a : ReplayApp)
    (la : LaunchAnswers) (s : LaunchServer) :
  doMain checks version_junk parser_junk answers = Ok (Run a) → isSet "launchserverport" = true →
  word dplayGuid → word (value "playername") → ∃ c stream r,
  ra_launchClient a = Some c ∧ ra_replayer a = Some r ∧ hosted stream answers = (Ok tt, r) ∧
  LaunchServer.onReadyReadTcp (start_message c) la s = launchGame dplayGuid (value "playername") (str "127.0.0.1") false true la s.
Proof.
  intros E Hl Hg Hn.
  assert (∃ server client stream, run server client stream answers = Ok (Run a)) as (server & client & stream & Er).
  { unfold doMain in E. destruct (_ || _); [by apply res_bind_inv in E as (j & _ & E)|].
    destruct (fromUserInput _) as [|path [] content|host port path]; try done; eauto. }
  unfold run in Er. destruct (hosted stream answers) as [[[]|e| |] r] eqn:Eh; try done. injection Er as <-.
  unfold launchClient. rewrite Hl. do 3 eexists. split_and!; [reflexivity..|exact Eh|]. rewrite request_understood; [done|exact Hg|exact Hn|].
  by apply str_word.
Qed.
(** A name with a blank puts the search at the wrong place: what follows the blank is taken
    for the address. *)
Theorem blank_in_name_misdirects (c : LaunchClient) (first second : bytes) (la : LaunchAnswers) (s : LaunchServer) :
  launchClient = Some c → value "playername" = first ++ 32 :: second → word dplayGuid → word first → word second →
  LaunchServer.onReadyReadTcp (start_message c) la s = launchGame dplayGuid first second false true la s.
Proof.
  unfold launchClient. destruct (isSet "launchserverport"); [|done]. intros [= <-] En Hg Hw1 Hw2.
  unfold LaunchServer.onReadyReadTcp. set (ws := [str "/searchjoin"; dplayGuid; first; second; str "127.0.0.1"]).
  set (c := setRequireSearch _ _).
  assert (start_message c = GpgNetMessages.join 32 [str "/searchjoin"; dplayGuid; value "playername"; str "127.0.0.1"]) as -> by reflexivity.
  assert (GpgNetMessages.join 32 [str "/searchjoin"; dplayGuid; value "playername"; str "127.0.0.1"] = GpgNetMessages.join 32 ws) as ->.
  { unfold ws. rewrite En, !join_cons, <- (assoc_L (++)). done. }
  rewrite split_words by first [done|repeat (apply Forall_cons; split; [first [done|by apply str_word]|]); by apply Forall_nil].
  unfold ws. repeat (rewrite bool_decide_false by done). by rewrite bool_decide_true.
Qed.

(** ** The end *)
Theorem ends_with_the_game (a : ReplayApp) (c : LaunchClient) :
  ra_launchClient a = Some c → ra_timer a = true → (ra_quit (on_second a) = true ∧ ra_replayer (on_second a) = None) ∨ isApplicationRunning c = true.
Proof. intros Hc Ht. unfold on_second. rewrite Hc, Ht. destruct (isApplicationRunning c); [by right|by left]. Qed.

(** what the server sends for a game that it does not show *)
Definition refusal (s : TaReplayServerStatus) : bytes * list Variant := (str "ReplayServerData", [V_uint (status_code s); V_bytes []]).
(** A viewer who asks for a game that the server does not have, or does not show, is told
    so, and the program ends when he has read it. *)
Theorem refusal_is_told (early : nat) (a : ReplayApp) (c : TaReplayClient) (s : TaReplayServerStatus) (box : bytes) :
  ra_replayClient a = Some c → fresh (rc_parser c) → rc_available c = [] → status_box s = [box] → ∃ a',
  on_replay_data early (GpgNetParse.send (refusal s)) a = (Ok tt, a') ∧ ra_boxes a' = ra_boxes a ++ [box] ∧ ra_quit (acknowledged a') = true.
Proof.
  intros Hc Hf Ha Hs. unfold on_replay_data, TaReplayClient.onReadyRead. rewrite Hc, Ha. cbn [app].
  assert (is_u32 (status_code s) ∧ status_of (status_code s) = s ∧ s ≠ OK) as (Hu & Hst & Hok) by (destruct s; try done; unfold is_u32; cbn; lia).
  assert (command_wf (refusal s)) as Hwf.
  { split_and!; [unfold short, MAX_RECORD_SIZE; cbn; lia|cbn; unfold MAX_NUM_ARGS; lia|].
    apply Forall_cons. split; [exact Hu|]. apply Forall_singleton. unfold arg_wf, short, MAX_RECORD_SIZE. cbn. lia. }
  assert (on_data (GpgNetParse.received (refusal s)) (rc_buffer c) =
    (Ok tt, mkBuffer (m_position (rc_buffer c)) (rc_file (rc_buffer c)) (gameNotFound (rc_buffer c) ++ [s]))) as Hd.
  { unfold on_data, GpgNetParse.received, refusal, arg. cbn [fst snd lookup list_lookup]. rewrite str_ascii, bool_decide_true by done.
    unfold TaReplayServerData_set. rewrite check_ID_ok by done. unfold arg. cbn [lookup list_lookup]. rewrite !res_bind_ok, toUInt_uint by exact Hu.
    cbn [sd_status]. rewrite Hst. by destruct s. }
  destruct (receive_one on_data _ _ _ _ Hf Hwf Hd) as (q' & _ & ->). eexists. split; [reflexivity|].
  cbn [rc_buffer gameNotFound]. rewrite drop_app_length. cbn [foldl]. unfold on_gameNotFound. rewrite Hs. done.
Qed.

(** ** The replayer reads what has been downloaded *)
Definition demo_content : bytes := match fromUserInput (value "demourl") with FileDemo _ true (Some content) => content | _ => [] end.
(** what the stream of the replayer has so far *)
Definition source (a : ReplayApp) : bytes :=
  match ra_replayClient a with Some c => take (ra_visible a) (rc_file (rc_buffer c)) | None => demo_content end.
Definition reads (F : bytes) : ReplayState → bool → nat → bytes → Z → Prop :=
  λ _ _ _ waiting k, 0 ≤ k ≤ Z.of_nat (length F) ∧ waiting = drop (Z.to_nat k) F.
Lemma reads_closed F : closed (reads F).
Proof.
  intros x b n stream rest k [Hk ->] [l El]. assert (rest = drop (length l) (drop (Z.to_nat k) F)) as ->.
  { by rewrite El, drop_app_length. }
  rewrite drop_drop, !length_drop in *. apply (f_equal length) in El. rewrite length_app, !length_drop in El. split; [lia|]. f_equal. lia.
Qed.
Lemma reads_more F new r : watch (reads F) r → watch (reads (F ++ new)) (demo_arrives new r).
Proof.
  intros [Hk E]. unfold watch, reads in *. change (m_streamRead (demo_arrives new r)) with (m_streamRead r).
  change (m_demoDataStream (demo_arrives new r)) with (m_demoDataStream r ++ new). rewrite E, length_app, drop_app_le by lia. split; [lia|done].
Qed.
#[local] Hint Extern 2 (keeps _ (modify _)) => (apply keeps_modify; intros ? ?; assumption) : keeps.
#[local] Hint Resolve reads_closed : keeps.
Lemma timer_reads F session r : watch (reads F) r → watch (reads F) (timerEvent env session r).2.
Proof.
  assert (keeps (watch (reads F)) (tick env session)) as Hk.
  { unfold tick, stage, load_stage. keeps_tac. }
  intros Hr. unfold timerEvent. specialize (Hk r Hr). by destruct (tick env session r) as [[] ?].
Qed.
(** the file of the client only grows *)
Lemma on_data_grows c b : rc_file b `prefix_of` rc_file (on_data c b).2.
Proof.
  unfold on_data. destruct (arg c 0) as [v|e| |]; try done. case_bool_decide; [|done].
  destruct (TaReplayServerData_set c) as [msg|e| |]; try done. cbn [snd]. destruct (sd_status msg); try done. cbn [rc_file]. by apply prefix_app_r.
Qed.
Lemma download_grows data c : (rc_flushed c ≤ length (rc_file (rc_buffer c)))%nat → let c' := (TaReplayClient.onReadyRead data c).2 in
  rc_file (rc_buffer c) `prefix_of` rc_file (rc_buffer c') ∧ (rc_flushed c' ≤ length (rc_file (rc_buffer c')))%nat.
Proof.
  intros Hc. cbv zeta. unfold TaReplayClient.onReadyRead. destruct (GpgNetStream.receive _ _ _ _) as [[[x p] b] rest] eqn:E.
  assert (rc_file (rc_buffer c) `prefix_of` rc_file b) as Hp.
  { unfold GpgNetStream.receive in E. revert E. apply (receive_keeps on_data (λ w, rc_file (rc_buffer c) `prefix_of` rc_file w)); [|done].
    intros d w Hw. trans (rc_file w); [exact Hw|apply on_data_grows]. }
  pose proof (prefix_length _ _ Hp). destruct x as [[]|e| |]; (split; [exact Hp|]); cbn [snd rc_flushed rc_buffer]; lia.
Qed.
(** the replayer has read a part of what it can see, and the rest is before it *)
Definition follows_source (a : ReplayApp) : Prop :=
  from_option (λ c, (rc_flushed c ≤ length (rc_file (rc_buffer c)))%nat ∧ (ra_visible a ≤ length (rc_file (rc_buffer c)))%nat) True (ra_replayClient a) ∧
  from_option (watch (reads (source a))) True (ra_replayer a).
Lemma reads_demo_arrives n n' file new r : (n ≤ length file)%nat → (n ≤ n')%nat →
  watch (reads (take n file)) r → watch (reads (take n' (file ++ new))) (demo_arrives (take (n' - n) (drop n (file ++ new))) r).
Proof.
  intros Hn Hl Hr. replace (take n' (file ++ new)) with (take n file ++ take (n' - n) (drop n (file ++ new))).
  - by apply reads_more.
  - rewrite <- (take_app_le file new) by lia. rewrite take_take_drop. f_equal. lia.
Qed.

(** what can happen to the program; beside it the data that arrives from the replay server *)
Inductive app_step : bytes → ReplayApp → ReplayApp → Prop :=
  | app_clock session connected reply a : app_step [] a (on_clock session connected reply a).2
  | app_second a : app_step [] a (on_second a)
  | app_launch data a : app_step [] a (on_launch_data data a)
  | app_data early data a : app_step data a (on_replay_data early data a).2
  | app_connect a : app_step [] a (on_replay_socket TaReplayClient.timerEvent a)
  | app_socket state a : app_step [] a (on_replay_socket (TaReplayClient.onSocketStateChanged state) a)
  | app_acknowledged a : app_step [] a (acknowledged a)
  | app_messages l a : app_step [] a (a <| ra_replayer ::= fmap (messages_arrive l) |>).
Inductive app_run (a0 : ReplayApp) : bytes → ReplayApp → Prop :=
  | app_start : app_run a0 [] a0
  | app_next arrived data a a' : app_run a0 arrived a → app_step data a a' → app_run a0 (arrived ++ data) a'.

(** the turns of the clock change nothing of the download *)
Definition same_download (a a' : ReplayApp) : Prop := ra_replayClient a' = ra_replayClient a ∧ ra_visible a' = ra_visible a.
#[local] Instance same_download_preorder : PreOrder same_download.
Proof. split; [by split|]. intros x y z [G1 G2] [G3 G4]. split; congruence. Qed.
Lemma on_ready_download connected reply n : ∀ a, same_download a (Nat.iter n (on_ready connected reply) a) ∧
  ra_replayer (Nat.iter n (on_ready connected reply) a) = ra_replayer a.
Proof.
  induction n as [|n IH]; intros a; [by split|]. cbn [Nat.iter nat_rect]. destruct (IH a) as [IH1 IH2]. unfold on_ready at 1 3.
  by destruct (ra_launchClient _).
Qed.
Lemma boxes_download l : ∀ a, same_download a (foldl on_gameNotFound a l) ∧ ra_replayer (foldl on_gameNotFound a l) = ra_replayer a.
Proof. induction l as [|s l IH]; intros a; [by split|]. exact (IH (on_gameNotFound a s)). Qed.
Lemma follows_download a a' : same_download a a' → ra_replayer a' = ra_replayer a → follows_source a → follows_source a'.
Proof. intros [E1 E2] E3. unfold follows_source, source. by rewrite E1, E2, E3. Qed.
Lemma step_follows data a a' : app_step data a a' → follows_source a → follows_source a'.
Proof.
  intros Hs [Hc Hr]. destruct Hs.
  - unfold on_clock. destruct (ra_replayer a) as [r|] eqn:Er; [|by split; [|cbn [snd]; rewrite Er]].
    pose proof (timer_reads (source a) session r Hr) as Ht. destruct (timerEvent env session r) as [x r']. cbn [snd] in *.
    match goal with |- follows_source (Nat.iter ?n _ ?a1) => destruct (on_ready_download connected reply n a1) as [G1 G2]; apply (follows_download _ _ G1 G2) end.
    by split.
  - unfold on_second. destruct (ra_launchClient a) as [c|]; [|done]. by destruct (_ && _).
  - done.
  - unfold on_replay_data. destruct (ra_replayClient a) as [c|] eqn:Ec; [|split; [|exact Hr]; cbn [snd]; by rewrite Ec].
    destruct Hc as [Hc Hn]. pose proof (download_grows data c Hc) as [[new Ef] Hle].
    pose proof (λ n' r, reads_demo_arrives (ra_visible a) n' (rc_file (rc_buffer c)) new r Hn) as Hd. rewrite <- Ef in Hd.
    destruct (TaReplayClient.onReadyRead data c) as [x c']. cbn [snd] in *. pose proof (f_equal length Ef) as El. rewrite length_app in El.
    match goal with |- follows_source (foldl _ ?a1 ?l) => destruct (boxes_download l a1) as [G1 G2]; apply (follows_download _ _ G1 G2) end.
    unfold source in Hr. rewrite Ec in Hr. destruct a as [lc sv rcl rr vis tm bx q1 q2]. split; cbn in *; unfold constant in *; [lia|]. destruct rr as [r|]; [|done].
    apply (Hd _ r); [lia|exact Hr].
  - destruct a as [lc sv [c|] rr vis tm bx q1 q2]; [|done]. unfold follows_source, source in *. cbn in *.
    unfold TaReplayClient.timerEvent, connect. by destruct (rc_socket c).
  - by destruct a as [lc sv [c|] rr vis tm bx q1 q2].
  - unfold acknowledged. by destruct (ra_quitWhenAcknowledged a).
  - by destruct a as [lc sv rcl [r|] vis tm bx q1 q2].
Qed.
Lemma hosted_reads stream answers : watch (reads stream) (hosted stream answers).2.
Proof.
  unfold hosted. apply stays_hostGame. split; [split; [done|apply Nat2Z.is_nonneg]|done].
Qed.
(** as long as there is a replayer, its client downloads what the server sends, and what is
    flushed can be seen *)
Definition live (chunks : list bytes) (pending : bytes) (a : ReplayApp) : Prop := is_Some (ra_replayer a) →
  ∃ c, ra_replayClient a = Some c ∧ downloads chunks pending c ∧ (rc_flushed c ≤ ra_visible a)%nat.
Lemma live_download chunks pending a a' : same_download a a' → (is_Some (ra_replayer a') → is_Some (ra_replayer a)) →
  live chunks pending a → live chunks pending a'.
Proof. intros [E1 E2] E3 Hli Hr. rewrite E1, E2. by apply Hli, E3. Qed.
Lemma downloads_socket f chunks pending c : rc_parser (f c) = rc_parser c → rc_buffer (f c) = rc_buffer c → rc_flushed (f c) = rc_flushed c →
  (rc_available c = [] → rc_available (f c) = []) → downloads chunks pending c → downloads chunks pending (f c).
Proof.
  intros E1 E2 E3 E4 (q & v & c0 & c1 & G1 & G2 & G3 & G4 & G5 & G6). exists q, v, c0, c1. rewrite E1, E2, E3. split_and!; try done; try apply G6. by apply E4.
Qed.
Lemma step_live chunks data pending a a' : Forall is_chunk chunks → app_step data a a' → live chunks (data ++ pending) a → live chunks pending a'.
Proof.
  intros Hch Hs. destruct Hs; intros Hl.
  - revert Hl. apply live_download; unfold on_clock; destruct (ra_replayer a) as [r|] eqn:Er; [|done|by eexists|cbn [snd]; by rewrite Er].
    destruct (timerEvent env session r) as [x r'].
    match goal with |- same_download _ (_, Nat.iter ?n _ ?a1).2 => destruct (on_ready_download connected reply n a1) as [G1 _] end. by trans (a <| ra_replayer := Some r' |>).
  - revert Hl. unfold on_second. destruct (ra_launchClient a) as [c|]; [|done]. destruct (_ && _); [|done]. by intros _ [? ?].
  - done.
  - unfold on_replay_data. destruct (ra_replayClient a) as [c|] eqn:Ec; [|intros Hr; destruct (Hl Hr) as (c & E & _); congruence].
    destruct (TaReplayClient.onReadyRead data c) as [x c'] eqn:Eo.
    match goal with |- live _ _ (_, foldl _ ?a1 ?l).2 => destruct (boxes_download l a1) as [G1 G2]; apply (live_download _ _ a1); [exact G1|cbn [snd]; by rewrite G2|] end.
    intros Hr. destruct (Hl ltac:(by destruct a as [lc sv rcl [r|] vis tm bx q1 q2]; [|destruct Hr])) as (c1 & E1 & Hd & _).
    rewrite Ec in E1. injection E1 as <-. destruct (downloads_step chunks data pending c Hch Hd) as (c2 & E2 & Hd2 & _).
    rewrite Eo in E2. injection E2 as -> <-. exists c'. split_and!; [done|done|]. cbn. unfold constant. lia.
  - destruct a as [lc sv [c|] rr vis tm bx q1 q2]; [|intros Hr; destruct (Hl Hr) as (? & ? & _); done]. intros Hr. destruct (Hl Hr) as (c1 & [= <-] & Hd & Hv).
    exists (TaReplayClient.timerEvent c). split; [done|]. split; [|unfold TaReplayClient.timerEvent, connect; by destruct (rc_socket c)].
    apply (downloads_socket TaReplayClient.timerEvent); [unfold TaReplayClient.timerEvent, connect; by destruct (rc_socket c)..|exact Hd].
  - destruct a as [lc sv [c|] rr vis tm bx q1 q2]; [|intros Hr; destruct (Hl Hr) as (? & ? & _); done]. intros Hr. destruct (Hl Hr) as (c1 & [= <-] & Hd & Hv).
    exists (TaReplayClient.onSocketStateChanged state c). split; [done|]. split; [|exact Hv]. by apply (downloads_socket (TaReplayClient.onSocketStateChanged state)).
  - revert Hl. unfold acknowledged. by destruct (ra_quitWhenAcknowledged a).
  - destruct a as [lc sv rcl [r|] vis tm bx q1 q2]; [|by intros [? ?]]. intros _. exact (Hl ltac:(by eexists)).
Qed.
(** C28: what a viewer's replayer gets of a live replay: in a program that was started for a
    demo on a replay server, when of the data messages of the server with the contents
    [chunks] (not empty, and no longer than the server makes them) the part [arrived] has come, in whatever pieces and with whatever other events
    between (turns of the replayer's clock, messages of the players, the launch server,
    the state of the connection), then the replayer, if the program still has one, has
    read a beginning of these contents and has before it the rest of a beginning of them:
    nothing is lost between the socket and the replayer, doubled or out of order.  And when
    all messages have come, all of the contents has been passed on to it, the last message
    included. *)
Theorem replay_follows_source (checks version_junk : Z * Z) (parser_junk : Z) (answers : HostAnswers) (a0 a : ReplayApp) (r : Replayer)
    (host path : bytes) (port : Z) (chunks : list bytes) (arrived pending : bytes) :
  doMain checks version_junk parser_junk answers = Ok (Run a0) → fromUserInput (value "demourl") = ServerDemo host port path →
  Forall is_chunk chunks → arrived ++ pending = concat (GpgNetParse.send <$> (data_command <$> chunks)) →
  app_run a0 arrived a → ra_replayer a = Some r → ∃ seen,
  (seen ≤ length (concat chunks))%nat ∧ 0 ≤ m_streamRead r ≤ Z.of_nat seen ∧
  m_demoDataStream r = drop (Z.to_nat (m_streamRead r)) (take seen (concat chunks)) ∧
  (pending = [] → seen = length (concat chunks)).
Proof.
  intros E Eu Hch Ea Hs Er.
  assert (follows_source a0 ∧ live chunks (concat (GpgNetParse.send <$> (data_command <$> chunks))) a0) as Hstart.
  { unfold doMain in E. rewrite Eu in E. destruct (_ || _); [by apply res_bind_inv in E as (j & _ & E)|]. unfold run in E.
    pose proof (hosted_reads [] answers) as Hh. destruct (hosted [] answers) as [[[]|e| |] r0]; try done. injection E as <-. split; [split; [split; cbn; lia|exact Hh]|].
    intros _. eexists. split; [reflexivity|]. split; [apply downloads_start|done]. }
  assert (follows_source a ∧ live chunks pending a) as [[Hc Hr] Hl].
  { clear E Er. rewrite <- Ea in Hstart. revert pending Ea Hstart. induction Hs as [|arrived data a a' _ IH Hstep]; intros pending Ea Hstart; [done|].
    rewrite <- (assoc_L (++)) in Ea, Hstart. destruct (IH (data ++ pending) Ea Hstart) as [G1 G2].
    split; [by apply (step_follows data a)|by apply (step_live chunks data pending a)]. }
  destruct (Hl ltac:(by rewrite Er)) as (c & Ec & Hd & Hv). destruct (downloads_end chunks pending c Hd) as [[rest Ef] Hend].
  rewrite Er in Hr. rewrite Ec in Hc. destruct Hr as [Hk Hw]. unfold source in *. rewrite Ec in *. destruct Hc as [_ Hc]. cbn [from_option] in *.
  rewrite length_take in Hk. exists (ra_visible a). rewrite Ef, length_app. split_and!; [lia..| |].
  - rewrite take_app_le by lia. exact Hw.
  - intros ->. destruct (Hend eq_refl) as [E1 E2]. rewrite Ef, length_app in E2. rewrite Ef in E1. apply (f_equal length) in E1. rewrite length_app in E1. lia.
Qed.

(** A demo on a server without a port is asked for at port 65535. *)
Theorem server_without_port (checks version_junk : Z * Z) (parser_junk : Z) (answers : HostAnswers) (a : ReplayApp) (host path : bytes) :
  doMain checks version_junk parser_junk answers = Ok (Run a) → fromUserInput (value "demourl") = ServerDemo host (-1) path →
  ra_server a = Some (host, 65535).
Proof.
  unfold doMain. intros E Eu. rewrite Eu in E. destruct (_ || _); [by apply res_bind_inv in E as (j & _ & E)|].
  unfold run in E. by destruct (hosted [] answers) as [[[]|e| |] r0]; [injection E as <-|..].
Qed.
End Program.

Definition ex_answers : HostAnswers := mkHostAnswers false (mkAnswers Some 0 0 0 0 0 0 0 0) (λ _, 0) (λ _ n, Z.of_nat n + 1).
Definition ex_main : res replayer_run :=
  doMain (H0:=ex_text) (λ _, false) (λ _, []) (λ _, ServerDemo [104] 15000 [47; 55]) (λ b, b) (λ b, b) (λ b, b) ex_environment 0 (λ _, true)
    (0, 0) (0, 0) 0 ex_answers.
Definition ex_app : ReplayApp := match ex_main with Ok (Run a) => a | _ => mkReplayApp None None None None 0 false [] false false end.
(** one data message, in two pieces *)
Definition ex_message : bytes := GpgNetParse.send (data_command [1; 2; 3]).
Definition ex_downloaded : ReplayApp := (on_replay_data (H:=ex_qt) 0 (drop 9 ex_message) (on_replay_data (H:=ex_qt) 5 (take 9 ex_message) ex_app).2).2.
Lemma replay_follows_source_witness : ∃ r, ra_replayer ex_downloaded = Some r ∧
  m_demoDataStream r = drop (Z.to_nat (m_streamRead r)) [1; 2; 3].
Proof.
  assert (ex_main = Ok (Run ex_app)) as E by (vm_compute; reflexivity).
  destruct (ra_replayer ex_downloaded) as [r|] eqn:Er; [|vm_compute in Er; discriminate]. exists r. split; [reflexivity|].
  destruct (replay_follows_source (H:=ex_qt) (H0:=ex_text) (H1:=ex_numbers) (λ _, false) (λ _, []) (λ _, ServerDemo [104] 15000 [47; 55])
    (λ b, b) (λ b, b) (λ b, b) ex_environment 0 (λ _, true) (0, 0) (0, 0) 0 ex_answers ex_app ex_downloaded r [104] [47; 55] 15000 [[1; 2; 3]]
    (([] ++ take 9 ex_message) ++ drop 9 ex_message) [] E) as (seen & _ & _ & Hd & Hall).
  - reflexivity.
  - apply Forall_singleton. split; cbn; [discriminate|unfold CHUNK_SIZE; lia].
  - cbn [app]. rewrite take_drop, app_nil_r. cbn [fmap list_fmap concat]. by rewrite app_nil_r.
  - eapply app_next; [eapply app_next; [apply app_start|apply app_data]|apply app_data].
  - exact Er.
  - rewrite (Hall eq_refl) in Hd. exact Hd.
Defined.
