(* ===== verification/DataBuffer.v ===== *)
(** * Send and receive buffers and resend statistics of a peer (TafnetNode.cpp)

    [Payload], [DataBuffer] and [TafnetNode::ResendRate].  The clock is read once per
    operation: [now] is [QDateTime::currentMSecsSinceEpoch()]. *)
From S2P Require Import Prelude OrderedMaps.

(** ** Constants of TafnetNode.h *)
Definition MAX_PACKET_SIZE_LOWER_LIMIT : Z := 250.
Definition INITIAL_RESEND_TIMEOUT : Z := 500.
Definition MAX_RESEND_TIMEOUT : Z := 700.
Definition RESEND_TIMEOUT_MARGIN : Z := 50.
Definition MAX_RESEND_AT_ONCE : Z := 5.
Definition PING_PACKET_SIZE : Z := 16.
Definition DEAD_PEER_TIMEOUT : Z := 180000.
Definition RECENT_PING_BUFFER_SIZE : nat := 5.

Definition ACTION_INVALID : Z := 0.
Definition ACTION_UDP_DATA : Z := 2.
Definition ACTION_TCP_OPEN : Z := 3.
Definition ACTION_TCP_CLOSE : Z := 4.
Definition ACTION_TCP_DATA : Z := 5.
Definition ACTION_TCP_ACK : Z := 6.
Definition ACTION_TCP_RESEND : Z := 7.
Definition ACTION_MORE : Z := 8.
Definition ACTION_ENUM : Z := 9.
Definition ACTION_UDP_PROTECTED : Z := 10.
Definition ACTION_PACKSIZE_TEST : Z := 11.
Definition ACTION_PACKSIZE_ACK : Z := 12.
Definition ACTION_HELLO : Z := 13.

(** ** Payload *)
Record Payload := mkPayload { py_action : Z; py_buf : option bytes; py_timestamp : Z }.
Definition Payload_init : Payload := mkPayload ACTION_INVALID None 0.
(** [set]; [data] is not null *)
Definition Payload_set (now action : Z) (data : bytes) : Payload := mkPayload (u8 action) (Some data) now.

(** ** DataBuffer *)
Record DataBuffer := mkDataBuffer { m_data : gmap Z Payload; m_nextPopSeq : Z; m_nextPushSeq : Z }.
Definition DataBuffer_init : DataBuffer := mkDataBuffer ∅ 1 1.
Definition DataBuffer_reset (b : DataBuffer) : DataBuffer := DataBuffer_init.

Definition DB_insert (now seq action : Z) (data : bytes) (b : DataBuffer) : DataBuffer :=
  if m_nextPopSeq b <=? seq
  then mkDataBuffer (<[seq := Payload_set now action data]> (m_data b)) (m_nextPopSeq b) (m_nextPushSeq b)
  else b.
Definition DB_push_back (now action : Z) (data : bytes) (b : DataBuffer) : Z * DataBuffer :=
  (m_nextPushSeq b,
   mkDataBuffer (<[m_nextPushSeq b := Payload_set now action data]> (m_data b)) (m_nextPopSeq b)
     (u32 (m_nextPushSeq b + 1))).
Definition DB_readyRead (b : DataBuffer) : bool :=
  match first_key (m_data b) with Some k => m_nextPopSeq b =? k | None => false end.
Definition DB_pop (b : DataBuffer) : Payload * DataBuffer :=
  match first_key (m_data b) with
  | Some k =>
      if m_nextPopSeq b =? k
      then (at_key Payload_init (m_data b) k,
            mkDataBuffer (delete k (m_data b)) (u32 (m_nextPopSeq b + 1)) (m_nextPushSeq b))
      else (Payload_init, b)
  | None => (Payload_init, b)
  end.
Definition DB_size (b : DataBuffer) : nat := size (m_data b).
Definition DB_ackData (seq : Z) (b : DataBuffer) : bool * DataBuffer :=
  (bool_decide (is_Some (m_data b !! seq)),
   mkDataBuffer (delete seq (m_data b)) (m_nextPopSeq b) (m_nextPushSeq b)).
Definition DB_empty (b : DataBuffer) : bool := bool_decide (m_data b = ∅).
Definition DB_nextExpectedPopSeq (b : DataBuffer) : Z := m_nextPopSeq b.
(** the caller checks that the buffer is not empty *)
Definition DB_earliestAvailable (b : DataBuffer) : res Z :=
  match first_key (m_data b) with Some k => Ok k | None => Undef end.
Definition DB_get (seq : Z) (b : DataBuffer) : Payload := at_key Payload_init (m_data b) seq.

(** ** ResendRate *)
Record ResendRate := mkResendRate {
  rr_sendCount : Z; rr_ackCount : Z; rr_maxPacketSize : Z;
  rr_timestampLastPing : Z; rr_timestampLastPingAck : Z; rr_timestampFirstPing : Z;
  rr_recentPings : list Z;
  rr_lastTimeoutSeq : Z; rr_lastResendReqSeq : Z }.
Definition ResendRate_init : ResendRate := mkResendRate 0 0 MAX_PACKET_SIZE_LOWER_LIMIT 0 0 0 [] 0 0.
Definition set_counts (sendCount ackCount : Z) (r : ResendRate) : ResendRate :=
  mkResendRate sendCount ackCount (rr_maxPacketSize r) (rr_timestampLastPing r) (rr_timestampLastPingAck r)
    (rr_timestampFirstPing r) (rr_recentPings r) (rr_lastTimeoutSeq r) (rr_lastResendReqSeq r).
Definition set_maxPacketSize (v : Z) (r : ResendRate) : ResendRate :=
  mkResendRate (rr_sendCount r) (rr_ackCount r) v (rr_timestampLastPing r) (rr_timestampLastPingAck r)
    (rr_timestampFirstPing r) (rr_recentPings r) (rr_lastTimeoutSeq r) (rr_lastResendReqSeq r).
Definition set_pings (last ack first : Z) (recent : list Z) (r : ResendRate) : ResendRate :=
  mkResendRate (rr_sendCount r) (rr_ackCount r) (rr_maxPacketSize r) last ack first recent
    (rr_lastTimeoutSeq r) (rr_lastResendReqSeq r).
Definition set_lastSeqs (timeout resendReq : Z) (r : ResendRate) : ResendRate :=
  mkResendRate (rr_sendCount r) (rr_ackCount r) (rr_maxPacketSize r) (rr_timestampLastPing r)
    (rr_timestampLastPingAck r) (rr_timestampFirstPing r) (rr_recentPings r) timeout resendReq.
(** [ackCount++] *)
Definition inc_ackCount (r : ResendRate) : ResendRate := set_counts (rr_sendCount r) (u32 (rr_ackCount r + 1)) r.

Definition MAXRATE : Z := 3.
(** the int [rate] is made from unsigned values *)
Definition getResendRate (incSendCount : bool) (r : ResendRate) : Z * ResendRate :=
  let '(sendCount, ackCount) :=
    if 32 <? rr_ackCount r then (rr_sendCount r / 2, rr_ackCount r / 2) else (rr_sendCount r, rr_ackCount r) in
  let rate :=
    if sendCount <=? ackCount then 1
    else if ackCount =? 0 then s32 sendCount
    else s32 (sendCount / ackCount) in
  let '(rate, sendCount) :=
    if MAXRATE <? rate
    then (MAXRATE, if 0 <? ackCount then u32 (ackCount * (MAXRATE + 1) - 1) else sendCount)
    else (rate, sendCount) in
  let sendCount := if incSendCount then u32 (sendCount + Z.max 1 (rate - 1)) else sendCount in
  (rate, set_counts sendCount ackCount r).

(** [while (recentPings.size() > RECENT_PING_BUFFER_SIZE) recentPings.pop_front()] *)
Definition last_pings (pings : list Z) : list Z := drop (length pings - RECENT_PING_BUFFER_SIZE) pings.
Definition registerAck (now : Z) (r : ResendRate) : ResendRate :=
  let ping := now - rr_timestampLastPing r in
  set_pings (rr_timestampLastPing r) now (rr_timestampFirstPing r)
    (if (0 <? rr_timestampLastPing r) && (0 <? ping) then last_pings (rr_recentPings r ++ [ping])
     else rr_recentPings r) r.
(** [std::nth_element] at the last place: the largest *)
Definition getSuccessfulPingTime (r : ResendRate) : Z :=
  match rr_recentPings r with
  | [] => -1
  | p :: ps => foldl Z.max p ps
  end.
