(* ===== verification/TafnetNode.v ===== *)
(** * The peer to peer node (TafnetNode.cpp)

    The node's maps from player id to buffers, the framing of datagrams, fragmentation,
    acknowledgement and resend requests, and the timers.  The log of datagrams written to
    the lobby socket and the log of messages given to [m_handleMessage] are part of the
    state.  [now] is the clock, which is taken to stand still during one call. *)
From S2P Require Import Prelude OrderedMaps DuplicateDetection DataBuffer.

(** ** State *)
(** an IPv4 address and a port *)
Abbreviation HostAndPort := (Z * Z)%type.
(** [HostAndPort::operator<] orders by the port first *)
Definition hp_le (a b : HostAndPort * Z) : Prop := a.1.2 < b.1.2 ∨ a.1.2 = b.1.2 ∧ a.1.1 ≤ b.1.1.
#[export] Instance hp_le_dec a b : Decision (hp_le a b).
Proof. unfold hp_le. apply _. Defined.

Record TafnetNode := mkNode {
  m_playerId : Z;
  m_hostPlayerId : Z;
  m_maxPacketSize : Z;
  m_proactiveResendEnabled : bool;
  m_peerAddresses : gmap Z HostAndPort;
  m_peerPlayerIds : gmap HostAndPort Z;
  m_receiveBuffer : gmap Z DataBuffer;
  m_sendBuffer : gmap Z DataBuffer;
  m_reassemblyBuffer : gmap Z bytes;
  m_resendRates : gmap Z ResendRate;
  m_resendRequestEnabled : gmap Z bool;
  m_udpDuplicateDetection : DuplicateDetection;
  n_sent : list (HostAndPort * bytes);
  n_handled : list (Z * Z * bytes) }.     (* action, peer, data *)

Definition TafnetNode_make (playerId : Z) (isHost proactiveResend : bool) (maxPacketSize : Z) : TafnetNode :=
  mkNode playerId (if isHost then playerId else 0) maxPacketSize proactiveResend ∅ ∅ ∅ ∅ ∅ ∅ ∅ DD_init [] [].

Definition set_hostPlayerId (v : Z) (n : TafnetNode) : TafnetNode :=
  mkNode (m_playerId n) v (m_maxPacketSize n) (m_proactiveResendEnabled n) (m_peerAddresses n) (m_peerPlayerIds n)
    (m_receiveBuffer n) (m_sendBuffer n) (m_reassemblyBuffer n) (m_resendRates n) (m_resendRequestEnabled n)
    (m_udpDuplicateDetection n) (n_sent n) (n_handled n).
Definition set_peers (addresses : gmap Z HostAndPort) (ids : gmap HostAndPort Z) (n : TafnetNode) : TafnetNode :=
  mkNode (m_playerId n) (m_hostPlayerId n) (m_maxPacketSize n) (m_proactiveResendEnabled n) addresses ids
    (m_receiveBuffer n) (m_sendBuffer n) (m_reassemblyBuffer n) (m_resendRates n) (m_resendRequestEnabled n)
    (m_udpDuplicateDetection n) (n_sent n) (n_handled n).
Definition set_receive (v : gmap Z DataBuffer) (n : TafnetNode) : TafnetNode :=
  mkNode (m_playerId n) (m_hostPlayerId n) (m_maxPacketSize n) (m_proactiveResendEnabled n) (m_peerAddresses n)
    (m_peerPlayerIds n) v (m_sendBuffer n) (m_reassemblyBuffer n) (m_resendRates n) (m_resendRequestEnabled n)
    (m_udpDuplicateDetection n) (n_sent n) (n_handled n).
Definition set_send (v : gmap Z DataBuffer) (n : TafnetNode) : TafnetNode :=
  mkNode (m_playerId n) (m_hostPlayerId n) (m_maxPacketSize n) (m_proactiveResendEnabled n) (m_peerAddresses n)
    (m_peerPlayerIds n) (m_receiveBuffer n) v (m_reassemblyBuffer n) (m_resendRates n) (m_resendRequestEnabled n)
    (m_udpDuplicateDetection n) (n_sent n) (n_handled n).
Definition set_reassembly (v : gmap Z bytes) (n : TafnetNode) : TafnetNode :=
  mkNode (m_playerId n) (m_hostPlayerId n) (m_maxPacketSize n) (m_proactiveResendEnabled n) (m_peerAddresses n)
    (m_peerPlayerIds n) (m_receiveBuffer n) (m_sendBuffer n) v (m_resendRates n) (m_resendRequestEnabled n)
    (m_udpDuplicateDetection n) (n_sent n) (n_handled n).
Definition set_rates (v : gmap Z ResendRate) (n : TafnetNode) : TafnetNode :=
  mkNode (m_playerId n) (m_hostPlayerId n) (m_maxPacketSize n) (m_proactiveResendEnabled n) (m_peerAddresses n)
    (m_peerPlayerIds n) (m_receiveBuffer n) (m_sendBuffer n) (m_reassemblyBuffer n) v (m_resendRequestEnabled n)
    (m_udpDuplicateDetection n) (n_sent n) (n_handled n).
Definition set_enabled (v : gmap Z bool) (n : TafnetNode) : TafnetNode :=
  mkNode (m_playerId n) (m_hostPlayerId n) (m_maxPacketSize n) (m_proactiveResendEnabled n) (m_peerAddresses n)
    (m_peerPlayerIds n) (m_receiveBuffer n) (m_sendBuffer n) (m_reassemblyBuffer n) (m_resendRates n) v
    (m_udpDuplicateDetection n) (n_sent n) (n_handled n).
Definition set_dups (v : DuplicateDetection) (n : TafnetNode) : TafnetNode :=
  mkNode (m_playerId n) (m_hostPlayerId n) (m_maxPacketSize n) (m_proactiveResendEnabled n) (m_peerAddresses n)
    (m_peerPlayerIds n) (m_receiveBuffer n) (m_sendBuffer n) (m_reassemblyBuffer n) (m_resendRates n)
    (m_resendRequestEnabled n) v (n_sent n) (n_handled n).
Definition add_sent (ds : list (HostAndPort * bytes)) (n : TafnetNode) : TafnetNode :=
  mkNode (m_playerId n) (m_hostPlayerId n) (m_maxPacketSize n) (m_proactiveResendEnabled n) (m_peerAddresses n)
    (m_peerPlayerIds n) (m_receiveBuffer n) (m_sendBuffer n) (m_reassemblyBuffer n) (m_resendRates n)
    (m_resendRequestEnabled n) (m_udpDuplicateDetection n) (n_sent n ++ ds) (n_handled n).
Definition add_handled (c : Z * Z * bytes) (n : TafnetNode) : TafnetNode :=
  mkNode (m_playerId n) (m_hostPlayerId n) (m_maxPacketSize n) (m_proactiveResendEnabled n) (m_peerAddresses n)
    (m_peerPlayerIds n) (m_receiveBuffer n) (m_sendBuffer n) (m_reassemblyBuffer n) (m_resendRates n)
    (m_resendRequestEnabled n) (m_udpDuplicateDetection n) (n_sent n) (n_handled n ++ [c]).

Definition receive_of (n : TafnetNode) (p : Z) : DataBuffer := at_key DataBuffer_init (m_receiveBuffer n) p.
Definition send_of (n : TafnetNode) (p : Z) : DataBuffer := at_key DataBuffer_init (m_sendBuffer n) p.
Definition reassembly_of (n : TafnetNode) (p : Z) : bytes := at_key [] (m_reassemblyBuffer n) p.
Definition rate_of (n : TafnetNode) (p : Z) : ResendRate := at_key ResendRate_init (m_resendRates n) p.
(** [BoolDefaultToTrue] *)
Definition enabled_of (n : TafnetNode) (p : Z) : bool := at_key true (m_resendRequestEnabled n) p.
Definition put_receive (p : Z) (b : DataBuffer) (n : TafnetNode) : TafnetNode := set_receive (<[p := b]> (m_receiveBuffer n)) n.
Definition put_send (p : Z) (b : DataBuffer) (n : TafnetNode) : TafnetNode := set_send (<[p := b]> (m_sendBuffer n)) n.
Definition put_reassembly (p : Z) (b : bytes) (n : TafnetNode) : TafnetNode := set_reassembly (<[p := b]> (m_reassemblyBuffer n)) n.
Definition put_rate (p : Z) (r : ResendRate) (n : TafnetNode) : TafnetNode := set_rates (<[p := r]> (m_resendRates n)) n.
Definition put_enabled (p : Z) (v : bool) (n : TafnetNode) : TafnetNode := set_enabled (<[p := v]> (m_resendRequestEnabled n)) n.

(** [m_resendRates[peer].getResendRate(inc)] *)
Definition resendRate (peer : Z) (inc : bool) (n : TafnetNode) : Z * TafnetNode :=
  let '(rate, r) := getResendRate inc (rate_of n peer) in (rate, put_rate peer r n).

(** ** Sending *)

(** the datagram: [TafnetBufferedHeader] or [TafnetMessageHeader], and the data *)
Definition frame (action seq : Z) (data : bytes) : bytes :=
  if ACTION_TCP_DATA <=? action then [u8 action] ++ le4 seq ++ data else [u8 action] ++ data.

Definition sendMessage (dest action seq : Z) (data : bytes) (nRepeats : Z) (n : TafnetNode) : TafnetNode :=
  match m_peerAddresses n !! dest with
  | None => n
  | Some hp =>
      let nRepeats := if m_proactiveResendEnabled n then nRepeats else 1 in
      add_sent (replicate (Z.to_nat nRepeats) (hp, frame action seq data)) n
  end.

(** the fragments of [data] from [fragOffset] on; each turn advances by at least
    [MAX_PACKET_SIZE_LOWER_LIMIT] *)
Fixpoint fragment_loop (fuel : nat) (now dest action maxPacketSize : Z) (data : bytes) (fragOffset : nat)
    (n : TafnetNode) : res TafnetNode :=
  match fuel with
  | O => Hang
  | S fuel =>
      if (fragOffset <? length data)%nat then
        let sz := Nat.min (Z.to_nat maxPacketSize) (length data - fragOffset) in
        let p := take sz (drop fragOffset data) in
        let '(nRepeats, n) := resendRate dest true n in
        let act := if (length data <=? fragOffset + sz)%nat then action else ACTION_MORE in
        let '(seq, b) := DB_push_back now act p (send_of n dest) in
        let n := sendMessage dest act seq p nRepeats (put_send dest b n) in
        fragment_loop fuel now dest action maxPacketSize data (fragOffset + Z.to_nat maxPacketSize) n
      else Ok n
  end.

(** the fragment size; [Undef] is the division by zero *)
Definition fragmentSize (len peerMax nodeMax : Z) : res Z :=
  if u32 (peerMax + 1) =? 0 then Undef
  else
    let numFragments := u32 (len / u32 (peerMax + 1) + 1) in
    let maxPacketSize := u32 (len + numFragments - 1) / numFragments in
    Ok (Z.max (Z.min maxPacketSize nodeMax) MAX_PACKET_SIZE_LOWER_LIMIT).

Definition forwardGameData (now dest action : Z) (data : bytes) (n : TafnetNode) : res TafnetNode :=
  match m_peerAddresses n !! dest with
  | None => Ok n
  | Some _ =>
      if ACTION_TCP_DATA <=? action then
        let n := put_rate dest (rate_of n dest) (put_send dest (send_of n dest) n) in
        maxPacketSize ← fragmentSize (Z.of_nat (length data)) (rr_maxPacketSize (rate_of n dest)) (m_maxPacketSize n);
        fragment_loop (S (length data)) now dest action maxPacketSize data 0 n
      else
        let '(nRepeats, n) := resendRate dest false n in
        Ok (sendMessage dest action 0 data nRepeats n)
  end.

(** ** Peers *)
Definition erase_buffers (peer : Z) (n : TafnetNode) : TafnetNode :=
  set_enabled (delete peer (m_resendRequestEnabled n))
    (set_rates (delete peer (m_resendRates n))
      (set_reassembly (delete peer (m_reassemblyBuffer n))
        (set_send (delete peer (m_sendBuffer n))
          (set_receive (delete peer (m_receiveBuffer n)) n)))).
Definition HELLO : bytes := [72; 69; 76; 76; 79].
Definition connectToPeer (now : Z) (hostAndPort : HostAndPort) (peer : Z) (n : TafnetNode) : res TafnetNode :=
  let n := set_peers (<[peer := hostAndPort]> (m_peerAddresses n)) (<[hostAndPort := peer]> (m_peerPlayerIds n)) n in
  forwardGameData now peer ACTION_HELLO HELLO (erase_buffers peer n).
Definition joinGame (now : Z) (hostAndPort : HostAndPort) (peer : Z) (n : TafnetNode) : res TafnetNode :=
  n ← connectToPeer now hostAndPort peer n; Ok (set_hostPlayerId peer n).
Definition disconnectFromPeer (peer : Z) (n : TafnetNode) : TafnetNode :=
  let ids := match m_peerAddresses n !! peer with
             | Some hp => delete hp (m_peerPlayerIds n)
             | None => m_peerPlayerIds n
             end in
  erase_buffers peer (set_peers (delete peer (m_peerAddresses n)) ids n).
Definition maxPacketSizeForPlayerId (id : Z) (n : TafnetNode) : Z :=
  match m_resendRates n !! id with Some r => rr_maxPacketSize r | None => MAX_PACKET_SIZE_LOWER_LIMIT end.
Definition isHost (n : TafnetNode) : bool := m_playerId n =? m_hostPlayerId n.
Definition resetTcpBuffers (n : TafnetNode) : TafnetNode :=
  set_send (DataBuffer_reset <$> m_sendBuffer n) (set_receive (DataBuffer_reset <$> m_receiveBuffer n) n).

(** ** Timers *)

(** [for (auto &pairPayload : sendBuffer.getAll())] *)
Fixpoint resend_loop (now timeout peer : Z) (seqs : list Z) (maxResendAtOnce : Z) (n : TafnetNode) : TafnetNode :=
  match seqs with
  | [] => n
  | seq :: seqs =>
      let data := DB_get seq (send_of n peer) in
      if now <? py_timestamp data + timeout then n
      else
        let n := match py_buf data with
                 | Some buf => let '(nRepeats, n) := resendRate peer true n in
                               sendMessage peer (py_action data) seq buf nRepeats n
                 | None => n
                 end in
        let stats := rate_of n peer in
        let n := if rr_lastTimeoutSeq stats <? seq
                 then put_rate peer (set_lastSeqs seq (rr_lastResendReqSeq stats) stats) n else n in
        if maxResendAtOnce - 1 <=? 0 then n else resend_loop now timeout peer seqs (maxResendAtOnce - 1) n
  end.
Definition resend_timeout (expectedPing : Z) : Z :=
  Z.min MAX_RESEND_TIMEOUT
    (if 0 <? expectedPing then Z.quot (11 * expectedPing) 10 + RESEND_TIMEOUT_MARGIN else INITIAL_RESEND_TIMEOUT).
Definition resend_to (now peer : Z) (n : TafnetNode) : TafnetNode :=
  let n := put_rate peer (rate_of n peer) n in
  let timeout := resend_timeout (s32 (getSuccessfulPingTime (rate_of n peer))) in
  resend_loop now timeout peer (sorted_keys (m_data (send_of n peer))) MAX_RESEND_AT_ONCE n.
Definition onResendTimer (now : Z) (n : TafnetNode) : TafnetNode :=
  foldl (λ n peer, resend_to now peer n) n (sorted_keys (m_sendBuffer n)).
Definition onResendReqReenableTimer (n : TafnetNode) : TafnetNode :=
  set_enabled ((λ _, true) <$> m_resendRequestEnabled n) n.

(** ** Packet size tests and pings *)

(** the counting bytes, with the checksum of what follows it in the first four *)
Definition test_packet (total sz : Z) : bytes :=
  let data := map (λ k, u8 (Z.of_nat k)) (seq 0 (Z.to_nat total)) in
  wr data 0 (le4 (CRC32.FullCRC CRC32.Initialize (take (Z.to_nat sz - 4) (drop 4 data)))).
(** sizes grow by 1.412 from 250 to the maximum: 64 turns are enough for 32 bit sizes *)
Fixpoint packsize_loop (fuel : nat) (peer sz : Z) (n : TafnetNode) : res TafnetNode :=
  match fuel with
  | O => Hang
  | S fuel =>
      if m_maxPacketSize n <? sz then Undef   (* the test data is not that long *)
      else
        let n := sendMessage peer ACTION_PACKSIZE_TEST sz (take (Z.to_nat sz) (test_packet (m_maxPacketSize n) sz)) 3 n in
        if m_maxPacketSize n <=? sz then Ok n
        else packsize_loop fuel peer (Z.min (u32 (1412 * sz) / 1000) (m_maxPacketSize n)) n
  end.
Definition sendPacksizeTests (now peer : Z) (n : TafnetNode) : res TafnetNode :=
  let n := put_rate peer (set_maxPacketSize MAX_PACKET_SIZE_LOWER_LIMIT (rate_of n peer)) n in
  n ← packsize_loop 64 peer MAX_PACKET_SIZE_LOWER_LIMIT n;
  let r := rate_of n peer in
  Ok (put_rate peer (set_pings now (rr_timestampLastPingAck r) (rr_timestampFirstPing r) (rr_recentPings r) r) n).

(** the first loop of [sendPingToPeers]: the lost peers are collected *)
Definition ping_peer (now : Z) (acc : list Z * TafnetNode) (entry : HostAndPort * Z) : list Z * TafnetNode :=
  let '(lost, n) := acc in
  let peer := entry.2 in
  let r := rate_of n peer in
  let n := put_rate peer r n in
  if (0 <? rr_timestampLastPingAck r) && (DEAD_PEER_TIMEOUT <? now - rr_timestampLastPingAck r) then (lost ++ [peer], n)
  else if (rr_timestampLastPingAck r =? 0) && (0 <? rr_timestampFirstPing r)
          && (DEAD_PEER_TIMEOUT <? now - rr_timestampFirstPing r) then (lost ++ [peer], n)
  else
    let first := if rr_timestampFirstPing r =? 0 then now else rr_timestampFirstPing r in
    let n := put_rate peer (set_pings now (rr_timestampLastPingAck r) first (rr_recentPings r) r) n in
    (lost, sendMessage peer ACTION_PACKSIZE_TEST PING_PACKET_SIZE (test_packet PING_PACKET_SIZE PING_PACKET_SIZE) 1 n).
Definition sendPingToPeers (now : Z) (n : TafnetNode) : TafnetNode :=
  let '(lost, n) := foldl (ping_peer now) ([], n) (merge_sort hp_le (map_to_list (m_peerPlayerIds n))) in
  foldl (λ n peer, disconnectFromPeer peer n) n (merge_sort Z.le (remove_dups lost)).
Definition ping_of (now : Z) (r : ResendRate) : option Z :=
  if 0 <? rr_timestampLastPing r then
    Some (if rr_timestampLastPingAck r <? rr_timestampLastPing r then now - rr_timestampLastPing r
          else rr_timestampLastPingAck r - rr_timestampLastPing r)
  else None.
Definition getPingToPeers (now : Z) (n : TafnetNode) : gmap Z Z := omap (ping_of now) (m_resendRates n).

(** ** Receiving *)
Section Receive.
(** the hook [m_handleMessage], of a program with more state [W]; it may call back into
    the node and may leave by an exception *)
Context {W : Type} (m_handleMessage : Z → Z → bytes → TafnetNode * W → res unit * (TafnetNode * W)).

Definition handleMessage (action peer : Z) (data : bytes) (nw : TafnetNode * W) : res unit * (TafnetNode * W) :=
  m_handleMessage action peer data (add_handled (action, peer, data) nw.1, nw.2).

(** [while (tcpReceiveBuffer.readyRead())]; the buffers are references into the maps of
    the node, and dangle if the handler erases the peer *)
Fixpoint drain_loop (fuel : nat) (peer : Z) (nw : TafnetNode * W) : res unit * (TafnetNode * W) :=
  match fuel with
  | O => (Hang, nw)
  | S fuel =>
      let '(n, w) := nw in
      if DB_readyRead (receive_of n peer) then
        let '(data, b) := DB_pop (receive_of n peer) in
        let n := put_receive peer b (put_enabled peer true n) in
        let n := put_reassembly peer (reassembly_of n peer ++ default [] (py_buf data)) n in
        if negb (py_action data =? ACTION_MORE) then
          match handleMessage (py_action data) peer (reassembly_of n peer) (n, w) with
          | (Ok _, (n, w)) =>
              if bool_decide (is_Some (m_receiveBuffer n !! peer)) && bool_decide (is_Some (m_reassemblyBuffer n !! peer))
              then drain_loop fuel peer (put_reassembly peer [] n, w)
              else (Undef, (n, w))
          | (Throw e, nw) => (Throw e, nw)
          | (Undef, nw) => (Undef, nw)
          | (Hang, nw) => (Hang, nw)
          end
        else drain_loop fuel peer (n, w)
      else (Ok tt, nw)
  end.

(** [for (seq = nextExpectedPopSeq(); seq < earliestAvailable() && remainingMaxResend > 0; ...)] *)
Fixpoint request_loop (remainingMaxResend : nat) (peer seq earliest nRepeats : Z) (n : TafnetNode) : TafnetNode :=
  match remainingMaxResend with
  | O => n
  | S remaining =>
      if seq <? earliest
      then request_loop remaining peer (u32 (seq + 1)) earliest nRepeats
             (sendMessage peer ACTION_TCP_RESEND seq [] nRepeats n)
      else n
  end.
Definition request_resend (peer nRepeats : Z) (n : TafnetNode) : TafnetNode :=
  match DB_earliestAvailable (receive_of n peer) with
  | Ok earliest =>
      if enabled_of n peer
      then request_loop 10 peer (DB_nextExpectedPopSeq (receive_of n peer)) earliest nRepeats (put_enabled peer false n)
      else n
  | _ => n                                 (* the buffer is empty *)
  end.

(** the branch [action >= ACTION_TCP_DATA]; the handler may add to the buffer, but one
    that does not leaves its size as enough fuel *)
Definition on_data (fuel : nat) (now peer action seq : Z) (data : bytes) (nw : TafnetNode * W) : res unit * (TafnetNode * W) :=
  let '(n, w) := nw in
  let n := put_receive peer (DB_insert now seq action data (receive_of n peer)) n in
  let '(nRepeats, n) := resendRate peer false n in
  let n := sendMessage peer ACTION_TCP_ACK seq [] nRepeats n in
  let n := put_reassembly peer (reassembly_of n peer) n in
  match drain_loop (fuel + S (DB_size (receive_of n peer))) peer (n, w) with
  | (Ok _, (n, w)) => (Ok tt, (request_resend peer nRepeats n, w))
  | e => e
  end.

Definition on_ack (peer seq : Z) (n : TafnetNode) : TafnetNode :=
  let '(acked, b) := DB_ackData seq (send_of n peer) in
  let n := put_send peer b n in
  if acked : bool then put_rate peer (inc_ackCount (rate_of n peer)) n else n.
Definition on_resend (peer seq : Z) (n : TafnetNode) : TafnetNode :=
  let data := DB_get seq (send_of n peer) in
  match py_buf data with
  | Some buf =>
      let '(nRepeats, n) := resendRate peer true n in
      let stats := rate_of n peer in
      let n := if rr_lastResendReqSeq stats <? seq
               then put_rate peer (set_lastSeqs (rr_lastTimeoutSeq stats) seq stats) n else n in
      sendMessage peer (py_action data) seq buf nRepeats n
  | None => n
  end.
(** the checksum of a packet that is too short for it is taken over four gigabytes *)
Definition on_packsize_test (peer seq : Z) (datas : bytes) (n : TafnetNode) : res TafnetNode :=
  if Z.of_nat (length datas) =? seq + 5 then
    if seq <? 4 then Undef
    else
      testPacketCrc ← rd32 datas 5;
      if (CRC32.FullCRC CRC32.Initialize (drop 9 datas) =? testPacketCrc) && (seq <=? m_maxPacketSize n)
      then Ok (sendMessage peer ACTION_PACKSIZE_ACK seq [] 1 n)
      else Ok n
  else Ok n.
Definition on_packsize_ack (now peer ackedPacketSize : Z) (n : TafnetNode) : TafnetNode :=
  let stats := registerAck now (rate_of n peer) in
  put_rate peer (if rr_maxPacketSize stats <? ackedPacketSize then set_maxPacketSize ackedPacketSize stats else stats) n.
(** data not requiring an acknowledgement *)
Definition on_unbuffered (peer action : Z) (datas : bytes) (nw : TafnetNode * W) : res unit * (TafnetNode * W) :=
  let '(n, w) := nw in
  let '(dup, d) := isLikelyDuplicate peer 0 datas (m_udpDuplicateDetection n) in
  let n := set_dups d n in
  if dup : bool then (Ok tt, (n, w)) else handleMessage action peer (drop 1 datas) (n, w).

Definition lift_node (r : res TafnetNode) (nw : TafnetNode * W) : res unit * (TafnetNode * W) :=
  match r with
  | Ok n => (Ok tt, (n, nw.2))
  | Throw e => (Throw e, nw)
  | Undef => (Undef, nw)
  | Hang => (Hang, nw)
  end.

(** the body of [while (sender->hasPendingDatagrams())]; a datagram of five bytes or more
    has the whole of a [TafnetBufferedHeader] *)
Definition onDatagram (fuel : nat) (now : Z) (datagram : HostAndPort * bytes) (nw : TafnetNode * W) : res unit * (TafnetNode * W) :=
  let '(hp, datas) := datagram in
  let '(n, w) := nw in
  match datas with
  | [] => (Ok tt, nw)
  | action :: _ =>
      match m_peerPlayerIds n !! hp with
      | None => (Ok tt, nw)
      | Some peer =>
          let n := put_enabled peer (enabled_of n peer) (put_send peer (send_of n peer) (put_receive peer (receive_of n peer) n)) in
          if ACTION_TCP_DATA <=? action then
            match rd32 datas 1 with
            | Ok seq =>
                if action =? ACTION_TCP_ACK then (Ok tt, (on_ack peer seq n, w))
                else if action =? ACTION_TCP_RESEND then (Ok tt, (on_resend peer seq n, w))
                else if action =? ACTION_PACKSIZE_TEST then lift_node (on_packsize_test peer seq datas n) (n, w)
                else if action =? ACTION_PACKSIZE_ACK then (Ok tt, (on_packsize_ack now peer seq n, w))
                else if (length datas <? 5)%nat then (Undef, (n, w))
                else on_data fuel now peer action seq (drop 5 datas) (n, w)
            | _ => (Undef, (n, w))
            end
          else on_unbuffered peer action datas (n, w)
      end
  end.

(** an exception ends the loop; what is left stays in the socket *)
Fixpoint onReadyRead (fuel : nat) (now : Z) (pending : list (HostAndPort * bytes)) (nw : TafnetNode * W)
    : res (list (HostAndPort * bytes)) * (TafnetNode * W) :=
  match pending with
  | [] => (Ok [], nw)
  | d :: pending =>
      match onDatagram fuel now d nw with
      | (Ok _, nw) => onReadyRead fuel now pending nw
      | (Throw _, nw) => (Ok pending, nw)
      | (Undef, nw) => (Undef, nw)
      | (Hang, nw) => (Hang, nw)
      end
  end.
End Receive.
