(* ===== verification/TafnetBounds.v ===== *)
(** * Bounds of the peer to peer node

    The repetition rate of datagrams, and the size and number of the fragments of a
    message. *)
From S2P Require Import Prelude OrderedMaps DataBuffer TafnetNode.

(** with fewer than 2^31 sends counted, a datagram is repeated once to three times;
    as soon as acknowledgements come in, the count of sends stays within four times the
    count of acknowledgements, which stays below half of the 32 bit range *)
Theorem getResendRate_bounds (inc : bool) (r : ResendRate) :
  0 ≤ rr_sendCount r < 2 ^ 31 → 0 ≤ rr_ackCount r < 2 ^ 28 →
  let '(rate, r') := getResendRate inc r in
  1 ≤ rate ≤ MAXRATE ∧ 0 ≤ rr_ackCount r' ≤ Z.max 32 (rr_ackCount r / 2) ∧
  (0 < rr_ackCount r' → 0 ≤ rr_sendCount r' ≤ 4 * rr_ackCount r' + 1).
Proof.
  intros Hs Ha. unfold getResendRate. set (send := rr_sendCount r) in *. set (ack := rr_ackCount r) in *.
  set (c := if 32 <? ack then _ else _).
  assert (0 ≤ c.1 < 2 ^ 31 ∧ 0 ≤ c.2 ≤ Z.max 32 (ack / 2) ∧ c.2 < 2 ^ 28) as (H1 & H2 & H3).
  { unfold c. destruct (Z.ltb_spec 32 ack); cbn [fst snd]; (split_and!; try lia).
    all: try (apply Z.div_pos; lia); try (apply Z.div_lt_upper_bound; lia).
    all: pose proof (Z.div_le_upper_bound ack 2 ack ltac:(lia) ltac:(lia)); lia. }
  destruct c as [s a]. cbn [fst snd] in *. clearbody send ack.
  set (rate := if s <=? a then 1 else _).
  assert (1 ≤ rate ∧ (rate ≤ 3 → 0 < a → s ≤ 4 * a - 1)) as [Hr Hb].
  { unfold rate. destruct (Z.leb_spec s a); [lia|]. destruct (Z.eqb_spec a 0) as [->|Hne].
    - rewrite s32_id by lia. lia.
    - assert (1 ≤ s / a) by (apply Z.div_le_lower_bound; lia). assert (s / a ≤ s) by (apply Z.div_le_upper_bound; nia).
      rewrite s32_id by lia. split; [lia|]. intros Hle _.
      pose proof (Z.mul_succ_div_gt s a ltac:(lia)). nia. }
  clearbody rate. unfold MAXRATE. destruct (Z.ltb_spec 3 rate).
  - set (s' := if 0 <? a then _ else _). assert (0 < a → 0 ≤ s' ≤ 4 * a - 1) as Hs'.
    { intros Hap. unfold s'. rewrite (proj2 (Z.ltb_lt 0 a) Hap). rewrite u32_id by (unfold is_u32; lia). lia. }
    clearbody s'. cbn [rr_ackCount rr_sendCount set_counts]. split; [lia|]. split; [lia|]. intros Hap. specialize (Hs' Hap).
    destruct inc; [|lia]. rewrite u32_id by (unfold is_u32; lia). lia.
  - cbn [rr_ackCount rr_sendCount set_counts]. split; [lia|]. split; [lia|]. intros Hap. specialize (Hb ltac:(lia) Hap).
    destruct inc; [|lia]. rewrite u32_id by (unfold is_u32; lia). lia.
Qed.
Lemma getResendRate_bounds_witness :
  let '(rate, r') := getResendRate true (set_counts 90 40 ResendRate_init) in
  1 ≤ rate ≤ MAXRATE ∧ 0 ≤ rr_ackCount r' ≤ Z.max 32 (40 / 2) ∧ (0 < rr_ackCount r' → 0 ≤ rr_sendCount r' ≤ 4 * rr_ackCount r' + 1).
Proof. apply (getResendRate_bounds true (set_counts 90 40 ResendRate_init)); cbn; lia. Defined.
(** without any acknowledgement the count is not limited, and past 2^31 a datagram is not
    sent at all *)
Example getResendRate_overflow : (getResendRate false (set_counts (2 ^ 31) 0 ResendRate_init)).1 = - 2 ^ 31.
Proof. vm_compute. reflexivity. Qed.

(** C40: the fragments of a message are at least 250 bytes (the last one apart) and at most
    one byte longer than the packet size that the peer has acknowledged; they do not
    exceed the limit of the node either, unless it is below 250 *)
Theorem fragmentSize_bounds (len peerMax nodeMax : Z) :
  0 < len < 2 ^ 31 → 250 ≤ peerMax < 2 ^ 31 → ∃ sz, fragmentSize len peerMax nodeMax = Ok sz ∧
  250 ≤ sz ≤ peerMax + 1 ∧ sz ≤ Z.max 250 nodeMax ∧ (sz < len → 250 < sz → sz = nodeMax ∨ len ≤ sz * (len / (peerMax + 1) + 1)).
Proof.
  intros Hl Hp. unfold fragmentSize. rewrite !(u32_id (peerMax + 1)) by (unfold is_u32; lia).
  rewrite (proj2 (Z.eqb_neq _ _)) by lia. set (q := len / (peerMax + 1)).
  assert (0 ≤ q ≤ len) as Hq by (split; [apply Z.div_pos; lia|apply Z.div_le_upper_bound; nia]).
  rewrite (u32_id (q + 1)) by (unfold is_u32; lia). replace (len + (q + 1) - 1) with (len + q) by lia.
  rewrite u32_id by (unfold is_u32; lia). set (sz := (len + q) / (q + 1)).
  pose proof (Z.mul_succ_div_gt len (peerMax + 1) ltac:(lia)) as Hup. fold q in Hup.
  assert (sz ≤ peerMax + 1) as H1 by (apply Z.lt_succ_r, Z.div_lt_upper_bound; nia).
  assert (len ≤ sz * (q + 1)) as H2.
  { pose proof (Z.mul_succ_div_gt (len + q) (q + 1) ltac:(lia)) as H. fold sz in H. nia. }
  eexists. split; [done|]. unfold MAX_PACKET_SIZE_LOWER_LIMIT. clearbody sz q. split_and!; [lia..|].
  intros H3 H4. destruct (Z.min_spec sz nodeMax) as [[H5 H6]|[H5 H6]]; rewrite H6 in *; [right|left; lia].
  rewrite Z.max_l by lia. done.
Qed.
Lemma fragmentSize_bounds_witness : ∃ sz, fragmentSize 501 250 1400 = Ok sz ∧ 250 ≤ sz ≤ 251.
Proof. destruct (fragmentSize_bounds 501 250 1400) as (sz & H1 & H2 & _); [lia..|]. exists sz. split; [exact H1|lia]. Defined.
(** the bound is reached *)
Example fragmentSize_over : fragmentSize 501 250 1400 = Ok 251.
Proof. vm_compute. reflexivity. Qed.

(** No message can be fragmented once the peer has acknowledged the packet size
    0xffffffff: [forwardGameData] divides by zero, for every message with an acknowledged
    action, although the size was never tested *)
Theorem packsize_ack_kills (now t dest action : Z) (data : bytes) (hp : HostAndPort) (n : TafnetNode) :
  m_peerAddresses n !! dest = Some hp → ACTION_TCP_DATA ≤ action → 0 ≤ rr_maxPacketSize (rate_of n dest) < 4294967295 →
  forwardGameData now dest action data (on_packsize_ack t dest 4294967295 n) = Undef.
Proof.
  intros Hp Ha Hr. unfold on_packsize_ack. set (stats := registerAck t (rate_of n dest)).
  change (rr_maxPacketSize stats) with (rr_maxPacketSize (rate_of n dest)). rewrite (proj2 (Z.ltb_lt _ _)) by lia.
  unfold forwardGameData. change (m_peerAddresses (put_rate dest _ n)) with (m_peerAddresses n). rewrite Hp.
  rewrite (proj2 (Z.leb_le _ _)) by done. set (n1 := put_rate dest (set_maxPacketSize 4294967295 stats) n).
  assert (rate_of n1 dest = set_maxPacketSize 4294967295 stats) as E.
  { unfold rate_of, n1, put_rate, at_key. cbn [m_resendRates set_rates]. by rewrite lookup_insert_eq. }
  assert (∀ b, rate_of (put_rate dest (rate_of n1 dest) (put_send dest b n1)) dest = set_maxPacketSize 4294967295 stats) as E2.
  { intros b. unfold rate_of at 1, put_rate, at_key. cbn [m_resendRates set_rates]. by rewrite lookup_insert_eq. }
  rewrite E2. done.
Qed.
Lemma packsize_ack_kills_witness :
  forwardGameData 0 2 ACTION_TCP_DATA [65] (on_packsize_ack 0 2 4294967295 (set_peers {[2 := (1, 1)]} ∅ (TafnetNode_make 1 true false 1400))) = Undef.
Proof. apply (packsize_ack_kills 0 0 2 ACTION_TCP_DATA [65] (1, 1)); vm_compute; [reflexivity|discriminate|split; [discriminate|reflexivity]]. Defined.
