(* ===== verification/TafnetReliable.v ===== *)
(** * Reliable delivery between two nodes

    Two connected [TafnetNode]s over a network that may lose, duplicate, delay and
    reorder datagrams: what one node forwards with an acknowledged action is handled by
    the other node in order, each message once and whole. *)
From S2P Require Import Prelude OrderedMaps DuplicateDetection DataBuffer TafnetNode.

(** ** Fragments and messages *)
Abbreviation frag := (Z * bytes)%type.     (* action, data *)

(** an action that is pushed into a [DataBuffer] *)
Definition data_action (act : Z) : Prop :=
  5 ≤ act < 256 ∧ act ≠ ACTION_TCP_ACK ∧ act ≠ ACTION_TCP_RESEND ∧ act ≠ ACTION_PACKSIZE_TEST ∧ act ≠ ACTION_PACKSIZE_ACK.
(** a message that a program may forward with acknowledgement *)
Definition message_ok (m : frag) : Prop :=
  data_action m.1 ∧ m.1 ≠ ACTION_MORE ∧ m.2 ≠ [] ∧ Z.of_nat (length m.2) < 2147483648.

(** the messages that a sequence of fragments makes up, and what is left over *)
Fixpoint messages (acc : bytes) (frags : list frag) : list frag :=
  match frags with
  | [] => []
  | (act, d) :: frags => if act =? ACTION_MORE then messages (acc ++ d) frags else (act, acc ++ d) :: messages [] frags
  end.
Fixpoint leftover (acc : bytes) (frags : list frag) : bytes :=
  match frags with
  | [] => acc
  | (act, d) :: frags => if act =? ACTION_MORE then leftover (acc ++ d) frags else leftover [] frags
  end.

Lemma messages_app acc p q : messages acc (p ++ q) = messages acc p ++ messages (leftover acc p) q.
Proof.
  revert acc. induction p as [|[act d] p IH]; intros acc; [done|]. cbn [app messages leftover].
  case_match; [apply IH|]. by rewrite IH.
Qed.
Lemma leftover_app acc p q : leftover acc (p ++ q) = leftover (leftover acc p) q.
Proof.
  revert acc. induction p as [|[act d] p IH]; intros acc; [done|]. cbn [app leftover]. case_match; apply IH.
Qed.

(** what the hook has been given by acknowledged messages of a peer *)
Definition handled_from (peer : Z) (n : TafnetNode) : list frag :=
  omap (λ '(act, p, d), if (p =? peer) && (5 <=? act) then Some (act, d) else None) (n_handled n).

(** ** Frames *)
Lemma frame_data act seq d : 5 ≤ act < 256 → frame act seq d = act :: le4 seq ++ d.
Proof.
  intros H. unfold frame, ACTION_TCP_DATA. rewrite (proj2 (Z.leb_le _ _)) by lia.
  rewrite u8_id by (unfold is_byte; lia). done.
Qed.
Lemma frame_seq act seq d : is_u32 seq → rd32 (act :: le4 seq ++ d) 1 = Ok seq.
Proof. intros H. exact (rd32_le4 [act] seq d H). Qed.

(** a datagram that carries no data and acknowledges nothing, and that cannot hurt *)
Definition control (d : bytes) : Prop :=
  ∃ act rest, d = act :: rest ∧
    (0 ≤ act < 5 ∨
     (act = ACTION_TCP_RESEND ∨ act = ACTION_PACKSIZE_ACK) ∧ (∃ s data, is_u32 s ∧ rest = le4 s ++ data) ∨
     act = ACTION_PACKSIZE_TEST ∧ ∃ s data, is_u32 s ∧ 4 ≤ s ∧ rest = le4 s ++ data).

(** ** What a node's own steps leave alone *)
Definition rx_same (peer : Z) (n n' : TafnetNode) : Prop :=
  receive_of n' peer = receive_of n peer ∧ reassembly_of n' peer = reassembly_of n peer ∧
  m_peerPlayerIds n' = m_peerPlayerIds n ∧ n_handled n' = n_handled n.
Definition tx_same (peer : Z) (n n' : TafnetNode) : Prop :=
  m_peerAddresses n' = m_peerAddresses n ∧ send_of n' peer = send_of n peer.
(** the log of datagrams grows by [ds] *)
Definition sends (ds : list (HostAndPort * bytes)) (n n' : TafnetNode) : Prop := n_sent n' = n_sent n ++ ds.

#[export] Instance rx_same_refl peer : Reflexive (rx_same peer).
Proof. intros n. done. Qed.
#[export] Instance rx_same_trans peer : Transitive (rx_same peer).
Proof. intros n1 n2 n3 (A1 & A2 & A3 & A4) (B1 & B2 & B3 & B4). split_and!; congruence. Qed.
#[export] Instance tx_same_refl peer : Reflexive (tx_same peer).
Proof. intros n. done. Qed.
#[export] Instance tx_same_trans peer : Transitive (tx_same peer).
Proof. intros n1 n2 n3 (A1 & A2) (B1 & B2). split; congruence. Qed.

Lemma sendMessage_spec dest act seq d k n : ∃ ds,
  sendMessage dest act seq d k n = add_sent ds n ∧ ∀ x, x ∈ ds → m_peerAddresses n !! dest = Some x.1 ∧ x.2 = frame act seq d.
Proof.
  unfold sendMessage. destruct (m_peerAddresses n !! dest) as [hp|].
  - eexists. split; [done|]. by intros x [-> _]%elem_of_replicate.
  - exists []. split; [|by intros x ?%elem_of_nil]. destruct n. unfold add_sent. cbn. by rewrite app_nil_r.
Qed.

Lemma resendRate_spec peer inc n : ∃ rates, (resendRate peer inc n).2 = set_rates rates n.
Proof. unfold resendRate. destruct (getResendRate inc (rate_of n peer)). by eexists. Qed.

Lemma set_rates_same peer rates n : rx_same peer n (set_rates rates n) ∧ tx_same peer n (set_rates rates n).
Proof. done. Qed.
Lemma add_sent_same peer ds n : rx_same peer n (add_sent ds n) ∧ tx_same peer n (add_sent ds n).
Proof. done. Qed.
Lemma put_enabled_same peer p v n : rx_same peer n (put_enabled p v n) ∧ tx_same peer n (put_enabled p v n).
Proof. done. Qed.
Lemma put_send_rx peer p b n : rx_same peer n (put_send p b n).
Proof. done. Qed.
Lemma put_send_of peer b n : send_of (put_send peer b n) peer = b.
Proof. unfold send_of, put_send, at_key. cbn [m_sendBuffer set_send]. by rewrite lookup_insert_eq. Qed.
Lemma put_receive_of peer b n : receive_of (put_receive peer b n) peer = b.
Proof. unfold receive_of, put_receive, at_key. cbn [m_receiveBuffer set_receive]. by rewrite lookup_insert_eq. Qed.
Lemma put_reassembly_of peer b n : reassembly_of (put_reassembly peer b n) peer = b.
Proof. unfold reassembly_of, put_reassembly, at_key. cbn [m_reassemblyBuffer set_reassembly]. by rewrite lookup_insert_eq. Qed.

(** ** The invariant of one direction *)

(** [pl] is the fragment that was pushed as number [seq] *)
Definition stored (P : list frag) (seq : Z) (pl : Payload) : Prop :=
  ∃ f, 1 ≤ seq ∧ P !! Z.to_nat (seq - 1) = Some f ∧ py_action pl = f.1 ∧ py_buf pl = Some f.2.
(** fragment [seq] has reached the buffer [b], and perhaps left it again *)
Definition received (b : DataBuffer) (seq : Z) : Prop := seq < m_nextPopSeq b ∨ is_Some (m_data b !! seq).

(** a datagram of a sender that has pushed [P] and has received [rcv] *)
Definition datagram_ok (P : list frag) (rcv : Z → Prop) (d : bytes) : Prop :=
  control d ∨
  (∃ seq act data, 1 ≤ seq ∧ P !! Z.to_nat (seq - 1) = Some (act, data) ∧ d = act :: le4 seq ++ data) ∨
  (∃ seq, is_u32 seq ∧ rcv seq ∧ d = ACTION_TCP_ACK :: le4 seq).
Definition sent_ok (n : TafnetNode) (hp : HostAndPort) (P : list frag) (rcv : Z → Prop) : Prop :=
  ∀ d, (hp, d) ∈ n_sent n → datagram_ok P rcv d.

Record sender_ok (n : TafnetNode) (peer : Z) (hp : HostAndPort) (P : list frag) (rcv : Z → Prop) : Prop := {
  so_addr : m_peerAddresses n !! peer = Some hp;
  so_alone : ∀ p, m_peerAddresses n !! p = Some hp → p = peer;
  so_next : m_nextPushSeq (send_of n peer) = Z.of_nat (length P) + 1;
  so_small : Z.of_nat (length P) + 1 < 4294967296;
  so_frags : Forall (λ f, data_action f.1) P;
  so_buf : ∀ seq pl, m_data (send_of n peer) !! seq = Some pl → stored P seq pl;
  (** nothing is forgotten before it has arrived *)
  so_kept : ∀ seq, 1 ≤ seq ≤ Z.of_nat (length P) → is_Some (m_data (send_of n peer) !! seq) ∨ rcv seq }.

(** the receiver has popped [k] fragments *)
Record rx_state (n : TafnetNode) (peer : Z) (P : list frag) (k : nat) : Prop := {
  rx_pop : m_nextPopSeq (receive_of n peer) = Z.of_nat k + 1;
  rx_bound : (k ≤ length P)%nat;
  rx_buf : ∀ seq pl, m_data (receive_of n peer) !! seq = Some pl → Z.of_nat k < seq ∧ stored P seq pl;
  rx_rest : reassembly_of n peer = leftover [] (take k P);
  rx_handled : handled_from peer n = messages [] (take k P) }.
Definition receiver_ok (n : TafnetNode) (peer : Z) (hp : HostAndPort) (P : list frag) : Prop :=
  m_peerPlayerIds n !! hp = Some peer ∧
  ∃ k, rx_state n peer P k ∧ DB_readyRead (receive_of n peer) = false.

Lemma stored_mono P Q seq pl : stored P seq pl → stored (P ++ Q) seq pl.
Proof.
  intros (f & H1 & H2 & H3). exists f. split; [done|]. split; [|done].
  by apply lookup_app_l_Some.
Qed.
Lemma datagram_mono P Q (rcv rcv' : Z → Prop) d : (∀ seq, rcv seq → rcv' seq) →
  datagram_ok P rcv d → datagram_ok (P ++ Q) rcv' d.
Proof.
  intros Hr [H|[(seq & act & data & H1 & H2 & H3)|(seq & H1 & H2 & H3)]].
  - by left.
  - right. left. exists seq, act, data. split; [done|]. split; [by apply lookup_app_l_Some|done].
  - right. right. exists seq. auto.
Qed.
Lemma sent_ok_mono n hp P Q rcv rcv' : (∀ seq, rcv seq → rcv' seq) →
  sent_ok n hp P rcv → sent_ok n hp (P ++ Q) rcv'.
Proof. intros Hr H d Hd. eapply datagram_mono; [exact Hr|by apply H]. Qed.
Lemma sent_ok_add n n' ds hp P rcv : sent_ok n hp P rcv → sends ds n n' →
  (∀ d, (hp, d) ∈ ds → datagram_ok P rcv d) → sent_ok n' hp P rcv.
Proof. intros H Hs Hd d. rewrite Hs, elem_of_app. intros [|]; auto. Qed.

Lemma sender_same n n' peer hp P rcv : tx_same peer n n' → sender_ok n peer hp P rcv → sender_ok n' peer hp P rcv.
Proof. intros [H1 H2] [S1 S0 S2 S3 S4 S5 S6]. split; rewrite ?H1, ?H2; done. Qed.
Lemma sender_rcv n peer hp P (rcv rcv' : Z → Prop) : (∀ seq, rcv seq → rcv' seq) →
  sender_ok n peer hp P rcv → sender_ok n peer hp P rcv'.
Proof. intros Hr [S1 S0 S2 S3 S4 S5 S6]. split; try done. intros seq Hq. destruct (S6 seq Hq); auto. Qed.
Lemma rx_state_same n n' peer P k : rx_same peer n n' → rx_state n peer P k → rx_state n' peer P k.
Proof.
  intros (H1 & H2 & _ & H4) [R1 R2 R3 R4 R5]. split; rewrite ?H1, ?H2; try done.
  unfold handled_from. by rewrite H4.
Qed.
Lemma receiver_same n n' peer hp P : rx_same peer n n' → receiver_ok n peer hp P → receiver_ok n' peer hp P.
Proof.
  intros Hs (Hid & k & Hr & Hb). pose proof Hs as (H1 & _ & H3 & _). split; [by rewrite H3|].
  exists k. split; [by eapply rx_state_same|by rewrite H1].
Qed.
Lemma rx_state_mono n peer P Q k : rx_state n peer P k → rx_state n peer (P ++ Q) k.
Proof.
  intros [R1 R2 R3 R4 R5]. split; [done|rewrite length_app; lia| | |].
  - intros seq pl H. apply R3 in H as [? ?]. split; [done|by apply stored_mono].
  - by rewrite take_app_le.
  - by rewrite take_app_le.
Qed.
Lemma receiver_mono n peer hp P Q : receiver_ok n peer hp P → receiver_ok n peer hp (P ++ Q).
Proof. intros (Hid & k & Hr & Hb). split; [done|]. exists k. split; [by apply rx_state_mono|done]. Qed.

(** ** Forwarding *)

Section Sender.
(** [rcv]: what the other node has received; [own]: what this node has received *)
Context (peer : Z) (hp : HostAndPort) (rcv own : Z → Prop).

Definition sender_all (n : TafnetNode) (P : list frag) : Prop := sender_ok n peer hp P rcv ∧ sent_ok n hp P own.

Lemma sender_all_rates n P rates : sender_all n P → sender_all (set_rates rates n) P.
Proof. intros [H1 H2]. split; [|done]. by eapply sender_same; [apply set_rates_same|]. Qed.

(** a message whose bytes are those of a pushed fragment *)
Lemma send_pushed n P seq act d k : sender_all n P → 1 ≤ seq → P !! Z.to_nat (seq - 1) = Some (act, d) → is_u32 seq →
  sender_all (sendMessage peer act seq d k n) P.
Proof.
  intros [H1 H2] Hs Hl Hu. assert (data_action act) as [Ha _].
  { pose proof (so_frags _ _ _ _ _ H1) as Hf. rewrite Forall_lookup in Hf. exact (Hf _ _ Hl). }
  destruct (sendMessage_spec peer act seq d k n) as (ds & -> & Hds).
  split; [by eapply sender_same; [apply add_sent_same|]|].
  apply (sent_ok_add n _ ds); [done|done|]. intros x Hx. apply Hds in Hx as [_ Hx]. cbn [snd] in Hx.
  right. left. exists seq, act, d. by rewrite Hx, frame_data.
Qed.

Lemma push_spec now act d n P : sender_all n P → data_action act → Z.of_nat (length P) + 2 < 4294967296 →
  let '(seq, b) := DB_push_back now act d (send_of n peer) in
  sender_all (put_send peer b n) (P ++ [(act, d)]) ∧ is_u32 seq ∧ 1 ≤ seq ∧ (P ++ [(act, d)]) !! Z.to_nat (seq - 1) = Some (act, d).
Proof.
  intros [[S1 S0 S2 S3 S4 S5 S6] H2] Ha Hs. unfold DB_push_back. rewrite S2.
  assert ((P ++ [(act, d)]) !! Z.to_nat (Z.of_nat (length P) + 1 - 1) = Some (act, d)) as Hl.
  { replace (Z.to_nat _) with (length P) by lia. apply list_lookup_middle. done. }
  split; [|split; [unfold is_u32; lia|split; [lia|done]]]. split.
  - split; rewrite ?put_send_of; cbn [m_nextPushSeq m_data].
    + done.
    + done.
    + rewrite length_app, u32_id by (unfold is_u32; lia). simpl. lia.
    + rewrite length_app. simpl. lia.
    + apply Forall_app. split; [done|]. by apply Forall_singleton.
    + intros seq pl. rewrite lookup_insert_Some. intros [[<- <-]|[Hn Hp]].
      * exists (act, d). split; [lia|]. split; [done|]. split; [|done]. cbn. apply u8_id.
        unfold is_byte. destruct Ha. lia.
      * apply stored_mono, S5, Hp.
    + intros seq. rewrite length_app. simpl. intros Hq.
      destruct (decide (seq = Z.of_nat (length P) + 1)) as [->|Hne]; [left; rewrite lookup_insert_eq; by eexists|].
      rewrite lookup_insert_ne by done. apply S6. lia.
  - by eapply sent_ok_mono; [|exact H2].
Qed.

Lemma resendRate_all inc n P : sender_all n P → sender_all (resendRate peer inc n).2 P.
Proof. intros H. destruct (resendRate_spec peer inc n) as [r ->]. by apply sender_all_rates. Qed.

Lemma fragment_loop_spec fuel now action maxPacketSize data : data_action action → action ≠ ACTION_MORE →
  250 ≤ maxPacketSize → ∀ off n P,
  sender_all n P → (length data - off < fuel)%nat → Z.of_nat (length P + (length data - off)) + 1 < 4294967296 →
  ∃ n' frs, fragment_loop fuel now peer action maxPacketSize data off n = Ok n' ∧
    sender_all n' (P ++ frs) ∧ rx_same peer n n' ∧
    (∀ acc, (off < length data)%nat → messages acc frs = [(action, acc ++ drop off data)]) ∧
    (∀ acc, (off < length data)%nat → leftover acc frs = []) ∧
    ((length data ≤ off)%nat → frs = []).
Proof.
  intros Ha Hm Hmax. induction fuel as [|fuel IH]; intros off n P Hn Hf Hsz; cbn [fragment_loop].
  { lia. }
  destruct (Nat.ltb_spec off (length data)) as [Hlt|Hge]; cycle 1.
  { exists n, []. rewrite app_nil_r. split; [done|]. split; [done|]. split; [done|]. split_and!; intros; lia || done. }
  set (sz := Nat.min (Z.to_nat maxPacketSize) (length data - off)).
  set (act := if (length data <=? off + sz)%nat then action else ACTION_MORE).
  assert (data_action act) as Ha' by (unfold act; case_match; [done|split; [unfold ACTION_MORE; lia|done]]).
  pose proof (resendRate_all true n P Hn) as H1. destruct (resendRate_spec peer true n) as [rates Hr].
  destruct (resendRate peer true n) as [k n1]. cbn [snd] in H1, Hr.
  pose proof (push_spec now act (take sz (drop off data)) n1 P H1 Ha' ltac:(lia)) as H2.
  destruct (DB_push_back now act (take sz (drop off data)) (send_of n1 peer)) as [seq b].
  destruct H2 as (H2 & Hu & Hs1 & Hl).
  pose proof (send_pushed _ _ _ _ _ k H2 Hs1 Hl Hu) as H3.
  destruct (IH (off + Z.to_nat maxPacketSize)%nat _ _ H3) as (n' & frs & E & Hn' & Hrx & Hmsg & Hleft & Hnil);
    [lia|rewrite length_app; simpl; lia|].
  exists n', ((act, take sz (drop off data)) :: frs). split; [exact E|].
  split; [by rewrite <- app_assoc in Hn'|]. split.
  { etrans; [|exact Hrx]. rewrite Hr. destruct (sendMessage_spec peer act seq (take sz (drop off data)) k
      (put_send peer b (set_rates rates n))) as (ds & -> & _). done. }
  unfold act. destruct (Nat.leb_spec (length data) (off + sz)) as [Hend|Hmore]; cbn [messages leftover].
  - rewrite (proj2 (Z.eqb_neq _ _) Hm).
    assert (length data ≤ off + Z.to_nat maxPacketSize)%nat as Hover by (unfold sz in Hend; lia).
    rewrite (Hnil Hover). split_and!; [|done|lia]. intros acc _. cbn. unfold sz. rewrite take_ge; [done|]. rewrite length_drop. lia.
  - assert (sz = Z.to_nat maxPacketSize) as Hszeq by (unfold sz in *; lia).
    assert (off + Z.to_nat maxPacketSize < length data)%nat as Hin by lia.
    split_and!; [| |lia]; intros acc _; rewrite Z.eqb_refl; [|by apply Hleft].
    rewrite Hmsg by done. rewrite <- app_assoc, <- Hszeq, <- drop_drop, take_drop. done.
Qed.

(** one call of [forwardGameData] pushes the fragments of its message *)
Lemma forward_spec now action data n n' P : sender_all n P → message_ok (action, data) →
  Z.of_nat (length P + length data) + 1 < 4294967296 → forwardGameData now peer action data n = Ok n' →
  ∃ frs, sender_all n' (P ++ frs) ∧ rx_same peer n n' ∧
    messages [] frs = [(action, data)] ∧ leftover [] frs = [].
Proof.
  intros H (Ha & Hm & Hd & Hl) Hs. cbn [fst snd] in *. unfold forwardGameData.
  rewrite (so_addr _ _ _ _ _ (proj1 H)). unfold ACTION_TCP_DATA. rewrite (proj2 (Z.leb_le _ _)) by (destruct Ha; lia).
  set (n0 := put_rate peer _ _). intros Hf. apply res_bind_inv in Hf as (maxPacketSize & Hmax & Hf).
  assert (250 ≤ maxPacketSize) as H250.
  { unfold fragmentSize in Hmax. case_match; [done|]. apply Ok_inj in Hmax as <-. unfold MAX_PACKET_SIZE_LOWER_LIMIT. lia. }
  assert (sender_all n0 P) as H0.
  { destruct H as [H1 H2]. split; [|done]. eapply sender_same; [|exact H1]. split; [done|]. exact (put_send_of peer _ n). }
  assert (0 < length data)%nat as Hpos by (destruct data; simpl; [done|lia]).
  destruct (fragment_loop_spec (S (length data)) now action maxPacketSize data Ha Hm H250 0 n0 P H0)
    as (n2 & frs & E & Hn & Hrx & Hmsg & Hleft & _); [lia|lia|].
  rewrite Hf in E. apply Ok_inj in E as <-. exists frs. split; [done|]. split; [exact Hrx|].
  split; [by apply Hmsg|by apply Hleft].
Qed.
(** ** Resending *)

Lemma send_other n P p act seq d k : sender_all n P → p ≠ peer → sender_all (sendMessage p act seq d k n) P.
Proof.
  intros [H1 H2] Hp. destruct (sendMessage_spec p act seq d k n) as (ds & -> & Hds).
  split; [by eapply sender_same; [apply add_sent_same|]|].
  apply (sent_ok_add n _ ds); [done|done|]. intros x Hx. apply Hds in Hx as [Hx _].
  destruct Hp. exact (so_alone _ _ _ _ _ H1 _ Hx).
Qed.

Lemma stored_u32 n P seq pl : sender_all n P → stored P seq pl → is_u32 seq.
Proof.
  intros [H1 _] (f & Hs & Hl & _). apply lookup_lt_Some in Hl. pose proof (so_small _ _ _ _ _ H1). unfold is_u32. lia.
Qed.

(** sending again what the buffer of a peer holds *)
Lemma resend_stored n P p seq buf k : sender_all n P → py_buf (DB_get seq (send_of n p)) = Some buf →
  sender_all (sendMessage p (py_action (DB_get seq (send_of n p))) seq buf k n) P.
Proof.
  intros H Hb. destruct (decide (p = peer)) as [->|Hne]; [|by apply send_other].
  unfold DB_get, at_key in *. destruct (m_data (send_of n peer) !! seq) as [pl|] eqn:E; [|done].
  change (default Payload_init (Some pl)) with pl in *.
  pose proof (so_buf _ _ _ _ _ (proj1 H) _ _ E) as Hst. pose proof (stored_u32 _ _ _ _ H Hst) as Hu.
  destruct Hst as ([act d] & Hs & Hl & Ha & Hd). rewrite Hd in Hb. injection Hb as <-. rewrite Ha.
  by apply send_pushed.
Qed.

(** [sender_all], and the receiving half left alone *)
Definition tx_step (P : list frag) (n n' : TafnetNode) : Prop := sender_all n' P ∧ ∀ p, rx_same p n n'.

Lemma tx_step_trans P n1 n2 n3 : tx_step P n1 n2 → tx_step P n2 n3 → tx_step P n1 n3.
Proof. intros [_ H1] [H2 H3]. split; [done|]. intros p. etrans; [apply H1|apply H3]. Qed.
Lemma tx_step_rates P n rates : sender_all n P → tx_step P n (set_rates rates n).
Proof. intros H. split; [by apply sender_all_rates|]. intros p. apply set_rates_same. Qed.
Lemma tx_step_resend P n p seq buf k : sender_all n P → py_buf (DB_get seq (send_of n p)) = Some buf →
  tx_step P n (sendMessage p (py_action (DB_get seq (send_of n p))) seq buf k n).
Proof.
  intros H Hb. split; [by apply resend_stored|]. intros q.
  destruct (sendMessage_spec p (py_action (DB_get seq (send_of n p))) seq buf k n) as (ds & -> & _). apply add_sent_same.
Qed.

Lemma resend_one P n p seq : sender_all n P →
  tx_step P n match py_buf (DB_get seq (send_of n p)) with
    | Some buf => let '(k, n1) := resendRate p true n in sendMessage p (py_action (DB_get seq (send_of n p))) seq buf k n1
    | None => n end.
Proof.
  intros H. destruct (py_buf _) as [buf|] eqn:Eb; [|by split].
  destruct (resendRate_spec p true n) as [rates Hr]. destruct (resendRate p true n) as [k n1]. cbn [snd] in Hr. subst n1.
  eapply tx_step_trans; [by apply tx_step_rates|].
  change (send_of n p) with (send_of (set_rates rates n) p). apply tx_step_resend; [by apply sender_all_rates|done].
Qed.

Lemma resend_loop_spec now timeout p seqs m P n : sender_all n P → tx_step P n (resend_loop now timeout p seqs m n).
Proof.
  revert m n. induction seqs as [|seq seqs IH]; intros m n H; cbn [resend_loop]; [by split|].
  case_match; [by split|]. pose proof (resend_one P n p seq H) as H1.
  match goal with H : tx_step P n ?x |- _ => set (n1 := x) in * end.
  assert (tx_step P n (if rr_lastTimeoutSeq (rate_of n1 p) <? seq
    then put_rate p (set_lastSeqs seq (rr_lastResendReqSeq (rate_of n1 p)) (rate_of n1 p)) n1 else n1)) as H2.
  { case_match; [|done]. eapply tx_step_trans; [exact H1|]. apply tx_step_rates, H1. }
  destruct (m - 1 <=? 0); [exact H2|]. eapply tx_step_trans; [exact H2|]. apply IH, H2.
Qed.

Lemma onResendTimer_spec now P n : sender_all n P → tx_step P n (onResendTimer now n).
Proof.
  unfold onResendTimer. generalize (sorted_keys (m_sendBuffer n)) as peers. intros peers. revert n.
  induction peers as [|p peers IH]; intros n H; [by split|]. cbn [foldl].
  assert (tx_step P n (resend_to now p n)) as H1.
  { unfold resend_to. eapply tx_step_trans; [by apply tx_step_rates|]. apply resend_loop_spec. by apply sender_all_rates. }
  eapply tx_step_trans; [exact H1|]. apply IH, H1.
Qed.

(** the peer asks for a fragment again *)
Lemma on_resend_spec p seq P n : sender_all n P → tx_step P n (on_resend p seq n).
Proof.
  intros H. unfold on_resend. destruct (py_buf _) as [buf|] eqn:Eb; [|by split].
  destruct (resendRate_spec p true n) as [rates Hr]. destruct (resendRate p true n) as [k n1]. cbn [snd] in Hr. subst n1.
  assert (∃ rates', (if rr_lastResendReqSeq (rate_of (set_rates rates n) p) <? seq
    then put_rate p (set_lastSeqs (rr_lastTimeoutSeq (rate_of (set_rates rates n) p)) seq (rate_of (set_rates rates n) p))
           (set_rates rates n) else set_rates rates n) = set_rates rates' n) as [rates' ->].
  { case_match; by eexists. }
  eapply tx_step_trans; [by apply (tx_step_rates _ _ rates')|].
  change (send_of n p) with (send_of (set_rates rates' n) p). apply tx_step_resend; [by apply sender_all_rates|done].
Qed.

(** an acknowledgement of something that has arrived *)
Lemma on_ack_spec seq P n : sender_all n P → rcv seq → tx_step P n (on_ack peer seq n).
Proof.
  intros [[S1 S0 S2 S3 S4 S5 S6] H2] Hr. unfold on_ack. destruct (DB_ackData seq (send_of n peer)) as [acked b] eqn:E.
  unfold DB_ackData in E. injection E as <- <-.
  set (n1 := put_send _ _ n). assert (tx_step P n n1) as H.
  { split; [|intros p; apply put_send_rx]. split; [|done]. split; unfold n1; rewrite ?put_send_of; cbn [m_nextPushSeq m_data]; try done.
    - intros s pl. rewrite lookup_delete_Some. intros [_ Hs]. by apply S5.
    - intros s Hs. destruct (decide (s = seq)) as [->|Hne]; [by right|]. rewrite lookup_delete_ne by done. by apply S6. }
  case_match; [|done]. eapply tx_step_trans; [exact H|]. apply tx_step_rates, H.
Qed.
End Sender.

(** ** Receiving *)
Section Receiver.
Context {W : Type} (h : Z → Z → bytes → TafnetNode * W → res unit * (TafnetNode * W)).

(** a hook that does not fail, may change the resend statistics, and may send datagrams
    that are not data *)
Definition handler_ok : Prop := ∀ act p d n w, ∃ rates ds w',
  h act p d (n, w) = (Ok tt, (add_sent ds (set_rates rates n), w')) ∧ Forall (λ x, control x.2) ds.
Context (Hh : handler_ok).

Context (peer : Z) (P : list frag).
Context (Hsmall : Z.of_nat (length P) + 1 < 4294967296) (Hfrags : Forall (λ f, data_action f.1) P).

Lemma pop_spec n k : rx_state n peer P k → DB_readyRead (receive_of n peer) = true →
  ∃ f data b, P !! k = Some f ∧ DB_pop (receive_of n peer) = (data, b) ∧ py_action data = f.1 ∧ py_buf data = Some f.2 ∧
    m_nextPopSeq b = Z.of_nat (S k) + 1 ∧ m_data b = delete (Z.of_nat k + 1) (m_data (receive_of n peer)) ∧
    is_Some (m_data (receive_of n peer) !! (Z.of_nat k + 1)).
Proof.
  intros [R1 R2 R3 _ _]. unfold DB_readyRead, DB_pop. destruct (first_key _) as [j|] eqn:E; [|done].
  intros Hj. rewrite Hj. apply Z.eqb_eq in Hj. rewrite R1 in Hj. subst j.
  apply first_key_spec in E as [[pl Hpl] _]. pose proof (R3 _ _ Hpl) as [_ (f & _ & Hf & Ha & Hb)].
  replace (Z.to_nat _) with k in Hf by lia. exists f, pl. eexists. split; [done|].
  unfold at_key. rewrite Hpl. split; [done|]. split; [done|]. split; [done|]. cbn [m_nextPopSeq m_data].
  apply lookup_lt_Some in Hf. rewrite R1, u32_id by (unfold is_u32; lia). split; [lia|]. split; [done|by eexists].
Qed.

Lemma handled_from_add act d n : 5 ≤ act → handled_from peer (add_handled (act, peer, d) n) = handled_from peer n ++ [(act, d)].
Proof.
  intros Ha. unfold handled_from. cbn [n_handled add_handled]. rewrite omap_app. cbn.
  by rewrite Z.eqb_refl, (proj2 (Z.leb_le _ _)).
Qed.
Lemma handled_from_unbuffered act p d n : act < 5 → handled_from peer (add_handled (act, p, d) n) = handled_from peer n.
Proof.
  intros Ha. unfold handled_from. cbn [n_handled add_handled]. rewrite omap_app. cbn.
  rewrite (proj2 (Z.leb_gt _ _)) by done. rewrite andb_false_r. by rewrite app_nil_r.
Qed.

(** the state after popping fragment [k] and clearing or extending the reassembly buffer *)
Lemma rx_state_pop n n' k f b : rx_state n peer P k → P !! k = Some f →
  m_nextPopSeq b = Z.of_nat (S k) + 1 → m_data b = delete (Z.of_nat k + 1) (m_data (receive_of n peer)) →
  receive_of n' peer = b →
  (if f.1 =? ACTION_MORE
   then reassembly_of n' peer = reassembly_of n peer ++ f.2 ∧ handled_from peer n' = handled_from peer n
   else reassembly_of n' peer = [] ∧ handled_from peer n' = handled_from peer n ++ [(f.1, reassembly_of n peer ++ f.2)]) →
  rx_state n' peer P (S k).
Proof.
  intros [R1 R2 R3 R4 R5] Hf Hp Hd Hb Hm. pose proof (lookup_lt_Some _ _ _ Hf).
  split; rewrite ?Hb; [done|lia| | |].
  - intros seq pl. rewrite Hd, lookup_delete_Some. intros [Hne Hs]. apply R3 in Hs as [? ?]. split; [lia|done].
  - rewrite (take_S_r _ _ _ Hf), leftover_app, <- R4. destruct f as [act d]. cbn [fst snd leftover] in *.
    destruct (act =? ACTION_MORE); apply Hm.
  - rewrite (take_S_r _ _ _ Hf), messages_app, <- R4, <- R5. destruct f as [act d]. cbn [fst snd messages] in *.
    destruct (act =? ACTION_MORE); destruct Hm as [_ ->]; by rewrite ?app_nil_r.
Qed.
(** the node sends towards [hp] as well, on behalf of the other direction *)
Context (hp : HostAndPort) (rcv own : Z → Prop) (Q : list frag).
Abbreviation tx := (sender_all peer hp rcv own).

Lemma tx_same_all n n' : tx_same peer n n' → n_sent n' = n_sent n → tx n Q → tx n' Q.
Proof. intros H1 H2 [H3 H4]. split; [by eapply sender_same|]. intros d. rewrite H2. apply H4. Qed.

(** the node between two calls of the hook *)
Definition node_ok (n : TafnetNode) (k : nat) : Prop :=
  rx_state n peer P k ∧ tx n Q ∧ m_peerPlayerIds n !! hp = Some peer.

Lemma handleMessage_spec act d n w : tx n Q → ∃ n' w',
  handleMessage h act peer d (n, w) = (Ok tt, (n', w')) ∧ rx_same peer (add_handled (act, peer, d) n) n' ∧ tx n' Q ∧
  (∀ p, m_receiveBuffer n' !! p = m_receiveBuffer n !! p) ∧ (∀ p, m_reassemblyBuffer n' !! p = m_reassemblyBuffer n !! p).
Proof.
  intros H. unfold handleMessage. cbn [fst snd]. destruct (Hh act peer d (add_handled (act, peer, d) n) w) as (rates & ds & w' & -> & Hds).
  eexists _, w'. split; [done|]. split; [by split_and!|]. split; [|done].
  assert (tx (add_handled (act, peer, d) n) Q) as [H1 H2] by (by apply (tx_same_all n)).
  split; [by eapply sender_same; [|exact H1]|].
  apply (sent_ok_add _ _ ds _ _ _ H2); [done|]. intros x Hx. left.
  rewrite Forall_forall in Hds. by apply (Hds _ Hx).
Qed.

Lemma drain_turn n w k fuel : node_ok n k → DB_readyRead (receive_of n peer) = true → ∃ n' w',
  drain_loop h (S fuel) peer (n, w) = drain_loop h fuel peer (n', w') ∧ node_ok n' (S k) ∧
  m_nextPopSeq (receive_of n' peer) = Z.of_nat (S k) + 1 ∧
  m_data (receive_of n' peer) = delete (Z.of_nat k + 1) (m_data (receive_of n peer)) ∧
  is_Some (m_data (receive_of n peer) !! (Z.of_nat k + 1)).
Proof.
  intros (Hr & Ht & Hid) Hready. destruct (pop_spec n k Hr Hready) as (f & data & b & Hf & Hpop & Ha & Hbuf & Hp & Hd & Hin).
  cbn [drain_loop]. rewrite Hready, Hpop. set (n1 := put_receive peer b _).
  set (n2 := put_reassembly peer _ n1).
  assert (reassembly_of n2 peer = reassembly_of n peer ++ f.2) as Hre.
  { unfold n2. rewrite put_reassembly_of. by rewrite Hbuf. }
  assert (receive_of n2 peer = b) as Hrb by apply (put_receive_of peer b).
  assert (tx n2 Q) as Ht2 by (by apply (tx_same_all n)).
  rewrite Ha. destruct (Z.eqb_spec f.1 ACTION_MORE) as [Hm|Hm]; cbn [negb].
  - exists n2, w. split; [done|]. split; [|split; [by rewrite Hrb|split; [by rewrite Hrb|done]]].
    split; [|done]. eapply (rx_state_pop n n2 k f b); [done..|]. by rewrite Hm, Z.eqb_refl.
  - destruct (handleMessage_spec f.1 (reassembly_of n2 peer) n2 w Ht2) as (n3 & w3 & -> & Hrx & Ht3 & Hm1 & Hm2).
    destruct Hrx as (X1 & X2 & X3 & X4).
    assert (is_Some (m_receiveBuffer n3 !! peer)) as S1.
    { rewrite Hm1. unfold n2, n1, put_receive, put_reassembly. cbn. rewrite lookup_insert_eq. by eexists. }
    assert (is_Some (m_reassemblyBuffer n3 !! peer)) as S2.
    { rewrite Hm2. unfold n2, put_reassembly. cbn. rewrite lookup_insert_eq. by eexists. }
    rewrite !bool_decide_true by done. cbn [andb].
    set (n4 := put_reassembly peer [] n3). assert (receive_of n4 peer = b) as Hrb4 by (etrans; [exact X1|exact Hrb]).
    exists n4, w3. split; [done|]. split; [|split; [by rewrite Hrb4|split; [by rewrite Hrb4|done]]].
    split; [|split; [by apply (tx_same_all n3)|by rewrite <- Hid; change (m_peerPlayerIds n4) with (m_peerPlayerIds n3); rewrite X3]].
    eapply (rx_state_pop n n4 k f b); [done..|]. rewrite (proj2 (Z.eqb_neq _ _) Hm).
    split; [apply put_reassembly_of|]. change (handled_from peer n4) with (handled_from peer n3).
    unfold handled_from at 1. rewrite X4.
    change (handled_from peer (add_handled (f.1, peer, reassembly_of n2 peer) n2) = handled_from peer n ++ [(f.1, reassembly_of n peer ++ f.2)]).
    rewrite handled_from_add, Hre; [done|]. rewrite Forall_lookup in Hfrags. apply (Hfrags _ _ Hf).
Qed.

Lemma drain_spec fuel n w k : node_ok n k → (size (m_data (receive_of n peer)) < fuel)%nat → ∃ n' w' k',
  drain_loop h fuel peer (n, w) = (Ok tt, (n', w')) ∧ node_ok n' k' ∧ DB_readyRead (receive_of n' peer) = false ∧
  ∀ s, received (receive_of n peer) s → received (receive_of n' peer) s.
Proof.
  revert n w k. induction fuel as [|fuel IH]; intros n w k Hn Hf; [lia|].
  destruct (DB_readyRead (receive_of n peer)) eqn:E.
  - destruct (drain_turn n w k fuel Hn E) as (n1 & w1 & -> & Hn1 & Hp & Hd & Hin).
    destruct (IH n1 w1 (S k) Hn1) as (n' & w' & k' & E' & Hn' & Hr' & Hmono).
    { rewrite Hd, map_size_delete. destruct Hin as [pl Hpl]. rewrite Hpl.
      assert (size (m_data (receive_of n peer)) ≠ 0%nat); [|lia]. eapply map_size_ne_0_lookup_2. by exists pl. }
    exists n', w', k'. split; [done|]. split; [done|]. split; [done|]. intros s Hs. apply Hmono.
    unfold received in *. rewrite Hp, Hd. destruct Hn as [[R1 _ _ _ _] _]. rewrite R1 in Hs.
    destruct (decide (s = Z.of_nat k + 1)) as [->|Hne]; [left; lia|]. rewrite lookup_delete_ne by done.
    destruct Hs; [left; lia|by right].
  - exists n, w, k. cbn [drain_loop]. by rewrite E.
Qed.

Lemma request_loop_spec m seq earliest k n : is_u32 seq → tx n Q → tx_step peer hp rcv own Q n (request_loop m peer seq earliest k n).
Proof.
  revert seq n. induction m as [|m IH]; intros seq n Hs H; cbn [request_loop]; [by split|]. case_match; [|by split].
  assert (tx_step peer hp rcv own Q n (sendMessage peer ACTION_TCP_RESEND seq [] k n)) as H1.
  { destruct (sendMessage_spec peer ACTION_TCP_RESEND seq [] k n) as (ds & -> & Hds). split; [|intros p; apply add_sent_same].
    destruct H as [H1 H2]. split; [by eapply sender_same; [apply add_sent_same|]|].
    apply (sent_ok_add n _ ds); [done|done|]. intros x Hx. apply Hds in Hx as [_ Hx]. cbn [snd] in Hx. left.
    exists ACTION_TCP_RESEND, (le4 seq ++ []). rewrite Hx, frame_data by (unfold ACTION_TCP_RESEND; lia).
    split; [done|]. right. left. split; [by left|]. by exists seq, []. }
  eapply tx_step_trans; [exact H1|]. apply IH, H1. apply u32_bound.
Qed.

Lemma request_resend_spec k n kk : node_ok n kk → tx_step peer hp rcv own Q n (request_resend peer k n).
Proof.
  intros ([R1 R2 _ _ _] & H & _). unfold request_resend. destruct (DB_earliestAvailable _); try by split.
  destruct (enabled_of n peer); [|by split].
  assert (tx_step peer hp rcv own Q n (put_enabled peer false n)) as H1.
  { split; [by apply (tx_same_all n)|intros p; apply put_enabled_same]. }
  eapply tx_step_trans; [exact H1|]. apply request_loop_spec; [|apply H1].
  unfold DB_nextExpectedPopSeq. rewrite R1. unfold is_u32. lia.
Qed.

Lemma node_ok_tx n n' k : node_ok n k → tx_step peer hp rcv own Q n n' → node_ok n' k.
Proof.
  intros (H1 & H2 & H3) [H4 H5]. split; [eapply rx_state_same; [apply H5|exact H1]|]. split; [done|]. destruct (H5 peer) as (_ & _ & -> & _). done.
Qed.

(** a fragment of [P] arrives *)
Lemma on_data_spec fuel now seq act data n w k : node_ok n k → 1 ≤ seq → P !! Z.to_nat (seq - 1) = Some (act, data) →
  own seq →
  ∃ n' w' k', on_data h fuel now peer act seq data (n, w) = (Ok tt, (n', w')) ∧ node_ok n' k' ∧
    DB_readyRead (receive_of n' peer) = false ∧ received (receive_of n' peer) seq ∧
    ∀ s, received (receive_of n peer) s → received (receive_of n' peer) s.
Proof.
  intros (Hr & Ht & Hid) Hs Hl Ho. pose proof Hr as [R1 R2 R3 R4 R5].
  assert (data_action act) as [Ha _] by (rewrite Forall_lookup in Hfrags; exact (Hfrags _ _ Hl)).
  assert (is_u32 seq) as Hu by (apply lookup_lt_Some in Hl; unfold is_u32; lia).
  unfold on_data. set (n1 := put_receive peer _ n).
  assert (node_ok n1 k ∧ received (receive_of n1 peer) seq ∧ ∀ s, received (receive_of n peer) s → received (receive_of n1 peer) s)
    as (Hn1 & Hseq & Hmono).
  { unfold received, node_ok, n1. rewrite put_receive_of. split; [|split].
    - split; [|split; [by apply (tx_same_all n)|done]]. split; rewrite ?put_receive_of; try done.
      + unfold DB_insert. by case_match.
      + unfold DB_insert. case_match eqn:E; [|done]. rewrite R1 in E. apply Z.leb_le in E. intros s pl.
        cbn [m_data]. rewrite lookup_insert_Some. intros [[<- <-]|[_ Hp]]; [|by apply R3].
        split; [lia|]. exists (act, data). split; [done|]. split; [done|]. split; [|done]. apply u8_id. unfold is_byte. simpl. lia.
    - unfold DB_insert. case_match eqn:E; cbn [m_nextPopSeq m_data]; [right; rewrite lookup_insert_eq; by eexists|].
      apply Z.leb_gt in E. by left.
    - intros s. unfold DB_insert. case_match; [|done]. cbn [m_nextPopSeq m_data]. intros [|Hin]; [by left|]. right.
      destruct (decide (s = seq)) as [->|]; [rewrite lookup_insert_eq; by eexists|]. by rewrite lookup_insert_ne. }
  destruct (resendRate_spec peer false n1) as [rates Hrt]. destruct (resendRate peer false n1) as [kk n2]. cbn [snd] in Hrt.
  destruct (sendMessage_spec peer ACTION_TCP_ACK seq [] kk n2) as (ds & -> & Hds).
  set (n3 := put_reassembly peer _ _).
  assert (node_ok n3 k) as Hn3.
  { destruct Hn1 as (Hr1 & Ht1 & Hid1). unfold n3. rewrite Hrt. split; [|split; [|done]].
    - eapply rx_state_same; [|exact Hr1]. split; [done|]. split; [apply put_reassembly_of|]. done.
    - destruct Ht1 as [H1 H2]. split; [by eapply sender_same; [|exact H1]|].
      apply (sent_ok_add n1 _ ds); [done|done|]. intros x Hx. apply Hds in Hx as [_ Hx]. cbn [snd] in Hx.
      right. right. exists seq. rewrite Hx, frame_data by (unfold ACTION_TCP_ACK; lia). rewrite app_nil_r. done. }
  assert (receive_of n3 peer = receive_of n1 peer) as Hrc by (unfold n3; by rewrite Hrt).
  destruct (drain_spec (fuel + S (DB_size (receive_of n3 peer))) n3 w k Hn3) as (n4 & w4 & k4 & -> & Hn4 & Hrd & Hm4).
  { unfold DB_size. lia. }
  pose proof (request_resend_spec kk n4 k4 Hn4) as Hq. pose proof (proj2 Hq peer) as (Hrq & _).
  exists (request_resend peer kk n4), w4, k4. split; [done|]. split; [by eapply node_ok_tx|].
  rewrite Hrq. split; [done|]. rewrite Hrc in Hm4. split; [by apply Hm4|]. intros s Hsr. by apply Hm4, Hmono.
Qed.

(** ** A datagram of the peer *)

(** [node_ok] between two datagrams: nothing is ready to be popped *)
Definition quiet (n : TafnetNode) (k : nat) : Prop := node_ok n k ∧ DB_readyRead (receive_of n peer) = false.

Lemma quiet_tx n n' k : quiet n k → tx_step peer hp rcv own Q n n' → quiet n' k ∧ receive_of n' peer = receive_of n peer.
Proof.
  intros [H1 H2] H. pose proof (proj2 H peer) as (E & _). split; [|done]. split; [by eapply node_ok_tx|by rewrite E].
Qed.

Lemma touch_quiet n k : quiet n k →
  quiet (put_enabled peer (enabled_of n peer) (put_send peer (send_of n peer) (put_receive peer (receive_of n peer) n))) k.
Proof.
  intros [(H1 & H2 & H3) H4]. set (n' := put_enabled _ _ _).
  assert (receive_of n' peer = receive_of n peer) as Er by apply (put_receive_of peer (receive_of n peer) n).
  assert (send_of n' peer = send_of n peer) as Es by apply (put_send_of peer (send_of n peer)).
  split; [|by rewrite Er]. split; [eapply rx_state_same; [|exact H1]; by split_and!|]. split; [|done].
  apply (tx_same_all n); [by split|done|done].
Qed.

(** one message handled outside of the acknowledged channel *)
Lemma on_unbuffered_spec action datas n w k : quiet n k → action < 5 → ∃ n' w',
  on_unbuffered h peer action datas (n, w) = (Ok tt, (n', w')) ∧ quiet n' k ∧ receive_of n' peer = receive_of n peer.
Proof.
  intros [(H1 & H2 & H3) H4] Ha. unfold on_unbuffered. destruct (isLikelyDuplicate _ _ _ _) as [dup d].
  assert (tx (set_dups d n) Q) as Ht by (by apply (tx_same_all n)).
  assert (rx_same peer n (set_dups d n)) as Hx by done.
  destruct dup.
  - eexists _, w. split; [done|]. split; [|done]. split; [|done]. split; [by eapply rx_state_same|done].
  - destruct (handleMessage_spec action (drop 1 datas) (set_dups d n) w Ht) as (n' & w' & E & (X1 & X2 & X3 & X4) & Ht' & _).
    exists n', w'. split; [exact E|]. split; [|by rewrite X1]. split; [|by rewrite X1]. split; [|split; [done|by rewrite X3]].
    destruct H1 as [R1 R2 R3 R4 R5]. split; rewrite ?X1, ?X2; try done.
    unfold handled_from. rewrite X4. by erewrite <- R5, <- (handled_from_unbuffered action peer (drop 1 datas) n).
Qed.

Lemma on_packsize_test_spec seq data n : is_u32 seq → 4 ≤ seq → tx n Q → ∃ n',
  on_packsize_test peer seq (ACTION_PACKSIZE_TEST :: le4 seq ++ data) n = Ok n' ∧ tx_step peer hp rcv own Q n n'.
Proof.
  intros Hu Hs H. unfold on_packsize_test. destruct (Z.eqb_spec (Z.of_nat (length (ACTION_PACKSIZE_TEST :: le4 seq ++ data))) (seq + 5)) as [Hl|];
    [|by exists n].
  rewrite (proj2 (Z.ltb_ge _ _)) by done. destruct (rd32_ok (ACTION_PACKSIZE_TEST :: le4 seq ++ data) 5) as [crc ->]; [lia|].
  rewrite res_bind_ok. case_match; [|by exists n].
  destruct (sendMessage_spec peer ACTION_PACKSIZE_ACK seq [] 1 n) as (ds & -> & Hds). eexists. split; [done|].
  split; [|intros p; apply add_sent_same]. destruct H as [H1 H2]. split; [by eapply sender_same; [apply add_sent_same|]|].
  apply (sent_ok_add n _ ds); [done|done|]. intros x Hx. apply Hds in Hx as [_ Hx]. cbn [snd] in Hx. left.
  exists ACTION_PACKSIZE_ACK, (le4 seq ++ []). rewrite Hx, frame_data by (unfold ACTION_PACKSIZE_ACK; lia).
  split; [done|]. right. left. split; [by right|]. by exists seq, [].
Qed.

Lemma onDatagram_spec fuel now d n w k : quiet n k → datagram_ok P rcv d →
  (∀ seq act data, 1 ≤ seq → P !! Z.to_nat (seq - 1) = Some (act, data) → d = act :: le4 seq ++ data → own seq) →
  ∃ n' w' k', onDatagram h fuel now (hp, d) (n, w) = (Ok tt, (n', w')) ∧ quiet n' k' ∧
    (∀ s, received (receive_of n peer) s → received (receive_of n' peer) s) ∧
    (∀ seq act data, 1 ≤ seq → P !! Z.to_nat (seq - 1) = Some (act, data) → d = act :: le4 seq ++ data →
       received (receive_of n' peer) seq).
Proof.
  intros Hq Hd Hown. pose proof (touch_quiet n k Hq) as Hq1. unfold onDatagram.
  set (n1 := put_enabled _ _ _) in *.
  assert (receive_of n1 peer = receive_of n peer) as Er by apply (put_receive_of peer (receive_of n peer) n).
  assert (tx n1 Q) as Ht by apply Hq1.
  (* what a step of the sending half makes of it *)
  assert (∀ n', tx_step peer hp rcv own Q n1 n' → quiet n' k ∧ ∀ s, received (receive_of n peer) s → received (receive_of n' peer) s) as Htx.
  { intros n' H. destruct (quiet_tx _ _ _ Hq1 H) as [H1 H2]. split; [done|]. by rewrite H2, Er. }
  destruct Hq as [(_ & _ & Hid) _].
  destruct Hd as [(act & rest & -> & Hc)|[(seq & act & data & Hs & Hl & ->)|(seq & Hu & Hr & ->)]].
  - rewrite Hid. fold n1. assert (∀ n' w', quiet n' k → (∀ s, received (receive_of n peer) s → received (receive_of n' peer) s) →
      ∃ n2 w2 k2, ((Ok tt, (n', w')) : res unit * (TafnetNode * W)) = (Ok tt, (n2, w2)) ∧ quiet n2 k2 ∧
      (∀ s, received (receive_of n peer) s → received (receive_of n2 peer) s) ∧
      (∀ seq act' data, 1 ≤ seq → P !! Z.to_nat (seq - 1) = Some (act', data) → act :: rest = act' :: le4 seq ++ data →
        received (receive_of n2 peer) seq)) as Hdone.
    { intros n' w' Hq' Hm. exists n', w', k. split; [done|]. split; [done|]. split; [done|].
      intros seq act' data Hs Hl [= <- _]. rewrite Forall_lookup in Hfrags. destruct (Hfrags _ _ Hl) as (A1 & A2 & A3 & A4 & A5).
      cbn in *. lia. }
    unfold ACTION_TCP_DATA. destruct Hc as [Hc|[[Hc (s & data & Hu & ->)]|[-> (s & data & Hu & Hs & ->)]]].
    + rewrite (proj2 (Z.leb_gt _ _)) by lia.
      destruct (on_unbuffered_spec act (act :: rest) n1 w k Hq1 ltac:(lia)) as (n' & w' & -> & Hq' & Er').
      apply Hdone; [done|]. by rewrite Er', Er.
    + rewrite (proj2 (Z.leb_le _ _)) by (destruct Hc as [-> | ->]; vm_compute; discriminate). rewrite frame_seq by done.
      destruct Hc as [-> | ->]; cbn [Z.eqb]; apply Hdone; apply Htx; try (by apply on_resend_spec).
      * by apply tx_step_rates.
      * by apply tx_step_rates.
    + cbn [Z.leb]. rewrite frame_seq by done. cbn [Z.eqb]. 
      destruct (on_packsize_test_spec s data n1 Hu Hs Ht) as (n' & E & Hn'). cbn in E |- *. rewrite E. apply Hdone; by apply Htx.
  - rewrite Hid. fold n1. assert (data_action act) as (A1 & A2 & A3 & A4 & A5) by (rewrite Forall_lookup in Hfrags; exact (Hfrags _ _ Hl)).
    cbn [fst] in *. assert (is_u32 seq) as Hu by (apply lookup_lt_Some in Hl; unfold is_u32; lia).
    unfold ACTION_TCP_DATA. rewrite (proj2 (Z.leb_le _ _)) by lia. rewrite frame_seq by done.
    rewrite !(proj2 (Z.eqb_neq _ _)) by done.
    assert ((length (act :: le4 seq ++ data) <? 5)%nat = false) as -> by (apply Nat.ltb_ge; simpl; lia).
    change (drop 5 (act :: le4 seq ++ data)) with data.
    destruct (on_data_spec fuel now seq act data n1 w k (proj1 Hq1) Hs Hl (Hown _ _ _ Hs Hl eq_refl)) as (n' & w' & k' & -> & Hn' & Hrd & Hsq & Hm).
    exists n', w', k'. split; [done|]. split; [done|]. rewrite Er in Hm. split; [done|].
    intros seq' act' data' Hs' Hl' E. assert (seq' = seq) as ->; [|done].
    apply (f_equal (λ r, rd32 r 1)) in E. rewrite !frame_seq in E; [|apply lookup_lt_Some in Hl'; unfold is_u32; lia|done].
    by apply Ok_inj in E.
  - rewrite Hid. fold n1. cbn [Z.leb]. rewrite <- (app_nil_r (le4 seq)), frame_seq by done. cbn [Z.eqb].
    destruct (Htx (on_ack peer seq n1)) as [H1 H2]; [by apply on_ack_spec|].
    exists (on_ack peer seq n1), w, k. split; [done|]. split; [done|]. split; [done|].
    intros seq' act' data' Hs' Hl' E. assert (act' = ACTION_TCP_ACK) as -> by (by injection E).
    rewrite Forall_lookup in Hfrags. by destruct (Hfrags _ _ Hl') as (_ & A & _).
Qed.
End Receiver.
