(* ===== verification/TafnetProtocol.v ===== *)
(** * Two nodes and the network between them

    The step relation of two connected nodes.  A datagram that was sent once may be
    delivered at any later time, any number of times, or never. *)
From S2P Require Import Prelude OrderedMaps DuplicateDetection DataBuffer TafnetNode TafnetReliable.

(** ** Steps of one node *)
Section Node.
Context {W : Type} (h : Z → Z → bytes → TafnetNode * W → res unit * (TafnetNode * W)).
(** the node's peer and its address *)
Context (peer : Z) (hp : HostAndPort).

(** [incoming]: what the peer has sent to this node; the list is what the program of this
    node has forwarded to the peer with an acknowledged action *)
Inductive node_step (incoming : bytes → Prop) : TafnetNode * W → list frag → TafnetNode * W → list frag → Prop :=
  | step_forward now m n n' w forwarded :
      message_ok m → m_nextPushSeq (send_of n peer) + Z.of_nat (length m.2) < 4294967296 →
      forwardGameData now peer m.1 m.2 n = Ok n' →
      node_step incoming (n, w) forwarded (n', w) (forwarded ++ [m])
  | step_resend_timer now n w forwarded : node_step incoming (n, w) forwarded (onResendTimer now n, w) forwarded
  | step_reenable_timer n w forwarded : node_step incoming (n, w) forwarded (onResendReqReenableTimer n, w) forwarded
  | step_deliver fuel now d n w n' w' forwarded :
      incoming d → onDatagram h fuel now (hp, d) (n, w) = (Ok tt, (n', w')) →
      node_step incoming (n, w) forwarded (n', w') forwarded.

(** ** One node keeps its side of the invariant *)
Context (Hh : handler_ok h).
Context (P : list frag) (rcv : Z → Prop).
Context (Hsmall : Z.of_nat (length P) + 1 < 4294967296) (Hfrags : Forall (λ f, data_action f.1) P).

(** [P]: the fragments of the peer; [Q]: the fragments this node has pushed *)
Definition side_ok (n : TafnetNode) (Q forwarded : list frag) : Prop :=
  (∃ k, quiet peer P hp rcv (received (receive_of n peer)) Q n k) ∧ messages [] Q = forwarded ∧ leftover [] Q = [].

Lemma quiet_own own own' Q n k : (∀ s, own s → own' s) → quiet peer P hp rcv own Q n k → quiet peer P hp rcv own' Q n k.
Proof.
  intros Ho [(H1 & [H2 H3] & H4) H5]. split; [|done]. split; [done|]. split; [|done]. split; [done|].
  rewrite <- (app_nil_r Q). by eapply sent_ok_mono.
Qed.

Lemma side_deliver fuel now d n w Q forwarded : side_ok n Q forwarded → datagram_ok P rcv d → ∃ n' w',
  onDatagram h fuel now (hp, d) (n, w) = (Ok tt, (n', w')) ∧ side_ok n' Q forwarded ∧
  (∀ s, received (receive_of n peer) s → received (receive_of n' peer) s) ∧
  m_nextPushSeq (send_of n' peer) = m_nextPushSeq (send_of n peer).
Proof.
  intros [[k Hq] Hm] Hd.
  set (own := λ s, received (receive_of n peer) s ∨
    ∃ act data, 1 ≤ s ∧ P !! Z.to_nat (s - 1) = Some (act, data) ∧ d = act :: le4 s ++ data).
  assert (quiet peer P hp rcv own Q n k) as Hq1 by (eapply quiet_own; [|exact Hq]; intros s Hs; by left).
  destruct (onDatagram_spec h Hh peer P Hsmall Hfrags hp rcv own Q fuel now d n w k Hq1 Hd) as (n' & w' & k' & E & Hq' & H1 & H2).
  { intros seq act data Hs Hl Hdd. right. by exists act, data. }
  exists n', w'. split; [done|]. split; [|split; [done|]].
  - split; [|done]. exists k'. eapply quiet_own; [|exact Hq']. intros s [Hs|(act & data & Hs & Hl & Hdd)]; [by apply H1|by eapply H2].
  - destruct Hq1 as [(_ & [S _] & _) _]. destruct Hq' as [(_ & [S' _] & _) _].
    by rewrite (so_next _ _ _ _ _ S), (so_next _ _ _ _ _ S').
Qed.

Lemma side_tx own n n' Q forwarded k : quiet peer P hp rcv own Q n k → own = received (receive_of n peer) →
  messages [] Q = forwarded → leftover [] Q = [] → tx_step peer hp rcv own Q n n' →
  side_ok n' Q forwarded ∧ receive_of n' peer = receive_of n peer.
Proof.
  intros Hq -> Hm Hl Ht. destruct (quiet_tx _ _ _ _ _ _ _ _ _ Hq Ht) as [H1 H2]. split; [|done].
  split; [|done]. exists k. by rewrite H2.
Qed.

Lemma side_step incoming n w Q forwarded n' w' forwarded' : side_ok n Q forwarded →
  (∀ d, incoming d → datagram_ok P rcv d) → node_step incoming (n, w) forwarded (n', w') forwarded' →
  ∃ frs, side_ok n' (Q ++ frs) forwarded' ∧ ∀ s, received (receive_of n peer) s → received (receive_of n' peer) s.
Proof.
  intros Hs Hin Hstep. inversion Hstep as [now m ? ? ? ? Hm Hsm Hf|now|n0|fuel now d ? ? ? ? ? Hd E]; subst.
  - destruct Hs as ([k Hq] & Hmsg & Hl). destruct Hq as [(H1 & H2 & H3) H4]. destruct m as [action data]. cbn [fst snd] in *.
    rewrite (so_next _ _ _ _ _ (proj1 H2)) in Hsm.
    destruct (forward_spec peer hp rcv (received (receive_of n peer)) now action data n n' Q H2 Hm ltac:(lia) Hf)
      as (frs & Hs' & Hrx & Hm' & Hl'). pose proof Hrx as (Er & _ & Ei & _).
    exists frs. rewrite Er. split; [|done]. split.
    + exists k. rewrite Er. split; [|by rewrite Er]. split; [by eapply rx_state_same|]. split; [done|]. by rewrite Ei.
    + rewrite messages_app, leftover_app, Hl, Hmsg, Hm', Hl'. done.
  - destruct Hs as ([k Hq] & Hmsg & Hl). exists []. rewrite app_nil_r.
    destruct (side_tx _ _ (onResendTimer now n) _ _ _ Hq eq_refl Hmsg Hl) as [H1 H2]; [|by rewrite H2].
    apply onResendTimer_spec, Hq.
  - destruct Hs as ([k Hq] & Hmsg & Hl). exists []. rewrite app_nil_r.
    destruct (side_tx _ _ (onResendReqReenableTimer n) _ _ _ Hq eq_refl Hmsg Hl) as [H1 H2]; [|by rewrite H2].
    split; [|done]. destruct Hq as [(_ & [S1 S2] & _) _]. split; [|done]. eapply sender_same; [|exact S1]. done.
  - exists []. rewrite app_nil_r. destruct (side_deliver fuel now d n w Q forwarded' Hs (Hin _ Hd)) as (n2 & w2 & E' & Hs' & Hm & _).
    rewrite E in E'. injection E' as <- <-. done.
Qed.
End Node.

(** ** The two nodes *)
Section World.
Context {W : Type} (ha hb : Z → Z → bytes → TafnetNode * W → res unit * (TafnetNode * W)).
(** [B] is the id of the second node at the first and [hpB] its address; so for [A] *)
Context (A B : Z) (hpA hpB : HostAndPort).

Record world := mkWorld {
  w_a : TafnetNode * W; w_b : TafnetNode * W;
  w_fa : list frag; w_fb : list frag }.   (* forwarded by the one and by the other *)

(** what has been sent to an address, whether it was delivered or not *)
Definition sent_to (hp : HostAndPort) (n : TafnetNode) (d : bytes) : Prop := (hp, d) ∈ n_sent n.

Inductive world_step : world → world → Prop :=
  | world_step_a a b fa fb a' fa' :
      node_step ha B hpB (sent_to hpA b.1) a fa a' fa' → world_step (mkWorld a b fa fb) (mkWorld a' b fa' fb)
  | world_step_b a b fa fb b' fb' :
      node_step hb A hpA (sent_to hpB a.1) b fb b' fb' → world_step (mkWorld a b fa fb) (mkWorld a b' fa fb').

(** two new nodes that have been told of each other *)
Definition world_init (w : world) : Prop :=
  ∃ idA hostA proA maxA idB hostB proB maxB nowA nowB,
    connectToPeer nowA hpB B (TafnetNode_make idA hostA proA maxA) = Ok (w_a w).1 ∧
    connectToPeer nowB hpA A (TafnetNode_make idB hostB proB maxB) = Ok (w_b w).1 ∧
    w_fa w = [(ACTION_HELLO, HELLO)] ∧ w_fb w = [(ACTION_HELLO, HELLO)].
Inductive reachable : world → Prop :=
  | reachable_init w : world_init w → reachable w
  | reachable_step w w' : reachable w → world_step w w' → reachable w'.

Context (Ha : handler_ok ha) (Hb : handler_ok hb).

Definition world_ok (w : world) : Prop := ∃ P Q,
  let a := (w_a w).1 in let b := (w_b w).1 in
  side_ok B hpB Q (received (receive_of b A)) a P (w_fa w) ∧
  side_ok A hpA P (received (receive_of a B)) b Q (w_fb w).

Lemma side_bounds peer hp P rcv n Q f : side_ok peer hp P rcv n Q f →
  Z.of_nat (length Q) + 1 < 4294967296 ∧ Forall (λ f, data_action f.1) Q ∧ sent_ok n hp Q (received (receive_of n peer)).
Proof. intros [[k [(_ & [S1 S2] & _) _]] _]. split; [apply S1|]. split; [apply S1|done]. Qed.

(** the other side, after a step of the first: it has pushed [frs] and received more *)
Lemma side_other peer hp P frs (rcv rcv' : Z → Prop) n Q f : side_ok peer hp P rcv n Q f → (∀ s, rcv s → rcv' s) →
  side_ok peer hp (P ++ frs) rcv' n Q f.
Proof.
  intros [[k [(H1 & [H2 H3] & H4) H5]] Hm] Hr. split; [|done]. exists k. split; [|done].
  split; [by apply rx_state_mono|]. split; [|done]. split; [by eapply sender_rcv|done].
Qed.

Lemma connect_side now hp peer id host pro mx n rcv :
  connectToPeer now hp peer (TafnetNode_make id host pro mx) = Ok n →
  ∃ P, side_ok peer hp [] rcv n P [(ACTION_HELLO, HELLO)].
Proof.
  unfold connectToPeer. set (n0 := erase_buffers _ _). intros E.
  assert (quiet peer [] hp rcv (received (receive_of n0 peer)) [] n0 0) as Hq.
  { split; [|vm_compute; reflexivity]. split; [|split; [|apply lookup_insert_eq]].
    - by split.
    - split; [|intros d Hd; by apply elem_of_nil in Hd].
      assert (m_peerAddresses n0 = {[peer := hp]}) as Ea by done.
      assert (send_of n0 peer = DataBuffer_init) as Es by (vm_compute; reflexivity).
      split; rewrite ?Ea, ?Es.
      + apply lookup_insert_eq.
      + intros p Hp. apply lookup_singleton_Some in Hp as [-> _]. done.
      + done.
      + done.
      + by apply Forall_nil.
      + intros seq pl Hl. done.
      + simpl. lia. }
  destruct (side_step (W:=unit) (λ _ _ _ nw, (Ok tt, nw)) peer hp) with (P:=@nil frag) (rcv:=rcv) (incoming:=λ _ : bytes, False)
    (n:=n0) (w:=tt) (Q:=@nil frag) (forwarded:=@nil frag) (n':=n) (w':=tt) (forwarded':=[(ACTION_HELLO, HELLO)]) as (frs & Hs & _); try done.
  - intros act p d m w. exists (m_resendRates m), [], w. split; [|done]. destruct m. unfold add_sent, set_rates. cbn. by rewrite app_nil_r.
  - split; [by exists 0%nat|done].
  - apply (step_forward _ _ _ _ now (ACTION_HELLO, HELLO) n0 n tt []); [|done|done].
    split; [vm_compute; split_and!; done|]. done.
  - by exists ([] ++ frs).
Qed.

Lemma reachable_ok w : reachable w → world_ok w.
Proof.
  induction 1 as [w Hi|w w' _ IH Hstep].
  - destruct Hi as (idA & hostA & proA & maxA & idB & hostB & proB & maxB & nowA & nowB & EA & EB & FA & FB).
    unfold world_ok. rewrite FA, FB.
    destruct (connect_side nowA hpB B _ _ _ _ _ (received (receive_of (w_b w).1 A)) EA) as [P HP].
    destruct (connect_side nowB hpA A _ _ _ _ _ (received (receive_of (w_a w).1 B)) EB) as [Q HQ].
    exists P, Q. split; [by apply (side_other B hpB [] Q _ _ _ _ _ HP)|by apply (side_other A hpA [] P _ _ _ _ _ HQ)].
  - destruct IH as (P & Q & H1 & H2).
    destruct (side_bounds _ _ _ _ _ _ _ H1) as (SP & FP & TP). destruct (side_bounds _ _ _ _ _ _ _ H2) as (SQ & FQ & TQ).
    inversion Hstep as [[a wa] b fa fb [a' wa'] fa' Hs|a [b wb] fa fb [b' wb'] fb' Hs]; subst; cbn [w_a w_b w_fa w_fb fst] in *.
    + destruct (side_step ha B hpB Ha Q _ SQ FQ _ _ _ _ _ _ _ _ H1 TQ Hs) as (frs & H1' & Hr).
      exists (P ++ frs), Q. split; [done|]. by eapply side_other.
    + destruct (side_step hb A hpA Hb P _ SP FP _ _ _ _ _ _ _ _ H2 TP Hs) as (frs & H2' & Hr).
      exists P, (Q ++ frs). split; [by eapply side_other|done].
Qed.

(** one direction: [n] has pushed [Q], which the node [m] takes apart *)
Lemma side_delivery peer hp peer' hp' P Q n m f f' : side_ok peer hp P (received (receive_of m peer')) n Q f →
  side_ok peer' hp' Q (received (receive_of n peer)) m P f' →
  handled_from peer' m `prefix_of` f ∧ (m_data (send_of n peer) = ∅ → handled_from peer' m = f).
Proof.
  intros [[k [(_ & [S _] & _) _]] [<- Hl]] [[k' [([R1 R2 R3 R4 R5] & _) Hr]] _].
  rewrite R5. split.
  - exists (messages (leftover [] (take k' Q)) (drop k' Q)). by rewrite <- messages_app, take_drop.
  - intros He. rewrite take_ge; [done|]. destruct (decide (length Q ≤ k')%nat) as [|Hlt]; [done|exfalso].
    destruct (so_kept _ _ _ _ _ S (Z.of_nat k' + 1)) as [[pl Hin]|[Hlow|[pl Hin]]]; [lia| |lia|].
    + by rewrite He, lookup_empty in Hin.
    + revert Hr. unfold DB_readyRead. destruct (first_key _) as [j|] eqn:Ef.
      * apply first_key_spec in Ef as [[pl' Hj] Hmin]. pose proof (R3 _ _ Hj) as [Hj1 _].
        assert (j ≤ Z.of_nat k' + 1) by (apply Hmin; by exists pl). rewrite R1. intros Hne. apply Z.eqb_neq in Hne. lia.
      * apply first_key_none in Ef. by rewrite Ef, lookup_empty in Hin.
Qed.

(** C1: reliable delivery.  In every state that two connected nodes and a network that
    loses, duplicates, delays and reorders datagrams can reach, what each node has
    handled of the other's acknowledged messages is a prefix of what the other has
    forwarded, each message once, whole and in order; as soon as the send buffer is
    empty, everything forwarded has been handled; and no datagram in flight can make the
    node it is sent to fail. *)
Theorem reliable_delivery (w : world) : reachable w →
  let a := (w_a w).1 in let b := (w_b w).1 in
  handled_from A b `prefix_of` w_fa w ∧ handled_from B a `prefix_of` w_fb w ∧
  (m_data (send_of a B) = ∅ → handled_from A b = w_fa w) ∧ (m_data (send_of b A) = ∅ → handled_from B a = w_fb w) ∧
  (∀ fuel now d, sent_to hpB a d → ∃ nw, onDatagram hb fuel now (hpA, d) (w_b w) = (Ok tt, nw)) ∧
  (∀ fuel now d, sent_to hpA b d → ∃ nw, onDatagram ha fuel now (hpB, d) (w_a w) = (Ok tt, nw)).
Proof.
  intros Hw. destruct (reachable_ok w Hw) as (P & Q & H1 & H2). cbv zeta.
  destruct (side_delivery _ _ _ _ _ _ _ _ _ _ H1 H2) as [D1 D2]. destruct (side_delivery _ _ _ _ _ _ _ _ _ _ H2 H1) as [D3 D4].
  destruct (side_bounds _ _ _ _ _ _ _ H1) as (SP & FP & TP). destruct (side_bounds _ _ _ _ _ _ _ H2) as (SQ & FQ & TQ).
  split_and!; [done..| |].
  - intros fuel now d Hd. destruct w as [a [b wb] fa fb]. cbn [w_a w_b fst] in *.
    destruct (side_deliver hb A hpA Hb P _ SP FP fuel now d b wb Q fb H2 (TP _ Hd)) as (n' & w' & -> & _). by eexists.
  - intros fuel now d Hd. destruct w as [[a wa] b fa fb]. cbn [w_a w_b fst] in *.
    destruct (side_deliver ha B hpB Ha Q _ SQ FQ fuel now d a wa P fa H1 (TQ _ Hd)) as (n' & w' & -> & _). by eexists.
Qed.
End World.

(** ** A run: three fragments, the last arrives first, the second twice, the first is
    lost and sent again *)
Section Run.
Definition no_hook (action peer : Z) (data : bytes) (nw : TafnetNode * unit) : res unit * (TafnetNode * unit) := (Ok tt, nw).
Lemma no_hook_ok : handler_ok no_hook.
Proof.
  intros act p d n w. exists (m_resendRates n), [], w. split; [|done]. unfold no_hook, add_sent, set_rates.
  rewrite app_nil_r. by destruct n.
Qed.
Definition unwrap (r : res TafnetNode) : TafnetNode := match r with Ok n => n | _ => TafnetNode_make 0 false false 0 end.
Definition run_hpA : HostAndPort := (3232235777, 6112).
Definition run_hpB : HostAndPort := (3232235778, 6113).
Definition run_a0 : TafnetNode := unwrap (connectToPeer 10 run_hpB 2 (TafnetNode_make 1 true false 1400)).
Definition run_b0 : TafnetNode := unwrap (connectToPeer 20 run_hpA 1 (TafnetNode_make 2 false false 1400)).
Definition run_message : frag := (ACTION_TCP_DATA, replicate 600 65).
Definition run_a1 : TafnetNode := unwrap (forwardGameData 30 2 ACTION_TCP_DATA run_message.2 run_a0).
Definition run_a2 : TafnetNode := onResendTimer 5000 run_a1.
(** the datagrams of [a], by their place in its log: 0 is HELLO, 1 to 3 the fragments *)
Definition run_datagram (n : TafnetNode) (k : nat) : bytes := default [] (snd <$> n_sent n !! k).
Definition run_deliver (k : nat) (b : TafnetNode) : TafnetNode :=
  (onDatagram no_hook 0 40 (run_hpA, run_datagram run_a2 k) (b, tt)).2.1.
Definition run_order : list nat := [3; 2; 2; 0; 5]%nat.
Definition run_b (k : nat) : TafnetNode := foldl (λ b k, run_deliver k b) run_b0 (take k run_order).
Definition run_world (k : nat) : world :=
  mkWorld (run_a2, tt) (run_b k, tt) [(ACTION_HELLO, HELLO); run_message] [(ACTION_HELLO, HELLO)].

Example run_handled : handled_from 1 (run_b 4) = [(ACTION_HELLO, HELLO)] ∧
  handled_from 1 (run_b 5) = [(ACTION_HELLO, HELLO); run_message].
Proof. vm_compute. done. Qed.

Lemma run_step k : (k < 5)%nat → world_step no_hook no_hook 1 2 run_hpA run_hpB (run_world k) (run_world (S k)).
Proof.
  intros Hk. apply world_step_b. apply step_deliver with (fuel := 0%nat) (now := 40) (d := run_datagram run_a2 (nth k run_order 0%nat)).
  - unfold sent_to. cbn [fst]. apply list_elem_of_lookup. exists (nth k run_order 0%nat).
    do 5 (destruct k as [|k]; [vm_compute; reflexivity|]). lia.
  - do 5 (destruct k as [|k]; [vm_compute; reflexivity|]). lia.
Qed.

Lemma run_reachable : reachable no_hook no_hook 1 2 run_hpA run_hpB (run_world 5).
Proof.
  apply (reachable_step _ _ _ _ _ _ (run_world 4)); [|exact (run_step 4 ltac:(lia))].
  apply (reachable_step _ _ _ _ _ _ (run_world 3)); [|exact (run_step 3 ltac:(lia))].
  apply (reachable_step _ _ _ _ _ _ (run_world 2)); [|exact (run_step 2 ltac:(lia))].
  apply (reachable_step _ _ _ _ _ _ (run_world 1)); [|exact (run_step 1 ltac:(lia))].
  apply (reachable_step _ _ _ _ _ _ (run_world 0)); [|exact (run_step 0 ltac:(lia))].
  change (run_world 0) with (mkWorld (onResendTimer 5000 run_a1, tt) (run_b0, tt) [(ACTION_HELLO, HELLO); run_message] [(ACTION_HELLO, HELLO)]).
  apply (reachable_step _ _ _ _ _ _ (mkWorld (run_a1, tt) (run_b0, tt) [(ACTION_HELLO, HELLO); run_message] [(ACTION_HELLO, HELLO)])).
  2: { apply world_step_a. exact (step_resend_timer _ _ _ _ 5000 run_a1 tt _). }
  apply reachable_step with (w := mkWorld (run_a0, tt) (run_b0, tt) [(ACTION_HELLO, HELLO)] [(ACTION_HELLO, HELLO)]).
  2: { apply world_step_a. apply (step_forward _ _ _ _ 30 run_message run_a0 run_a1 tt [(ACTION_HELLO, HELLO)]).
       - split; [unfold data_action; split_and!; vm_compute; intuition discriminate|]. split; [discriminate|]. split; [discriminate|]. vm_compute. reflexivity.
       - vm_compute. reflexivity.
       - vm_compute. reflexivity. }
  apply reachable_init. exists 1, true, false, 1400, 2, false, false, 1400, 10, 20. split; [vm_compute; reflexivity|]. split; [vm_compute; reflexivity|]. split; reflexivity.
Qed.

Lemma reliable_delivery_witness : reachable no_hook no_hook 1 2 run_hpA run_hpB (run_world 5) ∧
  handled_from 1 (w_b (run_world 5)).1 `prefix_of` w_fa (run_world 5).
Proof.
  pose proof run_reachable as H. split; [exact H|].
  exact (proj1 (reliable_delivery no_hook no_hook 1 2 run_hpA run_hpB no_hook_ok no_hook_ok (run_world 5) H)).
Defined.
End Run.
