(* ===== verification/TafnetLiveness.v ===== *)
(** * The protocol of two nodes can always finish

    From every reachable state the resend timers and the delivery of what they send, and
    of the acknowledgements, empty both send buffers: no sequence of losses leaves the
    two nodes in a state from which a message cannot be delivered any more. *)
From S2P Require Import Prelude OrderedMaps DuplicateDetection DataBuffer TafnetNode TafnetReliable TafnetProtocol.

(** ** What neither sending nor receiving data touches *)

(** the send buffers stay, the log of datagrams grows *)
Definition grows (n n' : TafnetNode) : Prop :=
  m_peerAddresses n' = m_peerAddresses n ∧ m_proactiveResendEnabled n' = m_proactiveResendEnabled n ∧
  (∀ p, send_of n' p = send_of n p) ∧ n_sent n `prefix_of` n_sent n'.
#[export] Instance grows_preorder : PreOrder grows.
Proof.
  split; [by intros n|]. intros n1 n2 n3 (A1 & A2 & A3 & A4) (B1 & B2 & B3 & B4).
  split; [congruence|]. split; [congruence|]. split; [|by etrans]. intros p. by rewrite B3, A3.
Qed.
Lemma grows_sent n n' x : grows n n' → x ∈ n_sent n → x ∈ n_sent n'.
Proof. intros (_ & _ & _ & [l ->]). rewrite elem_of_app. by left. Qed.
Lemma grows_same n n' : m_peerAddresses n' = m_peerAddresses n → m_proactiveResendEnabled n' = m_proactiveResendEnabled n →
  m_sendBuffer n' = m_sendBuffer n → n_sent n' = n_sent n → grows n n'.
Proof. intros H1 H2 H3 H4. unfold grows, send_of. rewrite H3, H4. done. Qed.
Lemma grows_add_sent ds n : grows n (add_sent ds n).
Proof. split; [done|]. split; [done|]. split; [done|]. by eexists. Qed.
Lemma grows_rates rates n : grows n (set_rates rates n).
Proof. by apply grows_same. Qed.
Lemma grows_sendMessage p act seq d k n : grows n (sendMessage p act seq d k n).
Proof. destruct (sendMessage_spec p act seq d k n) as (ds & -> & _). apply grows_add_sent. Qed.
Lemma grows_resendRate p inc n : grows n (resendRate p inc n).2.
Proof. destruct (resendRate_spec p inc n) as [r ->]. apply grows_rates. Qed.
(** without proactive resends every message goes out once *)
Lemma sendMessage_once p hp act seq d k n : m_peerAddresses n !! p = Some hp → m_proactiveResendEnabled n = false →
  (hp, frame act seq d) ∈ n_sent (sendMessage p act seq d k n).
Proof.
  intros H1 H2. unfold sendMessage. rewrite H1, H2. cbn [add_sent n_sent]. rewrite elem_of_app. right. change (Z.to_nat 1) with 1%nat.
  cbn [replicate]. by left.
Qed.

(** ** The resend timer *)
Lemma resend_one_grows p seq n :
  grows n match py_buf (DB_get seq (send_of n p)) with
    | Some buf => let '(k, n1) := resendRate p true n in sendMessage p (py_action (DB_get seq (send_of n p))) seq buf k n1
    | None => n end.
Proof.
  destruct (py_buf _) as [buf|]; [|done]. pose proof (grows_resendRate p true n) as H. destruct (resendRate p true n) as [k n1].
  etrans; [exact H|]. apply grows_sendMessage.
Qed.
Lemma resend_loop_grows now timeout p seqs m n : grows n (resend_loop now timeout p seqs m n).
Proof.
  revert m n. induction seqs as [|seq seqs IH]; intros m n; cbn [resend_loop]; [done|]. case_match; [done|].
  pose proof (resend_one_grows p seq n) as H1. match goal with H : grows n ?x |- _ => set (n1 := x) in * end.
  set (n2 := if rr_lastTimeoutSeq _ <? seq then _ else n1).
  assert (grows n n2) as H2 by (etrans; [exact H1|]; unfold n2; case_match; [apply grows_rates|done]).
  destruct (m - 1 <=? 0); [exact H2|]. etrans; [exact H2|apply IH].
Qed.
Lemma resend_to_grows now p n : grows n (resend_to now p n).
Proof. unfold resend_to. etrans; [|apply resend_loop_grows]. apply grows_rates. Qed.
Lemma resend_all_grows now peers n : grows n (foldl (λ n p, resend_to now p n) n peers).
Proof.
  revert n. induction peers as [|p peers IH]; intros n; [done|]. cbn [foldl]. etrans; [apply resend_to_grows|apply IH].
Qed.
Lemma resend_timeout_le ping : resend_timeout ping ≤ 700.
Proof. unfold resend_timeout, MAX_RESEND_TIMEOUT. lia. Qed.
Lemma resend_to_sends now p hp n s pl d : m_peerAddresses n !! p = Some hp → m_proactiveResendEnabled n = false →
  first_key (m_data (send_of n p)) = Some s → m_data (send_of n p) !! s = Some pl → py_buf pl = Some d →
  py_timestamp pl + 700 ≤ now → (hp, frame (py_action pl) s d) ∈ n_sent (resend_to now p n).
Proof.
  intros Ha Hp Hs Hpl Hd Hnow. unfold resend_to. set (n0 := put_rate p (rate_of n p) n).
  change (send_of n0 p) with (send_of n p). unfold first_key in Hs. destruct (sorted_keys _) as [|s' seqs]; [done|]. injection Hs as ->.
  cbn [resend_loop]. change (send_of n0 p) with (send_of n p).
  assert (DB_get s (send_of n p) = pl) as -> by (unfold DB_get, at_key; by rewrite Hpl).
  set (ping := s32 _). pose proof (resend_timeout_le ping). rewrite (proj2 (Z.ltb_ge _ _)) by lia. rewrite Hd.
  pose proof (grows_resendRate p true n0) as Hg. destruct (resendRate p true n0) as [k n1]. cbn [snd] in Hg.
  set (n2 := sendMessage p (py_action pl) s d k n1).
  assert ((hp, frame (py_action pl) s d) ∈ n_sent n2) as Hin.
  { destruct Hg as (G1 & G2 & _). apply sendMessage_once; [by rewrite G1|by rewrite G2]. }
  set (n3 := if rr_lastTimeoutSeq _ <? s then _ else n2).
  assert ((hp, frame (py_action pl) s d) ∈ n_sent n3) as Hin3 by (unfold n3; by case_match).
  change (MAX_RESEND_AT_ONCE - 1 <=? 0) with false. cbn iota. eapply grows_sent; [apply resend_loop_grows|exact Hin3].
Qed.
Lemma onResendTimer_sends now p hp n s pl d : m_peerAddresses n !! p = Some hp → m_proactiveResendEnabled n = false →
  first_key (m_data (send_of n p)) = Some s → m_data (send_of n p) !! s = Some pl → py_buf pl = Some d →
  py_timestamp pl + 700 ≤ now → (hp, frame (py_action pl) s d) ∈ n_sent (onResendTimer now n).
Proof.
  intros Ha Hp Hs Hpl Hd Hnow. unfold onResendTimer.
  assert (p ∈ sorted_keys (m_sendBuffer n)) as Hin.
  { apply elem_of_sorted_keys. unfold send_of, at_key in Hpl. destruct (m_sendBuffer n !! p) as [b|]; [by eexists|done]. }
  apply list_elem_of_split in Hin as (l1 & l2 & ->). rewrite foldl_app. cbn [foldl].
  pose proof (resend_all_grows now l1 n) as Hg. set (n1 := foldl _ n l1) in *.
  eapply grows_sent; [apply resend_all_grows|]. destruct Hg as (G1 & G2 & G3 & _).
  apply resend_to_sends; rewrite ?G1, ?G2, ?G3; done.
Qed.

(** ** Receiving a fragment *)
Section Receive.
Context {W : Type} (h : Z → Z → bytes → TafnetNode * W → res unit * (TafnetNode * W)).
Context (Hh : handler_ok h).

Lemma drain_grows fuel p n w n' w' : drain_loop h fuel p (n, w) = (Ok tt, (n', w')) → grows n n'.
Proof.
  revert n w. induction fuel as [|fuel IH]; intros n w E; cbn [drain_loop] in E; [done|].
  destruct (DB_readyRead _); [|by injection E as -> _]. destruct (DB_pop _) as [data b].
  set (n1 := put_reassembly p _ _) in E. assert (grows n n1) as H1 by (by apply grows_same).
  destruct (negb _); [|etrans; [exact H1|by eapply IH]].
  destruct (Hh (py_action data) p (reassembly_of n1 p) (add_handled (py_action data, p, reassembly_of n1 p) n1) w) as (rates & ds & w2 & Eh & _).
  unfold handleMessage in E. cbn [fst snd] in E. rewrite Eh in E. set (n2 := add_sent ds _) in E.
  assert (grows n n2) as H2.
  { etrans; [exact H1|]. etrans; [|apply grows_add_sent]. by apply grows_same. }
  destruct (_ && _); [|done]. etrans; [exact H2|]. etrans; [|by eapply IH]. by apply grows_same.
Qed.
Lemma request_loop_grows m p seq earliest k n : grows n (request_loop m p seq earliest k n).
Proof.
  revert seq n. induction m as [|m IH]; intros seq n; cbn [request_loop]; [done|]. case_match; [|done].
  etrans; [apply grows_sendMessage|apply IH].
Qed.
Lemma request_resend_grows p k n : grows n (request_resend p k n).
Proof.
  unfold request_resend. destruct (DB_earliestAvailable _); try done. destruct (enabled_of n p); [|done].
  etrans; [|apply request_loop_grows]. by apply grows_same.
Qed.
Lemma on_data_acks fuel now p hp act seq data n w n' w' : m_peerAddresses n !! p = Some hp → m_proactiveResendEnabled n = false →
  on_data h fuel now p act seq data (n, w) = (Ok tt, (n', w')) →
  grows n n' ∧ (hp, frame ACTION_TCP_ACK seq []) ∈ n_sent n'.
Proof.
  intros Ha Hp. unfold on_data. set (n1 := put_receive p _ n). assert (grows n n1) as H1 by (by apply grows_same).
  pose proof (grows_resendRate p false n1) as H2. destruct (resendRate p false n1) as [k n2]. cbn [snd] in H2.
  assert (grows n n2) as H3 by (by etrans). clear H1 H2. set (n3 := sendMessage p ACTION_TCP_ACK seq [] k n2).
  assert ((hp, frame ACTION_TCP_ACK seq []) ∈ n_sent n3) as Hin.
  { destruct H3 as (G1 & G2 & _). apply sendMessage_once; [by rewrite G1|by rewrite G2]. }
  assert (grows n n3) as H4 by (etrans; [exact H3|apply grows_sendMessage]).
  set (n4 := put_reassembly p _ n3). assert (grows n3 n4) as H5 by (by apply grows_same).
  destruct (drain_loop h _ p (n4, w)) as [[[]| | |] [n5 w5]] eqn:E; try done. intros [= <- <-]. apply drain_grows in E.
  pose proof (request_resend_grows p k n5) as H6. split.
  - etrans; [exact H4|]. etrans; [exact H5|]. by etrans.
  - eapply grows_sent; [exact H6|]. eapply grows_sent; [exact E|]. by eapply grows_sent.
Qed.
Lemma touch_grows p n : grows n (put_enabled p (enabled_of n p) (put_send p (send_of n p) (put_receive p (receive_of n p) n))).
Proof.
  split; [done|]. split; [done|]. split; [|done]. intros q. unfold send_of at 1, put_enabled, put_send, at_key.
  cbn [m_sendBuffer set_enabled set_send set_receive]. destruct (decide (p = q)) as [->|Hne]; [by rewrite lookup_insert_eq|].
  by rewrite lookup_insert_ne.
Qed.
(** a fragment is answered by its acknowledgement *)
Lemma fragment_acks fuel now p hp act seq data n w n' w' : m_peerPlayerIds n !! hp = Some p → m_peerAddresses n !! p = Some hp →
  m_proactiveResendEnabled n = false → data_action act → is_u32 seq →
  onDatagram h fuel now (hp, act :: le4 seq ++ data) (n, w) = (Ok tt, (n', w')) →
  grows n n' ∧ (hp, ACTION_TCP_ACK :: le4 seq) ∈ n_sent n'.
Proof.
  intros Hid Ha Hp (A1 & A2 & A3 & A4 & A5) Hu. unfold onDatagram. rewrite Hid. pose proof (touch_grows p n) as Hg.
  set (n1 := put_enabled _ _ _) in *. unfold ACTION_TCP_DATA. rewrite (proj2 (Z.leb_le _ _)) by lia. rewrite frame_seq by done.
  rewrite !(proj2 (Z.eqb_neq _ _)) by done.
  assert ((length (act :: le4 seq ++ data) <? 5)%nat = false) as -> by (apply Nat.ltb_ge; simpl; lia).
  intros E. pose proof Hg as (G1 & G2 & _). apply (on_data_acks _ _ _ hp) in E as [E1 E2]; [|by rewrite G1|by rewrite G2].
  split; [by etrans|]. rewrite frame_data, app_nil_r in E2 by (unfold ACTION_TCP_ACK; lia). done.
Qed.
(** an acknowledgement takes the fragment out of the send buffer *)
Lemma ack_removes fuel now p hp seq n w : m_peerPlayerIds n !! hp = Some p → is_u32 seq → ∃ n',
  onDatagram h fuel now (hp, ACTION_TCP_ACK :: le4 seq) (n, w) = (Ok tt, (n', w)) ∧
  m_data (send_of n' p) = delete seq (m_data (send_of n p)) ∧ m_proactiveResendEnabled n' = m_proactiveResendEnabled n.
Proof.
  intros Hid Hu. unfold onDatagram. rewrite Hid. pose proof (touch_grows p n) as (_ & G2 & G3 & _). set (n1 := put_enabled _ _ _) in *.
  change (ACTION_TCP_DATA <=? ACTION_TCP_ACK) with true. cbn iota. rewrite <- (app_nil_r (le4 seq)), frame_seq by done.
  rewrite Z.eqb_refl. exists (on_ack p seq n1). split; [done|]. unfold on_ack. destruct (DB_ackData seq (send_of n1 p)) as [b buf] eqn:E.
  unfold DB_ackData in E. injection E as <- <-. set (n2 := put_send _ _ n1).
  assert (m_data (send_of n2 p) = delete seq (m_data (send_of n p))) as H.
  { unfold n2. rewrite put_send_of. cbn [m_data]. by rewrite G3. }
  case_match; done.
Qed.
End Receive.

(** ** A round: timer, fragment, acknowledgement *)
Lemma round {W : Type} (hn hm : Z → Z → bytes → TafnetNode * W → res unit * (TafnetNode * W)) peer hp peer' hp' P Q n m f f' (wn wm : W) :
  handler_ok hm →
  side_ok peer hp Q (received (receive_of m peer')) n P f → side_ok peer' hp' P (received (receive_of n peer)) m Q f' →
  m_proactiveResendEnabled n = false → m_proactiveResendEnabled m = false → m_data (send_of n peer) ≠ ∅ →
  ∃ now d m' wm' ack n',
    (hp, d) ∈ n_sent (onResendTimer now n) ∧ onDatagram hm 0 now (hp', d) (m, wm) = (Ok tt, (m', wm')) ∧
    (hp', ack) ∈ n_sent m' ∧ onDatagram hn 0 now (hp, ack) (onResendTimer now n, wn) = (Ok tt, (n', wn)) ∧
    (size (m_data (send_of n' peer)) < size (m_data (send_of n peer)))%nat ∧ send_of m' peer' = send_of m peer' ∧
    m_proactiveResendEnabled n' = false ∧ m_proactiveResendEnabled m' = false.
Proof.
  intros Hm Hn1 Hm1 Pn Pm Hne. pose proof Hn1 as [[kn [(_ & [Sn _] & In) _]] _]. pose proof Hm1 as [[km [(_ & [Sm _] & Im) _]] _].
  destruct (first_key (m_data (send_of n peer))) as [s|] eqn:Hs; [|by apply first_key_none in Hs].
  pose proof Hs as Hs'. apply first_key_spec in Hs' as [[pl Hpl] _].
  destruct (so_buf _ _ _ _ _ Sn _ _ Hpl) as ([act d] & Hs1 & Hl & Hact & Hbuf). cbn [fst snd] in *.
  pose proof (so_frags _ _ _ _ _ Sn) as Hfr. pose proof (so_small _ _ _ _ _ Sn) as Hsm.
  assert (data_action act) as Hda by (rewrite Forall_lookup in Hfr; exact (Hfr _ _ Hl)).
  assert (is_u32 s) as Hu by (apply lookup_lt_Some in Hl; unfold is_u32; lia).
  set (now := py_timestamp pl + 700).
  pose proof (onResendTimer_sends now peer hp n s pl d (so_addr _ _ _ _ _ Sn) Pn Hs Hpl Hbuf ltac:(unfold now; lia)) as Hsent.
  rewrite Hact, frame_data in Hsent by (destruct Hda; lia).
  destruct (side_deliver hm peer' hp' Hm P _ Hsm Hfr 0 now (act :: le4 s ++ d) m wm Q f' Hm1) as (m' & wm' & E & _).
  { right. left. by exists s, act, d. }
  destruct (fragment_acks hm Hm 0 now peer' hp' act s d m wm m' wm' Im (so_addr _ _ _ _ _ Sm) Pm Hda Hu E) as [(G1 & G2 & G3 & _) Hack].
  pose proof (resend_all_grows now (sorted_keys (m_sendBuffer n)) n) as (R1 & R2 & R3 & _). fold (onResendTimer now n) in R1, R2, R3.
  assert (m_peerPlayerIds (onResendTimer now n) !! hp = Some peer) as In'.
  { destruct (onResendTimer_spec peer hp (received (receive_of m peer')) (received (receive_of n peer)) now P n) as [_ Hrx].
    { destruct Hn1 as [[k [(_ & H & _) _]] _]. exact H. }
    destruct (Hrx peer) as (_ & _ & -> & _). done. }
  destruct (ack_removes hn 0 now peer hp s (onResendTimer now n) wn In' Hu) as (n' & En & Hd & Hp).
  exists now, (act :: le4 s ++ d), m', wm', (ACTION_TCP_ACK :: le4 s), n'. split_and!; try done; [|congruence|congruence].
  rewrite Hd, R3. rewrite map_size_delete, Hpl.
  assert (size (m_data (send_of n peer)) ≠ 0%nat); [|lia]. eapply map_size_ne_0_lookup_2. by exists pl.
Qed.

(** ** Both directions *)
Section World.
Context {W : Type} (ha hb : Z → Z → bytes → TafnetNode * W → res unit * (TafnetNode * W)).
Context (A B : Z) (hpA hpB : HostAndPort) (Ha : handler_ok ha) (Hb : handler_ok hb).
Abbreviation step := (world_step ha hb A B hpA hpB).
Abbreviation reach := (reachable ha hb A B hpA hpB).

Definition once (w : world (W := W)) : Prop :=
  m_proactiveResendEnabled (w_a w).1 = false ∧ m_proactiveResendEnabled (w_b w).1 = false.
Definition pending (w : world (W := W)) : nat :=
  size (m_data (send_of (w_a w).1 B)) + size (m_data (send_of (w_b w).1 A)).
(** nothing is forwarded meanwhile *)
Definition same_program (w w' : world (W := W)) : Prop := w_fa w' = w_fa w ∧ w_fb w' = w_fb w.

Lemma reach_rtc (w w' : world (W := W)) : reach w → rtc step w w' → reach w'.
Proof. intros Hw H. induction H as [|w w1 w2 H1 _ IH]; [done|]. apply IH. by eapply reachable_step. Qed.

Lemma round_a (w : world (W := W)) : reach w → once w → m_data (send_of (w_a w).1 B) ≠ ∅ →
  ∃ w', rtc step w w' ∧ same_program w w' ∧ once w' ∧ (pending w' < pending w)%nat.
Proof.
  intros Hw [Pa Pb] Hne. destruct (reachable_ok ha hb A B hpA hpB Ha Hb w Hw) as (P & Q & H1 & H2).
  destruct w as [[a wa] [b wb] fa fb]. cbn [w_a w_b w_fa w_fb fst] in *.
  destruct (round ha hb B hpB A hpA P Q a b fa fb wa wb Hb H1 H2 Pa Pb Hne) as (now & d & b' & wb' & ack & a' & S1 & E1 & S2 & E2 & Hsz & Hsame & Pa' & Pb').
  exists (mkWorld (a', wa) (b', wb') fa fb). split; [|split; [done|split; [done|]]].
  - apply rtc_l with (mkWorld (onResendTimer now a, wa) (b, wb) fa fb); [apply world_step_a, step_resend_timer|].
    apply rtc_l with (mkWorld (onResendTimer now a, wa) (b', wb') fa fb); [apply world_step_b; by apply (step_deliver _ _ _ _ 0 now d)|].
    apply rtc_once. apply world_step_a. by apply (step_deliver _ _ _ _ 0 now ack).
  - unfold pending. cbn [w_a w_b fst]. rewrite Hsame. lia.
Qed.
Lemma round_b (w : world (W := W)) : reach w → once w → m_data (send_of (w_b w).1 A) ≠ ∅ →
  ∃ w', rtc step w w' ∧ same_program w w' ∧ once w' ∧ (pending w' < pending w)%nat.
Proof.
  intros Hw [Pa Pb] Hne. destruct (reachable_ok ha hb A B hpA hpB Ha Hb w Hw) as (P & Q & H1 & H2).
  destruct w as [[a wa] [b wb] fa fb]. cbn [w_a w_b w_fa w_fb fst] in *.
  destruct (round hb ha A hpA B hpB Q P b a fb fa wb wa Ha H2 H1 Pb Pa Hne) as (now & d & a' & wa' & ack & b' & S1 & E1 & S2 & E2 & Hsz & Hsame & Pb' & Pa').
  exists (mkWorld (a', wa') (b', wb) fa fb). split; [|split; [done|split; [done|]]].
  - apply rtc_l with (mkWorld (a, wa) (onResendTimer now b, wb) fa fb); [apply world_step_b, step_resend_timer|].
    apply rtc_l with (mkWorld (a', wa') (onResendTimer now b, wb) fa fb); [apply world_step_a; by apply (step_deliver _ _ _ _ 0 now d)|].
    apply rtc_once. apply world_step_b. by apply (step_deliver _ _ _ _ 0 now ack).
  - unfold pending. cbn [w_a w_b fst]. rewrite Hsame. lia.
Qed.

Lemma all_delivered (w : world (W := W)) : reach w → m_data (send_of (w_a w).1 B) = ∅ → m_data (send_of (w_b w).1 A) = ∅ →
  handled_from A (w_b w).1 = w_fa w ∧ handled_from B (w_a w).1 = w_fb w.
Proof.
  intros Hw Ea Eb. destruct (reachable_ok ha hb A B hpA hpB Ha Hb w Hw) as (P & Q & H1 & H2).
  split; [by apply (side_delivery _ _ _ _ _ _ _ _ _ _ H1 H2)|by apply (side_delivery _ _ _ _ _ _ _ _ _ _ H2 H1)].
Qed.

(** C2: delivery is always possible.  However many datagrams have been lost, delayed or
    duplicated, every reachable state of two connected nodes without proactive resends
    can be continued, by resend timers and deliveries alone and without the programs
    forwarding anything more, to a state in which both send buffers are empty and each
    node has handled every message that the other has forwarded. *)
Theorem delivery_always_possible (w : world (W := W)) : reach w → once w → ∃ w',
  rtc step w w' ∧ same_program w w' ∧ m_data (send_of (w_a w').1 B) = ∅ ∧ m_data (send_of (w_b w').1 A) = ∅ ∧
  handled_from A (w_b w').1 = w_fa w ∧ handled_from B (w_a w').1 = w_fb w.
Proof.
  remember (pending w) as k eqn:Hk. revert w Hk. induction (lt_wf k) as [k _ IH]. intros w -> Hw Ho.
  assert (∀ w1, rtc step w w1 → same_program w w1 → once w1 → (pending w1 < pending w)%nat → ∃ w',
    rtc step w w' ∧ same_program w w' ∧ m_data (send_of (w_a w').1 B) = ∅ ∧ m_data (send_of (w_b w').1 A) = ∅ ∧
    handled_from A (w_b w').1 = w_fa w ∧ handled_from B (w_a w').1 = w_fb w) as Hgo.
  { intros w1 H1 [S1 S2] H3 H4. destruct (IH _ H4 w1 eq_refl (reach_rtc _ _ Hw H1) H3) as (w' & H5 & [S3 S4] & H6).
    exists w'. rewrite <- S1, <- S2. split; [by etrans|]. split; [split; congruence|]. done. }
  destruct (decide (m_data (send_of (w_a w).1 B) = ∅)) as [Ea|Ea].
  - destruct (decide (m_data (send_of (w_b w).1 A) = ∅)) as [Eb|Eb].
    + exists w. split; [done|]. split; [done|]. split; [done|]. split; [done|]. by apply all_delivered.
    + destruct (round_b w Hw Ho Eb) as (w1 & H1 & H2 & H3 & H4). by apply (Hgo w1).
  - destruct (round_a w Hw Ho Ea) as (w1 & H1 & H2 & H3 & H4). by apply (Hgo w1).
Qed.
End World.

Lemma delivery_always_possible_witness : ∃ w',
  rtc (world_step no_hook no_hook 1 2 run_hpA run_hpB) (run_world 5) w' ∧ handled_from 2 (w_a w').1 = w_fb (run_world 5).
Proof.
  destruct (delivery_always_possible no_hook no_hook 1 2 run_hpA run_hpB no_hook_ok no_hook_ok (run_world 5) run_reachable) as (w' & H1 & _ & _ & _ & _ & H2).
  - split; vm_compute; reflexivity.
  - exists w'. split; [exact H1|exact H2].
Defined.
