(* ===== verification/GameMonitor.v ===== *)
(** * The game monitor (GameMonitor2.cpp): state and operations

    [GameMonitor2] follows a game from the packets that the parser gives it: the players,
    their alliances and teams, the start of the game, deaths, and the result.  The calls
    of the [GameEventHandler] are logged in the state. *)
From S2P Require Import Prelude ExceptState OrderedMaps TPacketCompress TPacketSplit TPacketSmartpak TPacketRecords.

(** ** Data *)
Record PlayerData := mkPlayerData {
  pd_side : Z; pd_name : bytes;
  pd_allies : gset Z;
  pd_battleroomTeamSelection : Z; pd_isWatcher : bool; pd_isAI : bool; pd_slotNumber : Z; pd_isDead : bool;
  pd_tick : Z; pd_dplayid : Z; pd_armyNumber : Z; pd_teamNumber : Z }.
Definition PlayerData_init : PlayerData := mkPlayerData (-1) [] ∅ 5 false false (-1) false 0 0 0 0.

Definition pd_set_id (name : bytes) (dplayid : Z) (p : PlayerData) : PlayerData :=
  mkPlayerData (pd_side p) name (pd_allies p) (pd_battleroomTeamSelection p) (pd_isWatcher p) (pd_isAI p)
    (pd_slotNumber p) (pd_isDead p) (pd_tick p) dplayid (pd_armyNumber p) (pd_teamNumber p).
Definition pd_set_allies (allies : gset Z) (p : PlayerData) : PlayerData :=
  mkPlayerData (pd_side p) (pd_name p) allies (pd_battleroomTeamSelection p) (pd_isWatcher p) (pd_isAI p)
    (pd_slotNumber p) (pd_isDead p) (pd_tick p) (pd_dplayid p) (pd_armyNumber p) (pd_teamNumber p).
Definition pd_set_selection (team : Z) (p : PlayerData) : PlayerData :=
  mkPlayerData (pd_side p) (pd_name p) (pd_allies p) team (pd_isWatcher p) (pd_isAI p)
    (pd_slotNumber p) (pd_isDead p) (pd_tick p) (pd_dplayid p) (pd_armyNumber p) (pd_teamNumber p).
Definition pd_set_side (side : Z) (isWatcher : bool) (p : PlayerData) : PlayerData :=
  mkPlayerData side (pd_name p) (pd_allies p) (pd_battleroomTeamSelection p) isWatcher (pd_isAI p)
    (pd_slotNumber p) (pd_isDead p) (pd_tick p) (pd_dplayid p) (pd_armyNumber p) (pd_teamNumber p).
Definition pd_set_slot (isAI : bool) (slotNumber : Z) (p : PlayerData) : PlayerData :=
  mkPlayerData (pd_side p) (pd_name p) (pd_allies p) (pd_battleroomTeamSelection p) (pd_isWatcher p) isAI
    slotNumber (pd_isDead p) (pd_tick p) (pd_dplayid p) (pd_armyNumber p) (pd_teamNumber p).
Definition pd_set_dead (p : PlayerData) : PlayerData :=
  mkPlayerData (pd_side p) (pd_name p) (pd_allies p) (pd_battleroomTeamSelection p) (pd_isWatcher p) (pd_isAI p)
    (pd_slotNumber p) true (pd_tick p) (pd_dplayid p) (pd_armyNumber p) (pd_teamNumber p).
Definition pd_set_tick (tick : Z) (p : PlayerData) : PlayerData :=
  mkPlayerData (pd_side p) (pd_name p) (pd_allies p) (pd_battleroomTeamSelection p) (pd_isWatcher p) (pd_isAI p)
    (pd_slotNumber p) (pd_isDead p) tick (pd_dplayid p) (pd_armyNumber p) (pd_teamNumber p).
Definition pd_set_army (army team : Z) (p : PlayerData) : PlayerData :=
  mkPlayerData (pd_side p) (pd_name p) (pd_allies p) (pd_battleroomTeamSelection p) (pd_isWatcher p) (pd_isAI p)
    (pd_slotNumber p) (pd_isDead p) (pd_tick p) (pd_dplayid p) army team.

Abbreviation Players := (gmap Z PlayerData).

Inductive Status : Set := NOT_READY | VOID_RESULT | READY_RESULT.
#[export] Instance Status_eq_dec : EqDecision Status.
Proof. solve_decision. Defined.
Record ArmyResult := mkArmyResult {
  ar_army : Z; ar_slot : Z; ar_alias : bytes; ar_realName : bytes; ar_team : Z; ar_score : Z }.
Record GameResult := mkGameResult { gr_status : Status; gr_results : list ArmyResult; gr_endGameTick : Z }.
Definition GameResult_init : GameResult := mkGameResult NOT_READY [] 0.

(** the calls of [GameEventHandler] *)
Inductive game_event : Type :=
  | onGameSettings (mapName : bytes) (maxUnits : Z) (hostName localName : bytes)
  | onPlayerStatus (p : PlayerData) (mutualAllies : gset bytes)
  | onClearSlot (p : PlayerData)
  | onGameStarted (tick : Z) (teamsFrozen : bool)
  | onGameEnded (r : GameResult)
  | onChatEvent (msg : bytes) (isLocalPlayerSource : bool).

Record GameMonitor2 := mkMonitor {
  m_hostPlayerName : bytes; m_localPlayerName : bytes;
  m_gameStartsAfterTickCount : Z; m_drawGameTicks : Z;
  m_hostDplayId : Z; m_localDplayId : Z;
  m_gameLaunched : bool; m_gameStarted : bool; m_cheatsEnabled : bool; m_suspiciousStatus : bool;
  m_mapName : bytes; m_maxUnits : Z;
  m_players : Players; m_frozenPlayers : Players;
  m_playerRealNames : gmap bytes bytes;
  m_gameResult : GameResult;
  m_gameEventHandler : bool;              (* it is not null *)
  gm_events : list game_event }.
(** [m_maxUnits] has no initialiser *)
Definition GameMonitor2_make (handler : bool) (gameStartsAfterTickCount drawGameTicks junk : Z) : GameMonitor2 :=
  mkMonitor [] [] gameStartsAfterTickCount drawGameTicks 0 0 false false false false [] junk ∅ ∅ ∅
    GameResult_init handler [].

Definition set_names (host localName : bytes) (g : GameMonitor2) : GameMonitor2 :=
  mkMonitor host localName (m_gameStartsAfterTickCount g) (m_drawGameTicks g) (m_hostDplayId g) (m_localDplayId g)
    (m_gameLaunched g) (m_gameStarted g) (m_cheatsEnabled g) (m_suspiciousStatus g) (m_mapName g) (m_maxUnits g)
    (m_players g) (m_frozenPlayers g) (m_playerRealNames g) (m_gameResult g) (m_gameEventHandler g) (gm_events g).
Definition set_ids (host localId : Z) (g : GameMonitor2) : GameMonitor2 :=
  mkMonitor (m_hostPlayerName g) (m_localPlayerName g) (m_gameStartsAfterTickCount g) (m_drawGameTicks g) host localId
    (m_gameLaunched g) (m_gameStarted g) (m_cheatsEnabled g) (m_suspiciousStatus g) (m_mapName g) (m_maxUnits g)
    (m_players g) (m_frozenPlayers g) (m_playerRealNames g) (m_gameResult g) (m_gameEventHandler g) (gm_events g).
Definition set_launched (launched started : bool) (g : GameMonitor2) : GameMonitor2 :=
  mkMonitor (m_hostPlayerName g) (m_localPlayerName g) (m_gameStartsAfterTickCount g) (m_drawGameTicks g)
    (m_hostDplayId g) (m_localDplayId g) launched started (m_cheatsEnabled g) (m_suspiciousStatus g) (m_mapName g)
    (m_maxUnits g) (m_players g) (m_frozenPlayers g) (m_playerRealNames g) (m_gameResult g) (m_gameEventHandler g) (gm_events g).
Definition set_map (mapName : bytes) (maxUnits : Z) (g : GameMonitor2) : GameMonitor2 :=
  mkMonitor (m_hostPlayerName g) (m_localPlayerName g) (m_gameStartsAfterTickCount g) (m_drawGameTicks g)
    (m_hostDplayId g) (m_localDplayId g) (m_gameLaunched g) (m_gameStarted g) (m_cheatsEnabled g) (m_suspiciousStatus g)
    mapName maxUnits (m_players g) (m_frozenPlayers g) (m_playerRealNames g) (m_gameResult g) (m_gameEventHandler g) (gm_events g).
Definition set_players (players : Players) (g : GameMonitor2) : GameMonitor2 :=
  mkMonitor (m_hostPlayerName g) (m_localPlayerName g) (m_gameStartsAfterTickCount g) (m_drawGameTicks g)
    (m_hostDplayId g) (m_localDplayId g) (m_gameLaunched g) (m_gameStarted g) (m_cheatsEnabled g) (m_suspiciousStatus g)
    (m_mapName g) (m_maxUnits g) players (m_frozenPlayers g) (m_playerRealNames g) (m_gameResult g) (m_gameEventHandler g) (gm_events g).
Definition set_frozen (frozen : Players) (g : GameMonitor2) : GameMonitor2 :=
  mkMonitor (m_hostPlayerName g) (m_localPlayerName g) (m_gameStartsAfterTickCount g) (m_drawGameTicks g)
    (m_hostDplayId g) (m_localDplayId g) (m_gameLaunched g) (m_gameStarted g) (m_cheatsEnabled g) (m_suspiciousStatus g)
    (m_mapName g) (m_maxUnits g) (m_players g) frozen (m_playerRealNames g) (m_gameResult g) (m_gameEventHandler g) (gm_events g).
Definition set_realNames (names : gmap bytes bytes) (g : GameMonitor2) : GameMonitor2 :=
  mkMonitor (m_hostPlayerName g) (m_localPlayerName g) (m_gameStartsAfterTickCount g) (m_drawGameTicks g)
    (m_hostDplayId g) (m_localDplayId g) (m_gameLaunched g) (m_gameStarted g) (m_cheatsEnabled g) (m_suspiciousStatus g)
    (m_mapName g) (m_maxUnits g) (m_players g) (m_frozenPlayers g) names (m_gameResult g) (m_gameEventHandler g) (gm_events g).
Definition set_result (r : GameResult) (g : GameMonitor2) : GameMonitor2 :=
  mkMonitor (m_hostPlayerName g) (m_localPlayerName g) (m_gameStartsAfterTickCount g) (m_drawGameTicks g)
    (m_hostDplayId g) (m_localDplayId g) (m_gameLaunched g) (m_gameStarted g) (m_cheatsEnabled g) (m_suspiciousStatus g)
    (m_mapName g) (m_maxUnits g) (m_players g) (m_frozenPlayers g) (m_playerRealNames g) r (m_gameEventHandler g) (gm_events g).
Definition add_game_event (e : game_event) (g : GameMonitor2) : GameMonitor2 :=
  mkMonitor (m_hostPlayerName g) (m_localPlayerName g) (m_gameStartsAfterTickCount g) (m_drawGameTicks g)
    (m_hostDplayId g) (m_localDplayId g) (m_gameLaunched g) (m_gameStarted g) (m_cheatsEnabled g) (m_suspiciousStatus g)
    (m_mapName g) (m_maxUnits g) (m_players g) (m_frozenPlayers g) (m_playerRealNames g) (m_gameResult g)
    (m_gameEventHandler g) (gm_events g ++ [e]).

(** ** The methods, over the state and its exceptions *)
Abbreviation gm := (stx GameMonitor2).
(** [m_gameEventHandler->f(...)], and [if (m_gameEventHandler) m_gameEventHandler->f(...)] *)
Definition notify (e : game_event) : gm unit := λ g,
  if m_gameEventHandler g then (Ok tt, add_game_event e g) else (Undef, g).
Definition notify_if (e : game_event) : gm unit := λ g,
  if m_gameEventHandler g then (Ok tt, add_game_event e g) else (Ok tt, g).
(** [players.at(id)] *)
Definition at_ {A} (m : gmap Z A) (id : Z) : res A := match m !! id with Some p => Ok p | None => Throw OutOfRange end.
Definition update_player (id : Z) (f : PlayerData → PlayerData) (g : GameMonitor2) : GameMonitor2 :=
  set_players (<[id := f (at_key PlayerData_init (m_players g) id)]> (m_players g)) g.

(** ** Queries *)
Definition isGameOver (g : GameMonitor2) : bool := negb (bool_decide (gr_status (m_gameResult g) = NOT_READY)).
Definition set_elems (s : gset Z) : list Z := merge_sort Z.le (elements s).
(** the players in the order of the map *)
Definition in_map_order (ps : Players) : list PlayerData := omap (λ k, ps !! k) (sorted_keys ps).
Definition getPlayerNames (queryIsPlayer queryIsWatcher : bool) (ps : Players) : gset bytes :=
  list_to_set (pd_name <$> filter (λ p, (negb (pd_isWatcher p) && queryIsPlayer) || (pd_isWatcher p && queryIsWatcher)) (in_map_order ps)).
(** 0 if there is no such player *)
Definition getPlayerDpidByName (name : bytes) (ps : Players) : Z :=
  match list_find (λ p, pd_name p = name) (in_map_order ps) with Some (_, p) => pd_dplayid p | None => 0 end.
Definition getPlayerData (name : bytes) (g : GameMonitor2) : res PlayerData :=
  at_ (m_players g) (getPlayerDpidByName name (m_players g)).
Definition getActivePlayers (ps : Players) : gset Z :=
  list_to_set (pd_dplayid <$> filter (λ p, negb (pd_isDead p) && negb (pd_isWatcher p)) (in_map_order ps)).
Definition getMostRecentGameTick (ps : Players) : Z :=
  foldl (λ tick p, if tick <? pd_tick p then pd_tick p else tick) 0 (in_map_order ps).
(** whether a set of players are all allied *)
Fixpoint isAllied_with (ps : Players) (m : Z) (ids : list Z) : res bool :=
  match ids with
  | [] => Ok true
  | n :: ids =>
      if m =? n then isAllied_with ps m ids
      else p ← at_ ps m; if bool_decide (n ∈ pd_allies p) then isAllied_with ps m ids else Ok false
  end.
Fixpoint isAllied_loop (ps : Players) (ids all : list Z) : res bool :=
  match ids with
  | [] => Ok true
  | m :: ids => ok ← isAllied_with ps m all; if ok : bool then isAllied_loop ps ids all else Ok false
  end.
Definition isAllied (playerIds : gset Z) (ps : Players) : res bool := isAllied_loop ps (set_elems playerIds) (set_elems playerIds).

Fixpoint mutualAllies_loop (ps : Players) (player : PlayerData) (ids : list Z) : res (gset Z) :=
  match ids with
  | [] => Ok ∅
  | otherId :: ids =>
      other ← at_ ps otherId;
      rest ← mutualAllies_loop ps player ids;
      Ok (if bool_decide (pd_dplayid player ∈ pd_allies other) then {[pd_dplayid other]} ∪ rest else rest)
  end.
Definition getMutualAllies (playerId : Z) (ps : Players) : res (gset Z) :=
  player ← at_ ps playerId; mutualAllies_loop ps player (set_elems (pd_allies player)).
Fixpoint names_loop (ps : Players) (ids : list Z) : res (gset bytes) :=
  match ids with
  | [] => Ok ∅
  | id :: ids => p ← at_ ps id; rest ← names_loop ps ids; Ok ({[pd_name p]} ∪ rest)
  end.
(** the allies are those of [playerData], the names those of [m_players] *)
Definition getMutualAllyNames (playerId : Z) (playerData players : Players) : res (gset bytes) :=
  ids ← getMutualAllies playerId playerData; names_loop players (set_elems ids).

(** ** Armies and teams *)
Definition by_dplayid (a b : Z * PlayerData) : Prop := pd_dplayid a.2 ≤ pd_dplayid b.2.
#[export] Instance by_dplayid_dec a b : Decision (by_dplayid a b).
Proof. unfold by_dplayid. apply _. Defined.

(** [for (allynumber : mutualAllies)] *)
Fixpoint team_loop (teamCount : Z) (ids : list Z) (ps : Players) : res Players :=
  match ids with
  | [] => Ok ps
  | id :: ids =>
      p ← at_ ps id;
      team_loop teamCount ids
        (if (pd_teamNumber p =? 0) && negb (pd_isWatcher p) && negb (pd_isDead p)
         then <[id := pd_set_army (pd_armyNumber p) teamCount p]> ps else ps)
  end.
(** [for (sortedPlayer : sortedPlayers)]; the pointers are keys of the map *)
Fixpoint army_loop (keys : list Z) (teamCount armyCount : Z) (ps : Players) : res Players * Players :=
  match keys with
  | [] => (Ok ps, ps)
  | k :: keys =>
      let p := at_key PlayerData_init ps k in
      if pd_isWatcher p || pd_isDead p then army_loop keys teamCount armyCount ps
      else
        let ps := <[k := pd_set_army (armyCount + 1) (pd_teamNumber p) p]> ps in
        if pd_teamNumber p =? 0 then
          match getMutualAllies (pd_dplayid p) ps ≫= λ ids, team_loop (teamCount + 1) (set_elems ({[pd_dplayid p]} ∪ ids)) ps with
          | Ok ps => army_loop keys (teamCount + 1) (armyCount + 1) ps
          | e => (e, ps)
          end
        else army_loop keys teamCount (armyCount + 1) ps
  end.
Definition sortedPlayers (ps : Players) : list Z := (merge_sort by_dplayid (map_to_list ps)).*1.
Definition updatePlayerArmies : gm unit := λ g,
  let ps := pd_set_army 0 0 <$> m_players g in
  match army_loop (sortedPlayers ps) 1 0 ps with
  | (Ok ps, _) => (Ok tt, set_players ps g)
  | (Throw e, ps) => (Throw e, set_players ps g)
  | (Undef, ps) => (Undef, set_players ps g)
  | (Hang, ps) => (Hang, set_players ps g)
  end.

Definition slot_used (ps : list PlayerData) (n : Z) : bool := existsb (λ p, (0 <=? pd_side p) && (pd_slotNumber p =? n)) ps.
Definition empty_slot (n : Z) : PlayerData :=
  mkPlayerData (-1) [] ∅ 5 false false n false 0 0 0 0.
Definition ten_slots : list Z := [0; 1; 2; 3; 4; 5; 6; 7; 8; 9].
Definition notifyPlayerStatuses : gm unit :=
  handler ← gets m_gameEventHandler;
  when handler (
    ps ← gets m_players;
    for_each (sorted_keys ps) (λ k,
      let p := at_key PlayerData_init ps k in
      when (0 <=? pd_side p) (names ← lift (getMutualAllyNames k ps ps); notify (onPlayerStatus p names))) ≫= λ _,
    for_each ten_slots (λ n, when (negb (slot_used (in_map_order ps) n)) (notify (onClearSlot (empty_slot n))))).

(** ** The end of the game *)

(** [Some team]: all of them are on one team *)
Fixpoint same_team (ps : Players) (team : Z) (ids : list Z) : res bool :=
  match ids with
  | [] => Ok true
  | id :: ids => p ← at_ ps id; if pd_teamNumber p =? team then same_team ps team ids else Ok false
  end.
(** [*playerIds.begin()] of an empty set is not defined *)
Definition isPlayersAllAllied (playerIds : gset Z) (playerData : Players) : res (option Z) :=
  match set_elems playerIds with
  | [] => Undef
  | id :: ids =>
      first ← at_ playerData id;
      same ← same_team playerData (pd_teamNumber first) (id :: ids);
      Ok (if same : bool then Some (pd_teamNumber first) else None)
  end.
(** [Some w]: the condition holds, and [w] is the winning team, 0 for a forced draw, -1
    for a mutual draw *)
Definition checkEndGameCondition (g : GameMonitor2) : res (option Z) :=
  if negb (m_gameStarted g) then Ok None
  else
    let activePlayers := getActivePlayers (m_players g) in
    if bool_decide (activePlayers = ∅) then Ok (Some 0)
    else
      frozen ← isPlayersAllAllied activePlayers (m_frozenPlayers g);
      match frozen with
      | Some team => Ok (Some team)
      | None =>
          now ← isPlayersAllAllied activePlayers (m_players g);
          Ok (match now with Some _ => Some (-1) | None => None end)
      end.

Definition latchEndGameTick (endGameTick : Z) : gm unit := modify (λ g,
  let r := m_gameResult g in
  if gr_endGameTick r =? 0
  then set_result (mkGameResult (gr_status r) (gr_results r) (if endGameTick =? 0 then 1 else endGameTick)) g
  else g).

Definition army_result (winningTeamNumber : Z) (realNames : gmap bytes bytes) (p : PlayerData) : option ArmyResult :=
  if (pd_armyNumber p =? 0) || (pd_teamNumber p =? 0) || pd_isWatcher p then None
  else Some (mkArmyResult (pd_armyNumber p) (pd_slotNumber p) (pd_name p) (default [] (realNames !! pd_name p))
               (pd_teamNumber p)
               (if 0 <? winningTeamNumber then (if pd_teamNumber p =? winningTeamNumber then 1 else -1) else 0)).
(** [m_playerRealNames[name]] makes an empty entry for a name without one *)
Definition touch_names (ps : list PlayerData) (names : gmap bytes bytes) : gmap bytes bytes :=
  foldl (λ names p, if (pd_armyNumber p =? 0) || (pd_teamNumber p =? 0) || pd_isWatcher p then names
                    else <[pd_name p := default [] (names !! pd_name p)]> names) names ps.
Definition latchEndGameResult (winningTeamNumber : Z) : gm unit :=
  g ← gets id;
  if isGameOver g then mret tt
  else
    let tick := getMostRecentGameTick (m_players g) in
    if winningTeamNumber <? 0 then modify (set_result (mkGameResult VOID_RESULT [] tick))
    else
      let frozen := in_map_order (m_frozenPlayers g) in
      let results := omap (army_result winningTeamNumber (m_playerRealNames g)) frozen in
      let r := mkGameResult (match results with [] => VOID_RESULT | _ => READY_RESULT end) results tick in
      modify (λ g, set_result r (set_realNames (touch_names frozen (m_playerRealNames g)) g)) ≫= λ _, notify_if (onGameEnded r).

(** ** Alliances by chat *)
Definition find_first_of (c : Z) (s : bytes) : option nat := fst <$> list_find (λ b, b = c) s.
Definition find_last_of (c : Z) (s : bytes) : option nat :=
  match list_find (λ b, b = c) (reverse s) with Some (i, _) => Some (length s - 1 - i)%nat | None => None end.
Definition allied_with : bytes := [62; 32; 32; 97; 108; 108; 105; 101; 100; 32; 119; 105; 116; 104; 32].
Definition broke_alliance_with : bytes :=
  [62; 32; 32; 98; 114; 111; 107; 101; 32; 97; 108; 108; 105; 97; 110; 99; 101; 32; 119; 105; 116; 104; 32].
Definition chat_sender (sender : Z) (chat : bytes) (ps : Players) : Z :=
  if sender =? 0 then
    match find_first_of 60 chat, find_first_of 62 chat with
    | Some O, Some e => if (1 <? e)%nat then getPlayerDpidByName (take (e - 1) (drop 1 chat)) ps else 0
    | _, _ => 0
    end
  else sender.
(** the new alliances of the sender, when the message is about one of his *)
Definition updateAlliances (sender : Z) (chat : bytes) : gm bool :=
  ps ← gets m_players;
  let sender := chat_sender sender chat ps in
  if sender =? 0 then mret false
  else
    match find_last_of 32 chat with
    | Some lastWordStart =>
        if (1 + lastWordStart <? length chat)%nat then
          let lastWord := drop (1 + lastWordStart) chat in
          let player2 := getPlayerDpidByName lastWord ps in
          if (player2 =? 0) || (player2 =? sender) then mret false
          else
            modify (update_player sender id) ≫= λ _,
            let p := at_key PlayerData_init ps sender in
            if bool_decide (chat = [60] ++ pd_name p ++ allied_with ++ lastWord)
            then modify (update_player sender (λ p, pd_set_allies ({[player2]} ∪ pd_allies p) p)) ≫= λ _, mret true
            else if bool_decide (chat = [60] ++ pd_name p ++ broke_alliance_with ++ lastWord)
            then modify (update_player sender (λ p, pd_set_allies (pd_allies p ∖ {[player2]}) p)) ≫= λ _, mret true
            else mret false
        else mret false
    | None => mret false
    end.

(** ** Handlers *)
Definition setHostPlayerName (name : bytes) : gm unit := modify (λ g, set_names name (m_localPlayerName g) g).
Definition setLocalPlayerName (name : bytes) : gm unit := modify (λ g, set_names (m_hostPlayerName g) name g).
Definition setPlayerRealName (name realName : bytes) : gm unit :=
  modify (λ g, set_realNames (<[name := realName]> (m_playerRealNames g)) g).
Definition reset : gm unit := modify (λ g,
  mkMonitor (m_hostPlayerName g) (m_localPlayerName g) (m_gameStartsAfterTickCount g) (m_drawGameTicks g)
    (m_hostDplayId g) (m_localDplayId g) (m_gameLaunched g) false false false [] (m_maxUnits g) ∅ (m_frozenPlayers g)
    (m_playerRealNames g) GameResult_init (m_gameEventHandler g) (gm_events g)).

(** what the two announcements of a player share *)
Definition announce_player (dplayId : Z) (name : bytes) : gm unit :=
  modify (update_player dplayId (pd_set_id name dplayId)) ≫= λ _,
  g ← gets id;
  if bool_decide (m_hostPlayerName g = []) then lift (Throw RuntimeError)
  else
    when (bool_decide (name = m_hostPlayerName g)) (modify (λ g, set_ids dplayId (m_localDplayId g) g)) ≫= λ _,
    if bool_decide (m_localPlayerName g = []) then lift (Throw RuntimeError)
    else
      when (bool_decide (name = m_localPlayerName g)) (modify (λ g, set_ids (m_hostDplayId g) dplayId g)) ≫= λ _,
      updatePlayerArmies.
Definition onDplaySuperEnumPlayerReply (dplayId : Z) (name : bytes) : gm unit :=
  g ← gets id;
  when (negb (m_gameStarted g) && negb (bool_decide (name = [])) && (0 <? dplayId)) (announce_player dplayId name).
Definition onDplayCreateOrForwardPlayer (command dplayId : Z) (name : bytes) : gm unit :=
  g ← gets id;
  when ((command =? 8) && negb (m_gameStarted g) && negb (bool_decide (name = [])) && (0 <? dplayId)) (announce_player dplayId name).

(** a player leaves before the game has started; the handler is not checked for null *)
Definition remove_player (dplayId : Z) : gm unit :=
  g ← gets id;
  player ← lift (at_ (m_players g) dplayId);
  notify (onClearSlot player) ≫= λ _,
  modify (λ g, set_players ((λ p, pd_set_allies (pd_allies p ∖ {[dplayId]}) p) <$> delete dplayId (m_players g)) g) ≫= λ _,
  updatePlayerArmies ≫= λ _, notifyPlayerStatuses.
Definition known (id : Z) (g : GameMonitor2) : bool := bool_decide (is_Some (m_players g !! id)).
(** [if (checkEndGameCondition(w)) latchEndGameResult(w)] *)
Definition latch_if_ended : gm unit :=
  g ← gets id; ended ← lift (checkEndGameCondition g);
  match ended with Some w => latchEndGameResult w | None => mret tt end.
Definition onDplayDeletePlayer (dplayId : Z) : gm unit :=
  g ← gets id;
  if (dplayId =? 0) || negb (known dplayId g) then mret tt
  else if negb (m_gameStarted g) then remove_player dplayId
  else latch_if_ended.

Definition onStatus (source : Z) (mapName : bytes) (maxUnits slotNumber side : Z) (isWatcher isAI : bool) : gm unit :=
  g ← gets id;
  if negb (known source g) || m_gameStarted g then mret tt
  else
    modify (update_player source (pd_set_slot isAI slotNumber)) ≫= λ _,
    let player := at_key PlayerData_init (m_players g) source in
    when ((pd_side player <? 0) || negb (eqb (pd_isWatcher player) isWatcher) || negb (pd_side player =? side))
      (modify (update_player source (pd_set_side side isWatcher)) ≫= λ _,
       updatePlayerArmies ≫= λ _, notifyPlayerStatuses) ≫= λ _,
    when ((source =? m_hostDplayId g) && negb (bool_decide (mapName = [])) && (0 <? maxUnits) && negb (bool_decide (m_mapName g = mapName)))
      (modify (set_map mapName maxUnits) ≫= λ _,
       notify_if (onGameSettings mapName maxUnits (m_hostPlayerName g) (m_localPlayerName g))).

(** alliances have changed: teams are worked out again, and a mutual draw is latched *)
Definition alliances_changed : gm unit :=
  updatePlayerArmies ≫= λ _,
  g ← gets id;
  when (negb (m_gameStarted g)) notifyPlayerStatuses ≫= λ _,
  g ← gets id;
  ended ← lift (checkEndGameCondition g);
  match ended with Some w => when (w <? 0) (latchEndGameResult w) | None => mret tt end.
Definition onChat (source : Z) (chat : bytes) : gm unit :=
  g ← gets id;
  if negb (known source g) then mret tt
  else
    notify_if (onChatEvent chat (source =? m_localDplayId g)) ≫= λ _,
    updated ← updateAlliances source chat;
    when updated alliances_changed.
Definition onAlliance (subject object : Z) (isAllied : bool) : gm unit :=
  g ← gets id;
  if negb (known subject g) || negb (known object g) then mret tt
  else
    let allies := pd_allies (at_key PlayerData_init (m_players g) subject) in
    modify (update_player subject (pd_set_allies (if isAllied then {[object]} ∪ allies else allies ∖ {[object]}))) ≫= λ _,
    when (negb (eqb (bool_decide (object ∈ allies)) isAllied)) alliances_changed.

(** the body of the loop of [onTeamSelection] for the player filed under [k]; the subject
    is filed under [from] *)
Definition select_one (from teamNumber : Z) (acc : Players * bool) (k : Z) : Players * bool :=
  let '(ps, anyAllianceChange) := acc in
  let subject := at_key PlayerData_init ps from in
  let object := at_key PlayerData_init ps k in
  if pd_dplayid object =? from then acc
  else
    let wasAlliedAB := bool_decide (pd_dplayid object ∈ pd_allies subject) in
    let wasAlliedBA := bool_decide (pd_dplayid subject ∈ pd_allies object) in
    let nowAllied := (teamNumber <? 5) && (teamNumber =? pd_battleroomTeamSelection object) in
    if nowAllied then
      let ps := <[from := pd_set_allies ({[pd_dplayid object]} ∪ pd_allies subject) subject]> ps in
      let object := at_key PlayerData_init ps k in
      (<[k := pd_set_allies ({[pd_dplayid subject]} ∪ pd_allies object) object]> ps,
       anyAllianceChange || negb wasAlliedAB || negb wasAlliedBA)
    else
      let ps := <[from := pd_set_allies (pd_allies subject ∖ {[pd_dplayid object]}) subject]> ps in
      let object := at_key PlayerData_init ps k in
      (<[k := pd_set_allies (pd_allies object ∖ {[pd_dplayid subject]}) object]> ps,
       anyAllianceChange || wasAlliedAB || wasAlliedBA).
Definition onTeamSelection (from teamNumber : Z) : gm unit :=
  g ← gets id;
  if negb (known from g) then mret tt
  else
    modify (update_player from (pd_set_selection teamNumber)) ≫= λ _,
    ps ← gets m_players;
    let '(ps, anyAllianceChange) := foldl (select_one from teamNumber) (ps, false) (sorted_keys ps) in
    modify (set_players ps) ≫= λ _,
    when anyAllianceChange alliances_changed.

(** [unitId % m_maxUnits], the remainder by a number that nobody may have set *)
Definition onUnitDied (source unitId : Z) : gm unit :=
  g ← gets id;
  if negb (known source g) then mret tt
  else if m_maxUnits g =? 0 then lift Undef
  else if unitId mod m_maxUnits g =? 1 then
    modify (update_player source pd_set_dead) ≫= λ _,
    g ← gets id;
    ended ← lift (checkEndGameCondition g);
    match ended with
    | Some w =>
        if 0 <? w then latchEndGameTick (u32 (getMostRecentGameTick (m_players g) + m_drawGameTicks g))
        else latchEndGameResult w
    | None => mret tt
    end
  else mret tt.

Definition onRejectOther (source rejected : Z) : gm unit :=
  g ← gets id;
  if negb (known source g) || negb (known rejected g) then mret tt
  else if negb (m_gameStarted g) then remove_player rejected
  else modify (update_player rejected pd_set_dead) ≫= λ _, latch_if_ended.

Definition start_game (tick : Z) : gm unit :=
  modify (λ g, set_launched (m_gameLaunched g) true (set_frozen (m_players g) g)) ≫= λ _,
  notifyPlayerStatuses ≫= λ _,
  notify_if (onGameStarted tick true) ≫= λ _,
  g ← gets id;
  ended ← lift (checkEndGameCondition g);
  match ended with Some _ => latchEndGameResult (-1) | None => mret tt end.
Definition onGameTick (source tick : Z) : gm unit :=
  g ← gets id;
  if negb (known source g) then mret tt
  else
    when (negb (m_gameLaunched g))
      (modify (λ g, set_launched true (m_gameStarted g) g) ≫= λ _, notify_if (onGameStarted tick false)) ≫= λ _,
    when (negb (m_gameStarted g) && (m_gameStartsAfterTickCount g <? tick)) (start_game tick) ≫= λ _,
    modify (λ g, if 0 <? s32 (tick - pd_tick (at_key PlayerData_init (m_players g) source))
                 then update_player source (pd_set_tick tick) g else g) ≫= λ _,
    g ← gets id;
    let endGameTick := gr_endGameTick (m_gameResult g) in
    when ((0 <? endGameTick) && (0 <=? s32 (getMostRecentGameTick (m_players g) - endGameTick))) latch_if_ended.

(** ** The packets *)

(** [junk] is the byte that a short [PLAYER_INFO_20] leaves uninitialised *)
Definition onSubPacket (junk source : Z) (s : bytes) : gm unit :=
  code ← lift (rd8 s 0);
  match SubPacketCode_of code with
  | Some PLAYER_INFO_20 =>
      playerInfo ← lift (TPlayerInfo_parse junk s);
      mapName ← lift (getMapName playerInfo);
      when (getSlotNumber playerInfo <? 10)
        (onStatus source mapName (pi_maxUnits playerInfo) (getSlotNumber playerInfo) (getSide playerInfo)
           (isWatcher playerInfo) (isAI playerInfo))
  | Some ALLY_23 =>
      alliance ← lift (TAlliance_parse s);
      onAlliance (al_dpidFrom alliance) (al_dpidTo alliance) (negb (al_alliedFromWithTo alliance =? 0))
  | Some TEAM_24 => team ← lift (TTeam_parse s); onTeamSelection (tm_dpidFrom team) (tm_teamNumber team)
  | Some CHAT_05 => onChat source (c_str (drop 1 s))
  | Some UNIT_KILLED_0C => unitId ← lift (rd16 s 1); onUnitDied source unitId
  | Some REJECT_1B => rejected ← lift (rd32 s 1); onRejectOther source rejected
  | Some UNIT_STAT_AND_MOVE_2C => tick ← lift (rd32 s 3); onGameTick source tick
  | _ => mret tt
  end.
Definition onTaPacket (junk source : Z) (subpaks : list bytes) : gm unit := for_each subpaks (onSubPacket junk source).
