(* ===== verification/GameMonitorTeams.v ===== *)
(** * Teams and armies of the game monitor

    [updatePlayerArmies] fails on no well-formed set of players, gives every active
    player an army and a team, and, when mutual alliance is transitive, makes the teams
    its classes. *)
From S2P Require Import Prelude ExceptState OrderedMaps TPacketCompress TPacketSplit TPacketSmartpak TPacketRecords GameMonitor.

(** players are filed under their id, and their allies exist *)
Definition players_ok (ps : Players) : Prop := ∀ k p, ps !! k = Some p →
  pd_dplayid p = k ∧ 0 < k ∧ ∀ a, a ∈ pd_allies p → is_Some (ps !! a).
Definition active (p : PlayerData) : Prop := pd_isWatcher p = false ∧ pd_isDead p = false.
(** every active player has an army and a team *)
Definition placed (p : PlayerData) : Prop := 0 < pd_armyNumber p ∧ 0 < pd_teamNumber p.
Definition armies_ok (ps : Players) : Prop := ∀ k p, ps !! k = Some p → active p → placed p.
(** the two differ in armies and teams only *)
Definition erased (p : PlayerData) : PlayerData := pd_set_army 0 0 p.
Definition same_players (ps ps' : Players) : Prop := ∀ k, erased <$> ps' !! k = erased <$> ps !! k.

#[export] Instance same_players_equiv : Equivalence same_players.
Proof.
  split; [by intros ps k|intros ps ps' H k; symmetry; apply H|]. intros p1 p2 p3 H1 H2 k. by rewrite H2, H1.
Qed.

Lemma erased_fields p q : erased p = erased q → pd_dplayid p = pd_dplayid q ∧ pd_allies p = pd_allies q ∧
  pd_isWatcher p = pd_isWatcher q ∧ pd_isDead p = pd_isDead q ∧ pd_name p = pd_name q ∧ pd_tick p = pd_tick q ∧
  pd_slotNumber p = pd_slotNumber q ∧ pd_side p = pd_side q.
Proof. destruct p, q. unfold erased, pd_set_army. cbn. intros [=]; subst. done. Qed.

Lemma same_players_lookup ps ps' k p' : same_players ps ps' → ps' !! k = Some p' →
  ∃ p, ps !! k = Some p ∧ erased p' = erased p.
Proof.
  intros H Hk. specialize (H k). rewrite Hk in H. destruct (ps !! k) as [p|]; [|done].
  exists p. split; [done|]. by apply (inj Some) in H.
Qed.
Lemma same_players_dom ps ps' k : same_players ps ps' → is_Some (ps' !! k) ↔ is_Some (ps !! k).
Proof. intros H. specialize (H k). rewrite <- (fmap_is_Some erased (ps' !! k)), H. apply fmap_is_Some. Qed.
Lemma players_ok_same ps ps' : same_players ps ps' → players_ok ps → players_ok ps'.
Proof.
  intros H Hok k p' Hk. destruct (same_players_lookup _ _ _ _ H Hk) as (p & Hp & He).
  apply erased_fields in He as (-> & -> & _). destruct (Hok _ _ Hp) as (H1 & H2 & H3).
  split; [done|]. split; [done|]. intros a Ha. by apply (same_players_dom _ _ _ H), H3.
Qed.

(** ** The loops *)
Lemma elem_of_set_elems (s : gset Z) k : k ∈ set_elems s ↔ k ∈ s.
Proof. unfold set_elems. by rewrite merge_sort_Permutation, elem_of_elements. Qed.

Lemma mutualAllies_loop_spec ps player ids : players_ok ps → (∀ a, a ∈ ids → is_Some (ps !! a)) → ∃ s,
  mutualAllies_loop ps player ids = Ok s ∧
  ∀ a, a ∈ s ↔ a ∈ ids ∧ ∃ p, ps !! a = Some p ∧ pd_dplayid player ∈ pd_allies p.
Proof.
  intros Hok. induction ids as [|i ids IH]; intros Hids; cbn [mutualAllies_loop].
  - exists ∅. split; [done|]. intros a. split; [set_solver|]. intros [H _]. by apply elem_of_nil in H.
  - destruct (Hids i ltac:(by left)) as [p Hp]. unfold at_. rewrite Hp, res_bind_ok.
    destruct IH as (s & -> & Hs); [intros a Ha; apply Hids; by right|]. rewrite res_bind_ok. eexists. split; [done|].
    intros a. rewrite elem_of_cons. destruct (Hok _ _ Hp) as [Hid _]. case_bool_decide as Hd.
    + rewrite elem_of_union, elem_of_singleton, Hid, Hs. split.
      * intros [->|[H1 H2]]; [split; [by left|by exists p]|]. split; [by right|done].
      * intros [[->|H1] H2]; [by left|by right].
    + rewrite Hs. split; [intros [H1 H2]; split; [by right|done]|]. intros [[->|H1] H2]; [|done].
      destruct H2 as (p' & Hp' & Hd'). rewrite Hp in Hp'. by injection Hp' as <-.
Qed.

(** mutual alliance of two players *)
Definition mutual (ps : Players) (i j : Z) : Prop :=
  ∃ p q, ps !! i = Some p ∧ ps !! j = Some q ∧ j ∈ pd_allies p ∧ i ∈ pd_allies q.

Lemma getMutualAllies_spec ps k : players_ok ps → is_Some (ps !! k) → ∃ s,
  getMutualAllies k ps = Ok s ∧ ∀ a, a ∈ s ↔ mutual ps k a.
Proof.
  intros Hok [p Hp]. unfold getMutualAllies, at_. rewrite Hp, res_bind_ok. destruct (Hok _ _ Hp) as (Hid & _ & Hal).
  destruct (mutualAllies_loop_spec ps p (set_elems (pd_allies p)) Hok) as (s & -> & Hs).
  { intros a Ha. apply Hal, elem_of_set_elems, Ha. }
  exists s. split; [done|]. intros a. rewrite Hs, elem_of_set_elems, Hid. unfold mutual. split.
  - intros (H1 & q & Hq & H2). by exists p, q.
  - intros (p' & q & Hp' & Hq & H1 & H2). rewrite Hp in Hp'. injection Hp' as <-. split; [done|by exists q].
Qed.

(** a player that the team loop enlists *)
Definition enlisted (ids : list Z) (k : Z) (p : PlayerData) : bool :=
  bool_decide (k ∈ ids) && (pd_teamNumber p =? 0) && negb (pd_isWatcher p) && negb (pd_isDead p).

Lemma team_loop_spec t ids ps : t ≠ 0 → (∀ a, a ∈ ids → is_Some (ps !! a)) → ∃ ps',
  team_loop t ids ps = Ok ps' ∧
  ∀ k, ps' !! k = (λ p, if enlisted ids k p then pd_set_army (pd_armyNumber p) t p else p) <$> ps !! k.
Proof.
  intros Ht. revert ps. induction ids as [|i ids IH]; intros ps Hids; cbn [team_loop].
  - exists ps. split; [done|]. intros k. unfold enlisted. destruct (ps !! k); [|done]. cbn. done.
  - destruct (Hids i ltac:(by left)) as [p Hp]. unfold at_. rewrite Hp, res_bind_ok.
    match goal with |- context [team_loop t ids ?x] => set (ps1 := x) end.
    destruct (IH ps1) as (ps' & -> & Hps').
    { intros a Ha. unfold ps1. case_match; [|apply Hids; by right]. destruct (decide (i = a)) as [->|Hne].
      - rewrite lookup_insert_eq. by eexists.
      - rewrite lookup_insert_ne by done. apply Hids. by right. }
    exists ps'. split; [done|]. intros k. rewrite Hps'. unfold ps1. destruct (decide (i = k)) as [->|Hne].
    + rewrite Hp. cbn. unfold enlisted. rewrite (bool_decide_true (k ∈ k :: ids)) by (by left). cbn [andb].
      destruct ((pd_teamNumber p =? 0) && negb (pd_isWatcher p) && negb (pd_isDead p)) eqn:E.
      * rewrite lookup_insert_eq. cbn. rewrite (proj2 (Z.eqb_neq t 0) Ht). by rewrite andb_false_r.
      * rewrite Hp. cbn. rewrite <- !andb_assoc. rewrite <- !andb_assoc in E. by rewrite E, andb_false_r.
    + assert ((if (pd_teamNumber p =? 0) && negb (pd_isWatcher p) && negb (pd_isDead p)
        then <[i := pd_set_army (pd_armyNumber p) t p]> ps else ps) !! k = ps !! k) as ->.
      { case_match; [by rewrite lookup_insert_ne|done]. }
      destruct (ps !! k) as [q|]; [|done]. cbn. unfold enlisted.
      rewrite (bool_decide_ext (k ∈ ids) (k ∈ i :: ids)); [done|]. rewrite elem_of_cons. naive_solver.
Qed.

Lemma erased_set_army a t p : erased (pd_set_army a t p) = erased p.
Proof. by destruct p. Qed.
Lemma same_players_map f (ps ps' : Players) : (∀ k p, erased (f k p) = erased p) →
  (∀ k, ps' !! k = f k <$> ps !! k) → same_players ps ps'.
Proof. intros Hf H k. rewrite H. destruct (ps !! k); [|done]. cbn [fmap option_fmap option_map]. by rewrite Hf. Qed.
Lemma mutual_same ps ps' i j : same_players ps ps' → mutual ps' i j → mutual ps i j.
Proof.
  intros H (p & q & Hp & Hq & H1 & H2). destruct (same_players_lookup _ _ _ _ H Hp) as (p0 & Hp0 & E1).
  destruct (same_players_lookup _ _ _ _ H Hq) as (q0 & Hq0 & E2). exists p0, q0.
  apply erased_fields in E1 as (_ & E1 & _). apply erased_fields in E2 as (_ & E2 & _). by rewrite <- E1, <- E2.
Qed.
Lemma mutual_iff ps ps' i j : same_players ps ps' → mutual ps' i j ↔ mutual ps i j.
Proof. intros H. split; apply mutual_same; [done|by symmetry]. Qed.
Lemma active_erased p q : erased p = erased q → active p ↔ active q.
Proof. intros (_ & _ & H1 & H2 & _)%erased_fields. unfold active. by rewrite H1, H2. Qed.
Lemma active_bool p : (pd_isWatcher p || pd_isDead p) = false ↔ active p.
Proof. unfold active. by rewrite orb_false_iff. Qed.

(** what one turn of the army loop makes of a player [q] filed under [j] *)
Definition recruited (k army team : Z) (s : gset Z) (j : Z) (q : PlayerData) : PlayerData :=
  pd_set_army (if j =? k then army else pd_armyNumber q)
    (if bool_decide (j = k ∨ j ∈ s) && (pd_teamNumber q =? 0) && negb (pd_isWatcher q || pd_isDead q) then team
     else pd_teamNumber q) q.

Lemma army_turn ps k p tc ac : players_ok ps → ps !! k = Some p → pd_teamNumber p = 0 → tc + 1 ≠ 0 →
  let ps1 := <[k := pd_set_army (ac + 1) 0 p]> ps in
  ∃ s ps2, (getMutualAllies k ps1 ≫= λ ids, team_loop (tc + 1) (set_elems ({[k]} ∪ ids)) ps1) = Ok ps2 ∧
    (∀ a, a ∈ s ↔ mutual ps k a) ∧ ∀ j, ps2 !! j = recruited k (ac + 1) (tc + 1) s j <$> ps !! j.
Proof.
  intros Hok Hk Ht Htc ps1.
  assert (same_players ps ps1) as Hs1.
  { intros j. unfold ps1. destruct (decide (k = j)) as [->|Hne]; [|by rewrite lookup_insert_ne].
    rewrite lookup_insert_eq, Hk. cbn [fmap option_fmap option_map]. by rewrite erased_set_army. }
  destruct (getMutualAllies_spec ps1 k) as (s & -> & Hs); [eapply players_ok_same; [exact Hs1|exact Hok]|apply (same_players_dom _ _ _ Hs1); by exists p|].
  rewrite res_bind_ok. destruct (team_loop_spec (tc + 1) (set_elems ({[k]} ∪ s)) ps1 Htc) as (ps2 & -> & H2).
  { intros a. rewrite elem_of_set_elems, elem_of_union, elem_of_singleton, Hs. intros [->|(q & q' & _ & Hq & _)]; [|by exists q'].
    apply (same_players_dom _ _ _ Hs1). by exists p. }
  exists s, ps2. split; [done|]. split; [intros a; by rewrite Hs, (mutual_iff _ _ _ _ Hs1)|].
  intros j. rewrite H2. unfold ps1, recruited, enlisted.
  assert (bool_decide (j ∈ set_elems ({[k]} ∪ s)) = bool_decide (j = k ∨ j ∈ s)) as ->.
  { apply bool_decide_ext. by rewrite elem_of_set_elems, elem_of_union, elem_of_singleton. }
  destruct (decide (k = j)) as [->|Hne].
  - rewrite lookup_insert_eq, Hk. cbn [fmap option_fmap option_map pd_set_army pd_teamNumber pd_isWatcher pd_isDead pd_armyNumber].
    rewrite Ht, negb_orb, andb_assoc. change (0 =? 0) with true. rewrite Z.eqb_refl. by case_match.
  - rewrite lookup_insert_ne by done. destruct (ps !! j) as [q|]; [|done]. cbn [fmap option_fmap option_map].
    rewrite (proj2 (Z.eqb_neq j k)) by done. rewrite negb_orb, andb_assoc. case_match; [done|]. by destruct q.
Qed.

(** ** The loop over the players *)

(** team numbers given so far are at most [tc] *)
Definition teams_upto (tc : Z) (ps : Players) : Prop := ∀ k p, ps !! k = Some p → 0 ≤ pd_teamNumber p ≤ tc.
(** the armies of the active players among [keys] *)
Definition armies (ps : Players) (keys : list Z) : list Z :=
  omap (λ k, p ← ps !! k; if pd_isWatcher p || pd_isDead p then None else Some (pd_armyNumber p)) keys.

Section Classes.
(** what holds of the players before and after each turn: [inv tc ps] *)
Context (inv : Z → Players → Prop).
Context (Hturn : ∀ tc ps ps2 k p s army, players_ok ps → teams_upto tc ps → inv tc ps → ps !! k = Some p → active p → pd_teamNumber p = 0 →
  0 < tc → (∀ a, a ∈ s ↔ mutual ps k a) → (∀ j, ps2 !! j = recruited k army (tc + 1) s j <$> ps !! j) → inv (tc + 1) ps2).
Context (Hnumber : ∀ tc ps k p army, inv tc ps → ps !! k = Some p → inv tc (<[k := pd_set_army army (pd_teamNumber p) p]> ps)).

Lemma same_players_there (ps ps' : Players) k p : same_players ps ps' → ps !! k = Some p →
  ∃ p', ps' !! k = Some p' ∧ erased p' = erased p.
Proof.
  intros H Hk. destruct (same_players_lookup ps' ps k p) as (p' & Hp' & He); [by symmetry|done|]. by exists p'.
Qed.

Lemma armies_cons ps k p keys : ps !! k = Some p →
  armies ps (k :: keys) = (if pd_isWatcher p || pd_isDead p then [] else [pd_armyNumber p]) ++ armies ps keys.
Proof. intros Hk. unfold armies. cbn [omap list_omap]. rewrite Hk. cbn [mbind option_bind].
  by destruct (pd_isWatcher p || pd_isDead p). Qed.

(** what the loop over the rest of the keys makes of [ps2] is what the loop makes of [ps] *)
Definition loop_done (keys : list Z) (ac : Z) (ps ps' : Players) : Prop :=
  (∀ k p p', ps !! k = Some p → ps' !! k = Some p' → pd_teamNumber p ≠ 0 → pd_teamNumber p' = pd_teamNumber p) ∧
  (∀ k p', k ∈ keys → ps' !! k = Some p' → active p' → 0 < pd_teamNumber p') ∧
  (∀ k p p', k ∉ keys → ps !! k = Some p → ps' !! k = Some p' → pd_armyNumber p' = pd_armyNumber p) ∧
  armies ps' keys = seqZ (ac + 1) (Z.of_nat (length (armies ps' keys))).

Lemma loop_done_cons k p keys ac ps ps2 ps' : same_players ps ps2 → same_players ps2 ps' → k ∉ keys →
  ps !! k = Some p → active p →
  (∀ j q q2, ps !! j = Some q → ps2 !! j = Some q2 → pd_teamNumber q ≠ 0 → pd_teamNumber q2 = pd_teamNumber q) →
  (∀ j q q2, j ≠ k → ps !! j = Some q → ps2 !! j = Some q2 → pd_armyNumber q2 = pd_armyNumber q) →
  (∀ p2, ps2 !! k = Some p2 → 0 < pd_teamNumber p2 ∧ pd_armyNumber p2 = ac + 1) →
  loop_done keys (ac + 1) ps2 ps' → loop_done (k :: keys) ac ps ps'.
Proof.
  intros S1 S2 Hnk Hk Ha Ht Har Hk2 (L1 & L2 & L3 & L4).
  destruct (same_players_there _ _ _ _ S1 Hk) as (p2 & Hp2 & E2). destruct (same_players_there _ _ _ _ S2 Hp2) as (p' & Hp' & E').
  destruct (Hk2 _ Hp2) as [Hteam Harmy]. split_and!.
  - intros j q q' Hq Hq' Hne. destruct (same_players_there _ _ _ _ S1 Hq) as (q2 & Hq2 & _).
    rewrite <- (Ht _ _ _ Hq Hq2 Hne). apply (L1 j q2 q' Hq2 Hq'). by rewrite (Ht _ _ _ Hq Hq2 Hne).
  - intros j q' Hj Hq' Hact. apply elem_of_cons in Hj as [->|Hj]; [|by eapply L2].
    rewrite (L1 k p2 q' Hp2 Hq'); lia.
  - intros j q q' Hj Hq Hq'. apply not_elem_of_cons in Hj as [Hjk Hj].
    destruct (same_players_there _ _ _ _ S1 Hq) as (q2 & Hq2 & _).
    by rewrite (L3 j q2 q' Hj Hq2 Hq'), (Har j q q2 Hjk Hq Hq2).
  - rewrite (armies_cons _ _ _ _ Hp').
    assert ((pd_isWatcher p' || pd_isDead p') = false) as ->.
    { apply active_bool. apply (active_erased p' p); [by rewrite E', E2|done]. }
    rewrite (L3 k p2 p' Hnk Hp2 Hp'), Harmy. cbn [app length]. rewrite L4 at 1.
    rewrite (seqZ_cons (ac + 1)) by lia. f_equal. f_equal; lia.
Qed.

Lemma army_loop_spec keys : NoDup keys → ∀ tc ac ps, players_ok ps → teams_upto tc ps → 0 < tc → inv tc ps →
  (∀ k, k ∈ keys → is_Some (ps !! k)) →
  ∃ ps' ps'' tc', army_loop keys tc ac ps = (Ok ps', ps'') ∧ same_players ps ps' ∧ inv tc' ps' ∧ teams_upto tc' ps' ∧
    loop_done keys ac ps ps'.
Proof.
  induction 1 as [|k keys Hnk _ IH]; intros tc ac ps Hok Hup Htc Hinv Hkeys; cbn [army_loop].
  { exists ps, ps, tc. split; [done|]. split; [done|]. split; [done|]. split; [done|]. split_and!.
    - intros k p p' -> [= ->]. done.
    - intros k p' Hk. by apply elem_of_nil in Hk.
    - intros k p p' _ -> [= ->]. done.
    - done. }
  destruct (Hkeys k ltac:(by left)) as [p Hp]. assert (at_key PlayerData_init ps k = p) as -> by (unfold at_key; by rewrite Hp).
  destruct (pd_isWatcher p || pd_isDead p) eqn:Ea.
  { destruct (IH tc ac ps Hok Hup Htc Hinv) as (ps' & ps'' & tc' & -> & S & I & U & L1 & L2 & L3 & L4).
    { intros j Hj. apply Hkeys. by right. }
    exists ps', ps'', tc'. split; [done|]. split; [done|]. split; [done|]. split; [done|].
    destruct (same_players_there _ _ _ _ S Hp) as (p' & Hp' & E'). split_and!; [done| | |].
    - intros j q Hj Hq Hact. apply elem_of_cons in Hj as [->|Hj]; [|by eapply L2].
      exfalso. rewrite Hp' in Hq. injection Hq as <-. apply (active_erased _ _ E') in Hact. apply active_bool in Hact. congruence.
    - intros j q q' Hj. apply not_elem_of_cons in Hj as [_ Hj]. by apply L3.
    - rewrite (armies_cons _ _ _ _ Hp'). destruct (erased_fields _ _ E') as (_ & _ & -> & -> & _). by rewrite Ea. }
  apply active_bool in Ea. destruct (Z.eqb_spec (pd_teamNumber p) 0) as [Ht|Ht].
  - destruct (Hok _ _ Hp) as (Hid & _). rewrite Hid, Ht.
    destruct (army_turn ps k p tc ac Hok Hp Ht ltac:(lia)) as (s & ps2 & -> & Hs & H2).
    assert (same_players ps ps2) as S1 by (by apply (same_players_map (recruited k (ac + 1) (tc + 1) s))).
    destruct (IH (tc + 1) (ac + 1) ps2) as (ps' & ps'' & tc' & -> & S & I & U & L).
    { by eapply players_ok_same. }
    { intros j q Hj. rewrite H2 in Hj. apply fmap_Some in Hj as (q0 & Hq0 & ->). specialize (Hup _ _ Hq0).
      unfold recruited. cbn [pd_set_army pd_teamNumber]. case_match; lia. }
    { lia. }
    { by eapply Hturn. }
    { intros j Hj. apply (same_players_dom _ _ _ S1), Hkeys. by right. }
    exists ps', ps'', tc'. split; [done|]. split; [by etrans|]. split; [done|]. split; [done|].
    apply (loop_done_cons k p keys ac ps ps2 ps'); try done.
    + intros j q q2 Hq Hq2 Hne. rewrite H2, Hq in Hq2. injection Hq2 as <-. unfold recruited. cbn [pd_set_army pd_teamNumber].
      rewrite (proj2 (Z.eqb_neq _ _) Hne). by rewrite andb_false_r.
    + intros j q q2 Hj Hq Hq2. rewrite H2, Hq in Hq2. injection Hq2 as <-. unfold recruited. cbn [pd_set_army pd_armyNumber].
      by rewrite (proj2 (Z.eqb_neq _ _) Hj).
    + intros p2 Hp2. rewrite H2, Hp in Hp2. injection Hp2 as <-. unfold recruited. cbn [pd_set_army pd_armyNumber pd_teamNumber].
      apply active_bool in Ea. rewrite Z.eqb_refl, Ht, Ea, bool_decide_true by (by left). cbn. lia.
  - set (ps2 := <[k := pd_set_army (ac + 1) (pd_teamNumber p) p]> ps).
    assert (∀ j q2, ps2 !! j = Some q2 → ∃ q, ps !! j = Some q ∧ pd_teamNumber q2 = pd_teamNumber q ∧ (j ≠ k → q2 = q)) as H2.
    { intros j q2 Hj. unfold ps2 in Hj. apply lookup_insert_Some in Hj as [[<- <-]|[Hne Hj]]; [exists p|exists q2]; done. }
    assert (same_players ps ps2) as S1.
    { intros j. unfold ps2. destruct (decide (k = j)) as [->|Hne]; [|by rewrite lookup_insert_ne].
      rewrite lookup_insert_eq, Hp. cbn [fmap option_fmap option_map]. by rewrite erased_set_army. }
    destruct (IH tc (ac + 1) ps2) as (ps' & ps'' & tc' & -> & S & I & U & L).
    { by eapply players_ok_same. }
    { intros j q2 Hj. destruct (H2 _ _ Hj) as (q & Hq & -> & _). by apply (Hup j). }
    { done. }
    { by apply Hnumber. }
    { intros j Hj. apply (same_players_dom _ _ _ S1), Hkeys. by right. }
    exists ps', ps'', tc'. split; [done|]. split; [by etrans|]. split; [done|]. split; [done|].
    apply (loop_done_cons k p keys ac ps ps2 ps'); try done.
    + intros j q q2 Hq Hq2 _. destruct (H2 _ _ Hq2) as (q0 & Hq0 & -> & _). congruence.
    + intros j q q2 Hj Hq Hq2. destruct (H2 _ _ Hq2) as (q0 & Hq0 & _ & Heq). rewrite Heq by done. congruence.
    + intros p2 Hp2. unfold ps2 in Hp2. rewrite lookup_insert_eq in Hp2. injection Hp2 as <-. cbn. specialize (Hup _ _ Hp). lia.
Qed.
End Classes.

(** ** The whole of [updatePlayerArmies] *)

Lemma erased_all_same ps : same_players ps (pd_set_army 0 0 <$> ps).
Proof. apply (same_players_map (λ _, pd_set_army 0 0)); [intros; apply erased_set_army|]. intros k. apply lookup_fmap. Qed.

(** sorting by id is sorting by key *)
Lemma sortedPlayers_keys ps : players_ok ps → sortedPlayers ps = sorted_keys ps.
Proof.
  intros Hok. unfold sortedPlayers, sorted_keys.
  assert (StronglySorted by_dplayid (merge_sort by_dplayid (map_to_list ps))) as Hs.
  { apply Sorted_StronglySorted; [intros x y z; unfold by_dplayid; lia|]. apply Sorted_merge_sort. intros x y. unfold by_dplayid. lia. }
  apply (StronglySorted_unique Z.le); [intros x y z; lia..| | |].
  - assert (∀ e, e ∈ merge_sort by_dplayid (map_to_list ps) → pd_dplayid e.2 = e.1) as He.
    { intros [k p] H. rewrite merge_sort_Permutation in H. apply elem_of_map_to_list in H. by apply (Hok k p). }
    induction Hs as [|e l Hs IH Hall]; [constructor|]. cbn [fmap list_fmap]. constructor.
    + apply IH. intros e' He'. apply He. by right.
    + apply Forall_fmap. rewrite Forall_forall in Hall |- *. intros e' He'. specialize (Hall _ He'). unfold by_dplayid in Hall.
      cbn. rewrite <- !He; [done|by right|by left].
  - apply Sorted_StronglySorted; [intros x y z; lia|]. apply Sorted_merge_sort, _.
  - by rewrite !merge_sort_Permutation.
Qed.

Lemma updatePlayerArmies_loop (inv : Z → Players → Prop) g :
  (∀ tc ps ps2 k p s army, players_ok ps → teams_upto tc ps → inv tc ps → ps !! k = Some p → active p → pd_teamNumber p = 0 →
    0 < tc → (∀ a, a ∈ s ↔ mutual ps k a) → (∀ j, ps2 !! j = recruited k army (tc + 1) s j <$> ps !! j) → inv (tc + 1) ps2) →
  (∀ tc ps k p army, inv tc ps → ps !! k = Some p → inv tc (<[k := pd_set_army army (pd_teamNumber p) p]> ps)) →
  players_ok (m_players g) → inv 1 (pd_set_army 0 0 <$> m_players g) → ∃ ps tc,
  updatePlayerArmies g = (Ok tt, set_players ps g) ∧ same_players (m_players g) ps ∧ inv tc ps ∧ armies_ok ps ∧
  armies ps (sorted_keys (m_players g)) = seqZ 1 (Z.of_nat (length (armies ps (sorted_keys (m_players g))))).
Proof.
  intros Hturn Hnumber Hok Hinv. unfold updatePlayerArmies. set (ps0 := pd_set_army 0 0 <$> m_players g) in *.
  assert (same_players (m_players g) ps0) as S0 by apply erased_all_same.
  assert (players_ok ps0) as Hok0 by (eapply players_ok_same; [exact S0|exact Hok]).
  assert (sortedPlayers ps0 = sorted_keys (m_players g)) as ->.
  { rewrite sortedPlayers_keys by done. unfold sorted_keys, ps0. rewrite map_to_list_fmap, <- list_fmap_compose. done. }
  destruct (army_loop_spec inv Hturn Hnumber (sorted_keys (m_players g)) (NoDup_sorted_keys _) 1 0 ps0 Hok0)
    as (ps & ps'' & tc' & -> & S & I & _ & L1 & L2 & L3 & L4); [|lia|done| |].
  - intros k p Hp. unfold ps0 in Hp. rewrite lookup_fmap in Hp. apply fmap_Some in Hp as (q & _ & ->). cbn. lia.
  - intros k Hk. apply (same_players_dom _ _ _ S0). by apply elem_of_sorted_keys.
  - exists ps, tc'. split; [done|]. assert (same_players (m_players g) ps) as S2 by (by etrans).
    split; [done|]. split; [done|]. split; [|done]. intros k p Hp Ha.
    assert (k ∈ sorted_keys (m_players g)) as Hk by (apply elem_of_sorted_keys, (same_players_dom _ _ _ S2); by exists p).
    split; [|by apply (L2 k p)]. enough (pd_armyNumber p ∈ armies ps (sorted_keys (m_players g))) as H by (rewrite L4, elem_of_seqZ in H; lia).
    unfold armies. apply list_elem_of_omap. exists k. split; [done|]. rewrite Hp. apply active_bool in Ha. cbn. by rewrite Ha.
Qed.

Lemma updatePlayerArmies_spec g : players_ok (m_players g) → ∃ ps,
  updatePlayerArmies g = (Ok tt, set_players ps g) ∧ same_players (m_players g) ps ∧ players_ok ps ∧ armies_ok ps.
Proof.
  intros Hok. destruct (updatePlayerArmies_loop (λ _ _, True) g) as (ps & _ & -> & S & _ & A & _); [done..|].
  exists ps. split; [done|]. split; [done|]. split; [|done]. eapply players_ok_same; [exact S|exact Hok].
Qed.

Lemma mutual_sym ps i j : mutual ps i j → mutual ps j i.
Proof. intros (p & q & ? & ? & ? & ?). by exists q, p. Qed.

(** teams given so far are classes of [rel] *)
Definition classes (base : Players) (tc : Z) (ps : Players) : Prop := same_players base ps ∧
  ∀ i j p q, ps !! i = Some p → ps !! j = Some q → active p → active q → pd_teamNumber p ≠ 0 →
    (pd_teamNumber q = pd_teamNumber p ↔ i = j ∨ mutual base i j).

Lemma classes_turn base : (∀ i j k, mutual base i j → mutual base j k → i = k ∨ mutual base i k) →
  ∀ tc ps ps2 k p s army, players_ok ps → teams_upto tc ps → classes base tc ps → ps !! k = Some p → active p → pd_teamNumber p = 0 →
    0 < tc → (∀ a, a ∈ s ↔ mutual ps k a) → (∀ j, ps2 !! j = recruited k army (tc + 1) s j <$> ps !! j) → classes base (tc + 1) ps2.
Proof.
  intros Htr tc ps ps2 k p s army Hok Hup [Hs Hc] Hp Hap Htp Htc Hsp H2.
  assert (same_players ps ps2) as S2 by (by apply (same_players_map (recruited k army (tc + 1) s))).
  split; [by etrans|]. intros i j p2 q2 Hp2 Hq2 Ha Hb Hne.
  assert (∀ a, a ∈ s ↔ mutual base k a) as Hsb by (intros a; rewrite Hsp; by apply mutual_iff).
  (* the relation to the class of [k] *)
  set (rel := λ i j, i = j ∨ mutual base i j).
  assert (∀ x y z, rel x y → rel y z → rel x z) as Rtr.
  { intros x y z [->|H1] [->|H3]; unfold rel; [by left|by right|by right|by eapply Htr]. }
  assert (∀ x y, rel x y → rel y x) as Rsym by (intros x y [->|H1]; [by left|right; by apply mutual_sym]).
  rewrite H2 in Hp2, Hq2. apply fmap_Some in Hp2 as (p1 & Hp1 & ->). apply fmap_Some in Hq2 as (q1 & Hq1 & ->).
  assert (active p1) as Ha1 by (by destruct p1). assert (active q1) as Hb1 by (by destruct q1).
  assert (∀ x r, active r → pd_teamNumber (recruited k army (tc + 1) s x r) =
    if bool_decide (x = k ∨ x ∈ s) && (pd_teamNumber r =? 0) then tc + 1 else pd_teamNumber r) as Hrec.
  { intros x r Hr. unfold recruited. cbn [pd_set_army pd_teamNumber]. apply active_bool in Hr. by rewrite Hr, andb_true_r. }
  assert (∀ x, bool_decide (x = k ∨ x ∈ s) = true ↔ rel k x) as Hrel.
  { intros x. rewrite bool_decide_eq_true, Hsb. unfold rel. naive_solver. }
  change (pd_teamNumber (recruited k army (tc + 1) s j q1) = pd_teamNumber (recruited k army (tc + 1) s i p1) ↔ rel i j).
  rewrite !Hrec in * by done. pose proof (Hup _ _ Hp1) as Bp. pose proof (Hup _ _ Hq1) as Bq.
  pose proof (Hc i j p1 q1 Hp1 Hq1 Ha1 Hb1) as Cij. pose proof (Hc j i q1 p1 Hq1 Hp1 Hb1 Ha1) as Cji.
  change (pd_teamNumber p1 ≠ 0 → pd_teamNumber q1 = pd_teamNumber p1 ↔ rel i j) in Cij.
  change (pd_teamNumber q1 ≠ 0 → pd_teamNumber p1 = pd_teamNumber q1 ↔ rel j i) in Cji.
  pose proof (Hrel i) as Ri. pose proof (Hrel j) as Rj.
  destruct (bool_decide (i = k ∨ i ∈ s)), (Z.eqb_spec (pd_teamNumber p1) 0) as [Zp|Zp];
  destruct (bool_decide (j = k ∨ j ∈ s)), (Z.eqb_spec (pd_teamNumber q1) 0) as [Zq|Zq]; cbn [andb] in *;
    try specialize (Cij Zp); try specialize (Cji Zq); try done.
  all: split; intros Hgoal; first [exfalso; lia|done|idtac].
  all: first
    [ by eapply Rtr; [apply Rsym, Ri|apply Rj]
    | exfalso; pose proof (proj2 Cij Hgoal); lia
    | exfalso; pose proof (proj2 Cji (Rsym _ _ Hgoal)); lia
    | exfalso; pose proof (proj2 Rj (Rtr _ _ _ (proj1 Ri eq_refl) Hgoal)); done ].
Qed.

Lemma classes_number base tc ps k p army : classes base tc ps → ps !! k = Some p →
  classes base tc (<[k := pd_set_army army (pd_teamNumber p) p]> ps).
Proof.
  intros [Hs Hc] Hp. set (ps2 := <[k := _]> ps).
  assert (∀ j q2, ps2 !! j = Some q2 → ∃ q, ps !! j = Some q ∧ pd_teamNumber q2 = pd_teamNumber q ∧ (active q2 → active q)) as H2.
  { intros j q2 Hj. unfold ps2 in Hj. apply lookup_insert_Some in Hj as [[<- <-]|[Hne Hj]]; [exists p|exists q2]; done. }
  split.
  - etrans; [exact Hs|]. intros j. unfold ps2. destruct (decide (k = j)) as [->|Hne]; [|by rewrite lookup_insert_ne].
    rewrite lookup_insert_eq, Hp. cbn [fmap option_fmap option_map]. by rewrite erased_set_army.
  - intros i j p2 q2 Hp2 Hq2 Ha Hb. destruct (H2 _ _ Hp2) as (p1 & Hp1 & -> & Ea), (H2 _ _ Hq2) as (q1 & Hq1 & -> & Eb).
    apply (Hc i j p1 q1); auto.
Qed.

(** C8: in a game whose mutual alliances are transitive, [updatePlayerArmies] ends
    without an exception, numbers the armies of the active players 1, 2, ..., n in the
    order of their ids, and puts two active players in the same team exactly when they
    are mutual allies; nothing but armies and teams changes *)
Theorem updatePlayerArmies_teams g : players_ok (m_players g) →
  (∀ i j k, mutual (m_players g) i j → mutual (m_players g) j k → i = k ∨ mutual (m_players g) i k) → ∃ ps,
  updatePlayerArmies g = (Ok tt, set_players ps g) ∧ same_players (m_players g) ps ∧
  armies ps (sorted_keys (m_players g)) = seqZ 1 (Z.of_nat (length (armies ps (sorted_keys (m_players g))))) ∧
  ∀ i j p q, ps !! i = Some p → ps !! j = Some q → active p → active q →
    0 < pd_teamNumber p ∧ (pd_teamNumber q = pd_teamNumber p ↔ i = j ∨ mutual (m_players g) i j).
Proof.
  intros Hok Htr. destruct (updatePlayerArmies_loop (classes (m_players g)) g) as (ps & tc & E & S & [_ Hc] & A & N).
  - intros tc ps ps2 k p s army. by apply classes_turn.
  - intros tc ps k p army. apply classes_number.
  - done.
  - split; [apply erased_all_same|]. intros i j p q Hp _ _ _ Hne. rewrite lookup_fmap in Hp.
    apply fmap_Some in Hp as (p0 & _ & ->). by destruct Hne.
  - exists ps. split_and!; [done..|]. intros i j p q Hp Hq Ha Hb. destruct (A _ _ Hp Ha) as [_ Hteam].
    split; [done|]. apply Hc; try done. lia.
Qed.
(** two allies and a player on his own *)
Definition three_players : Players :=
  <[1 := pd_set_allies {[2]} (pd_set_id [97] 1 PlayerData_init)]>
  (<[2 := pd_set_allies {[1; 3]} (pd_set_id [98] 2 PlayerData_init)]>
  (<[3 := pd_set_id [99] 3 PlayerData_init]> ∅)).
Definition three_monitor : GameMonitor2 := set_players three_players (GameMonitor2_make true 5 10 500).
Lemma updatePlayerArmies_teams_witness : ∃ ps, updatePlayerArmies three_monitor = (Ok tt, set_players ps three_monitor).
Proof.
  destruct (updatePlayerArmies_teams three_monitor) as (ps & E & _); [| |by exists ps].
  - assert (map_Forall (λ k p, pd_dplayid p = k ∧ 0 < k ∧ set_Forall (λ a, is_Some (three_players !! a)) (pd_allies p)) three_players) as H.
    { apply (bool_decide_eq_true_1 _). vm_compute. reflexivity. }
    intros k p Hk. by apply (H k p).
  - assert (map_Forall (λ i p, map_Forall (λ j q, j ∈ pd_allies p → i ∈ pd_allies q → map_Forall (λ k r,
      k ∈ pd_allies q → j ∈ pd_allies r → i = k ∨ (k ∈ pd_allies p ∧ i ∈ pd_allies r)) three_players) three_players) three_players) as H.
    { apply (bool_decide_eq_true_1 _). vm_compute. reflexivity. }
    intros i j k (p & q & Hp & Hq & H1 & H2) (q' & r & Hq' & Hr & H3 & H4). rewrite Hq in Hq'. apply (inj Some) in Hq' as <-.
    destruct (H i p Hp j q Hq H1 H2 k r Hr H3 H4) as [->|[H5 H6]]; [by left|right; by exists p, r].
Defined.
Example three_teams : (λ p, (pd_armyNumber p, pd_teamNumber p)) <$> in_map_order (m_players (updatePlayerArmies three_monitor).2) =
  [(1, 2); (2, 2); (3, 3)].
Proof. vm_compute. reflexivity. Qed.
