(* ===== verification/GameMonitorSafety.v ===== *)
(** * Safety of the game monitor

    Every handler of a configured monitor ends without an exception and upholds its
    invariant; the result of a game, once there is one, never changes; the monitor
    announces the end of a game at most once; and a game that has been decided between
    the teams of its start stays decided. *)
From S2P Require Import Prelude ExceptState OrderedMaps TPacketCompress TPacketSplit TPacketSmartpak TPacketRecords GameMonitor GameMonitorTeams.

(** ** The invariant *)

(** the names are known, somebody listens, and the divisor of [onUnitDied] is not 0 *)
Definition configured (g : GameMonitor2) : Prop :=
  m_gameEventHandler g = true ∧ m_hostPlayerName g ≠ [] ∧ m_localPlayerName g ≠ [] ∧ m_maxUnits g ≠ 0.
Definition is_active (ps : Players) (k : Z) : Prop := ∃ p, ps !! k = Some p ∧ active p.
(** the players that started the game were placed, and are those of the game: who is
    active now was active at the start *)
Definition frozen_ok (g : GameMonitor2) : Prop := m_gameStarted g = true →
  armies_ok (m_frozenPlayers g) ∧ ∀ k, is_active (m_players g) k → is_active (m_frozenPlayers g) k.
Definition monitor_pre (g : GameMonitor2) : Prop := configured g ∧ players_ok (m_players g) ∧ frozen_ok g.
Definition monitor_ok (g : GameMonitor2) : Prop := monitor_pre g ∧ armies_ok (m_players g).

Definition is_end (e : game_event) : bool := match e with onGameEnded _ => true | _ => false end.
Definition ends (g : GameMonitor2) : list game_event := filter is_end (gm_events g).
Definition same_result (r r' : GameResult) : Prop := gr_status r' = gr_status r ∧ gr_results r' = gr_results r.

(** what every handler does: a result stays; an end is announced with the result and only
    when the result is new; a started game stays started, with the same teams, and nobody
    comes back to life *)
Definition evolves (g g' : GameMonitor2) : Prop :=
  (isGameOver g = true → same_result (m_gameResult g) (m_gameResult g')) ∧
  (ends g' = ends g ∨ ∃ r, isGameOver g = false ∧ isGameOver g' = true ∧ same_result r (m_gameResult g') ∧ ends g' = ends g ++ [onGameEnded r]) ∧
  (m_gameStarted g = true → m_gameStarted g' = true ∧ m_frozenPlayers g' = m_frozenPlayers g ∧
    ∀ k, is_active (m_players g') k → is_active (m_players g) k).

Lemma same_result_over g g' : same_result (m_gameResult g) (m_gameResult g') → isGameOver g' = isGameOver g.
Proof. intros [H _]. unfold isGameOver. by rewrite H. Qed.
#[export] Instance same_result_equiv : Equivalence same_result.
Proof. split; [done| |]; unfold same_result; intros ?; [naive_solver|]. intros ?? [] []. split; congruence. Qed.
#[export] Instance evolves_preorder : PreOrder evolves.
Proof.
  split.
  - intros g. split; [done|]. split; [by left|]. done.
  - intros g1 g2 g3 (R1 & E1 & S1) (R2 & E2 & S2). split_and!.
    + intros H1. specialize (R1 H1). rewrite <- (same_result_over _ _ R1) in H1. specialize (R2 H1). by etrans.
    + destruct E1 as [E1|(r & O1 & O2 & R & E1)]; destruct E2 as [E2|(r' & O1' & O2' & R' & E2)].
      * left. by rewrite E2.
      * right. exists r'. rewrite E2, E1. split_and!; try done. destruct (isGameOver g1) eqn:E; [|done].
        specialize (R1 eq_refl). apply same_result_over in R1. congruence.
      * right. exists r. specialize (R2 O2). rewrite E2, E1. split_and!; try done.
        { by rewrite (same_result_over _ _ R2). } by etrans.
      * congruence.
    + intros H. destruct (S1 H) as (H1 & H2 & H3). destruct (S2 H1) as (H4 & H5 & H6). split_and!; [done|congruence|auto].
Qed.

(** ** Safe programs *)
Definition safe {A} (m : gm A) (Q : A → GameMonitor2 → Prop) (g : GameMonitor2) : Prop := ∃ a g', m g = (Ok a, g') ∧ Q a g'.
Lemma safe_bind {A B} (m : gm A) (f : A → gm B) Q g : safe m (λ a, safe (f a) Q) g → safe (m ≫= f) Q g.
Proof. intros (a & g' & E & b & g2 & F & H). exists b, g2. split; [|done]. unfold mbind, stx_bind. by rewrite E. Qed.
Lemma safe_mono {A} (m : gm A) (P Q : A → GameMonitor2 → Prop) g : safe m P g → (∀ a g', P a g' → Q a g') → safe m Q g.
Proof. intros (a & g' & E & H) HPQ. exists a, g'. auto. Qed.
Lemma safe_ret {A} (a : A) (Q : A → GameMonitor2 → Prop) g : Q a g → safe (mret a) Q g.
Proof. intros H. by exists a, g. Qed.
Lemma safe_gets {A B} (h : GameMonitor2 → A) (f : A → gm B) Q g : safe (f (h g)) Q g → safe (gets h ≫= f) Q g.
Proof. intros H. apply safe_bind. by exists (h g), g. Qed.
Lemma safe_modify {B} h (f : unit → gm B) Q g : safe (f tt) Q (h g) → safe (modify h ≫= f) Q g.
Proof. intros H. apply safe_bind. by exists tt, (h g). Qed.
Lemma safe_lift {A B} (a : A) (f : A → gm B) Q g : safe (f a) Q g → safe (lift (Ok a) ≫= f) Q g.
Proof. intros H. apply safe_bind. by exists a, g. Qed.

(** programs that keep the invariant [I] and only let the game evolve *)
Definition after (I : GameMonitor2 → Prop) {A} (g : GameMonitor2) (_ : A) (g' : GameMonitor2) : Prop := I g' ∧ evolves g g'.
Definition upholds (I : GameMonitor2 → Prop) {A} (m : gm A) : Prop := ∀ g, I g → safe m (after I g) g.
Lemma upholds_trans (I : GameMonitor2 → Prop) {A} (m : gm A) g g0 : evolves g0 g → safe m (after I g) g → safe m (after I g0) g.
Proof. intros H Hs. eapply safe_mono; [exact Hs|]. intros a g' [H1 H2]. split; [done|]. by etrans. Qed.
Lemma upholds_ret I {A} (a : A) : upholds I (mret a).
Proof. intros g Hg. by apply safe_ret. Qed.
Lemma upholds_bind (I : GameMonitor2 → Prop) {A B} (m : gm A) (f : A → gm B) : upholds I m → (∀ a, upholds I (f a)) → upholds I (m ≫= f).
Proof.
  intros Hm Hf g Hg. apply safe_bind. eapply safe_mono; [by apply Hm|]. intros a g' [H1 H2].
  eapply upholds_trans; [exact H2|]. by apply Hf.
Qed.
Lemma upholds_when I b m : upholds I m → upholds I (when b m).
Proof. intros H. destruct b; [done|apply upholds_ret]. Qed.
Lemma upholds_for_each I {A} (l : list A) body : (∀ a, a ∈ l → upholds I (body a)) → upholds I (for_each l body).
Proof.
  induction l as [|a l IH]; intros H; cbn [for_each]; [apply upholds_ret|].
  apply upholds_bind; [apply H; by left|]. intros _. apply IH. intros b Hb. apply H. by right.
Qed.

(** ** Announcements *)
Lemma ends_add e g : ends (add_game_event e g) = ends g ++ (if is_end e then [e] else []).
Proof. unfold ends. cbn [add_game_event gm_events]. rewrite filter_app. f_equal. by destruct e. Qed.
Lemma pre_event e g : monitor_pre g → monitor_pre (add_game_event e g).
Proof. done. Qed.
Lemma evolves_event e g : is_end e = false → evolves g (add_game_event e g).
Proof. intros H. split; [done|]. split; [left; rewrite ends_add, H; apply app_nil_r|]. done. Qed.
Lemma upholds_notify e : is_end e = false → upholds monitor_ok (notify e).
Proof.
  intros H g Hg. exists tt, (add_game_event e g). destruct Hg as [((Hh & Hc) & Hp) Ha].
  split; [unfold notify; by rewrite Hh|]. split; [done|]. by apply evolves_event.
Qed.
Lemma upholds_notify_if e : is_end e = false → upholds monitor_ok (notify_if e).
Proof.
  intros H g Hg. exists tt, (add_game_event e g). destruct Hg as [((Hh & Hc) & Hp) Ha].
  split; [unfold notify_if; by rewrite Hh|]. split; [done|]. by apply evolves_event.
Qed.
Create HintDb monitor.
#[export] Hint Resolve upholds_notify upholds_notify_if upholds_ret upholds_when : monitor.

(** ** Changes of the players *)

(** the same players; nobody comes back to life or loses the army and the team *)
Definition tame (ps ps' : Players) : Prop :=
  (∀ k, is_Some (ps' !! k) → is_Some (ps !! k)) ∧ (∀ k, is_Some (ps !! k) → is_Some (ps' !! k)) ∧
  ∀ k p p', ps !! k = Some p → ps' !! k = Some p' →
    pd_dplayid p' = pd_dplayid p ∧ (∀ a, a ∈ pd_allies p' → is_Some (ps !! a)) ∧
    (active p' → active p ∧ pd_teamNumber p' = pd_teamNumber p ∧ pd_armyNumber p' = pd_armyNumber p).

Lemma evolves_players g ps' : (m_gameStarted g = true → ∀ k, is_active ps' k → is_active (m_players g) k) →
  evolves g (set_players ps' g).
Proof. intros H. split; [done|]. split; [by left|]. intros Hs. split; [done|]. split; [done|]. by apply H. Qed.
Lemma tame_active ps ps' k : tame ps ps' → is_active ps' k → is_active ps k.
Proof.
  intros (T1 & T2 & T3) (p' & Hp' & Ha). destruct (T1 k ltac:(by exists p')) as [p Hp].
  exists p. split; [done|]. by apply (T3 k p p' Hp Hp').
Qed.
Lemma tame_step g ps' : monitor_ok g → tame (m_players g) ps' → after monitor_ok g tt (set_players ps' g).
Proof.
  intros [(Hc & Hp & Hf) Ha] T. split.
  2: { apply evolves_players. intros _ k. by apply tame_active. }
  pose proof T as (T1 & T2 & T3). split; [split; [done|split]|].
  - intros k p' Hk. cbn in Hk. destruct (T1 k ltac:(by exists p')) as [p Hpk]. destruct (T3 k p p' Hpk Hk) as (-> & H2 & _).
    destruct (Hp _ _ Hpk) as (H3 & H4 & _). split; [done|]. split; [done|]. intros a Hal. apply T2, H2, Hal.
  - intros Hs. destruct (Hf Hs) as [Hpl Hdom]. split; [done|]. intros k Hk. by apply Hdom, (tame_active _ _ k T).
  - intros k p' Hk Hact. cbn in Hk. destruct (T1 k ltac:(by exists p')) as [p Hpk]. destruct (T3 k p p' Hpk Hk) as (_ & _ & H3).
    destruct (H3 Hact) as (H4 & E1 & E2). unfold placed. rewrite E1, E2. by apply (Ha k).
Qed.
Lemma upholds_modify_players (h : Players → Players) : (∀ ps, players_ok ps → tame ps (h ps)) →
  upholds monitor_ok (modify (λ g, set_players (h (m_players g)) g)).
Proof.
  intros H g Hg. exists tt, (set_players (h (m_players g)) g). split; [done|]. apply tame_step; [done|]. apply H, Hg.
Qed.

(** a change of the player filed under [k] *)
Definition tame_change (ps : Players) (f : PlayerData → PlayerData) : Prop := ∀ p,
  pd_dplayid (f p) = pd_dplayid p ∧ (∀ a, a ∈ pd_allies (f p) → a ∈ pd_allies p ∨ is_Some (ps !! a)) ∧
  (active (f p) → active p ∧ pd_teamNumber (f p) = pd_teamNumber p ∧ pd_armyNumber (f p) = pd_armyNumber p).
Lemma tame_refl ps : players_ok ps → tame ps ps.
Proof.
  intros H. split_and!; [done..|]. intros k p p' Hp Hp'. assert (p' = p) as -> by congruence.
  split_and!; [done|by apply (H _ _ Hp)|done].
Qed.
Lemma tame_trans ps1 ps2 ps3 : tame ps1 ps2 → tame ps2 ps3 → tame ps1 ps3.
Proof.
  intros (A1 & A2 & A3) (B1 & B2 & B3). split_and!; [auto..|]. intros k p1 p3 H1 H3.
  destruct (A2 k ltac:(by exists p1)) as [p2 H2]. destruct (A3 _ _ _ H1 H2) as (E1 & F1 & G1), (B3 _ _ _ H2 H3) as (E2 & F2 & G2).
  split_and!; [congruence|auto|]. intros H. destruct (G2 H) as (H4 & -> & ->). auto.
Qed.
Lemma tame_ok ps ps' : players_ok ps → tame ps ps' → players_ok ps'.
Proof.
  intros Hp (T1 & T2 & T3) k p' Hk. destruct (T1 k ltac:(by exists p')) as [p Hpk]. destruct (T3 k p p' Hpk Hk) as (-> & H2 & _).
  destruct (Hp _ _ Hpk) as (H3 & H4 & _). split; [done|]. split; [done|]. intros a Ha. apply T2, H2, Ha.
Qed.
Lemma tame_insert ps k p f : players_ok ps → ps !! k = Some p → tame_change ps f → tame ps (<[k := f p]> ps).
Proof.
  intros Hok Hk Hf. split_and!.
  - intros j. destruct (decide (k = j)) as [->|]; [by exists p|by rewrite lookup_insert_ne].
  - intros j. destruct (decide (k = j)) as [->|]; [by rewrite lookup_insert_eq|by rewrite lookup_insert_ne].
  - intros j q q' Hq Hq'. destruct (decide (k = j)) as [->|].
    + rewrite lookup_insert_eq in Hq'. apply (inj Some) in Hq' as <-. assert (q = p) as -> by congruence.
      destruct (Hf p) as (H1 & H2 & H3). split; [done|]. split; [|done]. intros a Ha. destruct (H2 a Ha) as [H4|H4]; [|done].
      by apply (Hok _ _ Hk).
    + rewrite lookup_insert_ne in Hq' by done. apply (proj2 (proj2 (tame_refl ps Hok)) j q q'); congruence.
Qed.
Lemma at_key_lookup {A} (d : A) m (k : Z) a : m !! k = Some a → at_key d m k = a.
Proof. intros H. unfold at_key. by rewrite H. Qed.
Lemma tame_update ps k f : players_ok ps → is_Some (ps !! k) → tame_change ps f →
  tame ps (<[k := f (at_key PlayerData_init ps k)]> ps).
Proof. intros Hok [p Hk] Hf. rewrite (at_key_lookup _ _ _ _ Hk). by apply tame_insert. Qed.
Lemma known_true k g : known k g = true ↔ is_Some (m_players g !! k).
Proof. apply bool_decide_eq_true. Qed.
Lemma update_player_after g k f : monitor_ok g → known k g = true → tame_change (m_players g) f →
  after monitor_ok g tt (update_player k f g).
Proof. intros Hg Hk%known_true Hf. apply tame_step; [done|]. apply tame_update; [apply Hg|done..]. Qed.

(** teams are worked out again: here [armies_ok] is established *)
Lemma armies_after g : monitor_pre g → safe updatePlayerArmies (after monitor_ok g) g.
Proof.
  intros (Hc & Hp & Hf). destruct (updatePlayerArmies_spec g Hp) as (ps & E & S & Hp' & Ha).
  exists tt, (set_players ps g). split; [done|]. split; [split; [split; [done|split; [done|]]|done]|].
  - intros Hs. destruct (Hf Hs) as [Hpl Hdom]. split; [done|]. intros k (p' & Hk & Hact). apply Hdom.
    destruct (same_players_lookup _ _ _ _ S Hk) as (p & Hpk & He). exists p. split; [done|]. by apply (active_erased _ _ He).
  - apply evolves_players. intros _ k (p' & Hk & Hact). destruct (same_players_lookup _ _ _ _ S Hk) as (p & Hpk & He).
    exists p. split; [done|]. by apply (active_erased _ _ He).
Qed.
Lemma upholds_armies : upholds monitor_ok updatePlayerArmies.
Proof. intros g [Hg _]. by apply armies_after. Qed.

Lemma names_loop_ok ps ids : (∀ a, a ∈ ids → is_Some (ps !! a)) → ∃ s, names_loop ps ids = Ok s.
Proof.
  induction ids as [|i ids IH]; intros H; cbn [names_loop]; [by eexists|].
  destruct (H i ltac:(by left)) as [p Hp]. unfold at_. rewrite Hp, res_bind_ok.
  destruct IH as [s ->]; [intros a Ha; apply H; by right|]. rewrite res_bind_ok. by eexists.
Qed.
Lemma getMutualAllyNames_ok ps k : players_ok ps → is_Some (ps !! k) → ∃ s, getMutualAllyNames k ps ps = Ok s.
Proof.
  intros Hok Hk. unfold getMutualAllyNames. destruct (getMutualAllies_spec ps k Hok Hk) as (s & -> & Hs). rewrite res_bind_ok.
  apply names_loop_ok. intros a Ha%elem_of_set_elems%Hs. destruct Ha as (p & q & _ & Hq & _). by exists q.
Qed.
Lemma upholds_lift I {A B} (r : res A) (a : A) (f : A → gm B) : r = Ok a → upholds I (f a) → upholds I (lift r ≫= f).
Proof. intros -> H g Hg. apply safe_lift. by apply H. Qed.
Lemma upholds_notifyPlayerStatuses : upholds monitor_ok notifyPlayerStatuses.
Proof.
  intros g Hg. unfold notifyPlayerStatuses. apply safe_gets. destruct Hg as [((Hh & Hc) & Hp & Hf) Ha] eqn:E. clear E. rewrite Hh. cbn [when].
  apply safe_gets. eapply upholds_bind; [|intros _|done].
  - apply upholds_for_each. intros k Hk%elem_of_sorted_keys. apply upholds_when.
    destruct (getMutualAllyNames_ok (m_players g) k Hp Hk) as [names E]. eapply upholds_lift; [exact E|]. by apply upholds_notify.
  - apply upholds_for_each. intros n _. apply upholds_when. by apply upholds_notify.
Qed.

(** ** The end of the game *)
Lemma same_team_spec ps team ids : (∀ a, a ∈ ids → is_Some (ps !! a)) → ∃ b, same_team ps team ids = Ok b ∧
  (b = true ↔ ∀ k p, k ∈ ids → ps !! k = Some p → pd_teamNumber p = team).
Proof.
  induction ids as [|i ids IH]; intros H; cbn [same_team].
  - exists true. split; [done|]. split; [|done]. intros _ k p Hk. by apply elem_of_nil in Hk.
  - destruct (H i ltac:(by left)) as [p Hp]. unfold at_. rewrite Hp, res_bind_ok. destruct (Z.eqb_spec (pd_teamNumber p) team) as [Ht|Ht].
    + destruct IH as (b & -> & Hb); [intros a Ha; apply H; by right|]. exists b. split; [done|]. rewrite Hb. split.
      * intros H1 k q [->|Hk]%elem_of_cons Hq; [congruence|by apply (H1 k)].
      * intros H1 k q Hk. apply H1. by right.
    + exists false. split; [done|]. split; [done|]. intros H1. destruct Ht. apply (H1 i); [by left|done].
Qed.
Lemma isPlayersAllAllied_spec ids ps : ids ≠ ∅ → (∀ a, a ∈ ids → is_Some (ps !! a)) → ∃ r,
  isPlayersAllAllied ids ps = Ok r ∧ ∀ t, r = Some t ↔ ∀ k p, k ∈ ids → ps !! k = Some p → pd_teamNumber p = t.
Proof.
  intros Hne H. unfold isPlayersAllAllied. pose proof (elem_of_set_elems ids) as He.
  destruct (set_elems ids) as [|i l] eqn:E.
  - destruct Hne. apply set_eq. intros x. rewrite <- He. set_solver.
  - destruct (H i) as [p Hp]; [apply He; by left|]. unfold at_. rewrite Hp, res_bind_ok.
    destruct (same_team_spec ps (pd_teamNumber p) (i :: l)) as (b & -> & Hb); [intros a Ha; apply H, He, Ha|]. rewrite res_bind_ok.
    eexists. split; [done|]. intros t. setoid_rewrite He in Hb. destruct b.
    + split; [intros [= <-]; by apply Hb|]. intros H1. f_equal. apply (H1 i); [apply He; by left|done].
    + split; [done|]. intros H1. exfalso. enough (false = true) by done. apply Hb. intros k q Hk Hq.
      rewrite (H1 k q Hk Hq). symmetry. apply (H1 i); [apply He; by left|done].
Qed.

Lemma elem_of_in_map_order ps p : p ∈ in_map_order ps ↔ ∃ k, ps !! k = Some p.
Proof.
  unfold in_map_order. rewrite list_elem_of_omap. setoid_rewrite elem_of_sorted_keys. split.
  - intros (k & _ & H). by exists k.
  - intros (k & H). exists k. split; [by exists p|done].
Qed.
Lemma elem_of_getActivePlayers ps k : players_ok ps → k ∈ getActivePlayers ps ↔ is_active ps k.
Proof.
  intros Hok. unfold getActivePlayers. rewrite elem_of_list_to_set, list_elem_of_fmap. setoid_rewrite list_elem_of_filter.
  setoid_rewrite elem_of_in_map_order. unfold is_active, active. split.
  - intros (p & -> & H & k' & Hk'). destruct (Hok _ _ Hk') as [-> _]. exists p. split; [done|].
    destruct (pd_isDead p), (pd_isWatcher p); done.
  - intros (p & Hp & H1 & H2). exists p. destruct (Hok _ _ Hp) as [-> _]. split; [done|]. rewrite H1, H2. split; [done|by exists k].
Qed.

(** what [checkEndGameCondition] returns in a started game *)
Definition all_in_team (frozen ps : Players) (t : Z) : Prop :=
  ∀ k q, is_active ps k → frozen !! k = Some q → pd_teamNumber q = t.
Lemma checkEndGameCondition_spec g : monitor_pre g → ∃ r, checkEndGameCondition g = Ok r ∧
  (m_gameStarted g = false → r = None) ∧
  (m_gameStarted g = true →
    (r = Some 0 ↔ ∀ k, ¬ is_active (m_players g) k) ∧
    (∀ t, 0 < t → r = Some t ↔ (∃ k, is_active (m_players g) k) ∧ all_in_team (m_frozenPlayers g) (m_players g) t) ∧
    (∀ t, t < 0 → r = Some t → t = -1)).
Proof.
  intros (Hc & Hp & Hf). unfold checkEndGameCondition. destruct (m_gameStarted g) eqn:Hs; cbn [negb]; [|by exists None].
  destruct (Hf Hs) as [Hpl Hdom]. clear Hf. pose proof (elem_of_getActivePlayers (m_players g)) as He.
  case_bool_decide as Hemp.
  { assert (∀ k, ¬ is_active (m_players g) k) as Hno by (intros k Hk; apply He in Hk; [|done]; rewrite Hemp in Hk; set_solver).
    exists (Some 0). split_and!; [done..|]. intros _. split_and!; [done| |intros t Ht [= <-]; lia]. intros t Ht. split; [intros [= <-]; lia|].
    intros [[k Hk] _]. by apply Hno in Hk. }
  destruct (set_choose_L _ Hemp) as [k0 Hk0]. apply He in Hk0; [|done].
  destruct (isPlayersAllAllied_spec (getActivePlayers (m_players g)) (m_frozenPlayers g) Hemp) as (r & -> & Hr).
  { intros a Ha. apply He in Ha; [|done]. destruct (Hdom a Ha) as (q & Hq & _). by exists q. }
  rewrite res_bind_ok. assert (∀ t, r = Some t ↔ all_in_team (m_frozenPlayers g) (m_players g) t) as Hr'.
  { intros t. rewrite Hr. unfold all_in_team. split; intros H k q Hk Hq; (apply (H k q); [by apply He|done]). }
  assert (∀ t, r = Some t → 0 < t) as Hpos.
  { intros t Ht. apply Hr' in Ht. destruct (Hdom k0 Hk0) as (q & Hq & Hact).
    rewrite <- (Ht k0 q); [by apply (Hpl k0 q)|done|done]. }
  destruct r as [t0|].
  - exists (Some t0). specialize (Hpos t0 eq_refl). split_and!; [done..|]. intros _. split_and!.
    + split; [intros [= ->]; lia|]. intros Hno. by destruct (Hno k0).
    + intros t Ht. rewrite Hr'. naive_solver.
    + intros t Ht [= ->]. lia.
  - destruct (isPlayersAllAllied_spec (getActivePlayers (m_players g)) (m_players g) Hemp) as (r & -> & _).
    { intros a Ha. apply He in Ha as (p & Hpa & _); [|done]. by exists p. }
    rewrite res_bind_ok. eexists. split; [done|]. split; [done|]. intros _. split_and!.
    + split; [by destruct r|]. intros Hno. by destruct (Hno k0).
    + intros t Ht. split; [destruct r; intros [= <-]; lia|]. intros [_ H]. apply Hr' in H. done.
    + intros t Ht. destruct r; intros [= <-]; done.
Qed.

Lemma upholds_latchEndGameTick t : upholds monitor_ok (latchEndGameTick t).
Proof.
  intros g Hg. unfold latchEndGameTick. eexists _, _. split; [done|]. case_match; [|done].
  split; [done|]. split; [done|]. split; [by left|]. done.
Qed.
Lemma upholds_latchEndGameResult w : upholds monitor_ok (latchEndGameResult w).
Proof.
  intros g Hg. unfold latchEndGameResult. apply safe_gets. cbn [id].
  destruct (isGameOver g) eqn:Ho; [by apply upholds_ret|]. destruct (w <? 0).
  - eexists _, _. split; [done|]. split; [done|]. split; [congruence|]. split; [by left|done].
  - apply safe_modify. eexists tt, _. split.
    { unfold notify_if. cbn [set_result set_realNames m_gameEventHandler]. destruct Hg as [((-> & _) & _) _]. done. }
    split; [done|]. split; [congruence|]. split; [|done]. right. eexists. split; [done|].
    split; [|split; [|rewrite ends_add; reflexivity]].
    + unfold isGameOver. cbn. by case_match.
    + done.
Qed.
Lemma upholds_gets I {A B} (h : GameMonitor2 → A) (f : A → gm B) : (∀ a, upholds I (f a)) → upholds I (gets h ≫= f).
Proof. intros H g Hg. apply safe_gets. by apply H. Qed.
(** the condition never fails to be worked out *)
Lemma upholds_checked (f : GameMonitor2 → option Z → gm unit) : (∀ g w, upholds monitor_ok (f g w)) →
  upholds monitor_ok (g ← gets id; ended ← lift (checkEndGameCondition g); f g ended).
Proof.
  intros H g Hg. apply safe_gets. cbn [id]. destruct (checkEndGameCondition_spec g) as (r & -> & _); [apply Hg|].
  apply safe_lift. by apply H.
Qed.
Lemma upholds_latch_if_ended : upholds monitor_ok latch_if_ended.
Proof. apply upholds_checked. intros _ [w|]; [apply upholds_latchEndGameResult|apply upholds_ret]. Qed.
#[export] Hint Resolve upholds_armies upholds_notifyPlayerStatuses upholds_latchEndGameTick upholds_latchEndGameResult upholds_latch_if_ended : monitor.

(** ** The handlers *)
Lemma upholds_alliances_changed : upholds monitor_ok alliances_changed.
Proof.
  apply upholds_bind; [apply upholds_armies|intros _]. apply upholds_gets. intros g. apply upholds_bind; [auto with monitor|intros _].
  apply upholds_checked. intros _ [w|]; auto with monitor.
Qed.
Lemma after_bind (I : GameMonitor2 → Prop) {A} (f : unit → gm A) g g' : after I g tt g' → upholds I (f tt) → safe (f tt) (after I g) g'.
Proof. intros [H1 H2] Hf. eapply upholds_trans; [exact H2|]. by apply Hf. Qed.

Lemma chat_sender_known g source chat : players_ok (m_players g) → known source g = true →
  chat_sender source chat (m_players g) = source.
Proof.
  intros Hok [p Hp]%known_true. destruct (Hok _ _ Hp) as (_ & H & _). unfold chat_sender.
  by rewrite (proj2 (Z.eqb_neq source 0)) by lia.
Qed.
Lemma getPlayerDpidByName_known ps name : players_ok ps → getPlayerDpidByName name ps ≠ 0 →
  is_Some (ps !! getPlayerDpidByName name ps).
Proof.
  intros Hok. unfold getPlayerDpidByName. destruct (list_find _ _) as [[i p]|] eqn:E; [|done]. intros _.
  apply list_find_Some in E as (Hi & _). assert (p ∈ in_map_order ps) as Hp by (by eapply list_elem_of_lookup_2).
  apply elem_of_in_map_order in Hp as (k & Hk). destruct (Hok _ _ Hk) as (-> & _). by exists p.
Qed.
Lemma updateAlliances_after g source chat : monitor_ok g → known source g = true →
  safe (updateAlliances source chat) (after monitor_ok g) g.
Proof.
  intros Hg Hk. unfold updateAlliances. apply safe_gets. pose proof Hg as [(_ & Hok & _) _].
  rewrite (chat_sender_known g source chat Hok Hk). destruct (source =? 0); [by apply upholds_ret|].
  destruct (find_last_of 32 chat) as [n|]; [|by apply upholds_ret]. case_match; [|by apply upholds_ret].
  set (word := drop _ _). destruct (_ || _) eqn:E; [by apply upholds_ret|]. apply orb_false_iff in E as [E _].
  apply Z.eqb_neq in E. pose proof (getPlayerDpidByName_known _ word Hok E) as [q Hq].
  destruct (update_player_after g source id Hg Hk) as [H1 H2]; [intros p; split_and!; [done|by left|done]|]. apply safe_modify.
  set (g1 := update_player source id g) in *.
  assert (known source g1 = true) as Hk1 by (apply known_true; cbn; by rewrite lookup_insert_eq).
  assert (is_Some (m_players g1 !! getPlayerDpidByName word (m_players g))) as Hq1.
  { cbn. destruct (decide (source = getPlayerDpidByName word (m_players g))) as [->|]; [by rewrite lookup_insert_eq|by rewrite lookup_insert_ne]. }
  case_bool_decide; [|case_bool_decide; [|by apply safe_ret]]; apply safe_modify, safe_ret.
  - destruct (update_player_after g1 source (λ p, pd_set_allies ({[getPlayerDpidByName word (m_players g)]} ∪ pd_allies p) p) H1 Hk1) as [K1 K2].
    { intros p. split; [done|]. split; [|done]. intros a [->%elem_of_singleton|Ha]%elem_of_union; [by right|by left]. }
    split; [exact K1|etrans; [exact H2|exact K2]].
  - destruct (update_player_after g1 source (λ p, pd_set_allies (pd_allies p ∖ {[getPlayerDpidByName word (m_players g)]}) p) H1 Hk1) as [K1 K2].
    { intros p. split; [done|]. split; [|done]. intros a [Ha _]%elem_of_difference. by left. }
    split; [exact K1|etrans; [exact H2|exact K2]].
Qed.
Lemma upholds_onChat source chat : upholds monitor_ok (onChat source chat).
Proof.
  intros g Hg. unfold onChat. apply safe_gets. cbn [id]. destruct (known source g) eqn:Hk; cbn [negb]; [|by apply upholds_ret].
  apply safe_bind. exists tt, (add_game_event (onChatEvent chat (source =? m_localDplayId g)) g). split.
  { unfold notify_if. destruct Hg as [((-> & _) & _) _]. done. }
  eapply upholds_trans; [by apply evolves_event|]. apply safe_bind. eapply safe_mono; [by apply updateAlliances_after|].
  intros b g' [H1 H2]. eapply upholds_trans; [exact H2|]. apply upholds_when; [apply upholds_alliances_changed|done].
Qed.
Lemma upholds_onAlliance subject object b : upholds monitor_ok (onAlliance subject object b).
Proof.
  intros g Hg. unfold onAlliance. apply safe_gets. cbn [id]. destruct (known subject g) eqn:Hk, (known object g) eqn:Ho; cbn [negb orb];
    try by apply upholds_ret.
  apply safe_modify. apply (after_bind _ (λ _, when _ _)); [|apply upholds_when, upholds_alliances_changed].
  apply update_player_after; [done..|]. intros p. split; [done|]. split; [|done]. apply known_true in Ho, Hk as [s Hs].
  rewrite (at_key_lookup _ _ _ _ Hs). pose proof Hg as [(_ & Hok & _) _]. destruct (Hok _ _ Hs) as (_ & _ & Hal).
  intros a. destruct b; cbn [pd_set_allies pd_allies].
  - intros [->%elem_of_singleton|Ha]%elem_of_union; right; auto.
  - intros [Ha _]%elem_of_difference. right; auto.
Qed.

Lemma select_one_tame from team ps b k : players_ok ps → is_Some (ps !! from) → is_Some (ps !! k) →
  tame ps (select_one from team (ps, b) k).1.
Proof.
  intros Hok Hf Hk. unfold select_one.
  destruct Hf as [s Hs], Hk as [o Ho]. rewrite (at_key_lookup _ _ _ _ Hs), (at_key_lookup _ _ _ _ Ho).
  destruct (Hok _ _ Hs) as (-> & _), (Hok _ _ Ho) as (-> & _).
  destruct (k =? from); [by apply tame_refl|].
  set (add := λ a p, pd_set_allies ({[a]} ∪ pd_allies p) p). set (del := λ a p, pd_set_allies (pd_allies p ∖ {[a]}) p).
  assert (∀ ps a, is_Some (ps !! a) → tame_change ps (add a)) as Hadd.
  { intros ps' a Ha p. split; [done|]. split; [|done]. intros x [->%elem_of_singleton|Hx]%elem_of_union; [by right|by left]. }
  assert (∀ ps a, tame_change ps (del a)) as Hdel.
  { intros ps' a p. split; [done|]. split; [|done]. intros x [Hx _]%elem_of_difference. by left. }
  assert (∀ f1 f2, tame_change ps f1 → (∀ ps', is_Some (ps' !! from) → tame_change ps' f2) →
    tame ps (<[k := f2 (at_key PlayerData_init (<[from := f1 s]> ps) k)]> (<[from := f1 s]> ps))) as Htwo.
  { intros f1 f2 H1 H2. pose proof (tame_insert ps from s f1 Hok Hs H1) as T. eapply tame_trans; [exact T|].
    apply tame_update; [by eapply tame_ok| |].
    - apply (proj1 (proj2 T)). by exists o.
    - apply H2. by rewrite lookup_insert_eq. }
  destruct (_ && _); cbn [fst].
  - apply (Htwo (add k) (add from)); [apply Hadd; by exists o|]. intros ps' H. by apply Hadd.
  - apply (Htwo (del k) (del from)); [apply Hdel|]. intros ps' _. apply Hdel.
Qed.
Lemma select_loop_tame from team keys ps b : players_ok ps → is_Some (ps !! from) → (∀ k, k ∈ keys → is_Some (ps !! k)) →
  tame ps (foldl (select_one from team) (ps, b) keys).1.
Proof.
  revert ps b. induction keys as [|k keys IH]; intros ps b Hok Hf Hks; cbn [foldl]; [by apply tame_refl|].
  pose proof (select_one_tame from team ps b k Hok Hf (Hks k ltac:(by left))) as T.
  destruct (select_one from team (ps, b) k) as [ps' b']. cbn [fst] in T. eapply tame_trans; [exact T|].
  apply IH; [by eapply tame_ok|by apply T|]. intros j Hj. apply T, Hks. by right.
Qed.
Lemma upholds_onTeamSelection from team : upholds monitor_ok (onTeamSelection from team).
Proof.
  intros g Hg. unfold onTeamSelection. apply safe_gets. cbn [id]. destruct (known from g) eqn:Hk; cbn [negb]; [|by apply upholds_ret].
  apply safe_modify. destruct (update_player_after g from (pd_set_selection team) Hg Hk) as [H1 H2].
  { intros p. split_and!; [done|by left|done]. }
  eapply upholds_trans; [exact H2|]. apply safe_gets. set (g1 := update_player from (pd_set_selection team) g) in *.
  destruct (foldl (select_one from team) _ _) as [ps b] eqn:E. apply safe_modify. apply (after_bind _ (λ _, when _ _)).
  2: apply upholds_when, upholds_alliances_changed.
  apply tame_step; [done|]. change ps with (ps, b).1. rewrite <- E. apply select_loop_tame; [apply H1| |].
  - cbn. by rewrite lookup_insert_eq.
  - intros k Hk'. by apply elem_of_sorted_keys.
Qed.
Lemma upholds_modify I h : (∀ g, I g → after I g tt (h g)) → upholds I (modify h).
Proof. intros H g Hg. exists tt, (h g). split; [done|]. by apply H. Qed.
(** [update_player] on a player who is known *)
Lemma safe_update g k f (m : unit → gm unit) : monitor_ok g → known k g = true → tame_change (m_players g) f →
  upholds monitor_ok (m tt) → safe (modify (update_player k f) ≫= m) (after monitor_ok g) g.
Proof.
  intros Hg Hk Hf Hm. apply safe_modify. apply (after_bind _ m); [|done]. by apply update_player_after.
Qed.
Lemma dead_change ps : tame_change ps pd_set_dead.
Proof. intros p. split_and!; [done|by left|]. by intros [_ H]. Qed.

Lemma upholds_onUnitDied source unitId : upholds monitor_ok (onUnitDied source unitId).
Proof.
  intros g Hg. unfold onUnitDied. apply safe_gets. cbn [id]. destruct (known source g) eqn:Hk; cbn [negb]; [|by apply upholds_ret].
  pose proof Hg as [((_ & _ & _ & Hm) & _) _]. rewrite (proj2 (Z.eqb_neq _ _) Hm).
  case_match; [|by apply upholds_ret]. apply safe_update; [done..|apply dead_change|].
  apply (upholds_checked (λ g ended, match ended with Some w => if 0 <? w then latchEndGameTick _ else _ | None => _ end)).
  intros g' [w|]; [|auto with monitor]. case_match; auto with monitor.
Qed.

(** before the start of the game any well-formed set of players will do *)
Lemma pre_players g ps' : monitor_pre g → m_gameStarted g = false → players_ok ps' →
  monitor_pre (set_players ps' g) ∧ evolves g (set_players ps' g).
Proof.
  intros (Hc & _ & _) Hs Hp. split; [|apply evolves_players; congruence]. split; [done|]. split; [done|]. intros Hs'. cbn in Hs'. congruence.
Qed.
(** ... and once its teams are worked out, the invariant holds again *)
Lemma safe_armies g ps' (m : unit → gm unit) : monitor_pre g → m_gameStarted g = false → players_ok ps' → upholds monitor_ok (m tt) →
  safe (updatePlayerArmies ≫= m) (after monitor_ok g) (set_players ps' g).
Proof.
  intros Hg Hs Hp Hm. destruct (pre_players g ps' Hg Hs Hp) as [H1 H2]. apply safe_bind.
  eapply safe_mono; [by apply armies_after|]. intros [] g' [H3 H4]. eapply upholds_trans; [etrans; [exact H2|exact H4]|]. by apply Hm.
Qed.
Lemma removed_ok ps k : players_ok ps → players_ok ((λ p, pd_set_allies (pd_allies p ∖ {[k]}) p) <$> delete k ps).
Proof.
  intros Hok j p' Hj. rewrite lookup_fmap in Hj. apply fmap_Some in Hj as (p & Hj & ->). apply lookup_delete_Some in Hj as [Hne Hj].
  destruct (Hok _ _ Hj) as (H1 & H2 & H3). split; [done|]. split; [done|]. intros a [Ha Hna]%elem_of_difference.
  rewrite lookup_fmap, fmap_is_Some, lookup_delete_ne; [by apply H3|]. set_solver.
Qed.
Lemma remove_player_after g k : monitor_ok g → m_gameStarted g = false → known k g = true →
  safe (remove_player k) (after monitor_ok g) g.
Proof.
  intros Hg Hs [p Hk]%known_true. unfold remove_player. apply safe_gets. unfold at_. cbn [id]. rewrite Hk. apply safe_lift.
  apply safe_bind. exists tt, (add_game_event (onClearSlot p) g). split.
  { unfold notify. destruct Hg as [((-> & _) & _) _]. done. }
  eapply upholds_trans; [by apply (evolves_event (onClearSlot p))|].
  apply safe_modify. apply (safe_armies _ _ (λ _, notifyPlayerStatuses)); [by apply pre_event, Hg|done| |auto with monitor].
  apply removed_ok, Hg.
Qed.
Lemma upholds_onDplayDeletePlayer k : upholds monitor_ok (onDplayDeletePlayer k).
Proof.
  intros g Hg. unfold onDplayDeletePlayer. apply safe_gets. cbn [id]. destruct (k =? 0); [by apply upholds_ret|].
  destruct (known k g) eqn:Hk; cbn [negb orb]; [|by apply upholds_ret].
  destruct (m_gameStarted g) eqn:Hs; cbn [negb]; [by apply upholds_latch_if_ended|by apply remove_player_after].
Qed.
Lemma upholds_onRejectOther source k : upholds monitor_ok (onRejectOther source k).
Proof.
  intros g Hg. unfold onRejectOther. apply safe_gets. cbn [id]. destruct (known source g); cbn [negb orb]; [|by apply upholds_ret].
  destruct (known k g) eqn:Hk; cbn [negb]; [|by apply upholds_ret].
  destruct (m_gameStarted g) eqn:Hs; cbn [negb]; [|by apply remove_player_after].
  apply (safe_update g k pd_set_dead (λ _, latch_if_ended)); [done..|apply dead_change|apply upholds_latch_if_ended].
Qed.

(** programs that do not touch the players *)
Definition frames {A} (m : gm A) : Prop := ∀ g, m_players (m g).2 = m_players g.
Lemma frames_bind {A B} (m : gm A) (f : A → gm B) : frames m → (∀ a, frames (f a)) → frames (m ≫= f).
Proof.
  intros Hm Hf g. specialize (Hm g). unfold mbind, stx_bind. destruct (m g) as [[a|e| |] g']; cbn in *; [|done..].
  by rewrite Hf.
Qed.
Lemma frames_when b m : frames m → frames (when b m).
Proof. by destruct b. Qed.
Lemma frames_for_each {A} (l : list A) body : (∀ a, frames (body a)) → frames (for_each l body).
Proof. intros H. induction l as [|a l IH]; cbn [for_each]; [done|]. by apply frames_bind. Qed.
Lemma frames_notify e : frames (notify e).
Proof. intros g. unfold notify. by case_match. Qed.
Lemma frames_notify_if e : frames (notify_if e).
Proof. intros g. unfold notify_if. by case_match. Qed.
Lemma frames_notifyPlayerStatuses : frames notifyPlayerStatuses.
Proof.
  apply frames_bind; [done|]. intros h. apply frames_when, frames_bind; [done|]. intros ps. apply frames_bind.
  - apply frames_for_each. intros k. apply frames_when, frames_bind; [done|]. intros names. apply frames_notify.
  - intros _. apply frames_for_each. intros n. apply frames_when, frames_notify.
Qed.
Lemma frames_latchEndGameResult w : frames (latchEndGameResult w).
Proof.
  apply frames_bind; [done|]. intros g. cbn [id]. destruct (isGameOver g); [done|]. destruct (w <? 0); [done|].
  apply frames_bind; [done|]. intros _. apply frames_notify_if.
Qed.
Lemma frames_start_game tick : frames (start_game tick).
Proof.
  apply frames_bind; [done|]. intros _. apply frames_bind; [apply frames_notifyPlayerStatuses|]. intros _.
  apply frames_bind; [apply frames_notify_if|]. intros _. apply frames_bind; [done|]. intros g.
  apply frames_bind; [done|]. intros [w|]; [apply frames_latchEndGameResult|done].
Qed.
Lemma safe_frames {A} (m : gm A) Q g : frames m → safe m Q g → safe m (λ a g', Q a g' ∧ m_players g' = m_players g) g.
Proof. intros Hf (a & g' & E & H). exists a, g'. split; [done|]. split; [done|]. specialize (Hf g). by rewrite E in Hf. Qed.

Lemma start_game_after g tick : monitor_ok g → m_gameStarted g = false → safe (start_game tick) (after monitor_ok g) g.
Proof.
  intros [(Hc & Hp & Hf) Ha] Hs. unfold start_game. apply safe_modify.
  apply (after_bind _ (λ _, notifyPlayerStatuses ≫= _)).
  - split; [|split; [done|split; [by left|congruence]]]. split; [|done]. split; [done|]. split; [done|].
    intros _. done.
  - apply upholds_bind; [auto with monitor|intros _]. apply upholds_bind; [auto with monitor|intros _].
    apply (upholds_checked (λ _ ended, match ended with Some _ => latchEndGameResult (-1) | None => mret tt end)).
    intros _ [w|]; auto with monitor.
Qed.
Lemma launch_after g tick : monitor_ok g →
  safe (when (negb (m_gameLaunched g)) (modify (λ g, set_launched true (m_gameStarted g) g) ≫= λ _, notify_if (onGameStarted tick false)))
    (λ a g', after monitor_ok g a g' ∧ m_gameStarted g' = m_gameStarted g ∧ m_players g' = m_players g) g.
Proof.
  intros Hg. destruct (m_gameLaunched g); [by apply safe_ret|]. cbn [negb when]. apply safe_modify.
  eexists tt, (add_game_event (onGameStarted tick false) (set_launched true (m_gameStarted g) g)). split.
  - unfold notify_if. destruct Hg as [((H & _) & _) _]. cbn [set_launched m_gameEventHandler]. by rewrite H.
  - split; [|done]. split; [done|]. split; [done|]. split; [left; by rewrite ends_add, app_nil_r|done].
Qed.
Lemma tick_change ps tick : tame_change ps (pd_set_tick tick).
Proof. intros p. split_and!; [done|by left|done]. Qed.
Lemma upholds_onGameTick source tick : upholds monitor_ok (onGameTick source tick).
Proof.
  intros g Hg. unfold onGameTick. apply safe_gets. cbn [id]. destruct (known source g) eqn:Hk; cbn [negb]; [|by apply upholds_ret].
  apply safe_bind. eapply safe_mono; [by apply launch_after|]. intros [] g1 ([H1 H2] & Hs1 & Hp1).
  eapply upholds_trans; [exact H2|]. apply safe_bind.
  apply safe_mono with (P := λ a g', after monitor_ok g1 a g' ∧ m_players g' = m_players g1).
  { rewrite <- Hs1. destruct (m_gameStarted g1) eqn:Hs; cbn [negb andb when]; [by apply safe_ret|].
    destruct (m_gameStartsAfterTickCount g <? tick); cbn [when]; [|by apply safe_ret].
    apply safe_frames; [apply frames_start_game|by apply start_game_after]. }
  intros [] g2 [[H3 H4] Hp2]. eapply upholds_trans; [exact H4|]. apply safe_modify.
  apply (after_bind _ (λ _, g ← gets id; _)).
  - case_match; [|done]. apply update_player_after; [done| |apply tick_change]. unfold known in *. by rewrite Hp2, Hp1.
  - apply upholds_gets. intros g3. apply upholds_when. apply upholds_latch_if_ended.
Qed.
Lemma announced_ok ps k name : players_ok ps → 0 < k → players_ok (<[k := pd_set_id name k (at_key PlayerData_init ps k)]> ps).
Proof.
  intros Hok Hk j p Hj. assert (∀ a, is_Some (ps !! a) → is_Some (<[k := pd_set_id name k (at_key PlayerData_init ps k)]> ps !! a)) as Hdom.
  { intros a Ha. destruct (decide (k = a)) as [->|]; [by rewrite lookup_insert_eq|by rewrite lookup_insert_ne]. }
  destruct (decide (k = j)) as [->|Hne].
  - rewrite lookup_insert_eq in Hj. apply (inj Some) in Hj as <-. split; [done|]. split; [done|]. intros a Ha. apply Hdom.
    unfold at_key in Ha. destruct (ps !! j) as [p|] eqn:E; [|cbn in Ha; set_solver]. by apply (Hok _ _ E).
  - rewrite lookup_insert_ne in Hj by done. destruct (Hok _ _ Hj) as (H1 & H2 & H3). split_and!; [done..|]. auto.
Qed.
Lemma upholds_set_ids (h : GameMonitor2 → Z * Z) b : upholds monitor_pre (when b (modify (λ g, set_ids (h g).1 (h g).2 g))).
Proof. apply upholds_when, upholds_modify. intros g Hg. split; [done|]. split; [done|]. split; [by left|done]. Qed.
Lemma pre_bind {A} (m : gm unit) (f : unit → gm A) g : upholds monitor_pre m → monitor_pre g →
  (∀ g', monitor_pre g' → safe (f tt) (after monitor_ok g') g') → safe (m ≫= f) (after monitor_ok g) g.
Proof.
  intros Hm Hg Hf. apply safe_bind. eapply safe_mono; [by apply Hm|]. intros [] g' [H1 H2].
  eapply upholds_trans; [exact H2|by apply Hf].
Qed.
Lemma announce_player_after g k name : monitor_ok g → m_gameStarted g = false → 0 < k →
  safe (announce_player k name) (after monitor_ok g) g.
Proof.
  intros [Hg _] Hs Hk. unfold announce_player. apply safe_modify.
  destruct (pre_players g _ Hg Hs (announced_ok (m_players g) k name (proj1 (proj2 Hg)) Hk)) as [H1 H2].
  eapply upholds_trans; [exact H2|]. fold (update_player k (pd_set_id name k) g) in *. revert H1.
  generalize (update_player k (pd_set_id name k) g). clear. intros g Hg. apply safe_gets. cbn [id].
  pose proof Hg as ((_ & Hh & Hl & _) & _). rewrite bool_decide_eq_false_2 by done.
  apply pre_bind; [apply (upholds_set_ids (λ g, (k, m_localDplayId g)))|done|]. intros g1 Hg1. rewrite bool_decide_eq_false_2 by done.
  apply (pre_bind _ (λ _, updatePlayerArmies)); [apply (upholds_set_ids (λ g, (m_hostDplayId g, k)))|done|].
  intros g2 Hg2. by apply armies_after.
Qed.
Lemma upholds_onDplaySuperEnumPlayerReply k name : upholds monitor_ok (onDplaySuperEnumPlayerReply k name).
Proof.
  intros g Hg. unfold onDplaySuperEnumPlayerReply. apply safe_gets. cbn [id]. destruct (m_gameStarted g) eqn:Hs; [by apply upholds_ret|].
  case_bool_decide; [by apply upholds_ret|]. destruct (Z.ltb_spec 0 k); [|by apply upholds_ret]. by apply announce_player_after.
Qed.
Lemma upholds_onDplayCreateOrForwardPlayer c k name : upholds monitor_ok (onDplayCreateOrForwardPlayer c k name).
Proof.
  intros g Hg. unfold onDplayCreateOrForwardPlayer. apply safe_gets. cbn [id]. destruct (c =? 8); [|by apply upholds_ret].
  by apply upholds_onDplaySuperEnumPlayerReply.
Qed.

Lemma side_ok ps k s w : players_ok ps → is_Some (ps !! k) →
  players_ok (<[k := pd_set_side s w (at_key PlayerData_init ps k)]> ps).
Proof.
  intros Hok [p Hk]. rewrite (at_key_lookup _ _ _ _ Hk). destruct (Hok _ _ Hk) as (Hid & Hpos & Hal).
  assert (∀ a, is_Some (ps !! a) → is_Some (<[k := pd_set_side s w p]> ps !! a)) as Hdom.
  { intros a Ha. destruct (decide (k = a)) as [->|]; [by rewrite lookup_insert_eq|by rewrite lookup_insert_ne]. }
  intros j q Hj. apply lookup_insert_Some in Hj as [[<- <-]|[_ Hj]].
  - split_and!; [done..|]. intros a Ha. apply Hdom, Hal, Ha.
  - destruct (Hok _ _ Hj) as (H1 & H2 & H3). split_and!; [done..|]. auto.
Qed.
Lemma upholds_onStatus source mapName maxUnits slot side w ai : upholds monitor_ok (onStatus source mapName maxUnits slot side w ai).
Proof.
  intros g Hg. unfold onStatus. apply safe_gets. cbn [id]. destruct (known source g) eqn:Hk; cbn [negb orb]; [|by apply upholds_ret].
  destruct (m_gameStarted g) eqn:Hs; [by apply upholds_ret|]. apply safe_modify.
  destruct (update_player_after g source (pd_set_slot ai slot) Hg Hk) as [H1 H2]; [intros p; split_and!; [done|by left|done]|].
  eapply upholds_trans; [exact H2|]. set (g1 := update_player source (pd_set_slot ai slot) g) in *.
  assert (upholds monitor_ok (when ((source =? m_hostDplayId g) && negb (bool_decide (mapName = [])) && (0 <? maxUnits) && negb (bool_decide (m_mapName g = mapName)))
      (modify (set_map mapName maxUnits) ≫= λ _,
       notify_if (onGameSettings mapName maxUnits (m_hostPlayerName g) (m_localPlayerName g))))) as Hmap.
  { destruct (0 <? maxUnits) eqn:Hm; [|rewrite andb_false_r; apply upholds_ret]. apply upholds_when. apply Z.ltb_lt in Hm.
    apply upholds_bind; [|auto with monitor]. apply upholds_modify. intros g2 [((Hh & Hn & Hl & _) & Hp) Ha].
    split; [|split; [done|split; [by left|done]]]. split; [|done]. split; [|done]. split_and!; [done..|cbn; lia]. }
  match goal with |- context [when ?b (modify (update_player source (pd_set_side side w)) ≫= _)] => destruct b end; cbn [when].
  2: { apply safe_bind, safe_ret. by apply Hmap. }
  apply safe_bind, safe_modify. unfold update_player. apply safe_mono with (P := after monitor_ok g1).
  - apply (safe_armies g1 _ (λ _, notifyPlayerStatuses)); [apply H1|done| |auto with monitor]. apply side_ok; [apply H1|].
    cbn. by rewrite lookup_insert_eq.
  - intros [] g2 [H3 H4]. eapply upholds_trans; [exact H4|by apply Hmap].
Qed.
#[export] Hint Resolve upholds_onStatus upholds_onAlliance upholds_onTeamSelection upholds_onChat upholds_onUnitDied upholds_onRejectOther
  upholds_onGameTick : monitor.

(** ** Sub-packets of sufficient size *)

(** what [onTaPacket] reads of a sub-packet is inside of it; a map name has its terminator *)
Definition subpak_ok (s : bytes) : bool :=
  match s with
  | [] => false
  | code :: _ =>
      match SubPacketCode_of code with
      | Some PLAYER_INFO_20 => (186 <=? length s)%nat && existsb (Z.eqb 0) (take 139 (drop 1 s))
      | Some ALLY_23 => (14 <=? length s)%nat
      | Some TEAM_24 => (6 <=? length s)%nat
      | Some UNIT_KILLED_0C => (3 <=? length s)%nat
      | Some REJECT_1B => (5 <=? length s)%nat
      | Some UNIT_STAT_AND_MOVE_2C => (7 <=? length s)%nat
      | _ => true
      end
  end.

Lemma toUint32_ok s p : (p + 4 ≤ length s)%nat → is_ok (toUint32 s p).
Proof.
  intros H. unfold toUint32. destruct (rd8_ok s (p + 3) ltac:(lia)) as [b ->]. rewrite res_bind_ok.
  assert (∀ n b, (n ≤ 3)%nat → is_ok (toUint32_loop n s p b)) as Hn; [|by apply Hn].
  clear b. induction n as [|n IH]; intros b Hn; cbn [toUint32_loop]; [by eexists|].
  destruct (rd8_ok s (p + n) ltac:(lia)) as [c ->]. rewrite res_bind_ok. apply IH. lia.
Qed.
Lemma toUint16_ok s p : (p + 2 ≤ length s)%nat → is_ok (toUint16 s p).
Proof.
  intros H. unfold toUint16. destruct (rd8_ok s (p + 1) ltac:(lia)) as [b ->], (rd8_ok s p ltac:(lia)) as [c ->]. by eexists.
Qed.
Ltac read_one := first
  [ match goal with |- context [toUint32 ?s ?p ≫= _] => destruct (toUint32_ok s p ltac:(cbn [length] in *; lia)) as [? ->] end
  | match goal with |- context [toUint16 ?s ?p ≫= _] => destruct (toUint16_ok s p ltac:(cbn [length] in *; lia)) as [? ->] end
  | match goal with |- context [rd8 ?s ?p ≫= _] => destruct (rd8_ok s p ltac:(cbn [length] in *; lia)) as [? ->] end
  | match goal with |- context [rd_n ?s ?p ?n ≫= _] => rewrite (rd_n_slice s p n) by lia end ]; rewrite ?res_bind_ok.
Lemma TPlayerInfo_parse_ok junk s : (186 ≤ length s)%nat → ∃ t, TPlayerInfo_parse junk s = Ok t ∧ pi_fill1 t = take 139 (drop 1 s).
Proof.
  intros H. unfold TPlayerInfo_parse. destruct (Nat.eqb_spec (length s) 192); repeat read_one; by eexists.
Qed.
Lemma upholds_onSubPacket junk source s : subpak_ok s = true → upholds monitor_ok (onSubPacket junk source s).
Proof.
  intros Hs. destruct s as [|code s]; [done|]. unfold onSubPacket. eapply upholds_lift; [apply rd8_0|].
  unfold subpak_ok in Hs. destruct (SubPacketCode_of code) as [c|]; [|apply upholds_ret]. set (p := code :: s) in *.
  destruct c; try apply upholds_ret; auto with monitor;
    try (apply andb_true_iff in Hs as [Hs Hz]); apply Nat.leb_le in Hs.
  - destruct (rd16_ok p 1 ltac:(lia)) as [u Hu]. eapply upholds_lift; [exact Hu|auto with monitor].
  - destruct (rd32_ok p 1 ltac:(lia)) as [u Hu]. eapply upholds_lift; [exact Hu|auto with monitor].
  - destruct (TPlayerInfo_parse_ok junk p Hs) as (t & Ht & Hf). eapply upholds_lift; [exact Ht|].
    eapply upholds_lift; [|apply upholds_when; auto with monitor]. unfold getMapName. rewrite Hf, Hz. reflexivity.
  - assert (is_ok (TAlliance_parse p)) as [t Ht] by (unfold TAlliance_parse; repeat read_one; by eexists).
    eapply upholds_lift; [exact Ht|auto with monitor].
  - assert (is_ok (TTeam_parse p)) as [t Ht] by (unfold TTeam_parse; repeat read_one; by eexists).
    eapply upholds_lift; [exact Ht|auto with monitor].
  - destruct (rd32_ok p 3 ltac:(lia)) as [u Hu]. eapply upholds_lift; [exact Hu|auto with monitor].
Qed.
(** The map name of a status message is read as a C string in a field of 139 bytes.
    Nothing checks that it ends there: without a zero in the field the handler reads on
    behind it, whatever the rest of the message is. *)
Theorem unterminated_map_name junk source s g :
  head s = Some (code_byte PLAYER_INFO_20) → (186 ≤ length s)%nat → 0 ∉ take 139 (drop 1 s) → (onSubPacket junk source s g).1 = Undef.
Proof.
  intros Hc Hs Hz. destruct s as [|code s]; [done|]. injection Hc as ->. destruct (TPlayerInfo_parse_ok junk _ Hs) as (t & Ht & Hf).
  unfold onSubPacket, mbind, stx_bind, lift. rewrite rd8_0. change (SubPacketCode_of (code_byte PLAYER_INFO_20)) with (Some PLAYER_INFO_20).
  cbv iota beta. rewrite Ht. unfold getMapName. rewrite Hf. replace (existsb _ _) with false; [done|]. symmetry. apply not_true_iff_false.
  intros E. apply existsb_exists in E as (b & Hb & E). apply Z.eqb_eq in E as <-. by apply Hz, list_elem_of_In.
Qed.
Example unterminated_map_name_witness : (onSubPacket 0 1 (32 :: replicate 191 65) (GameMonitor2_make true 5 10 500)).1 = Undef.
Proof.
  apply unterminated_map_name; [reflexivity|vm_compute; lia|]. change (0 ∉ replicate 139 65). intros H. by apply elem_of_replicate in H as [H _].
Defined.
