(* ===== verification/GameMonitorResults.v ===== *)
(** * What a game monitor promises of a whole game

    The invariant over any sequence of inputs, the finality of the result and of a
    decided game, and the scores. *)
From S2P Require Import Prelude ExceptState OrderedMaps TPacketCompress TPacketSplit TPacketSmartpak TPacketRecords GameMonitor GameMonitorTeams GameMonitorSafety.

(** ** Inputs *)

(** the calls of the parser *)
Inductive monitor_input : Type :=
  | InEnumReply (dplayId : Z) (name : bytes)
  | InCreatePlayer (command dplayId : Z) (name : bytes)
  | InDeletePlayer (dplayId : Z)
  | InTaPacket (junk source : Z) (subpaks : list bytes).
Definition monitor_handle (i : monitor_input) : gm unit :=
  match i with
  | InEnumReply k name => onDplaySuperEnumPlayerReply k name
  | InCreatePlayer c k name => onDplayCreateOrForwardPlayer c k name
  | InDeletePlayer k => onDplayDeletePlayer k
  | InTaPacket junk source subpaks => onTaPacket junk source subpaks
  end.
Definition input_ok (i : monitor_input) : bool :=
  match i with InTaPacket _ _ subpaks => forallb subpak_ok subpaks | _ => true end.
Definition monitor_run (inputs : list monitor_input) : gm unit := for_each inputs monitor_handle.

Lemma upholds_onTaPacket junk source subpaks : forallb subpak_ok subpaks = true → upholds monitor_ok (onTaPacket junk source subpaks).
Proof.
  intros H. apply upholds_for_each. intros s Hs. apply upholds_onSubPacket. rewrite forallb_forall in H. by apply H, list_elem_of_In.
Qed.
Lemma upholds_run inputs : forallb input_ok inputs = true → upholds monitor_ok (monitor_run inputs).
Proof.
  intros H. apply upholds_for_each. intros i Hi. rewrite forallb_forall in H. specialize (H i ltac:(by apply list_elem_of_In)).
  destruct i; cbn [monitor_handle].
  - apply upholds_onDplaySuperEnumPlayerReply.
  - apply upholds_onDplayCreateOrForwardPlayer.
  - apply upholds_onDplayDeletePlayer.
  - by apply upholds_onTaPacket.
Qed.
Lemma run_result g inputs g' : monitor_ok g → forallb input_ok inputs = true → monitor_run inputs g = (Ok tt, g') → monitor_ok g' ∧ evolves g g'.
Proof. intros Hg Hi E. destruct (upholds_run inputs Hi g Hg) as (a & g2 & E2 & H). rewrite E2 in E. by injection E as _ <-. Qed.

(** a monitor as the applications set it up *)
Definition monitor_start (host local : bytes) (startTick drawTicks maxUnits : Z) : GameMonitor2 :=
  set_names host local (GameMonitor2_make true startTick drawTicks maxUnits).
Lemma monitor_start_ok host local a d m : host ≠ [] → local ≠ [] → m ≠ 0 → monitor_ok (monitor_start host local a d m).
Proof.
  intros Hh Hl Hm. split; [split; [done|split; [|done]]|]; intros k p Hk; cbn in Hk; by rewrite lookup_empty in Hk.
Qed.

(** a game of two players for the witnesses: both arrive, the game starts, the commander
    of the second dies, and the time for a draw passes *)
Definition tick_packet (tick : Z) : bytes := [44; 7; 0] ++ le4 tick.
Definition two_start : GameMonitor2 := monitor_start [97] [98] 5 10 500.
Definition two_inputs : list monitor_input :=
  [InEnumReply 10 [97]; InEnumReply 11 [98]; InTaPacket 0 10 [tick_packet 6]; InTaPacket 0 11 [[12; 1; 0]]].
Definition two_decided : GameMonitor2 := (monitor_run two_inputs two_start).2.
Definition two_over : GameMonitor2 := (onTaPacket 0 10 [tick_packet 16] two_decided).2.
Lemma two_start_ok : monitor_ok two_start.
Proof. by apply monitor_start_ok. Qed.
Lemma two_decided_ok : monitor_ok two_decided.
Proof. apply (run_result two_start two_inputs); [apply two_start_ok|vm_compute; reflexivity..]. Qed.

(** ** The properties *)

(** C3: a monitor that knows the names of the host and of the local player, has a listener
    and a divisor for unit numbers never fails: whatever the calls of the parser, and
    whatever the players and sub-packets in them, as long as no sub-packet is shorter
    than the fields that the monitor reads of it and the map name of every status message
    ends inside the 139 bytes that it has ([subpak_ok]; the code checks neither, see
    [unterminated_map_name]), every handler ends without an exception and without an
    undefined access, and keeps the invariant *)
Theorem monitor_never_fails (g : GameMonitor2) (inputs : list monitor_input) :
  monitor_ok g → forallb input_ok inputs = true → ∃ g', monitor_run inputs g = (Ok tt, g') ∧ monitor_ok g'.
Proof. intros Hg Hi. destruct (upholds_run inputs Hi g Hg) as ([] & g' & E & H & _). by exists g'. Qed.
Lemma monitor_never_fails_witness : ∃ g', monitor_run two_inputs two_start = (Ok tt, g') ∧ monitor_ok g'.
Proof. apply (monitor_never_fails two_start two_inputs); [apply two_start_ok|vm_compute; reflexivity]. Defined.

(** C4: once a game is over, no call (with sub-packets as in [monitor_never_fails]) changes
    the status or the scores of its result, and no further end is announced *)
Theorem result_is_final (g g' : GameMonitor2) (inputs : list monitor_input) :
  monitor_ok g → forallb input_ok inputs = true → isGameOver g = true → monitor_run inputs g = (Ok tt, g') →
  isGameOver g' = true ∧ gr_status (m_gameResult g') = gr_status (m_gameResult g) ∧
  gr_results (m_gameResult g') = gr_results (m_gameResult g) ∧ ends g' = ends g.
Proof.
  intros Hg Hi Ho E. destruct (run_result g inputs g' Hg Hi E) as [_ (R & A & _)]. specialize (R Ho).
  pose proof (same_result_over _ _ R) as Ho'. destruct R as [R1 R2]. split_and!; [congruence|done..|].
  destruct A as [A|(r & A & _)]; [done|congruence].
Qed.
Lemma two_over_ok : monitor_ok two_over.
Proof. apply (run_result two_decided [InTaPacket 0 10 [tick_packet 16]]); [apply two_decided_ok|vm_compute; reflexivity..]. Qed.
Lemma result_is_final_witness : ends (monitor_run [InTaPacket 0 10 [tick_packet 30]] two_over).2 = ends two_over.
Proof.
  apply (result_is_final two_over _ [InTaPacket 0 10 [tick_packet 30]]); [apply two_over_ok|vm_compute; reflexivity..].
Defined.

(** in a game of a new monitor the end is announced at most once, and only with the
    result that the monitor has from then on *)
Theorem end_announced_once (host local : bytes) (startTick drawTicks maxUnits : Z) (inputs : list monitor_input) (g' : GameMonitor2) :
  host ≠ [] → local ≠ [] → maxUnits ≠ 0 → forallb input_ok inputs = true →
  monitor_run inputs (monitor_start host local startTick drawTicks maxUnits) = (Ok tt, g') →
  ends g' = [] ∨ ∃ r, ends g' = [onGameEnded r] ∧ isGameOver g' = true ∧
    gr_status (m_gameResult g') = gr_status r ∧ gr_results (m_gameResult g') = gr_results r.
Proof.
  intros Hh Hl Hm Hi E. destruct (run_result _ inputs g' (monitor_start_ok host local startTick drawTicks maxUnits Hh Hl Hm) Hi E) as [_ (_ & A & _)].
  destruct A as [A|(r & _ & Ho & [R1 R2] & A)]; [by left|]. right. by exists r.
Qed.
Lemma end_announced_once_witness :
  let g' := (monitor_run (two_inputs ++ [InTaPacket 0 10 [tick_packet 16]]) two_start).2 in
  ends g' = [] ∨ ∃ r, ends g' = [onGameEnded r] ∧ isGameOver g' = true ∧
    gr_status (m_gameResult g') = gr_status r ∧ gr_results (m_gameResult g') = gr_results r.
Proof.
  apply (end_announced_once [97] [98] 5 10 500 (two_inputs ++ [InTaPacket 0 10 [tick_packet 16]])); [done..|lia|vm_compute; reflexivity|vm_compute; reflexivity].
Defined.
(** the game of the example does end, with a winner and a loser *)
Example two_over_ends : ends two_over = [onGameEnded (m_gameResult two_over)] ∧
  (ar_score <$> gr_results (m_gameResult two_over)) = [1; -1].
Proof. split; vm_compute; reflexivity. Qed.

(** C6: a game that has been decided between the teams of its start, or has nobody left,
    stays decided: after any further calls (with sub-packets as in [monitor_never_fails]) the end
    condition still holds, for the same
    winner unless everybody has died *)
Theorem decided_stays_decided (g g' : GameMonitor2) (inputs : list monitor_input) (w : Z) :
  monitor_ok g → forallb input_ok inputs = true → checkEndGameCondition g = Ok (Some w) → 0 ≤ w →
  monitor_run inputs g = (Ok tt, g') →
  checkEndGameCondition g' = Ok (Some w) ∨ checkEndGameCondition g' = Ok (Some 0).
Proof.
  intros Hg Hi Hw Hpos E. destruct (run_result g inputs g' Hg Hi E) as [[Hg' _] (_ & _ & S)]. destruct Hg as [Hg _].
  destruct (checkEndGameCondition_spec g Hg) as (r & Er & Hns & Hst). rewrite Hw in Er. apply Ok_inj in Er as <-.
  destruct (m_gameStarted g) eqn:Hs; [|by specialize (Hns eq_refl)]. destruct (S eq_refl) as (Hs' & Hf & Hact).
  destruct (Hst eq_refl) as (H0 & Ht & _). destruct (checkEndGameCondition_spec g' Hg') as (r' & -> & _ & Hst').
  destruct (Hst' Hs') as (H0' & Ht' & _). clear Hst Hst' Hns.
  destruct (decide (getActivePlayers (m_players g') = ∅)) as [Hno|Hsome].
  - right. f_equal. apply H0'. intros k Hk. apply elem_of_getActivePlayers in Hk; [|apply Hg']. rewrite Hno in Hk. set_solver.
  - destruct (set_choose_L _ Hsome) as [k Hk]. apply elem_of_getActivePlayers in Hk; [|apply Hg'].
    destruct (decide (w = 0)) as [->|Hw0].
    + exfalso. destruct (proj1 H0 eq_refl k). by apply Hact.
    + left. f_equal. assert (0 < w) as Hwp by lia. apply Ht'; [done|]. destruct (proj1 (Ht w Hwp) eq_refl) as [_ Hall].
      split; [by exists k|]. rewrite Hf. intros j q Hj. apply Hall. by apply Hact.
Qed.
Lemma decided_stays_decided_witness :
  checkEndGameCondition two_over = Ok (Some 2) ∨ checkEndGameCondition two_over = Ok (Some 0).
Proof.
  apply (decided_stays_decided two_decided two_over [InTaPacket 0 10 [tick_packet 16]]);
    [apply two_decided_ok|vm_compute; reflexivity|vm_compute; reflexivity|lia|vm_compute; reflexivity].
Defined.

(** ** Scores *)
Definition score_of (t : Z) (q : PlayerData) : Z := if pd_teamNumber q =? t then 1 else -1.

(** whom a result lists, and what it says of him *)
Definition listed (q : PlayerData) : bool := negb ((pd_armyNumber q =? 0) || (pd_teamNumber q =? 0) || pd_isWatcher q).
Definition score_line (t : Z) (q : PlayerData) : bytes * Z * Z * Z := (pd_name q, pd_armyNumber q, pd_teamNumber q, score_of t q).
Definition result_line (r : ArmyResult) : bytes * Z * Z * Z := (ar_alias r, ar_army r, ar_team r, ar_score r).
Lemma results_listed t names (qs : list PlayerData) : 0 < t →
  result_line <$> omap (army_result t names) qs = score_line t <$> filter (λ q, listed q = true) qs.
Proof.
  intros Ht. induction qs as [|q qs IH]; [done|]. cbn [omap list_omap]. rewrite filter_cons. unfold army_result at 1.
  rewrite (proj2 (Z.ltb_lt 0 t) Ht). case_decide as Hl; unfold listed in Hl; destruct (_ || _ || _); try done.
  rewrite !fmap_cons. f_equal. exact IH.
Qed.
Lemma active_placed_listed q : active q → placed q → listed q = true.
Proof.
  intros [Hw _] [Ha Ht]. unfold listed. rewrite (proj2 (Z.eqb_neq _ _)) by lia. rewrite (proj2 (Z.eqb_neq (pd_teamNumber q) 0)) by lia. by rewrite Hw.
Qed.

(** C5: when the active players of a running game all started it in one team, latching
    the result ends the game.  Its result has exactly the players of the start who had an
    army and a team and were no watchers, in the order of their ids: with name, army and
    team as they were at the start, and the score 1 if that team was theirs and -1 if not.
    Every player who was active at the start is among them (one who was already dead then
    may be, too).  The listener gets this result, once *)
Theorem winning_team_scores (g : GameMonitor2) (t : Z) :
  monitor_ok g → m_gameStarted g = true → isGameOver g = false → (∃ k, is_active (m_players g) k) →
  all_in_team (m_frozenPlayers g) (m_players g) t → ∃ g',
  latch_if_ended g = (Ok tt, g') ∧ gr_status (m_gameResult g') = READY_RESULT ∧
  ends g' = ends g ++ [onGameEnded (m_gameResult g')] ∧
  result_line <$> gr_results (m_gameResult g') =
    score_line t <$> filter (λ q, listed q = true) (in_map_order (m_frozenPlayers g)) ∧
  (∀ k q, m_frozenPlayers g !! k = Some q → active q → listed q = true).
Proof.
  intros [Hg _] Hs Ho [k0 Hk0] Hall.
  destruct Hg as (Hc & Hp & Hf). destruct (Hf Hs) as [Hpl Hdom]. destruct (Hdom k0 Hk0) as (q0 & Hq0 & Haq0).
  pose proof (Hpl k0 q0 Hq0 Haq0) as Hpl0.
  assert (0 < t) as Ht by (rewrite <- (Hall k0 q0); [apply Hpl0|done|done]).
  assert (checkEndGameCondition g = Ok (Some t)) as Hcheck.
  { destruct (checkEndGameCondition_spec g) as (r & -> & _ & Hr); [done|]. f_equal. apply (Hr Hs); [done|]. split; [by exists k0|done]. }
  unfold latch_if_ended. unfold mbind, stx_bind, gets, lift. cbn [id]. rewrite Hcheck. unfold latchEndGameResult, mbind, stx_bind, gets, modify.
  cbn [id]. rewrite Ho. rewrite (proj2 (Z.ltb_ge t 0)) by lia.
  set (results := omap (army_result t (m_playerRealNames g)) (in_map_order (m_frozenPlayers g))).
  pose proof (results_listed t (m_playerRealNames g) (in_map_order (m_frozenPlayers g)) Ht) as Hlines. fold results in Hlines.
  assert (∃ r rs, results = r :: rs) as (r0 & rs & Hrs).
  { assert (q0 ∈ filter (λ q, listed q = true) (in_map_order (m_frozenPlayers g))) as Hin.
    { apply list_elem_of_filter. split; [by apply active_placed_listed|]. apply elem_of_in_map_order. by exists k0. }
    destruct results; [|by eexists _, _]. apply (list_elem_of_fmap_2 (score_line t)) in Hin. rewrite <- Hlines in Hin. by apply elem_of_nil in Hin. }
  eexists. split.
  { unfold notify_if. cbn [set_result set_realNames m_gameEventHandler]. destruct Hc as [-> _]. reflexivity. }
  cbn [m_gameResult add_game_event set_result gr_status gr_results]. split; [by rewrite Hrs|]. split.
  { rewrite ends_add. reflexivity. }
  split; [exact Hlines|]. intros k q Hq Haq. apply active_placed_listed; [done|by apply (Hpl k q)].
Qed.
Lemma winning_team_scores_witness : ∃ g', latch_if_ended two_decided = (Ok tt, g') ∧ gr_status (m_gameResult g') = READY_RESULT.
Proof.
  destruct (checkEndGameCondition_spec two_decided) as (r & E & _ & Hr); [apply two_decided_ok|].
  assert (m_gameStarted two_decided = true) as Hs by (vm_compute; reflexivity). destruct (Hr Hs) as (_ & Ht & _).
  assert (checkEndGameCondition two_decided = Ok (Some 2)) as E2 by (vm_compute; reflexivity).
  rewrite E in E2. apply Ok_inj in E2 as ->. destruct (proj1 (Ht 2 ltac:(lia)) eq_refl) as [H1 H2].
  assert (isGameOver two_decided = false) as Ho by (vm_compute; reflexivity).
  destruct (winning_team_scores two_decided 2 two_decided_ok Hs Ho H1 H2) as (g' & Hg & Hst & _). exists g'. split; [exact Hg|exact Hst].
Defined.

(** a third player who dies before the start is in the result like the others *)
Example dead_at_start_listed :
  let g' := (monitor_run [InEnumReply 10 [97]; InEnumReply 11 [98]; InEnumReply 12 [99]; InTaPacket 0 12 [[12; 1; 0]];
    InTaPacket 0 10 [tick_packet 6]; InTaPacket 0 11 [[12; 1; 0]]; InTaPacket 0 10 [tick_packet 16]] two_start).2 in
  (pd_isDead <$> m_frozenPlayers g' !! 12) = Some true ∧
  result_line <$> gr_results (m_gameResult g') = [([97], 1, 2, 1); ([98], 2, 3, -1); ([99], 3, 4, -1)].
Proof. split; vm_compute; reflexivity. Qed.
