(* ===== verification/GameMonitorTest.v ===== *)
(** * The self test of the game monitor (GameMonitor2.cpp, [GameMonitor2::test])

    The source carries a test that gpgnet4ta runs for the option runtests: fifteen games,
    played on monitors without an event handler, with the results that they should have.
    The games are stated here as the source states them, and run on the definitions of
    GameMonitor.v. *)
From S2P Require Import Prelude ExceptState OrderedMaps TPacketCompress TPacketSplit TPacketSmartpak TPacketRecords GpgNetParse GpgNetStream GpgNetMessages QtText GameMonitor.

(** ** The vocabulary of the games *)
Definition do_all (l : list (gm unit)) : gm unit := for_each l id.
(** [TESTASSERT] *)
Definition testassert (f : GameMonitor2 → bool) : gm unit :=
  g ← gets id; if f g then mret tt else lift (Throw RuntimeError).
Definition testassert_not (f : GameMonitor2 → bool) : gm unit := testassert (λ g, negb (f g)).
Definition status_is (s : Status) : gm unit := testassert (λ g, bool_decide (gr_status (m_gameResult g) = s)).
Definition size_is (n : nat) : gm unit := testassert (λ g, Nat.eqb (length (gr_results (m_gameResult g))) n).
(** the score of the first result for the slot *)
Definition TestGameResult (slot expectedScore : Z) : gm unit :=
  testassert (λ g,
    match find (λ r, ar_slot r =? slot) (gr_results (m_gameResult g)) with
    | Some r => ar_score r =? expectedScore
    | None => false
    end).
(** [*getMutualAllies(player, m_frozenPlayers).begin() == ally]; an empty set has no element to begin with *)
Definition first_ally (player ally : Z) : gm unit :=
  g ← gets id;
  allies ← lift (getMutualAllies player (m_frozenPlayers g));
  match set_elems allies with
  | a :: _ => testassert (λ _, a =? ally)
  | [] => lift Undef
  end.

(** the ways in which the game tells of an alliance: by chat, by packet, or both *)
Definition alliance_chat (p1 p2 : Z) (isAllied : bool) : bytes :=
  str "<player" ++ number p1 ++ str ">" ++ str (if isAllied then "  allied with player" else "  broke alliance with player") ++ number p2.
Definition SetTestAlliance (method p1 p2 : Z) (isAllied : bool) : gm unit :=
  let chat := onChat p1 (alliance_chat p1 p2 isAllied) in
  let packet := onAlliance p1 p2 isAllied in
  if method =? 0 then chat
  else if method =? 1 then packet
  else if method =? 2 then do_all [chat; packet]
  else if method =? 3 then if Z.rem p1 2 =? 0 then chat else packet
  else if method =? 4 then if Z.rem p1 2 =? 0 then chat else do_all [chat; packet]
  else if method =? 5 then if Z.rem p1 3 =? 0 then chat else packet
  else if method =? 6 then if Z.rem p1 3 =? 0 then chat else do_all [chat; packet]
  else mret tt.

(** ** The games *)
(** normal 1v1 player1 wins *)
Definition test_one_wins : gm unit :=
  do_all [
    setHostPlayerName (str "player1"); setLocalPlayerName (str "player2");
    onDplayCreateOrForwardPlayer 8 1 (str "player1"); onDplayCreateOrForwardPlayer 8 2 (str "player2");
    onStatus 1 (str "Comet Catcher") 1500 1 0 false false;
    onStatus 2 (str "Canal Crossing") 1500 2 0 false false; onGameTick 1 10; onGameTick 2 10;
    testassert_not m_gameStarted; testassert_not isGameOver; onGameTick 1 101; onGameTick 2 101;
    testassert m_gameStarted; testassert_not isGameOver; onUnitDied 1 1; testassert m_gameStarted;
    testassert_not isGameOver; onGameTick 1 121; onGameTick 2 121; testassert m_gameStarted;
    testassert isGameOver; status_is READY_RESULT; size_is 2; TestGameResult 1 (-1); TestGameResult 2 1;
    (* no change despite player2 game shutting down *)
    onDplayDeletePlayer 2; status_is READY_RESULT; size_is 2; TestGameResult 1 (-1); TestGameResult 2 1].
(** normal 1v1 with host as watcher player3 wins *)
Definition test_host_watches : gm unit :=
  do_all [
    setHostPlayerName (str "player1"); setLocalPlayerName (str "player2");
    onDplayCreateOrForwardPlayer 8 1 (str "player1"); onDplayCreateOrForwardPlayer 8 2 (str "player2");
    onDplayCreateOrForwardPlayer 8 3 (str "player3"); onStatus 1 (str "Comet Catcher") 1500 1 0 true false;
    onStatus 2 (str "Canal Crossing") 1500 2 0 false false;
    onStatus 3 (str "Canal Crossing") 1500 3 0 false false; onGameTick 1 10; onGameTick 2 10;
    testassert_not m_gameStarted; testassert_not isGameOver; onGameTick 1 101; onGameTick 2 101;
    testassert m_gameStarted; testassert_not isGameOver; onUnitDied 2 1501; testassert m_gameStarted;
    testassert_not isGameOver; onGameTick 1 121; onGameTick 2 121; testassert m_gameStarted;
    testassert isGameOver; status_is READY_RESULT; size_is 2; TestGameResult 2 (-1); TestGameResult 3 1].
(** normal 1v1 with local non-host player as watcher player3 wins *)
Definition test_local_watches : gm unit :=
  do_all [
    setHostPlayerName (str "player1"); setLocalPlayerName (str "player2");
    onDplayCreateOrForwardPlayer 8 1 (str "player1"); onDplayCreateOrForwardPlayer 8 2 (str "player2");
    onDplayCreateOrForwardPlayer 8 3 (str "player3"); onStatus 1 (str "Comet Catcher") 1500 1 0 false false;
    onStatus 2 (str "Canal Crossing") 1500 2 0 true false;
    onStatus 3 (str "Canal Crossing") 1500 3 0 false false; onGameTick 1 10; onGameTick 2 10;
    testassert_not m_gameStarted; testassert_not isGameOver; onGameTick 1 101; onGameTick 2 101;
    testassert m_gameStarted; testassert_not isGameOver; onUnitDied 1 1; testassert m_gameStarted;
    testassert_not isGameOver; onGameTick 1 121; onGameTick 2 121; testassert m_gameStarted;
    testassert isGameOver; status_is READY_RESULT; size_is 2; TestGameResult 1 (-1); TestGameResult 3 1].
(** normal 1v1 with remote non-host player as watcher player1 wins *)
Definition test_remote_watches : gm unit :=
  do_all [
    setHostPlayerName (str "player1"); setLocalPlayerName (str "player2");
    onDplayCreateOrForwardPlayer 8 1 (str "player1"); onDplayCreateOrForwardPlayer 8 2 (str "player2");
    onDplayCreateOrForwardPlayer 8 3 (str "player3"); onStatus 1 (str "Comet Catcher") 1500 1 0 false false;
    onStatus 2 (str "Canal Crossing") 1500 2 0 false false;
    onStatus 3 (str "Canal Crossing") 1500 3 0 true false; onGameTick 1 10; onGameTick 2 10;
    testassert_not m_gameStarted; testassert_not isGameOver; onGameTick 1 101; onGameTick 2 101;
    testassert m_gameStarted; testassert_not isGameOver; onUnitDied 2 1501; testassert m_gameStarted;
    testassert_not isGameOver; onGameTick 1 121; onGameTick 2 121; testassert m_gameStarted;
    testassert isGameOver; status_is READY_RESULT; size_is 2; TestGameResult 1 1; TestGameResult 2 (-1)].
(** normal 1v1 with local host player as watcher player3 wins *)
Definition test_local_host_watches : gm unit :=
  do_all [
    setHostPlayerName (str "player1"); setLocalPlayerName (str "player1");
    onDplayCreateOrForwardPlayer 8 1 (str "player1"); onDplayCreateOrForwardPlayer 8 2 (str "player2");
    onDplayCreateOrForwardPlayer 8 3 (str "player3"); onStatus 1 (str "Comet Catcher") 1500 1 0 true false;
    onStatus 2 (str "Canal Crossing") 1500 2 0 false false;
    onStatus 3 (str "Canal Crossing") 1500 3 0 false false; onGameTick 1 10; onGameTick 2 10;
    testassert_not m_gameStarted; testassert_not isGameOver; onGameTick 1 101; onGameTick 2 101;
    testassert m_gameStarted; testassert_not isGameOver; onUnitDied 2 1501; testassert m_gameStarted;
    testassert_not isGameOver; onGameTick 1 121; onGameTick 2 121; testassert m_gameStarted;
    testassert isGameOver; status_is READY_RESULT; size_is 2; TestGameResult 2 (-1); TestGameResult 3 1].
(** normal 1v1 remote watcher leaves *)
Definition test_watcher_leaves : gm unit :=
  do_all [
    setHostPlayerName (str "player1"); setLocalPlayerName (str "player2");
    onDplayCreateOrForwardPlayer 8 1 (str "player1"); onDplayCreateOrForwardPlayer 8 2 (str "player2");
    onDplayCreateOrForwardPlayer 8 3 (str "player3"); onStatus 1 (str "Comet Catcher") 1500 1 0 false false;
    onStatus 2 (str "Canal Crossing") 1500 2 0 false false;
    onStatus 3 (str "Canal Crossing") 1500 3 0 true false; onGameTick 1 10; onGameTick 2 10;
    testassert_not m_gameStarted; testassert_not isGameOver; onGameTick 1 101; onGameTick 2 101;
    testassert m_gameStarted; testassert_not isGameOver; onDplayDeletePlayer 3; testassert_not isGameOver;
    onGameTick 1 121; onGameTick 2 121; testassert_not isGameOver; onUnitDied 1 1; onGameTick 1 141;
    onGameTick 2 141; testassert isGameOver; status_is READY_RESULT; size_is 2; TestGameResult 1 (-1);
    TestGameResult 2 1].
(** normal 1v1 player2 disconnects *)
Definition test_player2_disconnects : gm unit :=
  do_all [
    setHostPlayerName (str "player1"); setLocalPlayerName (str "player2");
    onDplayCreateOrForwardPlayer 8 1 (str "player1"); onDplayCreateOrForwardPlayer 8 2 (str "player2");
    onStatus 1 (str "Comet Catcher") 1500 1 0 false false;
    onStatus 2 (str "Canal Crossing") 1500 2 0 false false; onGameTick 1 10; onGameTick 2 10;
    testassert_not m_gameStarted; testassert_not isGameOver; onGameTick 1 101; onGameTick 2 101;
    testassert m_gameStarted; testassert_not isGameOver; onRejectOther 1 2; testassert m_gameStarted;
    testassert isGameOver; status_is READY_RESULT; size_is 2; TestGameResult 1 1; TestGameResult 2 (-1);
    (* no change despite player1 game shutting down *)
    onDplayDeletePlayer 1; status_is READY_RESULT; size_is 2; TestGameResult 1 1; TestGameResult 2 (-1)].
(** 1v1 forced draw *)
Definition test_forced_draw : gm unit :=
  do_all [
    setHostPlayerName (str "player1"); setLocalPlayerName (str "player2");
    onDplayCreateOrForwardPlayer 8 1 (str "player1"); onDplayCreateOrForwardPlayer 8 2 (str "player2");
    onStatus 1 (str "Comet Catcher") 1500 1 0 false false;
    onStatus 2 (str "Canal Crossing") 1500 2 0 false false; onGameTick 1 10; onGameTick 2 10;
    testassert_not m_gameStarted; testassert_not isGameOver; onGameTick 1 101; onGameTick 2 101;
    testassert m_gameStarted; testassert_not isGameOver; onUnitDied 1 1; testassert m_gameStarted;
    testassert_not isGameOver; onGameTick 1 105; onGameTick 2 105; onUnitDied 2 1501; testassert m_gameStarted;
    testassert isGameOver; status_is READY_RESULT; size_is 2; TestGameResult 1 0; TestGameResult 2 0].
(** 1v1 agreed draw after start *)
Definition test_agreed_draw (allianceMethod : Z) : gm unit :=
  do_all [
    setHostPlayerName (str "player1"); setLocalPlayerName (str "player2");
    onDplayCreateOrForwardPlayer 8 1 (str "player1"); onDplayCreateOrForwardPlayer 8 2 (str "player2");
    onStatus 1 (str "Comet Catcher") 1500 1 0 false false;
    onStatus 2 (str "Canal Crossing") 1500 2 0 false false; onGameTick 1 101; onGameTick 2 101;
    testassert m_gameStarted; testassert_not isGameOver; SetTestAlliance allianceMethod 1 2 true;
    SetTestAlliance allianceMethod 2 1 true; testassert m_gameStarted; testassert isGameOver;
    status_is VOID_RESULT; size_is 0].
(** 1v1 agreed draw before start *)
Definition test_agreed_early (allianceMethod : Z) : gm unit :=
  do_all [
    setHostPlayerName (str "player1"); setLocalPlayerName (str "player2");
    onDplayCreateOrForwardPlayer 8 1 (str "player1"); onDplayCreateOrForwardPlayer 8 2 (str "player2");
    onStatus 1 (str "Comet Catcher") 1500 1 0 false false;
    onStatus 2 (str "Canal Crossing") 1500 2 0 false false; onGameTick 1 50; onGameTick 2 50;
    testassert_not m_gameStarted; testassert_not isGameOver; SetTestAlliance allianceMethod 1 2 true;
    SetTestAlliance allianceMethod 2 1 true; testassert_not m_gameStarted; testassert_not isGameOver;
    onGameTick 1 101; testassert m_gameStarted; testassert isGameOver; status_is VOID_RESULT; size_is 0].
(** 1v1 players bail before start *)
Definition test_bail_early : gm unit :=
  do_all [
    setHostPlayerName (str "player1"); setLocalPlayerName (str "player2");
    onDplayCreateOrForwardPlayer 8 1 (str "player1"); onDplayCreateOrForwardPlayer 8 2 (str "player2");
    onStatus 1 (str "Comet Catcher") 1500 1 0 false false;
    onStatus 2 (str "Canal Crossing") 1500 2 0 false false; onGameTick 1 50; onGameTick 2 50;
    testassert_not m_gameStarted; testassert_not isGameOver; onUnitDied 1 1; onUnitDied 1 1501;
    onGameTick 1 51; testassert_not m_gameStarted; testassert_not isGameOver; status_is NOT_READY; size_is 0].
(** normal 2v2 players3,4 win *)
Definition test_teams (allianceMethod : Z) : gm unit :=
  do_all [
    setHostPlayerName (str "player1"); setLocalPlayerName (str "player2");
    onDplayCreateOrForwardPlayer 8 1 (str "player1"); onDplayCreateOrForwardPlayer 8 2 (str "player2");
    onDplayCreateOrForwardPlayer 8 3 (str "player3"); onDplayCreateOrForwardPlayer 8 4 (str "player4");
    onStatus 1 (str "Comet Catcher") 1500 1 0 false false;
    onStatus 2 (str "Canal Crossing") 1500 2 0 false false;
    onStatus 3 (str "Canal Crossing") 1500 3 0 false false;
    onStatus 4 (str "Canal Crossing") 1500 4 0 false false; onGameTick 1 10; onGameTick 2 10; onGameTick 3 10;
    onGameTick 4 10; testassert_not m_gameStarted; testassert_not isGameOver;
    (* normal pregame alliances *)
    SetTestAlliance allianceMethod 1 2 true; SetTestAlliance allianceMethod 2 1 true;
    SetTestAlliance allianceMethod 3 4 true; SetTestAlliance allianceMethod 4 3 true; onGameTick 1 101;
    onGameTick 2 101; onGameTick 3 101; onGameTick 4 101; testassert m_gameStarted; testassert_not isGameOver;
    first_ally 1 2; first_ally 2 1; first_ally 3 4; first_ally 4 3;
    (* game started already, changes in alliance should be ignored *)
    SetTestAlliance allianceMethod 3 4 false; SetTestAlliance allianceMethod 4 3 false;
    SetTestAlliance allianceMethod 1 3 true; SetTestAlliance allianceMethod 2 3 true;
    SetTestAlliance allianceMethod 3 1 true; SetTestAlliance allianceMethod 3 2 true; onGameTick 1 102;
    onGameTick 2 102; onGameTick 3 102; onGameTick 4 102; testassert m_gameStarted; testassert_not isGameOver;
    first_ally 1 2; first_ally 2 1; first_ally 3 4; first_ally 4 3;
    (* original teams 1+2 vs 3+4 still in effect *)
    onUnitDied 1 1; onUnitDied 2 1501; testassert m_gameStarted; testassert_not isGameOver; onGameTick 4 122;
    testassert m_gameStarted; testassert isGameOver; status_is READY_RESULT; size_is 4; TestGameResult 1 (-1);
    TestGameResult 2 (-1); TestGameResult 3 1; TestGameResult 4 1].
(** normal 2v2 agreed draw after 1 and 3 die *)
Definition test_teams_draw (allianceMethod : Z) : gm unit :=
  do_all [
    setHostPlayerName (str "player1"); setLocalPlayerName (str "player2");
    onDplayCreateOrForwardPlayer 8 1 (str "player1"); onDplayCreateOrForwardPlayer 8 2 (str "player2");
    onDplayCreateOrForwardPlayer 8 3 (str "player3"); onDplayCreateOrForwardPlayer 8 4 (str "player4");
    onStatus 1 (str "Comet Catcher") 1500 1 0 false false;
    onStatus 2 (str "Canal Crossing") 1500 2 0 false false;
    onStatus 3 (str "Canal Crossing") 1500 3 0 false false;
    onStatus 4 (str "Canal Crossing") 1500 4 0 false false; onGameTick 1 10; onGameTick 2 10; onGameTick 3 10;
    onGameTick 4 10; testassert_not m_gameStarted; testassert_not isGameOver;
    (* normal pregame alliances *)
    SetTestAlliance allianceMethod 1 2 true; SetTestAlliance allianceMethod 2 1 true;
    SetTestAlliance allianceMethod 3 4 true; SetTestAlliance allianceMethod 4 3 true; onGameTick 1 101;
    onGameTick 2 101; onGameTick 3 101; onGameTick 4 101; testassert m_gameStarted; testassert_not isGameOver;
    first_ally 1 2; first_ally 2 1; first_ally 3 4; first_ally 4 3;
    (* original teams 1+2 vs 3+4 still in effect *)
    onUnitDied 1 1; onUnitDied 3 3001; testassert m_gameStarted; testassert_not isGameOver;
    SetTestAlliance allianceMethod 2 4 true; SetTestAlliance allianceMethod 4 2 true; testassert m_gameStarted;
    testassert isGameOver; status_is VOID_RESULT; size_is 0].
(** compstomp host's AIs humans win *)
Definition test_host_ais (allianceMethod : Z) : gm unit :=
  do_all [
    setHostPlayerName (str "player1"); setLocalPlayerName (str "player2");
    onDplayCreateOrForwardPlayer 8 1 (str "player1"); onDplayCreateOrForwardPlayer 8 2 (str "player2");
    onDplayCreateOrForwardPlayer 8 3 (str "AI:player1 1");
    onDplayCreateOrForwardPlayer 8 4 (str "AI:player1 2");
    onStatus 1 (str "Comet Catcher") 1500 1 0 false false;
    onStatus 2 (str "Canal Crossing") 1500 2 0 false false;
    onStatus 3 (str "Comet Catcher") 1500 3 0 false false;
    onStatus 4 (str "Canal Crossing") 1500 4 0 false false; SetTestAlliance allianceMethod 1 2 true;
    SetTestAlliance allianceMethod 2 1 true; onGameTick 1 10; onGameTick 2 10; testassert_not m_gameStarted;
    testassert_not isGameOver; onGameTick 1 101; onGameTick 2 101; testassert m_gameStarted;
    testassert_not isGameOver; onUnitDied 3 3001; onUnitDied 4 4501; testassert_not isGameOver;
    onGameTick 1 121; onGameTick 2 121; testassert isGameOver; status_is READY_RESULT; size_is 4;
    TestGameResult 1 1; TestGameResult 2 1; TestGameResult 3 (-1); TestGameResult 4 (-1)].
(** compstomp remote's AIs humans win *)
Definition test_remote_ais (allianceMethod : Z) : gm unit :=
  do_all [
    setHostPlayerName (str "player1"); setLocalPlayerName (str "player2");
    onDplayCreateOrForwardPlayer 8 1 (str "player1"); onDplayCreateOrForwardPlayer 8 2 (str "player2");
    onDplayCreateOrForwardPlayer 8 3 (str "AI:player2 1");
    onDplayCreateOrForwardPlayer 8 4 (str "AI:player2 2");
    onStatus 1 (str "Comet Catcher") 1500 1 0 false false;
    onStatus 2 (str "Canal Crossing") 1500 2 0 false false;
    onStatus 3 (str "Comet Catcher") 1500 3 0 false false;
    onStatus 4 (str "Canal Crossing") 1500 4 0 false false; SetTestAlliance allianceMethod 1 2 true;
    SetTestAlliance allianceMethod 2 1 true; onGameTick 1 10; onGameTick 2 10; testassert_not m_gameStarted;
    testassert_not isGameOver; onGameTick 1 101; onGameTick 2 101; testassert m_gameStarted;
    testassert_not isGameOver; onUnitDied 3 3001; onUnitDied 4 4501; testassert_not isGameOver;
    onGameTick 1 121; onGameTick 2 121; testassert isGameOver; status_is READY_RESULT; size_is 4;
    TestGameResult 1 1; TestGameResult 2 1; TestGameResult 3 (-1); TestGameResult 4 (-1)].

(** ** The test *)
Definition test_games (allianceMethod : Z) : list (gm unit) :=
  [test_one_wins; test_host_watches; test_local_watches; test_remote_watches; test_local_host_watches;
   test_watcher_leaves; test_player2_disconnects; test_forced_draw; test_agreed_draw allianceMethod;
   test_agreed_early allianceMethod; test_bail_early; test_teams allianceMethod; test_teams_draw
   allianceMethod; test_host_ais allianceMethod; test_remote_ais allianceMethod].
(** a new monitor for each game *)
Definition play (junk : Z) (game : gm unit) : res unit := (game (GameMonitor2_make false 100 10 junk)).1.
Fixpoint play_games (junk : Z) (games : list (gm unit)) : res unit :=
  match games with [] => Ok tt | game :: games => play junk game ≫= λ _, play_games junk games end.
Definition test (allianceMethod junk : Z) : res unit := play_games junk (test_games allianceMethod).
(** what [main] does for runtests *)
Fixpoint test_all (junk : Z) (methods : list Z) : res unit :=
  match methods with [] => Ok tt | m :: methods => test m junk ≫= λ _, test_all junk methods end.
Definition runtests (junk : Z) : res unit := test_all junk [0; 1; 2; 3; 4; 5; 6].

(** The self test passes for every way to tell of alliances, whatever an uninitialised
    [m_maxUnits] holds; so no game of it reaches the null event handler. *)
Theorem runtests_passes (junk : Z) : runtests junk = Ok tt.
Proof. by vm_compute. Qed.
(** A method that is none of the seven tells of no alliance, so the agreed draw after the
    start is not seen, and the test fails there. *)
Lemma SetTestAlliance_other method p1 p2 b : ¬ 0 <= method <= 6 → SetTestAlliance method p1 p2 b = mret tt.
Proof. intros H. unfold SetTestAlliance. repeat (rewrite (proj2 (Z.eqb_neq method _)) by lia). done. Qed.
Theorem test_needs_alliances (method junk : Z) : ¬ 0 <= method <= 6 → test method junk = Throw RuntimeError.
Proof.
  intros H. unfold test, test_games, test_agreed_draw, test_agreed_early, test_teams, test_teams_draw, test_host_ais, test_remote_ais.
  rewrite !(SetTestAlliance_other method _ _ _ H). by vm_compute.
Qed.
