(* ===== verification/GameEvents.v ===== *)
(** * What happens in a game, told to the lobby server and to the players
      (GameEventHandlerQt.cpp, gpgnet4ta.cpp)

    The calls of the game monitor become Qt signals, whose arguments are narrower; two
    subscribers get them one after the other.  [ForwardGameEventsToGpgNet] reports to the
    lobby server, [HandleGameStatus] talks to the chat channel and into the game.  The
    chat library and the lobby are interfaces of the second. *)
From S2P Require Import Prelude ExceptState GpgNetParse GpgNetStream GpgNetMessages GpgNetReports QtText GameMonitor.
From coqutil Require Import Datatypes.RecordSetters.
Export RecordSetters.TriangleBracketNotations.
Open Scope record_set.
#[local] Open Scope Z_scope.

(** ** The signals *)
Inductive qt_event : Type :=
  | gameSettings (mapName : bytes) (maxUnits : Z) (hostName localName : bytes)
  | playerStatus (dplayId : Z) (name : bytes) (slot side : Z) (isWatcher isAI isDead : bool) (armyNumber teamNumber : Z)
      (mutualAllies : list bytes)
  | clearSlot_signal (dplayId : Z) (name : bytes) (slot : Z)
  | gameStarted (tick : Z) (teamsFrozen : bool)
  | gameEnded_signal (results : list ArmyResult)
  | chat_signal (msg : bytes) (isLocalPlayerSource : bool).

(** the order of a [std::set<std::string>] *)
Fixpoint text_leb (a b : bytes) : bool :=
  match a, b with
  | [], _ => true
  | _ :: _, [] => false
  | x :: a, y :: b => (x <? y) || (x =? y) && text_leb a b
  end.
Definition text_le (a b : bytes) : Prop := text_leb a b = true.
#[export] Instance text_le_dec a b : Decision (text_le a b).
Proof. unfold text_le. apply _. Defined.
Definition quint8 (n : Z) : Z := n mod 256.

(** ** The reports to the lobby server *)
Record ForwardGameEventsToGpgNet := mkForward {
  fw_isHost : bool;
  fw_reports : list (bytes * list Variant) }.

Section Signals.
Context `{Qt} `{QtText}.

Definition qt_result (r : ArmyResult) : ArmyResult :=
  mkArmyResult (ar_army r) (ar_slot r) (fromUtf8 (ar_alias r)) (fromUtf8 (ar_realName r)) (ar_team r) (ar_score r).
Definition GameEventsSignalQt (e : game_event) : qt_event :=
  match e with
  | onGameSettings mapName maxUnits hostName localName =>
      gameSettings (fromUtf8 mapName) maxUnits (fromUtf8 hostName) (fromUtf8 localName)
  | onPlayerStatus p mutualAllies =>
      playerStatus (pd_dplayid p) (fromUtf8 (pd_name p)) (quint8 (pd_slotNumber p)) (quint8 (pd_side p))
        (pd_isWatcher p) (pd_isAI p) (pd_isDead p) (quint8 (pd_armyNumber p)) (quint8 (pd_teamNumber p))
        (fromUtf8 <$> merge_sort text_le (elements mutualAllies))
  | onClearSlot p => clearSlot_signal (pd_dplayid p) (fromUtf8 (pd_name p)) (quint8 (pd_slotNumber p))
  | onGameStarted tick teamsFrozen => gameStarted tick teamsFrozen
  | onGameEnded r => gameEnded_signal (qt_result <$> gr_results r)
  | onChatEvent msg isLocalPlayerSource => chat_signal (fromUtf8 msg) isLocalPlayerSource
  end.

(** [m_isHost] has no initial value *)
Definition ForwardGameEventsToGpgNet_make (junk : bool) : ForwardGameEventsToGpgNet := mkForward junk [].
Definition makeAiName (nominalName : bytes) (slot : Z) : bytes :=
  match nominalName with
  | [] => str "AI" ++ number slot
  | _ => chop_last nominalName ++ number slot
  end.
(** the client, for the ids of the players, and what the map tool says of a map *)
Context (client : GpgNetClient) (getMapDetails : bytes → bytes).

Definition fw_report (cs : list (bytes * list Variant)) (s : ForwardGameEventsToGpgNet) : ForwardGameEventsToGpgNet :=
  s <| fw_reports ::= (λ l, l ++ cs) |>.
Definition fw_host (cs : list (bytes * list Variant)) (s : ForwardGameEventsToGpgNet) : ForwardGameEventsToGpgNet :=
  if fw_isHost s then fw_report cs s else s.
Definition fw_onGameSettings (mapName hostName localName : bytes) (s : ForwardGameEventsToGpgNet) : ForwardGameEventsToGpgNet :=
  fw_host (gameOption (str "MapDetails") (getMapDetails mapName)) (s <| fw_isHost := bool_decide (hostName = localName) |>).
(** the five options of a player or an AI *)
Definition options (option : bytes → Z → list (bytes * list Variant)) (team slot army side : Z) : list (bytes * list Variant) :=
  option (str "Team") team ++ option (str "StartSpot") slot ++ option (str "Color") slot ++
  option (str "Army") army ++ option (str "Faction") side.
(** [gpgnetId == 0] compares a text with a null pointer: it is never so for a number *)
Definition fw_onPlayerStatus (name : bytes) (slot side : Z) (isWatcher isAI : bool) (armyNumber teamNumber : Z)
    (s : ForwardGameEventsToGpgNet) : ForwardGameEventsToGpgNet :=
  let gpgnetId := number (lookupPlayerId name client) in
  if isAI then fw_host (options (aiOption_int (makeAiName name slot)) teamNumber slot armyNumber side) s
  else fw_host (options (playerOption_int gpgnetId) (if isWatcher then -1 else teamNumber) slot armyNumber side) s.
Definition fw_onClearSlot (slot : Z) (s : ForwardGameEventsToGpgNet) : ForwardGameEventsToGpgNet := fw_host (clearSlot slot) s.
Definition fw_onGameStarted (teamsFrozen : bool) (s : ForwardGameEventsToGpgNet) : ForwardGameEventsToGpgNet :=
  fw_host (gameState (str "Launching") (if teamsFrozen then str "Live" else str "Launching")) s.
Definition fw_onGameEnded (results : list ArmyResult) (s : ForwardGameEventsToGpgNet) : ForwardGameEventsToGpgNet :=
  fw_report (gameState (str "Ended") (str "Ended"))
    (foldl (λ s r, fw_report (gameResult (ar_army r) (ar_score r)) s) s results).
Definition forward_event (s : ForwardGameEventsToGpgNet) (e : qt_event) : ForwardGameEventsToGpgNet :=
  match e with
  | gameSettings mapName _ hostName localName => fw_onGameSettings mapName hostName localName s
  | playerStatus _ name slot side isWatcher isAI _ army team _ => fw_onPlayerStatus name slot side isWatcher isAI army team s
  | clearSlot_signal _ _ slot => fw_onClearSlot slot s
  | gameStarted _ teamsFrozen => fw_onGameStarted teamsFrozen s
  | gameEnded_signal results => fw_onGameEnded results s
  | chat_signal _ _ => s
  end.
End Signals.

(** ** The messages to the players *)

(** the connection to the chat channel: closing it, it is no longer active *)
Class IrcForward (I : Type) := {
  irc_isActive : I → bool;
  irc_realName : I → bytes;
  irc_quit : bytes → I → I;
  irc_close : I → I;
  irc_message : bytes → bytes → I → I;     (* [sendCommand(createMessage(target, text))] *)
  irc_join : bytes → I → I;
  irc_open : I → I;
  irc_close_inactive i : irc_isActive (irc_close i) = false;
  irc_message_active target text i : irc_isActive (irc_message target text i) = irc_isActive i }.
(** what the handler asks of the lobby *)
Class Lobby (W : Type) := {
  lobby_echoToGame : bool → bytes → bytes → stx W unit;
  lobby_setPeerPingInterval : Z → stx W unit }.

Record HandleGameStatus (I : Type) := mkStatus {
  m_irc : option I; m_channel : bytes; m_quitRequested : Z; m_selectedMap : bytes; m_isGameRated : bool;
  m_playerNames : list bytes; m_isAI : list bool; m_isWatcher : list bool;
  hs_app_quit : Z                          (* the calls of [qApp->quit()] *) }.
Arguments mkStatus {I}.
Arguments m_irc {I}. Arguments m_channel {I}. Arguments m_quitRequested {I}. Arguments m_selectedMap {I}. Arguments m_isGameRated {I}.
Arguments m_playerNames {I}. Arguments m_isAI {I}. Arguments m_isWatcher {I}. Arguments hs_app_quit {I}.

Section Status.
Context {I W : Type} `{Qt} `{!IrcForward I} `{!Lobby W}.

Definition HandleGameStatus_make (irc : option I) (channel : bytes) (isGameRated : bool) : HandleGameStatus I :=
  mkStatus irc channel 0 [] isGameRated (replicate 10 []) (replicate 10 false) (replicate 10 false) 0.
Abbreviation hs := (stx (HandleGameStatus I * W)).
Definition status : hs (HandleGameStatus I) := gets fst.
Definition on_status (f : HandleGameStatus I → HandleGameStatus I) : hs unit := modify (λ s, (f s.1, s.2)).
Definition on_lobby (m : stx W unit) : hs unit := λ s, let '(r, w) := m s.2 in (r, (s.1, w)).
(** a [const char *] ends at the first null *)
Definition c_str (b : bytes) : bytes := take (default (length b) (fst <$> list_find (λ c, c = 0) b)) b.
(** [m_irc && m_irc->isActive()] *)
Definition irc_active (s : HandleGameStatus I) : bool := match m_irc s with Some i => irc_isActive i | None => false end.
Definition on_irc (f : I → I) : hs unit := on_status (λ s, s <| m_irc ::= fmap f |>).
Definition close_irc : hs unit := on_irc (λ i, irc_close (irc_quit (irc_realName i) i)).

Definition doSend (chat : bytes) (toIrc toGame : bool) : hs unit :=
  s ← status;
  when (irc_active s && toIrc) (on_irc (irc_message (m_channel s) (fromUtf8 (c_str chat)))) ≫= λ _,
  when toGame (on_lobby (lobby_echoToGame false [] (fromUtf8 chat))).
(** a [QVector] of ten flags or names *)
Definition count {A} (f : A → bool) (l : list A) : Z := foldl (λ a x, if f x then a + 1 else a) 0 l.
Definition getOccupancyCount (s : HandleGameStatus I) : Z := count (λ name, negb (bool_decide (name = []))) (m_playerNames s).
Definition getAiCount (s : HandleGameStatus I) : Z := count id (m_isAI s).
Definition getWatcherCount (s : HandleGameStatus I) : Z := count id (m_isWatcher s).

Definition hs_onGameSettings (mapName : bytes) : hs unit := caught (
  s ← status;
  when (negb (bool_decide (mapName = m_selectedMap s)))
    (doSend (str "Map changed to: " ++ mapName) true false ≫= λ _, on_status (λ s, s <| m_selectedMap := mapName |>))).
(** [if (slot < m_playerNames.size())] *)
Definition set_slot (slot : Z) (name : bytes) (isAI isWatcher : bool) : hs unit := on_status (λ s,
  if slot <? Z.of_nat (length (m_playerNames s)) then
    s <| m_playerNames ::= <[Z.to_nat slot := name]> |> <| m_isAI ::= <[Z.to_nat slot := isAI]> |>
      <| m_isWatcher ::= <[Z.to_nat slot := isWatcher]> |>
  else s).
Definition hs_onPlayerStatus (name : bytes) (slot : Z) (isWatcher isAI : bool) : hs unit := caught (set_slot slot name isAI isWatcher).
Definition hs_onClearSlot (slot : Z) : hs unit := caught (set_slot slot [] false false).

Definition rescind : bytes := str "Self-d/alt-f4 before to rescind, or ally afterwards".
(** the hints at the launch of a game *)
Definition launch_hints (humanPlayerCount : Z) : hs unit :=
  s ← status;
  if 3 <=? humanPlayerCount then
    when (m_isGameRated s)
      (doSend (str "Game becomes rated after 1:00. Finalise teams by then") false true ≫= λ _, doSend rescind false true) ≫= λ _,
    doSend (str "/quit to disconnect so team can .take (unless UR host!)") false true
  else if humanPlayerCount =? 2 then
    when (m_isGameRated s) (doSend (str "Game becomes rated after 1:00") false true ≫= λ _, doSend rescind false true)
  else mret tt.
Definition hs_onGameStarted (teamsFrozen : bool) : hs unit := caught (
  s ← status;
  let aiCount := getAiCount s in
  let humanPlayerCount := getOccupancyCount s - aiCount - getWatcherCount s in
  when (irc_active s) close_irc ≫= λ _,
  on_lobby (lobby_setPeerPingInterval (if teamsFrozen then 10000 else 3000)) ≫= λ _,
  when (negb teamsFrozen && (aiCount =? 0))
    (launch_hints humanPlayerCount ≫= λ _,
     s ← status;
     when (irc_active s) (doSend (str "/closeirc to close your ingame/TAF chat relay") false true))).
Definition outcome_line (r : ArmyResult) : bytes :=
  let outcome := if 0 <? ar_score r then str "VICTORY" else if ar_score r =? 0 then str "DRAW" else str "DEFEAT" in
  if bool_decide (ar_realName r = []) || bool_decide (ar_realName r = ar_alias r)
  then ar_alias r ++ str ": " ++ outcome
  else ar_alias r ++ str " (aka " ++ ar_realName r ++ str "): " ++ outcome.
Definition hs_onGameEnded (results : list ArmyResult) : hs unit := caught (
  s ← status;
  when (m_isGameRated s)
    (doSend (str "Game over man, game over!") true true ≫= λ _, for_each results (λ r, doSend (outcome_line r) true true))).

(** what a player says, without the tag with his name *)
Definition untagged (msg : bytes) : bytes :=
  match head msg, after_last (str "> ") msg with
  | Some 60, Some (c :: t) => c :: t
  | _, _ => msg
  end.
Definition quit_requested (msg : bytes) (q : Z) : Z :=
  let q := if bool_decide (msg = str "/quit") then 1 + q else 0 in
  if bool_decide (msg = str "-harald") then 2 + q else 0.
Definition hs_onChat (msg : bytes) (isLocalPlayerSource : bool) : hs unit := caught (
  when (isLocalPlayerSource && (0 <? length msg)%nat)
    (let msg := untagged msg in
     doSend msg true false ≫= λ _,
     on_status (λ s, s <| m_quitRequested ::= quit_requested msg |>) ≫= λ _,
     s ← status;
     if m_quitRequested s =? 1 then doSend (str "Type /quit again to disconnect your game") false true
     else if 2 <=? m_quitRequested s then
       doSend (str "ok your game is disconnected you can alt-f4") false true ≫= λ _,
       on_status (λ s, s <| hs_app_quit ::= Z.succ |>)
     else
       when (bool_decide (msg = str "/closeirc") && irc_active s)
         (close_irc ≫= λ _, doSend (str "ok IRC relay is closed") false true))).
Definition status_event (e : qt_event) : hs unit :=
  match e with
  | gameSettings mapName _ _ _ => hs_onGameSettings mapName
  | playerStatus _ name slot _ isWatcher isAI _ _ _ _ => hs_onPlayerStatus name slot isWatcher isAI
  | clearSlot_signal _ _ slot => hs_onClearSlot slot
  | gameStarted _ teamsFrozen => hs_onGameStarted teamsFrozen
  | gameEnded_signal results => hs_onGameEnded results
  | chat_signal msg isLocalPlayerSource => hs_onChat msg isLocalPlayerSource
  end.
End Status.

(** ** Addresses and the map tool *)
Section Addresses.
Context `{Qt} `{QtText}.
Record Url := mkUrl { url_user : bytes; url_host : bytes; url_port : Z; url_resource : bytes }.
(** user@host:port/resource; what is missing stays as it is *)
Definition SplitUserHostPortChannel (url : bytes) (u : Url) : Url :=
  let '(url, u) := match split 64 url with
                   | user :: rest :: _ => (rest, u <| url_user := user |>)
                   | _ => (url, u)
                   end in
  let '(url, u) := match split 47 url with
                   | rest :: resource :: _ => (rest, u <| url_resource := resource |>)
                   | _ => (url, u)
                   end in
  match split 58 url with
  | host :: port :: _ => (u <| url_host := host |>) <| url_port := u16 (toInt_text port) |>
  | _ => u <| url_host := url |>
  end.
Definition quote (text : bytes) : bytes := [34] ++ text ++ [34].

(** a process after [waitForFinished] has returned or was given up *)
Inductive ProcessState : Set := NotRunning | Starting | Running.
Record Process := mkProcess { pr_state : ProcessState; pr_stdout : bytes }.
Definition getMapDetails (run : bytes → list bytes → Process) (gamePath maptoolExePath mapName : bytes) : bytes :=
  let process := run maptoolExePath [str "--gamepath"; gamePath; str "--mapname"; mapName ++ [36]; str "--hash"] in
  match pr_state process with
  | Running | Starting => []
  | NotRunning => fromUtf8 (pr_stdout process)
  end.
End Addresses.
