(* ===== verification/GameEventsFacts.v ===== *)
(** * Theorems about the messages of a game

    What the lobby server hears of the end of a game, when the chat channel is left, how
    the players of the hints are counted, and what it takes to quit. *)
From S2P Require Import Prelude ExceptState GpgNetParse GpgNetStream GpgNetMessages GpgNetReports QtText GameMonitor GameMonitorSafety GameMonitorResults GameEvents.
From coqutil Require Import Datatypes.RecordSetters.
#[local] Open Scope Z_scope.

(** ** The lobby server *)

(** a server that collects what it is told *)
Definition collect (c : list Variant) (w : list (list Variant)) : res unit * list (list Variant) := (Ok tt, w ++ [c]).
Lemma collect_all cs : ∀ w, handle_all collect cs w = (Ok tt, w ++ (received <$> cs)).
Proof.
  induction cs as [|c cs IH]; intros w; cbn [handle_all fmap list_fmap]; [by rewrite app_nil_r|]. unfold collect at 1. rewrite IH.
  by rewrite <- (assoc_L (++)).
Qed.
Definition named (name : string) (c : list Variant) : Prop := head c = Some (V_bytes (str name)).
#[export] Instance Variant_eq_dec : EqDecision Variant.
Proof. solve_decision. Defined.
#[export] Instance named_dec name c : Decision (named name c).
Proof. unfold named. apply _. Defined.
Definition is_ended (c : list Variant) : Prop := c = [V_bytes (str "GameState"); V_bytes (str "Ended")].
#[export] Instance is_ended_dec c : Decision (is_ended c).
Proof. unfold is_ended. apply _. Defined.

Section Reports.
Context `{Qt} `{QtText} (client : GpgNetClient) (getMapDetails : bytes → bytes).
Definition forward_events (s : ForwardGameEventsToGpgNet) (es : list game_event) : ForwardGameEventsToGpgNet :=
  foldl (forward_event client getMapDetails) s (GameEventsSignalQt <$> es).
(** what the server should be told of a result *)
Definition told_result (r : ArmyResult) : list Variant :=
  [V_bytes (str "GameResult"); V_uint (u32 (ar_army r));
   V_bytes (if 0 <? ar_score r then str "VICTORY 1" else if ar_score r =? 0 then str "DRAW 0" else str "DEFEAT -1")].
(** the commands of one event *)
Definition event_results (e : qt_event) : list (list Variant) := match e with gameEnded_signal rs => told_result <$> rs | _ => [] end.
Definition event_ended (e : qt_event) : list (list Variant) :=
  match e with gameEnded_signal _ => [[V_bytes (str "GameState"); V_bytes (str "Ended")]] | _ => [] end.
Lemma fw_host_reports cs s : fw_reports (fw_host cs s) = fw_reports s ++ (if fw_isHost s then cs else []).
Proof. unfold fw_host. destruct (fw_isHost s); [done|by rewrite app_nil_r]. Qed.
Lemma results_reports rs : ∀ s, fw_reports (foldl (λ s r, fw_report (gameResult (ar_army r) (ar_score r)) s) s rs) =
  fw_reports s ++ concat ((λ r, gameResult (ar_army r) (ar_score r)) <$> rs).
Proof.
  induction rs as [|r rs IH]; intros s; cbn [foldl fmap list_fmap concat]; [by rewrite app_nil_r|]. rewrite IH, (assoc_L (++)). done.
Qed.
Lemma received_results rs : received <$> concat ((λ r, gameResult (ar_army r) (ar_score r)) <$> rs) = told_result <$> rs.
Proof. induction rs as [|r rs IH]; [done|]. cbn [fmap list_fmap concat]. rewrite fmap_app. by f_equal. Qed.
Lemma results_named rs : filter (named "GameResult") (told_result <$> rs) = told_result <$> rs ∧ filter is_ended (told_result <$> rs) = [].
Proof.
  induction rs as [|r rs [IH1 IH2]]; [done|]. cbn [fmap list_fmap]. split.
  - rewrite filter_cons_True by done. by rewrite IH1.
  - rewrite filter_cons_False by done. done.
Qed.
Lemma event_reports s e : ∃ cs, fw_reports (forward_event client getMapDetails s e) = fw_reports s ++ cs ∧
  filter (named "GameResult") (received <$> cs) = event_results e ∧ filter is_ended (received <$> cs) = event_ended e.
Proof.
  destruct e as [mapName mu host local|id name slot side w ai dead army team al|id name slot|tick frozen|rs|msg l];
    cbn [forward_event event_results event_ended].
  - unfold fw_onGameSettings. rewrite fw_host_reports. eexists. split; [done|]. by case_match.
  - unfold fw_onPlayerStatus. cbv zeta. destruct ai; rewrite fw_host_reports; eexists; (split; [done|]); by destruct (fw_isHost s).
  - unfold fw_onClearSlot. rewrite fw_host_reports. eexists. split; [done|]. by destruct (fw_isHost s).
  - unfold fw_onGameStarted. rewrite fw_host_reports. eexists. split; [done|]. destruct (fw_isHost s); [|done]. by destruct frozen.
  - unfold fw_onGameEnded. set (s1 := foldl _ s rs).
    exists (concat ((λ r, gameResult (ar_army r) (ar_score r)) <$> rs) ++ gameState (str "Ended") (str "Ended")). split.
    + change (fw_reports s1 ++ gameState (str "Ended") (str "Ended") = fw_reports s ++ concat ((λ r, gameResult (ar_army r) (ar_score r)) <$> rs) ++
        gameState (str "Ended") (str "Ended")). unfold s1. by rewrite results_reports, <- (assoc_L (++)).
    + rewrite fmap_app, received_results, !filter_app. destruct (results_named rs) as [-> ->]. split; [apply app_nil_r|done].
  - exists []. by rewrite app_nil_r.
Qed.
Lemma events_reports es : ∀ s, ∃ cs, fw_reports (foldl (forward_event client getMapDetails) s es) = fw_reports s ++ cs ∧
  filter (named "GameResult") (received <$> cs) = concat (event_results <$> es) ∧ filter is_ended (received <$> cs) = concat (event_ended <$> es).
Proof.
  induction es as [|e es IH]; intros s; cbn [foldl fmap list_fmap concat]; [exists []; by rewrite app_nil_r|].
  destruct (event_reports s e) as (c1 & E1 & F1 & G1). destruct (IH (forward_event client getMapDetails s e)) as (c2 & E2 & F2 & G2).
  exists (c1 ++ c2). rewrite E2, E1, <- (assoc_L (++)), fmap_app, !filter_app. split; [done|]. by rewrite F1, F2, G1, G2.
Qed.
Lemma signals_of_ends es :
  concat (event_results <$> (GameEventsSignalQt <$> es)) = concat (event_results <$> (GameEventsSignalQt <$> filter is_end es)) ∧
  concat (event_ended <$> (GameEventsSignalQt <$> es)) = concat (event_ended <$> (GameEventsSignalQt <$> filter is_end es)).
Proof.
  induction es as [|e es [IH1 IH2]]; [done|]. destruct e; cbn [fmap list_fmap concat]; cbn [GameEventsSignalQt event_results event_ended app].
  all: try (rewrite filter_cons_False by (by intros []); done).
  rewrite filter_cons_True by done. cbn [fmap list_fmap concat GameEventsSignalQt event_results event_ended]. by rewrite IH1, IH2.
Qed.
Lemma told_signal (rs : list ArmyResult) : told_result <$> (qt_result <$> rs) = told_result <$> rs.
Proof. rewrite <- list_fmap_compose. by apply list_fmap_ext. Qed.
(** C7: the lobby server hears of the end of a game once, and hears the result that the
    monitor keeps: whatever the network traffic of a game, and in whatever pieces the
    commands of the forwarder reach the server, either the server gets no result and no
    end at all, or the game is over and it gets one [GameResult] for each army of the
    monitor's result, in their order, with VICTORY, DRAW or DEFEAT by the score, and one
    end of the game. *)
Theorem results_told_once (host local : bytes) (startTick drawTicks maxUnits : Z) (inputs : list monitor_input) (g' : GameMonitor2)
    (junk : bool) (chunks : list bytes) :
  host ≠ [] → local ≠ [] → maxUnits ≠ 0 → forallb input_ok inputs = true →
  monitor_run inputs (monitor_start host local startTick drawTicks maxUnits) = (Ok tt, g') →
  let reports := fw_reports (forward_events (ForwardGameEventsToGpgNet_make junk) (gm_events g')) in
  Forall command_wf reports → concat chunks = concat (send <$> reports) → ∃ p heard,
  on_chunks collect GpgNetParse_init [] [] chunks = (Ok tt, p, heard, []) ∧
  ((filter (named "GameResult") heard = [] ∧ filter is_ended heard = []) ∨
   isGameOver g' = true ∧ filter (named "GameResult") heard = told_result <$> gr_results (m_gameResult g') ∧
   filter is_ended heard = [[V_bytes (str "GameState"); V_bytes (str "Ended")]]).
Proof.
  intros Hh Hl Hm Hi E reports Hwf Hc. destruct (events_reports (GameEventsSignalQt <$> gm_events g') (ForwardGameEventsToGpgNet_make junk)) as (cs & Er & Fr & Gr).
  assert (reports = cs) as -> by exact Er. destruct (commands_arrive collect cs chunks [] (received <$> cs) Hwf Hc (collect_all cs [])) as (p & Hp & _).
  exists p, (received <$> cs). split; [exact Hp|]. rewrite Fr, Gr. destruct (signals_of_ends (gm_events g')) as [-> ->]. change (filter is_end (gm_events g')) with (ends g').
  destruct (end_announced_once host local startTick drawTicks maxUnits inputs g' Hh Hl Hm Hi E) as [->|(r & -> & Ho & _ & Hr)]; [by left|].
  right. split; [done|]. cbn [fmap list_fmap concat GameEventsSignalQt event_results event_ended]. by rewrite !app_nil_r, told_signal, Hr.
Qed.
(** a player who is not the host reports results and the end, and nothing else *)
Lemma joiner_reports es : ∀ s, fw_isHost s = false →
  Forall (λ e, match e with gameSettings _ _ host local => host ≠ local | _ => True end) es → ∃ cs,
  fw_reports (foldl (forward_event client getMapDetails) s es) = fw_reports s ++ cs ∧
  received <$> cs = concat ((λ e, match e with
    | gameEnded_signal rs => (told_result <$> rs) ++ (received <$> gameState (str "Ended") (str "Ended")) | _ => [] end) <$> es).
Proof.
  induction es as [|e es IH]; intros s Hs He; [exists []; by rewrite app_nil_r|]. apply Forall_cons in He as [He Hes]. cbn [foldl].
  assert (∀ cs, fw_host cs s = s) as Hn by (intros cs; unfold fw_host; by rewrite Hs).
  destruct e as [mapName mu host local|id name slot side w ai dead army team al|id name slot|tick frozen|rs|msg l]; cbn [forward_event fmap list_fmap concat].
  - unfold fw_onGameSettings. rewrite bool_decide_false by done.
    exact (IH (s <| fw_isHost := false |>) eq_refl Hes).
  - unfold fw_onPlayerStatus. cbv zeta. destruct ai; rewrite Hn; by apply IH.
  - unfold fw_onClearSlot. rewrite Hn. by apply IH.
  - unfold fw_onGameStarted. rewrite Hn. by apply IH.
  - assert (fw_isHost (fw_onGameEnded rs s) = false) as Hs'.
    { unfold fw_onGameEnded. change (fw_isHost (foldl (λ s r, fw_report (gameResult (ar_army r) (ar_score r)) s) s rs) = false).
      clear -Hs. revert s Hs. induction rs as [|r rs IH]; intros s Hs; [done|]. by apply IH. }
    destruct (IH _ Hs' Hes) as (cs & -> & Ec).
    exists (concat ((λ r, gameResult (ar_army r) (ar_score r)) <$> rs) ++ gameState (str "Ended") (str "Ended") ++ cs). split.
    + unfold fw_onGameEnded. set (s1 := foldl _ s rs). change (fw_reports (fw_report (gameState (str "Ended") (str "Ended")) s1)) with
        (fw_reports s1 ++ gameState (str "Ended") (str "Ended")). unfold s1. rewrite results_reports. by rewrite <- !(assoc_L (++)).
    + rewrite !fmap_app, received_results, Ec. by rewrite (assoc_L (++)).
  - by apply IH.
Qed.
End Reports.
(** the host's application, in the game of two players *)
Definition ex_reports : list (bytes * list Variant) :=
  fw_reports (forward_events (H:=ex_qt) (H0:=ex_text) GpgNetClient_init (λ m, m) (ForwardGameEventsToGpgNet_make false)
    (gm_events (monitor_run (two_inputs ++ [InTaPacket 0 10 [tick_packet 16]]) two_start).2)).
Lemma ex_reports_wf : Forall command_wf ex_reports.
Proof.
  assert (ex_reports = ltac:(let r := eval vm_compute in ex_reports in exact r)) as -> by (vm_compute; reflexivity).
  repeat (apply Forall_cons; split); try apply Forall_nil_2; (split; [vm_compute; discriminate|split; [vm_compute; discriminate|]]).
  all: repeat (apply Forall_cons; split); try apply Forall_nil_2; try (unfold arg_wf, is_u32; lia); vm_compute; discriminate.
Qed.
Lemma results_told_once_witness : ∃ p heard,
  on_chunks collect GpgNetParse_init [] [] [take 50 (concat (send <$> ex_reports)); drop 50 (concat (send <$> ex_reports))] = (Ok tt, p, heard, []) ∧
  filter (named "GameResult") heard =
    [[V_bytes (str "GameResult"); V_uint 1; V_bytes (str "VICTORY 1")]; [V_bytes (str "GameResult"); V_uint 2; V_bytes (str "DEFEAT -1")]].
Proof.
  destruct (results_told_once (H:=ex_qt) (H0:=ex_text) GpgNetClient_init (λ m, m) [97] [98] 5 10 500 (two_inputs ++ [InTaPacket 0 10 [tick_packet 16]])
    (monitor_run (two_inputs ++ [InTaPacket 0 10 [tick_packet 16]]) two_start).2 false
    [take 50 (concat (send <$> ex_reports)); drop 50 (concat (send <$> ex_reports))]) as (p & heard & Hp & H).
  - done.
  - done.
  - lia.
  - vm_compute. reflexivity.
  - vm_compute. reflexivity.
  - exact ex_reports_wf.
  - cbn [concat]. rewrite app_nil_r. apply take_drop.
  - assert (heard = received <$> ex_reports) as ->.
    { destruct (commands_arrive collect ex_reports [take 50 (concat (send <$> ex_reports)); drop 50 (concat (send <$> ex_reports))] []
        (received <$> ex_reports)) as (p' & Hp' & _).
      - exact ex_reports_wf.
      - cbn [concat]. rewrite app_nil_r. apply take_drop.
      - exact (collect_all ex_reports []).
      - clear H. revert Hp Hp'. generalize (on_chunks collect GpgNetParse_init [] []
          [take 50 (concat (send <$> ex_reports)); drop 50 (concat (send <$> ex_reports))]). intros r -> Hp'. exact (f_equal (λ r, r.1.2) Hp'). }
    exists p, (received <$> ex_reports). split; [exact Hp|]. destruct H as [[_ Hn]|(_ & -> & _)]; [|vm_compute; reflexivity].
    exfalso. revert Hn. vm_compute. discriminate.
Defined.

(** ** The chat channel and the hints *)
Section Players.
Context {I W : Type} `{Qt} `{!IrcForward I} `{!Lobby W}.
Abbreviation hs := (stx (HandleGameStatus I * W)).
Definition status_events (es : list qt_event) : hs unit := for_each es status_event.

(** the channel has been left, and its connection is [i] *)
Definition silent (i : option I) (s : HandleGameStatus I * W) : Prop := irc_active s.1 = false ∧ m_irc s.1 = i.
Lemma silent_status {A} i (k : HandleGameStatus I → hs A) : (∀ s, irc_active s = false → keeps (silent i) (k s)) → keeps (silent i) (status ≫= k).
Proof. intros Hk s Hs. exact (Hk s.1 (proj1 Hs) s Hs). Qed.
Lemma silent_assign i f : (∀ s : HandleGameStatus I, m_irc (f s) = m_irc s) → keeps (silent i) (on_status f).
Proof. intros Hf s [Ha Hi]. unfold silent, irc_active in *. cbn. by rewrite Hf. Qed.
Lemma silent_lobby i (m : stx W unit) : keeps (silent i) (on_lobby m).
Proof. intros s Hs. unfold on_lobby. by destruct (m s.2). Qed.
#[local] Hint Resolve silent_lobby : keeps.
Ltac silent_tac :=
  repeat first [apply silent_status; intros ? ->; rewrite ?andb_false_r; cbn [andb when] | apply silent_assign; done | keeps_step].
Lemma silent_doSend i chat toIrc toGame : keeps (silent i) (doSend chat toIrc toGame).
Proof. unfold doSend. silent_tac. Qed.
#[local] Hint Resolve silent_doSend : keeps.
Lemma silent_event i e : keeps (silent i) (status_event e).
Proof.
  destruct e as [mapName mu host local|id name slot side w ai dead army team al|id name slot|tick frozen|rs|msg l]; cbn [status_event]; apply keeps_caught.
  - silent_tac.
  - apply silent_assign. intros s. by case_match.
  - apply silent_assign. intros s. by case_match.
  - unfold launch_hints. silent_tac.
  - silent_tac.
  - silent_tac.
Qed.
Lemma caught_status (k : HandleGameStatus I → hs unit) s : caught (status ≫= k) s = caught (k s.1) s.
Proof. done. Qed.
Lemma start_silent teamsFrozen s : ∃ i, silent i (hs_onGameStarted teamsFrozen s).2.
Proof.
  unfold hs_onGameStarted. rewrite caught_status. cbv zeta. set (humans := _ - _ - _).
  assert (∃ s', when (irc_active s.1) close_irc s = (Ok tt, s') ∧ irc_active s'.1 = false) as (s' & E & Hs').
  { destruct (irc_active s.1) eqn:Ea; [|by exists s]. eexists. split; [reflexivity|]. unfold irc_active in *. cbn [fst]. destruct s as [s w]; cbn [fst] in *.
    change (match fmap (λ i, irc_close (irc_quit (irc_realName i) i)) (m_irc s) with Some i => irc_isActive i | None => false end = false).
    destruct (m_irc s); [apply irc_close_inactive|done]. }
  rewrite (caught_then _ _ _ _ _ E). exists (m_irc s'.1). apply keeps_caught; [|by split]. unfold launch_hints. silent_tac.
Qed.
(** The chat channel is left for good when the game is launched: after [gameStarted]
    the connection is closed, whatever the lobby answers, and nothing that happens
    afterwards, neither chat nor results nor a change of the map, sends anything on it or
    changes it in any other way. *)
Theorem channel_left (s : HandleGameStatus I * W) (tick : Z) (teamsFrozen : bool) (es : list qt_event) :
  let s1 := (status_event (gameStarted tick teamsFrozen) s).2 in
  irc_active s1.1 = false ∧ m_irc (status_events es s1).2.1 = m_irc s1.1.
Proof.
  intros s1. destruct (start_silent teamsFrozen s) as (i & Hs1). change (silent i s1) in Hs1. split; [apply Hs1|].
  assert (keeps (silent i) (status_events es)) as Hk by (apply keeps_for_each; intros e; apply silent_event).
  rewrite (proj2 Hs1). apply (Hk s1 Hs1).
Qed.

(** ** What the handler remembers *)

(** a lobby that is there, which [ready] says: its calls end, and it stays there *)
Class LobbyWorks (ready : W → Prop) : Prop := {
  echo_ok isPrivate name chat w : ready w → ∃ w', lobby_echoToGame isPrivate name chat w = (Ok tt, w') ∧ ready w';
  ping_ok ms w : ready w → ∃ w', lobby_setPeerPingInterval ms w = (Ok tt, w') ∧ ready w' }.
Context (ready : W → Prop) `{!LobbyWorks ready}.
(** a method that ends, and changes nothing but the connection *)
Definition talks (m : hs unit) : Prop := ∀ s w, ready w → ∃ i w', m (s, w) = (Ok tt, (s <| m_irc := i |>, w')) ∧ ready w'.
Lemma talks_ret : talks (mret tt).
Proof. intros s w Hw. exists (m_irc s), w. by destruct s. Qed.
Lemma talks_bind m f : talks m → talks (f tt) → talks (m ≫= f).
Proof.
  intros Hm Hf s w Hw. destruct (Hm s w Hw) as (i & w1 & E & Hw1). destruct (Hf (s <| m_irc := i |>) w1 Hw1) as (j & w2 & E2 & Hw2).
  exists j, w2. by rewrite (stx_bind_ok _ _ _ _ _ E), E2.
Qed.
Lemma talks_status k : (∀ s0, talks (k s0)) → talks (status ≫= k).
Proof. intros Hk s w. exact (Hk s s w). Qed.
Lemma talks_when b m : talks m → talks (when b m).
Proof. destruct b; [done|]. intros _. apply talks_ret. Qed.
Lemma talks_for_each {A} (l : list A) body : (∀ a, talks (body a)) → talks (for_each l body).
Proof. intros Hb. induction l as [|a l IH]; [apply talks_ret|]. by apply talks_bind. Qed.
Lemma talks_irc f : talks (on_irc f).
Proof. intros s w Hw. by eexists _, w. Qed.
Lemma talks_lobby (m : stx W unit) : (∀ w, ready w → ∃ w', m w = (Ok tt, w') ∧ ready w') → talks (on_lobby m).
Proof. intros Hm s w Hw. destruct (Hm w Hw) as (w' & E & Hw'). exists (m_irc s), w'. unfold on_lobby. cbn [fst snd]. rewrite E. by destruct s. Qed.
Lemma talks_caught m : talks m → talks (caught m).
Proof. intros Hm s w Hw. destruct (Hm s w Hw) as (i & w' & E & Hw'). exists i, w'. unfold caught. by rewrite E. Qed.
Lemma talks_doSend chat toIrc toGame : talks (doSend chat toIrc toGame).
Proof.
  apply talks_status. intros s0. apply talks_bind; [apply talks_when, talks_irc|]. apply talks_when, talks_lobby. apply echo_ok.
Qed.
Create HintDb talks discriminated.
#[local] Hint Resolve talks_ret talks_doSend talks_irc : talks.
Ltac talks_tac :=
  repeat first [progress cbv beta zeta | solve [auto 2 with talks nocore] | apply talks_status; intros ? | apply talks_bind | apply talks_when |
                apply talks_for_each; intros ? | apply talks_lobby; first [apply echo_ok | apply ping_ok] | case_match].
Lemma talks_start teamsFrozen : talks (hs_onGameStarted teamsFrozen).
Proof. apply talks_caught. unfold launch_hints, close_irc. talks_tac. Qed.
Lemma talks_end results : talks (hs_onGameEnded results).
Proof. apply talks_caught. talks_tac. Qed.

(** the slots, and the requests to quit *)
Definition slots : Type := list bytes * list bool * list bool.
Definition slots_of (s : HandleGameStatus I) : slots := (m_playerNames s, m_isAI s, m_isWatcher s).
Definition put_slot (slot : Z) (name : bytes) (ai w : bool) (v : slots) : slots :=
  if slot <? Z.of_nat (length v.1.1) then (<[Z.to_nat slot := name]> v.1.1, <[Z.to_nat slot := ai]> v.1.2, <[Z.to_nat slot := w]> v.2) else v.
Definition slots_after (v : slots) (e : qt_event) : slots :=
  match e with
  | playerStatus _ name slot _ w ai _ _ _ _ => put_slot slot name ai w v
  | clearSlot_signal _ _ slot => put_slot slot [] false false v
  | _ => v
  end.
Definition quits_of (s : HandleGameStatus I) : Z * Z := (m_quitRequested s, hs_app_quit s).
Definition quits_after (q : Z * Z) (e : qt_event) : Z * Z :=
  match e with
  | chat_signal (c :: msg) true =>
      let q1 := quit_requested (untagged (c :: msg)) q.1 in (q1, if 2 <=? q1 then Z.succ q.2 else q.2)
  | _ => q
  end.
(** a step that ends in a state with these slots and requests *)
Definition ends_as (r : res unit * (HandleGameStatus I * W)) (v : slots) (q : Z * Z) : Prop :=
  ∃ t w', r = (Ok tt, (t, w')) ∧ ready w' ∧ slots_of t = v ∧ quits_of t = q.
Lemma chat_step msg s w : ready w → msg ≠ [] →
  ends_as (hs_onChat msg true (s, w)) (slots_of s) (quits_after (quits_of s) (chat_signal msg true)).
Proof.
  intros Hw Hne. destruct msg as [|c msg]; [done|]. unfold hs_onChat. cbn [andb length]. change (0 <? S (length msg))%nat with true. cbn [when]. cbv zeta.
  set (said := untagged (c :: msg)). destruct (talks_doSend said true false s w Hw) as (i & w1 & E1 & Hw1). rewrite (caught_then _ _ _ _ _ E1).
  set (s1 := s <| m_irc := i |>). set (s2 := s1 <| m_quitRequested ::= quit_requested said |>).
  erewrite (caught_then (on_status _) _ (s1, w1) tt (s2, w1)) by reflexivity. rewrite caught_status. cbn [fst].
  change (m_quitRequested s2) with (quit_requested said (m_quitRequested s)).
  assert (∀ m, talks m → (2 <=? quit_requested said (m_quitRequested s)) = false →
    ends_as (caught m (s2, w1)) (slots_of s) (quits_after (quits_of s) (chat_signal (c :: msg) true))) as Htalk.
  { intros m Hm Hq. destruct (talks_caught m Hm s2 w1 Hw1) as (j & w2 & E2 & Hw2). exists (s2 <| m_irc := j |>), w2.
    split; [exact E2|]. split; [exact Hw2|]. split; [done|].
    cbn [quits_after]. fold said. unfold quits_of at 2 3. cbn [fst snd]. by rewrite Hq. }
  destruct (quit_requested said (m_quitRequested s) =? 1) eqn:E; [|destruct (2 <=? quit_requested said (m_quitRequested s)) eqn:Eq].
  - apply Htalk; [apply talks_doSend|]. apply Z.eqb_eq in E. by rewrite E.
  - destruct (talks_doSend (str "ok your game is disconnected you can alt-f4") false true s2 w1 Hw1) as (j & w2 & E2 & Hw2).
    rewrite (caught_then _ _ _ _ _ E2). exists ((s2 <| m_irc := j |>) <| hs_app_quit ::= Z.succ |>), w2. split; [done|]. split; [exact Hw2|]. split; [done|].
    cbn [quits_after]. fold said. unfold quits_of at 2 3. cbn [fst snd]. by rewrite Eq.
  - apply Htalk; [|done]. unfold close_irc. talks_tac.
Qed.
Lemma status_step e s w : ready w → ends_as (status_event e (s, w)) (slots_after (slots_of s) e) (quits_after (quits_of s) e).
Proof.
  intros Hw. destruct e as [mapName mu host local|id name slot side wa ai dead army team al|id name slot|tick frozen|rs|msg l]; cbn [status_event slots_after].
  - unfold hs_onGameSettings. rewrite caught_status. cbn [fst]. destruct (bool_decide _); cbn [negb when]; [by eexists _, _|].
    destruct (talks_doSend (str "Map changed to: " ++ mapName) true false s w Hw) as (i & w1 & E & Hw1). rewrite (caught_then _ _ _ _ _ E). by eexists _, _.
  - eexists _, w. split; [reflexivity|]. split; [exact Hw|]. unfold put_slot, slots_of. cbn [fst snd]. by case_match.
  - eexists _, w. split; [reflexivity|]. split; [exact Hw|]. unfold put_slot, slots_of. cbn [fst snd]. by case_match.
  - destruct (talks_start frozen s w Hw) as (i & w' & E & Hw'). by eexists _, _.
  - destruct (talks_end rs s w Hw) as (i & w' & E & Hw'). by eexists _, _.
  - destruct msg as [|c msg]; [|destruct l]; [by exists s, w; destruct l|by apply chat_step|by exists s, w].
Qed.
Lemma status_run es : ∀ s w, ready w →
  ends_as (status_events es (s, w)) (foldl slots_after (slots_of s) es) (foldl quits_after (quits_of s) es).
Proof.
  induction es as [|e es IH]; intros s w Hw; [by exists s, w|]. destruct (status_step e s w Hw) as (t & w1 & E & Hw1 & Es & Eq).
  destruct (IH t w1 Hw1) as (t' & w2 & E' & Hw2 & Es' & Eq'). exists t', w2. split_and!; [|done|cbn [foldl]; by rewrite Es', Es|cbn [foldl]; by rewrite Eq', Eq].
  unfold status_events. cbn [for_each]. by rewrite (stx_bind_ok _ _ _ _ _ E).
Qed.
(** ** Quitting from the chat of the game *)
Definition harald (e : qt_event) : bool :=
  match e with chat_signal msg true => bool_decide (untagged msg = str "-harald") | _ => false end.
Lemma quit_requested_harald msg q : quit_requested msg q = if bool_decide (msg = str "-harald") then 2 else 0.
Proof.
  unfold quit_requested. cbv zeta. case_bool_decide as E; [|done]. subst msg. by rewrite bool_decide_false.
Qed.
Lemma quits_count es : ∀ q, foldl quits_after q es =
  (foldl (λ q e, match e with chat_signal (_ :: _) true => if harald e then 2 else 0 | _ => q end) q.1 es,
   q.2 + Z.of_nat (length (filter harald es))).
Proof.
  induction es as [|e es IH]; intros [q n]; cbn [foldl fst snd]; [by rewrite Z.add_0_r|]. rewrite IH.
  destruct e as [| | | | |[|c msg] []]; cbn [quits_after fst snd]; try (rewrite filter_cons_False by (by intros []); done).
  rewrite quit_requested_harald. f_equal. change (bool_decide _) with (harald (chat_signal (c :: msg) true)).
  destruct (harald (chat_signal (c :: msg) true)) eqn:E.
  - rewrite filter_cons_True by (apply Is_true_true_2; exact E). cbn [length]. change (2 <=? 2) with true. cbn iota. lia.
  - rewrite filter_cons_False by (intros Hh%Is_true_true_1; congruence). done.
Qed.
Lemma quit_values es : ∀ q : Z, q = 0 ∨ q = 2 →
  let q' := foldl (λ q e, match e with chat_signal (_ :: _) true => if harald e then 2 else 0 | _ => q end) q es in q' = 0 ∨ q' = 2.
Proof.
  induction es as [|e es IH]; intros q Hq; cbn [foldl]; [done|]. apply IH. destruct e as [| | | | |[|c msg] []]; try done. case_match; auto.
Qed.
(** C39: the only chat that ends the application is a line of the local player that says
    [-harald], which ends it at once, every time.  The count of [/quit] is overwritten by
    the assignment that follows it, so that it is 0 or 2 at all times: [/quit], however
    often it is said, neither quits nor is it answered, although the hint of the launch
    tells the players to use it. *)
Theorem quit_only_harald (irc : option I) (channel : bytes) (isGameRated : bool) (es : list qt_event) (w : W) : ready w → ∃ t w',
  status_events es (HandleGameStatus_make irc channel isGameRated, w) = (Ok tt, (t, w')) ∧
  hs_app_quit t = Z.of_nat (length (filter harald es)) ∧ (m_quitRequested t = 0 ∨ m_quitRequested t = 2).
Proof.
  intros Hw. destruct (status_run es (HandleGameStatus_make irc channel isGameRated) w Hw) as (t & w' & E & _ & _ & Eq). exists t, w'. split; [exact E|].
  rewrite quits_count in Eq. change (quits_of (HandleGameStatus_make irc channel isGameRated)) with (0, 0) in Eq. cbn [fst snd] in Eq.
  injection Eq as Eq1 Eq2. rewrite Eq1, Eq2. split; [lia|]. apply quit_values. by left.
Qed.

(** ** The players that the hints count *)

(** what was last heard of a slot *)
Definition last_heard (k : nat) (b : bytes * bool * bool) (e : qt_event) : bytes * bool * bool :=
  match e with
  | playerStatus _ name slot _ w ai _ _ _ _ => if bool_decide (slot = Z.of_nat k) then (name, ai, w) else b
  | clearSlot_signal _ _ slot => if bool_decide (slot = Z.of_nat k) then ([], false, false) else b
  | _ => b
  end.
Definition heard_of (es : list qt_event) (k : nat) : bytes * bool * bool := foldl (last_heard k) ([], false, false) es.
Definition human (b : bytes * bool * bool) : bool := negb (bool_decide (b.1.1 = [])) && negb b.1.2 && negb b.2.
(** a status names the player, and an AI does not watch *)
Definition sane (e : qt_event) : Prop :=
  match e with
  | playerStatus _ name slot _ w ai _ _ _ _ => 0 ≤ slot ∧ name ≠ [] ∧ ai && w = false
  | clearSlot_signal _ _ slot => 0 ≤ slot
  | _ => True
  end.
Definition slots_with (f : nat → bytes * bool * bool) : slots :=
  ((λ k, (f k).1.1) <$> seq 0 10, (λ k, (f k).1.2) <$> seq 0 10, (λ k, (f k).2) <$> seq 0 10).
Lemma insert_seq {A} (f g : nat → A) j x : (∀ k, (k < 10)%nat → g k = if bool_decide (j = k) then x else f k) →
  <[j := x]> (f <$> seq 0 10) = g <$> seq 0 10.
Proof.
  intros Hg. apply list_eq. intros k. destruct (decide (k < 10)%nat) as [Hk|Hk].
  - rewrite (list_lookup_fmap g), lookup_seq_lt by done. cbn [fmap option_fmap option_map Nat.add]. rewrite Hg by done. case_bool_decide as E.
    + subst j. rewrite list_lookup_insert_eq; [done|]. by rewrite length_fmap, length_seq.
    + rewrite list_lookup_insert_ne by done. rewrite list_lookup_fmap, lookup_seq_lt by done. done.
  - rewrite !lookup_ge_None_2; [done|rewrite length_fmap, length_seq; lia|rewrite length_insert, length_fmap, length_seq; lia].
Qed.
Lemma put_slots_with f slot name ai w : 0 ≤ slot →
  put_slot slot name ai w (slots_with f) = slots_with (λ k, if bool_decide (slot = Z.of_nat k) then (name, ai, w) else f k).
Proof.
  intros Hs. unfold put_slot. change (Z.of_nat (length (slots_with f).1.1)) with 10. destruct (slot <? 10) eqn:E.
  - apply Z.ltb_lt in E. unfold slots_with. cbn [fst snd]. (apply f_equal2; [apply f_equal2|]).
    all: apply insert_seq; intros k Hk; do 2 case_bool_decide; try lia; done.
  - apply Z.ltb_ge in E. unfold slots_with. (apply f_equal2; [apply f_equal2|]); apply list_fmap_ext; intros i k Hk%lookup_seq.
    all: by rewrite bool_decide_false by lia.
Qed.
Lemma slots_run es : Forall sane es → ∀ f, foldl slots_after (slots_with f) es = slots_with (λ k, foldl (last_heard k) (f k) es).
Proof.
  induction 1 as [|e es He Hes IH]; intros f; [done|]. cbn [foldl]. rewrite <- IH. f_equal.
  destruct e; cbn [slots_after last_heard]; try done; by apply put_slots_with, He.
Qed.
Lemma count_acc {A} (f : A → bool) l : ∀ a, foldl (λ a x, if f x then a + 1 else a) a l = a + count f l.
Proof.
  unfold count. induction l as [|x l IH]; intros a; cbn [foldl]; [lia|]. rewrite IH, (IH (if f x then _ else _)). destruct (f x); lia.
Qed.
Lemma count_cons {A} (f : A → bool) x l : count f (x :: l) = (if f x then 1 else 0) + count f l.
Proof. unfold count at 1. cbn [foldl]. rewrite count_acc. destruct (f x); lia. Qed.
Lemma humans_of f (l : list nat) : (∀ k, k ∈ l → ((f k).1.2 = true ∨ (f k).2 = true → (f k).1.1 ≠ []) ∧ (f k).1.2 && (f k).2 = false) →
  count (λ name, negb (bool_decide (name = []))) ((λ k, (f k).1.1) <$> l) - count id ((λ k, (f k).1.2) <$> l) - count id ((λ k, (f k).2) <$> l) =
  Z.of_nat (length (filter (λ k, human (f k)) l)).
Proof.
  induction l as [|k l IH]; intros Hf; [done|]. cbn [fmap list_fmap]. rewrite !count_cons.
  specialize (IH (λ k Hk, Hf k (list_elem_of_further _ _ _ Hk))). destruct (Hf k ltac:(left)) as [H1 H2].
  assert (Z.of_nat (length (filter (λ k, human (f k)) (k :: l))) = (if human (f k) then 1 else 0) + Z.of_nat (length (filter (λ k, human (f k)) l))) as ->.
  { destruct (human (f k)) eqn:E; [rewrite filter_cons_True by (apply Is_true_true_2; exact E); cbn [length]; lia|rewrite filter_cons_False by (intros Hh%Is_true_true_1; congruence); lia]. }
  rewrite <- IH. unfold human. destruct (f k) as [[name ai] wa]. cbn [fst snd id] in *. case_bool_decide as E; destruct ai, wa; cbn [negb andb] in *; try done; try lia.
  all: destruct (H1 ltac:(auto)); done.
Qed.
Lemma heard_sane es k : Forall sane es → ∀ b : bytes * bool * bool,
  (b.1.2 = true ∨ b.2 = true → b.1.1 ≠ []) → b.1.2 && b.2 = false →
  let b' := foldl (last_heard k) b es in (b'.1.2 = true ∨ b'.2 = true → b'.1.1 ≠ []) ∧ b'.1.2 && b'.2 = false.
Proof.
  induction 1 as [|e es He Hes IH]; intros b H1 H2; [done|]. cbn [foldl]. apply IH.
  all: destruct e as [|id name slot side wa ai| | | |]; cbn [last_heard] in *; try done; case_bool_decide; cbn [fst snd] in *; try done.
  - intros _. apply He.
  - by intros [|].
  - apply He.
Qed.
(** the hints of the launch count the people who play: after any messages, as long as
    a status names its player and an AI does not watch, the slots that are in use less
    those of AIs and of watchers are as many as there are slots of which the last message
    was the status of a human player who does not watch, slots beyond the tenth aside. *)
Theorem humans_counted (irc : option I) (channel : bytes) (isGameRated : bool) (es : list qt_event) (w : W) : ready w → Forall sane es → ∃ t w',
  status_events es (HandleGameStatus_make irc channel isGameRated, w) = (Ok tt, (t, w')) ∧
  getOccupancyCount t - getAiCount t - getWatcherCount t = Z.of_nat (length (filter (λ k, human (heard_of es k)) (seq 0 10))).
Proof.
  intros Hw Hes. destruct (status_run es (HandleGameStatus_make irc channel isGameRated) w Hw) as (t & w' & E & _ & Es & _). exists t, w'. split; [exact E|].
  change (slots_of (HandleGameStatus_make irc channel isGameRated)) with (slots_with (λ _, ([], false, false))) in Es. rewrite slots_run in Es by done.
  injection Es as E1 E2 E3. unfold getOccupancyCount, getAiCount, getWatcherCount. rewrite E1, E2, E3.
  apply (humans_of (heard_of es) (seq 0 10)). intros k _. apply heard_sane; [done|by intros [|]|done].
Qed.
End Players.

(** ** An example: a lobby that keeps what it is asked, and a channel that keeps what it is sent *)
Record ex_irc := mkExIrc { xi_active : bool; xi_sent : list bytes }.
#[export] Instance ex_irc_forward : IrcForward ex_irc.
Proof.
  refine {| irc_isActive := xi_active; irc_realName _ := str "bob"; irc_quit _ i := i; irc_close i := mkExIrc false (xi_sent i);
            irc_message target text i := mkExIrc (xi_active i) (xi_sent i ++ [text]); irc_join _ i := i;
            irc_open i := mkExIrc true (xi_sent i) |}; done.
Defined.
#[export] Instance ex_lobby : Lobby (list bytes) := {|
  lobby_echoToGame _ _ chat := modify (λ l, l ++ [chat]); lobby_setPeerPingInterval _ := mret tt |}.
#[export] Instance ex_lobby_works : LobbyWorks (W:=list bytes) (λ _, True).
Proof. split; intros; by eexists. Qed.
Definition ex_chat : list qt_event :=
  [playerStatus 10 (str "bob") 0 1 false false false 1 1 []; playerStatus 11 (str "AI:hal") 1 1 false true false 2 2 [];
   playerStatus 12 (str "eve") 2 1 true false false 0 0 []; playerStatus 13 (str "ann") 3 1 false false false 3 2 [];
   chat_signal (str "<bob> hi") true; chat_signal (str "/quit") true; chat_signal (str "/quit") true; clearSlot_signal 0 [] 1].
Lemma ex_chat_sane : Forall sane ex_chat.
Proof. unfold ex_chat. repeat apply Forall_cons_2; try apply Forall_nil_2; cbn [sane]; try done; split_and?; try lia; try done. Qed.
Lemma humans_counted_witness : ∃ t w',
  status_events (H:=ex_qt) ex_chat (HandleGameStatus_make (Some (mkExIrc true [])) (str "#ta") true, @nil bytes) = (Ok tt, (t, w')) ∧
  getOccupancyCount t - getAiCount t - getWatcherCount t = 2.
Proof.
  destruct (humans_counted (H:=ex_qt) (λ _, True) (Some (mkExIrc true [])) (str "#ta") true ex_chat (@nil bytes) I ex_chat_sane) as (t & w' & E & Ec).
  exists t, w'. split; [exact E|]. rewrite Ec. vm_compute. reflexivity.
Defined.
Lemma quit_only_harald_witness : ∃ t w',
  status_events (H:=ex_qt) (ex_chat ++ [chat_signal (str "<bob> -harald") true]) (HandleGameStatus_make (Some (mkExIrc true [])) (str "#ta") true, @nil bytes)
  = (Ok tt, (t, w')) ∧ hs_app_quit t = 1.
Proof.
  destruct (quit_only_harald (H:=ex_qt) (λ _, True) (Some (mkExIrc true [])) (str "#ta") true (ex_chat ++ [chat_signal (str "<bob> -harald") true]) (@nil bytes) I)
    as (t & w' & E & Eq & _). exists t, w'. split; [exact E|]. rewrite Eq. vm_compute. reflexivity.
Defined.
(** two requests to quit do nothing, and what was said has gone to the channel *)
Example quit_ignored : let r := status_events (H:=ex_qt) ex_chat (HandleGameStatus_make (Some (mkExIrc true [])) (str "#ta") true, @nil bytes) in
  (hs_app_quit r.2.1, r.2.2, xi_sent <$> m_irc r.2.1) = (0, [], Some [str "hi"; str "/quit"; str "/quit"]).
Proof. vm_compute. reflexivity. Qed.
