(* ===== verification/GameSender.v ===== *)
(** * The sockets towards the local game (GameSender.cpp, GameReceiver.cpp)

    What is written to the game is returned as a list of outputs; whether a connection
    succeeds, and which ports the system gives to new sockets, is decided outside and is
    an argument. *)
From S2P Require Import Prelude.

(** ** GameSender *)
Record GameSender := mkSender {
  gs_gameAddress : Z; gs_enumPort : Z; gs_tcpPort : Z; gs_udpPort : Z;
  gs_tcpOpen : bool }.                    (* [m_tcpSocket.isOpen()] *)
Definition GameSender_make (gameAddress enumPort : Z) : GameSender := mkSender gameAddress enumPort 0 0 false.
Definition setTcpPort (port : Z) (s : GameSender) : GameSender :=
  mkSender (gs_gameAddress s) (gs_enumPort s) port (gs_udpPort s) (gs_tcpOpen s).
Definition setUdpPort (port : Z) (s : GameSender) : GameSender :=
  mkSender (gs_gameAddress s) (gs_enumPort s) (gs_tcpPort s) port (gs_tcpOpen s).
Definition setGameAddress (address : Z) (s : GameSender) : GameSender :=
  mkSender address (gs_enumPort s) (gs_tcpPort s) (gs_udpPort s) (gs_tcpOpen s).
Definition set_tcpOpen (v : bool) (s : GameSender) : GameSender :=
  mkSender (gs_gameAddress s) (gs_enumPort s) (gs_tcpPort s) (gs_udpPort s) v.

(** what the game gets: a message on its enumeration port, on the open TCP connection, or
    a datagram *)
Inductive game_output : Type :=
  | OutEnum (address port : Z) (data : bytes)
  | OutTcp (data : bytes)
  | OutUdp (address port : Z) (data : bytes).

(** [connects]: the connection succeeds in time *)
Definition enumSessions (connects : bool) (data : bytes) (s : GameSender) : bool * list game_output :=
  if connects then (true, [OutEnum (gs_gameAddress s) (gs_enumPort s) data]) else (false, []).
(** [opens]: the socket is open after the attempt *)
Definition openTcpSocket (opens : bool) (s : GameSender) : bool * GameSender :=
  let s := if (0 <? gs_tcpPort s) && negb (gs_tcpOpen s) then set_tcpOpen opens s else s in
  (gs_tcpOpen s, s).
(** nothing is written to a socket that is not open *)
Definition sendTcpData (opens : bool) (data : bytes) (s : GameSender) : GameSender * list game_output :=
  let s := if negb (gs_tcpOpen s) then (openTcpSocket opens s).2 else s in
  (s, if gs_tcpOpen s then [OutTcp data] else []).

(** [for (port = begin; port < end; ++port)] *)
Definition port_range (first last : Z) : list Z := seqZ first (last - first).
(** the ports to which [sendUdpData] sends *)
Definition udp_ports (portOverride : Z) (s : GameSender) : list Z :=
  let port := if portOverride =? 0 then gs_udpPort s else portOverride in
  if 0 <? port then [port]
  else if (2300 <=? gs_tcpPort s) && (gs_tcpPort s <? 2350) then port_range 2350 (gs_tcpPort s + 51)
  else if 0 <? gs_tcpPort s then [u16 (gs_tcpPort s + 50)]
  else port_range 2350 2400.
Definition sendUdpData (data : bytes) (portOverride : Z) (s : GameSender) : list game_output :=
  (λ port, OutUdp (gs_gameAddress s) port data) <$> udp_ports portOverride s.

(** a known port gets the datagram once and nobody else does; otherwise it goes to the
    game's usual port, 50 above its TCP port, and stays within the game's range of ports *)
Lemma udp_ports_spec s : 0 ≤ gs_tcpPort s < 65486 → 0 ≤ gs_udpPort s →
  (0 < gs_udpPort s → udp_ports 0 s = [gs_udpPort s]) ∧
  (gs_udpPort s = 0 → 2300 ≤ gs_tcpPort s → gs_tcpPort s + 50 ∈ udp_ports 0 s) ∧
  (gs_udpPort s = 0 → gs_tcpPort s < 2350 → gs_tcpPort s = 0 ∨ 2300 ≤ gs_tcpPort s →
    Forall (λ p, 2350 ≤ p < 2400) (udp_ports 0 s)).
Proof.
  intros Ht Hu. unfold udp_ports, port_range. rewrite Z.eqb_refl. split_and!.
  - intros H. by rewrite (proj2 (Z.ltb_lt _ _) H).
  - intros -> H. cbn [Z.ltb Z.compare]. rewrite (proj2 (Z.leb_le 2300 _) H). cbn [andb].
    destruct (Z.ltb_spec (gs_tcpPort s) 2350); [apply elem_of_seqZ; lia|]. rewrite (proj2 (Z.ltb_lt 0 _)) by lia.
    rewrite u16_id by (unfold is_u16; lia). by left.
  - intros -> H1 H2. cbn [Z.ltb Z.compare]. apply Forall_forall. intros p.
    destruct (Z.leb_spec 2300 (gs_tcpPort s)); cbn [andb].
    + rewrite (proj2 (Z.ltb_lt _ 2350)) by lia. rewrite elem_of_seqZ. lia.
    + rewrite (proj2 (Z.ltb_ge 0 _)) by lia. rewrite elem_of_seqZ. lia.
Qed.

(** ** GameReceiver: the ports on which the local game is listened to *)
Record GameReceiver := mkReceiver {
  gr_bindAddress : Z; gr_enumPort : Z; gr_tcpPort : Z; gr_udpPort : Z }.
(** [tcpPort] and [udpPort]: the ports that the system has given *)
Definition GameReceiver_make (bindAddress tcpPort udpPort : Z) : GameReceiver := mkReceiver bindAddress 0 tcpPort udpPort.
(** [bound]: the port of the enumeration server after [listen(port)] *)
Definition bindEnumerationPort (port bound : Z) (r : GameReceiver) : GameReceiver :=
  mkReceiver (gr_bindAddress r) (if 0 <? port then bound else 0) (gr_tcpPort r) (gr_udpPort r).
Definition getListenPorts (r : GameReceiver) : list Z := [gr_tcpPort r; gr_udpPort r].
Definition CHANNEL_ENUM : Z := 1.
Definition CHANNEL_TCP : Z := 2.
Definition CHANNEL_UDP : Z := 3.
Definition getChannelCodeFromSocket (isTcp : bool) (localPort : Z) (r : GameReceiver) : Z :=
  if localPort =? gr_enumPort r then CHANNEL_ENUM
  else if isTcp && (localPort =? gr_tcpPort r) then CHANNEL_TCP
  else if negb isTcp && (localPort =? gr_udpPort r) then CHANNEL_UDP
  else 0.
