(* ===== verification/TafnetGameNode.v ===== *)
(** * The node of a game (TafnetGameNode.cpp)

    The glue between the peer to peer node, the address translator, the packet parser and
    the sockets of the local game: [handleTafnetMessage] is the hook of the node,
    [handleGameData] the hook of the receivers.  A method changes the node and the game
    node together. *)
From S2P Require Import Prelude ExceptState OrderedMaps TPacketCrypt TPacketCompress TPacketSplit TPacketSmartpak DuplicateDetection DPlayPacket GameAddressTranslater TAPacketParser.
From S2P Require Import DataBuffer TafnetNode GameSender.

Definition GAME_TCP_PORT_BEGIN : Z := 2300.
Definition GAME_TCP_PORT_VALID_END : Z := 2400.
Definition GAME_UDP_PORT_BEGIN : Z := 2350.
Definition GAME_UDP_PORT_VALID_END : Z := 2400.
Definition TICKS_TO_PROTECT_UDP : Z := 300.
Definition LocalHost : Z := 2130706433.

(** ** State *)
Record TafnetGameNode := mkGameNode {
  m_packetParser : option TAPacketParser;     (* shared with the program; may be null *)
  m_gameSenders : gmap Z GameSender;
  m_gameReceivers : gmap Z GameReceiver;
  m_remotePlayerIds : gmap Z Z;               (* by port *)
  m_pendingEnumRequests : gmap Z bytes;
  m_playerInviteOrder : list Z;
  m_pendingEnumRequestsTimer : bool;          (* it is running *)
  m_gameTcpPort : Z; m_gameUdpPort : Z; m_gameAddress : Z;
  m_initialOccupiedTcpPorts : list Z;
  g_outputs : list (Z * game_output);         (* written by the sender of a player *)
  g_events : list event }.                    (* the calls of the parser's handlers *)
Definition TafnetGameNode_make (parser : option TAPacketParser) (occupiedTcp : list Z) : TafnetGameNode :=
  mkGameNode parser ∅ ∅ ∅ ∅ [] true 0 0 LocalHost occupiedTcp [] [].

Definition set_parser (p : option TAPacketParser) (es : list event) (g : TafnetGameNode) : TafnetGameNode :=
  mkGameNode p (m_gameSenders g) (m_gameReceivers g) (m_remotePlayerIds g) (m_pendingEnumRequests g)
    (m_playerInviteOrder g) (m_pendingEnumRequestsTimer g) (m_gameTcpPort g) (m_gameUdpPort g) (m_gameAddress g)
    (m_initialOccupiedTcpPorts g) (g_outputs g) (g_events g ++ es).
Definition set_senders (s : gmap Z GameSender) (g : TafnetGameNode) : TafnetGameNode :=
  mkGameNode (m_packetParser g) s (m_gameReceivers g) (m_remotePlayerIds g) (m_pendingEnumRequests g)
    (m_playerInviteOrder g) (m_pendingEnumRequestsTimer g) (m_gameTcpPort g) (m_gameUdpPort g) (m_gameAddress g)
    (m_initialOccupiedTcpPorts g) (g_outputs g) (g_events g).
Definition set_receivers (r : gmap Z GameReceiver) (ids : gmap Z Z) (g : TafnetGameNode) : TafnetGameNode :=
  mkGameNode (m_packetParser g) (m_gameSenders g) r ids (m_pendingEnumRequests g)
    (m_playerInviteOrder g) (m_pendingEnumRequestsTimer g) (m_gameTcpPort g) (m_gameUdpPort g) (m_gameAddress g)
    (m_initialOccupiedTcpPorts g) (g_outputs g) (g_events g).
Definition set_requests (requests : gmap Z bytes) (order : list Z) (g : TafnetGameNode) : TafnetGameNode :=
  mkGameNode (m_packetParser g) (m_gameSenders g) (m_gameReceivers g) (m_remotePlayerIds g) requests
    order (m_pendingEnumRequestsTimer g) (m_gameTcpPort g) (m_gameUdpPort g) (m_gameAddress g)
    (m_initialOccupiedTcpPorts g) (g_outputs g) (g_events g).
Definition set_timer (running : bool) (g : TafnetGameNode) : TafnetGameNode :=
  mkGameNode (m_packetParser g) (m_gameSenders g) (m_gameReceivers g) (m_remotePlayerIds g) (m_pendingEnumRequests g)
    (m_playerInviteOrder g) running (m_gameTcpPort g) (m_gameUdpPort g) (m_gameAddress g)
    (m_initialOccupiedTcpPorts g) (g_outputs g) (g_events g).
Definition set_ports (tcp udp address : Z) (g : TafnetGameNode) : TafnetGameNode :=
  mkGameNode (m_packetParser g) (m_gameSenders g) (m_gameReceivers g) (m_remotePlayerIds g) (m_pendingEnumRequests g)
    (m_playerInviteOrder g) (m_pendingEnumRequestsTimer g) tcp udp address
    (m_initialOccupiedTcpPorts g) (g_outputs g) (g_events g).
Definition add_outputs (peer : Z) (outs : list game_output) (g : TafnetGameNode) : TafnetGameNode :=
  mkGameNode (m_packetParser g) (m_gameSenders g) (m_gameReceivers g) (m_remotePlayerIds g) (m_pendingEnumRequests g)
    (m_playerInviteOrder g) (m_pendingEnumRequestsTimer g) (m_gameTcpPort g) (m_gameUdpPort g) (m_gameAddress g)
    (m_initialOccupiedTcpPorts g) (g_outputs g ++ ((λ o, (peer, o)) <$> outs)) (g_events g).

(** ** What the system decides *)
Record environment := mkEnv {
  env_now : Z;
  env_tcpOpens : bool;                        (* a TCP connection to the game succeeds *)
  env_enumConnects : bool;
  env_tcpPort : Z; env_udpPort : Z;           (* the ports of the next new receiver *)
  env_enumBound : Z;                          (* the port of its enumeration server *)
  env_occupiedTcp : list Z;                   (* the probe finds these, in order *)
  env_junk : Z * Z }.                         (* the uninitialised checksum of the parser *)

Section GameNode.
(** the factories of the program: [new GameSender(gameAddress, 47624)] and
    [new GameReceiver(bindAddress, 0, 0, socket)] *)
Context (factoryAddress factoryEnumPort bindAddress : Z).
Context (env : environment).

(** ** Senders and receivers *)
Definition getGameSender (peer : Z) (g : TafnetGameNode) : GameSender * TafnetGameNode :=
  match m_gameSenders g !! peer with
  | Some s => (s, g)
  | None =>
      let s := setGameAddress (m_gameAddress g) (setUdpPort (m_gameUdpPort g) (setTcpPort (m_gameTcpPort g)
                 (GameSender_make factoryAddress factoryEnumPort))) in
      (s, set_senders (<[peer := s]> (m_gameSenders g)) g)
  end.
Definition killGameSender (peer : Z) (g : TafnetGameNode) : TafnetGameNode := set_senders (delete peer (m_gameSenders g)) g.
(** a port that is there already keeps its player *)
Definition add_remote (port peer : Z) (ids : gmap Z Z) : gmap Z Z :=
  match ids !! port with Some _ => ids | None => <[port := peer]> ids end.
Definition getGameReceiver (peer : Z) (g : TafnetGameNode) : GameReceiver * TafnetGameNode :=
  match m_gameReceivers g !! peer with
  | Some r => (r, g)
  | None =>
      let r := GameReceiver_make bindAddress (env_tcpPort env) (env_udpPort env) in
      (r, set_receivers (<[peer := r]> (m_gameReceivers g))
            (add_remote (gr_udpPort r) peer (add_remote (gr_tcpPort r) peer (m_remotePlayerIds g))) g)
  end.
Definition killGameReceiver (peer : Z) (g : TafnetGameNode) : TafnetGameNode :=
  match m_gameReceivers g !! peer with
  | None => g
  | Some r =>
      let ids := delete (gr_udpPort r) (delete (gr_tcpPort r) (m_remotePlayerIds g)) in
      let ids := if (size (m_gameReceivers g) =? 1)%nat then delete (gr_enumPort r) ids else ids in
      set_receivers (delete peer (m_gameReceivers g)) ids g
  end.

(** ** Ports of the game *)
Definition updateGameSenderPortsFromSpaPacket (tcp udp : Z) (g : TafnetGameNode) : TafnetGameNode :=
  let g := if (GAME_TCP_PORT_BEGIN <=? tcp) && (tcp <? GAME_TCP_PORT_VALID_END) && (m_gameTcpPort g =? 0)
           then set_senders (setTcpPort tcp <$> m_gameSenders g) (set_ports tcp (m_gameUdpPort g) (m_gameAddress g) g)
           else g in
  if (GAME_UDP_PORT_BEGIN <=? udp) && (udp <? GAME_UDP_PORT_VALID_END) && (m_gameUdpPort g =? 0)
  then set_senders (setUdpPort udp <$> m_gameSenders g) (set_ports (m_gameTcpPort g) udp (m_gameAddress g) g)
  else g.
Definition valid_tcp (port : Z) : bool := (GAME_TCP_PORT_BEGIN <=? port) && (port <? GAME_TCP_PORT_VALID_END).
Definition updateGameSenderPortsFromDplayHeader (data : bytes) (g : TafnetGameNode) : res TafnetGameNode :=
  ok ← looksOk_at data 0;
  if ok : bool then
    port ← rd16 data 6;
    let tcp := NetworkByteOrder16 port in
    let tcp := if valid_tcp tcp then tcp
               else foldl (λ tcp port, if bool_decide (port ∈ m_initialOccupiedTcpPorts g) then tcp else port) tcp (env_occupiedTcp env) in
    let tcp := if valid_tcp tcp then tcp else GAME_TCP_PORT_BEGIN in
    Ok (set_senders ((λ s, setGameAddress LocalHost (setUdpPort (m_gameUdpPort g) (setTcpPort tcp s))) <$> m_gameSenders g)
          (set_ports tcp (m_gameUdpPort g) LocalHost g))
  else Ok g.

(** ** Translation of addresses *)

(** the first lambda: an address of the local game becomes the id of its player *)
Definition spa_from_local (localId : Z) (g : TafnetGameNode) (a : DPAddress) (index : nat) : bool * DPAddress * TafnetGameNode :=
  let port := get_port a in
  match m_remotePlayerIds g !! port with
  | Some id => (true, set_address id a, g)
  | None =>
      (true, set_address localId a,
       updateGameSenderPortsFromSpaPacket (if (index =? 0)%nat then port else 0) (if (index =? 1)%nat then port else 0) g)
  end.
Definition translateMessageFromLocalGame (localId : Z) (data : bytes) (g : TafnetGameNode) : res (bytes * TafnetGameNode) :=
  translate 0 [57005; 48879] (spa_from_local localId) g data.      (* 0xdead, 0xbeef *)
(** the second: the id of a player becomes the address of his local receiver *)
Definition spa_from_remote (replyAddress : Z) (replyPorts : list Z) (g : TafnetGameNode) (a : DPAddress) (index : nat)
    : bool * DPAddress * TafnetGameNode :=
  match m_gameReceivers g !! get_address a with
  | Some r => (true, set_port (if (index =? 0)%nat then gr_tcpPort r else gr_udpPort r) (set_address (gr_bindAddress r) a), g)
  | None => (true, set_port (replyPorts !!! (if (0 <? index)%nat then 1 else 0)%nat) (set_address replyAddress a), g)
  end.
Definition translateMessageFromRemoteGame (data : bytes) (replyAddress : Z) (replyPorts : list Z) (g : TafnetGameNode)
    : res (bytes * TafnetGameNode) := translate replyAddress replyPorts (spa_from_remote replyAddress replyPorts) g data.

(** ** Methods over the node and the game node *)
Abbreviation gn := (stx (TafnetNode * TafnetGameNode)).
Definition game : gn TafnetGameNode := gets snd.
Definition on_game (f : TafnetGameNode → TafnetGameNode) : gn unit := modify (λ s, (s.1, f s.2)).
Definition output (peer : Z) (outs : list game_output) : gn unit := on_game (add_outputs peer outs).
Definition forward (dest action : Z) (data : bytes) : gn unit := λ s,
  match forwardGameData (env_now env) dest action data s.1 with
  | Ok n => (Ok tt, (n, s.2))
  | Throw e => (Throw e, s)
  | Undef => (Undef, s)
  | Hang => (Hang, s)
  end.
(** [if (m_packetParser) m_packetParser->parseGameData(isLocal, data, len)]: the codes parsed *)
Definition parse_data (isLocal : bool) (data : bytes) : gn (gset Z) :=
  g ← game;
  match m_packetParser g with
  | None => mret ∅
  | Some p =>
      r ← lift (parseGameData (env_junk env) isLocal data p);
      on_game (set_parser (Some r.1) r.2) ≫= λ _, mret (p_parsed r.1)
  end.

(** the sub-packets for which a datagram is protected *)
Definition protectedSubpaks : list SubPacketCode :=
  [CHAT_05; LOADING_STARTED_08; GIVE_UNIT_14; HOST_MIGRATION_18; REJECT_1B; SPEED_19; ALLY_23; TEAM_24].
Definition any_protected (parsed : gset Z) : bool := existsb (λ c, bool_decide (code_byte c ∈ parsed)) protectedSubpaks.
Definition early_game (p : option TAPacketParser) : bool :=
  match p with Some p => p_progressTicks p <? TICKS_TO_PROTECT_UDP | None => false end.

(** [handleGameData]; [localPort] is the port of the receiving socket, [None] null data *)
Definition handle_udp (dest : Z) (data : bytes) : gn unit :=
  s ← gets id;
  let protect := (maxPacketSizeForPlayerId dest s.1 <? Z.of_nat (length data)) || early_game (m_packetParser s.2) in
  parsed ← parse_data true data;
  forward dest (if protect || any_protected parsed then ACTION_UDP_PROTECTED else ACTION_UDP_DATA) data.
Definition handle_tcp (dest : Z) (data : bytes) : gn unit :=
  s ← gets id;
  r ← lift (translateMessageFromLocalGame (m_playerId s.1) data s.2);
  on_game (λ _, r.2) ≫= λ _,
  forward dest ACTION_TCP_DATA r.1 ≫= λ _,
  parse_data true r.1 ≫= λ _, mret tt.
Definition handleGameData (localPort channelCode : Z) (data : option bytes) : gn unit :=
  g ← game;
  match m_remotePlayerIds g !! localPort, data with
  | Some dest, Some data =>
      if (dest =? 0) || (length data =? 0)%nat then mret tt
      else
        (if m_gameTcpPort g =? 0 then
           g ← lift (updateGameSenderPortsFromDplayHeader data g); on_game (λ _, g)
         else mret tt) ≫= λ _,
        if channelCode =? CHANNEL_UDP then handle_udp dest data
        else if channelCode =? CHANNEL_TCP then handle_tcp dest data
        else if channelCode =? CHANNEL_ENUM then forward dest ACTION_ENUM data
        else mret tt
  | _, _ => mret tt
  end.

(** ** Messages of the peers *)
Definition put_sender (peer : Z) (s : GameSender) (g : TafnetGameNode) : TafnetGameNode :=
  set_senders (<[peer := s]> (m_gameSenders g)) g.
Definition on_node (f : TafnetNode → res TafnetNode) : gn unit := λ s,
  match f s.1 with
  | Ok n => (Ok tt, (n, s.2))
  | Throw e => (Throw e, s)
  | Undef => (Undef, s)
  | Hang => (Hang, s)
  end.
Definition handleTafnetMessage (action peer : Z) (data : bytes) : gn unit :=
  g ← game;
  let '(sender, g) := getGameSender peer g in
  let '(receiver, g) := getGameReceiver peer g in
  on_game (λ _, g) ≫= λ _,
  let replyPorts := getListenPorts receiver in
  if action =? ACTION_HELLO then on_node (sendPacksizeTests (env_now env) peer)
  else if action =? ACTION_ENUM then
    r ← lift (translate (gr_bindAddress receiver) replyPorts no_translation tt data);
    on_game (λ g, set_requests (<[peer := r.1]> (m_pendingEnumRequests g)) (m_playerInviteOrder g) g)
  else if action =? ACTION_TCP_OPEN then on_game (put_sender peer (openTcpSocket (env_tcpOpens env) sender).2)
  else if action =? ACTION_TCP_DATA then
    g ← game;
    r ← lift (translateMessageFromRemoteGame data (gr_bindAddress receiver) replyPorts g);
    let '(sender, outs) := sendTcpData (env_tcpOpens env) r.1 sender in
    on_game (put_sender peer sender) ≫= λ _, output peer outs ≫= λ _,
    parse_data false r.1 ≫= λ _, mret tt
  else if (action =? ACTION_UDP_PROTECTED) || (action =? ACTION_UDP_DATA) then
    output peer (sendUdpData data 0 sender) ≫= λ _,
    parse_data false data ≫= λ _, mret tt
  else mret tt.

(** ** Players *)
Definition registerRemotePlayer (peer isHostEnumPort : Z) : gn unit := on_game (λ g,
  let g := (getGameSender peer g).2 in
  let '(receiver, g) := getGameReceiver peer g in
  if 0 <? isHostEnumPort then
    let receiver := bindEnumerationPort isHostEnumPort (env_enumBound env) receiver in
    set_receivers (<[peer := receiver]> (m_gameReceivers g)) (<[gr_enumPort receiver := peer]> (m_remotePlayerIds g)) g
  else g).
Definition unregisterRemotePlayer (peer : Z) : gn unit := on_game (λ g,
  killGameReceiver peer (killGameSender peer
    (set_requests (delete peer (m_pendingEnumRequests g)) (filter (λ id, id ≠ peer) (m_playerInviteOrder g)) g))).
Definition setPlayerInviteOrder (tafnetIds : list Z) : gn unit := on_game (λ g,
  set_requests (m_pendingEnumRequests g) (filter (λ id, is_Some (m_gameSenders g !! id)) tafnetIds) g).

(** the request that the timer passes to the game *)
Definition to_admit (g : TafnetGameNode) : option Z :=
  match m_playerInviteOrder g with
  | id :: _ => match m_pendingEnumRequests g !! id with Some _ => Some id | None => None end
  | [] => first_key (m_pendingEnumRequests g)
  end.
Definition processPendingEnumRequests : gn unit := on_game (λ g,
  let g :=
    match to_admit g with
    | Some peer =>
        let '(sender, g) := getGameSender peer g in
        let '(ok, outs) := enumSessions (env_enumConnects env) (at_key [] (m_pendingEnumRequests g) peer) sender in
        let g := add_outputs peer outs g in
        if ok : bool then set_requests (delete peer (m_pendingEnumRequests g)) (tail (m_playerInviteOrder g)) g else g
    | None => g
    end in
  match m_packetParser g with
  | Some p => if 0 <? p_progressTicks p then set_timer false g else g
  | None => g
  end).

(** ** Chat from outside of the game *)
Definition chat_line (isPrivate : bool) (nick chat : bytes) : bytes :=
  if (0 <? length nick)%nat then [if isPrivate then 33 else 42; 60] ++ nick ++ [62; 32] ++ chat else chat.
Definition chat_datagram (sourceDplayId : Z) (message : bytes) : bytes :=
  le4 sourceDplayId ++ le4 0 ++ encrypt (compress (trivialSmartpak (createChatSubpacket message) (-1))).
Definition messageToLocalPlayer (sourceDplayId : Z) (isPrivate : bool) (nick chat : bytes) : gn unit := on_game (λ g,
  match first_key (m_gameSenders g) with
  | Some peer => add_outputs peer (sendUdpData (chat_datagram sourceDplayId (chat_line isPrivate nick chat)) 0
                                     (at_key (GameSender_make 0 0) (m_gameSenders g) peer)) g
  | None => g
  end).
End GameNode.
