(* ===== verification/TafnetGameFacts.v ===== *)
(** * Facts about the node of a game

    What becomes of the addresses in a message on its way from one game to another, which
    game packets are sent reliably, and what the game reads of a chat line from outside. *)
From S2P Require Import Prelude ExceptState OrderedMaps TPacketCrypt TPacketCompress TPacketSplit TPacketSmartpak DuplicateDetection DPlayPacket GameAddressTranslater TAPacketParser.
From S2P Require Import DataBuffer TafnetNode GameSender TafnetGameNode.

(** ** Addresses from game to game *)

Lemma set_address_wf addr a : is_u32 addr → DPAddress_wf a → DPAddress_wf (set_address addr a).
Proof. intros Hu (H1 & H2 & H3 & H4). split_and!; [done..|by apply NetworkByteOrder32_bound|done]. Qed.
Lemma set_port_wf port a : DPAddress_wf a → DPAddress_wf (set_port port a).
Proof. intros (H1 & H2 & H3 & H4). split_and!; [done|apply NetworkByteOrder16_bound|done..]. Qed.
Lemma get_set_address addr a : is_u32 addr → get_address (set_address addr a) = addr.
Proof. apply NetworkByteOrder32_involutive. Qed.

(** the player of the local port [port], as the node [g] of player [local] knows it *)
Definition player_at (local : Z) (g : TafnetGameNode) (port : Z) : Z := default local (m_remotePlayerIds g !! port).
(** the address under which the node [g] shows player [id] to its game; [r] is the receiver
    of the peer that sent the message, which stands for a player without a receiver *)
Definition shown_address (g : TafnetGameNode) (r : GameReceiver) (id : Z) (index : nat) (a : DPAddress) : DPAddress :=
  let r := default r (m_gameReceivers g !! id) in
  set_port (if (index =? 0)%nat then gr_tcpPort r else gr_udpPort r) (set_address (gr_bindAddress r) a).

Lemma spa_from_local_spec local g a index : ∃ g',
  spa_from_local local g a index = (true, set_address (player_at local g (get_port a)) a, g') ∧
  m_remotePlayerIds g' = m_remotePlayerIds g.
Proof.
  unfold spa_from_local, player_at. destruct (m_remotePlayerIds g !! get_port a) as [id|]; cbn [default]; [by exists g|].
  eexists. split; [done|]. unfold updateGameSenderPortsFromSpaPacket. by repeat case_match.
Qed.
Lemma spa_from_remote_spec g r a id index : is_u32 id → (index < 2)%nat →
  spa_from_remote (gr_bindAddress r) (getListenPorts r) g (set_address id a) index
  = (true, shown_address g r id index (set_address id a), g).
Proof.
  intros Hu Hi. unfold spa_from_remote, shown_address. rewrite get_set_address by done.
  destruct (m_gameReceivers g !! id) as [q|]; [done|]. cbn [default]. by destruct index as [|[|index]]; [..|lia].
Qed.

(** C10: a message with which a game creates or forwards a player, on its way from the game
    of player [local] to the game of another: the first node replaces each address by the
    id of the player whose port it is, its own player if it knows no other; the second
    node replaces the id by the address and port at which it itself listens for that
    player, and the reply address by its own; so the second game sees addresses of its
    own machine only.  Every other byte is left as it was. *)
Theorem create_message_across (m : create_message) (local : Z) (g g2 : TafnetGameNode) (r : GameReceiver) :
  create_wf m → is_u32 local → map_Forall (λ _ id, is_u32 id) (m_remotePlayerIds g) →
  is_u32 (gr_bindAddress r) → map_Forall (λ _ q, is_u32 (gr_bindAddress q)) (m_gameReceivers g2) → ∃ data g',
  translateMessageFromLocalGame local (create_bytes m) g = Ok (data, g') ∧
  translateMessageFromRemoteGame data (gr_bindAddress r) (getListenPorts r) g2 = Ok (create_bytes (mkCreate
    (reply_header (gr_bindAddress r) (gr_tcpPort r) (cm_header m)) (cm_request m)
    (shown_address g2 r (player_at local g (get_port (cm_tcp m))) 0 (cm_tcp m))
    (shown_address g2 r (player_at local g (get_port (cm_udp m))) 1 (cm_udp m)) (cm_rest m)), g2).
Proof.
  intros Hm Hlocal Hids Hbind Hrec. pose proof Hm as (Hh & Hok & Hc & Ha0 & Ha1 & Hsz & Hreq).
  assert (∀ p, is_u32 (player_at local g p)) as Hpl.
  { intros p. unfold player_at. destruct (m_remotePlayerIds g !! p) as [id|] eqn:E; [by apply (Hids p)|done]. }
  destruct (spa_from_local_spec local g (cm_tcp m) 0) as (g1 & S0 & E1).
  destruct (spa_from_local_spec local g1 (cm_udp m) 1) as (g3 & S1 & _).
  unfold player_at in S1. rewrite E1 in S1. fold (player_at local g (get_port (cm_udp m))) in S1.
  set (id0 := player_at local g (get_port (cm_tcp m))) in *. set (id1 := player_at local g (get_port (cm_udp m))) in *.
  set (b0 := set_address id0 (cm_tcp m)) in *. set (b1 := set_address id1 (cm_udp m)) in *.
  assert (DPAddress_wf b0 ∧ DPAddress_wf b1) as [Hb0 Hb1] by (split; apply set_address_wf; [apply Hpl|done|apply Hpl|done]).
  set (m1 := mkCreate (reply_header 0 57005 (cm_header m)) (cm_request m) b0 b1 (cm_rest m)).
  assert (create_wf m1) as Hm1.
  { split_and!; try done; [by apply reply_header_wf|]. change (h_size (cm_header m1)) with (h_size (cm_header m)).
    rewrite Hsz. unfold create_bytes, m1. cbn [cm_header cm_request cm_tcp cm_udp cm_rest].
    rewrite !length_app, !length_DPAddress_bytes, !length_DPHeader_bytes by (done || by apply reply_header_wf). done. }
  exists (create_bytes m1), g3. split; [by apply (translate_create 0 [57005; 48879] (spa_from_local local) m g g1 g3 57005 b0 b1)|].
  assert (∀ id i a, DPAddress_wf a → DPAddress_wf (shown_address g2 r id i a)) as Hwf.
  { intros id i a Ha. unfold shown_address. apply set_port_wf, set_address_wf; [|done].
    destruct (m_gameReceivers g2 !! id) as [q|] eqn:E; [by apply (Hrec id)|done]. }
  unfold translateMessageFromRemoteGame.
  rewrite (translate_create (gr_bindAddress r) (getListenPorts r) (spa_from_remote (gr_bindAddress r) (getListenPorts r)) m1 g2 g2 g2
    (gr_tcpPort r) (shown_address g2 r id0 0 b0) (shown_address g2 r id1 1 b1)); auto.
  - apply spa_from_remote_spec; [apply Hpl|lia].
  - apply spa_from_remote_spec; [apply Hpl|lia].
Qed.
(** the game of player 7 listens at 2300 and 2350 and creates its player; node 5 shows him
    at the ports of its own receiver for player 7 *)
Definition ex_receiver : GameReceiver := GameReceiver_make LocalHost 4000 4001.
Definition ex_receiving : TafnetGameNode := set_receivers {[7 := ex_receiver]} ∅ (TafnetGameNode_make None []).
Lemma create_message_across_witness : ∃ data g',
  translateMessageFromLocalGame 7 (create_bytes ex_create) (TafnetGameNode_make None []) = Ok (data, g') ∧
  translateMessageFromRemoteGame data LocalHost [4000; 4001] ex_receiving = Ok (create_bytes (mkCreate
    (reply_header LocalHost 4000 (cm_header ex_create)) (cm_request ex_create)
    (DPAddress_make LocalHost 4000) (DPAddress_make LocalHost 4001) []), ex_receiving).
Proof.
  destruct (create_message_across ex_create 7 (TafnetGameNode_make None []) ex_receiving ex_receiver) as (data & g' & H1 & H2).
  - apply ex_create_wf.
  - unfold is_u32. lia.
  - apply map_Forall_empty.
  - vm_compute. by split.
  - apply map_Forall_singleton. vm_compute. by split.
  - exists data, g'. split; [exact H1|exact H2].
Defined.

(** ** A chat line from outside of the game *)
Lemma c_str_bytes s : are_bytes s → are_bytes (c_str s).
Proof. intros H. induction H as [|b s Hb Hs IH]; cbn [c_str]; [by apply Forall_nil|]. case_match; [by apply Forall_nil|by apply Forall_cons]. Qed.
Lemma createChatSubpacket_bytes s : are_bytes s → are_bytes (createChatSubpacket s).
Proof.
  intros H. destruct (createChatSubpacket_shape s) as [-> _]. apply Forall_app. split; [|by bytes_tac].
  apply Forall_cons. split; [unfold is_byte; lia|]. apply Forall_take. unfold strncpy. apply Forall_app. split.
  - by apply Forall_take, c_str_bytes.
  - apply Forall_replicate. unfold is_byte. lia.
Qed.
Lemma chat_line_bytes isPrivate nick chat : are_bytes nick → are_bytes chat → are_bytes (chat_line isPrivate nick chat).
Proof.
  intros Hn Hc. unfold chat_line. case_match; [|done]. apply Forall_app. split; [destruct isPrivate; by bytes_tac|].
  apply Forall_app. split; [done|]. apply Forall_app. split; [by bytes_tac|done].
Qed.
Lemma chat_stream s : stream_ok None [createChatSubpacket s].
Proof.
  pose proof (createChatSubpacket_delimited s) as Hd. destruct (createChatSubpacket_shape s) as [E _]. rewrite E in *. cbn [app] in *.
  apply stream_other; [done| |constructor]. intros c Hc. change (SubPacketCode_of 5) with (Some CHAT_05). intros [= <-].
  by repeat (apply elem_of_cons in Hc as [Hc|Hc]; [discriminate|]); apply elem_of_nil in Hc.
Qed.
Lemma chat_plain s : trivialSmartpak (createChatSubpacket s) (-1) = plain 0 0 (-1) [createChatSubpacket s].
Proof.
  unfold trivialSmartpak, plain. cbn [smartPak_all]. unfold smartPak. destruct (createChatSubpacket_shape s) as [-> _].
  cbn [app]. rewrite bool_decide_false by done. cbn [negb]. rewrite orb_true_r. by rewrite app_nil_r.
Qed.

Lemma chat_plain_bytes s : are_bytes s → are_bytes (plain 0 0 (-1) [createChatSubpacket s]).
Proof.
  intros H. rewrite <- chat_plain. unfold trivialSmartpak.
  apply Forall_app. split; [by bytes_tac|]. apply Forall_app. split; [apply le4_bytes|]. by apply createChatSubpacket_bytes.
Qed.
Lemma chat_datagram_wire src s : chat_datagram src s = raw_message src (wire true 0 0 (-1) [createChatSubpacket s]).
Proof. unfold chat_datagram, raw_message, wire. by rewrite chat_plain. Qed.
Lemma wire_nonempty compressed c1 c2 ts ps : stream_ok None ps → are_bytes (plain c1 c2 ts ps) → wire compressed c1 c2 ts ps ≠ [].
Proof.
  intros Hs Hb E. destruct (wire_unpacks compressed c1 c2 ts ps 0 1 Hs Hb) as (p & calc & code & H & _).
  rewrite E in H. by injection H as _ <-.
Qed.

(** a line of chat from outside of the game that is passed to the local player is a
    datagram for the ports of one sender, and the game (or whoever parses it as the
    parser does) reads from it exactly one chat sub-packet, from the given player to
    everybody, with the first 63 characters of the line *)
Theorem messageToLocalPlayer_read (n : TafnetNode) (g : TafnetGameNode) (src peer : Z) (isPrivate : bool) (nick chat : bytes) :
  is_u32 src → are_bytes nick → are_bytes chat → first_key (m_gameSenders g) = Some peer →
  let line := chat_line isPrivate nick chat in
  let sender := at_key (GameSender_make 0 0) (m_gameSenders g) peer in ∃ payload,
  messageToLocalPlayer src isPrivate nick chat (n, g) = (Ok tt, (n, add_outputs peer
    ((λ port, OutUdp (gs_gameAddress sender) port (raw_message src payload)) <$> udp_ports 0 sender) g)) ∧
  ∀ junk isLocal st st1, checkDuplicate (cleared st) src 0 payload = (false, st1) →
    parseGameData junk isLocal (raw_message src payload) st
      = Ok (note st1 (createChatSubpacket line), [onTaPacket src 0 isLocal payload [createChatSubpacket line]]).
Proof.
  intros Hs Hn Hc Hf line sender. pose proof (chat_plain_bytes line ltac:(by apply chat_line_bytes)) as Hb.
  pose proof (chat_stream line) as Hst. pose proof (chat_plain line) as Hp. pose proof (chat_datagram_wire src line) as Hd.
  exists (wire true 0 0 (-1) [createChatSubpacket line]). revert Hb Hst Hp Hd. generalize (createChatSubpacket line) as c.
  intros c Hb Hst Hp Hd. split.
  - unfold messageToLocalPlayer, on_game, modify. cbn [fst snd]. rewrite Hf. unfold sendUdpData. fold line. by rewrite Hd.
  - intros junk isLocal st st1 Hdup. rewrite parseGameData_raw; [|done|by apply wire_nonempty].
    pose proof (parseTaPacket_wire junk isLocal (cleared st) st1 src 0 true 0 0 (-1) [c] Hst Hb Hdup) as H.
    cbn [foldl] in H. exact H.
Qed.

Definition ex_sending : TafnetGameNode := set_senders {[5 := setUdpPort 2350 (GameSender_make LocalHost 47624)]} (TafnetGameNode_make None []).
(** "hi" from nick "a" of the lobby *)
Lemma messageToLocalPlayer_read_witness : ∃ payload,
  messageToLocalPlayer 9 false [97] [104; 105] (TafnetNode_make 7 true false 1400, ex_sending)
    = (Ok tt, (TafnetNode_make 7 true false 1400, add_outputs 5 [OutUdp LocalHost 2350 (raw_message 9 payload)] ex_sending)) ∧
  parseGameData (0, 0) true (raw_message 9 payload) TAPacketParser_init
    = Ok (note TAPacketParser_init (createChatSubpacket [42; 60; 97; 62; 32; 104; 105]),
          [onTaPacket 9 0 true payload [createChatSubpacket [42; 60; 97; 62; 32; 104; 105]]]).
Proof.
  destruct (messageToLocalPlayer_read (TafnetNode_make 7 true false 1400) ex_sending 9 5 false [97] [104; 105]) as (payload & H1 & H2).
  - unfold is_u32. lia.
  - bytes_compute.
  - bytes_compute.
  - vm_compute. reflexivity.
  - exists payload. split; [exact H1|]. apply (H2 (0, 0) true TAPacketParser_init TAPacketParser_init). reflexivity.
Defined.

(** ** Which packets of the game are sent reliably *)
Lemma note_foldl_parsed ps st x : x ∈ p_parsed (foldl note st ps) ↔ x ∈ p_parsed st ∨ Exists (λ s, s !!! 0%nat = x) ps.
Proof.
  revert st. induction ps as [|s ps IH]; intros st; cbn [foldl]; [rewrite Exists_nil; tauto|].
  rewrite IH, Exists_cons. unfold note at 1. cbn [p_parsed]. rewrite elem_of_union, elem_of_singleton. naive_solver.
Qed.
Lemma any_protected_spec parsed : any_protected parsed = true ↔ Exists (λ c, code_byte c ∈ parsed) protectedSubpaks.
Proof.
  unfold any_protected. induction protectedSubpaks as [|c cs IH]; cbn [existsb]; [by rewrite Exists_nil|].
  rewrite Exists_cons, orb_true_iff, IH. by rewrite bool_decide_eq_true.
Qed.

Lemma handle_udp_run env dest data n n' g p p' es :
  m_packetParser g = Some p → parseGameData (env_junk env) true data p = Ok (p', es) →
  forwardGameData (env_now env) dest
    (if ((maxPacketSizeForPlayerId dest n <? Z.of_nat (length data)) || (p_progressTicks p <? TICKS_TO_PROTECT_UDP)) || any_protected (p_parsed p')
     then ACTION_UDP_PROTECTED else ACTION_UDP_DATA) data n = Ok n' →
  handle_udp env dest data (n, g) = (Ok tt, (n', set_parser (Some p') es g)).
Proof.
  intros Hp Hd Hf. unfold handle_udp, parse_data, game, gets, lift, on_game, modify, forward, mbind, stx_bind, id.
  cbn [fst snd]. rewrite Hp. cbn [early_game]. rewrite Hd. unfold mret, stx_ret. cbn [fst snd]. by rewrite Hf.
Qed.

(** Of the copies of a packet that the game broadcasts only the first is protected:
    once the game is in progress, the parser takes the copy for the next peer for a
    duplicate and reports none of its codes, so that the copy travels unacknowledged
    although it carries a sub-packet that is to be protected. *)
Theorem broadcast_protected_once (env : environment) (d1 d2 src c1 c2 ts : Z) (compressed : bool) (ps : list bytes) (code : SubPacketCode)
    (p st1 : TAPacketParser) (w : list Z) (n n1 n2 : TafnetNode) (g : TafnetGameNode) :
  let payload := wire compressed c1 c2 ts ps in
  let data := raw_message src payload in
  stream_ok None ps → are_bytes (plain c1 c2 ts ps) → is_u32 src →
  m_packetParser g = Some p → dd_rep (p_dups p) w → TICKS_TO_PROTECT_UDP ≤ p_progressTicks p →
  checkDuplicate (cleared p) src 0 payload = (false, st1) →
  code ∈ protectedSubpaks → Exists (λ s, s !!! 0%nat = code_byte code) ps →
  Z.of_nat (length data) ≤ maxPacketSizeForPlayerId d2 n1 →
  forwardGameData (env_now env) d1 ACTION_UDP_PROTECTED data n = Ok n1 →
  forwardGameData (env_now env) d2 ACTION_UDP_DATA data n1 = Ok n2 → ∃ g1 g2,
  handle_udp env d1 data (n, g) = (Ok tt, (n1, g1)) ∧
  handle_udp env d2 data (n1, g1) = (Ok tt, (n2, g2)).
Proof.
  intros payload data Hps Hb Hs Hg Hr Ht Hdup Hcode Hin Hlen Hf1 Hf2.
  unfold TICKS_TO_PROTECT_UDP in Ht.
  pose proof (parseTaPacket_wire (env_junk env) true (cleared p) st1 src 0 compressed c1 c2 ts ps Hps Hb Hdup) as H1.
  assert (payload ≠ []) as Hne by (by apply wire_nonempty). fold payload in H1. set (p1 := foldl note st1 ps) in *.
  assert (0 < p_progressTicks (cleared p)) as Ht0 by (cbn [cleared p_progressTicks]; lia).
  pose proof (parsed_is_known (env_junk env) true (cleared p) p1 (cleared p1) src payload w _ Hr Ht0 H1 eq_refl eq_refl) as Hk.
  assert (p_progressTicks p ≤ p_progressTicks p1) as Hp1.
  { assert (p_progressTicks st1 = p_progressTicks p) as <-.
    { unfold checkDuplicate in Hdup. rewrite (proj2 (Z.ltb_lt _ _) Ht0) in Hdup. cbn [andb Z.eqb] in Hdup.
      destruct (isLikelyDuplicate _ _ _ _). by injection Hdup as _ <-. }
    apply (noteSubpaks_frame ps). by apply (noteSubpaks_stream None). }
  eexists _, _. split.
  - apply (handle_udp_run _ _ _ _ _ _ p p1 [onTaPacket src 0 true payload ps] Hg); [unfold data; by rewrite parseGameData_raw|].
    replace (any_protected (p_parsed p1)) with true; [by rewrite orb_true_r|].
    symmetry. apply any_protected_spec, Exists_exists. exists code. split; [done|]. apply note_foldl_parsed. by right.
  - apply (handle_udp_run _ _ _ _ _ _ p1 (cleared p1) []); [done| |].
    + unfold data. rewrite parseGameData_raw by done. unfold parseTaPacket. by rewrite Hk.
    + rewrite (proj2 (Z.ltb_ge _ _) Hlen), (proj2 (Z.ltb_ge _ _)) by (unfold TICKS_TO_PROTECT_UDP; lia).
      cbn [orb]. change (any_protected (p_parsed (cleared p1))) with false. exact Hf2.
Qed.
(** the game of player 7 rejects a player, to peers 1 and 2 *)
Definition ex_reject : list bytes := [[27; 1; 0; 0; 0; 10]].
Definition ex_progress : TAPacketParser := mkParser DD_init ∅ 300.
Definition ex_peers : TafnetNode := set_peers {[1 := (1, 1); 2 := (2, 2)]} ∅ (TafnetNode_make 7 true false 1400).
Definition ex_env : environment := mkEnv 0 true true 4000 4001 0 [] (0, 0).
Definition ex_playing : TafnetGameNode := TafnetGameNode_make (Some ex_progress) [].
Lemma ex_reject_ok : stream_ok None ex_reject.
Proof.
  apply (stream_other None 27 [1; 0; 0; 0; 10]); [by apply (self_delimited_fixed REJECT_1B)| |constructor].
  vm_compute. intros c Hc [= <-]. repeat (apply elem_of_cons in Hc as [?|Hc]; [done|]). by apply elem_of_nil in Hc.
Qed.
Lemma broadcast_protected_once_witness : let data := raw_message 9 (wire false 0 0 300 ex_reject) in ∃ n1 n2 g1 g2,
  handle_udp ex_env 1 data (ex_peers, ex_playing) = (Ok tt, (n1, g1)) ∧
  handle_udp ex_env 2 data (n1, g1) = (Ok tt, (n2, g2)) ∧
  n_sent n2 = [((1, 1), frame ACTION_UDP_PROTECTED 1 data); ((2, 2), frame ACTION_UDP_DATA 0 data)].
Proof.
  intros data.
  destruct (forwardGameData 0 1 ACTION_UDP_PROTECTED data ex_peers) as [n1|e| |] eqn:E1; [|vm_compute in E1; congruence..].
  destruct (forwardGameData 0 2 ACTION_UDP_DATA data n1) as [n2|e| |] eqn:E2;
    [|vm_compute in E1; injection E1 as <-; vm_compute in E2; congruence..].
  destruct (checkDuplicate (cleared ex_progress) 9 0 (wire false 0 0 300 ex_reject)) as [[] st1] eqn:Ed;
    [vm_compute in Ed; congruence|].
  destruct (broadcast_protected_once ex_env 1 2 9 0 0 300 false ex_reject REJECT_1B ex_progress st1 [] ex_peers n1 n2 ex_playing)
    as (g1 & g2 & H1 & H2).
  - exact ex_reject_ok.
  - bytes_compute.
  - unfold is_u32. lia.
  - reflexivity.
  - exact dd_rep_init.
  - vm_compute. congruence.
  - exact Ed.
  - vm_compute. do 4 constructor 2. constructor 1.
  - apply Exists_cons_hd. reflexivity.
  - vm_compute in E1. injection E1 as <-. vm_compute. congruence.
  - exact E1.
  - exact E2.
  - exists n1, n2, g1, g2. split; [exact H1|]. split; [exact H2|]. clear H1 H2.
    vm_compute in E1. injection E1 as <-. vm_compute in E2. injection E2 as <-. vm_compute. reflexivity.
Defined.
