(* ===== verification/TafnetGamePorts.v ===== *)
(** * Ports and admission in a game node

    The table [m_remotePlayerIds] from ports to players through every operation of the
    node, and the order in which the players that knock are let in. *)
From S2P Require Import Prelude ExceptState OrderedMaps GameAddressTranslater TAPacketParser DataBuffer TafnetNode GameSender TafnetGameNode.

(** ** Admission *)
Section Admission.
Context (factoryAddress factoryEnumPort : Z).

(** what the timer passes to the game for the player [id], and to whose sender *)
Definition admission (g : TafnetGameNode) (id : Z) : Z * game_output :=
  let s := at_key (GameSender_make 0 0) (m_gameSenders g) id in
  (id, OutEnum (gs_gameAddress s) (gs_enumPort s) (at_key [] (m_pendingEnumRequests g) id)).
(** the first player in the order, if he has knocked and the game can be reached *)
Definition may_enter (env : environment) (g : TafnetGameNode) : option (Z * list Z) :=
  match m_playerInviteOrder g with
  | id :: rest => if env_enumConnects env && bool_decide (is_Some (m_pendingEnumRequests g !! id)) then Some (id, rest) else None
  | [] => None
  end.

Lemma process_step env (n : TafnetNode) g : m_playerInviteOrder g ≠ [] →
  Forall (λ id, is_Some (m_gameSenders g !! id)) (m_playerInviteOrder g) → ∃ g',
  processPendingEnumRequests factoryAddress factoryEnumPort env (n, g) = (Ok tt, (n, g')) ∧
  m_gameSenders g' = m_gameSenders g ∧
  match may_enter env g with
  | Some (id, rest) => m_playerInviteOrder g' = rest ∧ m_pendingEnumRequests g' = delete id (m_pendingEnumRequests g) ∧
      g_outputs g' = g_outputs g ++ [admission g id]
  | None => m_playerInviteOrder g' = m_playerInviteOrder g ∧ m_pendingEnumRequests g' = m_pendingEnumRequests g ∧
      g_outputs g' = g_outputs g
  end.
Proof.
  intros Hne Hs. unfold processPendingEnumRequests, on_game, modify, to_admit, may_enter. cbn [fst snd].
  eexists. split; [reflexivity|]. destruct (m_playerInviteOrder g) as [|id rest] eqn:Eo; [done|].
  apply Forall_cons in Hs as [[s Hs] _].
  destruct (m_pendingEnumRequests g !! id) as [req|] eqn:Er.
  - unfold getGameSender. rewrite Hs. unfold enumSessions. destruct (env_enumConnects env); cbn [andb].
    + rewrite bool_decide_true by done. unfold admission, at_key. rewrite Hs, Er. cbn [default]. split_and!; by repeat case_match; cbn; rewrite ?Eo.
    + rewrite <- Eo. split_and!; by repeat case_match; cbn; rewrite ?app_nil_r.
  - rewrite bool_decide_false by (by intros [? ?]). rewrite andb_false_r, <- Eo. split_and!; by repeat case_match.
Qed.

(** the timer, once for every environment *)
Definition run_timer (envs : list environment) (s : TafnetNode * TafnetGameNode) : TafnetNode * TafnetGameNode :=
  foldl (λ s env, (processPendingEnumRequests factoryAddress factoryEnumPort env s).2) s envs.

Lemma may_enter_Some env g id rest : may_enter env g = Some (id, rest) →
  m_playerInviteOrder g = id :: rest ∧ is_Some (m_pendingEnumRequests g !! id).
Proof.
  unfold may_enter. destruct (m_playerInviteOrder g) as [|i r]; [done|]. destruct (_ && _) eqn:E; [|done].
  apply andb_true_iff in E as [_ E]. apply bool_decide_eq_true in E. by intros [= -> ->].
Qed.

(** C15: as long as the host's order is not used up, the players that knock are let in in
    that order and nobody else is: whatever the timer finds, those that it has passed to
    the game are a first part of the order, each with its own request, whose request is
    gone, and all other requests wait; and if the game can be reached and all invited
    players have knocked, every turn of the timer lets in the next. *)
Theorem admitted_in_order (envs : list environment) (n : TafnetNode) (g : TafnetGameNode) :
  let order := m_playerInviteOrder g in
  Forall (λ id, is_Some (m_gameSenders g !! id)) order → (length envs ≤ length order)%nat → ∃ admitted rest g',
  order = admitted ++ rest ∧ run_timer envs (n, g) = (n, g') ∧ m_playerInviteOrder g' = rest ∧
  g_outputs g' = g_outputs g ++ (admission g <$> admitted) ∧
  Forall (λ id, is_Some (m_pendingEnumRequests g !! id)) admitted ∧
  (∀ id, m_pendingEnumRequests g' !! id = if decide (id ∈ admitted) then None else m_pendingEnumRequests g !! id) ∧
  (NoDup order → Forall (λ env, env_enumConnects env = true) envs →
   Forall (λ id, is_Some (m_pendingEnumRequests g !! id)) order → admitted = take (length envs) order).
Proof.
  intros order. subst order. revert g. induction envs as [|env envs IH]; intros g Hs Hl.
  { exists [], (m_playerInviteOrder g), g. rewrite take_0, app_nil_r. by split_and!. }
  cbn [length] in Hl. destruct (process_step env n g) as (g1 & E & Es & H); [intros Ho; rewrite Ho in Hl; cbn [length] in Hl; lia|done|].
  unfold run_timer. cbn [foldl]. rewrite E. cbn [snd]. fold (run_timer envs (n, g1)).
  destruct (may_enter env g) as [[id rest]|] eqn:Ea.
  - destruct H as (Ho & Hr & Hout). apply may_enter_Some in Ea as [Eo Hid]. rewrite Eo in *. apply Forall_cons in Hs as [_ Hs].
    destruct (IH g1) as (adm & rest' & g' & E1 & E2 & E3 & E4 & Ep & E5 & E6); rewrite Ho in *; [by rewrite Es|cbn [length] in Hl; lia|].
    assert (id ∉ adm) as Hnid.
    { intros Hin. rewrite Forall_forall in Ep. apply Ep in Hin as [req Hin]. by rewrite Hr, lookup_delete_eq in Hin. }
    exists (id :: adm), rest', g'. split_and!; try done.
    + cbn [app]. by rewrite E1.
    + rewrite E4, Hout, <- (assoc_L (++)). f_equal. cbn [fmap list_fmap app]. f_equal. apply list_fmap_ext.
      intros i x Hx. apply list_elem_of_lookup_2 in Hx. unfold admission. rewrite Es, Hr. unfold at_key.
      rewrite lookup_delete_ne by (by intros ->). done.
    + apply Forall_cons. split; [done|]. eapply Forall_impl; [exact Ep|]. intros x [req Hx]. rewrite Hr in Hx.
      apply lookup_delete_Some in Hx as [_ Hx]. by exists req.
    + intros x. rewrite E5, Hr. destruct (decide (x = id)) as [->|Hx].
      * rewrite lookup_delete_eq. by case_decide; [|case_decide; [|set_solver]].
      * rewrite lookup_delete_ne by done. do 2 case_decide; set_solver.
    + intros Hn Hc Hq. apply NoDup_cons in Hn as [Hn1 Hn]. apply Forall_cons in Hc as [_ Hc]. apply Forall_cons in Hq as [_ Hq].
      cbn [length take]. f_equal. apply E6; [done..|]. rewrite Hr. apply Forall_forall. intros x Hx.
      rewrite lookup_delete_ne by (by intros ->). rewrite Forall_forall in Hq. by apply Hq.
  - destruct H as (Ho & Hr & Hout). destruct (IH g1) as (adm & rest' & g' & E1 & E2 & E3 & E4 & Ep & E5 & E6); [by rewrite Ho, Es|rewrite Ho; lia|].
    rewrite Ho in *. exists adm, rest', g'. rewrite Hr, Hout in *. split_and!; try done.
    + rewrite E4. f_equal. apply list_fmap_ext. intros i x _. unfold admission. by rewrite Es, Hr.
    + intros Hn Hc Hq. exfalso. apply Forall_cons in Hc as [Hc _]. unfold may_enter in Ea.
      destruct (m_playerInviteOrder g) as [|id rest]; [cbn [length] in Hl; lia|]. apply Forall_cons in Hq as [Hq _].
      rewrite Hc, bool_decide_true in Ea by done. done.
Qed.
End Admission.
(** players 8, 5 and 3 knock, 5 before 8 in the host's order, and 3 is not invited *)
Definition ex_knocking : TafnetGameNode :=
  set_requests {[3 := [3]; 5 := [5]; 8 := [8]]} [5; 8]
    (set_senders {[3 := GameSender_make LocalHost 47624; 5 := GameSender_make LocalHost 47624; 8 := GameSender_make LocalHost 47624]}
      (TafnetGameNode_make None [])).
Definition ex_reachable (connects : bool) : environment := mkEnv 0 true connects 4000 4001 0 [] (0, 0).
Lemma admitted_in_order_witness : let n := TafnetNode_make 7 true false 1400 in ∃ g',
  run_timer LocalHost 47624 [ex_reachable true; ex_reachable true] (n, ex_knocking) = (n, g') ∧
  g_outputs g' = [(5, OutEnum LocalHost 47624 [5]); (8, OutEnum LocalHost 47624 [8])].
Proof.
  intros n. assert (Forall (λ id, is_Some (m_gameSenders ex_knocking !! id)) [5; 8]) as Hs.
  { apply (bool_decide_eq_true_1 _). vm_compute. reflexivity. }
  destruct (admitted_in_order LocalHost 47624 [ex_reachable true; ex_reachable true] n ex_knocking Hs)
    as (adm & rest & g' & _ & E & _ & Hout & _ & _ & Hadm); [cbn [length]; constructor|].
  exists g'. split; [exact E|]. rewrite Hout, Hadm.
  - vm_compute. reflexivity.
  - apply (bool_decide_eq_true_1 _). vm_compute. reflexivity.
  - by repeat constructor.
  - apply (bool_decide_eq_true_1 _). vm_compute. reflexivity.
Defined.

(** ** The table of ports *)

(** the ports of every receiver lead to its player *)
Definition ports_ok (g : TafnetGameNode) : Prop := map_Forall (λ id r,
  m_remotePlayerIds g !! gr_tcpPort r = Some id ∧ m_remotePlayerIds g !! gr_udpPort r = Some id ∧
  (gr_enumPort r ≠ 0 → m_remotePlayerIds g !! gr_enumPort r = Some id)) (m_gameReceivers g).
(** the receivers and the table are what they were *)
Definition same_ports (g g' : TafnetGameNode) : Prop :=
  m_gameReceivers g' = m_gameReceivers g ∧ m_remotePlayerIds g' = m_remotePlayerIds g.
#[export] Instance same_ports_preorder : PreOrder same_ports.
Proof. split; [by split|]. intros x y z [H1 H2] [H3 H4]. split; congruence. Qed.
#[export] Instance ports_ok_proper : Proper (same_ports ==> impl) ports_ok.
Proof. intros g g' [H1 H2] H. unfold ports_ok. by rewrite H1, H2. Qed.

#[local] Abbreviation gn := (stx (TafnetNode * TafnetGameNode)).
(** a method that leaves them alone, however it ends *)
Definition leaves_ports {A} (m : gn A) : Prop := ∀ s, same_ports s.2 (m s).2.2.
Lemma leaves_bind {A B} (m : gn A) (f : A → gn B) : leaves_ports m → (∀ a, leaves_ports (f a)) → leaves_ports (m ≫= f).
Proof.
  intros Hm Hf s. specialize (Hm s). unfold mbind, stx_bind. destruct (m s) as [[a|e| |] s']; try done.
  etrans; [done|apply Hf].
Qed.
Lemma leaves_ret {A} (a : A) : leaves_ports (mret a). Proof. done. Qed.
Lemma leaves_gets {A} (f : _ → A) : leaves_ports (gets f). Proof. done. Qed.
Lemma leaves_game : leaves_ports game. Proof. done. Qed.
Lemma leaves_lift {A} (r : res A) : leaves_ports (lift r). Proof. done. Qed.
Lemma leaves_forward env dest action data : leaves_ports (forward env dest action data).
Proof. intros [n g]. unfold forward. by case_match. Qed.
Lemma leaves_on_node f : leaves_ports (on_node f).
Proof. intros [n g]. unfold on_node. by case_match. Qed.
Lemma leaves_on_game f : (∀ g, same_ports g (f g)) → leaves_ports (on_game f).
Proof. intros H [n g]. apply H. Qed.
Create HintDb ports.
#[export] Hint Resolve leaves_ret leaves_gets leaves_game leaves_lift leaves_forward leaves_on_node : ports.
Ltac leaves := repeat first [progress cbv beta zeta | solve [auto 2 with ports nocore] | apply leaves_bind; [|intros ?] | apply leaves_on_game; intros ?; by split | case_match].

Lemma leaves_parse_data env isLocal data : leaves_ports (parse_data env isLocal data).
Proof. unfold parse_data, game. leaves. Qed.
#[export] Hint Resolve leaves_parse_data : ports.
Lemma leaves_handle_udp env dest data : leaves_ports (handle_udp env dest data).
Proof. unfold handle_udp. leaves. Qed.

Lemma same_ports_game_port tcp udp g : same_ports g (updateGameSenderPortsFromSpaPacket tcp udp g).
Proof. unfold updateGameSenderPortsFromSpaPacket. by repeat case_match. Qed.
Lemma same_ports_header env data g g' : updateGameSenderPortsFromDplayHeader env data g = Ok g' → same_ports g g'.
Proof.
  unfold updateGameSenderPortsFromDplayHeader. intros H. apply res_bind_inv in H as (ok & _ & H).
  destruct ok; [|by apply Ok_inj in H as <-]. apply res_bind_inv in H as (port & _ & H). by apply Ok_inj in H as <-.
Qed.
Lemma same_ports_translate local data g r : translateMessageFromLocalGame local data g = Ok r → same_ports g r.2.
Proof.
  intros H. apply (translate_inv _ _ _ (same_ports g)) in H; [done| |done]. intros g1 a i Hg. etrans; [exact Hg|].
  unfold spa_from_local. case_match; [done|]. apply same_ports_game_port.
Qed.
(** a checked computation whose result replaces the state *)
Lemma leaves_replace {R B} (get : R → TafnetGameNode) (m : TafnetGameNode → res R) (k : R → gn B) :
  (∀ g r, m g = Ok r → same_ports g (get r)) → (∀ r, leaves_ports (k r)) →
  ∀ s, same_ports s.2 ((lift (m s.2) ≫= λ r, on_game (λ _, get r) ≫= λ _, k r) s).2.2.
Proof.
  intros Hm Hk [n g]. unfold lift, on_game, modify, mbind, stx_bind. cbn [fst snd].
  destruct (m g) as [r|e| |] eqn:E; try done. cbn [snd]. etrans; [by apply Hm|apply (Hk r (n, get r))].
Qed.
Lemma leaves_handle_tcp env dest data : leaves_ports (handle_tcp env dest data).
Proof.
  intros s. unfold handle_tcp. apply (leaves_replace snd (translateMessageFromLocalGame (m_playerId s.1) data)).
  - intros g r. apply same_ports_translate.
  - intros r. leaves.
Qed.
#[export] Hint Resolve leaves_handle_udp leaves_handle_tcp : ports.
Lemma leaves_handleGameData env localPort channel data : leaves_ports (handleGameData env localPort channel data).
Proof.
  intros [n g]. unfold handleGameData, game. rewrite (stx_bind_ok _ _ _ g (n, g)) by done. cbn [snd].
  destruct (m_remotePlayerIds g !! localPort) as [dest|]; [|done]. destruct data as [data|]; [|done].
  destruct (_ || _); [done|].
  assert (∀ g', same_ports g g' → same_ports g ((if channel =? CHANNEL_UDP then handle_udp env dest data
    else if channel =? CHANNEL_TCP then handle_tcp env dest data
    else if channel =? CHANNEL_ENUM then forward env dest ACTION_ENUM data else mret tt) (n, g')).2.2) as Hrest.
  { intros g' Hg. etrans; [exact Hg|]. revert g' Hg. intros g' _. change g' with (n, g').2 at 1.
    generalize (n, g'). change (leaves_ports (if channel =? CHANNEL_UDP then handle_udp env dest data
      else if channel =? CHANNEL_TCP then handle_tcp env dest data
      else if channel =? CHANNEL_ENUM then forward env dest ACTION_ENUM data else mret tt)). leaves. }
  destruct (_ =? 0); [|by apply (Hrest g)]. unfold lift, on_game, modify, mbind, stx_bind. cbn [fst snd].
  destruct (updateGameSenderPortsFromDplayHeader env data g) as [g'|e| |] eqn:E; try done. cbn [fst snd].
  apply Hrest. by apply same_ports_header in E.
Qed.

Section Ports.
Context (factoryAddress factoryEnumPort bindAddress : Z).

(** The receivers ask the system for any free port.  The ports of the sockets of one
    protocol are different: what a new receiver gets is no port of that protocol of a
    receiver that exists, and neither is the port that is bound for enumerations. *)
Definition system_ports (env : environment) (peer : Z) (g : TafnetGameNode) : Prop :=
  m_gameReceivers g !! peer = None →
  map_Forall (λ _ r, env_tcpPort env ≠ gr_tcpPort r ∧ env_udpPort env ≠ gr_udpPort r) (m_gameReceivers g).
Definition system_enum (env : environment) (peer : Z) (g : TafnetGameNode) : Prop := map_Forall (λ id r,
  id ≠ peer → env_enumBound env ≠ gr_tcpPort r ∧ (gr_enumPort r ≠ 0 → env_enumBound env ≠ gr_enumPort r)) (m_gameReceivers g).
(** The table has numbers without their protocol, and keeps numbers of enumeration ports
    that are no longer open.  [bound] has all numbers that were bound for enumerations. *)
Definition no_coincidence (bound : list Z) (env : environment) (peer : Z) (g : TafnetGameNode) : Prop :=
  m_gameReceivers g !! peer = None → env_tcpPort env ∉ bound ∧ env_udpPort env ∉ bound ∧
  map_Forall (λ _ r, env_tcpPort env ≠ gr_udpPort r ∧ env_udpPort env ≠ gr_tcpPort r) (m_gameReceivers g).
Definition no_enum_coincidence (env : environment) (peer : Z) (g : TafnetGameNode) : Prop :=
  map_Forall (λ id r, id ≠ peer → env_enumBound env ≠ gr_udpPort r) (m_gameReceivers g).
(** every number in the table is a port of a receiver or was bound for enumerations *)
Definition keys_known (bound : list Z) (g : TafnetGameNode) : Prop := map_Forall (λ p _,
  p ∈ bound ∨ ∃ id r, m_gameReceivers g !! id = Some r ∧ (p = gr_tcpPort r ∨ p = gr_udpPort r)) (m_remotePlayerIds g).
#[export] Instance keys_known_proper bound : Proper (same_ports ==> impl) (keys_known bound).
Proof. intros g g' [H1 H2] H. unfold keys_known. by rewrite H1, H2. Qed.
#[export] Instance system_ports_proper env peer : Proper (same_ports ==> impl) (system_ports env peer).
Proof. intros g g' [H1 H2] H. unfold system_ports. by rewrite H1. Qed.
#[export] Instance no_coincidence_proper bound env peer : Proper (same_ports ==> impl) (no_coincidence bound env peer).
Proof. intros g g' [H1 H2] H. unfold no_coincidence. by rewrite H1. Qed.

(** so a new receiver's numbers are not in the table, and binding an enumeration port
    takes no number from another receiver *)
Definition available (env : environment) (peer : Z) (g : TafnetGameNode) : Prop :=
  m_gameReceivers g !! peer = None →
  m_remotePlayerIds g !! env_tcpPort env = None ∧ m_remotePlayerIds g !! env_udpPort env = None.
Definition enum_available (env : environment) (peer : Z) (g : TafnetGameNode) : Prop :=
  ∀ id r, m_gameReceivers g !! id = Some r → id ≠ peer →
    env_enumBound env ≠ gr_tcpPort r ∧ env_enumBound env ≠ gr_udpPort r ∧ (gr_enumPort r ≠ 0 → env_enumBound env ≠ gr_enumPort r).
Lemma ports_available bound env peer g : keys_known bound g → system_ports env peer g → no_coincidence bound env peer g → available env peer g.
Proof.
  intros Hk Hs Hn Hp. destruct (Hn Hp) as (Ht & Hu & H2). specialize (Hs Hp).
  split; apply eq_None_not_Some; intros [id Hid]; destruct (Hk _ _ Hid) as [H|(i & r & Hr & H)]; try done;
    destruct (Hs i r Hr), (H2 i r Hr), H; congruence.
Qed.
Lemma ports_enum_available env peer g : system_enum env peer g → no_enum_coincidence env peer g → enum_available env peer g.
Proof. intros Hs Hn id r Hr Hid. specialize (Hs id r Hr Hid). specialize (Hn id r Hr Hid). tauto. Qed.

Lemma same_ports_sender peer g : same_ports g (getGameSender factoryAddress factoryEnumPort peer g).2.
Proof. unfold getGameSender. by case_match. Qed.
Lemma ports_ok_available ids peer r (rs : gmap Z GameReceiver) : ids !! gr_tcpPort r = None → ids !! gr_udpPort r = None →
  let ids' := add_remote (gr_udpPort r) peer (add_remote (gr_tcpPort r) peer ids) in
  ids' !! gr_tcpPort r = Some peer ∧ ids' !! gr_udpPort r = Some peer ∧ ∀ p id, ids !! p = Some id → ids' !! p = Some id.
Proof.
  intros Ht Hu. cbv zeta. unfold add_remote. rewrite Ht.
  destruct (decide (gr_tcpPort r = gr_udpPort r)) as [E|E].
  - rewrite <- E, lookup_insert_eq. cbv iota. rewrite lookup_insert_eq. split_and!; [reflexivity..|].
    intros p id Hp. rewrite lookup_insert_ne by congruence. done.
  - rewrite (lookup_insert_ne _ _ (gr_udpPort r)) by done. rewrite Hu. cbv iota. rewrite lookup_insert_eq, lookup_insert_ne, lookup_insert_eq by done.
    split_and!; [reflexivity..|]. intros p id Hp. rewrite !lookup_insert_ne by congruence. done.
Qed.
Lemma ports_ok_receiver env peer g : ports_ok g → available env peer g →
  ports_ok (getGameReceiver bindAddress env peer g).2.
Proof.
  intros Hg Ha. unfold getGameReceiver. destruct (m_gameReceivers g !! peer) as [r|] eqn:E; [done|].
  destruct (Ha E) as [Ht Hu]. set (r := GameReceiver_make _ _ _).
  destruct (ports_ok_available (m_remotePlayerIds g) peer r (m_gameReceivers g) Ht Hu) as (H1 & H2 & H3).
  intros id q Hq. cbn [set_receivers m_gameReceivers m_remotePlayerIds snd] in *.
  apply lookup_insert_Some in Hq as [[<- <-]|[Hne Hq]]; [by split_and!|].
  destruct (Hg id q Hq) as (G1 & G2 & G3). split_and!; auto.
Qed.
Lemma ports_ok_enum env peer r g : ports_ok g → enum_available env peer g → m_gameReceivers g !! peer = Some r → ∀ port, 0 < port →
  let q := bindEnumerationPort port (env_enumBound env) r in
  ports_ok (set_receivers (<[peer := q]> (m_gameReceivers g)) (<[gr_enumPort q := peer]> (m_remotePlayerIds g)) g).
Proof.
  intros Hg He Hr port Hp q. destruct (Hg peer r Hr) as (R1 & R2 & _).
  assert (gr_enumPort q = env_enumBound env) as Eq by (unfold q, bindEnumerationPort; by rewrite (proj2 (Z.ltb_lt _ _) Hp)).
  rewrite Eq. intros id x Hx. cbn [set_receivers m_gameReceivers m_remotePlayerIds] in *.
  apply lookup_insert_Some in Hx as [[<- <-]|[Hne Hx]].
  - assert (∀ p, m_remotePlayerIds g !! p = Some peer → <[env_enumBound env := peer]> (m_remotePlayerIds g) !! p = Some peer) as Hk.
    { intros p H. destruct (decide (env_enumBound env = p)) as [<-|Hn]; [apply lookup_insert_eq|by rewrite lookup_insert_ne]. }
    split_and!; [by apply Hk|by apply Hk|]. intros _. rewrite Eq. apply lookup_insert_eq.
  - destruct (Hg id x Hx) as (G1 & G2 & G3), (He id x Hx ltac:(congruence)) as (E1 & E2 & E3).
    split_and!; [by rewrite lookup_insert_ne..|]. intros H. rewrite lookup_insert_ne by auto. auto.
Qed.
Lemma ports_ok_kill peer g : ports_ok g → ports_ok (killGameReceiver peer g).
Proof.
  intros Hg. unfold killGameReceiver. destruct (m_gameReceivers g !! peer) as [r|] eqn:E; [|done].
  intros id q Hq. cbn [set_receivers m_gameReceivers m_remotePlayerIds] in *. apply lookup_delete_Some in Hq as [Hne Hq].
  destruct (Hg peer r E) as (R1 & R2 & _). destruct (Hg id q Hq) as (G1 & G2 & G3).
  rewrite (proj2 (Nat.eqb_neq _ 1)).
  - split_and!; [..|intros H; specialize (G3 H)]; rewrite !lookup_delete_ne by congruence; done.
  - intros Hs. assert (delete peer (m_gameReceivers g) = ∅) as Hd
      by (apply map_size_empty_inv; rewrite map_size_delete_Some by done; lia).
    by rewrite <- (lookup_delete_ne _ peer) in Hq by done; rewrite Hd in Hq.
Qed.
Lemma handleTafnetMessage_ports env action peer data s :
  same_ports (getGameReceiver bindAddress env peer (getGameSender factoryAddress factoryEnumPort peer s.2).2).2
    (handleTafnetMessage factoryAddress factoryEnumPort bindAddress env action peer data s).2.2.
Proof.
  destruct s as [n g]. unfold handleTafnetMessage, game. rewrite (stx_bind_ok _ _ _ g (n, g)) by done. cbn [fst snd].
  destruct (getGameSender factoryAddress factoryEnumPort peer g) as [sender g1]. cbn [snd].
  destruct (getGameReceiver bindAddress env peer g1) as [receiver g2]. cbn [snd].
  rewrite (stx_bind_ok _ _ _ tt (n, g2)) by done. cbv zeta.
  match goal with |- same_ports _ (?m (n, g2)).2.2 => cut (leaves_ports m); [intros H; apply (H (n, g2))|] end.
  unfold output, put_sender. leaves.
Qed.

Lemma keys_known_receiver bound env peer g : keys_known bound g → keys_known bound (getGameReceiver bindAddress env peer g).2.
Proof.
  intros Hk. unfold getGameReceiver. destruct (m_gameReceivers g !! peer) as [r|] eqn:E; [done|]. set (r := GameReceiver_make _ _ _).
  assert (∀ p, (p ∈ bound ∨ ∃ id x, m_gameReceivers g !! id = Some x ∧ (p = gr_tcpPort x ∨ p = gr_udpPort x)) ∨ p = gr_tcpPort r ∨ p = gr_udpPort r →
    p ∈ bound ∨ ∃ id x, <[peer := r]> (m_gameReceivers g) !! id = Some x ∧ (p = gr_tcpPort x ∨ p = gr_udpPort x)) as Hold.
  { intros p [[H|(id & x & Hx & H)]|H]; [by left| |right; exists peer, r; by rewrite lookup_insert_eq].
    right. exists id, x. rewrite lookup_insert_ne by congruence. done. }
  intros p id Hp. cbn [set_receivers m_gameReceivers m_remotePlayerIds snd] in *. apply Hold. unfold add_remote in Hp.
  specialize (Hk p id). repeat case_match; rewrite ?lookup_insert_Some in Hp; naive_solver.
Qed.
Lemma keys_known_kill bound peer g : keys_known bound g → keys_known bound (killGameReceiver peer g).
Proof.
  intros Hk. unfold killGameReceiver. destruct (m_gameReceivers g !! peer) as [r|] eqn:E; [|done].
  intros p id Hp. cbn [set_receivers m_gameReceivers m_remotePlayerIds] in *.
  assert (p ≠ gr_tcpPort r ∧ p ≠ gr_udpPort r ∧ m_remotePlayerIds g !! p = Some id) as (Ht & Hu & Hp').
  { destruct (_ =? 1)%nat; [apply lookup_delete_Some in Hp as [_ Hp]|];
      apply lookup_delete_Some in Hp as [H1 Hp]; apply lookup_delete_Some in Hp as [H2 Hp]; by split_and!. }
  destruct (Hk p id Hp') as [H|(i & x & Hx & H)]; [by left|]. right. exists i, x. split; [|done].
  rewrite lookup_delete_ne; [done|]. intros <-. rewrite E in Hx. injection Hx as <-. tauto.
Qed.

(** the numbers bound for enumerations after a registration *)
Definition bound_by (env : environment) (enumPort : Z) (bound : list Z) : list Z :=
  if 0 <? enumPort then env_enumBound env :: bound else bound.
Lemma registerRemotePlayer_ports bound env peer enumPort n g :
  ports_ok g → keys_known bound g → available env peer g → (0 < enumPort → enum_available env peer g) →
  let g' := (registerRemotePlayer factoryAddress factoryEnumPort bindAddress env peer enumPort (n, g)).2.2 in
  ports_ok g' ∧ keys_known (bound_by env enumPort bound) g'.
Proof.
  intros Hg Hk Ha He. unfold registerRemotePlayer, on_game, modify. cbn [fst snd].
  pose proof (same_ports_sender peer g) as Hs. set (g1 := (getGameSender factoryAddress factoryEnumPort peer g).2) in *.
  assert (ports_ok g1) as Hg1 by (by rewrite <- Hs). assert (keys_known bound g1) as Hk1 by (by rewrite <- Hs). destruct Hs as [Hs1 Hs2].
  assert (available env peer g1) as Ha1 by (unfold available; by rewrite Hs1, Hs2).
  pose proof (ports_ok_receiver env peer g1 Hg1 Ha1) as Hg2. pose proof (keys_known_receiver bound env peer g1 Hk1) as Hk2.
  assert ((0 < enumPort → enum_available env peer (getGameReceiver bindAddress env peer g1).2) ∧
    m_gameReceivers (getGameReceiver bindAddress env peer g1).2 !! peer = Some (getGameReceiver bindAddress env peer g1).1) as [He2 Hr].
  { unfold enum_available, getGameReceiver. destruct (m_gameReceivers g1 !! peer) as [r|] eqn:E; cbn [snd fst].
    - split; [rewrite Hs1; exact He|exact E].
    - split; [|apply lookup_insert_eq]. cbn [set_receivers m_gameReceivers]. intros Hp id x Hx Hid.
      rewrite lookup_insert_ne in Hx by done. rewrite Hs1 in Hx. by apply (He Hp id x). }
  destruct (getGameReceiver bindAddress env peer g1) as [r g2]. cbn [fst snd] in *. unfold bound_by.
  destruct (Z.ltb_spec 0 enumPort) as [Hp|]; [|done]. split; [by apply (ports_ok_enum env peer r g2); auto|].
  assert (gr_enumPort (bindEnumerationPort enumPort (env_enumBound env) r) = env_enumBound env ∧
    gr_tcpPort (bindEnumerationPort enumPort (env_enumBound env) r) = gr_tcpPort r ∧
    gr_udpPort (bindEnumerationPort enumPort (env_enumBound env) r) = gr_udpPort r) as (Q1 & Q2 & Q3)
    by (unfold bindEnumerationPort; by rewrite (proj2 (Z.ltb_lt _ _) Hp)).
  intros p id H. cbn [set_receivers m_gameReceivers m_remotePlayerIds] in *. rewrite Q1 in H.
  apply lookup_insert_Some in H as [[<- _]|[_ H]]; [by left; left|]. destruct (Hk2 p id H) as [Hb|(i & x & Hx & Hp')]; [by left; right|].
  right. destruct (decide (i = peer)) as [->|Hi].
  - exists peer. eexists. rewrite lookup_insert_eq. split; [done|]. rewrite Q2, Q3. rewrite Hr in Hx. by injection Hx as <-.
  - exists i, x. by rewrite lookup_insert_ne.
Qed.

(** the operations of the node, whatever the system decides; beside the state the numbers
    that have been bound for enumerations *)
#[local] Abbreviation history := (TafnetNode * TafnetGameNode * list Z)%type.
Inductive node_step : history → history → Prop :=
  | Registers s bound env peer enumPort : system_ports env peer s.2 → no_coincidence bound env peer s.2 →
      (0 < enumPort → system_enum env peer s.2 ∧ no_enum_coincidence env peer s.2) →
      node_step (s, bound) ((registerRemotePlayer factoryAddress factoryEnumPort bindAddress env peer enumPort s).2, bound_by env enumPort bound)
  | Unregisters s bound peer : node_step (s, bound) ((unregisterRemotePlayer peer s).2, bound)
  | Hears s bound env action peer data : system_ports env peer s.2 → no_coincidence bound env peer s.2 →
      node_step (s, bound) ((handleTafnetMessage factoryAddress factoryEnumPort bindAddress env action peer data s).2, bound)
  | GameSpeaks s bound env localPort channel data : node_step (s, bound) ((handleGameData env localPort channel data s).2, bound)
  | TimerTicks s bound env : node_step (s, bound) ((processPendingEnumRequests factoryAddress factoryEnumPort env s).2, bound)
  | Invites s bound ids : node_step (s, bound) ((setPlayerInviteOrder ids s).2, bound)
  | Chats s bound src isPrivate nick chat : node_step (s, bound) ((messageToLocalPlayer src isPrivate nick chat s).2, bound).

Lemma same_ports_timer env s : same_ports s.2 (processPendingEnumRequests factoryAddress factoryEnumPort env s).2.2.
Proof.
  destruct s as [n g]. unfold processPendingEnumRequests, on_game, modify. cbn [fst snd].
  destruct (to_admit g) as [peer|]; [|by repeat case_match]. pose proof (same_ports_sender peer g) as [H1 H2].
  destruct (getGameSender factoryAddress factoryEnumPort peer g) as [sender g1].
  destruct (enumSessions _ _ _) as [[] outs]; repeat case_match; by split.
Qed.
Definition table_ok (h : history) : Prop := ports_ok h.1.2 ∧ keys_known h.2 h.1.2.
Lemma node_step_ports h h' : node_step h h' → table_ok h → table_ok h'.
Proof.
  intros H [Hg Hk]. unfold table_ok. destruct H as [[n g] bound env peer port Hs Hn He|[n g] bound peer|[n g] bound env action peer data Hs Hn
    |[n g] bound env port ch data|[n g] bound env|[n g] bound ids|[n g] bound src isPrivate nick chat]; cbn [fst snd] in *.
  - apply registerRemotePlayer_ports; [done..|by apply (ports_available bound)|]. intros Hp. destruct (He Hp). by apply ports_enum_available.
  - split; [by apply (ports_ok_kill peer)|by apply (keys_known_kill bound peer)].
  - pose proof (same_ports_sender peer g) as E. split; rewrite <- handleTafnetMessage_ports; cbn [snd].
    + apply ports_ok_receiver; [by rewrite <- E|]. apply (ports_available bound); by rewrite <- E.
    + apply keys_known_receiver. by rewrite <- E.
  - split; by rewrite <- (leaves_handleGameData env port ch data (n, g)).
  - split; by rewrite <- (same_ports_timer env (n, g)).
  - done.
  - unfold messageToLocalPlayer, on_game, modify. cbn [fst snd]. by case_match.
Qed.

(** C11: whatever happens to a new node, what the game sends to a port of a receiver goes
    to the player of that receiver, and the receivers of two players share no port.  Two
    things are asked of the ports that the system gives to a new receiver and for
    enumerations.  That different sockets of one protocol get different ports: the system
    sees to that.  And two coincidences are excluded, which the code does not exclude: that
    a number is the TCP port of one receiver and the UDP port of another, and that a new
    receiver gets a number that was bound for enumerations before ([udp_number_taken] and
    [leftover_port_taken] show that each of them does lead to the wrong player). *)
Theorem ports_lead_to_players (n : TafnetNode) (parser : option TAPacketParser) (occupied bound : list Z) (s : TafnetNode * TafnetGameNode) :
  rtc node_step ((n, TafnetGameNode_make parser occupied), []) (s, bound) →
  ports_ok s.2 ∧ ∀ id1 id2 r1 r2, m_gameReceivers s.2 !! id1 = Some r1 → m_gameReceivers s.2 !! id2 = Some r2 → id1 ≠ id2 →
    getListenPorts r1 ## getListenPorts r2.
Proof.
  intros H. assert (ports_ok s.2) as Hs.
  { change (ports_ok (s, bound).1.2). revert H. generalize (s, bound). intros h H.
    cut (table_ok h); [by intros [? _]|]. remember ((n, TafnetGameNode_make parser occupied), []) as h0 eqn:E.
    assert (table_ok h0) as H0 by (rewrite E; split; apply map_Forall_empty).
    clear E. induction H as [|h0 h1 h2 H1 H2 IH]; [done|]. by apply IH, (node_step_ports h0). }
  split; [done|]. intros id1 id2 r1 r2 H1 H2 Hne. destruct (Hs _ _ H1) as (A1 & A2 & _), (Hs _ _ H2) as (B1 & B2 & _).
  unfold getListenPorts. intros p Hp1 Hp2. set_unfold. destruct Hp1 as [->|[->|[]]], Hp2 as [E|[E|[]]]; rewrite E in *; congruence.
Qed.
End Ports.
(** the host 5 registers, and 6 sends a datagram of his game *)
Definition ex_env_ports (tcp udp : Z) : environment := mkEnv 0 true true tcp udp 47624 [] (0, 0).
Definition ex_new : TafnetNode * TafnetGameNode := (TafnetNode_make 7 true false 1400, TafnetGameNode_make None []).
Definition ex_hosted : TafnetNode * TafnetGameNode :=
  (registerRemotePlayer LocalHost 47624 LocalHost (ex_env_ports 4000 4001) 5 47624 ex_new).2.
Definition ex_joined : TafnetNode * TafnetGameNode :=
  (handleTafnetMessage LocalHost 47624 LocalHost (ex_env_ports 4002 4003) ACTION_UDP_DATA 6 [1] ex_hosted).2.
Lemma ports_lead_to_players_witness :
  map_to_list (m_remotePlayerIds ex_joined.2) ≡ₚ [(4000, 5); (4001, 5); (4002, 6); (4003, 6); (47624, 5)] ∧ ports_ok ex_joined.2.
Proof.
  split; [apply (bool_decide_eq_true_1 _); vm_compute; reflexivity|].
  refine (proj1 (ports_lead_to_players LocalHost 47624 LocalHost (TafnetNode_make 7 true false 1400) None [] [47624] ex_joined _)).
  apply rtc_l with (ex_hosted, [47624]); [|apply rtc_once].
  - apply (Registers LocalHost 47624 LocalHost ex_new [] (ex_env_ports 4000 4001) 5 47624).
    + intros _. apply map_Forall_empty.
    + intros _. split_and!; [apply not_elem_of_nil..|apply map_Forall_empty].
    + intros _. split; apply map_Forall_empty.
  - apply (Hears LocalHost 47624 LocalHost ex_hosted [47624] (ex_env_ports 4002 4003) ACTION_UDP_DATA 6 [1]);
      apply (bool_decide_eq_true_1 _); vm_compute; reflexivity.
Defined.

(** The two coincidences.  The TCP port of a new receiver has the number of the UDP port
    of another one: the table keeps the other player. *)
Theorem udp_number_taken : let s := (handleTafnetMessage LocalHost 47624 LocalHost (ex_env_ports 4001 4003) ACTION_UDP_DATA 6 [1] ex_hosted).2 in
  (gr_tcpPort <$> m_gameReceivers s.2 !! 6) = Some 4001 ∧ m_remotePlayerIds s.2 !! 4001 = Some 5.
Proof. split; vm_compute; reflexivity. Qed.
(** The host leaves while another player is there, and his enumeration port stays in the
    table; a new receiver that gets the number is taken for the host's. *)
Theorem leftover_port_taken : let s := (handleTafnetMessage LocalHost 47624 LocalHost (ex_env_ports 47624 4005) ACTION_UDP_DATA 8 [1] (unregisterRemotePlayer 5 ex_joined).2).2 in
  (gr_tcpPort <$> m_gameReceivers s.2 !! 8) = Some 47624 ∧ m_gameReceivers s.2 !! 5 = None ∧ m_remotePlayerIds s.2 !! 47624 = Some 5.
Proof. split_and!; vm_compute; reflexivity. Qed.
