(* ===== verification/GameReceiverSlots.v ===== *)
(** * The slots of a receiver (GameReceiver.cpp)

    A receiver listens with two servers and a UDP socket.  It accepts what connects, and
    gives what it reads to the handler that [TafnetGameNode::getGameReceiver] sets,
    [handleGameData].  What has connected but is not accepted, and what waits in a socket,
    is state that the system also changes. *)
From S2P Require Import Prelude ExceptState OrderedMaps TPacketCrypt TPacketCompress TPacketSplit TPacketSmartpak DuplicateDetection DPlayPacket GameAddressTranslater TAPacketParser DataBuffer TafnetNode GameSender TafnetGameNode TafnetGamePorts.

Record socket := mkSocket { so_id : Z; so_isTcp : bool; so_localPort : Z }.
#[export] Instance socket_eq_dec : EqDecision socket.
Proof. solve_decision. Defined.
(** the connections that wait at [m_tcpServer] and at [m_enumServer], and [m_sockets] *)
Record connections := mkConnections { c_tcpServer : list socket; c_enumServer : list socket; m_sockets : list socket }.

(** [newConnection] of either server; the TCP server is asked first *)
Definition onNewConnection (c : connections) : connections :=
  match c_tcpServer c with
  | s :: rest => mkConnections rest (c_enumServer c) (m_sockets c ++ [s])
  | [] =>
      match c_enumServer c with
      | s :: rest => mkConnections [] rest (m_sockets c ++ [s])
      | [] => c
      end
  end.
Fixpoint removeOne (s : socket) (l : list socket) : list socket :=
  match l with
  | [] => []
  | x :: l => if bool_decide (x = s) then l else x :: removeOne s l
  end.
Definition onSocketStateChanged (unconnected : bool) (sender : socket) (c : connections) : connections :=
  if unconnected then mkConnections (c_tcpServer c) (c_enumServer c) (removeOne sender (m_sockets c)) else c.

Section Slots.
Context (env : environment) (r : GameReceiver).
#[local] Abbreviation gn := (stx (TafnetNode * TafnetGameNode)).

(** [while (bytesAvailable()) ... readAll() ...]: [datas] are what the turns read *)
Definition onReadyReadTcp (sender : socket) (datas : list bytes) : gn unit :=
  caught (for_each datas (λ data,
    handleGameData env (so_localPort sender) (getChannelCodeFromSocket (so_isTcp sender) (so_localPort sender) r) (Some data))).
(** [while (hasPendingDatagrams())]; what an exception leaves unread stays pending *)
Fixpoint udp_loop (pending : list bytes) (s : TafnetNode * TafnetGameNode) : res unit * list bytes * (TafnetNode * TafnetGameNode) :=
  match pending with
  | [] => (Ok tt, [], s)
  | data :: pending =>
      match handleGameData env (gr_udpPort r) CHANNEL_UDP (Some data) s with
      | (Ok _, s) => udp_loop pending s
      | (e, s) => (e, pending, s)
      end
  end.
Definition onReadyReadUdp (pending : list bytes) (s : TafnetNode * TafnetGameNode) : res unit * list bytes * (TafnetNode * TafnetGameNode) :=
  match udp_loop pending s with (Throw _, pending, s) => (Ok tt, pending, s) | x => x end.

(** ** Connections *)

(** A signal for each connection that waits accepts them all, those of the TCP server
    first; none is lost because of which server has signalled. *)
Theorem all_accepted (c : connections) :
  Nat.iter (length (c_tcpServer c) + length (c_enumServer c)) onNewConnection c =
  mkConnections [] [] (m_sockets c ++ c_tcpServer c ++ c_enumServer c).
Proof.
  destruct c as [tcp enum sockets]. cbn [c_tcpServer c_enumServer m_sockets].
  revert sockets. induction tcp as [|s tcp IH]; intros sockets.
  - induction enum as [|s enum IH] in sockets |- *; [by rewrite !app_nil_r|].
    cbn [length Nat.add]. rewrite Nat.iter_succ_r. cbn. cbn [length Nat.add] in IH. by rewrite IH, <- app_assoc.
  - cbn [length Nat.add]. rewrite Nat.iter_succ_r. change (onNewConnection _) with (mkConnections tcp enum (sockets ++ [s])).
    by rewrite IH, <- app_assoc.
Qed.

(** ** Data *)
Lemma same_ports_slot sender datas s : same_ports s.2 (onReadyReadTcp sender datas s).2.2.
Proof.
  unfold onReadyReadTcp. enough (same_ports s.2 (for_each datas (λ data, handleGameData env (so_localPort sender)
    (getChannelCodeFromSocket (so_isTcp sender) (so_localPort sender) r) (Some data)) s).2.2) as H.
  { unfold caught. by destruct (for_each _ _ s) as [[] ?]. }
  revert s. induction datas as [|data datas IH]; intros s; [done|]. cbn [for_each].
  apply leaves_bind; [apply leaves_handleGameData|]. intros _ s'. apply IH.
Qed.
Lemma same_ports_udp pending s : same_ports s.2 (onReadyReadUdp pending s).2.2.
Proof.
  enough (same_ports s.2 (udp_loop pending s).2.2) as H.
  { unfold onReadyReadUdp. by destruct (udp_loop pending s) as [[[] ?] ?]. }
  revert s. induction pending as [|data pending IH]; intros s; [done|]. cbn [udp_loop].
  pose proof (leaves_handleGameData env (gr_udpPort r) CHANNEL_UDP (Some data) s) as H.
  destruct (handleGameData env (gr_udpPort r) CHANNEL_UDP (Some data) s) as [[[]|e| |] s']; [|exact H..].
  etransitivity; [exact H|]. apply IH.
Qed.

(** What the game sends to the ports of a player goes to this player, on the channel of the
    port: the table of ports and the channel codes fit together. *)
Theorem data_goes_to_its_player (peer : Z) (sender : socket) (data : bytes) (n : TafnetNode) (g : TafnetGameNode) :
  ports_ok g → m_gameReceivers g !! peer = Some r → peer ≠ 0 → data ≠ [] → m_gameTcpPort g ≠ 0 →
  (so_localPort sender = gr_enumPort r → gr_enumPort r ≠ 0 →
     onReadyReadTcp sender [data] (n, g) = caught (forward env peer ACTION_ENUM data) (n, g)) ∧
  (so_localPort sender = gr_tcpPort r → so_isTcp sender = true → gr_tcpPort r ≠ gr_enumPort r →
     onReadyReadTcp sender [data] (n, g) = caught (handle_tcp env peer data) (n, g)) ∧
  onReadyReadUdp [data] (n, g) =
    (let '(e, s) := caught (handle_udp env peer data) (n, g) in (e, [], s)).
Proof.
  intros Hg Hr Hp Hd Hport. destruct (Hg peer r Hr) as (Ht & Hu & He).
  assert (∀ port channel, m_remotePlayerIds g !! port = Some peer →
    handleGameData env port channel (Some data) (n, g) =
    (if channel =? CHANNEL_UDP then handle_udp env peer data
     else if channel =? CHANNEL_TCP then handle_tcp env peer data
     else if channel =? CHANNEL_ENUM then forward env peer ACTION_ENUM data else mret tt) (n, g)) as H.
  { intros port channel Hl. unfold handleGameData, game. rewrite stx_gets. cbn [snd]. rewrite Hl, (proj2 (Z.eqb_neq peer 0) Hp).
    destruct data as [|b data]; [done|]. cbn [length Nat.eqb orb]. rewrite (proj2 (Z.eqb_neq _ 0) Hport). by rewrite stx_ret_bind. }
  assert (∀ body : bytes → gn unit, for_each [data] body (n, g) = body data (n, g)) as H1.
  { intros body. cbn [for_each]. unfold mbind, stx_bind. by destruct (body data (n, g)) as [[[]| | |] ?]. }
  assert (∀ (m m' : gn unit) s, m s = m' s → caught m s = caught m' s) as Hc by (intros m m' s E; unfold caught; by rewrite E).
  split_and!.
  - intros E Hn. unfold onReadyReadTcp. apply Hc. rewrite H1, E, H by by apply He.
    unfold getChannelCodeFromSocket. by rewrite Z.eqb_refl.
  - intros E Hi Hn. unfold onReadyReadTcp. apply Hc. rewrite H1, E, H by done.
    unfold getChannelCodeFromSocket. by rewrite Hi, (proj2 (Z.eqb_neq _ _) Hn), Z.eqb_refl.
  - unfold onReadyReadUdp. cbn [udp_loop]. rewrite (H (gr_udpPort r) CHANNEL_UDP Hu). unfold caught. cbn [CHANNEL_UDP Z.eqb Pos.eqb].
    by destruct (handle_udp env peer data (n, g)) as [[[]| | |] ?].
Qed.
End Slots.
