(* ===== verification/TaLobby.v ===== *)
(** * The lobby of the application (TaLobby.cpp)

    It holds the node that talks to the peers, the node of the game, the monitor of the
    game and the client of the demo compiler, and does to them what the lobby server and
    the console say.  The parser and the node are those of the game node's model; what
    the parser announces goes to the monitor first and to the demo compiler then. *)
From S2P Require Import Prelude ExceptState OrderedMaps DuplicateDetection TAPacketParser GpgNetParse GpgNetStream GpgNetMessages QtText TaDemoCompilerMessages.
From S2P Require Import TaDemoCompilerClient DataBuffer TafnetNode GameMonitor GameEvents GameSender TafnetGameNode.
From coqutil Require Import Datatypes.RecordSetters.
Export RecordSetters.TriangleBracketNotations.
Open Scope record_set.
#[local] Open Scope Z_scope.

Definition TICKS_TO_GAME_START : Z := 1800.
Definition TICKS_TO_GAME_DRAW : Z := 60.

(** what [setPlayerStartPositions] writes to the memory that is shared with the recorder *)
Record StartPositionsShare := mkStartPositions { positionCount : Z; orderedPlayerNames : list bytes }.

Record TaLobby := mkLobby {
  tl_lobbyBindAddress : Z; tl_lobbyPortOverride : Z;
  tl_gameReceiveBindAddress : Z; tl_gameAddress : Z;
  tl_proactiveResendEnabled : bool; tl_maxPacketSize : Z;
  tl_pingTimer : bool; tl_pingInterval : Z;
  tl_proxy : option TafnetNode; tl_lobbyPort : Z;   (* the port that it is bound to *)
  tl_game : option TafnetGameNode;
  tl_packetParser : TAPacketParser;         (* until the game node has it *)
  tl_gameMonitor : GameMonitor2;            (* its handler is [GameEventsSignalQt] *)
  tl_demoClient : option TaDemoCompilerClient;
  tl_tafnetIdsByPlayerName : gmap bytes Z;
  tl_startPositions : option StartPositionsShare;
  tl_pingStats : list (gmap Z Z) }.         (* the signals [peerPingStats] *)

Abbreviation tl := (stx TaLobby).

Section Lobby.
Context `{Qt} `{QtText}.

(** a host that is not given stays as it is *)
Definition SplitHostAndPort (hostAndPort : bytes) (host port : Z) : Z * Z :=
  match split 58 hostAndPort with
  | [] => (host, port)
  | [h] => (ipv4 h, port)
  | h :: p :: _ => (ipv4 h, u16 (toInt_text p))
  end.
(** [junk]: the field of the monitor without a value *)
Definition TaLobby_make (lobbyBindAddress : bytes) (gameReceiveBindAddress gameAddress : Z) (proactiveResend : bool) (maxPacketSize : Z)
    (parser : TAPacketParser) (junk : Z) : TaLobby :=
  let '(address, port) := SplitHostAndPort lobbyBindAddress LocalHost 0 in
  mkLobby address port gameReceiveBindAddress gameAddress proactiveResend maxPacketSize false 3000 None 0 None parser
    (GameMonitor2_make true TICKS_TO_GAME_START TICKS_TO_GAME_DRAW junk) None ∅ None [].
Definition enableForwardToDemoCompiler (hasServer : bool) (tafGameId : Z) (l : TaLobby) : TaLobby :=
  l <| tl_demoClient := Some (TaDemoCompilerClient_make hasServer tafGameId) |>.
Definition getLocalPlayerDplayId (l : TaLobby) : Z := m_localDplayId (tl_gameMonitor l).
Definition setPeerPingInterval (milliseconds : Z) : tl unit := modify (λ l, l <| tl_pingInterval := milliseconds |>).

(** ** The objects it holds *)
Definition on_monitor (m : gm unit) : tl unit := λ l, let '(r, g) := m (tl_gameMonitor l) in (r, l <| tl_gameMonitor := g |>).
Definition on_demoClient (f : TaDemoCompilerClient → TaDemoCompilerClient) : tl unit := modify (λ l, l <| tl_demoClient ::= fmap f |>).
(** a call through the pointers to the nodes *)
Definition on_nodes (m : stx (TafnetNode * TafnetGameNode) unit) : tl unit := λ l,
  match tl_proxy l, tl_game l with
  | Some n, Some g => let '(r, (n, g)) := m (n, g) in (r, l <| tl_proxy := Some n |> <| tl_game := Some g |>)
  | _, _ => (Undef, l)
  end.
Definition set_tafnetId (playerAlias : bytes) (playerId : Z) : tl unit :=
  modify (λ l, l <| tl_tafnetIdsByPlayerName ::= <[playerAlias := u32 playerId]> |>).
Definition has_nodes (l : TaLobby) : bool := bool_decide (is_Some (tl_proxy l)) && bool_decide (is_Some (tl_game l)).

(** ** What the lobby server says *)
Definition onCreateLobby (occupiedTcp : list Z) (localPort : Z) (playerAlias playerRealName : bytes) (playerId : Z) : tl unit := caught (
  l ← gets id;
  if bool_decide (is_Some (tl_game l)) then mret tt
  else
    set_tafnetId playerAlias playerId ≫= λ _,
    on_monitor (GameMonitor.setHostPlayerName playerAlias) ≫= λ _,
    on_monitor (GameMonitor.setLocalPlayerName playerAlias) ≫= λ _,
    on_monitor (setPlayerRealName playerAlias playerRealName) ≫= λ _,
    on_demoClient (λ c, TaDemoCompilerClient.setLocalPlayerName playerAlias (TaDemoCompilerClient.setHostPlayerName playerAlias c)) ≫= λ _,
    modify (λ l, l <| tl_proxy := Some (TafnetNode_make (u32 playerId) false (tl_proactiveResendEnabled l) (tl_maxPacketSize l)) |>
                   <| tl_lobbyPort := if negb (tl_lobbyPortOverride l =? 0) then tl_lobbyPortOverride l else u16 localPort |>) ≫= λ _,
    modify (λ l, l <| tl_game := Some (TafnetGameNode_make (Some (tl_packetParser l)) occupiedTcp) |>) ≫= λ _,
    modify (λ l, l <| tl_pingTimer := true |>)).
(** [m_proxy->joinGame] and [connectToPeer], then [m_game->registerRemotePlayer] *)
Definition add_peer (env : environment) (add : Z → HostAndPort → Z → TafnetNode → res TafnetNode) (hostAndPort : bytes) (playerId enumPort : Z) : tl unit :=
  l ← gets id;
  on_nodes (on_node (add (env_now env) (SplitHostAndPort hostAndPort LocalHost 6112) (u32 playerId))) ≫= λ _,
  on_nodes (registerRemotePlayer (tl_gameAddress l) 47624 (tl_gameReceiveBindAddress l) env (u32 playerId) enumPort).
Definition onJoinGame (env : environment) (host playerAlias playerRealName : bytes) (playerId : Z) : tl unit := caught (
  l ← gets id;
  if negb (has_nodes l) then mret tt
  else
    set_tafnetId playerAlias playerId ≫= λ _,
    on_monitor (GameMonitor.setHostPlayerName playerAlias) ≫= λ _,
    on_monitor (setPlayerRealName playerAlias playerRealName) ≫= λ _,
    on_demoClient (TaDemoCompilerClient.setHostPlayerName playerAlias) ≫= λ _,
    add_peer env TafnetNode.joinGame host playerId 47624).
Definition onConnectToPeer (env : environment) (host playerAlias playerRealName : bytes) (playerId : Z) : tl unit := caught (
  l ← gets id;
  if negb (has_nodes l) then mret tt
  else
    set_tafnetId playerAlias playerId ≫= λ _,
    on_monitor (setPlayerRealName playerAlias playerRealName) ≫= λ _,
    add_peer env TafnetNode.connectToPeer host playerId 0).
Definition onDisconnectFromPeer (playerId : Z) : tl unit := caught (
  l ← gets id;
  if negb (has_nodes l) then mret tt
  else
    on_nodes (on_node (λ n, Ok (TafnetNode.disconnectFromPeer (u32 playerId) n))) ≫= λ _,
    on_nodes (unregisterRemotePlayer (u32 playerId))).

(** ** Chat from outside of the game *)

(** the id of any remote player *)
Definition remote_dplayId (g : GameMonitor2) : res Z :=
  match list_find (λ name, name ≠ m_localPlayerName g) (merge_sort text_le (elements (getPlayerNames true true (m_players g)))) with
  | Some (_, name) => p ← getPlayerData name g; Ok (pd_dplayid p)
  | None => Ok 0
  end.
Definition echoToGame (isPrivate : bool) (name chat : bytes) : tl unit :=
  if ends_with (str "[ingame]") name then mret tt
  else
    l ← gets id;
    dplayId ← lift (remote_dplayId (tl_gameMonitor l));
    on_nodes (messageToLocalPlayer dplayId isPrivate name chat).

(** ** The console *)
Definition getDplayIdFromTafnetId (tafnetId : Z) (l : TaLobby) : res Z :=
  let knownPlayerNames := getPlayerNames true false (m_players (tl_gameMonitor l)) in
  match list_find (λ name, tl_tafnetIdsByPlayerName l !! name = Some tafnetId ∧ name ∈ knownPlayerNames) (qmap_keys (tl_tafnetIdsByPlayerName l)) with
  | Some (_, name) => p ← getPlayerData name (tl_gameMonitor l); Ok (pd_dplayid p)
  | None => Ok 0
  end.
Definition getPlayerNameFromTafnetId (tafnetId : Z) (l : TaLobby) : bytes :=
  match list_find (λ name, tl_tafnetIdsByPlayerName l !! name = Some tafnetId) (qmap_keys (tl_tafnetIdsByPlayerName l)) with
  | Some (_, name) => name
  | None => []
  end.
(** [strncpy] to an array of 32 bytes whose last is then 0; an eleventh name is beyond the array *)
Definition setPlayerStartPositions (names : list bytes) : tl unit :=
  if (10 <? length names)%nat then lift Undef
  else modify (λ l, l <| tl_startPositions := Some (mkStartPositions (Z.of_nat (length names)) (take 31 ∘ c_str <$> names)) |>).
Definition onExtendedMessage (msg : bytes) : tl unit := caught (
  if starts_with (str "/launch") msg then
    match split 32 msg with
    | _ :: ids :: _ => on_nodes (setPlayerInviteOrder (toUInt_text <$> split 44 ids))
    | _ => mret tt
    end
  else if starts_with (str "/startpositions") msg then
    match split 32 msg with
    | _ :: ids :: _ =>
        l ← gets id;
        let names := filter (λ name, name ≠ []) ((λ s, getPlayerNameFromTafnetId (toUInt_text s) l) <$> split 44 ids) in
        match tl_game l with Some _ => setPlayerStartPositions names | None => lift Undef end
    | _ => mret tt
    end
  else mret tt).

(** ** The timer of the pings *)
Definition onPingTimer (now : Z) : tl unit := λ l,
  match tl_proxy l with
  | None => (Undef, l)
  | Some n =>
      let lags := getPingToPeers now n in
      let l := l <| tl_proxy := Some (sendPingToPeers now n) |> in
      (Ok tt, if bool_decide (lags = ∅) then l else l <| tl_pingStats ::= (λ s, s ++ [lags]) |>)
  end.

(** ** What the parser announces *)
Definition monitor_event (junk : Z) (e : event) : gm unit :=
  match e with
  | TAPacketParser.onDplaySuperEnumPlayerReply dplayId name _ _ => GameMonitor.onDplaySuperEnumPlayerReply dplayId name
  | TAPacketParser.onDplayCreateOrForwardPlayer command dplayId name _ _ => GameMonitor.onDplayCreateOrForwardPlayer command dplayId name
  | TAPacketParser.onDplayDeletePlayer dplayId => GameMonitor.onDplayDeletePlayer dplayId
  | TAPacketParser.onTaPacket source _ _ _ subpaks => GameMonitor.onTaPacket junk source subpaks
  end.
Definition demo_event (order : gset Z → list Z) (junk : Z) (e : event) : tl unit := λ l,
  match tl_demoClient l with
  | None => (Ok tt, l)
  | Some c => let '(r, c) := TaDemoCompilerClient.on_event order junk e c in (r, l <| tl_demoClient := Some c |>)
  end.
Definition parser_event (order : gset Z → list Z) (junk : Z) (e : event) : tl unit :=
  on_monitor (monitor_event junk e) ≫= λ _, demo_event order junk e.
End Lobby.
#[export] Instance TaLobby_Lobby `{QtText} : Lobby TaLobby := {|
  lobby_echoToGame := echoToGame; lobby_setPeerPingInterval := setPeerPingInterval |}.
