(* ===== verification/TaLobbyFacts.v ===== *)
(** * Theorems about the lobby of the application

    What the lobby server says connects the peers, and the lobby is one into which the
    handler of the game's status can talk. *)
From S2P Require Import Prelude ExceptState OrderedMaps DuplicateDetection TAPacketParser GpgNetParse GpgNetStream GpgNetMessages QtText.
From S2P Require Import TaDemoCompilerClient DataBuffer TafnetNode GameMonitor GameMonitorTeams GameMonitorSafety GameMonitorResults GameEvents GameEventsFacts GameSender TafnetGameNode TaLobby.
From coqutil Require Import Datatypes.RecordSetters.
#[local] Open Scope Z_scope.

(** ** The instructions of the lobby server *)
Section Peers.
Context `{Qt} `{QtText}.

(** what the server asks for, with its addresses *)
Inductive instruction : Type :=
  | I_Join (a b c d port : Z) (alias real : bytes) (id : Z)
  | I_Connect (a b c d port : Z) (alias real : bytes) (id : Z)
  | I_Disconnect (id : Z).
Definition host_text (a b c d port : Z) : bytes := dotted a b c d ++ 58 :: number port.
Definition to_message (i : instruction) : server_message :=
  match i with
  | I_Join a b c d port alias real id => SM_JoinGame (host_text a b c d port) alias real id
  | I_Connect a b c d port alias real id => SM_ConnectToPeer (host_text a b c d port) alias real id
  | I_Disconnect id => SM_DisconnectFromPeer id
  end.
Definition address_ok (a b c d port : Z) : Prop := is_byte a ∧ is_byte b ∧ is_byte c ∧ is_byte d ∧ 0 ≤ port < 65536.
Definition instruction_wf (i : instruction) : Prop :=
  match i with
  | I_Join a b c d port alias real id | I_Connect a b c d port alias real id =>
      address_ok a b c d port ∧ name_part alias ∧ name_part real ∧ is_s32 id
  | I_Disconnect id => is_s32 id
  end.
(** the peers that there should be *)
Definition peers_after (peers : gmap Z HostAndPort) (i : instruction) : gmap Z HostAndPort :=
  match i with
  | I_Join a b c d port _ _ id | I_Connect a b c d port _ _ id => <[u32 id := (((a * 256 + b) * 256 + c) * 256 + d, port)]> peers
  | I_Disconnect id => delete (u32 id) peers
  end.

Lemma host_ascii a b c d port : address_ok a b c d port → Forall ascii (host_text a b c d port) ∧ Z.of_nat (length (host_text a b c d port)) ≤ 4000.
Proof.
  intros (Ha & Hb & Hc & Hd & Hp). unfold is_byte in *. unfold host_text, dotted. split.
  - rewrite !Forall_app, !Forall_cons, !Forall_app, !Forall_cons, !Forall_app, !Forall_cons. split_and!; try (by apply number_ascii; lia); unfold ascii; lia.
  - assert (∀ x, 0 ≤ x < 65536 → (length (number x) ≤ 5)%nat) as Hn by (intros x Hx; apply number_length; [lia|change (10 ^ Z.of_nat 5) with 100000; lia]).
    repeat first [rewrite length_app | progress cbn [length]]. pose proof (Hn a). pose proof (Hn b). pose proof (Hn c). pose proof (Hn d). pose proof (Hn port). lia.
Qed.
Lemma message_of_wf i : instruction_wf i → message_wf (to_message i).
Proof. destruct i; cbn; intros Hi; [..|done]; destruct Hi as (Ha & Hn & Hr & Hid); split_and!; try done; by apply host_ascii. Qed.
Lemma split_host a b c d port h p : address_ok a b c d port →
  SplitHostAndPort (host_text a b c d port) h p = (((a * 256 + b) * 256 + c) * 256 + d, port).
Proof.
  intros (Ha & Hb & Hc & Hd & Hp). unfold is_byte in *. unfold SplitHostAndPort, host_text.
  assert (∀ x, 0 ≤ x → 58 ∉ number x) as Hn by (intros x Hx; apply number_no; [done|unfold QtText.digit; lia]).
  rewrite split_cons, split_one by (unfold dotted; rewrite ?not_elem_of_app, ?not_elem_of_cons, ?not_elem_of_app, ?not_elem_of_cons, ?not_elem_of_app, ?not_elem_of_cons;
    split_and?; try (apply Hn; lia); lia).
  rewrite ipv4_dotted by done. rewrite toInt_text_number by lia. unfold u16. by rewrite Z.mod_small by lia.
Qed.

(** ** What the lobby does *)
Definition steps (m : tl unit) (P Q : TaLobby → Prop) : Prop := ∀ l, P l → ∃ l', m l = (Ok tt, l') ∧ Q l'.
Lemma steps_bind m f P Q R : steps m P Q → steps (f tt) Q R → steps (m ≫= f) P R.
Proof.
  intros Hm Hf l Hl. destruct (Hm l Hl) as (l1 & E1 & H1). destruct (Hf l1 H1) as (l2 & E2 & H2). exists l2.
  by rewrite (stx_bind_ok _ _ _ _ _ E1).
Qed.
Lemma steps_caught m P Q : steps m P Q → steps (caught m) P Q.
Proof. intros Hm l Hl. destruct (Hm l Hl) as (l' & E & H'). exists l'. unfold caught. by rewrite E. Qed.
Lemma steps_get k P Q : (∀ l, P l → steps (k l) (λ l', l' = l) Q) → steps (gets id ≫= k) P Q.
Proof. intros Hk l Hl. exact (Hk l Hl l eq_refl). Qed.
(** the peers that the two nodes know *)
Definition peers_known (peers : gmap Z HostAndPort) (l : TaLobby) : Prop := ∃ n g,
  tl_proxy l = Some n ∧ tl_game l = Some g ∧ m_peerAddresses n = peers ∧
  dom (m_gameSenders g) = dom peers ∧ dom (m_gameReceivers g) = dom peers.
Lemma known_modify peers f : (∀ l, tl_proxy (f l) = tl_proxy l ∧ tl_game (f l) = tl_game l) → steps (modify f) (peers_known peers) (peers_known peers).
Proof. intros Hf l (n & g & H1 & H2 & H3). exists (f l). split; [done|]. destruct (Hf l) as [E1 E2]. exists n, g. by rewrite E1, E2. Qed.
Lemma known_monitor peers f : steps (on_monitor (modify f)) (peers_known peers) (peers_known peers).
Proof. intros l (n & g & H1 & H2 & H3). eexists. split; [done|]. by exists n, g. Qed.

Lemma forward_hello now peer n hp : m_peerAddresses n !! peer = Some hp → m_resendRates n !! peer = None → m_sendBuffer n !! peer = None →
  ∃ n', forwardGameData now peer ACTION_HELLO HELLO n = Ok n' ∧ m_peerAddresses n' = m_peerAddresses n.
Proof.
  intros Ha Hr Hs. unfold forwardGameData. rewrite Ha. change (ACTION_TCP_DATA <=? ACTION_HELLO) with true. cbv iota zeta.
  assert (rate_of n peer = ResendRate_init) as -> by (unfold rate_of, at_key; by rewrite Hr).
  set (n1 := put_rate peer ResendRate_init _). assert (rate_of n1 peer = ResendRate_init) as Hr1 by (unfold rate_of, at_key, n1, put_rate; cbn [set_rates m_resendRates]; by rewrite lookup_insert_eq).
  rewrite Hr1. assert (fragmentSize (Z.of_nat (length HELLO)) (rr_maxPacketSize ResendRate_init) (m_maxPacketSize n1) =
    Ok (Z.max (Z.min 5 (m_maxPacketSize n1)) 250)) as -> by reflexivity.
  rewrite res_bind_ok. assert (Z.max (Z.min 5 (m_maxPacketSize n1)) 250 = 250) as -> by lia. change (length HELLO) with 5%nat.
  cbn [fragment_loop]. change (0 <? 5)%nat with true. cbv iota. unfold resendRate. destruct (getResendRate true (rate_of n1 peer)) as [rate r].
  change (Nat.min (Z.to_nat 250) (5 - 0)) with 5%nat. change (5 <=? 0 + 5)%nat with true. cbv iota.
  destruct (DB_push_back _ _ _ _) as [seq b]. change (0 + Z.to_nat 250 <? 5)%nat with false. cbv iota. eexists. split; [reflexivity|].
  unfold sendMessage. by case_match.
Qed.
Lemma connect_peers now hp peer n : ∃ n', connectToPeer now hp peer n = Ok n' ∧ m_peerAddresses n' = <[peer := hp]> (m_peerAddresses n).
Proof.
  unfold connectToPeer. set (n1 := erase_buffers peer _).
  destruct (forward_hello now peer n1 hp) as (n' & E & Ha); [apply lookup_insert_eq|apply lookup_delete_eq..|]. by exists n'.
Qed.
Lemma join_peers now hp peer n : ∃ n', joinGame now hp peer n = Ok n' ∧ m_peerAddresses n' = <[peer := hp]> (m_peerAddresses n).
Proof. unfold joinGame. destruct (connect_peers now hp peer n) as (n1 & -> & E). rewrite res_bind_ok. by eexists. Qed.
Lemma register_doms fa fe ba env peer port n g : let g' := (registerRemotePlayer fa fe ba env peer port (n, g)).2.2 in
  dom (m_gameSenders g') = {[peer]} ∪ dom (m_gameSenders g) ∧ dom (m_gameReceivers g') = {[peer]} ∪ dom (m_gameReceivers g).
Proof.
  unfold registerRemotePlayer, on_game, modify. cbn [fst snd].
  set (g1 := (getGameSender fa fe peer g).2). assert (dom (m_gameSenders g1) = {[peer]} ∪ dom (m_gameSenders g) ∧ m_gameReceivers g1 = m_gameReceivers g) as [Hs1 Hr1].
  { unfold g1, getGameSender. destruct (m_gameSenders g !! peer) as [s|] eqn:E; cbn [snd set_senders m_gameSenders m_gameReceivers]; [|by rewrite dom_insert_L].
    split; [|done]. apply elem_of_dom_2 in E. set_solver. }
  assert (dom (m_gameReceivers (getGameReceiver ba env peer g1).2) = {[peer]} ∪ dom (m_gameReceivers g) ∧
    m_gameSenders (getGameReceiver ba env peer g1).2 = m_gameSenders g1) as [Hr2 Hs2].
  { unfold getGameReceiver. destruct (m_gameReceivers g1 !! peer) as [r|] eqn:E; cbn [snd set_receivers m_gameSenders m_gameReceivers].
    - split; [|done]. apply elem_of_dom_2 in E. rewrite Hr1 in *. set_solver.
    - split; [|done]. by rewrite dom_insert_L, Hr1. }
  destruct (getGameReceiver ba env peer g1) as [r g2]; cbn [snd] in *. case_match; cbn [set_receivers m_gameSenders m_gameReceivers].
  - split; [by rewrite Hs2, Hs1|]. rewrite dom_insert_L, Hr2. set_solver.
  - by rewrite Hs2, Hs1, Hr2.
Qed.
Lemma unregister_doms peer n g : let g' := (unregisterRemotePlayer peer (n, g)).2.2 in
  dom (m_gameSenders g') = dom (m_gameSenders g) ∖ {[peer]} ∧ dom (m_gameReceivers g') = dom (m_gameReceivers g) ∖ {[peer]}.
Proof.
  unfold unregisterRemotePlayer, on_game, modify, killGameReceiver, killGameSender, set_requests. cbn [fst snd set_senders m_gameSenders m_gameReceivers].
  destruct (m_gameReceivers g !! peer) as [r|] eqn:E; cbn [set_receivers m_gameSenders m_gameReceivers set_senders]; rewrite ?dom_delete_L; [done|].
  split; [done|]. apply not_elem_of_dom in E. set_solver.
Qed.
Lemma add_peer_known env add host id enumPort hp peers :
  (∀ n, ∃ n', add (env_now env) hp (u32 id) n = Ok n' ∧ m_peerAddresses n' = <[u32 id := hp]> (m_peerAddresses n)) →
  SplitHostAndPort host LocalHost 6112 = hp →
  steps (add_peer env add host id enumPort) (peers_known peers) (peers_known (<[u32 id := hp]> peers)).
Proof.
  intros Hadd Hhost l (n & g & H1 & H2 & H3 & H4 & H5). unfold add_peer. rewrite stx_gets. cbn [Datatypes.id]. rewrite Hhost.
  destruct (Hadd n) as (n' & E & Hn'). eassert (on_nodes (on_node (add (env_now env) hp (u32 id))) l = (Ok tt, _)) as E1.
  { unfold on_nodes. rewrite H1, H2. unfold on_node. cbn [fst snd]. rewrite E. reflexivity. }
  rewrite (stx_bind_ok _ _ _ _ _ E1). set (l1 := _ <| tl_game := _ |>). pose proof (register_doms (tl_gameAddress l) 47624 (tl_gameReceiveBindAddress l) env (u32 id) enumPort n' g) as [D1 D2].
  unfold on_nodes. change (tl_proxy l1) with (Some n'). change (tl_game l1) with (Some g). cbv iota.
  destruct (registerRemotePlayer _ _ _ env (u32 id) enumPort (n', g)) as [r [n2 g2]] eqn:Er. injection Er as Er1 Er2 Er3. subst r n2.
  cbn [snd] in D1, D2. eexists. split; [done|]. exists n', g2. split_and!; [done..|by rewrite Hn', H3|by rewrite D1, H4, dom_insert_L|by rewrite D2, H5, dom_insert_L].
Qed.
Lemma drop_peer_known id peers : steps (on_nodes (on_node (λ n, Ok (disconnectFromPeer (u32 id) n))) ≫= λ _, on_nodes (unregisterRemotePlayer (u32 id)))
  (peers_known peers) (peers_known (delete (u32 id) peers)).
Proof.
  intros l (n & g & H1 & H2 & H3 & H4 & H5). set (n' := disconnectFromPeer (u32 id) n).
  eassert (on_nodes (on_node (λ n, Ok (disconnectFromPeer (u32 id) n))) l = (Ok tt, _)) as E1 by (unfold on_nodes; rewrite H1, H2; reflexivity).
  rewrite (stx_bind_ok _ _ _ _ _ E1). set (l1 := _ <| tl_game := _ |>). pose proof (unregister_doms (u32 id) n' g) as [D1 D2].
  unfold on_nodes. change (tl_proxy l1) with (Some n'). change (tl_game l1) with (Some g). cbv iota.
  destruct (unregisterRemotePlayer (u32 id) (n', g)) as [r [n2 g2]] eqn:Er. injection Er as Er1 Er2 Er3. subst r n2.
  cbn [snd] in D1, D2. eexists. split; [done|]. exists n', g2. split_and!; [done..| |by rewrite D1, H4, dom_delete_L|by rewrite D2, H5, dom_delete_L].
  rewrite <- H3. done.
Qed.
Lemma known_has_nodes peers l : peers_known peers l → has_nodes l = true.
Proof. intros (n & g & H1 & H2 & _). unfold has_nodes. by rewrite H1, H2. Qed.

(** the signals of the client, at the lobby; the system decides anew each time *)
Definition lobby_signal (occupiedTcp : list Z) (s : environment * signal) : tl unit :=
  match s.2 with
  | createLobby _ localPort alias real id _ => onCreateLobby occupiedTcp localPort alias real id
  | GpgNetMessages.joinGame host alias real id => onJoinGame s.1 host alias real id
  | GpgNetMessages.connectToPeer host alias real id => onConnectToPeer s.1 host alias real id
  | GpgNetMessages.disconnectFromPeer id => onDisconnectFromPeer id
  | hostGame _ => mret tt
  end.
Definition lobby_signals (occupiedTcp : list Z) (ss : list (environment * signal)) : tl unit := for_each ss (lobby_signal occupiedTcp).
Definition signal_of (i : instruction) : signal :=
  match i with
  | I_Join a b c d port alias real id => GpgNetMessages.joinGame (host_text a b c d port) alias real id
  | I_Connect a b c d port alias real id => GpgNetMessages.connectToPeer (host_text a b c d port) alias real id
  | I_Disconnect id => GpgNetMessages.disconnectFromPeer id
  end.
Lemma steps_guarded (m : tl unit) P Q : (∀ l, P l → has_nodes l = true) → steps m P Q →
  steps (gets id ≫= λ l, if negb (has_nodes l) then mret tt else m) P Q.
Proof. intros Hn Hm l Hl. rewrite stx_gets. cbn [Datatypes.id]. rewrite (Hn l Hl). exact (Hm l Hl). Qed.
Lemma instruction_step occupied env i peers : instruction_wf i →
  steps (lobby_signal occupied (env, signal_of i)) (peers_known peers) (peers_known (peers_after peers i)).
Proof.
  intros Hi. destruct i as [a b c d port alias real id|a b c d port alias real id|id]; cbn [signal_of lobby_signal fst snd peers_after instruction_wf] in *.
  all: apply steps_caught, steps_guarded; [apply known_has_nodes|].
  - destruct Hi as (Ha & _). eapply steps_bind; [by apply known_modify|]. eapply steps_bind; [apply known_monitor|]. eapply steps_bind; [apply known_monitor|].
    eapply steps_bind; [by apply known_modify|]. apply add_peer_known; [intros n; apply join_peers|by apply split_host].
  - destruct Hi as (Ha & _). eapply steps_bind; [by apply known_modify|]. eapply steps_bind; [apply known_monitor|].
    apply add_peer_known; [intros n; apply connect_peers|by apply split_host].
  - apply drop_peer_known.
Qed.
Lemma instructions_run occupied is_ : Forall instruction_wf is_ → ∀ ss peers, ss.*2 = signal_of <$> is_ →
  steps (lobby_signals occupied ss) (peers_known peers) (peers_known (foldl peers_after peers is_)).
Proof.
  induction 1 as [|i is_ Hi His IH]; intros ss peers E; (destruct ss as [|[env s] ss]; [|try discriminate E]); try discriminate E.
  - intros l Hl. by exists l.
  - cbn [fmap list_fmap snd] in E. injection E as -> E. unfold lobby_signals. cbn [for_each foldl]. eapply steps_bind; [by apply instruction_step|by apply IH].
Qed.
Lemma create_known occupied localPort alias real id l : tl_game l = None →
  ∃ l', onCreateLobby occupied localPort alias real id l = (Ok tt, l') ∧ peers_known ∅ l'.
Proof.
  intros Hl. unfold onCreateLobby, caught. rewrite stx_gets. cbn [Datatypes.id]. rewrite bool_decide_false by (rewrite Hl; by intros [? [=]]).
  eexists. split; [reflexivity|]. eexists _, _. split; [reflexivity|]. split; [reflexivity|]. split; [reflexivity|]. by rewrite !dom_empty_L.
Qed.
Lemma told_signals is_ : concat (told <$> (to_message <$> is_)) = signal_of <$> is_.
Proof. induction is_ as [|i is_ IH]; [done|]. cbn [fmap list_fmap concat]. rewrite IH. by destruct i. Qed.
(** C12: what the lobby server says connects the peers: after the bytes of its messages,
    in whatever pieces they arrive, have been read by the client and handled by a new
    lobby, the node sends to exactly the players that were announced and not taken back,
    at the addresses and ports that the messages gave last, and the game node has a
    sender and a receiver for exactly these players. *)
Theorem server_connects_peers (l0 : TaLobby) (protocol localPort : Z) (alias real : bytes) (id nat_ : Z) (is_ : list instruction) (pieces : list bytes)
    (occupiedTcp : list Z) (ss : list (environment * signal)) :
  tl_game l0 = None → is_s32 protocol → is_s32 localPort → name_part alias → name_part real → is_s32 id → is_s32 nat_ → Forall instruction_wf is_ →
  concat pieces = concat (send <$> (encode <$> (SM_CreateLobby protocol localPort alias real id nat_ :: (to_message <$> is_)))) →
  ∃ c, onReadyReads pieces GpgNetClient_init = (Ok tt, c) ∧
  (ss.*2 = emitted (gc_heard c) → ∃ l n g, lobby_signals occupiedTcp ss l0 = (Ok tt, l) ∧ tl_proxy l = Some n ∧ tl_game l = Some g ∧
     m_peerAddresses n = foldl peers_after ∅ is_ ∧ dom (m_gameSenders g) = dom (m_peerAddresses n) ∧ dom (m_gameReceivers g) = dom (m_peerAddresses n)).
Proof.
  intros Hl Hp Hlp Ha Hr Hid Hnat His E. edestruct messages_heard as (p & Hc); [|exact E|].
  - apply Forall_cons. split; [done|]. apply Forall_fmap, (Forall_impl _ _ _ His), message_of_wf.
  - eexists. split; [exact Hc|]. cbn [gc_heard]. rewrite hears_emitted. cbn [fmap list_fmap concat told]. change (list_fmap ?A ?B told ?x) with (told <$> x).
    rewrite told_signals. cbn [app emitted]. intros Es. destruct ss as [|[env s] ss]; [discriminate Es|]. cbn [fmap list_fmap snd] in Es. injection Es as -> Es.
    destruct (create_known occupiedTcp localPort alias real id l0 Hl) as (l1 & E1 & Hk).
    destruct (instructions_run occupiedTcp is_ His ss ∅ Es l1 Hk) as (l & E2 & (n & g & H1 & H2 & H3 & H4 & H5)).
    exists l, n, g. split; [|by rewrite H3]. unfold lobby_signals. cbn [for_each]. by rewrite (stx_bind_ok _ _ _ _ _ E1).
Qed.
End Peers.

(** ** The console *)
Section Console.
Context `{Qt} `{QtText}.
(** the order in which the players shall join, as the console says it *)
Definition launch_text (ids : list Z) : bytes := str "/launch" ++ 32 :: GpgNetMessages.join 44 (number <$> ids).
Lemma numbers_free c ids : ¬ QtText.digit c → Forall is_u32 ids → Forall (λ a, c ∉ a) (number <$> ids).
Proof. intros Hc Hids. apply Forall_fmap, (Forall_impl _ _ _ Hids). intros x [Hx _]. by apply number_no. Qed.
Lemma numbers_read ids : Forall is_u32 ids → toUInt_text <$> (number <$> ids) = ids.
Proof. induction 1 as [|x ids Hx Hids IH]; [done|]. cbn [fmap list_fmap]. by rewrite toUInt_text_number, IH. Qed.
(** the console's order of joining becomes the order of the invitations, less the players
    that are not connected *)
Theorem launch_orders_invites (l : TaLobby) (n : TafnetNode) (g : TafnetGameNode) (ids : list Z) :
  tl_proxy l = Some n → tl_game l = Some g → ids ≠ [] → Forall is_u32 ids → ∃ l' g',
  onExtendedMessage (launch_text ids) l = (Ok tt, l') ∧ tl_game l' = Some g' ∧
  m_playerInviteOrder g' = filter (λ id, is_Some (m_gameSenders g !! id)) ids ∧ m_pendingEnumRequests g' = m_pendingEnumRequests g.
Proof.
  intros H1 H2 Hne Hids. unfold onExtendedMessage, caught, launch_text. rewrite starts_with_app.
  rewrite split_cons by (apply (bool_decide_eq_true_1 _); vm_compute; reflexivity).
  rewrite split_one by (apply join_no; [done|by destruct ids|apply numbers_free; [unfold QtText.digit; lia|done]]).
  rewrite split_join by (first [by destruct ids|apply numbers_free; [unfold QtText.digit; lia|done]]). rewrite numbers_read by done.
  unfold on_nodes. rewrite H1, H2. eexists _, _. split; [reflexivity|]. done.
Qed.
End Console.

(** ** The lobby that the handler of the game's status talks to *)
Section Ready.
Context `{QtText}.
Definition lobby_ready (l : TaLobby) : Prop :=
  is_Some (tl_proxy l) ∧ is_Some (tl_game l) ∧ players_ok (m_players (tl_gameMonitor l)).
Lemma name_known ps name : players_ok ps → name ∈ getPlayerNames true true ps → is_Some (ps !! getPlayerDpidByName name ps).
Proof.
  intros Hps Hn. unfold getPlayerNames in Hn. apply elem_of_list_to_set, list_elem_of_fmap in Hn as (p & -> & Hp).
  apply list_elem_of_filter in Hp as [_ Hp]. apply getPlayerDpidByName_known; [done|]. unfold getPlayerDpidByName.
  destruct (list_find (λ q, pd_name q = pd_name p) (in_map_order ps)) as [[i q]|] eqn:E.
  - apply list_find_Some in E as (Hi & _). apply list_elem_of_lookup_2, elem_of_in_map_order in Hi as (k & Hk). destruct (Hps _ _ Hk) as (-> & Hpos & _). lia.
  - exfalso. apply list_find_None in E. rewrite Forall_forall in E. by apply (E p Hp).
Qed.
Lemma remote_dplayId_ok g : players_ok (m_players g) → ∃ id, remote_dplayId g = Ok id.
Proof.
  intros Hg. unfold remote_dplayId. destruct (list_find _ _) as [[i name]|] eqn:E; [|by eexists]. apply list_find_Some in E as (Hi & _).
  apply list_elem_of_lookup_2 in Hi. rewrite merge_sort_Permutation, elem_of_elements in Hi. destruct (name_known _ _ Hg Hi) as (p & Hp).
  exists (pd_dplayid p). unfold getPlayerData, at_. by rewrite Hp.
Qed.
#[export] Instance lobby_works : LobbyWorks (W:=TaLobby) lobby_ready.
Proof.
  split.
  - intros isPrivate name chat l ((n & Hn) & (g & Hg) & Hps). cbn [lobby_echoToGame TaLobby_Lobby]. unfold echoToGame. case_match.
    + exists l. split; [done|]. split_and!; [by exists n|by exists g|done].
    + rewrite stx_gets. cbn [Datatypes.id]. destruct (remote_dplayId_ok _ Hps) as (d & ->). rewrite stx_lift_ok. unfold on_nodes. rewrite Hn, Hg.
      eexists. split; [reflexivity|]. split_and!; [by eexists|by eexists|exact Hps].
  - intros ms l Hl. eexists. split; [reflexivity|]. exact Hl.
Qed.
End Ready.

(** ** What the parser announces *)
Section Announced.
Context `{Qt} `{QtText}.
Definition event_input (junk : Z) (e : event) : monitor_input :=
  match e with
  | TAPacketParser.onDplaySuperEnumPlayerReply dplayId name _ _ => InEnumReply dplayId name
  | TAPacketParser.onDplayCreateOrForwardPlayer command dplayId name _ _ => InCreatePlayer command dplayId name
  | TAPacketParser.onDplayDeletePlayer dplayId => InDeletePlayer dplayId
  | TAPacketParser.onTaPacket source _ _ _ subpaks => InTaPacket junk source subpaks
  end.
Lemma monitor_event_handles junk e : monitor_event junk e = monitor_handle (event_input junk e).
Proof. by destruct e. Qed.
(** a lobby that records for nobody: what the parser announces never fails, and leaves the
    lobby ready *)
Lemma parser_event_ready order junk e l : tl_demoClient l = None → monitor_ok (tl_gameMonitor l) → input_ok (event_input junk e) = true →
  is_Some (tl_proxy l) → is_Some (tl_game l) → ∃ l', parser_event order junk e l = (Ok tt, l') ∧
  tl_demoClient l' = None ∧ monitor_ok (tl_gameMonitor l') ∧ lobby_ready l'.
Proof.
  intros Hd Hm Hi Hp Hg. unfold parser_event. rewrite monitor_event_handles.
  destruct (upholds_run [event_input junk e] ltac:(cbn [forallb]; by rewrite Hi) (tl_gameMonitor l) Hm) as ([] & g' & E & Hm' & _).
  assert (monitor_handle (event_input junk e) (tl_gameMonitor l) = (Ok tt, g')) as E1.
  { unfold monitor_run in E. cbn [for_each] in E. unfold mbind, stx_bind in E.
    destruct (monitor_handle (event_input junk e) (tl_gameMonitor l)) as [[[]| | |] g1]; try discriminate E. by injection E as ->. }
  eassert (on_monitor (monitor_handle (event_input junk e)) l = (Ok tt, _)) as E2 by (unfold on_monitor; rewrite E1; reflexivity).
  rewrite (stx_bind_ok _ _ _ _ _ E2). unfold demo_event. change (tl_demoClient (l <| tl_gameMonitor := g' |>)) with (tl_demoClient l). rewrite Hd.
  eexists. split; [reflexivity|]. split; [exact Hd|]. split; [exact Hm'|]. split; [exact Hp|]. split; [exact Hg|]. apply Hm'.
Qed.
End Announced.

(** ** An example *)
Definition ex_new_lobby : TaLobby :=
  TaLobby_make (H:=ex_qt) (H0:=ex_text) (str "127.0.0.1") LocalHost LocalHost false 1400 (mkParser DD_init ∅ 0) 500.
Definition ex_instructions : list instruction :=
  [I_Join 127 0 0 1 7001 (str "ann") (str "Ann") 5; I_Connect 127 0 0 1 7002 (str "eve") (str "Eve") 6; I_Connect 127 0 0 1 7003 (str "joe") (str "Joe") 7;
   I_Disconnect 6].
Definition ex_lobby_bytes : bytes :=
  concat (send <$> (encode <$> (SM_CreateLobby 0 6112 (str "bob") (str "Bob") 4 1 :: (to_message <$> ex_instructions)))).
Definition ex_lobby_signals : list (environment * signal) :=
  (λ s, (mkEnv 0 true true 50001 50002 47624 [] (0, 0), s)) <$>
    (createLobby 0 6112 (str "bob") (str "Bob") 4 1 :: (signal_of <$> ex_instructions)).
Lemma ex_name s : forallb (λ b, (0 <? b) && (b <? 128) && negb (b =? 47)) (str s) = true → (length (str s) <? 100)%nat = true → name_part (str s).
Proof.
  intros Hs Hl. rewrite forallb_forall in Hs. apply Nat.ltb_lt in Hl. split; [split; [|lia]|].
  - apply Forall_forall. intros b Hb%list_elem_of_In%Hs. apply andb_prop in Hb as [Hb _]. apply andb_prop in Hb as [H1 H2]. unfold ascii. lia.
  - intros Hb%list_elem_of_In%Hs. discriminate Hb.
Qed.
Lemma ex_instructions_wf : Forall instruction_wf ex_instructions.
Proof.
  unfold ex_instructions. repeat apply Forall_cons_2; try apply Forall_nil_2; cbn [instruction_wf]; unfold address_ok, is_byte, is_s32; split_and?; try lia.
  all: apply ex_name; reflexivity.
Qed.
Lemma server_connects_peers_witness : ∃ l n g, lobby_signals (H:=ex_qt) (H0:=ex_text) [] ex_lobby_signals ex_new_lobby = (Ok tt, l) ∧
  tl_proxy l = Some n ∧ tl_game l = Some g ∧ m_peerAddresses n = <[7 := (2130706433, 7003)]> {[5 := (2130706433, 7001)]} ∧ dom (m_gameSenders g) = {[5; 7]}.
Proof.
  destruct (server_connects_peers (H:=ex_qt) (H0:=ex_text) ex_new_lobby 0 6112 (str "bob") (str "Bob") 4 1 ex_instructions
    [take 30 ex_lobby_bytes; drop 30 ex_lobby_bytes] [] ex_lobby_signals) as (c & Hc & Hl).
  - reflexivity.
  - unfold is_s32. lia.
  - unfold is_s32. lia.
  - apply ex_name; reflexivity.
  - apply ex_name; reflexivity.
  - unfold is_s32. lia.
  - unfold is_s32. lia.
  - exact ex_instructions_wf.
  - cbn [concat]. rewrite app_nil_r. apply take_drop.
  - destruct Hl as (l & n & g & E & H1 & H2 & H3 & H4 & _).
    + assert (c = (onReadyReads (H:=ex_qt) [take 30 ex_lobby_bytes; drop 30 ex_lobby_bytes] GpgNetClient_init).2) as -> by (by rewrite Hc).
      vm_compute. reflexivity.
    + exists l, n, g. split; [exact E|]. split; [exact H1|]. split; [exact H2|]. rewrite H4, H3. split; [vm_compute; reflexivity|].
      apply (bool_decide_eq_true_1 _). vm_compute. reflexivity.
Defined.
