(* ===== verification/Gpgnet4ta.v ===== *)
(** * The application (gpgnet4ta.cpp)

    What [doMain] connects: the signals of the client of the lobby server go to the lobby
    and to the launcher, the console to both, the pings of the peers back to the lobby
    server, the chat channel into the game.  The signals of the game, from
    [GameEventsSignalQt] to the two handlers of GameEvents.v, are not part of the steps. *)
From S2P Require Import Prelude ExceptState OrderedMaps GpgNetParse GpgNetStream GpgNetMessages GpgNetReports QtText DuplicateDetection LaunchClient.
From S2P Require Import GpgNetGameLauncher GpgNetGameLauncherFacts GameMonitor GameEvents DataBuffer TafnetNode GameSender TafnetGameNode TaLobby TaLobbyFacts.
From coqutil Require Import Datatypes.RecordSetters.
#[local] Open Scope Z_scope.

Record App (I : Type) := mkApp {
  ap_launcher : GpgNetGameLauncher;
  ap_lobby : TaLobby;
  ap_irc : option I;                       (* [ircForward] *)
  ap_metrics : list (bytes * list Variant); (* the commands that [doMain] itself writes *)
  ap_quits : Z }.                          (* the calls of [quit] *)
Arguments mkApp {I}. Arguments ap_launcher {I}. Arguments ap_lobby {I}. Arguments ap_irc {I}. Arguments ap_metrics {I}. Arguments ap_quits {I}.

Section Application.
Context {I : Type} `{Qt} `{QtText} `{!IrcForward I}.
Abbreviation app := (stx (App I)).
(** the options of the command line, and the map tool *)
Context (autolaunch : bool) (mapDetails : bytes → bytes) (ircChannel : bytes) (occupiedTcp : list Z).

Definition on_ap_lobby (m : tl unit) : app unit := λ a, let '(r, l) := m (ap_lobby a) in (r, a <| ap_lobby := l |>).
(** what the new signals of the launcher do *)
Definition launcher_signalled (a : App I) (x : launcher_signal) : App I :=
  match x with
  | applicationStarted => a <| ap_irc ::= fmap (λ i, irc_open (irc_join ircChannel i)) |>
  | applicationTerminated | app_quit => a <| ap_quits ::= Z.succ |>
  end.
Definition on_ap_launcher (f : GpgNetGameLauncher → GpgNetGameLauncher) : app unit := modify (λ a,
  let s := f (ap_launcher a) in
  foldl launcher_signalled (a <| ap_launcher := s |>) (drop (length (gl_signals (ap_launcher a))) (gl_signals s))).
Definition autolaunched (w : World) : app unit := when autolaunch (on_ap_launcher (onStartApplication w)).

(** a signal of the client *)
Definition app_signal (env : environment) (w : World) (s : signal) : app unit :=
  match s with
  | createLobby _ _ playerAlias _ playerId _ =>
      on_ap_lobby (lobby_signal occupiedTcp (env, s)) ≫= λ _,
      on_ap_launcher (GpgNetGameLauncher.onCreateLobby playerAlias playerId)
  | hostGame mapName => on_ap_launcher (onHostGame w mapName (mapDetails mapName)) ≫= λ _, autolaunched w
  | GpgNetMessages.joinGame _ _ _ _ =>
      on_ap_lobby (lobby_signal occupiedTcp (env, s)) ≫= λ _, on_ap_launcher (GpgNetGameLauncher.onJoinGame w) ≫= λ _, autolaunched w
  | GpgNetMessages.connectToPeer _ _ _ _ | GpgNetMessages.disconnectFromPeer _ => on_ap_lobby (lobby_signal occupiedTcp (env, s))
  end.
(** the pings of the peers, as pairs *)
Definition ping_pairs (pings : gmap Z Z) : bytes :=
  GpgNetMessages.join 59 (omap (λ k, (λ v, number k ++ 58 :: number v) <$> pings !! k) (sorted_keys pings)).
Definition app_pingTimer (now : Z) : app unit := λ a,
  let '(r, l) := onPingTimer now (ap_lobby a) in
  let new := drop (length (tl_pingStats (ap_lobby a))) (tl_pingStats l) in
  (r, (a <| ap_lobby := l |>) <| ap_metrics ::= (λ cs, cs ++ concat ((λ p, gameMetrics (str "PlayerPings") (ping_pairs p)) <$> new)) |>).
Definition app_console (w : World) (text : bytes) : app unit :=
  on_ap_launcher (GpgNetGameLauncher.onExtendedMessage w text) ≫= λ _, on_ap_lobby (TaLobby.onExtendedMessage text).
(** [privateMessageReceived] *)
Definition app_irc (isPrivate : bool) (nick content : bytes) : app unit := caught (on_ap_lobby (echoToGame isPrivate nick content)).

(** the rest that happens to the launcher and to the lobby *)
Inductive app_input : Type :=
  | Ap_Signal (env : environment) (w : World) (s : signal)
  | Ap_Console (w : World) (text : bytes)
  | Ap_PingTimer (now : Z)
  | Ap_Irc (isPrivate : bool) (nick content : bytes)
  | Ap_Launcher (i : launcher_input)       (* its timers, and the launch server *)
  | Ap_Lobby (m : tl unit).                (* the sockets and timers of its nodes *)
Definition app_handle (i : app_input) : app unit :=
  match i with
  | Ap_Signal env w s => app_signal env w s
  | Ap_Console w text => app_console w text
  | Ap_PingTimer now => app_pingTimer now
  | Ap_Irc isPrivate nick content => app_irc isPrivate nick content
  | Ap_Launcher i => on_ap_launcher (launcher_handle i)
  | Ap_Lobby m => on_ap_lobby m
  end.
Definition app_run (inputs : list app_input) : app unit := for_each inputs app_handle.

(** ** The launcher in the application *)
Lemma launcher_of_signals a xs : ap_launcher (foldl launcher_signalled a xs) = ap_launcher a ∧ ap_lobby (foldl launcher_signalled a xs) = ap_lobby a.
Proof. revert a. induction xs as [|x xs IH]; intros a; [done|]. cbn [foldl]. destruct (IH (launcher_signalled a x)) as [-> ->]. by destruct x. Qed.
Definition lives (a : App I) : Prop := life (ap_launcher a).
Lemma lives_launcher f : (∀ s, life s → life (f s)) → keeps lives (on_ap_launcher f).
Proof. intros Hf. apply keeps_modify. intros a Ha. unfold lives. cbv zeta. rewrite (proj1 (launcher_of_signals _ _)). by apply Hf. Qed.
Lemma lives_lobby m : keeps lives (on_ap_lobby m).
Proof. intros a Ha. unfold on_ap_lobby. by destruct (m (ap_lobby a)). Qed.
Lemma lives_autolaunched w : keeps lives (autolaunched w).
Proof. apply keeps_when, lives_launcher. intros s. apply life_start. Qed.
#[local] Hint Resolve lives_lobby lives_autolaunched : keeps.
Lemma lives_handle i : keeps lives (app_handle i).
Proof.
  destruct i as [env w s|w text|now|p n c|i|m]; cbn [app_handle].
  - destruct s as [pr lp al re id na|mapName|ho al re id|ho al re id|id]; cbn [app_signal]; keeps_tac; apply lives_launcher; intros s.
    + apply (life_handle (In_CreateLobby al id)).
    + apply (life_handle (In_HostGame w mapName (mapDetails mapName))).
    + apply (life_handle (In_JoinGame w)).
  - unfold app_console. keeps_tac. apply lives_launcher. intros s. apply life_message.
  - intros a Ha. unfold app_pingTimer. by destruct (onPingTimer now (ap_lobby a)).
  - apply keeps_caught. keeps_tac.
  - apply lives_launcher. intros s. apply life_handle.
  - keeps_tac.
Qed.
(** in the whole application too, each stage of a game is reported once and in order *)
Theorem application_lives (inputs : list app_input) (a : App I) : lives a → lives (app_run inputs a).2.
Proof. intros Ha. apply (keeps_for_each lives inputs app_handle lives_handle a Ha). Qed.

(** ** The lobby in the application *)
Lemma signal_lobby env w s a r l : lobby_signal occupiedTcp (env, s) (ap_lobby a) = (r, l) → r = Ok tt →
  ∃ a', app_signal env w s a = (Ok tt, a') ∧ ap_lobby a' = l.
Proof.
  intros E ->. assert (on_ap_lobby (lobby_signal occupiedTcp (env, s)) a = (Ok tt, a <| ap_lobby := l |>)) as E1 by (unfold on_ap_lobby; by rewrite E).
  assert (∀ f a, ∃ a', on_ap_launcher f a = (Ok tt, a') ∧ ap_lobby a' = ap_lobby a) as Hl.
  { intros f b. eexists. split; [reflexivity|]. cbv zeta. by rewrite (proj2 (launcher_of_signals _ _)). }
  assert (∀ a, ∃ a', autolaunched w a = (Ok tt, a') ∧ ap_lobby a' = ap_lobby a) as Hauto.
  { intros b. unfold autolaunched, when. destruct autolaunch; [apply Hl|by exists b]. }
  destruct s as [pr lp al re id na|mapName|ho al re id|ho al re id|id]; cbn [app_signal].
  - rewrite (stx_bind_ok _ _ _ _ _ E1). destruct (Hl (GpgNetGameLauncher.onCreateLobby al id) (a <| ap_lobby := l |>)) as (a' & -> & Ha). by exists a'.
  - injection E as <-. destruct (Hl (onHostGame w mapName (mapDetails mapName)) a) as (a1 & E2 & H1). rewrite (stx_bind_ok _ _ _ _ _ E2).
    destruct (Hauto a1) as (a2 & -> & H2). exists a2. by rewrite H2, H1.
  - rewrite (stx_bind_ok _ _ _ _ _ E1). destruct (Hl (GpgNetGameLauncher.onJoinGame w) (a <| ap_lobby := l |>)) as (a1 & E2 & H1).
    rewrite (stx_bind_ok _ _ _ _ _ E2). destruct (Hauto a1) as (a2 & -> & H2). exists a2. by rewrite H2, H1.
  - rewrite E1. by eexists.
  - rewrite E1. by eexists.
Qed.
(** what the lobby makes of the signals of the lobby server, it makes of them in the
    application: [server_connects_peers] speaks of the application *)
Theorem application_signals (inputs : list (environment * World * signal)) : ∀ (a : App I) (l : TaLobby),
  lobby_signals occupiedTcp ((λ i, (i.1.1, i.2)) <$> inputs) (ap_lobby a) = (Ok tt, l) → ∃ a',
  app_run ((λ i, Ap_Signal i.1.1 i.1.2 i.2) <$> inputs) a = (Ok tt, a') ∧ ap_lobby a' = l.
Proof.
  unfold lobby_signals, app_run. induction inputs as [|[[env w] s] inputs IH]; intros a l E; cbn [fmap list_fmap for_each fst snd] in *; [by exists a; injection E as <-|].
  unfold mbind, stx_bind in E. destruct (lobby_signal occupiedTcp (env, s) (ap_lobby a)) as [r l1] eqn:E1. destruct r as [[]| | |]; try discriminate E.
  destruct (signal_lobby env w s a _ l1 E1 eq_refl) as (a1 & E2 & H1). cbn [app_handle]. rewrite (stx_bind_ok _ _ _ _ _ E2). apply IH. by rewrite H1.
Qed.
End Application.
